(* ===== verification/_CoqProject ===== *)
-Q . S2P
Prelude.v
GoStr.v
Types.v
CPUSet.v
Utils.v
Devices.v
DeviceManager.v
Hypervisor.v
State.v
Persist.v
Mounts.v
Files.v
Interfaces.v
Receiver.v
Resources.v
Container.v
Sandbox.v
Frame.v
Urunc.v
SandboxSpec.v
LifecycleSpec.v
StopSpec.v
CreateSpec.v
DeleteSpec.v
Mock.v
Runs.v
Oci.v
OciSpec.v
UruncCmd.v
Shim.v
ShimSpec.v
ShimProps.v
ShimRuns.v
Qemu.v
QemuSpec.v
Qmp.v
QmpCmd.v
QmpSpec.v
QemuArch.v
QemuVM.v
QemuVMSpec.v
QemuPlugSpec.v
QemuRuns.v
ClhModel.v
ClhApi.v
Virtiofsd.v
Clh.v
ClhSpec.v
ClhVMSpec.v
ClhPlugSpec.v
ClhRuns.v
