(* ===== verification/Prelude.v ===== *)
(** * Verification of the container runtime

    The program starts containers in virtual machines or as unikernels.  A shim
    (pkg/containerd-shim-v2) serves the calls of containerd; it turns the OCI
    specification of a container into a configuration (pkg/oci) and drives a
    sandbox.  A sandbox (sandbox.go) is one machine; it holds containers
    (container.go), gives them devices through the device manager (device/),
    sizes the machine from their limits, and talks to a hypervisor, to an agent
    in the guest, to the resource controllers and to a store on disk.  Paths
    below are under src/src/runtime/, and under virtcontainers/ there unless
    they begin with pkg/.

    ** Files

    - [Prelude]: machine integers, Go errors, the state and error monad [M],
      record update, and the combinators [stays], [gives] and [does] with which
      the proofs follow the structure of the code.  [GoStr]: strings, numbers
      and file paths of the Go library.
    - [Types] (types/): life cycle, volumes, sockets, bridges, PCI paths,
      capabilities, assets.  [CPUSet] (pkg/cpuset).  [Utils] (utils/, utils/retry).
    - [Devices] (device/config, device/drivers, device/api): drivers over a class
      [DeviceReceiver] with laws.  [DeviceManager] (device/manager).
    - [Hypervisor] (hypervisor.go): configuration.  [State]: the records of a
      sandbox and its containers, with a store [Mem] for what is shared through
      pointers and slices.  [Persist] (persist.go, persist/api).
    - [Mounts] (mount.go, utils/utils_linux.go, device/config/pmem.go): reading
      the host's files.  [Files]: copying trees (urunc_agent.go).
    - [Interfaces]: hypervisor, agent, sharing, controllers, store and operating
      system as classes of operations on a world [W].  [Receiver], [Resources],
      [Container] and [Sandbox]: the methods of container.go and sandbox.go, as
      computations on [Sys W].
    - [Frame]: what the methods leave alone, for any relation that allows the
      basic steps.  [Urunc] (urunc_agent.go, urunc_hypervisor.go, parts of
      network.go): an agent and a hypervisor that discharge the laws.
    - [SandboxSpec], [LifecycleSpec], [StopSpec], [CreateSpec], [DeleteSpec]:
      theorems about whole sandboxes.  [Mock] (mock_hypervisor.go, mock_agent.go)
      and [Runs]: concrete runs.
    - [Oci] and [OciSpec] (pkg/oci/utils.go): specifications and annotations.
      [UruncCmd] (pkg/containerd-shim-v2/urunc.go): the commands of unikernels.
    - [Shim] (pkg/containerd-shim-v2, pkg/katautils/create.go): the service as a
      step relation, one step for a call and for each move of a goroutine.
      [ShimSpec]: its invariant.  [ShimProps], [ShimRuns]: theorems and runs.
    - [Qemu] and [QemuSpec] (pkg/govmm/qemu/qemu.go): the devices of a machine and
      the command that starts it.  [Qmp] (qmp.go): the goroutines of the client of
      QEMU's control socket as a transition system, and [QmpSpec] its invariant;
      [QmpCmd]: the commands it sends, over what QEMU answers to each.
    - [QemuArch] (qemu_arch_base.go, qemu_amd64.go): the machine types, bridges and
      devices.  [QemuVM] (qemu.go): the hypervisor, from creating a machine to
      plugging and stopping.  [QemuVMSpec]: what the runtime knows about a machine
      against the commands QEMU confirmed.  [QemuPlugSpec]: single calls.
      [QemuRuns]: machines on a concrete host.
    - [ClhModel] and [ClhApi] (pkg/cloud-hypervisor/client): the structures of the
      Cloud Hypervisor API, with their JSON, and its requests.  [Virtiofsd]
      (virtiofsd.go, nydusd.go): the daemons that share directories.  [Clh]
      (clh.go): the hypervisor over both.  [ClhSpec]: its invariant.  [ClhVMSpec],
      [ClhPlugSpec]: starting, stopping, restoring, resizing and plugging.
      [ClhRuns]: machines on a concrete host.

    ** What is shown

    However a client calls a sandbox that was created, new or from the records of
    a consistent one, and wherever calls fail, devices and block indexes stay
    consistent; outside the unikernel hypervisor each call moves a state along at
    most one edge of the life cycle, and only where it aims; a forced stop succeeds if the state can be saved;
    creating a container is all or nothing, and deleting one removes it.  The
    device manager and drivers keep their invariant, and attaching and detaching
    are inverse.  Saved state comes back, except for what is listed.  Sizes are
    the sums of what containers ask for, on integers of the code's width.  CPU
    sets, PCI paths and parameters survive printing and parsing.  Copying a tree
    damages nothing outside its destination and is complete when no call is
    refused.  The programs and directories of the host an annotation may name are
    those on the administrator's lists.  Whatever calls
    a shim gets and however its goroutines are scheduled, exits are announced
    after starts, [Wait] answers announced codes, and the reported status is that
    of the sandbox; where a call keeps the mutex for ever is stated exactly.  The
    command that starts QEMU is a sequence of known options, its descriptor numbers
    are those of the files handed over, and its control socket carries one command
    at a time, each call getting the answer to its own.  Over every sequence of
    calls and whatever QEMU answers, the processors and the DIMMs the runtime
    counts are those QEMU confirmed, except for memory whose address could not be
    read; a drive that is plugged in sits where its PCI
    path says, and one that is refused leaves nothing behind.  Under Cloud Hypervisor the
    description of a machine always reads back from the JSON that is sent, a daemon
    is recorded only with a machine and under its own process, a start that
    succeeds went through the requests that create and boot the machine, and a
    stop that succeeds ended both processes.  Some theorems state where the code
    errs; PROJECT.json lists them.

    ** Conventions

    Code that cannot be read, and the host, are class arguments; what is relied
    on is in the [Laws] classes.  The order of [range] over a map and the growth
    of [append] are arguments too.  Methods run one at a time, as under the
    runtime's locks; in the shim a goroutine can run between two calls, and
    between any two of its own operations on channels.  In the QMP client a step
    is one meeting on a channel or one line.  A nil dereference or an index out of
    range is an error of its own; logging and tracing are left out.  A request over
    HTTP and an operation on the host are added to a history, and their answers
    are functions of it.

    Fuel: [GoStr] and [Utils] use the length of the text or path; the search for
    a mount point the length of the path; [Urunc] the longest path of the file
    system, which bounds the depth of a copy.  The theorems show that this is
    enough.  The CPU set parser can loop forever in the code; where it does, the
    model has no result, and [Resources] turns that into the error
    [ErrNoReturn].  The rounds of pings of Cloud Hypervisor are a number the host
    gives, as they end by the clock.

    ** Not modelled

    The network apart from the interfaces and routes given to a guest; the kata
    agent's requests; the Firecracker and ACRN drivers, and in the QEMU driver guest
    memory dumps, the loop that reads events and the user of a rootless machine,
    where the sharing daemon is an interface; the threads that watch virtiofsd and
    nydusd, and [parseExtraOption]; the machine factory; bind mounts; cgroup files;
    the command line tools and the configuration file.  They run processes, system
    calls or RPC, or are not translated yet.  In the shim: hooks, network
    namespaces, metrics, the forwarding of events, events for memory shortage and
    the timeout of a creation; a crash in the sandbox is an error there.  In newSandbox, failures of
    NewNetwork, NewFilesystemShare and the persist driver are left out.  A
    container has its own copy of its mounts, where the code shares the array
    with the configuration.  [Files] does not follow links in the middle of a
    path and has no devices, pipes or sockets. *)
From Stdlib Require Export ZArith Lia Ascii ssreflect.
From stdpp Require Export prelude strings gmap sorting.
From stdpp Require Export list.

#[global] Open Scope Z_scope.

Create Rewrite HintDb gostr.
Create HintDb virt.

(** ** Machine integers *)

(** Truncation to [w] unsigned bits and to 64 signed bits. *)
Definition wrapu (w x : Z) : Z := x mod 2 ^ w.
Definition u8 (x : Z) : Z := wrapu 8 x.
Definition u16 (x : Z) : Z := wrapu 16 x.
Definition u32 (x : Z) : Z := wrapu 32 x.
Definition u64 (x : Z) : Z := wrapu 64 x.
Definition i64 (x : Z) : Z := (x + 2 ^ 63) mod 2 ^ 64 - 2 ^ 63.

Definition maxUint32 : Z := 2 ^ 32 - 1.
Definition maxUint64 : Z := 2 ^ 64 - 1.
Definition maxInt64 : Z := 2 ^ 63 - 1.

(** ** Go errors

    The sentinel errors the code compares against or returns by name have a
    constructor of their own.  [Errorf fmt] stands for the errors built in
    place by [fmt.Errorf] or [errors.New] and carries their format string. *)
Inductive error : Type :=
| Errorf (fmt : string)
| ErrDeviceNotExist
| ErrDeviceNotAttached
| ErrRemoveAttachedDevice
| ErrIDExhausted
| ErrNeedSandbox
| ErrNeedSandboxID
| ErrNeedContainerID
| ErrNeedState
| ErrNoSuchContainer
| ErrSandboxNotRunning
| ErrNoGuestMemHotplug
| ErrExternal (what : string).

#[global] Instance error_eq_dec : EqDecision error.
Proof. solve_decision. Defined.

(** A dereference of nil, which panics. *)
Definition ErrNilDeref : error := ErrExternal "nil pointer dereference".

(** Result of a fallible call: Go's [(value, nil)] or [(_, err)]. *)
Inductive res (A : Type) : Type :=
| Ok (a : A)
| Err (e : error).
Arguments Ok {A} _.
Arguments Err {A} _.

#[global] Instance res_eq_dec `{EqDecision A} : EqDecision (res A).
Proof. solve_decision. Defined.

Definition is_ok {A} (r : res A) : bool :=
  match r with Ok _ => true | Err _ => false end.

#[global] Instance res_ret : MRet res := fun A a => Ok a.
#[global] Instance res_bind : MBind res := fun A B k m =>
  match m with Ok a => k a | Err e => Err e end.

Definition of_option {A} (e : error) (o : option A) : res A :=
  match o with Some a => Ok a | None => Err e end.

(** ** Stateful fallible code

    [M S A] is a method body on a receiver of type [S]: the state it leaves
    behind is returned on the error path as well, as a Go method keeps the
    writes it made before an early [return err]. *)
Definition M (S A : Type) : Type := S -> res A * S.

#[global] Instance M_ret {S} : MRet (M S) := fun A a s => (Ok a, s).
#[global] Instance M_bind {S} : MBind (M S) := fun A B k m s =>
  match m s with
  | (Ok a, s') => k a s'
  | (Err e, s') => (Err e, s')
  end.

Section Monad.
Context {S : Type}.

Definition get : M S S := fun s => (Ok s, s).
Definition put (s : S) : M S unit := fun _ => (Ok tt, s).
Definition modify (f : S -> S) : M S unit := fun s => (Ok tt, f s).
Definition gets {A} (f : S -> A) : M S A := fun s => (Ok (f s), s).
Definition throw {A} (e : error) : M S A := fun s => (Err e, s).
Definition lift {A} (r : res A) : M S A := fun s => (r, s).

(** [when b m]: an [if b { m }] without an else. *)
Definition when (b : bool) (m : M S unit) : M S unit :=
  if b then m else mret tt.

(** [try m]: run [m] and hand its error to the continuation instead of
    returning it ([err := m(); ...]). *)
Definition try {A} (m : M S A) : M S (res A) := fun s =>
  let '(r, s') := m s in (Ok r, s').

(** [on_error m c]: [defer func() { if err != nil { c() } }()] installed before
    [m]; the errors of the cleanup are logged and dropped. *)
Definition on_error {A} (m : M S A) (c : M S unit) : M S A := fun s =>
  match m s with
  | (Ok a, s') => (Ok a, s')
  | (Err e, s') => (Err e, (c s').2)
  end.

(** [finally m c]: [defer c()] with the cleanup run on both paths. *)
Definition finally {A} (m : M S A) (c : M S unit) : M S A := fun s =>
  let '(r, s') := m s in (r, (c s').2).

(** A [for _, x := range l { if err := f(x); err != nil { return err } }]. *)
Fixpoint for_each {A} (l : list A) (f : A -> M S unit) : M S unit :=
  match l with
  | [] => mret tt
  | x :: l' => f x ≫= fun _ => for_each l' f
  end.

End Monad.

(** ** Updating one field of a record

    [r <| f := v |>] and [r <| f ::= g |>], for the records that have an [Eta]
    instance listing their fields. *)
Class Eta (R : Type) : Type := eta : R -> R.
Class Update {R T : Type} (proj : R -> T) : Type := update : (T -> T) -> R -> R.
Arguments update {R T} proj {_} f r.

Ltac make_update proj :=
  let R := lazymatch type of proj with ?R -> _ => R end in
  let inst := constr:(_ : Eta R) in
  let e := eval hnf in inst in
  lazymatch eval pattern proj in e with
  | ?g proj =>
      let t := constr:(fun f : _ -> _ => g (fun r => f (proj r))) in
      let t := eval cbv beta in t in exact t
  end.

#[global] Hint Extern 1 (Update ?proj) => make_update proj : typeclass_instances.

Notation "r <| proj := v |>" := (update proj (fun _ => v) r)
  (at level 1, left associativity, format "r <| proj  :=  v |>").
Notation "r <| proj ::= f |>" := (update proj f r)
  (at level 1, left associativity, format "r <| proj  ::=  f |>").

(** ** Ranging over a map

    Go leaves the iteration order of [for k, v := range m] unspecified.  The
    model takes the order as an argument: any enumeration of the bindings. *)
Class GoRange : Type := {
  range_map : forall {K A : Type} `{Countable K}, gmap K A -> list (K * A);
  range_map_perm : forall {K A : Type} `{Countable K} (m : gmap K A),
    range_map m ≡ₚ map_to_list m;
}.

(** One such order, for the concrete runs. *)
Definition range_default : GoRange :=
  {| range_map := fun K A _ _ m => map_to_list m;
     range_map_perm := fun K A _ _ m => Permutation_refl _ |}.

(** ** First free index of a counting loop

    [for i := lo; i < lo + n; i++ { if !used(i) { return i } }]. *)
Fixpoint first_free (used : Z -> bool) (i : Z) (n : nat) : option Z :=
  match n with
  | O => None
  | S n' => if used i then first_free used (i + 1) n' else Some i
  end.

(** ** Tactics *)

(** Case analysis on the tests of a decidable condition in the goal. *)
Ltac go_case :=
  repeat (case_match || case_decide || case_bool_decide); simplify_eq/=.

(** Unfold the monad and reduce. *)
Ltac munfold :=
  unfold mbind, mret, M_bind, M_ret, res_bind, res_ret, get, put, modify, gets, throw,
    lift, when, try, on_error, finally in *.

(** Split a conjunction of booleans. *)
Ltac bool_to_prop :=
  repeat match goal with
  | H : _ && _ = true |- _ => apply andb_true_iff in H as [? ?]
  | H : _ || _ = false |- _ => apply orb_false_iff in H as [? ?]
  | H : negb _ = true |- _ => apply negb_true_iff in H
  | H : negb _ = false |- _ => apply negb_false_iff in H
  | H : bool_decide _ = true |- _ => apply bool_decide_eq_true in H
  | H : bool_decide _ = false |- _ => apply bool_decide_eq_false in H
  | H : (_ <? _) = true |- _ => apply Z.ltb_lt in H
  | H : (_ <? _) = false |- _ => apply Z.ltb_ge in H
  | H : (_ <=? _) = true |- _ => apply Z.leb_le in H
  | H : (_ <=? _) = false |- _ => apply Z.leb_gt in H
  | H : (_ =? _) = true |- _ => apply Z.eqb_eq in H
  | H : (_ =? _) = false |- _ => apply Z.eqb_neq in H
  end.

(** ** Shared lemmas *)

Lemma first_free_Some used i n r :
  first_free used i n = Some r ->
  i <= r < i + Z.of_nat n /\ used r = false /\ forall j, i <= j < r -> used j = true.
Proof.
  revert i. induction n as [|n IH]; intros i; simpl; [done|].
  destruct (used i) eqn:E.
  - intros (Hr & Hu & Hall)%IH. split_and!; [lia|lia|done|].
    intros j Hj. destruct (decide (j = i)) as [->|]; [done|]. apply Hall. lia.
  - intros [= <-]. split_and!; [lia|lia|done|lia].
Qed.

Lemma first_free_None used i n :
  first_free used i n = None <-> forall j, i <= j < i + Z.of_nat n -> used j = true.
Proof.
  revert i. induction n as [|n IH]; intros i; simpl; [split; [lia|done]|].
  destruct (used i) eqn:E.
  - rw IH. split; intros Hall j Hj; [|apply Hall; lia].
    destruct (decide (j = i)) as [->|]; [done|]. apply Hall. lia.
  - split; [done|]. intros Hall. by rw Hall in E; [lia|].
Qed.

Lemma wrapu_small w x : 0 <= x < 2 ^ w -> wrapu w x = x.
Proof. apply Z.mod_small. Qed.

Lemma wrapu_range w x : 0 <= w -> 0 <= wrapu w x < 2 ^ w.
Proof. intros. apply Z.mod_pos_bound. by apply Z.pow_pos_nonneg. Qed.

Lemma u32_small x : 0 <= x <= maxUint32 -> u32 x = x.
Proof. unfold maxUint32. intros. apply wrapu_small. lia. Qed.

Lemma u64_small x : 0 <= x <= maxUint64 -> u64 x = x.
Proof. unfold maxUint64. intros. apply wrapu_small. lia. Qed.

Lemma i64_small x : - 2 ^ 63 <= x < 2 ^ 63 -> i64 x = x.
Proof. intros. unfold i64. rw Z.mod_small; lia. Qed.

#[export] Hint Resolve u32_small u64_small wrapu_small : virt.

Lemma elem_of_range_map `{GoRange} `{Countable K} {A} (m : gmap K A) k v :
  (k, v) ∈ range_map m <-> m !! k = Some v.
Proof. rw range_map_perm. apply elem_of_map_to_list. Qed.

(** A range loop whose body appends to the state and cannot fail. *)
Lemma for_each_app {S A} (l1 l2 : list A) (f : A -> M S unit) (s : S) :
  for_each (l1 ++ l2) f s =
  match for_each l1 f s with (Ok _, s') => for_each l2 f s' | r => r end.
Proof.
  revert s. induction l1 as [|x l1 IH]; intros s; simpl; [done|].
  munfold. destruct (f x s) as [[u|e] s'] eqn:E; [apply IH|done].
Qed.

(** A loop that appends to a slice. *)
Lemma foldl_append {A B} (f : list B -> A -> list B) (g : A -> list B) (l : list A) acc :
  Forall (fun x => forall acc, f acc x = acc ++ g x) l -> foldl f acc l = acc ++ (l ≫= g).
Proof.
  intros Hl. revert acc. induction Hl as [|x l Hx _ IH]; intros acc; simpl; [by rw app_nil_r|].
  by rw IH Hx -app_assoc.
Qed.

(** ** What a call leaves behind

    [stays R m]: whatever its result, [m] ends in a state related to its start
    by the preorder [R].  Frame properties take for [R] the equality of some
    fields, invariants the relation [keeps I]. *)
Definition stays {S A} (R : relation S) (m : M S A) : Prop := forall s, R s (m s).2.

Definition keeps {S} (I : S -> Prop) : relation S := fun s s' => I s -> I s'.

#[global] Instance keeps_preorder {S} (I : S -> Prop) : PreOrder (keeps I).
Proof. unfold keeps. split; [intros s; auto|intros s1 s2 s3; auto]. Qed.

Section Stays.
Context {S : Type} (R : relation S) `{!PreOrder R}.

Lemma stays_same {A} (m : M S A) : (forall s, (m s).2 = s) -> stays R m.
Proof. intros Hm s. by rw Hm. Qed.
Lemma stays_ret {A} (a : A) : stays R (mret a).
Proof. by apply stays_same. Qed.
Lemma stays_get : stays R get.
Proof. by apply stays_same. Qed.
Lemma stays_gets {A} (f : S -> A) : stays R (gets f).
Proof. by apply stays_same. Qed.
Lemma stays_throw {A} e : stays R (throw e : M S A).
Proof. by apply stays_same. Qed.
Lemma stays_lift {A} (r : res A) : stays R (lift r).
Proof. by apply stays_same. Qed.
Lemma stays_modify (f : S -> S) : (forall s, R s (f s)) -> stays R (modify f).
Proof. intros Hf s. apply Hf. Qed.
Lemma stays_bind {A B} (m : M S A) (k : A -> M S B) :
  stays R m -> (forall a, stays R (k a)) -> stays R (m ≫= k).
Proof.
  intros Hm Hk s. specialize (Hm s). munfold. destruct (m s) as [[a|e] s']; [|done].
  etrans; [exact Hm|apply Hk].
Qed.
Lemma stays_when b (m : M S unit) : (b = true -> stays R m) -> stays R (when b m).
Proof. intros Hm. destruct b; [by apply Hm|apply stays_ret]. Qed.
Lemma stays_try {A} (m : M S A) : stays R m -> stays R (try m).
Proof. intros Hm s. specialize (Hm s). unfold try. by destruct (m s). Qed.
Lemma stays_on_error {A} (m : M S A) c : stays R m -> stays R c -> stays R (on_error m c).
Proof.
  intros Hm Hc s. specialize (Hm s). unfold on_error.
  destruct (m s) as [[a|e] s']; [done|]. etrans; [exact Hm|apply Hc].
Qed.
Lemma stays_finally {A} (m : M S A) c : stays R m -> stays R c -> stays R (finally m c).
Proof.
  intros Hm Hc s. specialize (Hm s). unfold finally. destruct (m s) as [r s'].
  etrans; [exact Hm|apply Hc].
Qed.
Lemma stays_for_each {A} (l : list A) f : (forall x, x ∈ l -> stays R (f x)) -> stays R (for_each l f).
Proof.
  induction l as [|x l IH]; intros Hf; simpl; [apply stays_ret|].
  apply stays_bind; [apply Hf; by left|]. intros _. apply IH. intros y Hy. apply Hf. by right.
Qed.
End Stays.

(** Reduce a [stays] goal along the structure of the code; what is left is
    looked up in the hint database. *)
Ltac stays_step :=
  lazymatch goal with
  | |- stays _ (mret _) => apply stays_ret; apply _
  | |- stays _ get => apply stays_get; apply _
  | |- stays _ (gets _) => apply stays_gets; apply _
  | |- stays _ (throw _) => apply stays_throw; apply _
  | |- stays _ (lift _) => apply stays_lift; apply _
  | |- stays _ (_ ≫= _) => apply stays_bind; [apply _| |intros ?]
  | |- stays _ (when _ _) => apply stays_when; [apply _|intros ?]
  | |- stays _ (try _) => apply stays_try
  | |- stays _ (on_error _ _) => apply stays_on_error; [apply _| |]
  | |- stays _ (finally _ _) => apply stays_finally; [apply _| |]
  | |- stays _ (for_each _ _) => apply stays_for_each; [apply _|intros ? ?]
  | |- stays _ (match ?x with _ => _ end) => destruct x eqn:?
  | |- stays _ _ => solve [eauto with stays]
  end.
Create HintDb stays.
Ltac stays := repeat (stays_step; try done).

(** [gives P m]: whenever [m] succeeds, its result and its final state satisfy [P]. *)
Definition gives {S A} (P : A -> S -> Prop) (m : M S A) : Prop := forall s a s', m s = (Ok a, s') -> P a s'.

Lemma gives_ret {S A} (P : A -> S -> Prop) a : (forall s, P a s) -> gives P (mret a : M S A).
Proof. by intros Ha s a' s' [= <- <-]. Qed.
Lemma gives_throw {S A} (P : A -> S -> Prop) e : gives P (throw e : M S A).
Proof. by intros s a s' [=]. Qed.
Lemma gives_bind {S A B} (P : B -> S -> Prop) (m : M S A) (k : A -> M S B) :
  (forall a, gives P (k a)) -> gives P (m ≫= k).
Proof.
  intros Hk s b s'. unfold mbind, M_bind. destruct (m s) as [[a|e] s1]; [|by intros [=]]. apply Hk.
Qed.
Lemma gives_chain {S A B} (Q : A -> Prop) (P : B -> S -> Prop) (m : M S A) (k : A -> M S B) :
  gives (fun a _ => Q a) m -> (forall a, Q a -> gives P (k a)) -> gives P (m ≫= k).
Proof.
  intros Hm Hk s b s'. unfold mbind, M_bind. destruct (m s) as [[a|e] s1] eqn:E; [|by intros [=]].
  eapply Hk, Hm, E.
Qed.
Lemma gives_on_error {S A} (P : A -> S -> Prop) (m : M S A) c : gives P m -> gives P (on_error m c).
Proof.
  intros Hm s a s'. unfold on_error. destruct (m s) as [[b|e] s1] eqn:E.
  - intros [= <- <-]. by eapply Hm.
  - done.
Qed.
(** What was established lasts through the rest. *)
Lemma gives_then {S A B} (P : S -> Prop) (m : M S A) (k : A -> M S B) :
  gives (fun _ => P) m -> (forall a, stays (keeps P) (k a)) -> gives (fun _ => P) (m ≫= k).
Proof.
  intros Hm Hk s b s'. unfold mbind, M_bind. destruct (m s) as [[a|e] s1] eqn:E; [|by intros [=]].
  intros E'. specialize (Hk a s1). rw E' in Hk. eapply Hk, Hm, E.
Qed.

(** [does P m]: [m] always succeeds and ends in a state that satisfies [P]. *)
Definition does {S A} (P : S -> Prop) (m : M S A) : Prop := forall s, exists a s', m s = (Ok a, s') /\ P s'.

Section Does.
Context {S : Type} (P : S -> Prop).

Lemma does_weaken {A} (Q : S -> Prop) (m : M S A) : (forall s, Q s -> P s) -> does Q m -> does P m.
Proof. intros HQP Hm s. destruct (Hm s) as (a & s' & E & HQ). exists a, s'. auto. Qed.
Lemma does_unit (m : M S unit) s : does P m -> exists s', m s = (Ok tt, s') /\ P s'.
Proof. intros Hm. destruct (Hm s) as ([] & s' & E & HP). by exists s'. Qed.
Lemma does_unit_stays (R : relation S) (m : M S unit) s :
  does P m -> stays R m -> exists s', m s = (Ok tt, s') /\ P s' /\ R s s'.
Proof.
  intros Hm HR. destruct (Hm s) as ([] & s' & E & HP). specialize (HR s). rw E in HR. by exists s'.
Qed.
Lemma does_ret {A} (a : A) : (forall s, P s) -> does P (mret a).
Proof. intros HP s. by exists a, s. Qed.
Lemma does_gets {A} (f : S -> A) : (forall s, P s) -> does P (gets f).
Proof. intros HP s. by exists (f s), s. Qed.
Lemma does_modify (f : S -> S) : (forall s, P (f s)) -> does P (modify f).
Proof. intros HP s. by exists tt, (f s). Qed.
Lemma does_try {A} (m : M S A) : (forall s, P s) -> does P (try m).
Proof. intros HP s. unfold try. destruct (m s) as [r s']. by exists r, s'. Qed.
Lemma does_bind {A B} (m : M S A) (k : A -> M S B) :
  does (fun _ => True) m -> (forall a, does P (k a)) -> does P (m ≫= k).
Proof.
  intros Hm Hk s. destruct (Hm s) as (a & s1 & E & _). destruct (Hk a s1) as (b & s2 & E2 & HP).
  exists b, s2. split; [|done]. unfold mbind, M_bind. by rw E.
Qed.
(** What follows does not undo what was done. *)
Lemma does_then {A B} (m : M S A) (k : A -> M S B) :
  does P m -> (forall a, does (fun _ => True) (k a)) -> (forall a, stays (keeps P) (k a)) -> does P (m ≫= k).
Proof.
  intros Hm Hk Hkeep s. destruct (Hm s) as (a & s1 & E & HP). destruct (Hk a s1) as (b & s2 & E2 & _).
  specialize (Hkeep a s1 HP). rw E2 in Hkeep. exists b, s2. split; [|done]. unfold mbind, M_bind. by rw E.
Qed.
Lemma does_finally {A} (m : M S A) c : does P m -> stays (keeps P) c -> does P (finally m c).
Proof.
  intros Hm Hc s. destruct (Hm s) as (a & s1 & E & HP). specialize (Hc s1 HP). unfold finally. rw E.
  destruct (c s1) as [r s2]. by exists a, s2.
Qed.
Lemma does_for_each {A} (l : list A) f :
  (forall s, P s) -> (forall x, x ∈ l -> does (fun _ => True) (f x)) -> does P (for_each l f).
Proof.
  intros HP. induction l as [|x l IH]; intros Hf; simpl; [by apply does_ret|].
  apply does_bind; [apply Hf; by left|]. intros _. apply IH. intros y Hy. apply Hf. by right.
Qed.
Lemma does_when b (m : M S unit) : (forall s, P s) -> (b = true -> does P m) -> does P (when b m).
Proof. intros HP Hm. destruct b; [by apply Hm|by apply does_ret]. Qed.
End Does.
