(* ===== verification/GoStr.v ===== *)
(** * Go's strings and strconv

    The functions of the Go standard library's [strings], [strconv] and [fmt]
    the runtime uses: splitting and joining on a one-byte separator, prefix
    tests and trimming, printing integers in a base and parsing them back.
    The lemmas give the round trips the text formats of the other files
    (volumes, sockets, PCI paths, cpu sets, kernel parameters) rest on. *)
From S2P Require Import Prelude.

(** ** Definitions *)

(** [strings.IndexByte(s, c) >= 0]. *)
Fixpoint str_mem (c : ascii) (s : string) : bool :=
  match s with
  | EmptyString => false
  | String c' s' => bool_decide (c' = c) || str_mem c s'
  end.

(** Every byte of the string satisfies [p]. *)
Fixpoint str_all (p : ascii -> bool) (s : string) : bool :=
  match s with
  | EmptyString => true
  | String c s' => p c && str_all p s'
  end.

(** [strings.Split(s, sep)] for a separator of one byte. *)
Fixpoint Split (sep : ascii) (s : string) : list string :=
  match s with
  | EmptyString => [EmptyString]
  | String c s' =>
      if bool_decide (c = sep) then EmptyString :: Split sep s'
      else match Split sep s' with
           | [] => [String c EmptyString]
           | w :: ws => String c w :: ws
           end
  end.

(** [strings.Join(l, sep)]. *)
Fixpoint Join (sep : string) (l : list string) : string :=
  match l with
  | [] => EmptyString
  | [x] => x
  | x :: l' => x +:+ sep +:+ Join sep l'
  end.

(** [strings.HasPrefix(s, p)]. *)
Fixpoint HasPrefix (s p : string) : bool :=
  match p, s with
  | EmptyString, _ => true
  | String c p', String d s' => bool_decide (c = d) && HasPrefix s' p'
  | _, EmptyString => false
  end.

(** [strings.Contains(s, t)]. *)
Fixpoint Contains (s t : string) : bool :=
  HasPrefix s t ||
  match s with
  | EmptyString => false
  | String _ s' => Contains s' t
  end.

(** [strings.TrimRight(s, cutset)] for a cutset of one byte. *)
Fixpoint TrimRight (c : ascii) (s : string) : string :=
  match s with
  | EmptyString => EmptyString
  | String d s' =>
      match TrimRight c s' with
      | EmptyString => if bool_decide (d = c) then EmptyString else String d EmptyString
      | t => String d t
      end
  end.

(** [strings.SplitN(s, sep, 2)[1]] for a string that holds [sep]. *)
Fixpoint after_first (sep : ascii) (s : string) : string :=
  match s with
  | EmptyString => EmptyString
  | String c s' => if bool_decide (c = sep) then s' else after_first sep s'
  end.

(** [s[:n]] for [n] within the string. *)
Fixpoint str_take (n : nat) (s : string) : string :=
  match n, s with
  | S n', String c s' => String c (str_take n' s')
  | _, _ => EmptyString
  end.

Definition digit_char (d : Z) : ascii :=
  Ascii.ascii_of_N (Z.to_N (if d <? 10 then 48 + d else 87 + d)).

Definition char_digit (c : ascii) : option Z :=
  let n := Z.of_N (Ascii.N_of_ascii c) in
  if (48 <=? n) && (n <=? 57) then Some (n - 48)
  else if (97 <=? n) && (n <=? 122) then Some (n - 87)
  else if (65 <=? n) && (n <=? 90) then Some (n - 55)
  else None.

Fixpoint format_go (fuel : nat) (base n : Z) (acc : string) : string :=
  match fuel with
  | O => acc
  | S f =>
      let acc' := String (digit_char (n mod base)) acc in
      if n <? base then acc' else format_go f base (n / base) acc'
  end.

(** [strconv.FormatUint(n, base)]; a number has at most as many digits as
    bits, so the fuel is its bit length. *)
Definition FormatUint (base n : Z) : string :=
  format_go (S (Z.to_nat (Z.log2 n))) base n EmptyString.

Definition FormatInt (base z : Z) : string :=
  if z <? 0 then "-" +:+ FormatUint base (- z) else FormatUint base z.

(** [strconv.Itoa(z)], [fmt.Sprintf("%d", z)]. *)
Definition Itoa (z : Z) : string := FormatInt 10 z.

(** [fmt.Sprintf("%x", n)] and [fmt.Sprintf("%02x", n)]. *)
Definition fmt_x (n : Z) : string := FormatInt 16 n.
Definition fmt_02x (n : Z) : string :=
  if (0 <=? n) && (n <? 16) then "0" +:+ FormatUint 16 n else FormatInt 16 n.

Fixpoint parse_digits (base max acc : Z) (s : string) : res Z :=
  match s with
  | EmptyString => Ok acc
  | String c s' =>
      match char_digit c with
      | Some d =>
          if d <? base then
            let acc' := acc * base + d in
            if acc' <=? max then parse_digits base max acc' s'
            else Err (ErrExternal "strconv: value out of range")
          else Err (ErrExternal "strconv: invalid syntax")
      | None => Err (ErrExternal "strconv: invalid syntax")
      end
  end.

(** [strconv.ParseUint(s, base, bits)] for a nonzero base. *)
Definition ParseUint (s : string) (base bits : Z) : res Z :=
  match s with
  | EmptyString => Err (ErrExternal "strconv: invalid syntax")
  | _ => parse_digits base (2 ^ bits - 1) 0 s
  end.

(** [strconv.Atoi(s)]: an optional sign, then a 64-bit magnitude. *)
Definition Atoi (s : string) : res Z :=
  match s with
  | String "-" s' =>
      match ParseUint s' 10 64 with
      | Ok n => if n <=? 2 ^ 63 then Ok (- n)
                else Err (ErrExternal "strconv: value out of range")
      | Err e => Err e
      end
  | _ =>
      let s' := match s with String "+" s' => s' | _ => s end in
      match ParseUint s' 10 64 with
      | Ok n => if n <? 2 ^ 63 then Ok n
                else Err (ErrExternal "strconv: value out of range")
      | Err e => Err e
      end
  end.

(** [strconv.ParseInt(s, 10, bits)]. *)
Definition ParseInt (s : string) (bits : Z) : res Z :=
  match s with
  | String "-" s' =>
      match ParseUint s' 10 bits with
      | Ok n => if n <=? 2 ^ (bits - 1) then Ok (- n) else Err (ErrExternal "strconv: value out of range")
      | Err e => Err e
      end
  | _ =>
      let s' := match s with String "+" s' => s' | _ => s end in
      match ParseUint s' 10 bits with
      | Ok n => if n <? 2 ^ (bits - 1) then Ok n else Err (ErrExternal "strconv: value out of range")
      | Err e => Err e
      end
  end.

(** [strconv.ParseBool(s)]. *)
Definition ParseBool (s : string) : res bool :=
  if bool_decide (s ∈ ["1"; "t"; "T"; "TRUE"; "true"; "True"]) then Ok true
  else if bool_decide (s ∈ ["0"; "f"; "F"; "FALSE"; "false"; "False"]) then Ok false
  else Err (ErrExternal "strconv: invalid syntax").

(** [strings.SplitN(s, sep, 2)] for a separator of one character. *)
Fixpoint SplitN2 (sep : ascii) (s : string) : list string :=
  match s with
  | EmptyString => [EmptyString]
  | String c s' =>
      if bool_decide (c = sep) then [EmptyString; s']
      else match SplitN2 sep s' with
           | [] => [String c EmptyString]
           | w :: ws => String c w :: ws
           end
  end.

(** [strings.ReplaceAll(s, old, new)] for a nonempty [old]: the occurrences from
    left to right, not overlapping.  Each step consumes a character, so the
    length is fuel enough. *)
Fixpoint str_drop (n : nat) (s : string) : string :=
  match n, s with
  | O, _ => s
  | S n', String _ s' => str_drop n' s'
  | S _, EmptyString => EmptyString
  end.
Fixpoint replace_go (fuel : nat) (s old new : string) : string :=
  match fuel, s with
  | O, _ => s
  | _, EmptyString => EmptyString
  | S fuel', String c s' =>
      if HasPrefix s old then new +:+ replace_go fuel' (str_drop (String.length old) s) old new
      else String c (replace_go fuel' s' old new)
  end.
Definition ReplaceAll (s old new : string) : string := replace_go (String.length s) s old new.

(** [strings.TrimPrefix(s, p)] and [strings.HasSuffix(s, t)]. *)
Definition TrimPrefix (s p : string) : string := if HasPrefix s p then str_drop (String.length p) s else s.
Definition HasSuffix (s t : string) : bool :=
  (String.length t <=? String.length s)%nat && bool_decide (str_drop (String.length s - String.length t) s = t).

(** [unicode.IsSpace] on the ASCII range. *)
Definition is_space (c : ascii) : bool :=
  let n := Z.of_N (N_of_ascii c) in (n =? 32) || ((9 <=? n) && (n <=? 13)).

(** [strings.Fields]: the maximal runs of characters that are no space. *)
Fixpoint Fields (s : string) : list string :=
  match s with
  | EmptyString => []
  | String c s' =>
      if is_space c then Fields s'
      else match s' with
           | EmptyString => [String c EmptyString]
           | String d _ =>
               if is_space d then String c EmptyString :: Fields s'
               else match Fields s' with
                    | [] => [String c EmptyString]
                    | w :: ws => String c w :: ws
                    end
           end
  end.

(** [strings.TrimSpace] on the ASCII range. *)
Fixpoint TrimLeftSpace (s : string) : string :=
  match s with
  | EmptyString => EmptyString
  | String c s' => if is_space c then TrimLeftSpace s' else s
  end.
Fixpoint TrimRightSpace (s : string) : string :=
  match s with
  | EmptyString => EmptyString
  | String c s' =>
      match TrimRightSpace s' with
      | EmptyString => if is_space c then EmptyString else String c EmptyString
      | r => String c r
      end
  end.
Definition TrimSpace (s : string) : string := TrimRightSpace (TrimLeftSpace s).

(** [strings.EqualFold] and lower case on the ASCII range. *)
Definition lower (c : ascii) : ascii :=
  let n := N_of_ascii c in
  if ((65 <=? n)%N && (n <=? 90)%N)%bool then ascii_of_N (n + 32) else c.
Fixpoint EqualFold (s t : string) : bool :=
  match s, t with
  | EmptyString, EmptyString => true
  | String a s', String b t' => bool_decide (lower a = lower b) && EqualFold s' t'
  | _, _ => false
  end.

(** [strconv.ParseUint(s, 0, bits)]: the base comes from the prefix, and single
    underscores may separate the digits ([underscoreOK]). *)
Fixpoint strip_underscores (s : string) : string :=
  match s with
  | EmptyString => EmptyString
  | String c s' => if bool_decide (c = "_"%char) then strip_underscores s' else String c (strip_underscores s')
  end.

Fixpoint underscores_go (hex : bool) (saw : ascii) (s : string) : bool :=
  match s with
  | EmptyString => negb (bool_decide (saw = "_"%char))
  | String c s' =>
      let l := lower c in
      let n := Z.of_N (N_of_ascii l) in
      if ((48 <=? n) && (n <=? 57)) || (hex && (97 <=? n) && (n <=? 102)) then underscores_go hex "0" s'
      else if bool_decide (c = "_"%char) then
        if bool_decide (saw = "0"%char) then underscores_go hex "_" s' else false
      else if bool_decide (saw = "_"%char) then false
      else underscores_go hex "!" s'
  end.

(** The base, the rest after the prefix, and whether that rest is well separated. *)
Definition base_prefix (s : string) : Z * string * bool :=
  match s with
  | String "0" s' =>
      match s' with
      | String c ((String _ _) as r) =>
          if bool_decide (lower c = "b"%char) then (2, r, underscores_go false "0" r)
          else if bool_decide (lower c = "o"%char) then (8, r, underscores_go false "0" r)
          else if bool_decide (lower c = "x"%char) then (16, r, underscores_go true "0" r)
          else (8, s', underscores_go false "^" s)
      | _ => (8, s', underscores_go false "^" s)
      end
  | _ => (10, s, underscores_go false "^" s)
  end.

Definition ParseUint0 (s : string) (bits : Z) : res Z :=
  match s with
  | EmptyString => Err (ErrExternal "strconv: invalid syntax")
  | _ =>
      let '(base, digits, separated) := base_prefix s in
      n ← parse_digits base (2 ^ bits - 1) 0 (strip_underscores digits);
      if str_mem "_" digits && negb separated then Err (ErrExternal "strconv: invalid syntax") else Ok n
  end.

(** ** Appending *)

Lemma str_app_cons c s t : String c s +:+ t = String c (s +:+ t).
Proof. done. Qed.

Lemma str_app_nil_l t : EmptyString +:+ t = t.
Proof. done. Qed.

Lemma str_app_nil_r s : s +:+ EmptyString = s.
Proof. induction s as [|c s IH]; [done|]. by rw str_app_cons IH. Qed.

Lemma str_app_assoc s t u : (s +:+ t) +:+ u = s +:+ t +:+ u.
Proof. induction s as [|c s IH]; [done|]. by rw !str_app_cons IH. Qed.

Lemma str_length_app s t :
  String.length (s +:+ t) = (String.length s + String.length t)%nat.
Proof. induction s as [|c s IH]; [done|]. rw str_app_cons /=. by rw IH. Qed.

#[export] Hint Rewrite str_app_cons str_app_nil_l str_app_nil_r str_app_assoc
  str_length_app : gostr.

Lemma str_all_app p s t : str_all p (s +:+ t) = str_all p s && str_all p t.
Proof.
  induction s as [|c s IH]; [done|].
  by rw str_app_cons /= IH andb_assoc.
Qed.

Lemma str_mem_app c s t : str_mem c (s +:+ t) = str_mem c s || str_mem c t.
Proof.
  induction s as [|d s IH]; [done|].
  by rw str_app_cons /= IH orb_assoc.
Qed.

(** A byte outside the class of all bytes of [s] does not occur in [s]. *)
Lemma str_all_not_mem p c s : str_all p s = true -> p c = false -> str_mem c s = false.
Proof.
  intros Hall Hc. induction s as [|d s IH]; [done|]. simpl in *.
  apply andb_true_iff in Hall as [Hd Hs].
  case_bool_decide; [congruence|]. by apply IH.
Qed.

Lemma SplitN2_no_sep sep s : str_mem sep s = false -> SplitN2 sep s = [s].
Proof.
  induction s as [|c s IH]; [done|]. simpl. intros [Hc Hs]%orb_false_iff.
  apply bool_decide_eq_false in Hc. rw bool_decide_eq_false_2; [congruence|]. by rw IH.
Qed.

Lemma SplitN2_app sep k v :
  str_mem sep k = false -> SplitN2 sep (k +:+ String sep v) = [k; v].
Proof.
  induction k as [|c k IH]; simpl.
  - by rw bool_decide_eq_true_2.
  - intros [Hc Hk]%orb_false_iff. apply bool_decide_eq_false in Hc.
    rw bool_decide_eq_false_2; [congruence|]. by rw IH.
Qed.

Lemma HasPrefix_app p s : HasPrefix (p +:+ s) p = true.
Proof.
  induction p as [|c p IH]; [by destruct s|]. rw str_app_cons. simpl.
  by rw bool_decide_true.
Qed.

(** ** Splitting and joining *)

Lemma Split_not_nil sep s : Split sep s <> [].
Proof.
  destruct s as [|c s]; simpl; [done|].
  case_bool_decide; [done|]. by destruct (Split sep s).
Qed.

Lemma Split_no_sep sep s : str_mem sep s = false -> Split sep s = [s].
Proof.
  induction s as [|c s IH]; simpl; [done|].
  intros [Hc Hs]%orb_false_iff. by rw Hc (IH Hs).
Qed.

Lemma Split_app sep s t :
  str_mem sep s = false -> Split sep (s +:+ String sep t) = s :: Split sep t.
Proof.
  induction s as [|c s IH]; rw ?str_app_nil_l ?str_app_cons /=.
  - intros _. by rw bool_decide_true.
  - intros [Hc Hs]%orb_false_iff. by rw Hc (IH Hs).
Qed.

(** [strings.Split(strings.Join(l, sep), sep)] is [l] when no word holds [sep]. *)
Lemma Split_Join sep l :
  l <> [] -> Forall (fun w => str_mem sep w = false) l ->
  Split sep (Join (String sep EmptyString) l) = l.
Proof.
  intros Hne Hl. induction Hl as [|w l Hw Hl IH]; [done|].
  destruct l as [|w' l]; [by apply Split_no_sep|].
  change (Join _ (w :: w' :: l))
    with (w +:+ String sep EmptyString +:+ Join (String sep EmptyString) (w' :: l)).
  rw str_app_cons str_app_nil_l Split_app //. by rw IH.
Qed.

Lemma Join_Split sep s : Join (String sep EmptyString) (Split sep s) = s.
Proof.
  induction s as [|c s IH]; simpl; [done|].
  destruct (Split sep s) as [|w ws] eqn:E; [by destruct (Split_not_nil sep s)|].
  case_bool_decide as Hc.
  - subst c. change (EmptyString +:+ String sep EmptyString +:+ Join (String sep EmptyString) (w :: ws) = String sep s).
    by rw IH.
  - destruct ws as [|w' ws]; simpl in *; by rw -IH.
Qed.

Lemma str_mem_Join (c : ascii) sep l :
  str_mem c sep = false -> Forall (fun w => str_mem c w = false) l -> str_mem c (Join sep l) = false.
Proof.
  intros Hs Hl. induction Hl as [|w l Hw Hl IH]; [done|]. destruct l as [|w' l]; [done|].
  change (Join sep (w :: w' :: l)) with (w +:+ sep +:+ Join sep (w' :: l)). by rw !str_mem_app Hw Hs IH.
Qed.

Lemma Split_words_no_sep sep s : Forall (fun w => str_mem sep w = false) (Split sep s).
Proof.
  induction s as [|c s IH]; simpl; [by repeat constructor|].
  case_bool_decide as Hc; [by constructor|].
  destruct (Split sep s) as [|w ws]; inversion IH; subst.
  - repeat constructor. simpl. by rw bool_decide_false.
  - constructor; [|done]. simpl. by rw bool_decide_false.
Qed.

Lemma Join_app1 sep l w :
  l <> [] -> Join sep (l ++ [w]) = Join sep l +:+ sep +:+ w.
Proof.
  induction l as [|x l IH]; [done|]. intros _.
  destruct l as [|y l]; [done|].
  change (x +:+ sep +:+ Join sep ((y :: l) ++ [w]) = (x +:+ sep +:+ Join sep (y :: l)) +:+ sep +:+ w).
  rw IH //. by rw !str_app_assoc.
Qed.

Lemma Join_not_nil sep l :
  l <> [] -> Forall (fun w => w <> EmptyString) l -> Join sep l <> EmptyString.
Proof.
  intros Hne Hl. destruct Hl as [|w l Hw _]; [done|]. destruct w; [done|]. by destruct l.
Qed.

(** ** Trimming *)

Lemma TrimRight_cut c t : TrimRight c (t +:+ String c EmptyString) = TrimRight c t.
Proof.
  induction t as [|d t IH]; rw ?str_app_nil_l ?str_app_cons; simpl.
  - by rw bool_decide_true.
  - by rw IH.
Qed.

Lemma TrimRight_id c t : str_mem c t = false -> TrimRight c t = t.
Proof.
  induction t as [|d t IH]; simpl; [done|]. intros [Hd Ht]%orb_false_iff.
  rw IH // Hd. by destruct t.
Qed.

Lemma TrimRight_app c t u :
  u <> EmptyString -> str_mem c u = false -> TrimRight c (t +:+ u) = t +:+ u.
Proof.
  intros Hu Hc. induction t as [|d t IH]; [by apply TrimRight_id|].
  rw str_app_cons. simpl. rw IH. destruct t; [|done]. by destruct u.
Qed.

Lemma TrimRight_Join c l :
  Forall (fun w => w <> EmptyString /\ str_mem c w = false) l ->
  TrimRight c (Join (String c EmptyString) l +:+ String c EmptyString) =
  Join (String c EmptyString) l.
Proof.
  intros Hl. rw TrimRight_cut. destruct l as [|w l _] using rev_ind; [done|].
  apply Forall_app in Hl as [_ [[Hw Hc] _]%Forall_cons].
  destruct (decide (l = [])) as [->|Hne]; [by apply TrimRight_id|].
  rw Join_app1 //. rw -str_app_assoc. by apply TrimRight_app.
Qed.

(** Writing each word and a separator to a buffer. *)
Lemma foldl_buffer {A} (f : A -> string) sep buf l :
  l <> [] -> foldl (fun b x => b +:+ f x +:+ sep) buf l = buf +:+ Join sep (f <$> l) +:+ sep.
Proof.
  intros Hne. revert buf. induction l as [|x l IH]; [done|]. intros buf.
  destruct l as [|y l]; [done|].
  change (foldl (fun b x => b +:+ f x +:+ sep) (buf +:+ f x +:+ sep) (y :: l) =
    buf +:+ (f x +:+ sep +:+ Join sep (f <$> (y :: l))) +:+ sep).
  rw IH //. by rw !str_app_assoc.
Qed.

(** ** Numbers *)

Lemma N_of_digit_char d : 0 <= d < 36 ->
  Z.of_N (N_of_ascii (digit_char d)) = if d <? 10 then 48 + d else 87 + d.
Proof.
  intros Hd. unfold digit_char. rw N_ascii_embedding; [|rw Z2N.id //];
    destruct (d <? 10) eqn:E; lia.
Qed.

Lemma char_digit_digit_char d : 0 <= d < 36 -> char_digit (digit_char d) = Some d.
Proof.
  intros Hd. unfold char_digit. rw N_of_digit_char //.
  destruct (Z.ltb_spec d 10);
    repeat match goal with |- context [?a <=? ?b] => destruct (Z.leb_spec a b) end;
    simpl; try lia; f_equal; lia.
Qed.

(** The bytes [FormatUint] prints for a base up to 16. *)
Definition is_hex (c : ascii) : bool :=
  match char_digit c with Some d => d <? 16 | None => false end.

Lemma format_go_all fuel base n acc :
  2 <= base <= 16 -> 0 <= n -> str_all is_hex acc = true ->
  str_all is_hex (format_go fuel base n acc) = true.
Proof.
  intros Hb. revert n acc. induction fuel as [|f IH]; intros n acc Hn Hacc; [done|].
  cbn [format_go].
  assert (Hd : str_all is_hex (String (digit_char (n mod base)) acc) = true).
  { pose proof (Z.mod_pos_bound n base ltac:(lia)).
    simpl. rw Hacc andb_true_r. unfold is_hex. rw char_digit_digit_char; lia. }
  destruct (n <? base); [done|]. apply IH; [|done].
  apply Z.div_pos; lia.
Qed.

Lemma FormatUint_all base n :
  2 <= base <= 16 -> 0 <= n -> str_all is_hex (FormatUint base n) = true.
Proof. intros. by apply format_go_all. Qed.

Lemma format_go_not_nil fuel base n acc :
  acc <> EmptyString \/ fuel <> O -> format_go fuel base n acc <> EmptyString.
Proof.
  revert n acc. induction fuel as [|f IH]; intros n acc H; simpl; [by destruct H|].
  destruct (n <? base); [done|]. apply IH. by left.
Qed.

Lemma FormatUint_not_nil base n : FormatUint base n <> EmptyString.
Proof. apply format_go_not_nil. by right. Qed.

Lemma parse_format_go fuel base max n acc :
  2 <= base <= 16 -> 0 <= n <= max -> n < base ^ Z.of_nat fuel ->
  parse_digits base max 0 (format_go fuel base n acc) = parse_digits base max n acc.
Proof.
  intros Hb. revert n acc. induction fuel as [|f IH]; intros n acc Hn Hlt.
  { simpl. change (base ^ Z.of_nat 0) with 1 in Hlt. by replace n with 0 by lia. }
  cbn [format_go].
  pose proof (Z.mod_pos_bound n base ltac:(lia)) as Hm.
  pose proof (Z.div_mod n base ltac:(lia)) as Hdm.
  destruct (Z.ltb_spec n base) as [Hs|Hs].
  - cbn [parse_digits]. rw char_digit_digit_char; [lia|].
    rw (Z.mod_small n base); [lia|]. rw (proj2 (Z.ltb_lt n base)) // (proj2 (Z.leb_le _ max)); [lia|].
    by rw Z.mul_0_l Z.add_0_l.
  - rw Nat2Z.inj_succ Z.pow_succ_r in Hlt; [lia|].
    assert (0 <= n / base <= n) by (split; [apply Z.div_pos|apply Z.div_le_upper_bound]; nia).
    rw IH; [lia|apply Z.div_lt_upper_bound; lia|].
    cbn [parse_digits]. rw char_digit_digit_char; [lia|].
    rw (proj2 (Z.ltb_lt (n mod base) base)); [lia|].
    replace (n / base * base + n mod base) with n by lia.
    by rw (proj2 (Z.leb_le n max)); [lia|].
Qed.

Lemma fuel_enough base n : 2 <= base -> 0 <= n -> n < base ^ Z.of_nat (S (Z.to_nat (Z.log2 n))).
Proof.
  intros Hb Hn. pose proof (Z.log2_nonneg n).
  rw Nat2Z.inj_succ Z2Nat.id //.
  apply Z.lt_le_trans with (2 ^ Z.succ (Z.log2 n)); [|by apply Z.pow_le_mono_l; lia].
  destruct (decide (n = 0)) as [->|]; [done|]. apply Z.log2_spec. lia.
Qed.

(** Parsing what was printed gives the number back. *)
Lemma ParseUint_FormatUint base bits n :
  2 <= base <= 16 -> 0 <= n < 2 ^ bits -> ParseUint (FormatUint base n) base bits = Ok n.
Proof.
  intros Hb Hn. unfold ParseUint.
  pose proof (FormatUint_not_nil base n) as Hne.
  destruct (FormatUint base n) as [|c s] eqn:E; [done|]. rw -E.
  unfold FormatUint. rw parse_format_go //; [lia|]. apply fuel_enough; lia.
Qed.

Lemma parse_digits_bound base bits acc s n :
  2 <= base -> 0 <= acc <= 2 ^ bits - 1 -> parse_digits base (2 ^ bits - 1) acc s = Ok n -> 0 <= n < 2 ^ bits.
Proof.
  intros Hb. revert acc. induction s as [|c s IH]; intros acc Hacc; simpl; [intros [= <-]; lia|].
  destruct (char_digit c) as [d|] eqn:Ed; [|done].
  assert (0 <= d).
  { unfold char_digit in Ed. repeat case_match; simplify_eq; lia. }
  destruct (d <? base); [|done]. case_match eqn:El; [|done]. apply IH. nia.
Qed.

Lemma ParseUint_bound s base bits n :
  2 <= base -> 0 <= bits -> ParseUint s base bits = Ok n -> 0 <= n < 2 ^ bits.
Proof.
  intros Hb Hbits. unfold ParseUint. destruct s as [|c s]; [done|]. apply parse_digits_bound; [done|].
  pose proof (Z.pow_pos_nonneg 2 bits). lia.
Qed.

Lemma ParseUint0_bound s bits n : 0 <= bits -> ParseUint0 s bits = Ok n -> 0 <= n < 2 ^ bits.
Proof.
  intros Hbits. unfold ParseUint0. destruct s as [|c s]; [done|].
  destruct (base_prefix (String c s)) as [[base digits] separated] eqn:E.
  assert (2 <= base) by (unfold base_prefix in E; repeat case_match; simplify_eq; lia).
  unfold mbind, res_bind. destruct (parse_digits _ _ _ _) as [m|] eqn:Ed; [|done]. case_match; [done|].
  intros [= <-]. pose proof (Z.pow_pos_nonneg 2 bits). by eapply parse_digits_bound; [| |exact Ed]; lia.
Qed.

Lemma Itoa_nonneg n : 0 <= n -> Itoa n = FormatUint 10 n.
Proof. intros. unfold Itoa, FormatInt. by rw (proj2 (Z.ltb_ge n 0)). Qed.

Lemma Itoa_not_mem c n : 0 <= n -> is_hex c = false -> str_mem c (Itoa n) = false.
Proof.
  intros Hn Hc. rw Itoa_nonneg //. apply (str_all_not_mem is_hex); [|done].
  apply FormatUint_all; lia.
Qed.

Lemma Itoa_not_nil n : 0 <= n -> Itoa n <> EmptyString.
Proof. intros. rw Itoa_nonneg //. apply FormatUint_not_nil. Qed.

(** [strconv.Atoi(strconv.Itoa(n))] for the nonnegative 64-bit integers. *)
Lemma Atoi_Itoa n : 0 <= n < 2 ^ 63 -> Atoi (Itoa n) = Ok n.
Proof.
  intros Hn.
  assert (Hp : ParseUint (Itoa n) 10 64 = Ok n).
  { rw Itoa_nonneg; [lia|]. apply ParseUint_FormatUint; lia. }
  pose proof (Itoa_not_mem "-" n ltac:(lia) eq_refl) as Hm.
  pose proof (Itoa_not_mem "+" n ltac:(lia) eq_refl) as Hp'.
  unfold Atoi. revert Hp Hm Hp'. destruct (Itoa n) as [|c s]; [done|].
  intros Hp Hm Hp'. simpl in Hm, Hp'.
  apply orb_false_iff in Hm as [Hm%bool_decide_eq_false _].
  apply orb_false_iff in Hp' as [Hp'%bool_decide_eq_false _].
  destruct c as [[] [] [] [] [] [] [] []]; try done;
    rw Hp (proj2 (Z.ltb_lt n (2 ^ 63))); (lia || done).
Qed.

Lemma Itoa_inj n m : 0 <= n < 2 ^ 63 -> 0 <= m < 2 ^ 63 -> Itoa n = Itoa m -> n = m.
Proof.
  intros Hn Hm E. pose proof (Atoi_Itoa n Hn) as H1.
  rw E Atoi_Itoa // in H1. by injection H1.
Qed.

Lemma Itoa_inj_nonneg n m : 0 <= n -> 0 <= m -> Itoa n = Itoa m -> n = m.
Proof.
  intros Hn Hm. rw !Itoa_nonneg //. intros E. set (bits := Z.succ (Z.log2 n + Z.log2 m)).
  pose proof (Z.log2_nonneg n). pose proof (Z.log2_nonneg m).
  assert (Hb : forall k, 0 <= k -> Z.log2 k < bits -> k < 2 ^ bits).
  { intros k Hk Hl. destruct (decide (k = 0)) as [->|]; [apply Z.pow_pos_nonneg; lia|]. apply Z.log2_lt_pow2; lia. }
  pose proof (ParseUint_FormatUint 10 bits n ltac:(lia) ltac:(split; [done|apply Hb; lia])) as E1.
  pose proof (ParseUint_FormatUint 10 bits m ltac:(lia) ltac:(split; [done|apply Hb; lia])) as E2. congruence.
Qed.

(** A larger range changes nothing for a number that was accepted. *)
Lemma parse_digits_mono base max max' acc s n :
  max <= max' -> parse_digits base max acc s = Ok n -> parse_digits base max' acc s = Ok n.
Proof.
  intros Hle. revert acc. induction s as [|c s IH]; intros acc; simpl; [done|].
  destruct (char_digit c) as [d|]; [|done]. destruct (d <? base); [|done].
  destruct (acc * base + d <=? max) eqn:E; [|done]. apply Z.leb_le in E.
  rw (proj2 (Z.leb_le _ max')); [lia|]. apply IH.
Qed.

Lemma ParseUint_mono base bits bits' s n :
  bits <= bits' -> ParseUint s base bits = Ok n -> ParseUint s base bits' = Ok n.
Proof.
  intros Hle. unfold ParseUint. destruct s; [done|]. apply parse_digits_mono.
  pose proof (Z.pow_le_mono_r 2 bits bits'). lia.
Qed.

Lemma ParseInt_unsigned s bits :
  str_mem "-" s = false -> str_mem "+" s = false ->
  ParseInt s bits =
    match ParseUint s 10 bits with
    | Ok n => if n <? 2 ^ (bits - 1) then Ok n else Err (ErrExternal "strconv: value out of range")
    | Err e => Err e
    end.
Proof.
  unfold ParseInt. destruct s as [|c s]; [done|]. simpl.
  intros [Hm%bool_decide_eq_false _]%orb_false_iff [Hp%bool_decide_eq_false _]%orb_false_iff.
  by destruct c as [[] [] [] [] [] [] [] []].
Qed.

(** Parsing a printed number at some width: it comes back if it fits. *)
Lemma ParseInt_Itoa n bits :
  0 <= n < 2 ^ 64 -> 1 <= bits <= 64 ->
  if n <? 2 ^ (bits - 1) then ParseInt (Itoa n) bits = Ok n else is_ok (ParseInt (Itoa n) bits) = false.
Proof.
  intros Hn Hb. rw ParseInt_unsigned; [apply Itoa_not_mem; [lia|done]..|].
  assert (H64 : ParseUint (Itoa n) 10 64 = Ok n) by (rw Itoa_nonneg; [lia|]; apply ParseUint_FormatUint; lia).
  destruct (Z.ltb_spec n (2 ^ (bits - 1))) as [Hs|Hs].
  - rw Itoa_nonneg; [lia|]. pose proof (Z.pow_lt_mono_r 2 (bits - 1) bits).
    rw ParseUint_FormatUint; [lia|lia|]. by rw (proj2 (Z.ltb_lt _ _) Hs).
  - destruct (ParseUint (Itoa n) 10 bits) as [k|e] eqn:E; [|done].
    apply (ParseUint_mono _ _ 64) in E; [|lia]. rw E in H64. injection H64 as ->.
    by rw (proj2 (Z.ltb_ge _ _) Hs).
Qed.

Lemma fmt_02x_hex n : 0 <= n -> str_all is_hex (fmt_02x n) = true.
Proof.
  intros Hn. unfold fmt_02x, FormatInt. rw (proj2 (Z.ltb_ge n 0)) //.
  destruct ((0 <=? n) && (n <? 16)); rw ?str_all_app FormatUint_all //; lia.
Qed.

Lemma ParseUint_fmt_02x bits n :
  0 <= n < 2 ^ bits -> ParseUint (fmt_02x n) 16 bits = Ok n.
Proof.
  intros Hn. unfold fmt_02x, FormatInt. rw (proj2 (Z.ltb_ge n 0)); [lia|].
  destruct ((0 <=? n) && (n <? 16)) eqn:E; [|apply ParseUint_FormatUint; lia].
  pose proof (ParseUint_FormatUint 16 bits n ltac:(lia) Hn) as Hp.
  change ("0" +:+ FormatUint 16 n) with (String "0" (FormatUint 16 n)).
  unfold ParseUint at 1. cbn [parse_digits]. change (char_digit "0") with (Some 0).
  cbn iota beta zeta. change (0 <? 16) with true. cbn iota.
  rw (proj2 (Z.leb_le (0 * 16 + 0) (2 ^ bits - 1))); [lia|].
  unfold ParseUint in Hp. by destruct (FormatUint 16 n).
Qed.

#[export] Hint Resolve Atoi_Itoa Itoa_not_mem Itoa_not_nil Split_Join : virt.

(** ** Slash-separated paths ([path/filepath] on Unix) *)
Module Filepath.

(** The elements kept by [Clean], last one first. *)
Fixpoint clean_go (rooted : bool) (stack comps : list string) : list string :=
  match comps with
  | [] => stack
  | c :: cs =>
      if bool_decide (c = "") || bool_decide (c = ".") then clean_go rooted stack cs
      else if bool_decide (c = "..") then
        match stack with
        | top :: stack' =>
            if bool_decide (top = "..") then clean_go rooted (c :: stack) cs
            else clean_go rooted stack' cs
        | [] => clean_go rooted (if rooted then [] else [c]) cs
        end
      else clean_go rooted (c :: stack) cs
  end.

Definition Clean (path : string) : string :=
  if bool_decide (path = "") then "."
  else
    let rooted := HasPrefix path "/" in
    let comps := reverse (clean_go rooted [] (Split "/" path)) in
    if rooted then "/" +:+ Join "/" comps
    else match comps with [] => "." | _ => Join "/" comps end.

(** [path[:i+1]] for the last index [i] of a slash. *)
Fixpoint upto_last_slash (s : string) : string :=
  match s with
  | EmptyString => EmptyString
  | String c s' =>
      match upto_last_slash s' with
      | EmptyString => if bool_decide (c = "/"%char) then String c EmptyString else EmptyString
      | r => String c r
      end
  end.

Definition Dir (path : string) : string := Clean (upto_last_slash path).

(** [filepath.Join]: leading empty elements are skipped. *)
Fixpoint PathJoin (elem : list string) : string :=
  match elem with
  | [] => ""
  | e :: elem' => if bool_decide (e = "") then PathJoin elem' else Clean (Join "/" elem)
  end.

(** [filepath.Base]. *)
Definition Base (path : string) : string :=
  if bool_decide (path = "") then "."
  else
    let p := TrimRight "/" path in
    if bool_decide (p = "") then "/" else default "" (last (Split "/" p)).

(** A path element [Clean] keeps. *)
Definition elem_ok (c : string) : Prop :=
  c <> "" /\ c <> "." /\ c <> ".." /\ str_mem "/" c = false.

(** The absolute path of a list of elements. *)
Definition abs (cs : list string) : string := "/" +:+ Join "/" cs.

Lemma clean_go_ok rooted cs stack :
  Forall elem_ok cs -> clean_go rooted stack cs = reverse cs ++ stack.
Proof.
  intros Hcs. revert stack. induction Hcs as [|c cs (H1 & H2 & H3 & _) _ IH]; intros stack; [done|].
  simpl. rw !bool_decide_false //. simpl. by rw IH reverse_cons -app_assoc.
Qed.

Lemma clean_go_app rooted stack l1 l2 :
  clean_go rooted stack (l1 ++ l2) = clean_go rooted (clean_go rooted stack l1) l2.
Proof.
  revert stack. induction l1 as [|c l1 IH]; intros stack; simpl; [done|].
  repeat case_match; rw IH; done.
Qed.

Lemma Split_abs cs : cs <> [] -> Forall elem_ok cs -> Split "/" (abs cs) = "" :: cs.
Proof.
  intros Hne Hcs. unfold abs.
  change ("/" +:+ Join "/" cs) with ("" +:+ String "/" (Join "/" cs)).
  rw Split_app // Split_Join //. eapply Forall_impl; [done|]. by intros c (_ & _ & _ & ?).
Qed.

Lemma Clean_abs cs : Forall elem_ok cs -> Clean (abs cs) = abs cs.
Proof.
  intros Hcs. destruct (decide (cs = [])) as [->|Hne]; [done|].
  unfold Clean. rw bool_decide_false; [done|].
  replace (HasPrefix (abs cs) "/") with true by (symmetry; apply HasPrefix_app).
  rw Split_abs //. cbn [clean_go]. rw clean_go_ok // app_nil_r reverse_involutive. done.
Qed.

Lemma Clean_abs_slash cs : cs <> [] -> Forall elem_ok cs -> Clean (abs cs +:+ "/") = abs cs.
Proof.
  intros Hne Hcs. unfold Clean. rw bool_decide_false; [done|].
  replace (HasPrefix (abs cs +:+ "/") "/") with true
    by (symmetry; unfold abs; rw str_app_assoc; apply HasPrefix_app).
  replace (abs cs +:+ "/") with ("" +:+ String "/" (Join "/" (cs ++ [""]))).
  2:{ unfold abs. by rw Join_app1. }
  rw Split_app // Split_Join.
  { by destruct cs. }
  { apply Forall_app. split; [|by repeat constructor].
    eapply Forall_impl; [done|]. by intros c (_ & _ & _ & ?). }
  assert (clean_go true [] ("" :: cs ++ [""]) = reverse cs) as ->.
  { change (clean_go true [] (cs ++ [""]) = reverse cs).
    by rw clean_go_app (clean_go_ok true cs) //= app_nil_r. }
  by rw reverse_involutive.
Qed.

Lemma upto_last_slash_nosep c : str_mem "/" c = false -> upto_last_slash c = "".
Proof.
  induction c as [|d c IH]; simpl; [done|]. intros [Hd Hc]%orb_false_iff. by rw IH // Hd.
Qed.

Lemma upto_last_slash_app s c :
  str_mem "/" c = false -> upto_last_slash (s +:+ String "/" c) = s +:+ "/".
Proof.
  intros Hc. induction s as [|d s IH].
  - rw !str_app_nil_l. simpl. by rw upto_last_slash_nosep.
  - rw !str_app_cons. simpl. rw IH. by destruct s.
Qed.

Lemma Dir_abs cs c : Forall elem_ok cs -> elem_ok c -> Dir (abs (cs ++ [c])) = abs cs.
Proof.
  intros Hcs (_ & _ & _ & Hc). unfold Dir. destruct (decide (cs = [])) as [->|Hne].
  - change (abs ([] ++ [c])) with ("" +:+ String "/" c). by rw upto_last_slash_app.
  - replace (abs (cs ++ [c])) with (abs cs +:+ String "/" c).
    + rw upto_last_slash_app // Clean_abs_slash //.
    + unfold abs. by rw Join_app1.
Qed.

Lemma abs_not_root cs : cs <> [] -> Forall elem_ok cs -> abs cs <> "/" /\ abs cs <> ".".
Proof.
  intros Hne Hcs. split; [|done]. unfold abs. intros E.
  assert (Hj : Join "/" cs <> "").
  { apply Join_not_nil; [done|]. eapply Forall_impl; [done|]. by intros c (? & _). }
  change ("/" +:+ Join "/" cs) with (String "/" (Join "/" cs)) in E. by injection E.
Qed.

End Filepath.
