(* ===== verification/Types.v ===== *)
(** * virtcontainers/types

    The data types shared by the runtime: the sandbox and container state
    machine ([types/sandbox.go], [types/container.go]), the volume and socket
    lists with their command line syntax, hot-plug bridges
    ([types/bridges.go]), PCI paths ([types/pcipath.go]), hypervisor
    capabilities ([types/capabilities.go]) and assets ([types/asset.go]). *)
From S2P Require Import Prelude GoStr.

(** ** The state machine of sandboxes and containers *)
Module Lifecycle.

(** [StateString] is a string type: the zero value [""] and any text read back
    from disk are values of it. *)
Definition StateString : Type := string.
Definition StateReady : StateString := "ready".
Definition StateRunning : StateString := "running".
Definition StatePaused : StateString := "paused".
Definition StateStopped : StateString := "stopped".
Definition StateCreating : StateString := "creating".

Definition valid (state : StateString) : bool :=
  existsb (fun v => bool_decide (state = v)) [StateReady; StateRunning; StatePaused; StateStopped].

Definition validTransition (state oldState newState : StateString) : res unit :=
  if bool_decide (state <> oldState) then Err (Errorf "Invalid state %v (Expecting %v)")
  else if bool_decide (state = StateReady) &&
          bool_decide (newState = StateRunning \/ newState = StateStopped) then Ok tt
  else if bool_decide (state = StateRunning) &&
          bool_decide (newState = StatePaused \/ newState = StateStopped) then Ok tt
  else if bool_decide (state = StatePaused) &&
          bool_decide (newState = StateRunning \/ newState = StateStopped) then Ok tt
  else if bool_decide (state = StateStopped) && bool_decide (newState = StateRunning) then Ok tt
  else Err (Errorf "Can not move from %v to %v").

(** [SandboxState]: the fields the modelled code reads or writes. *)
Record SandboxState := mkSandboxState {
  ss_BlockIndexMap : gset Z;
  ss_CgroupPaths : gmap string string;
  ss_State : StateString;
  ss_SandboxCgroupPath : string;
  ss_OverheadCgroupPath : string;
  ss_PersistVersion : Z;
  ss_GuestMemoryBlockSizeMB : Z;
  ss_GuestMemoryHotplugProbe : bool;
}.

Definition SandboxState_Valid (s : SandboxState) : bool := valid (ss_State s).

Definition SandboxState_ValidTransition (s : SandboxState) (o n : StateString) : res unit :=
  validTransition (ss_State s) o n.

Record ContainerState := mkContainerState {
  cs_State : StateString;
  cs_BlockDeviceID : string;
  cs_Fstype : string;
  cs_CgroupPath : string;
}.

Definition ContainerState_Valid (s : ContainerState) : bool := valid (cs_State s).

Definition ContainerState_ValidTransition (s : ContainerState) (o n : StateString) : res unit :=
  validTransition (cs_State s) o n.

(** The life-cycle diagram the code implements. *)
Inductive edge : StateString -> StateString -> Prop :=
| edge_start : edge StateReady StateRunning
| edge_abort : edge StateReady StateStopped
| edge_pause : edge StateRunning StatePaused
| edge_stop : edge StateRunning StateStopped
| edge_resume : edge StatePaused StateRunning
| edge_stop_paused : edge StatePaused StateStopped
| edge_restart : edge StateStopped StateRunning.

#[export] Hint Constructors edge : virt.

Lemma validTransition_edge state old new :
  validTransition state old new = Ok tt <-> state = old /\ edge old new.
Proof.
  unfold validTransition. split.
  - case_bool_decide as Hold; [done|]. subst old.
    repeat (case_bool_decide; simpl); try done; intros _; (split; [done|]);
      destruct_or?; subst; solve [auto with virt | exfalso; naive_solver].
  - intros [-> Hedge]. by destruct Hedge; vm_compute.
Qed.

Lemma edge_not_into_ready s : ~ edge s StateReady.
Proof. by inversion 1. Qed.

Lemma edge_valid s t : edge s t -> valid s = true /\ valid t = true.
Proof. by destruct 1. Qed.

Lemma valid_stop s : valid s = true -> s <> StateStopped -> edge s StateStopped.
Proof.
  unfold valid. simpl. intros Hv Hs. repeat (case_bool_decide; [subst; done || constructor|]). done.
Qed.

Lemma edge_not_stopped s : edge s StateStopped -> s <> StateStopped.
Proof. intros He ->. inversion He. Qed.

Lemma edges_from_ready s : rtc edge StateReady s -> valid s = true.
Proof.
  intros H. apply rtc_inv_r in H as [<-|(t & _ & Ht)]; [done|].
  by apply edge_valid in Ht as [_ ?].
Qed.

(** The state machine of sandboxes and containers: [validTransition] accepts
    exactly the seven edges of the life-cycle diagram, taken from the state the
    caller expects; every state reached from [ready] through accepted
    transitions is a valid state; and [ready] is never entered again. *)
Theorem validTransition_lifecycle :
  (forall state old new,
     validTransition state old new = Ok tt <-> state = old /\ edge old new) /\
  (forall s, rtc (fun a b => validTransition a a b = Ok tt) StateReady s -> valid s = true) /\
  (forall s t, tc (fun a b => validTransition a a b = Ok tt) s t -> t <> StateReady).
Proof.
  split_and!; [apply validTransition_edge| |].
  - intros s H. apply edges_from_ready. eapply rtc_subrel, H.
    intros a b ?%validTransition_edge. naive_solver.
  - induction 1 as [s t [_ Hst]%validTransition_edge|s t u _ _ IH]; [|done].
    intros ->. by destruct (edge_not_into_ready s).
Qed.

End Lifecycle.

(** ** Lists of records in command line syntax

    [Volumes.Set] and [Sockets.Set] share a shape: words separated by a space,
    each a fixed number of nonempty fields separated by a colon. *)
Module Fields.

Definition field_ok (f : string) : bool :=
  bool_decide (f <> "") && negb (str_mem " " f) && negb (str_mem ":" f).

Section Fields.
Context {A : Type} (enc : A -> list string) (n : nat).

(** The body of the range loop, as a partial decoding of one word. *)
Context (dec : string -> option A) (body : string -> M (list A) unit).
Hypothesis body_some : forall w x s, dec w = Some x -> body w s = (Ok tt, s ++ [x]).
Hypothesis body_none : forall w s, dec w = None -> exists e, body w s = (Err e, s).
Hypothesis dec_iff : forall w x, dec w = Some x <->
  Split ":" w = enc x /\ length (enc x) = n /\ Forall (fun f => f <> "") (enc x).
Hypothesis n_pos : n <> O.

Definition enc_word (x : A) : string := Join ":" (enc x).

Lemma enc_word_dec w x :
  dec w = Some x -> w = enc_word x.
Proof.
  intros [E _]%dec_iff. unfold enc_word. by rw -E Join_Split.
Qed.

Lemma dec_enc_word x :
  length (enc x) = n -> Forall (fun f => field_ok f = true) (enc x) ->
  dec (enc_word x) = Some x /\ str_mem " " (enc_word x) = false.
Proof.
  intros Hn Hall.
  assert (Hne : enc x <> []) by (intros E; rw E in Hn; by apply n_pos).
  split.
  - apply dec_iff. split_and!; [apply Split_Join; [done|]|done|];
      (eapply Forall_impl; [exact Hall|]); intros f Hf; unfold field_ok in Hf; by bool_to_prop.
  - unfold enc_word. clear Hn Hne. induction Hall as [|f l Hf Hl IH]; [done|].
    unfold field_ok in Hf. bool_to_prop.
    destruct l as [|g l]; [done|].
    change (Join ":" (f :: g :: l)) with (f +:+ ":" +:+ Join ":" (g :: l)).
    by rw !str_mem_app IH; destruct (str_mem " " f).
Qed.

Lemma for_each_dec ws s :
  match mapM dec ws with
  | Some xs => for_each ws body s = (Ok tt, s ++ xs)
  | None => exists e s', for_each ws body s = (Err e, s')
  end.
Proof.
  revert s. induction ws as [|w ws IH]; intros s; simpl; [by rw app_nil_r|].
  munfold. destruct (dec w) as [x|] eqn:Ed; simpl.
  - rw (body_some w x s Ed). specialize (IH (s ++ [x])).
    destruct (mapM dec ws) as [xs|]; simpl; [|done]. by rw IH -app_assoc.
  - destruct (body_none w s Ed) as [e ->]. by exists e, s.
Qed.

Lemma mapM_dec ws xs :
  mapM dec ws = Some xs <->
  ws = enc_word <$> xs /\ Forall (fun x => dec (enc_word x) = Some x) xs.
Proof.
  rw mapM_Some. split.
  - induction 1 as [|w x ws xs Hw Hws [IH1 IH2]]; [done|].
    pose proof (enc_word_dec w x Hw). subst w. simpl. split; [by f_equal|by constructor].
  - intros [-> H]. induction H; simpl; by constructor.
Qed.

Definition record_ok (x : A) : Prop :=
  length (enc x) = n /\ Forall (fun f => field_ok f = true) (enc x).

Lemma dec_record_ok w x : str_mem " " w = false -> dec w = Some x -> record_ok x.
Proof.
  intros Hsp Hw. pose proof (enc_word_dec w x Hw) as ->.
  apply dec_iff in Hw as (E & Hn & Hne). split; [done|].
  pose proof (Split_words_no_sep ":" (enc_word x)) as Hc. rw E in Hc.
  assert (Hs : Forall (fun f => str_mem " " f = false) (enc x)).
  { clear -Hsp. unfold enc_word in Hsp. induction (enc x) as [|f l IH]; [done|].
    destruct l as [|g l]; [by constructor|].
    change (Join ":" (f :: g :: l)) with (f +:+ ":" +:+ Join ":" (g :: l)) in Hsp.
    rw !str_mem_app in Hsp. bool_to_prop. constructor; [done|]. by apply IH. }
  rw !Forall_forall in Hne Hc Hs *. intros f Hf.
  unfold field_ok. rw (Hs f Hf) (Hc f Hf) bool_decide_true //. by apply Hne.
Qed.

(** [Set] on a nonempty string, then the list it appends, are inverse to the
    printer on the lists of well-formed records. *)
Lemma Set_roundtrip str s xs :
  str <> "" ->
  (for_each (Split " " str) body s = (Ok tt, s ++ xs)) <->
  (xs <> [] /\ Forall record_ok xs /\ Join " " (enc_word <$> xs) = str).
Proof.
  intros Hstr. pose proof (for_each_dec (Split " " str) s) as Hd. split.
  - intros E. rw E in Hd.
    destruct (mapM dec (Split " " str)) as [ys|] eqn:Em; [|by destruct Hd as (?&?&?)].
    injection Hd as ->%(inj (app s)).
    apply mapM_dec in Em as [Ews Hall]. split_and!.
    + intros ->. by apply (Split_not_nil " " str).
    + pose proof (Split_words_no_sep " " str) as Hw. rw Ews in Hw.
      rw Forall_fmap in Hw. rw !Forall_forall in Hw Hall *.
      intros x Hx. eapply dec_record_ok; [|by apply Hall]. by apply Hw.
    + by rw -Ews Join_Split.
  - intros (Hne & Hok & <-).
    assert (Hall : Forall (fun x => dec (enc_word x) = Some x /\ str_mem " " (enc_word x) = false) xs).
    { eapply Forall_impl; [done|]. intros x [? ?]. by apply dec_enc_word. }
    assert (Em : mapM dec (Split " " (Join " " (enc_word <$> xs))) = Some xs).
    { rw Split_Join; [by destruct xs| |].
      - apply Forall_fmap. eapply Forall_impl; [done|]. by intros x [_ ?].
      - apply mapM_dec. split; [done|]. eapply Forall_impl; [done|]. by intros x [? _]. }
    by rw Em in Hd.
Qed.

End Fields.
End Fields.

(** ** Volumes *)
Module Volumes.

Record Volume := mkVolume { vol_MountTag : string; vol_HostPath : string }.

#[export] Instance Volume_eq_dec : EqDecision Volume.
Proof. solve_decision. Defined.

(** The range loop of [Set]: the volumes of the words before a malformed one
    stay appended. *)
Definition Volumes_Set_word (vol : string) : M (list Volume) unit :=
  match Split ":" vol with
  | [a0; a1] =>
      if bool_decide (a0 = "") || bool_decide (a1 = "")
      then throw (Errorf "Volume parameters cannot be empty")
      else modify (fun v => v ++ [mkVolume a0 a1])
  | _ => throw (Errorf "Wrong string format: %s, expecting only %v parameters separated with %q")
  end.

Definition Volumes_Set (volStr : string) : M (list Volume) unit :=
  if bool_decide (volStr = "") then throw (Errorf "volStr cannot be empty")
  else for_each (Split " " volStr) Volumes_Set_word.

Definition Volumes_String (v : list Volume) : string :=
  Join " " ((fun vol => vol_MountTag vol +:+ ":" +:+ vol_HostPath vol) <$> v).

(** What the syntax can express: nonempty vol_fields without separators. *)
Definition volume_ok (v : Volume) : bool :=
  Fields.field_ok (vol_MountTag v) && Fields.field_ok (vol_HostPath v).

Definition vol_fields (v : Volume) : list string := [vol_MountTag v; vol_HostPath v].

Definition vol_dec (w : string) : option Volume :=
  match Split ":" w with
  | [a0; a1] => if bool_decide (a0 = "") || bool_decide (a1 = "") then None
                else Some (mkVolume a0 a1)
  | _ => None
  end.

Lemma vol_word_some w x s : vol_dec w = Some x -> Volumes_Set_word w s = (Ok tt, s ++ [x]).
Proof. unfold vol_dec, Volumes_Set_word. intros. by repeat case_match; simplify_eq. Qed.

Lemma vol_word_none w s : vol_dec w = None -> exists e, Volumes_Set_word w s = (Err e, s).
Proof. unfold vol_dec, Volumes_Set_word. intros. repeat case_match; simplify_eq; by eexists. Qed.

Lemma vol_dec_iff w x :
  vol_dec w = Some x <->
  Split ":" w = vol_fields x /\ length (vol_fields x) = 2%nat /\ Forall (fun f => f <> "") (vol_fields x).
Proof.
  unfold vol_dec, vol_fields. destruct x as [a b]; simpl. split.
  - intros. repeat case_match; simplify_eq. bool_to_prop. by repeat constructor.
  - intros (-> & _ & Hall). rw !Forall_cons in Hall. destruct Hall as (?&?&_).
    by rw !bool_decide_false.
Qed.

Lemma vol_record_ok x : Fields.record_ok vol_fields 2 x <-> volume_ok x = true.
Proof.
  unfold Fields.record_ok, volume_ok, vol_fields. rw !Forall_cons andb_true_iff. naive_solver.
Qed.

(** [Volumes.Set] and [Volumes.String] are inverse to each other: [Set] on a
    string appends [vs] without an error exactly when [vs] is a nonempty list
    of volumes whose tag and path are nonempty and hold no separator, and the
    string is the one [String] prints for [vs]. *)
Theorem Volumes_Set_String str v vs :
  Volumes_Set str v = (Ok tt, v ++ vs) <->
  (vs <> [] /\ Forall (fun x => volume_ok x = true) vs /\ Volumes_String vs = str).
Proof.
  pose proof (Fields.Set_roundtrip vol_fields 2 vol_dec Volumes_Set_word vol_word_some vol_word_none
    vol_dec_iff ltac:(done) str v vs) as H.
  rw (Forall_iff _ _ _ vol_record_ok) in H. unfold Volumes_Set.
  case_bool_decide as Hs; [|by apply H]. subst str. split; [done|].
  intros (Hne & Hok & E). destruct vs as [|x vs]; [done|].
  apply Forall_cons in Hok as [Hx _]. unfold volume_ok, Fields.field_ok in Hx.
  destruct x as [[|c t] p]; [done|]. by destruct vs.
Qed.

End Volumes.

(** ** Sockets *)
Module Sockets.

Record Socket := mkSocket {
  sock_DeviceID : string; sock_ID : string; sock_HostPath : string; sock_Name : string }.

#[export] Instance Socket_eq_dec : EqDecision Socket.
Proof. solve_decision. Defined.

Definition Sockets_Set_word (sock : string) : M (list Socket) unit :=
  match Split ":" sock with
  | [a0; a1; a2; a3] =>
      if existsb (fun a => bool_decide (a = "")) [a0; a1; a2; a3]
      then throw (Errorf "Socket parameters cannot be empty")
      else modify (fun s => s ++ [mkSocket a0 a1 a2 a3])
  | _ => throw (Errorf "Wrong string format: %s, expecting only %v parameters separated with %q")
  end.

Definition Sockets_Set (sockStr : string) : M (list Socket) unit :=
  if bool_decide (sockStr = "") then throw (Errorf "sockStr cannot be empty")
  else for_each (Split " " sockStr) Sockets_Set_word.

Definition Sockets_String (s : list Socket) : string :=
  Join " " ((fun k => sock_DeviceID k +:+ ":" +:+ sock_ID k +:+ ":" +:+ sock_HostPath k +:+ ":" +:+ sock_Name k) <$> s).

Definition sock_fields (k : Socket) : list string := [sock_DeviceID k; sock_ID k; sock_HostPath k; sock_Name k].

Definition socket_ok (k : Socket) : bool := forallb Fields.field_ok (sock_fields k).

Definition sock_dec (w : string) : option Socket :=
  match Split ":" w with
  | [a0; a1; a2; a3] =>
      if existsb (fun a => bool_decide (a = "")) [a0; a1; a2; a3] then None
      else Some (mkSocket a0 a1 a2 a3)
  | _ => None
  end.

Lemma sock_word_some w x s : sock_dec w = Some x -> Sockets_Set_word w s = (Ok tt, s ++ [x]).
Proof. unfold sock_dec, Sockets_Set_word. intros. by repeat case_match; simplify_eq. Qed.

Lemma sock_word_none w s : sock_dec w = None -> exists e, Sockets_Set_word w s = (Err e, s).
Proof. unfold sock_dec, Sockets_Set_word. intros. repeat case_match; simplify_eq; by eexists. Qed.

Lemma sock_dec_iff w x :
  sock_dec w = Some x <->
  Split ":" w = sock_fields x /\ length (sock_fields x) = 4%nat /\ Forall (fun f => f <> "") (sock_fields x).
Proof.
  unfold sock_dec, sock_fields. destruct x as [a b c d]; cbn [sock_DeviceID sock_ID sock_HostPath sock_Name]. split.
  - intros. repeat case_match; simplify_eq. cbn [existsb] in *. bool_to_prop.
    by repeat constructor.
  - intros (-> & _ & Hall). rw !Forall_cons in Hall. destruct Hall as (?&?&?&?&_).
    cbn [existsb]. by rw !bool_decide_false.
Qed.

Lemma sock_record_ok x : Fields.record_ok sock_fields 4 x <-> socket_ok x = true.
Proof.
  unfold Fields.record_ok, socket_ok, sock_fields. cbn [forallb].
  rw !Forall_cons !andb_true_iff. naive_solver.
Qed.

(** [Sockets.Set] and [Sockets.String] are inverse to each other: [Set]
    appends [ks] without an error exactly when [ks] is a nonempty list of
    sockets whose four fields are nonempty and hold no separator, and the
    string is the one [String] prints for [ks]. *)
Theorem Sockets_Set_String str s ks :
  Sockets_Set str s = (Ok tt, s ++ ks) <->
  (ks <> [] /\ Forall (fun x => socket_ok x = true) ks /\ Sockets_String ks = str).
Proof.
  pose proof (Fields.Set_roundtrip sock_fields 4 sock_dec Sockets_Set_word sock_word_some sock_word_none
    sock_dec_iff ltac:(done) str s ks) as H.
  rw (Forall_iff _ _ _ sock_record_ok) in H. unfold Sockets_Set.
  case_bool_decide as Hs; [|by apply H]. subst str. split; [done|].
  intros (Hne & Hok & E). destruct ks as [|x ks]; [done|].
  apply Forall_cons in Hok as [Hx _]. unfold socket_ok, sock_fields, Fields.field_ok in Hx.
  destruct x as [[|c t] p q r]; [done|]. by destruct ks.
Qed.

End Sockets.

(** ** Hot-plug bridges *)
Module Bridges.

Definition BridgeType : Type := string.
Definition PCI : BridgeType := "pci".
Definition PCIE : BridgeType := "pcie".
Definition CCW : BridgeType := "ccw".
Definition PCIBridgeMaxCapacity : Z := 30.
Definition CCWBridgeMaxCapacity : Z := 65535.

Record Bridge := mkBridge {
  br_Devices : gmap Z string;
  br_ID : string;
  br_Type : BridgeType;
  br_Addr : Z;
  br_MaxCapacity : Z;
}.

Definition set_Devices (b : Bridge) (d : gmap Z string) : Bridge :=
  mkBridge d (br_ID b) (br_Type b) (br_Addr b) (br_MaxCapacity b).

Definition NewBridge (bt : BridgeType) (id : string) (devices : gmap Z string) (addr : Z) : Bridge :=
  let maxCapacity :=
    if bool_decide (bt = PCI) || bool_decide (bt = PCIE) then PCIBridgeMaxCapacity
    else if bool_decide (bt = CCW) then CCWBridgeMaxCapacity
    else 0 in
  mkBridge devices id bt addr maxCapacity.

Definition slot_used (b : Bridge) (i : Z) : bool := bool_decide (is_Some (br_Devices b !! i)).

Definition AddDevice (ID : string) : M Bridge Z :=
  b ← get;
  match first_free (slot_used b) 1 (Z.to_nat (br_MaxCapacity b)) with
  | None => throw (Errorf "Unable to hot plug device on bridge: there are no empty slots")
  | Some addr => _ ← put (set_Devices b (<[addr := ID]> (br_Devices b))); mret addr
  end.

(** The range over [b.Devices] stops at the first binding of [ID] it meets. *)
Definition RemoveDevice `{GoRange} (ID : string) : M Bridge unit :=
  b ← get;
  match list_find (fun kv : Z * string => kv.2 = ID) (range_map (br_Devices b)) with
  | Some (_, (addr, _)) => put (set_Devices b (delete addr (br_Devices b)))
  | None => throw (Errorf "Unable to hot unplug device %s: not present on bridge")
  end.

Definition AddressFormatCCW (b : Bridge) (addr : string) : res string :=
  if bool_decide (br_Type b <> CCW) then Err (Errorf "Expected bridge type %T, got %T (%+v)")
  else Ok ("fe." +:+ fmt_x (br_Addr b) +:+ "." +:+ addr).

Definition AddressFormatCCWForVirtServer (b : Bridge) (addr : string) : res string :=
  if bool_decide (br_Type b <> CCW) then Err (Errorf "Wrong bridge type")
  else Ok ("0." +:+ fmt_x (br_Addr b) +:+ "." +:+ addr).

(** Every device sits at an address the bridge has. *)
Definition bridge_inv (b : Bridge) : Prop :=
  0 <= br_MaxCapacity b /\ forall i, is_Some (br_Devices b !! i) -> 1 <= i <= br_MaxCapacity b.

Lemma NewBridge_inv bt id addr : bridge_inv (NewBridge bt id ∅ addr).
Proof.
  split; [|intros i; rw lookup_empty; by intros [? ?]].
  unfold NewBridge; simpl. by repeat case_match.
Qed.

Lemma bridge_full_size b :
  bridge_inv b -> (forall i, 1 <= i <= br_MaxCapacity b -> slot_used b i = true) ->
  Z.of_nat (size (br_Devices b)) = br_MaxCapacity b.
Proof.
  intros [Hpos Hin] Hall. rw -size_dom.
  assert (dom (br_Devices b) = list_to_set (seqZ 1 (br_MaxCapacity b))) as ->.
  { apply set_eq. intros i. rw elem_of_dom elem_of_list_to_set elem_of_seqZ. split.
    - intros ?%Hin. lia.
    - intros Hi. eapply bool_decide_eq_true, Hall. lia. }
  rw size_list_to_set; [apply NoDup_seqZ|]. rw length_seqZ. lia.
Qed.

Lemma AddDevice_cases ID b :
  bridge_inv b ->
  match AddDevice ID b with
  | (Ok a, b') =>
      1 <= a <= br_MaxCapacity b /\ br_Devices b !! a = None /\
      (forall j, 1 <= j < a -> is_Some (br_Devices b !! j)) /\
      b' = set_Devices b (<[a := ID]> (br_Devices b))
  | (Err _, b') => b' = b /\ Z.of_nat (size (br_Devices b)) = br_MaxCapacity b
  end.
Proof.
  intros Hinv. unfold AddDevice. munfold.
  destruct (first_free _ _ _) as [a|] eqn:E.
  - apply first_free_Some in E as (Ha & Hu & Hall). destruct Hinv as [Hpos _].
    split_and!; [lia|lia| | |done].
    + unfold slot_used in Hu. bool_to_prop. by apply eq_None_not_Some.
    + intros j Hj. by eapply bool_decide_eq_true, Hall.
  - split; [done|]. apply bridge_full_size; [done|].
    intros i Hi. apply (proj1 (first_free_None _ _ _) E).
    destruct Hinv. lia.
Qed.

Lemma insert_inv b a ID :
  bridge_inv b -> 1 <= a <= br_MaxCapacity b ->
  bridge_inv (set_Devices b (<[a := ID]> (br_Devices b))).
Proof.
  intros [Hpos Hin] Ha. split; [done|]. intros i. simpl.
  destruct (decide (i = a)) as [->|]; [done|]. rw lookup_insert_ne //. apply Hin.
Qed.

Lemma RemoveDevice_cases `{GoRange} ID b :
  match RemoveDevice ID b with
  | (Ok _, b') => exists a, br_Devices b !! a = Some ID /\
                            b' = set_Devices b (delete a (br_Devices b))
  | (Err _, b') => b' = b /\ forall a, br_Devices b !! a <> Some ID
  end.
Proof.
  unfold RemoveDevice. munfold.
  destruct (list_find _ _) as [[i [a d]]|] eqn:E.
  - apply list_find_Some in E as (Hl & Hd & _). simpl in Hd. subst d.
    exists a. split; [|done]. apply elem_of_range_map. by eapply list_elem_of_lookup_2.
  - split; [done|]. intros a Ha. apply list_find_None in E.
    rw Forall_forall in E. apply elem_of_range_map in Ha. by apply (E _ Ha).
Qed.

(** [Bridge.AddDevice] on a well-formed bridge takes the lowest free address
    of 1..MaxCapacity and binds the device to it, leaving every other binding
    and the invariant in place; it fails only when all MaxCapacity addresses
    are taken, and then changes nothing. *)
Theorem AddDevice_spec ID b :
  bridge_inv b ->
  match AddDevice ID b with
  | (Ok a, b') =>
      1 <= a <= br_MaxCapacity b /\ br_Devices b !! a = None /\
      (forall j, 1 <= j < a -> is_Some (br_Devices b !! j)) /\
      b' = set_Devices b (<[a := ID]> (br_Devices b)) /\ bridge_inv b' /\
      (Z.of_nat (size (br_Devices b)) < br_MaxCapacity b)
  | (Err _, b') => b' = b /\ Z.of_nat (size (br_Devices b)) = br_MaxCapacity b
  end.
Proof.
  intros Hinv. pose proof (AddDevice_cases ID b Hinv) as H.
  destruct (AddDevice ID b) as [[a|e] b']; [|done].
  destruct H as (Ha & Hf & Hlow & ->). split_and!; try done; try lia.
  - by apply insert_inv.
  - pose proof (map_size_insert_None a ID (br_Devices b) Hf) as Hs.
    assert (Hle : (size (<[a := ID]> (br_Devices b)) <= Z.to_nat (br_MaxCapacity b))%nat); [|lia].
    rw -size_dom -(length_seqZ 1 (br_MaxCapacity b)) -(size_list_to_set (C:=gset Z)); [apply NoDup_seqZ|].
    apply subseteq_size. intros i. rw elem_of_dom elem_of_list_to_set elem_of_seqZ.
    intros Hi. pose proof (insert_inv b a ID Hinv Ha) as [_ Hin]. specialize (Hin i Hi). simpl in Hin. lia.
Qed.

(** A device added to a bridge can be removed again, whatever order Go
    ranges over the map in: when [ID] was not on the bridge, [RemoveDevice]
    after a successful [AddDevice] restores the bridge exactly, and
    [RemoveDevice] of a device that is not on the bridge fails and changes
    nothing. *)
Theorem AddDevice_RemoveDevice `{GoRange} ID b a b' :
  bridge_inv b -> (forall i, br_Devices b !! i <> Some ID) -> AddDevice ID b = (Ok a, b') ->
  RemoveDevice ID b' = (Ok tt, b) /\ exists e, RemoveDevice ID b = (Err e, b).
Proof.
  intros Hinv Hnot Hadd.
  pose proof (AddDevice_cases ID b Hinv) as Hc. rw Hadd in Hc. destruct Hc as (_ & Hf & _ & ->).
  pose proof (RemoveDevice_cases ID (set_Devices b (<[a := ID]> (br_Devices b)))) as Hr.
  pose proof (RemoveDevice_cases ID b) as Hr'. split.
  - destruct (RemoveDevice _ _) as [[[]|e] b'']; simpl in Hr.
    + destruct Hr as (i & Hi & ->). apply lookup_insert_Some in Hi as [[<- _]|[_ Hi]]; [|by destruct (Hnot i)].
      do 2 f_equal. destruct b; unfold set_Devices; simpl in *. by rw delete_insert_id.
    + destruct Hr as [_ Hr]. by destruct (Hr a); rw lookup_insert_eq.
  - destruct (RemoveDevice ID b) as [[[]|e] b'']; [|by destruct Hr' as [-> _]; exists e].
    destruct Hr' as (i & Hi & _). by destruct (Hnot i).
Qed.

(** A PCI bridge with addresses 1 and 3 taken. *)
Definition bridge_demo : Bridge := NewBridge PCI "pci-0" (<[1 := "blk-a"]> (<[3 := "blk-b"]> ∅)) 2.

Lemma bridge_demo_inv : bridge_inv bridge_demo.
Proof.
  split; [done|]. intros i [d Hd]. unfold bridge_demo, NewBridge in Hd. simpl in Hd.
  change (br_MaxCapacity bridge_demo) with 30.
  apply lookup_insert_Some in Hd as [[<- _]|[_ Hd]]; [lia|].
  apply lookup_insert_Some in Hd as [[<- _]|[_ Hd]]; [lia|]. done.
Qed.

Lemma bridge_demo_fresh i : br_Devices bridge_demo !! i <> Some "net-c".
Proof.
  intros Hd. unfold bridge_demo, NewBridge in Hd. simpl in Hd.
  apply lookup_insert_Some in Hd as [[_ ?]|[_ Hd]]; [done|].
  by apply lookup_insert_Some in Hd as [[_ ?]|[_ Hd]].
Qed.

Lemma AddDevice_spec_witness :
  bridge_inv bridge_demo /\ (AddDevice "net-c" bridge_demo).1 = Ok 2 /\
  br_Devices bridge_demo !! 2 = None.
Proof.
  split; [exact bridge_demo_inv|]. split; [by vm_compute|].
  pose proof (AddDevice_spec "net-c" bridge_demo bridge_demo_inv) as H. vm_compute in H |- *.
  exact (proj1 (proj2 H)).
Defined.

Lemma AddDevice_RemoveDevice_witness :
  RemoveDevice (H:=range_default) "net-c" (AddDevice "net-c" bridge_demo).2 = (Ok tt, bridge_demo).
Proof.
  refine (proj1 (AddDevice_RemoveDevice (H:=range_default) "net-c" bridge_demo 2 _
    bridge_demo_inv bridge_demo_fresh _)). by vm_compute.
Defined.

End Bridges.

(** ** PCI paths *)
Module PciPaths.

Definition pciSlotBits : Z := 5.
Definition maxPciSlot : Z := Z.shiftl 1 pciSlotBits - 1.

(** [PciSlot] wraps a [uint8]; [PciPath] a slice of slots whose nil value is
    the empty list. *)
Definition PciSlot : Type := Z.
Definition PciPath : Type := list PciSlot.

Definition PciSlotFromString (s : string) : res PciSlot :=
  v ← ParseUint s 16 pciSlotBits; mret (u8 v).

Definition PciSlotFromInt (v : Z) : res PciSlot :=
  if (v <? 0) || (maxPciSlot <? v) then Err (Errorf "PCI slot 0x%x should be in range [0..0x%x]")
  else Ok (u8 v).

Definition PciSlot_String (slot : PciSlot) : string := fmt_02x slot.

Definition PciPath_String (p : PciPath) : string := Join "/" (PciSlot_String <$> p).

Definition PciPath_IsNil (p : PciPath) : bool := bool_decide (p = []).

Definition PciPath_ToArray (p : PciPath) : list Z := u32 <$> p.

Definition PciPathFromString (s : string) : res PciPath :=
  if bool_decide (s = "") then Ok []
  else (fix go (tokens : list string) : res PciPath :=
    match tokens with
    | [] => Ok []
    | t :: ts => slot ← PciSlotFromString t; slots ← go ts; mret (slot :: slots)
    end) (Split "/" s).

Definition PciPathFromSlots (slots : list PciSlot) : res PciPath :=
  match slots with
  | [] => Err (Errorf "PCI path needs at least one component")
  | _ => Ok slots
  end.

Definition slot_ok (v : PciSlot) : Prop := 0 <= v <= maxPciSlot.

Lemma PciSlotFromString_ok s v : PciSlotFromString s = Ok v -> slot_ok v.
Proof.
  unfold PciSlotFromString. munfold. destruct (ParseUint s 16 pciSlotBits) as [n|] eqn:E; [|done].
  intros [= <-]. apply ParseUint_bound in E; [|done|done].
  unfold slot_ok, u8, wrapu. rw Z.mod_small; change maxPciSlot with 31; change (2 ^ pciSlotBits) with 32 in E; lia.
Qed.

Lemma PciSlot_roundtrip v : slot_ok v -> PciSlotFromString (PciSlot_String v) = Ok v.
Proof.
  unfold slot_ok, PciSlotFromString, PciSlot_String. change maxPciSlot with 31. intros Hv.
  munfold. rw ParseUint_fmt_02x; [change (2 ^ pciSlotBits) with 32; lia|].
  unfold u8. by rw wrapu_small; [lia|].
Qed.

Lemma PciSlot_String_nosep v : slot_ok v -> str_mem "/" (PciSlot_String v) = false.
Proof.
  intros Hv. apply (str_all_not_mem is_hex); [|done]. apply fmt_02x_hex.
  unfold slot_ok in Hv. lia.
Qed.

Lemma PciSlot_String_not_nil v : slot_ok v -> PciSlot_String v <> "".
Proof.
  intros Hv E. pose proof (PciSlot_roundtrip v Hv) as H. by rw E in H.
Qed.

Lemma PciPath_String_not_nil p :
  p <> [] -> Forall slot_ok p -> PciPath_String p <> "".
Proof.
  intros Hp Hok. destruct Hok as [|v p Hv _]; [done|].
  apply PciSlot_String_not_nil in Hv. unfold PciPath_String; simpl.
  by destruct (PciSlot_String v), p.
Qed.

Lemma PciPath_print_parse p : Forall slot_ok p -> PciPathFromString (PciPath_String p) = Ok p.
Proof.
  intros Hok. destruct (decide (p = [])) as [->|Hp]; [done|].
  unfold PciPathFromString. rw bool_decide_false; [by apply PciPath_String_not_nil|].
  unfold PciPath_String. rw Split_Join; [by destruct p| |].
  - apply Forall_fmap. eapply Forall_impl; [done|]. apply PciSlot_String_nosep.
  - clear Hp. induction Hok as [|v p Hv Hok IH]; [done|].
    cbn [fmap list_fmap]. rw PciSlot_roundtrip // IH //.
Qed.

Lemma PciPath_parse_ok s p : PciPathFromString s = Ok p -> Forall slot_ok p.
Proof.
  unfold PciPathFromString. case_bool_decide; [by intros [= <-]|].
  revert p. induction (Split "/" s) as [|t ts IH]; intros p; [by intros [= <-]|].
  munfold. destruct (PciSlotFromString t) as [v|] eqn:Ev; [|done].
  destruct ((fix go (l : list string) : res PciPath := _) ts) as [vs|]; [|done].
  intros [= <-]. constructor; [by eapply PciSlotFromString_ok|by apply IH].
Qed.

(** PCI paths round trip through their text form: printing a path of 5-bit
    slots and parsing the text gives the path back, every path the parser or
    the integer constructor accepts has 5-bit slots only, and so printing and
    parsing again is the identity on whatever was parsed. *)
Theorem PciPath_roundtrip :
  (forall p, Forall slot_ok p -> PciPathFromString (PciPath_String p) = Ok p) /\
  (forall s p, PciPathFromString s = Ok p ->
     Forall slot_ok p /\ PciPathFromString (PciPath_String p) = Ok p) /\
  (forall v, is_ok (PciSlotFromInt v) = true <-> slot_ok v) /\
  (forall v w, PciSlotFromInt v = Ok w -> w = v).
Proof.
  split_and!; [apply PciPath_print_parse| | |].
  - intros s p ?%PciPath_parse_ok. split; [done|by apply PciPath_print_parse].
  - intros v. unfold PciSlotFromInt, slot_ok. case_match; bool_to_prop; simpl; [|lia].
    split; [done|]. rw orb_true_iff in H. lia.
  - intros v w. unfold PciSlotFromInt. change maxPciSlot with 31. case_match; [done|].
    bool_to_prop. intros [= <-]. apply wrapu_small. lia.
Qed.

End PciPaths.

(** ** Hypervisor capabilities *)
Module Caps.

(** [Capabilities] is a bit mask of type [uint]. *)
Definition Capabilities : Type := Z.

Definition blockDeviceSupport : Z := Z.shiftl 1 0.
Definition blockDeviceHotplugSupport : Z := Z.shiftl 1 1.
Definition multiQueueSupport : Z := Z.shiftl 1 2.
Definition fsSharingSupported : Z := Z.shiftl 1 3.

Definition IsBlockDeviceSupported (flags : Capabilities) : bool :=
  negb (Z.land flags blockDeviceSupport =? 0).
Definition SetBlockDeviceSupport (flags : Capabilities) : Capabilities :=
  Z.lor flags blockDeviceSupport.
Definition IsBlockDeviceHotplugSupported (flags : Capabilities) : bool :=
  negb (Z.land flags blockDeviceHotplugSupport =? 0).
Definition SetBlockDeviceHotplugSupport (flags : Capabilities) : Capabilities :=
  Z.lor flags blockDeviceHotplugSupport.
Definition IsMultiQueueSupported (flags : Capabilities) : bool :=
  negb (Z.land flags multiQueueSupport =? 0).
Definition SetMultiQueueSupport (flags : Capabilities) : Capabilities :=
  Z.lor flags multiQueueSupport.
Definition IsFsSharingSupported (flags : Capabilities) : bool :=
  negb (Z.land flags fsSharingSupported =? 0).
Definition SetFsSharingSupport (flags : Capabilities) : Capabilities :=
  Z.lor flags fsSharingSupported.

(** The abstract view: the set of bit numbers that are on. *)
Definition caps_abs (flags : Capabilities) : gset Z :=
  list_to_set (filter (fun i => Z.testbit flags i = true) [0; 1; 2; 3]).

Lemma land_shiftl_testbit flags i :
  0 <= i -> negb (Z.land flags (Z.shiftl 1 i) =? 0) = Z.testbit flags i.
Proof.
  intros Hi. rw Z.shiftl_1_l. destruct (Z.testbit flags i) eqn:E.
  - apply negb_true_iff, Z.eqb_neq. intros H0.
    assert (Ht : Z.testbit (Z.land flags (2 ^ i)) i = false) by by rw H0 Z.bits_0.
    rw Z.land_spec E Z.pow2_bits_true // in Ht.
  - apply negb_false_iff, Z.eqb_eq, Z.bits_inj. intros j.
    rw Z.land_spec Z.bits_0. destruct (decide (i = j)) as [<-|]; [by rw E|].
    by rw Z.pow2_bits_false // andb_false_r.
Qed.

Lemma lor_shiftl_testbit flags i j :
  0 <= i -> Z.testbit (Z.lor flags (Z.shiftl 1 i)) j = Z.testbit flags j || bool_decide (i = j).
Proof.
  intros Hi. rw Z.lor_spec Z.shiftl_1_l. case_bool_decide as H.
  - subst j. by rw Z.pow2_bits_true.
  - by rw Z.pow2_bits_false.
Qed.

(** The capability mask behaves as a set: each [Set*] adds its own
    capability and nothing else, and each [Is*] tests membership of its own. *)
Theorem capabilities_are_a_set flags :
  (IsBlockDeviceSupported flags = bool_decide (0 ∈ caps_abs flags) /\
   IsBlockDeviceHotplugSupported flags = bool_decide (1 ∈ caps_abs flags) /\
   IsMultiQueueSupported flags = bool_decide (2 ∈ caps_abs flags) /\
   IsFsSharingSupported flags = bool_decide (3 ∈ caps_abs flags)) /\
  (caps_abs (SetBlockDeviceSupport flags) = {[0]} ∪ caps_abs flags /\
   caps_abs (SetBlockDeviceHotplugSupport flags) = {[1]} ∪ caps_abs flags /\
   caps_abs (SetMultiQueueSupport flags) = {[2]} ∪ caps_abs flags /\
   caps_abs (SetFsSharingSupport flags) = {[3]} ∪ caps_abs flags).
Proof.
  assert (Hel : forall f i, i ∈ caps_abs f <-> Z.testbit f i = true /\ i ∈ [0; 1; 2; 3]).
  { intros f i. unfold caps_abs. by rw elem_of_list_to_set list_elem_of_filter. }
  assert (Hset : forall i, i ∈ [0; 1; 2; 3] ->
    caps_abs (Z.lor flags (Z.shiftl 1 i)) = {[i]} ∪ caps_abs flags).
  { intros i Hi. apply set_eq. intros j. rw elem_of_union elem_of_singleton !Hel.
    rw lor_shiftl_testbit; [set_unfold in Hi; lia|]. rw orb_true_iff bool_decide_eq_true.
    naive_solver. }
  assert (His : forall i, i ∈ [0; 1; 2; 3] ->
    negb (Z.land flags (Z.shiftl 1 i) =? 0) = bool_decide (i ∈ caps_abs flags)).
  { intros i Hi. rw land_shiftl_testbit; [set_unfold in Hi; lia|].
    apply eq_true_iff_eq. rw bool_decide_eq_true Hel. naive_solver. }
  split; split_and!; (apply His || apply Hset); set_solver.
Qed.

End Caps.

(** ** Assets *)
Module Assets.

Definition kataAnnotHypervisorPrefix : string := "io.katacontainers.config.hypervisor.".
Definition AssetHashType : string := "io.katacontainers.asset_hash_type".
Definition SHA512 : string := "sha512".

Definition AssetType : Type := string.
Definition KernelAsset : AssetType := "kernel".
Definition ImageAsset : AssetType := "image".
Definition InitrdAsset : AssetType := "initrd".
Definition HypervisorAsset : AssetType := "hypervisor".
Definition HypervisorCtlAsset : AssetType := "hypervisorctl".
Definition JailerAsset : AssetType := "jailer".
Definition FirmwareAsset : AssetType := "firmware".
Definition FirmwareVolumeAsset : AssetType := "firmware_volume".

Definition AssetTypes : list AssetType :=
  [FirmwareAsset; FirmwareVolumeAsset; HypervisorAsset; HypervisorCtlAsset;
   ImageAsset; InitrdAsset; JailerAsset; KernelAsset].

Definition Annotations (t : AssetType) : res (string * string) :=
  let p s := kataAnnotHypervisorPrefix +:+ s in
  if bool_decide (t = KernelAsset) then Ok (p "kernel", p "kernel_hash")
  else if bool_decide (t = ImageAsset) then Ok (p "image", p "image_hash")
  else if bool_decide (t = InitrdAsset) then Ok (p "initrd", p "initrd_hash")
  else if bool_decide (t = HypervisorAsset) then Ok (p "path", p "hypervisor_hash")
  else if bool_decide (t = HypervisorCtlAsset) then Ok (p "ctlpath", p "hypervisorctl_hash")
  else if bool_decide (t = JailerAsset) then Ok (p "jailer_path", p "jailer_hash")
  else if bool_decide (t = FirmwareAsset) then Ok (p "firmware", p "firmware_hash")
  else if bool_decide (t = FirmwareVolumeAsset) then Ok (p "firmware_volume", p "firmware_volume_hash")
  else Err (Errorf "Wrong asset type %s").

Definition AssetAnnotations : res (list string) :=
  foldl (fun acc at_ => result ← acc; ph ← Annotations at_; mret (result ++ [ph.1; ph.2]))
    (Ok []) AssetTypes.

Record Asset := mkAsset { as_path : string; as_computedHash : string; as_kind : AssetType }.

(** [filepath.IsAbs] on Unix. *)
Definition IsAbs (path : string) : bool := HasPrefix path "/".
#[global] Arguments IsAbs : simpl never.

Definition Asset_Valid (a : Asset) : bool :=
  if negb (IsAbs (as_path a)) then false
  else existsb (fun at_ => bool_decide (at_ = as_kind a)) AssetTypes.
#[global] Arguments Asset_Valid : simpl never.

Section Files.
(** The host's files and the hex form of their SHA-512 digest. *)
Context (ReadFile : string -> res string) (sha512_hex : string -> string).

Definition Asset_Hash (hashType : string) : M Asset string :=
  a ← get;
  bytes ← lift (ReadFile (as_path a));
  if bool_decide (bytes = "") then throw (Errorf "Empty asset file at %s")
  else if bool_decide (hashType = SHA512) then
    let hash := sha512_hex bytes in
    _ ← put (mkAsset (as_path a) hash (as_kind a)); mret hash
  else throw (Errorf "Invalid hash type %s").

(** Go's pair of an asset pointer and an error: a failing [Hash] returns the asset with the error. *)
Definition NewAsset (anno : gmap string string) (t : AssetType) : option Asset * option error :=
  match Annotations t with
  | Err e => (None, Some e)
  | Ok (pathAnnotation, hashAnnotation) =>
      if bool_decide (pathAnnotation = "") || bool_decide (hashAnnotation = "")
      then (None, Some (Errorf "Missing annotation paths for %s"))
      else
        let path := default "" (anno !! pathAnnotation) in
        if bool_decide (path = "") then (None, None)
        else if negb (IsAbs path) then (None, Some (Errorf "%s is not an absolute path"))
        else
          let a := mkAsset path "" t in
          let hash := default "" (anno !! hashAnnotation) in
          if bool_decide (hash = "") then (Some a, None)
          else
            let hashType := default SHA512 (anno !! AssetHashType) in
            match Asset_Hash hashType a with
            | (Err e, a') => (Some a', Some e)
            | (Ok hashComputed, a') =>
                if bool_decide (hashComputed <> hash)
                then (None, Some (Errorf "Invalid hash for %s: computed %s, expecting %s]"))
                else (Some a', None)
            end
  end.

(** Asset verification: an asset [NewAsset] returns without an error is valid,
    is the one its path annotation names, and, when a hash annotation is
    present, the file's content is nonempty and its SHA-512 digest is exactly
    the annotated one.  A missing path annotation gives no asset and no
    error. *)
Theorem NewAsset_verified anno t pa ha :
  Annotations t = Ok (pa, ha) ->
  (default "" (anno !! pa) = "" -> NewAsset anno t = (None, None)) /\
  (forall a, NewAsset anno t = (Some a, None) ->
     Asset_Valid a = true /\ anno !! pa = Some (as_path a) /\ as_kind a = t /\
     (forall h, anno !! ha = Some h -> h <> "" ->
        exists bytes, ReadFile (as_path a) = Ok bytes /\ bytes <> "" /\
          sha512_hex bytes = h /\ as_computedHash a = h)).
Proof.
  intros Ht.
  assert (Hk : existsb (fun at_ => bool_decide (at_ = t)) AssetTypes = true).
  { unfold Annotations in Ht. repeat case_bool_decide; simplify_eq; by vm_compute. }
  assert (Hne : bool_decide (pa = "") || bool_decide (ha = "") = false).
  { unfold Annotations in Ht. by repeat case_bool_decide; simplify_eq. }
  unfold NewAsset. rw Ht Hne. clear Hne. split; [by intros ->|].
  intros a. destruct (anno !! pa) as [path|]; simpl; [|by intros].
  case_bool_decide; [done|]. destruct (IsAbs path) eqn:Habs; simpl; [|done].
  assert (Hv : forall h, Asset_Valid (mkAsset path h t) = true).
  { intros h. unfold Asset_Valid. cbn [as_path as_kind]. by rw Habs Hk. }
  destruct (anno !! ha) as [h|]; simpl; [|by intros [= <-]; split_and!].
  case_bool_decide; [intros [= <-]; split_and!; naive_solver|].
  unfold Asset_Hash. munfold. simpl. destruct (ReadFile path) as [bytes|] eqn:Hr; [|done].
  case_bool_decide; [done|]. case_bool_decide; [|done].
  case_bool_decide; [done|]. intros [= <-].
  split_and!; try done. intros h' [= <-] _. exists bytes. simpl. by split_and!.
Qed.

End Files.

(** A digest standing in for SHA-512 in the concrete run below. *)
Definition toy_files (p : string) : res string :=
  if bool_decide (p = "/vmlinux") then Ok "elf" else Err (ErrExternal "no such file").

Lemma NewAsset_verified_witness :
  exists bytes, toy_files "/vmlinux" = Ok bytes /\ bytes <> "" /\ "d:" +:+ bytes = "d:elf" /\ "d:elf" = "d:elf".
Proof.
  set (anno := <["io.katacontainers.config.hypervisor.kernel" := "/vmlinux"]>
    (<["io.katacontainers.config.hypervisor.kernel_hash" := "d:elf"]> ∅) : gmap string string).
  exact (proj2 (proj2 (proj2 (proj2 (NewAsset_verified toy_files (fun b => "d:" +:+ b) anno KernelAsset
    "io.katacontainers.config.hypervisor.kernel" "io.katacontainers.config.hypervisor.kernel_hash"
    ltac:(by vm_compute)) (mkAsset "/vmlinux" "d:elf" KernelAsset) ltac:(by vm_compute))))
    "d:elf" ltac:(by vm_compute) ltac:(done)).
Defined.

End Assets.
