(* ===== verification/CPUSet.v ===== *)
(** * virtcontainers/pkg/cpuset

    Sets of CPU numbers and the Linux CPU list format ([cpuset.go]).  A set is
    a Go map with empty values, ranged over in an unspecified order
    ([GoRange]); the operations are shown to be the operations of mathematical
    sets for every such order, and the printer and the parser to be inverse. *)
From S2P Require Import Prelude GoStr.

Local Open Scope Z_scope.

Module CPUSet.

(** [CPUSet]: the keys of [elems map[int]struct{}]. *)
Definition CPUSet : Type := gset Z.

Record Builder := mkBuilder { b_result : CPUSet; b_done : bool }.

Definition NewBuilder : Builder := mkBuilder ∅ false.

Definition Builder_Add (b : Builder) (elems : list Z) : Builder :=
  if b_done b then b
  else mkBuilder (foldl (fun s e => {[e]} ∪ s) (b_result b) elems) (b_done b).

(** The receiver of [Result] is a copy, so [done] stays as it was in the
    caller's builder. *)
Definition Builder_Result (b : Builder) : CPUSet := b_result b.

Definition NewCPUSet (cpus : list Z) : CPUSet :=
  Builder_Result (foldl (fun b c => Builder_Add b [c]) NewBuilder cpus).

Definition CPUSet_Size (s : CPUSet) : Z := Z.of_nat (size s).
Definition CPUSet_IsEmpty (s : CPUSet) : bool := CPUSet_Size s =? 0.
Definition CPUSet_Contains (s : CPUSet) (cpu : Z) : bool := bool_decide (cpu ∈ s).
Definition CPUSet_Equals (s s2 : CPUSet) : bool := bool_decide (s = s2).

Section Range.
Context `{GoRange}.

(** The keys in the order [range] visits them. *)
Definition range_set (s : CPUSet) : list Z := (range_map (gset_to_gmap tt s)).*1.

Definition add_each (b : Builder) (l : list Z) : Builder :=
  foldl (fun b c => Builder_Add b [c]) b l.

Definition CPUSet_Filter (s : CPUSet) (predicate : Z -> bool) : CPUSet :=
  Builder_Result (foldl (fun b cpu => if predicate cpu then Builder_Add b [cpu] else b)
    NewBuilder (range_set s)).

Definition CPUSet_FilterNot (s : CPUSet) (predicate : Z -> bool) : CPUSet :=
  Builder_Result (foldl (fun b cpu => if negb (predicate cpu) then Builder_Add b [cpu] else b)
    NewBuilder (range_set s)).

Definition CPUSet_IsSubsetOf (s s2 : CPUSet) : bool := forallb (CPUSet_Contains s2) (range_set s).

Definition CPUSet_Union (s s2 : CPUSet) : CPUSet :=
  Builder_Result (add_each (add_each NewBuilder (range_set s)) (range_set s2)).

Definition CPUSet_UnionAll (s : CPUSet) (s2 : list CPUSet) : CPUSet :=
  Builder_Result
    (foldl (fun b cs => add_each b (range_set cs)) (add_each NewBuilder (range_set s)) s2).

Definition CPUSet_Intersection (s s2 : CPUSet) : CPUSet := CPUSet_Filter s (fun cpu => CPUSet_Contains s2 cpu).
Definition CPUSet_Difference (s s2 : CPUSet) : CPUSet := CPUSet_FilterNot s (fun cpu => CPUSet_Contains s2 cpu).

Definition CPUSet_ToSliceNoSort (s : CPUSet) : list Z := range_set s.

(** [sort.Ints]. *)
Definition CPUSet_ToSlice (s : CPUSet) : list Z := merge_sort Z.le (range_set s).

Definition CPUSet_Clone (s : CPUSet) : CPUSet := Builder_Result (add_each NewBuilder (range_set s)).

(** The loop over [elems[1:]] with the last range [(start, end)] kept apart. *)
Fixpoint ranges_go (start end_ : Z) (elems : list Z) : list (Z * Z) :=
  match elems with
  | [] => [(start, end_)]
  | e :: elems' =>
      if e =? end_ + 1 then ranges_go start e elems'
      else (start, end_) :: ranges_go e e elems'
  end.

Definition range_str (r : Z * Z) : string :=
  if r.1 =? r.2 then Itoa r.1 else Itoa r.1 +:+ "-" +:+ Itoa r.2.

Definition CPUSet_String (s : CPUSet) : string :=
  if CPUSet_IsEmpty s then ""
  else match CPUSet_ToSlice s with
       | [] => ""
       | e0 :: elems =>
           TrimRight "," (foldl (fun buf r => buf +:+ range_str r +:+ ",") "" (ranges_go e0 e0 elems))
       end.
End Range.

(** [for e := start; e <= end; e++ { b.Add(e) }] on 64-bit integers; [None] when
    the fuel runs out. *)
Fixpoint add_loop (fuel : nat) (e end_ : Z) (b : Builder) : option Builder :=
  match fuel with
  | O => None
  | S f => if e <=? end_ then add_loop f (i64 (e + 1)) end_ (Builder_Add b [e]) else Some b
  end.

(** The body of [Parse]'s loop.  [None]: the loop over one range never ends. *)
Definition Parse_range (r : string) (b : Builder) : option (res Builder) :=
  match Split "-" r with
  | [s] => match Atoi s with
           | Ok elem => Some (Ok (Builder_Add b [elem]))
           | Err e => Some (Err e)
           end
  | [s1; s2] =>
      match Atoi s1 with
      | Err e => Some (Err e)
      | Ok start =>
          match Atoi s2 with
          | Err e => Some (Err e)
          | Ok end_ => Ok <$> add_loop (S (Z.to_nat (end_ - start + 1))) start end_ b
          end
      end
  | _ => Some (Ok b)
  end.

Fixpoint Parse_ranges (ranges : list string) (b : Builder) : option (res Builder) :=
  match ranges with
  | [] => Some (Ok b)
  | r :: rs => match Parse_range r b with
               | Some (Ok b') => Parse_ranges rs b'
               | o => o
               end
  end.

(** [None] when parsing does not return, otherwise Go's pair of a set and an
    error. *)
Definition Parse (s : string) : option (res CPUSet) :=
  if bool_decide (s = "") then Some (Ok (Builder_Result NewBuilder))
  else match Parse_ranges (Split "," s) NewBuilder with
       | Some (Ok b) => Some (Ok (Builder_Result b))
       | Some (Err e) => Some (Err e)
       | None => None
       end.

(** ** Set operations *)

Lemma foldl_add (s : CPUSet) l : foldl (fun s e => {[e]} ∪ s) s l = s ∪ list_to_set l.
Proof. revert s. induction l as [|x l IH]; intros s; simpl; [set_solver|]. rw IH. set_solver. Qed.

Lemma Builder_Add_open s l : Builder_Add (mkBuilder s false) l = mkBuilder (s ∪ list_to_set l) false.
Proof. unfold Builder_Add; simpl. by rw foldl_add. Qed.

Lemma add_each_open s l : add_each (mkBuilder s false) l = mkBuilder (s ∪ list_to_set l) false.
Proof.
  unfold add_each. revert s. induction l as [|x l IH]; intros s; simpl; [f_equal; set_solver|].
  rw Builder_Add_open IH. f_equal. set_solver.
Qed.

Lemma filter_each_open (p : Z -> bool) s l :
  foldl (fun b c => if p c then Builder_Add b [c] else b) (mkBuilder s false) l =
  mkBuilder (s ∪ list_to_set (filter (fun c => p c = true) l)) false.
Proof.
  revert s. induction l as [|x l IH]; intros s; simpl; [f_equal; set_solver|].
  destruct (p x) eqn:E.
  - rw Builder_Add_open IH filter_cons_True //. f_equal. set_solver.
  - rw IH filter_cons_False //. by rw E.
Qed.

Section Spec.
Context `{GoRange}.

Lemma range_set_perm s : range_set s ≡ₚ elements s.
Proof.
  unfold range_set. rw range_map_perm. apply NoDup_Permutation.
  - apply NoDup_fst_map_to_list.
  - apply NoDup_elements.
  - intros x. rw elem_of_elements list_elem_of_fmap. split.
    + intros ([k u] & -> & Hk%elem_of_map_to_list). by apply lookup_gset_to_gmap_Some in Hk as [? _].
    + intros Hx. exists (x, tt). split; [done|]. apply elem_of_map_to_list.
      by apply lookup_gset_to_gmap_Some.
Qed.

Lemma elem_of_range_set x s : x ∈ range_set s <-> x ∈ s.
Proof. by rw range_set_perm elem_of_elements. Qed.

Lemma range_set_set s : list_to_set (range_set s) = s.
Proof. apply set_eq. intros x. by rw elem_of_list_to_set elem_of_range_set. Qed.

Lemma CPUSet_ToSlice_perm s : CPUSet_ToSlice s ≡ₚ elements s.
Proof. unfold CPUSet_ToSlice. by rw merge_sort_Permutation range_set_perm. Qed.

Lemma CPUSet_ToSlice_sorted s : StronglySorted Z.lt (CPUSet_ToSlice s).
Proof.
  assert (Hs : StronglySorted Z.le (CPUSet_ToSlice s)) by (apply: StronglySorted_merge_sort).
  assert (Hnd : NoDup (CPUSet_ToSlice s)) by (rw CPUSet_ToSlice_perm; apply NoDup_elements).
  induction Hs as [|x l Hl IH Hx]; [constructor|].
  apply NoDup_cons in Hnd as [Hnx Hnd]. constructor; [by apply IH|].
  rw !Forall_forall in Hx *. intros y Hy. specialize (Hx y Hy).
  destruct (decide (x = y)) as [->|]; [|lia].
  done.
Qed.

Lemma CPUSet_Filter_spec s p : CPUSet_Filter s p = list_to_set (filter (fun c => p c = true) (range_set s)).
Proof. unfold CPUSet_Filter, NewBuilder. rw (filter_each_open p). simpl. set_solver. Qed.

Lemma CPUSet_Union_spec s s2 : CPUSet_Union s s2 = s ∪ s2.
Proof.
  unfold CPUSet_Union, NewBuilder. rw !add_each_open !range_set_set. simpl. set_solver.
Qed.

Lemma CPUSet_Intersection_spec s s2 : CPUSet_Intersection s s2 = s ∩ s2.
Proof.
  unfold CPUSet_Intersection. rw CPUSet_Filter_spec. apply set_eq. intros x.
  rw elem_of_list_to_set list_elem_of_filter elem_of_range_set bool_decide_eq_true. set_solver.
Qed.

Lemma CPUSet_Difference_spec s s2 : CPUSet_Difference s s2 = s ∖ s2.
Proof.
  unfold CPUSet_Difference, CPUSet_FilterNot, NewBuilder. rw (filter_each_open (fun c => negb (CPUSet_Contains s2 c))).
  apply set_eq. intros x. simpl. rw elem_of_union elem_of_list_to_set list_elem_of_filter elem_of_range_set.
  rw negb_true_iff bool_decide_eq_false. set_solver.
Qed.

Lemma CPUSet_UnionAll_spec s l : CPUSet_UnionAll s l = s ∪ ⋃ l.
Proof.
  unfold CPUSet_UnionAll, NewBuilder. rw add_each_open range_set_set union_empty_l_L.
  revert s. induction l as [|t l IH]; intros s; simpl; [set_solver|].
  rw add_each_open range_set_set IH. set_solver.
Qed.

Lemma CPUSet_IsSubsetOf_spec s s2 : CPUSet_IsSubsetOf s s2 = bool_decide (s ⊆ s2).
Proof.
  unfold CPUSet_IsSubsetOf. apply eq_true_iff_eq. rw forallb_forall bool_decide_eq_true.
  split; intros Hsub x Hx.
  - eapply bool_decide_eq_true, Hsub. by apply list_elem_of_In, elem_of_range_set.
  - apply bool_decide_eq_true, Hsub. by apply elem_of_range_set, list_elem_of_In.
Qed.
End Spec.

(** ** The list format *)

(** The set of a closed interval. *)
Definition ival (r : Z * Z) : gset Z := list_to_set (seqZ r.1 (r.2 - r.1 + 1)).

Definition range_ok (r : Z * Z) : Prop := 0 <= r.1 <= r.2 /\ r.2 < maxInt64.

Lemma elem_of_ival x r : x ∈ ival r <-> r.1 <= x <= r.2.
Proof. unfold ival. rw elem_of_list_to_set elem_of_seqZ. lia. Qed.

#[local] Instance set_unfold_ival x r : SetUnfoldElemOf x (ival r) (r.1 <= x <= r.2).
Proof. constructor. apply elem_of_ival. Qed.

(** Equality of two finite sets of integers given by intervals and lists. *)
Ltac ival_solver :=
  apply set_eq; intros x; set_unfold; simpl; (lia || intuition lia).

Lemma add_loop_done fuel e end_ s :
  - 2 ^ 63 <= e -> end_ < maxInt64 -> end_ - e + 2 <= Z.of_nat fuel -> (0 < fuel)%nat ->
  add_loop fuel e end_ (mkBuilder s false) = Some (mkBuilder (s ∪ ival (e, end_)) false).
Proof.
  revert e s. induction fuel as [|f IH]; intros e s He Hend Hfuel Hpos; [lia|].
  cbn [add_loop]. destruct (Z.leb_spec e end_).
  - unfold maxInt64 in Hend. rw i64_small; [lia|]. rw Builder_Add_open IH; [lia|done|lia|lia|].
    do 2 f_equal. ival_solver.
  - do 2 f_equal. ival_solver.
Qed.

(** A range that ends at the largest integer is never left. *)
Lemma add_loop_diverges fuel e b :
  - 2 ^ 63 <= e < 2 ^ 63 -> add_loop fuel e maxInt64 b = None.
Proof.
  revert e b. induction fuel as [|f IH]; intros e b He; [done|]. cbn [add_loop].
  unfold maxInt64 in *. rw (proj2 (Z.leb_le e (2 ^ 63 - 1))); [lia|]. apply IH.
  unfold i64. pose proof (Z.mod_pos_bound (e + 1 + 2 ^ 63) (2 ^ 64) ltac:(lia)). lia.
Qed.

Lemma range_str_not_mem r : range_ok r -> str_mem "," (range_str r) = false.
Proof.
  intros [? ?]. unfold range_str. case_match; rw ?str_mem_app !Itoa_not_mem //; lia.
Qed.

Lemma range_str_not_nil r : range_ok r -> range_str r <> "".
Proof.
  intros [? ?]. pose proof (Itoa_not_nil r.1 ltac:(lia)). unfold range_str.
  case_match; [done|]. by destruct (Itoa r.1).
Qed.

Lemma Parse_range_str r s :
  range_ok r -> Parse_range (range_str r) (mkBuilder s false) = Some (Ok (mkBuilder (s ∪ ival r) false)).
Proof.
  destruct r as [a b]. intros [Hab Hb]. simpl in *. unfold Parse_range, range_str. cbn [fst snd].
  unfold maxInt64 in Hb. destruct (Z.eqb_spec a b) as [->|].
  - rw Split_no_sep; [apply Itoa_not_mem; [lia|done]|]. rw Atoi_Itoa; [lia|]. rw Builder_Add_open.
    do 3 f_equal. ival_solver.
  - change ("-" +:+ Itoa b) with (String "-" (Itoa b)).
    rw Split_app; [apply Itoa_not_mem; [lia|done]|].
    rw Split_no_sep; [apply Itoa_not_mem; [lia|done]|].
    rw !Atoi_Itoa; [lia..|]. rw add_loop_done //; unfold maxInt64; lia.
Qed.

Lemma Parse_ranges_str rs s :
  Forall range_ok rs ->
  Parse_ranges (range_str <$> rs) (mkBuilder s false) =
  Some (Ok (mkBuilder (s ∪ ⋃ (ival <$> rs)) false)).
Proof.
  intros Hrs. revert s. induction Hrs as [|r rs Hr Hrs IH]; intros s; simpl.
  - do 3 f_equal. set_solver.
  - rw Parse_range_str // IH. do 3 f_equal. set_solver.
Qed.

Lemma ranges_go_spec start end_ l :
  0 <= start <= end_ -> StronglySorted Z.lt (end_ :: l) ->
  Forall (fun x => x < maxInt64) (end_ :: l) ->
  Forall range_ok (ranges_go start end_ l) /\
  ⋃ (ival <$> ranges_go start end_ l) = ival (start, end_) ∪ list_to_set l.
Proof.
  revert start end_. induction l as [|e l IH]; intros start end_ Hse Hsort Hmax; simpl.
  { apply Forall_cons in Hmax as [Hm _]. split; [by apply Forall_singleton|]. set_solver. }
  apply StronglySorted_inv in Hsort as [Hl Hlt]. apply Forall_cons in Hlt as [Hlt _].
  apply Forall_cons in Hmax as [Hm Hmax].
  destruct (Z.eqb_spec e (end_ + 1)) as [->|Hne].
  - destruct (IH start (end_ + 1) ltac:(lia) Hl Hmax) as [IH1 IH2]. split; [done|].
    rw IH2. ival_solver.
  - destruct (IH e e ltac:(lia) Hl Hmax) as [IH1 IH2].
    split; [constructor; [split; simpl; lia|done]|]. simpl. rw IH2. ival_solver.
Qed.

Lemma ranges_go_not_nil start end_ l : ranges_go start end_ l <> [].
Proof.
  revert start end_. induction l as [|e l IH]; intros start end_; simpl; [done|]. by case_match.
Qed.

(** C39. The Linux CPU list format round trips: parsing what [String] prints
    returns, without an error, exactly the set that was printed, for every set
    of nonnegative CPU numbers and every order Go ranges over the set in. *)
Theorem CPUSet_String_Parse `{GoRange} s :
  (forall x, x ∈ s -> 0 <= x < maxInt64) -> Parse (CPUSet_String s) = Some (Ok s).
Proof.
  intros Hs. unfold CPUSet_String, CPUSet_IsEmpty, CPUSet_Size.
  destruct (Z.eqb_spec (Z.of_nat (size s)) 0) as [Hz|Hz].
  { assert (s = ∅) as -> by (apply leibniz_equiv, size_empty_inv; lia). done. }
  assert (Hset : list_to_set (CPUSet_ToSlice s) = s).
  { apply set_eq. intros x. by rw elem_of_list_to_set CPUSet_ToSlice_perm elem_of_elements. }
  assert (Hall : Forall (fun x => 0 <= x < maxInt64) (CPUSet_ToSlice s)).
  { apply Forall_forall. intros x. rw CPUSet_ToSlice_perm elem_of_elements. apply Hs. }
  pose proof (CPUSet_ToSlice_sorted s) as Hsort.
  destruct (CPUSet_ToSlice s) as [|e0 elems].
  { subst s. by destruct Hz. }
  destruct (ranges_go_spec e0 e0 elems) as [Hok Hun].
  { apply Forall_cons in Hall. lia. }
  { done. }
  { eapply Forall_impl; [done|]. simpl. lia. }
  rw foldl_buffer; [apply ranges_go_not_nil|]. rw str_app_nil_l TrimRight_Join.
  { apply Forall_fmap. eapply Forall_impl; [done|]. intros r Hr.
    split; [by apply range_str_not_nil|by apply range_str_not_mem]. }
  unfold Parse. rw bool_decide_false.
  { apply Join_not_nil; [|apply Forall_fmap; eapply Forall_impl; [done|]; apply range_str_not_nil].
    intros ?%fmap_nil_inv. by eapply ranges_go_not_nil. }
  rw Split_Join.
  { intros ?%fmap_nil_inv. by eapply ranges_go_not_nil. }
  { apply Forall_fmap. eapply Forall_impl; [done|]. apply range_str_not_mem. }
  unfold NewBuilder. rw Parse_ranges_str // Hun. do 2 f_equal. simpl in *. rw -Hset.
  ival_solver.
Qed.

Lemma CPUSet_String_Parse_witness :
  Parse (@CPUSet_String range_default {[0; 1; 2; 3; 7]}) = Some (Ok {[0; 1; 2; 3; 7]}).
Proof.
  apply (@CPUSet_String_Parse range_default). intros x. set_unfold. unfold maxInt64. lia.
Defined.

(** The operations of [CPUSet] are those of finite sets, whatever order Go
    ranges over the underlying maps in: union, n-ary union, intersection,
    difference, copy and subset test; [ToSlice] lists each element once, in
    increasing order, and so does not depend on that order either. *)
Theorem CPUSet_operations (r r' : GoRange) (s t : CPUSet) (l : list CPUSet) :
  CPUSet_Union s t = s ∪ t /\ CPUSet_UnionAll s l = s ∪ ⋃ l /\
  CPUSet_Intersection s t = s ∩ t /\ CPUSet_Difference s t = s ∖ t /\
  CPUSet_Clone s = s /\ CPUSet_IsSubsetOf s t = bool_decide (s ⊆ t) /\
  (forall x, x ∈ CPUSet_ToSlice s <-> x ∈ s) /\ StronglySorted Z.lt (CPUSet_ToSlice s) /\
  @CPUSet_ToSlice r s = @CPUSet_ToSlice r' s.
Proof.
  split_and!.
  - apply CPUSet_Union_spec.
  - apply CPUSet_UnionAll_spec.
  - apply CPUSet_Intersection_spec.
  - apply CPUSet_Difference_spec.
  - unfold CPUSet_Clone, NewBuilder. rw add_each_open range_set_set. simpl. set_solver.
  - apply CPUSet_IsSubsetOf_spec.
  - intros x. by rw CPUSet_ToSlice_perm elem_of_elements.
  - apply CPUSet_ToSlice_sorted.
  - apply (StronglySorted_unique Z.le); [apply: StronglySorted_merge_sort..|].
    by rw !CPUSet_ToSlice_perm.
Qed.

Lemma Atoi_bounds s n : Atoi s = Ok n -> - 2 ^ 63 <= n < 2 ^ 63.
Proof.
  assert (Hpos : forall t, match ParseUint t 10 64 with
    | Ok k => if k <? 2 ^ 63 then Ok k else Err (ErrExternal "strconv: value out of range")
    | Err e => Err e end = Ok n -> - 2 ^ 63 <= n < 2 ^ 63).
  { intros t. destruct (ParseUint t 10 64) as [k|] eqn:E; [|done].
    apply ParseUint_bound in E; [|done..]. case_match; bool_to_prop; [|done]. intros [= <-]. lia. }
  assert (Hneg : forall t, match ParseUint t 10 64 with
    | Ok k => if k <=? 2 ^ 63 then Ok (- k) else Err (ErrExternal "strconv: value out of range")
    | Err e => Err e end = Ok n -> - 2 ^ 63 <= n < 2 ^ 63).
  { intros t. destruct (ParseUint t 10 64) as [k|] eqn:E; [|done].
    apply ParseUint_bound in E; [|done..]. case_match; bool_to_prop; [|done]. intros [= <-]. lia. }
  unfold Atoi. destruct s as [|c s]; [by apply (Hpos "")|].
  destruct c as [[] [] [] [] [] [] [] []]; first [apply Hneg|apply Hpos].
Qed.

Lemma Parse_range_returns w s :
  (forall a b, Split "-" w = [a; b] -> Atoi b <> Ok maxInt64) ->
  (exists s', Parse_range w (mkBuilder s false) = Some (Ok (mkBuilder s' false))) \/
  (exists e, Parse_range w (mkBuilder s false) = Some (Err e)).
Proof.
  intros Hw. unfold Parse_range.
  destruct (Split "-" w) as [|a [|b [|c l]]]; [by left; eexists| | |by left; eexists].
  - destruct (Atoi a); [left; rw Builder_Add_open; by eexists|by right; eexists].
  - destruct (Atoi a) as [start|] eqn:Ea; [|by right; eexists].
    destruct (Atoi b) as [end_|] eqn:Eb; [|by right; eexists]. left.
    apply Atoi_bounds in Ea.
    assert (end_ < maxInt64).
    { pose proof (Atoi_bounds _ _ Eb). assert (end_ <> maxInt64) by (intros ->; by apply (Hw a b)).
      unfold maxInt64 in *. lia. }
    rw add_loop_done; [lia|done|lia|lia|]. by eexists.
Qed.

(** C40. [Parse] returns on every input in which no range ends at the largest
    64-bit integer: it yields a set or an error, and the counting loops over
    the ranges terminate.  A range up to the largest integer is never left,
    because the counter wraps around. *)
Theorem Parse_terminates :
  (forall s, (forall w a b, w ∈ Split "," s -> Split "-" w = [a; b] -> Atoi b <> Ok maxInt64) ->
     is_Some (Parse s)) /\
  (forall w a b start s, Split "-" w = [a; b] -> Atoi a = Ok start -> Atoi b = Ok maxInt64 ->
     Parse_range w (mkBuilder s false) = None).
Proof.
  split.
  - intros s Hs. unfold Parse. case_bool_decide; [done|]. unfold NewBuilder.
    generalize (∅ : CPUSet). induction (Split "," s) as [|w ws IH]; intros t; [done|]. simpl.
    destruct (Parse_range_returns w t) as [[t' ->]|[e ->]]; [|apply IH|done].
    + intros a b. apply Hs. by left.
    + intros w' a b Hw'. apply Hs. by right.
  - intros w a b start s Hw Ha Hb. unfold Parse_range. rw Hw Ha Hb.
    rw add_loop_diverges //. by apply Atoi_bounds in Ha.
Qed.

End CPUSet.
