(* ===== verification/Utils.v ===== *)
(** * virtcontainers/utils

    The arithmetic and naming helpers of [utils/utils.go]: CPU quotas, virtio
    drive names, SCSI addresses, hypervisor identifiers, socket paths, memory
    alignment, the directory creation that inherits ownership and the wait for
    a local process; and the retry loop of [utils/retry/retry.go]. *)
From S2P Require Import Prelude GoStr.

(** ** Numbers and names *)
Module Names.

Definition CalculateMilliCPUs (quota period : Z) : Z :=
  if (0 <=? quota) && negb (period =? 0) then u32 (u64 (u64 quota * 1000) / period) else 0.

Definition CalculateVCpusFromMilliCpus (mCPU : Z) : Z := u32 (mCPU + 999) / 1000.

(** The swaps of [reverseString], on the bytes of an ASCII string. *)
Fixpoint swap_loop (n i : nat) (j : nat) (r : list ascii) : list ascii :=
  match n with
  | O => r
  | S n' =>
      match r !! i, r !! j with
      | Some a, Some b => swap_loop n' (S i) (pred j) (<[j := a]> (<[i := b]> r))
      | _, _ => r
      end
  end.

Definition reverseString (s : string) : string :=
  let r := String.list_ascii_of_string s in
  let length := length r in
  String.string_of_list_ascii (swap_loop (length / 2) 0 (pred length) r).

(** The loop that fills [diskLetters], least significant letter first, with
    the index left over. *)
Fixpoint letters_go (suffLen : nat) (index : Z) : list ascii * Z :=
  match suffLen with
  | O => ([], index)
  | S n =>
      if 0 <=? index then
        let letter := Ascii.ascii_of_N (Z.to_N (97 + index mod 26)) in
        let '(ls, rest) := letters_go n (index / 26 - 1) in (letter :: ls, rest)
      else ([], index)
  end.

Definition GetVirtDriveName (index : Z) : res string :=
  if index <? 0 then Err (Errorf "Index cannot be negative for drive")
  else
    let diskNameLen := 32%nat in
    let suffLen := (diskNameLen - String.length "vd")%nat in
    let '(diskLetters, rest) := letters_go suffLen index in
    if 0 <=? rest then Err (Errorf "Index not supported")
    else Ok ("vd" +:+ reverseString (String.string_of_list_ascii diskLetters)).

Definition maxSCSIDevices : Z := 65535.

Definition GetSCSIIdLun (index : Z) : res (Z * Z) :=
  if index <? 0 then Err (Errorf "Index cannot be negative")
  else if maxSCSIDevices <? index
  then Err (Errorf "Index cannot be greater than %d, maximum of %d devices are supported")
  else Ok (index / 256, index mod 256).

Definition GetSCSIAddress (index : Z) : res string :=
  idlun ← GetSCSIIdLun index;
  mret (Itoa idlun.1 +:+ ":" +:+ Itoa idlun.2).

Definition MakeNameID (namedType id : string) (maxLen : Z) : string :=
  let nameID := namedType +:+ "-" +:+ id in
  if maxLen <? Z.of_nat (String.length nameID) then str_take (Z.to_nat maxLen) nameID else nameID.

(** [MemUnit] is a [uint64] of bytes. *)
Definition MiB : Z := Z.shiftl 1 20.
Definition ToBytes (m : Z) : Z := m.
Definition ToMiB (m : Z) : Z := ToBytes m / ToBytes MiB.

(** [None]: a zero block size divides by zero and panics. *)
Definition AlignMem (m blockSize : Z) : option Z :=
  if blockSize =? 0 then None
  else
    let memSize := if m <? blockSize then blockSize else m in
    let remainder := memSize mod blockSize in
    Some (if negb (remainder =? 0) then u64 (memSize + (blockSize - remainder)) else memSize).

(** [pbTypes.IPFamily]. *)
Inductive IPFamily := IPFamily_v4 | IPFamily_v6.
Definition ConvertAddressFamily (family : Z) : IPFamily :=
  if family =? 10 then IPFamily_v6 else IPFamily_v4.

(** ** CPU quotas *)

(** CPU quotas: for a nonnegative quota that does not overflow, the number
    of virtual CPUs is the milli-CPUs rounded up to whole CPUs (enough, and
    not one too many), an unconstrained quota or a zero period asks for none;
    and the rounding wraps to zero for the last 999 values of a [uint32]. *)
Theorem vcpus_ceiling :
  (forall quota period,
     0 <= quota -> 0 < period -> quota * 1000 <= maxUint64 ->
     quota * 1000 / period <= maxUint32 - 999 ->
     let mcpu := CalculateMilliCPUs quota period in
     let vcpus := CalculateVCpusFromMilliCpus mcpu in
     mcpu = quota * 1000 / period /\ mcpu <= vcpus * 1000 < mcpu + 1000) /\
  (forall quota period, quota < 0 \/ period = 0 -> CalculateMilliCPUs quota period = 0) /\
  (forall mcpu, maxUint32 - 998 <= mcpu <= maxUint32 -> CalculateVCpusFromMilliCpus mcpu = 0).
Proof.
  unfold CalculateVCpusFromMilliCpus, CalculateMilliCPUs, maxUint32, maxUint64.
  split_and!.
  - intros quota period Hq Hp Hov Hm. cbn zeta.
    rw (proj2 (Z.leb_le 0 quota)) // (proj2 (Z.eqb_neq period 0)); [lia|]. simpl.
    assert (0 <= quota * 1000 / period) by (apply Z.div_pos; lia).
    rw (u64_small quota); [unfold maxUint64; lia|].
    rw u64_small; [unfold maxUint64; lia|].
    rw !u32_small; [unfold maxUint32; lia..|].
    split; [done|]. generalize dependent (quota * 1000 / period). intros n.
    pose proof (Z.div_mod (n + 999) 1000). pose proof (Z.mod_pos_bound (n + 999) 1000). lia.
  - intros quota period [Hq| ->].
    + by rw (proj2 (Z.leb_gt 0 quota)).
    + by rw andb_false_r.
  - intros mcpu Hm. unfold u32, wrapu.
    replace (mcpu + 999) with ((mcpu + 999 - 2 ^ 32) + 1 * 2 ^ 32) by lia.
    rw Z.mod_add // Z.mod_small; [lia|]. apply Z.div_small. lia.
Qed.

(** ** Reversing a string *)

Lemma swap_loop_lookup n i r x :
  (2 * (i + n) <= length r)%nat ->
  swap_loop n i (length r - 1 - i) r !! x =
  if bool_decide ((i <= x < i + n \/ i <= length r - 1 - x < i + n) /\ x < length r)%nat
  then r !! (length r - 1 - x)%nat else r !! x.
Proof.
  revert i r. induction n as [|n IH]; intros i r Hlen; simpl.
  { rw bool_decide_false //. lia. }
  destruct (lookup_lt_is_Some_2 r i ltac:(lia)) as [a Ha].
  destruct (lookup_lt_is_Some_2 r (length r - 1 - i) ltac:(lia)) as [b Hb].
  rw Ha Hb. set (r' := <[_ := a]> _).
  assert (Hr' : length r' = length r) by (unfold r'; by rw !length_insert).
  replace (pred (length r - 1 - i)) with (length r' - 1 - S i)%nat by lia.
  rw IH; [lia|]. rw Hr'.
  assert (Hl : forall y, r' !! y = if bool_decide (y = length r - 1 - i)%nat then r !! i
    else if bool_decide (y = i) then r !! (length r - 1 - i)%nat else r !! y).
  { intros y. unfold r'. repeat case_bool_decide; subst.
    - rw list_lookup_insert_eq; [rw length_insert; lia|]. done.
    - rw list_lookup_insert_ne // list_lookup_insert_eq; [lia|]. done.
    - by rw !list_lookup_insert_ne. }
  rw !Hl. repeat case_bool_decide; subst; solve [lia | f_equal; lia].
Qed.

Lemma swap_loop_reverse r : swap_loop (length r / 2) 0 (pred (length r)) r = reverse r.
Proof.
  apply list_eq. intros x. replace (pred (length r)) with (length r - 1 - 0)%nat by lia.
  pose proof (Nat.div_mod_eq (length r) 2). pose proof (Nat.mod_upper_bound (length r) 2).
  rw swap_loop_lookup; [lia|].
  destruct (decide (x < length r)%nat) as [Hx|Hx].
  - rw reverse_lookup //. case_bool_decide; f_equal; lia.
  - rw bool_decide_false; [lia|]. rw !lookup_ge_None_2 //; rw ?length_reverse; lia.
Qed.

Lemma reverseString_rev s :
  reverseString s = String.string_of_list_ascii (reverse (String.list_ascii_of_string s)).
Proof. unfold reverseString. by rw swap_loop_reverse. Qed.
(** ** Drive names *)

(** The bijective base-26 value of a little-endian list of letters. *)
Fixpoint letters_val (ls : list ascii) : Z :=
  match ls with
  | [] => -1
  | l :: ls' => (Z.of_N (N_of_ascii l) - 97) + 26 * (letters_val ls' + 1)
  end.

Lemma letters_go_spec n index :
  -1 <= index < 26 ^ Z.of_nat n - 1 ->
  (letters_go n index).2 = -1 /\ letters_val (letters_go n index).1 = index.
Proof.
  revert index. induction n as [|n IH]; intros index Hi; simpl.
  { change (26 ^ Z.of_nat 0) with 1 in Hi. lia. }
  destruct (Z.leb_spec 0 index); [|simpl; lia].
  pose proof (Z.div_mod index 26 ltac:(lia)). pose proof (Z.mod_pos_bound index 26 ltac:(lia)).
  destruct (IH (index / 26 - 1)) as [Hr Hv].
  { rw Nat2Z.inj_succ Z.pow_succ_r in Hi; [lia|].
    assert (0 <= index / 26) by (apply Z.div_pos; lia). lia. }
  destruct (letters_go n (index / 26 - 1)) as [ls rest]. simpl in *. split; [done|].
  rw Hv N_ascii_embedding; [lia|]. rw Z2N.id; lia.
Qed.

Lemma max_index_letters : 2 ^ 63 <= 26 ^ Z.of_nat 30 - 1.
Proof. by vm_compute. Qed.

Lemma GetVirtDriveName_letters index :
  0 <= index < 2 ^ 63 ->
  GetVirtDriveName index =
  Ok ("vd" +:+ String.string_of_list_ascii (reverse (letters_go 30 index).1)).
Proof.
  intros Hi. unfold GetVirtDriveName. rw (proj2 (Z.ltb_ge index 0)); [lia|].
  change (32 - String.length "vd")%nat with 30%nat. pose proof max_index_letters.
  destruct (letters_go_spec 30 index ltac:(lia)) as [Hr _].
  destruct (letters_go 30 index) as [ls rest]. simpl in Hr. subst rest. simpl.
  by rw reverseString_rev String.list_ascii_of_string_of_list_ascii.
Qed.

(** Drive names: every nonnegative 64-bit index has a virtio drive name (the
    30 letters the kernel allows are always enough), the name starts with
    [vd], different indices have different names, and a negative index is an
    error. *)
Theorem GetVirtDriveName_injective :
  (forall i, 0 <= i < 2 ^ 63 -> exists name, GetVirtDriveName i = Ok name /\ HasPrefix name "vd" = true) /\
  (forall i j name, 0 <= i < 2 ^ 63 -> 0 <= j < 2 ^ 63 ->
     GetVirtDriveName i = Ok name -> GetVirtDriveName j = Ok name -> i = j) /\
  (forall i, i < 0 -> is_ok (GetVirtDriveName i) = false).
Proof.
  split_and!.
  - intros i Hi. rw GetVirtDriveName_letters; [exact Hi|].
    eexists. split; [reflexivity|]. apply HasPrefix_app.
  - intros i j name Hi Hj. rw (GetVirtDriveName_letters i Hi) (GetVirtDriveName_letters j Hj).
    generalize (proj2 (letters_go_spec 30 i ltac:(pose proof max_index_letters; lia))).
    generalize (proj2 (letters_go_spec 30 j ltac:(pose proof max_index_letters; lia))).
    generalize (letters_go 30 i).1 (letters_go 30 j).1. intros li lj <- <- [= <-] [= E].
    apply (f_equal String.list_ascii_of_string) in E.
    rw !String.list_ascii_of_string_of_list_ascii in E. apply (inj reverse) in E. by subst.
  - intros i Hi. unfold GetVirtDriveName. by rw (proj2 (Z.ltb_lt i 0)).
Qed.

(** ** SCSI addresses *)

Lemma GetSCSIIdLun_Ok i id lun :
  GetSCSIIdLun i = Ok (id, lun) <->
  0 <= id <= 255 /\ 0 <= lun <= 255 /\ i = 256 * id + lun.
Proof.
  unfold GetSCSIIdLun, maxSCSIDevices.
  pose proof (Z.div_mod i 256 ltac:(lia)). pose proof (Z.mod_pos_bound i 256 ltac:(lia)).
  split.
  - repeat case_match; bool_to_prop; try done. intros [= <- <-]. lia.
  - intros (Hid & Hlun & ->). rw (proj2 (Z.ltb_ge _ 0)); [lia|]. rw (proj2 (Z.ltb_ge _ _)); [lia|].
    do 2 f_equal; lia.
Qed.

Lemma Split_pair a b :
  0 <= a -> 0 <= b -> Split ":" (Itoa a +:+ ":" +:+ Itoa b) = [Itoa a; Itoa b].
Proof.
  intros Ha Hb. change (":" +:+ Itoa b) with (String ":" (Itoa b)).
  rw Split_app; [by apply Itoa_not_mem|]. by rw Split_no_sep; [apply Itoa_not_mem|].
Qed.

(** SCSI addressing: index and (id, lun) determine each other, both numbers
    fit in a byte, exactly the indices 0..65535 have an address, and two
    indices never share an address string. *)
Theorem GetSCSIAddress_injective :
  (forall i id lun, GetSCSIIdLun i = Ok (id, lun) <->
     0 <= id <= 255 /\ 0 <= lun <= 255 /\ i = 256 * id + lun) /\
  (forall i, is_ok (GetSCSIAddress i) = true <-> 0 <= i <= maxSCSIDevices) /\
  (forall i j a, GetSCSIAddress i = Ok a -> GetSCSIAddress j = Ok a -> i = j).
Proof.
  split_and!; [apply GetSCSIIdLun_Ok| |].
  - intros i. unfold GetSCSIAddress, GetSCSIIdLun. munfold.
    repeat case_match; simplify_eq/=; bool_to_prop; split; try done; lia.
  - intros i j a. unfold GetSCSIAddress. munfold.
    destruct (GetSCSIIdLun i) as [[id lun]|] eqn:Ei; [|done].
    destruct (GetSCSIIdLun j) as [[id' lun']|] eqn:Ej; [|done]. simpl.
    apply GetSCSIIdLun_Ok in Ei as (? & ? & ->). apply GetSCSIIdLun_Ok in Ej as (? & ? & ->).
    intros [= <-] [= E]. apply (f_equal (Split ":")) in E.
    rw !Split_pair in E; [lia..|]. injection E as E1 E2. apply Itoa_inj in E1; [|lia..]. apply Itoa_inj in E2; lia.
Qed.

(** ** Memory alignment *)

(** [AlignMem] rounds up to the block size: the result is a multiple of it,
    at least one block and at least the request, and less than one block
    above the larger of the two, when that fits 64 bits; a zero block size
    panics. *)
Theorem AlignMem_spec m blockSize :
  0 <= m -> 0 < blockSize -> m + blockSize <= maxUint64 ->
  exists r, AlignMem m blockSize = Some r /\ (blockSize | r) /\
    Z.max m blockSize <= r < Z.max m blockSize + blockSize.
Proof.
  intros Hm Hb Hov. unfold AlignMem. rw (proj2 (Z.eqb_neq blockSize 0)); [lia|].
  assert ((if m <? blockSize then blockSize else m) = Z.max m blockSize) as ->
    by (destruct (Z.ltb_spec m blockSize); lia).
  pose proof (Z.div_mod (Z.max m blockSize) blockSize ltac:(lia)) as Hd.
  pose proof (Z.mod_pos_bound (Z.max m blockSize) blockSize ltac:(lia)) as Hr.
  destruct (Z.eqb_spec (Z.max m blockSize mod blockSize) 0) as [Hz|Hz]; simpl.
  - eexists. split_and!; [done|by apply Z.mod_divide; [lia|]|lia|lia].
  - assert (blockSize <= m).
    { apply Z.nlt_ge. intros Hlt. rw Z.max_r in Hz; [lia|]. by rw Z_mod_same_full in Hz. }
    eexists. split_and!; [done|..].
    1: exists (Z.max m blockSize / blockSize + 1).
    all: rw u64_small; [unfold maxUint64 in *; lia|]; lia.
Qed.

Lemma AlignMem_spec_witness :
  exists r, AlignMem 300 128 = Some r /\ (128 | r) /\ 300 <= r < 428.
Proof.
  destruct (AlignMem_spec 300 128 ltac:(done) ltac:(done) ltac:(done)) as (r & H1 & H2 & H3).
  exact (ex_intro _ r (conj H1 (conj H2 H3))).
Defined.

End Names.

(** ** Socket paths and directories *)
Module Dirs.
Import Filepath.

Definition MaxSocketPathLen : Z := 107.

Definition BuildSocketPath (elements : list string) : res string :=
  let result := PathJoin elements in
  if bool_decide (result = "") then Err (Errorf "empty path")
  else if MaxSocketPathLen <? Z.of_nat (String.length result)
  then Err (Errorf "path too long (got %v, max %v): %s")
  else Ok result.

(** The loop of [getAllParentPaths]; each [Dir] is shorter than its argument
    until the root is reached. *)
Fixpoint parents_go (fuel : nat) (cur : string) (paths : list string) : option (list string) :=
  match fuel with
  | O => None
  | S f =>
      if negb (bool_decide (cur = "/")) && negb (bool_decide (cur = ".")) then
        let parent := Dir cur in parents_go f parent (parent :: paths)
      else Some paths
  end.

(** [None] only if the fuel were too small. *)
Definition getAllParentPaths (path : string) : option (list string) :=
  if bool_decide (path = "/") || bool_decide (path = ".") then Some []
  else tail <$> parents_go (S (S (String.length path))) path [Clean path].

(** What [os.Stat] shows of a file. *)
Record inode := mkInode { i_IsDir : bool; i_Uid : Z; i_Gid : Z }.

Section Mkdir.
(** The process' own ids, and the kernel's refusals of the two system calls. *)
Context (Getuid Getgid : Z).
Context (mkdir_refused chown_refused : gmap string inode -> string -> bool).

Definition Mkdir (path : string) : M (gmap string inode) unit :=
  fs ← get;
  if bool_decide (is_Some (fs !! path)) || mkdir_refused fs path
  then throw (ErrExternal "mkdir")
  else put (<[path := mkInode true Getuid Getgid]> fs).

Definition Chown (path : string) (uid gid : Z) : M (gmap string inode) unit :=
  fs ← get;
  match fs !! path with
  | None => throw (ErrExternal "chown")
  | Some n => if chown_refused fs path then throw (ErrExternal "chown")
              else put (<[path := mkInode (i_IsDir n) uid gid]> fs)
  end.

Fixpoint mkdir_loop (paths : list string) (uid gid : Z) : M (gmap string inode) unit :=
  match paths with
  | [] => mret tt
  | curPath :: paths' =>
      fs ← get;
      match fs !! curPath with
      | None =>
          _ ← Mkdir curPath; _ ← Chown curPath uid gid; mkdir_loop paths' uid gid
      | Some info =>
          if negb (i_IsDir info) then throw (ErrExternal "mkdir: not a directory")
          else mkdir_loop paths' (i_Uid info) (i_Gid info)
      end
  end.

Definition MkdirAllWithInheritedOwner (path : string) : M (gmap string inode) unit :=
  if bool_decide (path = "") then throw (Errorf "the path is empty")
  else match getAllParentPaths path with
       | Some paths => mkdir_loop paths Getuid Getgid
       | None => throw (ErrExternal "fuel")
       end.

Definition ChownToParent (path : string) : M (gmap string inode) unit :=
  if bool_decide (path = "") then throw (Errorf "the path is empty")
  else if negb (HasPrefix path "/") then throw (Errorf "the path is not absolute")
  else fs ← get;
       match fs !! Dir path with
       | None => throw (Errorf "os.Stat() error on %s: %s")
       | Some info => Chown path (i_Uid info) (i_Gid info)
       end.

(** The owner the loop carries after passing over [paths]. *)
Definition inherited (fs : gmap string inode) (paths : list string) (own : Z * Z) : Z * Z :=
  foldl (fun o p => match fs !! p with Some n => (i_Uid n, i_Gid n) | None => o end) own paths.

Lemma parents_go_abs cs cs' fuel acc :
  Forall elem_ok cs -> (length cs < fuel)%nat ->
  cs' = (fun k => abs (take k cs)) <$> seq 0 (length cs) ->
  parents_go fuel (abs cs) acc = Some (cs' ++ acc).
Proof.
  intros Hok. revert fuel cs' acc. induction cs as [|c cs IH] using rev_ind;
    intros [|f] cs' acc Hf ->; simpl in *; try lia; [done|].
  apply Forall_app in Hok as [Hcs [Hc _]%Forall_cons].
  destruct (abs_not_root (cs ++ [c])) as [H1 H2]; [by destruct cs|by rw Forall_app Forall_singleton|].
  rw !bool_decide_false //= Dir_abs //. rw length_app /= in Hf *.
  erewrite IH; [|done|lia|done]. rw Nat.add_1_r seq_S fmap_app /= -app_assoc. do 2 f_equal.
  - apply list_fmap_ext. intros i k Hk%lookup_seq. rw take_app_le //; lia.
  - simpl. by rw take_app_length.
Qed.
Lemma length_abs cs : Forall elem_ok cs -> (length cs <= String.length (abs cs))%nat.
Proof.
  intros Hcs. unfold abs. rw str_length_app.
  assert (length cs <= S (String.length (Join "/" cs)))%nat; [|simpl; lia].
  induction Hcs as [|c cs (Hc & _) _ IH]; [simpl; lia|].
  destruct cs as [|d cs]; [simpl; lia|].
  change (Join "/" (c :: d :: cs)) with (c +:+ "/" +:+ Join "/" (d :: cs)).
  rw !str_length_app. destruct c; [done|]. simpl in *. lia.
Qed.

Lemma getAllParentPaths_abs cs :
  cs <> [] -> Forall elem_ok cs ->
  getAllParentPaths (abs cs) = Some ((fun k => abs (take k cs)) <$> seq 1 (length cs)).
Proof.
  intros Hne Hok. unfold getAllParentPaths.
  destruct (abs_not_root cs Hne Hok) as [H1 H2]. rw !bool_decide_false //.
  pose proof (length_abs cs Hok). cbn [orb].
  erewrite parents_go_abs; [|done|lia|done]. rw Clean_abs //. cbn [fmap option_fmap option_map]. f_equal.
  transitivity (tail ((fun k => abs (take k cs)) <$> seq 0 (S (length cs)))); [|done].
  rw seq_S fmap_app. simpl. by rw take_ge.
Qed.

Lemma inherited_ext fs fs2 paths own :
  (forall p, p ∈ paths -> fs2 !! p = fs !! p) -> inherited fs2 paths own = inherited fs paths own.
Proof.
  unfold inherited. revert own. induction paths as [|p paths IH]; intros own Hext; [done|].
  simpl. rw Hext; [by left|]. apply IH. intros q Hq. apply Hext. by right.
Qed.

Lemma Mkdir_Chown p own fs :
  fs !! p = None ->
  (exists e fs1, (_ ← Mkdir p; Chown p own.1 own.2) fs = (Err e, fs1)) \/
  (_ ← Mkdir p; Chown p own.1 own.2) fs = (Ok tt, <[p := mkInode true own.1 own.2]> fs).
Proof.
  intros Hp. unfold Mkdir, Chown. munfold. rw Hp.
  destruct (_ || mkdir_refused fs p); [left; by do 2 eexists|].
  rw lookup_insert_eq. destruct (chown_refused _ p); [left; by do 2 eexists|].
  right. by rw insert_insert_eq.
Qed.

Lemma mkdir_loop_ok paths own fs fs' :
  NoDup paths -> mkdir_loop paths own.1 own.2 fs = (Ok tt, fs') ->
  (forall p, p ∉ paths -> fs' !! p = fs !! p) /\
  (forall i p, paths !! i = Some p ->
     match fs !! p with
     | Some n => i_IsDir n = true /\ fs' !! p = Some n
     | None => let o := inherited fs (take i paths) own in fs' !! p = Some (mkInode true o.1 o.2)
     end).
Proof.
  revert own fs. induction paths as [|q paths IH]; intros own fs Hnd; simpl.
  { intros [= <-]. done. }
  apply NoDup_cons in Hnd as [Hq Hnd]. unfold mbind at 1, M_bind at 1, get.
  destruct (fs !! q) as [n|] eqn:En.
  - destruct (i_IsDir n) eqn:Ed; simpl; [|done].
    intros [Hout Hin]%(IH (i_Uid n, i_Gid n)); [|done]. split.
    + intros p Hp. apply Hout. set_solver.
    + intros [|i] p Hp; simplify_eq/=; rw En; [split; [done|]; by rw Hout|].
      by apply Hin.
  - intros H.
    assert (Hloop : mkdir_loop paths own.1 own.2 (<[q := mkInode true own.1 own.2]> fs) = (Ok tt, fs')).
    { destruct (Mkdir_Chown q own fs En) as [(e & fs1 & E)|E];
        munfold; destruct (Mkdir q fs) as [[|] ?]; try done; by rw E in H. }
    apply IH in Hloop as [Hout Hin]; [|done].
    assert (Hne : forall r, r ∈ paths -> <[q := mkInode true own.1 own.2]> fs !! r = fs !! r).
    { intros r Hr. rw lookup_insert_ne //. by intros ->. }
    split.
    + intros p Hp. rw Hout; [set_solver|]. rw lookup_insert_ne //. set_solver.
    + intros [|i] p Hp; simplify_eq/=; rw En; [by rw Hout // lookup_insert_eq|].
      specialize (Hin i p Hp). rw Hne in Hin; [by eapply list_elem_of_lookup_2|].
      rw (inherited_ext fs) in Hin; [|done].
      intros r Hr. apply Hne. rw -(take_drop i paths). set_solver.
Qed.

Lemma mkdir_loop_total paths own fs :
  (forall fs p, mkdir_refused fs p = false /\ chown_refused fs p = false) ->
  (forall p n, p ∈ paths -> fs !! p = Some n -> i_IsDir n = true) ->
  exists fs', mkdir_loop paths own.1 own.2 fs = (Ok tt, fs').
Proof.
  intros Hok. revert own fs. induction paths as [|q paths IH]; intros own fs Hdir; [by eexists|].
  simpl. unfold mbind at 1, M_bind at 1, get. destruct (fs !! q) as [n|] eqn:En.
  - rw (Hdir q n) //=; [by left|]. apply (IH (i_Uid n, i_Gid n)).
    intros p m Hp. apply Hdir. by right.
  - unfold Mkdir, Chown. munfold. destruct (Hok fs q) as [-> _]. rw En bool_decide_false //=.
    rw lookup_insert_eq. destruct (Hok (<[q:=mkInode true Getuid Getgid]> fs) q) as [_ ->].
    apply IH. intros p m Hp. rw insert_insert_eq. destruct (decide (q = p)) as [->|].
    + rw lookup_insert_eq. by intros [= <-].
    + rw lookup_insert_ne //. apply Hdir. by right.
Qed.

Lemma prefixes_NoDup cs : Forall elem_ok cs -> NoDup ((fun k => abs (take k cs)) <$> seq 1 (length cs)).
Proof.
  intros Hok. apply NoDup_fmap_2_strong; [|apply NoDup_seq].
  intros i j Hi%elem_of_seq Hj%elem_of_seq E.
  assert (Hs : forall k, (1 <= k < 1 + length cs)%nat ->
    length (Split "/" (abs (take k cs))) = S k).
  { intros k Hk. rw Split_abs; [by destruct cs, k; simpl in *; try lia|by apply Forall_take|].
    simpl. rw length_take. lia. }
  pose proof (Hs i Hi) as Hsi. pose proof (Hs j Hj) as Hsj. rw E in Hsi. lia.
Qed.

(** [MkdirAllWithInheritedOwner] on an absolute path: when the kernel refuses
    nothing and every existing ancestor is a directory it succeeds; and when
    it succeeds, the path and all its ancestors exist as directories, those
    that existed are as they were, each new one belongs to the owner of the
    nearest ancestor above it that existed before the call (the process'
    own ids if none did), and no other file changes. *)
Theorem MkdirAll_inherits_owner cs fs :
  cs <> [] -> Forall elem_ok cs ->
  let paths := (fun k => abs (take k cs)) <$> seq 1 (length cs) in
  ((forall fs p, mkdir_refused fs p = false /\ chown_refused fs p = false) ->
   (forall p n, p ∈ paths -> fs !! p = Some n -> i_IsDir n = true) ->
   exists fs', MkdirAllWithInheritedOwner (abs cs) fs = (Ok tt, fs')) /\
  (forall fs', MkdirAllWithInheritedOwner (abs cs) fs = (Ok tt, fs') ->
   (forall p, p ∉ paths -> fs' !! p = fs !! p) /\
   (forall i p, paths !! i = Some p ->
      match fs !! p with
      | Some n => i_IsDir n = true /\ fs' !! p = Some n
      | None => let o := inherited fs (take i paths) (Getuid, Getgid) in
                fs' !! p = Some (mkInode true o.1 o.2)
      end)).
Proof.
  intros Hne Hok paths. unfold MkdirAllWithInheritedOwner.
  rw bool_decide_false // getAllParentPaths_abs //. split.
  - intros Hr Hd. by apply (mkdir_loop_total paths (Getuid, Getgid)).
  - intros fs' E. apply (mkdir_loop_ok paths (Getuid, Getgid)); [by apply prefixes_NoDup|done].
Qed.

End Mkdir.

Lemma MkdirAll_inherits_owner_witness :
  exists fs', MkdirAllWithInheritedOwner 0 0 (fun _ _ => false) (fun _ _ => false) "/run/vc/sbs"
      {["/run" := mkInode true 1000 100]} = (Ok tt, fs') /\
    fs' !! "/run/vc/sbs" = Some (mkInode true 1000 100).
Proof.
  assert (Hok : Forall elem_ok ["run"; "vc"; "sbs"]) by (repeat constructor; done).
  destruct (MkdirAll_inherits_owner 0 0 (fun _ _ => false) (fun _ _ => false) ["run"; "vc"; "sbs"]
    {["/run" := mkInode true 1000 100]} ltac:(done) Hok) as [H1 H2].
  destruct H1 as [fs' E]; [done| |].
  { intros p n _. destruct (decide (p = "/run")) as [->|].
    - rw lookup_insert_eq. by intros [= <-].
    - by rw lookup_insert_ne. }
  exists fs'. split; [exact E|]. exact (proj2 (H2 fs' E) 2%nat "/run/vc/sbs" eq_refl).
Defined.

End Dirs.

(** ** Waiting for a local process *)
Module WaitProcess.

Definition SIGKILL : Z := 9.

(** The outcome of [syscall.Kill]. *)
Inductive kill_result := KillOk | KillESRCH | KillErr.

(** What the [select] loop can observe: a tick, with whether [Wait4] reaped the
    process and whether the null signal found it alive, or the timeout. *)
Inductive event := Tick (reaped alive : bool) | Timeout.

(** The loop: is the process still running when it is left?  [None] when the
    observations end before a timeout. *)
Fixpoint wait_go (events : list event) : option bool :=
  match events with
  | [] => None
  | Tick reaped alive :: events' =>
      if reaped then Some false
      else if negb alive then Some false
      else wait_go events'
  | Timeout :: _ => Some true
  end.

Section Wait.
(** The kernel's answer to a signal sent to the process. *)
Context (kill : Z -> kill_result).

(** The result and the signals sent, in order. *)
Definition WaitLocalProcess (pid initialSignal : Z) (events : list event)
    : option (res unit * list Z) :=
  if pid <=? 0 then Some (Err (Errorf "can only wait for a single process"), [])
  else
    let sent := if negb (initialSignal =? 0) then [initialSignal] else [] in
    let first := if negb (initialSignal =? 0) then kill initialSignal else KillOk in
    match first with
    | KillESRCH => Some (Ok tt, sent)
    | KillErr => Some (Err (Errorf "Failed to send initial signal %v to process %v: %v"), sent)
    | KillOk =>
        match wait_go events with
        | None => None
        | Some false => Some (Ok tt, sent)
        | Some true =>
            match kill SIGKILL with
            | KillOk => Some (Ok tt, sent ++ [SIGKILL])
            | _ => Some (Err (Errorf "Failed to stop process %v: %s"), sent ++ [SIGKILL])
            end
        end
    end.

(** The process was seen to be gone before the timeout. *)
Inductive seen_gone : list event -> Prop :=
| gone_reaped alive evs : seen_gone (Tick true alive :: evs)
| gone_dead reaped evs : seen_gone (Tick reaped false :: evs)
| gone_later evs : seen_gone evs -> seen_gone (Tick false true :: evs).

Lemma wait_go_gone events : wait_go events = Some false -> seen_gone events.
Proof.
  induction events as [|[[] []|] events IH]; simpl; try done; eauto using seen_gone.
Qed.

Lemma wait_go_timeout events : Timeout ∈ events -> is_Some (wait_go events).
Proof.
  induction events as [|ev events IH]; [by intros ?%not_elem_of_nil|].
  intros [<-|Hin]%elem_of_cons; [done|]. destruct ev as [[] []|]; simpl; auto.
Qed.

(** [WaitLocalProcess] returns once the timeout fires, and a nil result means
    the process is gone: it had already finished when the first signal was
    sent, it was seen to end before the timeout, or it was killed.  No signal
    is ever sent to a process group. *)
Theorem WaitLocalProcess_stops pid sig events :
  (Timeout ∈ events -> is_Some (WaitLocalProcess pid sig events)) /\
  (forall sent, WaitLocalProcess pid sig events = Some (Ok tt, sent) ->
     0 < pid /\
     ((sig <> 0 /\ kill sig = KillESRCH /\ sent = [sig]) \/ seen_gone events \/
      (kill SIGKILL = KillOk /\ last sent = Some SIGKILL))) /\
  (pid <= 0 -> exists e, WaitLocalProcess pid sig events = Some (Err e, [])).
Proof.
  unfold WaitLocalProcess. split_and!.
  - intros [b Hb]%wait_go_timeout. rw Hb. repeat case_match; done.
  - intros sent. destruct (Z.leb_spec pid 0); [done|].
    destruct (Z.eqb_spec sig 0) as [->|Hs]; simpl; [|destruct (kill sig) eqn:Ek; try done].
    3:{ intros [= <-]. split; [done|]. naive_solver. }
    all: destruct (wait_go events) as [[]|] eqn:Ew; try done;
      [|intros [= <-]; split; [done|]; right; left; by apply wait_go_gone].
    all: destruct (kill SIGKILL) eqn:Ek9; try done; intros [= <-]; split; [done|]; naive_solver.
  - intros Hp. rw (proj2 (Z.leb_le pid 0)) //. by eexists.
Qed.

End Wait.
End WaitProcess.

(** ** Retrying *)
Module Retry.

(** An error of the retried function, with whether it is wrapped by
    [Unrecoverable]. *)
Record rerr := mkErr { re_err : error; re_unrecoverable : bool }.

Definition Unrecoverable (e : error) : rerr := mkErr e true.
Definition IsRecoverable (e : rerr) : bool := negb (re_unrecoverable e).
Definition unpackUnrecoverable (e : rerr) : error := re_err e.

Record Config := mkConfig {
  cf_retryIf : rerr -> bool;
  cf_delayType : Z -> Z;
  cf_maxDelay : Z;
  cf_attempts : Z;
  cf_lastErrorOnly : bool;
}.

(** [config.delay * (1 << n)] on 64-bit durations; a shift by 64 or more is 0. *)
Definition BackOffDelay (delay n : Z) : Z := i64 (delay * i64 (Z.shiftl 1 n)).

(** The state of the loop: the calls made and the delays slept. *)
Record trace := mkTrace { t_calls : Z; t_sleeps : list Z }.

Section Do.
Context (config : Config) (retryableFunc : Z -> option rerr).

Definition delay_of (n : Z) : Z :=
  let d := cf_delayType config n in
  if (0 <? cf_maxDelay config) && (cf_maxDelay config <? d) then cf_maxDelay config else d.

(** The loop at attempt [n] with the errors logged so far; [true]: returned nil
    from inside the loop.  The fuel is the number of attempts left. *)
Fixpoint do_loop (fuel : nat) (n : Z) (log : list error) (t : trace) : bool * list error * trace :=
  match fuel with
  | O => (false, log, t)
  | S f =>
      if n <? cf_attempts config then
        let t := mkTrace (t_calls t + 1) (t_sleeps t) in
        match retryableFunc n with
        | None => (true, log, t)
        | Some err =>
            let log := log ++ [unpackUnrecoverable err] in
            if negb (cf_retryIf config err) then (false, log, t)
            else if n =? cf_attempts config - 1 then (false, log, t)
            else do_loop f (n + 1) log (mkTrace (t_calls t) (t_sleeps t ++ [delay_of n]))
        end
      else (false, log, t)
  end.

(** [Do]: no error, or the list of logged errors ([errorLog] with its nil
    entries dropped), or only the last one. *)
Definition Do : option (list error) * trace :=
  let '(ok, log, t) := do_loop (Z.to_nat (cf_attempts config)) 0 [] (mkTrace 0 []) in
  if ok then (None, t)
  else if cf_lastErrorOnly config then (match last log with Some e => Some [e] | None => None end, t)
  else (Some log, t).

(** The errors of the calls numbered [n .. n + m - 1]. *)
Definition errors_of (n m : Z) (es : list error) : Prop :=
  Forall2 (fun i e => exists re, retryableFunc i = Some re /\ e = unpackUnrecoverable re) (seqZ n m) es.

Lemma errors_of_cons n m re es :
  0 <= m -> retryableFunc n = Some re -> errors_of (n + 1) m es ->
  errors_of n (m + 1) (unpackUnrecoverable re :: es).
Proof.
  intros Hm Hre Hes. unfold errors_of. rw seqZ_cons; [lia|].
  replace (Z.succ n) with (n + 1) by lia. replace (Z.pred (m + 1)) with m by lia.
  constructor; [by exists re|done].
Qed.

(** The loop makes [m] calls, all but the last of which failed in a retryable
    way, sleeps between them, and logs the errors in order. *)
Definition loop_post (left n : Z) (log : list error) (t : trace)
    (ok : bool) (log' : list error) (t' : trace) : Prop :=
  exists m, 1 <= m <= left /\ t_calls t' = t_calls t + m /\
    t_sleeps t' = t_sleeps t ++ (delay_of <$> seqZ n (m - 1)) /\
    (forall i, n <= i < n + m - 1 -> exists e, retryableFunc i = Some e /\ cf_retryIf config e = true) /\
    exists es, log' = log ++ es /\
    if ok then retryableFunc (n + m - 1) = None /\ errors_of n (m - 1) es
    else errors_of n m es /\ exists e, retryableFunc (n + m - 1) = Some e /\
      (cf_retryIf config e = false \/ n + m = cf_attempts config).

Lemma loop_post_success left n log t :
  1 <= left -> retryableFunc n = None ->
  loop_post left n log t true log (mkTrace (t_calls t + 1) (t_sleeps t)).
Proof.
  intros Hl Hn. exists 1. cbn [t_calls t_sleeps]. rw app_nil_r. split_and!; [lia..|done|lia|].
  exists []. rw app_nil_r. split; [done|]. replace (n + 1 - 1) with n by lia.
  split; [done|constructor].
Qed.

Lemma loop_post_stop left n log t re :
  1 <= left -> retryableFunc n = Some re ->
  cf_retryIf config re = false \/ n + 1 = cf_attempts config ->
  loop_post left n log t false (log ++ [unpackUnrecoverable re]) (mkTrace (t_calls t + 1) (t_sleeps t)).
Proof.
  intros Hl Hn Hc. exists 1. cbn [t_calls t_sleeps]. rw app_nil_r. split_and!; [lia..|done|lia|].
  eexists. split; [done|]. split.
  - by apply (errors_of_cons n 0); [| |constructor].
  - replace (n + 1 - 1) with n by lia. by exists re.
Qed.

Lemma loop_post_again left n log t re ok log' t' :
  retryableFunc n = Some re -> cf_retryIf config re = true ->
  loop_post left (n + 1) (log ++ [unpackUnrecoverable re])
    (mkTrace (t_calls t + 1) (t_sleeps t ++ [delay_of n])) ok log' t' ->
  loop_post (left + 1) n log t ok log' t'.
Proof.
  intros Hn Hif (m & Hm & Hc & Hs & Hre & es & -> & Hok). cbn [t_calls t_sleeps] in Hc, Hs.
  exists (m + 1). split_and!; [lia|lia|lia| | |].
  - rw Hs -app_assoc. f_equal. rw (seqZ_cons n); [lia|]. simpl. do 3 f_equal; lia.
  - intros i Hi. destruct (decide (i = n)) as [->|]; [by exists re|]. apply Hre. lia.
  - eexists. split; [by rw -app_assoc|]. replace (n + (m + 1) - 1) with (n + 1 + m - 1) by lia.
    destruct ok.
    + destruct Hok as [? Hes]. split; [done|]. replace (m + 1 - 1) with (m - 1 + 1) by lia.
      apply errors_of_cons; [lia|done..].
    + destruct Hok as [Hes (e & ? & ?)]. split; [apply errors_of_cons; [lia|done..]|].
      exists e. split; [done|]. by replace (n + (m + 1)) with (n + 1 + m) by lia.
Qed.

Lemma do_loop_spec fuel n log t ok log' t' :
  fuel <> O -> n + Z.of_nat fuel = cf_attempts config -> do_loop fuel n log t = (ok, log', t') ->
  loop_post (Z.of_nat fuel) n log t ok log' t'.
Proof.
  revert n log t. induction fuel as [|f IH]; intros n log t Hf Hn; [done|]. cbn [do_loop].
  rw (proj2 (Z.ltb_lt n (cf_attempts config))); [lia|].
  destruct (retryableFunc n) as [re|] eqn:Ere.
  2:{ intros [= <- <- <-]. apply loop_post_success; [lia|done]. }
  destruct (cf_retryIf config re) eqn:Eif; simpl.
  2:{ intros [= <- <- <-]. apply loop_post_stop; [lia|done|by left]. }
  destruct (Z.eqb_spec n (cf_attempts config - 1)).
  { intros [= <- <- <-]. apply loop_post_stop; [lia|done|right; lia]. }
  intros E. apply IH in E; [|lia|lia]. replace (Z.of_nat (S f)) with (Z.of_nat f + 1) by lia.
  by eapply loop_post_again.
Qed.

(** [retry.Do] with at least one attempt makes between one and [attempts]
    calls, every call but the last failed in a retryable way, it sleeps once
    between two calls, it returns nil exactly when the last call succeeded,
    and otherwise returns the errors of all calls in order (or the last one
    only), having stopped because the error was not retryable or the attempts
    were used up. *)
Theorem Do_spec :
  0 < cf_attempts config ->
  let '(r, t) := Do in
  exists k es, t_calls t = k /\ 1 <= k <= cf_attempts config /\
    t_sleeps t = delay_of <$> seqZ 0 (k - 1) /\
    (forall i, 0 <= i < k - 1 -> exists e, retryableFunc i = Some e /\ cf_retryIf config e = true) /\
    match retryableFunc (k - 1) with
    | None => r = None
    | Some e => errors_of 0 k es /\
        r = (if cf_lastErrorOnly config then Some [unpackUnrecoverable e] else Some es) /\
        (cf_retryIf config e = false \/ k = cf_attempts config)
    end.
Proof.
  intros Hpos. unfold Do.
  destruct (do_loop _ 0 [] (mkTrace 0 [])) as [[ok log] t] eqn:E.
  apply do_loop_spec in E as (m & Hm & Hc & Hs & Hre & es & -> & Hok); [|lia|lia].
  replace (0 + m - 1) with (m - 1) in * by lia. cbn [t_calls t_sleeps app] in *.
  destruct ok; [|destruct Hok as [Hes (e & He & Hstop)]].
  - exists m, es. destruct Hok as [-> _]. split_and!; try done; lia.
  - assert (Hlast : last es = Some (unpackUnrecoverable e)).
    { unfold errors_of in Hes. replace m with ((m - 1) + 1) in Hes by lia. rw seqZ_app in Hes; [lia|lia|].
      apply Forall2_app_inv_l in Hes as (es1 & es2 & _ & Hes2 & ->). simpl in Hes2.
      inversion_clear Hes2 as [|? ? ? ? (re & Hr & ->) Hnil]. inversion_clear Hnil.
      replace (0 + (m - 1)) with (m - 1) in Hr by lia. rw He in Hr. injection Hr as <-. by rw last_snoc. }
    destruct (cf_lastErrorOnly config); rw ?Hlast; exists m, es; rw He; split_and!; try done; try lia;
      (destruct Hstop; [by left|right; lia]).
Qed.

End Do.

(** A function that fails twice and then succeeds. *)
Definition flaky (n : Z) : option rerr := if n <? 2 then Some (mkErr (Errorf "busy") false) else None.
Definition demo_config : Config := mkConfig IsRecoverable (BackOffDelay 100) 150 10 false.

Lemma Do_spec_witness :
  0 < cf_attempts demo_config /\ Do demo_config flaky = (None, mkTrace 3 [100; 150]) /\
  exists k es, 3 = k /\ 1 <= k <= 10 /\ errors_of flaky 0 0 es.
Proof.
  split; [done|]. split; [by vm_compute|].
  destruct (Do_spec demo_config flaky ltac:(done)) as (k & es & Hk & Hr & _).
  exists k, []. split_and!; [exact Hk|exact (proj1 Hr)|exact (proj2 Hr)|constructor].
Defined.

End Retry.
