(* ===== verification/Devices.v ===== *)
(** * virtcontainers/device: configuration and drivers

    The device descriptions of [device/config/config.go], the interface between
    a device and the sandbox it is attached to ([device/api/interface.go]) and
    the drivers of [device/drivers]: generic, block, VFIO and vhost-user
    devices with their attach counting, rollback on failure and persistence.

    [DeviceReceiver] is the Go interface of that name as a class over the
    receiver's state; [DeviceReceiverLaws] states what a receiver promises to
    the drivers.  The drivers' theorems are proved against the laws; the
    sandbox discharges them in its own file. *)
From S2P Require Import Prelude GoStr Types Utils.
Import Filepath Utils.Names.

(** ** Descriptions *)
Module Config.
Import Types.PciPaths.

Definition DeviceType : Type := string.
Definition DeviceVFIO : DeviceType := "vfio".
Definition DeviceBlock : DeviceType := "block".
Definition DeviceGeneric : DeviceType := "generic".
Definition VhostUserSCSI : DeviceType := "vhost-user-scsi-pci".
Definition VhostUserNet : DeviceType := "virtio-net-pci".
Definition VhostUserBlk : DeviceType := "vhost-user-blk-pci".
Definition VhostUserFS : DeviceType := "vhost-user-fs-pci".

Definition VirtioMmio : string := "virtio-mmio".
Definition VirtioBlock : string := "virtio-blk".
Definition VirtioBlockCCW : string := "virtio-blk-ccw".
Definition VirtioSCSI : string := "virtio-scsi".
Definition Nvdimm : string := "nvdimm".

Definition FsTypeOpt : string := "fstype".
Definition BlockDriverOpt : string := "block-driver".

Definition VhostUserBlkMajor : Z := 241.
Definition VhostUserSCSIMajor : Z := 242.

Definition SysDevPrefix : string := "/sys/dev".
Definition SysIOMMUPath : string := "/sys/kernel/iommu_groups".
Definition SysBusPciDevicesPath : string := "/sys/bus/pci/devices".

(** [DriverOptions] is a map that may be nil. *)
Record DeviceInfo := mkDeviceInfo {
  di_DriverOptions : option (gmap string string);
  di_HostPath : string;
  di_ContainerPath : string;
  di_DevType : string;
  di_ID : string;
  di_Major : Z;
  di_Minor : Z;
  di_FileMode : Z;
  di_UID : Z;
  di_GID : Z;
  di_Pmem : bool;
  di_ReadOnly : bool;
  di_ColdPlug : bool;
}.

Definition set_HostPath (d : DeviceInfo) (p : string) : DeviceInfo :=
  mkDeviceInfo (di_DriverOptions d) p (di_ContainerPath d) (di_DevType d) (di_ID d)
    (di_Major d) (di_Minor d) (di_FileMode d) (di_UID d) (di_GID d) (di_Pmem d)
    (di_ReadOnly d) (di_ColdPlug d).
Definition set_info_ID (d : DeviceInfo) (id : string) : DeviceInfo :=
  mkDeviceInfo (di_DriverOptions d) (di_HostPath d) (di_ContainerPath d) (di_DevType d) id
    (di_Major d) (di_Minor d) (di_FileMode d) (di_UID d) (di_GID d) (di_Pmem d)
    (di_ReadOnly d) (di_ColdPlug d).
Definition set_DriverOptions (d : DeviceInfo) (o : option (gmap string string)) : DeviceInfo :=
  mkDeviceInfo o (di_HostPath d) (di_ContainerPath d) (di_DevType d) (di_ID d)
    (di_Major d) (di_Minor d) (di_FileMode d) (di_UID d) (di_GID d) (di_Pmem d)
    (di_ReadOnly d) (di_ColdPlug d).

(** [customOptions[k]]: the zero value for a missing key or a nil map. *)
Definition option_at (o : option (gmap string string)) (k : string) : string :=
  default "" (o ≫= (!!) k).

Record BlockDrive := mkBlockDrive {
  bd_File : string;
  bd_Format : string;
  bd_ID : string;
  bd_MmioAddr : string;
  bd_SCSIAddr : string;
  bd_NvdimmID : string;
  bd_VirtPath : string;
  bd_DevNo : string;
  bd_PCIPath : PciPath;
  bd_Index : Z;
  bd_ShareRW : bool;
  bd_ReadOnly : bool;
  bd_Pmem : bool;
  bd_Swap : bool;
}.

Definition VFIOModeType : Type := Z.
Definition VFIOModeVFIO : VFIOModeType := 0.
Definition VFIOModeGuestKernel : VFIOModeType := 1.

Definition VFIOSetMode (modeName : string) : M VFIOModeType unit :=
  if bool_decide (modeName = "vfio") then put VFIOModeVFIO
  else if bool_decide (modeName = "guest-kernel") then put VFIOModeGuestKernel
  else throw (Errorf "Unknown VFIO mode %s").

Definition VFIODeviceType : Type := Z.
Definition VFIODeviceErrorType : VFIODeviceType := 0.
Definition VFIODeviceNormalType : VFIODeviceType := 1.
Definition VFIODeviceMediatedType : VFIODeviceType := 2.

Record VFIODev := mkVFIODev {
  vd_ID : string;
  vd_BDF : string;
  vd_SysfsDev : string;
  vd_VendorID : string;
  vd_DeviceID : string;
  vd_Class : string;
  vd_Bus : string;
  vd_GuestPciPath : PciPath;
  vd_Type : VFIODeviceType;
  vd_IsPCIe : bool;
}.

Record VhostUserDeviceAttrs := mkVhostUserDeviceAttrs {
  vu_DevID : string;
  vu_SocketPath : string;
  vu_MacAddress : string;
  vu_Tag : string;
  vu_Cache : string;
  vu_Type : DeviceType;
  vu_PCIPath : PciPath;
  vu_Index : Z;
  vu_CacheSize : Z;
}.

(** The zero value of the attributes. *)
Definition attrs_zero : VhostUserDeviceAttrs :=
  mkVhostUserDeviceAttrs "" "" "" "" "" "" [] 0 0.

Definition getSysDevPath (devInfo : DeviceInfo) : string :=
  let path pathComp :=
    PathJoin [SysDevPrefix; pathComp;
              FormatInt 10 (di_Major devInfo) +:+ ":" +:+ FormatInt 10 (di_Minor devInfo)] in
  if bool_decide (di_DevType devInfo = "c") || bool_decide (di_DevType devInfo = "u") then path "char"
  else if bool_decide (di_DevType devInfo = "b") then path "block"
  else "".

(** The answers of the host the lookups below depend on. *)
Inductive stat_result := StatOk | StatNotExist | StatErr (e : error).

Record Host := mkHost {
  h_Stat : string -> stat_result;
  (** the DEVNAME key of a uevent file *)
  h_DevName : string -> res string;
  h_ReadDir : string -> res (list string);
  (** major and minor of a device node *)
  h_NodeStat : string -> res (Z * Z);
  h_ReadFile : string -> res string;
  (** size of a file *)
  h_FileSize : string -> option Z;
  h_EvalSymlinks : string -> res string;
}.

Section Host.
Context (host : Host).

Definition getVhostUserDevName (dirname : string) (majorNum minorNum : Z) : res string :=
  files ← h_ReadDir host dirname;
  (fix go (files : list string) : res string :=
    match files with
    | [] => Err (Errorf "Required device node (%d:%d) doesn't exist under directory %s")
    | name :: files' =>
        mm ← h_NodeStat host (PathJoin [dirname; name]);
        if (mm.1 =? majorNum) && (mm.2 =? minorNum) then Ok name else go files'
    end) files.

Definition getVhostUserHostPath (devInfo : DeviceInfo) (vhostUserStorePath : string) : res string :=
  let vhostUserDevNodePath := PathJoin [vhostUserStorePath; "/block/devices/"] in
  let vhostUserSockPath := PathJoin [vhostUserStorePath; "/block/sockets/"] in
  sockFileName ← getVhostUserDevName vhostUserDevNodePath (u32 (di_Major devInfo)) (u32 (di_Minor devInfo));
  let sockFilePath := PathJoin [vhostUserSockPath; sockFileName] in
  match h_Stat host sockFilePath with
  | StatNotExist => Err (ErrExternal "stat: not exist")
  | _ => Ok sockFilePath
  end.

Definition GetHostPath (devInfo : DeviceInfo) (vhostUserStoreEnabled : bool) (vhostUserStorePath : string)
    : res string :=
  if bool_decide (di_ContainerPath devInfo = "") then Err (Errorf "Empty path provided for device")
  else if vhostUserStoreEnabled && bool_decide (di_DevType devInfo = "b") &&
          ((di_Major devInfo =? VhostUserSCSIMajor) || (di_Major devInfo =? VhostUserBlkMajor))
  then getVhostUserHostPath devInfo vhostUserStorePath
  else
    let ueventPath := PathJoin [getSysDevPath devInfo; "uevent"] in
    match h_Stat host ueventPath with
    | StatNotExist => Ok (di_ContainerPath devInfo)
    | StatErr e => Err e
    | StatOk =>
        devName ← h_DevName host ueventPath;
        mret (PathJoin ["/dev"; devName])
    end.

End Host.
End Config.

(** ** Drivers *)
Module Drivers.
Import Config Types.PciPaths.

Definition intMax : Z := maxUint64.
Definition maxDevIDSize : Z := 31.

(** [GenericDevice], embedded in every driver's device.  The constructors and
    [Load] always set [DeviceInfo]. *)
Record GenericDevice := mkGenericDevice {
  gd_DeviceInfo : DeviceInfo;
  gd_ID : string;
  gd_RefCount : Z;
  gd_AttachCount : Z;
}.

Definition set_RefCount (g : GenericDevice) (n : Z) : GenericDevice :=
  mkGenericDevice (gd_DeviceInfo g) (gd_ID g) n (gd_AttachCount g).
Definition set_AttachCount (g : GenericDevice) (n : Z) : GenericDevice :=
  mkGenericDevice (gd_DeviceInfo g) (gd_ID g) (gd_RefCount g) n.

(** The driver specific part of a device. *)
Inductive DriverData :=
| GenericData
| BlockData (drive : option BlockDrive)
| VFIOData (devs : list VFIODev)
| VhostUserBlkData (attrs : option VhostUserDeviceAttrs)
| VhostUserSCSIData (attrs : VhostUserDeviceAttrs)
| VhostUserNetData (attrs : VhostUserDeviceAttrs)
| VhostUserFSData (attrs : VhostUserDeviceAttrs).

Record Device := mkDevice { dev_generic : GenericDevice; dev_data : DriverData }.

Definition NewGeneric (devInfo : DeviceInfo) : GenericDevice :=
  mkGenericDevice devInfo (di_ID devInfo) 0 0.
Definition NewGenericDevice (devInfo : DeviceInfo) : Device := mkDevice (NewGeneric devInfo) GenericData.
Definition NewBlockDevice (devInfo : DeviceInfo) : Device := mkDevice (NewGeneric devInfo) (BlockData None).
Definition NewVFIODevice (devInfo : DeviceInfo) : Device := mkDevice (NewGeneric devInfo) (VFIOData []).
Definition NewVhostUserBlkDevice (devInfo : DeviceInfo) : Device :=
  mkDevice (NewGeneric devInfo) (VhostUserBlkData None).

Definition GetDeviceType (d : Device) : DeviceType :=
  match dev_data d with
  | GenericData => DeviceGeneric
  | BlockData _ => DeviceBlock
  | VFIOData _ => DeviceVFIO
  | VhostUserBlkData _ => VhostUserBlk
  | VhostUserSCSIData _ => VhostUserSCSI
  | VhostUserNetData _ => VhostUserNet
  | VhostUserFSData _ => VhostUserFS
  end.

Definition GetAttachCount (d : Device) : Z := gd_AttachCount (dev_generic d).
Definition DeviceID (d : Device) : string := gd_ID (dev_generic d).
Definition GetMajorMinor (d : Device) : Z * Z :=
  (di_Major (gd_DeviceInfo (dev_generic d)), di_Minor (gd_DeviceInfo (dev_generic d))).
Definition GetDevHostPath (d : Device) : string := di_HostPath (gd_DeviceInfo (dev_generic d)).

Definition Reference : M GenericDevice Z :=
  d ← get;
  _ ← when (negb (gd_RefCount d =? intMax)) (put (set_RefCount d (gd_RefCount d + 1)));
  gets gd_RefCount.

Definition Dereference : M GenericDevice Z :=
  d ← get;
  _ ← when (negb (gd_RefCount d =? 0)) (put (set_RefCount d (gd_RefCount d - 1)));
  gets gd_RefCount.

(** The result is [skip]: no real attach or detach is needed. *)
Definition bumpAttachCount (attach : bool) : M GenericDevice bool :=
  d ← get;
  let n := gd_AttachCount d in
  if attach then
    if n =? 0 then _ ← put (set_AttachCount d (n + 1)); mret false
    else if n =? intMax then throw (Errorf "device was attached too many times")
    else _ ← put (set_AttachCount d (n + 1)); mret true
  else
    if n =? 0 then throw (Errorf "detaching a device that wasn't attached")
    else if n =? 1 then _ ← put (set_AttachCount d (n - 1)); mret false
    else _ ← put (set_AttachCount d (n - 1)); mret true.

(** *** The receiver of devices *)

(** [api.DeviceReceiver].  A call that is handed the device may fill in its
    driver data (the guest address a hot-plug found, for instance).  A failing
    [GetAndSetSandboxBlockIndex] returns the index -1 with its error. *)
Class DeviceReceiver (R : Type) : Type := {
  HotplugAddDevice : DeviceType -> M (Device * R) unit;
  HotplugRemoveDevice : DeviceType -> M (Device * R) unit;
  AppendDevice : M (Device * R) unit;
  GetAndSetSandboxBlockIndex : M R Z;
  UnsetSandboxBlockIndex : Z -> M R unit;
  (** the block indexes in use, for the specification *)
  block_indexes : R -> gset Z;
}.

(** The state an attach or detach works on: the device, the global
    [AllPCIeDevs] and the receiver. *)
Record AttachState (R : Type) := mkAttachState {
  as_dev : Device;
  as_AllPCIeDevs : gset string;
  as_recv : R;
}.
Arguments mkAttachState {R} _ _ _.
Arguments as_dev {R} _.
Arguments as_AllPCIeDevs {R} _.
Arguments as_recv {R} _.

Section Attach.
Context {R : Type} `{DeviceReceiver R} (host : Host).

(** Calls on one part of the state. *)
Definition on_generic {A} (m : M GenericDevice A) : M (AttachState R) A := fun s =>
  let '(r, g) := m (dev_generic (as_dev s)) in
  (r, mkAttachState (mkDevice g (dev_data (as_dev s))) (as_AllPCIeDevs s) (as_recv s)).
Definition on_recv {A} (m : M R A) : M (AttachState R) A := fun s =>
  let '(r, x) := m (as_recv s) in (r, mkAttachState (as_dev s) (as_AllPCIeDevs s) x).
Definition on_plug {A} (m : M (Device * R) A) : M (AttachState R) A := fun s =>
  let '(r, (d, x)) := m (as_dev s, as_recv s) in (r, mkAttachState d (as_AllPCIeDevs s) x).
Definition set_data (x : DriverData) : M (AttachState R) unit :=
  modify (fun s => mkAttachState (mkDevice (dev_generic (as_dev s)) x) (as_AllPCIeDevs s) (as_recv s)).
Definition info : M (AttachState R) DeviceInfo := gets (fun s => gd_DeviceInfo (dev_generic (as_dev s))).

(** A call whose error is ignored. *)
Definition ignore {A} (m : M (AttachState R) A) : M (AttachState R) unit :=
  _ ← try m; mret tt.

(** [GenericDevice.Attach] and [Detach]: counting only. *)
Definition Generic_Attach : M (AttachState R) unit := _ ← on_generic (bumpAttachCount true); mret tt.
Definition Generic_Detach : M (AttachState R) unit := _ ← on_generic (bumpAttachCount false); mret tt.

(** The guest address the block driver predicts for an index: the SCSI
    address, or the path of the virtio drive. *)
Definition drive_address (customOptions : option (gmap string string)) (index : Z)
    : res (string * string) :=
  let driver := option_at customOptions BlockDriverOpt in
  if bool_decide (customOptions = None) || bool_decide (driver = VirtioSCSI) then
    scsiAddr ← GetSCSIAddress index; mret (scsiAddr, "")
  else if bool_decide (driver <> Nvdimm) then
    let globalIdx :=
      if bool_decide (driver = VirtioBlock) || bool_decide (driver = VirtioBlockCCW) then index
      else if bool_decide (driver = VirtioMmio) then index + 1
      else 0 in
    driveName ← GetVirtDriveName globalIdx; mret ("", PathJoin ["/dev"; driveName])
  else Ok ("", "").

(** The drive built for the index obtained; [got] is that call's result. *)
Definition Block_prepare (got : res Z) : M (AttachState R) DriverData :=
  index ← lift got;
  di ← info;
  addr ← lift (drive_address (di_DriverOptions di) index);
  let format := default "raw" (di_DriverOptions di ≫= (!!) FsTypeOpt) in
  mret (BlockData (Some (mkBlockDrive (di_HostPath di) format
    (MakeNameID "drive" (di_ID di) maxDevIDSize) "" addr.1 "" addr.2 "" [] index
    false (di_ReadOnly di) (di_Pmem di) false))).

Definition Block_Attach : M (AttachState R) unit :=
  skip ← on_generic (bumpAttachCount true);
  if skip then mret tt else
  got ← try (on_recv GetAndSetSandboxBlockIndex);
  let index := match got with Ok i => i | Err _ => -1 end in
  on_error
    (data ← Block_prepare got;
     _ ← set_data data;
     on_plug (HotplugAddDevice DeviceBlock))
    (_ ← ignore (on_recv (UnsetSandboxBlockIndex index));
     ignore (on_generic (bumpAttachCount false))).

(** The index recorded in the drive; a nil drive would be a nil dereference,
    which [Attach] excludes for an attached device. *)
Definition drive_index (d : Device) : Z :=
  match dev_data d with
  | BlockData (Some drive) => bd_Index drive
  | VhostUserBlkData (Some attrs) => vu_Index attrs
  | _ => -1
  end.

Definition Block_Detach : M (AttachState R) unit :=
  skip ← on_generic (bumpAttachCount false);
  if skip then mret tt else
  _ ← on_error (on_plug (HotplugRemoveDevice DeviceBlock))
        (ignore (on_generic (bumpAttachCount true)));
  index ← gets (fun s => drive_index (as_dev s));
  ignore (on_recv (UnsetSandboxBlockIndex index)).

Definition isVirtioBlkBlockDriver (customOptions : option (gmap string string)) : bool :=
  let blockDriverOption :=
    match customOptions with
    | None => VirtioSCSI
    | Some _ => option_at customOptions BlockDriverOpt
    end in
  bool_decide (blockDriverOption = VirtioBlock) || bool_decide (blockDriverOption = VirtioBlockCCW) ||
  bool_decide (blockDriverOption = VirtioMmio).

Definition VhostUserBlk_prepare (got : res Z) : M (AttachState R) DriverData :=
  index ← lift got;
  di ← info;
  mret (VhostUserBlkData (Some (mkVhostUserDeviceAttrs (MakeNameID "blk" (di_ID di) maxDevIDSize)
    (di_HostPath di) "" "" "" VhostUserBlk [] index 0))).

Definition VhostUserBlk_Attach : M (AttachState R) unit :=
  skip ← on_generic (bumpAttachCount true);
  if skip then mret tt else
  di ← info;
  let updateBlockIndex := isVirtioBlkBlockDriver (di_DriverOptions di) in
  got ← (if updateBlockIndex then try (on_recv GetAndSetSandboxBlockIndex) else mret (Ok (-1)));
  let index := match got with Ok i => i | Err _ => -1 end in
  on_error
    (data ← VhostUserBlk_prepare got;
     _ ← set_data data;
     on_plug (HotplugAddDevice VhostUserBlk))
    (_ ← when updateBlockIndex (ignore (on_recv (UnsetSandboxBlockIndex index)));
     ignore (on_generic (bumpAttachCount false))).

Definition VhostUserBlk_Detach : M (AttachState R) unit :=
  skip ← on_generic (bumpAttachCount false);
  if skip then mret tt else
  _ ← on_error (on_plug (HotplugRemoveDevice VhostUserBlk))
        (ignore (on_generic (bumpAttachCount true)));
  di ← info;
  index ← gets (fun s => drive_index (as_dev s));
  when (isVirtioBlkBlockDriver (di_DriverOptions di)) (ignore (on_recv (UnsetSandboxBlockIndex index))).

(** The vhost-user SCSI, network and file system devices share one [Attach];
    [randID] is the hex form of eight random bytes. *)
Definition VhostUser_Attach (randID : res string) : M (AttachState R) unit :=
  skip ← on_generic (bumpAttachCount true);
  if skip then mret tt else
  on_error
    (id ← lift randID;
     d ← gets as_dev;
     let upd a := mkVhostUserDeviceAttrs id (vu_SocketPath a) (vu_MacAddress a) (vu_Tag a)
       (vu_Cache a) (GetDeviceType d) (vu_PCIPath a) (vu_Index a) (vu_CacheSize a) in
     _ ← match dev_data d with
         | VhostUserSCSIData a => set_data (VhostUserSCSIData (upd a))
         | VhostUserNetData a => set_data (VhostUserNetData (upd a))
         | VhostUserFSData a => set_data (VhostUserFSData (upd a))
         | _ => mret tt
         end;
     on_plug AppendDevice)
    (ignore (on_generic (bumpAttachCount false))).

(** [Detach] of these devices only counts. *)
Definition VhostUser_Detach : M (AttachState R) unit := Generic_Detach.

(** *** VFIO devices *)

Definition PCIDomain : string := "0000".
Definition PCIConfigSpaceSize : Z := 256.
Definition pcieRootPortPrefix : string := "rp".

(** Prefix the PCI domain when the address has none. *)
Definition with_domain (bdf : string) : string :=
  if bool_decide (length (Split ":" bdf) = 2%nat) then PCIDomain +:+ ":" +:+ bdf else bdf.

Definition isPCIeDevice (bdf : string) : bool :=
  match h_FileSize host (PathJoin [SysBusPciDevicesPath; with_domain bdf; "config"]) with
  | None => false
  | Some size => PCIConfigSpaceSize <? size
  end.

Definition readPCIProperty (propertyPath : string) : res string :=
  match h_ReadFile host propertyPath with
  | Err _ => Err (Errorf "failed to read pci sysfs %v, error:%v")
  | Ok buf => Ok (default "" (head (Split "010"%char buf)))
  end.

Definition getPCIDeviceProperty (bdf property : string) : string :=
  match readPCIProperty (PathJoin [SysBusPciDevicesPath; with_domain bdf; property]) with
  | Err _ => ""
  | Ok rlt => rlt
  end.

Definition GetVFIODeviceType (deviceFileName : string) : VFIODeviceType :=
  if bool_decide (length (Split ":" deviceFileName) = 3%nat) then VFIODeviceNormalType
  else if bool_decide (length (Split "-" deviceFileName) = 5%nat) then VFIODeviceMediatedType
  else VFIODeviceErrorType.

Definition getBDF (deviceSysStr : string) : string := after_first ":" deviceSysStr.

Definition getVFIODetails (deviceFileName iommuDevicesPath : string)
    : res (string * string * VFIODeviceType) :=
  let vfioDeviceType := GetVFIODeviceType deviceFileName in
  if vfioDeviceType =? VFIODeviceNormalType then
    Ok (getBDF deviceFileName, PathJoin [SysBusPciDevicesPath; deviceFileName], vfioDeviceType)
  else if vfioDeviceType =? VFIODeviceMediatedType then
    dev ← h_EvalSymlinks host (PathJoin [iommuDevicesPath; deviceFileName]);
    mret ("", dev, vfioDeviceType)
  else Err (Errorf "Incorrect tokens found while parsing vfio details: %s").

Definition vfio_devs (d : Device) : list VFIODev :=
  match dev_data d with VFIOData l => l | _ => [] end.

(** The loop over the files of the iommu group: each device is appended to
    [VfioDevs], a PCIe one gets the next root port and is recorded in the
    global [AllPCIeDevs]. *)
Fixpoint VFIO_collect (i : Z) (files : list string) (iommuDevicesPath : string)
    : M (AttachState R) unit :=
  match files with
  | [] => mret tt
  | file :: files' =>
      det ← lift (getVFIODetails file iommuDevicesPath);
      let '(bdf, sysfs, ty) := det in
      s ← get;
      let di := gd_DeviceInfo (dev_generic (as_dev s)) in
      let pcie := isPCIeDevice bdf in
      let bus := if pcie then pcieRootPortPrefix +:+ Itoa (Z.of_nat (size (as_AllPCIeDevs s))) else "" in
      let vfio := mkVFIODev (MakeNameID "vfio" (di_ID di +:+ Itoa i) maxDevIDSize) bdf sysfs "" ""
        (getPCIDeviceProperty bdf "class") bus [] ty pcie in
      _ ← put (mkAttachState
                (mkDevice (dev_generic (as_dev s)) (VFIOData (vfio_devs (as_dev s) ++ [vfio])))
                (if pcie then {[bdf]} ∪ as_AllPCIeDevs s else as_AllPCIeDevs s) (as_recv s));
      VFIO_collect (i + 1) files' iommuDevicesPath
  end.

Definition VFIO_Attach : M (AttachState R) unit :=
  skip ← on_generic (bumpAttachCount true);
  if skip then mret tt else
  on_error
    (di ← info;
     let vfioGroup := Base (di_HostPath di) in
     let iommuDevicesPath := PathJoin [SysIOMMUPath; vfioGroup; "devices"] in
     deviceFiles ← lift (h_ReadDir host iommuDevicesPath);
     _ ← VFIO_collect 0 deviceFiles iommuDevicesPath;
     if di_ColdPlug di then on_plug AppendDevice
     else on_plug (HotplugAddDevice DeviceVFIO))
    (ignore (on_generic (bumpAttachCount false))).

Definition VFIO_Detach : M (AttachState R) unit :=
  skip ← on_generic (bumpAttachCount false);
  if skip then mret tt else
  on_error
    (di ← info;
     if di_ColdPlug di then mret tt else on_plug (HotplugRemoveDevice DeviceVFIO))
    (ignore (on_generic (bumpAttachCount true))).

(** The [Device] interface's [Attach] and [Detach], dispatched on the driver. *)
Definition Attach (randID : res string) : M (AttachState R) unit :=
  d ← gets as_dev;
  match dev_data d with
  | GenericData => Generic_Attach
  | BlockData _ => Block_Attach
  | VFIOData _ => VFIO_Attach
  | VhostUserBlkData _ => VhostUserBlk_Attach
  | VhostUserSCSIData _ | VhostUserNetData _ | VhostUserFSData _ => VhostUser_Attach randID
  end.

Definition Detach : M (AttachState R) unit :=
  d ← gets as_dev;
  match dev_data d with
  | GenericData => Generic_Detach
  | BlockData _ => Block_Detach
  | VFIOData _ => VFIO_Detach
  | VhostUserBlkData _ => VhostUserBlk_Detach
  | VhostUserSCSIData _ | VhostUserNetData _ | VhostUserFSData _ => VhostUser_Detach
  end.
End Attach.

(** *** Persistence *)

(** [persistapi.DeviceState] and the driver specific records it holds. *)
Record PBlockDrive := mkPBlockDrive {
  pb_File : string; pb_Format : string; pb_ID : string; pb_MmioAddr : string;
  pb_SCSIAddr : string; pb_NvdimmID : string; pb_VirtPath : string; pb_DevNo : string;
  pb_PCIPath : PciPath; pb_Index : Z; pb_Pmem : bool }.

Record PVFIODev := mkPVFIODev { pv_ID : string; pv_BDF : string; pv_SysfsDev : string; pv_Type : Z }.

Record PVhostUser := mkPVhostUser {
  pu_DevID : string; pu_SocketPath : string; pu_Type : string; pu_MacAddress : string;
  pu_PCIPath : PciPath; pu_Index : Z }.

Record DeviceState := mkDeviceState {
  ds_DriverOptions : option (gmap string string);
  ds_VhostUserDev : option PVhostUser;
  ds_BlockDrive : option PBlockDrive;
  ds_ID : string;
  ds_Type : string;
  ds_DevType : string;
  ds_VFIODevs : list PVFIODev;
  ds_RefCount : Z;
  ds_AttachCount : Z;
  ds_Major : Z;
  ds_Minor : Z;
  ds_ColdPlug : bool;
}.

(** [GenericDevice.Save] with the type and the driver records of the caller. *)
Definition Generic_Save (g : GenericDevice) (ty : DeviceType) (vu : option PVhostUser)
    (bd : option PBlockDrive) (vfio : list PVFIODev) : DeviceState :=
  let i := gd_DeviceInfo g in
  mkDeviceState (di_DriverOptions i) vu bd (gd_ID g) ty (di_DevType i) vfio (gd_RefCount g)
    (gd_AttachCount g) (di_Major i) (di_Minor i) (di_ColdPlug i).

Definition Block_Save (drive : BlockDrive) : PBlockDrive :=
  mkPBlockDrive (bd_File drive) (bd_Format drive) (bd_ID drive) (bd_MmioAddr drive)
    (bd_SCSIAddr drive) (bd_NvdimmID drive) (bd_VirtPath drive) (bd_DevNo drive)
    (bd_PCIPath drive) (bd_Index drive) (bd_Pmem drive).

Definition VhostUserBlk_Save (a : VhostUserDeviceAttrs) : PVhostUser :=
  mkPVhostUser (vu_DevID a) (vu_SocketPath a) (vu_Type a) "" (vu_PCIPath a) (vu_Index a).

Definition VhostUser_Save (a : VhostUserDeviceAttrs) : PVhostUser :=
  mkPVhostUser (vu_DevID a) (vu_SocketPath a) (vu_Type a) (vu_MacAddress a) [] 0.

Definition VFIO_Save (v : VFIODev) : PVFIODev :=
  mkPVFIODev (vd_ID v) (vd_BDF v) (vd_SysfsDev v) (u32 (vd_Type v)).

(** [Save] of each driver; the file system device has none of its own and is
    saved by the embedded generic device, as a generic one. *)
Definition Save (d : Device) : DeviceState :=
  let g := dev_generic d in
  match dev_data d with
  | GenericData | VhostUserFSData _ => Generic_Save g DeviceGeneric None None []
  | BlockData drive => Generic_Save g DeviceBlock None (Block_Save <$> drive) []
  | VFIOData l => Generic_Save g DeviceVFIO None None (VFIO_Save <$> l)
  | VhostUserBlkData a => Generic_Save g VhostUserBlk (VhostUserBlk_Save <$> a) None []
  | VhostUserSCSIData a => Generic_Save g VhostUserSCSI (Some (VhostUser_Save a)) None []
  | VhostUserNetData a => Generic_Save g VhostUserNet (Some (VhostUser_Save a)) None []
  end.

Definition Generic_Load (ds : DeviceState) : GenericDevice :=
  mkGenericDevice
    (mkDeviceInfo (ds_DriverOptions ds) "" "" (ds_DevType ds) "" (ds_Major ds) (ds_Minor ds)
      0 0 0 false false (ds_ColdPlug ds))
    (ds_ID ds) (ds_RefCount ds) (ds_AttachCount ds).

Definition Block_Load (bd : PBlockDrive) : BlockDrive :=
  mkBlockDrive (pb_File bd) (pb_Format bd) (pb_ID bd) (pb_MmioAddr bd) (pb_SCSIAddr bd)
    (pb_NvdimmID bd) (pb_VirtPath bd) (pb_DevNo bd) (pb_PCIPath bd) (pb_Index bd)
    false false (pb_Pmem bd) false.

Definition VhostUserBlk_Load (v : PVhostUser) : VhostUserDeviceAttrs :=
  mkVhostUserDeviceAttrs (pu_DevID v) (pu_SocketPath v) "" "" "" (pu_Type v) (pu_PCIPath v) (pu_Index v) 0.

Definition VhostUser_Load (v : PVhostUser) : VhostUserDeviceAttrs :=
  mkVhostUserDeviceAttrs (pu_DevID v) (pu_SocketPath v) (pu_MacAddress v) "" "" (pu_Type v) [] 0 0.

Definition VFIO_Load (v : PVFIODev) : VFIODev :=
  mkVFIODev (pv_ID v) (pv_BDF v) (pv_SysfsDev v) "" "" "" "" [] (pv_Type v) false.

(** The switch of [LoadDevices] on the stored type and the [Load] of the
    driver it selects; [None] for an unrecognised type, which is skipped. *)
Definition Load (ds : DeviceState) : option Device :=
  let g := Generic_Load ds in
  let ty := ds_Type ds in
  if bool_decide (ty = DeviceGeneric) then Some (mkDevice g GenericData)
  else if bool_decide (ty = DeviceBlock) then Some (mkDevice g (BlockData (Block_Load <$> ds_BlockDrive ds)))
  else if bool_decide (ty = DeviceVFIO) then Some (mkDevice g (VFIOData (VFIO_Load <$> ds_VFIODevs ds)))
  else if bool_decide (ty = VhostUserSCSI) then
    Some (mkDevice g (VhostUserSCSIData (default attrs_zero (VhostUser_Load <$> ds_VhostUserDev ds))))
  else if bool_decide (ty = VhostUserBlk) then
    Some (mkDevice g (VhostUserBlkData (VhostUserBlk_Load <$> ds_VhostUserDev ds)))
  else if bool_decide (ty = VhostUserNet) then
    Some (mkDevice g (VhostUserNetData (default attrs_zero (VhostUser_Load <$> ds_VhostUserDev ds))))
  else None.
End Drivers.

(** ** What attaching and detaching guarantee *)
Module DriversSpec.
Import Config Drivers.

(** A plugging call leaves the counters, the description and the block index
    of the device alone, and the indexes of the receiver too. *)
Definition plug_frame {R} `{DeviceReceiver R} (d : Device) (r : R) (d' : Device) (r' : R) : Prop :=
  block_indexes r' = block_indexes r /\ dev_generic d' = dev_generic d /\
  GetDeviceType d' = GetDeviceType d /\ drive_index d' = drive_index d.

(** The promises of a device receiver to the drivers. *)
Class DeviceReceiverLaws (R : Type) `{DeviceReceiver R} : Prop := {
  recv_index_nonneg (r : R) i : i ∈ block_indexes r -> 0 <= i;
  recv_get_ok (r : R) i r' :
    GetAndSetSandboxBlockIndex r = (Ok i, r') ->
    0 <= i /\ (i ∉ block_indexes r) /\ block_indexes r' = {[i]} ∪ block_indexes r;
  recv_get_err (r : R) e r' :
    GetAndSetSandboxBlockIndex r = (Err e, r') -> block_indexes r' = block_indexes r;
  recv_unset (r : R) i : block_indexes (UnsetSandboxBlockIndex i r).2 = block_indexes r ∖ {[i]};
  recv_add (d : Device) (r : R) t x d' r' :
    HotplugAddDevice t (d, r) = (x, (d', r')) -> plug_frame d r d' r';
  recv_remove (d : Device) (r : R) t x d' r' :
    HotplugRemoveDevice t (d, r) = (x, (d', r')) -> plug_frame d r d' r';
  recv_append (d : Device) (r : R) x d' r' :
    AppendDevice (d, r) = (x, (d', r')) -> plug_frame d r d' r';
}.

(** Does the device take a block index while it is attached? *)
Definition takes_index (d : Device) : bool :=
  match dev_data d with
  | BlockData _ => true
  | VhostUserBlkData _ => isVirtioBlkBlockDriver (di_DriverOptions (gd_DeviceInfo (dev_generic d)))
  | _ => false
  end.

(** The block indexes a device holds: one while attached, none otherwise. *)
Definition held (d : Device) : gset Z :=
  if (0 <? GetAttachCount d) && takes_index d then {[drive_index d]} else ∅.

Definition count_ok (d : Device) : Prop := 0 <= GetAttachCount d <= intMax.

(** What no attach or detach changes. *)
Definition same_identity (d d' : Device) : Prop :=
  DeviceID d' = DeviceID d /\ gd_RefCount (dev_generic d') = gd_RefCount (dev_generic d) /\
  gd_DeviceInfo (dev_generic d') = gd_DeviceInfo (dev_generic d) /\
  GetDeviceType d' = GetDeviceType d.

Section Laws.
Context {R : Type} `{DeviceReceiverLaws R} (host : Host).

Definition attach_post (s : AttachState R) (x : res unit) (s' : AttachState R) : Prop :=
  let d := as_dev s in let d' := as_dev s' in
  same_identity d d' /\
  match x with
  | Ok _ =>
      GetAttachCount d' = GetAttachCount d + 1 /\ GetAttachCount d' <= intMax /\
      (0 < GetAttachCount d -> as_recv s' = as_recv s /\ dev_data d' = dev_data d) /\
      (GetAttachCount d = 0 ->
         (held d' ## block_indexes (as_recv s)) /\
         block_indexes (as_recv s') = held d' ∪ block_indexes (as_recv s))
  | Err _ =>
      GetAttachCount d' = GetAttachCount d /\ held d' = held d /\
      block_indexes (as_recv s') = block_indexes (as_recv s)
  end.

Definition detach_post (s : AttachState R) (x : res unit) (s' : AttachState R) : Prop :=
  let d := as_dev s in let d' := as_dev s' in
  same_identity d d' /\
  match x with
  | Ok _ =>
      GetAttachCount d' = GetAttachCount d - 1 /\
      (1 < GetAttachCount d -> as_recv s' = as_recv s /\ dev_data d' = dev_data d) /\
      (GetAttachCount d = 1 -> block_indexes (as_recv s') = block_indexes (as_recv s) ∖ held d)
  | Err _ =>
      GetAttachCount d' = GetAttachCount d /\ held d' = held d /\
      block_indexes (as_recv s') = block_indexes (as_recv s)
  end.

(** The three outcomes of counting up. *)
Lemma bump_attach_cases g :
  0 <= gd_AttachCount g <= intMax ->
  (gd_AttachCount g = intMax /\ exists e, bumpAttachCount true g = (Err e, g)) \/
  (gd_AttachCount g = 0 /\ bumpAttachCount true g = (Ok false, set_AttachCount g 1)) \/
  (0 < gd_AttachCount g < intMax /\ bumpAttachCount true g = (Ok true, set_AttachCount g (gd_AttachCount g + 1))).
Proof.
  intros Hc. unfold bumpAttachCount. munfold. destruct (Z.eqb_spec (gd_AttachCount g) 0) as [E|E].
  - right; left. by rw E.
  - destruct (Z.eqb_spec (gd_AttachCount g) intMax); [left; eauto|]. right; right. split; [lia|done].
Qed.

(** The three outcomes of counting down. *)
Lemma bump_detach_cases g :
  0 <= gd_AttachCount g <= intMax ->
  (gd_AttachCount g = 0 /\ exists e, bumpAttachCount false g = (Err e, g)) \/
  (gd_AttachCount g = 1 /\ bumpAttachCount false g = (Ok false, set_AttachCount g 0)) \/
  (1 < gd_AttachCount g /\ bumpAttachCount false g = (Ok true, set_AttachCount g (gd_AttachCount g - 1))).
Proof.
  intros Hc. unfold bumpAttachCount. munfold. destruct (Z.eqb_spec (gd_AttachCount g) 0) as [E|E].
  - left. eauto.
  - destruct (Z.eqb_spec (gd_AttachCount g) 1) as [E1|]; [right; left; by rw E1|].
    right; right. split; [lia|done].
Qed.

(** The shape of [Attach] of every driver but the generic one: count, and do
    the real work [m] only for the first attachment. *)
Lemma counted_attach (m : M (AttachState R) unit) s :
  count_ok (as_dev s) ->
  (forall x s', gd_AttachCount (dev_generic (as_dev s)) = 0 ->
     m (mkAttachState (mkDevice (set_AttachCount (dev_generic (as_dev s)) 1) (dev_data (as_dev s)))
          (as_AllPCIeDevs s) (as_recv s)) = (x, s') -> attach_post s x s') ->
  let '(x, s') := (skip ← on_generic (bumpAttachCount true); if skip then mret tt else m) s in
  attach_post s x s'.
Proof.
  intros Hc Hm. unfold on_generic. destruct s as [[g data] pcie r]. simpl in *.
  unfold mbind, M_bind.
  destruct (bump_attach_cases g Hc) as [(E & e & Eb)|[(E & Eb)|(E & Eb)]]; cbn [as_dev dev_generic];
    rw Eb; cbn [as_dev dev_data as_AllPCIeDevs as_recv].
  - by repeat split.
  - destruct (m _) as [x s'] eqn:Em. by apply Hm.
  - repeat split; simpl; try done; unfold GetAttachCount in *; simpl in *; lia.
Qed.

Lemma counted_detach (m : M (AttachState R) unit) s :
  count_ok (as_dev s) ->
  (forall x s', gd_AttachCount (dev_generic (as_dev s)) = 1 ->
     m (mkAttachState (mkDevice (set_AttachCount (dev_generic (as_dev s)) 0) (dev_data (as_dev s)))
          (as_AllPCIeDevs s) (as_recv s)) = (x, s') -> detach_post s x s') ->
  let '(x, s') := (skip ← on_generic (bumpAttachCount false); if skip then mret tt else m) s in
  detach_post s x s'.
Proof.
  intros Hc Hm. unfold on_generic. destruct s as [[g data] pcie r]. simpl in *.
  unfold mbind, M_bind.
  destruct (bump_detach_cases g Hc) as [(E & e & Eb)|[(E & Eb)|(E & Eb)]]; cbn [as_dev dev_generic];
    rw Eb; cbn [as_dev dev_data as_AllPCIeDevs as_recv].
  - by repeat split.
  - destruct (m _) as [x s'] eqn:Em. by apply Hm.
  - repeat split; simpl; try done; unfold GetAttachCount in *; simpl in *; lia.
Qed.

(** Counting down again after a failed first attachment. *)
Lemma undo_attach s g :
  dev_generic (as_dev s) = set_AttachCount g 1 -> gd_AttachCount g = 0 ->
  ignore (on_generic (bumpAttachCount false)) s =
  (Ok tt, mkAttachState (mkDevice g (dev_data (as_dev s))) (as_AllPCIeDevs s) (as_recv (R:=R) s)).
Proof.
  intros Hg Hz. unfold ignore, on_generic, bumpAttachCount. munfold. rw Hg. simpl.
  destruct g; simpl in *. by subst.
Qed.

Lemma undo_detach s g :
  dev_generic (as_dev s) = set_AttachCount g 0 -> gd_AttachCount g = 1 ->
  ignore (on_generic (bumpAttachCount true)) s =
  (Ok tt, mkAttachState (mkDevice g (dev_data (as_dev s))) (as_AllPCIeDevs s) (as_recv (R:=R) s)).
Proof.
  intros Hg Hz. unfold ignore, on_generic, bumpAttachCount. munfold. rw Hg. simpl.
  destruct g; simpl in *. by subst.
Qed.

Lemma ignore_unset s i :
  exists r', ignore (on_recv (UnsetSandboxBlockIndex i)) s =
    (Ok tt, mkAttachState (as_dev s) (as_AllPCIeDevs s) r') /\
    block_indexes r' = block_indexes (as_recv (R:=R) s) ∖ {[i]}.
Proof.
  unfold ignore, on_recv. munfold. pose proof (recv_unset (as_recv s) i) as Hu.
  destruct (UnsetSandboxBlockIndex i (as_recv s)) as [x r'] eqn:E. simpl in *. by exists r'.
Qed.

Lemma attach_post_fail s s' e data :
  GetAttachCount (as_dev s) = 0 -> as_dev s' = mkDevice (dev_generic (as_dev s)) data ->
  GetDeviceType (as_dev s') = GetDeviceType (as_dev s) ->
  block_indexes (as_recv s') = block_indexes (as_recv s) -> attach_post s (Err e) s'.
Proof.
  intros Hz Hd Ht Hb. unfold attach_post, same_identity, held, DeviceID.
  assert (GetAttachCount (as_dev s') = 0) as -> by (unfold GetAttachCount in *; by rw Hd).
  rw Ht Hz. by rw Hd.
Qed.

(** The deferred rollback of the drivers that take a block index. *)
Lemma rollback_index (b : bool) s g i :
  dev_generic (as_dev s) = set_AttachCount g 1 -> gd_AttachCount g = 0 ->
  exists r', (_ ← when b (ignore (on_recv (UnsetSandboxBlockIndex i)));
              ignore (on_generic (bumpAttachCount false))) s =
    (Ok tt, mkAttachState (mkDevice g (dev_data (as_dev s))) (as_AllPCIeDevs s) r') /\
    block_indexes r' = if b then block_indexes (as_recv (R:=R) s) ∖ {[i]} else block_indexes (as_recv s).
Proof.
  intros Hg Hz. unfold mbind, M_bind, when. destruct b.
  - destruct (ignore_unset s i) as (r' & -> & Hb). exists r'. by rw (undo_attach _ g).
  - exists (as_recv s). unfold mret, M_ret. by rw (undo_attach _ g).
Qed.

Lemma held_attached d i :
  GetAttachCount d = 1 -> takes_index d = true -> drive_index d = i -> held d = {[i]}.
Proof. intros Hc Ht <-. unfold held. by rw Hc Ht. Qed.

(** A first attachment that went through: the plugged device holds [i]. *)
Lemma attach_post_ok s s' i :
  GetAttachCount (as_dev s) = 0 ->
  dev_generic (as_dev s') = set_AttachCount (dev_generic (as_dev s)) 1 ->
  GetDeviceType (as_dev s') = GetDeviceType (as_dev s) ->
  drive_index (as_dev s') = i -> takes_index (as_dev s') = true ->
  i ∉ block_indexes (as_recv s) ->
  block_indexes (as_recv s') = {[i]} ∪ block_indexes (as_recv s) ->
  attach_post s (Ok tt) s'.
Proof.
  intros Hz Hg Ht Hi Hti Hf Hb.
  assert (Hc : GetAttachCount (as_dev s') = 1) by (unfold GetAttachCount; by rw Hg).
  unfold attach_post, same_identity, DeviceID. rw Ht Hg (held_attached _ i) // Hb Hc Hz.
  repeat split; try done; set_solver.
Qed.

(** The same for a device that takes no index. *)
Lemma attach_post_ok_plain s s' :
  GetAttachCount (as_dev s) = 0 ->
  dev_generic (as_dev s') = set_AttachCount (dev_generic (as_dev s)) 1 ->
  GetDeviceType (as_dev s') = GetDeviceType (as_dev s) ->
  takes_index (as_dev s') = false ->
  block_indexes (as_recv s') = block_indexes (as_recv s) ->
  attach_post s (Ok tt) s'.
Proof.
  intros Hz Hg Ht Hti Hb.
  assert (Hc : GetAttachCount (as_dev s') = 1) by (unfold GetAttachCount; by rw Hg).
  unfold attach_post, same_identity, DeviceID, held. rw Ht Hg Hti andb_false_r Hb Hc Hz.
  repeat split; try done; set_solver.
Qed.

Lemma takes_index_ext d d' :
  GetDeviceType d' = GetDeviceType d -> gd_DeviceInfo (dev_generic d') = gd_DeviceInfo (dev_generic d) ->
  takes_index d' = takes_index d.
Proof.
  destruct d as [g []], d' as [g' []]; unfold takes_index; simpl; intros Ht Hi; try done. by rw Hi.
Qed.

(** The common tail of the two block drivers: record the driver data, plug,
    and roll back on an error.  [b]: was an index taken? *)
Lemma index_attach_post (b : bool) s g data0 (prep : M (AttachState R) DriverData) ty i pcie r r1 :
  s = mkAttachState (mkDevice g data0) pcie r -> gd_AttachCount g = 0 ->
  (if b then (i ∉ block_indexes r) /\ block_indexes r1 = {[i]} ∪ block_indexes r
   else block_indexes r1 = block_indexes r) ->
  (forall st, exists y, prep st = (y, st)) ->
  (forall st data, prep st = (Ok data, st) -> dev_generic (as_dev st) = set_AttachCount g 1 ->
     let d := mkDevice (set_AttachCount g 1) data in
     takes_index d = b /\ (b = true -> drive_index d = i) /\ GetDeviceType d = GetDeviceType (mkDevice g data0)) ->
  forall x s',
  on_error (data ← prep; _ ← set_data data; on_plug (HotplugAddDevice ty))
    (_ ← when b (ignore (on_recv (UnsetSandboxBlockIndex i))); ignore (on_generic (bumpAttachCount false)))
    (mkAttachState (mkDevice (set_AttachCount g 1) data0) pcie r1) = (x, s') ->
  attach_post s x s'.
Proof.
  intros -> Hz Hidx Hprep Hd x s'. set (st := mkAttachState _ pcie r1).
  unfold on_error, mbind, M_bind. destruct (Hprep st) as [[data|e] Ep]; rw Ep.
  - specialize (Hd st data Ep eq_refl) as (Hti & Hdi & Hty).
    unfold set_data, modify, on_plug, st. cbn [as_dev as_recv as_AllPCIeDevs dev_generic].
    set (d := mkDevice (set_AttachCount g 1) data) in *.
    destruct (HotplugAddDevice ty (d, r1)) as [y [d2 r2]] eqn:Eadd.
    pose proof (recv_add _ _ _ _ _ _ Eadd) as (Hb2 & Hg2 & Ht2 & Hi2).
    assert (Hti2 : takes_index d2 = b) by (rw (takes_index_ext d d2) // Hg2; done).
    destruct y as [[]|e].
    + intros [= <- <-]. destruct b; [destruct Hidx as [Hf Hb1]|].
      * apply (attach_post_ok _ _ i); simpl; try done; try congruence. rw Hi2. by apply Hdi.
      * apply attach_post_ok_plain; simpl; try done; congruence.
    + destruct (rollback_index b (mkAttachState d2 pcie r2) g i Hg2 Hz) as (r3 & Er & Hb3).
      unfold mbind, M_bind in Er. rw Er. intros [= <- <-].
      eapply attach_post_fail; simpl; [done|done| |].
      * change (GetDeviceType d2 = GetDeviceType (mkDevice g data0)). congruence.
      * rw Hb3 /= Hb2. destruct b; [|done]. set_solver.
  - destruct (rollback_index b st g i eq_refl Hz) as (r3 & Er & Hb3).
    unfold mbind, M_bind in Er. rw Er. intros [= <- <-].
    eapply attach_post_fail; simpl; [done|done|done|].
    rw Hb3 /=. destruct b; [|done]. set_solver.
Qed.

Lemma index_attach_fail (b : bool) s g data0 (prep : M (AttachState R) DriverData) ty pcie r r1 e :
  s = mkAttachState (mkDevice g data0) pcie r -> gd_AttachCount g = 0 ->
  block_indexes r1 = block_indexes r -> (forall st, prep st = (Err e, st)) ->
  forall x s',
  on_error (data ← prep; _ ← set_data data; on_plug (HotplugAddDevice ty))
    (_ ← when b (ignore (on_recv (UnsetSandboxBlockIndex (-1)))); ignore (on_generic (bumpAttachCount false)))
    (mkAttachState (mkDevice (set_AttachCount g 1) data0) pcie r1) = (x, s') ->
  attach_post s x s'.
Proof.
  intros -> Hz Hb Hprep x s'. set (st := mkAttachState _ pcie r1).
  unfold on_error, mbind, M_bind. rw Hprep.
  destruct (rollback_index b st g (-1) eq_refl Hz) as (r3 & Er & Hb3).
  unfold mbind, M_bind in Er. rw Er. intros [= <- <-].
  eapply attach_post_fail; simpl; [done|done|done|]. rw Hb3 /= Hb. destruct b; [|done].
  apply set_eq. intros i. rw elem_of_difference elem_of_singleton. split; [by intros [? _]|].
  intros Hin. split; [done|]. intros ->. apply recv_index_nonneg in Hin. lia.
Qed.

Lemma Block_Attach_post s :
  count_ok (as_dev s) -> (exists drive, dev_data (as_dev s) = BlockData drive) ->
  let '(x, s') := Block_Attach s in attach_post s x s'.
Proof.
  intros Hc [drive Hdata]. unfold Block_Attach. apply counted_attach; [done|].
  intros x s' Hz. destruct s as [[g data] pcie r]. simpl in Hz, Hdata |- *. subst data.
  unfold mbind at 1, M_bind at 1, try, on_recv at 1. cbn [as_recv as_dev as_AllPCIeDevs].
  destruct (GetAndSetSandboxBlockIndex r) as [got r1] eqn:Eg.
  set (index := match got with Ok i => i | Err _ => -1 end).
  assert (Hidx : is_ok got = true /\ (index ∉ block_indexes r) /\ block_indexes r1 = {[index]} ∪ block_indexes r \/
                 is_ok got = false /\ block_indexes r1 = block_indexes r /\ index = -1).
  { destruct got as [i|e]; [left|right].
    - by apply recv_get_ok in Eg as (? & ? & ?).
    - by apply recv_get_err in Eg. }
  destruct Hidx as [(Hok & Hf & Hb)|(Hok & Hb & Hi)].
  - eapply (index_attach_post true); try done.
    + intros st. unfold Block_prepare, info. munfold. destruct got; [|by eexists].
      destruct (drive_address _ _); by eexists.
    + intros st data. unfold Block_prepare, info. munfold. destruct got as [i|]; [|done].
      destruct (drive_address _ _); [|done]. by intros [= <-] _.
  - destruct got as [|e]; [done|]. rw Hi.
    by eapply (index_attach_fail true).
Qed.

Lemma VhostUserBlk_Attach_post s :
  count_ok (as_dev s) -> (exists a, dev_data (as_dev s) = VhostUserBlkData a) ->
  let '(x, s') := VhostUserBlk_Attach s in attach_post s x s'.
Proof.
  intros Hc [a Hdata]. unfold VhostUserBlk_Attach. apply counted_attach; [done|].
  intros x s' Hz. destruct s as [[g data] pcie r]. simpl in Hz, Hdata |- *. subst data.
  unfold mbind at 1, M_bind at 1, info at 1, gets. cbn [as_dev dev_generic gd_DeviceInfo set_AttachCount].
  destruct (isVirtioBlkBlockDriver (di_DriverOptions (gd_DeviceInfo g))) eqn:Eb.
  - unfold mbind at 1, M_bind at 1, try, on_recv at 1. cbn [as_recv as_dev as_AllPCIeDevs].
    destruct (GetAndSetSandboxBlockIndex r) as [[i|e] r1] eqn:Eg.
    + apply recv_get_ok in Eg as (? & ? & ?).
      eapply (index_attach_post true); try done; [by eexists|].
      intros st data. unfold VhostUserBlk_prepare, info. munfold. intros [= <-] _.
      unfold takes_index. cbn [dev_data dev_generic gd_DeviceInfo set_AttachCount]. by rw Eb.
    + apply recv_get_err in Eg. by eapply (index_attach_fail true).
  - unfold mbind at 1, M_bind at 1, mret, M_ret. eapply (index_attach_post false); try done; [by eexists|].
    intros st data. unfold VhostUserBlk_prepare, info. munfold. intros [= <-] _.
      unfold takes_index. cbn [dev_data dev_generic gd_DeviceInfo set_AttachCount]. by rw Eb.
Qed.

(** A body that leaves counters, type and indexes alone on a device of type
    [ty]. *)
Definition plain_frame (ty : DeviceType) (body : M (AttachState R) unit) : Prop :=
  forall st x st', GetDeviceType (as_dev st) = ty -> body st = (x, st') ->
    dev_generic (as_dev st') = dev_generic (as_dev st) /\
    GetDeviceType (as_dev st') = ty /\
    block_indexes (as_recv st') = block_indexes (as_recv st).

Lemma plain_attach_post s ty body :
  plain_frame ty body -> GetDeviceType (as_dev s) = ty ->
  GetAttachCount (as_dev s) = 0 -> takes_index (as_dev s) = false ->
  forall x s',
  on_error body (ignore (on_generic (bumpAttachCount false)))
    (mkAttachState (mkDevice (set_AttachCount (dev_generic (as_dev s)) 1) (dev_data (as_dev s)))
      (as_AllPCIeDevs s) (as_recv s)) = (x, s') ->
  attach_post s x s'.
Proof.
  intros Hbody Hty Hz Hti x s'. unfold on_error. destruct (body _) as [[[]|e] s1] eqn:Eb;
    apply Hbody in Eb as (Hg & Ht & Hb); try done; simpl in Hg, Hb.
  - intros [= <- <-]. apply attach_post_ok_plain; try done; [congruence|].
    rw (takes_index_ext (as_dev s)) //; [congruence|by rw Hg].
  - rw (undo_attach s1 _ Hg Hz). intros [= <- <-].
    eapply attach_post_fail; simpl; [done|done|by rw Hty|done].
Qed.

Lemma on_plug_frame ty m :
  (forall d r x d' r', m (d, r) = (x, (d', r')) -> plug_frame d r d' r') -> plain_frame ty (on_plug m).
Proof.
  intros Hm st x st' Hty. unfold on_plug. destruct (m _) as [y [d' r']] eqn:E.
  apply Hm in E as (Hb & Hg & Ht & _). intros [= <- <-]. simpl. repeat split; congruence.
Qed.

Lemma bind_frame {A} ty (m : M (AttachState R) A) (k : A -> M (AttachState R) unit) :
  plain_frame ty (_ ← m; mret tt) -> (forall a, plain_frame ty (k a)) -> plain_frame ty (m ≫= k).
Proof.
  intros Hm Hk st x st' Hty. specialize (Hm st). munfold. destruct (m st) as [[a|e] st1].
  - intros E. destruct (Hm (Ok tt) st1 Hty eq_refl) as (Hg1 & Ht1 & Hb1).
    destruct (Hk a _ _ _ Ht1 E) as (Hg & Ht & Hb). repeat split; congruence.
  - intros [= <- <-]. by apply (Hm (Err e) st1).
Qed.

Lemma read_frame {A} ty (m : M (AttachState R) A) :
  (forall st, (m st).2 = st) -> plain_frame ty (_ ← m; mret tt).
Proof.
  intros Hm st x st' Hty. munfold. specialize (Hm st). destruct (m st) as [[a|e] st1];
    simpl in Hm; subst st1; by intros [= <- <-].
Qed.

Lemma VFIO_collect_frame i files path : plain_frame DeviceVFIO (VFIO_collect host i files path).
Proof.
  revert i. induction files as [|f files IH]; intros i st x st' Hty; simpl; [by intros [= <- <-]|].
  munfold. destruct (getVFIODetails host f path) as [[[bdf sysfs] ty]|e]; [|by intros [= <- <-]].
  intros E. by apply IH in E as (Hg & Ht & Hb).
Qed.

Lemma unit_frame ty (m : M (AttachState R) unit) : plain_frame ty m -> plain_frame ty (_ ← m; mret tt).
Proof.
  intros Hm st x st' Hty. munfold. specialize (Hm st). destruct (m st) as [[[]|e] st1];
    intros [= <- <-]; by eapply Hm.
Qed.

Lemma VFIO_Attach_post s :
  count_ok (as_dev s) -> (exists l, dev_data (as_dev s) = VFIOData l) ->
  let '(x, s') := VFIO_Attach host s in attach_post s x s'.
Proof.
  intros Hc [l Hdata]. unfold VFIO_Attach. apply counted_attach; [done|]. intros x s' Hz.
  apply (plain_attach_post s DeviceVFIO); try done; [|by unfold GetDeviceType; rw Hdata|by unfold takes_index; rw Hdata].
  apply bind_frame; [by apply read_frame|]. intros di. cbn zeta.
  apply bind_frame; [by apply read_frame|]. intros files.
  apply bind_frame; [apply unit_frame, VFIO_collect_frame|]. intros _.
  destruct (di_ColdPlug di); apply on_plug_frame; eauto using recv_add, recv_append.
Qed.

Lemma VhostUser_Attach_post randID s :
  count_ok (as_dev s) -> takes_index (as_dev s) = false ->
  let '(x, s') := VhostUser_Attach randID s in attach_post s x s'.
Proof.
  intros Hc Hti. unfold VhostUser_Attach. apply counted_attach; [done|]. intros x s' Hz.
  apply (plain_attach_post s (GetDeviceType (as_dev s))); try done.
  apply bind_frame; [by apply read_frame|]. intros id.
  intros st y st' Hty. unfold mbind at 1, M_bind at 1, gets at 1.
  apply bind_frame; [|intros _; apply on_plug_frame; eauto using recv_append|done].
  apply unit_frame. intros st1 y1 st1' Hty1. unfold GetDeviceType in Hty at 1.
  destruct (dev_data (as_dev st)) eqn:Ed; intros [= <- <-]; try done; by rw -Hty.
Qed.

(** Detaching. *)

Lemma detach_post_fail s s' e data :
  as_dev s' = mkDevice (dev_generic (as_dev s)) data ->
  GetDeviceType (as_dev s') = GetDeviceType (as_dev s) ->
  drive_index (as_dev s') = drive_index (as_dev s) ->
  block_indexes (as_recv s') = block_indexes (as_recv s) -> detach_post s (Err e) s'.
Proof.
  intros Hd Ht Hi Hb.
  assert (Hti : takes_index (as_dev s') = takes_index (as_dev s)) by (apply takes_index_ext; [done|by rw Hd]).
  unfold detach_post, same_identity, held, GetAttachCount, DeviceID. by rw Hti Hi Ht Hd.
Qed.

(** The last detachment of a device: unplug and, if it holds an index, give it
    back. *)
Lemma last_detach_post s s' (b : bool) :
  GetAttachCount (as_dev s) = 1 -> takes_index (as_dev s) = b ->
  dev_generic (as_dev s') = set_AttachCount (dev_generic (as_dev s)) 0 ->
  GetDeviceType (as_dev s') = GetDeviceType (as_dev s) ->
  block_indexes (as_recv s') = (if b then block_indexes (as_recv s) ∖ {[drive_index (as_dev s)]}
                                else block_indexes (as_recv s)) ->
  detach_post s (Ok tt) s'.
Proof.
  intros Hz Hti Hg Ht Hb.
  assert (Hc : GetAttachCount (as_dev s') = 0) by (unfold GetAttachCount; by rw Hg).
  unfold detach_post, same_identity, DeviceID, held. rw Ht Hg Hti Hb Hc Hz.
  repeat split; try lia. intros _. destruct b; [done|]. simpl. set_solver.
Qed.

Lemma unplug_detach_post s ty (b : bool) :
  GetAttachCount (as_dev s) = 1 -> takes_index (as_dev s) = b ->
  let s0 := mkAttachState (mkDevice (set_AttachCount (dev_generic (as_dev s)) 0) (dev_data (as_dev s)))
      (as_AllPCIeDevs s) (as_recv s) in
  match on_error (on_plug (HotplugRemoveDevice ty)) (ignore (on_generic (bumpAttachCount true))) s0 with
  | (Err e, s1) => detach_post s (Err e) s1
  | (Ok _, s1) =>
      dev_generic (as_dev s1) = dev_generic (as_dev s0) /\ drive_index (as_dev s1) = drive_index (as_dev s) /\
      GetDeviceType (as_dev s1) = GetDeviceType (as_dev s) /\
      block_indexes (as_recv s1) = block_indexes (as_recv s)
  end.
Proof.
  intros Hz Hti s0. unfold on_error, on_plug.
  destruct (HotplugRemoveDevice ty (as_dev s0, as_recv s0)) as [y [d1 r1]] eqn:E.
  apply recv_remove in E as (Hb & Hg & Ht & Hi). destruct y as [u|e]; [done|].
  rw (undo_detach (mkAttachState d1 _ r1) (dev_generic (as_dev s))); [exact Hg|done|].
  by eapply detach_post_fail.
Qed.

Lemma Block_Detach_post s :
  count_ok (as_dev s) -> (exists drive, dev_data (as_dev s) = BlockData drive) ->
  let '(x, s') := Block_Detach s in detach_post s x s'.
Proof.
  intros Hc [drive Hdata]. unfold Block_Detach. apply counted_detach; [done|].
  intros x s' Hz.
  assert (Hti : takes_index (as_dev s) = true) by (unfold takes_index; by rw Hdata).
  pose proof (unplug_detach_post s DeviceBlock true Hz Hti) as Hun. cbn zeta in Hun.
  unfold mbind at 1, M_bind at 1. destruct (on_error _ _ _) as [[u|e] s1]; [|by intros [= <- <-]].
  destruct Hun as (Hg & Hi & Ht & Hb). unfold mbind, M_bind, gets.
  destruct (ignore_unset s1 (drive_index (as_dev s1))) as (r' & -> & Hb').
  intros [= <- <-]. apply (last_detach_post _ _ true); try done. simpl. by rw Hb' Hb Hi.
Qed.

Lemma VhostUserBlk_Detach_post s :
  count_ok (as_dev s) -> (exists a, dev_data (as_dev s) = VhostUserBlkData a) ->
  let '(x, s') := VhostUserBlk_Detach s in detach_post s x s'.
Proof.
  intros Hc [a Hdata]. unfold VhostUserBlk_Detach. apply counted_detach; [done|].
  intros x s' Hz.
  pose proof (unplug_detach_post s VhostUserBlk _ Hz eq_refl) as Hun. cbn zeta in Hun.
  unfold mbind at 1, M_bind at 1. destruct (on_error _ _ _) as [[u|e] s1]; [|by intros [= <- <-]].
  destruct Hun as (Hg & Hi & Ht & Hb). unfold mbind, M_bind, info, gets.
  assert (Hb0 : takes_index (as_dev s) =
    isVirtioBlkBlockDriver (di_DriverOptions (gd_DeviceInfo (dev_generic (as_dev s1))))).
  { unfold takes_index. by rw Hdata Hg. }
  rw -Hb0. destruct (takes_index (as_dev s)) eqn:Hti.
  - unfold when. destruct (ignore_unset s1 (drive_index (as_dev s1))) as (r' & -> & Hb').
    intros [= <- <-]. apply (last_detach_post _ _ true); try done. simpl. by rw Hb' Hb Hi.
  - intros [= <- <-]. by apply (last_detach_post _ _ false).
Qed.

Lemma VFIO_Detach_post s :
  count_ok (as_dev s) -> (exists l, dev_data (as_dev s) = VFIOData l) ->
  let '(x, s') := VFIO_Detach s in detach_post s x s'.
Proof.
  intros Hc [l Hdata]. unfold VFIO_Detach. apply counted_detach; [done|].
  intros x s' Hz.
  assert (Hti : takes_index (as_dev s) = false) by (unfold takes_index; by rw Hdata).
  pose proof (unplug_detach_post s DeviceVFIO false Hz Hti) as Hun. cbn zeta in Hun. revert Hun.
  unfold on_error, mbind, M_bind, info, gets. cbn [as_dev dev_generic gd_DeviceInfo set_AttachCount].
  destruct (di_ColdPlug (gd_DeviceInfo (dev_generic (as_dev s)))).
  - intros _ [= <- <-]. by apply (last_detach_post _ _ false).
  - destruct (on_plug _ _) as [[[]|e] s1]; [|by intros ? [= <- <-]].
    intros (Hg & Hi & Ht & Hb) [= <- <-]. by apply (last_detach_post _ _ false).
Qed.

Lemma Generic_Attach_post s :
  count_ok (as_dev s) -> takes_index (as_dev s) = false ->
  let '(x, s') := Generic_Attach s in attach_post s x s'.
Proof.
  intros Hc Hti. pose proof (counted_attach (mret tt) s Hc) as Hca.
  unfold Generic_Attach. revert Hca. unfold mbind, M_bind.
  destruct (on_generic (bumpAttachCount true) s) as [[[]|e] s1] eqn:E; intros Hca; apply Hca;
    intros x s' Hz [= <- <-]; by apply attach_post_ok_plain.
Qed.

Lemma Generic_Detach_post s :
  count_ok (as_dev s) -> takes_index (as_dev s) = false ->
  let '(x, s') := Generic_Detach s in detach_post s x s'.
Proof.
  intros Hc Hti. pose proof (counted_detach (mret tt) s Hc) as Hca.
  unfold Generic_Detach. revert Hca. unfold mbind, M_bind.
  destruct (on_generic (bumpAttachCount false) s) as [[[]|e] s1] eqn:E; intros Hca; apply Hca;
    intros x s' Hz [= <- <-]; by apply (last_detach_post _ _ false).
Qed.

Lemma Attach_post randID s :
  count_ok (as_dev s) -> let '(x, s') := Attach host randID s in attach_post s x s'.
Proof.
  intros Hc. unfold Attach, mbind, M_bind, gets. destruct (dev_data (as_dev s)) eqn:Ed;
    [apply Generic_Attach_post|apply Block_Attach_post|apply VFIO_Attach_post
    |apply VhostUserBlk_Attach_post|apply VhostUser_Attach_post..]; try done; eauto;
    unfold takes_index; by rw Ed.
Qed.

Lemma Detach_post s :
  count_ok (as_dev s) -> let '(x, s') := Detach s in detach_post s x s'.
Proof.
  intros Hc. unfold Detach, mbind, M_bind, gets. destruct (dev_data (as_dev s)) eqn:Ed;
    [apply Generic_Detach_post|apply Block_Detach_post|apply VFIO_Detach_post
    |apply VhostUserBlk_Detach_post|apply Generic_Detach_post..]; try done; eauto;
    unfold takes_index; by rw Ed.
Qed.

(** *** The call that plugs a device in *)

Definition plugs (d : Device) : option (M (Device * R) unit) :=
  match dev_data d with
  | GenericData => None
  | BlockData _ => Some (HotplugAddDevice DeviceBlock)
  | VFIOData _ =>
      Some (if di_ColdPlug (gd_DeviceInfo (dev_generic d)) then AppendDevice else HotplugAddDevice DeviceVFIO)
  | VhostUserBlkData _ => Some (HotplugAddDevice VhostUserBlk)
  | VhostUserSCSIData _ | VhostUserNetData _ | VhostUserFSData _ => Some AppendDevice
  end.

(** The receiver as it was, or after an index was taken. *)
Definition took (r r1 : R) : Prop := r1 = r \/ exists i, GetAndSetSandboxBlockIndex r = (Ok i, r1).

(** One call plugged the device in, and it was the last one. *)
Definition plugged_once (s s' : AttachState R) : Prop :=
  match plugs (as_dev s) with
  | None => as_recv s' = as_recv s
  | Some m =>
      exists d1 r1, took (as_recv s) r1 /\ same_identity (as_dev s) d1 /\ GetAttachCount d1 = 1 /\
        m (d1, r1) = (Ok tt, (as_dev s', as_recv s'))
  end.

Lemma counted_plugs (m : M (AttachState R) unit) s :
  count_ok (as_dev s) ->
  (forall s', GetAttachCount (as_dev s) = 0 ->
     m (mkAttachState (mkDevice (set_AttachCount (dev_generic (as_dev s)) 1) (dev_data (as_dev s)))
          (as_AllPCIeDevs s) (as_recv s)) = (Ok tt, s') -> plugged_once s s') ->
  let '(x, s') := (skip ← on_generic (bumpAttachCount true); if skip then mret tt else m) s in
  (GetAttachCount (as_dev s) = 0 -> is_ok x = true -> plugged_once s s') /\
  (0 < GetAttachCount (as_dev s) -> is_ok x = false -> s' = s).
Proof.
  intros Hc Hm. unfold on_generic. destruct s as [[g data] pcie r]. unfold GetAttachCount in *. simpl in *.
  unfold mbind, M_bind.
  destruct (bump_attach_cases g Hc) as [(E & e & Eb)|[(E & Eb)|(E & Eb)]]; cbn [as_dev dev_generic];
    rw Eb; cbn [as_dev dev_data as_AllPCIeDevs as_recv].
  - by split.
  - destruct (m _) as [[[]|e] s'] eqn:Em; split; try done; try lia. intros _ _. by apply Hm.
  - split; [lia|done].
Qed.

Lemma on_plug_ok (m : M (Device * R) unit) s s' :
  on_plug m s = (Ok tt, s') -> m (as_dev s, as_recv s) = (Ok tt, (as_dev s', as_recv s')).
Proof. unfold on_plug. destruct (m _) as [[[]|e] [d r]]; [|done]. by intros [= <-]. Qed.

(** The device while it is being attached. *)
Lemma same_identity_counted d data :
  GetDeviceType (mkDevice (set_AttachCount (dev_generic d) 1) data) = GetDeviceType d ->
  same_identity d (mkDevice (set_AttachCount (dev_generic d) 1) data).
Proof. by repeat split. Qed.

Lemma Block_plugs s drive :
  count_ok (as_dev s) -> dev_data (as_dev s) = BlockData drive ->
  let '(x, s') := Block_Attach s in
  (GetAttachCount (as_dev s) = 0 -> is_ok x = true -> plugged_once s s') /\
  (0 < GetAttachCount (as_dev s) -> is_ok x = false -> s' = s).
Proof.
  intros Hc Hd. unfold Block_Attach. apply counted_plugs; [done|]. intros s' Hz.
  unfold plugged_once, plugs. rw Hd. unfold mbind at 1, M_bind at 1, try, on_recv at 1. simpl.
  destruct (GetAndSetSandboxBlockIndex (as_recv s)) as [[i|e] r1] eqn:Eg; unfold on_error, Block_prepare, info, set_data; munfold.
  - destruct (drive_address _ i) as [addr|e]; simpl; [|done]. destruct (on_plug _ _) as [[[]|e] s1] eqn:Ep; [|done].
    intros [= <-]. apply on_plug_ok in Ep. simpl in Ep. refine (ex_intro _ _ (ex_intro _ r1 (conj _ (conj _ (conj _ Ep)))));
      [by right; exists i|apply same_identity_counted; by unfold GetDeviceType; rw Hd|done].
  - done.
Qed.

Lemma VhostUserBlk_plugs s a :
  count_ok (as_dev s) -> dev_data (as_dev s) = VhostUserBlkData a ->
  let '(x, s') := VhostUserBlk_Attach s in
  (GetAttachCount (as_dev s) = 0 -> is_ok x = true -> plugged_once s s') /\
  (0 < GetAttachCount (as_dev s) -> is_ok x = false -> s' = s).
Proof.
  intros Hc Hd. unfold VhostUserBlk_Attach. apply counted_plugs; [done|]. intros s' Hz.
  unfold plugged_once, plugs. rw Hd. unfold mbind at 1, M_bind at 1, info at 1, gets. simpl.
  destruct (isVirtioBlkBlockDriver _).
  - unfold mbind at 1, M_bind at 1, try, on_recv at 1. simpl.
    destruct (GetAndSetSandboxBlockIndex (as_recv s)) as [[i|e] r1] eqn:Eg; unfold on_error, VhostUserBlk_prepare, info, set_data; munfold; [|done].
    simpl. destruct (on_plug _ _) as [[[]|e] s1] eqn:Ep; [|done]. intros [= <-]. apply on_plug_ok in Ep. simpl in Ep.
    refine (ex_intro _ _ (ex_intro _ r1 (conj _ (conj _ (conj _ Ep)))));
      [by right; exists i|apply same_identity_counted; by unfold GetDeviceType; rw Hd|done].
  - unfold on_error, VhostUserBlk_prepare, info, set_data. munfold. simpl.
    destruct (on_plug _ _) as [[[]|e] s1] eqn:Ep; [|done]. intros [= <-]. apply on_plug_ok in Ep. simpl in Ep.
    refine (ex_intro _ _ (ex_intro _ (as_recv s) (conj _ (conj _ (conj _ Ep)))));
      [by left|apply same_identity_counted; by unfold GetDeviceType; rw Hd|done].
Qed.

Lemma VFIO_collect_recv i files path (st : AttachState R) x st' :
  VFIO_collect host i files path st = (x, st') -> as_recv st' = as_recv st.
Proof.
  revert i st. induction files as [|f files IH]; intros i st; simpl; [by intros [= <- <-]|].
  munfold. destruct (getVFIODetails host f path) as [[[bdf sysfs] ty]|e]; [|by intros [= <- <-]].
  intros E. by apply IH in E.
Qed.

Lemma VFIO_plugs s l :
  count_ok (as_dev s) -> dev_data (as_dev s) = VFIOData l ->
  let '(x, s') := VFIO_Attach host s in
  (GetAttachCount (as_dev s) = 0 -> is_ok x = true -> plugged_once s s') /\
  (0 < GetAttachCount (as_dev s) -> is_ok x = false -> s' = s).
Proof.
  intros Hc Hd. unfold VFIO_Attach. apply counted_plugs; [done|]. intros s' Hz.
  unfold plugged_once, plugs. rw Hd. unfold on_error, info. munfold. simpl.
  destruct (h_ReadDir host _) as [files|e]; [|done]. simpl. set (s1 := mkAttachState _ _ _).
  destruct (VFIO_collect host 0 files _ s1) as [[[]|e] s2] eqn:E; [|done].
  pose proof (VFIO_collect_recv _ _ _ _ _ _ E) as Er. apply VFIO_collect_frame in E as (Hg & Ht & _); [|done]. simpl in *.
  destruct (di_ColdPlug _); (destruct (on_plug _ s2) as [[[]|e] s3] eqn:Ep; [|done]); intros [= <-]; apply on_plug_ok in Ep;
    (refine (ex_intro _ _ (ex_intro _ (as_recv s2) (conj _ (conj _ (conj _ Ep))))); [by left| |by unfold GetAttachCount; rw Hg]);
    unfold same_identity, DeviceID; rw Hg Ht; unfold GetDeviceType; by rw Hd.
Qed.

Lemma VhostUser_plugs randID s :
  count_ok (as_dev s) ->
  (exists a, dev_data (as_dev s) = VhostUserSCSIData a \/ dev_data (as_dev s) = VhostUserNetData a \/
     dev_data (as_dev s) = VhostUserFSData a) ->
  let '(x, s') := VhostUser_Attach randID s in
  (GetAttachCount (as_dev s) = 0 -> is_ok x = true -> plugged_once s s') /\
  (0 < GetAttachCount (as_dev s) -> is_ok x = false -> s' = s).
Proof.
  intros Hc (a & Hd). unfold VhostUser_Attach. apply counted_plugs; [done|]. intros s' Hz.
  unfold plugged_once, plugs, on_error, set_data. munfold. simpl. destruct randID as [id|e]; [|done]. simpl.
  destruct Hd as [Hd|[Hd|Hd]]; rw Hd; simpl; (destruct (on_plug _ _) as [[[]|e] s1] eqn:Ep; [|done]); intros [= <-];
    apply on_plug_ok in Ep; simpl in Ep; (refine (ex_intro _ _ (ex_intro _ (as_recv s) (conj _ (conj _ (conj _ Ep)))));
    [by left|apply same_identity_counted; by unfold GetDeviceType; rw Hd|done]).
Qed.

Lemma Attach_plugs randID s :
  count_ok (as_dev s) ->
  let '(x, s') := Attach host randID s in
  (GetAttachCount (as_dev s) = 0 -> is_ok x = true -> plugged_once s s') /\
  (0 < GetAttachCount (as_dev s) -> is_ok x = false -> s' = s).
Proof.
  intros Hc. unfold Attach, mbind at 1, M_bind at 1, gets. destruct (dev_data (as_dev s)) eqn:Ed.
  - pose proof (counted_plugs (mret tt) s Hc) as Hp. unfold Generic_Attach. revert Hp. unfold mbind, M_bind.
    destruct (on_generic (bumpAttachCount true) s) as [[[]|e] s1] eqn:E; intros Hp; apply Hp;
      intros s' _ [= <-]; unfold plugged_once, plugs; by rw Ed.
  - by apply (Block_plugs s drive).
  - by apply (VFIO_plugs s devs).
  - by apply (VhostUserBlk_plugs s attrs).
  - apply VhostUser_plugs; eauto.
  - apply VhostUser_plugs; eauto.
  - apply VhostUser_plugs; eauto.
Qed.

(** C27. Attaching a device through any driver, against any receiver that keeps
    its promises.  The identity of the device never changes.  The first
    attachment takes, for the drivers that need one, a block index nobody held,
    and then makes one call of the receiver, the one of its driver, that plugs
    the device in, as the last thing; a generic device is only counted.  A further
    attachment only counts: neither the receiver nor the driver data are touched.
    When a step fails, the attach count and the block indexes in use are what
    they were before the call, and a failed further attachment leaves
    everything as it was.  What the driver recorded about the device in the failed
    attempt (the drive, or the devices of a VFIO group) is not claimed to be
    undone. *)
Theorem Attach_spec randID s :
  count_ok (as_dev s) ->
  let '(x, s') := Attach host randID s in
  let d := as_dev s in let d' := as_dev s' in
  same_identity d d' /\
  match x with
  | Ok _ =>
      GetAttachCount d' = GetAttachCount d + 1 /\ GetAttachCount d' <= intMax /\
      (0 < GetAttachCount d -> as_recv s' = as_recv s /\ dev_data d' = dev_data d) /\
      (GetAttachCount d = 0 ->
         plugged_once s s' /\
         (held d' ## block_indexes (as_recv s)) /\
         block_indexes (as_recv s') = held d' ∪ block_indexes (as_recv s))
  | Err _ =>
      GetAttachCount d' = GetAttachCount d /\ held d' = held d /\
      block_indexes (as_recv s') = block_indexes (as_recv s) /\
      (0 < GetAttachCount d -> s' = s)
  end.
Proof.
  intros Hc. pose proof (Attach_post randID s Hc) as H1. pose proof (Attach_plugs randID s Hc) as H2.
  destruct (Attach host randID s) as [[[]|e] s']; destruct H1 as [Hi H1]; (split; [exact Hi|]).
  - destruct H1 as (? & ? & ? & Hb). split_and!; try done. intros Hz. split; [by apply H2|by apply Hb].
  - destruct H1 as (? & ? & ?). split_and!; try done. intros Hz. by apply H2.
Qed.

(** Attach and detach cancel: for a device that is not attached, a
    successful attach followed by a successful detach gives back exactly the
    block indexes that were in use, with the attach count and identity of the
    device restored; and a failing detach leaves the device attached and
    holding what it held. *)
Theorem Attach_Detach_roundtrip randID s s1 x s2 :
  GetAttachCount (as_dev s) = 0 ->
  Attach host randID s = (Ok tt, s1) -> Detach s1 = (x, s2) ->
  match x with
  | Ok _ => block_indexes (as_recv s2) = block_indexes (as_recv s) /\
            GetAttachCount (as_dev s2) = 0 /\ same_identity (as_dev s) (as_dev s2)
  | Err _ => GetAttachCount (as_dev s2) = 1 /\ held (as_dev s2) = held (as_dev s1) /\
             block_indexes (as_recv s2) = block_indexes (as_recv s1)
  end.
Proof.
  intros Hz E1 E2.
  pose proof (Attach_post randID s ltac:(unfold count_ok; rw Hz; done)) as H1. rw E1 in H1.
  destruct H1 as (Hid1 & Hc1 & _ & _ & Hb1). destruct (Hb1 Hz) as [Hf Hb].
  pose proof (Detach_post s1 ltac:(unfold count_ok; rw Hc1 Hz; done)) as H2. rw E2 in H2.
  destruct H2 as (Hid2 & H2). destruct x as [u|e].
  - destruct H2 as (Hc2 & _ & Hb2). rw Hb2; [lia|]. split_and!; [rw Hb; set_solver|lia|].
    destruct Hid1 as (? & ? & ? & ?), Hid2 as (? & ? & ? & ?). repeat split; congruence.
  - destruct H2 as (Hc2 & Hh & Hb2). split_and!; [lia|done|done].
Qed.

End Laws.

(** *** A receiver for concrete runs: a plain set of indexes, plugging always
    succeeds. *)
Definition demo_first_free (r : gset Z) : option Z := first_free (fun i => bool_decide (i ∈ r)) 0 64.

#[export] Instance demo_receiver : DeviceReceiver (gset Z) := {|
  HotplugAddDevice := fun _ => mret tt;
  HotplugRemoveDevice := fun _ => mret tt;
  AppendDevice := mret tt;
  GetAndSetSandboxBlockIndex := fun r =>
    match demo_first_free (filter (fun i => 0 <= i) r) with
    | Some i => (Ok i, {[i]} ∪ r)
    | None => (Err (Errorf "no index"), r)
    end;
  UnsetSandboxBlockIndex := fun i r => (Ok tt, r ∖ {[i]});
  block_indexes := fun r => filter (fun i => 0 <= i) r;
|}.

#[export] Instance demo_laws : DeviceReceiverLaws (gset Z).
Proof.
  constructor; simpl.
  - intros r i. by rw elem_of_filter; intros [? _].
  - intros r i r'. destruct (demo_first_free _) as [j|] eqn:E; [|done]. intros [= <- <-].
    apply first_free_Some in E as (Hj & Hu & _). bool_to_prop. split_and!; [lia|done|].
    apply set_eq. intros k. rw elem_of_filter !elem_of_union elem_of_filter elem_of_singleton. naive_solver lia.
  - intros r e r'. destruct (demo_first_free _); [done|]. by intros [= _ <-].
  - intros r i. apply set_eq. intros k. set_solver.
  - intros d r t x d' r' [= <- <- <-]. done.
  - intros d r t x d' r' [= <- <- <-]. done.
  - intros d r x d' r' [= <- <- <-]. done.
Qed.

Definition demo_host : Host := mkHost (fun _ => StatNotExist) (fun _ => Err (ErrExternal "none"))
  (fun p => if bool_decide (p = "/sys/kernel/iommu_groups/7/devices") then Ok ["0000:04:00.0"]
            else Err (ErrExternal "none"))
  (fun _ => Err (ErrExternal "none")) (fun _ => Err (ErrExternal "none")) (fun _ => Some 4096)
  (fun _ => Err (ErrExternal "none")).

Definition demo_info (id host devtype : string) : DeviceInfo :=
  mkDeviceInfo (Some {[BlockDriverOpt := VirtioBlock]}) host "/dev/x" devtype id 8 0 0 0 0 false false false.

Definition demo_state : AttachState (gset Z) :=
  mkAttachState (NewBlockDevice (demo_info "d1" "/dev/sda" "b")) ∅ {[0; 2]}.

Lemma Attach_spec_witness :
  count_ok (as_dev demo_state) /\ drive_index (as_dev (Attach demo_host (Ok "") demo_state).2) = 1 /\
  GetAttachCount (as_dev (Attach demo_host (Ok "") demo_state).2) = 1.
Proof.
  assert (Hc : count_ok (as_dev demo_state)) by done.
  pose proof (Attach_spec demo_host (Ok "") demo_state Hc) as H. vm_compute in H.
  split; [exact Hc|]. split; [by vm_compute|]. exact (proj1 (proj2 H)).
Defined.

Lemma Attach_Detach_roundtrip_witness :
  exists s1 s2, Attach demo_host (Ok "") demo_state = (Ok tt, s1) /\ Detach s1 = (Ok tt, s2) /\
    block_indexes (as_recv s2) = block_indexes (as_recv demo_state).
Proof.
  pose (s1 := (Attach demo_host (Ok "") demo_state).2). pose (s2 := (Detach s1).2).
  exists s1, s2. split; [by vm_compute|]. split; [by vm_compute|].
  refine (proj1 (Attach_Detach_roundtrip demo_host (Ok "") demo_state s1 (Ok tt) s2 _ _ _)); by vm_compute.
Defined.

(** Re-attaching a VFIO group duplicates its devices: [Attach] appends to
    [VfioDevs] and neither [Detach] nor a failed attach clears it, so after
    attach, detach, attach a group of one device describes that device twice,
    the second time on another root port. *)
Theorem VFIO_reattach_duplicates :
  let s0 := mkAttachState (NewVFIODevice (demo_info "v1" "/dev/vfio/7" "c")) ∅ (∅ : gset Z) in
  let s1 := (Attach demo_host (Ok "") s0).2 in
  let s2 := (Detach s1).2 in
  let s3 := (Attach demo_host (Ok "") s2).2 in
  vd_BDF <$> vfio_devs (as_dev s1) = ["04:00.0"] /\
  vd_BDF <$> vfio_devs (as_dev s3) = ["04:00.0"; "04:00.0"] /\
  vd_Bus <$> vfio_devs (as_dev s3) = ["rp0"; "rp1"].
Proof. by vm_compute. Qed.

(** Persisting a device: loading what was saved gives a device with the same
    identifier, counters, major and minor numbers and block index, which saves
    to the same state again; every driver keeps its type, except the virtio-fs
    device, which comes back as a generic one. *)
Lemma Save_Load d :
  exists d', Load (Save d) = Some d' /\ Save d' = Save d /\
    DeviceID d' = DeviceID d /\ GetAttachCount d' = GetAttachCount d /\
    gd_RefCount (dev_generic d') = gd_RefCount (dev_generic d) /\
    GetMajorMinor d' = GetMajorMinor d /\ drive_index d' = drive_index d /\ held d' = held d /\
    GetDeviceType d' = (if bool_decide (GetDeviceType d = VhostUserFS) then DeviceGeneric else GetDeviceType d).
Proof.
  destruct d as [[di id rc ac] data].
  destruct data as [|[[]|]|l|[[]|]|[]|[]|[]]; (eexists; split; [reflexivity|]); try by repeat split.
  split; [|by repeat split]. unfold Save. cbn [dev_data dev_generic]. f_equal.
  cbn. induction l as [|v l IH]; [done|]. cbn. rw IH. f_equal.
  unfold VFIO_Save. simpl. f_equal. unfold u32, wrapu. by rw Zmod_mod.
Qed.

End DriversSpec.
