(* ===== verification/DeviceManager.v ===== *)
(** * virtcontainers/device/manager

    The device manager of a sandbox ([manager.go], [utils.go]): creation with
    sharing by major and minor number, reference counting, attaching and
    detaching through the drivers against a [DeviceReceiver], and loading from
    the persisted state.  The invariant at the end ties the devices of the
    manager to the block indexes of the receiver. *)
From S2P Require Import Prelude GoStr Types Utils Devices.
Import Filepath.
Import Devices.Config Devices.Drivers Devices.DriversSpec.

Module DeviceManager.

Record deviceManager := mkDeviceManager {
  dm_devices : gmap string Device;
  dm_blockDriver : string;
  dm_vhostUserStorePath : string;
  dm_vhostUserStoreEnabled : bool;
}.

Definition set_devices (dm : deviceManager) (m : gmap string Device) : deviceManager :=
  mkDeviceManager m (dm_blockDriver dm) (dm_vhostUserStorePath dm) (dm_vhostUserStoreEnabled dm).

Definition NewDeviceManager (blockDriver : string) (vhostUserStoreEnabled : bool)
    (vhostUserStorePath : string) (devices : list Device) : deviceManager :=
  let driver :=
    if bool_decide (blockDriver = VirtioMmio) then VirtioMmio
    else if bool_decide (blockDriver = VirtioBlock) then VirtioBlock
    else if bool_decide (blockDriver = Nvdimm) then Nvdimm
    else if bool_decide (blockDriver = VirtioBlockCCW) then VirtioBlockCCW
    else VirtioSCSI in
  mkDeviceManager (foldl (fun m dev => <[DeviceID dev := dev]> m) ∅ devices)
    driver vhostUserStorePath vhostUserStoreEnabled.

Definition vfioPath : string := "/dev/vfio/".

Definition isVFIO (hostPath : string) : bool :=
  if HasPrefix hostPath (PathJoin [vfioPath; "vfio"]) then false
  else HasPrefix hostPath vfioPath && (String.length vfioPath <? String.length hostPath)%nat.

Definition isBlock (devInfo : DeviceInfo) : bool := bool_decide (di_DevType devInfo = "b").

Definition isVhostUserBlk (devInfo : DeviceInfo) : bool :=
  bool_decide (di_DevType devInfo = "b") && (di_Major devInfo =? VhostUserBlkMajor).

Definition isVhostUserSCSI (devInfo : DeviceInfo) : bool :=
  bool_decide (di_DevType devInfo = "b") && (di_Major devInfo =? VhostUserSCSIMajor).

(** [draws i] is the hex form of the random bytes of the [i]th attempt. *)
Fixpoint newDeviceID_go (dm : deviceManager) (draws : nat -> res string) (i n : nat) : res string :=
  match n with
  | O => Err ErrIDExhausted
  | S n' =>
      id ← draws i;
      if bool_decide (dm_devices dm !! id = None) then Ok id else newDeviceID_go dm draws (S i) n'
  end.

Definition newDeviceID (dm : deviceManager) (draws : nat -> res string) : res string :=
  newDeviceID_go dm draws 0 5.

Section Manager.
Context `{GoRange} (host : Host).

(** The first device met while ranging over the map. *)
Definition findDeviceByMajorMinor (dm : deviceManager) (major minor : Z) : option Device :=
  snd <$> (snd <$> list_find (fun kv : string * Device => GetMajorMinor kv.2 = (major, minor))
                     (range_map (dm_devices dm))).

(** [dev.Reference()], deferred for a successful [createDevice]. *)
Definition referenced (d : Device) : Device := mkDevice (Reference (dev_generic d)).2 (dev_data d).

(** [devInfo.DriverOptions[BlockDriverOpt] = dm.blockDriver], making the map if
    it is nil. *)
Definition with_blockDriver (dm : deviceManager) (devInfo : DeviceInfo) : DeviceInfo :=
  set_DriverOptions devInfo
    (Some (<[BlockDriverOpt := dm_blockDriver dm]> (default ∅ (di_DriverOptions devInfo)))).

(** The options are those of the new device.  In the code a map the caller brought
    is changed in place; no caller reads it afterwards. *)
Definition createDevice (dm : deviceManager) (draws : nat -> res string) (devInfo : DeviceInfo)
    : res Device :=
  devInfo ← (if negb (di_Pmem devInfo) then
               path ← GetHostPath host devInfo (dm_vhostUserStoreEnabled dm) (dm_vhostUserStorePath dm);
               mret (set_HostPath devInfo path)
             else Ok devInfo);
  match findDeviceByMajorMinor dm (di_Major devInfo) (di_Minor devInfo) with
  | Some existingDev => Ok (referenced existingDev)
  | None =>
      id ← newDeviceID dm draws;
      let devInfo := set_info_ID devInfo id in
      Ok (referenced
        (if isVFIO (di_HostPath devInfo) then NewVFIODevice devInfo
         else if isVhostUserBlk devInfo then NewVhostUserBlkDevice (with_blockDriver dm devInfo)
         else if isBlock devInfo then NewBlockDevice (with_blockDriver dm devInfo)
         else NewGenericDevice devInfo))
  end.

Definition NewDevice (draws : nat -> res string) (devInfo : DeviceInfo) : M deviceManager Device :=
  dm ← get;
  dev ← lift (createDevice dm draws devInfo);
  _ ← put (set_devices dm (<[DeviceID dev := dev]> (dm_devices dm)));
  mret dev.

(** The reference is dropped even when the device is still attached. *)
Definition DMRemoveDevice (id : string) : M deviceManager unit :=
  dm ← get;
  match dm_devices dm !! id with
  | None => throw ErrDeviceNotExist
  | Some dev =>
      let dev' := mkDevice (Dereference (dev_generic dev)).2 (dev_data dev) in
      _ ← put (set_devices dm (<[id := dev']> (dm_devices dm)));
      if gd_RefCount (dev_generic dev') =? 0 then
        if 0 <? GetAttachCount dev' then throw ErrRemoveAttachedDevice
        else put (set_devices dm (delete id (dm_devices dm)))
      else mret tt
  end.

Definition GetDeviceByID (dm : deviceManager) (id : string) : option Device := dm_devices dm !! id.

Definition GetAllDevices (dm : deviceManager) : list Device := (range_map (dm_devices dm)).*2.

Definition IsDeviceAttached (dm : deviceManager) (id : string) : bool :=
  match dm_devices dm !! id with
  | None => false
  | Some d => 0 <? GetAttachCount d
  end.

Definition LoadDevices (devStates : list DeviceState) (dm : deviceManager) : deviceManager :=
  foldl (fun dm ds =>
    match Load ds with
    | Some dev => set_devices dm (<[DeviceID dev := dev]> (dm_devices dm))
    | None => dm
    end) dm devStates.

(** *** Attaching *)

(** The manager, the global [AllPCIeDevs] and the receiver. *)
Record World (R : Type) := mkWorld { w_dm : deviceManager; w_pcie : gset string; w_recv : R }.
Arguments mkWorld {R} _ _ _.
Arguments w_dm {R} _.
Arguments w_pcie {R} _.
Arguments w_recv {R} _.

Section Attach.
Context {R : Type} `{DeviceReceiver R}.

(** Run a device's method on the device stored under [id]. *)
Definition on_device (id : string) (d : Device) (m : M (AttachState R) unit) : M (World R) unit := fun w =>
  let '(x, s) := m (mkAttachState d (w_pcie w) (w_recv w)) in
  (x, mkWorld (set_devices (w_dm w) (<[id := as_dev s]> (dm_devices (w_dm w))))
        (as_AllPCIeDevs s) (as_recv s)).

Definition AttachDevice (randID : res string) (id : string) : M (World R) unit :=
  w ← get;
  match dm_devices (w_dm w) !! id with
  | None => throw ErrDeviceNotExist
  | Some d => on_device id d (Attach host randID)
  end.

Definition DetachDevice (id : string) : M (World R) unit :=
  w ← get;
  match dm_devices (w_dm w) !! id with
  | None => throw ErrDeviceNotExist
  | Some d => if GetAttachCount d =? 0 then throw ErrDeviceNotAttached else on_device id d Detach
  end.
End Attach.
End Manager.

Arguments mkWorld {R} _ _ _.
Arguments w_dm {R} _.
Arguments w_pcie {R} _.
Arguments w_recv {R} _.

(** ** The invariant *)

(** A stored device: filed under its own identifier, counters in range. *)
Definition device_ok (id : string) (d : Device) : Prop :=
  DeviceID d = id /\ count_ok d /\ 0 <= gd_RefCount (dev_generic d) <= intMax.

Definition devices_ok (m : gmap string Device) : Prop := map_Forall device_ok m.

(** No two devices share a major and minor number. *)
Definition numbers_unique (m : gmap string Device) : Prop :=
  forall i j d e, m !! i = Some d -> m !! j = Some e -> GetMajorMinor d = GetMajorMinor e -> i = j.

(** Each device holds only indexes the receiver has handed out, and no two
    devices hold the same one. *)
Definition indexes_ok (m : gmap string Device) (used : gset Z) : Prop :=
  map_Forall (fun _ d => held d ⊆ used) m /\
  forall i j d e, m !! i = Some d -> m !! j = Some e -> i <> j -> held d ## held e.

Definition world_inv {R} `{DeviceReceiver R} (w : World R) : Prop :=
  devices_ok (dm_devices (w_dm w)) /\ numbers_unique (dm_devices (w_dm w)) /\
  indexes_ok (dm_devices (w_dm w)) (block_indexes (w_recv w)).

(** ** Lookups *)

Lemma findDevice_Some `{GoRange} dm major minor d :
  findDeviceByMajorMinor dm major minor = Some d ->
  GetMajorMinor d = (major, minor) /\ exists id, dm_devices dm !! id = Some d.
Proof.
  unfold findDeviceByMajorMinor. destruct (list_find _ _) as [[i [id e]]|] eqn:E; [|done].
  apply list_find_Some in E as (Hl & Hm & _). intros [= <-]. split; [done|]. exists id.
  apply elem_of_range_map. by eapply list_elem_of_lookup_2.
Qed.

Lemma findDevice_None `{GoRange} dm major minor :
  findDeviceByMajorMinor dm major minor = None ->
  forall id d, dm_devices dm !! id = Some d -> GetMajorMinor d <> (major, minor).
Proof.
  unfold findDeviceByMajorMinor. destruct (list_find _ _) as [[i [id e]]|] eqn:E; [done|].
  apply list_find_None in E. rw Forall_forall in E. intros _ id d Hd.
  apply (E (id, d)). by apply elem_of_range_map.
Qed.

Lemma newDeviceID_fresh dm draws id : newDeviceID dm draws = Ok id -> dm_devices dm !! id = None.
Proof.
  unfold newDeviceID. generalize 0%nat 5%nat. intros i n. revert i.
  induction n as [|n IH]; intros i; simpl; [done|]. munfold.
  destruct (draws i) as [x|]; [|done]. case_bool_decide; [by intros [= <-]|apply IH].
Qed.

(** ** Preservation *)

Lemma replace_devices_ok m id d' :
  devices_ok m -> device_ok id d' -> devices_ok (<[id := d']> m).
Proof. intros Hm Hd. by apply map_Forall_insert_2. Qed.

Lemma replace_numbers m id d d' :
  numbers_unique m -> m !! id = Some d -> GetMajorMinor d' = GetMajorMinor d ->
  numbers_unique (<[id := d']> m).
Proof.
  intros Hm Hd Heq i j a b Ha Hb Hab.
  apply lookup_insert_Some in Ha as [[<- <-]|[Hi Ha]];
    apply lookup_insert_Some in Hb as [[<- <-]|[Hj Hb]]; try done.
  - apply (Hm _ _ d b); congruence.
  - apply (Hm _ _ a d); congruence.
  - by apply (Hm _ _ a b).
Qed.

Lemma replace_indexes m used used' id d' :
  indexes_ok m used -> held d' ⊆ used' ->
  (forall j e, j <> id -> m !! j = Some e -> held e ⊆ used' /\ held e ## held d') ->
  indexes_ok (<[id := d']> m) used'.
Proof.
  intros [Hu Hdis] Hd' Hother. split.
  - intros j e [[<- <-]|[Hj He]]%lookup_insert_Some; [done|]. by apply (Hother j).
  - intros i j a b Ha Hb Hij.
    apply lookup_insert_Some in Ha as [[<- <-]|[Hi Ha]];
      apply lookup_insert_Some in Hb as [[<- <-]|[Hj Hb]]; try done.
    + symmetry. by apply (Hother j).
    + by apply (Hother i).
    + by apply (Hdis i j).
Qed.

(** Updating a device without changing what it holds. *)
Lemma update_inv {R} `{DeviceReceiver R} (w : World R) id d d' pcie :
  world_inv w -> dm_devices (w_dm w) !! id = Some d -> device_ok id d' ->
  GetMajorMinor d' = GetMajorMinor d -> held d' = held d ->
  world_inv (mkWorld (set_devices (w_dm w) (<[id := d']> (dm_devices (w_dm w)))) pcie (w_recv w)).
Proof.
  intros (Hok & Hnum & Hidx) Hd Hd' Hmm Hheld. split_and!; simpl.
  - by apply replace_devices_ok.
  - by eapply replace_numbers.
  - pose proof Hidx as [Hu Hdis]. eapply replace_indexes; [done| |].
    + rw Hheld. by apply (Hu id).
    + intros j e Hj He. rw Hheld. split; [by apply (Hu j)|by apply (Hdis j id)].
Qed.

Lemma referenced_facts d :
  0 <= gd_RefCount (dev_generic d) <= intMax ->
  GetMajorMinor (referenced d) = GetMajorMinor d /\ held (referenced d) = held d /\
  DeviceID (referenced d) = DeviceID d /\ GetAttachCount (referenced d) = GetAttachCount d /\
  dev_data (referenced d) = dev_data d /\
  gd_RefCount (dev_generic (referenced d)) = Z.min intMax (gd_RefCount (dev_generic d) + 1).
Proof.
  intros Hr. unfold referenced, Reference. munfold. destruct d as [[di id rc ac] data]; simpl in *.
  destruct (Z.eqb_spec rc intMax); simpl; split_and!; try done; lia.
Qed.

Lemma dereferenced_facts d d' :
  0 <= gd_RefCount (dev_generic d) <= intMax ->
  d' = mkDevice (Dereference (dev_generic d)).2 (dev_data d) ->
  GetMajorMinor d' = GetMajorMinor d /\ held d' = held d /\ DeviceID d' = DeviceID d /\
  GetAttachCount d' = GetAttachCount d /\
  gd_RefCount (dev_generic d') = Z.max 0 (gd_RefCount (dev_generic d) - 1).
Proof.
  intros Hr ->. unfold Dereference. munfold. destruct d as [[di id rc ac] data]; simpl in *.
  destruct (Z.eqb_spec rc 0); simpl; split_and!; try done; lia.
Qed.

Lemma held_zero d : GetAttachCount d = 0 -> held d = ∅.
Proof. unfold held. by intros ->. Qed.

(** Counting alone does not change what a device holds. *)
Lemma held_more d d' :
  same_identity d d' -> dev_data d' = dev_data d -> 0 < GetAttachCount d -> 0 < GetAttachCount d' ->
  held d' = held d.
Proof.
  intros (_ & _ & Hi & Ht) Hdata Hc Hc'. unfold held.
  rw (proj2 (Z.ltb_lt _ _) Hc) (proj2 (Z.ltb_lt _ _) Hc') (takes_index_ext d d') //.
  unfold drive_index. by rw Hdata.
Qed.

Section Ops.
Context `{GoRange} (host : Host).

(** What [createDevice] returns: a shared device with one more reference, or a
    new one under a fresh identifier. *)
Lemma createDevice_cases dm draws devInfo dev :
  createDevice host dm draws devInfo = Ok dev ->
  (exists id d, dm_devices dm !! id = Some d /\ dev = referenced d /\
     GetMajorMinor d = (di_Major devInfo, di_Minor devInfo)) \/
  ((forall id d, dm_devices dm !! id = Some d -> GetMajorMinor d <> (di_Major devInfo, di_Minor devInfo)) /\
   dm_devices dm !! DeviceID dev = None /\ GetMajorMinor dev = (di_Major devInfo, di_Minor devInfo) /\
   GetAttachCount dev = 0 /\ gd_RefCount (dev_generic dev) = 1).
Proof.
  unfold createDevice. intros E.
  assert (Hi : exists devInfo', di_Major devInfo' = di_Major devInfo /\ di_Minor devInfo' = di_Minor devInfo /\
    match findDeviceByMajorMinor dm (di_Major devInfo') (di_Minor devInfo') with
    | Some existingDev => Ok (referenced existingDev)
    | None => id ← newDeviceID dm draws;
      let devInfo := set_info_ID devInfo' id in
      Ok (referenced
        (if isVFIO (di_HostPath devInfo) then NewVFIODevice devInfo
         else if isVhostUserBlk devInfo then NewVhostUserBlkDevice (with_blockDriver dm devInfo)
         else if isBlock devInfo then NewBlockDevice (with_blockDriver dm devInfo)
         else NewGenericDevice devInfo))
    end = Ok dev).
  { munfold. destruct (negb (di_Pmem devInfo)); [|by exists devInfo].
    destruct (GetHostPath _ _ _ _) as [p|]; [|done]. by exists (set_HostPath devInfo p). }
  destruct Hi as (di & HM & Hm & E'). rw HM Hm in E'.
  destruct (findDeviceByMajorMinor dm (di_Major devInfo) (di_Minor devInfo)) as [d|] eqn:Ef.
  - left. apply findDevice_Some in Ef as (Hmm & id & Hd). exists id, d. by injection E' as <-.
  - right. munfold. destruct (newDeviceID dm draws) as [id|] eqn:Eid; [|done].
    apply newDeviceID_fresh in Eid. split; [by apply findDevice_None|].
    injection E' as <-. rw -HM -Hm. destruct di. by repeat case_match.
Qed.

Context {R : Type} `{DeviceReceiverLaws R}.

(** The operations of the manager lifted to the world. *)
Definition on_dm {A} (m : M deviceManager A) : M (World R) A := fun w =>
  let '(x, dm) := m (w_dm w) in (x, mkWorld dm (w_pcie w) (w_recv w)).

Lemma NewDevice_inv draws devInfo w : world_inv w -> world_inv (on_dm (NewDevice host draws devInfo) w).2.
Proof.
  intros Hinv. unfold on_dm, NewDevice. munfold.
  destruct (createDevice host (w_dm w) draws devInfo) as [dev|e] eqn:E; simpl; [|by destruct w].
  apply createDevice_cases in E as [(id & d & Hd & -> & Hmm)|(Hnum & Hfresh & Hmm & Hz & Hr)].
  - destruct (proj1 Hinv id d Hd) as (Hid & Hc & Hrc).
    destruct (referenced_facts d Hrc) as (Hm & Hh & Hid' & Hac & _ & Hrc').
    rw Hid' Hid. apply (update_inv w id d); try done.
    unfold device_ok, count_ok. rw Hid' Hac Hrc'. split_and!; [done|apply Hc|apply Hc|..]; unfold intMax, maxUint64 in *; lia.
  - destruct Hinv as (Hok & Huniq & Hidx). pose proof (held_zero _ Hz) as Hh. split_and!; simpl.
    + apply replace_devices_ok; [done|]. unfold device_ok, count_ok. rw Hz Hr. by split_and!.
    + intros i j a b Ha Hb Hab.
      apply lookup_insert_Some in Ha as [[<- <-]|[Hi Ha]];
        apply lookup_insert_Some in Hb as [[<- <-]|[Hj Hb]]; try done.
      * by destruct (Hnum j b Hb); rw -Hab.
      * by destruct (Hnum i a Ha); rw Hab.
      * by apply (Huniq i j a b).
    + pose proof Hidx as [Hu _]. eapply replace_indexes; [done|set_solver|].
      intros j e Hj He. rw Hh. split; [by apply (Hu j)|set_solver].
Qed.

Lemma delete_inv (w : World R) id pcie :
  world_inv w -> world_inv (mkWorld (set_devices (w_dm w) (delete id (dm_devices (w_dm w)))) pcie (w_recv w)).
Proof.
  intros (Hok & Huniq & Hu & Hdis). split_and!; simpl.
  - by apply map_Forall_delete.
  - intros i j a b [_ Ha]%lookup_delete_Some [_ Hb]%lookup_delete_Some. by apply Huniq.
  - split; [by apply map_Forall_delete|].
    intros i j a b [_ Ha]%lookup_delete_Some [_ Hb]%lookup_delete_Some. by apply Hdis.
Qed.

Lemma RemoveDevice_inv id w : world_inv w -> world_inv (on_dm (DMRemoveDevice id) w).2.
Proof.
  intros Hinv. unfold on_dm, DMRemoveDevice. munfold.
  destruct (dm_devices (w_dm w) !! id) as [d|] eqn:Hd; simpl; [|by destruct w].
  destruct (proj1 Hinv id d Hd) as (Hid & Hc & Hrc).
  destruct (dereferenced_facts d _ Hrc eq_refl) as (Hm & Hh & Hid' & Hac & Hrc').
  set (d' := mkDevice (Dereference (dev_generic d)).2 (dev_data d)) in *.
  assert (Hupd : world_inv (mkWorld (set_devices (w_dm w) (<[id:=d']> (dm_devices (w_dm w)))) (w_pcie w) (w_recv w))).
  { apply (update_inv w id d); try done. unfold device_ok, count_ok. rw Hid' Hac Hrc'.
    split_and!; [done|apply Hc|apply Hc|..]; unfold intMax, maxUint64 in *; lia. }
  repeat case_match; simplify_eq/=; try done. by apply delete_inv.
Qed.

Lemma MajorMinor_same d d' : same_identity d d' -> GetMajorMinor d' = GetMajorMinor d.
Proof. intros (_ & _ & Hi & _). unfold GetMajorMinor. by rw Hi. Qed.

(** The device stored back after an attach or detach. *)
Lemma stored_ok id d d' :
  device_ok id d -> same_identity d d' -> count_ok d' -> device_ok id d'.
Proof. intros (Hid & _ & Hr) (Hid' & Hr' & _) Hc. unfold device_ok. by rw Hid' Hr'. Qed.

Lemma AttachDevice_inv randID id w : world_inv w -> world_inv (AttachDevice host randID id w).2.
Proof.
  intros Hinv. unfold AttachDevice. munfold.
  destruct (dm_devices (w_dm w) !! id) as [d|] eqn:Hd; [|done]. unfold on_device.
  pose proof Hinv as (Hok & Huniq & Hidx). pose proof (Hok id d Hd) as Hdok.
  pose proof (Attach_post host randID (mkAttachState d (w_pcie w) (w_recv w)) (proj1 (proj2 Hdok))) as Hp.
  destruct (Attach host randID _) as [x s']. destruct Hp as [Hsame Hp]. simpl in Hsame, Hp |- *.
  pose proof (MajorMinor_same _ _ Hsame) as Hmm. destruct Hdok as (Hid & Hc & Hr).
  pose proof Hidx as [Hu Hdis].
  assert (Hfin : count_ok (as_dev s') ->
    (exists h, held (as_dev s') = h /\ block_indexes (as_recv s') = h ∪ block_indexes (w_recv w) /\
       (h = held d \/ h ## block_indexes (w_recv w))) ->
    world_inv (mkWorld (set_devices (w_dm w) (<[id:=as_dev s']> (dm_devices (w_dm w)))) (as_AllPCIeDevs s') (as_recv s'))).
  { intros Hc' (h & Hh & Hb & Hor). split_and!; simpl.
    - apply replace_devices_ok; [done|]. by apply (stored_ok id d).
    - by eapply replace_numbers.
    - eapply replace_indexes; [done|set_solver|]. intros j e Hj He. pose proof (Hu j e He) as Hue.
      rw Hb Hh. split; [set_solver|]. destruct Hor as [-> |Hfr]; [by apply (Hdis j id)|].
      simpl in Hue. set_solver. }
  pose proof (Hu id d Hd) as Hud. simpl in Hud.
  destruct x as [u|e].
  - destruct Hp as (Hc' & Hmax & Hmore & Hfirst). destruct (decide (GetAttachCount d = 0)) as [Hz|Hz].
    + destruct (Hfirst Hz) as [Hfr Hb]. apply Hfin; [unfold count_ok; rw Hc' Hz; done|].
      eexists. split_and!; [done|done|by right].
    + destruct Hmore as [Hrecv Hdata]; [unfold count_ok in Hc; lia|].
      assert (Hh : held (as_dev s') = held d) by (apply held_more; [done..|unfold count_ok in Hc; lia|unfold count_ok in Hc; lia]).
      apply Hfin; [unfold count_ok in *; lia|]. exists (held d). rw Hrecv.
      split_and!; [done|set_solver|by left].
  - destruct Hp as (Hc' & Hh & Hb). apply Hfin; [unfold count_ok; by rw Hc'|].
    exists (held d). split_and!; [done|set_solver|by left].
Qed.

Lemma DetachDevice_inv id w : world_inv w -> world_inv (DetachDevice id w).2.
Proof.
  intros Hinv. unfold DetachDevice. munfold.
  destruct (dm_devices (w_dm w) !! id) as [d|] eqn:Hd; [|done].
  destruct (Z.eqb_spec (GetAttachCount d) 0) as [|Hnz]; [done|]. unfold on_device.
  pose proof Hinv as (Hok & Huniq & Hidx). pose proof (Hok id d Hd) as Hdok.
  pose proof (Detach_post (mkAttachState d (w_pcie w) (w_recv w)) (proj1 (proj2 Hdok))) as Hp.
  destruct (Detach _) as [x s']. destruct Hp as [Hsame Hp]. simpl in Hsame, Hp |- *.
  pose proof (MajorMinor_same _ _ Hsame) as Hmm. pose proof Hidx as [Hu Hdis].
  assert (Hfin : count_ok (as_dev s') ->
    held (as_dev s') = held d /\ block_indexes (as_recv s') = block_indexes (w_recv w) \/
    held (as_dev s') = ∅ /\ block_indexes (as_recv s') = block_indexes (w_recv w) ∖ held d ->
    world_inv (mkWorld (set_devices (w_dm w) (<[id:=as_dev s']> (dm_devices (w_dm w)))) (as_AllPCIeDevs s') (as_recv s'))).
  { intros Hc' Hor. split_and!; simpl.
    - apply replace_devices_ok; [done|]. by apply (stored_ok id d).
    - by eapply replace_numbers.
    - pose proof (Hu id d Hd) as Hud. eapply replace_indexes; [done|set_solver|].
      intros j e Hj He. pose proof (Hu j e He) as Hue. pose proof (Hdis j id e d He Hd Hj) as Hdj.
      simpl in Hue, Hud. destruct Hor as [[-> ->]|[-> ->]]; set_solver. }
  destruct Hdok as (Hid & Hc & Hr). unfold count_ok in *. destruct x as [u|e].
  - destruct Hp as (Hc' & Hmore & Hlast). apply Hfin; [lia|].
    destruct (decide (GetAttachCount d = 1)) as [Hone|Hone].
    + right. split; [apply held_zero; lia|by apply Hlast].
    + left. destruct Hmore as [Hrecv Hdata]; [lia|]. rw Hrecv. split; [|done].
      apply held_more; [done..|lia|lia].
  - destruct Hp as (Hc' & Hh & Hb). apply Hfin; [lia|]. by left.
Qed.

(** One call on the manager, whatever its result. *)
Inductive dm_step : World R -> World R -> Prop :=
| step_new draws devInfo w : dm_step w (on_dm (NewDevice host draws devInfo) w).2
| step_remove id w : dm_step w (on_dm (DMRemoveDevice id) w).2
| step_attach randID id w : dm_step w (AttachDevice host randID id w).2
| step_detach id w : dm_step w (DetachDevice id w).2.

Lemma dm_step_inv w w' : dm_step w w' -> world_inv w -> world_inv w'.
Proof.
  destruct 1; eauto using NewDevice_inv, RemoveDevice_inv, AttachDevice_inv, DetachDevice_inv.
Qed.

Lemma dm_reachable_inv w w' : rtc dm_step w w' -> world_inv w -> world_inv w'.
Proof. induction 1; eauto using dm_step_inv. Qed.

Lemma NewDeviceManager_inv bd en path pcie (r : R) :
  world_inv (mkWorld (NewDeviceManager bd en path []) pcie r).
Proof.
  split_and!; simpl; [by apply map_Forall_empty|by intros ????|].
  split; [by apply map_Forall_empty|by intros ????].
Qed.

(** C11. Whatever calls are made on a new device manager, in any order, with any
    of them failing: every device is filed under its own identifier, no two
    share a major and minor number, an attached block device holds an index
    the sandbox has marked as used, and two attached devices never hold the
    same block index. *)
Theorem manager_invariant bd en path pcie (r : R) w :
  rtc dm_step (mkWorld (NewDeviceManager bd en path []) pcie r) w ->
  (forall id d, dm_devices (w_dm w) !! id = Some d -> DeviceID d = id) /\
  (forall i j d e, dm_devices (w_dm w) !! i = Some d -> dm_devices (w_dm w) !! j = Some e ->
     GetMajorMinor d = GetMajorMinor e -> i = j) /\
  (forall i d, dm_devices (w_dm w) !! i = Some d -> 0 < GetAttachCount d -> takes_index d = true ->
     drive_index d ∈ block_indexes (w_recv w) /\
     forall j e, dm_devices (w_dm w) !! j = Some e -> 0 < GetAttachCount e -> takes_index e = true ->
       i <> j -> drive_index d <> drive_index e).
Proof.
  intros Hrun. destruct (dm_reachable_inv _ _ Hrun (NewDeviceManager_inv _ _ _ _ _)) as (Hok & Huniq & Hu & Hdis).
  assert (Hheld : forall d, 0 < GetAttachCount d -> takes_index d = true -> held d = {[drive_index d]}).
  { intros d Hc Ht. unfold held. by rw (proj2 (Z.ltb_lt _ _) Hc) Ht. }
  split_and!; [by intros id d Hd; apply (Hok id d Hd)|exact Huniq|].
  intros i d Hd Hc Ht. split.
  - specialize (Hu i d Hd). simpl in Hu. rw Hheld // in Hu. set_solver.
  - intros j e He Hce Hte Hij. specialize (Hdis i j d e Hd He Hij). rw !Hheld // in Hdis. set_solver.
Qed.

(** Creating and removing a device cancel: after a successful [NewDevice],
    [RemoveDevice] of the device it returned restores the manager exactly,
    whether the device was new or shared (and its reference counter not
    saturated); a failing [NewDevice] changes nothing; and the device returned
    has the major and minor number asked for. *)
Theorem NewDevice_RemoveDevice draws devInfo dm :
  devices_ok (dm_devices dm) ->
  map_Forall (fun _ d => GetAttachCount d = 0 /\ 0 < gd_RefCount (dev_generic d) < intMax) (dm_devices dm) ->
  match NewDevice host draws devInfo dm with
  | (Ok dev, dm') => DMRemoveDevice (DeviceID dev) dm' = (Ok tt, dm) /\
      GetMajorMinor dev = (di_Major devInfo, di_Minor devInfo)
  | (Err _, dm') => dm' = dm
  end.
Proof.
  intros Hok Href. unfold NewDevice. munfold.
  destruct (createDevice host dm draws devInfo) as [dev|e] eqn:E; [|done].
  unfold DMRemoveDevice. munfold. cbn [dm_devices set_devices]. rw lookup_insert_eq.
  apply createDevice_cases in E as [(id & d & Hd & -> & Hmm)|(Hnum & Hfresh & Hmm & Hz & Hr)].
  - destruct (Hok id d Hd) as (Hid & Hc & Hrc). destruct (Href id d Hd) as [Hz Hr].
    destruct (referenced_facts d Hrc) as (Hm & _ & Hid' & _). split; [|by rw Hm].
    rw Hid' Hid. unfold Dereference, referenced, Reference. munfold.
    destruct d as [[di i rc ac] data]. simpl in *.
    rw (proj2 (Z.eqb_neq rc intMax)); [lia|]. simpl. rw (proj2 (Z.eqb_neq (rc + 1) 0)); [lia|]. simpl.
    replace (rc + 1 - 1) with rc by lia. rw (proj2 (Z.eqb_neq rc 0)); [lia|].
    unfold set_devices, set_RefCount. simpl. rw insert_insert_eq insert_id //. by destruct dm.
  - split; [|done]. unfold Dereference. munfold. rw Hr. unfold GetAttachCount in *. simpl. rw Hz.
    unfold set_devices. simpl. rw delete_insert_id //. by destruct dm.
Qed.

End Ops.

(** ** Concrete runs *)

Definition demo_dm : deviceManager := NewDeviceManager VirtioBlock false "" [].
Definition demo_block : DeviceInfo := mkDeviceInfo None "" "/dev/loop0" "b" "" 7 0 0 0 0 false false false.
Definition demo_char : DeviceInfo := mkDeviceInfo None "" "/dev/vcs" "c" "" 7 0 0 0 0 false false false.
Definition demo_draws (i : nat) : res string := Ok "a1b2".

Lemma manager_invariant_witness :
  exists w, rtc (dm_step (H:=range_default) demo_host)
      (mkWorld demo_dm ∅ ({[5]} : gset Z)) w /\
    forall id d, dm_devices (w_dm w) !! id = Some d -> DeviceID d = id.
Proof.
  set (w0 := mkWorld demo_dm ∅ ({[5]} : gset Z)).
  assert (Hrun : rtc (dm_step (H:=range_default) demo_host) w0
    (AttachDevice demo_host (Ok "") "a1b2"
      (on_dm (NewDevice (H:=range_default) demo_host demo_draws demo_block) w0).2).2).
  { eapply rtc_l; [apply step_new|]. eapply rtc_l; [apply step_attach|]. apply rtc_refl. }
  eexists. split; [exact Hrun|].
  exact (proj1 (manager_invariant (H:=range_default) demo_host VirtioBlock false "" ∅ {[5]} _ Hrun)).
Defined.

Lemma NewDevice_RemoveDevice_witness :
  exists dev dm', NewDevice (H:=range_default) demo_host demo_draws demo_block demo_dm = (Ok dev, dm') /\
    DMRemoveDevice (DeviceID dev) dm' = (Ok tt, demo_dm).
Proof.
  pose proof (NewDevice_RemoveDevice (H:=range_default) demo_host demo_draws demo_block demo_dm
    ltac:(apply map_Forall_empty) ltac:(apply map_Forall_empty)) as H.
  destruct (NewDevice demo_host demo_draws demo_block demo_dm) as [[dev|e] dm'] eqn:E.
  - exists dev, dm'. split; [done|exact (proj1 H)].
  - exfalso. by vm_compute in E.
Defined.

(** Sharing ignores the kind of the device: after a block device 7:0 was
    created, asking for the character device 7:0 returns the block device,
    because the search compares only major and minor numbers. *)
Theorem NewDevice_confuses_kinds :
  let dm1 := (NewDevice (H:=range_default) demo_host demo_draws demo_block demo_dm).2 in
  match NewDevice (H:=range_default) demo_host demo_draws demo_char dm1 with
  | (Ok dev, _) => GetDeviceType dev = DeviceBlock /\ di_DevType demo_char = "c" /\
                   GetDevHostPath dev = "/dev/loop0"
  | (Err _, _) => False
  end.
Proof. by vm_compute. Qed.

End DeviceManager.
