(* ===== verification/Hypervisor.v ===== *)
(** * virtcontainers/hypervisor.go

    The configuration of a hypervisor: validation and defaults, kernel
    parameters and their text form, guest assets, and the probes of
    [/proc/meminfo], [/proc/cmdline] and [/proc/cpuinfo].  The files are a
    parameter: the lines a scanner delivers and the error it ends with. *)
From S2P Require Import Prelude GoStr Types Devices.
Import Types.Assets Devices.Config.

Module HypervisorConf.

Definition HypervisorType : Type := string.
Definition FirecrackerHypervisor : HypervisorType := "firecracker".
Definition QemuHypervisor : HypervisorType := "qemu".
Definition AcrnHypervisor : HypervisorType := "acrn".
Definition ClhHypervisor : HypervisorType := "clh".
Definition MockHypervisor : HypervisorType := "mock".
Definition UruncHypervisor : HypervisorType := "urunc".

Definition known_types : list HypervisorType :=
  [QemuHypervisor; FirecrackerHypervisor; AcrnHypervisor; ClhHypervisor; MockHypervisor; UruncHypervisor].

Definition HypervisorType_Set (value : string) : M HypervisorType unit :=
  if bool_decide (value = "qemu") then put QemuHypervisor
  else if bool_decide (value = "firecracker") then put FirecrackerHypervisor
  else if bool_decide (value = "acrn") then put AcrnHypervisor
  else if bool_decide (value = "clh") then put ClhHypervisor
  else if bool_decide (value = "mock") then put MockHypervisor
  else if bool_decide (value = "urunc") then put UruncHypervisor
  else throw (Errorf "Unknown hypervisor type %s").

Definition HypervisorType_String (hType : HypervisorType) : string :=
  if bool_decide (hType ∈ known_types) then hType else "".

(** The hypervisors [NewHypervisor] can make. *)
Definition NewHypervisor_ok (hType : HypervisorType) : bool :=
  bool_decide (hType = QemuHypervisor) || bool_decide (hType = FirecrackerHypervisor) ||
  bool_decide (hType = AcrnHypervisor) || bool_decide (hType = ClhHypervisor) ||
  bool_decide (hType = MockHypervisor) || bool_decide (hType = UruncHypervisor).

Definition defaultVCPUs : Z := 1.
Definition defaultMemSzMiB : Z := 2048.
Definition defaultBridges : Z := 1.
Definition defaultBlockDriver : string := VirtioSCSI.
Definition defaultMsize9p : Z := 8192.
(** [govmm.MaxVCPUs()] on amd64. *)
Definition defaultMaxVCPUs : Z := 240.
Definition QemuCCWVirtio : string := "s390-ccw-virtio".
Definition VirtioFS : string := "virtio-fs".

(** The hypervisor's own device types. *)
Inductive DeviceType :=
| ImgDev | FsDev | NetDev | BlockDev | SerialPortDev | VSockPCIDev | VfioDev | VhostuserDev
| CpuDev | MemoryDev | HybridVirtioVsockDev.

Record MemoryDevice := mkMemoryDevice {
  md_Slot : Z;
  md_SizeMB : Z;
  md_Addr : Z;
  md_Probe : bool;
}.

Record Param := mkParam { Key : string; Value : string }.

(** [HypervisorConfig]; a nil [customAssets] is the empty map. *)
Record HypervisorConfig := mkHypervisorConfig {
  hc_customAssets : gmap AssetType Asset;
  hc_Groups : list Z;
  hc_KernelPath : string;
  hc_ImagePath : string;
  hc_InitrdPath : string;
  hc_FirmwarePath : string;
  hc_FirmwareVolumePath : string;
  hc_MachineAccelerators : string;
  hc_CPUFeatures : string;
  hc_HypervisorPath : string;
  hc_HypervisorCtlPath : string;
  hc_JailerPath : string;
  hc_BlockDeviceDriver : string;
  hc_HypervisorMachineType : string;
  hc_MemoryPath : string;
  hc_DevicesStatePath : string;
  hc_EntropySource : string;
  hc_SharedFS : string;
  hc_SharedPath : string;
  hc_VirtioFSDaemon : string;
  hc_VirtioFSCache : string;
  hc_FileBackedMemRootDir : string;
  hc_VhostUserStorePath : string;
  hc_GuestMemoryDumpPath : string;
  hc_GuestHookPath : string;
  hc_VMid : string;
  hc_VMStorePath : string;
  hc_RunStorePath : string;
  hc_SELinuxProcessLabel : string;
  hc_HypervisorPathList : list string;
  hc_HypervisorCtlPathList : list string;
  hc_JailerPathList : list string;
  hc_EntropySourceList : list string;
  hc_VirtioFSDaemonList : list string;
  hc_VirtioFSExtraArgs : list string;
  hc_EnableAnnotations : list string;
  hc_FileBackedMemRootList : list string;
  hc_PFlash : list string;
  hc_VhostUserStorePathList : list string;
  hc_KernelParams : list Param;
  hc_HypervisorParams : list Param;
  hc_SGXEPCSize : Z;
  hc_RxRateLimiterMaxRate : Z;
  hc_TxRateLimiterMaxRate : Z;
  hc_MemOffset : Z;
  hc_PCIeRootPort : Z;
  hc_NumVCPUs : Z;
  hc_DefaultMaxVCPUs : Z;
  hc_MemorySize : Z;
  hc_DefaultBridges : Z;
  hc_Msize9p : Z;
  hc_MemSlots : Z;
  hc_VirtioFSCacheSize : Z;
  hc_Uid : Z;
  hc_Gid : Z;
  hc_BlockDeviceCacheSet : bool;
  hc_BlockDeviceCacheDirect : bool;
  hc_BlockDeviceCacheNoflush : bool;
  hc_DisableBlockDeviceUse : bool;
  hc_EnableIOThreads : bool;
  hc_Debug : bool;
  hc_MemPrealloc : bool;
  hc_HugePages : bool;
  hc_VirtioMem : bool;
  hc_IOMMU : bool;
  hc_IOMMUPlatform : bool;
  hc_DisableNestingChecks : bool;
  hc_DisableImageNvdimm : bool;
  hc_HotplugVFIOOnRootBus : bool;
  hc_GuestMemoryDumpPaging : bool;
  hc_ConfidentialGuest : bool;
  hc_BootToBeTemplate : bool;
  hc_BootFromTemplate : bool;
  hc_DisableVhostNet : bool;
  hc_EnableVhostUserStore : bool;
  hc_GuestSwap : bool;
  hc_Rootless : bool;
  hc_DisableSeccomp : bool;
  hc_DisableSeLinux : bool;
  hc_Unikernel : bool;
}.

#[global] Instance HypervisorConfig_eta : Eta HypervisorConfig := fun r => mkHypervisorConfig
    (hc_customAssets r) (hc_Groups r) (hc_KernelPath r) (hc_ImagePath r) (hc_InitrdPath r)
    (hc_FirmwarePath r) (hc_FirmwareVolumePath r) (hc_MachineAccelerators r) (hc_CPUFeatures r)
    (hc_HypervisorPath r) (hc_HypervisorCtlPath r) (hc_JailerPath r) (hc_BlockDeviceDriver r)
    (hc_HypervisorMachineType r) (hc_MemoryPath r) (hc_DevicesStatePath r) (hc_EntropySource r)
    (hc_SharedFS r) (hc_SharedPath r) (hc_VirtioFSDaemon r) (hc_VirtioFSCache r)
    (hc_FileBackedMemRootDir r) (hc_VhostUserStorePath r) (hc_GuestMemoryDumpPath r)
    (hc_GuestHookPath r) (hc_VMid r) (hc_VMStorePath r) (hc_RunStorePath r)
    (hc_SELinuxProcessLabel r) (hc_HypervisorPathList r) (hc_HypervisorCtlPathList r)
    (hc_JailerPathList r) (hc_EntropySourceList r) (hc_VirtioFSDaemonList r)
    (hc_VirtioFSExtraArgs r) (hc_EnableAnnotations r) (hc_FileBackedMemRootList r) (hc_PFlash r)
    (hc_VhostUserStorePathList r) (hc_KernelParams r) (hc_HypervisorParams r) (hc_SGXEPCSize r)
    (hc_RxRateLimiterMaxRate r) (hc_TxRateLimiterMaxRate r) (hc_MemOffset r) (hc_PCIeRootPort r)
    (hc_NumVCPUs r) (hc_DefaultMaxVCPUs r) (hc_MemorySize r) (hc_DefaultBridges r) (hc_Msize9p r)
    (hc_MemSlots r) (hc_VirtioFSCacheSize r) (hc_Uid r) (hc_Gid r) (hc_BlockDeviceCacheSet r)
    (hc_BlockDeviceCacheDirect r) (hc_BlockDeviceCacheNoflush r) (hc_DisableBlockDeviceUse r)
    (hc_EnableIOThreads r) (hc_Debug r) (hc_MemPrealloc r) (hc_HugePages r) (hc_VirtioMem r)
    (hc_IOMMU r) (hc_IOMMUPlatform r) (hc_DisableNestingChecks r) (hc_DisableImageNvdimm r)
    (hc_HotplugVFIOOnRootBus r) (hc_GuestMemoryDumpPaging r) (hc_ConfidentialGuest r)
    (hc_BootToBeTemplate r) (hc_BootFromTemplate r) (hc_DisableVhostNet r)
    (hc_EnableVhostUserStore r) (hc_GuestSwap r) (hc_Rootless r) (hc_DisableSeccomp r)
    (hc_DisableSeLinux r) (hc_Unikernel r).

(** The zero value of the configuration. *)
Definition HypervisorConfig_zero : HypervisorConfig := mkHypervisorConfig
    ∅ [] "" "" "" "" "" "" "" "" "" "" "" "" "" "" "" "" "" "" "" "" "" "" "" "" "" "" "" [] [] []
    [] [] [] [] [] [] [] [] [] 0 0 0 0 0 0 0 0 0 0 0 0 0 0 false false false false false false
    false false false false false false false false false false false false false false false
    false false false false.

Definition CheckTemplateConfig (conf : HypervisorConfig) : res unit :=
  if hc_BootToBeTemplate conf && hc_BootFromTemplate conf then
    Err (Errorf "Cannot set both 'to be' and 'from' vm tempate")
  else if hc_BootToBeTemplate conf || hc_BootFromTemplate conf then
    if bool_decide (hc_MemoryPath conf = "") then Err (Errorf "Missing MemoryPath for vm template")
    else if hc_BootFromTemplate conf && bool_decide (hc_DevicesStatePath conf = "") then
      Err (Errorf "Missing DevicesStatePath to Load from vm template")
    else Ok tt
  else Ok tt.

(** The checks on the boot images. *)
Definition image_check (conf : HypervisorConfig) : res unit :=
  let image := negb (bool_decide (hc_ImagePath conf = "")) in
  let initrd := negb (bool_decide (hc_InitrdPath conf = "")) in
  if hc_ConfidentialGuest conf && bool_decide (hc_HypervisorMachineType conf = QemuCCWVirtio) then
    if image || initrd then
      Err (Errorf "Neither the image or initrd path may be set for Secure Execution")
    else Ok tt
  else if negb image && negb initrd then Err (Errorf "Missing image and initrd path")
  else if image && initrd then Err (Errorf "Image and initrd path cannot be both set")
  else Ok tt.

(** The defaults, in the order of the code. *)
Definition or_default (d n : Z) : Z := if n =? 0 then d else n.
Definition block_driver (machine d : string) : string :=
  if bool_decide (d = "") then defaultBlockDriver
  else if bool_decide (d = VirtioBlock) && bool_decide (machine = QemuCCWVirtio) then VirtioBlockCCW
  else d.
Definition max_vcpus (confidential : bool) (numVCPUs n : Z) : Z :=
  let n := if (n =? 0) || (defaultMaxVCPUs <? n) then defaultMaxVCPUs else n in
  if confidential && negb (numVCPUs =? n) then numVCPUs else n.
Definition msize (sharedFS : string) (n : Z) : Z :=
  if (n =? 0) && negb (bool_decide (sharedFS = VirtioFS)) then defaultMsize9p else n.
#[global] Arguments or_default : simpl never.
#[global] Arguments block_driver : simpl never.
#[global] Arguments max_vcpus : simpl never.
#[global] Arguments msize : simpl never.

Definition apply_defaults (conf : HypervisorConfig) : HypervisorConfig :=
  let numVCPUs := or_default defaultVCPUs (hc_NumVCPUs conf) in
  let memorySize := or_default defaultMemSzMiB (hc_MemorySize conf) in
  let bridges := or_default defaultBridges (hc_DefaultBridges conf) in
  let driver := block_driver (hc_HypervisorMachineType conf) (hc_BlockDeviceDriver conf) in
  let maxVCPUs := max_vcpus (hc_ConfidentialGuest conf) numVCPUs (hc_DefaultMaxVCPUs conf) in
  let msize9p := msize (hc_SharedFS conf) (hc_Msize9p conf) in
  mkHypervisorConfig
    (hc_customAssets conf) (hc_Groups conf) (hc_KernelPath conf) (hc_ImagePath conf)
    (hc_InitrdPath conf) (hc_FirmwarePath conf) (hc_FirmwareVolumePath conf)
    (hc_MachineAccelerators conf) (hc_CPUFeatures conf) (hc_HypervisorPath conf)
    (hc_HypervisorCtlPath conf) (hc_JailerPath conf) driver (hc_HypervisorMachineType conf)
    (hc_MemoryPath conf) (hc_DevicesStatePath conf) (hc_EntropySource conf) (hc_SharedFS conf)
    (hc_SharedPath conf) (hc_VirtioFSDaemon conf) (hc_VirtioFSCache conf)
    (hc_FileBackedMemRootDir conf) (hc_VhostUserStorePath conf) (hc_GuestMemoryDumpPath conf)
    (hc_GuestHookPath conf) (hc_VMid conf) (hc_VMStorePath conf) (hc_RunStorePath conf)
    (hc_SELinuxProcessLabel conf) (hc_HypervisorPathList conf) (hc_HypervisorCtlPathList conf)
    (hc_JailerPathList conf) (hc_EntropySourceList conf) (hc_VirtioFSDaemonList conf)
    (hc_VirtioFSExtraArgs conf) (hc_EnableAnnotations conf) (hc_FileBackedMemRootList conf)
    (hc_PFlash conf) (hc_VhostUserStorePathList conf) (hc_KernelParams conf)
    (hc_HypervisorParams conf) (hc_SGXEPCSize conf) (hc_RxRateLimiterMaxRate conf)
    (hc_TxRateLimiterMaxRate conf) (hc_MemOffset conf) (hc_PCIeRootPort conf) numVCPUs maxVCPUs
    memorySize bridges msize9p (hc_MemSlots conf) (hc_VirtioFSCacheSize conf) (hc_Uid conf)
    (hc_Gid conf) (hc_BlockDeviceCacheSet conf) (hc_BlockDeviceCacheDirect conf)
    (hc_BlockDeviceCacheNoflush conf) (hc_DisableBlockDeviceUse conf) (hc_EnableIOThreads conf)
    (hc_Debug conf) (hc_MemPrealloc conf) (hc_HugePages conf) (hc_VirtioMem conf) (hc_IOMMU conf)
    (hc_IOMMUPlatform conf) (hc_DisableNestingChecks conf) (hc_DisableImageNvdimm conf)
    (hc_HotplugVFIOOnRootBus conf) (hc_GuestMemoryDumpPaging conf) (hc_ConfidentialGuest conf)
    (hc_BootToBeTemplate conf) (hc_BootFromTemplate conf) (hc_DisableVhostNet conf)
    (hc_EnableVhostUserStore conf) (hc_GuestSwap conf) (hc_Rootless conf) (hc_DisableSeccomp conf)
    (hc_DisableSeLinux conf) (hc_Unikernel conf).

Definition Valid : M HypervisorConfig unit :=
  conf ← get;
  if bool_decide (hc_KernelPath conf = "") then throw (Errorf "Missing kernel path") else
  _ ← lift (image_check conf);
  _ ← lift (CheckTemplateConfig conf);
  modify apply_defaults.

Definition AddKernelParam (p : Param) : M HypervisorConfig unit :=
  if bool_decide (Key p = "") then throw (Errorf "Empty kernel parameter")
  else modify (fun conf => conf <| hc_KernelParams ::= fun ps => ps ++ [p] |>).

(** A nil asset is [None]. *)
Definition AddCustomAsset (a : option Asset) : M HypervisorConfig unit :=
  match a with
  | None => mret tt
  | Some a =>
      if bool_decide (as_path a = "") then mret tt
      else if negb (Asset_Valid a) then throw (Errorf "Invalid %s at %s")
      else modify (fun conf => conf <| hc_customAssets ::= fun m => <[as_kind a := a]> m |>)
  end.

Definition assetPath (conf : HypervisorConfig) (t : AssetType) : res string :=
  match hc_customAssets conf !! t with
  | Some a => Ok (as_path a)
  | None =>
      if bool_decide (t = KernelAsset) then Ok (hc_KernelPath conf)
      else if bool_decide (t = ImageAsset) then Ok (hc_ImagePath conf)
      else if bool_decide (t = InitrdAsset) then Ok (hc_InitrdPath conf)
      else if bool_decide (t = HypervisorAsset) then Ok (hc_HypervisorPath conf)
      else if bool_decide (t = HypervisorCtlAsset) then Ok (hc_HypervisorCtlPath conf)
      else if bool_decide (t = JailerAsset) then Ok (hc_JailerPath conf)
      else if bool_decide (t = FirmwareAsset) then Ok (hc_FirmwarePath conf)
      else if bool_decide (t = FirmwareVolumeAsset) then Ok (hc_FirmwareVolumePath conf)
      else Err (Errorf "Unknown asset type %v")
  end.

Definition isCustomAsset (conf : HypervisorConfig) (t : AssetType) : bool :=
  bool_decide (is_Some (hc_customAssets conf !! t)).

Definition KernelAssetPath (conf : HypervisorConfig) : res string := assetPath conf KernelAsset.
Definition CustomKernelAsset (conf : HypervisorConfig) : bool := isCustomAsset conf KernelAsset.
Definition ImageAssetPath (conf : HypervisorConfig) : res string := assetPath conf ImageAsset.
Definition CustomImageAsset (conf : HypervisorConfig) : bool := isCustomAsset conf ImageAsset.
Definition InitrdAssetPath (conf : HypervisorConfig) : res string := assetPath conf InitrdAsset.
Definition CustomInitrdAsset (conf : HypervisorConfig) : bool := isCustomAsset conf InitrdAsset.
Definition HypervisorAssetPath (conf : HypervisorConfig) : res string := assetPath conf HypervisorAsset.
Definition IfPVPanicEnabled (conf : HypervisorConfig) : bool :=
  negb (bool_decide (hc_GuestMemoryDumpPath conf = "")).
Definition HypervisorCtlAssetPath (conf : HypervisorConfig) : res string := assetPath conf HypervisorCtlAsset.
Definition CustomHypervisorAsset (conf : HypervisorConfig) : bool := isCustomAsset conf HypervisorAsset.
Definition FirmwareAssetPath (conf : HypervisorConfig) : res string := assetPath conf FirmwareAsset.
Definition FirmwareVolumeAssetPath (conf : HypervisorConfig) : res string := assetPath conf FirmwareVolumeAsset.

(** ** Parameters *)

Definition appendParam (params : list Param) (parameter value : string) : list Param :=
  params ++ [mkParam parameter value].

Definition SerializeParams (params : list Param) (delim : string) : list string :=
  foldl (fun parameters p =>
    if bool_decide (Key p = "") && bool_decide (Value p = "") then parameters
    else if bool_decide (Key p = "") then parameters ++ [Value p]
    else if bool_decide (Value p = "") then parameters ++ [Key p]
    else if bool_decide (delim = "") then (parameters ++ [Key p]) ++ [Value p]
    else parameters ++ [Key p +:+ delim +:+ Value p]) [] params.

Definition DeserializeParams (parameters : list string) : list Param :=
  foldl (fun params param =>
    if bool_decide (param = "") then params
    else match SplitN2 "=" param with
         | [k; v] => params ++ [mkParam k v]
         | k :: _ => params ++ [mkParam k ""]
         | [] => params
         end) [] parameters.

(** ** Probing the host *)
Section Probes.
(** Opening and scanning a file: the lines delivered and the error at the end. *)
Context (scan : string -> res (list string * option error)).

(** The size of a [MemTotal:] line. *)
Definition memtotal (line : string) : option Z :=
  match Fields line with
  | name :: size :: unit_ :: _ =>
      if bool_decide (name = "MemTotal:") && bool_decide (unit_ = "kB") then
        match ParseUint0 size 64 with Ok n => Some n | Err _ => None end
      else None
  | _ => None
  end.

Fixpoint memtotal_go (lines : list string) : option Z :=
  match lines with
  | [] => None
  | l :: lines' => match memtotal l with Some n => Some n | None => memtotal_go lines' end
  end.

Definition GetHostMemorySizeKb (memInfoPath : string) : res Z :=
  f ← scan memInfoPath;
  match memtotal_go f.1, f.2 with
  | Some n, _ => Ok n
  | None, Some e => Err e
  | None, None => Err (Errorf "unable get MemTotal from %s")
  end.

(** An option is compared whole; with values, the parameter must be given one of them. *)
Definition cmdline_check (searchParam : string) (searchValues : list string) (field : string) : bool :=
  match searchValues with
  | [] => EqualFold field searchParam
  | _ =>
      match SplitN2 "=" field with
      | [k; v] => bool_decide (k = searchParam) && existsb (fun value => EqualFold value v) searchValues
      | _ => false
      end
  end.

(** An error of the scanner is not looked at. *)
Definition CheckCmdline (kernelCmdlinePath searchParam : string) (searchValues : list string) : res bool :=
  f ← scan kernelCmdlinePath;
  Ok (existsb (fun line => existsb (cmdline_check searchParam searchValues) (Fields line)) f.1).

(** The first line whose first field starts with "flags". *)
Fixpoint cpuflags_go (lines : list string) : option (list string) :=
  match lines with
  | [] => None
  | l :: lines' =>
      match Fields l with
      | name :: (_ :: _) as flags =>
          if HasPrefix name "flags" then Some (tail flags) else cpuflags_go lines'
      | _ => cpuflags_go lines'
      end
  end.

Definition CPUFlags (cpuInfoPath : string) : res (gset string) :=
  f ← scan cpuInfoPath;
  match cpuflags_go f.1, f.2 with
  | Some flags, _ => Ok (list_to_set flags)
  | None, Some e => Err e
  | None, None => Err (Errorf "Couldn't find %q from %q output")
  end.

(** On amd64. *)
Definition RunningOnVMM (cpuInfoPath : string) : res bool :=
  flags ← CPUFlags cpuInfoPath;
  Ok (bool_decide ("hypervisor" ∈ flags)).
End Probes.

Definition GetHypervisorPid (pids : list Z) : Z :=
  match pids with [] => 0 | pid :: _ => pid end.

(** ** Validation *)

(** What a configuration must say before the defaults are filled in. *)
Definition secure_execution (conf : HypervisorConfig) : Prop :=
  hc_ConfidentialGuest conf = true /\ hc_HypervisorMachineType conf = QemuCCWVirtio.

Definition images_ok (conf : HypervisorConfig) : Prop :=
  (secure_execution conf -> hc_ImagePath conf = "" /\ hc_InitrdPath conf = "") /\
  (~ secure_execution conf -> (hc_ImagePath conf = "" <-> hc_InitrdPath conf <> "")).

Definition template_ok (conf : HypervisorConfig) : Prop :=
  ~ (hc_BootToBeTemplate conf = true /\ hc_BootFromTemplate conf = true) /\
  (hc_BootToBeTemplate conf = true \/ hc_BootFromTemplate conf = true -> hc_MemoryPath conf <> "") /\
  (hc_BootFromTemplate conf = true -> hc_DevicesStatePath conf <> "").

Lemma image_check_ok conf : image_check conf = Ok tt <-> images_ok conf.
Proof.
  unfold image_check, images_ok, secure_execution.
  destruct (hc_ConfidentialGuest conf);
    repeat (case_bool_decide; simpl); naive_solver.
Qed.

Lemma CheckTemplateConfig_ok conf : CheckTemplateConfig conf = Ok tt <-> template_ok conf.
Proof.
  unfold CheckTemplateConfig, template_ok.
  destruct (hc_BootToBeTemplate conf), (hc_BootFromTemplate conf);
    repeat (case_bool_decide; simpl); naive_solver.
Qed.

(** The defaults touch neither what is checked nor, a second time, anything. *)
Lemma apply_defaults_checks conf :
  hc_KernelPath (apply_defaults conf) = hc_KernelPath conf /\
  image_check (apply_defaults conf) = image_check conf /\
  CheckTemplateConfig (apply_defaults conf) = CheckTemplateConfig conf.
Proof. by split_and!. Qed.

Ltac no_if t := lazymatch t with context [if _ then _ else _] => fail | _ => idtac end.
(** Case analysis on the tests, innermost first. *)
Ltac cases_eqb :=
  repeat match goal with
  | |- context [Z.eqb ?a ?b] => no_if a; no_if b; destruct (Z.eqb_spec a b); simpl
  | |- context [Z.ltb ?a ?b] => no_if a; no_if b; destruct (Z.ltb_spec a b); simpl
  | |- context [bool_decide ?P] => no_if P; case_bool_decide; simpl
  end.

Lemma or_default_idem d n : d <> 0 -> or_default d (or_default d n) = or_default d n.
Proof. unfold or_default. intros. cases_eqb; simpl in *; lia. Qed.

Lemma block_driver_idem m d : block_driver m (block_driver m d) = block_driver m d.
Proof. unfold block_driver. cases_eqb; simpl in *; done. Qed.

Lemma max_vcpus_idem c k n : max_vcpus c k (max_vcpus c k n) = max_vcpus c k n.
Proof. unfold max_vcpus, defaultMaxVCPUs. destruct c; cases_eqb; simpl in *; lia. Qed.

Lemma msize_idem fs n : msize fs (msize fs n) = msize fs n.
Proof. unfold msize, defaultMsize9p. cases_eqb; simpl in *; done. Qed.

Lemma apply_defaults_idem conf : apply_defaults (apply_defaults conf) = apply_defaults conf.
Proof.
  unfold apply_defaults. simpl.
  rw !or_default_idem; try done. by rw block_driver_idem max_vcpus_idem msize_idem.
Qed.

Lemma or_default_nonzero d n : d <> 0 -> or_default d n <> 0.
Proof. unfold or_default. intros. cases_eqb; lia. Qed.

Lemma apply_defaults_fields conf :
  let conf' := apply_defaults conf in
  hc_KernelPath conf' = hc_KernelPath conf /\ hc_ImagePath conf' = hc_ImagePath conf /\
  hc_InitrdPath conf' = hc_InitrdPath conf /\
  hc_NumVCPUs conf' = or_default defaultVCPUs (hc_NumVCPUs conf) /\
  hc_MemorySize conf' = or_default defaultMemSzMiB (hc_MemorySize conf) /\
  hc_DefaultBridges conf' = or_default defaultBridges (hc_DefaultBridges conf) /\
  hc_BlockDeviceDriver conf' = block_driver (hc_HypervisorMachineType conf) (hc_BlockDeviceDriver conf) /\
  hc_DefaultMaxVCPUs conf' =
    max_vcpus (hc_ConfidentialGuest conf) (or_default defaultVCPUs (hc_NumVCPUs conf)) (hc_DefaultMaxVCPUs conf).
Proof. by split_and!. Qed.

Lemma Valid_cases conf :
  let ok := hc_KernelPath conf <> "" /\ images_ok conf /\ template_ok conf in
  (ok /\ Valid conf = (Ok tt, apply_defaults conf)) \/
  (~ ok /\ exists e, Valid conf = (Err e, conf)).
Proof.
  simpl. rw -image_check_ok -CheckTemplateConfig_ok. unfold Valid. munfold.
  case_bool_decide as Hk; [right; split; [naive_solver|eauto]|].
  destruct (image_check conf) as [[]|e]; [|right; split; [naive_solver|eauto]].
  destruct (CheckTemplateConfig conf) as [[]|e]; [by left|right; split; [naive_solver|eauto]].
Qed.

(** [Valid] accepts a configuration exactly when it names a kernel, one of
    image and initrd (neither under IBM Secure Execution), and consistent
    template settings.  A rejected configuration is left unchanged.  An
    accepted one keeps its paths, gets nonzero vCPUs, memory and bridges and a
    block driver, at most [defaultMaxVCPUs] as its limit unless it is a
    confidential guest, which is pinned to its own number of vCPUs, and is
    accepted again without any change. *)
Theorem Valid_spec conf :
  match Valid conf with
  | (Ok _, conf') =>
      hc_KernelPath conf <> "" /\ images_ok conf /\ template_ok conf /\
      hc_KernelPath conf' = hc_KernelPath conf /\ hc_ImagePath conf' = hc_ImagePath conf /\
      hc_InitrdPath conf' = hc_InitrdPath conf /\
      hc_NumVCPUs conf' <> 0 /\ hc_MemorySize conf' <> 0 /\ hc_DefaultBridges conf' <> 0 /\
      hc_BlockDeviceDriver conf' <> "" /\
      (hc_ConfidentialGuest conf = true -> hc_DefaultMaxVCPUs conf' = hc_NumVCPUs conf') /\
      (hc_ConfidentialGuest conf = false -> hc_DefaultMaxVCPUs conf' <= defaultMaxVCPUs) /\
      Valid conf' = (Ok tt, conf')
  | (Err _, conf') =>
      conf' = conf /\ ~ (hc_KernelPath conf <> "" /\ images_ok conf /\ template_ok conf)
  end.
Proof.
  destruct (Valid_cases conf) as [[(Hk & Hi & Ht) E]|[Hno [e E]]]; rw E; [|done].
  assert (Hagain : Valid (apply_defaults conf) = (Ok tt, apply_defaults conf)).
  { destruct (apply_defaults_checks conf) as (Hk' & Hi' & Ht').
    unfold Valid. munfold. rw Hk' Hi' Ht' bool_decide_eq_false_2 //.
    by rw (proj2 (image_check_ok conf) Hi) (proj2 (CheckTemplateConfig_ok conf) Ht) apply_defaults_idem. }
  destruct (apply_defaults_fields conf) as (-> & -> & -> & -> & -> & -> & -> & ->).
  split_and!; try done.
  - by apply or_default_nonzero.
  - by apply or_default_nonzero.
  - by apply or_default_nonzero.
  - unfold block_driver. cases_eqb; done.
  - intros ->. unfold max_vcpus. simpl. cases_eqb; congruence || lia.
  - intros ->. unfold max_vcpus, defaultMaxVCPUs. simpl. cases_eqb; lia.
Qed.

(** ** Parameters *)

(** A parameter whose text form can be read back. *)
Definition param_ok (p : Param) : Prop := Key p <> "" /\ str_mem "=" (Key p) = false.

Definition param_text (p : Param) : string :=
  if bool_decide (Value p = "") then Key p else Key p +:+ "=" +:+ Value p.

Lemma SerializeParams_text params :
  Forall (fun p => Key p <> "") params -> SerializeParams params "=" = param_text <$> params.
Proof.
  intros Hk. unfold SerializeParams. rw (foldl_append _ (fun p => [param_text p])).
  - eapply Forall_impl; [done|]. intros p Hp acc. unfold param_text.
    rw (bool_decide_eq_false_2 (Key p = "")) //. simpl. by case_bool_decide.
  - clear. induction params; simpl; by f_equal.
Qed.

Lemma param_text_split p : param_ok p ->
  param_text p <> "" /\
  SplitN2 "=" (param_text p) = if bool_decide (Value p = "") then [Key p] else [Key p; Value p].
Proof.
  intros [Hne Hno]. unfold param_text. case_bool_decide; [by rw SplitN2_no_sep|].
  rw SplitN2_app //. split; [|done]. by destruct (Key p).
Qed.

(** Serialising parameters with the delimiter "=" and deserialising the
    result gives the parameters back, when every key is nonempty and free of
    "=" (a value may contain it, or be empty). *)
Theorem Params_roundtrip params :
  Forall param_ok params -> DeserializeParams (SerializeParams params "=") = params.
Proof.
  intros Hok. rw SerializeParams_text; [by eapply Forall_impl; [done|]; intros p [? _]|].
  unfold DeserializeParams.
  rw (foldl_append _ (fun s => match SplitN2 "=" s with [k; v] => [mkParam k v] | k :: _ => [mkParam k ""] | [] => [] end)).
  - apply Forall_fmap. eapply Forall_impl; [exact Hok|]. intros p Hp acc. simpl.
    destruct (param_text_split p Hp) as [Hne ->]. rw bool_decide_eq_false_2 //. by case_bool_decide.
  - simpl. induction Hok as [|p params Hp _ IH]; [done|]. simpl.
    destruct (param_text_split p Hp) as [_ ->]. destruct p as [k v]. simpl.
    case_bool_decide; subst; simpl; f_equal; exact IH.
Qed.

Lemma Params_roundtrip_witness :
  DeserializeParams (SerializeParams
    [mkParam "quiet" ""; mkParam "root" "/dev/vda1"; mkParam "opt" "a=b"] "=") =
  [mkParam "quiet" ""; mkParam "root" "/dev/vda1"; mkParam "opt" "a=b"].
Proof. apply Params_roundtrip. repeat constructor; done. Defined.

(** A custom asset that is accepted is the one served for its type from
    then on, whatever the configured path says, and no other type is affected;
    a nil asset or one without a path changes nothing, and a relative path or
    an unknown type is refused. *)
Theorem AddCustomAsset_spec a conf :
  match AddCustomAsset (Some a) conf with
  | (Ok _, conf') =>
      (forall t, t <> as_kind a -> assetPath conf' t = assetPath conf t /\ isCustomAsset conf' t = isCustomAsset conf t) /\
      (as_path a = "" -> conf' = conf) /\
      (as_path a <> "" -> Asset_Valid a = true /\ assetPath conf' (as_kind a) = Ok (as_path a) /\
                          isCustomAsset conf' (as_kind a) = true)
  | (Err _, conf') => conf' = conf /\ as_path a <> "" /\ Asset_Valid a = false
  end /\ AddCustomAsset None conf = (Ok tt, conf).
Proof.
  split; [|done]. unfold AddCustomAsset. munfold. case_bool_decide as Hp; [by split_and!|].
  destruct (Asset_Valid a) eqn:Hv; simpl; [|done]. split_and!; [|done|intros _].
  - intros t Ht. unfold assetPath, isCustomAsset. simpl. by rw lookup_insert_ne.
  - unfold assetPath, isCustomAsset. simpl. rw lookup_insert_eq. by split_and!.
Qed.

End HypervisorConf.
