(* ===== verification/State.v ===== *)
(** * The state of a sandbox

    The objects [virtcontainers] keeps for a sandbox and its containers
    ([sandbox.go], [container.go], [mount.go]) and the interfaces it calls: the
    hypervisor, the agent, the filesystem sharing, the resource controllers and
    the persistent store, as classes over one outside world [W].

    Go shares objects through pointers, and the code relies on it: a container
    points at its configuration inside the slice [config.Containers], and a
    configuration points at its CPU and memory limits.  The memory [Mem] holds
    these objects; a slice is an array with a length, and [append] writes in
    place while the capacity lasts. *)
From S2P Require Import Prelude GoStr Types Devices DeviceManager Hypervisor.
Import Types.Lifecycle Types.Volumes Devices.Config Devices.Drivers DeviceManager.DeviceManager.
Import HypervisorConf.

Module State.

(** ** Descriptions *)

Record Mount := mkMount {
  mt_Source : string;
  mt_Destination : string;
  mt_Type : string;
  mt_HostPath : string;
  mt_GuestDeviceMount : string;
  mt_BlockDeviceID : string;
  mt_Options : list string;
  mt_ReadOnly : bool;
}.
#[global] Instance Mount_eta : Eta Mount := fun r => mkMount (mt_Source r) (mt_Destination r) (mt_Type r)
  (mt_HostPath r) (mt_GuestDeviceMount r) (mt_BlockDeviceID r) (mt_Options r) (mt_ReadOnly r).

Record Process := mkProcess { pr_Token : string; pr_StartTime : Z; pr_Pid : Z }.

Record RootFs := mkRootFs {
  rf_Source : string;
  rf_Target : string;
  rf_Type : string;
  rf_Options : list string;
  rf_Mounted : bool;
}.
#[global] Instance RootFs_eta : Eta RootFs := fun r =>
  mkRootFs (rf_Source r) (rf_Target r) (rf_Type r) (rf_Options r) (rf_Mounted r).

Record ContainerDevice := mkContainerDevice {
  cd_ID : string;
  cd_ContainerPath : string;
  cd_FileMode : Z;
  cd_UID : Z;
  cd_GID : Z;
}.

(** The resource limits of the OCI specification that the sandbox reads. *)
Record LinuxCPU := mkLinuxCPU {
  cpu_Quota : option Z;
  cpu_Period : option Z;
  cpu_Cpus : string;
  cpu_Mems : string;
}.
#[global] Instance LinuxCPU_eta : Eta LinuxCPU := fun r =>
  mkLinuxCPU (cpu_Quota r) (cpu_Period r) (cpu_Cpus r) (cpu_Mems r).

Record LinuxMemory := mkLinuxMemory {
  mem_Limit : option Z;
  mem_Swap : option Z;
  mem_Swappiness : option Z;
}.
#[global] Instance LinuxMemory_eta : Eta LinuxMemory := fun r =>
  mkLinuxMemory (mem_Limit r) (mem_Swap r) (mem_Swappiness r).

(** [specs.LinuxResources] holds pointers to the CPU and memory limits; the
    hugepage limits are the sizes in bytes. *)
Record Resources := mkResources {
  rs_CPU : option nat;
  rs_Memory : option nat;
  rs_HugepageLimits : list Z;
}.
#[global] Instance Resources_eta : Eta Resources := fun r =>
  mkResources (rs_CPU r) (rs_Memory r) (rs_HugepageLimits r).

(** The command of a container. *)
Record EnvVar := mkEnvVar { ev_Var : string; ev_Value : string }.

Record LinuxCapabilities := mkLinuxCapabilities {
  lc_Bounding : list string;
  lc_Effective : list string;
  lc_Inheritable : list string;
  lc_Permitted : list string;
  lc_Ambient : list string;
}.

Record Cmd := mkCmd {
  cmd_Capabilities : option LinuxCapabilities;
  cmd_User : string;
  cmd_PrimaryGroup : string;
  cmd_WorkDir : string;
  cmd_Console : string;
  cmd_Args : list string;
  cmd_Envs : list EnvVar;
  cmd_SupplementaryGroups : list string;
  cmd_Interactive : bool;
  cmd_Detach : bool;
  cmd_NoNewPrivileges : bool;
}.

Definition Cmd_zero : Cmd := mkCmd None "" "" "" "" [] [] [] false false false.

(** [cc_CustomSpec]: whether an OCI specification is attached. *)
Record ContainerConfig := mkContainerConfig {
  cc_ID : string;
  cc_Annotations : gmap string string;
  cc_RootFs : RootFs;
  cc_Mounts : list Mount;
  cc_DeviceInfos : list DeviceInfo;
  cc_Resources : Resources;
  cc_CustomSpec : bool;
  cc_Cmd : Cmd;
  cc_ReadonlyRootfs : bool;
}.
#[global] Instance ContainerConfig_eta : Eta ContainerConfig := fun r =>
  mkContainerConfig (cc_ID r) (cc_Annotations r) (cc_RootFs r) (cc_Mounts r) (cc_DeviceInfos r)
    (cc_Resources r) (cc_CustomSpec r) (cc_Cmd r) (cc_ReadonlyRootfs r).

Definition ContainerConfig_valid (c : ContainerConfig) : bool := negb (bool_decide (cc_ID c = "")).

(** What unmapped memory reads as; no live pointer ever sees it. *)
Definition config_zero : ContainerConfig :=
  mkContainerConfig "" ∅ (mkRootFs "" "" "" [] false) [] [] (mkResources None None []) false Cmd_zero
    false.

(** ** Objects *)

(** A pointer into an array. *)
Definition ptr : Type := nat * nat.

Record Slice := mkSlice { sl_array : nat; sl_len : nat }.

Record Container := mkContainer {
  c_id : string;
  c_sandboxID : string;
  c_config : ptr;
  c_containerPath : string;
  c_rootfsSuffix : string;
  c_mounts : list Mount;
  c_devices : list ContainerDevice;
  c_state : ContainerState;
  c_process : Process;
  c_rootFs : RootFs;
  c_BindMountDev : bool;
}.
#[global] Instance Container_eta : Eta Container := fun r =>
  mkContainer (c_id r) (c_sandboxID r) (c_config r) (c_containerPath r) (c_rootfsSuffix r) (c_mounts r)
    (c_devices r) (c_state r) (c_process r) (c_rootFs r) (c_BindMountDev r).

#[global] Instance ContainerState_eta : Eta ContainerState := fun r =>
  mkContainerState (cs_State r) (cs_BlockDeviceID r) (cs_Fstype r) (cs_CgroupPath r).

#[global] Instance SandboxState_eta : Eta SandboxState := fun r =>
  mkSandboxState (ss_BlockIndexMap r) (ss_CgroupPaths r) (ss_State r) (ss_SandboxCgroupPath r)
    (ss_OverheadCgroupPath r) (ss_PersistVersion r) (ss_GuestMemoryBlockSizeMB r)
    (ss_GuestMemoryHotplugProbe r).

Definition container_zero : Container :=
  mkContainer "" "" (0%nat, 0%nat) "" "" [] [] (mkContainerState "" "" "" "") (mkProcess "" 0 0)
    (mkRootFs "" "" "" [] false) false.

(** Arrays of configurations, limits and containers by address; [m_next] is the
    next unused address. *)
Record Mem := mkMem {
  m_arrays : gmap nat (list ContainerConfig);
  m_cpus : gmap nat LinuxCPU;
  m_mems : gmap nat LinuxMemory;
  m_conts : gmap nat Container;
  m_next : nat;
}.
#[global] Instance Mem_eta : Eta Mem := fun r =>
  mkMem (m_arrays r) (m_cpus r) (m_mems r) (m_conts r) (m_next r).

Record NetworkConfig := mkNetworkConfig {
  nc_NetworkID : string;
  nc_InterworkingModel : Z;
  nc_NetworkCreated : bool;
  nc_DisableNewNetwork : bool;
}.

Record KataAgentConfig := mkKataAgentConfig {
  ka_KernelModules : list string;
  ka_ContainerPipeSize : Z;
  ka_DialTimeout : Z;
  ka_LongLiveConn : bool;
  ka_Debug : bool;
  ka_Trace : bool;
  ka_EnableDebugConsole : bool;
}.

Record SandboxResourceSizing := mkSandboxResourceSizing {
  sz_WorkloadCPUs : Z;
  sz_BaseCPUs : Z;
  sz_WorkloadMemMB : Z;
  sz_BaseMemMB : Z;
}.
#[global] Instance SandboxResourceSizing_eta : Eta SandboxResourceSizing := fun r =>
  mkSandboxResourceSizing (sz_WorkloadCPUs r) (sz_BaseCPUs r) (sz_WorkloadMemMB r) (sz_BaseMemMB r).

(** Experimental features by name. *)
Record SandboxConfig := mkSandboxConfig {
  sc_Containers : Slice;
  sc_SandboxBindMounts : list string;
  sc_Experimental : list string;
  sc_Annotations : gmap string string;
  sc_ID : string;
  sc_Hostname : string;
  sc_HypervisorType : HypervisorType;
  sc_AgentConfig : KataAgentConfig;
  sc_NetworkConfig : NetworkConfig;
  sc_HypervisorConfig : HypervisorConfig;
  sc_StaticResourceMgmt : bool;
  sc_ShmSize : Z;
  sc_VfioMode : VFIOModeType;
  sc_SharePidNs : bool;
  sc_SystemdCgroup : bool;
  sc_SandboxCgroupOnly : bool;
  sc_DisableGuestSeccomp : bool;
  sc_Volumes : list Volume;
  sc_SandboxResources : SandboxResourceSizing;
}.
#[global] Instance SandboxConfig_eta : Eta SandboxConfig := fun r =>
  mkSandboxConfig (sc_Containers r) (sc_SandboxBindMounts r) (sc_Experimental r) (sc_Annotations r)
    (sc_ID r) (sc_Hostname r) (sc_HypervisorType r) (sc_AgentConfig r) (sc_NetworkConfig r)
    (sc_HypervisorConfig r) (sc_StaticResourceMgmt r) (sc_ShmSize r) (sc_VfioMode r) (sc_SharePidNs r)
    (sc_SystemdCgroup r) (sc_SandboxCgroupOnly r) (sc_DisableGuestSeccomp r)
    (sc_Volumes r) (sc_SandboxResources r).

(** [Sandbox] without its device manager, which the methods reach through
    [World].  [sb_controller] and [sb_overhead] tell whether the resource
    controllers are set; [sb_containers] maps an identifier to the address of
    its container; [sb_env] is the world outside. *)
Record Sandbox (W : Type) := mkSandbox {
  sb_id : string;
  sb_config : SandboxConfig;
  sb_mem : Mem;
  sb_containers : gmap string nat;
  sb_state : SandboxState;
  sb_swapDevices : list BlockDrive;
  sb_swapSizeBytes : Z;
  sb_swapDeviceNum : Z;
  sb_controller : bool;
  sb_overhead : bool;
  sb_monitor : bool;
  sb_cw : bool;
  sb_disableVMShutdown : bool;
  sb_env : W;
}.
Arguments mkSandbox {W}.
Arguments sb_id {W} _.
Arguments sb_config {W} _.
Arguments sb_mem {W} _.
Arguments sb_containers {W} _.
Arguments sb_state {W} _.
Arguments sb_swapDevices {W} _.
Arguments sb_swapSizeBytes {W} _.
Arguments sb_swapDeviceNum {W} _.
Arguments sb_controller {W} _.
Arguments sb_overhead {W} _.
Arguments sb_monitor {W} _.
Arguments sb_cw {W} _.
Arguments sb_disableVMShutdown {W} _.
Arguments sb_env {W} _.
#[global] Instance Sandbox_eta W : Eta (Sandbox W) := fun r =>
  mkSandbox (sb_id r) (sb_config r) (sb_mem r) (sb_containers r) (sb_state r) (sb_swapDevices r)
    (sb_swapSizeBytes r) (sb_swapDeviceNum r) (sb_controller r) (sb_overhead r) (sb_monitor r) (sb_cw r)
    (sb_disableVMShutdown r) (sb_env r).

Definition mem_zero : Mem := mkMem ∅ ∅ ∅ ∅ 0.

(** A configuration with everything at its zero value. *)
Definition SandboxConfig_zero : SandboxConfig :=
  mkSandboxConfig (mkSlice 0 0) [] [] ∅ "" "" "" (mkKataAgentConfig [] 0 0 false false false false)
    (mkNetworkConfig "" 0 false false) HypervisorConfig_zero false 0 VFIOModeVFIO false false false false
    [] (mkSandboxResourceSizing 0 0 0 0).

(** The sandbox [newSandbox] builds in memory, before anything is restored. *)
Definition Sandbox_init {W} (id : string) (config : SandboxConfig) (m : Mem) (env : W) : Sandbox W :=
  mkSandbox id config m ∅ (mkSandboxState ∅ ∅ "" "" "" 0 0 false) [] 0 0 false false false false false env.

(** ** Memory *)

(** How [append] grows an array: to at least the length needed. *)
Class GoAppend : Type := {
  grow : nat -> nat -> nat;
  grow_enough : forall cap needed, (needed <= grow cap needed)%nat;
}.

(** Doubling, as the Go runtime does for short slices. *)
Definition grow_double : GoAppend :=
  {| grow := fun cap needed => Nat.max needed (2 * cap);
     grow_enough := fun cap needed => Nat.le_max_l needed (2 * cap) |}.

Definition array_at (m : Mem) (a : nat) : list ContainerConfig := default [] (m_arrays m !! a).

Definition config_at (m : Mem) (p : ptr) : ContainerConfig := default config_zero (array_at m p.1 !! p.2).

Definition set_config (p : ptr) (c : ContainerConfig) (m : Mem) : Mem :=
  m <| m_arrays := <[p.1 := <[p.2 := c]> (array_at m p.1)]> (m_arrays m) |>.

Definition slice_list (m : Mem) (s : Slice) : list ContainerConfig := take (sl_len s) (array_at m (sl_array s)).

Definition cont_at (m : Mem) (l : nat) : Container := default container_zero (m_conts m !! l).
Definition set_cont (l : nat) (c : Container) (m : Mem) : Mem := m <| m_conts := <[l := c]> (m_conts m) |>.

(** [&T{...}]: a new object, at the next unused address. *)
Definition alloc_cpu (c : LinuxCPU) (m : Mem) : Mem :=
  m <| m_cpus := <[m_next m := c]> (m_cpus m) |> <| m_next := S (m_next m) |>.
Definition alloc_memory (c : LinuxMemory) (m : Mem) : Mem :=
  m <| m_mems := <[m_next m := c]> (m_mems m) |> <| m_next := S (m_next m) |>.
Definition alloc_cont (c : Container) (m : Mem) : Mem :=
  m <| m_conts := <[m_next m := c]> (m_conts m) |> <| m_next := S (m_next m) |>.

(** [append(s, c)]. *)
Definition append_config `{GoAppend} (c : ContainerConfig) (m : Mem) (s : Slice) : Mem * Slice :=
  let a := array_at m (sl_array s) in
  let n := sl_len s in
  if (n <? length a)%nat then
    (m <| m_arrays := <[sl_array s := <[n := c]> a]> (m_arrays m) |>, mkSlice (sl_array s) (S n))
  else
    let cap := grow (length a) (S n) in
    (m <| m_arrays := <[m_next m := take n a ++ c :: replicate (cap - S n) config_zero]> (m_arrays m) |>
       <| m_next := S (m_next m) |>, mkSlice (m_next m) (S n)).

(** [append(s[:i], s[i+1:]...)], which moves the tail down in place. *)
Definition delete_config (i : nat) (m : Mem) (s : Slice) : Mem * Slice :=
  let a := array_at m (sl_array s) in
  let n := sl_len s in
  let a' := take i a ++ drop (S i) (take n a) ++ drop (n - 1) a in
  (m <| m_arrays := <[sl_array s := a']> (m_arrays m) |>, mkSlice (sl_array s) (n - 1)).

(** The limits a configuration points at. *)
Definition cpu_of (m : Mem) (c : ContainerConfig) : option LinuxCPU := rs_CPU (cc_Resources c) ≫= (m_cpus m !!.).
Definition memory_of (m : Mem) (c : ContainerConfig) : option LinuxMemory :=
  rs_Memory (cc_Resources c) ≫= (m_mems m !!.).

End State.
