(* ===== verification/Persist.v ===== *)
(** * virtcontainers/persist.go and persist/api

    What a sandbox writes to disk and reads back.  The [dump] functions build
    the persisted records from the sandbox, the [load] functions fill a sandbox
    from them; the JSON encoding and the files are the store's, a parameter of
    the callers.  The endpoints of the network are not modelled. *)
From S2P Require Import Prelude GoStr Types Devices DeviceManager Hypervisor State.
Import Types.Lifecycle Devices.Config Devices.Drivers Devices.DriversSpec DeviceManager.DeviceManager.
Import HypervisorConf State.

Module Persist.

Definition CurPersistVersion : Z := 2.

(** ** persist/api *)

Record DeviceMap := mkDeviceMap {
  dv_ID : string;
  dv_ContainerPath : string;
  dv_FileMode : Z;
  dv_UID : Z;
  dv_GID : Z;
}.

Record PMount := mkPMount {
  pm_Source : string;
  pm_Destination : string;
  pm_Type : string;
  pm_HostPath : string;
  pm_BlockDeviceID : string;
  pm_Options : list string;
  pm_ReadOnly : bool;
}.

Record RootfsState := mkRootfsState { rfs_BlockDeviceID : string; rfs_FsType : string }.

Record PProcess := mkPProcess { pp_StartTime : Z; pp_Token : string; pp_Pid : Z }.

(** [ContainerState]; the bundle path is never written. *)
Record PContainerState := mkPContainerState {
  pc_State : string;
  pc_CgroupPath : string;
  pc_Rootfs : RootfsState;
  pc_Process : PProcess;
  pc_DeviceMaps : list DeviceMap;
  pc_Mounts : list PMount;
}.
#[global] Instance PContainerState_eta : Eta PContainerState := fun r =>
  mkPContainerState (pc_State r) (pc_CgroupPath r) (pc_Rootfs r) (pc_Process r) (pc_DeviceMaps r) (pc_Mounts r).

Definition pcont_zero : PContainerState :=
  mkPContainerState "" "" (mkRootfsState "" "") (mkPProcess 0 "" 0) [] [].

(** [persistapi.HypervisorConfig] *)
Record PHypervisorConfig := mkPHypervisorConfig {
  ph_KernelPath : string;
  ph_ImagePath : string;
  ph_InitrdPath : string;
  ph_FirmwarePath : string;
  ph_MachineAccelerators : string;
  ph_CPUFeatures : string;
  ph_HypervisorPath : string;
  ph_HypervisorCtlPath : string;
  ph_JailerPath : string;
  ph_BlockDeviceDriver : string;
  ph_HypervisorMachineType : string;
  ph_MemoryPath : string;
  ph_DevicesStatePath : string;
  ph_EntropySource : string;
  ph_SharedFS : string;
  ph_VirtioFSDaemon : string;
  ph_VirtioFSCache : string;
  ph_FileBackedMemRootDir : string;
  ph_VhostUserStorePath : string;
  ph_GuestHookPath : string;
  ph_VMid : string;
  ph_HypervisorPathList : list string;
  ph_HypervisorCtlPathList : list string;
  ph_JailerPathList : list string;
  ph_EntropySourceList : list string;
  ph_VirtioFSDaemonList : list string;
  ph_VirtioFSExtraArgs : list string;
  ph_FileBackedMemRootList : list string;
  ph_VhostUserStorePathList : list string;
  ph_EnableAnnotations : list string;
  ph_MemOffset : Z;
  ph_RxRateLimiterMaxRate : Z;
  ph_TxRateLimiterMaxRate : Z;
  ph_SGXEPCSize : Z;
  ph_PCIeRootPort : Z;
  ph_NumVCPUs : Z;
  ph_DefaultMaxVCPUs : Z;
  ph_MemorySize : Z;
  ph_DefaultBridges : Z;
  ph_Msize9p : Z;
  ph_MemSlots : Z;
  ph_VirtioFSCacheSize : Z;
  ph_BlockDeviceCacheSet : bool;
  ph_BlockDeviceCacheDirect : bool;
  ph_BlockDeviceCacheNoflush : bool;
  ph_DisableBlockDeviceUse : bool;
  ph_EnableIOThreads : bool;
  ph_Debug : bool;
  ph_MemPrealloc : bool;
  ph_HugePages : bool;
  ph_VirtioMem : bool;
  ph_DisableNestingChecks : bool;
  ph_DisableImageNvdimm : bool;
  ph_HotplugVFIOOnRootBus : bool;
  ph_BootToBeTemplate : bool;
  ph_BootFromTemplate : bool;
  ph_DisableVhostNet : bool;
  ph_EnableVhostUserStore : bool;
}.

#[global] Instance PHypervisorConfig_eta : Eta PHypervisorConfig := fun r => mkPHypervisorConfig
    (ph_KernelPath r) (ph_ImagePath r) (ph_InitrdPath r) (ph_FirmwarePath r)
    (ph_MachineAccelerators r) (ph_CPUFeatures r) (ph_HypervisorPath r) (ph_HypervisorCtlPath r)
    (ph_JailerPath r) (ph_BlockDeviceDriver r) (ph_HypervisorMachineType r) (ph_MemoryPath r)
    (ph_DevicesStatePath r) (ph_EntropySource r) (ph_SharedFS r) (ph_VirtioFSDaemon r)
    (ph_VirtioFSCache r) (ph_FileBackedMemRootDir r) (ph_VhostUserStorePath r)
    (ph_GuestHookPath r) (ph_VMid r) (ph_HypervisorPathList r) (ph_HypervisorCtlPathList r)
    (ph_JailerPathList r) (ph_EntropySourceList r) (ph_VirtioFSDaemonList r)
    (ph_VirtioFSExtraArgs r) (ph_FileBackedMemRootList r) (ph_VhostUserStorePathList r)
    (ph_EnableAnnotations r) (ph_MemOffset r) (ph_RxRateLimiterMaxRate r)
    (ph_TxRateLimiterMaxRate r) (ph_SGXEPCSize r) (ph_PCIeRootPort r) (ph_NumVCPUs r)
    (ph_DefaultMaxVCPUs r) (ph_MemorySize r) (ph_DefaultBridges r) (ph_Msize9p r) (ph_MemSlots r)
    (ph_VirtioFSCacheSize r) (ph_BlockDeviceCacheSet r) (ph_BlockDeviceCacheDirect r)
    (ph_BlockDeviceCacheNoflush r) (ph_DisableBlockDeviceUse r) (ph_EnableIOThreads r)
    (ph_Debug r) (ph_MemPrealloc r) (ph_HugePages r) (ph_VirtioMem r) (ph_DisableNestingChecks r)
    (ph_DisableImageNvdimm r) (ph_HotplugVFIOOnRootBus r) (ph_BootToBeTemplate r)
    (ph_BootFromTemplate r) (ph_DisableVhostNet r) (ph_EnableVhostUserStore r).

Record PNetworkConfig := mkPNetworkConfig {
  pn_NetworkID : string;
  pn_NetworkCreated : bool;
  pn_DisableNewNetwork : bool;
  pn_InterworkingModel : Z;
}.

(** The limits are written out, not pointed at. *)
Record PResources := mkPResources {
  pr_CPU : option LinuxCPU;
  pr_Memory : option LinuxMemory;
  pr_HugepageLimits : list Z;
}.

Record PContainerConfig := mkPContainerConfig {
  pcc_Annotations : gmap string string;
  pcc_Resources : PResources;
  pcc_ID : string;
  pcc_RootFs : string;
}.

Record PSandboxConfig := mkPSandboxConfig {
  psc_ContainerConfigs : list PContainerConfig;
  psc_SandboxBindMounts : list string;
  psc_Experimental : list string;
  psc_LongLiveConn : bool;
  psc_HypervisorType : string;
  psc_NetworkConfig : PNetworkConfig;
  psc_HypervisorConfig : PHypervisorConfig;
  psc_ShmSize : Z;
  psc_SharePidNs : bool;
  psc_SystemdCgroup : bool;
  psc_SandboxCgroupOnly : bool;
  psc_DisableGuestSeccomp : bool;
}.

(** [hypervisors.HypervisorState]: the block indexes and what the hypervisor
    itself saved. *)
Record HypervisorState (H : Type) := mkHypervisorState { hs_BlockIndexMap : gset Z; hs_rest : H }.
Arguments mkHypervisorState {H} _ _.
Arguments hs_BlockIndexMap {H} _.
Arguments hs_rest {H} _.

(** [SandboxState]; [H] is the hypervisor's part, [AgentURL] the agent's. *)
Record PSandboxState (H : Type) := mkPSandboxState {
  ps_Devices : list DeviceState;
  ps_State : string;
  ps_SandboxContainer : string;
  ps_SandboxCgroupPath : string;
  ps_OverheadCgroupPath : string;
  ps_HypervisorState : HypervisorState H;
  ps_AgentURL : string;
  ps_Config : PSandboxConfig;
  ps_PersistVersion : Z;
  ps_GuestMemoryBlockSizeMB : Z;
  ps_GuestMemoryHotplugProbe : bool;
}.
Arguments mkPSandboxState {H}.
Arguments ps_Devices {H} _.
Arguments ps_State {H} _.
Arguments ps_SandboxContainer {H} _.
Arguments ps_SandboxCgroupPath {H} _.
Arguments ps_OverheadCgroupPath {H} _.
Arguments ps_HypervisorState {H} _.
Arguments ps_AgentURL {H} _.
Arguments ps_Config {H} _.
Arguments ps_PersistVersion {H} _.
Arguments ps_GuestMemoryBlockSizeMB {H} _.
Arguments ps_GuestMemoryHotplugProbe {H} _.

(** ** Dumping *)

Definition dumpVersion (st : SandboxState) : Z :=
  if ss_PersistVersion st =? 0 then CurPersistVersion else ss_PersistVersion st.

(** One container's entry of [dumpState], on what was there before. *)
Definition dumpContState (cont : Container) (state : PContainerState) : PContainerState :=
  state <| pc_State := cs_State (c_state cont) |>
        <| pc_Rootfs := mkRootfsState (cs_BlockDeviceID (c_state cont)) (cs_Fstype (c_state cont)) |>
        <| pc_CgroupPath := cs_CgroupPath (c_state cont) |>.

Definition dumpContDevices (cont : Container) (state : PContainerState) : PContainerState :=
  state <| pc_DeviceMaps := (fun d => mkDeviceMap (cd_ID d) (cd_ContainerPath d) (cd_FileMode d) (cd_UID d) (cd_GID d))
                              <$> c_devices cont |>.

Definition dumpContProcess (cont : Container) (state : PContainerState) : PContainerState :=
  state <| pc_Process := mkPProcess (pr_StartTime (c_process cont)) (pr_Token (c_process cont)) (pr_Pid (c_process cont)) |>.

(** The type of the mount and its place in the guest are not written. *)
Definition dumpContMounts (cont : Container) (state : PContainerState) : PContainerState :=
  state <| pc_Mounts ::= fun ms => ms ++
    ((fun m => mkPMount (mt_Source m) (mt_Destination m) "" (mt_HostPath m) (mt_BlockDeviceID m) (mt_Options m) (mt_ReadOnly m))
       <$> c_mounts cont) |>.

(** The common shape of the four dumps: each live container updates its entry,
    the entries of removed containers go. *)
Definition dump_containers (conts : gmap string Container) (f : Container -> PContainerState -> PContainerState)
    (cs : gmap string PContainerState) : gmap string PContainerState :=
  map_imap (fun id cont => Some (f cont (default pcont_zero (cs !! id)))) conts.

Definition dumpState := fun conts => dump_containers conts dumpContState.
Definition dumpDevices := fun conts => dump_containers conts dumpContDevices.
Definition dumpProcess := fun conts => dump_containers conts dumpContProcess.
Definition dumpMounts := fun conts => dump_containers conts dumpContMounts.

Definition deviceToDeviceState (devices : list Device) : list DeviceState := Save <$> devices.

Definition dumpHypervisorConfig (c : HypervisorConfig) : PHypervisorConfig :=
  mkPHypervisorConfig
     (hc_KernelPath c) (hc_ImagePath c) (hc_InitrdPath c) (hc_FirmwarePath c)
     (hc_MachineAccelerators c) (hc_CPUFeatures c) (hc_HypervisorPath c) (hc_HypervisorCtlPath c)
     (hc_JailerPath c) (hc_BlockDeviceDriver c) (hc_HypervisorMachineType c) (hc_MemoryPath c)
     (hc_DevicesStatePath c) (hc_EntropySource c) (hc_SharedFS c) (hc_VirtioFSDaemon c)
     (hc_VirtioFSCache c) (hc_FileBackedMemRootDir c) (hc_VhostUserStorePath c)
     (hc_GuestHookPath c) (hc_VMid c) (hc_HypervisorPathList c) (hc_HypervisorCtlPathList c)
     (hc_JailerPathList c) (hc_EntropySourceList c) (hc_VirtioFSDaemonList c)
     (hc_VirtioFSExtraArgs c) (hc_FileBackedMemRootList c) (hc_VhostUserStorePathList c)
     (hc_EnableAnnotations c) (hc_MemOffset c) (hc_RxRateLimiterMaxRate c)
     (hc_TxRateLimiterMaxRate c) (hc_SGXEPCSize c) (hc_PCIeRootPort c) (hc_NumVCPUs c)
     (hc_DefaultMaxVCPUs c) (hc_MemorySize c) (hc_DefaultBridges c) (hc_Msize9p c) (hc_MemSlots c)
     (hc_VirtioFSCacheSize c) (hc_BlockDeviceCacheSet c) (hc_BlockDeviceCacheDirect c)
     (hc_BlockDeviceCacheNoflush c) (hc_DisableBlockDeviceUse c) (hc_EnableIOThreads c)
     (hc_Debug c) (hc_MemPrealloc c) (hc_HugePages c) (hc_VirtioMem c) (hc_DisableNestingChecks c)
     (hc_DisableImageNvdimm c) (hc_HotplugVFIOOnRootBus c) (hc_BootToBeTemplate c)
     (hc_BootFromTemplate c) (hc_DisableVhostNet c) (hc_EnableVhostUserStore c).

Definition dumpContainerConfig (m : Mem) (c : ContainerConfig) : PContainerConfig :=
  mkPContainerConfig (cc_Annotations c)
    (mkPResources (cpu_of m c) (memory_of m c) (rs_HugepageLimits (cc_Resources c)))
    (cc_ID c) (rf_Target (cc_RootFs c)).

Definition dumpConfig (m : Mem) (c : SandboxConfig) : PSandboxConfig :=
  let n := sc_NetworkConfig c in
  mkPSandboxConfig (dumpContainerConfig m <$> slice_list m (sc_Containers c))
    (sc_SandboxBindMounts c) (sc_Experimental c) (ka_LongLiveConn (sc_AgentConfig c)) (sc_HypervisorType c)
    (mkPNetworkConfig (nc_NetworkID n) (nc_NetworkCreated n) (nc_DisableNewNetwork n) (nc_InterworkingModel n))
    (dumpHypervisorConfig (sc_HypervisorConfig c)) (sc_ShmSize c) (sc_SharePidNs c) (sc_SystemdCgroup c)
    (sc_SandboxCgroupOnly c) (sc_DisableGuestSeccomp c).

(** The containers of a sandbox by identifier. *)
Definition live_containers {W} (s : Sandbox W) : gmap string Container := cont_at (sb_mem s) <$> sb_containers s.

(** [Sandbox.Save] up to writing: the two records handed to [store.ToDisk]. *)
Definition save_records `{GoRange} {HS W} (hv : HS) (url : string) (s : Sandbox W) (dm : deviceManager)
    : PSandboxState HS * gmap string PContainerState :=
  let st := sb_state s in
  let conts := live_containers s in
  (mkPSandboxState (deviceToDeviceState (GetAllDevices dm)) (ss_State st) (sb_id s)
     (ss_SandboxCgroupPath st) (ss_OverheadCgroupPath st) (mkHypervisorState (ss_BlockIndexMap st) hv) url
     (dumpConfig (sb_mem s) (sb_config s)) (dumpVersion st) (ss_GuestMemoryBlockSizeMB st)
     (ss_GuestMemoryHotplugProbe st),
   dumpMounts conts (dumpProcess conts (dumpDevices conts (dumpState conts ∅)))).

(** ** Loading *)

Definition loadState {H} (ss : PSandboxState H) (st : SandboxState) : SandboxState :=
  st <| ss_PersistVersion := ps_PersistVersion ss |>
     <| ss_GuestMemoryBlockSizeMB := ps_GuestMemoryBlockSizeMB ss |>
     <| ss_BlockIndexMap := hs_BlockIndexMap (ps_HypervisorState ss) |>
     <| ss_State := ps_State ss |>
     <| ss_SandboxCgroupPath := ps_SandboxCgroupPath ss |>
     <| ss_OverheadCgroupPath := ps_OverheadCgroupPath ss |>
     <| ss_GuestMemoryHotplugProbe := ps_GuestMemoryHotplugProbe ss |>.

Definition loadContState (cs : PContainerState) (c : Container) : Container :=
  c <| c_state := mkContainerState (pc_State cs) (rfs_BlockDeviceID (pc_Rootfs cs)) (rfs_FsType (pc_Rootfs cs))
                    (pc_CgroupPath cs) |>.

Definition loadContDevices (cs : PContainerState) (c : Container) : Container :=
  c <| c_devices := (fun d => mkContainerDevice (dv_ID d) (dv_ContainerPath d) (dv_FileMode d) (dv_UID d) (dv_GID d))
                      <$> pc_DeviceMaps cs |>.

Definition loadContMounts (cs : PContainerState) (c : Container) : Container :=
  c <| c_mounts := (fun m => mkMount (pm_Source m) (pm_Destination m) "" (pm_HostPath m) "" (pm_BlockDeviceID m)
                                (pm_Options m) (pm_ReadOnly m)) <$> pc_Mounts cs |>.

Definition loadContProcess (cs : PContainerState) (c : Container) : Container :=
  let p := pc_Process cs in c <| c_process := mkProcess (pp_Token p) (pp_StartTime p) (pp_Pid p) |>.

(** [Container.Restore] on an entry of the store. *)
Definition restore_container (cs : PContainerState) (c : Container) : Container :=
  loadContMounts cs (loadContProcess cs (loadContDevices cs (loadContState cs c))).

Definition loadHypervisorConfig (h : PHypervisorConfig) : HypervisorConfig :=
  mkHypervisorConfig
     ∅ [] (ph_KernelPath h) (ph_ImagePath h) (ph_InitrdPath h) (ph_FirmwarePath h) ""
     (ph_MachineAccelerators h) (ph_CPUFeatures h) (ph_HypervisorPath h) (ph_HypervisorCtlPath h)
     (ph_JailerPath h) (ph_BlockDeviceDriver h) (ph_HypervisorMachineType h) (ph_MemoryPath h)
     (ph_DevicesStatePath h) (ph_EntropySource h) (ph_SharedFS h) "" (ph_VirtioFSDaemon h)
     (ph_VirtioFSCache h) (ph_FileBackedMemRootDir h) (ph_VhostUserStorePath h) ""
     (ph_GuestHookPath h) (ph_VMid h) "" "" "" (ph_HypervisorPathList h)
     (ph_HypervisorCtlPathList h) (ph_JailerPathList h) (ph_EntropySourceList h)
     (ph_VirtioFSDaemonList h) (ph_VirtioFSExtraArgs h) (ph_EnableAnnotations h)
     (ph_FileBackedMemRootList h) [] (ph_VhostUserStorePathList h) [] [] (ph_SGXEPCSize h)
     (ph_RxRateLimiterMaxRate h) (ph_TxRateLimiterMaxRate h) (ph_MemOffset h) (ph_PCIeRootPort h)
     (ph_NumVCPUs h) (ph_DefaultMaxVCPUs h) (ph_MemorySize h) (ph_DefaultBridges h) (ph_Msize9p h)
     (ph_MemSlots h) (ph_VirtioFSCacheSize h) 0 0 (ph_BlockDeviceCacheSet h)
     (ph_BlockDeviceCacheDirect h) (ph_BlockDeviceCacheNoflush h) (ph_DisableBlockDeviceUse h)
     (ph_EnableIOThreads h) (ph_Debug h) (ph_MemPrealloc h) (ph_HugePages h) (ph_VirtioMem h)
     false false (ph_DisableNestingChecks h) (ph_DisableImageNvdimm h) (ph_HotplugVFIOOnRootBus h)
     false false (ph_BootToBeTemplate h) (ph_BootFromTemplate h) (ph_DisableVhostNet h)
     (ph_EnableVhostUserStore h) false false false false false.

(** A loaded configuration has its limits in objects of its own. *)
Definition loadContainerConfig (p : PContainerConfig) (m : Mem) : ContainerConfig * Mem :=
  let n := m_next m in
  let r := pcc_Resources p in
  (mkContainerConfig (pcc_ID p) (pcc_Annotations p) (mkRootFs "" (pcc_RootFs p) "" [] false) [] []
     (mkResources (fst <$> ((n,.) <$> pr_CPU r)) (fst <$> ((S n,.) <$> pr_Memory r)) (pr_HugepageLimits r)) false
     Cmd_zero false,
   m <| m_cpus ::= fun cs => match pr_CPU r with Some c => <[n := c]> cs | None => cs end |>
     <| m_mems ::= fun ms => match pr_Memory r with Some c => <[S n := c]> ms | None => ms end |>
     <| m_next := S (S n) |>).

Fixpoint loadContainerConfigs (l : list PContainerConfig) (m : Mem) : list ContainerConfig * Mem :=
  match l with
  | [] => ([], m)
  | p :: l' =>
      let '(c, m1) := loadContainerConfig p m in
      let '(cs, m2) := loadContainerConfigs l' m1 in (c :: cs, m2)
  end.

(** [loadSandboxConfig] on the persisted configuration: the containers go to
    one new array. *)
Definition loadConfig (id : string) (c : PSandboxConfig) (m : Mem) : SandboxConfig * Mem :=
  let n := psc_NetworkConfig c in
  let '(cs, m) := loadContainerConfigs (psc_ContainerConfigs c) m in
  let a := m_next m in
  (mkSandboxConfig (mkSlice a (length cs)) (psc_SandboxBindMounts c) (psc_Experimental c) ∅ id ""
     (psc_HypervisorType c) (mkKataAgentConfig [] 0 0 (psc_LongLiveConn c) false false false)
     (mkNetworkConfig (pn_NetworkID n) (pn_InterworkingModel n) (pn_NetworkCreated n) (pn_DisableNewNetwork n))
     (loadHypervisorConfig (psc_HypervisorConfig c)) false (psc_ShmSize c) VFIOModeVFIO (psc_SharePidNs c)
     (psc_SystemdCgroup c) (psc_SandboxCgroupOnly c) (psc_DisableGuestSeccomp c) []
     (mkSandboxResourceSizing 0 0 0 0),
   m <| m_arrays := <[a := cs]> (m_arrays m) |> <| m_next := S a |>).

(** ** Round trips *)

(** What a mount keeps. *)
Definition forget_mount (m : Mount) : Mount := m <| mt_Type := "" |> <| mt_GuestDeviceMount := "" |>.

Lemma dump_containers_lookup conts f cs id :
  dump_containers conts f cs !! id = (fun c => f c (default pcont_zero (cs !! id))) <$> conts !! id.
Proof. unfold dump_containers. rw map_lookup_imap. by destruct (conts !! id). Qed.

Lemma restore_saved `{GoRange} {HS W} (hv : HS) url (s : Sandbox W) dm id c :
  live_containers s !! id = Some c ->
  exists cs, (save_records hv url s dm).2 !! id = Some cs /\
    forall c0, restore_container cs c0 =
      c0 <| c_state := c_state c |> <| c_devices := c_devices c |> <| c_process := c_process c |>
         <| c_mounts := forget_mount <$> c_mounts c |>.
Proof.
  intros Hc. unfold save_records, dumpState, dumpDevices, dumpProcess, dumpMounts. cbn [snd].
  rw !dump_containers_lookup Hc. eexists; split; [reflexivity|]. intros c0.
  unfold restore_container, loadContMounts, loadContProcess, loadContDevices, loadContState, update. simpl.
  destruct c as [ci cs cc cp cr cm cd ct cpr cf cb], c0; simpl. f_equal.
  - rw -list_fmap_compose. apply list_fmap_ext. by intros ? [] ?.
  - rw -list_fmap_compose. rw -[RHS]list_fmap_id. apply list_fmap_ext. by intros ? [] ?.
  - by destruct ct.
  - by destruct cpr.
Qed.

(** Loading the saved devices into a manager. *)
Lemma LoadDevices_lookup (l : list Device) dm0 id :
  NoDup (DeviceID <$> l) ->
  (forall d, d ∈ l -> DeviceID d = id ->
     exists d', Load (Save d) = Some d' /\ dm_devices (LoadDevices (Save <$> l) dm0) !! id = Some d') /\
  ((forall d, d ∈ l -> DeviceID d <> id) ->
     dm_devices (LoadDevices (Save <$> l) dm0) !! id = dm_devices dm0 !! id).
Proof.
  induction l as [|x l IH] using rev_ind; intros Hnd; [split; [intros d []%not_elem_of_nil|done]|].
  rw fmap_app in Hnd. apply NoDup_app in Hnd as (Hl & Hx & _). destruct (IH Hl) as [IH1 IH2].
  destruct (Save_Load x) as (x' & Hload & _ & Hid & _).
  assert (E : dm_devices (LoadDevices (Save <$> (l ++ [x])) dm0) =
    <[DeviceID x := x']> (dm_devices (LoadDevices (Save <$> l) dm0))).
  { unfold LoadDevices. rw fmap_app foldl_app. cbn [fmap list_fmap foldl]. by rw Hload Hid. }
  rw E. split.
  - intros d [Hd| ->%list_elem_of_singleton]%elem_of_app Hdid; [|subst; rw lookup_insert_eq; eauto].
    rw lookup_insert_ne; [|by apply IH1]. intros Heq.
    apply (Hx (DeviceID d)); [by apply list_elem_of_fmap_2|]. rw Hdid -Heq. by left.
  - intros Hno. rw lookup_insert_ne; [apply Hno, elem_of_app; right; by left|].
    apply IH2. intros d Hd. apply Hno, elem_of_app. by left.
Qed.

Lemma GetAllDevices_facts `{GoRange} dm :
  devices_ok (dm_devices dm) ->
  NoDup (DeviceID <$> GetAllDevices dm) /\
  forall d, d ∈ GetAllDevices dm <-> dm_devices dm !! DeviceID d = Some d.
Proof.
  intros Hok. unfold GetAllDevices.
  assert (Hmem : forall d, d ∈ (range_map (dm_devices dm)).*2 <-> dm_devices dm !! DeviceID d = Some d).
  { intros d. rw list_elem_of_fmap. split.
    - intros ([k d'] & -> & Hin). apply elem_of_range_map in Hin. simpl. by rw (proj1 (Hok k d' Hin)).
    - intros Hd. exists (DeviceID d, d). split; [done|]. by apply elem_of_range_map. }
  split; [|done].
  assert (Hfst : DeviceID <$> (range_map (dm_devices dm)).*2 = (range_map (dm_devices dm)).*1).
  { rw -list_fmap_compose. apply list_fmap_ext. intros i [k d] Hi. simpl.
    apply (Hok k d), elem_of_range_map. by eapply list_elem_of_lookup_2. }
  rw Hfst range_map_perm. apply NoDup_fst_map_to_list.
Qed.

(** The saved devices come back under the same identifiers. *)
Lemma devices_restored `{GoRange} dm dm0 id :
  devices_ok (dm_devices dm) -> dm_devices dm0 = ∅ ->
  match dm_devices dm !! id, dm_devices (LoadDevices (deviceToDeviceState (GetAllDevices dm)) dm0) !! id with
  | Some d, Some d' => Load (Save d) = Some d'
  | None, None => True
  | _, _ => False
  end.
Proof.
  intros Hok H0. destruct (GetAllDevices_facts dm Hok) as [Hnd Hmem].
  destruct (LoadDevices_lookup (GetAllDevices dm) dm0 id Hnd) as [H1 H2]. unfold deviceToDeviceState.
  destruct (dm_devices dm !! id) as [d|] eqn:Hd.
  - destruct (Hok id d Hd) as [Hid _]. destruct (H1 d) as (d' & Hl & ->); [apply Hmem; by rw Hid|done|done].
  - rw H2; [|by rw H0 lookup_empty]. intros d Hin%Hmem <-. congruence.
Qed.

(** C29. Saving and restoring a sandbox: the restored sandbox state has the
    same state, block indexes, cgroup paths and guest memory parameters; each
    live container and no other has an entry, from which it gets back its
    state, devices, process and mounts (without the type of a mount and its
    path in the guest, which are not written); and a new device manager gets
    every device back under its identifier with the same counters, numbers
    and block index. *)
Theorem Save_Restore `{GoRange} {HS W} (hv : HS) url (s : Sandbox W) dm st0 dm0 :
  devices_ok (dm_devices dm) -> dm_devices dm0 = ∅ ->
  let '(ss, css) := save_records hv url s dm in
  loadState ss st0 = (sb_state s) <| ss_CgroupPaths := ss_CgroupPaths st0 |>
                                <| ss_PersistVersion := dumpVersion (sb_state s) |> /\
  (forall id, match live_containers s !! id, css !! id with
    | Some c, Some cs => forall c0, restore_container cs c0 =
        c0 <| c_state := c_state c |> <| c_devices := c_devices c |> <| c_process := c_process c |>
           <| c_mounts := forget_mount <$> c_mounts c |>
    | None, None => True
    | _, _ => False
    end) /\
  (forall id, match dm_devices dm !! id, dm_devices (LoadDevices (ps_Devices ss) dm0) !! id with
    | Some d, Some d' => DeviceID d' = id /\ GetAttachCount d' = GetAttachCount d /\
        gd_RefCount (dev_generic d') = gd_RefCount (dev_generic d) /\
        GetMajorMinor d' = GetMajorMinor d /\ held d' = held d
    | None, None => True
    | _, _ => False
    end).
Proof.
  intros Hok H0. pose proof (restore_saved hv url s dm) as Hcont.
  destruct (save_records hv url s dm) as [ss css] eqn:E. split_and!.
  - injection E as <- _. unfold loadState, update. cbn. by destruct (sb_state s).
  - intros id. destruct (live_containers s !! id) as [c|] eqn:Hc.
    + destruct (Hcont id c Hc) as (cs & Hcs & Hr). simpl in Hcs. by rw Hcs.
    + injection E as _ <-. unfold dumpMounts. by rw dump_containers_lookup Hc.
  - intros id. pose proof (devices_restored dm dm0 id Hok H0) as Hd.
    assert (ps_Devices ss = deviceToDeviceState (GetAllDevices dm)) as -> by by injection E as <- _.
    set (dm' := LoadDevices _ dm0) in *. revert Hd.
    destruct (dm_devices dm !! id) as [d|] eqn:Hl, (dm_devices dm' !! id) as [d'|]; try done. intros Hd.
    destruct (Save_Load d) as (d'' & Hd'' & _ & Hid & Hac & Hrc & Hmm & _ & Hh & _).
    assert (d'' = d') as -> by congruence. rw Hid. destruct (Hok id d Hl) as [-> _]. by split_and!.
Qed.

Lemma Save_Restore_witness :
  let dm := (NewDevice (H := range_default) demo_host demo_draws demo_block demo_dm).2 in
  let s := Sandbox_init "s" SandboxConfig_zero mem_zero tt in
  match dm_devices dm !! "a1b2",
    dm_devices (LoadDevices (ps_Devices (save_records (H := range_default) tt "" s dm).1) demo_dm) !! "a1b2" with
  | Some d, Some d' => DeviceID d' = "a1b2" /\ GetAttachCount d' = GetAttachCount d /\
      gd_RefCount (dev_generic d') = gd_RefCount (dev_generic d) /\
      GetMajorMinor d' = GetMajorMinor d /\ held d' = held d
  | None, None => True
  | _, _ => False
  end.
Proof.
  set (w := mkWorld demo_dm ∅ (∅ : gset Z)). intros dm s.
  assert (Hok : devices_ok (dm_devices dm)).
  { pose proof (NewDevice_inv (H := range_default) demo_host demo_draws demo_block w
      (NewDeviceManager_inv _ _ _ _ _)) as [Hok _].
    unfold on_dm in Hok. subst dm. change (w_dm w) with demo_dm in Hok.
    destruct (NewDevice demo_host demo_draws demo_block demo_dm). exact Hok. }
  pose proof (Save_Restore (H := range_default) tt "" s dm (sb_state s) demo_dm Hok eq_refl) as Hr.
  destruct (save_records tt "" s dm) as [ss css]. exact (proj2 (proj2 Hr) "a1b2").
Defined.

(** The addresses of loaded limits. *)
Lemma loadContainerConfigs_dump l : forall m0 m cs m',
  loadContainerConfigs (dumpContainerConfig m0 <$> l) m = (cs, m') ->
  dumpContainerConfig m' <$> cs = dumpContainerConfig m0 <$> l /\
  (m_next m <= m_next m')%nat /\
  (forall a, (a < m_next m)%nat -> m_cpus m' !! a = m_cpus m !! a /\ m_mems m' !! a = m_mems m !! a).
Proof.
  induction l as [|c l IH]; intros m0 m cs m' E.
  { simpl in E. injection E as <- <-. by split_and!. }
  rw fmap_cons in E. cbn [loadContainerConfigs] in E.
  destruct (loadContainerConfig (dumpContainerConfig m0 c) m) as [c1 m1] eqn:E1.
  destruct (loadContainerConfigs _ m1) as [cs2 m2] eqn:E2. injection E as <- <-.
  destruct (IH _ _ _ _ E2) as (Hcs & Hle & Hfr). injection E1 as <- <-. simpl in Hle, Hfr.
  split_and!; [|lia|].
  - rw !fmap_cons Hcs. f_equal.
    destruct (Hfr (m_next m)) as [Hc _]; [lia|]. destruct (Hfr (S (m_next m))) as [_ Hm]; [lia|].
    unfold dumpContainerConfig, cpu_of, memory_of in Hc, Hm |- *. simpl in *.
    f_equal. f_equal.
    + destruct (rs_CPU _ ≫= _) as [x|]; [|done]. simpl. by rw Hc lookup_insert_eq.
    + destruct (rs_Memory _ ≫= _) as [x|]; [|done]. simpl. by rw Hm lookup_insert_eq.
  - intros a Ha. destruct (Hfr a) as [-> ->]; [lia|]. simpl.
    split; [destruct (cpu_of m0 c)|destruct (memory_of m0 c)]; try done; (rw lookup_insert_ne; [lia|done]).
Qed.

(** Loading a persisted configuration: saving the loaded configuration
    again writes the same record, so everything that was written is read back,
    the containers in their order with their limits; the identifier is the one
    asked for.  Among the settings that are not written, and come back unset,
    are the static resource management, the guest swap and the annotations. *)
Theorem Config_roundtrip m0 c m id :
  let '(c', m') := loadConfig id (dumpConfig m0 c) m in
  dumpConfig m' c' = dumpConfig m0 c /\ sc_ID c' = id /\
  sc_HypervisorType c' = sc_HypervisorType c /\
  cc_ID <$> slice_list m' (sc_Containers c') = cc_ID <$> slice_list m0 (sc_Containers c) /\
  sc_StaticResourceMgmt c' = false /\ hc_GuestSwap (sc_HypervisorConfig c') = false /\
  sc_Annotations c' = ∅.
Proof.
  unfold loadConfig. destruct (loadContainerConfigs _ m) as [cs m1] eqn:E.
  apply loadContainerConfigs_dump in E as (Hcs & _ & _).
  set (m2 := m1 <| m_arrays := _ |> <| m_next := _ |>).
  assert (Hl : slice_list m2 (mkSlice (m_next m1) (length cs)) = cs).
  { unfold slice_list, array_at. simpl. rw lookup_insert_eq. apply take_ge. done. }
  assert (Hd : dumpContainerConfig m2 <$> cs = dumpContainerConfig m0 <$> slice_list m0 (sc_Containers c)).
  { rw -Hcs. by apply list_fmap_ext. }
  split_and!; try done.
  - unfold dumpConfig at 1. cbn [sc_Containers]. rw Hl Hd. unfold dumpConfig. f_equal.
  - cbn [sc_Containers]. rw Hl.
    assert (Hids : forall m (l : list ContainerConfig), cc_ID <$> l = pcc_ID <$> (dumpContainerConfig m <$> l)).
    { intros m3 l. by rw -list_fmap_compose. }
    by rw (Hids m2) (Hids m0) Hd.
Qed.

End Persist.
