(* ===== verification/Mounts.v ===== *)
(** * Mounts and backing devices

    [mount.go]: system mounts, host devices, the device and mount point behind a
    path, the kinds of volumes, counting files.  [utils_linux.go]: looking a
    mount point up in /proc/mounts.  [device/config/pmem.go]: files that can be
    used as persistent memory.  The file system is only read here; [HostFiles]
    is what the kernel answers. *)
From S2P Require Import Prelude GoStr Utils Devices.
Import Filepath Utils.Dirs Devices.Config.

Module Mounts.

(** What a stat call tells: the mode with its file type, the device that holds
    the file, and the device the file stands for. *)
Record Stat := mkStat { stat_Mode : Z; stat_Dev : Z; stat_Rdev : Z }.

Definition S_IFMT : Z := 0xf000.
Definition S_IFREG : Z := 0x8000.
Definition S_IFDIR : Z := 0x4000.
Definition S_IFBLK : Z := 0x6000.
Definition IsRegular (st : Stat) : bool := Z.land (stat_Mode st) S_IFMT =? S_IFREG.
Definition IsDir (st : Stat) : bool := Z.land (stat_Mode st) S_IFMT =? S_IFDIR.
Definition is_block (st : Stat) : bool := Z.land (stat_Mode st) S_IFBLK =? S_IFBLK.

Definition ErrNotExist : error := ErrExternal "no such file or directory".
Definition IsNotExist (e : error) : bool := bool_decide (e = ErrNotExist).

Class HostFiles (W : Type) : Type := {
  os_Stat : string -> W -> res Stat;
  os_Lstat : string -> W -> res Stat;
  os_ReadFile : W -> string -> res string;
  (** [ReadAt] with an offset and a length; reading less is an error *)
  os_ReadAt : string -> Z -> Z -> W -> res string;
  (** the entries in order, with whether each is a directory *)
  os_ReadDir : string -> W -> res (list (string * bool));
  os_Getwd : W -> res string;
}.

(** ** Device numbers *)

Definition major (dev : Z) : Z := Z.land (Z.shiftr dev 8) 0xfff.
Definition minor (dev : Z) : Z := Z.lor (Z.land dev 0xff) (Z.land (Z.shiftr dev 12) 0xfff00).

(** [unix.Major] and [unix.Minor]. *)
Definition unix_Major (dev : Z) : Z :=
  Z.lor (u32 (Z.shiftr (Z.land dev 0xfff00) 8)) (u32 (Z.shiftr (Z.land dev 0xfffff00000000000) 32)).
Definition unix_Minor (dev : Z) : Z :=
  Z.lor (u32 (Z.land dev 0xff)) (u32 (Z.shiftr (Z.land dev 0xffffff00000) 12)).

(** ** Paths *)

Definition systemMountPrefixes : list string := ["/proc"; "/sys"].

Definition isSystemMount (m : string) : bool :=
  existsb (fun p => bool_decide (m = p) || HasPrefix m (p +:+ "/")) systemMountPrefixes.

Definition K8sEmptyDir : string := "kubernetes.io~empty-dir".
Definition K8sConfigMap : string := "kubernetes.io~configmap".
Definition K8sSecret : string := "kubernetes.io~secret".

Definition checkKubernetesVolume (path volumeType : string) : bool :=
  let splitSourceSlice := Split "/" path in
  if (1 <? length splitSourceSlice)%nat then
    bool_decide (splitSourceSlice !! (length splitSourceSlice - 2)%nat = Some volumeType)
  else false.

Definition isEmptyDir (path : string) : bool := checkKubernetesVolume path K8sEmptyDir.
Definition isConfigMap (path : string) : bool := checkKubernetesVolume path K8sConfigMap.
Definition isSecret (path : string) : bool := checkKubernetesVolume path K8sSecret.

Definition IsDockerVolume (path : string) : bool :=
  HasPrefix path "/var/lib/docker/volumes" && bool_decide (Base path = "_data").

(** ** /proc/mounts *)

Definition procMountsFile : string := "/proc/mounts".

(** The loop over the lines that end in a newline; what follows the last
    newline is never looked at. *)
Fixpoint mounts_go (mountPoint : string) (lines : list string) : res (string * string * list string) :=
  match lines with
  | [] | [_] => Err (Errorf "Mount %s not found")
  | line :: lines' =>
      match Fields line with
      | [device; path; fsType; options; _; _] =>
          if bool_decide (mountPoint = path) then Ok (device, fsType, Split "," options)
          else mounts_go mountPoint lines'
      | _ => Err (Errorf "Incorrect no of fields (expected %d, got %d)) :%s")
      end
  end.

Section Read.
Context {W : Type} `{HostFiles W} (w : W).

Definition GetDevicePathAndFsTypeOptions (mountPoint : string) : res (string * string * list string) :=
  if bool_decide (mountPoint = "") then Err (Errorf "Mount point cannot be empty") else
  data ← os_ReadFile w procMountsFile;
  mounts_go mountPoint (Split (ascii_of_N 10) data).

(** The type of the filesystem, empty on an error. *)
Definition fs_type (path : string) : string :=
  match GetDevicePathAndFsTypeOptions path with Ok (_, t, _) => t | Err _ => "" end.

Definition IsEphemeralStorage (path : string) : bool :=
  isEmptyDir path && bool_decide (fs_type path = "tmpfs").

Definition Isk8sHostEmptyDir (path : string) : bool :=
  isEmptyDir path && negb (bool_decide (fs_type path = "tmpfs")).

(** ** Devices *)

Definition isHostDevice (m : string) : bool :=
  if bool_decide (m = "/dev") then true
  else if HasPrefix m "/dev/" then
    match os_Stat m w with
    | Err _ => false
    | Ok s => negb (IsRegular s)
    end
  else false.

Record device := mkDev { dv_mountPoint : string; dv_major : Z; dv_minor : Z }.

Definition errMountPointNotFound : error := Errorf "Mount point not found".

Definition Abs (path : string) : res string :=
  if HasPrefix path "/" then Ok (Clean path)
  else wd ← os_Getwd w; Ok (PathJoin [wd; path]).

(** Upwards until the device changes; [dev] is that of the path looked at last.
    The fuel bounds the number of elements of the path. *)
Fixpoint mount_loop (fuel : nat) (path mountPoint : string) (dev : Z) : res string :=
  match fuel with
  | O => Err (ErrExternal "fuel")
  | S fuel' =>
      if bool_decide (mountPoint = "/") then Err errMountPointNotFound else
      let parentDir := Dir path in
      match os_Lstat parentDir w with
      | Err e => Err e
      | Ok parentStat =>
          if negb (stat_Dev parentStat =? dev) then Ok mountPoint
          else mount_loop fuel' parentDir parentDir (stat_Dev parentStat)
      end
  end.

Definition getDeviceForPath (path : string) : res device :=
  if bool_decide (path = "") then Err (Errorf "Path cannot be empty") else
  stat ← os_Stat path w;
  if isHostDevice path then Ok (mkDev "" (major (stat_Rdev stat)) (minor (stat_Rdev stat))) else
  let devMajor := major (stat_Dev stat) in
  let devMinor := minor (stat_Dev stat) in
  path ← Abs path;
  if bool_decide (path = "/") then Ok (mkDev path devMajor devMinor) else
  mountPoint ← mount_loop (S (String.length path)) path path (stat_Dev stat);
  Ok (mkDev mountPoint devMajor devMinor).

Definition isDeviceMapper (major minor : Z) : res bool :=
  match os_Stat ("/sys/dev/block/" +:+ Itoa major +:+ ":" +:+ Itoa minor +:+ "/dm") w with
  | Ok _ => Ok true
  | Err e => if IsNotExist e then Ok false else Err e
  end.

(** ** Persistent memory *)

Definition pfnSignature : string := "NVDIMM_PFN_INFO".
Definition pfnSignatureOffset : Z := 4 * 1024.
Definition FsTypeOpt : string := "fstype".

Definition hasPFNSignature (path : string) : bool :=
  match os_ReadAt path pfnSignatureOffset (Z.of_nat (String.length pfnSignature)) w with
  | Ok signature => bool_decide (pfnSignature = signature)
  | Err _ => false
  end.

Definition getBackingFile (devInfo : DeviceInfo) : res string :=
  data ← os_ReadFile w (PathJoin [getSysDevPath devInfo; "loop"; "backing_file"]);
  Ok (TrimSpace data).

Definition PmemDeviceInfo (source destination : string) : res DeviceInfo :=
  stat ← os_Stat source w;
  let info := fun options path =>
    mkDeviceInfo (Some options) path destination "b" "" (unix_Major (stat_Dev stat)) (unix_Minor (stat_Dev stat))
      0 0 0 true false false in
  path ← getBackingFile (info ∅ "");
  if negb (hasPFNSignature path) then Err (Errorf "backing file %v has not PFN signature") else
  let fstype := match GetDevicePathAndFsTypeOptions source with Ok (_, t, _) => t | Err _ => "ext4" end in
  Ok (info {[FsTypeOpt := fstype]} path).

(** ** Counting files

    The count is returned beside the error.  [None]: the fuel is used up.  An
    error of [os.Stat] other than that the file does not exist leaves a nil
    description, which the next line dereferences: the panic is [Err]. *)
Definition counted : Type := option (res (Z * option error)).

Section Loop.
Context (countFiles : string -> Z -> counted).

Fixpoint count_entries (path : string) (limit numFiles : Z) (files : list (string * bool)) : counted :=
  match files with
  | [] => Some (Ok (numFiles, None))
  | (name, isDir) :: files' =>
      let next := fun numFiles =>
        if limit <? numFiles then Some (Ok (-1, None)) else count_entries path limit numFiles files' in
      if isDir : bool then
        match countFiles (PathJoin [path; name]) (limit - numFiles) with
        | Some (Ok (inc, None)) => next (numFiles + inc)
        | Some (Ok (_, Some e)) => Some (Ok (numFiles, Some e))
        | r => r
        end
      else next (numFiles + 1)
  end.
End Loop.

Fixpoint countFiles (fuel : nat) (path : string) (limit : Z) : counted :=
  match fuel with
  | O => None
  | S fuel' =>
      match os_Stat path w with
      | Err e => if IsNotExist e then Some (Ok (0, Some e)) else Some (Err (ErrExternal "nil pointer dereference"))
      | Ok file =>
          if negb (IsDir file) then Some (Ok (1, None)) else
          match os_ReadDir path w with
          | Err e => Some (Ok (0, Some e))
          | Ok files => count_entries (countFiles fuel') path limit 0 files
          end
      end
  end.

(** With fuel for the depth of the tree; the error is dropped. *)
Definition isWatchableMount (fuel : nat) (path : string) : option (res bool) :=
  if isSecret path || isConfigMap path then
    match countFiles fuel path 8 with
    | Some (Ok (count, _)) => Some (Ok (0 <? count))
    | Some (Err e) => Some (Err e)
    | None => None
    end
  else Some (Ok false).
End Read.

(** ** Device numbers agree *)

(** Bit by bit: the bits below 32 one after the other, the others together. *)
Lemma bits32 (x y : Z) :
  (forall i, 32 <= i -> Z.testbit x i = Z.testbit y i) ->
  Forall (fun n => Z.testbit x (Z.of_nat n) = Z.testbit y (Z.of_nat n)) (seq 0 32) -> x = y.
Proof.
  intros Hhigh Hlow. apply Z.bits_inj'. intros i Hi. destruct (decide (32 <= i)); [by apply Hhigh|].
  rw -(Z2Nat.id i) //. rw Forall_forall in Hlow. apply Hlow. apply elem_of_seq. lia.
Qed.

Lemma testbit_small c i : 0 <= c < 2 ^ 32 -> 32 <= i -> Z.testbit c i = false.
Proof.
  intros Hc Hi. destruct (decide (c = 0)) as [->|]; [apply Z.testbit_0_l|].
  apply Z.bits_above_log2; [lia|]. apply Z.log2_lt_pow2; [lia|].
  apply Z.lt_le_trans with (2 ^ 32); [lia|]. by apply Z.pow_le_mono_r.
Qed.

(** Both sides at one bit, with the bits of the number above 32 known. *)
Ltac one_bit dev Hhigh :=
  rw ?Z.lor_spec ?Z.land_spec ?Z.mod_pow2_bits_low // ?Z.shiftr_spec // ?Z.land_spec;
  generalize dependent (Z.testbit dev); intros f Hhigh; simpl;
  repeat match goal with |- context [f ?k] => rw (Hhigh k); [lia|] end;
  rw ?andb_true_r ?andb_false_r ?orb_false_r //.

(** The runtime's own decoding of a device number agrees with the kernel's as
    long as the number fits 32 bits, as it does for major numbers below 4096 and
    minor numbers below 2^20. *)
Theorem major_minor_agree dev :
  0 <= dev < 2 ^ 32 -> major dev = unix_Major dev /\ minor dev = unix_Minor dev.
Proof.
  intros Hdev. unfold major, minor, unix_Major, unix_Minor, u32, wrapu. split; apply bits32.
  1,3: intros i Hi; rw ?Z.lor_spec ?Z.land_spec !Z.mod_pow2_bits_high; try lia;
    rw ?(testbit_small 4095) ?(testbit_small 255) ?(testbit_small 1048320) ?andb_false_r; try lia; done.
  all: pose proof (fun k => testbit_small dev k Hdev) as Hhigh; cbn [seq];
    repeat (apply Forall_cons_2; [one_bit dev Hhigh|]); apply Forall_nil_2.
Qed.

Lemma major_minor_agree_witness : major 0x800103 = unix_Major 0x800103 /\ minor 0x800103 = unix_Minor 0x800103.
Proof. apply (major_minor_agree 0x800103). lia. Defined.

(** ** The mount point of a path *)
Section MountPoint.
Context {W : Type} `{HostFiles W} (w : W).

(** The device found at the first [k] elements of a path: the path itself is
    looked up with [stat], its parents with [lstat]. *)
Definition dev_at (cs : list string) (st : Stat) (k : nat) : option Z :=
  if bool_decide (k = length cs) then Some (stat_Dev st)
  else match os_Lstat (abs (take k cs)) w with Ok p => Some (stat_Dev p) | Err _ => None end.

(** From the first [k] elements up, when all parents can be looked up. *)
Lemma mount_loop_spec cs dev k fuel :
  Forall elem_ok cs -> (k <= length cs)%nat -> (k < fuel)%nat ->
  (forall i, (i < k)%nat -> is_Some (match os_Lstat (abs (take i cs)) w with Ok p => Some (stat_Dev p) | Err _ => None end)) ->
  let found i := match os_Lstat (abs (take i cs)) w with Ok p => Some (stat_Dev p) | Err _ => None end in
  match mount_loop w fuel (abs (take k cs)) (abs (take k cs)) dev with
  | Ok mountPoint => exists j, (0 < j <= k)%nat /\ mountPoint = abs (take j cs) /\
      (forall i, (j <= i < k)%nat -> found i = Some dev) /\ found (j - 1)%nat <> Some dev
  | Err e => e = errMountPointNotFound /\ forall i, (i < k)%nat -> found i = Some dev
  end.
Proof.
  intros Hok. cbn zeta. revert fuel. induction k as [|k IH]; intros fuel Hk Hf Hall.
  { destruct fuel as [|fuel]; [lia|]. rw take_0. simpl. split; [done|lia]. }
  destruct fuel as [|fuel]; [lia|].
  destruct (lookup_lt_is_Some_2 cs k) as [c Hc]; [lia|].
  assert (Htake : take (S k) cs = take k cs ++ [c]) by by apply take_S_r.
  assert (Hok' : Forall elem_ok (take (S k) cs)) by by apply Forall_take.
  assert (Hdir : Dir (abs (take (S k) cs)) = abs (take k cs)).
  { rw Htake in Hok' |- *. apply Forall_app in Hok' as [? [? _]%Forall_cons]. by apply Dir_abs. }
  cbn [mount_loop]. rw bool_decide_false.
  { apply abs_not_root; [|done]. rw Htake. by destruct (take k cs). }
  rw Hdir. destruct (Hall k) as [d Hd]; [lia|].
  destruct (os_Lstat (abs (take k cs)) w) as [p|e] eqn:El; [|done]. injection Hd as <-.
  destruct (Z.eqb_spec (stat_Dev p) dev) as [<-|Hne]; simpl.
  - specialize (IH fuel ltac:(lia) ltac:(lia) ltac:(intros; apply Hall; lia)).
    destruct (mount_loop _ _ _ _ _) as [mp|e].
    + destruct IH as (j & Hj & -> & Hsame & Hdiff). exists j. split_and!; [lia|lia|done| |done].
      intros i Hi. destruct (decide (i = k)) as [->|]; [by rw El|apply Hsame; lia].
    + destruct IH as [-> Hsame]. split; [done|]. intros i Hi.
      destruct (decide (i = k)) as [->|]; [by rw El|apply Hsame; lia].
  - exists (S k). split_and!; [lia|lia|done|lia|]. rw Nat.sub_1_r /= El. congruence.
Qed.

(** The device behind a path.  For a clean absolute path other than the root
    that is no host device and whose parents can be looked up, the search ends
    and the answer carries the numbers of the device holding the path; the mount
    point is the shortest prefix up to which that device does not change, so its
    parent is on another device.  If the device is the same all the way up, the
    mount point is reported as not found. *)
Theorem getDeviceForPath_spec cs st :
  cs <> [] -> Forall elem_ok cs -> os_Stat (abs cs) w = Ok st -> isHostDevice w (abs cs) = false ->
  (forall k, (k <= length cs)%nat -> is_Some (dev_at cs st k)) ->
  match getDeviceForPath w (abs cs) with
  | Ok d => dv_major d = major (stat_Dev st) /\ dv_minor d = minor (stat_Dev st) /\
      exists j, (0 < j <= length cs)%nat /\ dv_mountPoint d = abs (take j cs) /\
        (forall i, (j <= i <= length cs)%nat -> dev_at cs st i = Some (stat_Dev st)) /\
        dev_at cs st (j - 1) <> Some (stat_Dev st)
  | Err e => e = errMountPointNotFound /\
      forall i, (i <= length cs)%nat -> dev_at cs st i = Some (stat_Dev st)
  end.
Proof.
  intros Hne Hok Hst Hhost Hall. unfold getDeviceForPath.
  rw bool_decide_false; [done|]. rw Hst. cbn -[mount_loop]. rw Hhost. unfold Abs.
  replace (HasPrefix (abs cs) "/") with true by (symmetry; apply HasPrefix_app).
  cbn -[mount_loop]. rw Clean_abs //. rw bool_decide_false; [by apply abs_not_root|].
  assert (Hin : forall i, (i < length cs)%nat -> dev_at cs st i =
    match os_Lstat (abs (take i cs)) w with Ok p => Some (stat_Dev p) | Err _ => None end).
  { intros i Hi. unfold dev_at. rw bool_decide_false //; lia. }
  assert (Hend : dev_at cs st (length cs) = Some (stat_Dev st)) by (unfold dev_at; by rw bool_decide_true).
  pose proof (length_abs cs Hok) as Hlen.
  pose proof (mount_loop_spec cs (stat_Dev st) (length cs) (S (String.length (abs cs))) Hok) as Hloop.
  rw firstn_all in Hloop. specialize (Hloop ltac:(lia) ltac:(lia)
    ltac:(intros i Hi; rw -Hin //; apply Hall; lia)). cbn zeta in Hloop.
  destruct (mount_loop _ _ _ _ _) as [mp|e]; cbn.
  - destruct Hloop as (j & Hj & -> & Hsame & Hdiff). split_and!; [done|done|]. exists j.
    split_and!; [lia|lia|done| |rw Hin //; lia].
    intros i Hi. destruct (decide (i = length cs)) as [->|]; [done|]. rw Hin; [lia|]. apply Hsame. lia.
  - destruct Hloop as [-> Hsame]. split; [done|]. intros i Hi.
    destruct (decide (i = length cs)) as [->|]; [done|]. rw Hin; [lia|]. apply Hsame. lia.
Qed.
End MountPoint.

(** ** Files of a directory tree *)

(** What is below a path; everything that is no directory counts as a file. *)
Inductive tree := TFile | TDir (entries : list (string * tree)).

Definition is_dir (t : tree) : bool := match t with TFile => false | TDir _ => true end.

Fixpoint nfiles (t : tree) : Z :=
  match t with TFile => 1 | TDir l => foldr (fun e n => nfiles e.2 + n) 0 l end.

Fixpoint height (t : tree) : nat :=
  match t with TFile => 0 | TDir l => S (foldr (fun e n => Nat.max (height e.2) n) 0%nat l) end.

Lemma tree_induction (P : tree -> Prop) :
  P TFile -> (forall l, Forall (fun e => P e.2) l -> P (TDir l)) -> forall t, P t.
Proof.
  intros Hf Hd. fix IH 1. intros [|l]; [done|]. apply Hd.
  induction l as [|e l IHl]; constructor; [apply IH|apply IHl].
Qed.

Lemma nfiles_nonneg t : 0 <= nfiles t.
Proof. induction t as [|l IH] using tree_induction; [done|]. induction IH; simpl in *; lia. Qed.

Section Counting.
Context {W : Type} `{HostFiles W} (w : W).

(** The directories of a tree are at a path. *)
Fixpoint holds (path : string) (t : tree) : Prop :=
  match t with
  | TFile => True
  | TDir l =>
      (exists st, os_Stat path w = Ok st /\ IsDir st = true) /\
      os_ReadDir path w = Ok ((fun e => (e.1, is_dir e.2)) <$> l) /\
      foldr (fun e P => holds (PathJoin [path; e.1]) e.2 /\ P) True l
  end.

Lemma countFiles_dir fuel path limit l :
  holds path (TDir l) ->
  countFiles w (S fuel) path limit =
  count_entries (countFiles w fuel) path limit 0 ((fun e => (e.1, is_dir e.2)) <$> l).
Proof. intros ((st & Hst & Hd) & Hr & _). cbn [countFiles]. by rw Hst Hd Hr. Qed.

(** Counting ends, and the count is right up to the limit: for a directory
    tree with at most [limit] files, and fuel for its height, the result is the
    number of files in it. *)
Theorem countFiles_spec l path limit fuel :
  holds path (TDir l) -> nfiles (TDir l) <= limit -> (height (TDir l) <= fuel)%nat ->
  countFiles w fuel path limit = Some (Ok (nfiles (TDir l), None)).
Proof.
  revert path limit fuel. set (t := TDir l). assert (Ht : is_dir t = true) by done. clearbody t. revert Ht.
  induction t as [|l' IH] using tree_induction; [done|]. clear l. intros _ path limit fuel Hh Hn Hf.
  destruct fuel as [|fuel]; [simpl in Hf; lia|]. rw (countFiles_dir _ _ _ l') //.
  destruct Hh as (_ & _ & Hh). simpl in Hn, Hf |- *. apply le_S_n in Hf.
  rw -(Z.add_0_l (foldr _ _ _)). assert (Hn' : 0 + foldr (fun e n => nfiles e.2 + n) 0 l' <= limit) by lia.
  clear Hn. revert Hn'. generalize 0 at 1 3 4 as num. revert Hh Hf.
  induction IH as [|[name t] l' IHt IHl IHloop]; intros Hh Hf num Hn; simpl in *; [by rw Z.add_0_r|].
  destruct Hh as [Hht Hh]. specialize (IHloop Hh ltac:(lia)).
  assert (0 <= foldr (fun e n => nfiles e.2 + n) 0 l') by apply (nfiles_nonneg (TDir l')).
  pose proof (nfiles_nonneg t). destruct t as [|lt]; simpl in *.
  - rw (proj2 (Z.ltb_ge _ _)); [lia|]. rw IHloop; [lia|]. do 3 f_equal. lia.
  - rw (IHt eq_refl) //; [lia|lia|]. rw (proj2 (Z.ltb_ge _ _)); [lia|]. rw IHloop; [lia|].
    do 3 f_equal. lia.
Qed.

(** A run of plain files. *)
Lemma count_plain rec path limit num (names : list string) :
  num <= limit ->
  count_entries rec path limit num ((fun n => (n, false)) <$> names) =
  Some (Ok (if limit <? num + Z.of_nat (length names) then -1 else num + Z.of_nat (length names), None)).
Proof.
  revert num. induction names as [|n names IH]; intros num Hnum; cbn [count_entries fmap list_fmap length].
  { rw Z.add_0_r (proj2 (Z.ltb_ge _ _)) //. }
  destruct (Z.ltb_spec limit (num + 1)).
  - rw (proj2 (Z.ltb_lt _ _)) //. lia.
  - rw IH; [lia|]. replace (num + 1 + Z.of_nat (length names)) with (num + Z.of_nat (S (length names))) by lia. done.
Qed.

Definition plain (names : list string) : list (string * tree) := (fun n => (n, TFile)) <$> names.

Lemma plain_entries names : (fun e => (e.1, is_dir e.2)) <$> plain names = (fun n => (n, false)) <$> names.
Proof. unfold plain. by rw -list_fmap_compose. Qed.

Lemma nfiles_plain names : nfiles (TDir (plain names)) = Z.of_nat (length names).
Proof.
  induction names as [|n names IH]; [done|].
  change (1 + nfiles (TDir (plain names)) = Z.of_nat (S (length names))). lia.
Qed.

(** The limit is lost in a subdirectory: the -1 that stands for too many files
    in it is added to the count like a number of files.  A directory with more
    than 8 files in a subdirectory and between 2 and 9 plain files is counted
    as one file less than the plain ones, and so a secret or config map of that
    shape is watchable although it holds more than 8 files. *)
Theorem countFiles_nested path d many few fuel :
  holds path (TDir ((d, TDir (plain many)) :: plain few)) ->
  8 < Z.of_nat (length many) -> 2 <= Z.of_nat (length few) <= 9 -> isSecret path = true ->
  countFiles w (S (S fuel)) path 8 = Some (Ok (Z.of_nat (length few) - 1, None)) /\
  isWatchableMount w (S (S fuel)) path = Some (Ok true) /\
  8 < nfiles (TDir ((d, TDir (plain many)) :: plain few)).
Proof.
  intros Hh Hmany Hfew Hs.
  assert (Hc : countFiles w (S (S fuel)) path 8 = Some (Ok (Z.of_nat (length few) - 1, None))).
  { rw (countFiles_dir _ _ _ _ Hh). destruct Hh as (_ & _ & Hd & _). cbn [fmap list_fmap count_entries is_dir fst snd].
    rw (countFiles_dir _ _ _ _ Hd) !plain_entries count_plain; [lia|].
    replace (8 - 0 <? 0 + Z.of_nat (length many)) with true by (symmetry; apply Z.ltb_lt; lia).
    rw count_plain //. change (8 <? 0 + -1) with false.
    replace (8 <? 0 + -1 + Z.of_nat (length few)) with false by (symmetry; apply Z.ltb_ge; lia).
    do 3 f_equal. lia. }
  split_and!; [done| |].
  - unfold isWatchableMount. rw Hs Hc. cbn. by rw (proj2 (Z.ltb_lt _ _)); [lia|].
  - pose proof (nfiles_plain many). pose proof (nfiles_nonneg (TDir (plain few))). simpl in *. lia.
Qed.
End Counting.

(** ** A small file system *)

(** A volume mounted on /mnt/vol, and a secret whose subdirectory "d" holds the
    files of [w] beside the files "x" and "y". *)
Definition secret_path : string := "/pods/kubernetes.io~secret/s".

#[local] Instance demo_files : HostFiles (list string) := {|
  os_Stat := fun p _ =>
    if bool_decide (p ∈ ["/mnt/vol/a"; "/mnt/vol"]) then Ok (mkStat S_IFDIR 2050 0)
    else if bool_decide (p ∈ [secret_path; secret_path +:+ "/d"]) then Ok (mkStat S_IFDIR 1 0)
    else Err ErrNotExist;
  os_Lstat := fun p _ =>
    if bool_decide (p ∈ ["/mnt/vol/a"; "/mnt/vol"]) then Ok (mkStat S_IFDIR 2050 0) else Ok (mkStat S_IFDIR 1 0);
  os_ReadFile := fun _ _ => Err ErrNotExist;
  os_ReadAt := fun _ _ _ _ => Err ErrNotExist;
  os_ReadDir := fun p w =>
    if bool_decide (p = secret_path) then Ok [("d", true); ("x", false); ("y", false)]
    else Ok ((fun n => (n, false)) <$> w);
  os_Getwd := fun _ => Ok "/";
|}.

Definition nine : list string := ["1"; "2"; "3"; "4"; "5"; "6"; "7"; "8"; "9"].

Lemma getDeviceForPath_spec_witness :
  match getDeviceForPath nine "/mnt/vol/a" with
  | Ok d => dv_major d = 8 /\ dv_minor d = 2 /\
      exists j, (0 < j <= 3)%nat /\ dv_mountPoint d = abs (take j ["mnt"; "vol"; "a"]) /\
        (forall i, (j <= i <= 3)%nat -> dev_at nine ["mnt"; "vol"; "a"] (mkStat S_IFDIR 2050 0) i = Some 2050) /\
        dev_at nine ["mnt"; "vol"; "a"] (mkStat S_IFDIR 2050 0) (j - 1) <> Some 2050
  | Err e => e = errMountPointNotFound /\
      forall i, (i <= 3)%nat -> dev_at nine ["mnt"; "vol"; "a"] (mkStat S_IFDIR 2050 0) i = Some 2050
  end.
Proof.
  apply (getDeviceForPath_spec nine ["mnt"; "vol"; "a"] (mkStat S_IFDIR 2050 0)); [done| |done|done|].
  - repeat constructor; done.
  - intros [|[|[|[|k]]]] Hk; [by eexists..|simpl in Hk; lia].
Defined.

Definition two_files : list (string * tree) := [("d", TDir []); ("x", TFile); ("y", TFile)].

Lemma countFiles_spec_witness : countFiles [] 2 secret_path 8 = Some (Ok (2, None)).
Proof.
  apply (countFiles_spec [] two_files secret_path 8 2); [|done|done].
  split; [by exists (mkStat S_IFDIR 1 0)|]. split; [reflexivity|].
  split; [|done]. split; [by exists (mkStat S_IFDIR 1 0)|]. done.
Defined.

Lemma countFiles_nested_witness :
  countFiles nine 2 secret_path 8 = Some (Ok (1, None)) /\ isWatchableMount nine 2 secret_path = Some (Ok true) /\
  8 < nfiles (TDir (("d", TDir (plain nine)) :: plain ["x"; "y"])).
Proof.
  apply (countFiles_nested nine secret_path "d" nine ["x"; "y"] 0); [|done|done|reflexivity].
  split; [by exists (mkStat S_IFDIR 1 0)|]. split; [reflexivity|].
  split; [|done]. split; [by exists (mkStat S_IFDIR 1 0)|]. split; [reflexivity|]. repeat split.
Defined.

End Mounts.
