(* ===== verification/Files.v ===== *)
(** * Copying directory trees

    [CopyFile] and [CopyDir] of [urunc_agent.go], which move the contents of an
    unpacked image, over a file system that maps the elements of a clean absolute
    path to a file.  The kernel may refuse any call; a path is not followed
    through a symbolic link in its middle, and devices, pipes and sockets are left
    out. *)
From S2P Require Import Prelude GoStr Mounts.
Import Mounts.

Module Files.

Definition path : Type := list string.

(** The permission bits; the contents of a file; the target of a link. *)
Inductive inode :=
| Regular (mode : Z) (content : string)
| Directory (mode : Z)
| Symlink (target : string).

Definition Fs : Type := gmap path inode.

Inductive syscall := SysStat | SysMkdir | SysReadDir | SysOpen | SysCreate | SysSync | SysChmod | SysClose | SysRemove.

(** [refuses] is the kernel's refusal of a call, [cut] that of copying the
    contents, with the number of bytes written before, and [follow] the file a
    link leads to. *)
Class Kernel : Type := {
  refuses : syscall -> path -> Fs -> option error;
  cut : path -> Fs -> option (nat * error);
  follow : Fs -> path -> res inode;
  umask : Z;
}.

Definition ErrExist : error := ErrExternal "file exists".
Definition ErrNotDir : error := ErrExternal "not a directory".
Definition ErrIsDir : error := ErrExternal "is a directory".
Definition ErrFuel : error := ErrExternal "fuel".

Definition mode_of (n : inode) : Z :=
  match n with Regular m _ | Directory m => m | Symlink _ => 0x1ff end.
Definition is_directory (n : inode) : bool := match n with Directory _ => true | _ => false end.
Definition is_symlink (n : inode) : bool := match n with Symlink _ => true | _ => false end.
Definition masked `{Kernel} (mode : Z) : Z := Z.land mode (Z.lnot umask).

Section Calls.
Context `{Kernel}.

Definition checked (c : syscall) (p : path) : M Fs unit :=
  fs ← get; match refuses c p fs with Some e => throw e | None => mret tt end.

Definition Stat (p : path) : M Fs inode :=
  _ ← checked SysStat p;
  fs ← get;
  match fs !! p with
  | None => throw ErrNotExist
  | Some (Symlink _) => lift (follow fs p)
  | Some n => mret n
  end.

(** The directory a new entry goes to must be there. *)
Definition in_directory (p : path) : M Fs unit :=
  fs ← get;
  match fs !! removelast p with
  | None => throw ErrNotExist
  | Some (Directory _) => mret tt
  | Some _ => throw ErrNotDir
  end.

Definition Mkdir (p : path) (mode : Z) : M Fs unit :=
  _ ← checked SysMkdir p;
  fs ← get;
  if bool_decide (is_Some (fs !! p)) then throw ErrExist else
  _ ← in_directory p;
  modify (insert p (Directory (masked mode))).

(** [os.MkdirAll] on the elements of the path, last one first. *)
Fixpoint MkdirAll_go (rp : list string) (mode : Z) : M Fs unit :=
  match rp with
  | [] => mret tt
  | _ :: parent =>
      let p := reverse rp in
      st ← try (Stat p);
      match st with
      | Ok (Directory _) => mret tt
      | Ok _ => throw ErrNotDir
      | Err _ =>
          _ ← MkdirAll_go parent mode;
          r ← try (Mkdir p mode);
          match r with
          | Ok _ => mret tt
          | Err e =>
              fs ← get;
              match fs !! p with Some (Directory _) => mret tt | _ => throw e end
          end
      end
  end.
Definition MkdirAll (p : path) (mode : Z) : M Fs unit := MkdirAll_go (reverse p) mode.

(** The name of a file in the directory [p], if it is there. *)
Definition child_of (p : path) (kv : path * inode) : option (string * inode) :=
  if bool_decide (removelast kv.1 = p /\ kv.1 <> []) then (fun n => (n, kv.2)) <$> last kv.1 else None.

(** The entries of a directory with their names, sorted. *)
Definition entries (fs : Fs) (p : path) : list (string * inode) :=
  merge_sort (fun a b => String.le a.1 b.1) (omap (child_of p) (map_to_list fs)).

Definition ReadDir (p : path) : M Fs (list (string * inode)) :=
  _ ← checked SysReadDir p;
  fs ← get;
  match fs !! p with
  | None => throw ErrNotExist
  | Some (Directory _) => mret (entries fs p)
  | Some _ => throw ErrNotDir
  end.

(** The file is read where it is opened, so that a directory fails here and not at
    the first read. *)
Definition Open (p : path) : M Fs string :=
  _ ← checked SysOpen p;
  fs ← get;
  match fs !! p with
  | None => throw ErrNotExist
  | Some (Regular _ c) => mret c
  | Some (Directory _) => throw ErrIsDir
  | Some (Symlink _) => n ← lift (follow fs p); match n with Regular _ c => mret c | _ => throw ErrIsDir end
  end.

(** A new file, or an existing one emptied; writing through a link is outside the
    model and refused. *)
Definition Create (p : path) : M Fs unit :=
  _ ← checked SysCreate p;
  fs ← get;
  match fs !! p with
  | None => _ ← in_directory p; modify (insert p (Regular (masked 0x1b6) ""))
  | Some (Regular m _) => modify (insert p (Regular m ""))
  | Some _ => throw ErrIsDir
  end.

Definition set_content (p : path) (c : string) : M Fs unit :=
  modify (alter (fun n => match n with Regular m _ => Regular m c | n => n end) p).

(** [io.Copy] into an open file. *)
Definition Copy (p : path) (c : string) : M Fs unit :=
  fs ← get;
  match cut p fs with
  | Some (n, e) => _ ← set_content p (str_take n c); throw e
  | None => set_content p c
  end.

Definition Chmod (p : path) (mode : Z) : M Fs unit :=
  _ ← checked SysChmod p;
  modify (alter (fun n => match n with Regular _ c => Regular mode c | n => n end) p).

(** [os.RemoveAll]: nothing to remove is no error. *)
Definition RemoveAll (p : path) : M Fs unit :=
  _ ← checked SysRemove p;
  modify (filter (fun kv => ~ p `prefix_of` kv.1)).

(** The error of closing the output replaces any other. *)
Definition CopyFile (src dst : path) : M Fs unit :=
  content ← Open src;
  _ ← Create dst;
  r ← try (_ ← Copy dst content;
           _ ← checked SysSync dst;
           si ← Stat src;
           Chmod dst (mode_of si));
  _ ← checked SysClose dst;
  lift r.

Section Loop.
Context (CopyDir : path -> path -> M Fs unit).

Fixpoint copy_entries (src dst : path) (es : list (string * inode)) : M Fs unit :=
  match es with
  | [] => mret tt
  | (name, entry) :: es' =>
      let srcPath := src ++ [name] in
      let dstPath := dst ++ [name] in
      _ ← (if is_directory entry then CopyDir srcPath dstPath
           else if is_symlink entry then mret tt
           else CopyFile srcPath dstPath);
      copy_entries src dst es'
  end.
End Loop.

(** The fuel bounds the depth of the recursion. *)
Fixpoint CopyDir (fuel : nat) (src dst : path) : M Fs unit :=
  match fuel with
  | O => throw ErrFuel
  | S fuel' =>
      si ← Stat src;
      if negb (is_directory si) then throw (Errorf "source is not a directory") else
      r ← try (Stat dst);
      match r with
      | Ok _ => throw (Errorf "destination already exists")
      | Err e =>
          if negb (IsNotExist e) then throw e else
          _ ← MkdirAll dst (mode_of si);
          es ← ReadDir src;
          copy_entries (CopyDir fuel') src dst es
      end
  end.
End Calls.

(** ** What a copy leaves alone *)
Section Frame.
Context `{Kernel}.

(** Outside [dst] nothing that exists is changed; only directories missing on the
    way to [dst] appear. *)
Definition beside (dst : path) (fs fs' : Fs) : Prop :=
  forall q, ~ dst `prefix_of` q ->
    fs' !! q = fs !! q \/ (fs !! q = None /\ q `prefix_of` dst /\ exists m, fs' !! q = Some (Directory m)).

#[export] Instance beside_preorder dst : PreOrder (beside dst).
Proof.
  split; [by left|]. intros fs1 fs2 fs3 H1 H2 q Hq.
  destruct (H1 q Hq) as [E1|(N1 & P1 & m1 & E1)], (H2 q Hq) as [E2|(N2 & P2 & m2 & E2)];
    [left; congruence|right; split_and!; [congruence|done|by exists m2]
    |right; split_and!; [done|done|exists m1; congruence]|congruence].
Qed.

(** A change of one file below [dst]. *)
Lemma beside_insert dst p n fs : dst `prefix_of` p -> beside dst fs (<[p := n]> fs).
Proof. intros Hp q Hq. left. apply lookup_insert_ne. by intros ->. Qed.

Lemma beside_alter dst p f fs : dst `prefix_of` p -> beside dst fs (alter f p fs).
Proof. intros Hp q Hq. left. apply lookup_alter_ne. by intros ->. Qed.

Lemma beside_deeper dst n fs fs' : beside (dst ++ [n]) fs fs' -> beside dst fs fs'.
Proof.
  intros Hb q Hq. destruct (Hb q) as [?|(? & Hp & ?)].
  - intros Hp. apply Hq. etrans; [|done]. by apply prefix_app_r.
  - by left.
  - right. split_and!; [done| |done]. destruct Hp as [k Hk]. destruct k as [|x k _] using rev_ind.
    + rw app_nil_r in Hk. subst q. destruct Hq. by apply prefix_app_r.
    + rw app_assoc in Hk. apply app_inj_tail in Hk as [-> _]. by apply prefix_app_r.
Qed.

Lemma beside_checked dst c p : stays (beside dst) (checked c p).
Proof. unfold checked. stays. Qed.
#[local] Hint Resolve beside_checked : stays.

Lemma beside_Stat dst p : stays (beside dst) (Stat p).
Proof. unfold Stat. stays. Qed.
#[local] Hint Resolve beside_Stat : stays.

Lemma beside_ReadDir dst p : stays (beside dst) (ReadDir p).
Proof. unfold ReadDir. stays. Qed.
#[local] Hint Resolve beside_ReadDir : stays.

Lemma beside_Open dst p : stays (beside dst) (Open p).
Proof. unfold Open. stays. Qed.
#[local] Hint Resolve beside_Open : stays.

Lemma beside_in_directory dst p : stays (beside dst) (in_directory p).
Proof. unfold in_directory. stays. Qed.
#[local] Hint Resolve beside_in_directory : stays.

Lemma in_directory_same p fs : (in_directory p fs).2 = fs.
Proof. unfold in_directory. munfold. by destruct (_ !! _) as [[]|]. Qed.

(** A directory on the way to [dst], or [dst] itself. *)
Lemma beside_Mkdir dst p mode : p `prefix_of` dst -> stays (beside dst) (Mkdir p mode).
Proof.
  intros Hp. unfold Mkdir. stays_step; [stays|]. intros fs. munfold. case_bool_decide as Hex; [done|].
  pose proof (in_directory_same p fs) as Hsame. munfold.
  destruct (in_directory p fs) as [[u|e] fs']; simpl in *; subst fs'; [|done].
  intros q Hq. destruct (decide (q = p)) as [->|].
  - right. split_and!; [by apply eq_None_not_Some|done|]. eexists. apply lookup_insert_eq.
  - left. by apply lookup_insert_ne.
Qed.

Lemma beside_MkdirAll_go dst rp mode : reverse rp `prefix_of` dst -> stays (beside dst) (MkdirAll_go rp mode).
Proof.
  induction rp as [|n rp IH]; intros Hp; cbn [MkdirAll_go]; [stays|].
  assert (reverse rp `prefix_of` dst).
  { etrans; [|exact Hp]. rw reverse_cons. by apply prefix_app_r. }
  pose proof (beside_Mkdir dst _ mode Hp). stays; auto.
Qed.

Lemma beside_MkdirAll dst mode : stays (beside dst) (MkdirAll dst mode).
Proof. apply beside_MkdirAll_go. by rw reverse_involutive. Qed.
#[local] Hint Resolve beside_MkdirAll : stays.

Lemma beside_CopyFile src dst : stays (beside dst) (CopyFile src dst).
Proof.
  unfold CopyFile, Create, Copy, set_content, Chmod. stays; apply stays_modify; intros fs;
    by [apply beside_insert|apply beside_alter].
Qed.

Lemma beside_weaken dst n {A} (m : M Fs A) : stays (beside (dst ++ [n])) m -> stays (beside dst) m.
Proof. intros Hm fs. apply (beside_deeper _ n), Hm. Qed.

(** C26. Copying never damages what was there: whatever calls the kernel refuses
    and wherever the copy stops, nothing that existed outside the destination is
    changed or removed; at most the directories missing on the way to the
    destination are created. *)
Theorem CopyDir_frame fuel src dst fs : beside dst fs (CopyDir fuel src dst fs).2.
Proof.
  enough (Hs : stays (beside dst) (CopyDir fuel src dst)) by apply Hs.
  revert src dst. induction fuel as [|fuel IH]; intros src dst; cbn [CopyDir]; [stays|].
  assert (Hloop : forall es, stays (beside dst) (copy_entries (CopyDir fuel) src dst es)).
  { induction es as [|[name entry] es IHes]; cbn [copy_entries]; [stays|].
    stays_step; [|intros; apply IHes]. apply (beside_weaken _ name).
    destruct (is_directory entry); [apply IH|]. destruct (is_symlink entry); [stays|apply beside_CopyFile]. }
  stays.
Qed.
End Frame.

(** ** A copy that is not refused *)

Class Willing `{Kernel} : Prop := {
  never_refuses c p fs : refuses c p fs = None;
  never_cut p fs : cut p fs = None;
}.

(** What becomes of a file: links are skipped, new directories get the mask. *)
Definition copied `{Kernel} (n : inode) : option inode :=
  match n with
  | Regular m c => Some (Regular m c)
  | Directory m => Some (Directory (masked m))
  | Symlink _ => None
  end.

(** Everything below [src] is in a directory. *)
Definition tree_ok (fs : Fs) (src : path) : Prop :=
  forall p n i, fs !! (src ++ p ++ [n]) = Some i -> exists m, fs !! (src ++ p) = Some (Directory m).

(** Nothing below [src] is more than [k] elements deep. *)
Definition depth_below (fs : Fs) (src : path) (k : nat) : Prop :=
  forall p, is_Some (fs !! (src ++ p)) -> (length p < k)%nat.

Lemma tree_ok_child fs src n : tree_ok fs src -> tree_ok fs (src ++ [n]).
Proof. intros Ht p x i Hi. rw -app_assoc. apply (Ht ([n] ++ p) x i). by rw -!app_assoc in Hi |- *. Qed.

Lemma tree_ok_leaf fs src p :
  tree_ok fs src -> (forall m, fs !! src <> Some (Directory m)) -> p <> [] -> fs !! (src ++ p) = None.
Proof.
  intros Ht Hno. induction p as [|n p IH] using rev_ind; [done|]. intros _.
  destruct (fs !! (src ++ p ++ [n])) as [i|] eqn:E; [|done]. destruct (Ht p n i E) as [m Hm].
  destruct p as [|x p]; [rw app_nil_r in Hm; by destruct (Hno m)|]. rw IH // in Hm.
Qed.

Lemma depth_below_child fs src n k : depth_below fs src (S k) -> depth_below fs (src ++ [n]) k.
Proof.
  intros Hd p Hp. rw -app_assoc in Hp. specialize (Hd ([n] ++ p) Hp). simpl in Hd. lia.
Qed.

Lemma child_of_Some p q j n i : child_of p (q, j) = Some (n, i) <-> q = p ++ [n] /\ j = i.
Proof.
  unfold child_of. simpl. split.
  - case_bool_decide as Hb; [|done]. destruct Hb as [<- Hne].
    destruct q as [|x q _] using rev_ind; [done|]. rw last_snoc removelast_last. cbn. by intros [= -> ->].
  - intros [-> ->]. rw bool_decide_true; [split; [apply removelast_last|by destruct p]|]. by rw last_snoc.
Qed.

Lemma elem_of_entries fs p n i : (n, i) ∈ entries fs p <-> fs !! (p ++ [n]) = Some i.
Proof.
  unfold entries. rw merge_sort_Permutation list_elem_of_omap. split.
  - intros ([q j] & Hq & [-> ->]%child_of_Some). by apply elem_of_map_to_list.
  - intros Hi. exists (p ++ [n], i). split; [by apply elem_of_map_to_list|]. by apply child_of_Some.
Qed.

Lemma NoDup_children p (l : list (path * inode)) : NoDup l.*1 -> NoDup (omap (child_of p) l).*1.
Proof.
  induction l as [|[q j] l IH]; intros Hnd; [constructor|].
  rw fmap_cons in Hnd. apply NoDup_cons in Hnd as [Hq Hnd]. specialize (IH Hnd). cbn [omap list_omap].
  destruct (child_of p (q, j)) as [[n i]|] eqn:E; [|done]. apply child_of_Some in E as [-> ->].
  rw fmap_cons. constructor; [|done]. intros Hin. apply Hq.
  apply list_elem_of_fmap in Hin as ([n' i'] & Hn & Hin). cbn in Hn. subst n'.
  apply list_elem_of_omap in Hin as ([q' j'] & Hq' & [-> ->]%child_of_Some).
  apply list_elem_of_fmap. by exists (p ++ [n], i').
Qed.

Lemma NoDup_entries fs p : NoDup (entries fs p).*1.
Proof. unfold entries. rw merge_sort_Permutation. apply NoDup_children, NoDup_fst_map_to_list. Qed.

Section Success.
Context `{Willing}.

Lemma checked_ok c p fs : checked c p fs = (Ok tt, fs).
Proof. unfold checked. munfold. by rw never_refuses. Qed.

Lemma Stat_missing p fs : fs !! p = None -> Stat p fs = (Err ErrNotExist, fs).
Proof. intros E. unfold Stat. munfold. rw checked_ok. by rw E. Qed.

Lemma Stat_found p n fs : fs !! p = Some n -> is_symlink n = false -> Stat p fs = (Ok n, fs).
Proof. intros E Hn. unfold Stat. munfold. rw checked_ok. rw E. by destruct n. Qed.

Lemma MkdirAll_ok parent n mode m fs :
  fs !! parent = Some (Directory m) -> fs !! (parent ++ [n]) = None ->
  MkdirAll (parent ++ [n]) mode fs = (Ok tt, <[parent ++ [n] := Directory (masked mode)]> fs).
Proof.
  intros Hp Hn. unfold MkdirAll. rw reverse_snoc. cbn [MkdirAll_go]. rw reverse_cons reverse_involutive.
  assert (Hup : MkdirAll_go (reverse parent) mode fs = (Ok tt, fs)).
  { destruct parent as [|x parent _] using rev_ind; [done|]. rw reverse_snoc. cbn [MkdirAll_go].
    rw reverse_cons reverse_involutive. unfold try. munfold. by rw (Stat_found _ _ _ Hp). }
  unfold try at 1. munfold. rw Stat_missing // Hup. unfold try, Mkdir, in_directory. munfold.
  rw checked_ok. rw Hn. rw bool_decide_false; [by intros []|]. rw removelast_last. by rw Hp.
Qed.

Lemma CopyFile_ok src parent n mode c m fs :
  fs !! src = Some (Regular mode c) -> fs !! parent = Some (Directory m) -> fs !! (parent ++ [n]) = None ->
  CopyFile src (parent ++ [n]) fs = (Ok tt, <[parent ++ [n] := Regular mode c]> fs).
Proof.
  intros Hs Hp Hn. assert (Hne : parent ++ [n] <> src) by (intros <-; by rw Hn in Hs).
  unfold CopyFile, Open, Create, Copy, set_content, Chmod, in_directory, try. munfold.
  rw !checked_ok. rw Hs. rw !checked_ok. rw Hn. rw removelast_last. rw Hp. rw never_cut. rw !checked_ok.
  rw (Stat_found src (Regular mode c)) //; [by rw lookup_alter_ne // lookup_insert_ne|].
  rw !checked_ok. do 2 f_equal. by rw !alter_insert_eq.
Qed.

(** [fs'] is [fs] with the tree at [src] copied to [dst]. *)
Definition is_copy (src dst : path) (fs fs' : Fs) : Prop :=
  (forall p, fs' !! (dst ++ p) = fs !! (src ++ p) ≫= copied) /\
  (forall q, ~ dst `prefix_of` q -> fs' !! q = fs !! q).

(** A tree of [fs] that can be copied to a place that is free. *)
Record ready (fs : Fs) (src dst : path) (fuel : nat) : Prop := {
  rd_tree : tree_ok fs src;
  rd_depth : depth_below fs src fuel;
  rd_free : forall p, fs !! (dst ++ p) = None;
  rd_apart : ~ src `prefix_of` dst;
}.

(** The place is not in the way of the tree. *)
Lemma ready_disjoint fs src dst fuel p :
  ready fs src dst fuel -> is_Some (fs !! src) -> ~ dst `prefix_of` (src ++ p).
Proof.
  intros [_ _ Hfree Hapart] [i Hi] Hp. destruct (prefix_weak_total dst src (src ++ p)) as [[k ->]|Hsd]; [done| | |done].
  - by apply prefix_app_r.
  - by rw Hfree in Hi.
Qed.

(** A recursive call with this fuel copies. *)
Definition copies (fuel : nat) : Prop := forall src parent n fs m m',
  fs !! src = Some (Directory m) -> fs !! parent = Some (Directory m') -> ready fs src (parent ++ [n]) fuel ->
  exists fs', CopyDir fuel src (parent ++ [n]) fs = (Ok tt, fs') /\ is_copy src (parent ++ [n]) fs fs'.

Lemma app_not_self (d p : path) : d = d ++ p -> p = [].
Proof. intros E. apply (f_equal length) in E. rw length_app in E. destruct p; [done|simpl in E; lia]. Qed.

Lemma snoc_prefix (src dst : path) n : src ++ [n] `prefix_of` dst ++ [n] -> src `prefix_of` dst.
Proof.
  intros [k Hk]. destruct k as [|x k _] using rev_ind.
  - rw app_nil_r in Hk. by apply app_inj_tail in Hk as [-> _].
  - rw app_assoc in Hk. apply app_inj_tail in Hk as [-> _]. rw -app_assoc. apply prefix_app_r. done.
Qed.

Lemma ready_child fs src dst n fuel :
  tree_ok fs src -> depth_below fs src (S fuel) -> ~ src `prefix_of` dst -> (forall p, fs !! (dst ++ n :: p) = None) ->
  ready fs (src ++ [n]) (dst ++ [n]) fuel.
Proof.
  intros Ht Hd Ha Hf. split; [by apply tree_ok_child|by apply depth_below_child| |by intros ?%snoc_prefix].
  intros p. rw -app_assoc. apply Hf.
Qed.

(** One entry of a directory. *)
Lemma copy_one fuel src dst n i m fs :
  copies fuel -> fs !! (src ++ [n]) = Some i -> fs !! dst = Some (Directory m) ->
  ready fs (src ++ [n]) (dst ++ [n]) fuel ->
  exists fs', (if is_directory i then CopyDir fuel (src ++ [n]) (dst ++ [n])
    else if is_symlink i then mret tt else CopyFile (src ++ [n]) (dst ++ [n])) fs = (Ok tt, fs') /\
    is_copy (src ++ [n]) (dst ++ [n]) fs fs'.
Proof.
  intros Hrec Hi Hdst Hr.
  assert (Hfree : forall p, fs !! ((dst ++ [n]) ++ p) = None) by apply Hr.
  pose proof (Hfree []) as Hnone. rw app_nil_r in Hnone.
  destruct i as [mode c|mode|t]; simpl.
  - rw (CopyFile_ok _ _ _ mode c m) //. eexists. split; [done|]. split.
    + intros p. destruct (decide (p = [])) as [->|Hp]; [rw !app_nil_r Hi; apply lookup_insert_eq|].
      rw (tree_ok_leaf fs (src ++ [n]) p) //; [apply Hr|by intros ?; rw Hi|].
      rw lookup_insert_ne //. by intros ?%app_not_self.
    + intros q Hq. apply lookup_insert_ne. intros <-. by apply Hq.
  - by apply (Hrec _ _ _ _ mode m).
  - exists fs. split; [done|]. split; [|done]. intros p. rw Hfree.
    destruct (decide (p = [])) as [->|Hp]; [by rw app_nil_r Hi|].
    rw (tree_ok_leaf fs (src ++ [n]) p) //; [apply Hr|by intros ?; rw Hi].
Qed.

(** The state of the loop: of the directory [dst] the entries in [names] are
    missing, and outside of it [fs] is unchanged. *)
Record halfway (fs : Fs) (dst : path) (m : Z) (names : list string) (fs1 : Fs) : Prop := {
  hw_out q : ~ dst `prefix_of` q -> fs1 !! q = fs !! q;
  hw_dst : fs1 !! dst = Some (Directory m);
  hw_free n p : n ∈ names -> fs1 !! (dst ++ n :: p) = None;
}.

Lemma halfway_ready fs src dst m names fs1 fuel n :
  is_Some (fs !! src) -> ready fs src dst (S fuel) -> halfway fs dst m names fs1 -> n ∈ names ->
  (forall p, fs1 !! (src ++ p) = fs !! (src ++ p)) /\ ready fs1 (src ++ [n]) (dst ++ [n]) fuel.
Proof.
  intros Hsrc Hr [Hout Hdst Hfree] Hn.
  assert (Hin : forall p, fs1 !! (src ++ p) = fs !! (src ++ p)).
  { intros p. apply Hout. by apply (ready_disjoint fs src dst (S fuel)). }
  split; [done|]. destruct Hr as [Ht Hd _ Ha]. apply ready_child; [| |done|by intros p; apply Hfree].
  - intros p x i. rw !Hin. apply Ht.
  - intros p. rw Hin. apply Hd.
Qed.

Lemma copy_entries_ok fuel src dst fs m es fs1 :
  copies fuel -> is_Some (fs !! src) -> ready fs src dst (S fuel) ->
  NoDup es.*1 -> (forall n i, (n, i) ∈ es -> fs !! (src ++ [n]) = Some i) -> halfway fs dst m es.*1 fs1 ->
  exists fs2, copy_entries (CopyDir fuel) src dst es fs1 = (Ok tt, fs2) /\ halfway fs dst m [] fs2 /\
    (forall n p, n ∈ es.*1 -> fs2 !! (dst ++ n :: p) = fs !! (src ++ n :: p) ≫= copied) /\
    (forall n p, n ∉ es.*1 -> fs2 !! (dst ++ n :: p) = fs1 !! (dst ++ n :: p)).
Proof.
  intros Hrec Hsrc Hr. revert fs1. induction es as [|[n i] es IHes]; intros fs1 Hnd Hes Hw.
  { exists fs1. split_and!; [done|by destruct Hw|set_solver|done]. }
  rw fmap_cons in Hnd. apply NoDup_cons in Hnd as [Hn Hnd]. cbn in Hn.
  destruct (halfway_ready fs src dst m _ fs1 fuel n Hsrc Hr Hw) as [Hin Hr1]; [by left|].
  destruct (copy_one fuel src dst n i m fs1) as (fs1' & Hrun & Hcopy & Hout'); [done| |apply Hw|done|].
  { rw Hin. apply Hes. by left. }
  assert (Hother : forall x p, x <> n -> fs1' !! (dst ++ x :: p) = fs1 !! (dst ++ x :: p)).
  { intros x p Hx. apply Hout'. intros [k Hk]. rw -app_assoc in Hk. apply app_inv_head in Hk. by injection Hk. }
  destruct (IHes fs1') as (fs2 & Hrun2 & Hw2 & Hnew & Hold); [done|intros x j ?; apply Hes; by right| |].
  { destruct Hw as [Hout Hdst Hfree]. split.
    - intros q Hq. rw Hout' ?Hout //. intros Hp. apply Hq. etrans; [|exact Hp]. by apply prefix_app_r.
    - rw Hout' //. intros [k Hk]. rw -app_assoc in Hk. by apply app_not_self in Hk.
    - intros x p Hx. rw Hother; [by intros ->|]. apply Hfree. by right. }
  exists fs2. cbn [copy_entries]. split_and!; [by munfold; rw Hrun|done| |].
  - intros x p Hx. destruct (decide (x = n)) as [->|Hne].
    + rw Hold // -Hin. specialize (Hcopy p). by rw -!app_assoc in Hcopy.
    + apply Hnew. rw fmap_cons in Hx. set_solver.
  - intros x p Hx. rw fmap_cons in Hx. rw Hold; [set_solver|]. apply Hother. set_solver.
Qed.

Lemma CopyDir_copies fuel : copies fuel.
Proof.
  induction fuel as [|fuel IH]; intros src parent n fs m m' Hs Hp Hr.
  { exfalso. pose proof (rd_depth _ _ _ _ Hr []) as Hd. rw app_nil_r in Hd. specialize (Hd ltac:(by eexists)).
    simpl in Hd. lia. }
  set (dst := parent ++ [n]) in *. pose proof (rd_free _ _ _ _ Hr []) as Hnone. rw app_nil_r in Hnone.
  set (fs1 := <[dst := Directory (masked m)]> fs).
  assert (Hw : forall names, halfway fs dst (masked m) names fs1).
  { intros names. split; [intros q Hq; apply lookup_insert_ne; intros <-; by apply Hq|apply lookup_insert_eq|].
    intros x p _. unfold fs1. rw lookup_insert_ne; [|apply (rd_free _ _ _ _ Hr)].
    by intros ?%app_not_self. }
  assert (Hsrc : forall p, fs1 !! (src ++ p) = fs !! (src ++ p)).
  { intros p. apply (hw_out _ _ _ _ _ (Hw [])). by apply (ready_disjoint fs src dst (S fuel)). }
  destruct (copy_entries_ok fuel src dst fs (masked m) (entries fs1 src) fs1) as (fs2 & Hrun & Hw2 & Hnew & Hold);
    [done|by eexists|done|apply NoDup_entries|intros x i; by rw elem_of_entries Hsrc|apply Hw|].
  exists fs2. split.
  - cbn [CopyDir]. unfold try at 1. munfold. rw (Stat_found _ _ _ Hs) //. cbn [is_directory negb].
    rw Stat_missing //. cbn [mode_of]. change (IsNotExist ErrNotExist) with true. cbn [negb].
    rw (MkdirAll_ok parent n m m' fs) //. fold dst fs1. unfold ReadDir. munfold. rw checked_ok.
    specialize (Hsrc []). rw app_nil_r in Hsrc. by rw Hsrc Hs.
  - split; [|intros q Hq; by apply (hw_out _ _ _ _ _ Hw2)].
    intros [|x p]; [rw !app_nil_r Hs; apply (hw_dst _ _ _ _ _ Hw2)|].
    destruct (decide (x ∈ (entries fs1 src).*1)) as [Hx|Hx]; [by apply Hnew|].
    rw Hold //. replace (fs !! (src ++ x :: p)) with (@None inode); [by apply (hw_free _ _ _ [x] _ (Hw [x])); left|].
    destruct (fs !! (src ++ [x])) as [i|] eqn:Ex.
    { exfalso. apply Hx. apply list_elem_of_fmap. exists (x, i). split; [done|]. by rw elem_of_entries Hsrc. }
    symmetry. destruct p as [|y p]; [done|]. change (x :: y :: p) with ([x] ++ y :: p). rw app_assoc.
    apply tree_ok_leaf; [by apply tree_ok_child, Hr|by rw Ex|done].
Qed.

(** C25. A copy that is not refused is complete.  Let [src] be a directory whose
    files are all in directories, at most [fuel] deep, and let the destination be
    free, in an existing directory and not below [src].  Then the recursion ends
    and succeeds: below the destination there is exactly what is below [src],
    with contents and permissions, except that links are missing and directories
    have the mask applied, and nothing else has changed. *)
Theorem CopyDir_spec fuel src parent n m m' fs :
  fs !! src = Some (Directory m) -> fs !! parent = Some (Directory m') -> ready fs src (parent ++ [n]) fuel ->
  exists fs', CopyDir fuel src (parent ++ [n]) fs = (Ok tt, fs') /\
    (forall p, fs' !! ((parent ++ [n]) ++ p) = fs !! (src ++ p) ≫= copied) /\
    (forall q, ~ parent ++ [n] `prefix_of` q -> fs' !! q = fs !! q).
Proof. intros Hs Hp Hr. by apply (CopyDir_copies fuel src parent n fs m m'). Qed.

Lemma entries_singleton fs p n i :
  fs !! (p ++ [n]) = Some i -> (forall x, x <> n -> fs !! (p ++ [x]) = None) -> entries fs p = [(n, i)].
Proof.
  intros Hn Hother. pose proof (NoDup_entries fs p) as Hnd.
  assert (Hall : forall x j, (x, j) ∈ entries fs p <-> x = n /\ j = i).
  { intros x j. rw elem_of_entries. split; [|intros [-> ->]; done]. intros Hx.
    destruct (decide (x = n)) as [->|Hne]; [naive_solver congruence|]. by rw Hother in Hx. }
  destruct (entries fs p) as [|[x j] l]; [exfalso; by apply (not_elem_of_nil (n, i)), Hall|].
  destruct (proj1 (Hall x j)) as [-> ->]; [by left|]. destruct l as [|[y k] l]; [done|].
  destruct (proj1 (Hall y k)) as [-> ->]; [by right; left|]. cbn in Hnd. apply NoDup_cons in Hnd as [[] _]. by left.
Qed.

(** Copying an empty directory into itself does not end: the new entry is
    found and copied in turn, and no fuel is enough. *)
Theorem CopyDir_into_itself fuel src n m fs :
  fs !! src = Some (Directory m) -> (forall p, p <> [] -> fs !! (src ++ p) = None) ->
  (CopyDir fuel src (src ++ [n]) fs).1 = Err ErrFuel.
Proof.
  revert src m fs. induction fuel as [|fuel IH]; intros src m fs Hs Hempty; [done|].
  assert (Hn : fs !! (src ++ [n]) = None) by by apply Hempty.
  cbn [CopyDir]. unfold try at 1. munfold. rw (Stat_found _ _ _ Hs) //. cbn [is_directory negb].
  rw Stat_missing //. cbn [mode_of]. change (IsNotExist ErrNotExist) with true. cbn [negb].
  rw (MkdirAll_ok src n m m fs) //. set (fs1 := <[src ++ [n] := Directory (masked m)]> fs).
  assert (Hs1 : fs1 !! src = Some (Directory m)).
  { unfold fs1. rw lookup_insert_ne //. by intros E%eq_sym%app_not_self. }
  unfold ReadDir. munfold. rw checked_ok. rw Hs1.
  rw (entries_singleton fs1 src n (Directory (masked m))); [apply lookup_insert_eq| |].
  { intros x Hx. unfold fs1. rw lookup_insert_ne; [|by apply Hempty]. intros E. by apply app_inj_tail in E as [_ ?]. }
  cbn [copy_entries is_directory]. munfold.
  assert (Hrec : (CopyDir fuel (src ++ [n]) ((src ++ [n]) ++ [n]) fs1).1 = Err ErrFuel).
  { apply (IH _ (masked m)); [apply lookup_insert_eq|]. intros p Hp. unfold fs1.
    rw lookup_insert_ne; [by intros ?%app_not_self|]. rw -app_assoc. by apply Hempty. }
  destruct (CopyDir fuel _ _ fs1) as [[u|e] fs2]; [done|]. exact Hrec.
Qed.

(** Removing a tree removes it and nothing else. *)
Lemma RemoveAll_ok p fs :
  exists fs', RemoveAll p fs = (Ok tt, fs') /\ (forall q, p `prefix_of` q -> fs' !! q = None) /\
    (forall q, ~ p `prefix_of` q -> fs' !! q = fs !! q).
Proof.
  unfold RemoveAll. munfold. rw checked_ok. eexists. split; [done|]. split; intros q Hq.
  - apply map_lookup_filter_None. right. by intros i _ [].
  - destruct (fs !! q) as [i|] eqn:E.
    + by apply map_lookup_filter_Some.
    + apply map_lookup_filter_None. by left.
Qed.
End Success.

Lemma copied_twice `{Kernel} n : copied n ≫= copied = copied n.
Proof.
  destruct n as [m c|m|t]; try done. cbn. do 2 f_equal. unfold masked.
  by rw -Z.land_assoc Z.land_diag.
Qed.

(** ** A small tree *)

#[local] Instance demo_kernel : Kernel := {|
  refuses := fun _ _ _ => None; cut := fun _ _ => None; follow := fun _ _ => Err ErrNotExist; umask := 0x12 |}.

#[local] Instance demo_willing : Willing.
Proof. by split. Qed.

Definition demo_fs : Fs := list_to_map
  [([], Directory 0x1ed); (["img"], Directory 0x1ff); (["img"; "a"], Regular 0x1a4 "unikernel");
   (["img"; "l"], Symlink "a")].

Lemma demo_paths p i : demo_fs !! p = Some i -> p ∈ [[]; ["img"]; ["img"; "a"]; ["img"; "l"]].
Proof.
  intros Hp. apply elem_of_list_to_map_2 in Hp. set_solver.
Qed.

Lemma demo_ready : ready demo_fs ["img"] ["tmp"] 2.
Proof.
  split.
  - intros p n i Hi. pose proof (demo_paths _ _ Hi) as Hin. destruct p as [|x p]; [by eexists|].
    destruct p; set_solver.
  - intros p [i Hi%demo_paths]. destruct p as [|x [|y p]]; simpl in *; [lia|lia|]. set_solver.
  - intros p. destruct (demo_fs !! _) eqn:E; [|done]. apply demo_paths in E. set_solver.
  - intros [k Hk]. done.
Qed.

Lemma CopyDir_spec_witness :
  exists fs', CopyDir 2 ["img"] ["tmp"] demo_fs = (Ok tt, fs') /\
    (forall p, fs' !! (["tmp"] ++ p) = demo_fs !! (["img"] ++ p) ≫= copied) /\
    (forall q, ~ ["tmp"] `prefix_of` q -> fs' !! q = demo_fs !! q).
Proof.
  apply (CopyDir_spec 2 ["img"] [] "tmp" 0x1ff 0x1ed demo_fs); [reflexivity|reflexivity|exact demo_ready].
Defined.

Lemma CopyDir_into_itself_witness :
  (CopyDir 7 ["e"] ["e"; "x"] (<[["e"] := Directory 0x1ff]> ∅)).1 = Err ErrFuel.
Proof.
  apply (CopyDir_into_itself 7 ["e"] "x" 0x1ff (<[["e"] := Directory 0x1ff]> ∅)); [reflexivity|].
  intros [|x p] Hp; [done|]. rw lookup_insert_ne //.
Defined.

End Files.
