(* ===== verification/Interfaces.v ===== *)
(** * The interfaces a sandbox calls

    The hypervisor ([Hypervisor], hypervisor.go), the agent ([agent],
    agent.go), the filesystem sharing ([FilesystemSharer], fs_share.go), the
    resource controllers (resourcecontrol), the persistent store
    ([PersistDriver], persist/api), the network and the operating system, each
    a class of operations on the outside world [W].  A call may fail and may
    change the world in any way; what the callers rely on beyond that is stated
    in the [Laws] classes.  [Sys] is the state the methods of [Sandbox] and
    [Container] work on. *)
From S2P Require Import Prelude GoStr Types Devices DeviceManager Hypervisor State Persist Mounts.
Import Types.Lifecycle Types.Caps Types.PciPaths Devices.Config Devices.Drivers DeviceManager.DeviceManager.
Import HypervisorConf State Persist Mounts.

Module Interfaces.

(** What [devInfo interface{}] is for a device type. *)
Definition devInfo (t : HypervisorConf.DeviceType) : Type :=
  match t with
  | BlockDev => BlockDrive
  | VfioDev => VFIODev
  | VhostuserDev => VhostUserDeviceAttrs
  | _ => unit
  end.

(** A plugging call receives a pointer to the description and may fill it in.
    [ResizeMemory] returns its values together with its error, which one of
    its callers goes on with. *)
Class Hypervisor (W : Type) : Type := {
  hv_saved : Type;
  hv_Save : W -> hv_saved;
  hv_Load : hv_saved -> W -> W;
  hv_HypervisorConfig : W -> HypervisorConfig;
  hv_Capabilities : W -> Capabilities;
  hv_Unikernel : W -> bool;
  hv_GetPids : W -> list Z;
  (** it fills in the defaults of the configuration it is given *)
  hv_CreateVM : string -> M (HypervisorConfig * W) unit;
  hv_StartVM : M W unit;
  hv_StopVM : bool -> M W unit;
  hv_AddDevice : forall t, M (devInfo t * W) unit;
  hv_HotplugAddDevice : forall t, M (devInfo t * W) unit;
  hv_HotplugRemoveDevice : forall t, M (devInfo t * W) unit;
  hv_ResizeMemory : Z -> Z -> bool -> W -> (Z * MemoryDevice * option error) * W;
  hv_ResizeVCPUs : Z -> M W (Z * Z);
  hv_GetThreadIDs : M W (list Z);
  hv_Cleanup : M W unit;
  hv_Disconnect : M W unit;
}.

(** A hypervisor fills in guest addresses but does not renumber a drive. *)
Definition same_index {t} : devInfo t -> devInfo t -> Prop :=
  match t with
  | BlockDev => fun d d' => bd_Index d' = bd_Index d
  | VhostuserDev => fun d d' => vu_Index d' = vu_Index d
  | _ => fun _ _ => True
  end.

Class HypervisorLaws (W : Type) `{Hypervisor W} : Prop := {
  hv_add_index t d w : same_index d (hv_HotplugAddDevice t (d, w)).2.1;
  hv_remove_index t d w : same_index d (hv_HotplugRemoveDevice t (d, w)).2.1;
  hv_append_index t d w : same_index d (hv_AddDevice t (d, w)).2.1;
}.

(** The state of the methods: the device manager and the global
    [AllPCIeDevs] beside the sandbox. *)
Definition Sys (W : Type) : Type := World (Sandbox W).

(** The agent in the guest.  Creating a container shares its mounts, attaches
    its block volumes through the device manager and extends its device list,
    so it works on the whole state; the argument is the container's address. *)
Class Agent (W : Type) : Type := {
  ag_capabilities : W -> Capabilities;
  ag_url : W -> string;
  ag_load : string -> W -> W;
  ag_init : KataAgentConfig -> M W bool;
  ag_createSandbox : M W unit;
  ag_startSandbox : M W unit;
  ag_stopSandbox : M W unit;
  ag_createContainer : nat -> M (Sys W) Process;
  ag_startContainer : Container -> M W unit;
  ag_stopContainer : Container -> M W unit;
  ag_signalProcess : Container -> string -> Z -> bool -> M W unit;
  ag_winsizeProcess : Container -> string -> Z -> Z -> M W unit;
  ag_waitProcess : Container -> string -> M W Z;
  ag_exec : Container -> M W Process;
  ag_updateContainer : Container -> option LinuxCPU -> option LinuxMemory -> M W unit;
  ag_pauseContainer : Container -> M W unit;
  ag_resumeContainer : Container -> M W unit;
  ag_statsContainer : Container -> M W unit;
  ag_onlineCPUMem : Z -> bool -> M W unit;
  ag_memHotplugByProbe : Z -> Z -> Z -> M W unit;
  ag_addSwap : PciPath -> M W unit;
  ag_disconnect : M W unit;
  (** memory block size in bytes, support for memory hotplug by probing *)
  ag_getGuestDetails : M W (option (Z * bool));
}.

(** [fs_ShareFile] returns the path in the guest, or nil for a file to ignore. *)
Class FilesystemSharer (W : Type) : Type := {
  fs_Prepare : M W unit;
  fs_Cleanup : M W unit;
  fs_ShareFile : Container -> M (Mount * W) (option string);
  fs_UnshareFile : Container -> Mount -> M W unit;
  (** the path in the guest *)
  fs_ShareRootFilesystem : Container -> M W string;
  fs_UnshareRootFilesystem : Container -> M W unit;
  nydusContainerCleanup : Container -> M W unit;
}.

Class ResourceController (W : Type) : Type := {
  (** [createResourceController]: the identifier of the sandbox group and, unless
      there is only one, of the overhead group *)
  rc_Create : bool -> M W (string * option string);
  rc_AddDevice : string -> M W unit;
  rc_RemoveDevice : string -> M W unit;
  rc_UpdateCpuSet : string -> string -> M W unit;
  rc_AddThread : Z -> M W unit;
  (** to the group for overhead if there is one *)
  rc_AddProcess : Z -> M W unit;
  rc_Load : string -> M W unit;
  rc_MoveToParent : string -> M W unit;
  rc_Delete : string -> M W unit;
}.

Class Store (W : Type) `{Hypervisor W} : Type := {
  st_ToDisk : PSandboxState hv_saved -> gmap string PContainerState -> M W unit;
  (** [None]: no such sandbox on disk *)
  st_FromDisk : string -> W -> res (option (PSandboxState hv_saved * gmap string PContainerState));
  st_Destroy : string -> M W unit;
  st_RunVMStoragePath : string;
  st_RunStoragePath : string;
}.

(** The mount information of a directly assigned volume. *)
Record MountInfo := mkMountInfo { mi_Device : string; mi_FsType : string; mi_Options : list string }.

(** The operating system, the network, and helpers that only talk to them. *)
Class HostOS (W : Type) : Type := {
  os_files :: HostFiles W;
  os_host : W -> Host;
  os_device_ids : W -> (nat -> res string) * W;
  os_random_id : W -> res string * W;
  os_rootless : W -> bool;
  (** the SELinux label in the OCI specification of the sandbox, if any *)
  os_SelinuxLabel : W -> string;
  (** [kataHostSharedDir()] and [kataGuestSharedDir()], which depend on rootless mode *)
  kataHostSharedDir : W -> string;
  kataGuestSharedDir : W -> string;
  os_pagesize : Z;
  os_OpenFile : string -> M W unit;
  os_Truncate : string -> Z -> M W unit;
  os_mkswap : string -> M W unit;
  os_Remove : string -> M W unit;
  os_EvalSymlinks : string -> W -> res string;
  (** [Ok None]: there is no mount information file *)
  VolumeMountInfo : string -> W -> res (option MountInfo);
  RecordSandboxId : string -> string -> M W unit;
  os_Getpid : W -> Z;
  nw_RemoveEndpoints : M W unit;
  nw_AddEndpoints : M W unit;
  (** close the file descriptors of vhost handed to the hypervisor *)
  nw_CloseVhostFds : M W unit;
  (** the lock file of a sandbox *)
  os_lockSandbox : string -> M W unit;
  os_unlockSandbox : string -> M W unit;
  (** [factory.GetVM] and [assignSandbox] *)
  factory_GetVM : M W unit;
  (** the digest used by [types.NewAsset] *)
  sha512_hex : string -> string;
  (** the OCI specification of a bundle *)
  GetContainerSpec : gmap string string -> W -> res unit;
  cw_new : M W unit;
  cw_start : M W unit;
  cw_stop : M W unit;
  mon_stop : M W unit;
}.

(** ** Calls from a method *)
Section Lift.
Context {W : Type}.

Definition onS {A} (m : M (Sandbox W) A) : M (Sys W) A := fun w =>
  let '(r, s) := m (w_recv w) in (r, mkWorld (w_dm w) (w_pcie w) s).

(** On the world outside. *)
Definition onW_S {A} (m : M W A) : M (Sandbox W) A := fun s =>
  let '(r, e) := m (sb_env s) in (r, s <| sb_env := e |>).
Definition onW {A} (m : M W A) : M (Sys W) A := onS (onW_S m).

Definition readS {A} (f : Sandbox W -> A) : M (Sys W) A := gets (fun w => f (w_recv w)).
Definition writeS (f : Sandbox W -> Sandbox W) : M (Sys W) unit :=
  modify (fun w => mkWorld (w_dm w) (w_pcie w) (f (w_recv w))).
Definition readW {A} (f : W -> A) : M (Sys W) A := readS (fun s => f (sb_env s)).

(** A call whose error is logged or dropped. *)
Definition ignore_err {S A} (m : M S A) : M S unit := _ ← try m; mret tt.

(** [if err := m(); err != nil && !force { return err }]. *)
Definition unless_forced {S A} (force : bool) (m : M S A) : M S unit :=
  r ← try m;
  match r with
  | Ok _ => mret tt
  | Err e => if force then mret tt else throw e
  end.

(** The container at an address, and its configuration. *)
Definition cont (l : nat) : M (Sys W) Container := readS (fun s => cont_at (sb_mem s) l).
Definition upd_cont (l : nat) (f : Container -> Container) : M (Sys W) unit :=
  writeS (fun s => s <| sb_mem ::= fun m => set_cont l (f (cont_at m l)) m |>).
Definition conf_of (l : nat) : M (Sys W) ContainerConfig :=
  readS (fun s => config_at (sb_mem s) (c_config (cont_at (sb_mem s) l))).

Section Calls.
Context `{GoRange} `{HostOS W}.

Definition sys_NewDevice (info : DeviceInfo) : M (Sys W) Device :=
  host ← readW os_host;
  draws ← onW (fun e => let '(d, e') := os_device_ids e in (Ok d, e'));
  on_dm (NewDevice host draws info).

Definition sys_RemoveDevice (id : string) : M (Sys W) unit := on_dm (DMRemoveDevice id).

Context `{DeviceReceiver (Sandbox W)}.

Definition sys_AttachDevice (id : string) : M (Sys W) unit :=
  host ← readW os_host;
  randID ← onW (fun e => let '(r, e') := os_random_id e in (Ok r, e'));
  AttachDevice host randID id.

Definition sys_DetachDevice (id : string) : M (Sys W) unit := DetachDevice id.
End Calls.

Context `{GoRange} `{Hypervisor W} `{Agent W} `{!Store W}.

(** [Sandbox.Save]. *)
Definition Sandbox_Save : M (Sys W) unit :=
  w ← get;
  let s := w_recv w in
  let '(ss, cs) := save_records (hv_Save (sb_env s)) (ag_url (sb_env s)) s (w_dm w) in
  onW (st_ToDisk ss cs).

Definition storeSandbox : M (Sys W) unit := Sandbox_Save.

Lemma readS_bind {A B} (f : Sandbox W -> A) (k : A -> M (Sys W) B) w :
  (readS f ≫= k) w = k (f (w_recv w)) w.
Proof. done. Qed.

End Lift.
End Interfaces.
