(* ===== verification/Receiver.v ===== *)
(** * The sandbox as receiver of devices

    [sandbox.go]: the block indexes, hot-plugging through the hypervisor and
    the resource controller, and [AddDevice].  The sandbox discharges the laws
    the drivers rely on, given that the hypervisor does not renumber drives. *)
From S2P Require Import Prelude GoStr Types Devices DeviceManager Hypervisor State Persist Mounts Interfaces.
Import Types.Lifecycle Devices.Config Devices.Drivers Devices.DriversSpec DeviceManager.DeviceManager.
Import HypervisorConf State Persist Mounts Interfaces.

Module Receiver.

Definition maxBlockIndex : Z := 65535.

Section Plug.
Context {W : Type} `{Hypervisor W} `{ResourceController W}.

Definition getAndSetSandboxBlockIndex : M (Sandbox W) Z :=
  s ← get;
  match first_free (fun i => bool_decide (i ∈ ss_BlockIndexMap (sb_state s))) 0 (Z.to_nat maxBlockIndex) with
  | None => throw (Errorf "no available block index")
  | Some i =>
      _ ← put (s <| sb_state ::= fun st => st <| ss_BlockIndexMap ::= fun b => {[i]} ∪ b |> |>);
      mret i
  end.

(** The deferred rollback never runs: no error is ever assigned. *)
Definition unsetSandboxBlockIndex (index : Z) : M (Sandbox W) unit :=
  modify (fun s => s <| sb_state ::= fun st => st <| ss_BlockIndexMap ::= fun b => b ∖ {[index]} |> |>).

(** A hypervisor call on one description. *)
Definition plug_one {t} (op : M (devInfo t * W) unit) (d : devInfo t) : Sandbox W -> res unit * devInfo t * Sandbox W :=
  fun s => let '(r, (d', e)) := op (d, sb_env s) in (r, d', s <| sb_env := e |>).

(** [for _, dev := range vfioDevices { if _, err := op(dev); err != nil { return err } }];
    the descriptions are pointers, so each call writes to its own. *)
Fixpoint plug_vfio (op : M (VFIODev * W) unit) (devs : list VFIODev) (s : Sandbox W)
    : res unit * list VFIODev * Sandbox W :=
  match devs with
  | [] => (Ok tt, [], s)
  | d :: devs' =>
      match plug_one (t := VfioDev) op d s with
      | (Ok _, d', s') => let '(r, ds, s'') := plug_vfio op devs' s' in (r, d' :: ds, s'')
      | (Err e, d', s') => (Err e, d' :: devs', s')
      end
  end.

Definition mismatch {A} : M (Device * Sandbox W) A :=
  throw (Errorf "device type mismatch, expect device type to be %s").

Definition set_dev_data (x : DriverData) (d : Device) : Device := mkDevice (dev_generic d) x.

(** The controller's errors are only logged. *)
Definition with_controller (op : string -> M W unit) : M (Device * Sandbox W) unit := fun ds =>
  let '(d, s) := ds in
  if sb_controller s then (Ok tt, (d, (onW_S (op (GetDevHostPath d)) s).2)) else (Ok tt, (d, s)).

(** The part of [HotplugAddDevice] and [HotplugRemoveDevice] that goes through
    the hypervisor.  An attached block device has a drive; a nil one would be a
    nil dereference in the hypervisor. *)
Definition through_hypervisor (op : forall t, M (devInfo t * W) unit) (skip : BlockDrive -> bool)
    (devType : Config.DeviceType) : M (Device * Sandbox W) unit := fun ds =>
  let '(d, s) := ds in
  if bool_decide (devType = DeviceVFIO) then
    match dev_data d with
    | VFIOData devs =>
        let '(r, devs', s') := plug_vfio (op VfioDev) devs s in
        (r, (set_dev_data (VFIOData devs') d, s'))
    | _ => mismatch (d, s)
    end
  else if bool_decide (devType = DeviceBlock) then
    match dev_data d with
    | BlockData (Some drive) =>
        if skip drive then (Ok tt, (d, s)) else
        let '(r, drive', s') := plug_one (op BlockDev) drive s in
        (r, (set_dev_data (BlockData (Some drive')) d, s'))
    | _ => mismatch (d, s)
    end
  else if bool_decide (devType = VhostUserBlk) then
    match dev_data d with
    | VhostUserBlkData (Some attrs) =>
        let '(r, attrs', s') := plug_one (op VhostuserDev) attrs s in
        (r, (set_dev_data (VhostUserBlkData (Some attrs')) d, s'))
    | _ => mismatch (d, s)
    end
  else (Ok tt, (d, s)).

Definition Sandbox_HotplugAddDevice (devType : Config.DeviceType) : M (Device * Sandbox W) unit :=
  _ ← with_controller rc_AddDevice;
  through_hypervisor hv_HotplugAddDevice (fun _ => false) devType.

(** Persistent memory cannot be unplugged. *)
Definition Sandbox_HotplugRemoveDevice (devType : Config.DeviceType) : M (Device * Sandbox W) unit :=
  finally (through_hypervisor hv_HotplugRemoveDevice bd_Pmem devType) (with_controller rc_RemoveDevice).

(** Only the first device of a VFIO group is added, by value. *)
Definition Sandbox_AppendDevice : M (Device * Sandbox W) unit := fun ds =>
  let '(d, s) := ds in
  let vhost := fun (attrs : VhostUserDeviceAttrs) (wrap : VhostUserDeviceAttrs -> DriverData) =>
    let '(r, attrs', s') := plug_one (hv_AddDevice VhostuserDev) attrs s in
    (r, (set_dev_data (wrap attrs') d, s')) in
  match dev_data d with
  | VhostUserSCSIData a => vhost a VhostUserSCSIData
  | VhostUserNetData a => vhost a VhostUserNetData
  | VhostUserFSData a => vhost a VhostUserFSData
  | VhostUserBlkData (Some a) => vhost a (fun a => VhostUserBlkData (Some a))
  | VFIOData (v :: _) => let '(r, _, s') := plug_one (hv_AddDevice VfioDev) v s in (r, (d, s'))
  | _ => throw (Errorf "unsupported device type") (d, s)
  end.

#[export] Instance Sandbox_receiver : DeviceReceiver (Sandbox W) := {|
  HotplugAddDevice := Sandbox_HotplugAddDevice;
  HotplugRemoveDevice := Sandbox_HotplugRemoveDevice;
  AppendDevice := Sandbox_AppendDevice;
  GetAndSetSandboxBlockIndex := getAndSetSandboxBlockIndex;
  UnsetSandboxBlockIndex := unsetSandboxBlockIndex;
  block_indexes := fun s => filter (fun i => 0 <= i) (ss_BlockIndexMap (sb_state s));
|}.

(** [Sandbox.AddDevice]; the second deferred rollback never runs, because
    nothing can fail after it is installed. *)
Definition AddDevice `{GoRange} `{HostOS W} (info : DeviceInfo) : M (Sys W) Device :=
  b ← sys_NewDevice info;
  _ ← on_error (sys_AttachDevice (DeviceID b)) (sys_RemoveDevice (DeviceID b));
  mret b.
End Plug.

(** ** Block indexes *)
Section Indexes.
Context {W : Type}.

(** The two outcomes of looking for a block index. *)
Lemma getAndSet_cases (s : Sandbox W) :
  (exists i, getAndSetSandboxBlockIndex s =
      (Ok i, s <| sb_state ::= fun st => st <| ss_BlockIndexMap ::= fun b => {[i]} ∪ b |> |>) /\
    0 <= i < maxBlockIndex /\ (i ∉ ss_BlockIndexMap (sb_state s)) /\
    forall j, 0 <= j < i -> j ∈ ss_BlockIndexMap (sb_state s)) \/
  (exists e, getAndSetSandboxBlockIndex s = (Err e, s) /\
    forall j, 0 <= j < maxBlockIndex -> j ∈ ss_BlockIndexMap (sb_state s)).
Proof.
  unfold getAndSetSandboxBlockIndex. munfold.
  destruct (first_free _ 0 _) as [i|] eqn:E.
  - left. exists i. split; [done|]. apply first_free_Some in E as (Hi & Hu & Hall).
    rw Z2Nat.id // in Hi. bool_to_prop. split_and!; [lia|lia|done|].
    intros j Hj. specialize (Hall j Hj). by apply bool_decide_eq_true in Hall.
  - right. eexists. split; [done|]. intros j Hj. pose proof (proj1 (first_free_None _ _ _) E j) as Hu.
    rw Z2Nat.id // in Hu. eapply bool_decide_eq_true, Hu. lia.
Qed.

(** A sandbox hands out the lowest block index below 65535 that is free
    and marks it, or fails without a change when all are taken; giving back the
    index just handed out restores the sandbox. *)
Theorem block_index_spec (s : Sandbox W) :
  let used := ss_BlockIndexMap (sb_state s) in
  match getAndSetSandboxBlockIndex s with
  | (Ok i, s') =>
      0 <= i < maxBlockIndex /\ (i ∉ used) /\ (forall j, 0 <= j < i -> j ∈ used) /\
      ss_BlockIndexMap (sb_state s') = {[i]} ∪ used /\
      unsetSandboxBlockIndex i s' = (Ok tt, s)
  | (Err _, s') => s' = s /\ forall j, 0 <= j < maxBlockIndex -> j ∈ used
  end.
Proof.
  simpl. destruct (getAndSet_cases s) as [(i & -> & Hi & Hnew & Hlow)|(e & -> & Hall)]; [|done].
  split_and!; try done; [lia|lia|]. unfold unsetSandboxBlockIndex. munfold. f_equal.
  destruct s as [? ? ? ? [b ? ? ? ? ? ? ?]]. unfold update. simpl in *. f_equal. f_equal. set_solver.
Qed.
End Indexes.

(** ** The laws *)
Section Laws.
Context {W : Type} `{HypervisorLaws W} `{ResourceController W}.

(** What a plugging call leaves of the sandbox: only the outside changes. *)
Definition env_only (s s' : Sandbox W) : Prop := s' = s <| sb_env := sb_env s' |>.

#[local] Instance env_only_preorder : PreOrder env_only.
Proof.
  split; [by intros []|]. unfold env_only. intros [] [] [] [= -> -> -> -> -> -> -> -> -> -> -> -> ->].
  by intros [= -> -> -> -> -> -> -> -> -> -> -> -> ->].
Qed.

Lemma onW_S_env_only {A} (m : M W A) s : env_only s (onW_S m s).2.
Proof. unfold onW_S. by destruct (m (sb_env s)), s. Qed.

Lemma plug_one_env_only t (op : M (devInfo t * W) unit) d s : env_only s (plug_one op d s).2.
Proof. unfold plug_one. by destruct (op _) as [? []], s. Qed.

Lemma plug_vfio_env_only op devs s : env_only s (plug_vfio op devs s).2.
Proof.
  revert s. induction devs as [|d devs IH]; intros s; simpl; [done|].
  pose proof (plug_one_env_only VfioDev op d s) as Hd.
  destruct (plug_one (t := VfioDev) op d s) as [[[u|e] d'] s']; simpl in *; [|done].
  specialize (IH s'). destruct (plug_vfio op devs s') as [[r ds] s'']. simpl in *. by etrans.
Qed.

Lemma env_only_indexes s s' : env_only s s' -> block_indexes s' = block_indexes s.
Proof. by intros ->. Qed.

Definition plug_ok (x : Device * Sandbox W) (x' : Device * Sandbox W) : Prop :=
  plug_frame x.1 x.2 x'.1 x'.2.

#[local] Instance plug_ok_preorder : PreOrder plug_ok.
Proof.
  unfold plug_ok, plug_frame. split; [done|].
  intros x y z (? & ? & ? & ?) (? & ? & ? & ?). split_and!; congruence.
Qed.

Lemma with_controller_ok op : stays plug_ok (with_controller op).
Proof.
  intros [d s]. unfold with_controller. destruct (sb_controller s); [|done].
  split_and!; try done. by apply env_only_indexes, onW_S_env_only.
Qed.

Lemma through_hypervisor_ok op skip devType :
  (forall t d w, same_index d (op t (d, w)).2.1) -> stays plug_ok (through_hypervisor op skip devType).
Proof.
  intros Hop [d s]. unfold through_hypervisor.
  assert (Hone : forall t (x : devInfo t), same_index x (plug_one (op t) x s).1.2).
  { intros t x. unfold plug_one. specialize (Hop t x (sb_env s)). by destruct (op t _) as [? []]. }
  destruct d as [g data]. repeat case_bool_decide.
  - destruct data as [| |devs| | | |]; try done. cbn [dev_data].
    pose proof (plug_vfio_env_only (op VfioDev) devs s) as He.
    destruct (plug_vfio _ _ _) as [[r devs'] s']. split_and!; try done. by apply env_only_indexes.
  - destruct data as [|[drive|]| | | | |]; try done. cbn [dev_data]. destruct (skip drive); [done|].
    pose proof (plug_one_env_only BlockDev (op BlockDev) drive s) as He.
    specialize (Hone BlockDev drive). destruct (plug_one _ _ _) as [[r drive'] s'].
    split_and!; try done. by apply env_only_indexes.
  - destruct data as [| | |[attrs|]| | |]; try done. cbn [dev_data].
    pose proof (plug_one_env_only VhostuserDev (op VhostuserDev) attrs s) as He.
    specialize (Hone VhostuserDev attrs). destruct (plug_one _ _ _) as [[r attrs'] s'].
    split_and!; try done. by apply env_only_indexes.
  - done.
Qed.

Lemma AppendDevice_ok : stays plug_ok Sandbox_AppendDevice.
Proof.
  intros [[g data] s]. unfold Sandbox_AppendDevice. cbn [dev_data].
  assert (Hone : forall t (x : devInfo t), same_index x (plug_one (hv_AddDevice t) x s).1.2).
  { intros t x. unfold plug_one. pose proof (hv_append_index t x (sb_env s)).
    by destruct (hv_AddDevice t _) as [? []]. }
  assert (He : forall t (x : devInfo t), env_only s (plug_one (hv_AddDevice t) x s).2)
    by (intros; apply plug_one_env_only).
  destruct data as [|[]|[|v devs]|[a|]|a|a|a]; try done.
  - specialize (He VfioDev v). destruct (plug_one _ _ _) as [[r v'] s'].
    split_and!; try done. by apply env_only_indexes.
  - specialize (He VhostuserDev a). specialize (Hone VhostuserDev a).
    destruct (plug_one _ _ _) as [[r a'] s']. split_and!; try done. by apply env_only_indexes.
  - specialize (He VhostuserDev a).
    destruct (plug_one _ _ _) as [[r a'] s']. split_and!; try done. by apply env_only_indexes.
  - specialize (He VhostuserDev a).
    destruct (plug_one _ _ _) as [[r a'] s']. split_and!; try done. by apply env_only_indexes.
  - specialize (He VhostuserDev a).
    destruct (plug_one _ _ _) as [[r a'] s']. split_and!; try done. by apply env_only_indexes.
Qed.

Lemma HotplugAdd_ok t : stays plug_ok (Sandbox_HotplugAddDevice t).
Proof.
  unfold Sandbox_HotplugAddDevice. apply stays_bind; [apply _|apply with_controller_ok|].
  intros _. apply through_hypervisor_ok, hv_add_index.
Qed.

Lemma HotplugRemove_ok t : stays plug_ok (Sandbox_HotplugRemoveDevice t).
Proof.
  apply stays_finally; [apply _| |apply with_controller_ok].
  apply through_hypervisor_ok, hv_remove_index.
Qed.

#[export] Instance Sandbox_receiver_laws : DeviceReceiverLaws (Sandbox W).
Proof.
  constructor.
  - intros s i. simpl. by rw elem_of_filter; intros [? _].
  - intros s i s' E. destruct (getAndSet_cases s) as [(j & Ej & Hj & Hnew & _)|(e & Ee & _)].
    + simpl in E. rw Ej in E. injection E as <- <-. simpl. split_and!; [lia| |].
      * by rw elem_of_filter; intros [_ ?].
      * apply set_eq. intros k. rw elem_of_filter !elem_of_union elem_of_filter elem_of_singleton.
        naive_solver lia.
    + simpl in E. congruence.
  - intros s e s' E. destruct (getAndSet_cases s) as [(j & Ej & _)|(e' & Ee & _)]; simpl in E; [congruence|].
    rw Ee in E. by injection E as _ <-.
  - intros s i. simpl. apply set_eq. intros k. set_solver.
  - intros d s t x d' s' E. pose proof (HotplugAdd_ok t (d, s)) as Hok. simpl in E. by rw E in Hok.
  - intros d s t x d' s' E. pose proof (HotplugRemove_ok t (d, s)) as Hok. simpl in E. by rw E in Hok.
  - intros d s x d' s' E. pose proof (AppendDevice_ok (d, s)) as Hok.
    change (Sandbox_AppendDevice (d, s) = (x, (d', s'))) in E. by rw E in Hok.
Qed.

End Laws.
End Receiver.
