(* ===== verification/Resources.v ===== *)
(** * Sizing the sandbox

    [sandbox.go]: the memory, swap and CPUs the containers ask for, the CPU
    sets, swap files, and handing the result to the hypervisor, the agent and
    the resource controllers. *)
From S2P Require Import Prelude GoStr Types CPUSet Utils Devices DeviceManager Hypervisor State Persist Mounts.
From S2P Require Import Interfaces Receiver.
Import Filepath Types.Lifecycle CPUSet.CPUSet Utils.Names.
Import Devices.Config Devices.Drivers DeviceManager.DeviceManager.
Import HypervisorConf State Persist Mounts Interfaces Receiver.

Module Resources.

(** ** What the containers ask for *)
Section Calculate.
Context {W : Type} (s : Sandbox W).

(** The resources of a stopped container do not count. *)
Definition is_stopped (c : ContainerConfig) : bool :=
  match sb_containers s !! cc_ID c with
  | Some l => bool_decide (cs_State (c_state (cont_at (sb_mem s) l)) = StateStopped)
  | None => false
  end.

(** The running totals of [calculateSandboxMemory]: memory in bytes ([uint64]),
    whether a pod-sized swap is needed, swap in bytes ([int64]). *)
Record MemTotals := mkMemTotals { mt_memory : Z; mt_needPodSwap : bool; mt_swap : Z }.

Definition memory_limit (m : LinuxMemory) : Z :=
  match mem_Limit m with Some l => if 0 <? l then l else 0 | None => 0 end.

(** The swap a container adds; an explicit swap size replaces the total. *)
Definition swap_step (guestSwap : bool) (m : LinuxMemory) (t : MemTotals) : MemTotals :=
  let currentLimit := memory_limit m in
  if guestSwap && match mem_Swappiness m with Some w => 0 <? w | None => false end then
    let currentSwap := default 0 (mem_Swap m) in
    if currentSwap =? 0 then
      if currentLimit =? 0 then mkMemTotals (mt_memory t) true (mt_swap t)
      else mkMemTotals (mt_memory t) (mt_needPodSwap t) (i64 (mt_swap t + currentLimit))
    else if currentLimit <? currentSwap then
      mkMemTotals (mt_memory t) (mt_needPodSwap t) (i64 (currentSwap - currentLimit))
    else t
  else t.

(** One container of the loop; hugepages count only beside a memory section. *)
Definition memory_step (guestSwap : bool) (t : MemTotals) (c : ContainerConfig) : MemTotals :=
  if is_stopped c then t else
  match memory_of (sb_mem s) c with
  | None => t
  | Some m =>
      let mem := if 0 <? memory_limit m then u64 (mt_memory t + memory_limit m) else mt_memory t in
      let mem := foldl (fun mem l => u64 (mem + l)) mem (rs_HugepageLimits (cc_Resources c)) in
      swap_step guestSwap m (mkMemTotals mem (mt_needPodSwap t) (mt_swap t))
  end.

Definition calculateSandboxMemory : MemTotals :=
  foldl (memory_step (hc_GuestSwap (sc_HypervisorConfig (sb_config s)))) (mkMemTotals 0 false 0)
    (slice_list (sb_mem s) (sc_Containers (sb_config s))).

Definition milli_cpus (cpu : LinuxCPU) : Z :=
  match cpu_Period cpu, cpu_Quota cpu with
  | Some p, Some q => CalculateMilliCPUs q p
  | _, _ => 0
  end.

(** The loop of [calculateSandboxCPUs]: [Some (Some (mCPU, cpusetCount))], or
    [Some None] when a CPU set does not parse, or [None] when the parser does
    not return. *)
Fixpoint cpu_loop (mCPU cpusetCount : Z) (cs : list ContainerConfig) : option (option (Z * Z)) :=
  match cs with
  | [] => Some (Some (mCPU, cpusetCount))
  | c :: cs' =>
      if is_stopped c then cpu_loop mCPU cpusetCount cs' else
      match cpu_of (sb_mem s) c with
      | None => cpu_loop mCPU cpusetCount cs'
      | Some cpu =>
          match Parse (cpu_Cpus cpu) with
          | None => None
          | Some (Err _) => Some None
          | Some (Ok set) =>
              cpu_loop (u32 (mCPU + milli_cpus cpu)) (i64 (cpusetCount + CPUSet_Size set)) cs'
          end
      end
  end.

(** An unreadable CPU set makes the result 0, without an error. *)
Definition calculateSandboxCPUs : option Z :=
  match cpu_loop 0 0 (slice_list (sb_mem s) (sc_Containers (sb_config s))) with
  | None => None
  | Some None => Some 0
  | Some (Some (mCPU, cpusetCount)) =>
      if (mCPU =? 0) && (0 <? cpusetCount) then Some (u32 cpusetCount)
      else Some (CalculateVCpusFromMilliCpus mCPU)
  end.

(** The unions of the CPU and memory-node sets of all containers. *)
Fixpoint cpuset_loop `{GoRange} (cpus mems : CPUSet) (cs : list ContainerConfig) : option (res (CPUSet * CPUSet)) :=
  match cs with
  | [] => Some (Ok (cpus, mems))
  | c :: cs' =>
      match cpu_of (sb_mem s) c with
      | None => cpuset_loop cpus mems cs'
      | Some cpu =>
          match Parse (cpu_Cpus cpu) with
          | None => None
          | Some (Err _) => Some (Err (Errorf "unable to parse CPUset.cpus for container %s: %v"))
          | Some (Ok set) =>
              match Parse (cpu_Mems cpu) with
              | None => None
              | Some (Err _) => Some (Err (Errorf "unable to parse CPUset.mems for container %s: %v"))
              | Some (Ok mset) => cpuset_loop (CPUSet_Union cpus set) (CPUSet_Union mems mset) cs'
              end
          end
      end
  end.

Definition getSandboxCPUSet `{GoRange} : option (res (string * string)) :=
  match cpuset_loop (NewCPUSet []) (NewCPUSet []) (slice_list (sb_mem s) (sc_Containers (sb_config s))) with
  | None => None
  | Some (Err e) => Some (Err e)
  | Some (Ok (cpus, mems)) => Some (Ok (CPUSet_String cpus, CPUSet_String mems))
  end.
End Calculate.

(** A computation that may not return; not returning is an error no caller can
    produce otherwise. *)
Definition ErrNoReturn : error := ErrExternal "no return".
Definition returns {S A} (o : option A) : M S A :=
  match o with Some a => mret a | None => throw ErrNoReturn end.

(** ** Swap files *)

(** [int64(float64(n))]: the nearest integer with a 53-bit significand, ties to even. *)
Definition float64 (n : Z) : Z :=
  let k := Z.log2 (Z.abs n) - 52 in
  if k <=? 0 then n else
  let q := Z.abs n / 2 ^ k in
  let r := Z.abs n mod 2 ^ k in
  let q := if (2 ^ (k - 1) <? r) || ((r =? 2 ^ (k - 1)) && Z.odd q) then q + 1 else q in
  Z.sgn n * (q * 2 ^ k).

(** mkswap refuses fewer than 10 pages, and one page holds the metadata. *)
Definition swap_file_size (pagesize size : Z) : Z :=
  i64 (i64 (Z.max (float64 size) (float64 (pagesize * 10))) + pagesize).

Section Update.
Context {W : Type} `{GoRange} `{Hypervisor W} `{Agent W} `{ResourceController W} `{HostOS W}.

Definition getSandboxPath (id : string) : M (Sys W) string :=
  dir ← readW kataHostSharedDir; mret (PathJoin [dir; id]).

(** A hypervisor call on a drive that is not a managed device. *)
Definition on_drive (op : M (BlockDrive * W) unit) (d : BlockDrive) : M (Sys W) BlockDrive := fun w =>
  let '(r, d', s') := plug_one (t := BlockDev) op d (w_recv w) in
  (match r with Ok _ => Ok d' | Err e => Err e end, mkWorld (w_dm w) (w_pcie w) s').

Definition addSwap (swapID : string) (size : Z) : M (Sys W) BlockDrive :=
  id ← readS sb_id;
  dir ← getSandboxPath id;
  let swapFile := PathJoin [dir; swapID] in
  _ ← onW (os_OpenFile swapFile);
  on_error
    (_ ← onW (os_Truncate swapFile (swap_file_size os_pagesize size));
     _ ← onW (os_mkswap swapFile);
     let blockDevice := mkBlockDrive swapFile "raw" swapID "" "" "" "" "" [] 0 false false false true in
     dev ← on_drive (hv_HotplugAddDevice BlockDev) blockDevice;
     _ ← on_error (onW (ag_addSwap (bd_PCIPath dev)))
           (_ ← on_drive (hv_HotplugRemoveDevice BlockDev) dev; mret tt);
     mret dev)
    (onW (os_Remove swapFile)).

Definition removeSwap (dev : BlockDrive) : M (Sys W) unit := onW (os_Remove (bd_File dev)).

Definition setupSwap (sizeBytes : Z) : M (Sys W) unit :=
  s ← readS id;
  when (sb_swapSizeBytes s <? sizeBytes)
    (dev ← addSwap ("swap" +:+ FormatUint 10 (sb_swapDeviceNum s)) (i64 (sizeBytes - sb_swapSizeBytes s));
     writeS (fun s => s <| sb_swapDeviceNum ::= fun n => u64 (n + 1) |>
                        <| sb_swapSizeBytes := sizeBytes |>
                        <| sb_swapDevices ::= fun l => l ++ [dev] |>)).

(** The list of swap devices is kept, and so are the counters. *)
Definition cleanSwap : M (Sys W) unit :=
  devs ← readS sb_swapDevices;
  for_each devs (fun dev => ignore_err (removeSwap dev)).

(** ** Handing the sizes out *)

Definition MibToBytesShift : Z := 20.

Definition updateResources : M (Sys W) unit :=
  s ← readS id;
  if sc_StaticResourceMgmt (sb_config s) then mret tt else
  cpus ← returns (calculateSandboxCPUs s);
  conf ← readW hv_HypervisorConfig;
  let sandboxVCPUs := u32 (cpus + hc_NumVCPUs conf) in
  let t := calculateSandboxMemory s in
  let hypervisorMemoryByteI64 := i64 (Z.shiftl (hc_MemorySize conf) MibToBytesShift) in
  let sandboxMemoryByte := u64 (mt_memory t + u64 hypervisorMemoryByteI64) in
  let sandboxSwapByte := if mt_needPodSwap t then i64 (mt_swap t + hypervisorMemoryByteI64) else mt_swap t in
  _ ← when (0 <? sandboxSwapByte) (setupSwap sandboxSwapByte);
  sizes ← onW (hv_ResizeVCPUs sandboxVCPUs);
  let '(oldCPUs, newCPUs) := sizes in
  _ ← when (oldCPUs <? newCPUs) (onW (ag_onlineCPUMem (newCPUs - oldCPUs) true));
  let newMemoryMB := u32 (Z.shiftr sandboxMemoryByte MibToBytesShift) in
  st ← readS sb_state;
  out ← onW (fun e =>
    let '(o, e') := hv_ResizeMemory newMemoryMB (ss_GuestMemoryBlockSizeMB st) (ss_GuestMemoryHotplugProbe st) e in
    (Ok o, e'));
  let '(_, updatedMemoryDevice, err) := out in
  _ ← (match err with
       | Some e => if bool_decide (e = ErrNoGuestMemHotplug) then mret tt else throw e
       | None => mret tt
       end);
  _ ← when (ss_GuestMemoryHotplugProbe st && negb (md_Addr updatedMemoryDevice =? 0))
        (onW (ag_memHotplugByProbe (md_Addr updatedMemoryDevice) (u32 (md_SizeMB updatedMemoryDevice))
                (ss_GuestMemoryBlockSizeMB st)));
  onW (ag_onlineCPUMem 0 false).

(** [constrainHypervisor]: the vCPU threads join the sandbox controller. *)
Definition constrainHypervisor : M (Sys W) unit :=
  tids ← onW hv_GetThreadIDs;
  for_each tids (fun i => onW (rc_AddThread i)).

Definition resourceControllerUpdate : M (Sys W) unit :=
  s ← readS id;
  r ← returns (getSandboxCPUSet s);
  sets ← lift r;
  _ ← onW (rc_UpdateCpuSet sets.1 sets.2);
  when (sb_overhead s) constrainHypervisor.

(** The second group is moved through the sandbox's own controller object, the
    first through the one just loaded. *)
Definition resourceControllerDelete : M (Sys W) unit :=
  st ← readS sb_state;
  if bool_decide (ss_SandboxCgroupPath st = "") then mret tt else
  _ ← onW (rc_Load (ss_SandboxCgroupPath st));
  _ ← onW (rc_MoveToParent (ss_SandboxCgroupPath st));
  _ ← onW (rc_Delete (ss_SandboxCgroupPath st));
  overhead ← readS sb_overhead;
  when (negb (bool_decide (ss_OverheadCgroupPath st = "")))
    (_ ← onW (rc_Load (ss_OverheadCgroupPath st));
     _ ← (if overhead then onW (rc_MoveToParent (ss_OverheadCgroupPath st))
          else throw (ErrExternal "nil pointer dereference"));
     onW (rc_Delete (ss_OverheadCgroupPath st))).
End Update.

(** ** Correctness of the sums *)
Section Sums.
Context {W : Type} (s : Sandbox W).

Definition sumZ (l : list Z) : Z := foldr Z.add 0 l.

Lemma sumZ_cons x l : sumZ (x :: l) = x + sumZ l.
Proof. done. Qed.
#[local] Arguments sumZ : simpl never.

Lemma sumZ_app l1 l2 : sumZ (l1 ++ l2) = sumZ l1 + sumZ l2.
Proof. induction l1 as [|x l1 IH]; simpl; [done|]. rw !sumZ_cons IH. lia. Qed.

(** The configurations of the containers that are not stopped, in order. *)
Definition counted : list ContainerConfig :=
  filter (fun c => is_stopped s c = false) (slice_list (sb_mem s) (sc_Containers (sb_config s))).

(** The memory a container asks for. *)
Definition memory_demand (c : ContainerConfig) : Z :=
  match memory_of (sb_mem s) c with
  | Some m => memory_limit m + sumZ (rs_HugepageLimits (cc_Resources c))
  | None => 0
  end.

Lemma memory_limit_nonneg m : 0 <= memory_limit m.
Proof. unfold memory_limit. destruct (mem_Limit m) as [l|]; [|done]. destruct (Z.ltb_spec 0 l); lia. Qed.

Lemma u64_add x y : u64 (u64 x + y) = u64 (x + y).
Proof. unfold u64, wrapu. by rw Zplus_mod_idemp_l. Qed.

Lemma hugepages_sum l x : foldl (fun mem h => u64 (mem + h)) (u64 x) l = u64 (x + sumZ l).
Proof.
  revert x. induction l as [|h l IH]; intros x; simpl; [by rw Z.add_0_r|].
  rw sumZ_cons u64_add IH. f_equal. lia.
Qed.

Lemma swap_step_memory gs m t : mt_memory (swap_step gs m t) = mt_memory t.
Proof. unfold swap_step. by repeat case_match. Qed.

Lemma memory_step_memory gs t c x :
  is_stopped s c = false -> mt_memory t = u64 x ->
  mt_memory (memory_step s gs t c) = u64 (x + memory_demand c).
Proof.
  intros Hst Ht. unfold memory_step, memory_demand. rw Hst.
  destruct (memory_of (sb_mem s) c) as [m|]; [|by rw Ht Z.add_0_r].
  rw swap_step_memory. cbn [mt_memory]. rw Ht.
  pose proof (memory_limit_nonneg m).
  destruct (Z.ltb_spec 0 (memory_limit m)).
  - rw u64_add hugepages_sum. f_equal. lia.
  - rw hugepages_sum. f_equal. lia.
Qed.

(** A loop over all containers is a loop over those that count. *)
Lemma memory_loop_counted gs t l :
  foldl (memory_step s gs) t l =
  foldl (memory_step s gs) t (filter (fun c => is_stopped s c = false) l).
Proof.
  revert t. induction l as [|c l IH]; intros t; [done|]. rw filter_cons. cbn [foldl].
  case_decide as Hc; [apply IH|]. rw -IH. f_equal. unfold memory_step.
  by destruct (is_stopped s c).
Qed.

Lemma memory_sum : mt_memory (calculateSandboxMemory s) = u64 (sumZ (memory_demand <$> counted)).
Proof.
  unfold calculateSandboxMemory. rw memory_loop_counted.
  assert (Hgen : forall l gs t x, Forall (fun c => is_stopped s c = false) l -> mt_memory t = u64 x ->
    mt_memory (foldl (memory_step s gs) t l) = u64 (x + sumZ (memory_demand <$> l))).
  { intros l gs. induction l as [|c l IH]; intros t x Hl Ht; simpl; [by rw Ht Z.add_0_r|].
    apply Forall_cons in Hl as [Hc Hl]. rw (IH _ (x + memory_demand c)) //; [|f_equal; rw sumZ_cons Z.add_assoc //].
    by apply memory_step_memory. }
  rw (Hgen _ _ _ 0) //. apply Forall_forall. intros c. rw list_elem_of_filter. by intros [? _].
Qed.

(** The sandbox has the container of a configuration, and it is stopped. *)
Definition halted (c : ContainerConfig) : Prop :=
  exists l, sb_containers s !! cc_ID c = Some l /\ cs_State (c_state (cont_at (sb_mem s) l)) = StateStopped.
#[export] Instance halted_dec c : Decision (halted c).
Proof.
  refine (match sb_containers s !! cc_ID c as o return sb_containers s !! cc_ID c = o -> _ with
          | Some l => fun E => cast_if (decide (cs_State (c_state (cont_at (sb_mem s) l)) = StateStopped))
          | None => fun E => right _ end eq_refl); unfold halted; naive_solver congruence.
Defined.

Lemma is_stopped_halted c : is_stopped s c = false <-> ~ halted c.
Proof.
  unfold is_stopped, halted. destruct (sb_containers s !! cc_ID c) as [l|]; [|naive_solver].
  rw bool_decide_eq_false. naive_solver.
Qed.

(** What the resources of a container, if they have a memory section, ask for. *)
Definition asked (c : ContainerConfig) : Z :=
  match memory_of (sb_mem s) c with
  | Some m => Z.max 0 (default 0 (mem_Limit m)) + sumZ (rs_HugepageLimits (cc_Resources c))
  | None => 0
  end.

Lemma memory_demand_asked c : memory_demand c = asked c.
Proof.
  unfold memory_demand, asked, memory_limit. destruct (memory_of (sb_mem s) c) as [m|]; [|done]. f_equal.
  destruct (mem_Limit m) as [l|]; simpl; [|done]. destruct (Z.ltb_spec 0 l); lia.
Qed.

(** C38. The memory of a sandbox is the sum, over the configurations whose
    container is not stopped and whose resources have a memory section, of the
    memory limit, if it is positive, and of the limits on huge pages, modulo 2^64,
    and exactly that sum as long as it fits.  Huge pages of a container without a
    memory section are not counted. *)
Theorem calculateSandboxMemory_spec :
  let demand := sumZ (asked <$> filter (fun c => ~ halted c) (slice_list (sb_mem s) (sc_Containers (sb_config s)))) in
  mt_memory (calculateSandboxMemory s) = u64 demand /\
  (0 <= demand <= maxUint64 -> mt_memory (calculateSandboxMemory s) = demand).
Proof.
  set (l := filter _ _). assert (El : counted = l) by (apply list_filter_iff; intros c; apply is_stopped_halted).
  assert (Hsum : mt_memory (calculateSandboxMemory s) = u64 (sumZ (asked <$> l))).
  { rw memory_sum El. do 2 f_equal. apply list_fmap_ext. intros i c _. apply memory_demand_asked. }
  split; [done|]. intros Hd. rw Hsum. by apply u64_small.
Qed.

(** The memory section of a container the guest may swap. *)
Definition swappable (c : ContainerConfig) : option LinuxMemory :=
  m ← memory_of (sb_mem s) c;
  if match mem_Swappiness m with Some w => 0 <? w | None => false end then Some m else None.

Definition swap_limit (c : ContainerConfig) : Z :=
  match swappable c with Some m => memory_limit m | None => 0 end.

Lemma i64_add x y : i64 (i64 x + y) = i64 (x + y).
Proof.
  unfold i64. replace ((x + 2 ^ 63) mod 2 ^ 64 - 2 ^ 63 + y + 2 ^ 63) with ((x + 2 ^ 63) mod 2 ^ 64 + y) by lia.
  rw Zplus_mod_idemp_l. do 2 f_equal. lia.
Qed.

(** One container of the loop, as far as the swap is concerned. *)
Lemma memory_step_swap t c :
  is_stopped s c = false ->
  let t' := memory_step s true t c in
  match swappable c with
  | None => mt_swap t' = mt_swap t /\ mt_needPodSwap t' = mt_needPodSwap t
  | Some m =>
      let currentSwap := default 0 (mem_Swap m) in
      (currentSwap = 0 -> mt_swap t' = (if memory_limit m =? 0 then mt_swap t else i64 (mt_swap t + memory_limit m)) /\
         mt_needPodSwap t' = mt_needPodSwap t || (memory_limit m =? 0)) /\
      (memory_limit m < currentSwap -> mt_swap t' = i64 (currentSwap - memory_limit m))
  end.
Proof.
  intros Hst. simpl. unfold memory_step, swappable, swap_step. rw Hst.
  destruct (memory_of (sb_mem s) c) as [m|]; simpl; [|done].
  pose proof (memory_limit_nonneg m).
  destruct (match mem_Swappiness m with Some _ => _ | None => _ end); simpl; [|done]. split.
  - intros ->. simpl. destruct (memory_limit m =? 0); simpl; by rw ?orb_true_r ?orb_false_r.
  - intros Hlt. rw (proj2 (Z.eqb_neq _ 0)); [lia|]. by rw (proj2 (Z.ltb_lt _ _)).
Qed.

Lemma no_guest_swap l t :
  let t' := foldl (memory_step s false) t l in mt_swap t' = mt_swap t /\ mt_needPodSwap t' = mt_needPodSwap t.
Proof.
  revert t. induction l as [|c l IH]; intros t; simpl; [done|]. destruct (IH (memory_step s false t c)) as [-> ->].
  unfold memory_step, swap_step. destruct (is_stopped s c); [done|]. by destruct (memory_of (sb_mem s) c).
Qed.

(** The loop when no container sets its own swap size. *)
Lemma swap_sum l t x :
  Forall (fun c => is_stopped s c = false) l ->
  (forall c m, c ∈ l -> swappable c = Some m -> default 0 (mem_Swap m) = 0) ->
  mt_swap t = i64 x ->
  let t' := foldl (memory_step s true) t l in
  mt_swap t' = i64 (x + sumZ (swap_limit <$> l)) /\
  (mt_needPodSwap t' = true <->
     mt_needPodSwap t = true \/ exists c m, c ∈ l /\ swappable c = Some m /\ memory_limit m = 0).
Proof.
  revert t x. induction l as [|c l IH]; intros t x Hl Hno Ht; cbn [foldl].
  { split; [by rw Ht Z.add_0_r|]. set_solver. }
  apply Forall_cons in Hl as [Hc Hl]. pose proof (memory_step_swap t c Hc) as Hs. cbn zeta in Hs.
  destruct (IH (memory_step s true t c) (x + swap_limit c) Hl) as [E1 E2].
  { intros c' m Hin. apply Hno. by right. }
  { unfold swap_limit. destruct (swappable c) as [m|] eqn:Em; [|by rw (proj1 Hs) Ht Z.add_0_r].
    destruct (proj1 Hs (Hno c m ltac:(by left) Em)) as [-> _].
    destruct (Z.eqb_spec (memory_limit m) 0) as [->|]; [by rw Ht Z.add_0_r|]. by rw Ht i64_add. }
  split; [rw E1 fmap_cons sumZ_cons; f_equal; lia|]. rw E2. clear E1 E2 IH.
  destruct (swappable c) as [m|] eqn:Em.
  - destruct (proj1 Hs (Hno c m ltac:(by left) Em)) as [_ ->]. rw orb_true_iff Z.eqb_eq. split.
    + intros [[?|Hz]|(c' & m' & Hin & ?)]; [by left|right; exists c, m; split; [by left|done]|].
      right. exists c', m'. split; [by right|done].
    + intros [?|(c' & m' & [->|Hin]%elem_of_cons & Em' & Hz)]; [by left; left|left; right; congruence|].
      right. by exists c', m'.
  - rw (proj2 Hs). split.
    + intros [?|(c' & m' & Hin & ?)]; [by left|]. right. exists c', m'. split; [by right|done].
    + intros [?|(c' & m' & [->|Hin]%elem_of_cons & Em' & Hz)]; [by left|congruence|]. right. by exists c', m'.
Qed.

(** The guest swap of a sandbox.  Without guest swap none is asked for.
    If no swappable container sets its own swap size, the total is the sum of
    their memory limits (modulo 2^64), and a pod-sized swap is added exactly
    when one of them has no limit.  But the total is wrong as soon as a
    container sets its own swap size: the last container's difference between
    swap and limit replaces what all containers before it asked for. *)
Theorem calculateSandboxMemory_swap :
  let guestSwap := hc_GuestSwap (sc_HypervisorConfig (sb_config s)) in
  let t := calculateSandboxMemory s in
  (guestSwap = false -> mt_swap t = 0 /\ mt_needPodSwap t = false) /\
  (guestSwap = true ->
   (forall c m, c ∈ counted -> swappable c = Some m -> default 0 (mem_Swap m) = 0) ->
   mt_swap t = i64 (sumZ (swap_limit <$> counted)) /\
   (mt_needPodSwap t = true <-> exists c m, c ∈ counted /\ swappable c = Some m /\ memory_limit m = 0)) /\
  (guestSwap = true -> forall l c m, counted = l ++ [c] -> swappable c = Some m ->
   memory_limit m < default 0 (mem_Swap m) ->
   mt_swap t = i64 (default 0 (mem_Swap m) - memory_limit m)).
Proof.
  assert (Hcnt : Forall (fun c => is_stopped s c = false) counted).
  { apply Forall_forall. intros c. unfold counted. rw list_elem_of_filter. by intros [? _]. }
  cbn zeta. unfold calculateSandboxMemory. rw memory_loop_counted. fold counted. split_and!.
  - intros ->. by apply no_guest_swap.
  - intros -> Hno. destruct (swap_sum counted (mkMemTotals 0 false 0) 0 Hcnt Hno eq_refl) as [-> ->].
    split; [done|]. naive_solver.
  - intros -> l c m E Hm Hlt. rw E in Hcnt |- *. rw foldl_app. cbn [foldl].
    apply Forall_app in Hcnt as [_ [Hc _]%Forall_cons].
    pose proof (memory_step_swap (foldl (memory_step s true) (mkMemTotals 0 false 0) l) c Hc) as Hs.
    simpl in Hs. rw Hm in Hs. by apply Hs.
Qed.

(** The CPU sections of the containers that count, with their parsed sets. *)
Definition readable (c : ContainerConfig) : Prop :=
  forall cpu, cpu_of (sb_mem s) c = Some cpu -> exists set, Parse (cpu_Cpus cpu) = Some (Ok set).

Definition milli_demand (c : ContainerConfig) : Z :=
  match cpu_of (sb_mem s) c with Some cpu => milli_cpus cpu | None => 0 end.

Definition set_size (c : ContainerConfig) : Z :=
  match cpu_of (sb_mem s) c with
  | Some cpu => match Parse (cpu_Cpus cpu) with Some (Ok set) => CPUSet_Size set | _ => 0 end
  | None => 0
  end.

Lemma u32_add x y : u32 (u32 x + y) = u32 (x + y).
Proof. unfold u32, wrapu. by rw Zplus_mod_idemp_l. Qed.

Lemma cpu_loop_counted x y l :
  cpu_loop s x y l = cpu_loop s x y (filter (fun c => is_stopped s c = false) l).
Proof.
  revert x y. induction l as [|c l IH]; intros x y; [done|]. rw filter_cons. cbn [cpu_loop].
  case_decide as Hc; [|destruct (is_stopped s c); [apply IH|done]].
  cbn [cpu_loop]. rw Hc. destruct (cpu_of (sb_mem s) c) as [cpu|]; [|apply IH].
  destruct (Parse (cpu_Cpus cpu)) as [[set|]|]; [apply IH|done|done].
Qed.

(** A readable prefix of the loop adds up. *)
Lemma cpu_loop_sum l l' x y :
  Forall (fun c => is_stopped s c = false) l -> Forall readable l ->
  cpu_loop s (u32 x) (i64 y) (l ++ l') =
  cpu_loop s (u32 (x + sumZ (milli_demand <$> l))) (i64 (y + sumZ (set_size <$> l))) l'.
Proof.
  revert x y. induction l as [|c l IH]; intros x y Hl Hr; [cbn; by rw !Z.add_0_r|].
  apply Forall_cons in Hl as [Hc Hl]. apply Forall_cons in Hr as [Hrc Hr].
  rw -app_comm_cons !fmap_cons !sumZ_cons. cbn [cpu_loop]. rw Hc.
  unfold milli_demand at 1, set_size at 1.
  destruct (cpu_of (sb_mem s) c) as [cpu|] eqn:Ecpu; [|by rw IH // !Z.add_0_l].
  destruct (Hrc cpu Ecpu) as [set Hset]. rw Hset u32_add i64_add IH //. f_equal; f_equal; lia.
Qed.

Lemma sumZ_nonneg l : Forall (fun x => 0 <= x) l -> 0 <= sumZ l.
Proof. induction 1; [done|]. rw sumZ_cons. lia. Qed.

Lemma milli_demand_nonneg c : 0 <= milli_demand c.
Proof.
  unfold milli_demand, milli_cpus, CalculateMilliCPUs. repeat case_match; try done.
  by apply wrapu_range.
Qed.

(** The vCPUs of a sandbox.  When every container that is not stopped has a
    readable CPU set and the sums fit, the result is the sum of their
    quotas in milli-CPUs, rounded up to whole CPUs; if there are no quotas but
    CPU sets, it is the sum of the sizes of the sets.  One container with an
    unreadable CPU set makes the result 0, with no error, whatever the quotas
    of the other containers are. *)
Theorem calculateSandboxCPUs_spec :
  let mcpu := sumZ (milli_demand <$> counted) in
  let count := sumZ (set_size <$> counted) in
  (Forall readable counted -> mcpu <= maxUint32 - 999 -> 0 <= count <= maxUint32 ->
   calculateSandboxCPUs s = Some (if (mcpu =? 0) && (0 <? count) then count else (mcpu + 999) / 1000)) /\
  (forall l1 c l2 cpu e, counted = l1 ++ c :: l2 -> Forall readable l1 ->
   cpu_of (sb_mem s) c = Some cpu -> Parse (cpu_Cpus cpu) = Some (Err e) ->
   calculateSandboxCPUs s = Some 0).
Proof.
  assert (Hcnt : Forall (fun c => is_stopped s c = false) counted).
  { apply Forall_forall. intros c. unfold counted. rw list_elem_of_filter. by intros [? _]. }
  cbn zeta. unfold calculateSandboxCPUs. rw cpu_loop_counted. fold counted. split.
  - intros Hr Hm Hc. pose proof (cpu_loop_sum counted [] 0 0 Hcnt Hr) as E.
    rw app_nil_r in E. change (u32 0) with 0 in E. change (i64 0) with 0 in E. rw E. cbn [cpu_loop].
    assert (0 <= sumZ (milli_demand <$> counted)).
    { apply sumZ_nonneg, Forall_fmap, Forall_forall. intros c _. apply milli_demand_nonneg. }
    rw !Z.add_0_l u32_small; [lia|].
    assert (Hi : i64 (sumZ (set_size <$> counted)) = sumZ (set_size <$> counted)).
    { unfold i64. rw Z.mod_small; unfold maxUint32 in Hc; lia. }
    rw Hi. destruct (_ && _); [by rw u32_small|].
    unfold CalculateVCpusFromMilliCpus. rw u32_small; [unfold maxUint32 in *; lia|done].
  - intros l1 c l2 cpu e E Hr Hcpu Hp. rw E in Hcnt |- *.
    apply Forall_app in Hcnt as [Hl1 [Hc _]%Forall_cons].
    pose proof (cpu_loop_sum l1 (c :: l2) 0 0 Hl1 Hr) as El.
    change (u32 0) with 0 in El. change (i64 0) with 0 in El. rw El. cbn [cpu_loop].
    by rw Hc Hcpu Hp.
Qed.

(** ** CPU sets *)

Definition parsed (field : LinuxCPU -> string) (c : ContainerConfig) : CPUSet :=
  match cpu_of (sb_mem s) c with
  | Some cpu => match Parse (field cpu) with Some (Ok set) => set | _ => ∅ end
  | None => ∅
  end.

Definition readable_sets (c : ContainerConfig) : Prop :=
  forall cpu, cpu_of (sb_mem s) c = Some cpu ->
  (exists set, Parse (cpu_Cpus cpu) = Some (Ok set)) /\ (exists set, Parse (cpu_Mems cpu) = Some (Ok set)).

Lemma cpuset_loop_union `{GoRange} l x y :
  Forall readable_sets l ->
  cpuset_loop s x y l = Some (Ok (x ∪ ⋃ (parsed cpu_Cpus <$> l), y ∪ ⋃ (parsed cpu_Mems <$> l))).
Proof.
  intros Hl. revert x y. induction Hl as [|c l Hc Hl IH]; intros x y; cbn [cpuset_loop].
  { simpl. do 3 f_equal; set_solver. }
  rw !fmap_cons. cbn [union_list foldr]. unfold parsed at 1 3.
  destruct (cpu_of (sb_mem s) c) as [cpu|] eqn:Ecpu; [|rw IH; do 3 f_equal; set_solver].
  destruct (Hc cpu Ecpu) as [[set Hset] [mset Hm]]. rw Hset Hm IH !CPUSet_Union_spec.
  do 3 f_equal; set_solver.
Qed.

(** Readable sets before a container are added up and the loop goes on. *)
Lemma cpuset_loop_app `{GoRange} l1 l2 x y :
  Forall readable_sets l1 -> exists x' y', cpuset_loop s x y (l1 ++ l2) = cpuset_loop s x' y' l2.
Proof.
  intros Hr. revert x y. induction Hr as [|c l Hc Hl IH]; intros x y; [by exists x, y|].
  rw -app_comm_cons. cbn [cpuset_loop]. destruct (cpu_of (sb_mem s) c) as [cpu|] eqn:E; [|apply IH].
  destruct (Hc cpu E) as [[? ->] [? ->]]. apply IH.
Qed.

(** The CPU set written to the sandbox controller is the union of the CPU
    sets of all its containers, stopped or not, in canonical form, and likewise
    for the memory nodes; the first set the parser rejects, of CPUs or of memory
    nodes, is reported as an error. *)
Theorem getSandboxCPUSet_spec `{GoRange} :
  let cs := slice_list (sb_mem s) (sc_Containers (sb_config s)) in
  (Forall readable_sets cs ->
   getSandboxCPUSet s = Some (Ok (CPUSet_String (⋃ (parsed cpu_Cpus <$> cs)), CPUSet_String (⋃ (parsed cpu_Mems <$> cs))))) /\
  (forall l1 c l2 cpu, cs = l1 ++ c :: l2 -> Forall readable_sets l1 -> cpu_of (sb_mem s) c = Some cpu ->
   (forall e, Parse (cpu_Cpus cpu) = Some (Err e) ->
    getSandboxCPUSet s = Some (Err (Errorf "unable to parse CPUset.cpus for container %s: %v"))) /\
   (forall set e, Parse (cpu_Cpus cpu) = Some (Ok set) -> Parse (cpu_Mems cpu) = Some (Err e) ->
    getSandboxCPUSet s = Some (Err (Errorf "unable to parse CPUset.mems for container %s: %v")))).
Proof.
  cbn zeta. unfold getSandboxCPUSet. split.
  - intros Hr. rw cpuset_loop_union //. change (NewCPUSet []) with (∅ : CPUSet). by rw !union_empty_l_L.
  - intros l1 c l2 cpu -> Hr Hcpu.
    destruct (cpuset_loop_app l1 (c :: l2) (NewCPUSet []) (NewCPUSet []) Hr) as (x' & y' & ->).
    cbn [cpuset_loop]. rw Hcpu. split; [by intros e ->|by intros set e -> ->].
Qed.

End Sums.
End Resources.
