(* ===== verification/Container.v ===== *)
(** * virtcontainers/container.go

    The methods of a container, on the state [Sys] of its sandbox.  A container
    is named by its address; its state, mounts and devices are written there,
    its resources through the pointer to its configuration. *)
From S2P Require Import Prelude GoStr Types Devices DeviceManager Hypervisor State Persist Mounts Interfaces.
From S2P Require Import Receiver Resources.
Import Filepath Types.Lifecycle Types.Caps Devices.Config Devices.Drivers DeviceManager.DeviceManager.
Import HypervisorConf State Persist Mounts Interfaces Receiver Resources.

Module Containers.

Definition SIGKILL : Z := 9.
Definition NydusRootFSType : string := "fuse.nydus-overlayfs".
Definition ContainerResourcesSwappiness : string := "io.katacontainers.container.resource.swappiness".
Definition ContainerResourcesSwapInBytes : string := "io.katacontainers.container.resource.swap_in_bytes".

Definition cdromMajors : list Z := [11; 15; 16; 17; 18; 20; 23; 24; 25; 26; 27; 28; 29; 32].
Definition floppyMajor : Z := 2.

(** The text of an error, as far as it is known. *)
Definition err_text (e : error) : string :=
  match e with Errorf f => f | ErrExternal w => w | _ => "" end.

Definition state_in (st : StateString) (l : list StateString) : bool := bool_decide (st ∈ l).

Section Methods.
Context {W : Type} `{GoRange} `{Hypervisor W} `{Agent W} `{FilesystemSharer W} `{ResourceController W}
  `{!Store W} `{HostOS W}.

(** ** Pieces of the sandbox the container calls *)

Definition removeContainer (containerID : string) : M (Sys W) unit :=
  if bool_decide (containerID = "") then throw ErrNeedContainerID else
  cs ← readS sb_containers;
  match cs !! containerID with
  | None => throw ErrNoSuchContainer
  | Some _ => writeS (fun s => s <| sb_containers ::= delete containerID |>)
  end.

Definition GetHypervisorType : M (Sys W) HypervisorType := readS (fun s => sc_HypervisorType (sb_config s)).

(** ** State *)

Definition setStateFstype (l : nat) (fstype : string) : M (Sys W) unit :=
  upd_cont l (fun c => c <| c_state ::= fun st => st <| cs_Fstype := fstype |> |>).

Definition setContainerState (l : nat) (state : StateString) : M (Sys W) unit :=
  if bool_decide (state = "") then throw ErrNeedState else
  _ ← upd_cont l (fun c => c <| c_state ::= fun st => st <| cs_State := state |> |>);
  Sandbox_Save.

Definition checkSandboxRunning (cmd : string) : M (Sys W) unit :=
  if bool_decide (cmd = "") then throw (Errorf "Cmd cannot be empty") else
  st ← readS (fun s => ss_State (sb_state s));
  if bool_decide (st <> StateRunning) then throw (Errorf "Sandbox not running, impossible to %s the container")
  else mret tt.

Definition cont_state (l : nat) : M (Sys W) StateString := c ← cont l; mret (cs_State (c_state c)).

(** [if c.state.State != ... { return err }]. *)
Definition require_state (l : nat) (states : list StateString) (what : string) : M (Sys W) unit :=
  st ← cont_state l; if state_in st states then mret tt else throw (Errorf what).

(** ** Devices *)

Definition checkBlockDeviceSupport : M (Sys W) bool :=
  disabled ← readS (fun s => hc_DisableBlockDeviceUse (sc_HypervisorConfig (sb_config s)));
  if disabled then mret false else
  agentCaps ← readW ag_capabilities;
  hypervisorCaps ← readW hv_Capabilities;
  mret (IsBlockDeviceSupported agentCaps && IsBlockDeviceHotplugSupported hypervisorCaps).

(** Neither CDROM nor floppy drives are passed on. *)
Fixpoint filterDevices (dm : deviceManager) (devices : list ContainerDevice) : res (list ContainerDevice) :=
  match devices with
  | [] => Ok []
  | dev :: devices' =>
      match GetDeviceByID dm (cd_ID dev) with
      | None => Err ErrNilDeref
      | Some d =>
          let major := (GetMajorMinor d).1 in
          ret ← filterDevices dm devices';
          Ok (if bool_decide (major ∈ cdromMajors) || (major =? floppyMajor) then ret else dev :: ret)
      end
  end.

(** The device of a mount, if it is backed by one: the updated mount and the
    description.  [Ok (m, None)] when there is none. *)
Definition mount_device (sandboxID : string) (m : Mount) : M (Sys W) (Mount * option DeviceInfo) :=
  info ← readW (VolumeMountInfo (mt_Source m));
  match info with
  | Err _ => mret (m, None)
  | Ok info =>
      m ← (match info with
           | None => mret m
           | Some mi =>
               _ ← ignore_err (onW (RecordSandboxId sandboxID (mt_Source m)));
               mret (m <| mt_Source := mi_Device mi |> <| mt_Type := mi_FsType mi |>
                       <| mt_Options := mi_Options mi |>
                       <| mt_ReadOnly := bool_decide ("ro" ∈ mi_Options mi) |>)
           end);
      st ← readW (os_Stat (mt_Source m));
      match st with
      | Err _ => throw (Errorf "stat %q failed: %v")
      | Ok st =>
          if is_block st then
            mret (m, Some (mkDeviceInfo None (mt_Source m) (mt_Destination m) "b" ""
                             (unix_Major (stat_Rdev st)) (unix_Minor (stat_Rdev st))
                             0 0 0 false (mt_ReadOnly m) false))
          else
            di ← readW (fun e => PmemDeviceInfo e (mt_Source m) (mt_Destination m));
            mret (m, match di with Ok di => Some di | Err _ => None end)
      end
  end.

(** One mount of [createBlockDevices]. *)
Definition createBlockDevice (l i : nat) : M (Sys W) unit :=
  c ← cont l;
  match c_mounts c !! i with
  | None => mret tt
  | Some m =>
      if (negb (bool_decide (mt_BlockDeviceID m = ""))) || negb (bool_decide (mt_Type m = "bind")) then mret tt else
      md ← mount_device (c_sandboxID c) m;
      let '(m, di) := md in
      _ ← upd_cont l (fun c => c <| c_mounts ::= <[i := m]> |>);
      match di with
      | None => mret tt
      | Some di =>
          b ← try (sys_NewDevice di);
          match b with
          | Err _ => mret tt
          | Ok b => upd_cont l (fun c => c <| c_mounts ::= <[i := m <| mt_BlockDeviceID := DeviceID b |>]> |>)
          end
      end
  end.

Definition createBlockDevices (l : nat) : M (Sys W) unit :=
  ok ← checkBlockDeviceSupport;
  if negb ok then mret tt else
  c ← cont l;
  for_each (seq 0 (length (c_mounts c))) (createBlockDevice l).

Definition createMounts (l : nat) : M (Sys W) unit := createBlockDevices l.

(** The devices of a configuration, created one after the other; on an error
    those already created stay referenced in the manager. *)
Fixpoint new_devices (infos : list DeviceInfo) : M (Sys W) (list ContainerDevice) :=
  match infos with
  | [] => mret []
  | info :: infos' =>
      dev ← sys_NewDevice info;
      rest ← new_devices infos';
      mret (mkContainerDevice (DeviceID dev) (di_ContainerPath info) (di_FileMode info) (di_UID info) (di_GID info) :: rest)
  end.

Definition createDevices (l : nat) (infos : list DeviceInfo) : M (Sys W) unit :=
  storedDevices ← new_devices infos;
  dm ← gets w_dm;
  devices ← lift (filterDevices dm storedDevices);
  upd_cont l (fun c => c <| c_devices := devices |>).

Definition attachDevices (l : nat) : M (Sys W) unit :=
  c ← cont l;
  for_each (c_devices c) (fun dev => sys_AttachDevice (cd_ID dev)).

(** Detach a device and drop the reference: a device that is not attached, or
    does not exist any more, is no error. *)
Definition release_device (id : string) : M (Sys W) unit :=
  r ← try (sys_DetachDevice id);
  match r with
  | Err e => if bool_decide (e = ErrDeviceNotAttached) then mret tt else throw e
  | Ok _ => mret tt
  end;;
  r ← try (sys_RemoveDevice id);
  match r with
  | Err e => if bool_decide (e = ErrDeviceNotExist) then mret tt else throw e
  | Ok _ => mret tt
  end.

Definition detachDevices (l : nat) : M (Sys W) unit :=
  c ← cont l;
  for_each (c_devices c) (fun dev => release_device (cd_ID dev)).

(** ** The rootfs drive *)

Definition isDriveUsed (c : Container) : bool := negb (bool_decide (cs_Fstype (c_state c) = "")).

Definition plugDevice (l : nat) (devicePath : string) : M (Sys W) unit :=
  st ← readW (os_Stat devicePath);
  match st with
  | Err _ => throw (Errorf "stat %q failed: %v")
  | Ok st =>
      ok ← checkBlockDeviceSupport;
      if ok && is_block st then
        c ← cont l;
        dir ← readW kataGuestSharedDir;
        r ← try (sys_NewDevice (mkDeviceInfo None devicePath (PathJoin [dir; c_id c]) "b" ""
                   (unix_Major (stat_Rdev st)) (unix_Minor (stat_Rdev st)) 0 0 0 false false false));
        match r with
        | Err _ => throw (Errorf "device manager failed to create rootfs device for %q: %v")
        | Ok b =>
            _ ← upd_cont l (fun c => c <| c_state ::= fun st => st <| cs_BlockDeviceID := DeviceID b |> |>);
            sys_AttachDevice (DeviceID b)
        end
      else mret tt
  end.

Definition hotplugDrive (l : nat) : M (Sys W) unit :=
  c ← cont l;
  let rootFs := c_rootFs c in
  _ ← when (negb (rf_Mounted rootFs)) (upd_cont l (fun c => c <| c_rootfsSuffix := "" |>));
  dev ← readW (fun e => getDeviceForPath e (if rf_Mounted rootFs then rf_Target rootFs else rf_Source rootFs));
  match dev with
  | Err e => if bool_decide (e = errMountPointNotFound) then mret tt else throw e
  | Ok (mkDev mountPoint major minor) =>
      isDM ← readW (fun e => isDeviceMapper e major minor);
      isDM ← lift isDM;
      if negb isDM then mret tt else
      dp ← (if rf_Mounted rootFs then
              _ ← when (bool_decide (mountPoint = rf_Target rootFs))
                    (upd_cont l (fun c => c <| c_rootfsSuffix := "" |>));
              r ← readW (fun e => GetDevicePathAndFsTypeOptions e mountPoint);
              r ← lift r;
              mret r.1
            else mret (rf_Source rootFs, rf_Type rootFs));
      path ← readW (os_EvalSymlinks dp.1);
      path ← lift path;
      _ ← plugDevice l path;
      setStateFstype l dp.2
  end.

Definition removeDrive (l : nat) : M (Sys W) unit :=
  c ← cont l;
  if isDriveUsed c then release_device (cs_BlockDeviceID (c_state c)) else mret tt.

(** ** Host mounts *)

Definition unmountHostMounts (l : nat) : M (Sys W) unit :=
  c ← cont l;
  for_each (c_mounts c) (fun m =>
    if bool_decide (mt_HostPath m = "") then mret tt else onW (fs_UnshareFile c m)).

Definition unshare_rootfs (l : nat) : M (Sys W) unit :=
  c ← cont l;
  if bool_decide (rf_Type (c_rootFs c) = NydusRootFSType) then onW (nydusContainerCleanup c)
  else onW (fs_UnshareRootFilesystem c).

(** ** Creation *)

(** Every step is tried; errors are logged. *)
Definition rollbackFailingContainerCreation (l : nat) : M (Sys W) unit :=
  _ ← ignore_err (detachDevices l);
  _ ← ignore_err (removeDrive l);
  _ ← ignore_err (unmountHostMounts l);
  ignore_err (unshare_rootfs l).

Definition getSystemMountInfo (l : nat) : M (Sys W) unit :=
  upd_cont l (fun c => c <| c_BindMountDev :=
    existsb (fun m => bool_decide (mt_Source m = "/dev") && bool_decide (mt_Destination m = "/dev") &&
                      bool_decide (mt_Type m = "bind")) (c_mounts c) |>).

Definition create (l : nat) : M (Sys W) unit :=
  on_error
    (ok ← checkBlockDeviceSupport;
     c ← cont l;
     _ ← when (ok && negb (bool_decide (rf_Type (c_rootFs c) = NydusRootFSType))) (hotplugDrive l);
     _ ← attachDevices l;
     _ ← getSystemMountInfo l;
     process ← ag_createContainer l;
     _ ← upd_cont l (fun c => c <| c_process := process |>);
     setContainerState l StateReady)
    (rollbackFailingContainerCreation l).

(** *** The constructor *)

Definition upd_config (p : ptr) (f : ContainerConfig -> ContainerConfig) : M (Sys W) unit :=
  writeS (fun s => s <| sb_mem ::= fun m => set_config p (f (config_at m p)) m |>).

(** A new, empty memory section, shared with the OCI specification. *)
Definition initConfigResourcesMemory (p : ptr) : M (Sys W) unit :=
  m ← readS sb_mem;
  if negb (cc_CustomSpec (config_at m p)) then throw ErrNilDeref else
  let a := m_next m in
  _ ← writeS (fun s => s <| sb_mem ::= alloc_memory (mkLinuxMemory None None None) |>);
  upd_config p (fun c => c <| cc_Resources ::= fun r => r <| rs_Memory := Some a |> |>).

(** Write through [c.config.Resources.Memory], making it if it is nil. *)
Definition upd_memory (p : ptr) (f : LinuxMemory -> LinuxMemory) : M (Sys W) unit :=
  m ← readS sb_mem;
  _ ← (match rs_Memory (cc_Resources (config_at m p)) with
       | None => initConfigResourcesMemory p
       | Some _ => mret tt
       end);
  m ← readS sb_mem;
  match rs_Memory (cc_Resources (config_at m p)) with
  | None => mret tt
  | Some a => writeS (fun s => s <| sb_mem ::= fun m => m <| m_mems ::= alter f a |> |>)
  end.

Definition swap_annotations (p : ptr) : M (Sys W) unit :=
  m ← readS sb_mem;
  let annotations := cc_Annotations (config_at m p) in
  _ ← (match annotations !! ContainerResourcesSwappiness with
       | None => mret tt
       | Some str =>
           match ParseUint0 str 64 with
           | Ok n => if 200 <? n then throw (Errorf "Invalid container configuration Annotations %s %v")
                     else upd_memory p (fun m => m <| mem_Swappiness := Some n |>)
           | Err _ => throw (Errorf "Invalid container configuration Annotations %s %v")
           end
       end);
  match annotations !! ContainerResourcesSwapInBytes with
  | None => mret tt
  | Some str =>
      match ParseUint0 str 64 with
      | Ok n => upd_memory p (fun m => m <| mem_Swap := Some (i64 n) |>)
      | Err _ => throw (Errorf "Invalid container configuration Annotations %s %v")
      end
  end.

(** [Container.Restore]: whether the container was found on disk. *)
Definition Container_Restore (l : nat) : M (Sys W) bool :=
  s ← readS id;
  r ← lift (st_FromDisk (sb_id s) (sb_env s));
  c ← cont l;
  match r ≫= fun x => x.2 !! c_id c with
  | None => mret false
  | Some cs => _ ← upd_cont l (restore_container cs); mret true
  end.

(** The container for the configuration at [p]; its address is the result. *)
Definition newContainer (p : ptr) : M (Sys W) nat :=
  s ← readS id;
  let contConfig := config_at (sb_mem s) p in
  if negb (ContainerConfig_valid contConfig) then throw (Errorf "Invalid container configuration") else
  let l := m_next (sb_mem s) in
  let c := mkContainer (cc_ID contConfig) (sb_id s) p (PathJoin [sb_id s; cc_ID contConfig]) "rootfs"
             (cc_Mounts contConfig) [] (mkContainerState "" "" "" "") (mkProcess "" 0 0) (cc_RootFs contConfig) false in
  _ ← writeS (fun s => s <| sb_mem ::= alloc_cont c |>);
  _ ← swap_annotations p;
  restored ← Container_Restore l;
  if restored then mret l else
  _ ← createMounts l;
  _ ← createDevices l (cc_DeviceInfos contConfig);
  mret l.

(** ** Life cycle *)

Definition signalProcess (l : nat) (processID : string) (signal : Z) (all : bool) : M (Sys W) unit :=
  st ← readS (fun s => ss_State (sb_state s));
  if negb (state_in st [StateReady; StateRunning]) then
    throw (Errorf "Sandbox not ready or running, impossible to signal the container") else
  _ ← require_state l [StateReady; StateRunning; StatePaused]
        "Container not ready, running or paused, impossible to signal the container";
  c ← cont l;
  r ← try (onW (ag_signalProcess c processID signal all));
  match r with
  | Ok _ => mret tt
  | Err e => if Contains (err_text e) "ESRCH: No such process" then mret tt else throw e
  end.

Definition kill (l : nat) (signal : Z) (all : bool) : M (Sys W) unit :=
  c ← cont l; signalProcess l (pr_Token (c_process c)) signal all.

Definition stop (l : nat) (force : bool) : M (Sys W) unit :=
  c ← cont l;
  if bool_decide (cs_State (c_state c) = StateStopped) then mret tt else
  _ ← lift (ContainerState_ValidTransition (c_state c) (cs_State (c_state c)) StateStopped);
  _ ← ignore_err (kill l SIGKILL true);
  c ← cont l;
  _ ← ignore_err (onW (ag_waitProcess c (c_id c)));
  finally
    (c ← cont l;
     _ ← unless_forced force (onW (ag_stopContainer c));
     _ ← unless_forced force (unmountHostMounts l);
     _ ← unless_forced force (unshare_rootfs l);
     _ ← unless_forced force (detachDevices l);
     _ ← unless_forced force (removeDrive l);
     setContainerState l StateStopped)
    (ignore_err Sandbox_Save).

(** With the unikernel hypervisor the container is marked running and nothing
    else happens; the error of saving is dropped. *)
Definition start (l : nat) : M (Sys W) unit :=
  _ ← checkSandboxRunning "start";
  t ← GetHypervisorType;
  if bool_decide (t = UruncHypervisor) then ignore_err (setContainerState l StateRunning) else
  _ ← require_state l [StateReady; StateStopped] "Container not ready or stopped, impossible to start";
  c ← cont l;
  _ ← lift (ContainerState_ValidTransition (c_state c) (cs_State (c_state c)) StateRunning);
  r ← try (onW (ag_startContainer c));
  match r with
  | Err e => _ ← ignore_err (stop l true); throw e
  | Ok _ => setContainerState l StateRunning
  end.

Definition container_delete (l : nat) : M (Sys W) unit :=
  _ ← require_state l [StateReady; StateStopped] "Container not ready or stopped, impossible to delete";
  c ← cont l;
  _ ← removeContainer (c_id c);
  storeSandbox.

Definition enter (l : nat) : M (Sys W) Process :=
  _ ← checkSandboxRunning "enter";
  _ ← require_state l [StateReady; StateRunning] "Container not ready or running, impossible to enter";
  c ← cont l;
  onW (ag_exec c).

Definition wait (l : nat) (processID : string) : M (Sys W) Z :=
  _ ← require_state l [StateReady; StateRunning] "Container not ready or running, impossible to wait";
  c ← cont l;
  onW (ag_waitProcess c processID).

Definition winsizeProcess (l : nat) (processID : string) (height width : Z) : M (Sys W) unit :=
  _ ← require_state l [StateReady; StateRunning] "Container not ready or running, impossible to signal the container";
  c ← cont l;
  onW (ag_winsizeProcess c processID height width).

(** The streams themselves are not modelled. *)
Definition ioStream (l : nat) : M (Sys W) unit :=
  require_state l [StateReady; StateRunning] "Container not ready or running, impossible to signal the container".

Definition stats (l : nat) : M (Sys W) unit :=
  _ ← checkSandboxRunning "stats";
  c ← cont l;
  onW (ag_statsContainer c).

Definition pause (l : nat) : M (Sys W) unit :=
  _ ← checkSandboxRunning "pause";
  _ ← require_state l [StateRunning] "Container not running, impossible to pause";
  c ← cont l;
  _ ← onW (ag_pauseContainer c);
  setContainerState l StatePaused.

Definition resume (l : nat) : M (Sys W) unit :=
  _ ← checkSandboxRunning "resume";
  _ ← require_state l [StatePaused] "Container not paused, impossible to resume";
  c ← cont l;
  _ ← onW (ag_resumeContainer c);
  setContainerState l StateRunning.

(** Write through [c.config.Resources.CPU], which is made if it is nil. *)
Definition ensure_cpu (p : ptr) : M (Sys W) unit :=
  m ← readS sb_mem;
  match rs_CPU (cc_Resources (config_at m p)) with
  | Some _ => mret tt
  | None =>
      let a := m_next m in
      _ ← writeS (fun s => s <| sb_mem ::= alloc_cpu (mkLinuxCPU None None "" "") |>);
      upd_config p (fun c => c <| cc_Resources ::= fun r => r <| rs_CPU := Some a |> |>)
  end.

Definition ensure_memory (p : ptr) : M (Sys W) unit :=
  m ← readS sb_mem;
  match rs_Memory (cc_Resources (config_at m p)) with
  | Some _ => mret tt
  | None =>
      let a := m_next m in
      _ ← writeS (fun s => s <| sb_mem ::= alloc_memory (mkLinuxMemory None None None) |>);
      upd_config p (fun c => c <| cc_Resources ::= fun r => r <| rs_Memory := Some a |> |>)
  end.

(** The fields of an update that are set replace those of the configuration. *)
Definition merge_cpu (upd cpu : LinuxCPU) : LinuxCPU :=
  mkLinuxCPU
    (match cpu_Quota upd with Some q => if q =? 0 then cpu_Quota cpu else Some q | None => cpu_Quota cpu end)
    (match cpu_Period upd with Some p => if p =? 0 then cpu_Period cpu else Some p | None => cpu_Period cpu end)
    (if bool_decide (cpu_Cpus upd = "") then cpu_Cpus cpu else cpu_Cpus upd)
    (if bool_decide (cpu_Mems upd = "") then cpu_Mems cpu else cpu_Mems upd).

Definition write_cpu (p : ptr) (upd : LinuxCPU) : M (Sys W) unit :=
  m ← readS sb_mem;
  match rs_CPU (cc_Resources (config_at m p)) with
  | None => mret tt
  | Some a => writeS (fun s => s <| sb_mem ::= fun m => m <| m_cpus ::= alter (merge_cpu upd) a |> |>)
  end.

Definition write_limit (p : ptr) (limit : Z) : M (Sys W) unit :=
  m ← readS sb_mem;
  match rs_Memory (cc_Resources (config_at m p)) with
  | None => mret tt
  | Some a => writeS (fun s => s <| sb_mem ::= fun m =>
                m <| m_mems ::= alter (fun x => x <| mem_Limit := Some limit |>) a |> |>)
  end.

Definition container_update (l : nat) (cpu : option LinuxCPU) (mem : option LinuxMemory) : M (Sys W) unit :=
  _ ← checkSandboxRunning "update";
  _ ← require_state l [StateRunning; StateReady] "Container(%s) not running or ready, impossible to update";
  c ← cont l;
  let p := c_config c in
  _ ← ensure_cpu p;
  _ ← (match cpu with Some u => write_cpu p u | None => mret tt end);
  _ ← ensure_memory p;
  _ ← (match mem ≫= mem_Limit with Some limit => write_limit p limit | None => mret tt end);
  _ ← updateResources;
  c ← cont l;
  onW (ag_updateContainer c ((fun u => u <| cpu_Cpus := "" |> <| cpu_Mems := "" |>) <$> cpu) mem).

End Methods.
End Containers.
