(* ===== verification/Sandbox.v ===== *)
(** * virtcontainers/sandbox.go

    The life cycle of a sandbox and the calls on its containers.  Every method
    is a computation on [Sys]; the order of [range] over the containers and the
    growth of slices are arguments. *)
From S2P Require Import Prelude GoStr Types Devices DeviceManager Hypervisor State Persist Mounts Interfaces.
From S2P Require Import Receiver Resources Container.
Import Types.Lifecycle Types.Caps Types.Assets Devices.Config Devices.Drivers Devices.DriversSpec.
Import DeviceManager.DeviceManager HypervisorConf State Persist Mounts Interfaces Receiver Resources Containers.

Module Sandboxes.

Section Methods.
Context {W : Type} `{GoRange} `{GoAppend} `{Hypervisor W} `{Agent W} `{FilesystemSharer W}
  `{ResourceController W} `{!Store W} `{HostOS W}.

(** ** Access *)

Definition Annotations (key : string) : M (Sys W) string :=
  config ← readS sb_config;
  match sc_Annotations config !! key with
  | Some v => mret v
  | None => throw (Errorf "Annotations key %s does not exist")
  end.

Definition SetAnnotations (annotations : gmap string string) : M (Sys W) unit :=
  writeS (fun s => s <| sb_config ::= fun c => c <| sc_Annotations ::= fun m =>
    foldl (fun m kv => <[kv.1 := kv.2]> m) m (range_map annotations) |> |>).

Definition findContainer (containerID : string) : M (Sys W) nat :=
  if bool_decide (containerID = "") then throw ErrNeedContainerID else
  cs ← readS sb_containers;
  match cs !! containerID with
  | Some l => mret l
  | None => throw ErrNoSuchContainer
  end.

Definition GetContainer (containerID : string) : M (Sys W) (option nat) :=
  cs ← readS sb_containers; mret (cs !! containerID).

(** The containers in the order [range] visits them. *)
Definition all_containers (s : Sandbox W) : list nat := (range_map (sb_containers s)).*2.

Definition GetAllContainers : M (Sys W) (list nat) := readS all_containers.

Definition addContainer (l : nat) : M (Sys W) unit :=
  c ← cont l;
  cs ← readS sb_containers;
  match cs !! c_id c with
  | Some _ => throw (Errorf "Duplicated container: %s")
  | None => writeS (fun s => s <| sb_containers ::= <[c_id c := l]> |>)
  end.

Record ContainerStatus := mkContainerStatus {
  cst_Annotations : gmap string string;
  cst_ID : string;
  cst_RootFs : string;
  cst_StartTime : Z;
  cst_State : ContainerState;
  cst_PID : Z;
}.

Definition container_status (s : Sandbox W) (l : nat) : ContainerStatus :=
  let c := cont_at (sb_mem s) l in
  let config := config_at (sb_mem s) (c_config c) in
  let rootfs := if rf_Mounted (cc_RootFs config) then rf_Target (cc_RootFs config) else rf_Source (cc_RootFs config) in
  mkContainerStatus (cc_Annotations config) (c_id c) rootfs (pr_StartTime (c_process c)) (c_state c) (pr_Pid (c_process c)).

Definition StatusContainer (containerID : string) : M (Sys W) ContainerStatus :=
  if bool_decide (containerID = "") then throw ErrNeedContainerID else
  s ← readS id;
  match sb_containers s !! containerID with
  | Some l => mret (container_status s l)
  | None => throw ErrNoSuchContainer
  end.

Definition Status : M (Sys W) (list ContainerStatus) :=
  s ← readS id; mret (container_status s <$> all_containers s).

Definition GetHypervisorPid : M (Sys W) Z :=
  pids ← readW hv_GetPids;
  match pids with
  | pid :: _ => if pid =? 0 then throw (Errorf "Invalid hypervisor PID: %+v") else mret pid
  | [] => throw (Errorf "Invalid hypervisor PID: %+v")
  end.

Definition setSandboxState (state : StateString) : M (Sys W) unit :=
  if bool_decide (state = "") then throw ErrNeedState else
  writeS (fun s => s <| sb_state ::= fun st => st <| ss_State := state |> |>).

Definition sandbox_state : M (Sys W) StateString := readS (fun s => ss_State (sb_state s)).

Definition require_running : M (Sys W) unit :=
  st ← sandbox_state; if bool_decide (st <> StateRunning) then throw ErrSandboxNotRunning else mret tt.

(** ** Processes *)

(** The watcher itself is in [monitor.go]. *)
Definition Monitor : M (Sys W) unit :=
  _ ← require_running;
  writeS (fun s => s <| sb_monitor := true |>).

Definition WaitProcess (containerID processID : string) : M (Sys W) Z :=
  _ ← require_running; l ← findContainer containerID; wait l processID.

Definition SignalProcess (containerID processID : string) (signal : Z) (all : bool) : M (Sys W) unit :=
  _ ← require_running; l ← findContainer containerID; signalProcess l processID signal all.

Definition WinsizeProcess (containerID processID : string) (height width : Z) : M (Sys W) unit :=
  st ← sandbox_state;
  if bool_decide (st <> StateRunning) then
    unikernel ← readW hv_Unikernel;
    if unikernel then mret tt else throw ErrSandboxNotRunning
  else l ← findContainer containerID; winsizeProcess l processID height width.

Definition IOStream (containerID : string) : M (Sys W) unit :=
  _ ← require_running; l ← findContainer containerID; ioStream l.

(** ** Containers *)

Definition slice_tail_dropped (s : Sandbox W) : Sandbox W :=
  s <| sb_config ::= fun c => c <| sc_Containers ::= fun sl =>
    if (0 <? sl_len sl)%nat then mkSlice (sl_array sl) (sl_len sl - 1) else sl |> |>.

Definition append_container (contConfig : ContainerConfig) (s : Sandbox W) : Sandbox W :=
  let '(m, sl) := append_config contConfig (sb_mem s) (sc_Containers (sb_config s)) in
  s <| sb_mem := m |> <| sb_config ::= fun c => c <| sc_Containers := sl |> |>.

(** The pointer to the last element. *)
Definition last_config : M (Sys W) ptr :=
  sl ← readS (fun s => sc_Containers (sb_config s)); mret (sl_array sl, (sl_len sl - 1)%nat).

Definition CreateContainer (contConfig : ContainerConfig) : M (Sys W) nat :=
  _ ← writeS (append_container contConfig);
  on_error
    (p ← last_config;
     l ← newContainer p;
     _ ← create l;
     _ ← addContainer l;
     _ ← on_error
       (_ ← updateResources;
        _ ← resourceControllerUpdate;
        storeSandbox)
       (_ ← ignore_err (stop l true);
        c ← cont l;
        ignore_err (removeContainer (c_id c)));
     mret l)
    (writeS slice_tail_dropped).

Definition unikernel_suffix : string := "-unikernel".

Definition StartContainer (containerID : string) : M (Sys W) nat :=
  let containerID := if Contains containerID unikernel_suffix then ReplaceAll containerID unikernel_suffix "" else containerID in
  l ← findContainer containerID;
  _ ← start l;
  _ ← storeSandbox;
  _ ← updateResources;
  mret l.

Definition StopContainer (containerID : string) (force : bool) : M (Sys W) nat :=
  l ← findContainer containerID;
  _ ← stop l force;
  _ ← storeSandbox;
  mret l.

Definition KillContainer (containerID : string) (signal : Z) (all : bool) : M (Sys W) unit :=
  l ← findContainer containerID;
  r ← try (kill l signal all);
  if signal =? SIGKILL then mret tt else lift r.

(** The first configuration with this identifier goes. *)
Definition drop_config (containerID : string) (s : Sandbox W) : Sandbox W :=
  let sl := sc_Containers (sb_config s) in
  match list_find (fun c => cc_ID c = containerID) (slice_list (sb_mem s) sl) with
  | None => s
  | Some (idx, _) =>
      let '(m, sl') := delete_config idx (sb_mem s) sl in
      s <| sb_mem := m |> <| sb_config ::= fun c => c <| sc_Containers := sl' |> |>
  end.

Definition DeleteContainer (containerID : string) : M (Sys W) nat :=
  l ← findContainer containerID;
  _ ← container_delete l;
  _ ← writeS (drop_config containerID);
  _ ← resourceControllerUpdate;
  _ ← storeSandbox;
  mret l.

Definition EnterContainer (containerID : string) : M (Sys W) Process :=
  l ← findContainer containerID; enter l.

Definition UpdateContainer (containerID : string) (cpu : option LinuxCPU) (mem : option LinuxMemory) : M (Sys W) unit :=
  l ← findContainer containerID;
  _ ← container_update l cpu mem;
  _ ← resourceControllerUpdate;
  storeSandbox.

Definition StatsContainer (containerID : string) : M (Sys W) unit :=
  l ← findContainer containerID; stats l.

Definition PauseContainer (containerID : string) : M (Sys W) unit :=
  l ← findContainer containerID; _ ← pause l; storeSandbox.

Definition ResumeContainer (containerID : string) : M (Sys W) unit :=
  l ← findContainer containerID; _ ← resume l; storeSandbox.

(** One container of [createContainers] and the whole loop. *)
Definition create_one (i : nat) : M (Sys W) unit :=
  sl ← readS (fun s => sc_Containers (sb_config s));
  l ← newContainer (sl_array sl, i);
  _ ← create l;
  addContainer l.

Definition createContainers : M (Sys W) unit :=
  sl ← readS (fun s => sc_Containers (sb_config s));
  _ ← for_each (seq 0 (sl_len sl)) create_one;
  _ ← updateResources;
  _ ← resourceControllerUpdate;
  storeSandbox.

(** ** The virtual machine *)

(** [debug]: the console watcher is made; [fromFactory]: the machine comes from
    the factory.  The deferred [stopSandbox] never runs, since nothing can fail
    after it is installed. *)
Definition startVM (fromFactory : bool) : M (Sys W) unit :=
  debug ← readS (fun s => hc_Debug (sc_HypervisorConfig (sb_config s)));
  _ ← when debug (_ ← onW cw_new; writeS (fun s => s <| sb_cw := true |>));
  on_error
    (_ ← (if fromFactory then onW factory_GetVM else onW hv_StartVM);
     _ ← when fromFactory (onW nw_AddEndpoints);
     cw ← readS sb_cw;
     _ ← when cw (on_error (onW cw_start) (onW cw_stop));
     onW ag_startSandbox)
    (onW (hv_StopVM false)).

Definition stopVM : M (Sys W) unit :=
  _ ← ignore_err (onW ag_stopSandbox);
  waitOnly ← readS sb_disableVMShutdown;
  onW (hv_StopVM waitOnly).

(** ** Life cycle *)

(** Only an error of a container restores the state. *)
Definition Start : M (Sys W) unit :=
  st ← readS sb_state;
  _ ← lift (SandboxState_ValidTransition st (ss_State st) StateRunning);
  _ ← setSandboxState StateRunning;
  ls ← readS all_containers;
  r ← try (for_each ls start);
  match r with
  | Err e => _ ← ignore_err (setSandboxState (ss_State st)); throw e
  | Ok _ => storeSandbox
  end.

Definition Stop (force : bool) : M (Sys W) unit :=
  st ← readS sb_state;
  if bool_decide (ss_State st = StateStopped) then mret tt else
  _ ← lift (SandboxState_ValidTransition st (ss_State st) StateStopped);
  ls ← readS all_containers;
  _ ← for_each ls (fun l => stop l force);
  _ ← unless_forced force stopVM;
  cw ← readS sb_cw;
  _ ← when cw (ignore_err (onW cw_stop));
  _ ← setSandboxState StateStopped;
  _ ← unless_forced force (onW nw_RemoveEndpoints);
  _ ← storeSandbox;
  _ ← unless_forced force (onW ag_disconnect);
  cleanSwap.

Definition Delete : M (Sys W) unit :=
  st ← sandbox_state;
  if negb (state_in st [StateReady; StatePaused; StateStopped]) then
    throw (Errorf "Sandbox not ready, paused or stopped, impossible to delete") else
  ls ← readS all_containers;
  _ ← for_each ls (fun l => ignore_err (container_delete l));
  rootless ← readW os_rootless;
  _ ← when (negb rootless) (ignore_err resourceControllerDelete);
  monitor ← readS sb_monitor;
  _ ← when monitor (ignore_err (onW mon_stop));
  _ ← ignore_err (onW hv_Cleanup);
  _ ← ignore_err (onW fs_Cleanup);
  sid ← readS sb_id;
  onW (st_Destroy sid).

Definition Release : M (Sys W) unit :=
  monitor ← readS sb_monitor;
  _ ← when monitor (ignore_err (onW mon_stop));
  _ ← ignore_err (onW hv_Disconnect);
  onW ag_disconnect.

(** ** Creation *)

(** [createAssets]: the custom assets named by annotations, one type after the
    other.  The check at the end of the code cannot fail, because looking up the
    path of a known asset type never does. *)
Fixpoint add_assets (env : W) (annotations : gmap string string) (ts : list AssetType) : M HypervisorConfig unit :=
  match ts with
  | [] => mret tt
  | t :: ts' =>
      match NewAsset (os_ReadFile env) sha512_hex annotations t with
      | (_, Some e) => throw e
      | (a, None) => _ ← AddCustomAsset a; add_assets env annotations ts'
      end
  end.

Definition createAssets (env : W) (annotations : gmap string string) : M HypervisorConfig unit :=
  _ ← add_assets env annotations AssetTypes;
  conf ← get;
  match assetPath conf ImageAsset, assetPath conf InitrdAsset with
  | Err _, Err _ => throw (Errorf "%s and %s cannot be both set")
  | _, _ => mret tt
  end.

(** [SandboxConfig.valid]: an unknown hypervisor is replaced by QEMU. *)
Definition SandboxConfig_valid (features : list string) (c : SandboxConfig) : bool * SandboxConfig :=
  if bool_decide (sc_ID c = "") then (false, c) else
  let c := if NewHypervisor_ok (sc_HypervisorType c) then c else c <| sc_HypervisorType := QemuHypervisor |> in
  (forallb (fun f => bool_decide (f ∈ features)) (sc_Experimental c), c).

(** [Sandbox.Restore]: the sandbox's own data from disk. *)
Definition Sandbox_Restore : M (Sys W) unit :=
  s ← readS id;
  r ← lift (st_FromDisk (sb_id s) (sb_env s));
  match r with
  | None => throw (ErrExternal "no such file or directory")
  | Some (ss, _) =>
      _ ← writeS (fun s => s <| sb_state ::= loadState ss |>
                             <| sb_env ::= hv_Load (hs_rest (ps_HypervisorState ss)) |>);
      _ ← on_dm (modify (LoadDevices (ps_Devices ss)));
      writeS (fun s => s <| sb_env ::= ag_load (ps_AgentURL ss) |>)
  end.

Definition createResourceController : M (Sys W) unit :=
  only ← readS (fun s => sc_SandboxCgroupOnly (sb_config s));
  paths ← onW (rc_Create only);
  let overhead := if only then None else paths.2 in
  writeS (fun s => s <| sb_controller := true |> <| sb_overhead := bool_decide (is_Some overhead) |>
    <| sb_state ::= fun st => st <| ss_SandboxCgroupPath := paths.1 |> <| ss_OverheadCgroupPath := default "" overhead |> |>).

(** The state [newSandbox] starts from: the structure in memory and a new
    device manager. *)
Definition new_sandbox_state (config : SandboxConfig) (m : Mem) (pcie : gset string) (env : W) : Sys W :=
  let hc := sc_HypervisorConfig config in
  mkWorld (NewDeviceManager (hc_BlockDeviceDriver hc) (hc_EnableVhostUserStore hc) (hc_VhostUserStorePath hc) [])
    pcie (Sandbox_init (sc_ID config) config m env).

Definition set_hypervisor_config (f : HypervisorConfig -> HypervisorConfig) : M (Sys W) unit :=
  writeS (fun s => s <| sb_config ::= fun c => c <| sc_HypervisorConfig ::= f |> |>).

(** [CreateVM] is handed a pointer to the sandbox's own configuration. *)
Definition create_vm (sid : string) : M (Sys W) unit := fun w =>
  let s := w_recv w in
  let '(r, (hc, e)) := hv_CreateVM sid (sc_HypervisorConfig (sb_config s), sb_env s) in
  (r, mkWorld (w_dm w) (w_pcie w)
        (s <| sb_env := e |> <| sb_config ::= fun c => c <| sc_HypervisorConfig := hc |> |>)).

(** The rest of [newSandbox]: on an error the store of this sandbox is destroyed. *)
Definition newSandbox_body : M (Sys W) unit :=
  sid ← readS sb_id;
  on_error
    (_ ← set_hypervisor_config (fun h =>
           h <| hc_VMStorePath := st_RunVMStoragePath |> <| hc_RunStorePath := st_RunStoragePath |>);
     label ← readW os_SelinuxLabel;
     _ ← when (negb (bool_decide (label = ""))) (set_hypervisor_config (fun h => h <| hc_SELinuxProcessLabel := label |>));
     _ ← createResourceController;
     _ ← ignore_err Sandbox_Restore;
     _ ← create_vm sid;
     config ← readS sb_config;
     disableVMShutdown ← onW (ag_init (sc_AgentConfig config));
     writeS (fun s => s <| sb_disableVMShutdown := disableVMShutdown |>))
    (onW (st_Destroy sid)).

(** [createSandbox] on the state of [new_sandbox_state]: a sandbox found on disk
    is only rebuilt in memory, a new one is made known to the agent. *)
Definition createSandbox_body : M (Sys W) unit :=
  _ ← newSandbox_body;
  st ← sandbox_state;
  if negb (bool_decide (st = "")) then mret tt else
  _ ← onW fs_Prepare;
  _ ← onW ag_createSandbox;
  setSandboxState StateReady.

(** What is left when there is no sandbox: the world outside and [AllPCIeDevs]. *)
Definition Outside : Type := W * gset string.

Definition outside (w : Sys W) : Outside := (sb_env (w_recv w), w_pcie w).

(** A constructor that fails returns no sandbox. *)
Definition made (r : res unit * Sys W) : res unit * (Outside + Sys W) :=
  match r with (Ok _, w) => (Ok tt, inr w) | (Err e, w) => (Err e, inl (outside w)) end.

Definition createSandbox (features : list string) (config : SandboxConfig) (m : Mem) (o : Outside)
    : res unit * (Outside + Sys W) :=
  match createAssets o.1 (sc_Annotations config) (sc_HypervisorConfig config) with
  | (Err e, _) => (Err e, inl o)
  | (Ok _, hc) =>
      let '(valid, config) := SandboxConfig_valid features (config <| sc_HypervisorConfig := hc |>) in
      if negb valid then (Err (Errorf "Invalid sandbox configuration"), inl o) else
      made (createSandbox_body (new_sandbox_state config m o.2 o.1))
  end.

Definition getAndStoreGuestDetails : M (Sys W) unit :=
  d ← onW ag_getGuestDetails;
  match d with
  | None => mret tt
  | Some (memBlockSizeBytes, probe) =>
      writeS (fun s => s <| sb_state ::= fun st =>
        st <| ss_GuestMemoryBlockSizeMB := u32 (Z.shiftr memBlockSizeBytes 20) |>
           <| ss_GuestMemoryHotplugProbe := probe |> |>)
  end.

(** [fetchContainers]: the containers of a sandbox that exists already. *)
Definition fetch_one (i : nat) : M (Sys W) unit :=
  s ← readS id;
  let p := (sl_array (sc_Containers (sb_config s)), i) in
  _ ← lift (GetContainerSpec (cc_Annotations (config_at (sb_mem s) p)) (sb_env s));
  _ ← upd_config p (fun c => c <| cc_CustomSpec := true |>);
  l ← newContainer p;
  addContainer l.

Definition fetchContainers : M (Sys W) unit :=
  sl ← readS (fun s => sc_Containers (sb_config s));
  for_each (seq 0 (sl_len sl)) fetch_one.

(** [fetchSandbox], after the configuration was read. *)
Definition fetchSandbox (features : list string) (sandboxID : string) (o : Outside) : res unit * (Outside + Sys W) :=
  if bool_decide (sandboxID = "") then (Err ErrNeedSandboxID, inl o) else
  match st_FromDisk sandboxID o.1 with
  | Err e => (Err e, inl o)
  | Ok None => (Err (ErrExternal "no such file or directory"), inl o)
  | Ok (Some (ss, _)) =>
      let '(config, m) := loadConfig sandboxID (ps_Config ss) mem_zero in
      match createSandbox features config m o with
      | (Ok _, inr w) => made (fetchContainers w)
      | (_, x) => (Err (Errorf "failed to create sandbox with config %+v: %v"), x)
      end
  end.

(** ** The entry points of api.go *)

Definition createNetwork (fromFactory : bool) : M (Sys W) unit :=
  net ← readS (fun s => sc_NetworkConfig (sb_config s));
  if nc_DisableNewNetwork net || bool_decide (nc_NetworkID net = "") then mret tt
  else if fromFactory then mret tt
  else onW nw_AddEndpoints.

Definition removeNetwork : M (Sys W) unit := onW nw_RemoveEndpoints.

Definition postCreatedNetwork (fromFactory : bool) : M (Sys W) unit :=
  if fromFactory then mret tt else onW nw_CloseVhostFds.

Definition setupResourceController : M (Sys W) unit :=
  runtimePid ← readW os_Getpid;
  r ← try (onW (rc_AddProcess runtimePid));
  match r with
  | Ok _ => mret tt
  | Err _ => throw (Errorf "Could not add runtime PID %d to the sandbox %s resource controller: %v")
  end.

(** What follows the start of the machine. *)
Definition populate (fromFactory : bool) : M (Sys W) unit :=
  _ ← ignore_err (postCreatedNetwork fromFactory);
  _ ← getAndStoreGuestDetails;
  createContainers.

(** The deferred functions run in reverse order; each sees the error returned. *)
Definition createSandboxFromConfig_body (unikernel fromFactory : bool) : M (Sys W) unit :=
  on_error
    (_ ← createNetwork fromFactory;
     on_error
       (_ ← setupResourceController;
        if unikernel then populate fromFactory
        else _ ← startVM fromFactory; on_error (populate fromFactory) (ignore_err stopVM))
       (ignore_err removeNetwork))
    (ignore_err Delete).

Definition createSandboxFromConfig (features : list string) (config : SandboxConfig) (m : Mem) (fromFactory : bool)
    (o : Outside) : res unit * (Outside + Sys W) :=
  match createSandbox features config m o with
  | (Ok _, inr w) => made (createSandboxFromConfig_body (hc_Unikernel (sc_HypervisorConfig config)) fromFactory w)
  | r => r
  end.

(** Stop and delete one container, and the sandbox with its last one. *)
Definition cleanup_body (containerID : string) (force : bool) : M (Sys W) unit :=
  _ ← unless_forced force (StopContainer containerID force);
  _ ← unless_forced force (DeleteContainer containerID);
  ls ← GetAllContainers;
  if negb (bool_decide (ls = [])) then mret tt else
  _ ← unless_forced force (Stop force);
  Delete.

Definition on_outside {A} (m : M W A) : M Outside A := fun o => let '(r, e) := m o.1 in (r, (e, o.2)).

Definition CleanupContainer (features : list string) (sandboxID containerID : string) (force : bool) : M Outside unit :=
  if bool_decide (sandboxID = "") then throw ErrNeedSandboxID else
  if bool_decide (containerID = "") then throw ErrNeedContainerID else
  _ ← on_outside (os_lockSandbox sandboxID);
  finally
    (fun o =>
       match fetchSandbox features sandboxID o with
       | (Ok _, inr w) => let '(r, w') := finally (cleanup_body containerID force) (ignore_err Release) w in (r, outside w')
       | (Err e, inl o') => (Err e, o')
       | (Err e, inr w) => (Err e, outside w)
       | (Ok _, inl o') => (Err ErrNeedSandbox, o')
       end)
    (on_outside (os_unlockSandbox sandboxID)).

End Methods.
End Sandboxes.
