(* ===== verification/Frame.v ===== *)
(** * What the methods leave alone

    Attaching and detaching a device touch the receiver only through its
    interface ([ReceiverFrame]).  A relation between states that is a [Frame]
    is respected by every method of a container that neither changes a life
    cycle state nor the set of containers; the facts about the whole sandbox
    in [SandboxSpec] are instances. *)
From S2P Require Import Prelude GoStr Types CPUSet Utils Devices DeviceManager Hypervisor State Persist Mounts.
From S2P Require Import Interfaces Receiver Resources Container Sandbox.
Import Types.Lifecycle Types.Caps Devices.Config Devices.Drivers Devices.DriversSpec.
Import DeviceManager.DeviceManager HypervisorConf State Persist Mounts Interfaces Receiver Resources Containers Sandboxes.

Module Frames.

(** ** Devices *)

Class ReceiverFrame {R} `{DeviceReceiver R} (Q : relation R) : Prop := {
  rf_preorder :: PreOrder Q;
  rf_get : stays Q GetAndSetSandboxBlockIndex;
  rf_unset i : stays Q (UnsetSandboxBlockIndex i);
  rf_add t d r : Q r (HotplugAddDevice t (d, r)).2.2;
  rf_remove t d r : Q r (HotplugRemoveDevice t (d, r)).2.2;
  rf_append d r : Q r (AppendDevice (d, r)).2.2;
}.

Section Devices.
Context {R : Type} (Q : relation R) `{ReceiverFrame R Q} (host : Host).

Definition through (s s' : AttachState R) : Prop := Q (as_recv s) (as_recv s').

#[local] Instance through_preorder : PreOrder through.
Proof. split; [intros s; unfold through; reflexivity|intros s1 s2 s3; unfold through; apply transitivity]. Qed.

Lemma through_generic {A} (m : M GenericDevice A) : stays through (on_generic m).
Proof. intros s. unfold on_generic, through. destruct (m _). reflexivity. Qed.
Lemma through_set_data x : stays through (set_data x).
Proof. intros s. unfold through. simpl. reflexivity. Qed.
Lemma through_info : stays through info.
Proof. apply stays_gets. apply _. Qed.
Lemma through_recv {A} (m : M R A) : stays Q m -> stays through (on_recv m).
Proof. intros Hm s. specialize (Hm (as_recv s)). unfold on_recv, through. by destruct (m _). Qed.
Lemma through_plug (m : M (Device * R) unit) :
  (forall d r, Q r (m (d, r)).2.2) -> stays through (on_plug m).
Proof.
  intros Hm s. specialize (Hm (as_dev s) (as_recv s)). unfold on_plug, through. by destruct (m _) as [? []].
Qed.
Lemma through_ignore {A} (m : M (AttachState R) A) : stays through m -> stays through (ignore m).
Proof. intros Hm. unfold ignore. stays. Qed.
Lemma through_add t : stays through (on_plug (HotplugAddDevice t)).
Proof. apply through_plug, rf_add. Qed.
Lemma through_remove t : stays through (on_plug (HotplugRemoveDevice t)).
Proof. apply through_plug, rf_remove. Qed.
Lemma through_append : stays through (on_plug AppendDevice).
Proof. apply through_plug, rf_append. Qed.
#[local] Hint Resolve through_generic through_set_data through_info through_recv through_ignore
  rf_get rf_unset through_add through_remove through_append : stays.

Lemma through_collect files : forall i path, stays through (VFIO_collect host i files path).
Proof.
  induction files as [|f files IH]; intros i path; cbn [VFIO_collect]; [stays|].
  apply stays_bind; [apply _|stays|]. intros [[bdf sysfs] ty] s. unfold get, put. munfold.
  pose proof (IH (i + 1) path) as Hrest. unfold stays in Hrest.
  etrans; [|apply Hrest]. unfold through. simpl. reflexivity.
Qed.
#[local] Hint Resolve through_collect : stays.

Lemma Attach_through randID : stays through (Attach host randID).
Proof.
  unfold Attach, Generic_Attach, Block_Attach, VFIO_Attach, VhostUserBlk_Attach, VhostUser_Attach,
    Block_prepare, VhostUserBlk_prepare. stays.
Qed.

Lemma Detach_through : stays through Detach.
Proof.
  unfold Detach, VhostUser_Detach, Generic_Detach, Block_Detach, VFIO_Detach, VhostUserBlk_Detach. stays.
Qed.
End Devices.

(** ** The sandbox *)

(** Memory that changed at most in the limits of containers. *)
Record mem_still (m m' : Mem) : Prop := {
  ms_conts : m_conts m' = m_conts m;
  ms_next : (m_next m <= m_next m')%nat;
  ms_ids a : cc_ID <$> array_at m' a = cc_ID <$> array_at m a;
}.

#[export] Instance mem_still_preorder : PreOrder mem_still.
Proof.
  split; [by split|]. intros m1 m2 m3 [? ? Hi] [? ? Hj]. split; [congruence|lia|]. intros a. by rw Hj Hi.
Qed.

Lemma mem_still_set_config p f m :
  (forall c, cc_ID (f c) = cc_ID c) -> mem_still m (set_config p (f (config_at m p)) m).
Proof.
  intros Hf. unfold set_config, config_at, update. split; [done|done|]. intros a. unfold array_at at 1. simpl.
  destruct (decide (a = p.1)) as [->|Hne]; [|by rw lookup_insert_ne].
  rw lookup_insert_eq. simpl. apply list_eq. intros i. rw !list_lookup_fmap.
  destruct (decide (i = p.2)) as [->|Hni]; [|by rw list_lookup_insert_ne].
  destruct (array_at m p.1 !! p.2) as [c|] eqn:E.
  - rw list_lookup_insert_eq; [by eapply lookup_lt_Some|]. simpl. by rw Hf.
  - rw list_insert_ge; [by apply lookup_ge_None|]. by rw E.
Qed.

Section Sandbox.
Context {W : Type} `{GoRange} `{GoAppend} `{Hypervisor W} `{Agent W} `{FilesystemSharer W}
  `{ResourceController W} `{!Store W} `{HostOS W}.

Record still (s s' : Sandbox W) : Prop := {
  sl_containers : sb_containers s' = sb_containers s;
  sl_config : sb_config s' = sb_config s;
  sl_state : sb_state s' = sb_state s;
  sl_mem : mem_still (sb_mem s) (sb_mem s');
}.

(** What the receiver's methods leave alone. *)
Record untouched (s s' : Sandbox W) : Prop := {
  un_containers : sb_containers s' = sb_containers s;
  un_config : sb_config s' = sb_config s;
  un_state : ss_State (sb_state s') = ss_State (sb_state s);
  un_mem : sb_mem s' = sb_mem s;
}.

#[export] Instance untouched_preorder : PreOrder untouched.
Proof. split; [by split|]. intros s1 s2 s3 [] []. split; congruence. Qed.

Lemma env_only_untouched (s s' : Sandbox W) : env_only s s' -> untouched s s'.
Proof. by intros ->. Qed.

Definition plug_untouched (x x' : Device * Sandbox W) : Prop := untouched x.2 x'.2.

#[local] Instance plug_untouched_preorder : PreOrder plug_untouched.
Proof. split; [intros x; unfold plug_untouched; reflexivity|intros x y z; unfold plug_untouched; apply transitivity]. Qed.

Lemma with_controller_untouched op : stays plug_untouched (with_controller op).
Proof.
  intros [d s]. unfold with_controller. destruct (sb_controller s); [|done].
  by apply env_only_untouched, onW_S_env_only.
Qed.

Lemma through_hypervisor_untouched op skip t : stays plug_untouched (through_hypervisor op skip t).
Proof.
  intros [[g data] s]. unfold through_hypervisor. cbn [dev_data]. repeat case_bool_decide.
  - destruct data as [| |devs| | | |]; try done.
    pose proof (plug_vfio_env_only (op VfioDev) devs s) as He.
    destruct (plug_vfio _ _ _) as [[r devs'] s']. by apply env_only_untouched.
  - destruct data as [|[drive|]| | | | |]; try done. destruct (skip drive); [done|].
    pose proof (plug_one_env_only BlockDev (op BlockDev) drive s) as He.
    destruct (plug_one _ _ _) as [[r d'] s']. by apply env_only_untouched.
  - destruct data as [| | |[attrs|]| | |]; try done.
    pose proof (plug_one_env_only VhostuserDev (op VhostuserDev) attrs s) as He.
    destruct (plug_one _ _ _) as [[r d'] s']. by apply env_only_untouched.
  - done.
Qed.

Lemma AppendDevice_untouched : stays plug_untouched Sandbox_AppendDevice.
Proof.
  intros [[g data] s]. unfold Sandbox_AppendDevice. cbn [dev_data].
  assert (Hone : forall t (x : devInfo t), untouched s (plug_one (hv_AddDevice t) x s).2)
    by (intros; apply env_only_untouched, plug_one_env_only).
  destruct data as [|[]|[|v devs]|[a|]|a|a|a]; try done;
    [specialize (Hone VfioDev v)|specialize (Hone VhostuserDev a)..];
    by destruct (plug_one _ _ _) as [[r x] s'].
Qed.

Lemma HotplugAdd_untouched t : stays plug_untouched (Sandbox_HotplugAddDevice t).
Proof.
  unfold Sandbox_HotplugAddDevice. apply stays_bind; [apply _|apply with_controller_untouched|].
  intros _. apply through_hypervisor_untouched.
Qed.

Lemma HotplugRemove_untouched t : stays plug_untouched (Sandbox_HotplugRemoveDevice t).
Proof.
  apply stays_finally; [apply _|apply through_hypervisor_untouched|apply with_controller_untouched].
Qed.

#[export] Instance Sandbox_receiver_frame : ReceiverFrame untouched.
Proof.
  constructor.
  - apply _.
  - intros s. simpl. destruct (getAndSet_cases s) as [(i & -> & _)|(e & -> & _)]; by split.
  - by intros i s.
  - intros t d s. apply (HotplugAdd_untouched t (d, s)).
  - intros t d s. apply (HotplugRemove_untouched t (d, s)).
  - intros d s. apply (AppendDevice_untouched (d, s)).
Qed.

(** An update of a container that keeps its name and its life cycle state. *)
Definition benign (f : Container -> Container) : Prop :=
  forall c, c_id (f c) = c_id c /\ cs_State (c_state (f c)) = cs_State (c_state c).

Class Frame (R : relation (Sys W)) : Prop := {
  fr_preorder :: PreOrder R;
  fr_still w w' : w_dm w' = w_dm w -> w_pcie w' = w_pcie w -> still (w_recv w) (w_recv w') -> R w w';
  fr_upd_cont l f : benign f -> stays R (upd_cont l f);
  fr_NewDevice info : stays R (sys_NewDevice info);
  fr_RemoveDevice id : stays R (sys_RemoveDevice id);
  fr_AttachDevice id : stays R (sys_AttachDevice id);
  fr_DetachDevice id : stays R (sys_DetachDevice id);
}.

(** What the sandbox relies on in the agent: creating a container works through
    the device manager, the calls on the outside world and the container's own
    mounts, devices and process, and leaves everything else alone. *)
Class AgentLaws : Prop := {
  ag_create_frame l R : Frame R -> stays R (ag_createContainer l);
}.

Section Methods.
Context (R : relation (Sys W)) `{!Frame R}.

Lemma fr_writeS f : (forall s, still s (f s)) -> stays R (writeS f).
Proof. intros Hf w. apply fr_still; [done|done|apply Hf]. Qed.

Lemma fr_onW {A} (m : M W A) : stays R (onW m).
Proof.
  intros w. apply fr_still; unfold onW, onS, onW_S; by destruct (m (sb_env (w_recv w))).
Qed.

Lemma fr_readS {A} (f : Sandbox W -> A) : stays R (readS f).
Proof. apply stays_gets, _. Qed.
Lemma fr_readW {A} (f : W -> A) : stays R (readW f).
Proof. apply stays_gets, _. Qed.
Lemma fr_cont l : stays R (cont l).
Proof. apply fr_readS. Qed.
Lemma fr_write_mem f : (forall m, mem_still m (f m)) -> stays R (writeS (fun s => s <| sb_mem ::= f |>)).
Proof. intros Hf. by apply fr_writeS. Qed.
Lemma fr_upd_config p f : (forall c, cc_ID (f c) = cc_ID c) -> stays R (upd_config p f).
Proof. intros Hf. apply fr_write_mem. intros m. by apply mem_still_set_config. Qed.
Lemma fr_on_drive op d : stays R (on_drive op d).
Proof.
  intros w. unfold on_drive, plug_one. simpl. destruct (op (d, sb_env (w_recv w))) as [r [d' e]].
  apply fr_still; [done|done|by split].
Qed.
Lemma fr_Save : stays R Sandbox_Save.
Proof. intros w. unfold Sandbox_Save. munfold. destruct (save_records _ _ _ _). apply fr_onW. Qed.
Lemma fr_ignore {A} (m : M (Sys W) A) : stays R m -> stays R (ignore_err m).
Proof. intros. unfold ignore_err. stays. Qed.
Lemma fr_unless {A} b (m : M (Sys W) A) : stays R m -> stays R (unless_forced b m).
Proof. intros. unfold unless_forced. stays. Qed.
Lemma fr_returns {A} (o : option A) : stays R (returns o).
Proof. unfold returns. stays. Qed.

#[local] Hint Resolve fr_onW fr_readS fr_readW fr_cont fr_on_drive fr_Save fr_ignore fr_unless fr_returns
  fr_NewDevice fr_RemoveDevice fr_AttachDevice fr_DetachDevice : stays.
#[local] Hint Extern 1 (stays _ (writeS _)) => by apply fr_writeS : stays.
#[local] Hint Extern 1 (stays _ (writeS _)) => apply fr_write_mem; split; [done|simpl; lia|done] : stays.
#[local] Hint Extern 1 (stays _ (upd_cont _ _)) => by apply fr_upd_cont : stays.
#[local] Hint Extern 1 (stays _ (upd_config _ _)) => by apply fr_upd_config : stays.
Lemma fr_getSandboxPath id : stays R (getSandboxPath id).
Proof. unfold getSandboxPath. stays. Qed.
#[local] Hint Resolve fr_getSandboxPath : stays.
Lemma fr_addSwap id size : stays R (addSwap id size).
Proof. unfold addSwap. stays. Qed.
#[local] Hint Resolve fr_addSwap : stays.
Lemma fr_removeSwap d : stays R (removeSwap d).
Proof. unfold removeSwap. stays. Qed.
#[local] Hint Resolve fr_removeSwap : stays.
Lemma fr_setupSwap n : stays R (setupSwap n).
Proof. unfold setupSwap. stays. Qed.
#[local] Hint Resolve fr_setupSwap : stays.
Lemma fr_cleanSwap : stays R (cleanSwap).
Proof. unfold cleanSwap. stays. Qed.
#[local] Hint Resolve fr_cleanSwap : stays.
Lemma fr_updateResources : stays R (updateResources).
Proof. unfold updateResources. stays. Qed.
#[local] Hint Resolve fr_updateResources : stays.
Lemma fr_constrainHypervisor : stays R (constrainHypervisor).
Proof. unfold constrainHypervisor. stays. Qed.
#[local] Hint Resolve fr_constrainHypervisor : stays.
Lemma fr_resourceControllerUpdate : stays R (resourceControllerUpdate).
Proof. unfold resourceControllerUpdate. stays. Qed.
#[local] Hint Resolve fr_resourceControllerUpdate : stays.
Lemma fr_resourceControllerDelete : stays R (resourceControllerDelete).
Proof. unfold resourceControllerDelete. stays. Qed.
#[local] Hint Resolve fr_resourceControllerDelete : stays.
Lemma fr_GetHypervisorType : stays R (GetHypervisorType).
Proof. unfold GetHypervisorType. stays. Qed.
#[local] Hint Resolve fr_GetHypervisorType : stays.
Lemma fr_setStateFstype l f : stays R (setStateFstype l f).
Proof. unfold setStateFstype. stays. Qed.
#[local] Hint Resolve fr_setStateFstype : stays.
Lemma fr_checkSandboxRunning cmd : stays R (checkSandboxRunning cmd).
Proof. unfold checkSandboxRunning. stays. Qed.
#[local] Hint Resolve fr_checkSandboxRunning : stays.
Lemma fr_cont_state l : stays R (cont_state l).
Proof. unfold cont_state. stays. Qed.
#[local] Hint Resolve fr_cont_state : stays.
Lemma fr_require_state l sts what : stays R (require_state l sts what).
Proof. unfold require_state. stays. Qed.
#[local] Hint Resolve fr_require_state : stays.
Lemma fr_checkBlockDeviceSupport : stays R (checkBlockDeviceSupport).
Proof. unfold checkBlockDeviceSupport. stays. Qed.
#[local] Hint Resolve fr_checkBlockDeviceSupport : stays.
Lemma fr_mount_device id m : stays R (mount_device id m).
Proof. unfold mount_device. stays. Qed.
#[local] Hint Resolve fr_mount_device : stays.
Lemma fr_createBlockDevice l i : stays R (createBlockDevice l i).
Proof. unfold createBlockDevice. stays. Qed.
#[local] Hint Resolve fr_createBlockDevice : stays.
Lemma fr_createBlockDevices l : stays R (createBlockDevices l).
Proof. unfold createBlockDevices. stays. Qed.
#[local] Hint Resolve fr_createBlockDevices : stays.
Lemma fr_createMounts l : stays R (createMounts l).
Proof. unfold createMounts. stays. Qed.
#[local] Hint Resolve fr_createMounts : stays.
Lemma fr_new_devices infos : stays R (new_devices infos).
Proof. induction infos; cbn [new_devices]; stays. Qed.
#[local] Hint Resolve fr_new_devices : stays.
Lemma fr_createDevices l infos : stays R (createDevices l infos).
Proof. unfold createDevices. stays. Qed.
#[local] Hint Resolve fr_createDevices : stays.
Lemma fr_attachDevices l : stays R (attachDevices l).
Proof. unfold attachDevices. stays. Qed.
#[local] Hint Resolve fr_attachDevices : stays.
Lemma fr_release_device id : stays R (release_device id).
Proof. unfold release_device. stays. Qed.
#[local] Hint Resolve fr_release_device : stays.
Lemma fr_detachDevices l : stays R (detachDevices l).
Proof. unfold detachDevices. stays. Qed.
#[local] Hint Resolve fr_detachDevices : stays.
Lemma fr_plugDevice l p : stays R (plugDevice l p).
Proof. unfold plugDevice. stays. Qed.
#[local] Hint Resolve fr_plugDevice : stays.
Lemma fr_hotplugDrive l : stays R (hotplugDrive l).
Proof. unfold hotplugDrive. stays. Qed.
#[local] Hint Resolve fr_hotplugDrive : stays.
Lemma fr_removeDrive l : stays R (removeDrive l).
Proof. unfold removeDrive. stays. Qed.
#[local] Hint Resolve fr_removeDrive : stays.
Lemma fr_unmountHostMounts l : stays R (unmountHostMounts l).
Proof. unfold unmountHostMounts. stays. Qed.
#[local] Hint Resolve fr_unmountHostMounts : stays.
Lemma fr_unshare_rootfs l : stays R (unshare_rootfs l).
Proof. unfold unshare_rootfs. stays. Qed.
#[local] Hint Resolve fr_unshare_rootfs : stays.
Lemma fr_rollbackFailingContainerCreation l : stays R (rollbackFailingContainerCreation l).
Proof. unfold rollbackFailingContainerCreation. stays. Qed.
#[local] Hint Resolve fr_rollbackFailingContainerCreation : stays.
Lemma fr_getSystemMountInfo l : stays R (getSystemMountInfo l).
Proof. unfold getSystemMountInfo. stays. Qed.
#[local] Hint Resolve fr_getSystemMountInfo : stays.
Lemma fr_initConfigResourcesMemory p : stays R (initConfigResourcesMemory p).
Proof. unfold initConfigResourcesMemory. stays. Qed.
#[local] Hint Resolve fr_initConfigResourcesMemory : stays.
Lemma fr_upd_memory p f : stays R (upd_memory p f).
Proof. unfold upd_memory. stays. Qed.
#[local] Hint Resolve fr_upd_memory : stays.
Lemma fr_swap_annotations p : stays R (swap_annotations p).
Proof. unfold swap_annotations. stays. Qed.
#[local] Hint Resolve fr_swap_annotations : stays.
Lemma fr_signalProcess l id sig all : stays R (signalProcess l id sig all).
Proof. unfold signalProcess. stays. Qed.
#[local] Hint Resolve fr_signalProcess : stays.
Lemma fr_kill l sig all : stays R (kill l sig all).
Proof. unfold kill. stays. Qed.
#[local] Hint Resolve fr_kill : stays.
Lemma fr_enter l : stays R (enter l).
Proof. unfold enter. stays. Qed.
#[local] Hint Resolve fr_enter : stays.
Lemma fr_wait l id : stays R (wait l id).
Proof. unfold wait. stays. Qed.
#[local] Hint Resolve fr_wait : stays.
Lemma fr_winsizeProcess l id h w : stays R (winsizeProcess l id h w).
Proof. unfold winsizeProcess. stays. Qed.
#[local] Hint Resolve fr_winsizeProcess : stays.
Lemma fr_ioStream l : stays R (ioStream l).
Proof. unfold ioStream. stays. Qed.
#[local] Hint Resolve fr_ioStream : stays.
Lemma fr_stats l : stays R (stats l).
Proof. unfold stats. stays. Qed.
#[local] Hint Resolve fr_stats : stays.
Lemma fr_ensure_cpu p : stays R (ensure_cpu p).
Proof. unfold ensure_cpu. stays. Qed.
#[local] Hint Resolve fr_ensure_cpu : stays.
Lemma fr_ensure_memory p : stays R (ensure_memory p).
Proof. unfold ensure_memory. stays. Qed.
#[local] Hint Resolve fr_ensure_memory : stays.
Lemma fr_write_cpu p u : stays R (write_cpu p u).
Proof. unfold write_cpu. stays. Qed.
#[local] Hint Resolve fr_write_cpu : stays.
Lemma fr_write_limit p n : stays R (write_limit p n).
Proof. unfold write_limit. stays. Qed.
#[local] Hint Resolve fr_write_limit : stays.
Lemma fr_container_update l cpu mem : stays R (container_update l cpu mem).
Proof. unfold container_update. stays. Qed.
Lemma fr_startVM f : stays R (startVM f).
Proof. unfold startVM. stays. Qed.
Lemma fr_stopVM : stays R stopVM.
Proof. unfold stopVM. stays. Qed.
Lemma fr_AddDevice info : stays R (AddDevice info).
Proof. unfold AddDevice. stays. Qed.

End Methods.

(** A relation between sandboxes that says nothing of the devices. *)
Definition on_sandbox (Q : relation (Sandbox W)) : relation (Sys W) := fun w w' => Q (w_recv w) (w_recv w').

Lemma on_device_untouched id d (m : M (AttachState (Sandbox W)) unit) :
  stays (through untouched) m -> stays (on_sandbox untouched) (on_device id d m).
Proof.
  intros Hm w. unfold on_device. specialize (Hm (mkAttachState d (w_pcie w) (w_recv w))).
  by destruct (m _) as [x s].
Qed.

#[local] Instance on_sandbox_preorder Q : PreOrder Q -> PreOrder (on_sandbox Q).
Proof.
  intros HQ. unfold on_sandbox.
  split; [intros w; reflexivity|intros w1 w2 w3; apply transitivity].
Qed.

Lemma on_dm_untouched {A} (m : M deviceManager A) : stays (on_sandbox untouched) (on_dm m).
Proof. intros w. unfold on_dm, on_sandbox. by destruct (m (w_dm w)). Qed.

Lemma onW_untouched {A} (m : M W A) : stays (on_sandbox untouched) (onW m).
Proof. intros w. unfold onW, onS, onW_S. by destruct (m (sb_env (w_recv w))). Qed.

Lemma readW_untouched {A} (f : W -> A) : stays (on_sandbox untouched) (readW f).
Proof. by intros w. Qed.

#[local] Hint Resolve on_dm_untouched onW_untouched readW_untouched : stays.

Lemma NewDevice_untouched info : stays (on_sandbox untouched) (sys_NewDevice info).
Proof. unfold sys_NewDevice. stays. Qed.
Lemma AttachDevice_untouched id : stays (on_sandbox untouched) (sys_AttachDevice id).
Proof. unfold sys_AttachDevice, AttachDevice. stays. apply on_device_untouched, Attach_through, _. Qed.
Lemma DetachDevice_untouched id : stays (on_sandbox untouched) (sys_DetachDevice id).
Proof. unfold sys_DetachDevice, DetachDevice. stays. apply on_device_untouched, Detach_through, _. Qed.

Lemma on_sandbox_frame Q :
  PreOrder Q -> (forall s s', still s s' -> Q s s') -> (forall s s', untouched s s' -> Q s s') ->
  (forall l f s, benign f -> Q s (s <| sb_mem ::= fun m => set_cont l (f (cont_at m l)) m |>)) ->
  Frame (on_sandbox Q).
Proof.
  intros HQ Hstill Hun Hcont. constructor.
  - apply _.
  - intros w w' _ _ Hs. by apply Hstill.
  - intros l f Hf w. by apply Hcont.
  - intros info w. apply Hun, NewDevice_untouched.
  - intros id w. apply Hun, on_dm_untouched.
  - intros id w. apply Hun, AttachDevice_untouched.
  - intros id w. apply Hun, DetachDevice_untouched.
Qed.
End Sandbox.

#[export] Hint Resolve fr_NewDevice fr_RemoveDevice fr_AttachDevice fr_DetachDevice fr_onW fr_readS fr_readW
  fr_cont fr_on_drive fr_Save fr_ignore fr_unless fr_returns fr_getSandboxPath fr_addSwap fr_removeSwap
  fr_setupSwap fr_cleanSwap fr_updateResources fr_constrainHypervisor fr_resourceControllerUpdate
  fr_resourceControllerDelete fr_GetHypervisorType fr_setStateFstype fr_checkSandboxRunning fr_cont_state
  fr_require_state fr_checkBlockDeviceSupport fr_mount_device fr_createBlockDevice fr_createBlockDevices
  fr_createMounts fr_new_devices fr_createDevices fr_attachDevices fr_release_device fr_detachDevices
  fr_plugDevice fr_hotplugDrive fr_removeDrive fr_unmountHostMounts fr_unshare_rootfs
  fr_rollbackFailingContainerCreation fr_getSystemMountInfo fr_initConfigResourcesMemory fr_upd_memory
  fr_swap_annotations fr_signalProcess fr_kill fr_enter fr_wait fr_winsizeProcess fr_ioStream fr_stats
  fr_ensure_cpu fr_ensure_memory fr_write_cpu fr_write_limit fr_container_update fr_startVM
  fr_stopVM fr_AddDevice : stays.
#[export] Hint Extern 1 (stays _ (upd_cont _ _)) => by apply fr_upd_cont : stays.
#[export] Hint Extern 1 (stays _ (upd_config _ _)) => by apply fr_upd_config : stays.
#[export] Hint Extern 0 (Frame _) => apply _ : stays.
End Frames.
