(* ===== verification/Urunc.v ===== *)
(** * The unikernel agent and hypervisor

    [urunc_agent.go] and [urunc_hypervisor.go]: there is no agent in a guest, so
    most calls do nothing.  Creating a container finds out what kind of binary
    its image holds, and unpacks an image from a block device.  From
    [network.go], [generateVCNetworkStructures] without the neighbours.  The
    commands mount, umount, ls and rm are run by the host; [UruncHost] is what
    they do. *)
From S2P Require Import Prelude GoStr Types Utils Devices DeviceManager Hypervisor State Persist Mounts.
From S2P Require Import Interfaces Receiver Resources Container Sandbox Frame Files.
Import Filepath Types.Lifecycle Types.Caps Utils.Names Devices.Config DeviceManager.DeviceManager HypervisorConf.
Import State Persist Mounts Interfaces Receiver Resources Containers Sandboxes Frames.

Module Urunc.

(** ** The network *)

Record IPNet := mkIPNet { ip_Address : string; ip_MaskSize : Z; ip_IsLoopback : bool; ip_IsV4 : bool }.
Record LinkRoute := mkLinkRoute {
  lr_Dst : option string;
  lr_Gw : option string;
  lr_Src : option string;
  lr_Scope : Z;
  lr_Family : Z;
  lr_Protocol : Z;
}.
Record Endpoint := mkEndpoint {
  ep_Name : string;
  ep_HardwareAddr : string;
  ep_PciPath : PciPaths.PciPath;
  ep_MTU : Z;
  ep_RawFlags : Z;
  ep_Addrs : list IPNet;
  ep_Routes : list LinkRoute;
}.

Record IPAddress := mkIPAddress { ia_Family : IPFamily; ia_Address : string; ia_Mask : string }.
Record Interface := mkInterface {
  if_IPAddresses : list IPAddress;
  if_Device : string;
  if_Name : string;
  if_Mtu : Z;
  if_RawFlags : Z;
  if_HwAddr : string;
  if_PciPath : string;
}.
Record Route := mkRoute {
  rt_Dest : string;
  rt_Gateway : string;
  rt_Source : string;
  rt_Device : string;
  rt_Scope : Z;
  rt_Family : IPFamily;
}.

Definition RTPROT_KERNEL : Z := 2.
Definition IFF_NOARP : Z := 0x80.

Definition validGuestRoute (route : LinkRoute) : bool := negb (lr_Protocol route =? RTPROT_KERNEL).

Definition endpoint_interface (e : Endpoint) : Interface :=
  mkInterface
    ((fun a => mkIPAddress (if ip_IsV4 a then IPFamily_v4 else IPFamily_v6) (ip_Address a) (Itoa (ip_MaskSize a)))
       <$> List.filter (fun a => negb (ip_IsLoopback a)) (ep_Addrs e))
    (ep_Name e) (ep_Name e) (u64 (ep_MTU e)) (Z.land (ep_RawFlags e) IFF_NOARP) (ep_HardwareAddr e)
    (PciPaths.PciPath_String (ep_PciPath e)).

Definition endpoint_routes (e : Endpoint) : list Route :=
  (fun r => mkRoute (default "" (lr_Dst r)) (default "" (lr_Gw r)) (default "" (lr_Src r)) (ep_Name e)
              (u32 (lr_Scope r)) (ConvertAddressFamily (lr_Family r)))
    <$> List.filter validGuestRoute (ep_Routes e).

Definition generateVCNetworkStructures (networkID : string) (endpoints : list Endpoint)
    : list Interface * list Route :=
  if bool_decide (networkID = "") then ([], [])
  else (endpoint_interface <$> endpoints, endpoints ≫= endpoint_routes).

(** ** Data for the shim *)

(** [Container] is the address of a container. *)
Record ExecData := mkExecData {
  ed_BinaryType : string;
  ed_BinaryPath : string;
  ed_IPAddress : string;
  ed_Mask : string;
  ed_Tap : string;
  ed_Gateway : string;
  ed_Container : option nat;
  ed_NetNs : string;
  ed_BlkDevice : string;
}.
#[global] Instance ExecData_eta : Eta ExecData := fun r =>
  mkExecData (ed_BinaryType r) (ed_BinaryPath r) (ed_IPAddress r) (ed_Mask r) (ed_Tap r) (ed_Gateway r)
    (ed_Container r) (ed_NetNs r) (ed_BlkDevice r).

Definition newExecData : ExecData := mkExecData "" "" "" "" "" "" None "" "".

Definition newline : string := String (ascii_of_N 10) "".

Definition cleanLsRes (res : string) : string :=
  TrimSpace (ReplaceAll (ReplaceAll res newline " ") "  " " ").

(** The elements of an absolute path. *)
Definition path_of (p : string) : Files.path := List.filter (fun c => negb (bool_decide (c = ""))) (Split "/" (Clean p)).

(** The host of the agent: its own data, the file system, and the commands it
    runs; [cmd_ls] is what the command writes to its standard output. *)
Class UruncHost (W : Type) : Type := {
  uh_kernel :: Files.Kernel;
  uh_exec : W -> ExecData;
  uh_set_exec : ExecData -> W -> W;
  uh_fs : W -> Files.Fs;
  uh_set_fs : Files.Fs -> W -> W;
  nw_NetworkID : W -> string;
  nw_Endpoints : W -> list Endpoint;
  cmd_ls : string -> W -> string;
  cmd_mount : string -> string -> string -> M W unit;
  cmd_umount : string -> M W unit;
  cmd_umount_f : string -> M W unit;
  cmd_rm_rf : string -> M W unit;
}.

Section Agent.
Context {W : Type} `{UruncHost W} `{FilesystemSharer W} `{HostFiles W}.

Definition upd_exec (f : ExecData -> ExecData) : M W unit := modify (fun w => uh_set_exec (f (uh_exec w)) w).

(** On the file system of the host. *)
Definition on_fs {A} (m : M Files.Fs A) : M W A := fun w =>
  let '(r, fs) := m (uh_fs w) in (r, uh_set_fs fs w).

(** Fuel for a copy: no path of the file system is longer. *)
Definition copy_fuel (fs : Files.Fs) : nat :=
  S (foldr Nat.max 0%nat ((fun kv => length kv.1) <$> map_to_list fs)).

Definition CopyDir (src dst : string) : M W unit :=
  on_fs (fun fs => Files.CopyDir (copy_fuel fs) (path_of src) (path_of dst) fs).

Definition RemoveAll (p : string) : M W unit := on_fs (Files.RemoveAll (path_of p)).

Definition ErrIndexOutOfRange : error := ErrExternal "index out of range".

Definition addNetworkData : M W unit :=
  w ← get;
  if bool_decide (ed_IPAddress (uh_exec w) = "") then
    match generateVCNetworkStructures (nw_NetworkID w) (nw_Endpoints w) with
    | (ifc :: _, route :: _) =>
        match if_IPAddresses ifc with
        | [] => throw ErrIndexOutOfRange
        | a :: _ =>
            upd_exec (fun d => d <| ed_IPAddress := ia_Address a |> <| ed_Mask := ia_Mask a |>
              <| ed_Tap := if_Device ifc |> <| ed_Gateway := rt_Gateway route |> <| ed_NetNs := nw_NetworkID w |>)
        end
    | _ => throw (Errorf "Network creation failed")
    end
  else mret tt.

(** The callers drop its error, but not a panic. *)
Definition with_network : M W unit :=
  r ← try addNetworkData;
  match r with
  | Err e => if bool_decide (e = ErrIndexOutOfRange) then throw e else mret tt
  | Ok _ => mret tt
  end.

(** The working directory without spaces; empty when it is not known. *)
Definition cwd : M W string :=
  r ← gets os_Getwd;
  mret (TrimSpace (ReplaceAll (match r with Ok p => p | Err _ => "" end) " " "")).

(** The copy out of the block device and back, once it is no longer mounted;
    after the first copy errors are only logged. *)
Definition unpack (source rootFsPath newDir : string) : M W unit :=
  r ← try (CopyDir rootFsPath newDir);
  match r with
  | Err _ => throw (Errorf "failed to copy block device content")
  | Ok _ =>
      _ ← ignore_err (cmd_umount source);
      _ ← ignore_err (RemoveAll rootFsPath);
      _ ← ignore_err (CopyDir newDir rootFsPath);
      ignore_err (RemoveAll newDir)
  end.

(** The kind of a binary. *)
Definition binary_type (binaryPath : string) : string :=
  if Contains binaryPath ".hvt" then "hvt" else if Contains binaryPath ".qm" then "qemu" else "binary".

(** What follows the mount: find the binary and unpack it if needed. *)
Definition find_binary (source rootFsPath lsPrefix : string) : M W unit :=
  lsRes ← gets (fun w => cleanLsRes (cmd_ls (lsPrefix +:+ "/rootfs") w));
  if Contains lsRes "pause" then
    upd_exec (fun d => d <| ed_BinaryType := "pause" |> <| ed_BinaryPath := rootFsPath +:+ "/pause" |>)
  else if negb (Contains lsRes "unikernel") then throw (Errorf "requested image not supported") else
  lsRes ← gets (fun w => cleanLsRes (cmd_ls (lsPrefix +:+ "/rootfs/unikernel") w));
  let binaryPath := rootFsPath +:+ "/unikernel/" +:+ lsRes in
  _ ← upd_exec (fun d => d <| ed_BinaryPath := binaryPath |>);
  _ ← upd_exec (fun d => d <| ed_BinaryType := binary_type binaryPath |>);
  if bool_decide (binary_type binaryPath = "binary") then mret tt else
  _ ← unpack source rootFsPath (ReplaceAll rootFsPath "rootfs" "" +:+ "tmp");
  upd_exec (fun d => d <| ed_BlkDevice := source |>).

Definition createContainer (l : nat) : M (Sys W) Process :=
  _ ← onW (upd_exec (fun d => d <| ed_Container := Some l |>));
  _ ← onW with_network;
  c ← cont l;
  sid ← readS sb_id;
  dir ← onW cwd;
  let other := negb (bool_decide (c_id c = sid)) in
  let cwdPath := if other then ReplaceAll dir sid (c_id c) else dir in
  let lsPrefix := if other then cwdPath else "." in
  let rootFsPath := cwdPath +:+ "/" +:+ c_rootfsSuffix c in
  let source := rf_Source (c_rootFs c) in
  _ ← when (Contains source "dm")
        (_ ← onW (upd_exec (fun d => d <| ed_BlkDevice := source |>));
         r ← try (onW (cmd_mount (rf_Type (c_rootFs c)) source rootFsPath));
         match r with
         | Err _ => throw (Errorf "failed to mount")
         | Ok _ => upd_cont l (fun c => c <| c_rootFs ::= fun rf =>
                     rf <| rf_Mounted := true |> <| rf_Target := rootFsPath |> |>)
         end);
  _ ← onW (find_binary source rootFsPath lsPrefix);
  mret (mkProcess "" 0 0).

(** An error of sharing is followed by a nil dereference in the log statement. *)
Definition startContainer (c : Container) : M W unit :=
  r ← try (fs_ShareRootFilesystem c);
  match r with Ok _ => mret tt | Err _ => throw ErrNilDeref end.

Definition stopContainer (c : Container) : M W unit :=
  when (negb (bool_decide (rf_Source (c_rootFs c) = "")))
    (_ ← ignore_err (cmd_umount_f ("/run/kata-containers/shared/sandboxes/" +:+ c_id c +:+ "/shared"));
     _ ← ignore_err (cmd_rm_rf ("/run/kata-containers/shared/containers/" +:+ c_id c));
     _ ← ignore_err (cmd_rm_rf ("/run/containerd/io.containerd.runtime.v2.task/default/" +:+ c_id c));
     ignore_err (cmd_rm_rf ("/run/kata-containers/shared/sandboxes/" +:+ c_id c))).

Definition startSandbox : M W unit := with_network.

(** The rest of the agent does nothing; there is no process to return for
    [exec], where the code returns nil. *)
#[export] Instance uruncAgent : Agent W := {|
  ag_capabilities := fun _ => 0;
  ag_url := fun _ => "";
  ag_load := fun _ w => w;
  ag_init := fun _ => mret false;
  ag_createSandbox := mret tt;
  ag_startSandbox := startSandbox;
  ag_stopSandbox := mret tt;
  ag_createContainer := createContainer;
  ag_startContainer := startContainer;
  ag_stopContainer := stopContainer;
  ag_signalProcess := fun _ _ _ _ => mret tt;
  ag_winsizeProcess := fun _ _ _ _ => mret tt;
  ag_waitProcess := fun _ _ => mret 0;
  ag_exec := fun _ => mret (mkProcess "" 0 0);
  ag_updateContainer := fun _ _ _ => mret tt;
  ag_pauseContainer := fun _ => mret tt;
  ag_resumeContainer := fun _ => mret tt;
  ag_statsContainer := fun _ => mret tt;
  ag_onlineCPUMem := fun _ _ => mret tt;
  ag_memHotplugByProbe := fun _ _ _ => mret tt;
  ag_addSwap := fun _ => mret tt;
  ag_disconnect := mret tt;
  ag_getGuestDetails := mret None;
|}.
End Agent.

(** ** The hypervisor *)
Section Hypervisor.
Context {W : Type} (mockPid : Z).

Definition urunc_Capabilities : Capabilities := SetFsSharingSupport 0.
Definition urunc_setConfig : M (HypervisorConfig * W) unit := fun ce =>
  let '(r, c) := Valid ce.1 in (r, (c, ce.2)).

(** Devices are accepted and nothing is done with them. *)
Definition uruncHypervisor : Hypervisor W := {|
  hv_saved := unit;
  hv_Save := fun _ => tt;
  hv_Load := fun _ w => w;
  hv_HypervisorConfig := fun _ => HypervisorConfig_zero;
  hv_Capabilities := fun _ => urunc_Capabilities;
  hv_Unikernel := fun _ => true;
  hv_GetPids := fun _ => [mockPid];
  hv_CreateVM := fun _ => urunc_setConfig;
  hv_StartVM := mret tt;
  hv_StopVM := fun _ => mret tt;
  hv_AddDevice := fun _ => mret tt;
  hv_HotplugAddDevice := fun _ => mret tt;
  hv_HotplugRemoveDevice := fun _ => mret tt;
  hv_ResizeMemory := fun _ _ _ w => ((0, mkMemoryDevice 0 0 0 false, None), w);
  hv_ResizeVCPUs := fun _ => mret (0, 0);
  hv_GetThreadIDs := mret [0];
  hv_Cleanup := mret tt;
  hv_Disconnect := mret tt;
|}.

#[export] Instance uruncHypervisor_laws : HypervisorLaws W (H := uruncHypervisor).
Proof. split; by intros []. Qed.
End Hypervisor.

(** ** The agent keeps to its interface *)
Section Laws.
Context {W : Type} `{GoRange} `{Hypervisor W} `{ResourceController W} `{HostOS W} `{UruncHost W} `{FilesystemSharer W}.

(** Creating a container changes nothing a sandbox relies on, so every theorem
    about sandboxes holds with this agent. *)
#[export] Instance uruncAgent_laws : AgentLaws (W := W).
Proof. split. intros l R HR. unfold ag_createContainer, uruncAgent, createContainer. stays. Qed.
End Laws.

(** ** Unpacking *)

(** The data of the agent and the file system are separate parts of the host, and
    commands do not reach into the memory of the agent. *)
Class UruncLaws (W : Type) `{UruncHost W} : Prop := {
  exec_set d w : uh_exec (uh_set_exec d w) = d;
  exec_set_fs fs w : uh_exec (uh_set_fs fs w) = uh_exec w;
  fs_set fs w : uh_fs (uh_set_fs fs w) = fs;
  cmd_umount_exec s w : uh_exec (cmd_umount s w).2 = uh_exec w;
}.

Section Unpack.
Context {W : Type} `{UruncLaws W} `{!Files.Willing}.

Lemma longest_path (l : list (Files.path * Files.inode)) kv :
  kv ∈ l -> (length kv.1 <= foldr Nat.max 0%nat ((fun kv => length kv.1) <$> l))%nat.
Proof.
  induction l as [|x l IH]; [by intros ?%not_elem_of_nil|].
  intros [->|Hi]%elem_of_cons; cbn [fmap list_fmap foldr]; [|specialize (IH Hi)]; lia.
Qed.

Lemma copy_fuel_depth fs src : Files.depth_below fs src (copy_fuel fs).
Proof.
  intros p [i Hi%elem_of_map_to_list]. apply longest_path in Hi. cbn [fst] in Hi. rw length_app in Hi.
  unfold copy_fuel. apply Nat.lt_succ_r. etrans; [|exact Hi]. apply Nat.le_add_l.
Qed.

(** The tree that was copied out can be copied back. *)
Lemma copy_back_ready fs fs' src dst fuel :
  Files.tree_ok fs src -> (forall p, fs' !! (dst ++ p) = fs !! (src ++ p) ≫= Files.copied) ->
  (forall p, fs' !! (src ++ p) = None) -> ~ dst `prefix_of` src -> Files.depth_below fs' dst fuel ->
  Files.ready fs' dst src fuel.
Proof.
  intros Ht Hc Hfree Ha Hd. split; [|done..]. intros p n i Hi. rw Hc in Hi.
  destruct (fs !! (src ++ p ++ [n])) as [j|] eqn:E; [|done]. destruct (Ht p n j E) as [m Hm].
  exists (Files.masked m). by rw Hc Hm.
Qed.

Lemma sibling_prefix (parent : Files.path) a b p : a <> b -> ~ (parent ++ [a]) `prefix_of` ((parent ++ [b]) ++ p).
Proof.
  intros Hab [k Hk]. rw -!app_assoc in Hk. apply app_inv_head in Hk. by injection Hk.
Qed.

(** C24. Unpacking an image.  Let the image be a directory of the host beside a free
    place for a temporary copy, let no call be refused, and let unmounting the
    device change nothing outside the image's directory.  Then unpacking
    succeeds; the image's directory holds the files of the device itself,
    with contents and permissions, except for links and the mask of
    directories; the temporary copy is gone; nothing else has changed. *)
Theorem unpack_spec source root new parent r t m m' (w : W) :
  let fs := uh_fs w in
  path_of root = parent ++ [r] -> path_of new = parent ++ [t] -> r <> t ->
  fs !! parent = Some (Files.Directory m') -> fs !! (parent ++ [r]) = Some (Files.Directory m) ->
  Files.tree_ok fs (parent ++ [r]) -> (forall p, fs !! ((parent ++ [t]) ++ p) = None) ->
  (forall w q, ~ (parent ++ [r]) `prefix_of` q -> uh_fs (cmd_umount source w).2 !! q = uh_fs w !! q) ->
  exists w', unpack source root new w = (Ok tt, w') /\ uh_exec w' = uh_exec w /\
    (forall p, uh_fs w' !! ((parent ++ [r]) ++ p) = fs !! ((parent ++ [r]) ++ p) ≫= Files.copied) /\
    (forall p, uh_fs w' !! ((parent ++ [t]) ++ p) = None) /\
    (forall q, ~ (parent ++ [r]) `prefix_of` q -> ~ (parent ++ [t]) `prefix_of` q -> uh_fs w' !! q = fs !! q).
Proof.
  cbn zeta. intros Hroot Hnew Hrt Hparent Hdir Htree Hfree Humount.
  set (fs := uh_fs w) in *. set (R := parent ++ [r]) in *. set (T := parent ++ [t]) in *.
  assert (HRT : forall p, ~ R `prefix_of` (T ++ p)) by (intros p; by apply sibling_prefix).
  assert (HTR : forall p, ~ T `prefix_of` (R ++ p)) by (intros p; by apply sibling_prefix).
  assert (HRp : forall x, ~ (parent ++ [x]) `prefix_of` parent).
  { intros x [k Hk]. rw -app_assoc in Hk. by apply Files.app_not_self in Hk. }
  (* out of the device *)
  destruct (Files.CopyDir_copies (copy_fuel fs) R parent t fs m m') as (fs1 & Hrun1 & Hc1 & Ho1); [done|done| |].
  { split; [done|apply copy_fuel_depth|done|]. specialize (HRT []). by rw app_nil_r in HRT. }
  fold T in Hrun1, Hc1, Ho1. set (w1 := uh_set_fs fs1 w).
  (* unmounted, and the mount point removed *)
  set (w2 := (cmd_umount source w1).2).
  assert (Hu : forall q, ~ R `prefix_of` q -> uh_fs w2 !! q = fs1 !! q).
  { intros q Hq. unfold w2. rw Humount //. unfold w1. by rw fs_set. }
  destruct (Files.RemoveAll_ok R (uh_fs w2)) as (fs3 & Hrun3 & Hd3 & Ho3).
  assert (Hc3 : forall p, fs3 !! (T ++ p) = fs !! (R ++ p) ≫= Files.copied).
  { intros p. by rw Ho3 // Hu // Hc1. }
  assert (Hp3 : fs3 !! parent = Some (Files.Directory m')).
  { rw Ho3; [apply (HRp r)|]. rw Hu; [apply (HRp r)|]. rw Ho1; [apply (HRp t)|done]. }
  (* back, and the temporary copy removed *)
  destruct (Files.CopyDir_copies (copy_fuel fs3) T parent r fs3 (Files.masked m) m') as (fs4 & Hrun4 & Hc4 & Ho4); [|done| |].
  { specialize (Hc3 []). rw !app_nil_r in Hc3. by rw Hc3 Hdir. }
  { apply (copy_back_ready fs); [done|done|intros p; apply Hd3; by apply prefix_app_r| |apply copy_fuel_depth].
    specialize (HTR []). by rw app_nil_r in HTR. }
  fold R in Hrun4, Hc4, Ho4. destruct (Files.RemoveAll_ok T fs4) as (fs5 & Hrun5 & Hd5 & Ho5).
  exists (uh_set_fs fs5 (uh_set_fs fs4 (uh_set_fs fs3 w2))). split_and!.
  - unfold unpack, CopyDir, RemoveAll, on_fs, ignore_err, try. munfold. rw Hroot Hnew. fold fs R T.
    rw Hrun1. fold w1. unfold w2 in *. destruct (cmd_umount source w1) as [ru w2']; cbn [snd] in *.
    rw Hrun3. rw fs_set. rw Hrun4. rw fs_set. by rw Hrun5.
  - rw !exec_set_fs. unfold w2. by rw cmd_umount_exec exec_set_fs.
  - intros p. rw fs_set Ho5 // Hc4 Hc3. destruct (fs !! (R ++ p)) as [i|]; [|done]. apply Files.copied_twice.
  - intros p. rw fs_set. apply Hd5. by apply prefix_app_r.
  - intros q HqR HqT. by rw fs_set Ho5 // Ho4 // Ho3 // Hu // Ho1.
Qed.
End Unpack.

(** ** What the shim is told *)
Section Kinds.
Context {W : Type} `{UruncLaws W} `{FilesystemSharer W} `{HostFiles W}.

Definition kinds : list string := ["pause"; "hvt"; "qemu"; "binary"].

Definition same_exec (w w' : W) : Prop := uh_exec w' = uh_exec w.

#[local] Instance same_exec_preorder : PreOrder same_exec.
Proof. split; [done|]. unfold same_exec. congruence. Qed.

Lemma same_exec_on_fs {A} (m : M Files.Fs A) : stays same_exec (on_fs m).
Proof. intros w. unfold on_fs. destruct (m (uh_fs w)) as [r fs]. apply exec_set_fs. Qed.

Lemma same_exec_unpack source root new : stays same_exec (unpack source root new).
Proof.
  assert (Hu : stays same_exec (cmd_umount source)) by (intros w; apply cmd_umount_exec).
  unfold unpack, CopyDir, RemoveAll, ignore_err. stays; by auto using same_exec_on_fs.
Qed.

(** Kind and path fit: the pause binary, or a file of the image's directory of
    unikernels whose kind is that of its name. *)
Definition located (w : W) : Prop :=
  let d := uh_exec w in
  (ed_BinaryType d ∈ kinds) /\
  ((ed_BinaryType d = "pause" /\ exists root, ed_BinaryPath d = root +:+ "/pause") \/
   (ed_BinaryType d = binary_type (ed_BinaryPath d) /\
    exists root file, ed_BinaryPath d = root +:+ "/unikernel/" +:+ file)).

Lemma binary_type_kinds p : binary_type p ∈ kinds.
Proof. unfold binary_type. repeat case_match; set_solver. Qed.

Lemma find_binary_located source root prefix : gives (fun _ => located) (find_binary source root prefix).
Proof.
  intros w u w'. unfold find_binary, upd_exec. munfold. destruct (Contains _ "pause").
  { intros [= _ <-]. unfold located. rw exec_set. split; [set_solver|]. left. split; [done|]. by exists root. }
  destruct (negb _); [done|].
  set (bp := root +:+ _). set (w1 := uh_set_exec _ (uh_set_exec _ w)).
  assert (Hw1 : located w1).
  { unfold located, w1. rw !exec_set. split; [apply binary_type_kinds|]. right. split; [done|]. by eexists _, _. }
  case_bool_decide; [by intros [= _ <-]|].
  pose proof (same_exec_unpack source root (ReplaceAll root "rootfs" "" +:+ "tmp") w1) as Hsame.
  destruct (unpack _ _ _ w1) as [[u'|e] w2]; [|done]. intros [= _ <-]. cbn in Hsame.
  unfold located. rw exec_set. unfold same_exec in Hsame. by rw Hsame.
Qed.

(** When a unikernel container is created, what the shim is told is well
    formed: the kind is one of the four it knows, and it is the kind of the
    binary whose path it is given, either the pause binary or a file in the
    directory of unikernels, classified by its name. *)
Theorem createContainer_kind l (w : Sys W) p w' :
  createContainer l w = (Ok p, w') -> located (sb_env (w_recv w')).
Proof.
  enough (Hg : gives (fun _ w => located (sb_env (w_recv w))) (createContainer l)) by apply Hg.
  unfold createContainer. do 6 (apply gives_bind; intros ?). apply gives_then.
  - intros v u v'. unfold onW, onS, onW_S. destruct (find_binary _ _ _ _) as [r e] eqn:E.
    intros [= -> <-]. exact (find_binary_located _ _ _ _ _ _ E).
  - intros ?. apply stays_ret, _.
Qed.
End Kinds.

(** ** A host with one block device *)

(** [ho_ls] is what ls lists in the image, [ho_mounted] the mounted devices. *)
Record Host := mkHost { ho_exec : ExecData; ho_fs : Files.Fs; ho_mounted : list string; ho_ls : string }.
#[global] Instance Host_eta : Eta Host := fun r => mkHost (ho_exec r) (ho_fs r) (ho_mounted r) (ho_ls r).

#[local] Instance host_files : HostFiles Host := {|
  os_Stat := fun _ _ => Err ErrNotExist;
  os_Lstat := fun _ _ => Err ErrNotExist;
  os_ReadFile := fun _ _ => Err ErrNotExist;
  os_ReadAt := fun _ _ _ _ => Err ErrNotExist;
  os_ReadDir := fun _ _ => Err ErrNotExist;
  os_Getwd := fun _ => Ok "/b";
|}.

#[local] Instance host_kernel : Files.Kernel := {|
  Files.refuses := fun _ _ _ => None; Files.cut := fun _ _ => None;
  Files.follow := fun _ _ => Err ErrNotExist; Files.umask := 0x12 |}.

#[local] Instance host_willing : Files.Willing.
Proof. by split. Qed.

#[local] Instance host_urunc : UruncHost Host := {|
  uh_kernel := host_kernel;
  uh_exec := ho_exec;
  uh_set_exec := fun d h => h <| ho_exec := d |>;
  uh_fs := ho_fs;
  uh_set_fs := fun fs h => h <| ho_fs := fs |>;
  nw_NetworkID := fun _ => "";
  nw_Endpoints := fun _ => [];
  cmd_ls := fun p h => if Contains p "/rootfs/unikernel" then "app.hvt" else ho_ls h;
  cmd_mount := fun _ source _ => modify (fun h => h <| ho_mounted ::= cons source |>);
  cmd_umount := fun source => modify (fun h => h <| ho_mounted ::= List.filter (fun s => negb (bool_decide (s = source))) |>);
  cmd_umount_f := fun _ => mret tt;
  cmd_rm_rf := fun _ => mret tt;
|}.

#[local] Instance host_laws : UruncLaws Host.
Proof. split; done. Qed.

(** The image of a unikernel, as mounted. *)
Definition image : Files.Fs := list_to_map
  [([], Files.Directory 0x1ed); (["b"], Files.Directory 0x1ed); (["b"; "rootfs"], Files.Directory 0x1ed);
   (["b"; "rootfs"; "app.hvt"], Files.Regular 0x1a4 "code")].

Definition host (ls : string) : Host := mkHost newExecData image [] ls.

Lemma image_paths p i : image !! p = Some i -> p ∈ [[]; ["b"]; ["b"; "rootfs"]; ["b"; "rootfs"; "app.hvt"]].
Proof. intros Hp. apply elem_of_list_to_map_2 in Hp. set_solver. Qed.

Lemma unpack_spec_witness :
  exists w', unpack "/dev/dm-3" "/b/rootfs" "/b/tmp" (host "") = (Ok tt, w') /\ uh_exec w' = uh_exec (host "") /\
    (forall p, uh_fs w' !! ((["b"] ++ ["rootfs"]) ++ p) =
       uh_fs (host "") !! ((["b"] ++ ["rootfs"]) ++ p) ≫= Files.copied) /\
    (forall p, uh_fs w' !! ((["b"] ++ ["tmp"]) ++ p) = None) /\
    (forall q, ~ (["b"] ++ ["rootfs"]) `prefix_of` q -> ~ (["b"] ++ ["tmp"]) `prefix_of` q ->
       uh_fs w' !! q = uh_fs (host "") !! q).
Proof.
  apply (@unpack_spec Host host_urunc host_laws host_willing "/dev/dm-3" "/b/rootfs" "/b/tmp" ["b"] "rootfs" "tmp" 0x1ed 0x1ed (host ""));
    [reflexivity|reflexivity|done|reflexivity|reflexivity| | |done].
  - intros p n i Hi%image_paths. destruct p as [|x p]; [by eexists|]. destruct p; set_solver.
  - intros p. destruct (uh_fs (host "") !! _) eqn:E; [|done]. apply image_paths in E. set_solver.
Defined.

(** A sandbox "s" with its own container at address 0, on a device mapper device. *)
Definition on_host (ls : string) : Sys Host :=
  let c := mkContainer "s" "s" (0%nat, 0%nat) "s/s" "rootfs" [] [] (mkContainerState "" "" "" "") (mkProcess "" 0 0)
             (mkRootFs "/dev/dm-3" "" "ext4" [] false) false in
  let config := SandboxConfig_zero in
  mkWorld (NewDeviceManager "" false "" []) ∅ (Sandbox_init "s" config (set_cont 0 c mem_zero) (host ls)).

#[local] Instance host_sharer : FilesystemSharer Host := {|
  fs_Prepare := mret tt; fs_Cleanup := mret tt; fs_ShareFile := fun _ => mret None;
  fs_UnshareFile := fun _ _ => mret tt; fs_ShareRootFilesystem := fun _ => mret "";
  fs_UnshareRootFilesystem := fun _ => mret tt; nydusContainerCleanup := fun _ => mret tt |}.

Lemma createContainer_kind_witness :
  located (sb_env (w_recv (createContainer 0 (on_host "unikernel")).2)).
Proof.
  apply (createContainer_kind 0 (on_host "unikernel") (mkProcess "" 0 0)). vm_compute. reflexivity.
Defined.

(** An image that is not supported stays mounted: creating a container from a
    device mapper device whose image holds no unikernel fails, but the device
    that was mounted for it is not unmounted, while a supported image is
    unmounted after it was copied. *)
Theorem unsupported_stays_mounted :
  let '(r, w) := createContainer 0 (on_host "etc") in
  let '(r', w') := createContainer 0 (on_host "unikernel") in
  r = Err (Errorf "requested image not supported") /\ ho_mounted (sb_env (w_recv w)) = ["/dev/dm-3"] /\
  is_ok r' = true /\ ho_mounted (sb_env (w_recv w')) = [].
Proof. vm_compute. repeat split. Qed.

End Urunc.
