(* ===== verification/SandboxSpec.v ===== *)
(** * Properties of a sandbox and its containers *)
From S2P Require Import Prelude GoStr Types CPUSet Utils Devices DeviceManager Hypervisor State Persist Mounts.
From S2P Require Import Interfaces Receiver Resources Container Sandbox Frame.
Import Types.Lifecycle Types.Caps Devices.Config Devices.Drivers Devices.DriversSpec.
Import DeviceManager.DeviceManager HypervisorConf State Persist Mounts Interfaces Receiver Resources Containers Sandboxes.
Import Frames.

(** ** The calls of a client *)
Module Calls.

(** The methods of [VCSandbox] that act on a sandbox in memory. *)
Inductive Call :=
  | CSetAnnotations (annotations : gmap string string)
  | CMonitor
  | CWaitProcess (containerID processID : string)
  | CSignalProcess (containerID processID : string) (signal : Z) (all : bool)
  | CWinsizeProcess (containerID processID : string) (height width : Z)
  | CIOStream (containerID : string)
  | CCreateContainer (contConfig : ContainerConfig)
  | CStartContainer (containerID : string)
  | CStopContainer (containerID : string) (force : bool)
  | CKillContainer (containerID : string) (signal : Z) (all : bool)
  | CDeleteContainer (containerID : string)
  | CEnterContainer (containerID : string)
  | CUpdateContainer (containerID : string) (cpu : option LinuxCPU) (mem : option LinuxMemory)
  | CStatsContainer (containerID : string)
  | CPauseContainer (containerID : string)
  | CResumeContainer (containerID : string)
  | CcreateContainers
  | CStartVM (fromFactory : bool)
  | CGuestDetails
  | CStart
  | CStop (force : bool)
  | CDelete
  | CRelease
  | CAddDevice (info : DeviceInfo).

Section Calls.
Context {W : Type} `{GoRange} `{GoAppend} `{Hypervisor W} `{Agent W} `{FilesystemSharer W}
  `{ResourceController W} `{!Store W} `{HostOS W}.

(** Run a call and forget its value. *)
Definition run (c : Call) : M (Sys W) unit :=
  match c with
  | CSetAnnotations a => SetAnnotations a
  | CMonitor => Monitor
  | CWaitProcess id p => _ ← WaitProcess id p; mret tt
  | CSignalProcess id p sig all => SignalProcess id p sig all
  | CWinsizeProcess id p h w => WinsizeProcess id p h w
  | CIOStream id => IOStream id
  | CCreateContainer conf => _ ← CreateContainer conf; mret tt
  | CStartContainer id => _ ← StartContainer id; mret tt
  | CStopContainer id force => _ ← StopContainer id force; mret tt
  | CKillContainer id sig all => KillContainer id sig all
  | CDeleteContainer id => _ ← DeleteContainer id; mret tt
  | CEnterContainer id => _ ← EnterContainer id; mret tt
  | CUpdateContainer id cpu mem => UpdateContainer id cpu mem
  | CStatsContainer id => StatsContainer id
  | CPauseContainer id => PauseContainer id
  | CResumeContainer id => ResumeContainer id
  | CcreateContainers => createContainers
  | CStartVM f => startVM f
  | CGuestDetails => getAndStoreGuestDetails
  | CStart => Start
  | CStop force => Stop force
  | CDelete => Delete
  | CRelease => Release
  | CAddDevice info => _ ← AddDevice info; mret tt
  end.

(** One call, whether it succeeds or fails. *)
Definition step (w w' : Sys W) : Prop := exists c, w' = (run c w).2.
End Calls.
End Calls.

(** ** Devices and block indexes *)
Module Consistency.
Import Calls.

Section Inv.
Context {W : Type} `{GoRange} `{GoAppend} `{HypervisorLaws W} `{Agent W} `{FilesystemSharer W}
  `{ResourceController W} `{!Store W} `{HostOS W} `{!AgentLaws}.

Definition inv : relation (Sys W) := keeps (world_inv (R := Sandbox W)).

Lemma inv_writeS f :
  (forall s, ss_BlockIndexMap (sb_state (f s)) = ss_BlockIndexMap (sb_state s)) -> stays inv (writeS f).
Proof.
  intros Hf [dm pcie s] (Hok & Hnum & Hidx). split_and!; [done|done|]. simpl in *. by rw Hf.
Qed.

Lemma inv_on_dm {A} (m : M deviceManager A) :
  (forall w, world_inv w -> world_inv (on_dm (R := Sandbox W) m w).2) -> stays inv (on_dm m).
Proof. intros Hm w Hw. by apply Hm. Qed.

#[local] Instance inv_preorder : PreOrder inv.
Proof. apply keeps_preorder. Qed.

Lemma inv_onW {A} (m : M W A) : stays inv (onW m).
Proof.
  intros [dm pcie s] (Hok & Hnum & Hidx). unfold onW, onS, onW_S. simpl. by destruct (m (sb_env s)).
Qed.
Lemma inv_readW {A} (f : W -> A) : stays inv (readW f).
Proof. apply stays_gets, _. Qed.
#[local] Hint Resolve inv_onW inv_readW : stays.

#[export] Instance inv_frame : Frame inv.
Proof.
  constructor.
  - apply _.
  - intros [dm pcie s] [dm' pcie' s'] [= ->] [= ->] [_ _ Hs _] (Hok & Hnum & Hidx).
    split_and!; [done|done|]. simpl in *. by rw Hs.
  - intros l f _. by apply inv_writeS.
  - intros info. unfold sys_NewDevice. stays. apply inv_on_dm. intros w Hw. by apply NewDevice_inv; [apply _|].
  - intros id. apply inv_on_dm. intros w Hw. by apply RemoveDevice_inv.
  - intros id. unfold sys_AttachDevice. stays. intros w Hw. by apply AttachDevice_inv; [apply _|].
  - intros id w Hw. by apply DetachDevice_inv.
Qed.

#[local] Hint Extern 1 (stays inv (writeS _)) => by apply inv_writeS : stays.
#[local] Hint Extern 1 (stays inv (upd_cont _ _)) => by apply inv_writeS : stays.
#[local] Hint Extern 1 (stays inv (ag_createContainer _)) => apply ag_create_frame, inv_frame : stays.

Lemma inv_setContainerState l st : stays inv (setContainerState l st).
Proof. unfold setContainerState. stays. Qed.
Lemma inv_removeContainer id : stays inv (removeContainer id).
Proof. unfold removeContainer. stays. Qed.
#[local] Hint Resolve inv_setContainerState inv_removeContainer : stays.
Lemma inv_create l : stays inv (create l).
Proof. unfold create. stays. Qed.
Lemma inv_Container_Restore l : stays inv (Container_Restore l).
Proof. unfold Container_Restore. stays. Qed.
#[local] Hint Resolve inv_Container_Restore : stays.
Lemma inv_newContainer p : stays inv (newContainer p).
Proof. unfold newContainer. stays. Qed.
Lemma inv_stop l force : stays inv (stop l force).
Proof. unfold stop. stays. Qed.
#[local] Hint Resolve inv_create inv_newContainer inv_stop : stays.
Lemma inv_start l : stays inv (start l).
Proof. unfold start. stays. Qed.
Lemma inv_container_delete l : stays inv (container_delete l).
Proof. unfold container_delete. stays. Qed.
Lemma inv_pause l : stays inv (pause l).
Proof. unfold pause. stays. Qed.
Lemma inv_resume l : stays inv (resume l).
Proof. unfold resume. stays. Qed.
#[local] Hint Resolve inv_start inv_container_delete inv_pause inv_resume : stays.

Lemma inv_findContainer id : stays inv (findContainer id).
Proof. unfold findContainer. stays. Qed.
Lemma inv_addContainer l : stays inv (addContainer l).
Proof. unfold addContainer. stays. Qed.
Lemma inv_require_running : stays inv require_running.
Proof. unfold require_running, sandbox_state. stays. Qed.
Lemma inv_setSandboxState st : stays inv (setSandboxState st).
Proof. unfold setSandboxState. stays. Qed.
Lemma inv_append_container conf : stays inv (writeS (append_container conf)).
Proof.
  apply inv_writeS. intros s. unfold append_container. by destruct (append_config _ _ _).
Qed.
Lemma inv_drop_config id : stays inv (writeS (drop_config id)).
Proof.
  apply inv_writeS. intros s. unfold drop_config. destruct (list_find _ _) as [[i c]|]; [|done].
  by destruct (delete_config _ _ _).
Qed.
#[local] Hint Resolve inv_findContainer inv_addContainer inv_require_running inv_setSandboxState
  inv_append_container inv_drop_config : stays.
Lemma inv_CreateContainer conf : stays inv (CreateContainer conf).
Proof. unfold CreateContainer, last_config. stays. Qed.
Lemma inv_create_one i : stays inv (create_one i).
Proof. unfold create_one. stays. Qed.
#[local] Hint Resolve inv_CreateContainer inv_create_one : stays.

Lemma inv_run c : stays inv (run c).
Proof.
  destruct c; simpl;
    unfold SetAnnotations, Monitor, WaitProcess, SignalProcess, WinsizeProcess, IOStream, StartContainer,
      StopContainer, KillContainer, DeleteContainer, EnterContainer, UpdateContainer, StatsContainer,
      PauseContainer, ResumeContainer, createContainers, getAndStoreGuestDetails, Start, Stop, Delete,
      Release, sandbox_state; stays.
Qed.

(** *** Creation *)

(** The records found when the sandbox is made, after its resource controller, were
    written by [Save] while the sandbox was consistent. *)
Definition saved_well (id : string) (e : W) : Prop :=
  forall ss css, st_FromDisk id e = Ok (Some (ss, css)) ->
  exists hv url (s : Sandbox W) dm pcie, save_records hv url s dm = (ss, css) /\ world_inv (mkWorld dm pcie s).
Definition store_ok (id : string) (e : W) : Prop := forall only, saved_well id (rc_Create only e).2.

(** A new device manager loads what was saved. *)
Lemma world_inv_loaded hv url (s s' : Sandbox W) dm pcie dm0 pcie' (ss : PSandboxState hv_saved) css :
  save_records hv url s dm = (ss, css) -> world_inv (mkWorld dm pcie s) -> dm_devices dm0 = ∅ ->
  ss_BlockIndexMap (sb_state s') = hs_BlockIndexMap (ps_HypervisorState ss) ->
  world_inv (mkWorld (LoadDevices (ps_Devices ss) dm0) pcie' s').
Proof.
  intros E (Hok & Huniq & Hheld & Hdis) Hnew Hidx. simpl in *.
  assert (ps_Devices ss = deviceToDeviceState (GetAllDevices dm)) as -> by by injection E as <- _.
  assert (hs_BlockIndexMap (ps_HypervisorState ss) = ss_BlockIndexMap (sb_state s)) as Eb by by injection E as <- _.
  assert (Hd : forall id d', dm_devices (LoadDevices (deviceToDeviceState (GetAllDevices dm)) dm0) !! id = Some d' ->
    exists d, dm_devices dm !! id = Some d /\ device_ok id d' /\ GetMajorMinor d' = GetMajorMinor d /\ held d' = held d).
  { intros id d' Hl. pose proof (devices_restored dm dm0 id Hok Hnew) as Hr. rw Hl in Hr.
    destruct (dm_devices dm !! id) as [d|] eqn:Hd; [|done]. exists d. split; [done|].
    destruct (Save_Load d) as (d'' & Hd'' & _ & Hid & Hac & Hrc & Hmm & _ & Hh & _).
    assert (d'' = d') as -> by congruence. destruct (Hok id d Hd) as (? & ? & ?).
    split_and!; [|done..]. unfold device_ok, count_ok in *. rw Hid Hac Hrc. tauto. }
  split_and!.
  - intros id d' (d & _ & ? & _)%Hd. done.
  - intros i j d e (d1 & L1 & _ & M1 & _)%Hd (e1 & L2 & _ & M2 & _)%Hd. rw M1 M2. by apply Huniq.
  - split.
    + intros id d' (d & L1 & _ & _ & ->)%Hd. simpl. rw Hidx Eb. by apply (Hheld id).
    + intros i j d e (d1 & L1 & _ & _ & ->)%Hd (e1 & L2 & _ & _ & ->)%Hd. by apply Hdis.
Qed.

(** Before anything is loaded there are no devices. *)
Definition empty_manager (id : string) (e : W) (w : Sys W) : Prop :=
  dm_devices (w_dm w) = ∅ /\ sb_id (w_recv w) = id /\ sb_env (w_recv w) = e.

Lemma empty_inv id e w : empty_manager id e w -> world_inv w.
Proof.
  intros [E _]. split_and!; rw E; [by apply map_Forall_empty|by intros ????|].
  split; [by apply map_Forall_empty|by intros ????].
Qed.

(** Computations that start with no devices and end consistent. *)
Definition makes {A} (id : string) (e : W) (m : M (Sys W) A) : Prop := forall w, empty_manager id e w -> world_inv (m w).2.

Lemma makes_keep {A B} id e (m : M (Sys W) A) (k : A -> M (Sys W) B) :
  stays (keeps (empty_manager id e)) m -> (forall a, makes id e (k a)) -> makes id e (m ≫= k).
Proof.
  intros Hm Hk w Hw. specialize (Hm w Hw). unfold mbind, M_bind. destruct (m w) as [[a|err] w']; [by apply Hk|by eapply empty_inv].
Qed.
Lemma makes_then {A B} id e (m : M (Sys W) A) (k : A -> M (Sys W) B) :
  makes id e m -> (forall a, stays inv (k a)) -> makes id e (m ≫= k).
Proof. intros Hm Hk w Hw. specialize (Hm w Hw). unfold mbind, M_bind. destruct (m w) as [[a|err] w']; [by apply Hk|done]. Qed.
Lemma makes_on_error {A} id e (m : M (Sys W) A) c : makes id e m -> stays inv c -> makes id e (on_error m c).
Proof. intros Hm Hc w Hw. specialize (Hm w Hw). unfold on_error. destruct (m w) as [[a|err] w']; [done|by apply Hc]. Qed.

Lemma empty_writeS id e f :
  (forall s, sb_id (f s) = sb_id s) -> (forall s, sb_env (f s) = sb_env s) -> stays (keeps (empty_manager id e)) (writeS f).
Proof. intros Hi He w (E & Hid & Henv). split_and!; [done|simpl; by rw Hi|simpl; by rw He]. Qed.
Lemma empty_readW {A} id e (f : W -> A) : stays (keeps (empty_manager id e)) (readW f).
Proof. apply stays_gets, _. Qed.

Lemma makes_controller {A} id e (k : unit -> M (Sys W) A) :
  (forall only, makes id (rc_Create only e).2 (k tt)) -> makes id e (createResourceController ≫= k).
Proof.
  intros Hk [dm pcie s] (E & Hid & Henv). simpl in *. unfold createResourceController, readS, onW, onS, onW_S. munfold. simpl. rw Henv.
  specialize (Hk (sc_SandboxCgroupOnly (sb_config s))). destruct (rc_Create _ e) as [[paths|err] e']; simpl in *.
  - apply Hk. by split_and!.
  - by apply (empty_inv id e').
Qed.

Lemma makes_Restore id e : saved_well id e -> makes id e (ignore_err Sandbox_Restore).
Proof.
  intros Hst [dm pcie s] (E & Hid & Henv). simpl in E, Hid, Henv. subst id e.
  unfold ignore_err, Sandbox_Restore, readS. munfold. unfold id. cbn [w_recv].
  destruct (st_FromDisk (sb_id s) (sb_env s)) as [[[ss css]|]|err] eqn:Ed; [|by apply (empty_inv (sb_id s) (sb_env s))..].
  destruct (Hst _ _ Ed) as (hv & url & s0 & dm0 & pcie0 & Es & Hi). simpl. by eapply world_inv_loaded.
Qed.

Lemma inv_create_vm sid : stays inv (create_vm sid).
Proof. intros [dm pcie s] Hw. unfold create_vm. simpl. by destruct (hv_CreateVM _ _) as [r [hc e]]. Qed.

Lemma makes_newSandbox_body id e : store_ok id e -> makes id e newSandbox_body.
Proof.
  intros Hst. unfold newSandbox_body. apply makes_keep; [unfold readS; stays|intros sid].
  apply makes_on_error; [|apply inv_onW]. unfold set_hypervisor_config.
  apply makes_keep; [by apply empty_writeS|intros _]. apply makes_keep; [apply empty_readW|intros label].
  apply makes_keep; [stays; by apply empty_writeS|intros _].
  apply makes_controller. intros only. apply makes_then; [by apply makes_Restore|]. intros _. stays. apply inv_create_vm.
Qed.

Lemma inv_createSandbox features config m o w :
  store_ok (sc_ID config) o.1 -> createSandbox features config m o = (Ok tt, inr w) -> world_inv w.
Proof.
  intros Hst. unfold createSandbox. destruct (createAssets _ _ _) as [[[]|e] hc]; [|done].
  destruct (SandboxConfig_valid _ _) as [valid config'] eqn:Ev. destruct (negb valid); [done|].
  assert (sc_ID config' = sc_ID config) as Eid.
  { unfold SandboxConfig_valid in Ev. destruct (bool_decide _); injection Ev as _ <-; [done|]. by destruct (NewHypervisor_ok _). }
  unfold made. assert (makes (sc_ID config) o.1 createSandbox_body) as Hm.
  { unfold createSandbox_body. apply makes_then; [by apply makes_newSandbox_body|]. intros _. unfold sandbox_state. stays. }
  specialize (Hm (new_sandbox_state config' m o.2 o.1) ltac:(done)).
  destruct (createSandbox_body _) as [[[]|e] w']; [|done]. by intros [= <-].
Qed.

(** C1. However a client drives a sandbox that was created, new or restored from
    records that [Save] wrote while it was consistent, and whichever calls fail,
    the device manager is consistent: every device is filed under its own
    identifier with counters in range, no two devices share major and minor
    numbers, each attached block device holds a block index the sandbox has marked
    as used, and no two devices hold the same index.  A new sandbox is ready, so
    that starting, pausing, stopping and deleting it and its containers are among
    the calls. *)
Theorem sandbox_consistent features config m o w0 w :
  store_ok (sc_ID config) o.1 -> createSandbox features config m o = (Ok tt, inr w0) -> rtc step w0 w -> world_inv w.
Proof.
  intros Hst Hc Hsteps. apply inv_createSandbox in Hc; [|done].
  induction Hsteps as [|w w' w'' [c ->] _ IH]; [done|]. by apply IH, inv_run.
Qed.

End Inv.
End Consistency.
