(* ===== verification/LifecycleSpec.v ===== *)
(** * The life cycle of a sandbox and its containers

    Every call of a client moves the state of each existing container, and of
    the sandbox, by at most one edge of the diagram in [Types.Lifecycle], whether
    it succeeds or fails half way. *)
From S2P Require Import Prelude GoStr Types CPUSet Utils Devices DeviceManager Hypervisor State Persist Mounts.
From S2P Require Import Interfaces Receiver Resources Container Sandbox Frame SandboxSpec.
Import Types.Lifecycle Types.Caps Devices.Config Devices.Drivers Devices.DriversSpec.
Import DeviceManager.DeviceManager HypervisorConf State Persist Mounts Interfaces Receiver Resources Containers Sandboxes.
Import Frames Calls.

Module Lifecycles.

Section Relations.
Context {W : Type} `{GoRange} `{GoAppend} `{Hypervisor W} `{Agent W} `{FilesystemSharer W}
  `{ResourceController W} `{!Store W} `{HostOS W} `{!AgentLaws}.

(** The state of the container at an address. *)
Definition state_of (s : Sandbox W) (l : nat) : StateString := cs_State (c_state (cont_at (sb_mem s) l)).
Definition next (s : Sandbox W) : nat := m_next (sb_mem s).
Definition kind (s : Sandbox W) : HypervisorType := sc_HypervisorType (sb_config s).

Lemma state_of_set l f s l' :
  state_of (s <| sb_mem ::= fun m => set_cont l (f (cont_at m l)) m |>) l' =
  if bool_decide (l' = l) then cs_State (c_state (f (cont_at (sb_mem s) l))) else state_of s l'.
Proof.
  unfold state_of, set_cont, cont_at, update. simpl. case_bool_decide as E; [subst; by rw lookup_insert_eq|].
  by rw lookup_insert_ne.
Qed.

Lemma still_state (s s' : Sandbox W) : still s s' -> kind s' = kind s /\ (next s <= next s')%nat /\ forall l, state_of s' l = state_of s l.
Proof.
  intros [_ Hc _ [Hm Hn _]]. unfold kind, next, state_of, cont_at. rw Hc. split_and!; [done|done|]. intros l. by rw Hm.
Qed.

Lemma untouched_state (s s' : Sandbox W) : untouched s s' -> kind s' = kind s /\ next s' = next s /\ forall l, state_of s' l = state_of s l.
Proof.
  intros [_ Hc _ Hm]. unfold kind, next, state_of, cont_at. by rw Hc Hm.
Qed.

Lemma benign_state l f (s : Sandbox W) l' :
  benign f -> state_of (s <| sb_mem ::= fun m => set_cont l (f (cont_at m l)) m |>) l' = state_of s l'.
Proof. intros Hf. rw state_of_set. case_bool_decide as E; [|done]. subst. apply Hf. Qed.

(** *** Addresses below [n]: the containers that existed at some point *)
Definition below (n : nat) (s s' : Sandbox W) : Prop :=
  (n <= next s)%nat ->
  kind s' = kind s /\ (n <= next s')%nat /\ forall l, (l < n)%nat -> state_of s' l = state_of s l.

#[export] Instance below_preorder n : PreOrder (below n).
Proof.
  split; [by intros s Hn|]. intros s1 s2 s3 H12 H23 Hn.
  destruct (H12 Hn) as (K & Hn2 & Hs). destruct (H23 Hn2) as (K' & Hn3 & Hs').
  split_and!; [congruence|done|]. intros l Hl. by rw Hs' // Hs.
Qed.

#[export] Instance below_frame n : Frame (on_sandbox (below n)).
Proof.
  apply on_sandbox_frame; [apply _|..].
  - intros s s' (K & Hn & Hs)%still_state Hle. split_and!; [done|lia|]. by intros l _.
  - intros s s' (K & Hn & Hs)%untouched_state Hle. split_and!; [done|lia|]. by intros l _.
  - intros l f s Hf Hle. split_and!; [done|done|]. intros l' _. by apply benign_state.
Qed.

Lemma below_upd_cont n l f : (n <= l)%nat -> stays (on_sandbox (below n)) (upd_cont l f).
Proof.
  intros Hl w Hle. split_and!; [done|done|]. intros l' Hl'. simpl. rw state_of_set. by case_bool_decide; [lia|].
Qed.

Lemma below_write n f :
  (forall s, kind (f s) = kind s) -> (forall s, (next s <= next (f s))%nat) ->
  (forall s l, state_of (f s) l = state_of s l) -> stays (on_sandbox (below n)) (writeS f).
Proof.
  intros Hk Hn Hs w Hle. simpl. split_and!; [done|specialize (Hn (w_recv w)); lia|]. intros l _. apply Hs.
Qed.

Lemma state_of_alloc c s l :
  (l < next s)%nat -> state_of (s <| sb_mem ::= alloc_cont c |>) l = state_of s l.
Proof.
  intros Hl. unfold state_of, cont_at, alloc_cont, update. simpl. rw lookup_insert_ne; [|done].
  unfold next in Hl. lia.
Qed.

Lemma below_alloc n c : stays (on_sandbox (below n)) (writeS (fun s => s <| sb_mem ::= alloc_cont c |>)).
Proof.
  intros w Hle. simpl. split_and!; [done|unfold next, alloc_cont, update in *; simpl; lia|].
  intros l Hl. apply state_of_alloc. lia.
Qed.

(** The methods of a container made after that point. *)
Section New.
Context (n l : nat) (Hl : (n <= l)%nat).

#[local] Hint Extern 1 (stays _ (upd_cont _ _)) => by apply below_upd_cont : stays.
#[local] Hint Extern 1 (stays _ (ag_createContainer _)) => apply ag_create_frame; apply _ : stays.

Lemma below_setContainerState st : stays (on_sandbox (below n)) (setContainerState l st).
Proof. unfold setContainerState. stays. Qed.
#[local] Hint Resolve below_setContainerState : stays.

Lemma below_create : stays (on_sandbox (below n)) (create l).
Proof. unfold create. stays. Qed.

Lemma below_stop force : stays (on_sandbox (below n)) (stop l force).
Proof. unfold stop. stays. Qed.

Lemma below_Container_Restore : stays (on_sandbox (below n)) (Container_Restore l).
Proof. unfold Container_Restore. stays. Qed.
End New.

#[local] Hint Extern 1 (stays _ (writeS _)) => by apply below_write : stays.

Lemma below_removeContainer n id : stays (on_sandbox (below n)) (removeContainer id).
Proof. unfold removeContainer. stays. Qed.

Lemma below_addContainer n l : stays (on_sandbox (below n)) (addContainer l).
Proof. unfold addContainer. stays. Qed.

(** [newContainer] takes the next address. *)
Lemma below_readS {A} n (k : Sandbox W -> M (Sys W) A) :
  (forall s, (n <= next s)%nat -> stays (on_sandbox (below n)) (k s)) ->
  stays (on_sandbox (below n)) (readS id ≫= k).
Proof. intros Hk w Hle. exact (Hk _ Hle w Hle). Qed.

Lemma below_newContainer n p : stays (on_sandbox (below n)) (newContainer p).
Proof.
  unfold newContainer. apply below_readS. intros s Hs. stays; [apply below_alloc|by apply below_Container_Restore].
Qed.

Lemma newContainer_address p w l w' : newContainer p w = (Ok l, w') -> l = next (w_recv w).
Proof.
  unfold newContainer. intros E. unfold mbind at 1, M_bind at 1, readS, gets, id in E.
  destruct (negb _); [done|]. revert E. apply (gives_bind (fun l _ => l = next (w_recv w))). intros _.
  repeat (apply gives_bind; intros ?). destruct a0; [by apply gives_ret|].
  repeat (apply gives_bind; intros ?). by apply gives_ret.
Qed.

Lemma below_newContainer_bind {A} n p (k : nat -> M (Sys W) A) :
  (forall l, (n <= l)%nat -> stays (on_sandbox (below n)) (k l)) ->
  stays (on_sandbox (below n)) (newContainer p ≫= k).
Proof.
  intros Hk w Hle. pose proof (below_newContainer n p w) as Hnew. unfold mbind, M_bind.
  destruct (newContainer p w) as [[l|e] w'] eqn:E; [|by apply Hnew]. apply newContainer_address in E as ->.
  exact (transitivity (R := on_sandbox (below n)) Hnew (Hk _ Hle w') Hle).
Qed.

(** *** What a call may do

    The states a container may be left in by a call, and the containers it may
    move. *)
Definition targets (c : Call) : list StateString :=
  match c with
  | CStartContainer _ | CStart => [StateRunning; StateStopped]
  | CStopContainer _ _ | CStop _ => [StateStopped]
  | CPauseContainer _ => [StatePaused]
  | CResumeContainer _ => [StateRunning]
  | _ => []
  end.

Definition strip_unikernel (id : string) : string :=
  if Contains id unikernel_suffix then ReplaceAll id unikernel_suffix "" else id.

Definition concerns (c : Call) (s : Sandbox W) (l : nat) : Prop :=
  match c with
  | CStartContainer id => sb_containers s !! strip_unikernel id = Some l
  | CStopContainer id _ | CPauseContainer id | CResumeContainer id => sb_containers s !! id = Some l
  | CStart | CStop _ => l ∈ all_containers s
  | _ => False
  end.

(** *** One edge of the diagram *)

(** A set of edges no two of which follow each other. *)
Class Moves (E : relation StateString) : Prop := {
  moves_edge x y : E x y -> edge x y;
  moves_once x y z : E x y -> E y z -> False;
}.

(** The edges into a state; the edge of a start that failed; none. *)
Definition onto (t : StateString) : relation StateString := fun x y => edge x y /\ y = t.
Definition aborted : relation StateString := fun x y => x = StateReady /\ y = StateStopped.
Definition never : relation StateString := fun _ _ => False.

#[export] Instance onto_moves t : Moves (onto t).
Proof. split; [by intros x y [? _]|]. intros x y z [_ ->] [He ->]. by inversion He. Qed.
#[export] Instance aborted_moves : Moves aborted.
Proof. split; [intros x y [-> ->]; constructor|]. by intros x y z [_ ->] [? _]. Qed.
#[export] Instance never_moves : Moves never.
Proof. by split. Qed.

(** The containers that existed, at the addresses [P], moved along an edge of [E];
    the others stayed where they were. *)
Definition lives (P : nat -> Prop) (E : relation StateString) (s s' : Sandbox W) : Prop :=
  kind s <> UruncHypervisor ->
  kind s' = kind s /\ (next s <= next s')%nat /\
  forall l, (l < next s)%nat -> state_of s' l = state_of s l \/ P l /\ E (state_of s l) (state_of s' l).

#[export] Instance lives_refl P E : Reflexive (lives P E).
Proof. intros s Hk. split_and!; [done|done|]. by left. Qed.

Lemma lives_weaken P (E F : relation StateString) s s' : (forall x y, E x y -> F x y) -> lives P E s s' -> lives P F s s'.
Proof. intros HE Hl Hk. destruct (Hl Hk) as (K & Hn & Hs). split_and!; [done|done|]. intros l Hll. destruct (Hs l Hll) as [?|[? ?]]; auto. Qed.

#[local] Hint Resolve below_newContainer below_removeContainer below_addContainer : stays.

Section Moving.
Context (P : nat -> Prop) (E : relation StateString) `{HE : !Moves E}.

#[export] Instance lives_preorder : PreOrder (lives P E).
Proof.
  split; [intros s Hk; split_and!; [done|done|]; by left|]. intros s1 s2 s3 H12 H23 Hk.
  destruct (H12 Hk) as (K & Hn & Hs). destruct (H23 ltac:(congruence)) as (K' & Hn' & Hs').
  split_and!; [congruence|lia|]. intros l Hl. destruct (Hs l Hl) as [E1|[HP E1]], (Hs' l ltac:(lia)) as [E2|[HP2 E2]].
  - left. congruence.
  - right. rw E1 in E2. by split.
  - right. rw E2. by split.
  - by destruct (moves_once _ _ _ E1 E2).
Qed.

Lemma same_lives (s s' : Sandbox W) :
  kind s' = kind s -> (next s <= next s')%nat ->
  (forall l, (l < next s)%nat -> state_of s' l = state_of s l) -> lives P E s s'.
Proof. intros K Hn Hs _. split_and!; [done|done|]. intros l Hl. left. by apply Hs. Qed.

#[export] Instance lives_frame : Frame (on_sandbox (lives P E)).
Proof.
  apply on_sandbox_frame; [apply _|..].
  - intros s s' (K & Hn & Hs)%still_state. by apply same_lives.
  - intros s s' (K & Hn & Hs)%untouched_state. apply same_lives; [done|lia|done].
  - intros l f s Hf. apply same_lives; [done|done|]. intros l' _. by apply benign_state.
Qed.

(** What happens below the next address is a life. *)
Lemma lives_below {A} (m : M (Sys W) A) :
  (forall n, stays (on_sandbox (below n)) m) -> stays (on_sandbox (lives P E)) m.
Proof.
  intros Hm w. destruct (Hm (next (w_recv w)) w) as (K & Hn & Hs); [done|]. by apply same_lives.
Qed.

(** *** On the way to a state

    While the container at [l] is in [t] or one edge away from it, setting its
    state to [t] is allowed. *)
Definition can (l : nat) (t : StateString) (s : Sandbox W) : Prop :=
  state_of s l = t \/ E (state_of s l) t.

Definition moving (l : nat) (t : StateString) (s s' : Sandbox W) : Prop :=
  can l t s -> lives P E s s' /\ can l t s'.

#[export] Instance moving_preorder l t : PreOrder (moving l t).
Proof.
  split; [by intros s Hc; split|]. intros s1 s2 s3 H12 H23 Hc.
  destruct (H12 Hc) as [L Hc2]. destruct (H23 Hc2) as [L' Hc3]. split; [by etrans|done].
Qed.

#[export] Instance moving_frame l t : Frame (on_sandbox (moving l t)).
Proof.
  apply on_sandbox_frame; [apply _|..].
  - intros s s' (K & Hn & Hs)%still_state. intros Hc. split; [by apply same_lives|]. unfold can. by rw Hs.
  - intros s s' (K & Hn & Hs)%untouched_state. intros Hc. split; [apply same_lives; [done|lia|done]|].
    unfold can. by rw Hs.
  - intros l' f s Hf Hc. split; [apply same_lives; [done|done|]; intros ? _; by apply benign_state|].
    unfold can. by rw benign_state.
Qed.

Lemma moving_setContainerState l t : P l -> stays (on_sandbox (moving l t)) (setContainerState l t).
Proof.
  intros Hl. unfold setContainerState. stays. intros w Hc. split.
  - intros Hk. split_and!; [done|done|]. intros l' Hl'. simpl. rw state_of_set.
    destruct (decide (l' = l)) as [->|Hne]; [|left; by rw bool_decide_false]. rw bool_decide_true //. simpl.
    destruct Hc as [->|Hc]; [by left|by right].
  - left. simpl. rw state_of_set. by rw bool_decide_true.
Qed.

(** A computation on the way to [t], started where [t] can be reached. *)
Lemma moving_lives {A} l t (m : M (Sys W) A) w :
  stays (on_sandbox (moving l t)) m -> can l t (w_recv w) -> on_sandbox (lives P E) w (m w).2.
Proof. intros Hm Hc. by destruct (Hm w Hc). Qed.

Lemma moving_stop l force : P l -> stays (on_sandbox (moving l StateStopped)) (stop l force).
Proof. intros Hl. unfold stop. stays. by apply moving_setContainerState. Qed.

(** A guard on the state of the container. *)
Lemma lives_require {A} l sts what t (k : unit -> M (Sys W) A) :
  (forall st, st ∈ sts -> st = t \/ E st t) -> stays (on_sandbox (moving l t)) (k tt) ->
  stays (on_sandbox (lives P E)) (require_state l sts what ≫= k).
Proof.
  intros Hsts Hk w. unfold require_state, cont_state, cont, readS, gets. munfold.
  change (cs_State _) with (state_of (w_recv w) l). unfold state_in. case_bool_decide as Est; [|simpl; reflexivity].
  eapply moving_lives; [exact Hk|]. by apply Hsts.
Qed.

(** *** The calls that leave the states alone *)

Lemma lives_write f :
  (forall s, kind (f s) = kind s) -> (forall s, (next s <= next (f s))%nat) ->
  (forall s l, state_of (f s) l = state_of s l) -> stays (on_sandbox (lives P E)) (writeS f).
Proof. intros Hk Hn Hs. apply lives_below. intros n. by apply below_write. Qed.

Lemma lives_removeContainer id : stays (on_sandbox (lives P E)) (removeContainer id).
Proof. apply lives_below. intros n. stays. Qed.
Lemma lives_container_delete l : stays (on_sandbox (lives P E)) (container_delete l).
Proof. unfold container_delete. stays. apply lives_removeContainer. Qed.
Lemma lives_findContainer id : stays (on_sandbox (lives P E)) (findContainer id).
Proof. unfold findContainer. stays. Qed.
Lemma lives_setSandboxState st : stays (on_sandbox (lives P E)) (setSandboxState st).
Proof. unfold setSandboxState. stays. by apply lives_write. Qed.
Lemma lives_require_running : stays (on_sandbox (lives P E)) require_running.
Proof. unfold require_running, sandbox_state. stays. Qed.

End Moving.

Lemma append_container_same conf (s : Sandbox W) :
  kind (append_container conf s) = kind s /\ (next s <= next (append_container conf s))%nat /\
  forall l, state_of (append_container conf s) l = state_of s l.
Proof.
  unfold append_container, append_config. destruct (_ <? _)%nat; unfold kind, next, state_of, cont_at, update; simpl;
    split_and!; try done; lia.
Qed.
Lemma below_append_container n conf : stays (on_sandbox (below n)) (writeS (append_container conf)).
Proof. apply below_write; intros; apply append_container_same. Qed.

Lemma below_create_container {A} n p (k : nat -> M (Sys W) A) :
  (forall l, (n <= l)%nat -> stays (on_sandbox (below n)) (k l)) ->
  stays (on_sandbox (below n)) (l ← newContainer p; _ ← create l; _ ← addContainer l; k l).
Proof.
  intros Hk. apply below_newContainer_bind. intros l Hl. stays_step; [by apply below_create|].
  stays_step; [stays|by apply Hk].
Qed.

Lemma below_CreateContainer n conf : stays (on_sandbox (below n)) (CreateContainer conf).
Proof.
  unfold CreateContainer. stays_step; [apply below_append_container|].
  stays_step; [|by apply below_write]. stays_step; [unfold last_config; stays|].
  apply below_create_container. intros l Hl. stays. by apply fr_ignore, below_stop; [apply _|].
Qed.

Section Calls.
Context (P : nat -> Prop) (E : relation StateString) `{HE : !Moves E}.

Lemma lives_CreateContainer conf : stays (on_sandbox (lives P E)) (CreateContainer conf).
Proof. apply lives_below. intros n. apply below_CreateContainer. Qed.

Lemma lives_createContainers : stays (on_sandbox (lives P E)) createContainers.
Proof.
  unfold createContainers. stays. apply lives_below. intros n. unfold create_one. stays_step; [stays|].
  apply below_newContainer_bind. intros l Hl. stays. by apply below_create.
Qed.

Lemma lives_drop_config id : stays (on_sandbox (lives P E)) (writeS (drop_config id)).
Proof.
  apply lives_write; intros s; unfold drop_config; destruct (list_find _ _) as [[i c]|]; try done;
    by destruct (delete_config _ _ _) eqn:Ed; injection Ed as <- <-.
Qed.

#[local] Hint Resolve lives_container_delete lives_findContainer lives_setSandboxState lives_require_running
  lives_CreateContainer lives_createContainers lives_drop_config : stays.

Lemma lives_quiet c : targets c = [] -> stays (on_sandbox (lives P E)) (run c).
Proof.
  destruct c; try done; intros _; simpl;
    unfold SetAnnotations, Monitor, WaitProcess, SignalProcess, WinsizeProcess, IOStream, KillContainer,
      DeleteContainer, EnterContainer, UpdateContainer, StatsContainer, getAndStoreGuestDetails, Delete, Release,
      sandbox_state; stays; by apply lives_write.
Qed.

End Calls.

(** *** The calls that move a container *)

Lemma lives_stop P l force : P l -> stays (on_sandbox (lives P (onto StateStopped))) (stop l force).
Proof.
  intros Hl w. destruct (decide (state_of (w_recv w) l = StateStopped)) as [Est|Est];
    [exact (moving_lives P _ l StateStopped _ w (moving_stop P _ l force Hl) (or_introl Est))|].
  destruct (validTransition (state_of (w_recv w) l) (state_of (w_recv w) l) StateStopped) as [[]|e] eqn:V.
  - apply validTransition_edge in V as [_ V].
    exact (moving_lives P _ l StateStopped _ w (moving_stop P _ l force Hl) (or_intror (conj V eq_refl))).
  - unfold stop, cont, readS, gets, ContainerState_ValidTransition. unfold mbind at 1, M_bind at 1.
    rw bool_decide_false; [done|].
    unfold mbind at 1, M_bind at 1, lift. change (cs_State _) with (state_of (w_recv w) l). rw V. simpl. reflexivity.
Qed.

Lemma lives_pause P l : P l -> stays (on_sandbox (lives P (onto StatePaused))) (pause l).
Proof.
  intros Hl. unfold pause. stays_step; [stays|]. apply (lives_require P (onto StatePaused) l [StateRunning] _ StatePaused).
  - intros st ->%list_elem_of_singleton. right. by split; [constructor|].
  - stays. exact (moving_setContainerState P _ l _ Hl).
Qed.

Lemma lives_resume P l : P l -> stays (on_sandbox (lives P (onto StateRunning))) (resume l).
Proof.
  intros Hl. unfold resume. stays_step; [stays|]. apply (lives_require P (onto StateRunning) l [StatePaused] _ StateRunning).
  - intros st ->%list_elem_of_singleton. right. by split; [constructor|].
  - stays. exact (moving_setContainerState P _ l _ Hl).
Qed.

(** A start ends in the running state; one that fails may leave a container that
    was ready stopped. *)
Definition starts (P : nat -> Prop) (w : Sys W) (ok : bool) (w' : Sys W) : Prop :=
  on_sandbox (lives P (onto StateRunning)) w w' \/
  ok = false /\ exists w1, on_sandbox (lives P (onto StateRunning)) w w1 /\ on_sandbox (lives P aborted) w1 w'.

Lemma starts_start P l w : P l -> let '(r, w') := start l w in starts P w (is_ok r) w'.
Proof.
  intros Hl. unfold start, checkSandboxRunning, GetHypervisorType. rw bool_decide_false //.
  unfold require_state, cont_state, cont, readS, gets. munfold. simpl.
  assert (starts P w false w) as Hsame by (left; reflexivity).
  destruct (bool_decide (ss_State _ <> _)); [done|]. simpl.
  case_bool_decide as Ek; [destruct (ignore_err _ _) as [r w']; left; intros Hk; by destruct Hk|].
  fold (state_of (w_recv w) l). unfold state_in. destruct (bool_decide (_ ∈ _)) eqn:Est; [|done]. apply bool_decide_eq_true in Est. simpl.
  unfold ContainerState_ValidTransition. fold (state_of (w_recv w) l).
  destruct (validTransition _ _ _) as [[]|e] eqn:V; [|done]. apply validTransition_edge in V as [_ V].
  set (m := onW _). assert (Hrun : stays (on_sandbox (moving P (onto StateRunning) l StateRunning)) m) by (unfold m; stays).
  assert (Habort : stays (on_sandbox (moving P aborted l StateStopped)) m) by (unfold m; stays).
  destruct (Hrun w (or_intror (conj V eq_refl))) as [L1 C1].
  assert (can aborted l StateStopped (w_recv w)) as C0.
  { unfold can. rw !elem_of_cons in Est. destruct Est as [->|[->|[]%not_elem_of_nil]]; [by right|by left]. }
  destruct (Habort w C0) as [L2 C2]. destruct (m w) as [[a|e] w1]; simpl in L1, C1, L2, C2.
  - pose proof (moving_lives P _ l _ _ w1 (moving_setContainerState P _ l _ Hl) C1) as L3.
    destruct (setContainerState l StateRunning w1) as [r w']. left. by etrans.
  - pose proof (moving_lives P _ l _ _ w1 (moving_stop P _ l true Hl) C2) as L3. unfold ignore_err. munfold.
    destruct (stop l true w1) as [r w']. simpl in *. right. split; [done|]. exists w. split; [reflexivity|]. by etrans.
Qed.

Lemma starts_trans P w w1 b w2 : on_sandbox (lives P (onto StateRunning)) w w1 -> starts P w1 b w2 -> starts P w b w2.
Proof. intros L1 [L2|(Hb & w3 & L2 & L3)]; [left; by etrans|right]. split; [done|]. exists w3. split; [by etrans|done]. Qed.

Lemma starts_for_each P ls w : Forall P ls -> let '(r, w') := for_each ls start w in starts P w (is_ok r) w'.
Proof.
  intros Hls. revert w. induction Hls as [|l ls Hl _ IH]; intros w; simpl; [left; reflexivity|].
  pose proof (starts_start P l w Hl) as S1. munfold. destruct (start l w) as [[[]|e] w1]; [|done].
  destruct S1 as [L1|[[=] _]]. specialize (IH w1). destruct (for_each ls start w1) as [r w']. by eapply starts_trans.
Qed.

(** The edges of a call. *)
Definition ends (L : list StateString) : relation StateString := fun x y => edge x y /\ y ∈ L.
Lemma ends_onto P t L s s' : t ∈ L -> lives P (onto t) s s' -> lives P (ends L) s s'.
Proof. intros Ht. apply lives_weaken. intros x y [? ->]. by split. Qed.

Lemma starts_ends P w b w' : starts P w b w' -> on_sandbox (lives P (ends [StateRunning; StateStopped])) w w'.
Proof.
  intros [L|(_ & w1 & L1 & L2)]; [apply (ends_onto P StateRunning); [left|done]|]. intros Hk.
  destruct (L1 Hk) as (K1 & N1 & S1). destruct (L2 ltac:(congruence)) as (K2 & N2 & S2). split_and!; [congruence|lia|].
  intros l Hl. destruct (S1 l Hl) as [E1|[HP [E1 E1']]], (S2 l ltac:(lia)) as [E2|[HP2 [E2 E2']]].
  - left. congruence.
  - right. rw -E1 E2 E2'. split; [done|]. split; [constructor|]. right. by left.
  - right. rw E2. split; [done|]. split; [done|]. rw E1'. by left.
  - by rw E1' in E2.
Qed.

(** What follows a start. *)
Lemma starts_then P {A B} (m : M (Sys W) A) (k : A -> M (Sys W) B) w :
  (let '(r, w') := m w in starts P w (is_ok r) w') -> (forall a, stays (on_sandbox (lives P (onto StateRunning))) (k a)) ->
  on_sandbox (lives P (ends [StateRunning; StateStopped])) w ((m ≫= k) w).2.
Proof.
  intros Hm Hk. unfold mbind, M_bind. destruct (m w) as [[a|e] w1]; [|by eapply starts_ends].
  destruct Hm as [L1|[[=] _]]. apply (starts_ends P w true). left. etrans; [exact L1|apply Hk].
Qed.

(** A call that looks a container up. *)
Lemma lives_find {A} (R : relation (Sandbox W)) `{!Reflexive R} id (k : nat -> M (Sys W) A) w :
  (forall l, sb_containers (w_recv w) !! id = Some l -> on_sandbox R w (k l w).2) ->
  on_sandbox R w ((findContainer id ≫= k) w).2.
Proof.
  intros Hk. unfold findContainer. case_bool_decide; [unfold on_sandbox; simpl; reflexivity|]. munfold. simpl.
  destruct (sb_containers (w_recv w) !! id) as [l|] eqn:El; [by apply Hk|unfold on_sandbox; simpl; reflexivity].
Qed.

(** No container changes its state. *)
Definition same_states (s s' : Sandbox W) : Prop := forall l, state_of s' l = state_of s l.

#[export] Instance same_states_preorder : PreOrder same_states.
Proof. unfold same_states. split; [done|]. intros s1 s2 s3 H12 H23 l. by rw H23. Qed.

#[export] Instance same_states_frame : Frame (on_sandbox same_states).
Proof.
  apply on_sandbox_frame; [apply _|..].
  - intros s s' (_ & _ & Hs)%still_state. exact Hs.
  - intros s s' (_ & _ & Hs)%untouched_state. exact Hs.
  - intros l f s Hf l'. by apply benign_state.
Qed.

Lemma same_states_keeps {A} l st (m : M (Sys W) A) :
  stays (on_sandbox same_states) m -> stays (keeps (fun w => state_of (w_recv w) l = st)) m.
Proof. intros Hm w Hw. etrans; [apply (Hm w)|exact Hw]. Qed.

(** *** The sandbox itself *)
Definition sandbox_state_of (s : Sandbox W) : StateString := ss_State (sb_state s).

Definition calm (s s' : Sandbox W) : Prop := sandbox_state_of s' = sandbox_state_of s.

#[export] Instance calm_preorder : PreOrder calm.
Proof. unfold calm. split; [done|]. intros s1 s2 s3. congruence. Qed.

#[export] Instance calm_frame : Frame (on_sandbox calm).
Proof.
  apply on_sandbox_frame; [apply _|..].
  - intros s s' [_ _ Hs _]. unfold calm, sandbox_state_of. by rw Hs.
  - by intros s s' [].
  - done.
Qed.

Lemma calm_write f : (forall s, sandbox_state_of (f s) = sandbox_state_of s) -> stays (on_sandbox calm) (writeS f).
Proof. intros Hf w. apply Hf. Qed.

#[local] Hint Extern 1 (stays (on_sandbox calm) (upd_cont _ _)) => by apply calm_write : stays.
#[local] Hint Extern 1 (stays (on_sandbox calm) (writeS _)) => by apply calm_write : stays.
#[local] Hint Extern 1 (stays _ (ag_createContainer _)) => apply ag_create_frame; apply _ : stays.

Lemma calm_setContainerState l st : stays (on_sandbox calm) (setContainerState l st).
Proof. unfold setContainerState. stays. Qed.
Lemma calm_removeContainer id : stays (on_sandbox calm) (removeContainer id).
Proof. unfold removeContainer. stays. Qed.
#[local] Hint Resolve calm_setContainerState calm_removeContainer : stays.
Lemma calm_stop l force : stays (on_sandbox calm) (stop l force).
Proof. unfold stop. stays. Qed.
#[local] Hint Resolve calm_stop : stays.
Lemma calm_start l : stays (on_sandbox calm) (start l).
Proof. unfold start. stays. Qed.
Lemma calm_newContainer p : stays (on_sandbox calm) (newContainer p).
Proof. unfold newContainer, Container_Restore. stays. Qed.
Lemma calm_create l : stays (on_sandbox calm) (create l).
Proof. unfold create. stays. Qed.
Lemma calm_addContainer l : stays (on_sandbox calm) (addContainer l).
Proof. unfold addContainer. stays. Qed.
Lemma calm_findContainer id : stays (on_sandbox calm) (findContainer id).
Proof. unfold findContainer. stays. Qed.
Lemma calm_append_container conf : stays (on_sandbox calm) (writeS (append_container conf)).
Proof. apply calm_write. intros s. unfold append_container. by destruct (append_config _ _ _). Qed.
Lemma calm_drop_config id : stays (on_sandbox calm) (writeS (drop_config id)).
Proof.
  apply calm_write. intros s. unfold drop_config. destruct (list_find _ _) as [[i c]|]; [|done].
  by destruct (delete_config _ _ _).
Qed.
Lemma calm_container_delete l : stays (on_sandbox calm) (container_delete l).
Proof. unfold container_delete. stays. Qed.
#[local] Hint Resolve calm_start calm_newContainer calm_create calm_addContainer calm_findContainer
  calm_append_container calm_drop_config calm_container_delete : stays.

(** Every call but [Start] and [Stop]. *)
Definition leaves_state (c : Call) : bool := match c with CStart | CStop _ => false | _ => true end.

Lemma calm_run c : leaves_state c -> stays (on_sandbox calm) (run c).
Proof.
  intros Hc. destruct c; try done; simpl;
    unfold SetAnnotations, Monitor, WaitProcess, SignalProcess, WinsizeProcess, IOStream, CreateContainer,
      last_config, StartContainer, StopContainer, KillContainer, DeleteContainer, EnterContainer, UpdateContainer,
      StatsContainer, PauseContainer, ResumeContainer, createContainers, create_one, getAndStoreGuestDetails,
      Delete, Release, sandbox_state, require_running, pause, resume; stays.
Qed.

(** [Start] and [Stop] leave the state as it was or set the new one. *)
Definition among (L : list StateString) (s s' : Sandbox W) : Prop :=
  sandbox_state_of s ∈ L -> sandbox_state_of s' ∈ L.

#[export] Instance among_preorder L : PreOrder (among L).
Proof. unfold among. split; [intros s; auto|intros s1 s2 s3; auto]. Qed.

Lemma calm_among {A} L (m : M (Sys W) A) : stays (on_sandbox calm) m -> stays (on_sandbox (among L)) m.
Proof. intros Hm w. unfold on_sandbox, among. by rw (Hm w). Qed.

#[export] Instance among_frame L : Frame (on_sandbox (among L)).
Proof.
  apply on_sandbox_frame; [apply _|..]; unfold among, sandbox_state_of.
  - intros s s' [_ _ Hs _]. by rw Hs.
  - intros s s' [_ _ Hs _]. by rw Hs.
  - done.
Qed.

Lemma among_setSandboxState L st : st ∈ L -> stays (on_sandbox (among L)) (setSandboxState st).
Proof. intros Hst. unfold setSandboxState. stays. by intros w _. Qed.

#[local] Hint Extern 2 (stays (on_sandbox (among _)) _) => apply calm_among; solve [stays] : stays.
#[local] Hint Extern 1 (stays _ (setSandboxState _)) => apply among_setSandboxState; set_solver : stays.

Definition arrives (t : StateString) (s s' : Sandbox W) : Prop :=
  sandbox_state_of s' = sandbox_state_of s \/
  sandbox_state_of s' = t /\ edge (sandbox_state_of s) t.

(** Where a transition is checked first. *)
Lemma arrives_guarded {A} t (k : unit -> M (Sys W) A) w :
  let st := sb_state (w_recv w) in
  stays (on_sandbox (among [ss_State st; t])) (k tt) ->
  on_sandbox (arrives t) w ((lift (SandboxState_ValidTransition st (ss_State st) t) ≫= k) w).2.
Proof.
  intros st Hk. unfold SandboxState_ValidTransition, lift. unfold mbind, M_bind.
  destruct (validTransition _ _ _) as [[]|e] eqn:V; [|by left].
  apply validTransition_edge in V as [_ V]. specialize (Hk w).
  assert (Hin : sandbox_state_of (w_recv (k tt w).2) ∈ [ss_State st; t]) by (apply Hk; left).
  rw !elem_of_cons in Hin. unfold on_sandbox, arrives. subst st. unfold sandbox_state_of in *.
  destruct Hin as [?|[?|Hnil]]; [by left|by right|by apply not_elem_of_nil in Hnil].
Qed.

Lemma Start_arrives : stays (on_sandbox (arrives StateRunning)) Start.
Proof. intros w. unfold Start. rw readS_bind. apply arrives_guarded. stays. Qed.

Lemma Stop_arrives force : stays (on_sandbox (arrives StateStopped)) (Stop force).
Proof.
  intros w. unfold Stop. rw readS_bind. case_bool_decide as E; [by left|]. apply arrives_guarded. stays.
Qed.

Lemma forget_value {A} (m : M (Sys W) A) w : ((_ ← m; mret tt) w).2 = (m w).2.
Proof. munfold. by destruct (m w) as [[]]. Qed.

(** A start that is followed by steps that leave the states alone, whatever its
    outcome. *)
Lemma starts_after P w b w1 w2 :
  starts P w b w1 -> (forall E, Moves E -> on_sandbox (lives P E) w1 w2) -> starts P w b w2.
Proof.
  intros [L|(Hb & w0 & L1 & L2)] Hk; [left; etrans; [exact L|apply Hk, _]|right].
  split; [done|]. exists w0. split; [done|]. etrans; [exact L2|apply Hk, _].
Qed.

Lemma starts_Start w : exists b, starts (fun l => l ∈ all_containers (w_recv w)) w b (Start w).2.
Proof.
  set (P := fun l => l ∈ all_containers (w_recv w)). unfold Start. rw readS_bind. unfold SandboxState_ValidTransition. munfold.
  destruct (validTransition _ _ _) as [[]|e]; [|exists false; left; reflexivity].
  unfold setSandboxState at 1. rw bool_decide_false //. simpl. set (w1 := mkWorld _ _ _).
  assert (on_sandbox (lives P (onto StateRunning)) w w1) as L1 by (apply same_lives; [done|done|by intros]).
  assert (Forall P (all_containers (w_recv w))) as Hall by by apply Forall_forall.
  change (all_containers (w_recv w1)) with (all_containers (w_recv w)).
  pose proof (starts_for_each P _ w1 Hall) as S1. destruct (for_each _ start w1) as [[[]|e] w2]; simpl in S1 |- *.
  - exists true. eapply starts_trans; [exact L1|]. eapply starts_after; [exact S1|]. intros E HE.
    refine ((_ : stays (on_sandbox (lives P E)) storeSandbox) w2). stays.
  - exists false. eapply starts_trans; [exact L1|]. eapply starts_after; [exact S1|]. intros E HE.
    pose proof (lives_setSandboxState P E (ss_State (sb_state (w_recv w))) w2) as L3. unfold ignore_err. munfold.
    by destruct (setSandboxState _ w2).
Qed.

Lemma lives_Stop force w :
  on_sandbox (lives (fun l => l ∈ all_containers (w_recv w)) (onto StateStopped)) w (Stop force w).2.
Proof.
  unfold Stop. rw readS_bind. case_bool_decide; [unfold on_sandbox; simpl; reflexivity|].
  unfold mbind at 1, M_bind at 1, lift at 1.
  destruct (SandboxState_ValidTransition _ _ _) as [[]|e]; [|unfold on_sandbox; simpl; reflexivity]. rw readS_bind.
  set (P := fun l => l ∈ all_containers (w_recv w)). refine ((_ : stays (on_sandbox (lives P (onto StateStopped))) _) w).
  stays; [by apply lives_stop|by apply lives_setSandboxState; apply _].
Qed.

Lemma lives_call c w : on_sandbox (lives (concerns c (w_recv w)) (ends (targets c))) w (run c w).2.
Proof.
  destruct (decide (targets c = [])) as [Ht|Ht].
  { rw Ht. eapply lives_weaken; [|by apply (lives_quiet _ never c)]. done. }
  set (P := concerns c (w_recv w)). destruct c; try done; cbn [run targets]; rw ?forget_value.
  - unfold StartContainer. apply lives_find; [apply _|]. intros l Hl.
    apply (starts_then P (start l)); [by apply starts_start|]. intros _. stays.
  - eapply ends_onto; [by left|]. unfold StopContainer. apply lives_find; [apply _|]. intros l Hl.
    refine ((_ : stays (on_sandbox (lives P (onto StateStopped))) _) w). stays. by apply lives_stop.
  - eapply ends_onto; [by left|]. unfold PauseContainer. apply lives_find; [apply _|]. intros l Hl.
    refine ((_ : stays (on_sandbox (lives P (onto StatePaused))) _) w). stays. by apply lives_pause.
  - eapply ends_onto; [by left|]. unfold ResumeContainer. apply lives_find; [apply _|]. intros l Hl.
    refine ((_ : stays (on_sandbox (lives P (onto StateRunning))) _) w). stays. by apply lives_resume.
  - destruct (starts_Start w) as [b Hb]. by eapply starts_ends.
  - eapply ends_onto; [by left|]. apply lives_Stop.
Qed.

(** C8. Under every hypervisor but the unikernel one, each call of a client moves
    the state of a container that exists by at most one edge of the life-cycle
    diagram, wherever the call fails.  Only starting, stopping, pausing and resuming
    move a state at all, and they move it to the state they are named after, except
    that a start that fails may stop the container; they move the container they
    name, or those of the sandbox that is started or stopped.  The state of the
    sandbox is moved only by starting it and by stopping it, along an edge. *)
Theorem calls_follow_lifecycle c (w : Sys W) :
  let s := w_recv w in let s' := w_recv (run c w).2 in
  kind s <> UruncHypervisor ->
  (forall l, (l < next s)%nat ->
     state_of s' l = state_of s l \/
     concerns c s l /\ edge (state_of s l) (state_of s' l) /\ state_of s' l ∈ targets c) /\
  (sandbox_state_of s' = sandbox_state_of s \/
   edge (sandbox_state_of s) (sandbox_state_of s') /\
   (c = CStart /\ sandbox_state_of s' = StateRunning \/ (exists force, c = CStop force) /\ sandbox_state_of s' = StateStopped)).
Proof.
  intros s s' Hk. split; [apply (lives_call c w Hk)|]. subst s s'. destruct (leaves_state c) eqn:Hc.
  - left. apply (calm_run c). by rw Hc.
  - destruct c; try done; [pose proof (Start_arrives w) as Ha|pose proof (Stop_arrives force w) as Ha];
      unfold on_sandbox, arrives in Ha; cbn [run]; (destruct Ha as [?|[-> He]]; [by left|right]); (split; [done|]); [by left|].
    right. split; [by exists force|done].
Qed.

End Relations.
End Lifecycles.
