(* ===== verification/StopSpec.v ===== *)
(** * Stopping

    A forced [Stop] goes through whatever the agent, the hypervisor and the
    network answer: as long as the state can be written to disk it succeeds,
    and the sandbox and its containers are stopped. *)
From S2P Require Import Prelude GoStr Types CPUSet Utils Devices DeviceManager Hypervisor State Persist Mounts.
From S2P Require Import Interfaces Receiver Resources Container Sandbox Frame SandboxSpec LifecycleSpec.
Import Types.Lifecycle Types.Caps Devices.Config Devices.Drivers Devices.DriversSpec.
Import DeviceManager.DeviceManager HypervisorConf State Persist Mounts Interfaces Receiver Resources Containers Sandboxes.
Import Frames Calls Lifecycles.

Module Stopping.

Section Forced.
Context {W : Type} `{GoRange} `{GoAppend} `{Hypervisor W} `{Agent W} `{FilesystemSharer W}
  `{ResourceController W} `{!Store W} `{HostOS W}.

(** Writing to disk always works. *)
Definition saves : Prop := does (fun _ => True) Sandbox_Save.

Definition goes {A} (m : M (Sys W) A) : Prop := does (fun _ => True) m.

Lemma goes_ignore {A} (m : M (Sys W) A) : goes (ignore_err m).
Proof. apply does_bind; [by apply does_try|]. intros _. by apply does_ret. Qed.
Lemma goes_forced {A} (m : M (Sys W) A) : goes (unless_forced true m).
Proof. apply does_bind; [by apply does_try|]. intros [a|e]; by apply does_ret. Qed.
Lemma goes_readS {A} (f : Sandbox W -> A) : goes (readS f).
Proof. by apply does_gets. Qed.

(** Only the container at [l] changes its state. *)
Definition others (l : nat) (s s' : Sandbox W) : Prop := forall l', l' <> l -> state_of s' l' = state_of s l'.

#[local] Instance others_preorder l : PreOrder (others l).
Proof. unfold others. split; [done|]. intros s1 s2 s3 H12 H23 l' Hl. by rw H23 // H12. Qed.

#[local] Instance others_frame l : Frame (on_sandbox (others l)).
Proof.
  apply on_sandbox_frame; [apply _|..].
  - by intros s s' (_ & _ & Hs)%still_state l' _.
  - by intros s s' (_ & _ & Hs)%untouched_state l' _.
  - intros l' f s Hf l'' _. by apply benign_state.
Qed.

Lemma others_stop l force : stays (on_sandbox (others l)) (stop l force).
Proof.
  unfold stop, setContainerState. stays. intros w l' Hl. simpl. rw state_of_set. by rw bool_decide_false.
Qed.

Context (Hsaves : saves).

Lemma setContainerState_does l st :
  st <> "" -> does (fun w => state_of (w_recv w) l = st) (setContainerState l st).
Proof.
  intros Hst. unfold setContainerState. rw bool_decide_false //. apply does_then; [|by intros _|].
  - apply does_modify. intros w. simpl. rw state_of_set. by rw bool_decide_true.
  - intros _. apply same_states_keeps. stays.
Qed.

(** A forced stop of a container in a valid state. *)
Lemma stop_forced l w :
  valid (state_of (w_recv w) l) = true ->
  exists w', stop l true w = (Ok tt, w') /\ state_of (w_recv w') l = StateStopped.
Proof.
  intros Hv. unfold stop. unfold cont at 1. rw readS_bind.
  change (cs_State (c_state (cont_at (sb_mem (w_recv w)) l))) with (state_of (w_recv w) l).
  case_bool_decide as E; [by exists w|].
  unfold ContainerState_ValidTransition. change (cs_State _) with (state_of (w_recv w) l).
  assert (V : validTransition (state_of (w_recv w) l) (state_of (w_recv w) l) StateStopped = Ok tt).
  { apply validTransition_edge. split; [done|]. by apply valid_stop. }
  rw V. unfold lift. unfold mbind at 1, M_bind at 1.
  apply (does_unit (fun w => state_of (w_recv w) l = StateStopped)).
  apply does_bind; [apply goes_ignore|intros _]. apply does_bind; [apply goes_readS|intros c].
  apply does_bind; [apply goes_ignore|intros _].
  apply does_finally; [|apply same_states_keeps; stays].
  apply does_bind; [apply goes_readS|intros c']. do 5 (apply does_bind; [apply goes_forced|intros _]).
  by apply setContainerState_does.
Qed.

(** ... and of all containers, one after the other. *)
Lemma stop_all_forced ls w :
  (forall l, l ∈ ls -> valid (state_of (w_recv w) l) = true) ->
  exists w', for_each ls (fun l => stop l true) w = (Ok tt, w') /\
    forall l, l ∈ ls \/ state_of (w_recv w) l = StateStopped -> state_of (w_recv w') l = StateStopped.
Proof.
  revert w. induction ls as [|l ls IH]; intros w Hv; [exists w; set_solver|].
  destruct (stop_forced l w) as (w1 & E1 & Hl); [apply Hv; by left|].
  pose proof (others_stop l true w) as Ho. rw E1 in Ho. unfold on_sandbox, others in Ho. simpl in Ho.
  assert (Hstop : forall l', state_of (w_recv w) l' = StateStopped -> state_of (w_recv w1) l' = StateStopped).
  { intros l' Hl'. destruct (decide (l' = l)) as [->|Hne]; [done|by rw Ho]. }
  destruct (IH w1) as (w2 & E2 & Hall).
  { intros l' Hl'. destruct (decide (l' = l)) as [->|Hne]; [by rw Hl|rw Ho //]. apply Hv. by right. }
  exists w2. split; [simpl; unfold mbind, M_bind; by rw E1|].
  intros l' [[->|Hin]%elem_of_cons|Hst]; apply Hall; auto.
Qed.

Lemma cleanSwap_goes : goes cleanSwap.
Proof.
  apply does_bind; [apply goes_readS|intros devs]. apply does_for_each; [done|]. intros d _. apply goes_ignore.
Qed.

(** What [Stop] does once the containers are stopped. *)
Definition in_state (st : StateString) (w : Sys W) : Prop := sandbox_state_of (w_recv w) = st.

Lemma calm_in_state {A} st (m : M (Sys W) A) : stays (on_sandbox calm) m -> stays (keeps (in_state st)) m.
Proof. intros Hm w Hw. etrans; [apply (Hm w)|exact Hw]. Qed.

Lemma teardown_does : does (in_state StateStopped)
  (_ ← unless_forced true stopVM;
   cw ← readS sb_cw;
   _ ← when cw (ignore_err (onW cw_stop));
   _ ← setSandboxState StateStopped;
   _ ← unless_forced true (onW nw_RemoveEndpoints);
   _ ← storeSandbox;
   _ ← unless_forced true (onW ag_disconnect);
   cleanSwap).
Proof.
  apply does_bind; [apply goes_forced|intros _]. apply does_bind; [apply goes_readS|intros cw].
  apply does_bind; [apply does_when; [done|intros _; apply goes_ignore]|intros _].
  apply does_then; [by apply does_modify| |]; intros _; [|apply calm_in_state; unfold storeSandbox; stays].
  apply does_bind; [apply goes_forced|intros _]. apply does_bind; [exact Hsaves|intros _].
  apply does_bind; [apply goes_forced|intros _]. apply cleanSwap_goes.
Qed.

(** C18. A forced stop cannot be held up: if the state can be saved, stopping a
    ready, running or paused sandbox whose containers are in valid states
    succeeds whatever the agent, the hypervisor and the network answer, and
    leaves the sandbox and each of its containers stopped. *)
Theorem Stop_forced (w : Sys W) :
  edge (sandbox_state_of (w_recv w)) StateStopped ->
  (forall l, l ∈ all_containers (w_recv w) -> valid (state_of (w_recv w) l) = true) ->
  exists w', Stop true w = (Ok tt, w') /\ sandbox_state_of (w_recv w') = StateStopped /\
    forall l, l ∈ all_containers (w_recv w) -> state_of (w_recv w') l = StateStopped.
Proof.
  intros He Hv. unfold Stop. rw readS_bind bool_decide_false; [by apply edge_not_stopped|].
  assert (V : SandboxState_ValidTransition (sb_state (w_recv w)) (ss_State (sb_state (w_recv w))) StateStopped = Ok tt)
    by by apply validTransition_edge.
  rw V. unfold lift. unfold mbind at 1, M_bind at 1. rw readS_bind.
  destruct (stop_all_forced (all_containers (w_recv w)) w Hv) as (w1 & E1 & Hall).
  unfold mbind at 1, M_bind at 1. rw E1.
  edestruct (does_unit_stays (in_state StateStopped) (on_sandbox same_states)) as (w2 & E2 & Hs & Hsame);
    [apply teardown_does| |].
  { unfold storeSandbox, setSandboxState. stays. }
  exists w2. split_and!; [exact E2|exact Hs|]. intros l Hl. rw (Hsame l). apply Hall. by left.
Qed.

End Forced.
End Stopping.
