(* ===== verification/CreateSpec.v ===== *)
(** * Creating a container

    [Sandbox.CreateContainer] either registers a ready container under its
    identifier or leaves the containers and the configuration of the sandbox
    as they were. *)
From S2P Require Import Prelude GoStr Types CPUSet Utils Devices DeviceManager Hypervisor State Persist Mounts.
From S2P Require Import Interfaces Receiver Resources Container Sandbox Frame SandboxSpec LifecycleSpec.
Import Types.Lifecycle Types.Caps Devices.Config Devices.Drivers Devices.DriversSpec.
Import DeviceManager.DeviceManager HypervisorConf State Persist Mounts Interfaces Receiver Resources Containers Sandboxes.
Import Frames Calls Lifecycles.

Module Creation.

(** A slice within its array. *)
Definition slice_ok (m : Mem) (sl : Slice) : Prop := (sl_len sl <= length (array_at m (sl_array sl)))%nat.

Section Create.
Context {W : Type} `{GoRange} `{GoAppend} `{Hypervisor W} `{Agent W} `{FilesystemSharer W}
  `{ResourceController W} `{!Store W} `{HostOS W} `{!AgentLaws}.

(** The identifiers of the containers in the sandbox's configuration. *)
Definition config_ids (s : Sandbox W) : list string := cc_ID <$> slice_list (sb_mem s) (sc_Containers (sb_config s)).

Definition id_of (s : Sandbox W) (l : nat) : string := c_id (cont_at (sb_mem s) l).

(** The identifiers stay in place. *)
Record names (s s' : Sandbox W) : Prop := {
  nm_containers : sb_containers s' = sb_containers s;
  nm_config : sb_config s' = sb_config s;
  nm_ids a : cc_ID <$> array_at (sb_mem s') a = cc_ID <$> array_at (sb_mem s) a;
  nm_next : (next s <= next s')%nat;
  nm_conts l : (l < next s)%nat -> id_of s' l = id_of s l;
}.

#[export] Instance names_preorder : PreOrder names.
Proof.
  split; [by split|]. intros s1 s2 s3 [? ? Ha ? Hc] [? ? Ha' ? Hc']. split; [congruence|congruence| |lia|].
  - intros a. by rw Ha' Ha.
  - intros l Hl. rw Hc'; [lia|]. by apply Hc.
Qed.

Lemma names_upd l f (s : Sandbox W) :
  (forall c, c_id (f c) = c_id c) -> names s (s <| sb_mem ::= fun m => set_cont l (f (cont_at m l)) m |>).
Proof.
  intros Hf. split; try done. intros l' _. unfold id_of, set_cont, cont_at, update. simpl.
  destruct (decide (l' = l)) as [->|Hne]; [rw lookup_insert_eq; simpl; apply Hf|by rw lookup_insert_ne].
Qed.

#[export] Instance names_frame : Frame (on_sandbox names).
Proof.
  apply on_sandbox_frame; [apply _|..].
  - intros s s' [Hk Hc _ [Hm Hn Ha]]. split; try done. intros l _. unfold id_of, cont_at. by rw Hm.
  - intros s s' [Hk Hc _ Hm]. split; try done; unfold id_of, next; by rw Hm.
  - intros l f s Hf. apply names_upd. intros c. apply Hf.
Qed.

Lemma names_upd_cont l f : (forall c, c_id (f c) = c_id c) -> stays (on_sandbox names) (upd_cont l f).
Proof. intros Hf w. by apply names_upd. Qed.

Lemma names_alloc c : stays (on_sandbox names) (writeS (fun s => s <| sb_mem ::= alloc_cont c |>)).
Proof.
  intros w. split; try done; simpl; unfold next, id_of, cont_at, alloc_cont, update; simpl; [lia|].
  intros l Hl. rw lookup_insert_ne //. lia.
Qed.

#[local] Hint Extern 1 (stays _ (upd_cont _ _)) => by apply names_upd_cont : stays.
#[local] Hint Extern 1 (stays _ (ag_createContainer _)) => apply ag_create_frame; apply _ : stays.
#[local] Hint Extern 1 (stays _ (writeS _)) => apply names_alloc : stays.

Lemma names_setContainerState l st : stays (on_sandbox names) (setContainerState l st).
Proof. unfold setContainerState. stays. Qed.
#[local] Hint Resolve names_setContainerState : stays.
Lemma names_create l : stays (on_sandbox names) (create l).
Proof. unfold create. stays. Qed.
Lemma names_stop l force : stays (on_sandbox names) (stop l force).
Proof. unfold stop. stays. Qed.
Lemma names_Container_Restore l : stays (on_sandbox names) (Container_Restore l).
Proof. unfold Container_Restore. stays. Qed.
#[local] Hint Resolve names_create names_stop names_Container_Restore : stays.
Lemma names_newContainer p : stays (on_sandbox names) (newContainer p).
Proof. unfold newContainer. stays. Qed.
#[local] Hint Resolve names_newContainer : stays.

(** A computation that keeps the names, seen from its result. *)
Lemma names_run {A} (m : M (Sys W) A) w r w' :
  stays (on_sandbox names) m -> m w = (r, w') -> names (w_recv w) (w_recv w').
Proof. intros Hm E. specialize (Hm w). by rw E in Hm. Qed.

Lemma newContainer_named p w l w' :
  newContainer p w = (Ok l, w') ->
  let id := cc_ID (config_at (sb_mem (w_recv w)) p) in
  id <> "" /\ id_of (w_recv w') l = id /\ (next (w_recv w) <= l < next (w_recv w'))%nat.
Proof.
  intros E. pose proof (newContainer_address _ _ _ _ E) as Hl. unfold newContainer in E. rw readS_bind in E.
  set (conf := config_at (sb_mem (w_recv w)) p) in *. unfold id at 1 in E.
  destruct (ContainerConfig_valid _) eqn:V; [|done]. cbn [negb] in E.
  match type of E with (writeS ?f ≫= ?k) w = _ =>
    assert (Hk : stays (on_sandbox names) (k tt)) by stays;
    assert (E' : k tt ((writeS f) w).2 = (Ok l, w')) by exact E
  end.
  destruct (names_run _ _ _ _ Hk E') as [_ _ _ Hn Hc]. simpl in Hn, Hc.
  assert (Hlt : (l < next (w_recv w'))%nat) by (unfold next, alloc_cont, update in Hl, Hn; simpl in Hn; unfold next; lia).
  split_and!; [|rw Hc| |done].
  - by apply negb_true_iff, bool_decide_eq_false in V.
  - subst l. unfold next, alloc_cont, update. simpl. lia.
  - subst l. unfold id_of, cont_at, alloc_cont, update. simpl. by rw lookup_insert_eq.
  - lia.
Qed.

(** *** The slice of configurations *)

Lemma names_config_ids s s' : names s s' -> config_ids s' = config_ids s.
Proof. intros [_ Hc Ha _ _]. unfold config_ids, slice_list. rw !fmap_take Hc Ha. done. Qed.

Lemma names_tail_dropped s s' :
  names s s' -> config_ids (slice_tail_dropped s') = config_ids (slice_tail_dropped s).
Proof. intros [_ Hc Ha _ _]. unfold config_ids, slice_list, slice_tail_dropped, update. simpl. rw !fmap_take Hc Ha. done. Qed.

Lemma append_container_spec conf (s : Sandbox W) :
  slice_ok (sb_mem s) (sc_Containers (sb_config s)) ->
  let s' := append_container conf s in
  let sl := sc_Containers (sb_config s') in
  config_ids s' = config_ids s ++ [cc_ID conf] /\
  config_ids (slice_tail_dropped s') = config_ids s /\
  config_at (sb_mem s') (sl_array sl, (sl_len sl - 1)%nat) = conf /\
  sb_containers s' = sb_containers s.
Proof.
  unfold slice_ok. set (a := array_at _ _). set (n := sl_len _). intros Hn.
  unfold append_container, append_config. fold a n. destruct (Nat.ltb_spec n (length a)) as [Hlt|Hge]; cbn zeta;
    unfold config_ids, slice_list, slice_tail_dropped, config_at, array_at, update; simpl; rw lookup_insert_eq; simpl.
  - rw Nat.sub_0_r -/n -/a. split_and!; [|by rw take_insert_ge|rw list_lookup_insert_eq //|done].
    rw (take_S_r _ _ conf); [by rw list_lookup_insert_eq|]. rw fmap_app take_insert_ge //.
  - assert (n = length a) as En by lia. rw Nat.sub_0_r -/n -/a. rw !(take_ge a); [lia..|].
    split_and!; [|by rw En take_app_length|rw lookup_app_r; [lia|]; by rw En Nat.sub_diag|done].
    rw En. rw (take_S_r _ _ conf); [rw lookup_app_r // Nat.sub_diag //|]. by rw fmap_app take_app_length.
Qed.

(** *** Creation *)

Definition ready (l : nat) (w : Sys W) : Prop := state_of (w_recv w) l = StateReady.

Lemma create_ready l : gives (fun _ => ready l) (create l).
Proof.
  unfold create. apply gives_on_error. do 7 (apply gives_bind; intros ?).
  unfold setContainerState. rw bool_decide_false //. apply gives_then.
  - intros w u w' [= _ <-]. unfold ready. simpl. rw state_of_set. by rw bool_decide_true.
  - intros _. apply same_states_keeps. stays.
Qed.

Lemma addContainer_cases l (w : Sys W) :
  (sb_containers (w_recv w) !! id_of (w_recv w) l = None /\
   addContainer l w = (Ok tt, mkWorld (w_dm w) (w_pcie w)
     ((w_recv w) <| sb_containers ::= <[id_of (w_recv w) l := l]> |>))) \/
  exists e, addContainer l w = (Err e, w).
Proof.
  unfold addContainer, cont. rw !readS_bind. change (c_id _) with (id_of (w_recv w) l).
  destruct (sb_containers (w_recv w) !! _) eqn:E; [right; by eexists|by left].
Qed.

Lemma removeContainer_ok id (w : Sys W) :
  id <> "" -> is_Some (sb_containers (w_recv w) !! id) ->
  removeContainer id w = (Ok tt, mkWorld (w_dm w) (w_pcie w) ((w_recv w) <| sb_containers ::= delete id |>)).
Proof.
  intros Hid [l Hl]. unfold removeContainer. rw bool_decide_false // readS_bind. by rw Hl.
Qed.

Lemma names_update (s s' : Sandbox W) f : names s s' -> names (s <| sb_containers ::= f |>) (s' <| sb_containers ::= f |>).
Proof. intros [Hc ? ? ? ?]. split; try done. unfold update. simpl. by rw Hc. Qed.

(** The last part of [CreateContainer], once the container is registered. *)
Definition finish (l : nat) : M (Sys W) unit :=
  on_error (_ ← updateResources; _ ← resourceControllerUpdate; storeSandbox)
    (_ ← ignore_err (stop l true); c ← cont l; ignore_err (removeContainer (c_id c))).

Lemma ignore_err_snd {A} (m : M (Sys W) A) w : ignore_err m w = (Ok tt, (m w).2).
Proof. unfold ignore_err, try. munfold. by destruct (m w). Qed.

Lemma finish_spec l (w : Sys W) id :
  id_of (w_recv w) l = id -> id <> "" -> (l < next (w_recv w))%nat ->
  is_Some (sb_containers (w_recv w) !! id) ->
  match finish l w with
  | (Ok _, w') => names (w_recv w) (w_recv w') /\ same_states (w_recv w) (w_recv w')
  | (Err _, w') => names ((w_recv w) <| sb_containers ::= delete id |>) (w_recv w')
  end.
Proof.
  intros Hid Hne Hl Hin. unfold finish, on_error. set (m := updateResources ≫= _).
  assert (Hm : stays (on_sandbox names) m) by (unfold m, storeSandbox; stays).
  assert (Hs : stays (on_sandbox same_states) m) by (unfold m, storeSandbox; stays).
  specialize (Hm w). specialize (Hs w). destruct (m w) as [[u|e] w1]; [done|]. simpl in Hm.
  pose proof (names_stop l true w1) as Hst. unfold mbind at 1, M_bind at 1. rw ignore_err_snd.
  set (w2 := (stop l true w1).2) in *. assert (Hn : names (w_recv w) (w_recv w2)) by by etrans.
  unfold cont. rw readS_bind ignore_err_snd. change (c_id _) with (id_of (w_recv w2) l).
  rw (nm_conts _ _ Hn l Hl) Hid removeContainer_ok //; [|by apply names_update].
  by rw (nm_containers _ _ Hn).
Qed.

Lemma delete_added (s : Sandbox W) id l :
  sb_containers s !! id = None -> s <| sb_containers ::= <[id := l]> |> <| sb_containers ::= delete id |> = s.
Proof. intros Hid. destruct s. unfold update. simpl in *. by rw delete_insert_id. Qed.

Lemma register_spec p (w : Sys W) :
  let id := cc_ID (config_at (sb_mem (w_recv w)) p) in
  match (l ← newContainer p; _ ← create l; _ ← addContainer l; _ ← finish l; mret l) w with
  | (Ok l, w') =>
      sb_containers (w_recv w) !! id = None /\ ready l w' /\
      names ((w_recv w) <| sb_containers ::= <[id := l]> |>) (w_recv w')
  | (Err _, w') => names (w_recv w) (w_recv w')
  end.
Proof.
  intros id. unfold mbind at 1, M_bind at 1. destruct (newContainer p w) as [[l|e] w1] eqn:E1;
    pose proof (names_run _ _ _ _ (names_newContainer p) E1) as N1; [|done].
  destruct (newContainer_named _ _ _ _ E1) as (Hne & Hid & Hl). fold id in Hne, Hid.
  unfold mbind at 1, M_bind at 1. destruct (create l w1) as [[u|e] w2] eqn:E2;
    pose proof (names_run _ _ _ _ (names_create l) E2) as N2; [|by etrans].
  apply create_ready in E2 as Hr. assert (N12 : names (w_recv w) (w_recv w2)) by by etrans.
  assert (Hid2 : id_of (w_recv w2) l = id) by (rw (nm_conts _ _ N2 l); [lia|done]).
  unfold mbind at 1, M_bind at 1. destruct (addContainer_cases l w2) as [[Hfree ->]|[e ->]]; [|done].
  rw Hid2 in Hfree |- *. set (w3 := mkWorld _ _ _). pose proof (finish_spec l w3 id) as Hfin.
  unfold mbind, M_bind. destruct (finish l w3) as [[u'|e] w4].
  - destruct Hfin as [N4 S4]; [done|done|pose proof (nm_next _ _ N2); simpl; unfold next, update in *; simpl; lia| |].
    { simpl. unfold update. simpl. by rw lookup_insert_eq. }
    split_and!; [by rw -(nm_containers _ _ N12)| |].
    + unfold ready. rw S4. exact Hr.
    + etrans; [apply names_update, N12|exact N4].
  - etrans; [exact N12|]. rw -{1}(delete_added (w_recv w2) id l Hfree). apply Hfin; try done.
    + pose proof (nm_next _ _ N2). unfold next, update in *. simpl. lia.
    + simpl. unfold update. simpl. by rw lookup_insert_eq.
Qed.

(** C10. Creating a container is all or nothing.  On success the identifier was
    free, the new container is filed under it in state ready, and its
    configuration is appended to the sandbox's.  On an error, wherever it
    occurs, the sandbox has the same containers and the same configurations as
    before.  Either way the states of the other containers are untouched. *)
Theorem CreateContainer_spec conf (w : Sys W) :
  slice_ok (sb_mem (w_recv w)) (sc_Containers (sb_config (w_recv w))) ->
  match CreateContainer conf w with
  | (Ok l, w') =>
      sb_containers (w_recv w) !! cc_ID conf = None /\
      sb_containers (w_recv w') = <[cc_ID conf := l]> (sb_containers (w_recv w)) /\
      state_of (w_recv w') l = StateReady /\
      config_ids (w_recv w') = config_ids (w_recv w) ++ [cc_ID conf]
  | (Err _, w') =>
      sb_containers (w_recv w') = sb_containers (w_recv w) /\ config_ids (w_recv w') = config_ids (w_recv w)
  end /\
  forall l, (l < next (w_recv w))%nat -> state_of (w_recv (CreateContainer conf w).2) l = state_of (w_recv w) l.
Proof.
  intros Hok. split; [|apply (below_CreateContainer (next (w_recv w)) conf w); reflexivity].
  destruct (append_container_spec conf (w_recv w) Hok) as (Hids & Hdrop & Hconf & Hcs).
  set (w1 := mkWorld (w_dm w) (w_pcie w) (append_container conf (w_recv w))).
  set (sl := sc_Containers (sb_config (w_recv w1))).
  pose proof (register_spec (sl_array sl, (sl_len sl - 1)%nat) w1) as Hreg. cbn zeta in Hreg.
  rw Hconf in Hreg.
  set (reg := newContainer _ ≫= _) in Hreg.
  change (CreateContainer conf w) with (on_error reg (writeS slice_tail_dropped) w1).
  unfold on_error. destruct (reg w1) as [[l|e] w2].
  - destruct Hreg as (Hfree & Hr & N). split_and!; [by rw -Hcs|by rw (nm_containers _ _ N) -Hcs|done|].
    rw -Hids. exact (names_config_ids _ _ N).
  - split; [by rw -Hcs -(nm_containers _ _ Hreg)|]. rw -Hdrop. exact (names_tail_dropped _ _ Hreg).
Qed.

End Create.
End Creation.
