(* ===== verification/DeleteSpec.v ===== *)
(** * Deleting a container

    [Sandbox.DeleteContainer] takes a container out of the map and its
    configuration out of the slice.  The slice is compacted in place, under
    the configuration pointers of the containers that follow. *)
From S2P Require Import Prelude GoStr Types CPUSet Utils Devices DeviceManager Hypervisor State Persist Mounts.
From S2P Require Import Interfaces Receiver Resources Container Sandbox Frame SandboxSpec LifecycleSpec.
From S2P Require Import CreateSpec.
Import Types.Lifecycle Types.Caps Devices.Config Devices.Drivers Devices.DriversSpec.
Import DeviceManager.DeviceManager HypervisorConf State Persist Mounts Interfaces Receiver Resources Containers Sandboxes.
Import Frames Calls Lifecycles Creation.

Module Deletion.

(** The place of the first configuration with this identifier. *)
Definition place (id : string) (ids : list string) : option nat := fst <$> list_find (fun x => x = id) ids.

Section Delete.
Context {W : Type} `{GoRange} `{GoAppend} `{Hypervisor W} `{Agent W} `{FilesystemSharer W}
  `{ResourceController W} `{!Store W} `{HostOS W}.

(** Where the pointer of the [j]th configuration points. *)
Definition pointer (s : Sandbox W) (j : nat) : ptr := (sl_array (sc_Containers (sb_config s)), j).

Lemma delete_config_list i (m : Mem) sl :
  slice_ok m sl -> (i < sl_len sl)%nat ->
  let '(m', sl') := delete_config i m sl in
  slice_list m' sl' = delete i (slice_list m sl) /\ sl_array sl' = sl_array sl /\
  forall j, (i <= j)%nat -> (S j < sl_len sl)%nat -> config_at m' (sl_array sl, j) = config_at m (sl_array sl, S j).
Proof.
  unfold slice_ok, delete_config, slice_list, config_at. set (a := array_at m _). set (n := sl_len sl). intros Hn Hi.
  unfold array_at, update. simpl. fold n a. rw lookup_insert_eq. simpl.
  assert (El : length (take i a ++ drop (S i) (take n a)) = (n - 1)%nat).
  { rw length_app length_take length_drop length_take. lia. }
  split_and!; [|done|].
  - rw app_assoc take_app_le; [lia|]. rw take_ge; [lia|]. rw delete_take_drop take_take. f_equal. f_equal. lia.
  - intros j Hij Hj. rw app_assoc lookup_app_l; [lia|]. rw lookup_app_r; [rw length_take; lia|].
    rw lookup_drop lookup_take_lt; [rw length_take; lia|]. rw length_take. f_equal. f_equal. lia.
Qed.

Lemma drop_config_spec id (s : Sandbox W) :
  slice_ok (sb_mem s) (sc_Containers (sb_config s)) ->
  let s' := drop_config id s in
  sb_containers s' = sb_containers s /\ same_states s s' /\
  match place id (config_ids s) with
  | None => s' = s
  | Some i =>
      config_ids s' = delete i (config_ids s) /\
      forall j, (i <= j)%nat -> (S j < sl_len (sc_Containers (sb_config s)))%nat ->
        config_at (sb_mem s') (pointer s j) = config_at (sb_mem s) (pointer s (S j))
  end.
Proof.
  intros Hok. unfold place, config_ids, drop_config. set (sl := sc_Containers (sb_config s)) in *.
  rw list_find_fmap. unfold compose. destruct (list_find _ (slice_list (sb_mem s) sl)) as [[i c]|] eqn:E; [|done].
  apply list_find_Some in E as (Hi%lookup_lt_Some & _ & _). unfold slice_list in Hi. rw length_take in Hi.
  pose proof (delete_config_list i (sb_mem s) sl Hok ltac:(lia)) as Hd.
  destruct (delete_config i (sb_mem s) sl) as [m' sl'] eqn:Ed. destruct Hd as (Hl & Ha & Hj).
  split_and!; [done|by injection Ed as <- _|]. simpl. unfold update. simpl.
  split; [by rw Hl -list_fmap_delete|exact Hj].
Qed.

Lemma names_config_id (s s' : Sandbox W) p : names s s' -> cc_ID (config_at (sb_mem s') p) = cc_ID (config_at (sb_mem s) p).
Proof.
  intros N. pose proof (nm_ids _ _ N p.1) as Ha. unfold config_at.
  assert (E : cc_ID <$> (array_at (sb_mem s') p.1 !! p.2) = cc_ID <$> (array_at (sb_mem s) p.1 !! p.2))
    by (rw -!list_lookup_fmap; by rw Ha).
  destruct (_ !! _), (_ !! _); simpl in *; congruence.
Qed.

Lemma names_same {A} (m : M (Sys W) A) w r w' :
  stays (on_sandbox names) m -> stays (on_sandbox same_states) m -> m w = (r, w') ->
  names (w_recv w) (w_recv w') /\ same_states (w_recv w) (w_recv w').
Proof. intros Hn Hs E. specialize (Hn w). specialize (Hs w). by rw E in Hn, Hs. Qed.

Lemma require_state_eq l sts what (w : Sys W) :
  require_state l sts what w = (if state_in (state_of (w_recv w) l) sts then Ok tt else Err (Errorf what), w).
Proof. unfold require_state, cont_state, cont, readS, state_of. munfold. by destruct (state_in _ _). Qed.

(** The guard of [Container.delete] and its effect. *)
Lemma container_delete_eq id l (w : Sys W) :
  id <> "" -> sb_containers (w_recv w) !! id = Some l -> id_of (w_recv w) l = id ->
  container_delete l w =
    if state_in (state_of (w_recv w) l) [StateReady; StateStopped] then
      storeSandbox (mkWorld (w_dm w) (w_pcie w) ((w_recv w) <| sb_containers ::= delete id |>))
    else (Err (Errorf "Container not ready or stopped, impossible to delete"), w).
Proof.
  intros Hne Hl Hid. unfold container_delete. unfold mbind at 1, M_bind at 1. rw require_state_eq.
  destruct (state_in _ _); [|done]. unfold cont. rw readS_bind. change (c_id _) with (id_of (w_recv w) l).
  rw Hid. unfold mbind, M_bind. by rw removeContainer_ok.
Qed.

Lemma findContainer_ok id l (w : Sys W) :
  id <> "" -> sb_containers (w_recv w) !! id = Some l -> findContainer id w = (Ok l, w).
Proof. intros Hne Hl. unfold findContainer. rw bool_decide_false // readS_bind. by rw Hl. Qed.

Lemma names_slice_ok (s s' : Sandbox W) :
  names s s' -> slice_ok (sb_mem s) (sc_Containers (sb_config s)) -> slice_ok (sb_mem s') (sc_Containers (sb_config s')).
Proof.
  intros N. unfold slice_ok. rw (nm_config _ _ N) -(length_fmap cc_ID) -(nm_ids _ _ N) length_fmap. done.
Qed.

(** What [DeleteContainer] does once the container is out of the map. *)
Definition forget (id : string) (l : nat) : M (Sys W) nat :=
  _ ← writeS (drop_config id); _ ← resourceControllerUpdate; _ ← storeSandbox; mret l.

Lemma forget_spec id l (w : Sys W) r w' :
  slice_ok (sb_mem (w_recv w)) (sc_Containers (sb_config (w_recv w))) ->
  forget id l w = (r, w') ->
  (forall l', r = Ok l' -> l' = l) /\ sb_containers (w_recv w') = sb_containers (w_recv w) /\
  same_states (w_recv w) (w_recv w') /\
  match place id (config_ids (w_recv w)) with
  | None => config_ids (w_recv w') = config_ids (w_recv w)
  | Some i =>
      config_ids (w_recv w') = delete i (config_ids (w_recv w)) /\
      forall j, (i <= j)%nat -> (S j < sl_len (sc_Containers (sb_config (w_recv w))))%nat ->
        cc_ID (config_at (sb_mem (w_recv w')) (pointer (w_recv w) j)) =
        cc_ID (config_at (sb_mem (w_recv w)) (pointer (w_recv w) (S j)))
  end.
Proof.
  intros Hok E. destruct (drop_config_spec id (w_recv w) Hok) as (Hc & Hs & Hp).
  set (w1 := mkWorld (w_dm w) (w_pcie w) (drop_config id (w_recv w))).
  change ((resourceControllerUpdate ≫= fun _ => storeSandbox ≫= fun _ => mret l) w1 = (r, w')) in E.
  assert (Hr : forall l', r = Ok l' -> l' = l).
  { intros l' ->. revert E. apply (gives_bind (fun x _ => x = l)). intros _. apply gives_bind. intros _. by apply gives_ret. }
  apply names_same in E as [N S]; [|unfold storeSandbox; stays..]. simpl in N, S.
  split_and!; [done|by rw (nm_containers _ _ N)|by etrans|]. rw (names_config_ids _ _ N).
  destruct (place _ _) as [i|]; [|by rw Hp]. destruct Hp as [-> Hj]. split; [done|].
  intros j Hi Hl. by rw (names_config_id _ _ _ N) Hj.
Qed.

(** C28. Deleting a ready or stopped container takes it out of the sandbox's
    containers and its configuration out of the list, and changes no state; a
    container in another state is refused and nothing changes.  When saving
    fails the container is already gone.  Compacting the list moves every later
    configuration under the pointer of its predecessor: the pointer that led to
    the configuration at [j] now reads the one that was at [j + 1]. *)
Theorem DeleteContainer_spec id l (w : Sys W) :
  slice_ok (sb_mem (w_recv w)) (sc_Containers (sb_config (w_recv w))) ->
  id <> "" -> sb_containers (w_recv w) !! id = Some l -> id_of (w_recv w) l = id ->
  match DeleteContainer id w with
  | (Ok l', w') =>
      l' = l /\ (state_of (w_recv w) l ∈ [StateReady; StateStopped]) /\
      sb_containers (w_recv w') = delete id (sb_containers (w_recv w)) /\
      same_states (w_recv w) (w_recv w') /\
      match place id (config_ids (w_recv w)) with
      | None => config_ids (w_recv w') = config_ids (w_recv w)
      | Some i =>
          config_ids (w_recv w') = delete i (config_ids (w_recv w)) /\
          forall j, (i <= j)%nat -> (S j < sl_len (sc_Containers (sb_config (w_recv w))))%nat ->
            cc_ID (config_at (sb_mem (w_recv w')) (pointer (w_recv w) j)) =
            cc_ID (config_at (sb_mem (w_recv w)) (pointer (w_recv w) (S j)))
      end
  | (Err _, w') =>
      if state_in (state_of (w_recv w) l) [StateReady; StateStopped]
      then sb_containers (w_recv w') = delete id (sb_containers (w_recv w))
      else w' = w
  end.
Proof.
  intros Hok Hne Hl Hid. unfold DeleteContainer. unfold mbind at 1, M_bind at 1.
  rw (findContainer_ok id l) //. unfold mbind at 1, M_bind at 1. rw (container_delete_eq id) //.
  destruct (state_in _ _) eqn:Hst; [|done]. apply bool_decide_eq_true in Hst.
  set (w1 := mkWorld _ _ _). destruct (storeSandbox w1) as [[u|e] w2] eqn:E2;
    (apply names_same in E2 as [N2 S2]; [|unfold storeSandbox; stays..]); [|exact (nm_containers _ _ N2)].
  assert (Hok2 : slice_ok (sb_mem (w_recv w2)) (sc_Containers (sb_config (w_recv w2)))) by (by apply (names_slice_ok (w_recv w1))).
  fold (forget id l). destruct (forget id l w2) as [r w3] eqn:E3.
  destruct (forget_spec id l w2 r w3 Hok2 E3) as (Hr & Hc & Hs & Hp).
  rw (nm_containers _ _ N2) in Hc. destruct r as [l'|e]; [|done]. rw (nm_config _ _ N2) in Hp.
  rw (names_config_ids _ _ N2) in Hp. split_and!; [by apply Hr|done|done|by etrans|].
  change (config_ids (w_recv w1)) with (config_ids (w_recv w)) in Hp.
  destruct (place _ _) as [i|]; [|done]. destruct Hp as [Hids Hj]. split; [done|]. intros j Hi Hlt.
  specialize (Hj j Hi Hlt). rw (names_config_id _ _ _ N2) in Hj. unfold pointer in Hj |- *.
  by rw (nm_config _ _ N2) in Hj.
Qed.

End Delete.
End Deletion.
