(* ===== verification/Mock.v ===== *)
(** * A world to run a sandbox in

    [mock_hypervisor.go] and [mock_agent.go], the hypervisor and the agent the
    project uses for its own tests, over a world whose disk holds what was
    saved last.  The concrete runs and the
    witnesses of the theorems about sandboxes use it. *)
From S2P Require Import Prelude GoStr Types CPUSet Utils Devices DeviceManager Hypervisor State Persist Mounts.
From S2P Require Import Interfaces Receiver Resources Container Sandbox Frame.
Import Types.Lifecycle Types.Caps Devices.Config Devices.Drivers Devices.DriversSpec.
Import DeviceManager.DeviceManager HypervisorConf State Persist Mounts Interfaces Receiver Resources Containers Sandboxes.
Import Frames.

Module Mock.

(** [en_ids] numbers the device identifiers drawn; [en_dirs] are the directories
    that exist, [en_mounts] what is mounted, [en_fail] the operations that fail,
    and [en_killed] how often the children were killed. *)
Record Env := mkEnv {
  en_pid : Z;
  en_ids : nat;
  en_disk : option (PSandboxState unit * gmap string PContainerState);
  en_host : Host;
  en_dirs : list string;
  en_mounts : list string;
  en_fail : list string;
  en_killed : nat;
}.
#[global] Instance Env_eta : Eta Env := fun r =>
  mkEnv (en_pid r) (en_ids r) (en_disk r) (en_host r) (en_dirs r) (en_mounts r) (en_fail r) (en_killed r).

Definition nop {A} (a : A) : M Env A := mret a.

(** *** mockHypervisor *)

Definition mock_Capabilities : Capabilities := SetFsSharingSupport 0.
Definition mock_setConfig : M (HypervisorConfig * Env) unit := fun ce =>
  let '(r, c) := Valid ce.1 in (r, (c, ce.2)).
Definition mock_HotplugAddDevice (t : HypervisorConf.DeviceType) : M (devInfo t * Env) unit := mret tt.
Definition mock_HotplugRemoveDevice (t : HypervisorConf.DeviceType) : M (devInfo t * Env) unit := mret tt.
Definition mock_AddDevice (t : HypervisorConf.DeviceType) : M (devInfo t * Env) unit := mret tt.
Definition mock_ResizeMemory (memMB memorySectionSizeMB : Z) (probe : bool) (e : Env)
    : (Z * MemoryDevice * option error) * Env :=
  ((0, mkMemoryDevice 0 0 0 false, None), e).

#[export] Instance mockHypervisor : Hypervisor Env := {|
  hv_saved := unit;
  hv_Save := fun _ => tt;
  hv_Load := fun _ e => e;
  hv_HypervisorConfig := fun _ => HypervisorConfig_zero;
  hv_Capabilities := fun _ => mock_Capabilities;
  hv_Unikernel := fun _ => false;
  hv_GetPids := fun e => [en_pid e];
  hv_CreateVM := fun _ => mock_setConfig;
  hv_StartVM := nop tt;
  hv_StopVM := fun _ => nop tt;
  hv_AddDevice := mock_AddDevice;
  hv_HotplugAddDevice := mock_HotplugAddDevice;
  hv_HotplugRemoveDevice := mock_HotplugRemoveDevice;
  hv_ResizeMemory := mock_ResizeMemory;
  hv_ResizeVCPUs := fun _ => nop (0, 0);
  hv_GetThreadIDs := nop [0];
  hv_Cleanup := nop tt;
  hv_Disconnect := nop tt;
|}.

(** *** mockAgent *)

Definition mock_createContainer (l : nat) : M (Sys Env) Process := mret (mkProcess "" 0 0).

#[export] Instance mockAgent : Agent Env := {|
  ag_capabilities := fun _ => 0;
  ag_url := fun _ => "";
  ag_load := fun _ e => e;
  ag_init := fun _ => nop false;
  ag_createSandbox := nop tt;
  ag_startSandbox := nop tt;
  ag_stopSandbox := nop tt;
  ag_createContainer := mock_createContainer;
  ag_startContainer := fun _ => nop tt;
  ag_stopContainer := fun _ => nop tt;
  ag_signalProcess := fun _ _ _ _ => nop tt;
  ag_winsizeProcess := fun _ _ _ _ => nop tt;
  ag_waitProcess := fun _ _ => nop 0;
  ag_exec := fun _ => nop (mkProcess "" 0 0);
  ag_updateContainer := fun _ _ _ => nop tt;
  ag_pauseContainer := fun _ => nop tt;
  ag_resumeContainer := fun _ => nop tt;
  ag_statsContainer := fun _ => nop tt;
  ag_onlineCPUMem := fun _ _ => nop tt;
  ag_memHotplugByProbe := fun _ _ _ => nop tt;
  ag_addSwap := fun _ => nop tt;
  ag_disconnect := nop tt;
  ag_getGuestDetails := nop None;
|}.

(** *** The rest of the world *)

#[export] Instance mockSharer : FilesystemSharer Env := {|
  fs_Prepare := nop tt;
  fs_Cleanup := nop tt;
  fs_ShareFile := fun _ => mret None;
  fs_UnshareFile := fun _ _ => nop tt;
  fs_ShareRootFilesystem := fun _ => nop "";
  fs_UnshareRootFilesystem := fun _ => nop tt;
  nydusContainerCleanup := fun _ => nop tt;
|}.

#[export] Instance mockController : ResourceController Env := {|
  rc_Create := fun only => nop ("/kata", if only then None else Some "/kata_overhead");
  rc_AddDevice := fun _ => nop tt;
  rc_RemoveDevice := fun _ => nop tt;
  rc_UpdateCpuSet := fun _ _ => nop tt;
  rc_AddThread := fun _ => nop tt;
  rc_AddProcess := fun _ => nop tt;
  rc_Load := fun _ => nop tt;
  rc_MoveToParent := fun _ => nop tt;
  rc_Delete := fun _ => nop tt;
|}.

#[export] Instance mockStore : Store Env := {|
  st_ToDisk := fun ss cs => modify (fun e => e <| en_disk := Some (ss, cs) |>);
  st_FromDisk := fun id e =>
    Ok (match en_disk e with
        | Some d => if bool_decide (ps_SandboxContainer d.1 = id) then Some d else None
        | None => None
        end);
  st_Destroy := fun _ => modify (fun e => e <| en_disk := None |>);
  st_RunVMStoragePath := "/run/vc/vm";
  st_RunStoragePath := "/run/vc/sbs";
|}.

(** No file exists but for some directories. *)
#[export] Instance mockFiles : HostFiles Env := {|
  os_Stat := fun p e => if bool_decide (p ∈ en_dirs e) then Ok (mkStat S_IFDIR 0 0) else Err ErrNotExist;
  os_Lstat := fun _ _ => Err ErrNotExist;
  os_ReadFile := fun _ _ => Err ErrNotExist;
  os_ReadAt := fun _ _ _ _ => Err ErrNotExist;
  os_ReadDir := fun _ _ => Err ErrNotExist;
  os_Getwd := fun _ => Ok "/";
|}.

#[export] Instance mockOS : HostOS Env := {|
  os_files := mockFiles;
  os_host := en_host;
  os_device_ids := fun e =>
    ((fun i => Ok ("dev" +:+ FormatUint 10 (Z.of_nat (en_ids e + i)))), e <| en_ids := S (en_ids e) |>);
  os_random_id := fun e => (Ok "abcd", e);
  os_rootless := fun _ => false;
  os_SelinuxLabel := fun _ => "";
  kataHostSharedDir := fun _ => "/run/kata-containers/shared/sandboxes/";
  kataGuestSharedDir := fun _ => "/run/kata-containers/shared/containers/";
  os_pagesize := 4096;
  os_OpenFile := fun _ => nop tt;
  os_Truncate := fun _ _ => nop tt;
  os_mkswap := fun _ => nop tt;
  os_Remove := fun _ => nop tt;
  os_EvalSymlinks := fun p _ => Ok p;
  VolumeMountInfo := fun _ _ => Ok None;
  RecordSandboxId := fun _ _ => nop tt;
  os_Getpid := en_pid;
  nw_RemoveEndpoints := nop tt;
  nw_AddEndpoints := nop tt;
  nw_CloseVhostFds := nop tt;
  os_lockSandbox := fun _ => nop tt;
  os_unlockSandbox := fun _ => nop tt;
  factory_GetVM := nop tt;
  sha512_hex := fun s => s;
  GetContainerSpec := fun _ _ => Ok tt;
  cw_new := nop tt;
  cw_start := nop tt;
  cw_stop := nop tt;
  mon_stop := nop tt;
|}.

#[export] Instance mock_range : GoRange := range_default.
#[export] Instance mock_append : GoAppend := grow_double.

(** ** The laws hold *)

#[export] Instance mockHypervisor_laws : HypervisorLaws Env.
Proof. split; by intros []. Qed.

#[export] Instance mockAgent_laws : AgentLaws (W := Env).
Proof. split. intros l R HR. apply stays_ret, _. Qed.

End Mock.
