(* ===== verification/Runs.v ===== *)
(** * Concrete runs

    Sandboxes built in the world of [Mock] by the modelled code itself, and
    what it does with them. *)
From S2P Require Import Prelude GoStr Types CPUSet Utils Devices DeviceManager Hypervisor State Persist Mounts.
From S2P Require Import Interfaces Receiver Resources Container Sandbox Frame SandboxSpec LifecycleSpec.
From S2P Require Import StopSpec CreateSpec DeleteSpec Mock.
Import Types.Lifecycle Types.Caps Devices.Config Devices.Drivers Devices.DriversSpec.
Import DeviceManager.DeviceManager HypervisorConf State Persist Mounts Interfaces Receiver Resources Containers Sandboxes.
Import Frames Calls Consistency Lifecycles Stopping Creation Deletion Mock.

Module Runs.

Definition hconf : HypervisorConfig :=
  HypervisorConfig_zero <| hc_KernelPath := "/vmlinux" |> <| hc_ImagePath := "/image" |>.
Definition conf : SandboxConfig :=
  SandboxConfig_zero <| sc_ID := "sb" |> <| sc_HypervisorType := QemuHypervisor |> <| sc_HypervisorConfig := hconf |>.

Definition host : Host := mkHost (fun _ => StatNotExist) (fun _ => Err (ErrExternal "none"))
  (fun _ => Err (ErrExternal "none")) (fun _ => Ok (0, 0)) (fun _ => Err (ErrExternal "none")) (fun _ => None) Ok.

Definition env : Env := mkEnv 42 0 None host [] [] [] 0.

(** A new sandbox. *)
Definition fresh : Sys Env :=
  match createSandbox [] conf mem_zero (env, ∅) with
  | (_, inr w) => w
  | _ => new_sandbox_state conf mem_zero ∅ env
  end.

Definition container (id : string) (devices : list DeviceInfo) : ContainerConfig :=
  mkContainerConfig id {[ "name" := id ]} (mkRootFs "" "" "" [] false) [] devices (mkResources None None []) true
    Cmd_zero false.

Definition loop0 : DeviceInfo := mkDeviceInfo None "" "/dev/loop0" "b" "" 7 0 0 0 0 false false false.
Definition vfio12 : DeviceInfo := mkDeviceInfo None "" "/dev/vfio/12" "c" "" 240 12 0 0 0 false false false.

(** The state after a list of calls, whatever they return. *)
Definition runs (cs : list Call) (w : Sys Env) : Sys Env := foldl (fun w c => (run c w).2) w cs.

(** Attach counts of the devices of the container with this identifier. *)
Definition attach_counts (id : string) (w : Sys Env) : list Z :=
  match sb_containers (w_recv w) !! id with
  | None => []
  | Some l => (fun d => match GetDeviceByID (w_dm w) (cd_ID d) with Some d => GetAttachCount d | None => -1 end) <$>
                c_devices (cont_at (sb_mem (w_recv w)) l)
  end.

(** The annotations reported for a container. *)
Definition reported (id : string) (w : Sys Env) : option (gmap string string) :=
  match StatusContainer id w with
  | (Ok st, _) => Some (cst_Annotations st)
  | _ => None
  end.

Lemma runs_steps cs w : rtc step w (runs cs w).
Proof. revert w. induction cs as [|c cs IH]; intros w; [done|]. eapply rtc_l; [by exists c|apply IH]. Qed.

Lemma fresh_created : createSandbox [] conf mem_zero (env, ∅) = (Ok tt, inr fresh).
Proof.
  unfold fresh. assert (E : match createSandbox [] conf mem_zero (env, ∅) with (Ok _, inr _) => true | _ => false end = true)
    by (vm_compute; reflexivity).
  by destruct (createSandbox _ _ _ _) as [[[]|] []].
Qed.

(** Nothing is on disk yet. *)
Lemma env_store_ok : store_ok (sc_ID conf) env.
Proof. intros only ss css. simpl. discriminate. Qed.

Definition life : list Call :=
  [CCreateContainer (container "a" [loop0]); CCreateContainer (container "b" [vfio12; loop0]); CStart; CStartContainer "a";
   CPauseContainer "a"; CStopContainer "a" true; CStop true].

Lemma sandbox_consistent_witness :
  let w := runs life fresh in
  world_inv w /\ size (dm_devices (w_dm (runs (take 5 life) fresh))) = 1%nat /\ ss_State (sb_state (w_recv w)) = StateStopped.
Proof.
  split; [apply (sandbox_consistent [] conf mem_zero (env, ∅) fresh _ env_store_ok fresh_created), runs_steps|].
  vm_compute. by split.
Defined.

(** A sandbox with four containers. *)
Definition four : Sys Env :=
  runs [CCreateContainer (container "a" []); CCreateContainer (container "b" []); CCreateContainer (container "c" []);
        CCreateContainer (container "d" [])] fresh.

Definition later : Sys Env := runs [CStart; CPauseContainer "b"; CStopContainer "c" false] four.

Definition address (id : string) (w : Sys Env) : nat := default 0%nat (sb_containers (w_recv w) !! id).

(** Pausing "b" once the sandbox runs. *)
Definition begun : Sys Env := runs [CStart] four.

Lemma calls_follow_lifecycle_witness :
  let b := address "b" begun in let w' := (run (CPauseContainer "b") begun).2 in
  (state_of (w_recv w') b = state_of (w_recv begun) b \/
   concerns (CPauseContainer "b") (w_recv begun) b /\ edge (state_of (w_recv begun) b) (state_of (w_recv w') b) /\
   state_of (w_recv w') b ∈ [StatePaused]) /\
  state_of (w_recv begun) b = StateRunning /\ state_of (w_recv w') b = StatePaused.
Proof.
  split; [|vm_compute; by split].
  assert (Hk : kind (w_recv begun) <> UruncHypervisor) by (vm_compute; discriminate).
  assert (Hb : (address "b" begun < next (w_recv begun))%nat) by (apply Nat.ltb_lt; vm_compute; reflexivity).
  exact (proj1 (calls_follow_lifecycle (CPauseContainer "b") begun Hk) (address "b" begun) Hb).
Defined.

#[local] Opaque four later.

Lemma mock_saves : saves (W := Env).
Proof.
  intros w. unfold Sandbox_Save. munfold. destruct (save_records _ _ _ _). by eexists _, _.
Qed.

Definition b_later : nat := Eval vm_compute in address "b" later.

Lemma later_containers : b_later ∈ all_containers (w_recv later).
Proof. assert (E : bool_decide (b_later ∈ all_containers (w_recv later)) = true) by (vm_compute; reflexivity). by apply bool_decide_eq_true in E. Qed.

Lemma later_valid l : l ∈ all_containers (w_recv later) -> valid (state_of (w_recv later) l) = true.
Proof.
  assert (E : forallb (fun l => valid (state_of (w_recv later) l)) (all_containers (w_recv later)) = true)
    by (vm_compute; reflexivity).
  intros Hl. exact (proj1 (forallb_forall _ _) E l (proj1 (list_elem_of_In _ _) Hl)).
Qed.

Lemma Stop_forced_witness :
  exists w', Stop true later = (Ok tt, w') /\ sandbox_state_of (w_recv w') = StateStopped /\
    state_of (w_recv w') b_later = StateStopped.
Proof.
  assert (He : edge (sandbox_state_of (w_recv later)) StateStopped)
    by (vm_compute; constructor).
  destruct (Stop_forced mock_saves later He later_valid) as (w' & E & Hs & Hall).
  exact (ex_intro _ w' (conj E (conj Hs (Hall b_later later_containers)))).
Defined.

Definition is_err {A} (r : res A) : bool := match r with Ok _ => false | Err _ => true end.

Lemma four_slice : slice_ok (sb_mem (w_recv four)) (sc_Containers (sb_config (w_recv four))).
Proof. apply Nat.leb_le. vm_compute. reflexivity. Qed.

(** A second container "b" is refused, and leaves nothing behind. *)
Lemma CreateContainer_spec_witness :
  exists e w', CreateContainer (container "b" []) four = (Err e, w') /\
    config_ids (w_recv w') = config_ids (w_recv four).
Proof.
  assert (Hr : is_err (CreateContainer (container "b" []) four).1 = true) by (vm_compute; reflexivity).
  pose proof (CreateContainer_spec (container "b" []) four four_slice) as Hs.
  generalize dependent (CreateContainer (container "b" []) four). intros [[l|e] w'] Hr Hs; [discriminate Hr|].
  destruct Hs as [[_ Hs] _]. exact (ex_intro _ e (ex_intro _ w' (conj eq_refl Hs))).
Defined.

Definition addr_a : nat := Eval vm_compute in address "a" four.

(** Container "c" had the third configuration; that place holds the one of "d" now. *)
Lemma DeleteContainer_spec_witness :
  exists w', DeleteContainer "a" four = (Ok addr_a, w') /\
    cc_ID (config_at (sb_mem (w_recv w')) (pointer (w_recv four) 2)) = "d" /\
    c_config (cont_at (sb_mem (w_recv four)) (address "c" four)) = pointer (w_recv four) 2.
Proof.
  assert (Hr : is_err (DeleteContainer "a" four).1 = false) by (vm_compute; reflexivity).
  assert (Hl : sb_containers (w_recv four) !! "a" = Some addr_a) by (vm_compute; reflexivity).
  assert (Hid : id_of (w_recv four) addr_a = "a") by (vm_compute; reflexivity).
  assert (Hp : place "a" (config_ids (w_recv four)) = Some 0%nat) by (vm_compute; reflexivity).
  assert (Hlen : (3 < sl_len (sc_Containers (sb_config (w_recv four))))%nat)
    by (apply Nat.ltb_lt; vm_compute; reflexivity).
  assert (Hc : cc_ID (config_at (sb_mem (w_recv four)) (pointer (w_recv four) 3)) = "d") by (vm_compute; reflexivity).
  assert (Hb : c_config (cont_at (sb_mem (w_recv four)) (address "c" four)) = pointer (w_recv four) 2)
    by (vm_compute; reflexivity).
  pose proof (DeleteContainer_spec "a" addr_a four four_slice ltac:(discriminate) Hl Hid) as Hs.
  rw Hp in Hs. generalize dependent (DeleteContainer "a" four). intros [[l|e] w'] Hr Hs; [|discriminate Hr].
  destruct Hs as (-> & _ & _ & _ & _ & Hj). exists w'. refine (conj eq_refl (conj _ Hb)).
  exact (eq_trans (Hj 2%nat (Nat.le_0_l 2) Hlen) Hc).
Defined.

(** A container whose creation fails takes devices away from its
    neighbours: container "a" uses a loop device, "b" lists a VFIO group that
    cannot be attached and then the same loop device; "b" is refused before the
    loop device is attached for it, but the rollback detaches it all the same,
    and "a" stays ready with its device unplugged. *)
Theorem rollback_unplugs_shared :
  let w := runs [CCreateContainer (container "a" [loop0])] fresh in
  let '(r, w') := CreateContainer (container "b" [vfio12; loop0]) w in
  is_err r = true /\ attach_counts "a" w = [1] /\ attach_counts "a" w' = [0] /\
  state_of (w_recv w') (address "a" w) = StateReady.
Proof. vm_compute. repeat split. Qed.

End Runs.
