(* ===== verification/Oci.v ===== *)
(** * pkg/oci/utils.go

    From the OCI specification of a container to the configuration of a sandbox
    and its first container: the type of a container, its command, mounts and
    devices, the annotations that override the configuration of the runtime,
    and the size of a sandbox.  Also the interworking models of
    [virtcontainers/network.go] and the container types of
    [virtcontainers/types.go].

    A specification is passed by value but its annotations are a map, which
    [ContainerConfig] writes to: [Spec] is the state of these functions.
    Regular expressions, globs, the number of CPUs, file system sizes, JSON
    arrays and Kubernetes quantities are answers of [OciHost]. *)
From S2P Require Import Prelude GoStr Types Utils Devices Hypervisor State.
Import Filepath Types.Assets Utils.Names Devices.Config HypervisorConf State.

Module Oci.

(** ** The specification *)

Record SpecUser := mkSpecUser { su_UID : Z; su_GID : Z; su_AdditionalGids : list Z }.
Record SpecProcess := mkSpecProcess {
  sp_Terminal : bool;
  sp_ConsoleSize : option (Z * Z);
  sp_User : SpecUser;
  sp_Args : list string;
  sp_Env : list string;
  sp_Cwd : string;
  sp_Capabilities : option LinuxCapabilities;
  sp_NoNewPrivileges : bool;
}.
Record SpecRoot := mkSpecRoot { sr_Path : string; sr_Readonly : bool }.
Record SpecMount := mkSpecMount {
  sm_Destination : string;
  sm_Type : string;
  sm_Source : string;
  sm_Options : list string;
}.
#[global] Instance SpecMount_eta : Eta SpecMount := fun r =>
  mkSpecMount (sm_Destination r) (sm_Type r) (sm_Source r) (sm_Options r).
Record LinuxDevice := mkLinuxDevice {
  ld_Path : string;
  ld_Type : string;
  ld_Major : Z;
  ld_Minor : Z;
  ld_FileMode : option Z;
  ld_UID : option Z;
  ld_GID : option Z;
}.
Record LinuxNamespace := mkLinuxNamespace { ns_Type : string; ns_Path : string }.
Record SpecLinux := mkSpecLinux {
  sl_Resources : option Resources;
  sl_Devices : list LinuxDevice;
  sl_Namespaces : list LinuxNamespace;
}.

(** Pointers and maps may be nil. *)
Record Spec := mkSpec {
  spec_Process : option SpecProcess;
  spec_Root : option SpecRoot;
  spec_Hostname : string;
  spec_Mounts : list SpecMount;
  spec_Annotations : option (gmap string string);
  spec_Linux : option SpecLinux;
}.
#[global] Instance Spec_eta : Eta Spec := fun r =>
  mkSpec (spec_Process r) (spec_Root r) (spec_Hostname r) (spec_Mounts r) (spec_Annotations r) (spec_Linux r).

(** Reading a nil map finds nothing. *)
Definition annos (spec : Spec) : gmap string string := default ∅ (spec_Annotations spec).

Definition ErrNoLinux : error := Errorf "missing Linux section".

(** ** Container types *)

Definition ContainerType : Type := string.
Definition PodContainer : ContainerType := "pod_container".
Definition PodSandbox : ContainerType := "pod_sandbox".
Definition SingleContainer : ContainerType := "single_container".
Definition UnknownContainerType : ContainerType := "unknown_container_type".
Definition UnikernelContainer : ContainerType := "unikernel_container_type".

Definition IsSandbox (cType : ContainerType) : bool :=
  bool_decide (cType = PodSandbox) || bool_decide (cType = SingleContainer).
Definition IsCriSandbox (t : ContainerType) : bool := bool_decide (t = PodSandbox).
Definition IsSingleContainer (t : ContainerType) : bool := bool_decide (t = SingleContainer).
Definition IsUnikernelContainer (t : ContainerType) : bool := bool_decide (t = UnikernelContainer).

(** The keys of containerd, CRI-O and dockershim. *)
Definition ctr_ContainerType : string := "io.kubernetes.cri.container-type".
Definition crio_ContainerType : string := "io.kubernetes.cri-o.ContainerType".
Definition docker_ContainerType : string := "io.kubernetes.docker.type".

Definition CRIContainerTypeKeyList : list string := [ctr_ContainerType; crio_ContainerType; docker_ContainerType].
Definition CRISandboxNameKeyList : list string :=
  ["io.kubernetes.cri.sandbox-id"; "io.kubernetes.cri-o.SandboxID"; "io.kubernetes.sandbox.id"].
Definition CRIContainerTypeList : list (string * ContainerType) :=
  [("sandbox", PodSandbox); ("container", PodContainer); ("sandbox", PodSandbox); ("container", PodContainer);
   ("podsandbox", PodSandbox); ("container", PodContainer)].

(** The first of these keys that is present. *)
Fixpoint first_key (keys : list string) (m : gmap string string) : option string :=
  match keys with
  | [] => None
  | k :: ks => match m !! k with Some v => Some v | None => first_key ks m end
  end.

Definition oci_ContainerType (spec : Spec) : res ContainerType :=
  match first_key CRIContainerTypeKeyList (annos spec) with
  | None => Ok SingleContainer
  | Some v =>
      match List.find (fun t => bool_decide (t.1 = v)) CRIContainerTypeList with
      | Some t => Ok t.2
      | None => Err (Errorf "Unknown container type %s")
      end
  end.

Definition SandboxConfigPathKey : string := "io.katacontainers.config_path".
Definition BundlePathKey : string := "io.katacontainers.pkg.oci.bundle_path".
Definition ContainerTypeKey : string := "io.katacontainers.pkg.oci.container_type".

(** A missing key reads as the empty string. *)
Definition GetSandboxConfigPath (m : gmap string string) : string := default "" (m !! SandboxConfigPathKey).

Definition SandboxID (spec : Spec) : res string :=
  match first_key CRISandboxNameKeyList (annos spec) with
  | Some id => Ok id
  | None => Err (Errorf "Could not find sandbox ID")
  end.

Definition IsCRIOContainerManager (spec : Spec) : bool :=
  match annos spec !! crio_ContainerType with
  | Some val => bool_decide (val = "sandbox") || bool_decide (val = "container")
  | None => false
  end.

(** ** Commands, mounts and devices *)

Definition cmdEnvs (env : list string) (envs : list EnvVar) : list EnvVar :=
  foldl (fun envs env =>
    match Split "=" env with
    | k :: v :: _ => envs ++ [mkEnvVar k v]
    | _ => envs
    end) envs env.

Definition newMount (m : SpecMount) : Mount :=
  let readonly := existsb (fun flag => bool_decide (flag = "ro")) (sm_Options m) in
  mkMount (sm_Source m) (sm_Destination m) (sm_Type m) "" "" "" (sm_Options m) readonly.

Definition containerMounts (spec : Spec) : list Mount := newMount <$> spec_Mounts spec.

Definition contains (strings : list string) (toFind : string) : bool :=
  existsb (fun candidate => bool_decide (candidate = toFind)) strings.

Definition newLinuxDeviceInfo (d : LinuxDevice) : res DeviceInfo :=
  if negb (contains ["c"; "b"; "u"; "p"] (ld_Type d)) then Err (Errorf "Unexpected Device Type %s for device %s")
  else if bool_decide (ld_Path d = "") then Err (Errorf "Path cannot be empty for device")
  else Ok (mkDeviceInfo None "" (ld_Path d) (ld_Type d) "" (ld_Major d) (ld_Minor d) (default 0 (ld_FileMode d))
             (default 0 (ld_UID d)) (default 0 (ld_GID d)) false false false).

Fixpoint device_infos (l : list LinuxDevice) : res (list DeviceInfo) :=
  match l with
  | [] => Ok []
  | d :: l' => i ← newLinuxDeviceInfo d; infos ← device_infos l'; Ok (i :: infos)
  end.

Definition containerDeviceInfos (spec : Spec) : res (list DeviceInfo) :=
  match spec_Linux spec with
  | None => Err ErrNilDeref
  | Some linux => device_infos (sl_Devices linux)
  end.

(** [filepath.Join] of two elements. *)
Definition rootfs_target (bundlePath path : string) : string :=
  if IsAbs path then path else PathJoin [bundlePath; path].

Definition process_cmd (p : SpecProcess) (console : string) (detach : bool) : Cmd :=
  mkCmd (sp_Capabilities p) (FormatUint 10 (su_UID (sp_User p))) (FormatUint 10 (su_GID (sp_User p)))
    (sp_Cwd p) console (sp_Args p) (cmdEnvs (sp_Env p) []) (FormatUint 10 <$> su_AdditionalGids (sp_User p))
    (sp_Terminal p) detach (sp_NoNewPrivileges p).

(** The configuration shares the map of the specification if there is one. *)
Definition set_anno (key value : string) (m : gmap string string) : M Spec (gmap string string) :=
  _ ← modify (fun spec => spec <| spec_Annotations ::= fmap <[key := value]> |>);
  mret (<[key := value]> m).

Definition oci_ContainerConfig (bundlePath cid console : string) (detach : bool) : M Spec ContainerConfig :=
  spec ← get;
  match spec_Root spec, spec_Process spec with
  | Some root, Some process =>
      let rootfs := mkRootFs "" (rootfs_target bundlePath (sr_Path root)) "" [] true in
      let cmd := process_cmd process console detach in
      deviceInfos ← lift (containerDeviceInfos spec);
      match spec_Linux spec ≫= sl_Resources with
      | None => throw ErrNilDeref
      | Some resources =>
          m ← set_anno BundlePathKey bundlePath (annos spec);
          spec' ← get;
          cType ← lift (oci_ContainerType spec');
          m ← set_anno ContainerTypeKey cType m;
          mret (mkContainerConfig cid m rootfs (containerMounts spec) deviceInfos resources true cmd (sr_Readonly root))
      end
  | _, _ => throw ErrNilDeref
  end.

(** ** The runtime's configuration *)

Record FactoryConfig := mkFactoryConfig {
  fc_TemplatePath : string;
  fc_VMCacheEndpoint : string;
  fc_VMCacheNumber : Z;
  fc_Template : bool;
}.

Record RuntimeConfig := mkRuntimeConfig {
  rc_SandboxBindMounts : list string;
  rc_Experimental : list string;
  rc_Console : string;
  rc_JaegerEndpoint : string;
  rc_JaegerUser : string;
  rc_JaegerPassword : string;
  rc_HypervisorType : HypervisorType;
  rc_FactoryConfig : FactoryConfig;
  rc_HypervisorConfig : HypervisorConfig;
  rc_AgentConfig : KataAgentConfig;
  rc_InterNetworkModel : Z;
  rc_VfioMode : VFIOModeType;
  rc_Debug : bool;
  rc_Trace : bool;
  rc_DisableGuestSeccomp : bool;
  rc_SandboxCPUs : Z;
  rc_SandboxMemMB : Z;
  rc_StaticSandboxResourceMgmt : bool;
  rc_DisableNewNetNs : bool;
  rc_SandboxCgroupOnly : bool;
  rc_EnablePprof : bool;
  rc_DisableGuestEmptyDir : bool;
}.
#[global] Instance RuntimeConfig_eta : Eta RuntimeConfig := fun r =>
  mkRuntimeConfig (rc_SandboxBindMounts r) (rc_Experimental r) (rc_Console r) (rc_JaegerEndpoint r)
    (rc_JaegerUser r) (rc_JaegerPassword r) (rc_HypervisorType r) (rc_FactoryConfig r) (rc_HypervisorConfig r)
    (rc_AgentConfig r) (rc_InterNetworkModel r) (rc_VfioMode r) (rc_Debug r) (rc_Trace r)
    (rc_DisableGuestSeccomp r) (rc_SandboxCPUs r) (rc_SandboxMemMB r) (rc_StaticSandboxResourceMgmt r)
    (rc_DisableNewNetNs r) (rc_SandboxCgroupOnly r) (rc_EnablePprof r) (rc_DisableGuestEmptyDir r).

(** How a machine is connected to the network of its containers. *)
Definition NetInterworkingModel : Type := Z.
Definition NetXConnectDefaultModel : NetInterworkingModel := 0.
Definition NetXConnectMacVtapModel : NetInterworkingModel := 1.
Definition NetXConnectTCFilterModel : NetInterworkingModel := 2.
Definition NetXConnectNoneModel : NetInterworkingModel := 3.
Definition NetXConnectInvalidModel : NetInterworkingModel := 4.
Definition DefaultNetInterworkingModel : NetInterworkingModel := NetXConnectTCFilterModel.

Definition NetInterworkingModel_IsValid (n : NetInterworkingModel) : bool :=
  (0 <=? n) && (n <? NetXConnectInvalidModel).

Definition GetModel (n : NetInterworkingModel) : string :=
  if n =? DefaultNetInterworkingModel then "default"
  else if n =? NetXConnectMacVtapModel then "macvtap"
  else if n =? NetXConnectTCFilterModel then "tcfilter"
  else if n =? NetXConnectNoneModel then "none"
  else "unknown".

Definition SetModel (modelName : string) : M NetInterworkingModel unit :=
  if bool_decide (modelName = "default") then put DefaultNetInterworkingModel
  else if bool_decide (modelName = "macvtap") then put NetXConnectMacVtapModel
  else if bool_decide (modelName = "tcfilter") then put NetXConnectTCFilterModel
  else if bool_decide (modelName = "none") then put NetXConnectNoneModel
  else throw (Errorf "Unknown type %s").

Definition networkConfig (spec : Spec) (config : RuntimeConfig) : res NetworkConfig :=
  match spec_Linux spec with
  | None => Err ErrNoLinux
  | Some linux =>
      let networkID := foldl (fun id n =>
        if bool_decide (ns_Type n = "network") && negb (bool_decide (ns_Path n = "")) then ns_Path n else id)
        "" (sl_Namespaces linux) in
      Ok (mkNetworkConfig networkID (rc_InterNetworkModel config) false (rc_DisableNewNetNs config))
  end.

(** ** Sizes *)

Definition calculateVMResources (period quota memory : Z) : Z * Z :=
  (CalculateVCpusFromMilliCpus (CalculateMilliCPUs quota period),
   if memory <? 0 then 0 else u32 (memory / 1024 / 1024)).

Definition SandboxCPUPeriod : string := "io.kubernetes.cri.sandbox-cpu-period".
Definition SandboxCPUQuota : string := "io.kubernetes.cri.sandbox-cpu-quota".
Definition SandboxMem : string := "io.kubernetes.cri.sandbox-memory".

(** A value that is missing or cannot be parsed counts as 0. *)
Definition size_anno (m : gmap string string) (key : string) (parse : string -> res Z) : Z :=
  match m !! key with
  | Some v => match parse v with Ok n => n | Err _ => 0 end
  | None => 0
  end.

Definition CalculateSandboxSizing (spec : Spec) : Z * Z :=
  match spec_Annotations spec with
  | None => (0, 0)
  | Some m =>
      calculateVMResources (size_anno m SandboxCPUPeriod (fun v => ParseUint v 10 32))
        (size_anno m SandboxCPUQuota (fun v => ParseInt v 32)) (size_anno m SandboxMem (fun v => ParseInt v 32))
  end.

(** The limits are read through the pointers of the specification. *)
Definition CalculateContainerSizing (mem : Mem) (spec : Spec) : Z * Z :=
  match spec_Linux spec ≫= sl_Resources with
  | None => (0, 0)
  | Some r =>
      let '(quota, period) :=
        match rs_CPU r ≫= (m_cpus mem !!.) with
        | Some c => match cpu_Quota c, cpu_Period c with Some q, Some p => (q, p) | _, _ => (0, 0) end
        | None => (0, 0)
        end in
      let memory := default 0 ((rs_Memory r ≫= (m_mems mem !!.)) ≫= mem_Limit) in
      calculateVMResources period quota memory
  end.

(** ** Annotations that override the configuration *)

Class OciHost : Type := {
  (** [regexp.MatchString]: the pattern, then the text; a bad pattern matches nothing *)
  re_MatchString : string -> string -> bool;
  fp_Glob : string -> list string;
  rt_NumCPU : Z;
  (** block size and number of blocks *)
  sys_Statfs : string -> res (Z * Z);
  json_strings : string -> res (list string);
  (** whether the format is [BinarySI], and [AsInt64] *)
  ParseQuantity : string -> res (bool * Z);
  exp_features : list string;
}.

(** [MaxVCPUs] on amd64. *)
Definition MaxVCPUs : Z := 240.
Definition MinHypervisorMemory : Z := 256.
Definition DefaultShmSize : Z := 65536 * 1024.
Definition Virtio9P : string := "virtio-9p".

Definition hv (name : string) : string := kataAnnotHypervisorPrefix +:+ name.
Definition runtime_key (name : string) : string := "io.katacontainers.config.runtime." +:+ name.
Definition agent_key (name : string) : string := "io.katacontainers.config.agent." +:+ name.

Section Overrides.
Context `{OciHost}.

Definition regexpContains (regexps : list string) (toMatch : string) : bool :=
  existsb (fun candidate => re_MatchString candidate toMatch) regexps.

Definition checkPathIsInGlobs (globs : list string) (path : string) : bool :=
  existsb (fun glob => existsb (fun a => bool_decide (path = a)) (fp_Glob glob)) globs.

Definition checkAnnotationNameIsValid (list : list string) (name prefix : string) : bool :=
  if HasPrefix name prefix then regexpContains list (TrimPrefix name prefix) else true.

(** The annotations of the specification, and its effect on the configuration. *)
Context (m : gmap string string).

Definition with_anno (key : string) (f : string -> M SandboxConfig unit) : M SandboxConfig unit :=
  match m !! key with Some value => f value | None => mret tt end.

Definition setBool (key : string) (f : bool -> SandboxConfig -> SandboxConfig) : M SandboxConfig unit :=
  with_anno key (fun value =>
    match ParseBool value with
    | Ok b => modify (f b)
    | Err _ => throw (Errorf "Error parsing annotation for %s: Please specify boolean value 'true|false'")
    end).

Definition setUintWithCheck (key : string) (f : Z -> M SandboxConfig unit) : M SandboxConfig unit :=
  with_anno key (fun value =>
    match ParseUint value 10 64 with
    | Ok n => f n
    | Err _ => throw (Errorf "Error parsing annotation for %s: Please specify positive numeric value")
    end).

Definition setUint (key : string) (f : Z -> SandboxConfig -> SandboxConfig) : M SandboxConfig unit :=
  setUintWithCheck key (fun v => modify (f v)).

Definition on_hc (f : HypervisorConfig -> HypervisorConfig) (c : SandboxConfig) : SandboxConfig :=
  c <| sc_HypervisorConfig ::= f |>.

(** A path the administrator has listed. *)
Definition set_path (key : string) (globs : list string) (err : string) (f : string -> SandboxConfig -> SandboxConfig)
    : M SandboxConfig unit :=
  with_anno key (fun value =>
    if negb (checkPathIsInGlobs globs value) then throw (Errorf err) else modify (f value)).

Definition set_nonempty (key : string) (f : string -> SandboxConfig -> SandboxConfig) : M SandboxConfig unit :=
  with_anno key (fun value => when (negb (bool_decide (value = ""))) (modify (f value))).

Definition addAssetAnnotations : M SandboxConfig unit :=
  assetAnnotations ← lift AssetAnnotations;
  for_each assetAnnotations (fun a =>
    with_anno a (fun value => modify (fun c => c <| sc_Annotations ::= <[a := value]> |>))).

Definition addHypervisorCPUOverrides : M SandboxConfig unit :=
  _ ← setUintWithCheck (hv "default_vcpus") (fun vcpus =>
        if u32 rt_NumCPU <? u32 vcpus
        then throw (Errorf "Number of cpus %d specified in annotation default_vcpus is greater than the number of CPUs %d on the system")
        else modify (on_hc (fun h => h <| hc_NumVCPUs := u32 vcpus |>)));
  setUintWithCheck (hv "default_max_vcpus") (fun maxVCPUs =>
    let max := u32 maxVCPUs in
    if u32 rt_NumCPU <? max
    then throw (Errorf "Number of cpus %d in annotation default_maxvcpus is greater than the number of CPUs %d on the system")
    else
      c ← get;
      if bool_decide (sc_HypervisorType c = QemuHypervisor) && (MaxVCPUs <? max)
      then throw (Errorf "Number of cpus %d in annotation default_maxvcpus is greater than max no of CPUs %d supported for qemu")
      else modify (on_hc (fun h => h <| hc_DefaultMaxVCPUs := max |>))).

Definition addHypervisorMemoryOverrides (runtime : RuntimeConfig) : M SandboxConfig unit :=
  let rhc := rc_HypervisorConfig runtime in
  _ ← setUintWithCheck (hv "default_memory") (fun memorySz =>
        if memorySz <? MinHypervisorMemory
        then throw (Errorf "Memory specified in annotation %s is less than minimum required %d, please specify a larger value")
        else modify (on_hc (fun h => h <| hc_MemorySize := u32 memorySz |>)));
  _ ← setUint (hv "memory_slots") (fun mslots => on_hc (fun h =>
        if 0 <? mslots then h <| hc_MemSlots := u32 mslots |> else h));
  _ ← setUint (hv "memory_offset") (fun moffset => on_hc (fun h =>
        if 0 <? moffset then h <| hc_MemOffset := moffset |> else h));
  _ ← setBool (hv "enable_virtio_mem") (fun b => on_hc (fun h => h <| hc_VirtioMem := b |>));
  _ ← setBool (hv "enable_mem_prealloc") (fun b => on_hc (fun h => h <| hc_MemPrealloc := b |>));
  _ ← set_path (hv "file_mem_backend") (hc_FileBackedMemRootList rhc)
        "file_mem_backend value %v required from annotation is not valid"
        (fun v => on_hc (fun h => h <| hc_FileBackedMemRootDir := v |>));
  _ ← setBool (hv "enable_hugepages") (fun b => on_hc (fun h => h <| hc_HugePages := b |>));
  _ ← setBool (hv "enable_iommu") (fun b => on_hc (fun h => h <| hc_IOMMU := b |>));
  _ ← setBool (hv "enable_iommu_platform") (fun b => on_hc (fun h => h <| hc_IOMMUPlatform := b |>));
  _ ← setBool (hv "enable_guest_swap") (fun b => on_hc (fun h => h <| hc_GuestSwap := b |>));
  setBool (hv "rootless") (fun b => on_hc (fun h => h <| hc_Rootless := b |>)).

Definition addHypervisorBlockOverrides : M SandboxConfig unit :=
  _ ← with_anno (hv "block_device_driver") (fun value =>
        if contains [VirtioSCSI; VirtioBlock; VirtioMmio; Nvdimm; VirtioBlockCCW] value
        then modify (on_hc (fun h => h <| hc_BlockDeviceDriver := value |>))
        else throw (Errorf "Invalid hypervisor block storage driver %v specified in annotation (supported drivers: %v)"));
  _ ← setBool (hv "disable_block_device_use") (fun b => on_hc (fun h => h <| hc_DisableBlockDeviceUse := b |>));
  _ ← setBool (hv "enable_iothreads") (fun b => on_hc (fun h => h <| hc_EnableIOThreads := b |>));
  _ ← setBool (hv "block_device_cache_set") (fun b => on_hc (fun h => h <| hc_BlockDeviceCacheSet := b |>));
  _ ← setBool (hv "block_device_cache_direct") (fun b => on_hc (fun h => h <| hc_BlockDeviceCacheDirect := b |>));
  setBool (hv "block_device_cache_noflush") (fun b => on_hc (fun h => h <| hc_BlockDeviceCacheNoflush := b |>)).

Definition addHypervisorVirtioFsOverrides (runtime : RuntimeConfig) : M SandboxConfig unit :=
  _ ← with_anno (hv "shared_fs") (fun value =>
        if contains [Virtio9P; VirtioFS] value then modify (on_hc (fun h => h <| hc_SharedFS := value |>))
        else throw (Errorf "Invalid hypervisor shared file system %v specified for annotation shared_fs, (supported file systems: %v)"));
  _ ← set_path (hv "virtio_fs_daemon") (hc_VirtioFSDaemonList (rc_HypervisorConfig runtime))
        "virtiofs daemon %v required from annotation is not valid"
        (fun v => on_hc (fun h => h <| hc_VirtioFSDaemon := v |>));
  _ ← with_anno (hv "virtio_fs_extra_args") (fun value =>
        match json_strings value with
        | Err _ => throw (Errorf "Error parsing virtiofsd extra arguments: %v")
        | Ok parsedValue => modify (on_hc (fun h => h <| hc_VirtioFSExtraArgs ::= fun l => l ++ parsedValue |>))
        end);
  c ← get;
  let h := sc_HypervisorConfig c in
  _ ← when (bool_decide (hc_SharedFS h = VirtioFS) && bool_decide (hc_VirtioFSDaemon h = ""))
        (throw (Errorf "cannot enable virtio-fs without daemon path"));
  _ ← with_anno (hv "virtio_fs_cache") (fun v => modify (on_hc (fun h => h <| hc_VirtioFSCache := v |>)));
  _ ← setUint (hv "virtio_fs_cache_size") (fun n => on_hc (fun h => h <| hc_VirtioFSCacheSize := u32 n |>));
  setUintWithCheck (hv "msize_9p") (fun msize9p =>
    if msize9p =? 0 then throw (Errorf "Error parsing annotation for msize_9p, please specify positive numeric value")
    else modify (on_hc (fun h => h <| hc_Msize9p := u32 msize9p |>))).

Definition addHypervisporNetworkOverrides : M SandboxConfig unit :=
  _ ← set_nonempty (hv "cpu_features") (fun v => on_hc (fun h => h <| hc_CPUFeatures := v |>));
  _ ← setBool (hv "disable_vhost_net") (fun b => on_hc (fun h => h <| hc_DisableVhostNet := b |>));
  _ ← setUint (hv "rx_rate_limiter_max_rate") (fun n => on_hc (fun h => h <| hc_RxRateLimiterMaxRate := n |>));
  setUint (hv "tx_rate_limiter_max_rate") (fun n => on_hc (fun h => h <| hc_TxRateLimiterMaxRate := n |>)).

(** Parameters are added one after the other. *)
Definition add_kernel_param (p : Param) : M SandboxConfig unit := fun c =>
  match AddKernelParam p (sc_HypervisorConfig c) with
  | (Ok _, h) => (Ok tt, on_hc (fun _ => h) c)
  | (Err _, h) => (Err (Errorf "Error adding kernel parameters in annotation kernel_params : %v"), on_hc (fun _ => h) c)
  end.

Definition addHypervisorPathOverrides (runtime : RuntimeConfig) : M SandboxConfig unit :=
  let rhc := rc_HypervisorConfig runtime in
  _ ← set_path (hv "path") (hc_HypervisorPathList rhc) "hypervisor %v required from annotation is not valid"
        (fun v => on_hc (fun h => h <| hc_HypervisorPath := v |>));
  _ ← set_path (hv "jailer_path") (hc_JailerPathList rhc) "jailer %v required from annotation is not valid"
        (fun v => on_hc (fun h => h <| hc_JailerPath := v |>));
  _ ← set_path (hv "ctlpath") (hc_HypervisorCtlPathList rhc) "hypervisor control %v required from annotation is not valid"
        (fun v => on_hc (fun h => h <| hc_HypervisorCtlPath := v |>));
  with_anno (hv "kernel_params") (fun value =>
    when (negb (bool_decide (value = ""))) (for_each (DeserializeParams (Fields value)) add_kernel_param)).

Definition SGXEPC : string := "sgx.intel.com/epc".

Definition set_sgx_size : M SandboxConfig unit :=
  with_anno SGXEPC (fun epcSize =>
    match ParseQuantity epcSize with
    | Err _ => throw (Errorf "Couldn't parse EPC '%v': %v")
    | Ok (binarySI, size) =>
        if negb binarySI then throw (Errorf "Unsupported EPC format '%v': use Ki | Mi | Gi | Ti | Pi | Ei as suffix")
        else modify (on_hc (fun h => h <| hc_SGXEPCSize := size |>))
    end).

(** An empty entropy source is checked but not set. *)
Definition addHypervisorConfigOverrides (runtime : RuntimeConfig) : M SandboxConfig unit :=
  let rhc := rc_HypervisorConfig runtime in
  _ ← addHypervisorCPUOverrides;
  _ ← addHypervisorMemoryOverrides runtime;
  _ ← addHypervisorBlockOverrides;
  _ ← addHypervisorVirtioFsOverrides runtime;
  _ ← addHypervisporNetworkOverrides;
  _ ← addHypervisorPathOverrides runtime;
  _ ← set_nonempty (hv "machine_type") (fun v => on_hc (fun h => h <| hc_HypervisorMachineType := v |>));
  _ ← set_nonempty (hv "machine_accelerators") (fun v => on_hc (fun h => h <| hc_MachineAccelerators := v |>));
  _ ← set_path (hv "vhost_user_store_path") (hc_VhostUserStorePathList rhc)
        "vhost store path %v required from annotation is not valid"
        (fun v => on_hc (fun h => h <| hc_VhostUserStorePath := v |>));
  _ ← set_nonempty (hv "guest_hook_path") (fun v => on_hc (fun h => h <| hc_GuestHookPath := v |>));
  _ ← setBool (hv "disable_image_nvdimm") (fun b => on_hc (fun h => h <| hc_DisableImageNvdimm := b |>));
  _ ← setBool (hv "hotplug_vfio_on_root_bus") (fun b => on_hc (fun h => h <| hc_HotplugVFIOOnRootBus := b |>));
  _ ← setUint (hv "pcie_root_port") (fun n => on_hc (fun h => h <| hc_PCIeRootPort := u32 n |>));
  _ ← set_path (hv "entropy_source") (hc_EntropySourceList rhc)
        "entropy source %v required from annotation is not valid"
        (fun v => on_hc (fun h => if bool_decide (v = "") then h else h <| hc_EntropySource := v |>));
  set_sgx_size.

Definition add_feature (f : string) : M SandboxConfig unit :=
  if bool_decide (f ∈ exp_features) then modify (fun c => c <| sc_Experimental ::= fun l => l ++ [f] |>)
  else throw (Errorf "Unsupported experimental feature %s specified in annotation %v").

Definition set_vfio_mode (value : string) : M SandboxConfig unit := fun c =>
  let '(r, mode) := VFIOSetMode value (sc_VfioMode c) in
  (match r with Ok _ => Ok tt | Err _ => Err (Errorf "Unknown VFIO mode %s in annotation %s") end,
   c <| sc_VfioMode := mode |>).

Definition addRuntimeConfigOverrides : M SandboxConfig unit :=
  _ ← setBool (runtime_key "disable_guest_seccomp") (fun b c => c <| sc_DisableGuestSeccomp := b |>);
  _ ← setBool (runtime_key "sandbox_cgroup_only") (fun b c => c <| sc_SandboxCgroupOnly := b |>);
  _ ← with_anno (runtime_key "experimental") (fun value =>
        _ ← modify (fun c => c <| sc_Experimental := [] |>);
        for_each (Split " " value) add_feature);
  _ ← setBool (runtime_key "disable_new_netns") (fun b c => c <| sc_NetworkConfig ::= fun n =>
        mkNetworkConfig (nc_NetworkID n) (nc_InterworkingModel n) (nc_NetworkCreated n) b |>);
  _ ← with_anno (runtime_key "internetworking_model") (fun value =>
        match SetModel value NetXConnectDefaultModel with
        | (Err _, _) => throw (Errorf "Unknown network model specified in annotation %s")
        | (Ok _, model) => modify (fun c => c <| sc_NetworkConfig ::= fun n =>
            mkNetworkConfig (nc_NetworkID n) model (nc_NetworkCreated n) (nc_DisableNewNetwork n) |>)
        end);
  with_anno (runtime_key "vfio_mode") set_vfio_mode.

Definition on_agent (f : KataAgentConfig -> KataAgentConfig) (c : SandboxConfig) : SandboxConfig :=
  c <| sc_AgentConfig ::= f |>.

(** The copy [c] of the agent's configuration is written back at the end, and
    after the kernel modules; an error in between loses nothing that a caller
    could see. *)
Definition addAgentConfigOverrides : M SandboxConfig unit :=
  _ ← with_anno (agent_key "kernel_modules") (fun value => modify (on_agent (fun a =>
        mkKataAgentConfig (Split ";" value) (ka_ContainerPipeSize a) (ka_DialTimeout a) (ka_LongLiveConn a) (ka_Debug a)
          (ka_Trace a) (ka_EnableDebugConsole a))));
  _ ← setBool (agent_key "enable_tracing") (fun trace => on_agent (fun a =>
        mkKataAgentConfig (ka_KernelModules a) (ka_ContainerPipeSize a) (ka_DialTimeout a) (ka_LongLiveConn a) (ka_Debug a)
          trace (ka_EnableDebugConsole a)));
  setUint (agent_key "container_pipe_size") (fun n => on_agent (fun a =>
    mkKataAgentConfig (ka_KernelModules a) (u32 n) (ka_DialTimeout a) (ka_LongLiveConn a) (ka_Debug a)
      (ka_Trace a) (ka_EnableDebugConsole a))).

(** [range] over the annotations: one that is not enabled is an error. *)
Definition addAnnotations (runtime : RuntimeConfig) : M SandboxConfig unit :=
  if negb (forallb (fun kv => checkAnnotationNameIsValid (hc_EnableAnnotations (rc_HypervisorConfig runtime)) kv.1
                                kataAnnotHypervisorPrefix) (map_to_list m))
  then throw (Errorf "annotation %v is not enabled") else
  _ ← addAssetAnnotations;
  _ ← addHypervisorConfigOverrides runtime;
  _ ← addRuntimeConfigOverrides;
  addAgentConfigOverrides.
End Overrides.

Section Sandbox.
Context `{OciHost}.

(** The first mount on /dev/shm counts. *)
Definition getShmSize (c : ContainerConfig) : res Z :=
  match List.find (fun mt => bool_decide (mt_Destination mt = "/dev/shm")) (cc_Mounts c) with
  | None => Ok 0
  | Some mt =>
      if bool_decide (mt_Type mt = "bind") && negb (bool_decide (mt_Source mt = "/dev/shm")) then
        s ← sys_Statfs (mt_Source mt); Ok (u64 (u64 s.1 * s.2))
      else Ok DefaultShmSize
  end.

(** With static resource management the machine starts with its workload's
    resources added. *)
Definition static_resources (c : SandboxConfig) : SandboxConfig :=
  let h := sc_HypervisorConfig c in
  let r := sc_SandboxResources c in
  if sc_StaticResourceMgmt c then
    c <| sc_SandboxResources := r <| sz_BaseCPUs := hc_NumVCPUs h |> <| sz_BaseMemMB := hc_MemorySize h |> |>
      <| sc_HypervisorConfig := h <| hc_NumVCPUs := u32 (hc_NumVCPUs h + sz_WorkloadCPUs r) |>
                                  <| hc_MemorySize := u32 (hc_MemorySize h + sz_WorkloadMemMB r) |> |>
  else c.

(** A one-element slice for the containers. *)
Definition alloc_slice (c : ContainerConfig) (mem : Mem) : Slice * Mem :=
  (mkSlice (m_next mem) 1,
   mem <| m_arrays := <[m_next mem := [c]]> (m_arrays mem) |> <| m_next := S (m_next mem) |>).

Definition base_config (spec : Spec) (runtime : RuntimeConfig) (bundlePath cid : string) (systemdCgroup : bool)
    (containers : Slice) (shmSize : Z) (net : NetworkConfig) : SandboxConfig :=
  mkSandboxConfig containers (rc_SandboxBindMounts runtime) (rc_Experimental runtime) {[ BundlePathKey := bundlePath ]}
    cid (spec_Hostname spec) (rc_HypervisorType runtime) (rc_AgentConfig runtime) net (rc_HypervisorConfig runtime)
    (rc_StaticSandboxResourceMgmt runtime) shmSize (rc_VfioMode runtime) false systemdCgroup
    (rc_SandboxCgroupOnly runtime) (rc_DisableGuestSeccomp runtime) []
    (mkSandboxResourceSizing (rc_SandboxCPUs runtime) 0 (rc_SandboxMemMB runtime) 0).

Definition oci_SandboxConfig (runtime : RuntimeConfig) (bundlePath cid console : string) (detach systemdCgroup : bool)
    : M (Spec * Mem) SandboxConfig := fun sm =>
  let '(r, spec) := oci_ContainerConfig bundlePath cid console detach sm.1 in
  match (containerConfig ← r; shmSize ← getShmSize containerConfig; net ← networkConfig spec runtime;
         Ok (containerConfig, shmSize, net)) with
  | Err e => (Err e, (spec, sm.2))
  | Ok (containerConfig, shmSize, net) =>
      let '(containers, mem) := alloc_slice containerConfig sm.2 in
      match addAnnotations (annos spec) runtime
              (base_config spec runtime bundlePath cid systemdCgroup containers shmSize net) with
      | (Err e, _) => (Err e, (spec, mem))
      | (Ok _, config) => (Ok (static_resources config), (spec, mem))
      end
  end.
End Sandbox.

End Oci.
