(* ===== verification/OciSpec.v ===== *)
(** * What [Oci] guarantees

    The hypervisor settings of a sandbox come from the runtime's configuration
    and from annotations the administrator has enabled, and its paths from the
    administrator's lists; sizes; and what is lost on the way. *)
From S2P Require Import Prelude GoStr Types Utils Devices Hypervisor State Oci.
Import Filepath Types.Assets Utils.Names Devices.Config HypervisorConf State Oci.

Module OciFacts.

Section Config.
Context `{OciHost}.

(** ** Paths *)

(** A setting is the runtime's own or on a list. *)
Definition listed (globs : list string) (own v : string) : Prop := v = own \/ checkPathIsInGlobs globs v = true.

Record paths_ok (r h : HypervisorConfig) : Prop := {
  ok_Hypervisor : listed (hc_HypervisorPathList r) (hc_HypervisorPath r) (hc_HypervisorPath h);
  ok_Ctl : listed (hc_HypervisorCtlPathList r) (hc_HypervisorCtlPath r) (hc_HypervisorCtlPath h);
  ok_Jailer : listed (hc_JailerPathList r) (hc_JailerPath r) (hc_JailerPath h);
  ok_VirtioFSDaemon : listed (hc_VirtioFSDaemonList r) (hc_VirtioFSDaemon r) (hc_VirtioFSDaemon h);
  ok_FileBackedMem : listed (hc_FileBackedMemRootList r) (hc_FileBackedMemRootDir r) (hc_FileBackedMemRootDir h);
  ok_VhostUserStore : listed (hc_VhostUserStorePathList r) (hc_VhostUserStorePath r) (hc_VhostUserStorePath h);
  ok_EntropySource : listed (hc_EntropySourceList r) (hc_EntropySource r) (hc_EntropySource h);
}.

Definition config_paths_ok (r : HypervisorConfig) (c : SandboxConfig) : Prop := paths_ok r (sc_HypervisorConfig c).

(** A change of settings other than paths, and of a path that was checked. *)
Ltac paths_step :=
  let c := fresh in let Hc := fresh in
  intros c Hc; destruct Hc; constructor; cbn; repeat case_match; try done; right; by bool_to_prop.

#[local] Hint Extern 1 (stays (keeps (config_paths_ok _)) (modify _)) =>
  apply stays_modify; paths_step : stays.

Section Paths.
Context (m : gmap string string) (runtime : RuntimeConfig).

Lemma add_kernel_param_paths p : stays (keeps (config_paths_ok (rc_HypervisorConfig runtime))) (add_kernel_param p).
Proof.
  intros c Hc. unfold add_kernel_param, AddKernelParam. case_bool_decide; destruct Hc; by constructor.
Qed.
#[local] Hint Resolve add_kernel_param_paths : stays.

Lemma overrides_paths : stays (keeps (config_paths_ok (rc_HypervisorConfig runtime))) (addHypervisorConfigOverrides m runtime).
Proof.
  unfold addHypervisorConfigOverrides, addHypervisorCPUOverrides, addHypervisorMemoryOverrides, addHypervisorBlockOverrides,
    addHypervisorVirtioFsOverrides, addHypervisporNetworkOverrides, addHypervisorPathOverrides, set_sgx_size,
    set_path, set_nonempty, setUint, setUintWithCheck, setBool, with_anno. cbv zeta.
  stays.
Qed.
End Paths.

(** The other overrides do not concern the hypervisor. *)
Definition same_hc (c c' : SandboxConfig) : Prop := sc_HypervisorConfig c' = sc_HypervisorConfig c.
#[export] Instance same_hc_preorder : PreOrder same_hc.
Proof. split; [done|]. intros c1 c2 c3 H1 H2. exact (eq_trans H2 H1). Qed.

#[local] Hint Extern 1 (stays same_hc (modify _)) => by apply stays_modify : stays.

Lemma vfio_mode_same value : stays same_hc (set_vfio_mode value).
Proof. intros c. unfold set_vfio_mode. by destruct (VFIOSetMode value (sc_VfioMode c)). Qed.
#[local] Hint Resolve vfio_mode_same : stays.

Lemma assets_same m : stays same_hc (addAssetAnnotations m).
Proof. unfold addAssetAnnotations, with_anno. stays. Qed.
Lemma runtime_same m : stays same_hc (addRuntimeConfigOverrides m).
Proof. unfold addRuntimeConfigOverrides, setBool, with_anno, add_feature. stays. Qed.
Lemma agent_same m : stays same_hc (addAgentConfigOverrides m).
Proof. unfold addAgentConfigOverrides, setUint, setUintWithCheck, setBool, with_anno. stays. Qed.

Lemma same_hc_keeps {A} (P : HypervisorConfig -> Prop) (f : M SandboxConfig A) :
  stays same_hc f -> stays (keeps (fun c => P (sc_HypervisorConfig c))) f.
Proof. intros Hf c. unfold keeps. by rw (Hf c). Qed.

(** A property of the hypervisor settings that the overrides for the hypervisor
    keep is kept by all of them. *)
Lemma addAnnotations_keeps (P : HypervisorConfig -> Prop) m runtime :
  stays (keeps (fun c => P (sc_HypervisorConfig c))) (addHypervisorConfigOverrides m runtime) ->
  stays (keeps (fun c => P (sc_HypervisorConfig c))) (addAnnotations m runtime).
Proof.
  intros Ho. unfold addAnnotations. destruct (negb _); [apply stays_throw, _|].
  apply stays_bind; [apply _|apply same_hc_keeps, assets_same|intros _].
  apply stays_bind; [apply _|exact Ho|intros _].
  apply stays_bind; [apply _|apply same_hc_keeps, runtime_same|intros _]. apply same_hc_keeps, agent_same.
Qed.

(** *** Hooks *)

(** The directory of hooks is one inside the guest: an annotation names it as it likes. *)
Definition hook_of (m : gmap string string) (own : string) : string :=
  match m !! hv "guest_hook_path" with Some v => if bool_decide (v = "") then own else v | None => own end.

Section Hooks.
Context (m : gmap string string) (runtime : RuntimeConfig).

Definition hook_is (v : string) (c : SandboxConfig) : Prop := hc_GuestHookPath (sc_HypervisorConfig c) = v.

#[local] Hint Extern 1 (stays (keeps (hook_is _)) (modify _)) =>
  apply stays_modify; intros ? ?; cbn; repeat case_match; done : stays.

Lemma add_kernel_param_hook v p : stays (keeps (hook_is v)) (add_kernel_param p).
Proof. intros c Hc. unfold add_kernel_param, AddKernelParam. by case_bool_decide. Qed.
#[local] Hint Resolve add_kernel_param_hook : stays.

Lemma set_hook own :
  hook_of m own = own ->
  stays (keeps (hook_is own)) (set_nonempty m (hv "guest_hook_path") (fun v => on_hc (fun h => h <| hc_GuestHookPath := v |>))).
Proof.
  unfold hook_of, set_nonempty, with_anno. destruct (m !! _) as [v|]; [|intros _; stays].
  case_bool_decide as Hv; simpl; [intros _; stays|]. intros ->. stays.
Qed.

Lemma overrides_hook_kept own :
  hook_of m own = own -> stays (keeps (hook_is own)) (addHypervisorConfigOverrides m runtime).
Proof.
  intros Ho. pose proof (set_hook own Ho). unfold addHypervisorConfigOverrides. stays.
  all: unfold addHypervisorCPUOverrides, addHypervisorMemoryOverrides, addHypervisorBlockOverrides,
    addHypervisorVirtioFsOverrides, addHypervisporNetworkOverrides, addHypervisorPathOverrides, set_sgx_size,
    set_path, set_nonempty, setUint, setUintWithCheck, setBool, with_anno; cbv zeta; stays.
Qed.

Lemma overrides_hook_set v :
  m !! hv "guest_hook_path" = Some v -> v <> "" -> gives (fun _ => hook_is v) (addHypervisorConfigOverrides m runtime).
Proof.
  intros Hm Hv. unfold addHypervisorConfigOverrides. cbv zeta. do 9 (apply gives_bind; intros _). apply gives_then.
  - unfold set_nonempty, with_anno. rw Hm bool_decide_eq_false_2 //. by intros c [] c' [= <-].
  - intros _. unfold set_sgx_size, set_path, setUint, setUintWithCheck, setBool, with_anno. stays.
Qed.

Lemma addAnnotations_hook base c :
  addAnnotations m runtime base = (Ok tt, c) ->
  hook_is (hook_of m (hc_GuestHookPath (sc_HypervisorConfig base))) c.
Proof.
  set (own := hc_GuestHookPath _). intros Ea. destruct (decide (hook_of m own = own)) as [Ho|Ho].
  - pose proof (addAnnotations_keeps (fun h => hc_GuestHookPath h = own) m runtime (overrides_hook_kept own Ho) base) as Hk.
    rw Ea in Hk. rw Ho. by apply Hk.
  - unfold hook_of in *. destruct (m !! hv "guest_hook_path") as [v|] eqn:Hm; [|done]. case_bool_decide as Hv; [done|].
    revert Ea. unfold addAnnotations. destruct (negb _); [done|]. munfold.
    destruct (addAssetAnnotations m base) as [[[]|e] c1]; [|done].
    destruct (addHypervisorConfigOverrides m runtime c1) as [[[]|e] c2] eqn:E2; [|done].
    apply (overrides_hook_set v Hm Hv) in E2. unfold hook_is in *. intros E.
    pose proof (runtime_same m c2) as R. destruct (addRuntimeConfigOverrides m c2) as [[[]|e] c3]; [|done].
    pose proof (agent_same m c3) as A. rw E in A. unfold same_hc in *. simpl in *. by rw A R.
Qed.
End Hooks.

(** ** Annotations *)

(** The settings without the size of the encrypted memory, which has an
    annotation of its own. *)
Definition but_sgx (h : HypervisorConfig) : HypervisorConfig := h <| hc_SGXEPCSize := 0 |>.

Section Unannotated.
Context (m : gmap string string) (Hnone : forall k, HasPrefix k kataAnnotHypervisorPrefix = true -> m !! k = None).
Context (h0 : HypervisorConfig).

Definition unset (c : SandboxConfig) : Prop := but_sgx (sc_HypervisorConfig c) = but_sgx h0.

Lemma no_override name f : stays (keeps unset) (with_anno m (hv name) f).
Proof.
  unfold with_anno. rw Hnone; [apply HasPrefix_app|apply stays_ret, _].
Qed.
#[local] Hint Resolve no_override : stays.

Lemma sgx_unset : stays (keeps unset) (set_sgx_size m).
Proof. unfold set_sgx_size, with_anno. stays. intros c Hc. exact Hc. Qed.
#[local] Hint Resolve sgx_unset : stays.

Lemma overrides_unset runtime : stays (keeps unset) (addHypervisorConfigOverrides m runtime).
Proof.
  unfold addHypervisorConfigOverrides, addHypervisorCPUOverrides, addHypervisorMemoryOverrides, addHypervisorBlockOverrides,
    addHypervisorVirtioFsOverrides, addHypervisporNetworkOverrides, addHypervisorPathOverrides,
    set_path, set_nonempty, setUint, setUintWithCheck, setBool. cbv zeta. stays.
Qed.
End Unannotated.

(** Two annotations are added to the specification. *)
Definition annotated (spec spec' : Spec) : Prop :=
  forall k, k <> BundlePathKey -> k <> ContainerTypeKey -> annos spec' !! k = annos spec !! k.
#[export] Instance annotated_preorder : PreOrder annotated.
Proof. split; [done|]. intros s1 s2 s3 H1 H2 k Hb Ht. by rw H2 // H1. Qed.

Lemma annotated_set key value m :
  (key = BundlePathKey \/ key = ContainerTypeKey) -> stays annotated (set_anno key value m).
Proof.
  intros Hkey spec k Hb Ht. unfold set_anno, annos. simpl. destruct (spec_Annotations spec); simpl; [|done].
  apply lookup_insert_ne. destruct Hkey; congruence.
Qed.

Lemma oci_ContainerConfig_annotated bundlePath cid console detach :
  stays annotated (oci_ContainerConfig bundlePath cid console detach).
Proof.
  unfold oci_ContainerConfig. stays; apply annotated_set; auto.
Qed.

(** What a successful conversion went through. *)
Lemma oci_SandboxConfig_inv runtime bundlePath cid console detach systemd spec mem c s' :
  oci_SandboxConfig runtime bundlePath cid console detach systemd (spec, mem) = (Ok c, s') ->
  exists spec' base c', annotated spec spec' /\
    sc_HypervisorConfig base = rc_HypervisorConfig runtime /\
    sc_StaticResourceMgmt base = rc_StaticSandboxResourceMgmt runtime /\
    sc_SandboxResources base = mkSandboxResourceSizing (rc_SandboxCPUs runtime) 0 (rc_SandboxMemMB runtime) 0 /\
    addAnnotations (annos spec') runtime base = (Ok tt, c') /\ c = static_resources c'.
Proof.
  unfold oci_SandboxConfig. simpl. pose proof (oci_ContainerConfig_annotated bundlePath cid console detach spec) as Ha.
  destruct (oci_ContainerConfig _ _ _ _ spec) as [r spec']. cbv iota. case_match eqn:E1; [|done]. intros E.
  destruct a as [[conf shm] net]. simpl in E.
  destruct (addAnnotations _ _ _) as [[[]|e] c'] eqn:Ea; [|done]. injection E as <- <-.
  by refine (ex_intro _ spec' (ex_intro _ _ (ex_intro _ c' (conj Ha (conj _ (conj _ (conj _ (conj Ea eq_refl)))))))).
Qed.

(** Static sizing only touches the two sizes. *)
Lemma static_paths r c : config_paths_ok r c -> config_paths_ok r (static_resources c).
Proof. unfold static_resources. destruct (sc_StaticResourceMgmt c); [|done]. by intros []. Qed.

Lemma static_hook c :
  hc_GuestHookPath (sc_HypervisorConfig (static_resources c)) = hc_GuestHookPath (sc_HypervisorConfig c).
Proof. unfold static_resources. by destruct (sc_StaticResourceMgmt c). Qed.

(** C12. Seven settings name programs and directories of the host: the hypervisor,
    its control program, the jailer, the virtio-fs daemon, the directory behind
    file-backed memory, the vhost-user store and the source of entropy.  Whatever
    annotations a container carries, each of them is the one of the runtime's own
    configuration or matches one of the administrator's lists for that setting.
    The directory of hooks, a path inside the guest, has no such list: an
    annotation that is not empty sets it, whatever it says. *)
Theorem SandboxConfig_paths runtime bundlePath cid console detach systemd spec mem c s' :
  oci_SandboxConfig runtime bundlePath cid console detach systemd (spec, mem) = (Ok c, s') ->
  paths_ok (rc_HypervisorConfig runtime) (sc_HypervisorConfig c) /\
  hc_GuestHookPath (sc_HypervisorConfig c) = hook_of (annos spec) (hc_GuestHookPath (rc_HypervisorConfig runtime)).
Proof.
  intros (spec' & base & c' & Ha & Hh & _ & _ & Ea & ->)%oci_SandboxConfig_inv. split.
  - apply static_paths.
    pose proof (addAnnotations_keeps _ _ _ (overrides_paths (annos spec') runtime) base) as Hk. rw Ea in Hk.
    apply Hk. rw Hh. by constructor; left.
  - rw static_hook. apply addAnnotations_hook in Ea. unfold hook_is, hook_of in *. by rw Hh Ha // in Ea.
Qed.

(** The gate at the entrance. *)
Lemma addAnnotations_enabled m runtime base c k v :
  addAnnotations m runtime base = (Ok tt, c) -> m !! k = Some v ->
  HasPrefix k kataAnnotHypervisorPrefix = true ->
  regexpContains (hc_EnableAnnotations (rc_HypervisorConfig runtime)) (TrimPrefix k kataAnnotHypervisorPrefix) = true.
Proof.
  unfold addAnnotations. destruct (forallb _ _) eqn:Ef; [|done]. intros _ Hk Hp.
  apply elem_of_map_to_list in Hk. apply list_elem_of_In in Hk.
  pose proof (proj1 (forallb_forall _ _) Ef _ Hk) as Hv. unfold checkAnnotationNameIsValid in Hv. simpl in Hv. by rw Hp in Hv.
Qed.

(** The settings a sandbox starts with when nothing overrides them. *)
Definition sized (runtime : RuntimeConfig) (h : HypervisorConfig) : HypervisorConfig :=
  if rc_StaticSandboxResourceMgmt runtime then
    h <| hc_NumVCPUs := u32 (hc_NumVCPUs h + rc_SandboxCPUs runtime) |>
      <| hc_MemorySize := u32 (hc_MemorySize h + rc_SandboxMemMB runtime) |>
  else h.

Definition same_sizes (c c' : SandboxConfig) : Prop :=
  sc_StaticResourceMgmt c' = sc_StaticResourceMgmt c /\ sc_SandboxResources c' = sc_SandboxResources c.
#[export] Instance same_sizes_preorder : PreOrder same_sizes.
Proof. split; [done|]. intros c1 c2 c3 [A1 B1] [A2 B2]. split; congruence. Qed.

#[local] Hint Extern 1 (stays same_sizes (modify _)) => by apply stays_modify : stays.

Lemma add_kernel_param_sizes p : stays same_sizes (add_kernel_param p).
Proof. intros c. unfold add_kernel_param. by destruct (AddKernelParam _ _) as [[] ?]. Qed.
Lemma vfio_mode_sizes value : stays same_sizes (set_vfio_mode value).
Proof. intros c. unfold set_vfio_mode. by destruct (VFIOSetMode value (sc_VfioMode c)). Qed.
#[local] Hint Resolve add_kernel_param_sizes vfio_mode_sizes : stays.

Lemma addAnnotations_sizes m runtime : stays same_sizes (addAnnotations m runtime).
Proof.
  unfold addAnnotations, addAssetAnnotations, addRuntimeConfigOverrides, addAgentConfigOverrides, add_feature,
    addHypervisorConfigOverrides, addHypervisorCPUOverrides, addHypervisorMemoryOverrides, addHypervisorBlockOverrides,
    addHypervisorVirtioFsOverrides, addHypervisporNetworkOverrides, addHypervisorPathOverrides, set_sgx_size,
    set_path, set_nonempty, setUint, setUintWithCheck, setBool, with_anno. cbv zeta. stays.
Qed.

(** Only enabled annotations reach the hypervisor: when a sandbox
    configuration is accepted, every annotation of the container with the prefix
    of hypervisor settings is matched by one of the enabled patterns; and if
    there is no such annotation, the settings are the runtime's own, with the
    workload added under static sizing, and but for the encrypted memory, which
    has an annotation of its own. *)
Theorem annotations_gated runtime bundlePath cid console detach systemd spec mem c s' :
  oci_SandboxConfig runtime bundlePath cid console detach systemd (spec, mem) = (Ok c, s') ->
  (forall k v, annos spec !! k = Some v -> HasPrefix k kataAnnotHypervisorPrefix = true ->
     regexpContains (hc_EnableAnnotations (rc_HypervisorConfig runtime)) (TrimPrefix k kataAnnotHypervisorPrefix) = true) /\
  ((forall k, HasPrefix k kataAnnotHypervisorPrefix = true -> annos spec !! k = None) ->
   but_sgx (sc_HypervisorConfig c) = but_sgx (sized runtime (rc_HypervisorConfig runtime))).
Proof.
  intros (spec' & base & c' & Hs & Hh & Hst & Hr & Ea & ->)%oci_SandboxConfig_inv.
  assert (Hkeys : forall k, HasPrefix k kataAnnotHypervisorPrefix = true -> annos spec' !! k = annos spec !! k)
    by (intros k Hk; apply Hs; by intros ->).
  split.
  - intros k v Hk Hp. rw -Hkeys // in Hk. by eapply addAnnotations_enabled.
  - intros Hnone. pose proof (addAnnotations_sizes (annos spec') runtime base) as Hsz. rw Ea in Hsz.
    destruct Hsz as [S1 S2]. simpl in S1, S2.
    assert (Hn' : forall k, HasPrefix k kataAnnotHypervisorPrefix = true -> annos spec' !! k = None)
      by (intros k Hk; by rw Hkeys // Hnone).
    pose proof (addAnnotations_keeps (fun h => but_sgx h = but_sgx (rc_HypervisorConfig runtime)) _ runtime
      (overrides_unset (annos spec') Hn' _ runtime) base) as Hk. rw Ea in Hk. specialize (Hk (f_equal but_sgx Hh)). simpl in Hk.
    unfold static_resources, sized. rw S1 S2 Hst Hr. destruct (rc_StaticSandboxResourceMgmt runtime); [|done].
    destruct (sc_HypervisorConfig c'), (rc_HypervisorConfig runtime). unfold but_sgx in *. cbn in *. by simplify_eq.
Qed.

(** A specification without a Linux section is meant to be refused with an
    error of its own, but the devices are read first: every conversion of such a
    specification dereferences a nil pointer. *)
Theorem no_linux_panics runtime bundlePath cid console detach systemd spec mem :
  spec_Linux spec = None ->
  (oci_SandboxConfig runtime bundlePath cid console detach systemd (spec, mem)).1 = Err ErrNilDeref.
Proof.
  intros Hl. unfold oci_SandboxConfig, oci_ContainerConfig, containerDeviceInfos. munfold. simpl.
  destruct (spec_Root spec), (spec_Process spec); simpl; rw ?Hl; done.
Qed.

(** ** Numbers *)

Lemma with_anno_eq key v f : with_anno {[ key := v ]} key f = f v.
Proof. unfold with_anno. by rw lookup_singleton_eq. Qed.
Lemma with_anno_ne key v key' f : key <> key' -> with_anno {[ key := v ]} key' f = mret tt.
Proof. intros Hne. unfold with_anno. by rw lookup_singleton_ne. Qed.

(** The minimum of the memory annotation is checked before the value is cut
    to 32 bits: every multiple of 4 PiB passes, and asks for no memory at all. *)
Theorem default_memory_wraps runtime c k :
  1 <= k < 2 ^ 32 ->
  addHypervisorMemoryOverrides {[ hv "default_memory" := Itoa (k * 2 ^ 32) ]} runtime c =
    (Ok tt, on_hc (fun h => h <| hc_MemorySize := 0 |>) c).
Proof.
  intros Hk. unfold addHypervisorMemoryOverrides, set_path, setUint, setUintWithCheck, setBool. cbv zeta.
  rw with_anno_eq !with_anno_ne; [by vm_compute..|].
  rw Itoa_nonneg; [lia|]. rw ParseUint_FormatUint; [lia|lia|].
  rw (proj2 (Z.ltb_ge _ _)); [unfold MinHypervisorMemory; lia|]. munfold.
  by rw (_ : u32 (k * 2 ^ 32) = 0); [apply Z_mod_mult|].
Qed.

(** ** Sizes *)

Lemma size_anno_Itoa m key n bits :
  0 <= n < 2 ^ 64 -> 1 <= bits <= 64 -> m !! key = Some (Itoa n) ->
  size_anno m key (fun v => ParseInt v bits) = if n <? 2 ^ (bits - 1) then n else 0.
Proof.
  intros Hn Hb Hm. unfold size_anno. rw Hm. pose proof (ParseInt_Itoa n bits Hn Hb) as Hp.
  destruct (n <? 2 ^ (bits - 1)); [by rw Hp|]. by destruct (ParseInt _ _).
Qed.

Lemma vcpus_exact quota period :
  0 <= quota < 2 ^ 31 -> 1000 <= period ->
  CalculateVCpusFromMilliCpus (CalculateMilliCPUs quota period) = (quota * 1000 / period + 999) / 1000.
Proof.
  intros Hq Hp. unfold CalculateVCpusFromMilliCpus, CalculateMilliCPUs.
  rw (proj2 (Z.leb_le _ _)) //; [lia|]. rw (proj2 (Z.eqb_neq period 0)); [lia|]. simpl.
  rw (u64_small quota); [unfold maxUint64; lia|]. rw (u64_small (quota * 1000)); [unfold maxUint64; lia|].
  assert (0 <= quota * 1000 / period <= quota) by (split; [apply Z.div_pos|apply Z.div_le_upper_bound]; nia).
  rw !u32_small //; unfold maxUint32; lia.
Qed.

(** The size of a pod sandbox: quota over period gives the virtual CPUs,
    rounded up, and the memory limit the megabytes; but a limit of 2 GiB or more
    does not fit the 32 bits it is parsed with and counts as nothing. *)
Theorem CalculateSandboxSizing_spec spec m quota period memory :
  spec_Annotations spec = Some m ->
  m !! SandboxCPUQuota = Some (Itoa quota) -> m !! SandboxCPUPeriod = Some (Itoa period) ->
  m !! SandboxMem = Some (Itoa memory) ->
  0 <= quota < 2 ^ 31 -> 1000 <= period < 2 ^ 32 -> 0 <= memory < 2 ^ 63 ->
  CalculateSandboxSizing spec =
    ((quota * 1000 / period + 999) / 1000, if memory <? 2 ^ 31 then memory / 2 ^ 20 else 0).
Proof.
  intros Hs Hq Hp Hm Bq Bp Bm. unfold CalculateSandboxSizing, calculateVMResources. rw Hs.
  rw (size_anno_Itoa m SandboxCPUQuota quota 32); [lia|lia|done|].
  rw (size_anno_Itoa m SandboxMem memory 32); [lia|lia|done|]. rw (_ : (quota <? 2 ^ (32 - 1)) = true); [apply Z.ltb_lt; lia|].
  rw (_ : size_anno m SandboxCPUPeriod _ = period).
  { unfold size_anno. rw Hp Itoa_nonneg; [lia|]. rw ParseUint_FormatUint; [lia|lia|done]. }
  rw vcpus_exact; [lia|lia|]. change (32 - 1) with 31. f_equal.
  destruct (Z.ltb_spec memory (2 ^ 31)); [|done]. rw (proj2 (Z.ltb_ge _ _)); [lia|].
  rw Z.div_div; [lia|lia|]. change (1024 * 1024) with (2 ^ 20). apply u32_small. unfold maxUint32.
  split; [apply Z.div_pos; lia|]. apply Z.div_le_upper_bound; lia.
Qed.

(** A variable of the environment whose value contains an equals sign loses
    everything from there on when a container is created. *)
Theorem cmdEnvs_cut k v w envs :
  str_mem "=" k = false -> str_mem "=" v = false ->
  cmdEnvs [k +:+ "=" +:+ v +:+ "=" +:+ w] envs = envs ++ [mkEnvVar k v].
Proof. intros Hk Hv. unfold cmdEnvs. simpl. by rw !Split_app. Qed.

(** ** The configuration of a container *)

Lemma first_key_insert keys key v m : key ∉ keys -> first_key keys (<[key := v]> m) = first_key keys m.
Proof.
  induction keys as [|k ks IH]; intros Hk; simpl; [done|]. rw lookup_insert_ne; [set_solver|].
  destruct (m !! k); [done|]. apply IH. set_solver.
Qed.

Lemma oci_ContainerType_insert key v spec :
  key ∉ CRIContainerTypeKeyList ->
  oci_ContainerType (spec <| spec_Annotations ::= fmap <[key := v]> |>) = oci_ContainerType spec.
Proof.
  intros Hk. unfold oci_ContainerType.
  assert (E : annos (spec <| spec_Annotations ::= fmap <[key := v]> |>) =
    match spec_Annotations spec with Some m => <[key := v]> m | None => ∅ end)
    by (unfold annos, update; simpl; by destruct (spec_Annotations spec)).
  rw E. unfold annos. destruct (spec_Annotations spec); [by rw first_key_insert|done].
Qed.

(** The configuration of a container: its annotations are those of the
    specification with the bundle and the type of the container filled in, and
    unless there were none the specification now has them too, because the two
    share a map; the root file system is below the bundle unless its path is
    absolute; and the devices and mounts are those listed. *)
Theorem ContainerConfig_spec bundlePath cid console detach spec c spec' :
  oci_ContainerConfig bundlePath cid console detach spec = (Ok c, spec') ->
  exists root process t,
    spec_Root spec = Some root /\ spec_Process spec = Some process /\ oci_ContainerType spec = Ok t /\
    cc_Annotations c = <[ContainerTypeKey := t]> (<[BundlePathKey := bundlePath]> (annos spec)) /\
    spec_Annotations spec' = (fun _ => cc_Annotations c) <$> spec_Annotations spec /\
    cc_RootFs c = mkRootFs "" (rootfs_target bundlePath (sr_Path root)) "" [] true /\
    containerDeviceInfos spec = Ok (cc_DeviceInfos c) /\
    cc_Mounts c = newMount <$> spec_Mounts spec.
Proof.
  unfold oci_ContainerConfig, set_anno. munfold. cbn. destruct (spec_Root spec) as [root|]; [|done].
  destruct (spec_Process spec) as [process|]; [|done]. destruct (containerDeviceInfos spec) as [infos|]; [|done].
  cbn. destruct (option_bind _ _ _ _) as [res|]; [|done]. cbn. case_match eqn:Et; [|done].
  intros [= <- <-]. exists root, process, a. cbn. split_and!; try done.
  - rw -Et. symmetry. apply oci_ContainerType_insert. by apply (bool_decide_eq_true_1 (_ ∉ CRIContainerTypeKeyList)); vm_compute.
  - unfold annos. by destruct (spec_Annotations spec).
Qed.

(** The name of a model leads back to it; the zero model has none. *)
Lemma SetModel_GetModel n n0 :
  NetInterworkingModel_IsValid n = true -> n <> NetXConnectDefaultModel -> SetModel (GetModel n) n0 = (Ok tt, n).
Proof.
  unfold NetInterworkingModel_IsValid, NetXConnectInvalidModel, NetXConnectDefaultModel. intros Hv Hn. bool_to_prop.
  assert (Hc : n = 1 \/ n = 2 \/ n = 3) by lia. by destruct Hc as [-> | [-> | ->]].
Qed.
End Config.

(** ** Concrete specifications *)

(** Patterns without special characters match what contains them. *)
#[local] Instance plain_host : OciHost := {|
  re_MatchString := fun p t => Contains t p;
  fp_Glob := fun g => [g];
  rt_NumCPU := 8;
  sys_Statfs := fun _ => Ok (4096, 16384);
  json_strings := fun s => Ok [s];
  ParseQuantity := fun _ => Ok (true, 1048576);
  exp_features := [];
|}.

Definition demo_process : SpecProcess :=
  mkSpecProcess false None (mkSpecUser 0 0 [5]) ["sh"] ["PATH=/bin"; "OPTS=a=b"] "/" None true.
Definition demo_spec (m : gmap string string) : Spec :=
  mkSpec (Some demo_process) (Some (mkSpecRoot "rootfs" false)) "host" [mkSpecMount "/dev/shm" "bind" "/tmp/shm" ["ro"]]
    (Some m) (Some (mkSpecLinux (Some (mkResources None None [])) [mkLinuxDevice "/dev/null" "c" 1 3 None None None] [])).

Definition demo_runtime : RuntimeConfig :=
  mkRuntimeConfig [] [] "" "" "" "" QemuHypervisor (mkFactoryConfig "" "" 0 false)
    (HypervisorConfig_zero <| hc_HypervisorPath := "/usr/bin/qemu" |> <| hc_HypervisorPathList := ["/opt/qemu"] |>
       <| hc_EnableAnnotations := ["path"] |> <| hc_NumVCPUs := 1 |> <| hc_MemorySize := 2048 |>)
    (mkKataAgentConfig [] 0 0 false false false false) NetXConnectTCFilterModel VFIOModeVFIO false false false 2 512 true
    false false false false.

Definition demo_config (m : gmap string string) : res SandboxConfig * (Spec * Mem) :=
  oci_SandboxConfig demo_runtime "/bundle" "pod" "" false false (demo_spec m, mem_zero).

Definition demo_annotations : gmap string string :=
  {[ hv "path" := "/opt/qemu"; hv "guest_hook_path" := "/usr/share/oci/hooks" ]}.
Definition annotated_demo := demo_config demo_annotations.
Definition plain_demo := demo_config {[ "name" := "x" ]}.

Definition ok_of {A S} (d : A) (r : res A * S) : A := match r.1 with Ok a => a | Err _ => d end.

Lemma SandboxConfig_paths_witness :
  let c := ok_of SandboxConfig_zero annotated_demo in
  paths_ok (rc_HypervisorConfig demo_runtime) (sc_HypervisorConfig c) /\
  hc_HypervisorPath (sc_HypervisorConfig c) = "/opt/qemu" /\ hc_GuestHookPath (sc_HypervisorConfig c) = "/usr/share/oci/hooks".
Proof.
  destruct (SandboxConfig_paths demo_runtime "/bundle" "pod" "" false false (demo_spec demo_annotations)
    mem_zero (ok_of SandboxConfig_zero annotated_demo) annotated_demo.2) as [P1 P2]; [vm_compute; reflexivity|].
  split; [exact P1|]. split; [by vm_compute|]. etrans; [exact P2|]. by vm_compute.
Defined.

Lemma plain_unannotated k : HasPrefix k kataAnnotHypervisorPrefix = true -> ({[ "name" := "x" ]} : gmap string string) !! k = None.
Proof. intros Hk. apply lookup_singleton_None. by intros <-. Qed.

Lemma annotations_gated_witness :
  let c := ok_of SandboxConfig_zero plain_demo in
  but_sgx (sc_HypervisorConfig c) = but_sgx (sized demo_runtime (rc_HypervisorConfig demo_runtime)) /\
  hc_MemorySize (sc_HypervisorConfig c) = 2560.
Proof.
  split; [|by vm_compute].
  refine (proj2 (annotations_gated demo_runtime "/bundle" "pod" "" false false (demo_spec {[ "name" := "x" ]})
    mem_zero _ plain_demo.2 _) plain_unannotated). vm_compute; reflexivity.
Defined.

Lemma no_linux_panics_witness :
  (oci_SandboxConfig demo_runtime "/bundle" "pod" "" false false ((demo_spec ∅) <| spec_Linux := None |>, mem_zero)).1 = Err ErrNilDeref.
Proof. by apply no_linux_panics. Defined.

Lemma default_memory_wraps_witness :
  addHypervisorMemoryOverrides {[ hv "default_memory" := "4294967296" ]} demo_runtime SandboxConfig_zero =
    (Ok tt, on_hc (fun h => h <| hc_MemorySize := 0 |>) SandboxConfig_zero).
Proof. by apply (default_memory_wraps demo_runtime SandboxConfig_zero 1). Defined.

Definition sized_pod : gmap string string :=
  {[ SandboxCPUQuota := "220000"; SandboxCPUPeriod := "100000"; SandboxMem := "4294967296" ]}.

Lemma CalculateSandboxSizing_spec_witness : CalculateSandboxSizing (demo_spec sized_pod) = (3, 0).
Proof. by apply (CalculateSandboxSizing_spec (demo_spec sized_pod) sized_pod 220000 100000 4294967296). Defined.

Lemma cmdEnvs_cut_witness : cmdEnvs ["OPTS=a=b"] [] = [mkEnvVar "OPTS" "a"].
Proof. by apply (cmdEnvs_cut "OPTS" "a" "b" []). Defined.

Lemma ContainerConfig_spec_witness :
  exists t, oci_ContainerType (demo_spec {[ ctr_ContainerType := "container" ]}) = Ok t /\ t = PodContainer.
Proof.
  pose (r := oci_ContainerConfig "/bundle" "c" "" false (demo_spec {[ ctr_ContainerType := "container" ]})).
  assert (E : r = (Ok (ok_of config_zero r), r.2)) by (vm_compute; reflexivity).
  destruct (ContainerConfig_spec "/bundle" "c" "" false _ _ _ E) as (root & process & t & _ & _ & Ht & _).
  exists t. split; [exact Ht|]. vm_compute in Ht. by injection Ht as <-.
Defined.
End OciFacts.
