(* ===== verification/UruncCmd.v ===== *)
(** * The command that runs a unikernel

    From [containerd-shim-v2/urunc.go], the command line of the monitor of a
    unikernel, and its words as the shim hands them to the system; and the
    search for the image of [pkg/urunc/utils.go].  The JSON encoding is that of
    [encoding/json] for strings of ASCII characters.  The environment of the
    command is left out. *)
From S2P Require Import Prelude GoStr Types Utils Devices DeviceManager Hypervisor State Persist Mounts.
From S2P Require Import Interfaces Receiver Resources Container Sandbox Frame Files Urunc.
Import Filepath State Mounts Urunc.

Module UruncCmd.

(** ** JSON *)

Definition dquote : string := String (ascii_of_N 34) EmptyString.

Definition json_escape (c : ascii) : string :=
  let n := Z.of_N (N_of_ascii c) in
  if n =? 34 then "\" +:+ dquote
  else if n =? 92 then "\\"
  else if n =? 10 then "\n"
  else if n =? 13 then "\r"
  else if n =? 9 then "\t"
  else if (n <? 32) || (n =? 60) || (n =? 62) || (n =? 38) then "\u00" +:+ fmt_02x n
  else String c EmptyString.

Fixpoint json_escape_string (s : string) : string :=
  match s with
  | EmptyString => EmptyString
  | String c s' => json_escape c +:+ json_escape_string s'
  end.

Definition json_string (s : string) : string := dquote +:+ json_escape_string s +:+ dquote.

(** A struct whose fields are strings or structs. *)
Definition json_object (fields : list (string * string)) : string :=
  "{" +:+ Join "," ((fun kv => json_string kv.1 +:+ ":" +:+ kv.2) <$> fields) +:+ "}".

(** ** The arguments of solo5-hvt *)

Record HvtArgsNetwork := mkHvtArgsNetwork {
  hn_If : string;
  hn_Cloner : string;
  hn_Type : string;
  hn_Method : string;
  hn_Addr : string;
  hn_Mask : string;
  hn_Gw : string;
}.
Record HvtArgsBlock := mkHvtArgsBlock {
  hb_Source : string;
  hb_Path : string;
  hb_Fstype : string;
  hb_Mount : string;
}.
Record HvtArgs := mkHvtArgs {
  ha_Cmdline : string;
  ha_Net : HvtArgsNetwork;
  ha_Blk : HvtArgsBlock;
  ha_Env : list string;
  ha_Cwd : string;
  ha_Mem : string;
}.

Definition json_network (n : HvtArgsNetwork) : string :=
  json_object [("if", json_string (hn_If n)); ("cloner", json_string (hn_Cloner n)); ("type", json_string (hn_Type n));
    ("method", json_string (hn_Method n)); ("addr", json_string (hn_Addr n)); ("mask", json_string (hn_Mask n));
    ("gw", json_string (hn_Gw n))].
Definition json_block (b : HvtArgsBlock) : string :=
  json_object [("source", json_string (hb_Source b)); ("path", json_string (hb_Path b));
    ("fstype", json_string (hb_Fstype b)); ("mountpoint", json_string (hb_Mount b))].

(** [omitempty] drops empty strings and slices, but never a struct. *)
Definition json_optional (key value : string) : list (string * string) :=
  if bool_decide (value = "") then [] else [(key, json_string value)].
Definition json_args (a : HvtArgs) : string :=
  json_object ([("cmdline", json_string (ha_Cmdline a)); ("net", json_network (ha_Net a)); ("blk", json_block (ha_Blk a))]
    ++ (if bool_decide (ha_Env a = []) then [] else [("env", "[" +:+ Join "," (json_string <$> ha_Env a) +:+ "]")])
    ++ json_optional "cwd" (ha_Cwd a) ++ json_optional "mem" (ha_Mem a)).

(** ** Command lines *)

Definition HvtMonitor : string := "/opt/kata/bin/solo5-hvt".

Definition hvt_args (d : ExecData) : HvtArgs :=
  mkHvtArgs (Base (ed_BinaryPath d))
    (mkHvtArgsNetwork "ukvmif0" "True" "inet" "static" (ed_IPAddress d) "0" (ed_Gateway d))
    (mkHvtArgsBlock "etfs" "/dev/ld0a" "blk" "/data") [] "" "".

(** The last interface is looked up, so without any the index is out of range;
    its name is then not used. *)
Definition HvtCmd (ifaces : list string) (d : ExecData) : res string :=
  if bool_decide (ifaces = []) then Err ErrIndexOutOfRange else
  let d := d <| ed_Tap := "tap100" |> in
  let ns := default "" (last (Split "/" (ed_NetNs d))) in
  let nsString := if bool_decide (ns = "") then "" else "ip netns exec " +:+ ns +:+ " " in
  Ok (if bool_decide (ed_BlkDevice d = "") then
        nsString +:+ HvtMonitor +:+ " --net=" +:+ ed_Tap d +:+ " " +:+ ed_BinaryPath d +:+ " " +:+ json_args (hvt_args d)
      else
        nsString +:+ HvtMonitor +:+ " --net=" +:+ ed_Tap d +:+ " --disk=" +:+ ed_BlkDevice d +:+ " "
          +:+ ed_BinaryPath d +:+ " " +:+ "test").

Definition QemuCmd (d : ExecData) : string :=
  "qemu-system-x86_64 -cpu host" +:+ " -enable-kvm" +:+ " -m 128" +:+ " -nodefaults -no-acpi "
    +:+ " -display none -serial stdio " +:+ " -device isa-debug-exit " +:+ " -net nic,model=virtio "
    +:+ " -net tap,script=no,ifname=" +:+ ed_Tap d +:+ " -kernel " +:+ ed_BinaryPath d
    +:+ " -append " +:+ dquote +:+ "netdev.ipv4_addr=" +:+ ed_IPAddress d +:+ "netdev.ipv4_gw_addr=" +:+ ed_Gateway d
    +:+ " netdev.ipv4_subnet_mask=255.255.255.255 --".

Definition CmdLine (ifaces : list string) (d : ExecData) : res string :=
  if bool_decide (ed_BinaryType d = "pause") then Ok (ed_BinaryPath d)
  else if bool_decide (ed_BinaryType d = "hvt") then HvtCmd ifaces d
  else if bool_decide (ed_BinaryType d = "qemu") then Ok (QemuCmd d)
  else if bool_decide (ed_BinaryType d = "binary") then Ok (ed_BinaryPath d)
  else Ok "".

(** The images for the FPGA in the root directory of the container are added. *)
Definition add_xclbin (cmdString : string) (files : list (string * bool)) : string :=
  foldl (fun cmd file => if negb file.2 && HasSuffix file.1 ".xclbin" then cmd +:+ " " +:+ file.1 else cmd) cmdString files.

(** The command: its text, its name and its arguments. *)
Record Command := mkCommand { co_cmdString : string; co_name : string; co_args : list string }.

Definition words (cmdString : string) : string * list string :=
  match Split " " cmdString with name :: args => (name, args) | [] => ("", []) end.

Section Host.
Context {W : Type} `{HostFiles W}.

Definition CreateCommand (ifaces : list string) (d : ExecData) (id : string) (w : W) : res Command :=
  cmdString ← CmdLine ifaces d;
  let files := match os_ReadDir ("/run/containerd/io.containerd.runtime.v2.task/default/" +:+ id +:+ "/rootfs") w with
               | Ok l => l
               | Err _ => []
               end in
  let cmdString := add_xclbin cmdString files in
  let '(name, args) := words cmdString in
  Ok (mkCommand cmdString name args).

(** The only file of the directory for unikernels. *)
Definition FindExecutable (w : W) : res string :=
  path ← os_Getwd w;
  let dir := path +:+ (if Contains path "rootfs" then "/unikernel/" else "/rootfs/unikernel/") in
  files ← os_ReadDir dir w;
  match files with
  | [f] => Ok (dir +:+ f.1)
  | _ => Err (Errorf "urunc/exec: multiple files found at /rootfs/unikernel/ dir")
  end.
End Host.

(** ** JSON strings *)

(** Reading back an escape that follows a backslash. *)
Definition json_unescape (s : string) : option (ascii * string) :=
  match s with
  | String "n" s' => Some (ascii_of_N 10, s')
  | String "r" s' => Some (ascii_of_N 13, s')
  | String "t" s' => Some (ascii_of_N 9, s')
  | String "u" (String "0" (String "0" (String h (String l s')))) =>
      match ParseUint (String h (String l EmptyString)) 16 8 with
      | Ok n => Some (ascii_of_N (Z.to_N n), s')
      | Err _ => None
      end
  | String c s' => Some (c, s')
  | EmptyString => None
  end.

(** The text up to the closing quote, and what follows it. *)
Fixpoint json_read (fuel : nat) (s : string) : option (string * string) :=
  match fuel, s with
  | S fuel', String c s' =>
      if bool_decide (N_of_ascii c = 34%N) then Some (EmptyString, s')
      else if bool_decide (c = "\"%char) then
        match json_unescape s' with
        | Some (d, s'') => match json_read fuel' s'' with Some (t, r) => Some (String d t, r) | None => None end
        | None => None
        end
      else match json_read fuel' s' with Some (t, r) => Some (String c t, r) | None => None end
  | _, _ => None
  end.

(** One character at a time. *)
Lemma json_read_escape fuel c s :
  json_read (S fuel) (json_escape c +:+ s) =
  match json_read fuel s with Some (t, r) => Some (String c t, r) | None => None end.
Proof. by destruct c as [[] [] [] [] [] [] [] []]. Qed.

Lemma json_escape_space c : str_mem " " (json_escape c) = bool_decide (c = " "%char).
Proof. by destruct c as [[] [] [] [] [] [] [] []]. Qed.

(** A string is read back as it was, whatever follows. *)
Lemma json_string_read s rest :
  json_read (S (String.length s)) (json_escape_string s +:+ dquote +:+ rest) = Some (s, rest).
Proof.
  induction s as [|c s IH]; [done|]. cbn [json_escape_string String.length].
  rw str_app_assoc json_read_escape. by rw IH.
Qed.

Lemma json_string_space s : str_mem " " (json_string s) = str_mem " " s.
Proof.
  unfold json_string. rw !str_mem_app. simpl. rw orb_false_r.
  induction s as [|c s IH]; [done|]. simpl. rw str_mem_app json_escape_space IH. done.
Qed.

#[local] Opaque json_string.

(** ** Words *)

Lemma json_object_space fields :
  Forall (fun kv => str_mem " " kv.1 = false /\ str_mem " " kv.2 = false) fields ->
  str_mem " " (json_object fields) = false.
Proof.
  intros Hf. unfold json_object. rw !str_mem_app str_mem_Join //.
  apply Forall_fmap. eapply Forall_impl; [exact Hf|]. intros [k v] [Hk Hv]. cbn [fst snd] in *.
  change (str_mem " " (json_string k +:+ ":" +:+ v) = false). by rw str_mem_app json_string_space Hk str_mem_app Hv.
Qed.

(** No spaces in the fields of the command. *)
Record spaceless (d : ExecData) : Prop := {
  sl_path : str_mem " " (ed_BinaryPath d) = false;
  sl_ip : str_mem " " (ed_IPAddress d) = false;
  sl_gw : str_mem " " (ed_Gateway d) = false;
  sl_tap : str_mem " " (ed_Tap d) = false;
  sl_ns : str_mem " " (ed_NetNs d) = false;
}.

Lemma str_mem_TrimRight c sep s : str_mem c s = false -> str_mem c (TrimRight sep s) = false.
Proof.
  induction s as [|d s IH]; [done|]. simpl. intros [Hd Hs]%orb_false_iff. specialize (IH Hs).
  repeat case_match; simpl in *; try done; by apply orb_false_iff.
Qed.

Lemma str_mem_Split c sep s : str_mem c s = false -> Forall (fun w => str_mem c w = false) (Split sep s).
Proof.
  induction s as [|d s IH]; simpl; [by constructor|]. intros [Hd Hs]%orb_false_iff. specialize (IH Hs).
  assert (Hc : forall w, str_mem c w = false -> str_mem c (String d w) = false) by (intros w Hw; by apply orb_false_iff).
  repeat case_match; repeat (apply Forall_cons in IH as [? IH] || constructor); auto.
Qed.

Lemma str_mem_last c l : Forall (fun w => str_mem c w = false) l -> str_mem c (default "" (last l)) = false.
Proof.
  intros Hl. destruct (last l) as [w|] eqn:E; [|done]. simpl.
  apply last_Some_elem_of in E. by apply (proj1 (Forall_forall _ _) Hl).
Qed.

Lemma Base_space p : str_mem " " p = false -> str_mem " " (Base p) = false.
Proof.
  intros Hp. unfold Base. case_bool_decide; [done|]. case_bool_decide; [done|].
  by apply str_mem_last, str_mem_Split, str_mem_TrimRight.
Qed.

Lemma json_args_space d : spaceless d -> str_mem " " (json_args (hvt_args d)) = false.
Proof.
  intros [Hp Hi Hg _ _]. unfold json_args, json_optional, json_network, json_block, hvt_args. cbn.
  repeat (apply json_object_space || constructor); cbn [fst snd]; rw ?json_string_space //. by apply Base_space.
Qed.

Lemma str_mem_app_false c s t : str_mem c s = false -> str_mem c t = false -> str_mem c (s +:+ t) = false.
Proof. intros Hs Ht. by rw str_mem_app Hs Ht. Qed.

Lemma words_Join w ws : Forall (fun v => str_mem " " v = false) (w :: ws) -> words (Join " " (w :: ws)) = (w, ws).
Proof. intros Hw. unfold words. by rw Split_Join. Qed.

Definition netns (d : ExecData) : string := default "" (last (Split "/" (ed_NetNs d))).

(** A unikernel image for solo5 in a network namespace is run by a command
    whose words are, exactly, those of [ip netns exec], the monitor with its
    network option, the image, and one argument holding all of the JSON. *)
Theorem hvt_words ifaces d :
  spaceless d -> ifaces <> [] -> ed_BinaryType d = "hvt" -> ed_BlkDevice d = "" -> netns d <> "" ->
  exists s, CmdLine ifaces d = Ok s /\
    words s = ("ip", ["netns"; "exec"; netns d; HvtMonitor; "--net=tap100"; ed_BinaryPath d;
                      json_args (hvt_args (d <| ed_Tap := "tap100" |>))]).
Proof.
  intros Hs Hi Ht Hb Hn. assert (E : CmdLine ifaces d = HvtCmd ifaces d) by (unfold CmdLine; by rw Ht).
  destruct d as [ty path ip mask tap gw c ns blk]. cbn in Ht, Hb. subst. rw E. unfold HvtCmd.
  rw (bool_decide_eq_false_2 (ifaces = [])) //. cbv zeta. cbn [ed_NetNs ed_BlkDevice update].
  rw (bool_decide_eq_false_2 (default "" (last (Split "/" ns)) = "")) //.
  eexists. split; [done|]. rw -words_Join; [|f_equal; cbn; by rw !str_app_assoc].
  pose proof (sl_path _ Hs). pose proof (sl_ns _ Hs). repeat constructor; try done.
  - by apply str_mem_last, str_mem_Split.
  - apply json_args_space. destruct Hs. by constructor.
Qed.

(** The command line for QEMU is cut at every space, without regard for the
    quote it opens: the kernel is given one word, which begins with the quote and
    in which the address runs into the name of the next setting, the network mask
    and the dashes go to QEMU itself, and doubled spaces make empty arguments. *)
Theorem qemu_words d :
  spaceless d ->
  words (QemuCmd d) =
    ("qemu-system-x86_64",
     ["-cpu"; "host"; "-enable-kvm"; "-m"; "128"; "-nodefaults"; "-no-acpi"; ""; "-display"; "none"; "-serial"; "stdio";
      ""; "-device"; "isa-debug-exit"; ""; "-net"; "nic,model=virtio"; ""; "-net";
      "tap,script=no,ifname=" +:+ ed_Tap d; "-kernel"; ed_BinaryPath d; "-append";
      dquote +:+ "netdev.ipv4_addr=" +:+ ed_IPAddress d +:+ "netdev.ipv4_gw_addr=" +:+ ed_Gateway d;
      "netdev.ipv4_subnet_mask=255.255.255.255"; "--"]).
Proof.
  intros [Hp Hi Hg Ht _]. rw -words_Join.
  - repeat apply Forall_cons_2; try done; repeat apply str_mem_app_false; done.
  - apply (f_equal words). unfold QemuCmd, dquote. cbn [Join]. rewrite -> !str_app_assoc. reflexivity.
Qed.

(** ** Concrete commands *)

Definition hvt_demo : ExecData :=
  mkExecData "hvt" "/run/c/rootfs/unikernel/redis.hvt" "10.10.10.2" "16" "eth0" "10.10.10.1" None "/var/run/netns/cni-1" "".

Lemma hvt_demo_spaceless : spaceless hvt_demo.
Proof. by constructor. Qed.

Lemma hvt_words_witness :
  exists s, CmdLine ["lo"] hvt_demo = Ok s /\ (words s).1 = "ip" /\ (words s).2 !! 2%nat = Some "cni-1".
Proof.
  assert (Hi : ["lo"] <> []) by discriminate. assert (Hn : netns hvt_demo <> "") by (vm_compute; discriminate).
  destruct (hvt_words ["lo"] hvt_demo hvt_demo_spaceless Hi eq_refl eq_refl Hn) as (s & E & Ew).
  exists s. split; [exact E|]. rewrite -> Ew. vm_compute. split; reflexivity.
Defined.

Lemma qemu_words_witness :
  (words (QemuCmd hvt_demo)).2 !! 24%nat =
    Some (dquote +:+ "netdev.ipv4_addr=10.10.10.2netdev.ipv4_gw_addr=10.10.10.1").
Proof. rewrite -> (qemu_words hvt_demo hvt_demo_spaceless). reflexivity. Defined.
End UruncCmd.
