(* ===== verification/Shim.v ===== *)
(** * The containerd shim

    [pkg/containerd-shim-v2] (service.go, create.go, start.go, delete.go,
    wait.go, stream.go, container.go, exec.go, urunc.go, utils.go, errors.go) and
    [pkg/katautils/create.go]: the service containerd talks to, over the sandbox
    of [Sandbox].

    A call holds the mutex of the service from beginning to end, so it is one
    step, a computation on [Shim].  Three calls can stop in the middle, at an
    operation on a channel, with the mutex still held: [sv_lock] says where.  The
    goroutines a call leaves behind are [sv_threads]; each moves on its own.  A
    channel that is only closed is a boolean, the channel for the exit code a
    buffer of one element.  The events sent to containerd are a list; the
    goroutine that forwards them, metrics, tracing and the management server are
    left out, and so are the timeout of a creation, the events for memory
    shortage and the map from errors to gRPC codes. *)
From S2P Require Import Prelude GoStr Types Utils Devices DeviceManager Hypervisor State Persist Mounts Interfaces.
From S2P Require Import Receiver Resources Container Sandbox Frame Files Urunc Oci UruncCmd.
Import Filepath Types.Lifecycle Types.Assets Devices.Config DeviceManager.DeviceManager HypervisorConf.
Import State Mounts Interfaces Containers Sandboxes Urunc Oci UruncCmd.

Module Shim.

(** ** Data *)

Inductive status := StatusUnknown | StatusCreated | StatusRunning | StatusStopped | StatusPaused | StatusPausing.

#[global] Instance status_eq_dec : EqDecision status.
Proof. solve_decision. Defined.

(** [exitIOch] and [stdinCloser] by whether they are closed, and the buffer of
    [exitCh]. *)
Record channels := mkChannels { ch_exitIOch : bool; ch_stdinCloser : bool; ch_exitCh : list Z }.
#[global] Instance channels_eta : Eta channels := fun r => mkChannels (ch_exitIOch r) (ch_stdinCloser r) (ch_exitCh r).
Definition new_channels : channels := mkChannels false false [].

(** Which of the streams are open. *)
Record ttyIO := mkTtyIO { tio_Stdin : bool; tio_Stdout : bool; tio_Stderr : bool }.

Record container := mkContainer {
  ct_id : string;
  ct_bundle : string;
  ct_stdin : string;
  ct_stdout : string;
  ct_stderr : string;
  ct_terminal : bool;
  ct_cType : ContainerType;
  ct_spec : Spec;
  ct_mounted : bool;
  ct_status : status;
  ct_exit : Z;
  ct_exitTime : Z;
  ct_execs : gmap string nat;
  ct_chans : channels;
  ct_stdinPipe : bool;
  ct_ttyio : option ttyIO;
}.
#[global] Instance container_eta : Eta container := fun r =>
  mkContainer (ct_id r) (ct_bundle r) (ct_stdin r) (ct_stdout r) (ct_stderr r) (ct_terminal r) (ct_cType r)
    (ct_spec r) (ct_mounted r) (ct_status r) (ct_exit r) (ct_exitTime r) (ct_execs r) (ct_chans r)
    (ct_stdinPipe r) (ct_ttyio r).

Record tty := mkTty {
  tty_stdin : string;
  tty_stdout : string;
  tty_stderr : string;
  tty_height : Z;
  tty_width : Z;
  tty_terminal : bool;
}.
#[global] Instance tty_eta : Eta tty := fun r =>
  mkTty (tty_stdin r) (tty_stdout r) (tty_stderr r) (tty_height r) (tty_width r) (tty_terminal r).

(** The container of an exec is an address. *)
Record exec := mkExec {
  ex_container : nat;
  ex_cmds : Cmd;
  ex_tty : tty;
  ex_id : string;
  ex_status : status;
  ex_exitCode : Z;
  ex_exitTime : Z;
  ex_chans : channels;
  ex_stdinPipe : bool;
  ex_ttyio : option ttyIO;
}.
#[global] Instance exec_eta : Eta exec := fun r =>
  mkExec (ex_container r) (ex_cmds r) (ex_tty r) (ex_id r) (ex_status r) (ex_exitCode r) (ex_exitTime r)
    (ex_chans r) (ex_stdinPipe r) (ex_ttyio r).

Definition spec_zero : Spec := mkSpec None None "" [] None None.
Definition container_zero : container :=
  mkContainer "" "" "" "" "" false "" spec_zero false StatusUnknown 0 0 ∅ new_channels false None.
Definition exec_zero : exec :=
  mkExec 0 Cmd_zero (mkTty "" "" "" 0 0 false) "" StatusUnknown 0 0 new_channels false None.

(** A container or an exec, by its address. *)
Inductive proc := PCont (l : nat) | PExec (l : nat).

#[global] Instance proc_eq_dec : EqDecision proc.
Proof. solve_decision. Defined.

Inductive event :=
| TaskCreate (id : string) (pid : Z)
| TaskStart (id : string) (pid : Z)
| TaskExit (cid id : string) (pid exitStatus exitedAt : Z)
| TaskDelete (id : string) (pid exitStatus exitedAt : Z)
| TaskExecAdded (id execID : string)
| TaskExecStarted (id execID : string) (pid : Z)
| TaskPaused (id : string)
| TaskResumed (id : string).

(** [exit]: what a reaped process leaves for the events. *)
Record exit := mkExit { xt_timestamp : Z; xt_id : string; xt_execid : string; xt_pid : Z; xt_status : Z }.

(** Where a goroutine is:
    [ioCopy] with the copy of the standard input still running or not,
    [Command.Wait] with that many of its statements done,
    [wait] at its start, before the streams are closed, and with the exit code
    and the time before it takes the mutex,
    the call [Wait] before it takes the exit code and before it puts it back,
    [cReap], and [watchSandbox] before and after the monitor has told of an
    error.  The process comes first, then its container and the identifier of
    the exec. *)
Inductive thread :=
| TIoCopy (p : proc) (stdin : bool)
| TCmdWait (l : nat) (done : nat)
| TBegin (l : nat) (execID : string)
| TWait (p : proc) (l : nat) (execID : string)
| TReport (p : proc) (l : nat) (execID : string) (ret timeStamp : Z)
| TRpcWait (p : proc) (l : nat)
| TRefill (p : proc) (l : nat) (ret : Z)
| TReap (id execid : string) (status timestamp : Z)
| TWatch
| TCleanup.

#[global] Instance exit_eq_dec : EqDecision exit.
Proof. solve_decision. Defined.
#[global] Instance thread_eq_dec : EqDecision thread.
Proof. solve_decision. Defined.

(** A call or a goroutine that waits with the mutex held: at the exit code of a
    failed start, at the exit code of a process that ended, and for the end of
    the standard input. *)
Inductive holder :=
| HStart (p : proc)
| HReport (p : proc) (l : nat) (execID : string) (ret timeStamp : Z)
| HCloseIO (p : proc).

Record Shim (W : Type) := mkShim {
  sv_sandbox : @Outside W + Sys W;
  sv_containers : gmap string nat;
  sv_conts : gmap nat container;
  sv_execs : gmap nat exec;
  sv_next : nat;
  sv_config : option RuntimeConfig;
  sv_id : string;
  sv_hpid : Z;
  sv_pid : Z;
  sv_monitor : bool;
  sv_events : list event;
  sv_ec : list exit;
  sv_threads : list thread;
  sv_lock : option holder;
  (** the answers [Wait] gave: exit code and time *)
  sv_waits : list (proc * Z * Z);
  (** the shim has crashed, or has ended itself *)
  sv_panic : option string;
}.
Arguments mkShim {W}.
Arguments sv_sandbox {W} _.
Arguments sv_containers {W} _.
Arguments sv_conts {W} _.
Arguments sv_execs {W} _.
Arguments sv_next {W} _.
Arguments sv_config {W} _.
Arguments sv_id {W} _.
Arguments sv_hpid {W} _.
Arguments sv_pid {W} _.
Arguments sv_monitor {W} _.
Arguments sv_events {W} _.
Arguments sv_ec {W} _.
Arguments sv_threads {W} _.
Arguments sv_lock {W} _.
Arguments sv_waits {W} _.
Arguments sv_panic {W} _.
#[global] Instance Shim_eta W : Eta (Shim W) := fun r =>
  mkShim (sv_sandbox r) (sv_containers r) (sv_conts r) (sv_execs r) (sv_next r) (sv_config r) (sv_id r) (sv_hpid r)
    (sv_pid r) (sv_monitor r) (sv_events r) (sv_ec r) (sv_threads r) (sv_lock r) (sv_waits r) (sv_panic r).

(** ** The host *)

Record SpecRootfs := mkSpecRootfs { sro_Type : string; sro_Source : string; sro_Options : list string }.

(** What the shim asks of the system besides what a sandbox does. *)
Class ShimHost (W : Type) : Type := {
  sh_oci :: OciHost;
  (** [agent.GetExecData] *)
  sh_GetExecData : W -> ExecData;
  sh_Interfaces : W -> list string;
  sh_Now : W -> Z;
  (** the specification in a bundle, with the limits its resources point at *)
  sh_ParseConfigJSON : string -> W -> res (Spec * option LinuxCPU * option LinuxMemory);
  sh_LoadConfiguration : string -> W -> res RuntimeConfig;
  sh_Getenv : string -> W -> string;
  sh_Setenv : string -> string -> M W unit;
  sh_Mkdir : string -> M W unit;
  sh_RemoveAll : string -> M W unit;
  sh_Chown : string -> Z -> Z -> M W unit;
  sh_Mount : SpecRootfs -> string -> M W unit;
  sh_UnmountAll : string -> M W unit;
  (** the hooks of a kind, in order *)
  sh_Hooks : string -> Spec -> string -> string -> M W unit;
  (** enter the namespace and come back *)
  sh_EnterNetNS : string -> M W unit;
  sh_NetNs : W -> string;
  sh_SetupNetworkNamespace : M (NetworkConfig * W) unit;
  sh_cleanupNetNS : string -> M W unit;
  sh_CreateTracer : M W unit;
  (** [HandleFactory]: whether a factory was set *)
  sh_HandleFactory : RuntimeConfig -> M W bool;
  sh_SetRootless : bool -> M W unit;
  sh_CreateVmmUser : M W string;
  sh_RemoveVmmUser : string -> M W unit;
  (** user and group identifiers *)
  sh_LookupUser : string -> W -> res (string * string);
  (** the group of a file, if the system tells *)
  sh_StatGid : string -> W -> res (option Z);
  sh_OpenFifo : string -> M W unit;
  sh_StdinPipe : M W unit;
  sh_StdoutPipe : M W unit;
  sh_StderrPipe : M W unit;
  (** start the process of a command *)
  sh_StartCommand : Command -> M W unit;
  (** kill every child process of the shim *)
  sh_KillChildren : M W unit;
  (** close the pipe to the standard input of a process *)
  sh_CloseStdin : proc -> M W unit;
  sh_KillHypervisor : Z -> M W unit;
  (** the library of containerd: the namespace of the call, the executable of
      the shim, and the socket of a shim *)
  sh_Namespace : W -> res string;
  sh_Executable : W -> res string;
  sh_Debug : W -> bool;
  sh_SocketAddress : string -> string -> W -> res string;
  sh_SocketEaddrinuse : error -> bool;
  sh_NewSocket : string -> M W unit;
  sh_SocketFile : string -> M W unit;
  sh_CloseSocket : string -> M W unit;
  sh_RemoveSocket : string -> M W unit;
  sh_WriteAddress : string -> string -> M W unit;
  sh_WritePidFile : string -> Z -> M W unit;
  (** start a program in a directory: the process *)
  sh_StartShim : string -> list string -> string -> M W Z;
  sh_KillShim : Z -> M W unit;
}.

Definition exitCode255 : Z := 255.
Definition SIGTERM : Z := 15.
Definition NydusType : string := NydusRootFSType.

(** The text of an error of virtcontainers. *)
Definition error_string (e : error) : string :=
  match e with
  | Errorf f => f
  | ErrExternal w => w
  | ErrDeviceNotExist => "device with specified ID hasn't been created"
  | ErrDeviceNotAttached => "device isn't attached"
  | ErrRemoveAttachedDevice => "can't remove attached device"
  | ErrIDExhausted => "IDs are exhausted"
  | ErrNeedSandbox => "Sandbox must be specified"
  | ErrNeedSandboxID => "Sandbox ID cannot be empty"
  | ErrNeedContainerID => "Container ID cannot be empty"
  | ErrNeedState => "State cannot be empty"
  | ErrNoSuchContainer => "Container does not exist"
  | ErrSandboxNotRunning => "Sandbox not running"
  | ErrNoGuestMemHotplug => "guest memory hotplug not supported"
  end.

Definition ENOENT : error := ErrExternal "no such file or directory".

Definition isNotFound (e : error) : bool :=
  bool_decide (e = ErrNoSuchContainer) || bool_decide (e = ENOENT) ||
  Contains (error_string e) "not found" || Contains (error_string e) "not exist".

(** [validCIDRegex]: a letter or digit, then at least one letter, digit or one
    of the characters underscore, dot and dash. *)
Definition is_alnum (c : ascii) : bool :=
  let n := Z.of_N (N_of_ascii c) in
  ((48 <=? n) && (n <=? 57)) || ((65 <=? n) && (n <=? 90)) || ((97 <=? n) && (n <=? 122)).

Definition valid_id (id : string) : bool :=
  match id with
  | String c ((String _ _) as rest) =>
      is_alnum c && str_all (fun d => is_alnum d || bool_decide (d = "_"%char) || bool_decide (d = "."%char) || bool_decide (d = "-"%char)) rest
  | _ => false
  end.

Definition VerifyContainerID (id : string) : res unit :=
  if bool_decide (id = "") then Err (Errorf "ID cannot be blank")
  else if valid_id id then Ok tt
  else Err (Errorf "invalid container/sandbox ID (should match %q)").

Definition getEnvs (envs : list string) : list EnvVar :=
  foldl (fun vcEnvs v =>
    match SplitN2 "=" v with
    | [k; w] => vcEnvs ++ [mkEnvVar k w]
    | k :: _ => vcEnvs ++ [mkEnvVar k ""]
    | [] => vcEnvs
    end) [] envs.

Definition noNeedForOutput (detach tty : bool) : bool := detach && tty.

Section Service.
Context {W : Type} `{GoRange} `{GoAppend} `{Hypervisor W} `{Agent W} `{FilesystemSharer W}
  `{ResourceController W} `{!Store W} `{HostOS W} `{ShimHost W}.

(** ** Access *)

Definition env (s : Shim W) : W :=
  match sv_sandbox s with inl o => o.1 | inr w => sb_env (w_recv w) end.

Definition readE {A} (f : W -> A) : M (Shim W) A := gets (fun s => f (env s)).

(** On the world, whether there is a sandbox or not. *)
Definition onEnv {A} (m : M W A) : M (Shim W) A := fun s =>
  match sv_sandbox s with
  | inl o => let '(r, o') := on_outside m o in (r, s <| sv_sandbox := inl o' |>)
  | inr w => let '(r, w') := onW m w in (r, s <| sv_sandbox := inr w' |>)
  end.

(** The shim crashes. *)
Definition panic {A} (what : string) : M (Shim W) A :=
  _ ← modify (fun s => s <| sv_panic := Some what |>); throw (ErrExternal what).

(** A result, where two of the errors stand for a crash. *)
Definition checked {A} (r : res A) : M (Shim W) A :=
  match r with
  | Ok a => mret a
  | Err e => if bool_decide (e = ErrNilDeref) || bool_decide (e = ErrIndexOutOfRange) then panic (error_string e) else throw e
  end.

(** A method of the sandbox; there is none to call before it was created. *)
Definition onSys {A} (m : M (Sys W) A) : M (Shim W) A := fun s =>
  match sv_sandbox s with
  | inl _ => panic "nil pointer dereference" s
  | inr w => let '(r, w') := m w in (r, s <| sv_sandbox := inr w' |>)
  end.

Definition has_sandbox (s : Shim W) : bool := match sv_sandbox s with inl _ => false | inr _ => true end.

Definition scont_at (s : Shim W) (l : nat) : container := default container_zero (sv_conts s !! l).
Definition sexec_at (s : Shim W) (l : nat) : exec := default exec_zero (sv_execs s !! l).

Definition scont (l : nat) : M (Shim W) container := gets (fun s => scont_at s l).
Definition sexec (l : nat) : M (Shim W) exec := gets (fun s => sexec_at s l).
Definition upd_scont (l : nat) (f : container -> container) : M (Shim W) unit :=
  modify (fun s => s <| sv_conts ::= alter f l |>).
Definition upd_sexec (l : nat) (f : exec -> exec) : M (Shim W) unit :=
  modify (fun s => s <| sv_execs ::= alter f l |>).

(** The channels of a process. *)
Definition chans (s : Shim W) (p : proc) : channels :=
  match p with PCont l => ct_chans (scont_at s l) | PExec l => ex_chans (sexec_at s l) end.
Definition upd_chans (p : proc) (f : channels -> channels) : M (Shim W) unit :=
  match p with
  | PCont l => upd_scont l (fun c => c <| ct_chans ::= f |>)
  | PExec l => upd_sexec l (fun e => e <| ex_chans ::= f |>)
  end.

Definition close_exitIOch (p : proc) : M (Shim W) unit :=
  ch ← gets (fun s => chans s p);
  if ch_exitIOch ch then panic "close of closed channel" else upd_chans p (fun ch => ch <| ch_exitIOch := true |>).
Definition close_stdinCloser (p : proc) : M (Shim W) unit :=
  ch ← gets (fun s => chans s p);
  if ch_stdinCloser ch then panic "close of closed channel" else upd_chans p (fun ch => ch <| ch_stdinCloser := true |>).

Definition send (e : event) : M (Shim W) unit := modify (fun s => s <| sv_events ::= fun l => l ++ [e] |>).
Definition spawn (t : thread) : M (Shim W) unit := modify (fun s => s <| sv_threads ::= fun l => l ++ [t] |>).

(** A call that does not return now, and keeps the mutex. *)
Definition ErrBlocked : error := ErrExternal "blocked".
Definition hold {A} (h : holder) : M (Shim W) A :=
  _ ← modify (fun s => s <| sv_lock := Some h |>); throw ErrBlocked.

Definition getContainer (id : string) : M (Shim W) nat :=
  cs ← gets sv_containers;
  match cs !! id with
  | Some l => mret l
  | None => throw (Errorf "container does not exist %s")
  end.

Definition getExec (c : container) (id : string) : res nat :=
  match ct_execs c !! id with
  | Some e => Ok e
  | None => Err (Errorf "exec does not exist %s")
  end.

(** ** Creation *)

(** [Options]: none; or the result of unmarshalling, with the path of the
    configuration if the message has one. *)
Record CreateRequest := mkCreateRequest {
  cr_ID : string;
  cr_Bundle : string;
  cr_Rootfs : list SpecRootfs;
  cr_Terminal : bool;
  cr_Stdin : string;
  cr_Stdout : string;
  cr_Stderr : string;
  cr_Options : option (res (option string));
}.

Definition newContainer (r : CreateRequest) (containerType : ContainerType) (spec : Spec) (mounted : bool) : container :=
  mkContainer (cr_ID r) (cr_Bundle r) (cr_Stdin r) (cr_Stdout r) (cr_Stderr r) (cr_Terminal r) containerType spec mounted
    StatusCreated 0 0 ∅ new_channels false None.

(** [filepath.Abs], then the symbolic links. *)
Definition ResolvePath (path : string) (w : W) : res string :=
  if bool_decide (path = "") then Err (Errorf "path must be specified") else
  absolute ← (if IsAbs path then Ok (Clean path) else wd ← os_Getwd w; Ok (PathJoin [wd; path]));
  match os_EvalSymlinks absolute w with
  | Ok resolved => Ok resolved
  | Err e => Err (if IsNotExist e then Errorf "file %v does not exist" else e)
  end.

Definition IsBlockDevice (filePath : string) (w : W) : bool :=
  if bool_decide (filePath = "") then false else
  match ResolvePath filePath w with
  | Err _ => false
  | Ok devicePath => match os_Stat devicePath w with Ok st => is_block st | Err _ => false end
  end.

Definition validBundle (containerID bundlePath : string) (w : W) : res string :=
  if bool_decide (containerID = "") then Err (Errorf "Missing container ID") else
  if bool_decide (bundlePath = "") then Err (Errorf "Missing bundle path") else
  match os_Stat bundlePath w with
  | Err _ => Err (Errorf "Invalid bundle path '%s': %s")
  | Ok st => if negb (IsDir st) then Err (Errorf "Invalid bundle path '%s', it should be a directory")
             else ResolvePath bundlePath w
  end.

(** The limits of a specification get memory of their own. *)
Definition alloc_limits (spec : Spec) (cpu : option LinuxCPU) (mem : option LinuxMemory) (m : Mem) : Spec * Mem :=
  let '(pc, m) := match cpu with Some c => (Some (m_next m), alloc_cpu c m) | None => (None, m) end in
  let '(pm, m) := match mem with Some c => (Some (m_next m), alloc_memory c m) | None => (None, m) end in
  (spec <| spec_Linux ::= fmap (fun l => mkSpecLinux
      ((fun r => r <| rs_CPU := pc |> <| rs_Memory := pm |>) <$> sl_Resources l) (sl_Devices l) (sl_Namespaces l)) |>, m).

(** The memory that configurations live in. *)
Definition mem_of (s : Shim W) : Mem := match sv_sandbox s with inl _ => mem_zero | inr w => sb_mem (w_recv w) end.

Definition loadSpec (r : CreateRequest) : M (Shim W) (Spec * option LinuxCPU * option LinuxMemory * string) :=
  bundlePath ← readE (validBundle (cr_ID r) (cr_Bundle r));
  bundlePath ← lift bundlePath;
  spec ← readE (sh_ParseConfigJSON bundlePath);
  spec ← lift spec;
  mret (spec, bundlePath).

(** The annotation, then the option, then the environment. *)
Definition loadRuntimeConfig (r : CreateRequest) (anno : gmap string string) : M (Shim W) RuntimeConfig :=
  config ← gets sv_config;
  match config with
  | Some c => mret c
  | None =>
      let configPath := GetSandboxConfigPath anno in
      configPath ← (if bool_decide (configPath = "") then
                      match cr_Options r with
                      | None => mret ""
                      | Some (Err e) => throw e
                      | Some (Ok p) => mret (default "" p)
                      end
                    else mret configPath);
      configPath ← (if bool_decide (configPath = "") then readE (sh_Getenv "KATA_CONF_FILE") else mret configPath);
      runtimeConfig ← readE (sh_LoadConfiguration configPath);
      runtimeConfig ← lift runtimeConfig;
      _ ← modify (fun s => s <| sv_config := Some runtimeConfig |>);
      mret runtimeConfig
  end.

Definition doMount (mounts : list SpecRootfs) (rootfs : string) : M (Shim W) unit :=
  if bool_decide (mounts = []) then mret tt else
  st ← readE (os_Stat rootfs);
  _ ← when (match st with Err e => IsNotExist e | Ok _ => false end) (onEnv (sh_Mkdir rootfs));
  for_each mounts (fun rm =>
    r ← try (onEnv (sh_Mount rm rootfs));
    match r with Ok _ => mret tt | Err _ => throw (Errorf "failed to mount rootfs component %v") end).

Definition rootfs_dir (r : CreateRequest) : string := PathJoin [cr_Bundle r; "rootfs"].

Definition checkAndMount (config : RuntimeConfig) (r : CreateRequest) : M (Shim W) bool :=
  w ← readE id;
  let direct := match cr_Rootfs r with
                | [m] => (IsBlockDevice (sro_Source m) w && negb (hc_DisableBlockDeviceUse (rc_HypervisorConfig config)))
                         || bool_decide (sro_Type m = NydusType)
                | _ => false
                end in
  if direct then mret false else
  _ ← doMount (cr_Rootfs r) (rootfs_dir r);
  mret true.

Definition set_config (f : RuntimeConfig -> RuntimeConfig) : M (Shim W) unit :=
  modify (fun s => s <| sv_config ::= fmap f |>).
Definition set_config_hc (f : HypervisorConfig -> HypervisorConfig) : M (Shim W) unit :=
  set_config (fun c => c <| rc_HypervisorConfig ::= f |>).

(** [configureNonRootHypervisor] from the point where the directory of the user
    exists: the result, and the variable [err] that the deferred functions look
    at.  The error of [Setenv] is in a variable of its own, and the last error is
    in none. *)
Definition nonroot_dir (uid gid : Z) (userTmpDir : string) : M (Shim W) (res unit * bool) :=
  r ← try (onEnv (sh_Chown userTmpDir uid gid));
  match r with
  | Err e => mret (Err e, true)
  | Ok _ =>
      r ← try (onEnv (sh_Setenv "XDG_RUNTIME_DIR" userTmpDir));
      match r with
      | Err e => mret (Err e, false)
      | Ok _ =>
          info ← readE (sh_StatGid "/dev/kvm");
          match info with
          | Err e => mret (Err e, true)
          | Ok (Some gid) => _ ← set_config_hc (fun h => h <| hc_Groups ::= fun l => l ++ [gid] |>); mret (Ok tt, false)
          | Ok None => mret (Err (Errorf "failed to get the gid of /dev/kvm"), false)
          end
      end
  end.

(** Removing the directory overwrites [err], so the user is only removed if
    that fails. *)
Definition configureNonRootHypervisor : M (Shim W) unit :=
  userName ← onEnv sh_CreateVmmUser;
  let remove_user := ignore_err (onEnv (sh_RemoveVmmUser userName)) in
  ids ← on_error
    (u ← readE (sh_LookupUser userName);
     u ← lift u;
     uid ← lift (Atoi u.1);
     gid ← lift (Atoi u.2);
     _ ← set_config_hc (fun h => h <| hc_Uid := u32 uid |> <| hc_Gid := u32 gid |>);
     let userTmpDir := PathJoin ["/run/user/"; Itoa uid] in
     st ← readE (os_Stat userTmpDir);
     _ ← when (negb (match st with Err e => IsNotExist e | Ok _ => false end)) (onEnv (sh_RemoveAll userTmpDir));
     _ ← onEnv (sh_Mkdir userTmpDir);
     mret (uid, gid, userTmpDir)) remove_user;
  let '(uid, gid, userTmpDir) := ids in
  out ← nonroot_dir uid gid userTmpDir;
  _ ← when out.2
        (removed ← try (onEnv (sh_RemoveAll userTmpDir));
         match removed with Ok _ => mret tt | Err _ => remove_user end);
  lift out.1.

Definition KataEphemeralDevType : string := "ephemeral".
Definition KataLocalDevType : string := "local".

Definition SetEphemeralStorageType (w : W) (disableGuestEmptyDir : bool) (spec : Spec) : Spec :=
  spec <| spec_Mounts ::= fmap (fun mnt =>
    let mnt' := if IsEphemeralStorage w (sm_Source mnt) then mnt <| sm_Type := KataEphemeralDevType |> else mnt in
    if Isk8sHostEmptyDir w (sm_Source mnt) && negb disableGuestEmptyDir then mnt' <| sm_Type := KataLocalDevType |>
    else mnt') |>.

Definition GetSharePath (w : W) (id : string) : string := PathJoin [kataHostSharedDir w; id; "shared"].

(** [strings.Trim] with newlines, tabs and spaces. *)
Definition is_blank (c : ascii) : bool :=
  bool_decide (N_of_ascii c = 10%N) || bool_decide (N_of_ascii c = 9%N) || bool_decide (c = " "%char).
Fixpoint trim_left (s : string) : string :=
  match s with String c s' => if is_blank c then trim_left s' else s | EmptyString => EmptyString end.
Fixpoint trim_right (s : string) : string :=
  match s with
  | EmptyString => EmptyString
  | String c s' =>
      match trim_right s' with
      | EmptyString => if is_blank c then EmptyString else String c EmptyString
      | r => String c r
      end
  end.

(** In FIPS mode the kernel of the guest is told so. *)
Definition checkForFIPS (w : W) (config : SandboxConfig) : SandboxConfig :=
  match os_ReadFile w "/proc/sys/crypto/fips_enabled" with
  | Err _ => config
  | Ok content =>
      match Atoi (trim_right (trim_left content)) with
      | Ok 1 => config <| sc_HypervisorConfig ::= fun h => h <| hc_KernelParams ::= fun l => l ++ [mkParam "fips" "1"] |> |>
      | _ => config
      end
  end.

(** The root file system of a container that is not mounted by the shim. *)
Definition resolve_rootfs (skip : bool) (rootFs : RootFs) : M (Shim W) RootFs :=
  if bool_decide (rf_Source rootFs = "") || skip then mret rootFs else
  realPath ← readE (ResolvePath (rf_Source rootFs));
  realPath ← lift realPath;
  mret (rootFs <| rf_Source := realPath |>).

Definition first_container (config : SandboxConfig) : ptr := (sl_array (sc_Containers config), 0%nat).

Definition vc_CreateSandbox (config : SandboxConfig) (m : Mem) (fromFactory : bool) : M (Shim W) unit := fun s =>
  match sv_sandbox s with
  | inl o =>
      let '(r, x) := createSandboxFromConfig exp_features config m fromFactory o in (r, s <| sv_sandbox := x |>)
  | inr _ => (Err (Errorf "cannot create another sandbox in sandbox: %s"), s)
  end.

(** A sandbox that is not returned is forgotten. *)
Definition forget_sandbox : M (Shim W) unit :=
  modify (fun s => match sv_sandbox s with inl _ => s | inr w => s <| sv_sandbox := inl (outside w) |> end).

Definition nerdctl_netns : string := "nerdctl/network-namespace".

(** [katautils.CreateSandbox].  The specification and the configuration of the
    container share their annotations, unless the specification had none. *)
Definition ku_CreateSandbox (spec : Spec) (m : Mem) (runtime : RuntimeConfig) (rootFs : RootFs)
    (containerID bundlePath : string) (disableOutput fromFactory : bool) : M (Shim W) unit :=
  let '(r, (spec, m)) := oci_SandboxConfig runtime bundlePath containerID "" disableOutput false (spec, m) in
  config ← checked r;
  w ← readE id;
  let config := config <| sc_HypervisorConfig ::= fun h => h <| hc_SharedPath := GetSharePath w containerID |> |> in
  let config := checkForFIPS w config in
  m ← (if negb (rf_Mounted rootFs) && (sl_len (sc_Containers config) =? 1)%nat then
         rootFs ← resolve_rootfs false rootFs;
         mret (State.set_config (first_container config) ((config_at m (first_container config)) <| cc_RootFs := rootFs |>) m)
       else mret m);
  net ← (fun s =>
    let '(r, (net, e)) := sh_SetupNetworkNamespace (sc_NetworkConfig config, env s) in
    let '(_, s') := onEnv (put e) s in ((_ ← r; Ok net), s'));
  on_error
    (let annotate := <[nerdctl_netns := nc_NetworkID net]> in
     let shared := bool_decide (is_Some (spec_Annotations spec)) in
     let spec := spec <| spec_Annotations := Some (annotate (annos spec)) |> in
     let m := if shared then State.set_config (first_container config)
                ((config_at m (first_container config)) <| cc_Annotations ::= annotate |>) m else m in
     let config := config <| sc_NetworkConfig := net |> <| sc_Annotations ::= annotate |> in
     _ ← onEnv (sh_Hooks "pre-start" spec containerID bundlePath);
     _ ← onEnv (sh_Hooks "createRuntime" spec containerID bundlePath);
     _ ← vc_CreateSandbox config m fromFactory;
     containers ← onSys GetAllContainers;
     if (length containers =? 1)%nat then mret tt
     else
       _ ← forget_sandbox;
       throw (Errorf "BUG: Container list from sandbox is wrong, expecting only one container, found %d containers"))
    (when (nc_NetworkCreated net) (ignore_err (onEnv (sh_cleanupNetNS (nc_NetworkID net))))).

(** [katautils.CreateContainer]. *)
Definition ku_CreateContainer (spec : Spec) (rootFs : RootFs) (containerID bundlePath : string)
    (disableOutput disableGuestEmptyDir : bool) : M (Shim W) unit :=
  w ← readE id;
  let spec := SetEphemeralStorageType w disableGuestEmptyDir spec in
  let '(r, spec) := oci_ContainerConfig bundlePath containerID "" disableOutput spec in
  contConfig ← checked r;
  contConfig ← (if rf_Mounted rootFs then mret contConfig else
                 rootFs ← resolve_rootfs (bool_decide (rf_Type rootFs = NydusRootFSType)) rootFs;
                 mret (contConfig <| cc_RootFs := rootFs |>));
  _ ← lift (SandboxID spec);
  _ ← onSys (CreateContainer contConfig);
  netNs ← readE sh_NetNs;
  _ ← onEnv (sh_EnterNetNS netNs);
  onEnv (sh_Hooks "pre-start" spec containerID bundlePath).

Definition rootfs_of (r : CreateRequest) (mounted : bool) : RootFs :=
  match cr_Rootfs r with
  | [m] => mkRootFs (sro_Source m) "" (sro_Type m) (sro_Options m) mounted
  | _ => mkRootFs "" "" "" [] mounted
  end.

(** The identifier of the hypervisor process, with its error dropped. *)
Definition set_hpid : M (Shim W) unit :=
  r ← try (onSys GetHypervisorPid);
  modify (fun s => s <| sv_hpid := u32 (match r with Ok pid => pid | Err _ => -1 end) |>).

(** The sandbox of a pod, or of a container of its own.  The function that
    unmounts after an error looks at a variable none of the calls after the
    mount assign to. *)
Definition create_sandbox (r : CreateRequest) (t : ContainerType) (spec : Spec) (m : Mem) (config : RuntimeConfig)
    (bundlePath : string) (disableOutput : bool) : M (Shim W) bool :=
  exists_ ← gets has_sandbox;
  if exists_ then throw (Errorf "cannot create another sandbox in sandbox: %s") else
  _ ← onEnv sh_CreateTracer;
  let '(cpus, mem) := if bool_decide (t = PodSandbox) then CalculateSandboxSizing spec else CalculateContainerSizing m spec in
  _ ← set_config (fun c => c <| rc_SandboxCPUs := cpus |> <| rc_SandboxMemMB := mem |>);
  mounted ← checkAndMount config r;
  config ← gets (fun s => default config (sv_config s));
  factory ← onEnv (sh_HandleFactory config);
  _ ← onEnv (sh_SetRootless (hc_Rootless (rc_HypervisorConfig config)));
  rootless ← readE os_rootless;
  _ ← when rootless configureNonRootHypervisor;
  config ← gets (fun s => default config (sv_config s));
  _ ← ku_CreateSandbox spec m config (rootfs_of r mounted) (cr_ID r) bundlePath disableOutput factory;
  _ ← set_hpid;
  mret mounted.

(** A container of a pod that exists. *)
Definition create_in_pod (r : CreateRequest) (spec : Spec) (m : Mem) (config : RuntimeConfig) (bundlePath : string)
    (disableOutput : bool) : M (Shim W) bool :=
  exists_ ← gets has_sandbox;
  if negb exists_ then throw (Errorf "BUG: Cannot start the container, since the sandbox hasn't been created") else
  mounted ← checkAndMount config r;
  _ ← onSys (writeS (fun s => s <| sb_mem := m |>));
  _ ← on_error
        (ku_CreateContainer spec (rootfs_of r mounted) (cr_ID r) bundlePath disableOutput (rc_DisableGuestEmptyDir config))
        (when mounted (ignore_err (onEnv (sh_UnmountAll (rootfs_dir r)))));
  mret mounted.

Definition create (r : CreateRequest) : M (Shim W) container :=
  loaded ← loadSpec r;
  let '(spec, cpu, mem, bundlePath) := loaded in
  containerType ← lift (oci_ContainerType spec);
  match spec_Process spec with
  | None => panic "nil pointer dereference"
  | Some process =>
      let disableOutput := noNeedForOutput (negb (cr_Terminal r)) (sp_Terminal process) in
      runtimeConfig ← loadRuntimeConfig r (annos spec);
      m ← gets mem_of;
      let '(spec, m) := alloc_limits spec cpu mem m in
      mounted ← (if IsSandbox containerType
                 then create_sandbox r containerType spec m runtimeConfig bundlePath disableOutput
                 else create_in_pod r spec m runtimeConfig bundlePath disableOutput);
      mret (newContainer r containerType spec mounted)
  end.

Definition svc_Create (r : CreateRequest) : M (Shim W) Z :=
  _ ← lift (VerifyContainerID (cr_ID r));
  c ← create r;
  l ← gets sv_next;
  _ ← modify (fun s => s <| sv_next := S l |> <| sv_conts := <[l := c <| ct_status := StatusCreated |>]> (sv_conts s) |>
                         <| sv_containers := <[cr_ID r := l]> (sv_containers s) |>);
  hpid ← gets sv_hpid;
  _ ← send (TaskCreate (cr_ID r) hpid);
  mret hpid.

(** ** Start *)

(** The descriptors opened before a failure stay open. *)
Definition newTtyIO (stdin stdout stderr : string) (console : bool) : M (Shim W) ttyIO :=
  let isIn := negb (bool_decide (stdin = "")) in
  let isOut := negb (bool_decide (stdout = "")) in
  let isErr := negb console && negb (bool_decide (stderr = "")) in
  _ ← when isIn (onEnv (sh_OpenFifo stdin));
  _ ← when isOut (onEnv (sh_OpenFifo stdout));
  _ ← when isErr (onEnv (sh_OpenFifo stderr));
  mret (mkTtyIO isIn isOut isErr).

Definition has_stdio (c : container) : bool :=
  negb (bool_decide (ct_stdin c = "")) || negb (bool_decide (ct_stdout c = "")) || negb (bool_decide (ct_stderr c = "")).

(** The streams of a container, copied in the background. *)
Definition connect_io (l : nat) : M (Shim W) unit :=
  c ← scont l;
  tty ← newTtyIO (ct_stdin c) (ct_stdout c) (ct_stderr c) (ct_terminal c);
  _ ← upd_scont l (fun c => c <| ct_ttyio := Some tty |>);
  spawn (TIoCopy (PCont l) (tio_Stdin tty)).

Definition ioPipes : M (Shim W) unit :=
  _ ← onEnv sh_StdinPipe; _ ← onEnv sh_StdoutPipe; onEnv sh_StderrPipe.

Definition SetIO (l : nat) : M (Shim W) unit :=
  _ ← ioPipes;
  _ ← upd_scont l (fun c => c <| ct_stdinPipe := true |>);
  c ← scont l;
  when (has_stdio c) (connect_io l).

(** [Command.Start]: the container is running even if the process is not. *)
Definition cmd_Start (l : nat) (cmd : Command) : M (Shim W) unit :=
  r ← try (onEnv (sh_StartCommand cmd));
  _ ← upd_scont l (fun c => c <| ct_status := StatusRunning |>);
  lift r.

Definition xilinx_xrt : string := "/opt/xilinx/xrt".
Definition xilinx_PATH : string :=
  "/opt/xilinx/xrt/bin:/opt/xilinx/xrt/bin:/opt/xilinx/xrt/bin:/opt/xilinx/xrt/bin:/home/zirong/.local/bin:/home/zirong/.pyenv/plugins/pyenv-virtualenv/shims:/home/zirong/.pyenv/shims:/home/zirong/.nix-profile/bin:/nix/var/nix/profiles/default/bin:/home/zirong/.local/bin:/home/zirong/.pyenv/plugins/pyenv-virtualenv/shims:/home/zirong/.pyenv/bin:/home/zirong/.nix-profile/bin:/nix/var/nix/profiles/default/bin:/usr/local/sbin:/usr/local/bin:/usr/sbin:/usr/bin:/sbin:/bin:/usr/games:/usr/local/games:/snap/bin:/home/zirong/funkyos//bin:/home/zirong/funkyos//bin:/usr/local/go/bin:/home/zirong/go/bin".
Definition xilinx_env : list (string * string) :=
  [("XILINX_XRT", xilinx_xrt); ("PATH", xilinx_PATH);
   ("LD_LIBRARY_PATH", "/opt/xilinx/xrt/lib:/opt/xilinx/xrt/lib:/opt/xilinx/xrt/lib:/opt/xilinx/xrt/lib:");
   ("PYTHONPATH", "/opt/xilinx/xrt/python:/opt/xilinx/xrt/python:/opt/xilinx/xrt/python:/opt/xilinx/xrt/python:")].

Definition start_command (l : nat) : M (Shim W) unit :=
  c ← scont l;
  w ← readE id;
  cmd ← checked (CreateCommand (sh_Interfaces w) (sh_GetExecData w) (ct_id c) w);
  _ ← SetIO l;
  _ ← for_each xilinx_env (fun kv => ignore_err (onEnv (sh_Setenv kv.1 kv.2)));
  _ ← cmd_Start l cmd;
  spawn (TCmdWait l 0).

Definition start_streams (l : nat) : M (Shim W) unit :=
  _ ← upd_scont l (fun c => c <| ct_status := StatusRunning |>);
  c ← scont l;
  _ ← onSys (IOStream (ct_id c));
  _ ← upd_scont l (fun c => c <| ct_stdinPipe := true |>);
  if has_stdio c then connect_io l
  else _ ← close_exitIOch (PCont l); close_stdinCloser (PCont l).

(** [s.monitor, err = s.sandbox.Monitor(ctx)]. *)
Definition start_monitor : M (Shim W) unit :=
  r ← try (onSys Monitor);
  _ ← modify (fun s => s <| sv_monitor := match r with Ok _ => true | Err _ => false end |>);
  _ ← lift r;
  spawn TWatch.

(** Start the sandbox or the container in it. *)
Definition start_in_sandbox (c : container) (unikernel : bool) : M (Shim W) unit :=
  if IsSandbox (ct_cType c) then
    if unikernel then
      _ ← ignore_err (onSys Start);
      _ ← onSys (StartContainer (ct_id c +:+ unikernel_suffix));
      mret tt
    else
      _ ← onSys Start;
      start_monitor
  else
    _ ← onSys (StartContainer (if unikernel then ct_id c +:+ unikernel_suffix else ct_id c));
    mret tt.

Definition sandbox_id (s : Shim W) : string := match sv_sandbox s with inl _ => "" | inr w => sb_id (w_recv w) end.

Definition post_start (c : container) : M (Shim W) unit :=
  netNs ← readE sh_NetNs;
  sid ← gets sandbox_id;
  ignore_err (onEnv (_ ← sh_EnterNetNS netNs; sh_Hooks "post-start" (ct_spec c) sid (ct_bundle c))).

Definition startContainer_body (l : nat) : M (Shim W) unit :=
  c ← scont l;
  if bool_decide (ct_cType c = "") then throw (Errorf "Bug, the container %s type is empty") else
  exists_ ← gets has_sandbox;
  if negb exists_ then throw (Errorf "Bug, the sandbox hasn't been created for this container %s") else
  execData ← readE sh_GetExecData;
  config ← gets sv_config;
  match config with
  | None => panic "nil pointer dereference"
  | Some config =>
      let unikernel := hc_Unikernel (rc_HypervisorConfig config) in
      if unikernel && bool_decide (ed_BinaryType execData = "") then throw (Errorf "unikernel not found in rootfs") else
      _ ← start_in_sandbox c unikernel;
      _ ← post_start c;
      _ ← (if unikernel then start_command l else start_streams l);
      spawn (TBegin l "")
  end.

(** After an error 255 is sent to who waits for the process; with the buffer
    full the call stops here. *)
Definition exit_255 {A} (p : proc) (e : error) : M (Shim W) A :=
  ch ← gets (fun s => chans s p);
  match ch_exitCh ch with
  | [] => _ ← upd_chans p (fun ch => ch <| ch_exitCh := [exitCode255] |>); throw e
  | _ => hold (HStart p)
  end.

Definition or_255 {A} (p : proc) (m : M (Shim W) A) : M (Shim W) A :=
  r ← try m;
  match r with Ok a => mret a | Err e => exit_255 p e end.

Definition startContainer (l : nat) : M (Shim W) unit := or_255 (PCont l) (startContainer_body l).

Definition startExec_body (c : container) (lc le : nat) (containerID execID : string) : M (Shim W) unit :=
  proc ← (fun s => let '(r, s') := onSys (EnterContainer containerID) s in
          (match r with Ok p => Ok p | Err _ => Err (Errorf "cannot enter container %s, with err %s") end, s'));
  _ ← upd_sexec le (fun e => e <| ex_id := pr_Token proc |> <| ex_status := StatusRunning |>);
  e ← sexec le;
  _ ← when (negb (tty_height (ex_tty e) =? 0) && negb (tty_width (ex_tty e) =? 0))
        (onSys (WinsizeProcess (ct_id c) (ex_id e) (tty_height (ex_tty e)) (tty_width (ex_tty e))));
  _ ← onSys (IOStream (ct_id c));
  _ ← upd_sexec le (fun e => e <| ex_stdinPipe := true |>);
  tty ← newTtyIO (tty_stdin (ex_tty e)) (tty_stdout (ex_tty e)) (tty_stderr (ex_tty e)) (tty_terminal (ex_tty e));
  _ ← upd_sexec le (fun e => e <| ex_ttyio := Some tty |>);
  _ ← spawn (TIoCopy (PExec le) (tio_Stdin tty));
  spawn (TBegin lc execID).

Definition startExec (containerID execID : string) : M (Shim W) unit :=
  lc ← getContainer containerID;
  c ← scont lc;
  le ← lift (getExec c execID);
  or_255 (PExec le) (startExec_body c lc le containerID execID).

Definition svc_Start (id execID : string) : M (Shim W) Z :=
  l ← getContainer id;
  _ ← (if bool_decide (execID = "") then
         _ ← startContainer l;
         c ← scont l;
         hpid ← gets sv_hpid;
         send (TaskStart (ct_id c) hpid)
       else
         _ ← startExec id execID;
         c ← scont l;
         hpid ← gets sv_hpid;
         send (TaskExecStarted (ct_id c) execID hpid));
  gets sv_hpid.

(** ** Delete and exec *)

(** A container that is not there is as good as deleted. *)
Definition unless_not_found {A} (m : M (Shim W) A) : M (Shim W) unit :=
  r ← try m;
  match r with
  | Ok _ => mret tt
  | Err e => if isNotFound e then mret tt else throw e
  end.

Definition deleteContainer (l : nat) : M (Shim W) unit :=
  c ← scont l;
  _ ← when (negb (IsSandbox (ct_cType c)))
        (_ ← when (bool_decide (ct_status c <> StatusStopped))
               (unless_not_found (onSys (StopContainer (ct_id c) false)));
         unless_not_found (onSys (DeleteContainer (ct_id c))));
  exists_ ← gets has_sandbox;
  if negb exists_ then panic "nil pointer dereference" else
  sid ← gets sandbox_id;
  _ ← ignore_err (onEnv (sh_Hooks "post-stop" (ct_spec c) sid (ct_bundle c)));
  _ ← when (ct_mounted c) (ignore_err (onEnv (sh_UnmountAll (PathJoin [ct_bundle c; "rootfs"]))));
  modify (fun s => s <| sv_containers ::= delete (ct_id c) |>).

(** The answer of [Delete]: exit code, time, process. *)
Definition svc_Delete (id execID : string) : M (Shim W) (Z * Z * Z) :=
  l ← getContainer id;
  if bool_decide (execID = "") then
    _ ← deleteContainer l;
    pid ← readE os_Getpid;
    _ ← modify (fun s => s <| sv_hpid := u32 pid |>);
    c ← scont l;
    _ ← send (TaskDelete (ct_id c) (u32 pid) (ct_exit c) (ct_exitTime c));
    mret (ct_exit c, ct_exitTime c, u32 pid)
  else
    c ← scont l;
    le ← lift (getExec c execID);
    e ← sexec le;
    _ ← upd_scont l (fun c => c <| ct_execs ::= delete execID |>);
    hpid ← gets sv_hpid;
    mret (u32 (ex_exitCode e), ex_exitTime e, hpid).

(** What [newExec] reads of the process of a request. *)
Record ProcessSpec := mkProcessSpec {
  ps_Args : list string;
  ps_Env : list string;
  ps_Cwd : string;
  ps_UID : Z;
  ps_GID : Z;
  ps_AdditionalGids : list Z;
  ps_NoNewPrivileges : bool;
  ps_ConsoleSize : option (Z * Z);
}.

(** The specification in a request: none; or the result of unmarshalling, which
    may be something else. *)
Definition newExec (lc : nat) (stdin stdout stderr : string) (terminal : bool)
    (jspec : option (res (option ProcessSpec))) : res exec :=
  match jspec with
  | None => Err (Errorf "googleProtobuf.Any points to nil")
  | Some (Err e) => Err e
  | Some (Ok None) => Err (Errorf "Get an invalid spec type")
  | Some (Ok (Some spec)) =>
      let '(height, width) := match ps_ConsoleSize spec with Some (h, w) => (u32 h, u32 w) | None => (0, 0) end in
      let cmds := mkCmd None (Itoa (ps_UID spec)) (Itoa (ps_GID spec)) (ps_Cwd spec) "" (ps_Args spec)
        (getEnvs (ps_Env spec)) (Itoa <$> ps_AdditionalGids spec) terminal (negb terminal) (ps_NoNewPrivileges spec) in
      Ok (mkExec lc cmds (mkTty stdin stdout stderr height width terminal) "" StatusCreated exitCode255 0
            new_channels false None)
  end.

Definition svc_Exec (id execID stdin stdout stderr : string) (terminal : bool)
    (spec : option (res (option ProcessSpec))) : M (Shim W) unit :=
  l ← getContainer id;
  c ← scont l;
  if bool_decide (is_Some (ct_execs c !! execID)) then throw (Errorf "id %s") else
  e ← lift (newExec l stdin stdout stderr terminal spec);
  le ← gets sv_next;
  _ ← modify (fun s => s <| sv_next := S le |> <| sv_execs := <[le := e]> (sv_execs s) |>);
  _ ← upd_scont l (fun c => c <| ct_execs := <[execID := le]> (ct_execs c) |>);
  send (TaskExecAdded (ct_id c) execID).

(** ** The other calls *)

Definition svc_ResizePty (id execID : string) (height width : Z) : M (Shim W) unit :=
  l ← getContainer id;
  c ← scont l;
  if bool_decide (execID = "") then onSys (WinsizeProcess (ct_id c) (ct_id c) height width)
  else
    le ← lift (getExec c execID);
    _ ← upd_sexec le (fun e => e <| ex_tty ::= fun t => t <| tty_height := height |> <| tty_width := width |> |>);
    e ← sexec le;
    onSys (WinsizeProcess (ct_id c) (ex_id e) height width).

Record StateResponse := mkStateResponse {
  re_ID : string;
  re_Bundle : string;
  re_Pid : Z;
  re_Status : status;
  re_Stdin : string;
  re_Stdout : string;
  re_Stderr : string;
  re_Terminal : bool;
  re_ExitStatus : Z;
  re_ExitedAt : Z;
}.

Definition svc_State (id execID : string) : M (Shim W) StateResponse :=
  l ← getContainer id;
  c ← scont l;
  hpid ← gets sv_hpid;
  if bool_decide (execID = "") then
    mret (mkStateResponse (ct_id c) (ct_bundle c) hpid (ct_status c) (ct_stdin c) (ct_stdout c) (ct_stderr c)
            (ct_terminal c) (ct_exit c) (ct_exitTime c))
  else
    le ← lift (getExec c execID);
    e ← sexec le;
    mret (mkStateResponse (ex_id e) (ct_bundle c) hpid (ex_status e) (tty_stdin (ex_tty e)) (tty_stdout (ex_tty e))
            (tty_stderr (ex_tty e)) (tty_terminal (ex_tty e)) (u32 (ex_exitCode e)) (ex_exitTime e)).

(** A state without a case of its own leaves the zero value. *)
Definition status_of (st : StateString) : status :=
  if bool_decide (st = StateReady) then StatusCreated
  else if bool_decide (st = StateRunning) then StatusRunning
  else if bool_decide (st = StatePaused) then StatusPaused
  else if bool_decide (st = StateStopped) then StatusStopped
  else StatusUnknown.

Definition getContainerStatus (containerID : string) : M (Shim W) status :=
  cStatus ← onSys (StatusContainer containerID);
  mret (status_of (cs_State (cst_State cStatus))).

(** After a call that failed, the status is what the sandbox says. *)
Definition refresh_status (l : nat) : M (Shim W) unit :=
  c ← scont l;
  r ← try (getContainerStatus (ct_id c));
  upd_scont l (fun c => c <| ct_status := match r with Ok st => st | Err _ => StatusUnknown end |>).

Definition svc_Pause (id : string) : M (Shim W) unit :=
  l ← getContainer id;
  _ ← upd_scont l (fun c => c <| ct_status := StatusPausing |>);
  r ← try (onSys (PauseContainer id));
  match r with
  | Ok _ =>
      _ ← upd_scont l (fun c => c <| ct_status := StatusPaused |>);
      c ← scont l;
      send (TaskPaused (ct_id c))
  | Err e => _ ← refresh_status l; throw e
  end.

Definition svc_Resume (id : string) : M (Shim W) unit :=
  l ← getContainer id;
  c ← scont l;
  r ← try (onSys (ResumeContainer (ct_id c)));
  match r with
  | Ok _ =>
      _ ← upd_scont l (fun c => c <| ct_status := StatusRunning |>);
      send (TaskResumed (ct_id c))
  | Err e => _ ← refresh_status l; throw e
  end.

(** Every child process is killed first, before the mutex is taken. *)
Definition svc_Kill (id execID : string) (signum : Z) (all : bool) : M (Shim W) unit :=
  _ ← ignore_err (onEnv sh_KillChildren);
  l ← getContainer id;
  c ← scont l;
  target ← (if bool_decide (execID = "") then mret (ct_status c, ct_id c, true)
            else
              le ← lift (getExec c execID);
              e ← sexec le;
              if bool_decide (ex_id e = "") then throw (Errorf "The exec process does not exist")
              else mret (ex_status e, ex_id e, all));
  let '(processStatus, processID, all) := target in
  if (bool_decide (signum = SIGKILL) || bool_decide (signum = SIGTERM)) && bool_decide (processStatus = StatusStopped)
  then mret tt
  else onSys (SignalProcess (ct_id c) processID signum all).

Definition svc_Pids : M (Shim W) (list Z) := hpid ← gets sv_hpid; mret [hpid].

Definition stdin_of (s : Shim W) (p : proc) : bool :=
  match p with PCont l => ct_stdinPipe (scont_at s l) | PExec l => ex_stdinPipe (sexec_at s l) end.

(** From where the copy of the standard input has ended. *)
Definition close_stdin (p : proc) : M (Shim W) unit :=
  stdin ← gets (fun s => stdin_of s p);
  if stdin then onEnv (sh_CloseStdin p) else panic "nil pointer dereference".

Definition svc_CloseIO (id execID : string) : M (Shim W) unit :=
  l ← getContainer id;
  c ← scont l;
  p ← (if bool_decide (execID = "") then mret (PCont l) else le ← lift (getExec c execID); mret (PExec le));
  ch ← gets (fun s => chans s p);
  if ch_stdinCloser ch then close_stdin p else hold (HCloseIO p).

Definition svc_Checkpoint : M (Shim W) unit := throw (Errorf "service Checkpoint").

Definition svc_Connect : M (Shim W) (Z * Z) := s ← get; mret (sv_pid s, sv_hpid s).

(** With containers left nothing happens; otherwise the shim ends. *)
Definition exited : string := "exit".
Definition svc_Shutdown : M (Shim W) unit :=
  cs ← gets sv_containers;
  if bool_decide (cs = ∅) then
    hpid ← gets sv_hpid;
    _ ← ignore_err (onEnv (sh_KillHypervisor hpid));
    modify (fun s => s <| sv_panic := Some exited |>)
  else mret tt.

Definition svc_Stats (id : string) : M (Shim W) unit :=
  l ← getContainer id;
  c ← scont l;
  onSys (StatsContainer (ct_id c)).

(** The resources of a request, if the message holds any. *)
Definition svc_Update (id : string) (resources : res (option (option LinuxCPU * option LinuxMemory))) : M (Shim W) unit :=
  v ← lift resources;
  match v with
  | None => throw (Errorf "Invalid resources type for %s")
  | Some (cpu, mem) => onSys (UpdateContainer id cpu mem)
  end.

(** The call goes on without the mutex; the process is looked up with it here,
    right after it was released in the code. *)
Definition svc_Wait (id execID : string) : M (Shim W) unit :=
  l ← getContainer id;
  c ← scont l;
  p ← (if bool_decide (execID = "") then mret (PCont l) else le ← lift (getExec c execID); mret (PExec le));
  spawn (TRpcWait p l).

(** ** The goroutines *)

Definition push_exitCh (p : proc) (code : Z) : M (Shim W) unit :=
  upd_chans p (fun ch => ch <| ch_exitCh := [code] |>).

(** [wait] with the mutex, up to the exit code: a sandbox ends with its container.
    The nil that cancels the watcher before that is left out: the channel is
    buffered, so that sending it does not wait, and the watcher of the model may
    tell of an error at any time, cancelled or not. *)
Definition report_body (p : proc) (l : nat) (execID : string) (ret timeStamp : Z) : M (Shim W) unit :=
  if bool_decide (execID = "") then
    c ← scont l;
    _ ← (if IsSandbox (ct_cType c) then _ ← ignore_err (onSys (Stop true)); ignore_err (onSys Delete)
         else ignore_err (onSys (StopContainer (ct_id c) false)));
    upd_scont l (fun c => c <| ct_status := StatusStopped |> <| ct_exit := u32 ret |> <| ct_exitTime := timeStamp |>)
  else
    match p with
    | PExec le => upd_sexec le (fun e => e <| ex_status := StatusStopped |> <| ex_exitCode := ret |> <| ex_exitTime := timeStamp |>)
    | PCont _ => mret tt
    end.

(** [ttyIO.close]. *)
Definition close_tty (p : proc) : M (Shim W) unit :=
  let closed := fmap (fun t => mkTtyIO false (tio_Stdout t) (tio_Stderr t)) in
  match p with
  | PCont l => upd_scont l (fun c => c <| ct_ttyio ::= closed |>)
  | PExec l => upd_sexec l (fun e => e <| ex_ttyio ::= closed |>)
  end.

(** The exit code is sent, and the exit is on its way to the events. *)
Definition report_done (p : proc) (l : nat) (execID : string) (ret timeStamp : Z) : M (Shim W) unit :=
  _ ← push_exitCh p (u32 ret);
  c ← scont l;
  spawn (TReap (ct_id c) execID ret timeStamp).

Definition report (p : proc) (l : nat) (execID : string) (ret timeStamp : Z) : M (Shim W) unit :=
  _ ← report_body p l execID ret timeStamp;
  ch ← gets (fun s => chans s p);
  match ch_exitCh ch with
  | [] => report_done p l execID ret timeStamp
  | _ => hold (HReport p l execID ret timeStamp)
  end.

(** The exit code of an error is the zero value. *)
Definition wait_process (p : proc) (l : nat) (execID : string) : M (Shim W) unit :=
  s ← get;
  let processID := match p with PExec le => ex_id (sexec_at s le) | PCont _ => ct_id (scont_at s l) end in
  r ← try (onSys (WaitProcess (ct_id (scont_at s l)) processID));
  now ← readE sh_Now;
  spawn (TReport p l execID (match r with Ok ret => ret | Err _ => 0 end) now).

(** [watchSandbox] after the monitor has told of an error. *)
Definition watch_cleanup : M (Shim W) unit :=
  _ ← ignore_err (onSys (Stop true));
  _ ← ignore_err (onSys Delete);
  cs ← gets (fun s => range_map (sv_containers s));
  for_each cs (fun kl =>
    c ← scont kl.2;
    when (ct_mounted c) (ignore_err (onEnv (sh_UnmountAll (PathJoin [ct_bundle c; "rootfs"]))))).

Definition is_free (s : Shim W) : bool := bool_decide (sv_lock s = None).

(** A goroutine that has been taken off the list: [None] if it cannot go on. *)
Definition run_thread (t : thread) (s : Shim W) : option (Shim W) :=
  let go (m : M (Shim W) unit) := Some (m s).2 in
  match t with
  | TIoCopy p true => go (_ ← close_stdinCloser p; spawn (TIoCopy p false))
  | TIoCopy p false => go (_ ← close_tty p; close_exitIOch p)
  | TCmdWait l 0 => go (_ ← close_exitIOch (PCont l); spawn (TCmdWait l 1))
  | TCmdWait l 1 => go (_ ← close_stdinCloser (PCont l); spawn (TCmdWait l 2))
  | TCmdWait l _ => go (upd_scont l (fun c => c <| ct_status := StatusStopped |>))
  | TBegin l execID =>
      if bool_decide (execID = "") then go (spawn (TWait (PCont l) l ""))
      else match getExec (scont_at s l) execID with
           | Ok le => go (spawn (TWait (PExec le) l execID))
           | Err _ => Some s
           end
  | TWait p l execID => if ch_exitIOch (chans s p) then go (wait_process p l execID) else None
  | TReport p l execID ret timeStamp => if is_free s then go (report p l execID ret timeStamp) else None
  | TRpcWait p l =>
      match ch_exitCh (chans s p) with
      | ret :: _ => go (_ ← upd_chans p (fun ch => ch <| ch_exitCh := [] |>); spawn (TRefill p l ret))
      | [] => None
      end
  | TRefill p l ret =>
      match ch_exitCh (chans s p) with
      | [] => go (_ ← push_exitCh p ret;
                  modify (fun s => s <| sv_waits ::= fun ws => ws ++ [(p, ret, ct_exitTime (scont_at s l))] |>))
      | _ => None
      end
  | TReap id execid ret timeStamp =>
      go (modify (fun s => s <| sv_ec ::= fun l => l ++ [mkExit timeStamp id execid (sv_hpid s) ret] |>))
  | TWatch => Some s
  | TCleanup => if is_free s then go watch_cleanup else None
  end.

(** [checkProcesses]: the next exit becomes an event. *)
Definition checkProcesses (e : exit) : M (Shim W) unit :=
  send (TaskExit (xt_id e) (if bool_decide (xt_execid e = "") then xt_id e else xt_execid e) (xt_pid e)
          (u32 (xt_status e)) (xt_timestamp e)).

Definition processExits (s : Shim W) : option (Shim W) :=
  match sv_ec s with
  | e :: rest => if is_free s then Some (checkProcesses e (s <| sv_ec := rest |>)).2 else None
  | [] => None
  end.

(** The one with the mutex goes on. *)
Definition run_holder (h : holder) (s : Shim W) : option (Shim W) :=
  let go (m : M (Shim W) unit) := Some (m (s <| sv_lock := None |>)).2 in
  match h with
  | HStart p => match ch_exitCh (chans s p) with [] => go (push_exitCh p exitCode255) | _ => None end
  | HReport p l execID ret timeStamp =>
      match ch_exitCh (chans s p) with [] => go (report_done p l execID ret timeStamp) | _ => None end
  | HCloseIO p => if ch_stdinCloser (chans s p) then go (close_stdin p) else None
  end.

(** ** The service *)

Inductive request :=
| RCreate (r : CreateRequest)
| RStart (id execID : string)
| RDelete (id execID : string)
| RExec (id execID stdin stdout stderr : string) (terminal : bool) (spec : option (res (option ProcessSpec)))
| RResizePty (id execID : string) (height width : Z)
| RState (id execID : string)
| RPause (id : string)
| RResume (id : string)
| RKill (id execID : string) (signum : Z) (all : bool)
| RPids
| RCloseIO (id execID : string)
| RCheckpoint
| RConnect
| RShutdown
| RStats (id : string)
| RUpdate (id : string) (resources : res (option (option LinuxCPU * option LinuxMemory)))
| RWait (id execID : string).

Definition void {A} (m : M (Shim W) A) : M (Shim W) unit := _ ← m; mret tt.

Definition serve (r : request) : M (Shim W) unit :=
  match r with
  | RCreate r => void (svc_Create r)
  | RStart id execID => void (svc_Start id execID)
  | RDelete id execID => void (svc_Delete id execID)
  | RExec id execID stdin stdout stderr terminal spec => svc_Exec id execID stdin stdout stderr terminal spec
  | RResizePty id execID height width => svc_ResizePty id execID height width
  | RState id execID => void (svc_State id execID)
  | RPause id => svc_Pause id
  | RResume id => svc_Resume id
  | RKill id execID signum all => svc_Kill id execID signum all
  | RPids => void svc_Pids
  | RCloseIO id execID => svc_CloseIO id execID
  | RCheckpoint => svc_Checkpoint
  | RConnect => void svc_Connect
  | RShutdown => svc_Shutdown
  | RStats id => svc_Stats id
  | RUpdate id resources => svc_Update id resources
  | RWait id execID => svc_Wait id execID
  end.

(** [New]. *)
Definition new_service (id : string) (o : @Outside W) : Shim W :=
  mkShim (inl o) ∅ ∅ ∅ 0 None id 0 (u32 (os_Getpid o.1)) false [] [] [] None [] None.

(** A call takes the mutex; [Kill] kills before it does. *)
Inductive step : Shim W -> Shim W -> Prop :=
| step_request r s : sv_panic s = None -> sv_lock s = None -> step s (serve r s).2
| step_kill s : sv_panic s = None -> step s (onEnv sh_KillChildren s).2
| step_thread l1 t l2 s s' :
    sv_panic s = None -> sv_threads s = l1 ++ t :: l2 -> run_thread t (s <| sv_threads := l1 ++ l2 |>) = Some s' ->
    step s s'
| step_error l1 l2 s :
    sv_panic s = None -> sv_threads s = l1 ++ TWatch :: l2 -> sv_monitor s = true ->
    step s (s <| sv_threads := l1 ++ l2 ++ [TCleanup] |> <| sv_monitor := false |>)
| step_exits s s' : sv_panic s = None -> processExits s = Some s' -> step s s'
| step_holder h s s' : sv_panic s = None -> sv_lock s = Some h -> run_holder h s = Some s' -> step s s'.

Definition steps : Shim W -> Shim W -> Prop := rtc step.

Definition reachable (s : Shim W) : Prop := exists id o, steps (new_service id o) s.

(** ** The binary calls: a process of its own, that ends with the call *)

Definition cleanupContainer (sandboxID cid bundlePath : string) : M (@Outside W) unit :=
  _ ← CleanupContainer exp_features sandboxID cid true;
  on_outside (sh_UnmountAll (PathJoin [bundlePath; "rootfs"])).

(** The answer: exit code and time. *)
Definition Cleanup (id : string) : M (@Outside W) (Z * Z) :=
  if bool_decide (id = "") then throw (Errorf "the container id is empty, please specify the container id") else
  path ← gets (fun o => os_Getwd o.1);
  path ← lift path;
  spec ← gets (fun o => sh_ParseConfigJSON path o.1);
  spec ← lift spec;
  let '(spec, _, _) := spec in
  containerType ← lift (oci_ContainerType spec);
  sandboxID ← (if IsSandbox containerType then mret id else lift (SandboxID spec));
  _ ← cleanupContainer sandboxID id path;
  now ← gets (fun o => sh_Now o.1);
  mret (128 + SIGKILL, now).

(** The address of the shim of a pod, empty if there is none yet. *)
Definition getAddress (bundlePath address id : string) (w : W) : res string :=
  bundlePath ← validBundle id bundlePath w;
  spec ← sh_ParseConfigJSON bundlePath w;
  let '(spec, _, _) := spec in
  containerType ← oci_ContainerType spec;
  if bool_decide (containerType = PodContainer) then
    sandboxID ← SandboxID spec;
    sh_SocketAddress address sandboxID w
  else Ok "".

(** The program, its arguments and its directory. *)
Definition newCommand (id containerdBinary containerdAddress : string) (w : W) : res (string * list string * string) :=
  ns ← sh_Namespace w;
  self ← sh_Executable w;
  cwd ← os_Getwd w;
  let args := ["-namespace"; ns; "-address"; containerdAddress; "-publish-binary"; containerdBinary; "-id"; id] in
  Ok (self, if sh_Debug w then args ++ ["-debug"] else args, cwd).

(** A socket that is in use is replaced. *)
Definition new_socket (address : string) : M W unit :=
  r ← try (sh_NewSocket address);
  match r with
  | Ok _ => mret tt
  | Err e =>
      if negb (sh_SocketEaddrinuse e) then throw e else
      removed ← try (sh_RemoveSocket address);
      match removed with
      | Err _ => throw (Errorf "remove already used socket")
      | Ok _ => sh_NewSocket address
      end
  end.

(** The deferred functions run in the reverse order. *)
Definition StartShim (id containerdBinary containerdAddress : string) : M W string :=
  bundlePath ← gets os_Getwd;
  bundlePath ← lift bundlePath;
  address ← gets (getAddress bundlePath containerdAddress id);
  address ← lift address;
  if negb (bool_decide (address = "")) then _ ← sh_WriteAddress "address" address; mret address else
  cmd ← gets (newCommand id containerdBinary containerdAddress);
  cmd ← lift cmd;
  let '(self, args, cwd) := cmd in
  address ← gets (sh_SocketAddress containerdAddress id);
  address ← lift address;
  _ ← new_socket address;
  on_error
    (_ ← sh_SocketFile address;
     pid ← sh_StartShim self args cwd;
     on_error
       (_ ← sh_WritePidFile "shim.pid" pid;
        _ ← sh_WriteAddress "address" address;
        mret address)
       (ignore_err (sh_KillShim pid)))
    (_ ← ignore_err (sh_CloseSocket address);
     ignore_err (sh_RemoveSocket address)).

End Service.
End Shim.
