(* ===== verification/ShimSpec.v ===== *)
(** * Properties of the shim

    What holds in every state the service of [Shim] can reach, whatever calls
    arrive and however its goroutines are scheduled, and what the calls do. *)
From S2P Require Import Prelude GoStr Types Utils Devices DeviceManager Hypervisor State Persist Mounts Interfaces.
From S2P Require Import Receiver Resources Container Sandbox Frame Files Urunc Oci UruncCmd Shim.
Import Filepath Types.Lifecycle Types.Assets Devices.Config DeviceManager.DeviceManager HypervisorConf.
Import State Mounts Interfaces Containers Sandboxes Urunc Oci UruncCmd Shim.

Module ShimFacts.

Section Facts.
Context {W : Type} `{GoRange} `{GoAppend} `{Hypervisor W} `{Agent W} `{FilesystemSharer W}
  `{ResourceController W} `{!Store W} `{HostOS W} `{ShimHost W}.

(** ** What calls leave alone *)

(** The identifiers and the execs of the containers, and the container of an exec. *)
Definition cores (s : Shim W) : gmap nat (string * gmap string nat) := (fun c => (ct_id c, ct_execs c)) <$> sv_conts s.
Definition owners (s : Shim W) : gmap nat nat := ex_container <$> sv_execs s.

Definition not_exit (e : event) : Prop := match e with TaskExit _ _ _ _ _ => False | _ => True end.

(** A goroutine that neither waits for a process nor reports one. *)
Definition harmless (t : thread) : Prop :=
  match t with TIoCopy _ _ | TCmdWait _ _ | TWatch | TCleanup | TRpcWait _ _ => True | _ => False end.
Definition quiet (h : option holder) : Prop :=
  match h with Some (HReport _ _ _ _ _) => False | _ => True end.

(** The codes a process may find: those before, and the one of a failed start. *)
Definition codes (s : Shim W) (p : proc) : list Z := ch_exitCh (chans s p).

Record frame (s s' : Shim W) : Prop := {
  fr_cores : cores s' = cores s;
  fr_owners : owners s' = owners s;
  fr_next : sv_next s' = sv_next s;
  fr_containers : sv_containers s' ⊆ sv_containers s;
  fr_events : exists evs, sv_events s' = sv_events s ++ evs /\ Forall not_exit evs;
  fr_ec : sv_ec s' = sv_ec s;
  fr_threads : exists ts, sv_threads s' = sv_threads s ++ ts /\ Forall harmless ts;
  fr_lock : sv_lock s' = sv_lock s \/ quiet (sv_lock s');
  fr_waits : sv_waits s' = sv_waits s;
  fr_codes p : codes s' p ⊆ exitCode255 :: codes s p;
}.

#[export] Instance frame_preorder : PreOrder frame.
Proof.
  split.
  - intros s. split; try done; try (exists []; by rw app_nil_r); [by left|]. intros p z Hz. by right.
  - intros s1 s2 s3 [C1 O1 N1 I1 (e1 & E1 & F1) Q1 (t1 & T1 & G1) L1 W1 X1] [C2 O2 N2 I2 (e2 & E2 & F2) Q2 (t2 & T2 & G2) L2 W2 X2].
    split; try congruence.
    + by etrans.
    + exists (e1 ++ e2). rw E2 E1 -app_assoc. split; [done|by apply Forall_app].
    + exists (t1 ++ t2). rw T2 T1 -app_assoc. split; [done|by apply Forall_app].
    + destruct L2 as [-> |?]; [done|by right].
    + intros p z Hz. specialize (X2 p z Hz). apply elem_of_cons in X2 as [-> |X2]; [by left|by apply X1].
Qed.

(** An update that does not touch what [frame] looks at. *)
Lemma frame_same (f : (Shim W) -> (Shim W)) :
  (forall s, cores (f s) = cores s) -> (forall s, owners (f s) = owners s) -> (forall s, sv_next (f s) = sv_next s) ->
  (forall s, sv_containers (f s) ⊆ sv_containers s) -> (forall s, sv_events (f s) = sv_events s) ->
  (forall s, sv_ec (f s) = sv_ec s) -> (forall s, sv_threads (f s) = sv_threads s) -> (forall s, sv_lock (f s) = sv_lock s) ->
  (forall s, sv_waits (f s) = sv_waits s) -> (forall s p, codes (f s) p ⊆ exitCode255 :: codes s p) ->
  stays frame (modify f).
Proof.
  intros ? ? ? ? HE ? HT ? ? ?. apply stays_modify. intros s. split; auto.
  - exists []. by rw HE app_nil_r.
  - exists []. by rw HT app_nil_r.
Qed.

Lemma codes_self (s s' : Shim W) p : codes s' p = codes s p -> codes s' p ⊆ exitCode255 :: codes s p.
Proof. intros -> z Hz. by right. Qed.

Lemma scont_alter (f : container -> container) l (s : Shim W) l' :
  scont_at (s <| sv_conts ::= alter f l |>) l' =
  if bool_decide (l = l' /\ is_Some (sv_conts s !! l)) then f (scont_at s l') else scont_at s l'.
Proof.
  unfold scont_at. simpl. case_bool_decide as Hl.
  - destruct Hl as [-> [c Hc]]. by rw lookup_alter_eq Hc.
  - destruct (decide (l = l')) as [-> |Hne]; [|by rw lookup_alter_ne].
    rw lookup_alter_eq. destruct (sv_conts s !! l') eqn:E; [|done]. exfalso. apply Hl. eauto.
Qed.

Lemma sexec_alter (f : exec -> exec) l (s : Shim W) l' :
  sexec_at (s <| sv_execs ::= alter f l |>) l' =
  if bool_decide (l = l' /\ is_Some (sv_execs s !! l)) then f (sexec_at s l') else sexec_at s l'.
Proof.
  unfold sexec_at. simpl. case_bool_decide as Hl.
  - destruct Hl as [-> [c Hc]]. by rw lookup_alter_eq Hc.
  - destruct (decide (l = l')) as [-> |Hne]; [|by rw lookup_alter_ne].
    rw lookup_alter_eq. destruct (sv_execs s !! l') eqn:E; [|done]. exfalso. apply Hl. eauto.
Qed.

Lemma fmap_alter_same {A B} (g : A -> B) (f : A -> A) (m : gmap nat A) l :
  (forall x, g (f x) = g x) -> g <$> alter f l m = g <$> m.
Proof.
  intros Hg. apply map_eq. intros i. rw !lookup_fmap. destruct (decide (i = l)) as [-> |Hne].
  - rw lookup_alter_eq. destruct (m !! l); simpl; [by rw Hg|done].
  - by rw lookup_alter_ne.
Qed.

(** The exit codes of a container or an exec after an update that leaves them,
    or replaces them by the code of a failed start. *)
Lemma frame_upd_scont l f :
  (forall c, ct_id (f c) = ct_id c) -> (forall c, ct_execs (f c) = ct_execs c) ->
  (forall c, ch_exitCh (ct_chans (f c)) ⊆ exitCode255 :: ch_exitCh (ct_chans c)) ->
  stays frame (upd_scont l f : M (Shim W) unit).
Proof.
  intros Hid Hex Hch. apply frame_same; try done.
  - intros s. apply fmap_alter_same. intros c. by rw Hid Hex.
  - intros s [l'|l']; [|by apply codes_self]. unfold codes, chans. rw scont_alter. case_bool_decide; [apply Hch|by intros z Hz; right].
Qed.

Lemma frame_upd_sexec l f :
  (forall e, ex_container (f e) = ex_container e) ->
  (forall e, ch_exitCh (ex_chans (f e)) ⊆ exitCode255 :: ch_exitCh (ex_chans e)) ->
  stays frame (upd_sexec l f : M (Shim W) unit).
Proof.
  intros Hc Hch. apply frame_same; try done.
  - intros s. by apply fmap_alter_same.
  - intros s [l'|l']; [by apply codes_self|]. unfold codes, chans. rw sexec_alter. case_bool_decide; [apply Hch|by intros z Hz; right].
Qed.

Lemma frame_upd_chans p f :
  (forall ch, ch_exitCh (f ch) ⊆ exitCode255 :: ch_exitCh ch) -> stays frame (upd_chans p f : M (Shim W) unit).
Proof. intros Hf. destruct p; [apply frame_upd_scont|apply frame_upd_sexec]; try done; intros c; apply Hf. Qed.

Lemma frame_send e : not_exit e -> stays frame (send e : M (Shim W) unit).
Proof.
  intros He. apply stays_modify. intros s. split; try done.
  - exists [e]. by split; [|apply Forall_singleton].
  - exists []. by rw app_nil_r.
  - by left.
  - by intros ?; apply codes_self.
Qed.

Lemma frame_spawn t : harmless t -> stays frame (spawn t : M (Shim W) unit).
Proof.
  intros Ht. apply stays_modify. intros s. split; try done.
  - exists []. by rw app_nil_r.
  - exists [t]. by split; [|apply Forall_singleton].
  - by left.
  - by intros ?; apply codes_self.
Qed.

Lemma frame_hold {A} h : quiet (Some h) -> stays frame (hold h : M (Shim W) A).
Proof.
  intros Hh. unfold hold. apply stays_bind; [apply _| |intros _; apply stays_throw; apply _].
  apply stays_modify. intros s. split; try done; try (exists []; by rw app_nil_r); [by right|by intros ?; apply codes_self].
Qed.

(** The sandbox and the world are not looked at. *)
Lemma frame_sandbox (s : Shim W) x : frame s (s <| sv_sandbox := x |>).
Proof. split; try done; try (exists []; by rw app_nil_r); [by left|by intros ?; apply codes_self]. Qed.

Lemma frame_onEnv {A} (m : M W A) : stays frame (onEnv m).
Proof.
  intros s. unfold onEnv. destruct (sv_sandbox s) as [o|w].
  - destruct (on_outside m o) as [r o']. apply frame_sandbox.
  - destruct (onW m w) as [r w']. apply frame_sandbox.
Qed.

Ltac frame_field := apply frame_same; done || (intros; by apply codes_self).

Lemma frame_panic {A} what : stays frame (panic what : M (Shim W) A).
Proof. unfold panic. apply stays_bind; [apply _|frame_field|intros _; apply stays_throw; apply _]. Qed.

Lemma frame_onSys {A} (m : M (Sys W) A) : stays frame (onSys m).
Proof.
  intros s. unfold onSys. destruct (sv_sandbox s) as [o|w]; [apply frame_panic|].
  destruct (m w) as [r w']. apply frame_sandbox.
Qed.

Lemma frame_readE {A} (f : W -> A) : stays frame (readE f).
Proof. apply stays_gets; apply _. Qed.
Lemma frame_scont l : stays frame (scont l : M (Shim W) container).
Proof. apply stays_gets; apply _. Qed.
Lemma frame_sexec l : stays frame (sexec l : M (Shim W) exec).
Proof. apply stays_gets; apply _. Qed.
Lemma frame_checked {A} (r : res A) : stays frame (checked r : M (Shim W) A).
Proof. unfold checked. pose proof (@frame_panic A). stays. Qed.
Lemma frame_ignore {A} (m : M (Shim W) A) : stays frame m -> stays frame (ignore_err m).
Proof. intros Hm. unfold ignore_err. stays. Qed.
Lemma frame_getContainer id : stays frame (getContainer id : M (Shim W) nat).
Proof. unfold getContainer. stays. Qed.

#[local] Hint Resolve frame_onEnv frame_onSys frame_panic frame_readE frame_scont frame_sexec frame_checked
  frame_ignore frame_getContainer : stays.
#[local] Hint Extern 1 (stays frame (send _)) => apply frame_send; done : stays.
#[local] Hint Extern 1 (stays frame (spawn _)) => apply frame_spawn; done : stays.
#[local] Hint Extern 1 (stays frame (hold _)) => apply frame_hold; done : stays.
#[local] Hint Extern 1 (stays frame (upd_scont _ _)) => apply frame_upd_scont; (done || by intros ? ? ?; right) : stays.
#[local] Hint Extern 1 (stays frame (upd_sexec _ _)) => apply frame_upd_sexec; (done || by intros ? ? ?; right) : stays.
#[local] Hint Extern 1 (stays frame (upd_chans _ _)) => apply frame_upd_chans; (by intros ? ? ?; right) : stays.
#[local] Hint Extern 2 (stays frame (modify _)) => frame_field : stays.

Lemma frame_close_exitIOch p : stays frame (close_exitIOch p : M (Shim W) unit).
Proof. unfold close_exitIOch. stays. Qed.
Lemma frame_close_stdinCloser p : stays frame (close_stdinCloser p : M (Shim W) unit).
Proof. unfold close_stdinCloser. stays. Qed.
#[local] Hint Resolve frame_close_exitIOch frame_close_stdinCloser : stays.

(** *** Creation *)

Lemma frame_loadRuntimeConfig r anno : stays frame (loadRuntimeConfig r anno).
Proof. unfold loadRuntimeConfig. stays. Qed.
Lemma frame_checkAndMount config r : stays frame (checkAndMount config r).
Proof. unfold checkAndMount, doMount. stays. Qed.
Lemma frame_configureNonRoot : stays frame configureNonRootHypervisor.
Proof. unfold configureNonRootHypervisor, nonroot_dir, set_config_hc, set_config. stays. Qed.
Lemma frame_resolve skip rootFs : stays frame (resolve_rootfs skip rootFs).
Proof. unfold resolve_rootfs. stays. Qed.
Lemma frame_vc_CreateSandbox config m f : stays frame (vc_CreateSandbox config m f).
Proof.
  intros s. unfold vc_CreateSandbox. destruct (sv_sandbox s) as [o|w]; [|reflexivity].
  destruct (createSandboxFromConfig _ _ _ _ _) as [r x]. apply frame_sandbox.
Qed.
Lemma frame_forget : stays frame forget_sandbox.
Proof. apply stays_modify. intros s. destruct (sv_sandbox s); [reflexivity|apply frame_sandbox]. Qed.
#[local] Hint Resolve frame_loadRuntimeConfig frame_checkAndMount frame_configureNonRoot frame_resolve
  frame_vc_CreateSandbox frame_forget : stays.

Lemma frame_network (config : NetworkConfig) :
  stays frame (fun s : Shim W =>
    let '(r, (net, e)) := sh_SetupNetworkNamespace (config, env s) in
    let '(_, s') := onEnv (put e) s in ((_ ← r; Ok net), s')).
Proof.
  intros s. destruct (sh_SetupNetworkNamespace (config, env s)) as [r [net e]].
  pose proof (frame_onEnv (put e) s) as Hf. by destruct (onEnv (put e) s).
Qed.
#[local] Hint Resolve frame_network : stays.

Lemma frame_ku_CreateSandbox spec m config rootFs id bundlePath out factory :
  stays frame (ku_CreateSandbox spec m config rootFs id bundlePath out factory).
Proof. unfold ku_CreateSandbox. stays. Qed.
Lemma frame_ku_CreateContainer spec rootFs id bundlePath out empty :
  stays frame (ku_CreateContainer spec rootFs id bundlePath out empty).
Proof. unfold ku_CreateContainer. stays. Qed.
#[local] Hint Resolve frame_ku_CreateSandbox frame_ku_CreateContainer : stays.

Lemma frame_create r : stays frame (create r).
Proof. unfold create, loadSpec, create_sandbox, create_in_pod, set_hpid, set_config. stays. Qed.

(** *** Start *)

Lemma frame_connect_io l : stays frame (connect_io l).
Proof. unfold connect_io, newTtyIO. stays. Qed.
#[local] Hint Resolve frame_connect_io : stays.
Lemma frame_start_command l : stays frame (start_command l).
Proof. unfold start_command, SetIO, ioPipes, cmd_Start. stays. Qed.
Lemma frame_start_streams l : stays frame (start_streams l).
Proof. unfold start_streams. stays. Qed.
Lemma frame_start_in_sandbox c u : stays frame (start_in_sandbox c u).
Proof. unfold start_in_sandbox, start_monitor. stays. Qed.
Lemma frame_post_start c : stays frame (post_start c).
Proof. unfold post_start. stays. Qed.
Lemma frame_enter id : stays frame (fun s : Shim W => let '(r, s') := onSys (EnterContainer id) s in
    (match r with Ok p => Ok p | Err _ => Err (Errorf "cannot enter container %s, with err %s") end, s')).
Proof. intros s. pose proof (frame_onSys (EnterContainer id) s) as Hf. by destruct (onSys _ s). Qed.
Lemma frame_newTtyIO i o e b : stays frame (newTtyIO i o e b).
Proof. unfold newTtyIO. stays. Qed.
Lemma frame_exit_255 {A} p e : stays frame (exit_255 p e : M (Shim W) A).
Proof. unfold exit_255. stays. apply frame_upd_chans. intros ch. set_solver. Qed.
#[local] Hint Resolve frame_start_command frame_start_streams frame_start_in_sandbox frame_post_start frame_enter
  frame_newTtyIO frame_exit_255 : stays.

(** [ends t m]: [m] leaves a goroutine [t] behind if it succeeds, and nothing
    that [frame] does not allow otherwise. *)
Definition ends {A} (t : thread) (m : M (Shim W) A) : Prop := forall s,
  match m s with
  | (Ok _, s') => exists s1, frame s s1 /\ s' = (spawn t s1).2
  | (Err _, s') => frame s s'
  end.

Lemma ends_spawn t : ends t (spawn t).
Proof. intros s. by exists s. Qed.
Lemma ends_fail {A} t (m : M (Shim W) A) : stays frame m -> (forall s a s', m s <> (Ok a, s')) -> ends t m.
Proof.
  intros Hm Hf s. specialize (Hm s). destruct (m s) as [[a|e] s'] eqn:E; [|done]. by destruct (Hf s a s').
Qed.
Lemma ends_throw {A} t e : ends t (throw e : M (Shim W) A).
Proof. intros s. change (frame s s). reflexivity. Qed.
Lemma ends_panic {A} t e : ends t (panic e : M (Shim W) A).
Proof. apply ends_fail; [apply frame_panic|done]. Qed.
Lemma ends_bind {A B} t (m : M (Shim W) A) (k : A -> M (Shim W) B) :
  stays frame m -> (forall a, ends t (k a)) -> ends t (m ≫= k).
Proof.
  intros Hm Hk s. specialize (Hm s). unfold mbind, M_bind. destruct (m s) as [[a|e] s1] eqn:E; [|done].
  specialize (Hk a s1). destruct (k a s1) as [[b|e] s2]; [|by etrans].
  destruct Hk as (s3 & Hf & ->). exists s3. split; [by etrans|done].
Qed.
Lemma ends_or_255 {A} t p (m : M (Shim W) A) : ends t m -> ends t (or_255 p m).
Proof.
  intros Hm s. unfold or_255. specialize (Hm s). unfold mbind, M_bind, try.
  destruct (m s) as [[a|e] s1] eqn:E; [done|].
  pose proof (frame_exit_255 (A:=A) p e s1) as Hf.
  destruct (exit_255 p e s1) as [[b|e'] s2] eqn:E2; [|by etrans].
  exfalso. revert E2. unfold exit_255, hold. unfold mbind, M_bind. simpl. destruct (ch_exitCh _), p; discriminate.
Qed.

Ltac ends := repeat match goal with
  | |- ends _ (throw _) => apply ends_throw
  | |- ends _ (panic _) => apply ends_panic
  | |- ends _ (spawn _) => apply ends_spawn
  | |- ends _ (_ ≫= _) => apply ends_bind; [by stays|intros ?]
  | |- ends _ (match ?x with _ => _ end) => destruct x eqn:?
  end.

Lemma ends_startContainer l : ends (TBegin l "") (startContainer l).
Proof. apply ends_or_255. unfold startContainer_body. ends. Qed.

Lemma ends_startExec s l id execID : sv_containers s !! id = Some l ->
  match startExec id execID s with
  | (Ok _, s') => exists s1, frame s s1 /\ s' = (spawn (TBegin l execID) s1).2
  | (Err _, s') => frame s s'
  end.
Proof.
  intros Hl. unfold startExec, getContainer. unfold mbind, M_bind. simpl. rw Hl. simpl.
  destruct (getExec (scont_at s l) execID) as [le|e]; simpl; [|reflexivity].
  apply (ends_or_255 (TBegin l execID)). unfold startExec_body. ends.
Qed.

(** *** The rest *)

Lemma frame_delete l : stays frame (deleteContainer l).
Proof.
  unfold deleteContainer, unless_not_found. stays.
  apply frame_same; try done; [intros s; apply delete_subseteq|intros; by apply codes_self].
Qed.
Lemma frame_Kill id execID signum all : stays frame (svc_Kill id execID signum all).
Proof. unfold svc_Kill. stays. Qed.
Lemma frame_refresh l : stays frame (refresh_status l).
Proof. unfold refresh_status, getContainerStatus. stays. Qed.
#[local] Hint Resolve frame_delete frame_refresh : stays.
Lemma frame_Pause id : stays frame (svc_Pause id).
Proof. unfold svc_Pause. stays. Qed.
Lemma frame_Resume id : stays frame (svc_Resume id).
Proof. unfold svc_Resume. stays. Qed.
Lemma frame_ResizePty id execID h w : stays frame (svc_ResizePty id execID h w).
Proof. unfold svc_ResizePty. stays. Qed.
Lemma frame_State id execID : stays frame (svc_State id execID).
Proof. unfold svc_State. stays. Qed.
Lemma frame_close_stdin p : stays frame (close_stdin p).
Proof. unfold close_stdin. stays. Qed.
#[local] Hint Resolve frame_close_stdin : stays.
Lemma frame_CloseIO id execID : stays frame (svc_CloseIO id execID).
Proof. unfold svc_CloseIO. stays. Qed.
Lemma frame_Shutdown : stays frame svc_Shutdown.
Proof. unfold svc_Shutdown. stays. Qed.
Lemma frame_Stats id : stays frame (svc_Stats id).
Proof. unfold svc_Stats. stays. Qed.
Lemma frame_Update id r : stays frame (svc_Update id r).
Proof. unfold svc_Update. stays. Qed.
Lemma frame_Wait id execID : stays frame (svc_Wait id execID).
Proof. unfold svc_Wait. stays. Qed.

(** ** The invariant *)

Definition id_at (s : Shim W) (l : nat) : option string := fst <$> cores s !! l.

(** The identifier of the container a process belongs to. *)
Definition owner (s : Shim W) (p : proc) : option string :=
  match p with PCont l => id_at s l | PExec le => owners s !! le ≫= id_at s end.

(** The container, or the exec in it, has been announced as started. *)
Definition announced (evs : list event) (cid x : string) : Prop :=
  (x = "" /\ exists pid, TaskStart cid pid ∈ evs) \/ (x <> "" /\ exists pid, TaskExecStarted cid x pid ∈ evs).

Definition exit_ok (evs : list event) (cid id : string) : Prop :=
  (id = cid /\ exists pid, TaskStart cid pid ∈ evs) \/ (exists pid, TaskExecStarted cid id pid ∈ evs).

(** Every exit comes after a start. *)
Definition ordered (evs : list event) : Prop :=
  forall pre cid id pid st t post, evs = pre ++ TaskExit cid id pid st t :: post -> exit_ok pre cid id.

(** An exit of the container with this code is announced or on its way. *)
Definition known (s : Shim W) (cid : string) (z : Z) : Prop :=
  (exists x r t, TReap cid x r t ∈ sv_threads s /\ u32 r = z) \/
  (exists e, e ∈ sv_ec s /\ xt_id e = cid /\ u32 (xt_status e) = z) \/
  (exists id pid t, TaskExit cid id pid z t ∈ sv_events s).

Definition code_ok (s : Shim W) (p : proc) (z : Z) : Prop :=
  z = exitCode255 \/ exists cid, owner s p = Some cid /\ known s cid z.

(** A goroutine waits for a process of a container that has been announced. *)
Definition waits_for (s : Shim W) (p : proc) (l : nat) (x : string) : Prop :=
  exists cid, id_at s l = Some cid /\ owner s p = Some cid /\ announced (sv_events s) cid x.

Definition thread_ok (s : Shim W) (t : thread) : Prop :=
  match t with
  | TBegin l x => exists cid, id_at s l = Some cid /\ announced (sv_events s) cid x
  | TWait p l x | TReport p l x _ _ => waits_for s p l x
  | TReap cid x _ _ => announced (sv_events s) cid x
  | TRefill p _ z => code_ok s p z
  | _ => True
  end.

Definition holder_ok (s : Shim W) (h : holder) : Prop :=
  match h with HReport p l x _ _ => waits_for s p l x | _ => True end.

(** The tables: the identifier a container is registered under is its own, and
    the execs of a container are its own. *)
Record wf (s : Shim W) : Prop := {
  wf_containers id l : sv_containers s !! id = Some l -> id_at s l = Some id;
  wf_cores l : is_Some (cores s !! l) -> (l < sv_next s)%nat;
  wf_owners l : is_Some (owners s !! l) -> (l < sv_next s)%nat;
  wf_execs l cid xs x le : cores s !! l = Some (cid, xs) -> xs !! x = Some le -> owners s !! le = Some l;
}.

Record inv (s : Shim W) : Prop := {
  inv_wf : wf s;
  inv_threads t : t ∈ sv_threads s -> thread_ok s t;
  inv_lock h : sv_lock s = Some h -> holder_ok s h;
  inv_ec e : e ∈ sv_ec s -> announced (sv_events s) (xt_id e) (xt_execid e);
  inv_events : ordered (sv_events s);
  inv_codes p z : z ∈ codes s p -> code_ok s p z;
  inv_waits p z t : (p, z, t) ∈ sv_waits s -> code_ok s p z;
}.

(** *** Nothing is forgotten *)

Record later (s s' : Shim W) : Prop := {
  la_ids l cid : id_at s l = Some cid -> id_at s' l = Some cid;
  la_owners : owners s ⊆ owners s';
  la_events : exists evs, sv_events s' = sv_events s ++ evs;
  la_known cid z : known s cid z -> known s' cid z;
}.

Lemma announced_app evs evs' cid x : announced evs cid x -> announced (evs ++ evs') cid x.
Proof. unfold announced. set_solver. Qed.

Lemma exit_ok_app evs evs' cid id : exit_ok evs cid id -> exit_ok (evs ++ evs') cid id.
Proof. unfold exit_ok. set_solver. Qed.

Lemma frame_later s s' : frame s s' -> later s s'.
Proof.
  intros Hf. destruct (fr_events _ _ Hf) as (evs & HE & _), (fr_threads _ _ Hf) as (ts & HT & _). split.
  - unfold id_at. by rw (fr_cores _ _ Hf).
  - by rw (fr_owners _ _ Hf).
  - by exists evs.
  - intros cid z. unfold known. rw HE HT (fr_ec _ _ Hf). set_solver.
Qed.

Lemma later_announced s s' cid x : later s s' -> announced (sv_events s) cid x -> announced (sv_events s') cid x.
Proof. intros [_ _ [evs ->] _]. apply announced_app. Qed.

Lemma later_owner s s' p cid : later s s' -> owner s p = Some cid -> owner s' p = Some cid.
Proof.
  intros Hl. destruct p as [l|le]; simpl; [apply (la_ids _ _ Hl)|].
  intros (l & Ho & Hi)%bind_Some. apply bind_Some. exists l.
  split; [by eapply lookup_weaken; [|apply (la_owners _ _ Hl)]|by apply (la_ids _ _ Hl)].
Qed.

Lemma later_code s s' p z : later s s' -> code_ok s p z -> code_ok s' p z.
Proof.
  intros Hl [-> |(cid & Ho & Hk)]; [by left|right]. exists cid.
  split; [by eapply later_owner|by apply (la_known _ _ Hl)].
Qed.

Lemma later_waits s s' p l x : later s s' -> waits_for s p l x -> waits_for s' p l x.
Proof.
  intros Hl (cid & Hi & Ho & Ha). exists cid.
  split_and!; [by apply (la_ids _ _ Hl)|by eapply later_owner|by eapply later_announced].
Qed.

Lemma later_thread s s' t : later s s' -> thread_ok s t -> thread_ok s' t.
Proof.
  intros Hl. destruct t; simpl; try done; eauto using later_waits, later_code, later_announced.
  intros (cid & Hi & Ha). exists cid. split; [by apply (la_ids _ _ Hl)|by eapply later_announced].
Qed.

Lemma later_holder s s' h : later s s' -> holder_ok s h -> holder_ok s' h.
Proof. intros Hl. destruct h; simpl; try done. by apply later_waits. Qed.

(** A list of events stays ordered when something that is no exit, or an exit
    that was announced, is added. *)
Lemma ordered_snoc evs e :
  ordered evs -> (forall cid id pid st t, e = TaskExit cid id pid st t -> exit_ok evs cid id) -> ordered (evs ++ [e]).
Proof.
  intros Ho He pre cid id pid st t post. destruct post as [|y post _] using rev_ind; intros Heq.
  - apply app_inj_tail in Heq as [<- ->]. by eapply He.
  - rw app_comm_cons app_assoc in Heq. apply app_inj_tail in Heq as [-> ->]. by eapply Ho.
Qed.

Lemma ordered_app evs evs' : ordered evs -> Forall not_exit evs' -> ordered (evs ++ evs').
Proof.
  intros Ho. induction evs' as [|e evs' IH] using rev_ind; intros Hf; [by rw app_nil_r|].
  apply Forall_app in Hf as [Hf Hlast]. rw app_assoc. apply ordered_snoc; [by apply IH|].
  intros cid id pid st t ->. by inversion Hlast.
Qed.

(** *** It holds *)

Lemma inv_frame s s' : frame s s' -> inv s -> inv s'.
Proof.
  intros Hf [[Wc Wl Wo We] It Il Ie Io Ic Iw]. pose proof (frame_later _ _ Hf) as Hl.
  destruct (fr_events _ _ Hf) as (evs & HE & HN), (fr_threads _ _ Hf) as (ts & HT & HH). split.
  - split.
    + intros id l Hid. apply (la_ids _ _ Hl), Wc. eapply lookup_weaken; [done|apply (fr_containers _ _ Hf)].
    + intros l. rw (fr_cores _ _ Hf) (fr_next _ _ Hf). apply Wl.
    + intros l. rw (fr_owners _ _ Hf) (fr_next _ _ Hf). apply Wo.
    + intros l cid xs x le. rw (fr_cores _ _ Hf) (fr_owners _ _ Hf). apply We.
  - intros t. rw HT. intros [Ht|Ht]%elem_of_app; [by eapply later_thread, It|].
    eapply Forall_forall in HH; [|done]. by destruct t.
  - intros h Hh. destruct (fr_lock _ _ Hf) as [Heq|Hq].
    + eapply later_holder; [done|]. apply Il. by rw -Heq.
    + rw Hh in Hq. by destruct h.
  - intros e. rw (fr_ec _ _ Hf). intros He. by eapply later_announced, Ie.
  - rw HE. by apply ordered_app.
  - intros p z Hz%(fr_codes _ _ Hf). apply elem_of_cons in Hz as [-> |Hz]; [by left|]. by eapply later_code, Ic.
  - intros p z t. rw (fr_waits _ _ Hf). intros Hw. by eapply later_code, Iw.
Qed.

(** What only adds one goroutine, or one code. *)
Lemma inv_spawn s t : inv s -> thread_ok s t -> inv (spawn t s).2.
Proof.
  intros [Wf It Il Ie Io Ic Iw] Ht.
  assert (Hl : later s (spawn t s).2).
  { split; [done|done|exists []; by rw app_nil_r|]. unfold known. simpl. set_solver. }
  split; try done.
  - by destruct Wf.
  - intros t'. simpl. intros [Ht'|Ht'%list_elem_of_singleton]%elem_of_app; [by eapply later_thread, It|].
    subst. by eapply later_thread.
  - intros p z Hz. by eapply later_code, Ic.
  - intros p z t' Hz. by eapply later_code, Iw.
Qed.

Lemma codes_push (s : Shim W) p z p' z' : z' ∈ codes (push_exitCh p z s).2 p' -> z' ∈ codes s p' \/ p' = p /\ z' = z.
Proof.
  unfold push_exitCh, codes, chans. destruct p as [l|l], p' as [l'|l']; simpl; try (intros; by left).
  - rw scont_alter. case_bool_decide as Hl; [|by left]. simpl. intros ->%list_elem_of_singleton. right. by destruct Hl as [-> _].
  - rw sexec_alter. case_bool_decide as Hl; [|by left]. simpl. intros ->%list_elem_of_singleton. right. by destruct Hl as [-> _].
Qed.

Lemma push_cores (s : Shim W) p z : cores (push_exitCh p z s).2 = cores s.
Proof. destruct p; [|done]. by apply fmap_alter_same. Qed.
Lemma push_owners (s : Shim W) p z : owners (push_exitCh p z s).2 = owners s.
Proof. destruct p; [done|]. by apply fmap_alter_same. Qed.

Lemma inv_push s p z : inv s -> code_ok s p z -> inv (push_exitCh p z s).2.
Proof.
  intros [Wf It Il Ie Io Ic Iw] Hz. set (s' := (push_exitCh p z s).2).
  assert (HC : cores s' = cores s) by apply push_cores. assert (HO : owners s' = owners s) by apply push_owners.
  assert (Hrest : sv_containers s' = sv_containers s /\ sv_next s' = sv_next s /\ sv_threads s' = sv_threads s /\
    sv_lock s' = sv_lock s /\ sv_ec s' = sv_ec s /\ sv_events s' = sv_events s /\ sv_waits s' = sv_waits s)
    by (by destruct p).
  destruct Hrest as (Hc & Hn & Ht & Hk & He & Hv & Hw).
  assert (Hl : later s s').
  { split; [by unfold id_at; rw HC|by rw HO|exists []; by rw app_nil_r|]. unfold known. by rw Ht He Hv. }
  split.
  - destruct Wf as [Wc Wl Wo We]. split; rw ?HC ?HO ?Hc ?Hn; try done. intros id l Hid. unfold id_at. rw HC. by apply Wc.
  - intros t. rw Ht. intros Hin. by eapply later_thread, It.
  - intros h. rw Hk. intros Hh. by eapply later_holder, Il.
  - intros e. rw He Hv. apply Ie.
  - by rw Hv.
  - intros p' z' [Hin|[-> ->]]%codes_push; [by eapply later_code, Ic|by eapply later_code].
  - intros p' z' t. rw Hw. intros Hin. by eapply later_code, Iw.
Qed.

Lemma inv_wait s p z t : inv s -> code_ok s p z -> inv (s <| sv_waits ::= fun ws => ws ++ [(p, z, t)] |>).
Proof.
  intros [Wf It Il Ie Io Ic Iw] Hz. split; try done; [by destruct Wf|].
  intros p' z' t'. simpl. intros [Hin|Hin%list_elem_of_singleton]%elem_of_app; [by eapply Iw|]. by simplify_eq.
Qed.

(** Only a reaper carries something away. *)
Definition reaps (t : thread) : bool := match t with TReap _ _ _ _ => true | _ => false end.

Lemma later_take s l1 t l2 : sv_threads s = l1 ++ t :: l2 -> reaps t = false -> later s (s <| sv_threads := l1 ++ l2 |>).
Proof.
  intros HT Ht. split; [done|done|exists []; by rw app_nil_r|].
  intros cid z [(x & r & u & Hin & Hr)|Hk]; [|by right]. left. exists x, r, u. split; [|done]. simpl.
  rw HT in Hin. apply elem_of_app in Hin as [Hin|[<- |Hin]%elem_of_cons]; [set_solver|done|set_solver].
Qed.

Lemma inv_take s l1 t l2 : inv s -> sv_threads s = l1 ++ t :: l2 -> reaps t = false ->
  inv (s <| sv_threads := l1 ++ l2 |>) /\ thread_ok (s <| sv_threads := l1 ++ l2 |>) t.
Proof.
  intros [Wf It Il Ie Io Ic Iw] HT Ht. pose proof (later_take _ _ _ _ HT Ht) as Hl.
  split; [|eapply later_thread; [done|]; apply It; rw HT; set_solver]. split; try done.
  - by destruct Wf.
  - intros t' Hin. eapply later_thread; [done|]. apply It. rw HT. simpl in Hin. set_solver.
  - intros p z Hz. by eapply later_code, Ic.
  - intros p z u Hz. by eapply later_code, Iw.
Qed.

(** *** The steps of the goroutines *)

(** The invariant with a process someone waits for. *)
Definition waiting (p : proc) (l : nat) (x : string) (s : Shim W) : Prop := inv s /\ waits_for s p l x.

Lemma waiting_frame p l x s s' : frame s s' -> waiting p l x s -> waiting p l x s'.
Proof. intros Hf [Hi Hw]. split; [by eapply inv_frame|by eapply later_waits; [apply frame_later|]]. Qed.

Lemma owner_push s p z : owner (push_exitCh p z s).2 = owner s.
Proof. unfold owner, id_at. by rw push_cores push_owners. Qed.

Lemma scont_id (s : Shim W) l cid : id_at s l = Some cid -> ct_id (scont_at s l) = cid.
Proof.
  unfold id_at, cores, scont_at. rw lookup_fmap. destruct (sv_conts s !! l) as [c|]; simpl; [by intros [= <-]|done].
Qed.

Lemma inv_report_done s p l x ret ts : waiting p l x s -> inv (report_done p l x ret ts s).2.
Proof.
  intros [Hi (cid & Hid & Ho & Ha)].
  assert (Hs : inv (spawn (TReap cid x ret ts) s).2) by (by apply inv_spawn).
  assert (Hc : code_ok (spawn (TReap cid x ret ts) s).2 p (u32 ret)).
  { right. exists cid. split; [done|]. left. exists x, ret, ts. split; [|done]. simpl. set_solver. }
  pose proof (inv_push _ _ _ Hs Hc) as Hp.
  replace (report_done p l x ret ts s).2 with (push_exitCh p (u32 ret) (spawn (TReap cid x ret ts) s).2).2; [done|].
  assert (Hl : ct_id (scont_at (push_exitCh p (u32 ret) s).2 l) = cid).
  { apply scont_id. unfold id_at. by rw push_cores. }
  unfold report_done. unfold mbind, M_bind. destruct p; simpl in *; by rw Hl.
Qed.

Lemma inv_hold_report {A} s p l x ret ts :
  waiting p l x s -> inv (hold (HReport p l x ret ts) s : res A * Shim W).2.
Proof. intros [[Wf It Il Ie Io Ic Iw] Hw]. split; try done; [by destruct Wf|]. simpl. by intros h [= <-]. Qed.

Lemma frame_report_body p l x ret ts : stays frame (report_body p l x ret ts).
Proof. unfold report_body. stays. Qed.

Lemma inv_report s p l x ret ts : waiting p l x s -> inv (report p l x ret ts s).2.
Proof.
  intros Hw. unfold report. pose proof (frame_report_body p l x ret ts s) as Hf.
  unfold mbind, M_bind. destruct (report_body p l x ret ts s) as [[[]|e] s1]; simpl in *.
  - eapply waiting_frame in Hw; [|done]. destruct (ch_exitCh (chans s1 p)); [by apply inv_report_done|by apply (inv_hold_report (A:=unit))].
  - by destruct (waiting_frame _ _ _ _ _ Hf Hw).
Qed.

Lemma inv_wait_process s p l x : waiting p l x s -> inv (wait_process p l x s).2.
Proof.
  intros Hw. unfold wait_process. unfold mbind, M_bind. simpl.
  set (m := onSys _). pose proof (frame_onSys (A:=Z)) as Hf. specialize (Hf _ s : frame s (m s).2).
  unfold try. destruct (m s) as [r s1]. simpl in *. eapply waiting_frame in Hw as [Hi Hw]; [|done].
  by apply inv_spawn.
Qed.

Lemma waits_own_begin s l x : inv s -> thread_ok s (TBegin l x) -> thread_ok s (TWait (PCont l) l x).
Proof. intros _ (cid & Hi & Ha). by exists cid. Qed.

Lemma waits_exec_begin s l x le : inv s -> thread_ok s (TBegin l x) -> getExec (scont_at s l) x = Ok le ->
  thread_ok s (TWait (PExec le) l x).
Proof.
  intros Hinv (cid & Hi & Ha) Hg. exists cid. split_and!; [done| |done]. simpl.
  revert Hg Hi. unfold getExec, scont_at, id_at, cores. rw lookup_fmap. destruct (sv_conts s !! l) as [c|] eqn:E; simpl; [|done].
  destruct (ct_execs c !! x) as [le'|] eqn:Ex; [|done]. intros [= ->] [= <-].
  rw (wf_execs _ (inv_wf _ Hinv) l (ct_id c) (ct_execs c) x le); [|done|].
  - unfold cores. by rw lookup_fmap E.
  - simpl. by rw lookup_fmap E.
Qed.

Lemma frame_close_tty p : stays frame (close_tty p).
Proof. destruct p; unfold close_tty; stays. Qed.
#[local] Hint Resolve frame_close_tty : stays.
Lemma frame_watch_cleanup : stays frame watch_cleanup.
Proof. unfold watch_cleanup. stays. Qed.

(** Taking an exit code does not invent one. *)
Lemma frame_take p : stays frame (upd_chans p (fun ch => ch <| ch_exitCh := [] |>) : M (Shim W) unit).
Proof. apply frame_upd_chans. intros ch z Hz. by apply elem_of_nil in Hz. Qed.

Lemma inv_take_code s p l z zs : inv s -> codes s p = z :: zs ->
  inv (let m := _ ← upd_chans p (fun ch => ch <| ch_exitCh := [] |>); spawn (TRefill p l z) in m s : res unit * Shim W).2.
Proof.
  intros Hi Hz. assert (Hc : code_ok s p z) by (apply (inv_codes _ Hi); rw Hz; by left).
  pose proof (frame_take p s) as Hf.
  assert (Hr : (upd_chans p (fun ch => ch <| ch_exitCh := [] |>) s).1 = Ok tt) by (by destruct p).
  cbv zeta. unfold mbind at 1, M_bind. destruct (upd_chans p _ s) as [r s1]. simpl in Hr, Hf. subst r.
  apply inv_spawn; [by eapply inv_frame|]. simpl. eapply later_code; [by apply frame_later|done].
Qed.

Lemma stays_inv {A} (m : M (Shim W) A) s : stays frame m -> inv s -> inv (m s).2.
Proof. intros Hm. apply inv_frame, Hm. Qed.

Lemma inv_refill s p l z : inv s -> code_ok s p z ->
  inv (let m := _ ← push_exitCh p z;
         modify (fun s => s <| sv_waits ::= fun ws => ws ++ [(p, z, ct_exitTime (scont_at s l))] |>) in m s : res unit * Shim W).2.
Proof.
  intros Hi Hz. pose proof (inv_push _ _ _ Hi Hz) as Hp.
  assert (Hc : code_ok (push_exitCh p z s).2 p z).
  { destruct Hz as [-> |(cid & Ho & Hk)]; [by left|right]. exists cid. rw owner_push. split; [done|]. by destruct p. }
  assert (Hr : (push_exitCh p z s).1 = Ok tt) by (by destruct p).
  cbv zeta. unfold mbind at 1, M_bind. destruct (push_exitCh p z s) as [r s1]. simpl in *. subst r.
  by apply inv_wait.
Qed.

Lemma inv_reap s l1 cid x r t l2 : inv s -> sv_threads s = l1 ++ TReap cid x r t :: l2 ->
  inv (s <| sv_threads := l1 ++ l2 |> <| sv_ec ::= fun l => l ++ [mkExit t cid x (sv_hpid s) r] |>).
Proof.
  intros [Wf It Il Ie Io Ic Iw] HT. set (s' := _ <| sv_ec ::= _ |>).
  assert (Hl : later s s').
  { split; [done|done|exists []; by rw app_nil_r|]. intros cid' z [(x' & r' & t' & Hin & Hr)|[(e & He & Hr)|Hk]].
    - rw HT in Hin. apply elem_of_app in Hin as [Hin|[Heq|Hin]%elem_of_cons].
      + left. exists x', r', t'. split; [|done]. simpl. set_solver.
      + simplify_eq. right. left. exists (mkExit t cid x (sv_hpid s) r). split; [|done]. simpl. set_solver.
      + left. exists x', r', t'. split; [|done]. simpl. set_solver.
    - right. left. exists e. split; [|done]. simpl. set_solver.
    - by right; right. }
  split; try done.
  - by destruct Wf.
  - intros u Hu. eapply later_thread; [done|]. apply It. rw HT. simpl in Hu. set_solver.
  - intros e. simpl. intros [He|He%list_elem_of_singleton]%elem_of_app; [by apply Ie|]. subst e. simpl.
    apply (It (TReap cid x r t)). rw HT. set_solver.
  - intros p z Hz. by eapply later_code, Ic.
  - intros p z u Hz. by eapply later_code, Iw.
Qed.

Lemma inv_thread s l1 t l2 s' : inv s -> sv_threads s = l1 ++ t :: l2 ->
  run_thread t (s <| sv_threads := l1 ++ l2 |>) = Some s' -> inv s'.
Proof.
  intros Hi HT. destruct (reaps t) eqn:Hr.
  { destruct t; try done. intros [= <-]. by apply inv_reap. }
  destruct (inv_take _ _ _ _ Hi HT Hr) as [Hi' Ht]. set (s0 := s <| sv_threads := l1 ++ l2 |>) in *.
  clearbody s0. clear Hi HT. unfold run_thread. destruct t as [p b|l n|l x|p l x|p l x r u|p l|p l z|? ? ? ?| |]; try done.
  - destruct b; intros [= <-]; (apply stays_inv; [|done]); stays.
  - destruct n as [|[|n]]; intros [= <-]; [apply stays_inv; [stays|done]..|].
    apply (stays_inv (upd_scont l (fun c => c <| ct_status := StatusStopped |>))); [stays|done].
  - case_bool_decide as Hx; [subst; intros [= <-]; by apply inv_spawn, waits_own_begin|].
    destruct (getExec (scont_at s0 l) x) eqn:Hg; intros [= <-]; [|done]. by apply inv_spawn, waits_exec_begin.
  - destruct (ch_exitIOch _); intros [= <-]. by apply inv_wait_process.
  - destruct (is_free s0); intros [= <-]. by apply inv_report.
  - destruct (ch_exitCh (chans s0 p)) eqn:Hc; intros [= <-]. by eapply inv_take_code.
  - destruct (ch_exitCh (chans s0 p)); intros [= <-]. by apply inv_refill.
  - by intros [= <-].
  - destruct (is_free s0); intros [= <-]. apply stays_inv; [apply frame_watch_cleanup|done].
Qed.

Lemma inv_processExits s s' : inv s -> processExits s = Some s' -> inv s'.
Proof.
  intros [Wf It Il Ie Io Ic Iw]. unfold processExits. destruct (sv_ec s) as [|e rest] eqn:HE; [done|].
  destruct (is_free s); [|done]. intros [= <-]. match goal with |- inv ?x => set (s' := x) end.
  assert (Hl : later s s').
  { split; [done|done|by eexists|]. intros cid z [Hk|[(e' & He & Hid & Hr)|(id & pid & t & Hin)]]; [by left| |].
    - right. rw HE in He. apply elem_of_cons in He as [-> |He]; [|left; by exists e'].
      right. subst. unfold s'. simpl. do 3 eexists. apply elem_of_app. right. by apply list_elem_of_singleton.
    - right. right. exists id, pid, t. simpl. set_solver. }
  assert (Ha : announced (sv_events s) (xt_id e) (xt_execid e)) by (apply Ie; by left).
  split; try done.
  - by destruct Wf.
  - intros t Ht. by eapply later_thread, It.
  - intros h Hh. by eapply later_holder, Il.
  - intros e' He'. eapply later_announced; [done|]. apply Ie. by right.
  - apply ordered_snoc; [done|]. intros cid id pid st t [= <- <- _ _ _].
    destruct Ha as [[Hx Hs]|[Hx Hs]]; case_bool_decide; try done; [by left|by right].
  - intros p z Hz. by eapply later_code, Ic.
  - intros p z t Hz. by eapply later_code, Iw.
Qed.

Lemma frame_unlock (s : Shim W) : frame s (s <| sv_lock := None |>).
Proof. split; try done; try (exists []; by rw app_nil_r); [by right|by intros ?; apply codes_self]. Qed.

Lemma inv_holder s h s' : inv s -> sv_lock s = Some h -> run_holder h s = Some s' -> inv s'.
Proof.
  intros Hi Hh. pose proof (inv_lock _ Hi _ Hh) as Hok. pose proof (inv_frame _ _ (frame_unlock s) Hi) as Hi'.
  unfold run_holder. destruct h as [p|p l x r t|p].
  - destruct (ch_exitCh _); intros [= <-]. apply inv_push; [done|by left].
  - destruct (ch_exitCh _); intros [= <-]. apply inv_report_done. split; [done|].
    eapply later_waits; [apply frame_later, frame_unlock|done].
  - destruct (ch_stdinCloser _); intros [= <-]. apply stays_inv; [apply frame_close_stdin|done].
Qed.

(** *** The calls *)

Definition is_new (id : string) (c : container) : Prop :=
  ct_id c = id /\ ct_execs c = ∅ /\ ch_exitCh (ct_chans c) = [].

Lemma gives_create r : gives (fun c _ => is_new (cr_ID r) c) (create r).
Proof.
  unfold create. apply gives_bind. intros [[[spec cpu] mem] bundlePath]. apply gives_bind. intros t.
  destruct (spec_Process spec); [|done]. apply gives_bind. intros config. apply gives_bind. intros m.
  destruct (alloc_limits spec cpu mem m) as [spec' m']. apply gives_bind. intros mounted.
  by apply gives_ret.
Qed.

Lemma no_core s : wf s -> cores s !! sv_next s = None.
Proof. intros Hw. destruct (cores s !! sv_next s) eqn:E; [|done]. assert (sv_next s < sv_next s)%nat by (apply (wf_cores _ Hw); eauto). lia. Qed.
Lemma no_owner s : wf s -> owners s !! sv_next s = None.
Proof. intros Hw. destruct (owners s !! sv_next s) eqn:E; [|done]. assert (sv_next s < sv_next s)%nat by (apply (wf_owners _ Hw); eauto). lia. Qed.

Lemma inv_alloc s c id : inv s -> is_new id c ->
  inv (s <| sv_next := S (sv_next s) |> <| sv_conts := <[sv_next s := c]> (sv_conts s) |>
         <| sv_containers := <[id := sv_next s]> (sv_containers s) |>).
Proof.
  intros [Wf It Il Ie Io Ic Iw] (Hid & Hex & Hch). set (s' := _ <| sv_containers := _ |>).
  assert (HC : cores s' = <[sv_next s := (id, ∅)]> (cores s)).
  { unfold cores. simpl. by rw fmap_insert Hid Hex. }
  assert (Hold : forall l, l <> sv_next s -> id_at s' l = id_at s l) by (intros l Hl; by rw /id_at HC lookup_insert_ne).
  assert (Hids : forall l cid, id_at s l = Some cid -> id_at s' l = Some cid).
  { intros l cid Hl. rw Hold; [|done]. intros ->. by rw /id_at (no_core _ Wf) in Hl. }
  assert (Hl : later s s') by (split; [done|done|exists []; by rw app_nil_r|done]).
  split; try done.
  - destruct Wf as [Wc Wl Wo We]. split.
    + intros id' l. simpl. intros [[<- <-]|[_ Hi]]%lookup_insert_Some; [by rw /id_at HC lookup_insert_eq|by apply Hids, Wc].
    + intros l. rw HC. simpl. intros [x [[<- _]|[_ Hx]]%lookup_insert_Some]; [lia|]. assert (l < sv_next s)%nat by (apply Wl; eauto). lia.
    + intros l Hx. assert (l < sv_next s)%nat by (by apply Wo). simpl. lia.
    + intros l cid xs x le. rw HC. intros [[_ [= _ <-]]|[_ Hx]]%lookup_insert_Some; [by rw lookup_empty|by eapply We].
  - intros t Ht. by eapply later_thread, It.
  - intros h Hh. by eapply later_holder, Il.
  - intros p z Hz. eapply later_code; [done|]. apply Ic. revert Hz. destruct p as [l|l]; [|done]. unfold codes, chans, scont_at. simpl.
    destruct (decide (l = sv_next s)) as [-> |Hne]; [|by rw lookup_insert_ne].
    rw lookup_insert_eq. simpl. rw Hch. by intros ?%elem_of_nil.
  - intros p z t Hz. by eapply later_code, Iw.
Qed.

Lemma inv_Create r s : inv s -> inv (svc_Create r s).2.
Proof.
  intros Hi. unfold svc_Create. unfold mbind at 1, M_bind. simpl.
  destruct (VerifyContainerID (cr_ID r)); simpl; [|done].
  unfold mbind at 1, M_bind. pose proof (frame_create r s) as Hf. pose proof (gives_create r s) as Hg.
  destruct (create r s) as [[c|e] s1]; simpl in Hf; [|by eapply inv_frame].
  specialize (Hg c s1 eq_refl). cbv beta in Hg. eapply inv_frame in Hi; [|done].
  set (c' := c <| ct_status := StatusCreated |>). assert (Hg' : is_new (cr_ID r) c') by done.
  pose proof (inv_alloc s1 c' (cr_ID r) Hi Hg') as Ha.
  by apply (stays_inv (send (TaskCreate (cr_ID r) (sv_hpid s1)))) in Ha; [|by apply frame_send].
Qed.

(** A table of execs that loses an entry. *)
Lemma inv_del_exec s l x : inv s -> inv (upd_scont l (fun c => c <| ct_execs ::= delete x |>) s).2.
Proof.
  intros [Wf It Il Ie Io Ic Iw]. set (s' := (upd_scont l _ s).2).
  assert (HC : cores s' = alter (fun c => (c.1, delete x c.2)) l (cores s)).
  { unfold cores. apply map_eq. intros i. rw !lookup_fmap. destruct (decide (i = l)) as [-> |Hne].
    - rw !lookup_alter_eq lookup_fmap. by destruct (sv_conts s !! l).
    - by rw !lookup_alter_ne ?lookup_fmap. }
  assert (Hids : forall i, id_at s' i = id_at s i).
  { intros i. rw /id_at HC. destruct (decide (i = l)) as [-> |Hne]; [|by rw lookup_alter_ne].
    rw lookup_alter_eq. by destruct (cores s !! l). }
  assert (Hl : later s s') by (split; [intros i cid; by rw Hids|done|exists []; by rw app_nil_r|done]).
  split; try done.
  - destruct Wf as [Wc Wl Wo We]. split; [intros id i Hi; rw Hids; by apply Wc| |done|].
    + intros i. rw HC. rw -not_eq_None_Some lookup_alter_None not_eq_None_Some. apply Wl.
    + intros i cid xs y le. rw HC. destruct (decide (i = l)) as [-> |Hne]; [|rw lookup_alter_ne; [done|apply We]].
      rw lookup_alter_eq. destruct (cores s !! l) as [[cid' xs']|] eqn:E; [|done]. simpl. intros [= <- <-].
      intros [_ Hy]%lookup_delete_Some. by eapply We.
  - intros t Ht. by eapply later_thread, It.
  - intros h Hh. by eapply later_holder, Il.
  - intros p z Hz. eapply later_code; [done|]. apply Ic. revert Hz. destruct p as [i|i]; [|done]. unfold codes, chans.
    rw scont_alter. by case_bool_decide.
  - intros p z t Hz. by eapply later_code, Iw.
Qed.

Lemma inv_bind {A B} (m : M (Shim W) A) (k : A -> M (Shim W) B) s :
  stays frame m -> (forall a s', m s = (Ok a, s') -> inv s' -> inv (k a s').2) -> inv s -> inv ((m ≫= k) s).2.
Proof.
  intros Hm Hk Hi. specialize (Hm s). unfold mbind, M_bind. destruct (m s) as [[a|e] s1]; simpl in Hm.
  - apply Hk; [done|]. by eapply inv_frame.
  - by eapply inv_frame.
Qed.

Lemma inv_Delete id execID s : inv s -> inv (svc_Delete id execID s).2.
Proof.
  intros Hi. unfold svc_Delete. apply inv_bind; [stays| |done]. intros l s1 _ Hi1. case_bool_decide.
  - apply stays_inv; [stays|done].
  - do 3 (apply inv_bind; [stays| |done]; clear Hi1; intros ? ? _ Hi1).
    by apply inv_del_exec.
Qed.

Lemma getContainer_Some id (s : Shim W) l s' : getContainer id s = (Ok l, s') -> s' = s /\ sv_containers s !! id = Some l.
Proof.
  unfold getContainer. unfold mbind, M_bind. simpl. by destruct (sv_containers s !! id); simpl; intros [= -> ->].
Qed.

(** An exec joins the table of its container. *)
Lemma inv_add_exec s l id x e : inv s -> sv_containers s !! id = Some l ->
  ex_container e = l -> ch_exitCh (ex_chans e) = [] ->
  inv (upd_scont l (fun c => c <| ct_execs := <[x := sv_next s]> (ct_execs c) |>)
         (s <| sv_next := S (sv_next s) |> <| sv_execs := <[sv_next s := e]> (sv_execs s) |>)).2.
Proof.
  intros [Wf It Il Ie Io Ic Iw] Hid He Hch. set (s' := (upd_scont l _ _).2). set (n := sv_next s).
  assert (HC : cores s' = alter (fun c => (c.1, <[x := n]> c.2)) l (cores s)).
  { unfold cores. apply map_eq. intros i. rw !lookup_fmap. destruct (decide (i = l)) as [-> |Hne].
    - rw !lookup_alter_eq lookup_fmap. simpl. by destruct (sv_conts s !! l).
    - by rw !lookup_alter_ne ?lookup_fmap. }
  assert (HO : owners s' = <[n := l]> (owners s)) by (unfold owners; simpl; by rw fmap_insert He).
  assert (Hids : forall i, id_at s' i = id_at s i).
  { intros i. rw /id_at HC. destruct (decide (i = l)) as [-> |Hne]; [|by rw lookup_alter_ne].
    rw lookup_alter_eq. by destruct (cores s !! l). }
  assert (Hl : later s s').
  { split; [intros i cid; by rw Hids| |exists []; by rw app_nil_r|done]. rw HO. by apply insert_subseteq, no_owner. }
  split; try done.
  - destruct Wf as [Wc Wl Wo We]. split; [intros id' i Hi; rw Hids; by apply Wc| | |].
    + intros i. rw HC -not_eq_None_Some lookup_alter_None not_eq_None_Some. intros Hi%Wl. simpl. lia.
    + intros i. rw HO. intros [y [[<- _]|[_ Hy]]%lookup_insert_Some]; [simpl; lia|].
      assert (i < n)%nat by (apply Wo; eauto). simpl. lia.
    + intros i cid xs y le. rw HC HO.
      assert (Hold : forall cid xs, cores s !! i = Some (cid, xs) -> xs !! y = Some le -> <[n := l]> (owners s) !! le = Some i).
      { intros cid' xs' Hi Hy. pose proof (We _ _ _ _ _ Hi Hy) as Ho. rw lookup_insert_ne; [|done].
        intros <-. assert (n < n)%nat by (apply Wo; eauto). lia. }
      destruct (decide (i = l)) as [-> |Hne]; [|rw lookup_alter_ne; [done|apply Hold]].
      rw lookup_alter_eq. destruct (cores s !! l) as [[cid' xs']|] eqn:E; [|done]. simpl. intros [= <- <-].
      intros [[_ <-]|[_ Hy]]%lookup_insert_Some; [by rw lookup_insert_eq|by eapply Hold].
  - intros t Ht. by eapply later_thread, It.
  - intros h Hh. by eapply later_holder, Il.
  - intros p z Hz. eapply later_code; [done|]. apply Ic. revert Hz. destruct p as [i|i]; unfold codes, chans.
    + rw scont_alter. by case_bool_decide.
    + unfold sexec_at. simpl. destruct (decide (i = n)) as [-> |Hne]; [|by rw lookup_insert_ne].
      rw lookup_insert_eq. simpl. rw Hch. by intros ?%elem_of_nil.
  - intros p z t Hz. by eapply later_code, Iw.
Qed.

Lemma newExec_spec lc i o r t j e : newExec lc i o r t j = Ok e -> ex_container e = lc /\ ch_exitCh (ex_chans e) = [].
Proof.
  unfold newExec. destruct j as [[[spec|]|]|]; try done. destruct (ps_ConsoleSize spec) as [[h w]|]; by intros [= <-].
Qed.

Lemma inv_Exec id x i o r t j s : inv s -> inv (svc_Exec id x i o r t j s).2.
Proof.
  intros Hi. unfold svc_Exec. apply inv_bind; [stays| |done]. intros l s1 [-> Hl]%getContainer_Some Hi1. clear Hi.
  unfold mbind at 1, M_bind. simpl. case_bool_decide as Hx; [done|].
  unfold mbind at 1, M_bind. destruct (newExec l i o r t j) as [e|e] eqn:He; simpl; [|done].
  apply newExec_spec in He as [Hc Hch].
  pose proof (inv_add_exec s l id x e Hi1 Hl Hc Hch) as Ha.
  by apply (stays_inv (send (TaskExecAdded (ct_id (scont_at s l)) x))) in Ha; [|by apply frame_send].
Qed.

(** A goroutine that waits for a process, and the event of its start. *)
Lemma inv_begin s l cid x e : inv s -> id_at s l = Some cid -> not_exit e -> announced [e] cid x ->
  inv (send e (spawn (TBegin l x) s).2).2.
Proof.
  intros Hi Hid He Ha. apply (inv_spawn (send e s).2).
  - apply stays_inv; [by apply frame_send|done].
  - exists cid. split; [done|]. simpl. unfold announced in *. set_solver.
Qed.

Lemma inv_Start id x s : inv s -> inv (svc_Start id x s).2.
Proof.
  intros Hi. unfold svc_Start. apply inv_bind; [stays| |done]. intros l s1 [-> Hl]%getContainer_Some Hi1. clear Hi.
  pose proof (wf_containers _ (inv_wf _ Hi1) _ _ Hl) as Hid.
  unfold mbind at 1, M_bind. case_bool_decide as Hx.
  - unfold mbind at 1, M_bind. pose proof (ends_startContainer l s) as He.
    destruct (startContainer l s) as [[[]|e] s1]; [|by eapply inv_frame].
    destruct He as (s2 & Hf & ->). pose proof (la_ids _ _ (frame_later _ _ Hf) _ _ Hid) as Hid2. subst x.
    apply (inv_begin s2 l id ""); [by eapply inv_frame|done|done|].
    left. split; [done|]. eexists. rw (scont_id s2 l id); [done|]. by left.
  - unfold mbind at 1, M_bind. pose proof (ends_startExec s l id x Hl) as He.
    destruct (startExec id x s) as [[[]|e] s1]; [|by eapply inv_frame].
    destruct He as (s2 & Hf & ->). pose proof (la_ids _ _ (frame_later _ _ Hf) _ _ Hid) as Hid2.
    apply (inv_begin s2 l id x); [by eapply inv_frame|done|done|].
    right. split; [done|]. eexists. rw (scont_id s2 l id); [done|]. by left.
Qed.

Lemma void_state {A} (m : M (Shim W) A) s : (void m s).2 = (m s).2.
Proof. unfold void. unfold mbind, M_bind. by destruct (m s) as [[]]. Qed.

Lemma inv_serve r s : inv s -> inv (serve r s).2.
Proof.
  intros Hi. destruct r; simpl; rw ?void_state;
    eauto using inv_Create, inv_Start, inv_Delete, inv_Exec, stays_inv, frame_ResizePty, frame_State, frame_Pause,
      frame_Resume, frame_Kill, frame_CloseIO, frame_Shutdown, frame_Stats, frame_Update, frame_Wait.
Qed.

Lemma inv_step s s' : inv s -> step s s' -> inv s'.
Proof.
  intros Hi Hs. destruct Hs as [r s _ _|s _|l1 t l2 s s' _ HT Hr|l1 l2 s _ HT _|s s' _ Hp|h s s' _ Hh Hr].
  - by apply inv_serve.
  - apply stays_inv; [apply frame_onEnv|done].
  - by eapply inv_thread.
  - destruct (inv_take _ _ _ _ Hi HT eq_refl) as [Hi' _].
    apply (stays_inv (let m := _ ← spawn TCleanup; modify (fun s => s <| sv_monitor := false |>) in m)) in Hi'.
    + simpl in Hi'. unfold mbind, M_bind in Hi'. simpl in Hi'. by rw app_assoc.
    + cbv zeta. stays.
  - by eapply inv_processExits.
  - by eapply inv_holder.
Qed.

Lemma inv_new id o : inv (new_service id o).
Proof.
  split.
  - split; try done; intros l; by intros [x Hx].
  - by intros t ?%elem_of_nil.
  - done.
  - by intros e ?%elem_of_nil.
  - intros pre cid id' pid st t post. by destruct pre.
  - intros [l|l] z; by intros ?%elem_of_nil.
  - by intros p z t ?%elem_of_nil.
Qed.

Lemma inv_reachable s : reachable s -> inv s.
Proof.
  intros (id & o & Hs). pose proof (inv_new id o) as Hi. induction Hs as [|s1 s2 s3 H12 _ IH]; [done|].
  apply IH. by eapply inv_step.
Qed.

(** A container that is registered is there, under its identifier. *)
Definition present (s : Shim W) (l : nat) (id : string) : Prop :=
  is_Some (sv_conts s !! l) /\ ct_id (scont_at s l) = id.

Lemma id_at_present s l id : id_at s l = Some id <-> present s l id.
Proof.
  unfold present, id_at, cores, scont_at. rw lookup_fmap. destruct (sv_conts s !! l) as [c|]; simpl.
  - split; [intros [= <-]; by split|by intros [_ <-]].
  - split; [done|by intros [[? ?] _]].
Qed.

Lemma wf_present s id l : wf s -> sv_containers s !! id = Some l -> present s l id.
Proof. intros Hw Hl. by apply id_at_present, (wf_containers _ Hw). Qed.

Lemma frame_present s s' l id : frame s s' -> present s l id -> present s' l id.
Proof. intros Hf Hp. apply id_at_present. by apply (la_ids _ _ (frame_later _ _ Hf)), id_at_present. Qed.

End Facts.
End ShimFacts.
