(* ===== verification/ShimProps.v ===== *)
(** * Theorems about the shim

    Ordering of the events, what [Wait] answers, the tables of the service, when
    the mutex is never released, and the agreement of the status the shim
    reports with the state of the sandbox. *)
From S2P Require Import Prelude GoStr Types Utils Devices DeviceManager Hypervisor State Persist Mounts Interfaces.
From S2P Require Import Receiver Resources Container Sandbox Frame Files Urunc Oci UruncCmd Shim ShimSpec.
Import Filepath Types.Lifecycle Types.Assets Devices.Config DeviceManager.DeviceManager HypervisorConf.
Import State Persist Mounts Interfaces Containers Sandboxes Urunc Oci UruncCmd Shim ShimFacts.

Module ShimProps.

Section Props.
Context {W : Type} `{GoRange} `{GoAppend} `{Hypervisor W} `{Agent W} `{FilesystemSharer W}
  `{ResourceController W} `{!Store W} `{HostOS W} `{ShimHost W}.

(** C2. Whatever calls arrive and however the goroutines are scheduled, the
    event that a process has exited is sent after the event that it was started:
    for a container the start of the container, for an exec the start of the
    exec in it. *)
Theorem exit_after_start (s : Shim W) pre cid id pid st t post :
  reachable s -> sv_events s = pre ++ TaskExit cid id pid st t :: post ->
  (id = cid /\ exists pid', TaskStart cid pid' ∈ pre) \/ (exists pid', TaskExecStarted cid id pid' ∈ pre).
Proof. intros Hr Hs. exact (inv_events _ (inv_reachable _ Hr) _ _ _ _ _ _ _ Hs). Qed.

(** The code that [Wait] answers is 255, the code of a failed start, or the
    code of an exit of a process of that container that has been announced to
    containerd or is on its way there. *)
Theorem wait_answers (s : Shim W) p z t :
  reachable s -> (p, z, t) ∈ sv_waits s ->
  z = exitCode255 \/ exists cid, owner s p = Some cid /\
    ((exists x r u, TReap cid x r u ∈ sv_threads s /\ u32 r = z) \/
     (exists e, e ∈ sv_ec s /\ xt_id e = cid /\ u32 (xt_status e) = z) \/
     (exists id pid u, TaskExit cid id pid z u ∈ sv_events s)).
Proof. intros Hr Hw. exact (inv_waits _ (inv_reachable _ Hr) _ _ _ Hw). Qed.

(** C36. In every reachable state a container is registered under its own
    identifier, and an exec in the table of a container is one of this
    container. *)
Theorem service_tables (s : Shim W) id l :
  reachable s -> sv_containers s !! id = Some l ->
  exists c, sv_conts s !! l = Some c /\ ct_id c = id /\
    forall x le, ct_execs c !! x = Some le -> exists e, sv_execs s !! le = Some e /\ ex_container e = l.
Proof.
  intros Hr Hl. pose proof (inv_wf _ (inv_reachable _ Hr)) as Hw. pose proof (wf_containers _ Hw _ _ Hl) as Hid.
  unfold id_at, cores in Hid. rw lookup_fmap in Hid. destruct (sv_conts s !! l) as [c|] eqn:E; [|done].
  simpl in Hid. injection Hid as <-. exists c. split_and!; [done|done|]. intros x le Hx.
  assert (Ho : owners s !! le = Some l).
  { eapply (wf_execs _ Hw l (ct_id c) (ct_execs c)); [|done]. unfold cores. by rw lookup_fmap E. }
  unfold owners in Ho. rw lookup_fmap in Ho. destruct (sv_execs s !! le) as [e|]; [|done].
  exists e. split; [done|]. by injection Ho.
Qed.

(** ** A mutex that is never released *)

(** The one that holds the mutex waits for something nobody will do: to send an
    exit code with nobody who takes the one before, or for the end of a copy of
    the standard input that is not running. *)
Definition stuck (h : holder) (s : Shim W) : Prop :=
  match h with
  | HStart p | HReport p _ _ _ _ => codes s p <> [] /\ (forall l, TRpcWait p l ∉ sv_threads s)
  | HCloseIO p => ch_stdinCloser (chans s p) = false /\ (TIoCopy p true ∉ sv_threads s) /\
                  forall l n, p = PCont l -> TCmdWait l n ∉ sv_threads s
  end.

(** The process a holder waits at. *)
Definition held (h : holder) : proc := match h with HStart p | HReport p _ _ _ _ | HCloseIO p => p end.

(** A goroutine that could help. *)
Definition helps (h : holder) (t : thread) : bool :=
  match h, t with
  | (HStart p | HReport p _ _ _ _), TRpcWait q _ => bool_decide (p = q)
  | HCloseIO p, TIoCopy q true => bool_decide (p = q)
  | HCloseIO p, TCmdWait l _ => bool_decide (p = PCont l)
  | _, _ => false
  end.

(** What keeps a holder where it is. *)
Definition blocked (h : holder) (ch : channels) : bool :=
  match h with
  | HStart _ | HReport _ _ _ _ _ => negb (bool_decide (ch_exitCh ch = []))
  | HCloseIO _ => negb (ch_stdinCloser ch)
  end.

Definition jam (h : holder) (s : Shim W) : Prop :=
  sv_lock s = Some h /\ blocked h (chans s (held h)) = true /\ Forall (fun t => helps h t = false) (sv_threads s).

Lemma stuck_jam h s : sv_lock s = Some h -> stuck h s -> jam h s.
Proof.
  intros Hl Hs. split; [done|]. destruct h as [p|p l x r u|p]; simpl in *.
  1-2: destruct Hs as [Hc Ht]; split; [by rw bool_decide_eq_false_2|]; apply Forall_forall; intros [] Hin; try done;
    apply bool_decide_eq_false_2; intros ->; by eapply Ht.
  destruct Hs as (Hc & Hi & Hw). split; [by rw Hc|]. apply Forall_forall. intros t Hin.
  destruct t as [q []|l n| | | | | | | |]; try done; apply bool_decide_eq_false_2; intros ->; [done|by eapply Hw].
Qed.

Record firm (h : holder) (s s' : Shim W) : Prop := {
  fi_lock : sv_lock s' = sv_lock s;
  fi_blocked : blocked h (chans s (held h)) = true -> blocked h (chans s' (held h)) = true;
  fi_threads : exists ts, sv_threads s' = sv_threads s ++ ts /\ Forall (fun t => helps h t = false) ts;
}.

#[export] Instance firm_preorder h : PreOrder (firm h).
Proof.
  split.
  - intros s. split; [done|done|]. exists []. by rw app_nil_r.
  - intros s1 s2 s3 [L1 B1 (t1 & T1 & F1)] [L2 B2 (t2 & T2 & F2)]. split; [congruence|auto|].
    exists (t1 ++ t2). rw T2 T1 -app_assoc. split; [done|by apply Forall_app].
Qed.

Lemma jam_firm h s s' : firm h s s' -> jam h s -> jam h s'.
Proof.
  intros [L B (ts & T & F)] (Hl & Hb & Ht). split_and!; [congruence|auto|]. rw T. by apply Forall_app.
Qed.

Lemma chans_upd q f (s : Shim W) p :
  chans (upd_chans q f s).2 p = chans s p \/ p = q /\ chans (upd_chans q f s).2 p = f (chans s p).
Proof.
  destruct p as [l|l], q as [l'|l']; try (by left); simpl; rw ?scont_alter ?sexec_alter.
  all: case_bool_decide as Hl; [right; by destruct Hl as [-> _]|by left].
Qed.

Lemma firm_upd_chans h q f :
  (held h = q -> forall ch, blocked h ch = true -> blocked h (f ch) = true) -> stays (firm h) (upd_chans q f : M (Shim W) unit).
Proof.
  intros Hf s. split.
  - by destruct q.
  - intros Hb. destruct (chans_upd q f s (held h)) as [-> |[Hq ->]]; auto.
  - exists []. rw app_nil_r. by destruct q.
Qed.

Lemma firm_close_exitIOch h q : stays (firm h) (close_exitIOch q : M (Shim W) unit).
Proof.
  unfold close_exitIOch. apply stays_bind; [apply _|apply stays_gets; apply _|]. intros ch. destruct (ch_exitIOch ch).
  - unfold panic. apply stays_bind; [apply _|apply stays_modify; intros s|intros _; apply stays_throw; apply _].
    split; try done. exists []. by rw app_nil_r.
  - apply firm_upd_chans. intros _ ch'. by destruct h.
Qed.

Lemma firm_panic {A} h what : stays (firm h) (panic what : M (Shim W) A).
Proof.
  unfold panic. apply stays_bind; [apply _|apply stays_modify; intros s|intros _; apply stays_throw; apply _].
  split; try done. exists []. by rw app_nil_r.
Qed.

(** Closing the standard input only matters to who waits for it. *)
Lemma firm_close_stdinCloser h q : (forall p, h = HCloseIO p -> p <> q) -> stays (firm h) (close_stdinCloser q : M (Shim W) unit).
Proof.
  intros Hh. unfold close_stdinCloser. apply stays_bind; [apply _|apply stays_gets; apply _|]. intros ch.
  destruct (ch_stdinCloser ch); [apply firm_panic|]. apply firm_upd_chans. intros Hq ch'.
  destruct h as [p|p l x r u|p]; [done|done|]. by destruct (Hh p eq_refl).
Qed.

Lemma firm_spawn h t : helps h t = false -> stays (firm h) (spawn t : M (Shim W) unit).
Proof. intros Ht. apply stays_modify. intros s. split; [done|done|]. exists [t]. by split; [|apply Forall_singleton]. Qed.

(** Everything but the channels, the mutex and the goroutines. *)
Lemma firm_same h (s s' : Shim W) : sv_lock s' = sv_lock s -> (forall p, chans s' p = chans s p) ->
  sv_threads s' = sv_threads s -> firm h s s'.
Proof. intros Hl Hc Ht. split; [done|by rw Hc|]. exists []. by rw app_nil_r. Qed.

Lemma firm_upd_scont h l f : (forall c, ct_chans (f c) = ct_chans c) -> stays (firm h) (upd_scont l f : M (Shim W) unit).
Proof.
  intros Hf. apply stays_modify. intros s. apply firm_same; [done| |done]. intros [l'|l']; [|done]. simpl.
  rw scont_alter. case_bool_decide; [apply Hf|done].
Qed.

Lemma firm_upd_sexec h l f : (forall e, ex_chans (f e) = ex_chans e) -> stays (firm h) (upd_sexec l f : M (Shim W) unit).
Proof.
  intros Hf. apply stays_modify. intros s. apply firm_same; [done| |done]. intros [l'|l']; [done|]. simpl.
  rw sexec_alter. case_bool_decide; [apply Hf|done].
Qed.

Lemma firm_onEnv {A} h (m : M W A) : stays (firm h) (onEnv m).
Proof.
  intros s. unfold onEnv. destruct (sv_sandbox s) as [o|w].
  - destruct (on_outside m o) as [r o']. by apply firm_same.
  - destruct (onW m w) as [r w']. by apply firm_same.
Qed.

Lemma firm_onSys {A} h (m : M (Sys W) A) : stays (firm h) (onSys m).
Proof.
  intros s. unfold onSys. destruct (sv_sandbox s) as [o|w]; [apply firm_panic|].
  destruct (m w) as [r w']. by apply firm_same.
Qed.

#[local] Hint Resolve firm_close_exitIOch firm_close_stdinCloser firm_onEnv firm_onSys : stays.
#[local] Hint Extern 1 (stays (firm _) (spawn _)) => apply firm_spawn; done : stays.
#[local] Hint Extern 1 (stays (firm _) (upd_scont _ _)) => apply firm_upd_scont; done : stays.
#[local] Hint Extern 1 (stays (firm _) (upd_sexec _ _)) => apply firm_upd_sexec; done : stays.

Lemma jam_stays {A} h (m : M (Shim W) A) s : stays (firm h) m -> jam h s -> jam h (m s).2.
Proof. intros Hm. apply jam_firm, Hm. Qed.

Lemma not_helped_closer h q : helps h (TIoCopy q true) = false -> forall p, h = HCloseIO p -> p <> q.
Proof. intros Hh p ->. simpl in Hh. by apply bool_decide_eq_false in Hh. Qed.
Lemma not_helped_command h l n : helps h (TCmdWait l n) = false -> forall p, h = HCloseIO p -> p <> PCont l.
Proof. intros Hh p ->. simpl in Hh. by apply bool_decide_eq_false in Hh. Qed.
Lemma not_helped_again h l n n' : helps h (TCmdWait l n) = false -> helps h (TCmdWait l n') = false.
Proof. by destruct h. Qed.
#[local] Hint Resolve not_helped_closer not_helped_command : stays.

Lemma jam_thread h t s s' : jam h s -> helps h t = false -> run_thread t s = Some s' -> jam h s'.
Proof.
  intros Hj Hh. assert (Hfree : is_free s = false) by (destruct Hj as [Hl _]; by rw /is_free Hl).
  unfold run_thread. destruct t as [p b|l n|l x|p l x|p l x r u|p l|p l z|id x r u| |]; rw ?Hfree; try done.
  - destruct b; intros [= <-]; (apply jam_stays; [|done]); [|unfold close_tty; destruct p; stays].
    apply stays_bind; [apply _|eauto with stays|]. intros _. apply firm_spawn. by destruct h.
  - pose proof (not_helped_again h l n) as Hn.
    destruct n as [|[|n]]; intros [= <-].
    + apply jam_stays; [|done]. apply stays_bind; [apply _|eauto with stays|]. intros _. by apply firm_spawn, Hn.
    + apply jam_stays; [|done]. apply stays_bind; [apply _|eauto with stays|]. intros _. by apply firm_spawn, Hn.
    + apply (jam_stays h (upd_scont l (fun c => c <| ct_status := StatusStopped |>))); [stays|done].
  - case_bool_decide; [|destruct (getExec _ x)]; intros [= <-]; [| |done]; apply (jam_stays h (spawn _)); try done; apply firm_spawn; by destruct h.
  - destruct (ch_exitIOch _); intros [= <-]. apply jam_stays; [|done]. unfold wait_process, readE. stays.
  - destruct (ch_exitCh (chans s p)) as [|z zs] eqn:Hc; intros [= <-]. apply jam_stays; [|done].
    apply stays_bind; [apply _| |intros _; apply firm_spawn; by destruct h]. apply firm_upd_chans. intros Hp ch.
    destruct h as [q|q ? ? ? ?|q]; simpl in *; [| |done]; subst; by rw bool_decide_eq_true_2 in Hh.
  - destruct (ch_exitCh (chans s p)); intros [= <-]. apply jam_stays; [|done].
    apply stays_bind; [apply _|by apply firm_upd_chans; intros _ ch; destruct h|]. intros _. apply stays_modify. intros s0. by apply firm_same.
  - intros [= <-]. eapply jam_firm; [|done]. by apply firm_same.
  - by intros [= <-].
Qed.

Lemma jam_take h s l1 t l2 : jam h s -> sv_threads s = l1 ++ t :: l2 ->
  jam h (s <| sv_threads := l1 ++ l2 |>) /\ helps h t = false.
Proof.
  intros (Hl & Hb & Ht) HT. rw HT in Ht. apply Forall_app in Ht as [H1' [Hh H2']%Forall_cons].
  split; [|done]. split_and!; [done|done|]. by apply Forall_app.
Qed.

Lemma jam_step h s s' : jam h s -> step s s' -> jam h s'.
Proof.
  intros Hj Hs. pose proof Hj as (Hl & Hb & Ht).
  destruct Hs as [r s _ Hn|s _|l1 t l2 s s' _ HT Hr|l1 l2 s _ HT _|s s' _ Hp|h' s s' _ Hh Hr].
  - by rw Hl in Hn.
  - apply jam_stays; [apply firm_onEnv|done].
  - destruct (jam_take _ _ _ _ _ Hj HT) as [Hj' Hh]. by eapply jam_thread.
  - destruct (jam_take _ _ _ _ _ Hj HT) as [Hj' _]. eapply jam_firm; [|done].
    split; [done|done|]. exists [TCleanup]. split; [simpl; by rw app_assoc|]. apply Forall_singleton. by destruct h.
  - unfold processExits, is_free in Hp. rw Hl in Hp. by destruct (sv_ec s).
  - rw Hl in Hh. injection Hh as <-. exfalso. revert Hr Hb. unfold run_holder.
    destruct h as [p|p l x r u|p]; simpl; [by destruct (ch_exitCh _)..|by destruct (ch_stdinCloser _)].
Qed.

(** C9. A call that holds the mutex while it waits for something nobody will do
    holds it for ever: a second [Start] of a container that fails before anybody
    has taken the code of the first failure, the report of an exit whose code
    cannot be sent, and [CloseIO] for a process whose standard input is not
    copied.  No call can be served from then on. *)
Theorem stuck_for_ever h (s s' : Shim W) : sv_lock s = Some h -> stuck h s -> steps s s' -> sv_lock s' = Some h.
Proof.
  intros Hl Hs Hst. pose proof (stuck_jam _ _ Hl Hs) as Hj. clear Hs Hl.
  induction Hst as [|s1 s2 s3 H12 _ IH]; [by destruct Hj|]. apply IH. by eapply jam_step.
Qed.

(** ** The status agrees with the sandbox *)

Definition state_by_id (w : Sys W) (id : string) : option StateString :=
  (fun l => cs_State (c_state (cont_at (sb_mem (w_recv w)) l))) <$> sb_containers (w_recv w) !! id.

(** What the sandbox says of a container, in the terms of containerd. *)
Definition sandbox_status (s : Shim W) (id : string) : status :=
  match sv_sandbox s with
  | inl _ => StatusUnknown
  | inr w => if bool_decide (id = "") then StatusUnknown else from_option status_of StatusUnknown (state_by_id w id)
  end.

Lemma StatusContainer_state id (w : Sys W) : id <> "" ->
  StatusContainer id w =
  match sb_containers (w_recv w) !! id with
  | Some l => (Ok (container_status (w_recv w) l), w)
  | None => (Err ErrNoSuchContainer, w)
  end.
Proof.
  intros Hid. unfold StatusContainer. rw bool_decide_eq_false_2; [done|]. rw readS_bind. simpl. by destruct (sb_containers (w_recv w) !! id).
Qed.

Lemma refresh_agrees l id (s : Shim W) : present s l id ->
  ct_status (scont_at (refresh_status l s).2 l) = sandbox_status (refresh_status l s).2 id.
Proof.
  intros [Hc Hid]. unfold refresh_status. unfold mbind, M_bind. simpl. rw Hid. unfold try, getContainerStatus.
  unfold mbind, M_bind, onSys. unfold sandbox_status, state_by_id. destruct (sv_sandbox s) as [o|w] eqn:Es.
  - simpl. rw scont_alter bool_decide_eq_true_2; [by split|]. simpl. by rw Es.
  - case_bool_decide as Hi.
    + subst. unfold StatusContainer. rw Hi. simpl. rw scont_alter bool_decide_eq_true_2; [by split|]. done.
    + rw StatusContainer_state; [done|]. destruct (sb_containers (w_recv w) !! id) as [k|] eqn:Ek; simpl;
        rw scont_alter bool_decide_eq_true_2; try (by split); by rw /= Ek.
Qed.

Definition same_table (w w' : Sys W) : Prop := sb_containers (w_recv w') = sb_containers (w_recv w).
#[local] Instance same_table_preorder : PreOrder same_table.
Proof. split; [done|]. intros w1 w2 w3. unfold same_table. congruence. Qed.

Lemma same_onW {A} (m : M W A) : stays same_table (onW m).
Proof. intros w. unfold onW, onS, onW_S. by destruct (m (sb_env (w_recv w))). Qed.
Lemma same_readS {A} (f : Sandbox W -> A) : stays same_table (readS f).
Proof. apply stays_gets, _. Qed.
Lemma same_cont l : stays same_table (cont l).
Proof. apply stays_gets, _. Qed.
Lemma same_upd_cont l f : stays same_table (upd_cont l f).
Proof. by apply stays_modify. Qed.
#[local] Hint Resolve same_onW same_readS same_cont same_upd_cont : stays.

Lemma same_save : stays same_table Sandbox_Save.
Proof. unfold Sandbox_Save. stays. Qed.
#[local] Hint Resolve same_save : stays.

Lemma same_setContainerState l st : stays same_table (setContainerState l st).
Proof. unfold setContainerState. stays. Qed.
#[local] Hint Resolve same_setContainerState : stays.

Lemma same_pause l : stays same_table (_ ← pause l; storeSandbox).
Proof. unfold storeSandbox, pause, checkSandboxRunning, require_state, cont_state. stays. Qed.
Lemma same_resume l : stays same_table (_ ← resume l; storeSandbox).
Proof. unfold storeSandbox, resume, checkSandboxRunning, require_state, cont_state. stays. Qed.

Definition has_state (l : nat) (st : StateString) (w : Sys W) : Prop :=
  cs_State (c_state (cont_at (sb_mem (w_recv w)) l)) = st.

Lemma keeps_save l st : stays (keeps (has_state l st)) Sandbox_Save.
Proof.
  intros w. unfold Sandbox_Save, keeps, has_state. munfold. destruct (save_records _ _ _ _) as [ss cs].
  unfold onW, onS, onW_S. by destruct (st_ToDisk ss cs (sb_env (w_recv w))).
Qed.

Lemma gives_setContainerState l st : gives (fun _ => has_state l st) (setContainerState l st).
Proof.
  unfold setContainerState. case_bool_decide; [apply gives_throw|]. apply gives_then.
  - intros w [] w' [= <-]. unfold has_state. simpl. by rw /cont_at /= lookup_insert_eq.
  - intros _. apply keeps_save.
Qed.

Lemma gives_pause l : gives (fun _ => has_state l StatePaused) (_ ← pause l; storeSandbox).
Proof.
  apply gives_then; [|intros _; apply keeps_save]. unfold pause. do 4 (apply gives_bind; intros ?). apply gives_setContainerState.
Qed.
Lemma gives_resume l : gives (fun _ => has_state l StateRunning) (_ ← resume l; storeSandbox).
Proof.
  apply gives_then; [|intros _; apply keeps_save]. unfold resume. do 4 (apply gives_bind; intros ?). apply gives_setContainerState.
Qed.

(** After a call on a container that succeeds the sandbox has it in that state. *)
Lemma found_state id (f : nat -> M (Sys W) unit) st w w' :
  (forall l, stays same_table (f l)) -> (forall l, gives (fun _ => has_state l st) (f l)) ->
  (findContainer id ≫= f) w = (Ok tt, w') -> id <> "" /\ state_by_id w' id = Some st.
Proof.
  intros Hs Hg. unfold findContainer. case_bool_decide as Hid; [done|].
  unfold mbind, M_bind. simpl. unfold readS, gets. simpl. destruct (sb_containers (w_recv w) !! id) as [l|] eqn:E; [|done].
  simpl. intros Hf. split; [done|]. unfold state_by_id. specialize (Hs l w). rw Hf in Hs. unfold same_table in Hs. simpl in Hs.
  rw Hs E. simpl. f_equal. by eapply Hg.
Qed.

Lemma Pause_state id (w w' : Sys W) : PauseContainer id w = (Ok tt, w') -> id <> "" /\ state_by_id w' id = Some StatePaused.
Proof. apply found_state; [apply same_pause|apply gives_pause]. Qed.
Lemma Resume_state id (w w' : Sys W) : ResumeContainer id w = (Ok tt, w') -> id <> "" /\ state_by_id w' id = Some StateRunning.
Proof. apply found_state; [apply same_resume|apply gives_resume]. Qed.

Lemma onSys_Ok {A} (m : M (Sys W) A) (s s' : Shim W) a : onSys m s = (Ok a, s') ->
  exists w w', sv_sandbox s = inr w /\ m w = (Ok a, w') /\ s' = s <| sv_sandbox := inr w' |>.
Proof.
  unfold onSys. destruct (sv_sandbox s) as [o|w] eqn:E; [done|]. destruct (m w) as [r w'] eqn:Em. intros [= -> <-].
  by exists w, w'.
Qed.

Lemma sandbox_status_Some (s : Shim W) w id st : sv_sandbox s = inr w -> id <> "" -> state_by_id w id = Some st ->
  sandbox_status s id = status_of st.
Proof. intros Hw Hid Hst. unfold sandbox_status. by rw Hw bool_decide_eq_false_2 // Hst. Qed.

Lemma scont_upd (f : container -> container) (s : Shim W) l : is_Some (sv_conts s !! l) ->
  scont_at (s <| sv_conts ::= alter f l |>) l = f (scont_at s l).
Proof. intros Hl. rw scont_alter. by rw bool_decide_eq_true_2. Qed.

Lemma try_bind {A B} (m : M (Shim W) A) (k : res A -> M (Shim W) B) s : (try m ≫= k) s = k (m s).1 (m s).2.
Proof. unfold try. unfold mbind, M_bind. by destruct (m s). Qed.

Lemma bind_throw_state {A B} (m : M (Shim W) A) e s : ((m ≫= fun _ => throw e) s : res B * Shim W).2 = (m s).2.
Proof. unfold mbind, M_bind. by destruct (m s) as [[]]. Qed.

Lemma getContainer_bind {B} id l (k : nat -> M (Shim W) B) s : sv_containers s !! id = Some l -> (getContainer id ≫= k) s = k l s.
Proof. intros Hl. unfold getContainer. unfold mbind, M_bind. simpl. by rw Hl. Qed.
Lemma upd_scont_bind {B} l f (k : unit -> M (Shim W) B) s : (upd_scont l f ≫= k) s = k tt (s <| sv_conts ::= alter f l |>).
Proof. done. Qed.
Lemma scont_bind {B} l (k : container -> M (Shim W) B) s : (scont l ≫= k) s = k (scont_at s l) s.
Proof. done. Qed.

(** A call of the sandbox that succeeds, with the status and an event after it,
    or that fails, with the status read back. *)
Lemma settles (call : M (Sys W) unit) (tell : M (Shim W) unit) (s : Shim W) l id st sst :
  present s l id -> status_of sst = st ->
  (forall w w', call w = (Ok tt, w') -> id <> "" /\ state_by_id w' id = Some sst) ->
  (forall s, sv_sandbox (tell s).2 = sv_sandbox s /\ sv_conts (tell s).2 = sv_conts s) ->
  let m := r ← try (onSys call);
           match r with
           | Ok _ => _ ← upd_scont l (fun c => c <| ct_status := st |>); tell
           | Err x => _ ← refresh_status l; throw x
           end in
  ct_status (scont_at (m s).2 l) = sandbox_status (m s).2 id.
Proof.
  intros Hp Hst Hcall Htell. cbv zeta. rw try_bind.
  pose proof (frame_onSys call s) as Hf. destruct (onSys call s) as [[[]|x] s1] eqn:E; simpl in Hf.
  - pose proof (frame_present _ _ _ _ Hf Hp) as [Hs _].
    apply onSys_Ok in E as (w & w' & Hw & Hc & ->). apply Hcall in Hc as [Hid Hin].
    set (s2 := (s <| sv_sandbox := inr w' |>) <| sv_conts ::= alter (fun c => c <| ct_status := st |>) l |>).
    change (ct_status (scont_at (tell s2).2 l) = sandbox_status (tell s2).2 id). destruct (Htell s2) as [Hsb Hco].
    rw (sandbox_status_Some _ w' id sst) //. rw Hst /scont_at Hco. change (ct_status (scont_at s2 l) = st). by rw scont_upd.
  - pose proof (refresh_agrees l id s1 (frame_present _ _ _ _ Hf Hp)) as Hr.
    by rw bind_throw_state.
Qed.

(** C13. After [Pause], whether it succeeds or fails, and wherever it fails, the
    status the shim reports for the container is the state the sandbox has it
    in, or unknown if the sandbox does not know it. *)
Theorem pause_agrees (s : Shim W) id l : reachable s -> sv_containers s !! id = Some l ->
  ct_status (scont_at (svc_Pause id s).2 l) = sandbox_status (svc_Pause id s).2 id.
Proof.
  intros Hr Hl. pose proof (wf_present _ _ _ (inv_wf _ (inv_reachable _ Hr)) Hl) as Hp.
  unfold svc_Pause. rw (getContainer_bind id l) //. rw upd_scont_bind.
  apply settles with (sst := StatePaused); [|done|apply Pause_state|done].
  apply (frame_present s); [|done].
  apply (frame_upd_scont l (fun c => c <| ct_status := StatusPausing |>)); try done. by intros c z; right.
Qed.

(** After [Resume] the status the shim reports is the state the sandbox has
    the container in, as after [Pause]. *)
Theorem resume_agrees (s : Shim W) id l : reachable s -> sv_containers s !! id = Some l ->
  ct_status (scont_at (svc_Resume id s).2 l) = sandbox_status (svc_Resume id s).2 id.
Proof.
  intros Hr Hl. pose proof (wf_present _ _ _ (inv_wf _ (inv_reachable _ Hr)) Hl) as Hp.
  unfold svc_Resume. rw (getContainer_bind id l) // scont_bind (proj2 Hp). apply settles with (sst := StateRunning); [done|done|apply Resume_state|done].
Qed.

(** ** Two goroutines close the same channel *)

Lemma close_open (s : Shim W) l : is_Some (sv_conts s !! l) -> ch_exitIOch (chans s (PCont l)) = false ->
  let s' := (close_exitIOch (PCont l) s).2 in
  sv_panic s' = sv_panic s /\ sv_threads s' = sv_threads s /\ ch_exitIOch (chans s' (PCont l)) = true.
Proof.
  intros Hl Hc. unfold close_exitIOch. unfold mbind, M_bind. simpl in *. rw Hc. simpl. by rw scont_upd.
Qed.

Lemma close_closed (s : Shim W) p : ch_exitIOch (chans s p) = true ->
  close_exitIOch p s = (Err (ErrExternal "close of closed channel"), s <| sv_panic := Some "close of closed channel" |>).
Proof. intros Hc. unfold close_exitIOch. unfold mbind, M_bind. simpl in *. by rw Hc. Qed.

(** A unikernel with a stream has two goroutines that close the channel for
    the end of the streams, the one that copies the streams and the one that
    waits for the process: from every state with both of them the shim can
    crash. *)
Theorem unikernel_io_panics (s : Shim W) l id l1 l2 l3 :
  sv_panic s = None -> present s l id -> ch_exitIOch (chans s (PCont l)) = false ->
  sv_threads s = l1 ++ TIoCopy (PCont l) false :: l2 ++ TCmdWait l 0 :: l3 ->
  exists s', steps s s' /\ sv_panic s' = Some "close of closed channel".
Proof.
  intros Hp [Hin _] Hc HT. set (s0 := s <| sv_threads := l1 ++ l2 ++ TCmdWait l 0 :: l3 |>).
  set (s1 := (close_tty (PCont l) s0).2).
  assert (Hin1 : is_Some (sv_conts s1 !! l)) by (simpl; by rw lookup_alter_eq fmap_is_Some).
  assert (Hc1 : ch_exitIOch (chans s1 (PCont l)) = false) by (unfold s1; simpl; by rw scont_upd).
  destruct (close_open s1 l Hin1 Hc1) as (Hp2 & HT2 & Hc2). set (s2 := (close_exitIOch (PCont l) s1).2) in *.
  assert (H12 : step s s2) by (by apply (step_thread l1 (TIoCopy (PCont l) false) _ s s2 Hp HT)).
  assert (HT2' : sv_threads s2 = (l1 ++ l2) ++ TCmdWait l 0 :: l3) by (rw HT2; simpl; by rw app_assoc).
  set (s3 := s2 <| sv_threads := (l1 ++ l2) ++ l3 |>).
  exists (s3 <| sv_panic := Some "close of closed channel" |>). split; [|done].
  eapply rtc_l; [exact H12|]. apply rtc_once. apply (step_thread _ _ _ _ _ (eq_trans Hp2 Hp) HT2').
  unfold run_thread. unfold mbind, M_bind. by rw (close_closed s3 (PCont l) Hc2).
Qed.

(** ** Kill, delete and shut down *)

Lemma onEnv_containers {A} (m : M W A) (s : Shim W) : sv_containers (onEnv m s).2 = sv_containers s.
Proof.
  unfold onEnv. destruct (sv_sandbox s) as [o|w]; [by destruct (on_outside m o)|by destruct (onW m w)].
Qed.

Lemma gives_remove l id (s : Shim W) : present s l id -> forall s', deleteContainer l s = (Ok tt, s') -> sv_containers s' !! id = None.
Proof.
  intros [_ <-] s'. unfold deleteContainer. rw scont_bind.
  refine ((_ : gives (fun _ s' => sv_containers s' !! ct_id (scont_at s l) = None) _) s tt s').
  apply gives_bind. intros []. apply gives_bind. intros []; [|done].
  do 3 (apply gives_bind; intros ?). intros s1 [] s2 [= <-]. apply lookup_delete_eq.
Qed.

Lemma deleted_hpid (s s' : Shim W) id r : svc_Delete id "" s = (Ok r, s') -> sv_hpid s' = u32 (os_Getpid (env s')).
Proof.
  refine ((_ : gives (fun _ s' => sv_hpid s' = u32 (os_Getpid (env s'))) _) s r s').
  unfold svc_Delete. apply gives_bind. intros l. rw bool_decide_eq_true_2 //.
  apply gives_bind. intros []. by intros s1 a s2 [= <- <-].
Qed.

(** [Kill] kills every child process of the shim, and so every unikernel,
    before it looks for the container: also when there is no such container. *)
Theorem kill_before_lookup (s : Shim W) id execID signum all : sv_containers s !! id = None ->
  svc_Kill id execID signum all s =
  (Err (Errorf "container does not exist %s"), (onEnv sh_KillChildren s).2).
Proof.
  intros Hn. pose proof (onEnv_containers sh_KillChildren s) as Hc.
  unfold svc_Kill, ignore_err. unfold mbind, M_bind, try. destruct (onEnv sh_KillChildren s) as [r s1]. simpl in *.
  unfold getContainer. unfold mbind, M_bind. simpl. by rw Hc Hn.
Qed.

(** Deleting a container removes it from the table, answers and announces
    the code and the time its process left, and replaces the process of the
    hypervisor by the shim itself, for all containers. *)
Theorem delete_container (s s' : Shim W) id l code t pid :
  reachable s -> sv_containers s !! id = Some l -> svc_Delete id "" s = (Ok (code, t, pid), s') ->
  sv_containers s' !! id = None /\ sv_hpid s' = u32 (os_Getpid (env s')) /\ pid = sv_hpid s' /\
  code = ct_exit (scont_at s' l) /\ t = ct_exitTime (scont_at s' l) /\
  exists evs, sv_events s' = evs ++ [TaskDelete id pid code t].
Proof.
  intros Hr Hl. pose proof (wf_present _ _ _ (inv_wf _ (inv_reachable _ Hr)) Hl) as Hp.
  unfold svc_Delete. rw (getContainer_bind id l) //. rw bool_decide_eq_true_2 //.
  unfold mbind at 1, M_bind. pose proof (frame_delete l s) as Hf. pose proof (gives_remove l id s Hp) as Hrem.
  destruct (deleteContainer l s) as [[[]|e] s1]; simpl in Hf; [|done]. intros [= <- <- <- <-].
  pose proof (frame_present _ _ _ _ Hf Hp) as [_ Hid]. specialize (Hrem s1 eq_refl).
  split_and!; try done. eexists. simpl. do 2 f_equal. by rw -Hid.
Qed.

(** Once a container has been deleted, shutting down sends the signal that is
    meant for the hypervisor to the shim itself. *)
Theorem shutdown_after_delete (s s' : Shim W) id r :
  svc_Delete id "" s = (Ok r, s') -> sv_containers s' = ∅ ->
  svc_Shutdown s' = (Ok tt, (onEnv (sh_KillHypervisor (u32 (os_Getpid (env s')))) s').2 <| sv_panic := Some exited |>).
Proof.
  intros Hd%deleted_hpid He. unfold svc_Shutdown, ignore_err. unfold mbind, M_bind. simpl. rw bool_decide_eq_true_2 //.
  rw -Hd /try. simpl. by destruct (onEnv _ s').
Qed.
End Props.
End ShimProps.
