(* ===== verification/ShimRuns.v ===== *)
(** * Concrete runs of the shim

    The service in the world of [Mock]: a host for it, schedules of calls and
    goroutines, and what they lead to. *)
From S2P Require Import Prelude GoStr Types CPUSet Utils Devices DeviceManager Hypervisor State Persist Mounts.
From S2P Require Import Interfaces Receiver Resources Container Sandbox Frame Files Urunc Oci UruncCmd.
From S2P Require Import Shim ShimSpec ShimProps Mock Runs.
Import Types.Lifecycle Types.Assets Devices.Config Devices.Drivers DeviceManager.DeviceManager HypervisorConf.
Import State Persist Mounts Interfaces Containers Sandboxes Urunc Oci UruncCmd Shim ShimFacts ShimProps Mock.

Module ShimRuns.

(** ** A host *)

(** An operation that fails if it is listed. *)
Definition may (name : string) : M Env unit :=
  e ← get; if bool_decide (name ∈ en_fail e) then throw (ErrExternal name) else mret tt.

#[export] Instance shim_oci : OciHost := {|
  re_MatchString := fun p t => Contains t p;
  fp_Glob := fun g => [g];
  rt_NumCPU := 8;
  sys_Statfs := fun _ => Ok (4096, 16384);
  json_strings := fun s => Ok [s];
  ParseQuantity := fun _ => Ok (true, 1048576);
  exp_features := [];
|}.

Definition process : SpecProcess := mkSpecProcess false None (mkSpecUser 0 0 []) ["sh"] ["PATH=/bin"] "/" None true.

(** The bundle tells the kind of container. *)
Definition annotations (bundle : string) : gmap string string :=
  if bool_decide (bundle = "/pod") then {[ ctr_ContainerType := "sandbox" ]}
  else if bool_decide (bundle = "/single") then ∅
  else {[ ctr_ContainerType := "container"; "io.kubernetes.cri.sandbox-id" := "pod" ]}.

Definition spec_of (bundle : string) : Spec :=
  mkSpec (Some process) (Some (mkSpecRoot "rootfs" false)) "host" [] (Some (annotations bundle))
    (Some (mkSpecLinux (Some (mkResources None None [])) [] [])).

Definition runtime (unikernel : bool) : RuntimeConfig :=
  mkRuntimeConfig [] [] "" "" "" "" (if unikernel then UruncHypervisor else QemuHypervisor) (mkFactoryConfig "" "" 0 false)
    (Runs.hconf <| hc_HypervisorPath := "/usr/bin/qemu" |> <| hc_NumVCPUs := 1 |> <| hc_MemorySize := 2048 |>
       <| hc_Unikernel := unikernel |>)
    (mkKataAgentConfig [] 0 0 false false false false) NetXConnectTCFilterModel VFIOModeVFIO false false false 0 0 false
    false false false false.

Definition exec_data : ExecData := mkExecData "binary" "/bin/unikernel" "" "" "" "" None "" "".

(** Users are created under one name; mounts are counted. *)
#[export] Instance mockShim : ShimHost Env := {|
  sh_oci := shim_oci;
  sh_GetExecData := fun _ => exec_data;
  sh_Interfaces := fun _ => ["eth0"];
  sh_Now := fun _ => 1000;
  sh_ParseConfigJSON := fun bundle _ => Ok (spec_of bundle, None, None);
  sh_LoadConfiguration := fun path _ => Ok (runtime (bool_decide (path = "/unikernel.toml")));
  sh_Getenv := fun _ _ => "";
  sh_Setenv := fun _ _ => nop tt;
  sh_Mkdir := fun _ => nop tt;
  sh_RemoveAll := fun _ => nop tt;
  sh_Chown := fun _ _ _ => nop tt;
  sh_Mount := fun _ dir => modify (fun e => e <| en_mounts ::= cons dir |>);
  sh_UnmountAll := fun dir => modify (fun e => e <| en_mounts ::= filter (fun d => d <> dir) |>);
  sh_Hooks := fun kind _ _ _ => may kind;
  sh_EnterNetNS := fun _ => nop tt;
  sh_NetNs := fun _ => "";
  sh_SetupNetworkNamespace := mret tt;
  sh_cleanupNetNS := fun _ => nop tt;
  sh_CreateTracer := nop tt;
  sh_HandleFactory := fun _ => nop false;
  sh_SetRootless := fun _ => nop tt;
  sh_CreateVmmUser := nop "kata";
  sh_RemoveVmmUser := fun _ => nop tt;
  sh_LookupUser := fun _ _ => Ok ("1000", "1000");
  sh_StatGid := fun _ _ => Ok (Some 36);
  sh_OpenFifo := fun _ => may "fifo";
  sh_StdinPipe := nop tt;
  sh_StdoutPipe := nop tt;
  sh_StderrPipe := nop tt;
  sh_StartCommand := fun _ => may "command";
  sh_KillChildren := modify (fun e => e <| en_killed ::= S |>);
  sh_CloseStdin := fun _ => nop tt;
  sh_KillHypervisor := fun _ => nop tt;
  sh_Namespace := fun _ => Ok "default";
  sh_Executable := fun _ => Ok "/bin/shim";
  sh_Debug := fun _ => false;
  sh_SocketAddress := fun a id _ => Ok (a +:+ id);
  sh_SocketEaddrinuse := fun _ => false;
  sh_NewSocket := fun _ => nop tt;
  sh_SocketFile := fun _ => may "file";
  sh_CloseSocket := fun _ => nop tt;
  sh_RemoveSocket := fun _ => nop tt;
  sh_WriteAddress := fun _ _ => nop tt;
  sh_WritePidFile := fun _ _ => nop tt;
  sh_StartShim := fun _ _ _ => nop 77;
  sh_KillShim := fun _ => nop tt;
|}.

(** ** Schedules *)

(** A call; the first goroutine that can go on among those from a position; the
    next exit; the one with the mutex. *)
Inductive action := ACall (r : request) | AThread (n : nat) | AExits | AHolder.

Definition act (a : action) (s : Shim Env) : option (Shim Env) :=
  if negb (bool_decide (sv_panic s = None)) then None else
  match a with
  | ACall r => if is_free s then Some (serve r s).2 else None
  | AThread n =>
      match sv_threads s !! n with
      | Some t => run_thread t (s <| sv_threads := take n (sv_threads s) ++ drop (S n) (sv_threads s) |>)
      | None => None
      end
  | AExits => processExits s
  | AHolder => match sv_lock s with Some h => run_holder h s | None => None end
  end.

Lemma act_step a s s' : act a s = Some s' -> step s s'.
Proof.
  unfold act. case_bool_decide as Hp; simpl; [|done]. destruct a as [r|n| |].
  - unfold is_free. case_bool_decide as Hl; [|done]. intros [= <-]. by apply step_request.
  - destruct (sv_threads s !! n) as [t|] eqn:Ht; [|done]. intros Hr. eapply step_thread; [done| |exact Hr].
    by rw take_drop_middle.
  - by apply step_exits.
  - destruct (sv_lock s) as [h|] eqn:Hl; [|done]. by apply step_holder.
Qed.

(** The state after a schedule; an action that is not possible is skipped. *)
Fixpoint schedule (l : list action) (s : Shim Env) : Shim Env :=
  match l with
  | [] => s
  | a :: l' => schedule l' (default s (act a s))
  end.

Lemma schedule_steps l s : steps s (schedule l s).
Proof.
  revert s. induction l as [|a l IH]; intros s; [done|]. simpl. destruct (act a s) as [s'|] eqn:Ha; simpl; [|apply IH].
  eapply rtc_l; [by eapply act_step|apply IH].
Qed.

Definition world (fail : list string) : Env := mkEnv 42 0 None Runs.host ["/pod"; "/single"; "/c1"; "/c2"] [] fail 0.

Definition start_in (fail : list string) (l : list action) : Shim Env := schedule l (new_service "pod" (world fail, ∅)).

Lemma start_reachable fail l : reachable (start_in fail l).
Proof. eexists _, _. apply schedule_steps. Qed.

Definition create_request (id bundle stdin stdout config : string) : request :=
  RCreate (mkCreateRequest id bundle [mkSpecRootfs "overlay" "overlay" []] false stdin stdout "" (Some (Ok (Some config)))).

(** A pod is created and started, and someone waits for it. *)
Definition pod_up : list action :=
  [ACall (create_request "pod" "/pod" "" "" ""); ACall (RStart "pod" ""); ACall (RWait "pod" "")].

(** Its process ends, the exit is announced, and the wait is answered. *)
Definition pod_ended : list action := pod_up ++ [AThread 1; AThread 2; AThread 2; AThread 2; AExits; AThread 1; AThread 1].

Lemma exit_after_start_witness :
  let s := start_in [] pod_ended in
  sv_events s = [TaskCreate "pod" 42; TaskStart "pod" 42; TaskExit "pod" "pod" 42 0 1000] /\
  exists pid, TaskStart "pod" pid ∈ [TaskCreate "pod" 42; TaskStart "pod" 42].
Proof.
  assert (E : sv_events (start_in [] pod_ended) = [TaskCreate "pod" 42; TaskStart "pod" 42; TaskExit "pod" "pod" 42 0 1000])
    by (vm_compute; reflexivity).
  split; [exact E|].
  destruct (exit_after_start _ [TaskCreate "pod" 42; TaskStart "pod" 42] "pod" "pod" 42 0 1000 [] (start_reachable [] pod_ended) E)
    as [[_ Hs]|[pid Hs]]; [exact Hs|].
  exfalso. apply elem_of_cons in Hs as [Hs|Hs]; [discriminate Hs|]. apply elem_of_cons in Hs as [Hs|Hs]; [discriminate Hs|].
  exact (proj1 (elem_of_nil _) Hs).
Defined.

Lemma wait_answers_witness :
  let s := start_in [] pod_ended in
  sv_waits s = [(PCont 0, 0, 1000)] /\
  (0 = exitCode255 \/ exists cid, owner s (PCont 0) = Some cid /\
    ((exists x r u, TReap cid x r u ∈ sv_threads s /\ u32 r = 0) \/
     (exists e, e ∈ sv_ec s /\ xt_id e = cid /\ u32 (xt_status e) = 0) \/
     (exists id pid u, TaskExit cid id pid 0 u ∈ sv_events s))).
Proof.
  assert (E : sv_waits (start_in [] pod_ended) = [(PCont 0, 0, 1000)]) by (vm_compute; reflexivity).
  split; [exact E|]. apply (wait_answers _ (PCont 0) 0 1000 (start_reachable [] pod_ended)). rw E. by left.
Defined.

(** A pod with a container in it, and an exec. *)
Definition shell : ProcessSpec := mkProcessSpec ["sh"] ["A=b=c"] "/" 0 0 [] false None.
Definition container_up : list action :=
  pod_up ++ [ACall (create_request "c1" "/c1" "" "" ""); ACall (RStart "c1" "");
             ACall (RExec "c1" "x" "" "" "" false (Some (Ok (Some shell))))].

Lemma service_tables_witness :
  let s := start_in [] container_up in
  exists c, sv_conts s !! 1%nat = Some c /\ ct_id c = "c1" /\ ct_execs c !! "x" = Some 2%nat /\
    exists e, sv_execs s !! 2%nat = Some e /\ ex_container e = 1%nat.
Proof.
  destruct (service_tables (start_in [] container_up) "c1" 1 (start_reachable [] container_up)) as (c & Hc & Hid & Hx);
    [vm_compute; reflexivity|].
  assert (Hex : ct_execs c !! "x" = Some 2%nat).
  { assert (E : (sv_conts (start_in [] container_up) !! 1%nat ≫= fun c => ct_execs c !! "x") = Some 2%nat)
      by (vm_compute; reflexivity). rw Hc in E. exact E. }
  exists c. split; [exact Hc|]. split; [exact Hid|]. split; [exact Hex|]. exact (Hx _ _ Hex).
Defined.

Lemma pause_agrees_witness :
  let s' := (svc_Pause "c1" (start_in [] container_up)).2 in
  ct_status (scont_at s' 1) = sandbox_status s' "c1" /\ ct_status (scont_at s' 1) = StatusPaused.
Proof.
  split; [|vm_compute; reflexivity]. apply (pause_agrees _ "c1" 1 (start_reachable [] container_up)). vm_compute; reflexivity.
Defined.

Lemma resume_agrees_witness :
  let s' := (svc_Resume "c1" (start_in [] container_up)).2 in
  ct_status (scont_at s' 1) = sandbox_status s' "c1" /\ ct_status (scont_at s' 1) = StatusRunning.
Proof.
  split; [|vm_compute; reflexivity]. apply (resume_agrees _ "c1" 1 (start_reachable [] container_up)). vm_compute; reflexivity.
Defined.

(** The second start of a container whose streams cannot be opened. *)
Definition two_starts : list action :=
  [ACall (create_request "pod" "/pod" "/in" "" ""); ACall (RStart "pod" ""); ACall (RStart "pod" "")].

(** The standard input of a container that only has an output. *)
Definition close_output_only : list action :=
  [ACall (create_request "pod" "/pod" "" "/out" ""); ACall (RStart "pod" ""); ACall (RCloseIO "pod" "")].

Lemma stuck_for_ever_witness :
  let l := [ACall (RWait "pod" ""); AThread 0; AThread 1; ACall (RDelete "pod" ""); AHolder] in
  sv_lock (schedule l (start_in ["fifo"] two_starts)) = Some (HStart (PCont 0)) /\
  sv_lock (schedule l (start_in [] close_output_only)) = Some (HCloseIO (PCont 0)).
Proof.
  cbv zeta. split; (eapply stuck_for_ever; [| |apply schedule_steps]); try (vm_compute; reflexivity).
  - split; [by vm_compute|]. intros k. replace (sv_threads (start_in ["fifo"] two_starts)) with [TWatch] by (vm_compute; reflexivity).
    intros Hk. apply list_elem_of_singleton in Hk. discriminate Hk.
  - assert (E : sv_threads (start_in [] close_output_only) = [TWatch; TIoCopy (PCont 0) false; TBegin 0 ""]) by (vm_compute; reflexivity).
    split; [by vm_compute|]. rw E. split; [by apply (bool_decide_eq_true_1 (_ ∉ _)); vm_compute|].
    intros k n _ Hk. repeat (apply elem_of_cons in Hk as [Hk|Hk]; [discriminate Hk|]). exact (proj1 (elem_of_nil _) Hk).
Defined.

(** A unikernel with an output. *)
Definition unikernel_up : list action :=
  [ACall (create_request "pod" "/pod" "" "/out" "/unikernel.toml"); ACall (RStart "pod" "")].

Lemma unikernel_io_panics_witness :
  exists s', steps (start_in [] unikernel_up) s' /\ sv_panic s' = Some "close of closed channel".
Proof.
  apply (unikernel_io_panics _ 0 "pod" [] [] [TBegin 0 ""]); try (vm_compute; reflexivity).
  split; [eexists; vm_compute; reflexivity|vm_compute; reflexivity].
Defined.

Lemma kill_before_lookup_witness :
  en_killed (env (svc_Kill "none" "" 9 false (start_in [] pod_up)).2) = 1%nat.
Proof. rw kill_before_lookup; vm_compute; reflexivity. Defined.

Lemma delete_container_witness :
  let s' := (svc_Delete "pod" "" (start_in [] pod_ended)).2 in
  sv_containers s' !! "pod" = None /\ sv_hpid s' = 42 /\ ct_exit (scont_at s' 0) = 0.
Proof.
  pose (r := svc_Delete "pod" "" (start_in [] pod_ended)).
  assert (E : r = (Ok (0, 1000, 42), r.2)) by (vm_compute; reflexivity).
  assert (Hl : sv_containers (start_in [] pod_ended) !! "pod" = Some 0%nat) by (vm_compute; reflexivity).
  destruct (delete_container _ _ "pod" 0 _ _ _ (start_reachable [] pod_ended) Hl E) as (Hn & Hp & Hpid & Hc & _).
  split; [exact Hn|]. split; [by rw -Hpid|by rw -Hc].
Defined.

Lemma shutdown_after_delete_witness :
  let s' := (svc_Delete "pod" "" (start_in [] pod_ended)).2 in
  svc_Shutdown s' = (Ok tt, (onEnv (sh_KillHypervisor 42) s').2 <| sv_panic := Some exited |>).
Proof.
  pose (r := svc_Delete "pod" "" (start_in [] pod_ended)).
  assert (E : r = (Ok (0, 1000, 42), r.2)) by (vm_compute; reflexivity).
  assert (He : sv_containers r.2 = ∅) by (vm_compute; reflexivity).
  assert (Hp : u32 (os_Getpid (env r.2)) = 42) by (vm_compute; reflexivity).
  cbv zeta. fold r. rw -Hp. exact (shutdown_after_delete _ _ _ _ E He).
Defined.

(** The creation of a sandbox that fails after its root file system was
    mounted leaves it mounted, although a deferred function is there to unmount
    it; the creation of a container that fails unmounts it. *)
Theorem failed_creation_mounts :
  en_mounts (env (start_in ["pre-start"] [ACall (create_request "pod" "/pod" "" "" "")])) = ["/pod/rootfs"] /\
  en_mounts (env (start_in [] (pod_up ++ [ACall (create_request "c1" "/c1" "" "" "");
                                          ACall (create_request "c1" "/c2" "" "" "")]))) = ["/c1/rootfs"; "/pod/rootfs"].
Proof. split; vm_compute; reflexivity. Qed.
End ShimRuns.
