(* ===== verification/Qemu.v ===== *)
(** * The QEMU command line

    [pkg/govmm/qemu/qemu.go]: the configuration of a QEMU process, the devices
    it may hold, the arguments each device asks for, and [LaunchQemu], which
    turns a configuration into the command that is run.  [Config] is the Go
    structure, its two private fields [fds] and [qemuParams] included: the
    [append] methods change them, so they are actions of the monad over
    [Config].  The architecture the runtime is built for ([runtime.GOARCH]) and
    the execution of the command are arguments of the model. *)
From S2P Require Import Prelude GoStr.

Module Qemu.

(** The constants of package [runtime] the file reads. *)
Class GoArch : Type := { GOARCH : string }.

(** ** Strings *)

(** [s != ""]. *)
Definition given (s : string) : bool := bool_decide (s <> "").

(** [if b { l = append(l, s) }] contributes [opt b s]. *)
Definition opt (b : bool) (s : string) : list string := if b then [s] else [].

(** [fmt.Sprintf("k=%s", v)]. *)
Definition param (k v : string) : string := k +:+ "=" +:+ v.

(** The option [flag] with the properties [params], separated by commas. *)
Definition option_of (flag : string) (params : list string) : list string := [flag; Join "," params].

Definition on_off (b : bool) : string := if b then "on" else "off".

(** ** Machine and transports *)

Record Machine : Type := mkMachine {
  Machine_Type : string;
  Acceleration : string;
  Machine_Options : string;
}.

Definition MachineTypeMicrovm : string := "microvm".

(** [DeviceDriver], [VirtioTransport], [ObjectType] and the other named string
    types of the file are strings. *)
Definition LegacySerial : string := "serial".
Definition VirtioBlock : string := "virtio-blk".
Definition Virtio9P : string := "virtio-9p".
Definition VirtioSerial : string := "virtio-serial".
Definition VhostUserSCSI : string := "vhost-user-scsi".
Definition VhostUserNet : string := "virtio-net".
Definition VhostUserBlk : string := "vhost-user-blk".
Definition VhostUserFS : string := "vhost-user-fs".
Definition PCIBridgeDriver : string := "pci-bridge".
Definition PCIePCIBridgeDriver : string := "pcie-pci-bridge".
Definition PCIeRootPort : string := "pcie-root-port".

Definition TransportPCI : string := "pci".
Definition TransportCCW : string := "ccw".
Definition TransportMMIO : string := "mmio".

(** A map from transports to device names; a missing key gives the empty
    string. *)
Definition by_transport (pci ccw mmio transport : string) : string :=
  if bool_decide (transport = TransportPCI) then pci
  else if bool_decide (transport = TransportCCW) then ccw
  else if bool_decide (transport = TransportMMIO) then mmio
  else "".

Definition Virtio9PTransport := by_transport "virtio-9p-pci" "virtio-9p-ccw" "virtio-9p-device".
Definition VirtioSerialTransport := by_transport "virtio-serial-pci" "virtio-serial-ccw" "virtio-serial-device".
Definition VirtioBlockTransport := by_transport "virtio-blk-pci" "virtio-blk-ccw" "virtio-blk-device".
Definition VhostUserNetTransport := by_transport "virtio-net-pci" "virtio-net-ccw" "virtio-net-device".
Definition VhostUserSCSITransport := by_transport "vhost-user-scsi-pci" "vhost-user-scsi-ccw" "vhost-user-scsi-device".
Definition VhostUserBlkTransport := by_transport "vhost-user-blk-pci" "vhost-user-blk-ccw" "vhost-user-blk-device".
Definition VhostUserFSTransport := by_transport "vhost-user-fs-pci" "vhost-user-fs-ccw" "vhost-user-fs-device".
Definition VFIODeviceTransport := by_transport "vfio-pci" "vfio-ccw" "vfio-device".
Definition SCSIControllerTransport := by_transport "virtio-scsi-pci" "virtio-scsi-ccw" "virtio-scsi-device".
Definition VSOCKDeviceTransport := by_transport "vhost-vsock-pci" "vhost-vsock-ccw" "vhost-vsock-device".
Definition RngDeviceTransport := by_transport "virtio-rng-pci" "virtio-rng-ccw" "virtio-rng-device".
Definition BalloonDeviceTransport := by_transport "virtio-balloon-pci" "virtio-balloon-ccw" "virtio-balloon-device".

(** ** Devices *)

Definition MemoryBackendFile : string := "memory-backend-file".
Definition MemoryBackendEPC : string := "memory-backend-epc".
Definition TDXGuest : string := "tdx-guest".
Definition SEVGuest : string := "sev-guest".
Definition SecExecGuest : string := "s390-pv-guest".
Definition PEFGuest : string := "pef-guest".

Record Object : Type := mkObject {
  ob_Driver : string;
  ob_Type : string;
  ob_ID : string;
  ob_DeviceID : string;
  ob_MemPath : string;
  ob_Size : Z;
  ob_Debug : bool;
  ob_File : string;
  ob_FirmwareVolume : string;
  ob_CBitPos : Z;
  ob_ReducedPhysBits : Z;
  ob_ReadOnly : bool;
  ob_Prealloc : bool;
}.

Record FSDevice : Type := mkFSDevice {
  fs_Driver : string;
  fs_FSDriver : string;
  fs_ID : string;
  fs_Path : string;
  fs_MountTag : string;
  fs_SecurityModel : string;
  fs_DisableModern : bool;
  fs_ROMFile : string;
  fs_DevNo : string;
  fs_Transport : string;
  fs_Multidev : string;
}.

Definition Socket : string := "socket".

Record CharDevice : Type := mkCharDevice {
  cd_Backend : string;
  cd_Driver : string;
  cd_Bus : string;
  cd_DeviceID : string;
  cd_ID : string;
  cd_Path : string;
  cd_Name : string;
  cd_DisableModern : bool;
  cd_ROMFile : string;
  cd_DevNo : string;
  cd_Transport : string;
}.

(** A value of [*os.File]: [None] is the nil pointer, [Some f] an open file. *)
Definition File : Type := option Z.

Definition TAP : string := "tap".
Definition MACVTAP : string := "macvtap".
Definition IPVTAP : string := "ipvtap".
Definition VETHTAP : string := "vethtap".
Definition VFIO : string := "VFIO".
Definition VHOSTUSER : string := "vhostuser".

Record NetDevice : Type := mkNetDevice {
  nd_Type : string;
  nd_Driver : string;
  nd_ID : string;
  nd_IFName : string;
  nd_Bus : string;
  nd_Addr : string;
  nd_DownScript : string;
  nd_Script : string;
  nd_FDs : list File;
  nd_VhostFDs : list File;
  nd_VHost : bool;
  nd_MACAddress : string;
  nd_DisableModern : bool;
  nd_ROMFile : string;
  nd_DevNo : string;
  nd_Transport : string;
}.

#[export] Instance eta_NetDevice : Eta NetDevice := fun r =>
  mkNetDevice (nd_Type r) (nd_Driver r) (nd_ID r) (nd_IFName r) (nd_Bus r) (nd_Addr r) (nd_DownScript r)
    (nd_Script r) (nd_FDs r) (nd_VhostFDs r) (nd_VHost r) (nd_MACAddress r) (nd_DisableModern r)
    (nd_ROMFile r) (nd_DevNo r) (nd_Transport r).

Record LegacySerialDevice : Type := mkLegacySerialDevice { ls_Chardev : string }.

Record SerialDevice : Type := mkSerialDevice {
  sd_Driver : string;
  sd_ID : string;
  sd_DisableModern : bool;
  sd_ROMFile : string;
  sd_DevNo : string;
  sd_Transport : string;
  sd_MaxPorts : Z;
}.

Record BlockDevice : Type := mkBlockDevice {
  bd_Driver : string;
  bd_ID : string;
  bd_File : string;
  bd_Interface : string;
  bd_AIO : string;
  bd_Format : string;
  bd_SCSI : bool;
  bd_WCE : bool;
  bd_DisableModern : bool;
  bd_ROMFile : string;
  bd_DevNo : string;
  bd_ShareRW : bool;
  bd_ReadOnly : bool;
  bd_Transport : string;
}.

Record PVPanicDevice : Type := mkPVPanicDevice { pv_NoShutdown : bool }.

Record LoaderDevice : Type := mkLoaderDevice { ld_File : string; ld_ID : string }.

Record VhostUserDevice : Type := mkVhostUserDevice {
  vu_SocketPath : string;
  vu_CharDevID : string;
  vu_TypeDevID : string;
  vu_Address : string;
  vu_Tag : string;
  vu_CacheSize : Z;
  vu_SharedVersions : bool;
  vu_VhostUserType : string;
  vu_ROMFile : string;
  vu_DevNo : string;
  vu_Transport : string;
}.

Record PCIeRootPortDevice : Type := mkPCIeRootPortDevice {
  rp_ID : string;
  rp_Bus : string;
  rp_Chassis : string;
  rp_Slot : string;
  rp_Multifunction : bool;
  rp_Addr : string;
  rp_BusReserve : string;
  rp_Pref64Reserve : string;
  rp_Pref32Reserve : string;
  rp_MemReserve : string;
  rp_IOReserve : string;
  rp_ROMFile : string;
  rp_Transport : string;
}.

Record VFIODevice : Type := mkVFIODevice {
  vf_BDF : string;
  vf_ROMFile : string;
  vf_DevNo : string;
  vf_VendorID : string;
  vf_DeviceID : string;
  vf_Bus : string;
  vf_Transport : string;
}.

Record SCSIController : Type := mkSCSIController {
  sc_ID : string;
  sc_Bus : string;
  sc_Addr : string;
  sc_DisableModern : bool;
  sc_IOThread : string;
  sc_ROMFile : string;
  sc_DevNo : string;
  sc_Transport : string;
}.

(** [BridgeType], an unsigned integer. *)
Definition PCIBridge : Z := 0.
Definition PCIEBridge : Z := 1.

Record BridgeDevice : Type := mkBridgeDevice {
  br_Type : Z;
  br_Bus : string;
  br_ID : string;
  br_Chassis : Z;
  br_SHPC : bool;
  br_Addr : string;
  br_ROMFile : string;
  br_IOReserve : string;
  br_MemReserve : string;
  br_Pref64Reserve : string;
}.

Definition MinimalGuestCID : Z := 3.
Definition MaxGuestCID : Z := 2 ^ 32 - 1.
Definition VSOCKGuestCID : string := "guest-cid".

Record VSOCKDevice : Type := mkVSOCKDevice {
  vs_ID : string;
  vs_ContextID : Z;
  vs_VHostFD : File;
  vs_DisableModern : bool;
  vs_ROMFile : string;
  vs_DevNo : string;
  vs_Transport : string;
}.

Record RngDevice : Type := mkRngDevice {
  rn_ID : string;
  rn_Filename : string;
  rn_MaxBytes : Z;
  rn_Period : Z;
  rn_ROMFile : string;
  rn_DevNo : string;
  rn_Transport : string;
}.

Record BalloonDevice : Type := mkBalloonDevice {
  ba_DeflateOnOOM : bool;
  ba_DisableModern : bool;
  ba_ID : string;
  ba_ROMFile : string;
  ba_DevNo : string;
  ba_Transport : string;
}.

Record IommuDev : Type := mkIommuDev {
  im_Intremap : bool;
  im_DeviceIotlb : bool;
  im_CachingMode : bool;
}.

Record FwCfg : Type := mkFwCfg { fw_Name : string; fw_File : string; fw_Str : string }.

(** The interface [Device]: the types of the package that implement it. *)
Inductive Device : Type :=
| DObject (o : Object)
| DFS (d : FSDevice)
| DChar (d : CharDevice)
| DNet (d : NetDevice)
| DLegacySerial (d : LegacySerialDevice)
| DSerial (d : SerialDevice)
| DBlock (d : BlockDevice)
| DPVPanic (d : PVPanicDevice)
| DLoader (d : LoaderDevice)
| DVhostUser (d : VhostUserDevice)
| DRootPort (d : PCIeRootPortDevice)
| DVFIO (d : VFIODevice)
| DSCSI (d : SCSIController)
| DBridge (d : BridgeDevice)
| DVSOCK (d : VSOCKDevice)
| DRng (d : RngDevice)
| DBalloon (d : BalloonDevice)
| DIommu (d : IommuDev)
| DFwCfg (d : FwCfg).

(** ** Configuration *)

Record RTC : Type := mkRTC { rtc_Base : string; rtc_Clock : string; rtc_DriftFix : string }.

Record QMPSocket : Type := mkQMPSocket {
  qs_Type : string;
  qs_Name : string;
  qs_Server : bool;
  qs_NoWait : bool;
}.

Record SMP : Type := mkSMP {
  smp_CPUs : Z;
  smp_Cores : Z;
  smp_Threads : Z;
  smp_Sockets : Z;
  smp_MaxCPUs : Z;
}.

Record Memory : Type := mkMemory {
  mem_Size : string;
  mem_Slots : Z;
  mem_MaxMem : string;
  mem_Path : string;
}.

Record Kernel : Type := mkKernel { k_Path : string; k_InitrdPath : string; k_Params : string }.

Record Knobs : Type := mkKnobs {
  NoUserConfig : bool;
  NoDefaults : bool;
  NoGraphic : bool;
  Daemonize : bool;
  HugePages : bool;
  MemPrealloc : bool;
  FileBackedMem : bool;
  MemShared : bool;
  Mlock : bool;
  Stopped : bool;
  NoReboot : bool;
  NoShutdown : bool;
  IOMMUPlatform : bool;
}.

Record IOThread : Type := mkIOThread { it_ID : string }.

Definition MigrationFD : Z := 1.
Definition MigrationExec : Z := 2.
Definition MigrationDefer : Z := 3.

Record Incoming : Type := mkIncoming { in_MigrationType : Z; in_FD : File; in_Exec : string }.

(** Every field but [Ctx], which only [exec.CommandContext] reads. *)
Record Config : Type := mkConfig {
  q_Path : string;
  q_Uid : Z;
  q_Gid : Z;
  q_Groups : list Z;
  q_Name : string;
  q_UUID : string;
  q_CPUModel : string;
  q_SeccompSandbox : string;
  q_Machine : Machine;
  q_QMPSockets : list QMPSocket;
  q_Devices : list Device;
  q_RTC : RTC;
  q_VGA : string;
  q_Kernel : Kernel;
  q_Memory : Memory;
  q_SMP : SMP;
  q_GlobalParam : string;
  q_Knobs : Knobs;
  q_Bios : string;
  q_PFlash : list string;
  q_Incoming : Incoming;
  q_fds : list File;
  q_FwCfg : list FwCfg;
  q_IOThreads : list IOThread;
  q_PidFile : string;
  q_LogFile : string;
  q_qemuParams : list string;
}.

#[export] Instance eta_Config : Eta Config := fun r =>
  mkConfig (q_Path r) (q_Uid r) (q_Gid r) (q_Groups r) (q_Name r) (q_UUID r) (q_CPUModel r)
    (q_SeccompSandbox r) (q_Machine r) (q_QMPSockets r) (q_Devices r) (q_RTC r) (q_VGA r) (q_Kernel r)
    (q_Memory r) (q_SMP r) (q_GlobalParam r) (q_Knobs r) (q_Bios r) (q_PFlash r) (q_Incoming r) (q_fds r)
    (q_FwCfg r) (q_IOThreads r) (q_PidFile r) (q_LogFile r) (q_qemuParams r).

Section Devices.
Context `{GoArch}.

(** The methods of a transport take a configuration that may be nil: the QMP
    client calls them with none. *)
Definition on_microvm (config : option Config) : bool :=
  match config with
  | Some c => bool_decide (Machine_Type (q_Machine c) = MachineTypeMicrovm)
  | None => false
  end.

Definition isDimmSupported (config : option Config) : bool :=
  if bool_decide (GOARCH ∈ ["amd64"; "386"; "ppc64le"; "arm64"]) then negb (on_microvm config) else false.

Definition defaultTransport (config : option Config) : string :=
  if bool_decide (GOARCH ∈ ["amd64"; "386"]) then
    if on_microvm config then TransportMMIO else TransportPCI
  else if bool_decide (GOARCH = "s390x") then TransportCCW
  else TransportPCI.

(** [if transport == "" { transport = transport.defaultTransport(config) }]. *)
Definition or_default (transport : string) (config : option Config) : string :=
  if bool_decide (transport = "") then defaultTransport config else transport.

Definition isVirtioPCI (transport : string) (config : option Config) : bool :=
  bool_decide (or_default transport config = TransportPCI).

Definition isVirtioCCW (transport : string) (config : option Config) : bool :=
  bool_decide (or_default transport config = TransportCCW).

Definition getName (transport : string) (config : option Config) : string := or_default transport config.

Definition disableModern (transport : string) (config : option Config) (disable : bool) : string :=
  if negb (isVirtioPCI transport config) then ""
  else if disable then "disable-modern=true" else "disable-modern=false".

(** The properties several devices share: [disable-modern], the ROM file of a
    PCI device, and the device number of a CCW device. *)
Definition modern_params (transport : string) (config : Config) (disable : bool) : list string :=
  let s := disableModern transport (Some config) disable in opt (given s) s.

Definition rom_params (transport : string) (config : Config) (romfile : string) : list string :=
  opt (isVirtioPCI transport (Some config) && given romfile) (param "romfile" romfile).

Definition ccw_params (transport : string) (config : Config) (devno : string) : list string :=
  if isVirtioCCW transport (Some config) then
    opt (IOMMUPlatform (q_Knobs config)) "iommu_platform=on" ++ [param "devno" devno]
  else [].

(** *** Objects *)

Definition Object_Valid (o : Object) : bool :=
  let t := ob_Type o in
  if bool_decide (t = MemoryBackendFile) then given (ob_ID o) && given (ob_MemPath o) && negb (ob_Size o =? 0)
  else if bool_decide (t = MemoryBackendEPC) then given (ob_ID o) && negb (ob_Size o =? 0)
  else if bool_decide (t = TDXGuest) then given (ob_ID o) && given (ob_File o) && given (ob_DeviceID o)
  else if bool_decide (t = SEVGuest) then
    given (ob_ID o) && given (ob_File o) && negb (ob_CBitPos o =? 0) && negb (ob_ReducedPhysBits o =? 0)
  else if bool_decide (t = SecExecGuest) then given (ob_ID o)
  else if bool_decide (t = PEFGuest) then given (ob_ID o) && given (ob_File o)
  else false.

(** [if len(params) > 0 { append flag and the joined params }]. *)
Definition some_params (flag : string) (params : list string) : list string :=
  match params with [] => [] | _ => option_of flag params end.

Definition Object_QemuParams (o : Object) : list string :=
  let t := ob_Type o in
  let '(objectParams, deviceParams, driveParams) :=
    if bool_decide (t = MemoryBackendFile) then
      ([t; param "id" (ob_ID o); param "mem-path" (ob_MemPath o); param "size" (Itoa (ob_Size o))]
         ++ opt (ob_ReadOnly o) "readonly=on",
       [ob_Driver o; param "id" (ob_DeviceID o); param "memdev" (ob_ID o)] ++ opt (ob_ReadOnly o) "unarmed=on",
       [])
    else if bool_decide (t = MemoryBackendEPC) then
      ([t; param "id" (ob_ID o); param "size" (Itoa (ob_Size o))] ++ opt (ob_Prealloc o) "prealloc=on", [], [])
    else if bool_decide (t = TDXGuest) then
      ([t; param "id" (ob_ID o)] ++ opt (ob_Debug o) "debug=on",
       [ob_Driver o; param "id" (ob_DeviceID o); param "file" (ob_File o)]
         ++ opt (given (ob_FirmwareVolume o)) (param "config-firmware-volume" (ob_FirmwareVolume o)),
       [])
    else if bool_decide (t = SEVGuest) then
      ([t; param "id" (ob_ID o); param "cbitpos" (Itoa (ob_CBitPos o));
        param "reduced-phys-bits" (Itoa (ob_ReducedPhysBits o))],
       [],
       ["if=pflash,format=raw,readonly=on"; param "file" (ob_File o)])
    else if bool_decide (t = SecExecGuest) then ([t; param "id" (ob_ID o)], [], [])
    else if bool_decide (t = PEFGuest) then
      ([t; param "id" (ob_ID o)],
       [ob_Driver o; param "id" (ob_DeviceID o); param "host-path" (ob_File o)],
       [])
    else ([], [], []) in
  some_params "-device" deviceParams ++ some_params "-object" objectParams ++ some_params "-drive" driveParams.

(** *** Shared filesystems *)

Definition FSDevice_Valid (fsdev : FSDevice) : bool :=
  if negb (given (fs_ID fsdev)) || negb (given (fs_Path fsdev)) || negb (given (fs_MountTag fsdev))
  then false else true.

Definition FSDevice_deviceName (fsdev : FSDevice) (config : Config) : string :=
  if bool_decide (fs_Driver fsdev = Virtio9P)
  then Virtio9PTransport (or_default (fs_Transport fsdev) (Some config))
  else fs_Driver fsdev.

Definition FSDevice_QemuParams (fsdev : FSDevice) (config : Config) : list string :=
  let deviceParams :=
    [FSDevice_deviceName fsdev config]
      ++ modern_params (fs_Transport fsdev) config (fs_DisableModern fsdev)
      ++ [param "fsdev" (fs_ID fsdev); param "mount_tag" (fs_MountTag fsdev)]
      ++ rom_params (fs_Transport fsdev) config (fs_ROMFile fsdev)
      ++ ccw_params (fs_Transport fsdev) config (fs_DevNo fsdev) in
  let fsParams :=
    [fs_FSDriver fsdev; param "id" (fs_ID fsdev); param "path" (fs_Path fsdev);
     param "security_model" (fs_SecurityModel fsdev)]
      ++ opt (given (fs_Multidev fsdev)) (param "multidevs" (fs_Multidev fsdev)) in
  option_of "-device" deviceParams ++ option_of "-fsdev" fsParams.

(** *** Character devices *)

Definition CharDevice_Valid (cdev : CharDevice) : bool :=
  if negb (given (cd_ID cdev)) || negb (given (cd_Path cdev)) then false else true.

Definition CharDevice_deviceName (cdev : CharDevice) (config : Config) : string :=
  if bool_decide (cd_Driver cdev = VirtioSerial)
  then VirtioSerialTransport (or_default (cd_Transport cdev) (Some config))
  else cd_Driver cdev.

Definition CharDevice_QemuParams (cdev : CharDevice) (config : Config) : list string :=
  let serial := bool_decide (cd_Driver cdev = VirtioSerial) in
  let deviceParams :=
    [CharDevice_deviceName cdev config]
      ++ (if serial then modern_params (cd_Transport cdev) config (cd_DisableModern cdev) else [])
      ++ opt (given (cd_Bus cdev)) (param "bus" (cd_Bus cdev))
      ++ [param "chardev" (cd_ID cdev); param "id" (cd_DeviceID cdev)]
      ++ opt (given (cd_Name cdev)) (param "name" (cd_Name cdev))
      ++ (if serial then rom_params (cd_Transport cdev) config (cd_ROMFile cdev) else [])
      ++ (if serial then ccw_params (cd_Transport cdev) config (cd_DevNo cdev) else []) in
  let cdevParams :=
    [cd_Backend cdev; param "id" (cd_ID cdev);
     if bool_decide (cd_Backend cdev = Socket)
     then "path=" +:+ cd_Path cdev +:+ ",server=on,wait=off"
     else param "path" (cd_Path cdev)] in
  (if bool_decide (cd_Driver cdev = LegacySerial) then [] else option_of "-device" deviceParams)
    ++ option_of "-chardev" cdevParams.

(** *** Serial devices *)

Definition LegacySerialDevice_Valid (dev : LegacySerialDevice) : bool := given (ls_Chardev dev).

Definition LegacySerialDevice_QemuParams (dev : LegacySerialDevice) : list string :=
  ["-serial"; "chardev:" +:+ ls_Chardev dev].

Definition SerialDevice_Valid (dev : SerialDevice) : bool :=
  if negb (given (sd_Driver dev)) || negb (given (sd_ID dev)) then false else true.

Definition SerialDevice_deviceName (dev : SerialDevice) (config : Config) : string :=
  if bool_decide (sd_Driver dev = VirtioSerial)
  then VirtioSerialTransport (or_default (sd_Transport dev) (Some config))
  else sd_Driver dev.

Definition SerialDevice_QemuParams (dev : SerialDevice) (config : Config) : list string :=
  let deviceParams :=
    [SerialDevice_deviceName dev config]
      ++ modern_params (sd_Transport dev) config (sd_DisableModern dev)
      ++ [param "id" (sd_ID dev)]
      ++ (if isVirtioPCI (sd_Transport dev) (Some config) && given (sd_ROMFile dev) then
            [param "romfile" (sd_ROMFile dev)]
              ++ opt (bool_decide (sd_Driver dev = VirtioSerial) && negb (sd_MaxPorts dev =? 0))
                   (param "max_ports" (Itoa (sd_MaxPorts dev)))
          else [])
      ++ ccw_params (sd_Transport dev) config (sd_DevNo dev) in
  option_of "-device" deviceParams.

(** *** Block devices *)

Definition BlockDevice_Valid (blkdev : BlockDevice) : bool :=
  if negb (given (bd_Driver blkdev)) || negb (given (bd_ID blkdev)) || negb (given (bd_File blkdev))
  then false else true.

Definition BlockDevice_deviceName (blkdev : BlockDevice) (config : Config) : string :=
  if bool_decide (bd_Driver blkdev = VirtioBlock)
  then VirtioBlockTransport (or_default (bd_Transport blkdev) (Some config))
  else bd_Driver blkdev.

Definition BlockDevice_QemuParams (blkdev : BlockDevice) (config : Config) : list string :=
  let deviceParams :=
    [BlockDevice_deviceName blkdev config]
      ++ modern_params (bd_Transport blkdev) config (bd_DisableModern blkdev)
      ++ [param "drive" (bd_ID blkdev)]
      ++ opt (negb (bd_SCSI blkdev)) "scsi=off"
      ++ opt (negb (bd_WCE blkdev)) "config-wce=off"
      ++ rom_params (bd_Transport blkdev) config (bd_ROMFile blkdev)
      ++ opt (isVirtioCCW (bd_Transport blkdev) (Some config)) (param "devno" (bd_DevNo blkdev))
      ++ opt (bd_ShareRW blkdev) "share-rw=on"
      ++ [param "serial" (bd_ID blkdev)] in
  let blkParams :=
    [param "id" (bd_ID blkdev); param "file" (bd_File blkdev); param "aio" (bd_AIO blkdev);
     param "format" (bd_Format blkdev); param "if" (bd_Interface blkdev)]
      ++ opt (bd_ReadOnly blkdev) "readonly=on" in
  option_of "-device" deviceParams ++ option_of "-drive" blkParams.

Definition PVPanicDevice_QemuParams (dev : PVPanicDevice) : list string :=
  if pv_NoShutdown dev then ["-device"; "pvpanic"; "-no-shutdown"] else ["-device"; "pvpanic"].

Definition LoaderDevice_Valid (dev : LoaderDevice) : bool :=
  if negb (given (ld_File dev)) then false
  else if negb (given (ld_ID dev)) then false
  else true.

Definition LoaderDevice_QemuParams (dev : LoaderDevice) : list string :=
  option_of "-device" ["loader"; param "file" (ld_File dev); param "id" (ld_ID dev)].

(** *** vhost-user devices *)

Definition VhostUserDevice_Valid (dev : VhostUserDevice) : bool :=
  if negb (given (vu_SocketPath dev)) || negb (given (vu_CharDevID dev)) then false
  else
    let t := vu_VhostUserType dev in
    if bool_decide (t = VhostUserNet) then
      if negb (given (vu_TypeDevID dev)) || negb (given (vu_Address dev)) then false else true
    else if bool_decide (t = VhostUserSCSI) then
      if negb (given (vu_TypeDevID dev)) then false else true
    else if bool_decide (t = VhostUserBlk) then true
    else if bool_decide (t = VhostUserFS) then
      if negb (given (vu_Tag dev)) then false else true
    else false.

Definition VhostUserDevice_deviceName (dev : VhostUserDevice) (config : Config) : string :=
  let t := vu_VhostUserType dev in
  let transport := or_default (vu_Transport dev) (Some config) in
  if bool_decide (t = VhostUserNet) then VhostUserNetTransport transport
  else if bool_decide (t = VhostUserSCSI) then VhostUserSCSITransport transport
  else if bool_decide (t = VhostUserBlk) then VhostUserBlkTransport transport
  else if bool_decide (t = VhostUserFS) then VhostUserFSTransport transport
  else "".

Definition QemuNetParams (dev : VhostUserDevice) (config : Config) : list string :=
  let driver := VhostUserDevice_deviceName dev config in
  if negb (given driver) then []
  else
    let netParams :=
      ["type=vhost-user"; param "id" (vu_TypeDevID dev); param "chardev" (vu_CharDevID dev); "vhostforce"] in
    let deviceParams :=
      [driver; param "netdev" (vu_TypeDevID dev); param "mac" (vu_Address dev)]
        ++ rom_params (vu_Transport dev) config (vu_ROMFile dev) in
    option_of "-netdev" netParams ++ option_of "-device" deviceParams.

Definition QemuSCSIParams (dev : VhostUserDevice) (config : Config) : list string :=
  let driver := VhostUserDevice_deviceName dev config in
  if negb (given driver) then []
  else option_of "-device"
    ([driver; param "id" (vu_TypeDevID dev); param "chardev" (vu_CharDevID dev)]
       ++ rom_params (vu_Transport dev) config (vu_ROMFile dev)).

Definition QemuBlkParams (dev : VhostUserDevice) (config : Config) : list string :=
  let driver := VhostUserDevice_deviceName dev config in
  if negb (given driver) then []
  else option_of "-device"
    ([driver; "logical_block_size=4096"; "size=512M"; param "chardev" (vu_CharDevID dev)]
       ++ rom_params (vu_Transport dev) config (vu_ROMFile dev)).

Definition QemuFSParams (dev : VhostUserDevice) (config : Config) : list string :=
  let driver := VhostUserDevice_deviceName dev config in
  if negb (given driver) then []
  else option_of "-device"
    ([driver; param "chardev" (vu_CharDevID dev); param "tag" (vu_Tag dev)]
       ++ opt (negb (vu_CacheSize dev =? 0)) ("cache-size=" +:+ Itoa (vu_CacheSize dev) +:+ "M")
       ++ opt (vu_SharedVersions dev) "versiontable=/dev/shm/fuse_shared_versions"
       ++ ccw_params (vu_Transport dev) config (vu_DevNo dev)
       ++ rom_params (vu_Transport dev) config (vu_ROMFile dev)).

(** A nil [deviceParams] gives no arguments at all, the character device
    included. *)
Definition VhostUserDevice_QemuParams (dev : VhostUserDevice) (config : Config) : list string :=
  let t := vu_VhostUserType dev in
  let qemuParams :=
    option_of "-chardev" ["socket"; param "id" (vu_CharDevID dev); param "path" (vu_SocketPath dev)] in
  let deviceParams :=
    if bool_decide (t = VhostUserNet) then QemuNetParams dev config
    else if bool_decide (t = VhostUserSCSI) then QemuSCSIParams dev config
    else if bool_decide (t = VhostUserBlk) then QemuBlkParams dev config
    else if bool_decide (t = VhostUserFS) then QemuFSParams dev config
    else [] in
  match deviceParams with [] => [] | _ => qemuParams ++ deviceParams end.

(** *** PCI devices *)

Definition or_string (s d : string) : string := if given s then s else d.

Definition PCIeRootPortDevice_QemuParams (b : PCIeRootPortDevice) (config : Config) : list string :=
  option_of "-device"
    ([PCIeRootPort +:+ ",id=" +:+ rp_ID b;
      param "bus" (or_string (rp_Bus b) "pcie.0");
      param "chassis" (or_string (rp_Chassis b) "0x00");
      param "slot" (or_string (rp_Slot b) "0x00")]
       ++ opt (rp_Multifunction b) (param "addr" (or_string (rp_Addr b) "0x00"))
       ++ [param "multifunction" (on_off (rp_Multifunction b))]
       ++ opt (given (rp_BusReserve b)) (param "bus-reserve" (rp_BusReserve b))
       ++ opt (given (rp_Pref64Reserve b)) (param "pref64-reserve" (rp_Pref64Reserve b))
       ++ opt (given (rp_Pref32Reserve b)) (param "pref32-reserve" (rp_Pref32Reserve b))
       ++ opt (given (rp_MemReserve b)) (param "mem-reserve" (rp_MemReserve b))
       ++ opt (given (rp_IOReserve b)) (param "io-reserve" (rp_IOReserve b))
       ++ rom_params (rp_Transport b) config (rp_ROMFile b)).

Definition PCIeRootPortDevice_Valid (b : PCIeRootPortDevice) : bool :=
  if given (rp_Pref64Reserve b) && given (rp_Pref32Reserve b) then false
  else if negb (given (rp_ID b)) then false
  else true.

Definition VFIODevice_Valid (dev : VFIODevice) : bool := given (vf_BDF dev).

Definition VFIODevice_deviceName (dev : VFIODevice) (config : Config) : string :=
  VFIODeviceTransport (or_default (vf_Transport dev) (Some config)).

Definition VFIODevice_QemuParams (dev : VFIODevice) (config : Config) : list string :=
  option_of "-device"
    ([VFIODevice_deviceName dev config +:+ ",host=" +:+ vf_BDF dev]
       ++ (if isVirtioPCI (vf_Transport dev) (Some config) then
             opt (given (vf_VendorID dev)) (param "x-pci-vendor-id" (vf_VendorID dev))
               ++ opt (given (vf_DeviceID dev)) (param "x-pci-device-id" (vf_DeviceID dev))
               ++ opt (given (vf_ROMFile dev)) (param "romfile" (vf_ROMFile dev))
           else [])
       ++ opt (given (vf_Bus dev)) (param "bus" (vf_Bus dev))
       ++ opt (isVirtioCCW (vf_Transport dev) (Some config)) (param "devno" (vf_DevNo dev))).

Definition SCSIController_Valid (scsiCon : SCSIController) : bool := given (sc_ID scsiCon).

Definition SCSIController_deviceName (scsiCon : SCSIController) (config : Config) : string :=
  SCSIControllerTransport (or_default (sc_Transport scsiCon) (Some config)).

Definition SCSIController_QemuParams (scsiCon : SCSIController) (config : Config) : list string :=
  option_of "-device"
    ([SCSIController_deviceName scsiCon config +:+ ",id=" +:+ sc_ID scsiCon]
       ++ opt (given (sc_Bus scsiCon)) (param "bus" (sc_Bus scsiCon))
       ++ opt (given (sc_Addr scsiCon)) (param "addr" (sc_Addr scsiCon))
       ++ modern_params (sc_Transport scsiCon) config (sc_DisableModern scsiCon)
       ++ opt (given (sc_IOThread scsiCon)) (param "iothread" (sc_IOThread scsiCon))
       ++ rom_params (sc_Transport scsiCon) config (sc_ROMFile scsiCon)
       ++ ccw_params (sc_Transport scsiCon) config (sc_DevNo scsiCon)).

Definition BridgeDevice_Valid (dev : BridgeDevice) : bool :=
  if negb (br_Type dev =? PCIBridge) && negb (br_Type dev =? PCIEBridge) then false
  else if negb (given (br_Bus dev)) then false
  else if negb (given (br_ID dev)) then false
  else true.

(** [addr, err := strconv.Atoi(s)], printed in base 16 when it is a natural
    number. *)
Definition addr_params (addr : string) : list string :=
  if given addr then
    match Atoi addr with
    | Ok a => opt (0 <=? a) ("addr=" +:+ fmt_x a)
    | Err _ => []
    end
  else [].

Definition BridgeDevice_QemuParams (dev : BridgeDevice) (config : Config) : list string :=
  option_of "-device"
    ((if br_Type dev =? PCIEBridge then
        [PCIePCIBridgeDriver +:+ ",bus=" +:+ br_Bus dev +:+ ",id=" +:+ br_ID dev]
      else
        [PCIBridgeDriver +:+ ",bus=" +:+ br_Bus dev +:+ ",id=" +:+ br_ID dev
           +:+ ",chassis_nr=" +:+ Itoa (br_Chassis dev) +:+ ",shpc=" +:+ on_off (br_SHPC dev)])
       ++ addr_params (br_Addr dev)
       ++ rom_params "" config (br_ROMFile dev)
       ++ opt (given (br_IOReserve dev)) (param "io-reserve" (br_IOReserve dev))
       ++ opt (given (br_MemReserve dev)) (param "mem-reserve" (br_MemReserve dev))
       ++ opt (given (br_Pref64Reserve dev)) (param "pref64-reserve" (br_Pref64Reserve dev))).

(** *** Random numbers, balloon, IOMMU, firmware configuration *)

Definition RngDevice_Valid (v : RngDevice) : bool := given (rn_ID v).

Definition RngDevice_deviceName (v : RngDevice) (config : Config) : string :=
  RngDeviceTransport (or_default (rn_Transport v) (Some config)).

Definition RngDevice_QemuParams (v : RngDevice) (config : Config) : list string :=
  let objectParams :=
    ["rng-random"; "id=" +:+ rn_ID v] ++ opt (given (rn_Filename v)) ("filename=" +:+ rn_Filename v) in
  let deviceParams :=
    [RngDevice_deviceName v config; "rng=" +:+ rn_ID v]
      ++ rom_params (rn_Transport v) config (rn_ROMFile v)
      ++ ccw_params (rn_Transport v) config (rn_DevNo v)
      ++ opt (0 <? rn_MaxBytes v) (param "max-bytes" (Itoa (rn_MaxBytes v)))
      ++ opt (0 <? rn_Period v) (param "period" (Itoa (rn_Period v))) in
  option_of "-object" objectParams ++ option_of "-device" deviceParams.

Definition BalloonDevice_Valid (b : BalloonDevice) : bool := given (ba_ID b).

Definition BalloonDevice_deviceName (b : BalloonDevice) (config : Config) : string :=
  BalloonDeviceTransport (or_default (ba_Transport b) (Some config)).

Definition BalloonDevice_QemuParams (b : BalloonDevice) (config : Config) : list string :=
  option_of "-device"
    ([BalloonDevice_deviceName b config]
       ++ opt (given (ba_ID b)) ("id=" +:+ ba_ID b)
       ++ rom_params (ba_Transport b) config (ba_ROMFile b)
       ++ opt (isVirtioCCW (ba_Transport b) (Some config)) (param "devno" (ba_DevNo b))
       ++ [param "deflate-on-oom" (on_off (ba_DeflateOnOOM b))]
       ++ modern_params (ba_Transport b) config (ba_DisableModern b)).

Definition IommuDev_QemuParams (dev : IommuDev) : list string :=
  option_of "-device"
    ["intel-iommu"; param "intremap" (on_off (im_Intremap dev));
     param "device-iotlb" (on_off (im_DeviceIotlb dev));
     param "caching-mode" (on_off (im_CachingMode dev))].

Definition FwCfg_Valid (fwcfg : FwCfg) : bool :=
  if negb (given (fw_Name fwcfg)) then false
  else if given (fw_File fwcfg) && given (fw_Str fwcfg) then false
  else if negb (given (fw_File fwcfg)) && negb (given (fw_Str fwcfg)) then false
  else true.

(** The properties one entry adds to [fwcfgParams]. *)
Definition fwcfg_props (f : FwCfg) : list string :=
  if given (fw_Name f) then
    [param "name" (fw_Name f)]
      ++ opt (given (fw_File f)) (param "file" (fw_File f))
      ++ opt (given (fw_Str f)) (param "string" (fw_Str f))
  else [].

(** The loop over [config.FwCfg]: [fwcfgParams] is declared before it. *)
Fixpoint fwcfg_loop (fwcfgParams : list string) (l : list FwCfg) : list string :=
  match l with
  | [] => []
  | f :: l' =>
      let fwcfgParams := fwcfgParams ++ fwcfg_props f in
      option_of "-fw_cfg" fwcfgParams ++ fwcfg_loop fwcfgParams l'
  end.

(** The receiver is not read. *)
Definition FwCfg_QemuParams (fwcfg : FwCfg) (config : Config) : list string := fwcfg_loop [] (q_FwCfg config).

(** *** File descriptors *)

(** The numbers under which the new process will know the files. *)
Definition appendFDs (fds : list File) : M Config (list Z) := fun config =>
  let oldLen := Z.of_nat (length (q_fds config)) in
  (Ok (imap (fun i _ => oldLen + 3 + Z.of_nat i) fds), config <| q_fds ::= fun l => l ++ fds |>).

(** *** Network devices *)

Definition log_Fatal {A} (msg : string) : res A := Err (Errorf ("exit: " +:+ msg)).

(** Both methods set the transport of the device behind the pointer they are
    given; [log.Fatal] ends the process. *)
Definition QemuNetdevParam (n : string) (netdev : NetDevice) (config : Config) : res (string * NetDevice) :=
  let netdev := netdev <| nd_Transport := or_default (nd_Transport netdev) (Some config) |> in
  if bool_decide (n ∈ [TAP; MACVTAP; IPVTAP; VETHTAP]) then Ok ("tap", netdev)
  else if bool_decide (n = VFIO) then
    if bool_decide (nd_Transport netdev = TransportMMIO)
    then log_Fatal "vfio devices are not support with the MMIO transport"
    else Ok ("", netdev)
  else if bool_decide (n = VHOSTUSER) then
    if bool_decide (nd_Transport netdev = TransportCCW)
    then log_Fatal "vhost-user devices are not supported on IBM Z"
    else Ok ("vhost-user", netdev)
  else Ok ("", netdev).

Definition QemuDeviceParam (n : string) (netdev : NetDevice) (config : Config) : res (string * NetDevice) :=
  let netdev := netdev <| nd_Transport := or_default (nd_Transport netdev) (Some config) |> in
  let transport := nd_Transport netdev in
  let with_transport device := by_transport (device +:+ "-pci") (device +:+ "-ccw") (device +:+ "-device") transport in
  if bool_decide (n ∈ [TAP; MACVTAP; IPVTAP; VETHTAP]) then Ok (with_transport "virtio-net", netdev)
  else if bool_decide (n = VFIO) then
    if bool_decide (transport = TransportMMIO)
    then log_Fatal "vfio devices are not support with the MMIO transport"
    else Ok (with_transport "vfio", netdev)
  else if bool_decide (n = VHOSTUSER) then
    if bool_decide (transport = TransportCCW)
    then log_Fatal "vhost-user devices are not supported on IBM Z"
    else Ok ("", netdev)
  else Ok ("", netdev).

Definition NetDevice_Valid (netdev : NetDevice) : bool :=
  if negb (given (nd_ID netdev)) || negb (given (nd_IFName netdev)) then false
  else if bool_decide (nd_Type netdev = TAP) then true
  else if bool_decide (nd_Type netdev = MACVTAP) then true
  else false.

Definition mqParameter (netdev : NetDevice) (config : Config) : string :=
  Join "," (["mq=on"]
    ++ opt (isVirtioPCI (nd_Transport netdev) (Some config))
         (param "vectors" (Itoa (Z.of_nat (length (nd_FDs netdev)) * 2 + 2)))).

Definition QemuDeviceParams (netdev : NetDevice) : M Config (list string) :=
  config ← get;
  '(driver, netdev) ← lift (QemuDeviceParam (nd_Type netdev) netdev config);
  if negb (given driver) then mret []
  else mret
    ([param "driver" driver; param "netdev" (nd_ID netdev); param "mac" (nd_MACAddress netdev)]
       ++ opt (given (nd_Bus netdev)) (param "bus" (nd_Bus netdev))
       ++ addr_params (nd_Addr netdev)
       ++ modern_params (nd_Transport netdev) config (nd_DisableModern netdev)
       ++ opt (bool_decide (nd_FDs netdev <> [])) (mqParameter netdev config)
       ++ rom_params (nd_Transport netdev) config (nd_ROMFile netdev)
       ++ ccw_params (nd_Transport netdev) config (nd_DevNo netdev)).

(** The list of numbers as QEMU reads it. *)
Definition fd_list (fds : list Z) : string := Join ":" (map Itoa fds).

Definition QemuNetdevParams (netdev : NetDevice) : M Config (list string) :=
  config ← get;
  '(netdevType, netdev) ← lift (QemuNetdevParam (nd_Type netdev) netdev config);
  if negb (given netdevType) then mret []
  else
    vhost ← (if nd_VHost netdev then
               match nd_VhostFDs netdev with
               | [] => mret ["vhost=on"]
               | fds =>
                   qemuFDs ← appendFDs fds;
                   mret ["vhost=on"; param "vhostfds" (fd_list qemuFDs)]
               end
             else mret []);
    queues ← (match nd_FDs netdev with
              | [] => mret ([param "ifname" (nd_IFName netdev)]
                              ++ opt (given (nd_DownScript netdev)) (param "downscript" (nd_DownScript netdev))
                              ++ opt (given (nd_Script netdev)) (param "script" (nd_Script netdev)))
              | fds =>
                  qemuFDs ← appendFDs fds;
                  mret [param "fds" (fd_list qemuFDs)]
              end);
    mret ([netdevType; param "id" (nd_ID netdev)] ++ vhost ++ queues).

Definition NetDevice_QemuParams (netdev : NetDevice) : M Config (list string) :=
  if bool_decide (nd_Type netdev = MACVTAP) && bool_decide (nd_FDs netdev = []) then mret []
  else
    config ← get;
    '(netdevType, netdev) ← lift (QemuNetdevParam (nd_Type netdev) netdev config);
    net ← (if given netdevType then
             netdevParams ← QemuNetdevParams netdev;
             mret (some_params "-netdev" netdevParams)
           else mret []);
    config ← get;
    '(driver, netdev) ← lift (QemuDeviceParam (nd_Type netdev) netdev config);
    dev ← (if given driver then
             deviceParams ← QemuDeviceParams netdev;
             mret (some_params "-device" deviceParams)
           else mret []);
    mret (net ++ dev).

(** *** Sockets to the guest *)

Definition VSOCKDevice_Valid (vsock : VSOCKDevice) : bool :=
  if negb (given (vs_ID vsock)) || (vs_ContextID vsock <? MinimalGuestCID)
     || (MaxGuestCID <? vs_ContextID vsock)
  then false else true.

Definition VSOCKDevice_deviceName (vsock : VSOCKDevice) (config : Config) : string :=
  VSOCKDeviceTransport (or_default (vs_Transport vsock) (Some config)).

Definition VSOCKDevice_QemuParams (vsock : VSOCKDevice) : M Config (list string) :=
  config ← get;
  vhostfd ← (match vs_VHostFD vsock with
             | None => mret []
             | fd =>
                 qemuFDs ← appendFDs [fd];
                 mret (match qemuFDs with q :: _ => [param "vhostfd" (Itoa q)] | [] => [] end)
             end);
  mret (option_of "-device"
    ([VSOCKDevice_deviceName vsock config]
       ++ modern_params (vs_Transport vsock) config (vs_DisableModern vsock)
       ++ vhostfd
       ++ [param "id" (vs_ID vsock); param VSOCKGuestCID (Itoa (vs_ContextID vsock))]
       ++ rom_params (vs_Transport vsock) config (vs_ROMFile vsock)
       ++ ccw_params (vs_Transport vsock) config (vs_DevNo vsock))).

(** *** The interface *)

Definition Valid (d : Device) : bool :=
  match d with
  | DObject o => Object_Valid o
  | DFS d => FSDevice_Valid d
  | DChar d => CharDevice_Valid d
  | DNet d => NetDevice_Valid d
  | DLegacySerial d => LegacySerialDevice_Valid d
  | DSerial d => SerialDevice_Valid d
  | DBlock d => BlockDevice_Valid d
  | DPVPanic _ => true
  | DLoader d => LoaderDevice_Valid d
  | DVhostUser d => VhostUserDevice_Valid d
  | DRootPort d => PCIeRootPortDevice_Valid d
  | DVFIO d => VFIODevice_Valid d
  | DSCSI d => SCSIController_Valid d
  | DBridge d => BridgeDevice_Valid d
  | DVSOCK d => VSOCKDevice_Valid d
  | DRng d => RngDevice_Valid d
  | DBalloon d => BalloonDevice_Valid d
  | DIommu _ => true
  | DFwCfg d => FwCfg_Valid d
  end.

Definition QemuParams (d : Device) : M Config (list string) :=
  match d with
  | DObject o => mret (Object_QemuParams o)
  | DFS d => gets (FSDevice_QemuParams d)
  | DChar d => gets (CharDevice_QemuParams d)
  | DNet d => NetDevice_QemuParams d
  | DLegacySerial d => mret (LegacySerialDevice_QemuParams d)
  | DSerial d => gets (SerialDevice_QemuParams d)
  | DBlock d => gets (BlockDevice_QemuParams d)
  | DPVPanic d => mret (PVPanicDevice_QemuParams d)
  | DLoader d => mret (LoaderDevice_QemuParams d)
  | DVhostUser d => gets (VhostUserDevice_QemuParams d)
  | DRootPort d => gets (PCIeRootPortDevice_QemuParams d)
  | DVFIO d => gets (VFIODevice_QemuParams d)
  | DSCSI d => gets (SCSIController_QemuParams d)
  | DBridge d => gets (BridgeDevice_QemuParams d)
  | DVSOCK d => VSOCKDevice_QemuParams d
  | DRng d => gets (RngDevice_QemuParams d)
  | DBalloon d => gets (BalloonDevice_QemuParams d)
  | DIommu d => mret (IommuDev_QemuParams d)
  | DFwCfg d => gets (FwCfg_QemuParams d)
  end.

(** ** Building the command line *)

(** [config.qemuParams = append(config.qemuParams, params...)]. *)
Definition emit (params : list string) : M Config unit :=
  modify (fun config => config <| q_qemuParams ::= fun l => l ++ params |>).

(** [if v != "" { append flag and v }]. *)
Definition emit_given (flag v : string) : M Config unit := when (given v) (emit [flag; v]).

Definition appendSeccompSandbox : M Config unit := config ← get; emit_given "-sandbox" (q_SeccompSandbox config).
Definition appendName : M Config unit := config ← get; emit_given "-name" (q_Name config).

Definition appendMachine : M Config unit :=
  config ← get;
  let m := q_Machine config in
  when (given (Machine_Type m))
    (emit (option_of "-machine"
       ([Machine_Type m]
          ++ opt (given (Acceleration m)) (param "accel" (Acceleration m))
          ++ opt (given (Machine_Options m)) (Machine_Options m)))).

Definition appendCPUModel : M Config unit := config ← get; emit_given "-cpu" (q_CPUModel config).

Definition QMPSocket_Valid (qmp : QMPSocket) : bool :=
  if negb (given (qs_Type qmp)) || negb (given (qs_Name qmp)) then false
  else if negb (bool_decide (qs_Type qmp = "unix")) then false
  else true.

Definition appendQMPSockets : M Config unit :=
  config ← get;
  for_each (q_QMPSockets config) (fun q =>
    if negb (QMPSocket_Valid q) then mret tt
    else emit (option_of "-qmp"
      ([qs_Type q +:+ ":" +:+ qs_Name q]
         ++ (if qs_Server q then ["server=on"] ++ opt (qs_NoWait q) "wait=off" else [])))).

Definition appendDevices : M Config unit :=
  config ← get;
  for_each (q_Devices config) (fun d =>
    if negb (Valid d) then mret tt
    else params ← QemuParams d; emit params).

Definition appendUUID : M Config unit := config ← get; emit_given "-uuid" (q_UUID config).

Definition appendMemory : M Config unit :=
  config ← get;
  let m := q_Memory config in
  when (given (mem_Size m))
    (emit (option_of "-m"
       ([mem_Size m]
          ++ opt (0 <? mem_Slots m) (param "slots" (Itoa (mem_Slots m)))
          ++ opt (given (mem_MaxMem m)) (param "maxmem" (mem_MaxMem m))))).

Definition appendCPUs : M Config unit :=
  config ← get;
  let s := q_SMP config in
  when (0 <? smp_CPUs s)
    (if (0 <? smp_MaxCPUs s) && (smp_MaxCPUs s <? smp_CPUs s)
     then throw (Errorf "MaxCPUs must be equal to or greater than CPUs")
     else emit (option_of "-smp"
       ([Itoa (smp_CPUs s)]
          ++ opt (0 <? smp_Cores s) (param "cores" (Itoa (smp_Cores s)))
          ++ opt (0 <? smp_Threads s) (param "threads" (Itoa (smp_Threads s)))
          ++ opt (0 <? smp_Sockets s) (param "sockets" (Itoa (smp_Sockets s)))
          ++ opt (0 <? smp_MaxCPUs s) (param "maxcpus" (Itoa (smp_MaxCPUs s)))))).

Definition RTC_Valid (rtc : RTC) : bool :=
  if negb (bool_decide (rtc_Clock rtc ∈ ["host"; "rt"; "vm"])) then false
  else if negb (bool_decide (rtc_DriftFix rtc ∈ ["slew"; "none"])) then false
  else true.

Definition appendRTC : M Config unit :=
  config ← get;
  let r := q_RTC config in
  if negb (RTC_Valid r) then mret tt
  else emit (option_of "-rtc"
    ([param "base" (rtc_Base r)]
       ++ opt (given (rtc_DriftFix r)) (param "driftfix" (rtc_DriftFix r))
       ++ opt (given (rtc_Clock r)) (param "clock" (rtc_Clock r)))).

Definition appendGlobalParam : M Config unit := config ← get; emit_given "-global" (q_GlobalParam config).

Definition appendPFlashParam : M Config unit :=
  config ← get; for_each (q_PFlash config) (fun p => emit ["-pflash"; p]).

Definition appendVGA : M Config unit := config ← get; emit_given "-vga" (q_VGA config).

Definition appendKernel : M Config unit :=
  config ← get;
  let k := q_Kernel config in
  when (given (k_Path k))
    (emit ["-kernel"; k_Path k] ≫= fun _ =>
     emit_given "-initrd" (k_InitrdPath k) ≫= fun _ =>
     emit_given "-append" (k_Params k)).

(** The backend of the guest's memory. *)
Definition objMemParam (config : Config) : string :=
  let k := q_Knobs config in
  let size := ",id=dimm1,size=" +:+ mem_Size (q_Memory config) in
  (if HugePages k then "memory-backend-file" +:+ size +:+ ",mem-path=/dev/hugepages"
   else if FileBackedMem k && given (mem_Path (q_Memory config))
   then "memory-backend-file" +:+ size +:+ ",mem-path=" +:+ mem_Path (q_Memory config)
   else "memory-backend-ram" +:+ size)
    +:+ (if MemShared k then ",share=on" else "")
    +:+ (if MemPrealloc k then ",prealloc=on" else "").

Definition appendMemoryKnobs : M Config unit :=
  config ← get;
  if negb (given (mem_Size (q_Memory config))) then mret tt
  else
    emit ["-object"; objMemParam config] ≫= fun _ =>
    if isDimmSupported (Some config) then emit ["-numa"; "node,memdev=dimm1"]
    else emit ["-machine"; "memory-backend=dimm1"].

Definition appendKnobs : M Config unit :=
  config ← get;
  let k := q_Knobs config in
  emit (opt (NoUserConfig k) "-no-user-config"
          ++ opt (NoDefaults k) "-nodefaults"
          ++ opt (NoGraphic k) "-nographic"
          ++ opt (NoReboot k) "--no-reboot"
          ++ opt (NoShutdown k) "--no-shutdown"
          ++ opt (Daemonize k) "-daemonize") ≫= fun _ =>
  appendMemoryKnobs ≫= fun _ =>
  when (Mlock k) (emit ["-overcommit"; "mem-lock=on"]) ≫= fun _ =>
  when (Stopped k) (emit ["-S"]).

Definition appendBios : M Config unit := config ← get; emit_given "-bios" (q_Bios config).

Definition appendIOThreads : M Config unit :=
  config ← get;
  for_each (q_IOThreads config) (fun t => when (given (it_ID t)) (emit ["-object"; "iothread,id=" +:+ it_ID t])).

Definition appendIncoming : M Config unit :=
  config ← get;
  let i := q_Incoming config in
  if in_MigrationType i =? MigrationExec then emit ["-S"; "-incoming"; "exec:" +:+ in_Exec i]
  else if in_MigrationType i =? MigrationFD then
    chFDs ← appendFDs [in_FD i];
    emit ["-S"; "-incoming"; "fd:" +:+ match chFDs with q :: _ => Itoa q | [] => "" end]
  else if in_MigrationType i =? MigrationDefer then emit ["-S"; "-incoming"; "defer"]
  else mret tt.

Definition appendPidFile : M Config unit := config ← get; emit_given "-pidfile" (q_PidFile config).
Definition appendLogFile : M Config unit := config ← get; emit_given "-D" (q_LogFile config).

Definition appendFwCfg : M Config unit :=
  config ← get;
  for_each (q_FwCfg config) (fun f =>
    if negb (FwCfg_Valid f) then mret tt
    else config ← get; emit (FwCfg_QemuParams f config)).

(** The calls of [LaunchQemu] that build the command line. *)
Definition build_params : M Config unit :=
  appendName ≫= fun _ =>
  appendUUID ≫= fun _ =>
  appendMachine ≫= fun _ =>
  appendCPUModel ≫= fun _ =>
  appendQMPSockets ≫= fun _ =>
  appendMemory ≫= fun _ =>
  appendDevices ≫= fun _ =>
  appendRTC ≫= fun _ =>
  appendGlobalParam ≫= fun _ =>
  appendPFlashParam ≫= fun _ =>
  appendVGA ≫= fun _ =>
  appendKnobs ≫= fun _ =>
  appendKernel ≫= fun _ =>
  appendBios ≫= fun _ =>
  appendIOThreads ≫= fun _ =>
  appendIncoming ≫= fun _ =>
  appendPidFile ≫= fun _ =>
  appendLogFile ≫= fun _ =>
  appendFwCfg ≫= fun _ =>
  appendSeccompSandbox ≫= fun _ =>
  appendCPUs.

(** The command [exec.Cmd] that is run: its path, arguments, the files beyond
    the three standard ones, and the credentials. *)
Record Cmd : Type := mkCmd {
  cmd_Path : string;
  cmd_Args : list string;
  cmd_ExtraFiles : list File;
  cmd_Uid : Z;
  cmd_Gid : Z;
  cmd_Groups : list Z;
}.

(** What running a command gives: what it wrote to its standard error, and the
    error of [cmd.Run()]. *)
Class Exec : Type := { cmd_Run : Cmd -> string * option error }.
Context `{Exec}.

(** The state is the list of the commands run so far. *)
Definition LaunchCustomQemu (path : string) (params : list string) (fds : list File)
    (uid gid : Z) (groups : list Z) (ran : list Cmd) : (string * option error) * list Cmd :=
  let path := if given path then path else "qemu-system-x86_64" in
  let cmd := mkCmd path params fds uid gid groups in
  let '(stderr, err) := cmd_Run cmd in
  ((match err with Some _ => stderr | None => "" end, err), ran ++ [cmd]).

(** The configuration is passed by value: the caller's copy is unchanged. *)
Definition LaunchQemu (config : Config) (ran : list Cmd) : (string * option error) * list Cmd :=
  match build_params config with
  | (Err e, _) => (("", Some e), ran)
  | (Ok _, config) =>
      LaunchCustomQemu (q_Path config) (q_qemuParams config) (q_fds config)
        (q_Uid config) (q_Gid config) (q_Groups config) ran
  end.

End Devices.
End Qemu.
