(* ===== verification/QemuSpec.v ===== *)
(** * What the QEMU command line says

    The properties of [Qemu.v]: building the command line only ever adds
    arguments and files; it fails for one reason; what QEMU reads back from the
    arguments (options, file descriptors) is what the configuration asks for;
    an invalid device leaves no trace; and the entries of [-fw_cfg]. *)
From S2P Require Import Prelude GoStr Qemu.

Module QemuSpec.
Import Qemu.

(** ** How QEMU reads its arguments *)

(** The options the runtime uses, with and without an argument. *)
Definition flags0 : list string :=
  ["-no-user-config"; "-nodefaults"; "-nographic"; "--no-reboot"; "--no-shutdown"; "-daemonize"; "-S";
   "-no-shutdown"].
Definition flags1 : list string :=
  ["-name"; "-uuid"; "-machine"; "-cpu"; "-qmp"; "-m"; "-device"; "-object"; "-drive"; "-fsdev"; "-chardev";
   "-netdev"; "-serial"; "-fw_cfg"; "-rtc"; "-global"; "-pflash"; "-vga"; "-kernel"; "-initrd"; "-append";
   "-numa"; "-overcommit"; "-bios"; "-incoming"; "-pidfile"; "-D"; "-sandbox"; "-smp"].

(** The options of a list of arguments, in order; [None] when an argument in
    the place of an option is not one, or an option lacks its argument. *)
Fixpoint parse_args (args : list string) : option (list (string * option string)) :=
  match args with
  | [] => Some []
  | f :: rest =>
      if bool_decide (f ∈ flags0) then cons (f, None) <$> parse_args rest
      else if bool_decide (f ∈ flags1) then
        match rest with
        | v :: rest => cons (f, Some v) <$> parse_args rest
        | [] => None
        end
      else None
  end.

(** The value of a property [key=value], and that of the first one with its
    key among those separated by commas. *)
Definition value_of (key w : string) : option string :=
  if HasPrefix w (key +:+ "=") then Some (str_drop (String.length (key +:+ "=")) w) else None.
Definition prop_value (key arg : string) : option string := head (omap (value_of key) (Split "," arg)).

(** The descriptors a property lists, separated by colons. *)
Definition read_fds (key arg : string) : list Z :=
  match prop_value key arg with
  | Some v => omap (fun w => match Atoi w with Ok n => Some n | Err _ => None end) (Split ":" v)
  | None => []
  end.

(** [os/exec]: entry [i] of [ExtraFiles] becomes the descriptor [3+i] of the
    new process. *)
Definition received (cmd : Cmd) (fd : Z) : option File :=
  if 3 <=? fd then cmd_ExtraFiles cmd !! Z.to_nat (fd - 3) else None.

(** [args] holds the option [flag] with the argument [arg]. *)
Definition has_option (flag arg : string) (args : list string) : Prop :=
  exists before after, args = before ++ [flag; arg] ++ after.

(** ** The command line only grows *)

Definition grows : relation Config := fun c c' =>
  exists fs ps, c' = c <| q_fds ::= fun l => l ++ fs |> <| q_qemuParams ::= fun l => l ++ ps |>.

#[export] Instance grows_preorder : PreOrder grows.
Proof.
  split.
  - intros c. exists [], []. destruct c; unfold update; simpl. by rw !app_nil_r.
  - intros c1 c2 c3 (fs & ps & ->) (fs' & ps' & ->). exists (fs ++ fs'), (ps ++ ps').
    destruct c1; unfold update; simpl. by rw !app_assoc.
Qed.

Section Grows.
Context `{GoArch}.

Lemma emit_grows params : stays grows (emit params).
Proof. apply stays_modify. intros c. exists [], params. destruct c; unfold update; simpl. by rw app_nil_r. Qed.
Lemma appendFDs_grows fds : stays grows (appendFDs fds).
Proof. intros c. exists fds, []. destruct c; unfold appendFDs, update; simpl. by rw app_nil_r. Qed.
#[local] Hint Resolve emit_grows appendFDs_grows : stays.

Lemma QemuParams_grows d : stays grows (QemuParams d).
Proof.
  destruct d; unfold QemuParams, NetDevice_QemuParams, QemuNetdevParams, QemuDeviceParams, VSOCKDevice_QemuParams;
    stays.
Qed.
#[local] Hint Resolve QemuParams_grows : stays.

Lemma appendDevice_grows d : stays grows (if negb (Valid d) then mret tt else params ← QemuParams d; emit params).
Proof. stays. Qed.

(** One call of each method, in the order of the code. *)
Ltac unfold_appends :=
  unfold appendName, appendUUID, appendMachine, appendCPUModel, appendQMPSockets, appendMemory, appendDevices,
    appendRTC, appendGlobalParam, appendPFlashParam, appendVGA, appendKnobs, appendMemoryKnobs, appendKernel,
    appendBios, appendIOThreads, appendIncoming, appendPidFile, appendLogFile, appendFwCfg, appendSeccompSandbox,
    appendCPUs, emit_given in *.

(** [passes c m act]: a run of [m] from [c] that succeeds runs [act] on its way. *)
Definition passes (c : Config) (m act : M Config unit) : Prop := forall c', m c = (Ok tt, c') ->
  exists c1 c2, grows c c1 /\ act c1 = (Ok tt, c2) /\ grows c2 c'.

Lemma passes_here c m k : (forall a, stays grows (k a)) -> passes c (m ≫= k) m.
Proof.
  intros Hk c'. unfold mbind, M_bind. destruct (m c) as [[[]|e] c1] eqn:E; [|done].
  intros Ek. exists c, c1. specialize (Hk tt c1). rw Ek in Hk. by split_and!.
Qed.

Lemma passes_later c m k act :
  stays grows m -> (forall c1, grows c c1 -> passes c1 (k tt) act) -> passes c (m ≫= k) act.
Proof.
  intros Hm Hk c'. unfold mbind, M_bind. specialize (Hm c). destruct (m c) as [[[]|e] c1] eqn:E; [|done].
  intros Ek. destruct (Hk c1 Hm c' Ek) as (c2 & c3 & H1 & H2 & H3). exists c2, c3. split_and!; [by etrans| |]; done.
Qed.

Lemma passes_within c m k act : passes c m act -> (forall a, stays grows (k a)) -> passes c (m ≫= k) act.
Proof.
  intros Hm Hk c'. unfold mbind, M_bind. destruct (m c) as [[[]|e] c1] eqn:E; [|done].
  intros Ek. destruct (Hm c1 E) as (c2 & c3 & H1 & H2 & H3). exists c2, c3. split_and!; [done|done|].
  etrans; [exact H3|]. specialize (Hk tt c1). by rw Ek in Hk.
Qed.

Lemma passes_get c k act : passes c (k c) act -> passes c (get ≫= k) act.
Proof. done. Qed.

Lemma passes_for_each {A} c (l : list A) f x :
  (forall y, stays grows (f y)) -> x ∈ l -> passes c (for_each l f) (f x).
Proof.
  intros Hf. revert c. induction l as [|y l IH]; intros c; [by intros ?%elem_of_nil|].
  intros [<-|Hx]%elem_of_cons; simpl.
  - apply passes_here. intros _. apply stays_for_each; [apply _|done].
  - apply passes_later; [done|]. intros c1 _. by apply IH.
Qed.

Definition device_step (d : Device) : M Config unit :=
  if negb (Valid d) then mret tt else params ← QemuParams d; emit params.

Lemma grows_same c c' :
  grows c c' -> q_Devices c' = q_Devices c /\ q_Incoming c' = q_Incoming c /\ q_Path c' = q_Path c
    /\ q_Uid c' = q_Uid c /\ q_Gid c' = q_Gid c /\ q_Groups c' = q_Groups c.
Proof. by intros (fs & ps & ->). Qed.

Lemma build_passes_device c d : d ∈ q_Devices c -> passes c build_params (device_step d).
Proof.
  intros Hd. unfold build_params. do 6 (apply passes_later; [unfold_appends; stays|intros ? ?]).
  apply passes_within; [|intros ?; unfold_appends; stays].
  apply passes_get, passes_for_each; [apply appendDevice_grows|].
  repeat match goal with G : grows _ _ |- _ => apply grows_same in G as (G & _) end. congruence.
Qed.

Lemma build_passes_incoming c : passes c build_params appendIncoming.
Proof.
  unfold build_params. do 15 (apply passes_later; [unfold_appends; stays|intros ? ?]).
  apply passes_here. intros ?. unfold_appends. stays.
Qed.

Lemma build_params_grows : stays grows build_params.
Proof. unfold build_params. unfold_appends. stays. Qed.

(** ** A launch that runs a command *)

Context `{Exec}.

Lemma LaunchCustomQemu_runs path params fds uid gid groups ran :
  LaunchCustomQemu path params fds uid gid groups ran =
    (let cmd := mkCmd (if given path then path else "qemu-system-x86_64") params fds uid gid groups in
     ((match (cmd_Run cmd).2 with Some _ => (cmd_Run cmd).1 | None => "" end, (cmd_Run cmd).2), ran ++ [cmd])).
Proof. unfold LaunchCustomQemu. by destruct (cmd_Run _). Qed.

Lemma LaunchQemu_ran c ran r cmd :
  LaunchQemu c ran = (r, ran ++ [cmd]) ->
  exists c', build_params c = (Ok tt, c') /\ cmd_Args cmd = q_qemuParams c' /\ cmd_ExtraFiles cmd = q_fds c'.
Proof.
  unfold LaunchQemu, LaunchCustomQemu. destruct (build_params c) as [[[]|e] c'].
  - destruct (cmd_Run _) as [stderr err]. intros [= <- Ec]. simplify_list_eq. by exists c'.
  - intros [= _ Er]. apply (f_equal length) in Er. rw length_app /= in Er. lia.
Qed.

Lemma grows_at c c' : grows c c' -> exists fs ps, q_fds c' = q_fds c ++ fs /\ q_qemuParams c' = q_qemuParams c ++ ps.
Proof. intros (fs & ps & ->). by exists fs, ps. Qed.

(** The arguments and the files a device leaves in the command. *)
Lemma device_in_command c ran r cmd d :
  LaunchQemu c ran = (r, ran ++ [cmd]) -> d ∈ q_Devices c -> Valid d = true ->
  exists c1 c2 params before after more,
    QemuParams d c1 = (Ok params, c2) /\
    cmd_Args cmd = before ++ params ++ after /\ cmd_ExtraFiles cmd = q_fds c2 ++ more.
Proof.
  intros (c' & Eb & -> & ->)%LaunchQemu_ran Hd HV.
  destruct (build_passes_device c d Hd c' Eb) as (c1 & c2 & H1 & H2 & H3).
  unfold device_step in H2. rw HV /= in H2. unfold mbind, M_bind in H2.
  destruct (QemuParams d c1) as [[params|e] c3] eqn:E; [|done]. injection H2 as <-.
  apply grows_at in H3 as (fs & ps & -> & ->).
  exists c1, c3, params, (q_qemuParams c3), ps, fs. split_and!; [done| |done].
  unfold update; simpl. by rw -app_assoc.
Qed.

(** ** Descriptors *)

(** The descriptors of [fds] when [n] files come before them. *)
Definition numbers (n : nat) (fds : list File) : list Z := imap (fun i _ => Z.of_nat n + 3 + Z.of_nat i) fds.

Lemma numbers_ne n fds : fds <> [] -> numbers n fds <> [].
Proof. by destruct fds. Qed.

Lemma received_numbers cmd before fds after :
  cmd_ExtraFiles cmd = before ++ fds ++ after ->
  map (received cmd) (numbers (length before) fds) = map Some fds.
Proof.
  intros E. apply list_eq. intros i. unfold numbers. rw !list_lookup_fmap list_lookup_imap.
  destruct (fds !! i) as [f|] eqn:Ei; simpl; [|done]. f_equal. unfold received. rw E.
  rw (proj2 (Z.leb_le 3 (Z.of_nat (length before) + 3 + Z.of_nat i))); [lia|].
  replace (Z.to_nat _) with (length before + i)%nat by lia. rw lookup_app_r; [lia|].
  replace (_ - _)%nat with i by lia. by apply lookup_app_l_Some.
Qed.

Lemma numbers_bound cmd before fds after :
  cmd_ExtraFiles cmd = before ++ fds ++ after -> Z.of_nat (length (cmd_ExtraFiles cmd)) < 2 ^ 62 ->
  Forall (fun n => 0 <= n < 2 ^ 63) (numbers (length before) fds).
Proof.
  intros -> Hlen. rw !length_app in Hlen. apply Forall_lookup. intros i x. unfold numbers.
  rw list_lookup_imap. destruct (fds !! i) eqn:Ei; simpl; [|done]. intros [= <-].
  apply lookup_lt_Some in Ei. lia.
Qed.

Lemma str_mem_fd_list c fds :
  Forall (fun n => 0 <= n < 2 ^ 63) fds -> is_hex c = false -> c <> ":"%char -> str_mem c (fd_list fds) = false.
Proof.
  intros Hf Hc Hne. apply str_mem_Join.
  - simpl. by rw bool_decide_false.
  - apply Forall_map. eapply Forall_impl; [exact Hf|]. intros n [Hn _]. by apply Itoa_not_mem.
Qed.

Lemma read_fd_list fds :
  fds <> [] -> Forall (fun n => 0 <= n < 2 ^ 63) fds ->
  omap (fun w => match Atoi w with Ok n => Some n | Err _ => None end) (Split ":" (fd_list fds)) = fds.
Proof.
  intros Hne Hf. unfold fd_list. rw Split_Join.
  - by destruct fds.
  - apply Forall_map. eapply Forall_impl; [exact Hf|]. intros n [Hn _]. by apply Itoa_not_mem.
  - clear Hne. induction Hf as [|n l Hn Hl IH]; [done|]. simpl. rw Atoi_Itoa; [done|]. by f_equal.
Qed.

(** *** Network devices *)

Lemma value_of_param key v : value_of key (param key v) = Some v.
Proof.
  unfold value_of, param. rw -str_app_assoc HasPrefix_app. f_equal.
  induction (key +:+ "=") as [|c k IH]; [done|]. by rw str_app_cons.
Qed.

(** The files of the vhost back end. *)
Definition vhost_files (nd : NetDevice) : list File := if nd_VHost nd then nd_VhostFDs nd else [].

(** The properties of [-netdev] for a device that is handed open files, when
    [n] files come before them. *)
Definition netdev_words (nd : NetDevice) (n : nat) : list string :=
  ["tap"; param "id" (nd_ID nd)]
    ++ opt (nd_VHost nd) "vhost=on"
    ++ opt (bool_decide (vhost_files nd <> [])) (param "vhostfds" (fd_list (numbers n (vhost_files nd))))
    ++ [param "fds" (fd_list (numbers (n + length (vhost_files nd)) (nd_FDs nd)))].

Lemma NetDevice_Valid_type nd : NetDevice_Valid nd = true -> nd_Type nd = TAP \/ nd_Type nd = MACVTAP.
Proof. unfold NetDevice_Valid. case_match; [done|]. repeat case_bool_decide; auto. done. Qed.

Lemma netdev_params nd c :
  NetDevice_Valid nd = true -> nd_FDs nd <> [] ->
  QemuNetdevParams nd c =
    (Ok (netdev_words nd (length (q_fds c))), c <| q_fds ::= fun l => l ++ vhost_files nd ++ nd_FDs nd |>).
Proof.
  intros HV Hne. apply NetDevice_Valid_type in HV. destruct nd as [ty ? ? ? ? ? ? ? FDs VFDs vh ? ? ? ? ?], c.
  simpl in *. destruct FDs as [|f FDs]; [done|].
  destruct HV as [-> | ->], vh, VFDs as [|v VFDs];
    unfold QemuNetdevParams, vhost_files, netdev_words, appendFDs, numbers, mbind, M_bind, update; simpl.
  all: by rw ?length_app ?Nat.add_0_r ?app_nil_r -?app_assoc.
Qed.

Lemma net_device_driver nd c :
  nd_Type nd = TAP \/ nd_Type nd = MACVTAP ->
  exists driver, QemuDeviceParam (nd_Type nd) nd c =
    Ok (driver, nd <| nd_Transport := or_default (nd_Transport nd) (Some c) |>).
Proof. intros [-> | ->]; by eexists. Qed.

(** The [-device] part of the device neither fails nor asks for files. *)
Lemma net_device_part nd c :
  nd_Type nd = TAP \/ nd_Type nd = MACVTAP -> exists ps, QemuDeviceParams nd c = (Ok ps, c).
Proof.
  intros HT. destruct (net_device_driver nd c HT) as [driver E].
  unfold QemuDeviceParams, mbind, M_bind, get, lift. rw E. destruct (given driver); by eexists.
Qed.

Lemma net_emits nd c :
  NetDevice_Valid nd = true -> nd_FDs nd <> [] ->
  exists rest, NetDevice_QemuParams nd c =
    (Ok (["-netdev"; Join "," (netdev_words nd (length (q_fds c)))] ++ rest),
     c <| q_fds ::= fun l => l ++ vhost_files nd ++ nd_FDs nd |>).
Proof.
  intros HV Hne. pose proof (NetDevice_Valid_type nd HV) as HT. unfold NetDevice_QemuParams.
  rw (bool_decide_false (nd_FDs nd = [])) // andb_false_r.
  set (nd' := nd <| nd_Transport := or_default (nd_Transport nd) (Some c) |>).
  assert (E : QemuNetdevParam (nd_Type nd) nd c = Ok ("tap", nd')) by by destruct HT as [-> | ->].
  pose proof (netdev_params nd' c HV Hne) as Ep. unfold mbind, M_bind, get, lift. rw E.
  change (given "tap") with true. cbv beta iota. rw Ep. clear E Ep.
  set (c' := c <| q_fds ::= fun l => l ++ vhost_files nd' ++ nd_FDs nd' |>).
  destruct (net_device_driver nd' c' HT) as [driver E1]. unfold mret, M_ret. rw E1. cbv beta iota.
  set (nd2 := nd' <| nd_Transport := or_default (nd_Transport nd') (Some c') |>).
  destruct (net_device_part nd2 c' HT) as [ps E2]. destruct (given driver); [rw E2|]; by eexists.
Qed.

Lemma netdev_words_plain nd n :
  str_mem "," (nd_ID nd) = false -> Forall (fun n => 0 <= n < 2 ^ 63) (numbers n (vhost_files nd)) ->
  Forall (fun n => 0 <= n < 2 ^ 63) (numbers (n + length (vhost_files nd)) (nd_FDs nd)) ->
  Split "," (Join "," (netdev_words nd n)) = netdev_words nd n.
Proof.
  intros Hid Hv Hf. apply Split_Join; [done|]. unfold netdev_words.
  repeat apply Forall_app_2; repeat constructor; unfold opt, param; try case_match; repeat constructor;
    rw ?str_mem_app ?str_mem_fd_list ?Hid //.
Qed.

(** What QEMU reads in the properties of a device that is handed open files. *)
Lemma read_netdev nd n :
  str_mem "," (nd_ID nd) = false -> nd_FDs nd <> [] -> Forall (fun n => 0 <= n < 2 ^ 63) (numbers n (vhost_files nd)) ->
  Forall (fun n => 0 <= n < 2 ^ 63) (numbers (n + length (vhost_files nd)) (nd_FDs nd)) ->
  read_fds "fds" (Join "," (netdev_words nd n)) = numbers (n + length (vhost_files nd)) (nd_FDs nd) /\
  read_fds "vhostfds" (Join "," (netdev_words nd n)) = numbers n (vhost_files nd).
Proof.
  intros Hid Hne Hv Hf. unfold read_fds, prop_value. rw netdev_words_plain //. unfold netdev_words.
  pose proof (read_fd_list _ (numbers_ne (n + length (vhost_files nd)) _ Hne) Hf) as Rf.
  remember (vhost_files nd) as vh eqn:Evh. destruct (nd_VHost nd), vh as [|v vh]; unfold opt; simpl;
    rw ?value_of_param; (split; [exact Rf|]); try reflexivity;
    (exact (read_fd_list _ (numbers_ne n (v :: vh) ltac:(done)) Hv)).
Qed.

(** Every open file a network device is given is named by its number. *)
Lemma net_fds c ran r cmd nd :
  LaunchQemu c ran = (r, ran ++ [cmd]) -> Z.of_nat (length (cmd_ExtraFiles cmd)) < 2 ^ 62 ->
  DNet nd ∈ q_Devices c -> NetDevice_Valid nd = true -> nd_FDs nd <> [] -> str_mem "," (nd_ID nd) = false ->
  exists arg, has_option "-netdev" arg (cmd_Args cmd) /\
    map (received cmd) (read_fds "fds" arg) = map Some (nd_FDs nd) /\
    map (received cmd) (read_fds "vhostfds" arg) = map Some (vhost_files nd).
Proof.
  intros HL Hlen Hd HV Hne Hid.
  destruct (device_in_command c ran r cmd (DNet nd) HL Hd HV) as (c1 & c2 & ps & bf & af & more & E1 & EA & EF).
  destruct (net_emits nd c1 HV Hne) as [rest E]. simpl in E1. rw E1 in E. injection E as -> ->.
  change (q_fds (_ <| _ ::= _ |>)) with (q_fds c1 ++ vhost_files nd ++ nd_FDs nd) in EF.
  assert (Fv : cmd_ExtraFiles cmd = q_fds c1 ++ vhost_files nd ++ nd_FDs nd ++ more) by by rw EF -!app_assoc.
  assert (Ff : cmd_ExtraFiles cmd = (q_fds c1 ++ vhost_files nd) ++ nd_FDs nd ++ more) by by rw Fv -!app_assoc.
  pose proof (numbers_bound _ _ _ _ Fv Hlen) as Bv. pose proof (numbers_bound _ _ _ _ Ff Hlen) as Bf.
  pose proof (received_numbers _ _ _ _ Fv) as Rv. pose proof (received_numbers _ _ _ _ Ff) as Rf.
  rw length_app in Bf. rw length_app in Rf.
  destruct (read_netdev nd (length (q_fds c1)) Hid Hne Bv Bf) as [Xf Xv].
  exists (Join "," (netdev_words nd (length (q_fds c1)))). split_and!; [|by rw Xf|by rw Xv]. exists bf, (rest ++ af). by rw EA.
Qed.


(** *** Sockets to the guest and migration *)

Definition plain (s : string) : Prop := str_mem "," s = false.

Lemma by_transport_plain a b d t : plain a -> plain b -> plain d -> plain (by_transport a b d t).
Proof. unfold by_transport. by repeat case_match. Qed.
Lemma param_plain k v : plain k -> plain v -> plain (param k v).
Proof. unfold plain, param. intros Hk Hv. by rw !str_mem_app Hk Hv. Qed.
Lemma opt_plain b s : plain s -> Forall plain (opt b s).
Proof. destruct b; repeat constructor; done. Qed.
Lemma modern_params_plain t c b : Forall plain (modern_params t c b).
Proof. apply opt_plain. unfold disableModern. by repeat case_match. Qed.
Lemma rom_params_plain t c r : plain r -> Forall plain (rom_params t c r).
Proof. intros Hr. by apply opt_plain, param_plain. Qed.
Lemma ccw_params_plain t c d : plain d -> Forall plain (ccw_params t c d).
Proof.
  intros Hd. unfold ccw_params. case_match; [|constructor].
  apply Forall_app_2; [by apply opt_plain|by constructor; [apply param_plain|constructor]].
Qed.

(** The words before and after the descriptor of a socket. *)
Lemma vsock_emits vs f c :
  vs_VHostFD vs = Some f -> plain (vs_ID vs) -> plain (vs_ROMFile vs) -> plain (vs_DevNo vs) ->
  0 <= vs_ContextID vs ->
  exists before after,
    VSOCKDevice_QemuParams vs c =
      (Ok (option_of "-device" (before ++ [param "vhostfd" (Itoa (Z.of_nat (length (q_fds c)) + 3))] ++ after)),
       c <| q_fds ::= fun l => l ++ [Some f] |>) /\
    Forall plain before /\ Forall plain after /\ Forall (fun w => value_of "vhostfd" w = None) before.
Proof.
  intros Ef Hid Hrom Hno Hcid.
  exists ([VSOCKDevice_deviceName vs c] ++ modern_params (vs_Transport vs) c (vs_DisableModern vs)),
    ([param "id" (vs_ID vs); param VSOCKGuestCID (Itoa (vs_ContextID vs))]
       ++ rom_params (vs_Transport vs) c (vs_ROMFile vs) ++ ccw_params (vs_Transport vs) c (vs_DevNo vs)).
  split_and!.
  - unfold VSOCKDevice_QemuParams, mbind, M_bind, get, appendFDs, mret, M_ret. by rw Ef /= Z.add_0_r.
  - apply Forall_app_2; [|apply modern_params_plain]. by repeat constructor; apply by_transport_plain.
  - repeat apply Forall_app_2; [|by apply rom_params_plain|by apply ccw_params_plain].
    repeat constructor; apply param_plain; try done. by apply Itoa_not_mem.
  - apply Forall_app_2.
    + repeat constructor. unfold VSOCKDevice_deviceName, VSOCKDeviceTransport, by_transport. by repeat case_match.
    + unfold modern_params, disableModern. by repeat case_match; repeat constructor.
Qed.

Lemma prop_value_in key v before after :
  Forall plain before -> Forall plain after -> plain key -> plain v ->
  Forall (fun w => value_of key w = None) before ->
  prop_value key (Join "," (before ++ [param key v] ++ after)) = Some v.
Proof.
  intros Hb Ha Hk Hv Hm. unfold prop_value. rw Split_Join.
  - by destruct before.
  - repeat apply Forall_app_2; try done. by repeat constructor; apply param_plain.
  - clear Hb. induction Hm as [|w l Hw Hl IH]; simpl; [by rw value_of_param|]. by rw Hw.
Qed.

Lemma vsock_fd c ran r cmd vs f :
  LaunchQemu c ran = (r, ran ++ [cmd]) -> Z.of_nat (length (cmd_ExtraFiles cmd)) < 2 ^ 62 ->
  DVSOCK vs ∈ q_Devices c -> VSOCKDevice_Valid vs = true -> vs_VHostFD vs = Some f ->
  plain (vs_ID vs) -> plain (vs_ROMFile vs) -> plain (vs_DevNo vs) ->
  exists arg fd, has_option "-device" arg (cmd_Args cmd) /\ read_fds "vhostfd" arg = [fd] /\
    received cmd fd = Some (Some f).
Proof.
  intros HL Hlen Hd HV Ef Hid Hrom Hno.
  destruct (device_in_command c ran r cmd (DVSOCK vs) HL Hd HV) as (c1 & c2 & ps & bf & af & more & E1 & EA & EF).
  assert (Hcid : 0 <= vs_ContextID vs).
  { revert HV. unfold VSOCKDevice_Valid, MinimalGuestCID. case_match eqn:E; [done|]. lia. }
  destruct (vsock_emits vs f c1 Ef Hid Hrom Hno Hcid) as (before & after & E & Pb & Pa & Pm).
  simpl in E1. rw E1 in E. injection E as -> ->.
  assert (Fv : cmd_ExtraFiles cmd = q_fds c1 ++ [Some f] ++ more) by by rw EF /update /= -app_assoc.
  pose proof (received_numbers _ _ _ _ Fv) as Rv. pose proof (numbers_bound _ _ _ _ Fv Hlen) as Bv.
  unfold numbers in Rv, Bv. simpl in Rv, Bv. injection Rv as Rv. apply Forall_cons in Bv as [Bv _].
  rw Z.add_0_r in Rv. rw Z.add_0_r in Bv.
  do 2 eexists. split_and!; [by exists bf, af; rw EA| |exact Rv].
  unfold read_fds. rw prop_value_in //; [apply Itoa_not_mem; [lia|done]|].
  exact (read_fd_list [_] ltac:(done) (Forall_cons_2 _ _ _ Bv (Forall_nil_2 _))).
Qed.

Lemma incoming_fd c ran r cmd :
  LaunchQemu c ran = (r, ran ++ [cmd]) -> in_MigrationType (q_Incoming c) = MigrationFD ->
  exists fd, has_option "-incoming" ("fd:" +:+ Itoa fd) (cmd_Args cmd) /\
    received cmd fd = Some (in_FD (q_Incoming c)).
Proof.
  intros (c' & Eb & EA & EF)%LaunchQemu_ran HT.
  destruct (build_passes_incoming c c' Eb) as (c1 & c2 & H1 & H2 & H3).
  apply grows_same in H1 as (_ & EI & _). apply grows_at in H3 as (fs & ps & Ef & Ep).
  unfold appendIncoming, mbind, M_bind, get, emit, modify, appendFDs in H2. rw EI HT /= in H2. injection H2 as <-.
  revert Ef Ep. unfold update; simpl. intros Ef Ep. rw -app_assoc in Ef. rw -EF in Ef.
  pose proof (received_numbers _ _ [_] _ Ef) as Rv. unfold numbers in Rv. simpl in Rv. injection Rv as Rv.
  eexists. split; [|exact Rv]. rw EA Ep. exists (q_qemuParams c1 ++ ["-S"]), ps. by rw -!app_assoc.
Qed.

(** ** The outcome of a launch *)

Definition total {A} (m : M Config A) : Prop := does (fun _ => True) m.

Lemma emit_total params : total (emit params).
Proof. by apply does_modify. Qed.
Lemma appendFDs_total fds : total (appendFDs fds).
Proof. intros c. by do 2 eexists. Qed.
Lemma get_total : total get.
Proof. intros c. by do 2 eexists. Qed.

Ltac total_step :=
  lazymatch goal with
  | |- total (_ ≫= _) => apply does_bind; [|intros ?]
  | |- total get => apply get_total
  | |- total (mret _) => by apply does_ret
  | |- total (gets _) => by apply does_gets
  | |- total (emit _) => apply emit_total
  | |- total (appendFDs _) => apply appendFDs_total
  | |- total (when _ _) => apply does_when; [done|intros ?]
  | |- total (for_each _ _) => apply does_for_each; [done|intros ? ?]
  | |- total (match ?x with _ => _ end) => destruct x eqn:?
  | |- does (fun _ => True) ?m => change (total m)
  end.
Ltac total := repeat (total_step; try done).

(** A total action after a step that reads the configuration and succeeds. *)
Lemma read_total {A B} (f : Config -> res A) (k : Config -> A -> M Config B) :
  (forall c, exists a, f c = Ok a /\ total (k c a)) -> total (c ← get; a ← lift (f c); k c a).
Proof.
  intros Hf c. destruct (Hf c) as (a & E & Hk). unfold mbind, M_bind, get, lift. rw E. apply Hk.
Qed.

(** The transport methods end the process for a [VFIO] or [VHOSTUSER] device
    only, and neither is valid. *)
Lemma net_total nd : nd_Type nd = TAP \/ nd_Type nd = MACVTAP -> total (NetDevice_QemuParams nd).
Proof.
  intros HT. unfold NetDevice_QemuParams. case_match; [by apply does_ret|].
  apply read_total. intros c. exists ("tap", nd <| nd_Transport := or_default (nd_Transport nd) (Some c) |>).
  split; [by destruct HT as [-> | ->]|]. set (nd' := nd <| nd_Transport := _ |>). 
  assert (HT' : nd_Type nd' = TAP \/ nd_Type nd' = MACVTAP) by exact HT. clearbody nd'. clear c HT.
  apply does_bind.
  - apply does_bind; [|intros ?; by apply does_ret]. apply read_total. intros c.
    exists ("tap", nd' <| nd_Transport := or_default (nd_Transport nd') (Some c) |>).
    split; [by destruct HT' as [-> | ->]|]. unfold given; simpl. total.
  - intros net. apply read_total. intros c. destruct (net_device_driver nd' c HT') as [driver E].
    eexists. split; [exact E|]. simpl. apply does_bind; [|intros ?; by apply does_ret].
    case_match; [|by apply does_ret]. apply does_bind; [|intros ?; by apply does_ret].
    intros c1. set (nd2 := nd' <| nd_Transport := _ |>). destruct (net_device_part nd2 c1 HT') as [ps E1].
    by exists ps, c1.
Qed.

Lemma device_step_total d : total (device_step d).
Proof.
  unfold device_step. destruct (Valid d) eqn:HV; simpl; [|total]. apply does_bind; [|intros ?; total].
  destruct d; simpl; try (by apply does_gets); try (by apply does_ret).
  - by apply net_total, NetDevice_Valid_type.
  - unfold VSOCKDevice_QemuParams. total.
Qed.

(** [leads m act]: [m] is some additions to the command line, then [act]. *)
Definition leads (m act : M Config unit) : Prop := forall c, exists c1, grows c c1 /\ m c = act c1.

Lemma leads_bind m k act : total m -> stays grows m -> leads (k tt) act -> leads (m ≫= k) act.
Proof.
  intros Ht Hg Hk c. destruct (does_unit_stays _ _ m c Ht Hg) as (c1 & E & _ & Hc).
  destruct (Hk c1) as (c2 & H2 & E2). exists c2. split; [by etrans|]. unfold mbind, M_bind. by rw E.
Qed.

Lemma build_leads : leads build_params appendCPUs.
Proof.
  unfold build_params.
  do 20 (apply leads_bind;
    [unfold_appends; repeat (apply device_step_total || total_step; try done)|unfold_appends; stays|]).
  intros c. by exists c.
Qed.

(** ** Options *)

Definition options (args : list string) : Prop := is_Some (parse_args args).

Lemma parse_args_app l1 l2 o1 o2 :
  parse_args l1 = Some o1 -> parse_args l2 = Some o2 -> parse_args (l1 ++ l2) = Some (o1 ++ o2).
Proof.
  intros E1 E2. revert o1 E1.
  induction l1 as [[|f l1] IH] using (induction_ltof1 _ length); intros o1; simpl.
  { by intros [= <-]. }
  destruct (bool_decide (f ∈ flags0)).
  { intros (o & Eo & ->)%fmap_Some. by rw (IH l1 ltac:(unfold ltof; simpl; lia) o Eo). }
  destruct (bool_decide (f ∈ flags1)); [|done]. destruct l1 as [|v l1]; [done|].
  intros (o & Eo & ->)%fmap_Some. simpl. by rw (IH l1 ltac:(unfold ltof; simpl; lia) o Eo).
Qed.

Lemma options_app l1 l2 : options l1 -> options l2 -> options (l1 ++ l2).
Proof. intros [o1 E1] [o2 E2]. exists (o1 ++ o2). by apply parse_args_app. Qed.
Lemma options_nil : options [].
Proof. by eexists. Qed.
Lemma options_opt b f : bool_decide (f ∈ flags0) = true -> options (opt b f).
Proof. intros Hf. destruct b; [|by eexists]. unfold options. simpl. rw Hf. by eexists. Qed.
Lemma options_one f v : bool_decide (f ∈ flags0) = false -> bool_decide (f ∈ flags1) = true -> options [f; v].
Proof. intros N0 N1. unfold options. simpl. rw N0 N1. by eexists. Qed.
Lemma options_some f l : bool_decide (f ∈ flags0) = false -> bool_decide (f ∈ flags1) = true -> options (some_params f l).
Proof. intros N0 N1. destruct l; [apply options_nil|by apply options_one]. Qed.

Ltac options :=
  repeat lazymatch goal with
  | |- options (_ ++ _) => apply options_app
  | |- options (some_params _ _) => by apply options_some
  | |- options (opt _ _) => by apply options_opt
  | |- options (option_of _ _) => by apply options_one
  | |- options [] => apply options_nil
  | |- options [_; _] => by apply options_one
  | |- options [_] => by eexists
  | |- options (_ :: _ :: _ :: _) => by eexists
  | |- options (match ?x with _ => _ end) => destruct x eqn:?
  end.

Lemma fwcfg_loop_options ps l : options (fwcfg_loop ps l).
Proof. revert ps. induction l as [|f l IH]; intros ps; cbn [fwcfg_loop]; [options|]. by apply options_app; [options|]. Qed.

Lemma vhost_options dev c : options (VhostUserDevice_QemuParams dev c).
Proof.
  unfold VhostUserDevice_QemuParams.
  set (ps := if bool_decide (vu_VhostUserType dev = VhostUserNet) then _ else _).
  assert (options ps) by (unfold ps, QemuNetParams, QemuSCSIParams, QemuBlkParams, QemuFSParams; options).
  destruct ps; [options|]. by apply options_app; [options|].
Qed.

Lemma net_options nd : gives (fun ps _ => options ps) (NetDevice_QemuParams nd).
Proof.
  unfold NetDevice_QemuParams. case_match; [apply gives_ret; intros _; options|].
  do 2 (apply gives_bind; intros ?; try case_match). apply (gives_chain options).
  { case_match; [apply gives_bind; intros ?|]; apply gives_ret; intros _; options. }
  intros net Hn. do 2 (apply gives_bind; intros ?; try case_match). apply (gives_chain options).
  { case_match; [apply gives_bind; intros ?|]; apply gives_ret; intros _; options. }
  intros dev Hd. apply gives_ret. intros _. by apply options_app.
Qed.

Lemma QemuParams_options d : gives (fun ps _ => options ps) (QemuParams d).
Proof.
  destruct d; simpl; try (intros c ps c' [= <- <-]).
  - unfold Object_QemuParams. repeat case_match; simplify_eq; options.
  - unfold FSDevice_QemuParams. options.
  - unfold CharDevice_QemuParams. options.
  - apply net_options.
  - unfold LegacySerialDevice_QemuParams. options.
  - unfold SerialDevice_QemuParams. options.
  - unfold BlockDevice_QemuParams. options.
  - unfold PVPanicDevice_QemuParams. options.
  - unfold LoaderDevice_QemuParams. options.
  - apply vhost_options.
  - unfold PCIeRootPortDevice_QemuParams. options.
  - unfold VFIODevice_QemuParams. options.
  - unfold SCSIController_QemuParams. options.
  - unfold BridgeDevice_QemuParams. options.
  - unfold VSOCKDevice_QemuParams. do 2 (apply gives_bind; intros ?). apply gives_ret. intros _. options.
  - unfold RngDevice_QemuParams. options.
  - unfold BalloonDevice_QemuParams. options.
  - unfold IommuDev_QemuParams. options.
  - apply fwcfg_loop_options.
Qed.

(** The arguments so far are options. *)
Definition args_ok (c : Config) : Prop := options (q_qemuParams c).

Lemma emit_options ps : options ps -> stays (keeps args_ok) (emit ps).
Proof. intros Hps. apply stays_modify. intros c Hc. by apply options_app. Qed.
Lemma appendFDs_options fds : stays (keeps args_ok) (appendFDs fds).
Proof. intros c Hc. exact Hc. Qed.
#[local] Hint Resolve appendFDs_options : stays.

Lemma device_step_options d : stays (keeps args_ok) (device_step d).
Proof.
  intros c Hc. unfold device_step. case_match; [done|]. unfold mbind, M_bind.
  assert (G : stays (keeps args_ok) (QemuParams d)).
  { destruct d; unfold QemuParams, NetDevice_QemuParams, QemuNetdevParams, QemuDeviceParams, VSOCKDevice_QemuParams;
      stays. }
  specialize (G c Hc). destruct (QemuParams d c) as [[ps|e] c1] eqn:E; [|done].
  apply options_app; [done|]. by eapply QemuParams_options.
Qed.

Lemma build_options : stays (keeps args_ok) build_params.
Proof.
  unfold build_params. unfold_appends.
  repeat (first [apply device_step_options|apply emit_options; first [apply fwcfg_loop_options|options]|stays_step]; try done).
Qed.

(** ** What is not valid *)

(** The configuration without its invalid devices and sockets, and without the
    threads that have no name. *)
Definition only_valid (c : Config) : Config :=
  c <| q_Devices ::= filter (fun d => Valid d = true) |>
    <| q_QMPSockets ::= filter (fun q => QMPSocket_Valid q = true) |>
    <| q_IOThreads ::= filter (fun t => given (it_ID t) = true) |>.

(** [same m]: [m] does the same with and without them. *)
Definition same {A} (m : M Config A) : Prop := forall c, m (only_valid c) = ((m c).1, only_valid (m c).2).

Lemma same_bind {A B} (m : M Config A) (k : A -> M Config B) : same m -> (forall a, same (k a)) -> same (m ≫= k).
Proof.
  intros Hm Hk c. unfold mbind, M_bind. rw (Hm c). destruct (m c) as [[a|e] c1]; [|done]. apply Hk.
Qed.
Lemma same_get {A} (k : Config -> M Config A) :
  (forall c, k (only_valid c) = k c) -> (forall c, same (k c)) -> same (get ≫= k).
Proof. intros Hk Hs c. unfold mbind, M_bind, get. rw Hk. apply Hs. Qed.
Lemma same_for_each {A} (l : list A) f : (forall x, same (f x)) -> same (for_each l f).
Proof. intros Hf. induction l as [|x l IH]; simpl; [done|]. by apply same_bind. Qed.
Lemma same_when b m : same m -> same (when b m).
Proof. by destruct b. Qed.
Lemma same_emit ps : same (emit ps).
Proof. done. Qed.
Lemma same_appendFDs fds : same (appendFDs fds).
Proof. done. Qed.
Lemma same_gets {A} (f : Config -> A) : (forall c, f (only_valid c) = f c) -> same (gets f).
Proof. intros Hf c. unfold gets. by rw Hf. Qed.

Ltac same_step :=
  lazymatch goal with
  | |- same (get ≫= _) => apply same_get; [reflexivity|intros ?]
  | |- same (_ ≫= _) => apply same_bind; [|intros ?]
  | |- same (gets _) => apply same_gets; reflexivity
  | |- same (when _ _) => apply same_when
  | |- same (for_each _ _) => apply same_for_each; intros ?
  | |- same (emit _) => apply same_emit
  | |- same (appendFDs _) => apply same_appendFDs
  | |- same (match ?x with _ => _ end) => destruct x
  | |- same _ => intros ?; reflexivity
  end.
Ltac same := repeat same_step.

(** An element whose step does nothing can be left out. *)
Lemma for_each_filter {A} (P : A -> bool) (l : list A) (f : A -> M Config unit) :
  (forall x, P x = false -> f x = mret tt) -> for_each (filter (fun x => P x = true) l) f = for_each l f.
Proof.
  intros Hf. induction l as [|x l IH]; [done|]. rw filter_cons. case_decide as E; simpl; [by rw IH|].
  rw IH Hf; [by destruct (P x)|]. done.
Qed.

Lemma device_step_same d : same (device_step d).
Proof.
  destruct d; unfold device_step, QemuParams, NetDevice_QemuParams, QemuNetdevParams, QemuDeviceParams,
    VSOCKDevice_QemuParams; same.
Qed.

Lemma appendDevices_same : same appendDevices.
Proof.
  apply same_get; [|intros c; apply same_for_each, device_step_same].
  intros c. apply (for_each_filter Valid). by intros d ->.
Qed.
Lemma appendQMPSockets_same : same appendQMPSockets.
Proof.
  apply same_get; [|intros c; same]. intros c. apply (for_each_filter QMPSocket_Valid). by intros d ->.
Qed.
Lemma appendIOThreads_same : same appendIOThreads.
Proof.
  apply same_get; [|intros c; same]. intros c. apply (for_each_filter (fun t => given (it_ID t))). by intros d ->.
Qed.

Lemma build_same : same build_params.
Proof.
  unfold build_params.
  do 20 (apply same_bind; [first [apply appendDevices_same|apply appendQMPSockets_same|apply appendIOThreads_same|
    unfold_appends; same]|intros ?]).
  unfold_appends. same.
Qed.

(** ** Firmware configuration *)

Lemma build_fwcfg c : passes c build_params appendFwCfg.
Proof.
  unfold build_params. do 18 (apply passes_later; [unfold_appends; stays|intros ? ?]).
  apply passes_here. intros ?. unfold_appends. stays.
Qed.

(** Every valid entry adds the arguments of the whole list. *)
Lemma appendFwCfg_all c :
  q_qemuParams (appendFwCfg c).2 =
    q_qemuParams c ++ concat (replicate (length (filter (fun f => FwCfg_Valid f = true) (q_FwCfg c)))
      (fwcfg_loop [] (q_FwCfg c))).
Proof.
  unfold appendFwCfg, mbind, M_bind, get.
  enough (G : forall l c0, q_FwCfg c0 = q_FwCfg c ->
    q_qemuParams (for_each l (fun f => if negb (FwCfg_Valid f) then mret tt
        else config ← get; emit (FwCfg_QemuParams f config)) c0).2 =
      q_qemuParams c0 ++ concat (replicate (length (filter (fun f => FwCfg_Valid f = true) l))
        (fwcfg_loop [] (q_FwCfg c)))) by by apply G.
  induction l as [|f l IH]; intros c0 E; [by rw /= app_nil_r|]. rw filter_cons.
  destruct (FwCfg_Valid f) eqn:Ev; simpl; rw Ev; simpl; [|by apply IH].
  set (c1 := c0 <| q_qemuParams ::= fun l => l ++ fwcfg_loop [] (q_FwCfg c0) |>).
  etrans; [exact (IH c1 E)|]. rw -E. by rw -app_assoc.
Qed.

(** Option [i] of the arguments carries the properties of the entries up to [i]. *)
Lemma fwcfg_loop_spec ps l :
  fwcfg_loop ps l =
    concat (imap (fun i _ => option_of "-fw_cfg" (ps ++ concat (map fwcfg_props (take (S i) l)))) l).
Proof.
  revert ps. induction l as [|f l IH]; intros ps; [done|]. cbn [fwcfg_loop]. rw IH imap_cons.
  cbn [concat]. f_equal; [by rw /= app_nil_r|]. f_equal. apply imap_ext. intros i x _. by rw /= app_assoc.
Qed.

(** ** Theorems *)

(** C14. The files QEMU is handed: in the command a launch runs, every number
    written in the arguments of a network device (its queues and its vhost back
    end), of a guest socket and of an incoming migration is the number under
    which the new process receives that very file ([os/exec] gives entry [i] of
    [ExtraFiles] the number [3+i]). *)
Theorem launch_fds c ran r cmd
    (HL : LaunchQemu c ran = (r, ran ++ [cmd])) (Hlen : Z.of_nat (length (cmd_ExtraFiles cmd)) < 2 ^ 62) :
  (forall nd, DNet nd ∈ q_Devices c -> NetDevice_Valid nd = true -> nd_FDs nd <> [] -> plain (nd_ID nd) ->
     exists arg, has_option "-netdev" arg (cmd_Args cmd) /\
       map (received cmd) (read_fds "fds" arg) = map Some (nd_FDs nd) /\
       map (received cmd) (read_fds "vhostfds" arg) = map Some (vhost_files nd)) /\
  (forall vs f, DVSOCK vs ∈ q_Devices c -> VSOCKDevice_Valid vs = true -> vs_VHostFD vs = Some f ->
     plain (vs_ID vs) -> plain (vs_ROMFile vs) -> plain (vs_DevNo vs) ->
     exists arg fd, has_option "-device" arg (cmd_Args cmd) /\ read_fds "vhostfd" arg = [fd] /\
       received cmd fd = Some (Some f)) /\
  (in_MigrationType (q_Incoming c) = MigrationFD ->
     exists fd, has_option "-incoming" ("fd:" +:+ Itoa fd) (cmd_Args cmd) /\
       received cmd fd = Some (in_FD (q_Incoming c))).
Proof.
  split_and!.
  - intros nd. by eapply net_fds.
  - intros vs f. by eapply vsock_fd.
  - by eapply incoming_fd.
Qed.

(** The outcome of a launch: the only configurations that are refused are
    those with a maximum number of CPUs below their number, and nothing is run
    for them; for every other configuration one command is run, the binary of
    the configuration (or the default one) with its credentials, and its
    standard error is returned when it fails. *)
Theorem launch_outcome c ran :
  let s := q_SMP c in
  if (0 <? smp_CPUs s) && ((0 <? smp_MaxCPUs s) && (smp_MaxCPUs s <? smp_CPUs s))
  then LaunchQemu c ran = (("", Some (Errorf "MaxCPUs must be equal to or greater than CPUs")), ran)
  else exists cmd,
    cmd_Path cmd = (if given (q_Path c) then q_Path c else "qemu-system-x86_64") /\
    cmd_Uid cmd = q_Uid c /\ cmd_Gid cmd = q_Gid c /\ cmd_Groups cmd = q_Groups c /\
    LaunchQemu c ran =
      ((match (cmd_Run cmd).2 with Some _ => (cmd_Run cmd).1 | None => "" end, (cmd_Run cmd).2), ran ++ [cmd]).
Proof.
  simpl. destruct (build_leads c) as (c1 & (fs & ps & ->) & E). unfold LaunchQemu. rw E. clear E.
  unfold appendCPUs, mbind, M_bind, get. change (q_SMP (_ <| _ ::= _ |>)) with (q_SMP c).
  destruct (0 <? smp_CPUs (q_SMP c)), ((0 <? smp_MaxCPUs (q_SMP c)) && (smp_MaxCPUs (q_SMP c) <? smp_CPUs (q_SMP c)));
    simpl; try done; rw LaunchCustomQemu_runs; cbv zeta;
    match goal with |- context [_ ++ [?cmd]] => exists cmd end; by split_and!.
Qed.

(** C35. The arguments are options: read as QEMU reads them, one option after the
    other with its argument, the arguments of the command are a sequence of
    known options, whatever the strings of the configuration hold. *)
Theorem launch_options c ran r cmd
    (HL : LaunchQemu c ran = (r, ran ++ [cmd])) (Hnew : q_qemuParams c = []) :
  exists opts, parse_args (cmd_Args cmd) = Some opts.
Proof.
  apply LaunchQemu_ran in HL as (c' & Eb & -> & _). pose proof (build_options c) as G. unfold keeps, args_ok in G.
  rw Eb Hnew in G. by apply G, options_nil.
Qed.

(** C37. What is not valid leaves no trace: a launch with the invalid devices,
    QMP sockets and unnamed I/O threads taken out of the configuration runs the
    same command with the same outcome. *)
Theorem launch_only_valid c ran : LaunchQemu (only_valid c) ran = LaunchQemu c ran.
Proof.
  unfold LaunchQemu. rw build_same. by destruct (build_params c) as [[[]|e] c1].
Qed.

(** The entries of [-fw_cfg] are repeated: every valid entry of the list adds
    the options of the whole list, and the option written for an entry carries
    the properties of all the entries before it as well. *)
Theorem fwcfg_repeated c ran r cmd (HL : LaunchQemu c ran = (r, ran ++ [cmd])) :
  exists before after, cmd_Args cmd = before ++
    concat (replicate (length (filter (fun f => FwCfg_Valid f = true) (q_FwCfg c)))
      (concat (imap (fun i _ => option_of "-fw_cfg" (concat (map fwcfg_props (take (S i) (q_FwCfg c))))) (q_FwCfg c))))
    ++ after.
Proof.
  apply LaunchQemu_ran in HL as (c' & Eb & -> & _).
  destruct (build_fwcfg c c' Eb) as (c1 & c2 & (fs & ps & ->) & E2 & (fs' & ps' & ->)).
  pose proof (appendFwCfg_all (c <| q_fds ::= fun l => l ++ fs |> <| q_qemuParams ::= fun l => l ++ ps |>)) as EA.
  rw E2 fwcfg_loop_spec in EA. eexists _, ps'. 
  change (q_qemuParams (_ <| q_qemuParams ::= _ |>)) with (q_qemuParams c2 ++ ps'). rw EA -app_assoc. reflexivity.
Qed.

End Grows.
(** ** A launch *)

Definition amd64 : GoArch := {| GOARCH := "amd64" |}.
Definition quiet : Exec := {| cmd_Run := fun _ => ("", None) |}.
#[local] Existing Instances amd64 quiet.

Definition tap0 : NetDevice :=
  mkNetDevice TAP "virtio-net-pci" "network-0" "tap0_kata" "" "" "" "" [Some 21; Some 22] [Some 31] true
    "02:00:ca:fe:00:01" false "" "" "".
Definition vsock0 : VSOCKDevice := mkVSOCKDevice "vsock-1" 3 (Some 41) false "" "" "".
Definition fw0 : FwCfg := mkFwCfg "opt/a" "/a" "".
Definition fw1 : FwCfg := mkFwCfg "opt/b" "" "b".

Definition demo : Config :=
  mkConfig "" 0 0 [] "sandbox" "" "host" "" (mkMachine "q35" "kvm" "") [mkQMPSocket "unix" "/run/qmp.sock" true true]
    [DNet tap0; DVSOCK vsock0; DRng (mkRngDevice "" "/dev/urandom" 0 0 "" "" "")] (mkRTC "utc" "host" "slew") ""
    (mkKernel "/vmlinux" "" "quiet") (mkMemory "2048M" 10 "4096M" "") (mkSMP 1 1 1 1 4) "" 
    (mkKnobs true true true true false false false true false false false false false)
    "" [] (mkIncoming MigrationFD (Some 51) "") [] [fw0; fw1] [] "" "" [].

Definition demo_cmd : Cmd :=
  let '(_, l) := LaunchQemu demo [] in default (mkCmd "" [] [] 0 0 []) (head l).

Lemma demo_runs : LaunchQemu demo [] = (("", None), [] ++ [demo_cmd]).
Proof. vm_compute. reflexivity. Qed.

Lemma launch_fds_witness :
  exists arg, has_option "-netdev" arg (cmd_Args demo_cmd) /\
    map (received demo_cmd) (read_fds "fds" arg) = [Some (Some 21); Some (Some 22)] /\
    map (received demo_cmd) (read_fds "vhostfds" arg) = [Some (Some 31)].
Proof.
  assert (Hlen : Z.of_nat (length (cmd_ExtraFiles demo_cmd)) < 2 ^ 62) by by vm_compute.
  destruct (launch_fds demo [] ("", None) demo_cmd demo_runs Hlen) as (Hnet & _ & _).
  apply (Hnet tap0); [apply list_elem_of_here|vm_compute; reflexivity|discriminate|vm_compute; reflexivity].
Defined.

Lemma launch_options_witness : exists opts, parse_args (cmd_Args demo_cmd) = Some opts.
Proof. apply (launch_options demo [] ("", None) demo_cmd demo_runs). reflexivity. Defined.

Lemma fwcfg_repeated_witness :
  exists before after, cmd_Args demo_cmd = before ++
    ["-fw_cfg"; "name=opt/a,file=/a"; "-fw_cfg"; "name=opt/a,file=/a,name=opt/b,string=b";
     "-fw_cfg"; "name=opt/a,file=/a"; "-fw_cfg"; "name=opt/a,file=/a,name=opt/b,string=b"] ++ after.
Proof.
  destruct (fwcfg_repeated demo [] ("", None) demo_cmd demo_runs) as (before & after & E).
  exists before, after. etransitivity; [exact E|]. vm_compute. reflexivity.
Defined.

End QemuSpec.
