(* ===== verification/Qmp.v ===== *)
(** * The QMP client

    [pkg/govmm/qemu/qmp.go], the client of QEMU's control socket.  First the
    goroutines: [mainLoop], which owns the queue of commands, writes one command
    at a time and reads the lines of QEMU, and the calls of
    [executeCommandWithResponse], which hand over a command and wait for its
    result.  A state holds the loop, the callers, the contexts that are
    cancelled, and the two directions of the connection; a step is one
    rendezvous on a channel or one line.  Decoding JSON is left out: a line is
    the object it holds.  The handing over of the version to [QMPStart] is left
    out, and the events are received by a client that is always ready.  A call that
    sends its command on the channel [Shutdown] has closed panics, which ends the
    process: that is no step here, and such a call can only see the end of the
    connection.  The arguments of a command are JSON, so that marshalling them
    does not fail.  What the commands hold is in [QmpCmd.v]. *)
From S2P Require Import Prelude GoStr Qemu.

Module Qmp.
Import Qemu.

(** ** Messages *)

(** A JSON value; the numbers QEMU sends here are integers. *)
Inductive json : Type :=
| JNull
| JBool (b : bool)
| JNum (z : Z)
| JStr (s : string)
| JArr (l : list json)
| JObj (l : list (string * json)).

Definition object : Type := list (string * json).

(** [m[k]], the last binding of a key. *)
Fixpoint jget (k : string) (o : object) : option json :=
  match o with
  | [] => None
  | (k', v) :: o' => match jget k o' with Some w => Some w | None => if bool_decide (k = k') then Some v else None end
  end.

Definition as_object (j : option json) : option object := match j with Some (JObj o) => Some o | _ => None end.
Definition as_number (j : option json) : Z := match j with Some (JNum z) => z | _ => 0 end.

Record qmpEventFilter : Type := mkFilter { f_eventName : string; f_dataKey : string; f_dataValue : string }.

(** A command: the number of the call it belongs to (its result channel), the
    context of the call, and what is sent. *)
Record qmpCommand : Type := mkCommand {
  c_call : nat;
  c_ctx : nat;
  c_name : string;
  c_args : object;
  c_filter : option qmpEventFilter;
  c_resultReceived : bool;
  c_oob : list File;
}.

#[export] Instance eta_qmpCommand : Eta qmpCommand := fun r =>
  mkCommand (c_call r) (c_ctx r) (c_name r) (c_args r) (c_filter r) (c_resultReceived r) (c_oob r).

Record QMPVersion : Type := mkVersion { v_Major : Z; v_Minor : Z; v_Micro : Z; v_Capabilities : list string }.

Definition strings_of (l : list json) : list string :=
  omap (fun j => match j with JStr s => Some s | _ => None end) l.

(** [None] is the nil pointer: the line is not the greeting. *)
Definition parseVersion (line : option object) : option QMPVersion :=
  qmp ← line;
  greeting ← as_object (jget "QMP" qmp);
  version ← as_object (jget "version" greeting);
  qemu ← as_object (jget "qemu" version);
  let capabilities := match jget "capabilities" greeting with Some (JArr l) => l | _ => [] end in
  Some (mkVersion (as_number (jget "major" qemu)) (as_number (jget "minor" qemu)) (as_number (jget "micro" qemu))
    (strings_of capabilities)).

(** ** The state *)

(** The result of a command: the response, or that it failed. *)
Definition result : Type := res json.

(** A call of [executeCommandWithResponse]: at its first [select], at its
    second, or returned. *)
Inductive caller : Type :=
| Offering (c : qmpCommand)
| Waiting (c : qmpCommand)
| Returned (c : qmpCommand) (r : result).

(** Where the loop is: at its [select]; sending the result of a command that
    has left the queue, with the event that is to be passed on afterwards;
    sending the error of a command that could not be written; failing the
    commands that are left; or ended. *)
Inductive loop : Type :=
| Select
| Reply (call : nat) (r : result) (event : option string)
| Refuse (call : nat) (event : option string)
| Failing (rest : list qmpCommand)
| Ended.

Record QMP : Type := mkQMP {
  q_callers : gmap nat caller;
  q_loop : loop;
  q_queue : list qmpCommand;
  q_ready : bool;
  q_doneCh : option nat;
  q_cancelled : gset nat;
  q_cmdClosed : bool;
  q_disconnected : bool;
  q_version : option QMPVersion;
  (** the calls whose commands the loop has received, and those it has written *)
  q_accepted : list nat;
  q_asked : list nat;
  (** the commands written that QEMU has not answered yet *)
  q_written : list nat;
  (** the lines QEMU has sent; an answer carries the call it answers *)
  q_lines : list (option nat * option object);
  q_eof : bool;
  (** the lines the loop has read *)
  q_seen : list (option nat * option object);
  (** the events passed on to the client *)
  q_events : list string;
}.

#[export] Instance eta_QMP : Eta QMP := fun r =>
  mkQMP (q_callers r) (q_loop r) (q_queue r) (q_ready r) (q_doneCh r) (q_cancelled r) (q_cmdClosed r)
    (q_disconnected r) (q_version r) (q_accepted r) (q_asked r) (q_written r) (q_lines r) (q_eof r) (q_seen r)
    (q_events r).

(** ** The loop *)

Definition currentCommandDoneCh (queue : list qmpCommand) : option nat :=
  match queue with [] => None | c :: _ => Some (c_ctx c) end.

(** Back at the [select], with the context of the current command to watch. *)
Definition to_select (event : option string) (s : QMP) : QMP :=
  s <| q_loop := Select |> <| q_doneCh := currentCommandDoneCh (q_queue s) |>
    <| q_events ::= fun l => l ++ match event with Some e => [e] | None => [] end |>.

(** [writeNextQMPCommand]; [ok] says whether the write to the socket succeeds.
    The error of a command is sent before it leaves the queue. *)
Definition writeNextQMPCommand (ok : bool) (event : option string) (s : QMP) : QMP :=
  match q_queue s with
  | [] => s
  | c :: _ =>
      if ok then
        to_select event (s <| q_written ::= fun l => l ++ [c_call c] |> <| q_asked ::= fun l => l ++ [c_call c] |>)
      else s <| q_loop := Refuse (c_call c) event |>
  end.

(** The end of [finaliseCommandWithResponse]. *)
Definition next_command (ok : bool) (event : option string) (s : QMP) : QMP :=
  match q_queue s with [] => to_select event s | _ => writeNextQMPCommand ok event s end.

Definition result_of (succeeded : bool) (response : json) : result :=
  if succeeded then Ok response
  else Err (Errorf ("QMP command failed: " +:+ match response with JStr d => d | _ => "<nil>" end)).

(** The current command is done: it leaves the queue, and unless its context is
    cancelled its result is sent. *)
Definition finaliseCommandWithResponse (ok : bool) (succeeded : bool) (response : json) (event : option string)
    (s : QMP) : QMP :=
  match q_queue s with
  | [] => s
  | c :: queue =>
      let s := s <| q_queue := queue |> in
      if bool_decide (c_ctx c ∈ q_cancelled s) then next_command ok event s
      else s <| q_loop := Reply (c_call c) (result_of succeeded response) event |>
  end.

Definition finaliseCommand (ok succeeded : bool) (event : option string) (s : QMP) : QMP :=
  finaliseCommandWithResponse ok succeeded JNull event s.

(** [cmd.filter = nil], [cmd.resultReceived = true] on the current command. *)
Definition on_current (f : qmpCommand -> qmpCommand) (s : QMP) : QMP :=
  s <| q_queue ::= fun q => match q with [] => [] | c :: q' => f c :: q' end |>.

(** Whether an event is the one a command waits for. *)
Definition event_matches (f : qmpEventFilter) (name : string) (data : option object) : bool :=
  bool_decide (f_eventName f = name) &&
  (bool_decide (f_dataKey f = "") ||
   match data with
   | Some d => match jget (f_dataKey f) d with Some (JStr v) => bool_decide (v = f_dataValue f) | _ => false end
   | None => false
   end).

Definition processQMPEvent (ok : bool) (name data : option json) (s : QMP) : QMP :=
  match name with
  | Some (JStr strname) =>
      match q_queue s with
      | c :: _ =>
          match c_filter c with
          | Some f =>
              if event_matches f strname (as_object data) then
                if c_resultReceived c then finaliseCommand ok true (Some strname) s
                else to_select (Some strname) (on_current (fun c => c <| c_filter := None |>) s)
              else to_select (Some strname) s
          | None => to_select (Some strname) s
          end
      | [] => to_select (Some strname) s
      end
  | _ => to_select None s
  end.

(** The description of an error, [qmpErr["desc"]]; [None] when the object is not
    a map of strings.  A null is read as the nil map, and as the empty string. *)
Definition errorDesc (errorData : json) : option string :=
  match errorData with
  | JNull => Some ""
  | JObj o =>
      if forallb (fun kv => match kv.2 with JStr _ | JNull => true | _ => false end) o then
        Some (match jget "desc" o with Some (JStr d) => d | _ => "" end)
      else None
  | _ => None
  end.

Definition processQMPInput (ok : bool) (line : option object) (s : QMP) : QMP :=
  match line with
  | None => to_select None s
  | Some vmData =>
      match jget "event" vmData with
      | Some ev => processQMPEvent ok (Some ev) (jget "data" vmData) s
      | None =>
          let succeeded := jget "return" vmData in
          let failed := jget "error" vmData in
          if bool_decide (succeeded = None) && bool_decide (failed = None) then to_select None s
          else
            match q_queue s with
            | [] => to_select None s
            | c :: _ =>
                if bool_decide (failed <> None) || bool_decide (c_filter c = None) then
                  let response := match failed ≫= errorDesc with Some d => JStr d | None => default JNull succeeded end in
                  finaliseCommandWithResponse ok (bool_decide (succeeded <> None)) response None s
                else to_select None (on_current (fun c => c <| c_resultReceived := true |>) s)
            end
      end
  end.

Definition cancelCurrentCommand (ok : bool) (s : QMP) : QMP :=
  match q_queue s with
  | [] => s
  | c :: _ =>
      if c_resultReceived c then finaliseCommand ok false None s
      else to_select None (on_current (fun c => c <| c_filter := None |>) s)
  end.

(** A line that arrives before the greeting is dropped. *)
Definition read_line (ok : bool) (line : option object) (s : QMP) : QMP :=
  if q_ready s then processQMPInput ok line s
  else
    match parseVersion line with
    | Some v => s <| q_version := Some v |> <| q_ready := true |>
    | None => s
    end.

(** A new command is written at once when no other one is in the queue. *)
Definition accept (ok : bool) (c : qmpCommand) (s : QMP) : QMP :=
  let s := s <| q_queue ::= fun q => q ++ [c] |> <| q_accepted ::= fun l => l ++ [c_call c] |> in
  if q_ready s && bool_decide (length (q_queue s) = 1%nat) then writeNextQMPCommand ok None s else s.

(** The deferred function of [mainLoop]: the socket is closed and the commands
    in the queue fail, one after the other. *)
Definition leave_loop (s : QMP) : QMP := s <| q_loop := Failing (q_queue s) |> <| q_eof := true |>.

(** ** Steps *)

Definition cancelled_err : error := Errorf "exitting QMP loop, command cancelled".
Definition write_err : error := Errorf "unable to write command to qmp socket".
Definition ctx_err : error := ErrExternal "context canceled".

(** An answer to a command holds either [return] or [error]; everything else
    QEMU sends is an event or the greeting. *)
Definition has (k : string) (o : object) : bool := bool_decide (jget k o <> None).
Definition is_answer (o : object) : bool := negb (has "event" o) && xorb (has "return" o) (has "error" o).
Definition is_other (o : object) : bool := has "event" o || negb (has "return" o || has "error" o).

Inductive action : Type :=
(** a call starts; a context is cancelled; the client is shut down *)
| Call (call ctx : nat) (name : string) (args : object) (filter : option qmpEventFilter) (oob : list File)
| Cancel (ctx : nat)
| Shutdown
(** the loop receives a command, a line, the end of a context, the end of the
    commands or of the lines; its send meets the caller *)
| Accept (call : nat) (ok : bool)
| Line (ok : bool)
| ContextDone (ok : bool)
| NoMoreCommands
| NoMoreLines
| Deliver (ok : bool)
(** a command that is left fails, or its context is done; the loop ends *)
| FailCommand
| SkipCommand
| EndLoop
(** a caller sees the end of the connection or of its context *)
| SeeEnd (call : nat)
| SeeDone (call : nat)
(** QEMU answers the next command, sends something else, or hangs up *)
| Answer (o : object)
| Emit (line : option object)
| HangUp.

Definition return_to (call : nat) (r : result) (s : QMP) : QMP :=
  s <| q_callers ::= alter (fun p => match p with Offering c | Waiting c | Returned c _ => Returned c r end) call |>.

Definition waits (call : nat) (s : QMP) : bool :=
  match q_callers s !! call with Some (Waiting _) => true | _ => false end.

(** The loop is at its [select]. *)
Definition selecting (s : QMP) (next : QMP) : option QMP :=
  match q_loop s with Select => Some next | _ => None end.

Definition step (a : action) (s : QMP) : option QMP :=
  match a with
  | Call call ctx name args filter oob =>
      match q_callers s !! call with
      | Some _ => None
      | None => Some (s <| q_callers ::= <[call := Offering (mkCommand call ctx name args filter false oob)]> |>)
      end
  | Cancel ctx => Some (s <| q_cancelled ::= fun l => {[ctx]} ∪ l |>)
  | Shutdown => if q_cmdClosed s then None else Some (s <| q_cmdClosed := true |>)
  | Accept call ok =>
      match q_callers s !! call with
      | Some (Offering c) =>
          if q_cmdClosed s then None else
          selecting s (accept ok c (s <| q_callers ::= <[call := Waiting c]> |>))
      | _ => None
      end
  | Line ok =>
      match q_lines s with
      | (tag, line) :: lines =>
          selecting s (read_line ok line (s <| q_lines := lines |> <| q_seen ::= fun l => l ++ [(tag, line)] |>))
      | [] => None
      end
  | ContextDone ok =>
      match q_doneCh s with
      | Some ctx => if bool_decide (ctx ∈ q_cancelled s) then selecting s (cancelCurrentCommand ok s) else None
      | None => None
      end
  | NoMoreCommands => if q_cmdClosed s then selecting s (leave_loop s) else None
  | NoMoreLines => if q_eof s && bool_decide (q_lines s = []) then selecting s (leave_loop s) else None
  | Deliver ok =>
      match q_loop s with
      | Reply call r event =>
          if waits call s then Some (next_command ok event (return_to call r s)) else None
      | Refuse call event =>
          if waits call s then
            Some (to_select event (return_to call (Err write_err) (s <| q_queue ::= tail |>)))
          else None
      | _ => None
      end
  | FailCommand =>
      match q_loop s with
      | Failing (c :: rest) =>
          if waits (c_call c) s then
            Some (return_to (c_call c) (Err cancelled_err) (s <| q_loop := Failing rest |>))
          else None
      | _ => None
      end
  | SkipCommand =>
      match q_loop s with
      | Failing (c :: rest) =>
          if bool_decide (c_ctx c ∈ q_cancelled s) then Some (s <| q_loop := Failing rest |>) else None
      | _ => None
      end
  | EndLoop =>
      match q_loop s with
      | Failing [] => Some (s <| q_loop := Ended |> <| q_disconnected := true |>)
      | _ => None
      end
  | SeeEnd call =>
      match q_callers s !! call with
      | Some (Offering _) => if q_disconnected s then Some (return_to call (Err cancelled_err) s) else None
      | _ => None
      end
  | SeeDone call =>
      match q_callers s !! call with
      | Some (Waiting c) =>
          if bool_decide (c_ctx c ∈ q_cancelled s) then Some (return_to call (Err ctx_err) s) else None
      | _ => None
      end
  | Answer o =>
      match q_written s with
      | call :: written =>
          if is_answer o && negb (q_eof s) then
            Some (s <| q_written := written |> <| q_lines ::= fun l => l ++ [(Some call, Some o)] |>)
          else None
      | [] => None
      end
  | Emit line =>
      if (match line with Some o => is_other o | None => true end) && negb (q_eof s) then
        Some (s <| q_lines ::= fun l => l ++ [(None, line)] |>)
      else None
  | HangUp => if q_eof s then None else Some (s <| q_eof := true |>)
  end.

(** [startQMPLoop]: a connection that has just been made. *)
Definition startQMPLoop : QMP :=
  mkQMP ∅ Select [] false None ∅ false false None [] [] [] [] false [] [].

Fixpoint steps (l : list action) (s : QMP) : option QMP :=
  match l with
  | [] => Some s
  | a :: l' => s' ← step a s; steps l' s'
  end.

Definition reachable (s : QMP) : Prop := exists l, steps l startQMPLoop = Some s.

End Qmp.
