(* ===== verification/QmpCmd.v ===== *)
(** * The QMP commands

    The [Execute] methods of [pkg/govmm/qemu/qmp.go]: what each of them sends,
    and how its answer is read.  What QEMU answers is a function of the commands
    sent before, with their answers ([QmpServer]); that each call gets the answer
    to its own command is proved of the loop in [QmpSpec.v].  Contexts and log
    messages are left out. *)
From S2P Require Import Prelude GoStr Qemu Qmp.

Module QmpCmd.
Import Qemu Qmp.

Record request : Type := mkRequest {
  r_name : string;
  r_args : object;
  r_oob : list File;
  r_filter : option qmpEventFilter;
}.

(** What becomes of a connection: it is refused, the context is cancelled or
    the connection lost before the greeting, or the greeting comes. *)
Inductive connection : Type :=
| Refused (e : error)
| Cancelled
| Lost
| Greeting (version : QMPVersion).

(** The connections made and the commands sent, with their results. *)
Inductive entry : Type :=
| Dialled (socket : string) (c : connection)
| Sent (r : request) (res : result).
Definition history : Type := list entry.

Class QmpServer : Type := {
  dial : history -> string -> connection;
  reply : history -> request -> result;
}.

Definition QMPStart `{QmpServer} (socket : string) : M history QMPVersion := fun h =>
  let c := dial h socket in
  (match c with
   | Refused e => Err e
   | Cancelled => Err (Errorf "canceled by caller")
   | Lost => Err (Errorf "lost connection to VM")
   | Greeting version =>
       if v_Major version <? 5
       then Err (Errorf "govmm requires qemu version 5.0 or later, this is qemu (%d.%d)")
       else Ok version
   end, h ++ [Dialled socket c]).

(** ** Reading an answer

    [json.Marshal] followed by [json.Unmarshal] into a structure: a field that
    is missing or null keeps its zero value, one of another type is an error. *)
Class FromJson (A : Type) : Type := { zero : A; from_json : json -> res A }.

Definition type_error {A} : res A := Err (ErrExternal "json: cannot unmarshal").

#[export] Instance string_from_json : FromJson string :=
  {| zero := ""; from_json j := match j with JStr s => Ok s | _ => type_error end |}.
#[export] Instance bool_from_json : FromJson bool :=
  {| zero := false; from_json j := match j with JBool b => Ok b | _ => type_error end |}.

(** [int] and [int64]. *)
#[export] Instance int_from_json : FromJson Z :=
  {| zero := 0;
     from_json j := match j with JNum z => if (- 2 ^ 63 <=? z) && (z <? 2 ^ 63) then Ok z else type_error
                    | _ => type_error end |}.

Definition uint_from_json (j : json) : res Z :=
  match j with JNum z => if (0 <=? z) && (z <? 2 ^ 64) then Ok z else type_error | _ => type_error end.

Definition field_with {A} (z : A) (read : json -> res A) (k : string) (o : object) : res A :=
  match jget k o with
  | None | Some JNull => Ok z
  | Some j => read j
  end.
Definition field {A} `{FromJson A} (k : string) (o : object) : res A := field_with zero from_json k o.
Definition uint_field (k : string) (o : object) : res Z := field_with 0 uint_from_json k o.

(** A structure, and a list; a null leaves the zero value. *)
Definition struct_from {A} (z : A) (read : object -> res A) (j : json) : res A :=
  match j with JObj o => read o | JNull => Ok z | _ => type_error end.
Fixpoint list_from_go {A} (read : json -> res A) (l : list json) : res (list A) :=
  match l with
  | [] => Ok []
  | j :: l' => x ← read j; xs ← list_from_go read l'; Ok (x :: xs)
  end.
Definition list_from {A} (read : json -> res A) (j : json) : res (list A) :=
  match j with JArr l => list_from_go read l | JNull => Ok [] | _ => type_error end.

Record CPUProperties : Type := mkCPUProperties { cp_Node : Z; cp_Socket : Z; cp_Die : Z; cp_Core : Z; cp_Thread : Z }.

#[export] Instance CPUProperties_from_json : FromJson CPUProperties :=
  {| zero := mkCPUProperties 0 0 0 0 0;
     from_json := struct_from (mkCPUProperties 0 0 0 0 0) (fun o =>
       node ← field "node-id" o; socket ← field "socket-id" o; die ← field "die-id" o;
       core ← field "core-id" o; thread ← field "thread-id" o;
       Ok (mkCPUProperties node socket die core thread)) |}.

Record HotpluggableCPU : Type := mkHotpluggableCPU {
  hp_Type : string;
  hp_VcpusCount : Z;
  hp_Properties : CPUProperties;
  hp_QOMPath : string;
}.

#[export] Instance HotpluggableCPU_from_json : FromJson HotpluggableCPU :=
  {| zero := mkHotpluggableCPU "" 0 zero "";
     from_json := struct_from (mkHotpluggableCPU "" 0 zero "") (fun o =>
       type ← field "type" o; count ← field "vcpus-count" o; props ← field "props" o; qom ← field "qom-path" o;
       Ok (mkHotpluggableCPU type count props qom)) |}.

Record MemoryDevicesData : Type := mkMemoryDevicesData {
  mq_Slot : Z;
  mq_Node : Z;
  mq_Addr : Z;
  mq_Memdev : string;
  mq_ID : string;
  mq_Hotpluggable : bool;
  mq_Hotplugged : bool;
  mq_Size : Z;
}.

#[export] Instance MemoryDevicesData_from_json : FromJson MemoryDevicesData :=
  {| zero := mkMemoryDevicesData 0 0 0 "" "" false false 0;
     from_json := struct_from (mkMemoryDevicesData 0 0 0 "" "" false false 0) (fun o =>
       slot ← field "slot" o; node ← field "node" o; addr ← uint_field "addr" o; memdev ← field "memdev" o;
       id ← field "id" o; pluggable ← field "hotpluggable" o; plugged ← field "hotplugged" o; size ← uint_field "size" o;
       Ok (mkMemoryDevicesData slot node addr memdev id pluggable plugged size)) |}.

Record MemoryDevices : Type := mkMemoryDevices { mq_Data : MemoryDevicesData; mq_Type : string }.

#[export] Instance MemoryDevices_from_json : FromJson MemoryDevices :=
  {| zero := mkMemoryDevices zero "";
     from_json := struct_from (mkMemoryDevices zero "") (fun o =>
       data ← field "data" o; type ← field "type" o; Ok (mkMemoryDevices data type)) |}.

Record CPUInfo : Type := mkCPUInfo {
  ci_CPU : Z;
  ci_Current : bool;
  ci_Halted : bool;
  ci_QomPath : string;
  ci_Arch : string;
  ci_Pc : Z;
  ci_ThreadID : Z;
  ci_Props : CPUProperties;
}.

#[export] Instance CPUInfo_from_json : FromJson CPUInfo :=
  {| zero := mkCPUInfo 0 false false "" "" 0 0 zero;
     from_json := struct_from (mkCPUInfo 0 false false "" "" 0 0 zero) (fun o =>
       cpu ← field "CPU" o; current ← field "current" o; halted ← field "halted" o; qom ← field "qom_path" o;
       arch ← field "arch" o; pc ← field "pc" o; thread ← field "thread_id" o; props ← field "props" o;
       Ok (mkCPUInfo cpu current halted qom arch pc thread props)) |}.

Record CPUInfoFast : Type := mkCPUInfoFast {
  cf_CPUIndex : Z;
  cf_QomPath : string;
  cf_Arch : string;
  cf_ThreadID : Z;
  cf_Target : string;
  cf_Props : CPUProperties;
}.

#[export] Instance CPUInfoFast_from_json : FromJson CPUInfoFast :=
  {| zero := mkCPUInfoFast 0 "" "" 0 "" zero;
     from_json := struct_from (mkCPUInfoFast 0 "" "" 0 "" zero) (fun o =>
       cpu ← field "cpu-index" o; qom ← field "qom-path" o; arch ← field "arch" o; thread ← field "thread-id" o;
       target ← field "target" o; props ← field "props" o;
       Ok (mkCPUInfoFast cpu qom arch thread target props)) |}.

Record MigrationRAM : Type := mkMigrationRAM {
  mr_Total : Z;
  mr_Remaining : Z;
  mr_Transferred : Z;
  mr_TotalTime : Z;
  mr_SetupTime : Z;
  mr_ExpectedDowntime : Z;
  mr_Duplicate : Z;
  mr_Normal : Z;
  mr_NormalBytes : Z;
  mr_DirtySyncCount : Z;
}.

#[export] Instance MigrationRAM_from_json : FromJson MigrationRAM :=
  {| zero := mkMigrationRAM 0 0 0 0 0 0 0 0 0 0;
     from_json := struct_from (mkMigrationRAM 0 0 0 0 0 0 0 0 0 0) (fun o =>
       total ← field "total" o; remaining ← field "remaining" o; transferred ← field "transferred" o;
       time ← field "total-time" o; setup ← field "setup-time" o; downtime ← field "expected-downtime" o;
       duplicate ← field "duplicate" o; normal ← field "normal" o; bytes ← field "normal-bytes" o;
       syncs ← field "dirty-sync-count" o;
       Ok (mkMigrationRAM total remaining transferred time setup downtime duplicate normal bytes syncs)) |}.

Record MigrationDisk : Type := mkMigrationDisk { mi_Total : Z; mi_Remaining : Z; mi_Transferred : Z }.

#[export] Instance MigrationDisk_from_json : FromJson MigrationDisk :=
  {| zero := mkMigrationDisk 0 0 0;
     from_json := struct_from (mkMigrationDisk 0 0 0) (fun o =>
       total ← field "total" o; remaining ← field "remaining" o; transferred ← field "transferred" o;
       Ok (mkMigrationDisk total remaining transferred)) |}.

Record MigrationXbzrleCache : Type := mkMigrationXbzrleCache {
  mx_CacheSize : Z;
  mx_Bytes : Z;
  mx_Pages : Z;
  mx_CacheMiss : Z;
  mx_CacheMissRate : Z;
  mx_Overflow : Z;
}.

#[export] Instance MigrationXbzrleCache_from_json : FromJson MigrationXbzrleCache :=
  {| zero := mkMigrationXbzrleCache 0 0 0 0 0 0;
     from_json := struct_from (mkMigrationXbzrleCache 0 0 0 0 0 0) (fun o =>
       size ← field "cache-size" o; bytes ← field "bytes" o; pages ← field "pages" o; miss ← field "cache-miss" o;
       rate ← field "cache-miss-rate" o; overflow ← field "overflow" o;
       Ok (mkMigrationXbzrleCache size bytes pages miss rate overflow)) |}.

(** A [map[string]interface{}]. *)
#[export] Instance object_from_json : FromJson object :=
  {| zero := []; from_json := struct_from [] Ok |}.

Record MigrationStatus : Type := mkMigrationStatus {
  ms_Status : string;
  ms_Capabilities : list object;
  ms_RAM : MigrationRAM;
  ms_Disk : MigrationDisk;
  ms_XbzrleCache : MigrationXbzrleCache;
}.

#[export] Instance MigrationStatus_from_json : FromJson MigrationStatus :=
  {| zero := mkMigrationStatus "" [] zero zero zero;
     from_json := struct_from (mkMigrationStatus "" [] zero zero zero) (fun o =>
       status ← field "status" o; caps ← field_with [] (list_from from_json) "capabilities" o; ram ← field "ram" o;
       disk ← field "disk" o; cache ← field "xbzrle-cache" o;
       Ok (mkMigrationStatus status caps ram disk cache)) |}.

Record SchemaInfo : Type := mkSchemaInfo { si_MetaType : string; si_Name : string }.

#[export] Instance SchemaInfo_from_json : FromJson SchemaInfo :=
  {| zero := mkSchemaInfo "" "";
     from_json := struct_from (mkSchemaInfo "" "") (fun o =>
       meta ← field "meta-type" o; name ← field "name" o; Ok (mkSchemaInfo meta name)) |}.

Record StatusInfo : Type := mkStatusInfo { st_Running : bool; st_SingleStep : bool; st_Status : string }.

#[export] Instance StatusInfo_from_json : FromJson StatusInfo :=
  {| zero := mkStatusInfo false false "";
     from_json := struct_from (mkStatusInfo false false "") (fun o =>
       running ← field "running" o; step ← field "singlestep" o; status ← field "status" o;
       Ok (mkStatusInfo running step status)) |}.

(** ** Sending a command *)
Section Commands.
Context `{GoArch, QmpServer}.

Definition executeCommandWithResponse (name : string) (args : object) (oob : list File)
    (filter : option qmpEventFilter) : M history json := fun h =>
  let r := mkRequest name args oob filter in (reply h r, h ++ [Sent r (reply h r)]).

Definition executeCommand (name : string) (args : object) (filter : option qmpEventFilter) : M history unit :=
  _ ← executeCommandWithResponse name args [] filter; mret tt.

Definition ExecuteQMPCapabilities : M history unit := executeCommand "qmp_capabilities" [] None.
Definition ExecuteStop : M history unit := executeCommand "stop" [] None.
Definition ExecuteCont : M history unit := executeCommand "cont" [] None.
Definition ExecuteSystemPowerdown : M history unit :=
  executeCommand "system_powerdown" [] (Some (mkFilter "POWERDOWN" "" "")).
Definition ExecuteQuit : M history unit := executeCommand "quit" [] None.

(** An argument that is sent under a condition. *)
Definition arg_if (b : bool) (k : string) (v : json) : object := if b then [(k, v)] else [].
Definition arg_given (k v : string) : object := arg_if (given v) k (JStr v).

(** ** Block devices *)

(** The two maps [blockdevAddBaseArgs] returns are the same one. *)
Definition blockdevAddBaseArgs (driver device blockdevID : string) (ro : bool) : object :=
  [("driver", JStr "raw"); ("read-only", JBool ro);
   ("file", JObj [("driver", JStr driver); ("filename", JStr device)]); ("node-name", JStr blockdevID)].

Definition ExecuteBlockdevAdd (device blockdevID : string) (ro : bool) : M history unit :=
  executeCommand "blockdev-add" (blockdevAddBaseArgs "host_device" device blockdevID ro) None.

Definition ExecuteBlockdevAddWithDriverCache (driver device blockdevID : string) (direct noFlush ro : bool) :
    M history unit :=
  executeCommand "blockdev-add"
    (blockdevAddBaseArgs driver device blockdevID ro ++
     [("cache", JObj [("direct", JBool direct); ("no-flush", JBool noFlush)])]) None.

Definition ExecuteBlockdevAddWithCache (device blockdevID : string) (direct noFlush ro : bool) : M history unit :=
  executeCommand "blockdev-add"
    (blockdevAddBaseArgs "host_device" device blockdevID ro ++
     [("cache", JObj [("direct", JBool direct); ("no-flush", JBool noFlush)])]) None.

(** The transport is the zero value, with no configuration: the one of the
    architecture. *)
Definition pci_transport : bool := isVirtioPCI "" None.
Definition ccw_transport : bool := isVirtioCCW "" None.

Definition rom_args (romfile : string) (disableModern : bool) : object :=
  if pci_transport then ("romfile", JStr romfile) :: arg_if disableModern "disable-modern" (JBool true) else [].

Definition ExecuteDeviceAdd (blockdevID devID driver bus romfile : string) (shared disableModern : bool) :
    M history unit :=
  executeCommand "device_add"
    ([("id", JStr devID); ("driver", JStr driver); ("drive", JStr blockdevID)]
     ++ (if ccw_transport then [("devno", JStr bus)] else arg_given "bus" bus)
     ++ arg_if shared "share-rw" (JStr "on") ++ rom_args romfile disableModern) None.

Definition ExecuteSCSIDeviceAdd (blockdevID devID driver bus romfile : string) (scsiID lun : Z)
    (shared disableModern : bool) : M history unit :=
  if negb (bool_decide (driver ∈ ["scsi-hd"; "scsi-cd"; "scsi-disk"])) then
    throw (Errorf "invalid SCSI driver provided %s")
  else
    executeCommand "device_add"
      ([("id", JStr devID); ("driver", JStr driver); ("drive", JStr blockdevID); ("bus", JStr bus)]
       ++ arg_if (0 <=? scsiID) "scsi-id" (JNum scsiID) ++ arg_if (0 <=? lun) "lun" (JNum lun)
       ++ arg_if shared "share-rw" (JStr "on")) None.

Definition ExecuteBlockdevDel (blockdevID : string) : M history unit :=
  executeCommand "blockdev-del" [("node-name", JStr blockdevID)] None.

Definition ExecuteChardevDel (chardevID : string) : M history unit :=
  executeCommand "chardev-remove" [("id", JStr chardevID)] None.

(** ** Network devices *)

Definition ExecuteNetdevAdd (netdevType netdevID ifname downscript script : string) (queues : Z) : M history unit :=
  executeCommand "netdev_add"
    ([("type", JStr netdevType); ("id", JStr netdevID); ("ifname", JStr ifname); ("downscript", JStr downscript);
      ("script", JStr script)] ++ arg_if (1 <? queues) "queues" (JNum queues)) None.

Definition ExecuteNetdevChardevAdd (netdevType netdevID chardev : string) (queues : Z) : M history unit :=
  executeCommand "netdev_add"
    ([("type", JStr netdevType); ("id", JStr netdevID); ("chardev", JStr chardev)]
     ++ arg_if (1 <? queues) "queues" (JNum queues)) None.

Definition ExecuteNetdevAddByFds (netdevType netdevID : string) (fdNames vhostFdNames : list string) : M history unit :=
  executeCommand "netdev_add"
    ([("type", JStr netdevType); ("id", JStr netdevID); ("fds", JStr (Join ":" fdNames))]
     ++ (if bool_decide (vhostFdNames = []) then []
         else [("vhost", JBool true); ("vhostfds", JStr (Join ":" vhostFdNames))])) None.

Definition ExecuteNetdevDel (netdevID : string) : M history unit :=
  executeCommand "netdev_del" [("id", JStr netdevID)] None.

Definition ExecuteNetPCIDeviceAdd (netdevID devID macAddr addr bus romfile : string) (queues : Z)
    (disableModern : bool) : M history unit :=
  executeCommand "device_add"
    ([("id", JStr devID); ("driver", JStr "virtio-net-pci"); ("romfile", JStr romfile)]
     ++ arg_given "bus" bus ++ arg_given "addr" addr ++ arg_given "mac" macAddr ++ arg_given "netdev" netdevID
     ++ arg_if disableModern "disable-modern" (JBool true)
     ++ (if 0 <? queues then [("mq", JStr "on"); ("vectors", JNum (i64 (2 * queues + 2)))] else [])) None.

Definition ExecuteNetCCWDeviceAdd (netdevID devID macAddr bus : string) (queues : Z) : M history unit :=
  executeCommand "device_add"
    ([("id", JStr devID); ("driver", JStr "virtio-net-ccw"); ("netdev", JStr netdevID); ("mac", JStr macAddr);
      ("devno", JStr bus)] ++ arg_if (0 <? queues) "mq" (JStr "on")) None.

(** ** Devices on the PCI bus *)

(** The caller waits until QEMU says that the device is gone. *)
Definition ExecuteDeviceDel (devID : string) : M history unit :=
  executeCommand "device_del" [("id", JStr devID)] (Some (mkFilter "DEVICE_DELETED" "device" devID)).

Definition ExecutePCIDeviceAdd (blockdevID devID driver addr bus romfile : string) (queues : Z)
    (shared disableModern : bool) : M history unit :=
  executeCommand "device_add"
    ([("id", JStr devID); ("driver", JStr driver); ("drive", JStr blockdevID); ("addr", JStr addr)]
     ++ arg_given "bus" bus ++ arg_if shared "share-rw" (JStr "on")
     ++ arg_if (0 <? queues) "num-queues" (JStr (Itoa queues)) ++ rom_args romfile disableModern) None.

Definition ExecutePCIVhostUserDevAdd (driver devID chardevID addr bus : string) : M history unit :=
  executeCommand "device_add"
    ([("driver", JStr driver); ("id", JStr devID); ("chardev", JStr chardevID); ("addr", JStr addr)]
     ++ arg_given "bus" bus) None.

Definition ExecuteVFIODeviceAdd (devID bdf bus romfile : string) : M history unit :=
  executeCommand "device_add"
    ([("id", JStr devID); ("driver", JStr (if ccw_transport then "vfio-ccw" else "vfio-pci")); ("host", JStr bdf);
      ("romfile", JStr romfile)] ++ arg_given "bus" bus) None.

Definition ExecutePCIVFIODeviceAdd (devID bdf addr bus romfile : string) : M history unit :=
  executeCommand "device_add"
    ([("id", JStr devID); ("driver", JStr "vfio-pci"); ("host", JStr bdf); ("addr", JStr addr);
      ("romfile", JStr romfile)] ++ arg_given "bus" bus) None.

Definition ExecutePCIVFIOMediatedDeviceAdd (devID sysfsdev addr bus romfile : string) : M history unit :=
  executeCommand "device_add"
    ([("id", JStr devID); ("driver", JStr "vfio-pci"); ("sysfsdev", JStr sysfsdev); ("romfile", JStr romfile)]
     ++ arg_given "bus" bus ++ arg_given "addr" addr) None.

Definition ExecuteAPVFIOMediatedDeviceAdd (sysfsdev : string) : M history unit :=
  executeCommand "device_add" [("driver", JStr "vfio-ap"); ("sysfsdev", JStr sysfsdev)] None.

Definition ExecutePCIVSockAdd (id guestCID vhostfd addr bus romfile : string) (disableModern : bool) : M history unit :=
  executeCommand "device_add"
    ([("driver", JStr "vhost-vsock-pci"); ("id", JStr id); ("guest-cid", JStr guestCID); ("vhostfd", JStr vhostfd);
      ("addr", JStr addr); ("romfile", JStr romfile)]
     ++ arg_given "bus" bus ++ arg_if disableModern "disable-modern" (JBool true)) None.

Definition ExecuteVirtSerialPortAdd (id name chardev : string) : M history unit :=
  executeCommand "device_add"
    [("driver", JStr "virtserialport"); ("id", JStr id); ("name", JStr name); ("chardev", JStr chardev)] None.

(** ** Processors *)

Definition isSocketIDSupported (driver : string) : bool :=
  negb (bool_decide (driver = "host-s390x-cpu") || bool_decide (driver = "host-powerpc64-cpu")).
Definition isThreadIDSupported (driver : string) : bool :=
  negb (bool_decide (driver = "host-s390x-cpu") || bool_decide (driver = "host-powerpc64-cpu")).
Definition isDieIDSupported (driver : string) : bool := bool_decide (driver = "host-x86_64-cpu").

Definition ExecuteCPUDeviceAdd (driver cpuID socketID dieID coreID threadID romfile : string) : M history unit :=
  executeCommand "device_add"
    ([("driver", JStr driver); ("id", JStr cpuID); ("core-id", JStr coreID)]
     ++ arg_if (given socketID && isSocketIDSupported driver) "socket-id" (JStr socketID)
     ++ arg_if (given threadID && isThreadIDSupported driver) "thread-id" (JStr threadID)
     ++ arg_if (isDieIDSupported driver && given dieID) "die-id" (JStr dieID)) None.

(** A command whose answer is read into a value. *)
Definition query {A} (name : string) (read : json -> res A) : M history A :=
  response ← executeCommandWithResponse name [] [] None; lift (read response).

Definition ExecuteQueryHotpluggableCPUs : M history (list HotpluggableCPU) :=
  query "query-hotpluggable-cpus" (list_from from_json).
Definition ExecQueryMemoryDevices : M history (list MemoryDevices) := query "query-memory-devices" (list_from from_json).
Definition ExecQueryCpus : M history (list CPUInfo) := query "query-cpus" (list_from from_json).
Definition ExecQueryCpusFast : M history (list CPUInfoFast) := query "query-cpus-fast" (list_from from_json).
Definition ExecuteQueryMigration : M history MigrationStatus := query "query-migrate" from_json.
Definition ExecQueryQmpSchema : M history (list SchemaInfo) := query "query-qmp-schema" (list_from from_json).
Definition ExecuteQueryStatus : M history StatusInfo := query "query-status" from_json.

(** ** Migration *)

Definition ExecSetMigrationCaps (caps : list object) : M history unit :=
  executeCommand "migrate-set-capabilities" [("capabilities", JArr (JObj <$> caps))] None.
Definition ExecSetMigrateArguments (url : string) : M history unit := executeCommand "migrate" [("uri", JStr url)] None.
Definition ExecuteMigrationIncoming (uri : string) : M history unit :=
  executeCommand "migrate-incoming" [("uri", JStr uri)] None.

(** ** Memory *)

(** The back end is removed again when the device cannot be added; the error
    returned is the one of the device, the result being set before the deferred
    function runs. *)
Definition ExecMemdevAdd (qomtype id mempath : string) (size : Z) (share : bool) (driver driverID addr bus : string) :
    M history unit :=
  _ ← executeCommand "object-add"
        ([("qom-type", JStr qomtype); ("id", JStr id); ("size", JNum (u64 (Z.shiftl (u64 size) 20)))]
         ++ arg_given "mem-path" mempath ++ arg_if share "share" (JBool true)) None;
  on_error
    (executeCommand "device_add"
       ([("driver", JStr driver); ("id", JStr driverID); ("memdev", JStr id)]
        ++ arg_given "bus" bus ++ arg_given "addr" addr) None)
    (executeCommand "object-del" [("id", JStr id)] None).

Definition ExecHotplugMemory (qomtype id mempath : string) (size : Z) (share : bool) : M history unit :=
  ExecMemdevAdd qomtype id mempath size share "pc-dimm" ("dimm" +:+ id) "" "".

Definition ExecuteNVDIMMDeviceAdd (id mempath : string) (size : Z) (pmem : option bool) : M history unit :=
  _ ← executeCommand "object-add"
        ([("qom-type", JStr "memory-backend-file"); ("id", JStr ("nvdimmbackmem" +:+ id)); ("mem-path", JStr mempath);
          ("size", JNum size); ("share", JBool true)]
         ++ match pmem with Some b => [("pmem", JBool b)] | None => [] end) None;
  on_error
    (executeCommand "device_add"
       [("driver", JStr "nvdimm"); ("id", JStr ("nvdimm" +:+ id)); ("memdev", JStr ("nvdimmbackmem" +:+ id))] None)
    (executeCommand "object-del" [("id", JStr ("nvdimmbackmem" +:+ id))] None).

Definition ExecuteBalloon (bytes : Z) : M history unit := executeCommand "balloon" [("value", JNum bytes)] None.

(** ** Files, character devices and properties *)

Definition ExecuteGetFD (fdname : string) (fd : File) : M history unit :=
  _ ← executeCommandWithResponse "getfd" [("fdname", JStr fdname)] [fd] None; mret tt.

Definition ExecuteCharDevUnixSocketAdd (id path : string) (wait server : bool) : M history unit :=
  let data := [("server", JBool server);
               ("addr", JObj [("type", JStr "unix"); ("data", JObj [("path", JStr path)])])]
              ++ arg_if server "wait" (JBool wait) in
  executeCommand "chardev-add"
    [("id", JStr id); ("backend", JObj [("type", JStr "socket"); ("data", JObj data)])] None.

Definition ExecQomSet (path property : string) (value : Z) : M history unit :=
  executeCommand "qom-set" [("path", JStr path); ("property", JStr property); ("value", JNum value)] None.

Definition ExecQomGet (path property : string) : M history json :=
  executeCommandWithResponse "qom-get" [("path", JStr path); ("property", JStr property)] [] None.

Definition ExecuteDumpGuestMemory (protocol : string) (paging : bool) (format : string) : M history unit :=
  executeCommand "dump-guest-memory" [("protocol", JStr protocol); ("paging", JBool paging); ("format", JStr format)] None.

End Commands.

End QmpCmd.
