(* ===== verification/QmpSpec.v ===== *)
(** * One command at a time

    The properties of the QMP client of [Qmp.v], over every interleaving of its
    goroutines, its callers and QEMU: commands are written one at a time and in
    the order they were received, a result is the answer to its own command, and
    a command that waits for an event succeeds after that event only.  Then the
    runs that block the loop for ever. *)
From S2P Require Import Prelude GoStr Qemu Qmp.

Module QmpSpec.
Import Qmp.

(** ** What a result rests on *)

(** The command of a call, as it was handed over. *)
Definition original (s : QMP) (call : nat) : option qmpCommand :=
  match q_callers s !! call with
  | Some (Offering c) | Some (Waiting c) | Some (Returned c _) => Some c
  | None => None
  end.

Definition calls (s : QMP) : list nat := map c_call (q_queue s).
Definition tags (s : QMP) : list nat := omap fst (q_lines s).

(** The loop has read an event a filter asks for. *)
Definition event_seen (f : qmpEventFilter) (s : QMP) : Prop :=
  exists tag o name, (tag, Some o) ∈ q_seen s /\ jget "event" o = Some (JStr name) /\
    event_matches f name (as_object (jget "data" o)) = true.

(** The loop has read QEMU's positive answer to a call. *)
Definition answered (call : nat) (o : object) (s : QMP) : Prop :=
  (Some call, Some o) ∈ q_seen s /\ jget "return" o <> None.

(** [v] is the result of the command [c]: what QEMU returned for it, or any
    value once the event it waits for has come as well. *)
Definition ok_result (s : QMP) (c : qmpCommand) (v : json) : Prop :=
  exists o, answered (c_call c) o s /\
    match c_filter c with
    | None => jget "return" o = Some v
    | Some f => event_seen f s
    end.

(** A command of the queue and the one that was handed over: its filter is
    dropped once the event came or the context is done. *)
Definition tracks (s : QMP) (c c0 : qmpCommand) : Prop :=
  c_call c = c_call c0 /\ c_ctx c = c_ctx c0 /\
  (c_filter c = c_filter c0 \/
   c_filter c = None /\ ((exists f, c_filter c0 = Some f /\ event_seen f s) \/ c_ctx c ∈ q_cancelled s)) /\
  (c_resultReceived c = true -> exists o, answered (c_call c) o s).

(** ** The invariant *)

Definition line_ok (l : option nat * option object) : Prop :=
  match l with
  | (Some _, line) => exists o, line = Some o /\ is_answer o = true
  | (None, line) => forall o, line = Some o -> is_other o = true
  end.

Record core (s : QMP) : Prop := {
  i_calls : forall call c, original s call = Some c -> c_call c = call;
  i_offer : forall call c, q_callers s !! call = Some (Offering c) -> c_resultReceived c = false /\ call ∉ q_accepted s;
  i_known : forall call, call ∈ q_accepted s -> is_Some (original s call);
  i_queue : Forall (fun c => exists c0, original s (c_call c) = Some c0 /\ tracks s c c0) (q_queue s);
  i_results : forall call c v, q_callers s !! call = Some (Returned c (Ok v)) -> ok_result s c v;
  i_lines : Forall line_ok (q_lines s);
  i_nodup : NoDup (q_accepted s);
}.

(** No command is in flight: the first one of the queue is not written yet. *)
Definition idle (s : QMP) : Prop :=
  q_written s ++ tags s = [] /\ Forall (fun c => c_resultReceived c = false) (q_queue s) /\
  exists done, q_accepted s = done ++ calls s /\ q_asked s `sublist_of` done.

(** The first one is written; its answer is under way or was read. *)
Definition held (s : QMP) (c : qmpCommand) (rest : list qmpCommand) : Prop :=
  q_queue s = c :: rest /\ Forall (fun c => c_resultReceived c = false) rest /\
  exists done before, q_accepted s = done ++ calls s /\ q_asked s = before ++ [c_call c] /\ before `sublist_of` done.
Definition busy (s : QMP) : Prop :=
  exists c rest, held s c rest /\ q_written s ++ tags s = (if c_resultReceived c then [] else [c_call c]).

Definition loop_ok (s : QMP) : Prop :=
  match q_loop s with
  | Select =>
      forall ctx, q_doneCh s = Some ctx -> q_ready s = true /\ exists c rest, q_queue s = c :: rest /\ c_ctx c = ctx
  | Reply call r _ =>
      q_ready s = true /\ idle s /\ call ∈ q_accepted s /\ (forall c v, original s call = Some c -> r = Ok v -> ok_result s c v)
  | Refuse call _ => q_ready s = true /\ idle s /\ exists c rest, q_queue s = c :: rest /\ c_call c = call
  | _ => True
  end.

Record inv (s : QMP) : Prop := {
  i_core : core s;
  i_shape : idle s \/ busy s;
  i_loop : loop_ok s;
  i_ready : q_ready s = false -> q_asked s = [];
}.

(** ** Steps that do not touch the queue *)

Lemma event_seen_mono f s s' : (forall l, l ∈ q_seen s -> l ∈ q_seen s') -> event_seen f s -> event_seen f s'.
Proof. intros Hs (tag & o & name & H1 & H2 & H3). exists tag, o, name. auto. Qed.
Lemma answered_mono call o s s' : (forall l, l ∈ q_seen s -> l ∈ q_seen s') -> answered call o s -> answered call o s'.
Proof. intros Hs [H1 H2]. split; auto. Qed.
Lemma ok_result_mono c v s s' : (forall l, l ∈ q_seen s -> l ∈ q_seen s') -> ok_result s c v -> ok_result s' c v.
Proof.
  intros Hs (o & Ha & Hf). exists o. split; [by eapply answered_mono|]. destruct (c_filter c); [|done].
  by eapply event_seen_mono.
Qed.
Lemma tracks_mono s s' c c0 :
  (forall l, l ∈ q_seen s -> l ∈ q_seen s') -> q_cancelled s ⊆ q_cancelled s' -> tracks s c c0 -> tracks s' c c0.
Proof.
  intros Hs Hc (H1 & H2 & H3 & H4). split_and!; [done|done| |].
  - destruct H3 as [?|[? [(f & ? & ?)|?]]]; [by left| |]; right; (split; [done|]).
    + left. exists f. split; [done|]. by eapply event_seen_mono.
    + right. set_solver.
  - intros Hr. destruct (H4 Hr) as [o Ho]. exists o. by eapply answered_mono.
Qed.

(** What only changes the loop, the contexts, the flags and the events. *)
Lemma core_frame s s' :
  q_callers s' = q_callers s -> q_queue s' = q_queue s -> q_accepted s' = q_accepted s -> q_seen s' = q_seen s ->
  q_cancelled s ⊆ q_cancelled s' -> Forall line_ok (q_lines s') -> core s -> core s'.
Proof.
  intros Ec Eq Ea Es Hc Hl [H1 H2 H3 H4 H5 H6 H7].
  assert (Hs : forall l, l ∈ q_seen s -> l ∈ q_seen s') by by rw Es.
  assert (Eo : forall call, original s' call = original s call) by by intros; unfold original; rw Ec.
  split; rw ?Ec ?Eq ?Ea //.
  - intros call c. rw Eo. apply H1.
  - intros call. rw Eo. apply H3.
  - eapply Forall_impl; [exact H4|]. intros c (c0 & E & T). exists c0. rw Eo. split; [done|]. by eapply tracks_mono.
  - intros call c v E. eapply ok_result_mono; [exact Hs|by eapply H5].
Qed.

(** ** The functions of the loop *)

Lemma to_select_inv event s : core s -> idle s \/ busy s -> q_ready s = true -> inv (to_select event s).
Proof.
  intros Hc Hs Hr. split; [by eapply core_frame; [..|apply Hc|apply Hc]|exact Hs| |simpl; by rw Hr].
  unfold loop_ok, to_select, currentCommandDoneCh. simpl. intros ctx. destruct (q_queue s) as [|c rest]; [done|].
  intros [= <-]. split; [done|]. by exists c, rest.
Qed.

Lemma write_inv ok event s : core s -> idle s -> q_ready s = true -> q_queue s <> [] -> inv (writeNextQMPCommand ok event s).
Proof.
  intros Hc Hi Hr Hq. unfold writeNextQMPCommand. destruct (q_queue s) as [|c rest] eqn:Eq; [done|]. destruct ok.
  - apply to_select_inv.
    + by eapply core_frame; [..|apply Hc|apply Hc].
    + right. destruct Hi as (Ew & Hu & done & Ea & Hk). rw Eq in Hu. apply Forall_cons in Hu as [Hu Hu'].
      apply app_eq_nil in Ew as [Ew Et]. exists c, rest. unfold tags in *. simpl. split; [|by rw Ew Et Hu].
      split_and!; [done..|]. by exists done, (q_asked s).
    + exact Hr.
  - split; simpl; [by eapply core_frame; [..|apply Hc|apply Hc]|by left| |by rw Hr].
    split_and!; [exact Hr|exact Hi|]. exists c, rest. by split.
Qed.

Lemma next_inv ok event s : core s -> idle s -> q_ready s = true -> inv (next_command ok event s).
Proof.
  intros Hc Hi Hr. unfold next_command. destruct (q_queue s) eqn:Eq.
  - apply to_select_inv; [done|by left|done].
  - apply write_inv; [done..|by rw Eq].
Qed.

(** The current command leaves the queue, with nothing in flight. *)
Lemma pop_core s c rest : core s -> q_queue s = c :: rest -> core (s <| q_queue := rest |>).
Proof.
  intros [H1 H2 H3 H4 H5 H6 H7] Eq. rw Eq in H4. apply Forall_cons in H4 as [_ H4]. by split.
Qed.
Lemma pop_idle s c rest :
  idle s \/ held s c rest -> q_written s ++ tags s = [] -> q_queue s = c :: rest -> idle (s <| q_queue := rest |>).
Proof.
  intros Hs Ew Eq. split; [exact Ew|].
  destruct Hs as [(_ & Hu & done & Ea & Hk)|(_ & Hu & done & before & Ea & Ek & Hb)].
  - rw Eq in Hu. apply Forall_cons in Hu as [_ Hu]. split; [exact Hu|]. exists (done ++ [c_call c]).
    unfold calls in *. simpl. rw Eq /= in Ea. rw Ea -app_assoc. split; [done|]. by apply sublist_inserts_r.
  - split; [exact Hu|]. exists (done ++ [c_call c]).
    unfold calls in *. simpl. rw Eq /= in Ea. rw Ea -app_assoc Ek. split; [done|]. by apply sublist_app.
Qed.

Lemma finalise_inv ok succeeded response event s c rest :
  core s -> idle s \/ held s c rest -> q_written s ++ tags s = [] -> q_ready s = true -> q_queue s = c :: rest ->
  (forall c0 v, original s (c_call c) = Some c0 -> tracks s c c0 -> c_ctx c ∉ q_cancelled s ->
     succeeded = true -> response = v -> ok_result s c0 v) ->
  inv (finaliseCommandWithResponse ok succeeded response event s).
Proof.
  intros Hc Hs Ew Hr Eq Hok. unfold finaliseCommandWithResponse. rw Eq.
  pose proof (pop_core s c rest Hc Eq) as Hc'. pose proof (pop_idle s c rest Hs Ew Eq) as Hi'.
  case_bool_decide as Hctx; [by apply next_inv|].
  assert (Hin : c_call c ∈ q_accepted s).
  { destruct Hs as [(_ & _ & done & Ea & _)|(_ & _ & done & ? & Ea & _ & _)];
      rw Ea /calls Eq /=; set_solver. }
  split; simpl; [by eapply core_frame; [..|apply Hc'|apply Hc']|by left| |by rw Hr].
  split_and!; [exact Hr|exact Hi'|done|]. intros c0 v Eo Er.
  pose proof (i_queue s Hc) as Q. rw Eq in Q. apply Forall_cons in Q as [(c1 & E1 & T) _].
  change (original s (c_call c) = Some c0) in Eo. assert (c1 = c0) as -> by congruence. unfold result_of in Er. destruct succeeded; [|done]. injection Er as Er.
  by apply (Hok c0 v).
Qed.

(** A change of the current command. *)
Lemma current_core f s c rest :
  core s -> q_queue s = c :: rest -> c_call (f c) = c_call c ->
  (forall c0, original s (c_call c) = Some c0 -> tracks s c c0 -> tracks s (f c) c0) -> core (on_current f s).
Proof.
  intros [H1 H2 H3 H4 H5 H6 H7] Eq Ec Ht. rw Eq in H4. apply Forall_cons in H4 as [(c0 & E0 & T0) H4].
  split; try done. unfold on_current; simpl. rw Eq. constructor; [|exact H4]. exists c0. rw Ec. split; [done|].
  by apply Ht.
Qed.

Lemma current_shape f s c rest :
  q_queue s = c :: rest -> c_call (f c) = c_call c -> c_resultReceived (f c) = c_resultReceived c ->
  idle s \/ busy s -> idle (on_current f s) \/ busy (on_current f s).
Proof.
  intros Eq Ec Er [(Ew & Hu & done & Ea & Hk)|(c' & rest' & (Eq' & Hu & done & before & Ea & Ek & Hb) & Ew)].
  - left. rw Eq in Hu. apply Forall_cons in Hu as [Hu Hu']. unfold calls in Ea. rw Eq /= in Ea.
    split_and!; [exact Ew| |]; unfold on_current, calls; simpl; rw Eq /=; [constructor; [by rw Er|done]|].
    exists done. by rw Ec.
  - rw Eq in Eq'. injection Eq' as <- <-. right. unfold calls in Ea. rw Eq /= in Ea. exists (f c), rest.
    unfold held, on_current, calls; simpl. rw Eq /= Er Ec. split; [|exact Ew]. split_and!; [done..|].
    by exists done, before.
Qed.

(** A result that was received leaves nothing in flight. *)
Lemma received_flight s c rest :
  idle s \/ busy s -> q_queue s = c :: rest -> c_resultReceived c = true ->
  held s c rest /\ q_written s ++ tags s = [].
Proof.
  intros [(_ & Hu & _)|(c' & rest' & Hh & Ew)] Eq Hr.
  - rw Eq in Hu. apply Forall_cons in Hu as [Hu _]. congruence.
  - assert (c' = c /\ rest' = rest) as [-> ->] by (destruct Hh as [Eq' _]; rw Eq in Eq'; by injection Eq').
    by rw Hr in Ew.
Qed.

Lemma drop_filter_tracks s c c0 :
  (forall f, c_filter c = Some f -> event_seen f s) \/ c_ctx c ∈ q_cancelled s ->
  tracks s c c0 -> tracks s (c <| c_filter := None |>) c0.
Proof.
  intros He (H1 & H2 & H3 & H4). split_and!; [done|done| |done].
  destruct H3 as [H3|[_ H3]]; [|by right]. destruct (c_filter c0) as [f|] eqn:Ef; [|by left].
  right. split; [done|]. destruct He as [He|He]; [left; exists f; auto|by right].
Qed.

Lemma event_inv ok s tag o ev :
  core s -> idle s \/ busy s -> q_ready s = true -> (tag, Some o) ∈ q_seen s -> jget "event" o = Some ev ->
  inv (processQMPEvent ok (Some ev) (jget "data" o) s).
Proof.
  intros Hc Hs Hr Hseen Ev. unfold processQMPEvent.
  assert (Hres : forall e, inv (to_select e s)) by (intros e; by apply to_select_inv).
  destruct ev as [| | |name| |]; try apply Hres. destruct (q_queue s) as [|c rest] eqn:Eq; [apply Hres|].
  destruct (c_filter c) as [f|] eqn:Ef; [|apply Hres].
  destruct (event_matches f name (as_object (jget "data" o))) eqn:Em; [|apply Hres].
  assert (He : event_seen f s) by by exists tag, o, name.
  destruct (c_resultReceived c) eqn:Er.
  - destruct (received_flight s c rest Hs Eq Er) as [Hh Ew].
    eapply finalise_inv; [done|by right|done|done|exact Eq|]. intros c0 v Eo (T1 & T2 & T3 & T4) _ _ _.
    destruct (T4 Er) as [o' Ho']. exists o'. rw -T1. split; [done|]. destruct T3 as [T3|[T3 _]]; [|congruence].
    by rw -T3 Ef.
  - apply to_select_inv.
    + eapply current_core; [done|exact Eq|done|]. intros c0 Eo T. apply drop_filter_tracks; [|done].
      left. intros f' Ef'. by simplify_eq.
    + by eapply current_shape; [exact Eq|..].
    + exact Hr.
Qed.

(** The answer to the current command. *)
Lemma answer_inv ok s c rest o :
  core s -> held s c rest -> c_resultReceived c = false -> q_written s ++ tags s = [] -> q_ready s = true ->
  (Some (c_call c), Some o) ∈ q_seen s -> is_answer o = true -> inv (processQMPInput ok (Some o) s).
Proof.
  intros Hc Hh Hn Ew Hr Hseen Ha. unfold is_answer, has in Ha. unfold processQMPInput.
  destruct Hh as (Eq & Hu & Hd). rw Eq.
  destruct (jget "event" o) eqn:Ee, (jget "return" o) as [ret|] eqn:Er, (jget "error" o) as [err|] eqn:Ex;
    try done; clear Ha; simpl.
  - case_bool_decide as Ef.
    + eapply finalise_inv; [done|by right|done|done|exact Eq|]. intros c0 v Eo (T1 & T2 & T3 & T4) Hctx _ <-.
      exists o. rw -T1. split; [by split; [|rw Er]|].
      destruct (c_filter c0) as [f|] eqn:Ef0; [|done].
      destruct T3 as [T3|[_ [(f' & [= <-] & T3)|T3]]]; [congruence|done|done].
    + apply to_select_inv.
      * eapply current_core; [done|exact Eq|done|]. intros c0 Eo (T1 & T2 & T3 & T4). split_and!; [done..|].
        intros _. exists o. by split; [|rw Er].
      * right. exists (c <| c_resultReceived := true |>), rest. unfold held, on_current, calls in *; simpl.
        rw Eq. rw Eq /= in Hd. by split; [|exact Ew].
      * exact Hr.
  - eapply finalise_inv; [done|by right|done|done|exact Eq|]. done.
Qed.

(** A line that is not an answer. *)
Lemma other_inv ok s tag line :
  core s -> idle s \/ busy s -> q_ready s = true -> (tag, line) ∈ q_seen s ->
  (forall o, line = Some o -> is_other o = true) -> inv (processQMPInput ok line s).
Proof.
  intros Hc Hs Hr Hseen Ho. unfold processQMPInput.
  assert (Hres : inv (to_select None s)) by (by apply to_select_inv).
  destruct line as [o|]; [|exact Hres]. specialize (Ho o eq_refl). unfold is_other, has in Ho.
  destruct (jget "event" o) eqn:Ee; [by eapply event_inv|].
  destruct (jget "return" o), (jget "error" o); try done.
Qed.

Lemma cancel_inv ok s c rest :
  core s -> idle s \/ busy s -> q_ready s = true -> q_queue s = c :: rest -> c_ctx c ∈ q_cancelled s ->
  inv (cancelCurrentCommand ok s).
Proof.
  intros Hc Hs Hr Eq Hctx. unfold cancelCurrentCommand. rw Eq. destruct (c_resultReceived c) eqn:Er.
  - destruct (received_flight s c rest Hs Eq Er) as [Hh Ew].
    eapply finalise_inv; [done|by right|done|done|exact Eq|]. done.
  - apply to_select_inv.
    + eapply current_core; [done|exact Eq|done|]. intros c0 Eo T. by apply drop_filter_tracks; [right|].
    + by eapply current_shape; [exact Eq|..].
    + exact Hr.
Qed.

(** ** The callers *)

(** A caller moves on with the same command. *)
Lemma move_core s callers :
  (forall call, original (s <| q_callers := callers |>) call = original s call) ->
  (forall call c, callers !! call = Some (Offering c) -> q_callers s !! call = Some (Offering c)) ->
  (forall call c v, callers !! call = Some (Returned c (Ok v)) -> ok_result s c v) ->
  core s -> core (s <| q_callers := callers |>).
Proof.
  intros Ho Hf Hr [H1 H2 H3 H4 H5 H6 H7]. split; try done.
  - intros call c. rw Ho. apply H1.
  - intros call c E. by apply H2, Hf.
  - intros call. rw Ho. apply H3.
  - eapply Forall_impl; [exact H4|]. intros c (c0 & E & T). exists c0. by rw Ho.
Qed.

Lemma original_return s call r call' : original (return_to call r s) call' = original s call'.
Proof.
  unfold original, return_to. simpl. destruct (decide (call = call')) as [<-|Hne].
  - rw lookup_alter_eq. by destruct (q_callers s !! call) as [[]|].
  - by rw lookup_alter_ne.
Qed.

Lemma return_core s call r :
  (forall c v, original s call = Some c -> r = Ok v -> ok_result s c v) -> core s -> core (return_to call r s).
Proof.
  intros Hr Hc. apply move_core; [|..|done].
  - intros call'. apply original_return.
  - intros call' c. destruct (decide (call = call')) as [<-|Hne]; [|by rw lookup_alter_ne].
    rw lookup_alter_eq. by destruct (q_callers s !! call) as [[]|].
  - intros call' c v. destruct (decide (call = call')) as [<-|Hne]; [|rw lookup_alter_ne; [done|apply Hc]].
    rw lookup_alter_eq. specialize (Hr c v). unfold original in Hr.
    destruct (q_callers s !! call) as [[]|]; simpl; intros [= -> ->]; by apply Hr.
Qed.

Lemma loop_frame s s' :
  q_ready s' = q_ready s -> q_doneCh s' = q_doneCh s -> (forall call, original s' call = original s call) -> q_loop s' = q_loop s -> q_queue s' = q_queue s ->
  q_accepted s' = q_accepted s -> q_seen s' = q_seen s -> (idle s -> idle s') -> loop_ok s -> loop_ok s'.
Proof.
  intros Er Ed Ho El Eq Ea Es Hi. unfold loop_ok. rw El Eq Ea Er Ed. destruct (q_loop s); try done.
  - intros (H0 & H1 & H2 & H3). split_and!; [done|by apply Hi|done|]. intros c v E Ev. rw Ho in E.
    eapply ok_result_mono; [|by apply H3]. by rw Es.
  - intros (H0 & H1 & H2). split_and!; [done|by apply Hi|done].
Qed.

Lemma return_inv s call r :
  (forall c v, original s call = Some c -> r = Ok v -> ok_result s c v) -> inv s -> inv (return_to call r s).
Proof.
  intros Hr [Hc Hs Hl Hy]. split; [by apply return_core|exact Hs| |exact Hy].
  eapply loop_frame; [..|exact Hl]; try done. intros call'. apply original_return.
Qed.

(** ** Steps *)

Lemma call_inv s call c :
  q_callers s !! call = None -> c_call c = call -> c_resultReceived c = false -> inv s ->
  inv (s <| q_callers ::= <[call := Offering c]> |>).
Proof.
  intros Hn Ec Hr [[H1 H2 H3 H4 H5 H6 H7] Hs Hl Hy].
  assert (Ha : call ∉ q_accepted s).
  { intros Hin. destruct (H3 call Hin) as [c' E]. unfold original in E. by rw Hn in E. }
  assert (Ho : forall call', is_Some (original s call') ->
    original (s <| q_callers ::= <[call := Offering c]> |>) call' = original s call').
  { intros call' [c' E]. unfold original in *. simpl. rw lookup_insert_ne; [|done]. intros <-. by rw Hn in E. }
  split; [|exact Hs| |exact Hy].
  - split; simpl; try done.
    + intros call' c'. unfold original. simpl. destruct (decide (call = call')) as [<-|Hne].
      * rw lookup_insert_eq. by intros [= <-].
      * rw lookup_insert_ne; [done|]. apply H1.
    + intros call' c'. destruct (decide (call = call')) as [<-|Hne].
      * rw lookup_insert_eq. by intros [= <-].
      * rw lookup_insert_ne; [done|]. apply H2.
    + intros call' Hin. rw Ho; by apply H3.
    + eapply Forall_impl; [exact H4|]. intros c' (c0 & E & T). exists c0. split; [rw Ho; by rw ?E|done].
    + intros call' c' v. destruct (decide (call = call')) as [<-|Hne].
      * by rw lookup_insert_eq.
      * rw lookup_insert_ne; [done|]. apply H5.
  - revert Hl. unfold loop_ok. simpl. destruct (q_loop s); try done.
    intros (HL0 & HL1 & HL2 & HL3). split_and!; [done..|]. intros c' v. rw Ho; [by apply H3|]. apply HL3.
Qed.

(** The loop has received a command. *)
Definition received (call : nat) (c : qmpCommand) (s : QMP) : QMP :=
  s <| q_callers ::= <[call := Waiting c]> |> <| q_queue ::= fun q => q ++ [c] |>
    <| q_accepted ::= fun l => l ++ [c_call c] |>.

Lemma received_core s call c : q_callers s !! call = Some (Offering c) -> core s -> core (received call c s).
Proof.
  intros Ec [H1 H2 H3 H4 H5 H6 H7]. destruct (H2 call c Ec) as [Hr Ha].
  assert (Eo : original s call = Some c) by by unfold original; rw Ec.
  assert (Ecc : c_call c = call) by by apply H1.
  assert (Ho : forall call', original (received call c s) call' = original s call').
  { intros call'. unfold original, received. simpl. destruct (decide (call = call')) as [<-|Hne].
    - by rw lookup_insert_eq Ec.
    - by rw lookup_insert_ne. }
  split; unfold received in *; simpl in *; try done.
  - intros call' c'. rw Ho. apply H1.
  - intros call' c'. destruct (decide (call = call')) as [<-|Hne]; [by rw lookup_insert_eq|].
    rw lookup_insert_ne; [done|]. intros E. destruct (H2 call' c' E) as [? Hn]. split; [done|]. set_solver.
  - intros call'. rw Ho elem_of_app list_elem_of_singleton. intros [Hin| ->]; [by apply H3|by rw Ecc Eo].
  - apply Forall_app. split.
    + eapply Forall_impl; [exact H4|]. intros c' (c0 & E & T). exists c0. by rw Ho.
    + apply Forall_singleton. exists c. rw Ho Ecc. split; [done|]. split_and!; [done..|by left|congruence].
  - intros call' c' v. destruct (decide (call = call')) as [<-|Hne]; [by rw lookup_insert_eq|].
    rw lookup_insert_ne; [done|]. apply H5.
  - apply NoDup_app. split_and!; [done| |by apply NoDup_singleton]. intros x Hx. rw list_elem_of_singleton. by intros ->; rw Ecc in Hx.
Qed.

Lemma received_idle s call c : c_resultReceived c = false -> idle s -> idle (received call c s).
Proof.
  intros Hr (Ew & Hu & done & Ea & Hk). split_and!; [exact Ew| |]; unfold received; simpl.
  - by apply Forall_app; split; [|apply Forall_singleton].
  - exists done. unfold calls in *. simpl. by rw map_app Ea -app_assoc.
Qed.

Lemma received_busy s call c : c_resultReceived c = false -> busy s -> busy (received call c s).
Proof.
  intros Hr (c' & rest & (Eq & Hu & done & before & Ea & Ek & Hb) & Ew). exists c', (rest ++ [c]).
  split; [|exact Ew]. unfold held, received, calls in *; simpl. rw Eq. split_and!; [done| |].
  - by apply Forall_app; split; [|apply Forall_singleton].
  - exists done, before. by rw Ea Eq -app_assoc /= map_app.
Qed.

Lemma accept_inv ok s call c :
  q_callers s !! call = Some (Offering c) -> q_loop s = Select -> inv s ->
  inv (accept ok c (s <| q_callers ::= <[call := Waiting c]> |>)).
Proof.
  intros Ec El [Hc Hs Hl Hy]. destruct (i_offer s Hc call c Ec) as [Hr _].
  pose proof (received_core s call c Ec Hc) as Hc'. change (inv
    (let s' := received call c s in if q_ready s' && bool_decide (length (q_queue s') = 1%nat)
     then writeNextQMPCommand ok None s' else s')).
  cbv zeta. destruct (q_ready (received call c s) && _) eqn:E.
  - apply andb_prop in E as [E1 E2]. apply bool_decide_eq_true in E2. apply write_inv; [done| |done|by destruct (q_queue _)].
    simpl in E2. rw length_app /= in E2.
    destruct Hs as [Hs|(c' & rest & (Eq & _) & _)]; [by apply received_idle|rw Eq /= in E2; lia].
  - split; [exact Hc'|destruct Hs; [left; by apply received_idle|right; by apply received_busy]| |exact Hy].
    unfold loop_ok in *. simpl. rw El. rw El in Hl. intros ctx Ed. destruct (Hl ctx Ed) as (H1 & c' & rest & H2 & H3).
    split; [done|]. exists c', (rest ++ [c]). by rw H2.
Qed.

(** ** Lines *)

(** The loop has taken a line. *)
Definition taken (l : option nat * option object) (lines : list (option nat * option object)) (s : QMP) : QMP :=
  s <| q_lines := lines |> <| q_seen ::= fun seen => seen ++ [l] |>.

Lemma taken_core s l lines : q_lines s = l :: lines -> core s -> core (taken l lines s).
Proof.
  intros El [H1 H2 H3 H4 H5 H6 H7]. rw El in H6. apply Forall_cons in H6 as [_ H6].
  assert (Hm : forall x, x ∈ q_seen s -> x ∈ q_seen (taken l lines s)) by (intros x; simpl; set_solver).
  split; try done.
  - eapply Forall_impl; [exact H4|]. intros c (c0 & E & T). exists c0. split; [exact E|]. by eapply tracks_mono; [..|exact T].
  - intros call c v E. eapply ok_result_mono; [exact Hm|by eapply H5].
Qed.

Lemma line_inv ok s tag line lines :
  q_lines s = (tag, line) :: lines -> q_loop s = Select -> inv s -> inv (read_line ok line (taken (tag, line) lines s)).
Proof.
  intros Ell El [Hc Hs Hl Hy]. pose proof (taken_core s _ _ Ell Hc) as Hc'.
  pose proof (i_lines s Hc) as HL. rw Ell in HL. apply Forall_cons in HL as [HL _].
  assert (Hin : (tag, line) ∈ q_seen (taken (tag, line) lines s)) by (simpl; set_solver).
  assert (Hf : tag = None -> idle (taken (tag, line) lines s) \/ busy (taken (tag, line) lines s)).
  { intros ->. unfold idle, busy, tags in *. by rw Ell in Hs. }
  assert (Hb : forall call, tag = Some call -> exists c rest, held s c rest /\ c_call c = call /\
    c_resultReceived c = false /\ q_written s ++ omap fst lines = []).
  { intros call ->. unfold idle, busy, tags in Hs. rw Ell /= in Hs.
    destruct Hs as [(Ew & _)|(c & rest & Hh & Ew)]; [by destruct (q_written s)|].
    destruct (c_resultReceived c) eqn:Er; [by destruct (q_written s)|]. exists c, rest.
    destruct (q_written s) as [|w ws]; [injection Ew as E1 E2; by split_and!|by destruct ws]. }
  unfold read_line. destruct (q_ready (taken (tag, line) lines s)) eqn:Er.
  - destruct tag as [call|].
    + destruct (Hb call eq_refl) as (c & rest & Hh & <- & Hn & Ew). destruct HL as (o & -> & Ho).
      by eapply answer_inv; [|exact Hh|..].
    + by eapply other_inv; [|apply Hf| | |].
  - assert (tag = None) as ->.
    { destruct tag as [call|]; [|done]. destruct (Hb call eq_refl) as (c & rest & (_ & _ & d & b & _ & Ek & _) & _).
      rw (Hy Er) in Ek. by destruct b. }
    assert (Hsel : forall s', q_loop s' = Select -> q_doneCh s' = q_doneCh s -> loop_ok s').
    { intros s' El' Ed'. unfold loop_ok in *. rw El' Ed'. rw El in Hl. intros ctx Ed. destruct (Hl ctx Ed) as [E _].
      change (q_ready s = false) in Er. congruence. }
    destruct (parseVersion line) as [v|].
    + split; [by eapply core_frame; [..|apply Hc'|apply Hc']|by apply Hf|by apply Hsel|done].
    + split; [done|by apply Hf|by apply Hsel|exact Hy].
Qed.

(** ** Every step *)

(** What is in flight and the queue stay; the loop is elsewhere. *)
Lemma frame_inv s s' :
  q_callers s' = q_callers s -> q_queue s' = q_queue s -> q_accepted s' = q_accepted s -> q_asked s' = q_asked s ->
  q_ready s' = q_ready s -> q_seen s' = q_seen s -> q_cancelled s ⊆ q_cancelled s' ->
  q_written s' ++ tags s' = q_written s ++ tags s -> Forall line_ok (q_lines s') ->
  (loop_ok s' \/ q_loop s' = q_loop s /\ q_doneCh s' = q_doneCh s) -> inv s -> inv s'.
Proof.
  intros E1 E2 E3 E4 E5 E6 Hx Ew Hlines HL [Hc Hs Hl Hy].
  assert (Hi : idle s -> idle s') by by unfold idle, calls; rw Ew E2 E3 E4.
  assert (Hb : busy s -> busy s') by by unfold busy, held, calls; rw Ew E2 E3 E4.
  split; [by eapply core_frame|by destruct Hs; auto| |by rw E4 E5].
  destruct HL as [HL|[HL HD]]; [exact HL|]. eapply loop_frame; [..|exact Hl]; try done.
  intros call. unfold original. by rw E1.
Qed.

(** At most one command is in flight. *)
Lemma flight_le s : idle s \/ busy s -> (length (q_written s ++ tags s) <= 1)%nat.
Proof.
  intros [(E & _)|(c & rest & _ & E)]; rw E; [simpl; lia|]. destruct (c_resultReceived c); simpl; lia.
Qed.

Lemma answer_step_inv s call written o :
  q_written s = call :: written -> is_answer o = true -> inv s ->
  inv (s <| q_written := written |> <| q_lines ::= fun l => l ++ [(Some call, Some o)] |>).
Proof.
  intros Ew Ho Hi. pose proof (flight_le s (i_shape s Hi)) as Hle. rw Ew /= length_app in Hle.
  assert (Et : tags s = []) by (destruct (tags s); [done|simpl in Hle; lia]).
  assert (Ez : written = []) by (destruct written; [done|simpl in Hle; lia]).
  eapply (frame_inv s); [..|by right|exact Hi]; try done.
  - unfold tags in *. simpl. by rw omap_app Ew Et Ez.
  - apply Forall_app. split; [by apply Hi|]. apply Forall_singleton. by exists o.
Qed.

Lemma emit_inv s line :
  (forall o, line = Some o -> is_other o = true) -> inv s -> inv (s <| q_lines ::= fun l => l ++ [(None, line)] |>).
Proof.
  intros Ho Hi. eapply (frame_inv s); [..|by right|exact Hi]; try done.
  - unfold tags. simpl. by rw omap_app /= app_nil_r.
  - apply Forall_app. split; [apply Hi|]. by apply Forall_singleton.
Qed.

Lemma deliver_inv ok s s' : step (Deliver ok) s = Some s' -> inv s -> inv s'.
Proof.
  intros Hstep Hi. pose proof (i_loop s Hi) as Hl. unfold loop_ok in Hl. simpl in Hstep.
  destruct (q_loop s) as [|call r event|call event|l|]; try done; case_match; try done; injection Hstep as <-.
  - destruct Hl as (Hr & Hidle & _ & Hok). apply next_inv; [apply return_core; [done|apply Hi]|done|done].
  - destruct Hl as (Hr & Hidle & c & rest & Eq & Ec). set (s1 := s <| q_queue ::= tail |>).
    assert (E1 : s1 = s <| q_queue := rest |>) by (unfold s1; destruct s; simpl in *; by subst). rw E1.
    apply to_select_inv; [apply return_core; [done|by eapply pop_core; [apply Hi|]]| |done].
    left. change (idle (s <| q_queue := rest |>)). eapply pop_idle; [by left|apply Hidle|done].
Qed.

Lemma step_inv a s s' : step a s = Some s' -> inv s -> inv s'.
Proof.
  intros Hstep Hi.
  assert (Hfr : forall s1, q_callers s1 = q_callers s -> q_queue s1 = q_queue s -> q_accepted s1 = q_accepted s ->
    q_asked s1 = q_asked s -> q_ready s1 = q_ready s -> q_seen s1 = q_seen s -> q_cancelled s ⊆ q_cancelled s1 ->
    q_written s1 = q_written s -> q_lines s1 = q_lines s ->
    (loop_ok s1 \/ q_loop s1 = q_loop s /\ q_doneCh s1 = q_doneCh s) -> inv s1).
  { intros s1 ????????? HL. eapply (frame_inv s); [..|exact HL|exact Hi]; try done.
    - unfold tags. congruence.
    - replace (q_lines s1) with (q_lines s). apply Hi. }
  destruct a; try by eapply deliver_inv.
  all: unfold step, selecting in Hstep; repeat (case_match; try done); simplify_eq/=.
  - by apply call_inv.
  - apply Hfr; try done; [set_solver|by right].
  - apply Hfr; try done. by right.
  - by apply accept_inv.
  - by apply line_inv.
  - pose proof (i_loop s Hi) as Hl. unfold loop_ok in Hl.
    match goal with E : q_loop s = Select, D : q_doneCh s = Some ?ctx |- _ =>
      rw E in Hl; destruct (Hl ctx D) as (Hr & c & rest & Eq & Ectx) end.
    match goal with B : bool_decide _ = true |- _ => apply bool_decide_eq_true in B end.
    eapply cancel_inv; [apply Hi|apply Hi|done|exact Eq|by rw Ectx].
  - apply Hfr; try done. by left.
  - apply Hfr; try done. by left.
  - apply return_inv; [done|]. apply Hfr; try done. by left.
  - apply Hfr; try done. by left.
  - apply Hfr; try done. by left.
  - by apply return_inv.
  - by apply return_inv.
  - apply answer_step_inv; [done| |done]. by destruct (is_answer o).
  - apply emit_inv; [|done]. intros o' [= <-]. by destruct (is_other o).
  - by apply emit_inv.
  - apply Hfr; try done. by right.
Qed.

Lemma start_inv : inv startQMPLoop.
Proof.
  split; [|left|done|done].
  - split; try done; try constructor. intros call. by rw elem_of_nil.
  - split_and!; [done|constructor|]. by exists [].
Qed.

Lemma steps_inv l s s' : steps l s = Some s' -> inv s -> inv s'.
Proof.
  revert s. induction l as [|a l IH]; intros s E Hi; simpl in E; [by injection E as <-|].
  apply bind_Some in E as (s1 & E1 & E2). eapply IH; [exact E2|]. by eapply step_inv.
Qed.

Lemma reachable_inv s : reachable s -> inv s.
Proof. intros [l E]. eapply steps_inv; [exact E|apply start_inv]. Qed.

(** ** Nobody leaves *)

(** The calls the loop still has to answer. *)
Definition pending (s : QMP) : list nat :=
  match q_loop s with
  | Select | Refuse _ _ => calls s
  | Reply call _ _ => call :: calls s
  | Failing rest => map c_call rest
  | Ended => []
  end.

Definition listened (s : QMP) : Prop :=
  q_cancelled s = ∅ -> NoDup (pending s) /\ Forall (fun call => waits call s = true) (pending s).

(** The functions of the loop answer in their turn. *)
Lemma next_pending ok event s : pending (next_command ok event s) = calls s.
Proof.
  unfold next_command, writeNextQMPCommand, pending. destruct (q_queue s) as [|c rest] eqn:Eq; simpl; [by unfold calls|].
  destruct ok; by unfold calls.
Qed.
Lemma finalise_pending ok succeeded response event s :
  q_cancelled s = ∅ -> q_loop s = Select ->
  pending (finaliseCommandWithResponse ok succeeded response event s) = calls s /\
  q_callers (finaliseCommandWithResponse ok succeeded response event s) = q_callers s /\
  q_cancelled (finaliseCommandWithResponse ok succeeded response event s) = q_cancelled s.
Proof.
  intros Hx El. unfold finaliseCommandWithResponse, pending, calls. destruct (q_queue s) as [|c rest] eqn:Eq; [by rw El Eq|].
  simpl. rw Hx. case_bool_decide as Hin; [set_solver|]. by simpl.
Qed.
Lemma current_calls f s : (forall c, c_call (f c) = c_call c) -> calls (on_current f s) = calls s.
Proof. intros Hf. unfold calls, on_current. simpl. destruct (q_queue s); simpl; by rw ?Hf. Qed.

Lemma input_pending ok line s :
  q_cancelled s = ∅ -> q_loop s = Select ->
  pending (processQMPInput ok line s) = calls s /\
  q_callers (processQMPInput ok line s) = q_callers s /\
  q_cancelled (processQMPInput ok line s) = q_cancelled s.
Proof.
  intros Hx El. unfold processQMPInput, processQMPEvent, finaliseCommand.
  repeat case_match; try by apply finalise_pending.
  all: split_and!; try done; try by apply current_calls.
Qed.

(** A step that moves nobody. *)
Lemma listened_frame s s' :
  q_callers s' = q_callers s -> pending s' `sublist_of` pending s -> q_cancelled s ⊆ q_cancelled s' ->
  listened s -> listened s'.
Proof.
  intros Ec Hp Hx Hl E. destruct Hl as [Hn Hw]; [set_solver|]. split; [by eapply sublist_NoDup|].
  unfold waits. rw Ec. apply Forall_forall. intros call Hin. eapply Forall_forall in Hw; [exact Hw|].
  by eapply sublist_subseteq.
Qed.

(** The first call to be answered returns. *)
Lemma listened_return s s' call r rest :
  pending s = call :: rest -> pending s' = rest -> q_callers s' = q_callers (return_to call r s) ->
  q_cancelled s' = q_cancelled s -> listened s -> listened s'.
Proof.
  intros Ep Ep' Ec Ex Hl E. destruct Hl as [Hn Hw]; [congruence|]. rw Ep in Hn Hw. rw Ep'.
  apply NoDup_cons in Hn as [Hn1 Hn2]. apply Forall_cons in Hw as [_ Hw]. split; [done|].
  apply Forall_forall. intros call' Hin. eapply Forall_forall in Hw; [|exact Hin].
  unfold waits in *. rw Ec. simpl. rw lookup_alter_ne; [|done]. by intros ->.
Qed.

(** A call the loop has nothing to do with. *)
Lemma listened_aside s s' call :
  waits call s = false -> (forall call', call' <> call -> q_callers s' !! call' = q_callers s !! call') ->
  pending s' = pending s -> q_cancelled s' = q_cancelled s -> listened s -> listened s'.
Proof.
  intros Hc Ho Ep Ex Hl E. destruct Hl as [Hn Hw]; [congruence|]. rw Ep. split; [done|].
  apply Forall_forall. intros call' Hin. eapply Forall_forall in Hw; [|exact Hin].
  unfold waits in *. rw Ho; [|done]. intros ->. congruence.
Qed.

Lemma accept_listened ok s call c :
  q_callers s !! call = Some (Offering c) -> q_loop s = Select -> c_call c = call -> listened s ->
  listened (accept ok c (s <| q_callers ::= <[call := Waiting c]> |>)).
Proof.
  intros Ec El Ecc Hl.
  assert (Hp : forall s1, q_callers s1 = <[call := Waiting c]> (q_callers s) -> pending s1 = pending s ++ [call] ->
    q_cancelled s1 = q_cancelled s -> listened s1).
  { intros s1 E1 E2 E3 E. destruct Hl as [Hn Hw]; [congruence|]. rw E2.
    assert (Hno : call ∉ pending s).
    { intros Hin. eapply Forall_forall in Hw; [|exact Hin]. unfold waits in Hw. by rw Ec in Hw. }
    split.
    - apply NoDup_app. split_and!; [done|set_solver|apply NoDup_singleton].
    - apply Forall_app. split; [|apply Forall_singleton; unfold waits; by rw E1 lookup_insert_eq].
      apply Forall_forall. intros call' Hin. eapply Forall_forall in Hw; [|exact Hin].
      unfold waits in *. rw E1 lookup_insert_ne; [|done]. by intros ->. }
  unfold accept. case_match; [unfold writeNextQMPCommand; case_match; [|case_match]|]; apply Hp; try done.
  all: unfold pending, calls; simpl; by rw ?El map_app /= Ecc.
Qed.

Lemma input_cancelled ok line s : q_cancelled (processQMPInput ok line s) = q_cancelled s.
Proof.
  unfold processQMPInput, processQMPEvent, finaliseCommand, finaliseCommandWithResponse, next_command, writeNextQMPCommand.
  repeat case_match; done.
Qed.
Lemma cancel_cancelled ok s : q_cancelled (cancelCurrentCommand ok s) = q_cancelled s.
Proof.
  unfold cancelCurrentCommand, finaliseCommand, finaliseCommandWithResponse, next_command, writeNextQMPCommand.
  repeat case_match; done.
Qed.

Lemma line_listened ok s l lines :
  q_loop s = Select -> listened s -> listened (read_line ok l.2 (taken l lines s)).
Proof.
  intros El Hl. unfold read_line. destruct (q_ready _).
  - intros Hx. rw input_cancelled in Hx. destruct (input_pending ok l.2 (taken l lines s) Hx El) as (E1 & E2 & E3).
    revert Hx. rw -E3. eapply listened_frame; [exact E2|..|exact Hl]; [|by rw E3].
    rw E1. unfold pending. by rw El.
  - destruct (parseVersion l.2); (eapply listened_frame; [..|exact Hl]; [done|by unfold pending; simpl|done]).
Qed.

Lemma deliver_listened ok s s' : step (Deliver ok) s = Some s' -> inv s -> listened s -> listened s'.
Proof.
  intros Hstep Hi Hl. pose proof (i_loop s Hi) as HL. unfold loop_ok in HL. simpl in Hstep.
  destruct (q_loop s) as [|call r event|call event|l|] eqn:El; try done; case_match; try done; injection Hstep as <-.
  - eapply (listened_return s _ call r (calls s)); [by unfold pending; rw El| | | |done].
    + by rw next_pending.
    + unfold next_command, writeNextQMPCommand. repeat case_match; done.
    + unfold next_command, writeNextQMPCommand. repeat case_match; done.
  - destruct HL as (_ & _ & c & rest & Eq & <-).
    eapply (listened_return s _ (c_call c) _ (map c_call rest)); [| |done|done|done];
      unfold pending, calls; simpl; by rw ?El Eq.
Qed.

Lemma step_listened a s s' : step a s = Some s' -> inv s -> listened s -> listened s'.
Proof.
  intros Hstep Hi Hl.
  assert (Hsame : forall s1, q_callers s1 = q_callers s -> pending s1 = pending s -> q_cancelled s ⊆ q_cancelled s1 ->
    listened s1) by by (intros s1 E1 E2 E3; eapply listened_frame; [exact E1|by rw E2|..]).
  assert (Hleave : q_loop s = Select -> listened (leave_loop s)).
  { intros El. apply Hsame; try done. unfold pending; simpl. by rw El. }
  destruct a; try by eapply deliver_listened.
  all: unfold step, selecting in Hstep; repeat (case_match; try done); simplify_eq.
  all: try by apply Hsame. all: try by apply Hleave.
  all: repeat match goal with B : bool_decide _ = true |- _ => apply bool_decide_eq_true in B end.
  - eapply (listened_aside s _ call); [unfold waits; by simplify_option_eq| |done|done|done].
    intros call' Hne. simpl. by rw lookup_insert_ne.
  - apply Hsame; try done. simpl. set_solver.
  - apply accept_listened; try done. apply (i_calls s (i_core s Hi)). unfold original. by case_match; simplify_eq.
  - by eapply (line_listened _ s (_, _)).
  - intros Hx. rw cancel_cancelled in Hx. set_solver.
  - eapply listened_return; [..|done]; try done. unfold pending. by case_match; simplify_eq.
  - eapply (listened_frame s); [done| |done|done]. unfold pending; simpl. case_match; simplify_eq. by apply sublist_cons.
  - eapply (listened_frame s); [done| |done|done]. apply sublist_nil_l.
  - eapply (listened_aside s _ call); [unfold waits; by simplify_option_eq| |done|done|done].
    intros call' Hne. simpl. by rw lookup_alter_ne.
  - intros Hx. simpl in Hx. set_solver.
Qed.

Lemma reachable_listened s : reachable s -> listened s.
Proof.
  intros [l E]. assert (Hl : forall l s s', steps l s = Some s' -> inv s -> listened s -> listened s').
  { clear. intros l. induction l as [|a l IH]; intros s s' E Hi Hl; simpl in E; [by injection E as <-|].
    apply bind_Some in E as (s1 & E1 & E2). eapply IH; [exact E2|by eapply step_inv|by eapply step_listened]. }
  eapply Hl; [exact E|apply start_inv|]. intros _. split; constructor.
Qed.

(** ** A queue nobody writes *)

(** The loop has a command to write and waits for an answer all the same. *)
Definition stalled (s : QMP) : Prop :=
  Forall line_ok (q_lines s) /\ q_written s ++ tags s = [] /\
  match q_loop s with
  | Select => exists c rest, q_queue s = c :: rest /\ c_resultReceived c = false
  | Reply _ _ _ | Refuse _ _ => False
  | Failing _ | Ended => True
  end.

Definition unmoved (s s' : QMP) : Prop := q_asked s' = q_asked s /\ calls s `prefix_of` calls s'.

Lemma unmoved_trans s1 s2 s3 : unmoved s1 s2 -> unmoved s2 s3 -> unmoved s1 s3.
Proof. intros [E1 P1] [E2 P2]. split; [congruence|by etrans]. Qed.

Lemma stalled_other ok line s :
  stalled s -> q_loop s = Select -> (forall o, line = Some o -> is_other o = true) ->
  stalled (processQMPInput ok line s) /\ unmoved s (processQMPInput ok line s).
Proof.
  intros (Hl & Ew & Hs) El Ho. rw El in Hs. destruct Hs as (c & rest & Eq & Hr).
  assert (Hres : forall e f, (forall c, c_call (f c) = c_call c) -> (forall c, c_resultReceived (f c) = c_resultReceived c) ->
    stalled (to_select e (on_current f s)) /\ unmoved s (to_select e (on_current f s))).
  { intros e f Hf1 Hf2. split; [split_and!; [done..|]|split; [done|]]; simpl; rw ?Eq.
    - exists (f c), rest. by rw Hf2.
    - change (calls s `prefix_of` calls (on_current f s)). by rw current_calls. }
  assert (Hid : forall e, stalled (to_select e s) /\ unmoved s (to_select e s)).
  { intros e. split; [split_and!; [done..|]|done]. by exists c, rest. }
  unfold processQMPInput, processQMPEvent. destruct line as [o|]; [|apply Hid]. specialize (Ho o eq_refl).
  unfold is_other, has in Ho. destruct (jget "event" o) as [ev|].
  - destruct ev; try apply Hid. rw Eq. destruct (c_filter c); [|apply Hid]. destruct (event_matches _ _ _); [|apply Hid].
    rw Hr. by apply Hres.
  - destruct (jget "return" o), (jget "error" o); try done; apply Hid.
Qed.

Lemma stalled_cancel ok s :
  stalled s -> q_loop s = Select -> stalled (cancelCurrentCommand ok s) /\ unmoved s (cancelCurrentCommand ok s).
Proof.
  intros (Hl & Ew & Hs) El. rw El in Hs. destruct Hs as (c & rest & Eq & Hr).
  unfold cancelCurrentCommand. rw Eq Hr. split; [split_and!; [done..|]|split; [done|]].
  - simpl. rw Eq. by exists (c <| c_filter := None |>), rest.
  - unfold calls. simpl. by rw Eq.
Qed.

Lemma stalled_accept ok c0 s callers :
  stalled s -> q_loop s = Select ->
  stalled (accept ok c0 (s <| q_callers := callers |>)) /\ unmoved s (accept ok c0 (s <| q_callers := callers |>)).
Proof.
  intros (Hl & Ew & Hs) El. rw El in Hs. destruct Hs as (c & rest & Eq & Hr). unfold accept.
  rw bool_decide_eq_false_2; [|rw andb_false_r; split; [split_and!; [done..|]|split; [done|]]].
  - simpl. rw Eq length_app /=. lia.
  - simpl. rw El Eq. by exists c, (rest ++ [c0]).
  - unfold calls. simpl. rw map_app. by eexists.
Qed.

Lemma stalled_line ok s tag line lines :
  stalled s -> q_loop s = Select -> q_lines s = (tag, line) :: lines ->
  stalled (read_line ok line (taken (tag, line) lines s)) /\ unmoved s (read_line ok line (taken (tag, line) lines s)).
Proof.
  intros (Hl & Ew & Hs) El Ell. unfold tags in Ew. rw Ell in Hl Ew. apply Forall_cons in Hl as [HL Hl].
  destruct tag as [call|]; [by destruct (q_written s)|].
  assert (Ht : stalled (taken (None, line) lines s)) by by split_and!.
  unfold read_line. destruct (q_ready _); [|by destruct (parseVersion line)].
  by apply (stalled_other ok line _ Ht).
Qed.

Lemma stalled_frame s s' :
  q_queue s' = q_queue s -> q_asked s' = q_asked s -> q_written s' ++ tags s' = q_written s ++ tags s ->
  Forall line_ok (q_lines s') ->
  (q_loop s' = q_loop s \/ match q_loop s' with Failing _ | Ended => True | _ => False end) ->
  stalled s -> stalled s' /\ unmoved s s'.
Proof.
  intros E1 E2 E3 Hl HL (_ & Ew & Hs). split.
  - split_and!; [done|congruence|]. destruct HL as [HL|HL]; [by rw HL E1|]. by destruct (q_loop s').
  - split; [done|]. unfold calls. by rw E1.
Qed.

Lemma stalled_step a s s' : step a s = Some s' -> stalled s -> stalled s' /\ unmoved s s'.
Proof.
  intros Hstep Hs. assert (Hl : Forall line_ok (q_lines s)) by apply Hs.
  assert (Hn1 : forall call r e, q_loop s <> Reply call r e).
  { intros call r e. destruct Hs as (_ & _ & Hs). by destruct (q_loop s). }
  assert (Hn2 : forall call e, q_loop s <> Refuse call e).
  { intros call e. destruct Hs as (_ & _ & Hs). by destruct (q_loop s). }
  destruct a; unfold step, selecting in Hstep; repeat (case_match; try done); simplify_eq.
  all: try by apply stalled_accept. all: try by apply stalled_cancel. all: try by apply stalled_line.
  all: try by eapply (stalled_frame s); [..|left|]. all: try by eapply (stalled_frame s); [..|right|].
  - by exfalso; eapply Hn1.
  - by exfalso; eapply Hn2.
  - destruct Hs as (_ & Ew & _). by match goal with E : q_written s = _ |- _ => rw E in Ew end.
  - eapply (stalled_frame s); [done|done| | |by left|done].
    + unfold tags. simpl. by rw omap_app /= app_nil_r.
    + apply Forall_app. split; [done|]. apply Forall_singleton. intros o' [= <-]. by destruct (is_other o).
  - eapply (stalled_frame s); [done|done| | |by left|done].
    + unfold tags. simpl. by rw omap_app /= app_nil_r.
    + apply Forall_app. split; [done|]. by apply Forall_singleton.
Qed.

Lemma stalled_steps l s s' : steps l s = Some s' -> stalled s -> stalled s' /\ unmoved s s'.
Proof.
  revert s. induction l as [|a l IH]; intros s E Hs; simpl in E; [by injection E as <-|].
  apply bind_Some in E as (s1 & E1 & E2). destruct (stalled_step a s s1 E1 Hs) as [H1 U1].
  destruct (IH s1 E2 H1) as [H2 U2]. split; [done|]. by eapply unmoved_trans.
Qed.

(** ** A loop nobody listens to *)

(** The loop sends to a call that has returned. *)
Definition blocked (s : QMP) : Prop :=
  exists call c r, q_callers s !! call = Some (Returned c r) /\
    match q_loop s with Reply call' _ _ | Refuse call' _ => call' = call | _ => False end.

Lemma blocked_return s call r : blocked s -> blocked (return_to call r s).
Proof.
  intros (call' & c & r' & E & Hl). destruct (decide (call = call')) as [->|Hne].
  - exists call', c, r. split; [|exact Hl]. simpl. by rw lookup_alter_eq E.
  - exists call', c, r'. split; [|exact Hl]. simpl. by rw lookup_alter_ne.
Qed.

Lemma blocked_frame s s' :
  q_callers s' = q_callers s -> q_loop s' = q_loop s -> q_asked s' = q_asked s -> blocked s ->
  blocked s' /\ q_loop s' = q_loop s /\ q_asked s' = q_asked s.
Proof. intros E1 E2 E3 Hb. split_and!; [|done..]. unfold blocked. by rw E1 E2. Qed.

(** No step of the loop is possible. *)
Lemma blocked_loop s : blocked s ->
  (forall next, selecting s next = None) /\ (forall ok, step (Deliver ok) s = None) /\
  step FailCommand s = None /\ step SkipCommand s = None /\ step EndLoop s = None.
Proof.
  intros (call & c & r & E & Hl). unfold selecting; simpl.
  destruct (q_loop s); try done; subst; unfold waits; rw E; split_and!; done.
Qed.

Lemma blocked_step a s s' : step a s = Some s' -> blocked s -> blocked s' /\ q_loop s' = q_loop s /\ q_asked s' = q_asked s.
Proof.
  intros Hstep Hb. destruct (blocked_loop s Hb) as (Hsel & Hd & Hf & Hk & He).
  destruct a; try congruence; unfold step in Hstep; repeat (case_match; try done); rw ?Hsel in Hstep; simplify_eq.
  all: try by apply (blocked_frame s). all: try by split_and!; [apply blocked_return|..].
  split_and!; [|done..]. destruct Hb as (call' & c & r & E & Hl). exists call', c, r. split; [|exact Hl].
  simpl. rw lookup_insert_ne; [|done]. intros ->. congruence.
Qed.

Lemma blocked_steps l s s' : steps l s = Some s' -> blocked s -> q_loop s' = q_loop s /\ q_asked s' = q_asked s.
Proof.
  revert s. induction l as [|a l IH]; intros s E Hb; simpl in E; [by injection E as <-|].
  apply bind_Some in E as (s1 & E1 & E2). destruct (blocked_step a s s1 E1 Hb) as (H1 & L1 & A1).
  destruct (IH s1 E2 H1) as [L2 A2]. split; congruence.
Qed.

(** ** Properties *)

(** C3. Commands are serial, for every interleaving of the callers, of
    cancellations and of QEMU: at most one command is written and not answered,
    the commands are written in the order the loop received them, each of them
    once at most, and a call that returns a value returns the answer QEMU gave
    to its own command, after the event it waits for when it has one. *)
Theorem qmp_serial (s : QMP) :
  reachable s ->
  (length (q_written s ++ tags s) <= 1)%nat /\ q_asked s `sublist_of` q_accepted s /\ NoDup (q_accepted s) /\
  (forall call c v, q_callers s !! call = Some (Returned c (Ok v)) -> c_call c = call /\ ok_result s c v).
Proof.
  intros Hr. pose proof (reachable_inv s Hr) as [Hc Hs _ _]. split_and!; [by apply flight_le| |apply Hc|].
  - destruct Hs as [(_ & _ & done & -> & Hk)|(c & rest & (Eq & _ & done & before & -> & -> & Hb) & _)].
    + by apply sublist_inserts_r.
    + unfold calls. rw Eq /=. apply sublist_app; [done|]. apply sublist_skip, sublist_nil_l.
  - intros call c v E. split; [|by eapply (i_results s Hc)].
    apply (i_calls s Hc). unfold original. by rw E.
Qed.

(** C34. While no context is cancelled the loop never waits for a caller that is
    gone: wherever it is about to answer a call, the call is there, and the
    commands left at the end of the connection are failed one after the other. *)
Theorem qmp_progress (s : QMP) (ok : bool) :
  reachable s -> q_cancelled s = ∅ ->
  match q_loop s with
  | Reply _ _ _ | Refuse _ _ => is_Some (step (Deliver ok) s)
  | Failing (_ :: _) => is_Some (step FailCommand s)
  | Failing [] => is_Some (step EndLoop s)
  | Select | Ended => True
  end.
Proof.
  intros Hr Hx. destruct (reachable_listened s Hr Hx) as [_ Hw]. pose proof (reachable_inv s Hr) as [_ _ HL _].
  unfold pending, loop_ok in *. simpl.
  destruct (q_loop s) as [|call r e|call e|[|c rest]|] eqn:El; try done.
  - apply Forall_cons in Hw as [-> _]. done.
  - destruct HL as (_ & _ & c & rest & Eq & <-). unfold calls in Hw. rw Eq in Hw. by apply Forall_cons in Hw as [-> _].
  - by apply Forall_cons in Hw as [-> _].
Qed.

(** A command that fails to be written leaves the commands behind it
    unwritten: once the loop waits with a queue whose first command is not in
    flight, no step, whether a line, a cancellation or a new command, makes it
    write again, and the queue keeps its commands until the connection ends. *)
Theorem qmp_stall (s s' : QMP) (c : qmpCommand) (rest : list qmpCommand) (l : list action) :
  reachable s -> q_loop s = Select -> q_queue s = c :: rest -> c_resultReceived c = false ->
  q_written s ++ tags s = [] -> steps l s = Some s' ->
  q_asked s' = q_asked s /\ calls s `prefix_of` calls s'.
Proof.
  intros Hr El Eq Hn Ew E. apply (stalled_steps l s s' E). split_and!; [apply (reachable_inv s Hr)|done|].
  rw El. by exists c, rest.
Qed.

(** A result that is sent to a caller whose context was cancelled in the
    meantime is never received: the loop stays where it is for ever and writes
    nothing again. *)
Theorem qmp_blocked (s s' : QMP) (call : nat) (c : qmpCommand) (r r' : result) (e : option string) (l : list action) :
  (q_loop s = Reply call r e \/ q_loop s = Refuse call e) -> q_callers s !! call = Some (Returned c r') ->
  steps l s = Some s' -> q_loop s' = q_loop s /\ q_asked s' = q_asked s.
Proof.
  intros Hl E Hs. apply (blocked_steps l s s' Hs). exists call, c, r'. split; [done|]. by destruct Hl as [-> | ->].
Qed.

(** ** Runs *)

Definition greeting : object :=
  [("QMP", JObj [("version", JObj [("qemu", JObj [("major", JNum 6); ("minor", JNum 2); ("micro", JNum 0)])]);
                 ("capabilities", JArr [JStr "oob"])])].
Definition deleted : object := [("event", JStr "DEVICE_DELETED"); ("data", JObj [("device", JStr "d0")])].
Definition returned : object := [("return", JObj [("status", JStr "running")])].

Definition greeted : list action := [Emit (Some greeting); Line true].
Definition device_del (call ctx : nat) : action :=
  Call call ctx "device_del" [("id", JStr "d0")] (Some (mkFilter "DEVICE_DELETED" "device" "d0")) [].
Definition query (call ctx : nat) : action := Call call ctx "query-status" [] None [].

(** The state a run ends in. *)
Definition run (l : list action) : QMP := default startQMPLoop (steps l startQMPLoop).

Lemma run_reachable l : is_Some (steps l startQMPLoop) -> reachable (run l).
Proof. intros [s E]. exists l. unfold run. by rw E. Qed.

(** Two calls: the second one waits until the first one has its event. *)
Definition run_two : list action :=
  greeted ++ [device_del 0 0; query 1 1; Accept 0 true; Accept 1 true; Answer [("return", JObj [])]; Line true;
            Emit (Some deleted); Line true; Deliver true; Answer returned; Line true; Deliver true].

Lemma qmp_serial_witness :
  reachable (run run_two) /\ q_asked (run run_two) = [0; 1]%nat /\
  ok_result (run run_two) (mkCommand 1 1 "query-status" [] None false []) (JObj [("status", JStr "running")]).
Proof.
  assert (Hr : reachable (run run_two)) by (apply run_reachable; vm_compute; by eexists).
  split; [exact Hr|]. split; [vm_compute; reflexivity|].
  destruct (qmp_serial (run run_two) Hr) as (_ & _ & _ & H). eapply (H 1%nat). vm_compute. reflexivity.
Defined.

(** The second call is about to be answered. *)
Definition run_reply : list action := greeted ++ [query 0 0; Accept 0 true; Answer returned; Line true].

Lemma qmp_progress_witness : q_loop (run run_reply) <> Select /\ is_Some (step (Deliver true) (run run_reply)).
Proof.
  assert (Hr : reachable (run run_reply)) by (apply run_reachable; vm_compute; by eexists).
  assert (Hx : q_cancelled (run run_reply) = ∅) by (vm_compute; reflexivity).
  pose proof (qmp_progress (run run_reply) true Hr Hx) as H.
  assert (E : q_loop (run run_reply) = Reply 0 (Ok (JObj [("status", JStr "running")])) None) by (vm_compute; reflexivity).
  rw E. rw E in H. split; [discriminate|exact H].
Defined.

(** Three calls; writing the second command fails. *)
Definition run_stall : list action :=
  greeted ++ [query 0 0; query 1 1; query 2 2; Accept 0 true; Accept 1 true; Accept 2 true; Answer returned; Line true;
            Deliver false; Deliver true].

Definition after_stall : list action := [Cancel 2; ContextDone true; query 3 3; Accept 3 true].

Lemma qmp_stall_witness :
  calls (run run_stall) = [2]%nat /\
  q_asked (run (run_stall ++ after_stall)) = q_asked (run run_stall) /\
  calls (run run_stall) `prefix_of` calls (run (run_stall ++ after_stall)).
Proof.
  assert (Hr : reachable (run run_stall)) by (apply run_reachable; vm_compute; by eexists).
  split; [vm_compute; reflexivity|].
  apply (qmp_stall (run run_stall) (run (run_stall ++ after_stall))
    (mkCommand 2 2 "query-status" [] None false []) [] after_stall Hr); vm_compute; reflexivity.
Defined.

(** The context of a call is cancelled while its result is sent. *)
Definition run_blocked : list action := run_reply ++ [Cancel 0; SeeDone 0; query 1 1].

Lemma qmp_blocked_witness :
  reachable (run run_blocked) /\ (forall l s', steps l (run run_blocked) = Some s' -> q_asked s' = [0]%nat).
Proof.
  split; [apply run_reachable; vm_compute; by eexists|]. intros l s' E.
  destruct (qmp_blocked (run run_blocked) s' 0 (mkCommand 0 0 "query-status" [] None false [])
    (Ok (JObj [("status", JStr "running")])) (Err ctx_err) None l) as [_ A]; [left; vm_compute; reflexivity|vm_compute; reflexivity|exact E|].
  etransitivity; [exact A|]. vm_compute. reflexivity.
Defined.

End QmpSpec.
