(* ===== verification/QemuArch.v ===== *)
(** * The machine of an architecture

    [qemu_arch_base.go] and [qemu_amd64.go], with the generic functions of
    [qemu.go] and [hypervisor_linux_amd64.go] they call: the machine, the kernel
    parameters, the bridges, and the devices of the command line.  The methods
    [qemuAmd64] overrides are the overriding ones. *)
From S2P Require Import Prelude GoStr Types Utils Devices Hypervisor Qemu.

Module QemuArch.
Import Qemu HypervisorConf.
Import Types.Bridges(Bridge, mkBridge, NewBridge, BridgeType, PCI, PCIE, CCW).

(** ** The host *)

(** [os.Stat]: a file, a path that does not exist, or another error. *)
Inductive stat : Type :=
| Found (dir regular : bool) (size : Z)
| NotExist
| StatError.

Class QemuHost : Type := {
  host_scan : string -> res (list string * option error);
  host_Stat : string -> stat;
  host_Open : string -> res unit;
  host_ReadFile : string -> res string;
  host_Random : Z -> res (list Z);
  AMD_CBitPosition : Z;
  AMD_PhysAddrReduction : Z;
}.

Definition hex_EncodeToString (l : list Z) : string := Join "" (fmt_02x <$> l).

(** ** Constants *)

Definition defaultCores : Z := 1.
Definition defaultThreads : Z := 1.
Definition defaultCPUModel : string := "host".
Definition defaultBridgeBus : string := "pcie.0".
Definition defaultPCBridgeBus : string := "pci.0".
Definition maxDevIDSize : Z := 31.
Definition pcieRootPortPrefix : string := "rp".
Definition bridgePCIStartAddr : Z := 2.

Definition QemuQ35 : string := "q35".
Definition QemuMicrovm : string := "microvm".
Definition QemuVirt : string := "virt".
Definition QemuPseries : string := "pseries".
Definition qemuNvdimmOption : string := "nvdimm=on".
Definition scsiControllerID : string := "scsi0".

Definition defaultQemuPath : string := "/usr/bin/qemu-system-x86_64".
Definition defaultQemuMachineOptions : string := "accel=kvm,kernel_irqchip=on".

Definition kernelParamsNonDebug : list Param := [mkParam "quiet" ""].
Definition kernelParamsSystemdNonDebug : list Param := [mkParam "systemd.show_status" "false"].
Definition kernelParamsDebug : list Param := [mkParam "debug" ""].
Definition kernelParamsSystemdDebug : list Param :=
  [mkParam "systemd.show_status" "true"; mkParam "systemd.log_level" "debug"].

Definition commonNvdimmKernelRootParams : list Param :=
  [mkParam "root" "/dev/pmem0p1"; mkParam "rootflags" "dax,data=ordered,errors=remount-ro ro"; mkParam "rootfstype" "ext4"].
Definition commonNvdimmNoDAXKernelRootParams : list Param :=
  [mkParam "root" "/dev/pmem0p1"; mkParam "rootflags" "data=ordered,errors=remount-ro ro"; mkParam "rootfstype" "ext4"].
Definition commonVirtioblkKernelRootParams : list Param :=
  [mkParam "root" "/dev/vda1"; mkParam "rootflags" "data=ordered,errors=remount-ro ro"; mkParam "rootfstype" "ext4"].

(** The initial value of the variable [kernelParams] of the package. *)
Definition kernelParams_init : list Param :=
  [mkParam "tsc" "reliable"; mkParam "no_timer_check" ""; mkParam "rcupdate.rcu_expedited" "1";
   mkParam "i8042.direct" "1"; mkParam "i8042.dumbkbd" "1"; mkParam "i8042.nopnp" "1"; mkParam "i8042.noaux" "1";
   mkParam "noreplace-smp" ""; mkParam "reboot" "k"; mkParam "console" "hvc0"; mkParam "console" "hvc1";
   mkParam "cryptomgr.notests" ""; mkParam "net.ifnames" "0"; mkParam "pci" "lastbus=0"].

Definition supportedQemuMachines : list Machine :=
  [mkMachine QemuQ35 "" defaultQemuMachineOptions; mkMachine QemuVirt "" defaultQemuMachineOptions;
   mkMachine QemuMicrovm "" defaultQemuMachineOptions].

Definition qemuPaths (machineType : string) : string :=
  if bool_decide (machineType = QemuQ35) || bool_decide (machineType = QemuMicrovm) then defaultQemuPath else "".

(** ** Guest protection *)

Inductive guestProtection : Type := noneProtection | tdxProtection | sevProtection | pefProtection | seProtection.

#[export] Instance guestProtection_eq_dec : EqDecision guestProtection.
Proof. solve_decision. Defined.

Definition procCPUInfo : string := "/proc/cpuinfo".
Definition procMemInfo : string := "/proc/meminfo".
Definition tdxSysFirmwareDir : string := "/sys/firmware/tdx_seam/".
Definition sevKvmParameterPath : string := "/sys/module/kvm_amd/parameters/sev".

Definition availableGuestProtection `{QemuHost} : res guestProtection :=
  flags ← CPUFlags host_scan procCPUInfo;
  if (match host_Stat tdxSysFirmwareDir with Found dir _ _ => dir | _ => false end) || bool_decide ("tdx" ∈ flags)
  then Ok tdxProtection
  else
    match host_Stat sevKvmParameterPath, host_ReadFile sevKvmParameterPath with
    | Found _ _ _, Ok (String c _) => Ok (if bool_decide (c ∈ ["1"%char; "Y"%char]) then sevProtection else noneProtection)
    | _, _ => Ok noneProtection
    end.

(** ** The state *)

(** [qemuAmd64], with the fields of [qemuArchBase] it embeds. *)
Record qemuArch : Type := mkQemuArch {
  qa_qemuExePath : string;
  qa_qemuMachine : Machine;
  qa_PFlash : list string;
  qa_kernelParamsNonDebug : list Param;
  qa_kernelParamsDebug : list Param;
  qa_kernelParams : list Param;
  qa_Bridges : list Bridge;
  qa_memoryOffset : Z;
  qa_networkIndex : Z;
  qa_protection : guestProtection;
  qa_nestedRun : bool;
  qa_vhost : bool;
  qa_disableNvdimm : bool;
  qa_dax : bool;
  qa_vmFactory : bool;
  qa_devLoadersCount : Z;
  qa_sgxEPCSize : Z;
}.

#[export] Instance eta_qemuArch : Eta qemuArch := fun r =>
  mkQemuArch (qa_qemuExePath r) (qa_qemuMachine r) (qa_PFlash r) (qa_kernelParamsNonDebug r) (qa_kernelParamsDebug r)
    (qa_kernelParams r) (qa_Bridges r) (qa_memoryOffset r) (qa_networkIndex r) (qa_protection r) (qa_nestedRun r)
    (qa_vhost r) (qa_disableNvdimm r) (qa_dax r) (qa_vmFactory r) (qa_devLoadersCount r) (qa_sgxEPCSize r).

Definition set_Options (options : string) (m : Machine) : Machine :=
  mkMachine (Machine_Type m) (Acceleration m) options.

(** [if Options != "" { Options += "," }; Options += s]. *)
Definition add_Option (s : string) (m : Machine) : Machine :=
  set_Options (if given (Machine_Options m) then Machine_Options m +:+ "," +:+ s else s) m.

(** ** A new machine *)

Definition enableProtection `{QemuHost} : M qemuArch unit :=
  protection ← lift availableGuestProtection;
  _ ← modify (fun q => q <| qa_protection := protection |>);
  match protection with
  | tdxProtection =>
      modify (fun q => q <| qa_qemuMachine ::= add_Option "kvm-type=tdx,confidential-guest-support=tdx" |>
                         <| qa_kernelParams ::= fun l => l ++ [mkParam "tdx_guest" ""] |>)
  | sevProtection => modify (fun q => q <| qa_qemuMachine ::= add_Option "confidential-guest-support=sev" |>)
  | _ => throw (Errorf "This system doesn't support Confidential Computing (Guest Protection)")
  end.

Definition handleImagePath (config : HypervisorConfig) (q : qemuArch) : qemuArch :=
  if given (hc_ImagePath config) then
    let root :=
      if qa_disableNvdimm q then commonVirtioblkKernelRootParams
      else if qa_dax q then commonNvdimmKernelRootParams else commonNvdimmNoDAXKernelRootParams in
    let q :=
      if qa_disableNvdimm q then q
      else q <| qa_qemuMachine ::= fun m => set_Options (Join "," [Machine_Options m; qemuNvdimmOption]) m |> in
    q <| qa_kernelParams ::= fun l => l ++ root |>
      <| qa_kernelParamsNonDebug ::= fun l => l ++ kernelParamsSystemdNonDebug |>
      <| qa_kernelParamsDebug ::= fun l => l ++ kernelParamsSystemdDebug |>
  else q.

(** [newQemuArch] works on the variable [kernelParams] of the package: the
    parameters of an IOMMU stay in it for the machines made later. *)
Definition newQemuArch `{QemuHost} (config : HypervisorConfig) : M (list Param) qemuArch :=
  let machineType := if given (hc_HypervisorMachineType config) then hc_HypervisorMachineType config else QemuQ35 in
  match list_find (fun m => Machine_Type m = machineType) supportedQemuMachines with
  | None => throw (Errorf "unrecognised machinetype: %v")
  | Some (_, m) =>
      let factory := hc_BootToBeTemplate config || hc_BootFromTemplate config in
      let m :=
        if hc_IOMMU config || hc_ConfidentialGuest config then set_Options "accel=kvm,kernel_irqchip=split" m else m in
      _ ← when (hc_IOMMU config) (modify (fun l => l ++ [mkParam "intel_iommu" "on"; mkParam "iommu" "pt"]));
      kernelParams ← get;
      let q := mkQemuArch (qemuPaths machineType) m [] kernelParamsNonDebug kernelParamsDebug kernelParams []
                 (hc_MemOffset config) 0 noneProtection false false (hc_DisableImageNvdimm config) true factory 0 0 in
      q ← (if hc_ConfidentialGuest config then
             match enableProtection q with
             | (Ok _, q) => mret (q <| qa_disableNvdimm := true |>)
             | (Err e, _) => throw e
             end
           else mret q);
      let q :=
        if hc_SGXEPCSize config =? 0 then q
        else q <| qa_sgxEPCSize := hc_SGXEPCSize config |>
               <| qa_qemuMachine ::= add_Option "sgx-epc.0.memdev=epc0,sgx-epc.0.node=0" |> in
      mret (handleImagePath config q)
  end.

(** ** What the machine is *)

Definition kernelParameters (debug : bool) (q : qemuArch) : list Param :=
  qa_kernelParams q ++ (if debug then qa_kernelParamsDebug q else qa_kernelParamsNonDebug q).

Definition capabilities (q : qemuArch) : Types.Caps.Capabilities :=
  let hotplug := bool_decide (Machine_Type (qa_qemuMachine q) = QemuQ35) || bool_decide (Machine_Type (qa_qemuMachine q) = QemuVirt) in
  let caps := if hotplug then Types.Caps.SetBlockDeviceHotplugSupport 0 else 0 in
  Types.Caps.SetFsSharingSupport (Types.Caps.SetMultiQueueSupport caps).

Definition cpuTopology (vcpus maxvcpus : Z) : SMP := mkSMP vcpus defaultCores defaultThreads maxvcpus maxvcpus.

Definition cpuModel (q : qemuArch) : string :=
  if qa_vmFactory q then defaultCPUModel +:+ ",vmx=off" else defaultCPUModel.

Definition genericMemoryTopology (memoryMb hostMemoryMb slots memoryOffset : Z) : Memory :=
  let memoryOffset := u64 (memoryOffset + 1024) in
  mkMemory (FormatUint 10 memoryMb +:+ "M") slots (FormatUint 10 (u64 (hostMemoryMb + memoryOffset)) +:+ "M") "".

Definition memoryTopology (memoryMb hostMemoryMb slots : Z) (q : qemuArch) : Memory :=
  genericMemoryTopology memoryMb hostMemoryMb slots (qa_memoryOffset q).

Definition supportGuestMemoryHotplug (q : qemuArch) : bool :=
  negb (bool_decide (Machine_Type (qa_qemuMachine q) = MachineTypeMicrovm)) && bool_decide (qa_protection q = noneProtection).

(** ** Bridges *)

Definition genericBridges (number : Z) (machineType : string) : list Bridge :=
  let bridges (bt : BridgeType) :=
    (fun i => NewBridge bt (bt +:+ "-bridge-" +:+ FormatUint 10 i) ∅ 0) <$> seqZ 0 number in
  if bool_decide (machineType ∈ [QemuQ35; QemuVirt; QemuPseries]) then bridges PCI
  else if bool_decide (machineType = QemuCCWVirtio) then bridges CCW
  else [].

Definition bridges (number : Z) (q : qemuArch) : qemuArch :=
  q <| qa_Bridges := genericBridges number (Machine_Type (qa_qemuMachine q)) |>.

Definition set_Addr (addr : Z) (b : Bridge) : Bridge :=
  mkBridge (Types.Bridges.br_Devices b) (Types.Bridges.br_ID b) (Types.Bridges.br_Type b) addr (Types.Bridges.br_MaxCapacity b).

(** The device of a bridge of the command line; [None] for a CCW bridge. *)
Definition bridge_device (bus : string) (idx : nat) (b : Bridge) : option BridgeDevice :=
  let bt := Types.Bridges.br_Type b in
  if bool_decide (bt = CCW) then None
  else
    Some (mkBridgeDevice (if bool_decide (bt = PCIE) then PCIEBridge else PCIBridge) bus (Types.Bridges.br_ID b)
            (Z.of_nat idx + 1) false (FormatInt 10 (bridgePCIStartAddr + Z.of_nat idx)) "" "4k" "1m" "1m").

(** Every bridge but a CCW one is given its address, in the array of the
    caller. *)
Definition genericAppendBridges (devices : list Device) (bridges : list Bridge) (machineType : string) :
    list Device * list Bridge :=
  let bus := if bool_decide (machineType ∈ [QemuQ35; QemuVirt]) then defaultBridgeBus else defaultPCBridgeBus in
  (devices ++ (DBridge <$> omap id (imap (bridge_device bus) bridges)),
   imap (fun idx b => if bool_decide (Types.Bridges.br_Type b = CCW) then b
                      else set_Addr (bridgePCIStartAddr + Z.of_nat idx) b) bridges).

Definition appendBridges (devices : list Device) (q : qemuArch) : list Device * qemuArch :=
  let '(devices, bridges) := genericAppendBridges devices (qa_Bridges q) (Machine_Type (qa_qemuMachine q)) in
  (devices, q <| qa_Bridges := bridges |>).

(** The first bridge of the type that has a free slot; the address and a copy
    of the bridge are returned. *)
Fixpoint add_to_bridges (ID : string) (t : BridgeType) (l : list Bridge) : option (Z * Bridge) * list Bridge :=
  match l with
  | [] => (None, [])
  | b :: l' =>
      if bool_decide (t = Types.Bridges.br_Type b) then
        match Types.Bridges.AddDevice ID b with
        | (Ok addr, b') => (Some (addr, b'), b' :: l')
        | (Err _, b') => let '(r, l'') := add_to_bridges ID t l' in (r, b' :: l'')
        end
      else let '(r, l'') := add_to_bridges ID t l' in (r, b :: l'')
  end.

Definition genericAddDeviceToBridge (ID : string) (t : BridgeType) : M (list Bridge) (Z * Bridge) := fun l =>
  match l with
  | [] => (Err (Errorf "failed to get available address from bridges"), l)
  | _ =>
      match add_to_bridges ID t l with
      | (Some r, l') => (Ok r, l')
      | (None, l') => (Err (Errorf "no more bridge slots available"), l')
      end
  end.

(** A computation on the bridges. *)
Definition on_bridges {A} (m : M (list Bridge) A) : M qemuArch A := fun q =>
  let '(r, l) := m (qa_Bridges q) in (r, q <| qa_Bridges := l |>).

Definition addDeviceToBridge (ID : string) (t : BridgeType) : M qemuArch (string * Bridge) :=
  r ← on_bridges (genericAddDeviceToBridge ID t);
  mret (fmt_02x r.1, r.2).

(** The first bridge that has the device; without bridges there is no error. *)
Fixpoint remove_from_bridges `{GoRange} (ID : string) (err : res unit) (l : list Bridge) : res unit * list Bridge :=
  match l with
  | [] => (err, [])
  | b :: l' =>
      match Types.Bridges.RemoveDevice ID b with
      | (Ok _, b') => (Ok tt, b' :: l')
      | (Err e, b') => let '(r, l'') := remove_from_bridges ID (Err e) l' in (r, b' :: l'')
      end
  end.

Definition removeDeviceFromBridge `{GoRange} (ID : string) : M qemuArch unit :=
  on_bridges (remove_from_bridges ID (Ok tt)).

(** ** Devices of the command line *)

Definition appendConsole (devices : list Device) (path : string) (q : qemuArch) : list Device :=
  devices ++
  [DSerial (mkSerialDevice VirtioSerial "serial0" (qa_nestedRun q) "" "" "" 2);
   DChar (mkCharDevice Socket "virtconsole" "" "console0" "charconsole0" path "" false "" "" "")].

Definition genericImage `{QemuHost} (path : string) : res Config.BlockDrive :=
  match host_Stat path with
  | NotExist => Err (ErrExternal "no such file or directory")
  | _ =>
      randBytes ← host_Random 8;
      Ok (Config.mkBlockDrive path "raw" (Names.MakeNameID "image" (hex_EncodeToString randBytes) maxDevIDSize)
            "" "" "" "" "" [] 0 true true false false)
  end.

Definition appendNvdimmImage `{QemuHost} (devices : list Device) (path : string) : res (list Device) :=
  _ ← host_Open path;
  match host_Stat path with
  | Found _ _ size =>
      Ok (devices ++ [DObject (mkObject "nvdimm" MemoryBackendFile "mem0" "nv0" path (u64 size) false "" "" 0 0 true false)])
  | _ => Err (ErrExternal "stat")
  end.

Definition genericBlockDevice (drive : Config.BlockDrive) (nestedRun : bool) : res BlockDevice :=
  if negb (given (Config.bd_File drive) && given (Config.bd_ID drive) && given (Config.bd_Format drive)) then
    Err (Errorf "Empty File, ID or Format for drive %v")
  else
    Ok (mkBlockDevice VirtioBlock (str_take (Z.to_nat maxDevIDSize) (Config.bd_ID drive)) (Config.bd_File drive) "none"
          "threads" (Config.bd_Format drive) false false nestedRun "" "" (Config.bd_ShareRW drive)
          (Config.bd_ReadOnly drive) "").

Definition appendBlockDevice (devices : list Device) (drive : Config.BlockDrive) (q : qemuArch) : res (list Device) :=
  match genericBlockDevice drive (qa_nestedRun q) with
  | Ok d => Ok (devices ++ [DBlock d])
  | Err _ => Err (Errorf "Failed to append block device %v")
  end.

Definition appendBlockImage `{QemuHost} (devices : list Device) (path : string) (q : qemuArch) : res (list Device) :=
  drive ← genericImage path;
  appendBlockDevice devices drive q.

Definition appendImage `{QemuHost} (devices : list Device) (path : string) (q : qemuArch) : res (list Device) :=
  if qa_disableNvdimm q then appendBlockImage devices path q else appendNvdimmImage devices path.

(** A failure of the random source is ignored. *)
Definition genericSCSIController `{QemuHost} (enableIOThreads nestedRun : bool) : SCSIController * option IOThread :=
  let controller := mkSCSIController scsiControllerID "" "" nestedRun in
  if enableIOThreads then
    let randBytes := match host_Random 8 with Ok l => l | Err _ => [] end in
    let t := mkIOThread ("iothread-" +:+ hex_EncodeToString randBytes) in
    (controller (it_ID t) "" "" "", Some t)
  else (controller "" "" "" "", None).

Definition appendSCSIController `{QemuHost} (devices : list Device) (enableIOThreads : bool) (q : qemuArch) :
    list Device * option IOThread :=
  let '(d, t) := genericSCSIController enableIOThreads (qa_nestedRun q) in (devices ++ [DSCSI d], t).

Definition generic9PVolume (volume : Types.Volumes.Volume) (nestedRun : bool) : FSDevice :=
  mkFSDevice Virtio9P "local"
    (str_take (Z.to_nat maxDevIDSize) ("extra-9p-" +:+ Types.Volumes.vol_MountTag volume))
    (Types.Volumes.vol_HostPath volume) (Types.Volumes.vol_MountTag volume) "none" nestedRun "" "" "" "remap".

Definition append9PVolume (devices : list Device) (volume : Types.Volumes.Volume) (q : qemuArch) : list Device :=
  if given (Types.Volumes.vol_MountTag volume) && given (Types.Volumes.vol_HostPath volume)
  then devices ++ [DFS (generic9PVolume volume (qa_nestedRun q))]
  else devices.

Definition appendSocket (devices : list Device) (socket : Types.Sockets.Socket) : list Device :=
  devices ++
  [DChar (mkCharDevice Socket "virtserialport" "" (Types.Sockets.sock_DeviceID socket)
            (str_take (Z.to_nat maxDevIDSize) (Types.Sockets.sock_ID socket)) (Types.Sockets.sock_HostPath socket)
            (Types.Sockets.sock_Name socket) false "" "" "")].

(** [types.VSock]. *)
Record VSock : Type := mkVSock { vk_VhostFd : File; vk_ContextID : Z; vk_Port : Z }.

Definition appendVSock (devices : list Device) (vsock : VSock) (q : qemuArch) : list Device :=
  devices ++
  [DVSOCK (mkVSOCKDevice ("vsock-" +:+ FormatUint 10 (vk_ContextID vsock)) (vk_ContextID vsock) (vk_VhostFd vsock)
             (qa_nestedRun q) "" "" "")].

(** ** Network *)

(** [NetInterworkingModel]; the other values behave alike here. *)
Definition NetXConnectMacVtapModel : Z := 1.

Record TapInterface : Type := mkTapInterface {
  ti_ID : string;
  ti_Name : string;
  ti_TAPIface_Name : string;
  ti_TAPIface_HardAddr : string;
  ti_VMFds : list File;
  ti_VhostFds : list File;
}.

Record NetworkInterfacePair : Type := mkPair { np_Tap : TapInterface; np_Model : Z }.

(** The types of endpoints the methods distinguish. *)
Inductive Endpoint : Type :=
| VethEndpoint (p : NetworkInterfacePair)
| MacvlanEndpoint (p : NetworkInterfacePair)
| IPVlanEndpoint (p : NetworkInterfacePair)
| MacvtapEndpoint (name hardAddr : string) (VMFds VhostFds : list File)
| TuntapEndpoint (p : NetworkInterfacePair)
| TapEndpoint (tap : TapInterface)
| OtherEndpoint (name : string).

Definition networkModelToQemuType (model : Z) : string := if model =? NetXConnectMacVtapModel then MACVTAP else TAP.

(** The device of an interface: its type, name, address and files. *)
Definition net_device (type ifname mac : string) (fds vhostFds : list File) (vhost nestedRun : bool) (index : Z) :
    NetDevice :=
  mkNetDevice type "virtio-net" ("network-" +:+ Itoa index) ifname "" "" "no" "no" fds vhostFds vhost mac nestedRun
    "" "" "".

Definition pair_device (type : string) (p : NetworkInterfacePair) : bool -> bool -> Z -> NetDevice :=
  let tap := np_Tap p in
  net_device type (ti_TAPIface_Name tap) (ti_TAPIface_HardAddr tap) (ti_VMFds tap) (ti_VhostFds tap).

Definition genericNetwork (endpoint : Endpoint) (vhost nestedRun : bool) (index : Z) : res NetDevice :=
  match endpoint with
  | VethEndpoint p | MacvlanEndpoint p | IPVlanEndpoint p =>
      Ok (pair_device (networkModelToQemuType (np_Model p)) p vhost nestedRun index)
  | MacvtapEndpoint name hardAddr fds vhostFds => Ok (net_device MACVTAP name hardAddr fds vhostFds vhost nestedRun index)
  | TuntapEndpoint p => Ok (pair_device TAP p vhost nestedRun index)
  | TapEndpoint _ | OtherEndpoint _ => Err (Errorf "Unknown type for endpoint")
  end.

Definition appendNetwork (devices : list Device) (endpoint : Endpoint) : M qemuArch (list Device) :=
  q ← get;
  match genericNetwork endpoint (qa_vhost q) (qa_nestedRun q) (qa_networkIndex q) with
  | Err _ => throw (Errorf "Failed to append network %v")
  | Ok d => _ ← modify (fun q => q <| qa_networkIndex ::= fun i => i64 (i + 1) |>); mret (devices ++ [DNet d])
  end.

(** ** The other devices *)

Definition appendVhostUserDevice (devices : list Device) (attr : Config.VhostUserDeviceAttrs) : list Device :=
  let type := Config.vu_Type attr in
  let named t := Names.MakeNameID t (Config.vu_DevID attr) maxDevIDSize in
  let device typeDevID address tag cacheSize userType :=
    mkVhostUserDevice (Config.vu_SocketPath attr) (named "char") typeDevID address tag cacheSize false userType "" "" "" in
  devices ++
  [DVhostUser
    (if bool_decide (type = Config.VhostUserNet) then device (named "net") (Config.vu_MacAddress attr) "" 0 VhostUserNet
     else if bool_decide (type = Config.VhostUserSCSI) then device (named "scsi") "" "" 0 VhostUserSCSI
     else if bool_decide (type = Config.VhostUserBlk) then device "" "" "" 0 VhostUserBlk
     else if bool_decide (type = Config.VhostUserFS)
     then device (named "fs") "" (Config.vu_Tag attr) (Config.vu_CacheSize attr) VhostUserFS
     else device "" "" "" 0 "")].

Definition appendVFIODevice (devices : list Device) (vfioDev : Config.VFIODev) : list Device :=
  if given (Config.vd_BDF vfioDev) then
    devices ++
    [DVFIO (mkVFIODevice (Config.vd_BDF vfioDev) "" "" (Config.vd_VendorID vfioDev) (Config.vd_DeviceID vfioDev)
              (Config.vd_Bus vfioDev) "")]
  else devices.

Definition appendRNGDevice (devices : list Device) (id filename : string) : list Device :=
  devices ++ [DRng (mkRngDevice id filename 0 0 "" "" "")].

Definition appendIOMMU (devices : list Device) (q : qemuArch) : res (list Device) :=
  if bool_decide (Machine_Type (qa_qemuMachine q) = QemuQ35) then Ok (devices ++ [DIommu (mkIommuDev true true true)])
  else Err (Errorf "Machine Type %s does not support vIOMMU").

Definition appendPVPanicDevice (devices : list Device) : list Device := devices ++ [DPVPanic (mkPVPanicDevice true)].

Definition genericAppendPCIeRootPort (devices : list Device) (number : Z) (machineType : string) : list Device :=
  if bool_decide (machineType = QemuQ35) then
    devices ++
    ((fun i => DRootPort (mkPCIeRootPortDevice (pcieRootPortPrefix +:+ FormatUint 10 i) defaultBridgeBus "0"
        (FormatUint 10 i) false "0" "" "" "" "" "" "" "")) <$> seqZ 0 number)
  else devices.

Definition appendPCIeRootPortDevice (devices : list Device) (number : Z) (q : qemuArch) : list Device :=
  genericAppendPCIeRootPort devices number (Machine_Type (qa_qemuMachine q)).

(** The firmware is handed to the protection device when there is one. *)
Definition appendProtectionDevice `{QemuHost} (devices : list Device) (firmware firmwareVolume : string) :
    M qemuArch (list Device * string) :=
  q ← get;
  let devices :=
    if qa_sgxEPCSize q =? 0 then devices
    else devices ++ [DObject (mkObject "" MemoryBackendEPC "epc0" "" "" (u64 (qa_sgxEPCSize q)) false "" "" 0 0 false true)] in
  match qa_protection q with
  | tdxProtection =>
      _ ← modify (fun q => q <| qa_devLoadersCount ::= fun n => u32 (n + 1) |>);
      mret (devices ++ [DObject (mkObject "loader" TDXGuest "tdx" ("fd" +:+ FormatUint 10 (qa_devLoadersCount q)) "" 0 false
                                   firmware firmwareVolume 0 0 false false)], "")
  | sevProtection =>
      mret (devices ++ [DObject (mkObject "" SEVGuest "sev" "" "" 0 false firmware "" AMD_CBitPosition
                                   AMD_PhysAddrReduction false false)], "")
  | noneProtection => mret (devices, firmware)
  | _ => throw (Errorf "Unsupported guest protection technology: %v")
  end.

End QemuArch.
