(* ===== verification/QemuVM.v ===== *)
(** * The QEMU hypervisor

    [qemu.go]: a machine is configured ([CreateVM], [AddDevice]), started and
    stopped, and its devices, processors and memory are changed while it runs.
    The state holds the fields of the structure [qemu], what was sent to the
    control socket ([QmpCmd]), the operations on the host and the commands run.
    What the host and QEMU answer are classes.  A method that fills in the
    structure of a device works on a pair of the machine and the device. *)
From S2P Require Import Prelude GoStr Types Utils Devices Hypervisor Persist Qemu Qmp QmpCmd QemuArch.

Module QemuVM.
Import Qemu QmpCmd QemuArch HypervisorConf.
Import Types.Bridges(Bridge, NewBridge, PCI, CCW).
Import Types.PciPaths Filepath.

(** ** The host *)

(** The daemon that shares directories with the guest. *)
Inductive VirtiofsDaemon : Type :=
| virtiofsd (path sourcePath socketPath : string) (extraArgs : list string) (cache : string)
| nydusd (path sockPath apiSockPath sourcePath : string) (debug : bool) (extraArgs : list string).

Inductive hostop : Type :=
| MkdirAll (path : string)
| RemoveAll (path : string)
| SetProcessLabel (label : string)
| DaemonStart (d : VirtiofsDaemon)
| DaemonStop (d : VirtiofsDaemon).

(** The result of an operation depends on the ones before it; starting a daemon
    gives its process.  [tries] is the number of rounds a loop makes before its
    timeout, in milliseconds, has passed. *)
Class VMHost : Type := {
  hostop_result : list hostop -> hostop -> res Z;
  EvalSymlinks : string -> res string;
  uuid_Generate : string;
  tries : Z -> nat;
  wait_kill : Z -> Z -> WaitProcess.kill_result;
  wait_events : Z -> list WaitProcess.event;
  blksize : string -> res Z;
}.

(** ** The state *)

Record QemuState : Type := mkQemuState {
  qs_UUID : string;
  qs_Bridges : list Bridge;
  qs_HotpluggedVCPUs : list string;
  qs_HotpluggedMemory : Z;
  qs_VirtiofsDaemonPid : Z;
  qs_PCIeRootPort : Z;
  qs_HotplugVFIOOnRootBus : bool;
}.

#[export] Instance eta_QemuState : Eta QemuState := fun r =>
  mkQemuState (qs_UUID r) (qs_Bridges r) (qs_HotpluggedVCPUs r) (qs_HotpluggedMemory r) (qs_VirtiofsDaemonPid r)
    (qs_PCIeRootPort r) (qs_HotplugVFIOOnRootBus r).

Record qemu : Type := mkQemu {
  vm_arch : qemuArch;
  vm_virtiofsDaemon : option VirtiofsDaemon;
  vm_fds : list File;
  vm_id : string;
  vm_state : QemuState;
  (** [qmpMonitorCh]: the path, and whether there is a connection *)
  vm_qmpPath : string;
  vm_qmp : bool;
  vm_qemuConfig : Qemu.Config;
  vm_config : HypervisorConfig;
  vm_nvdimmCount : Z;
  vm_stopped : bool;
  (** the variable [kernelParams] of the package *)
  vm_kernelParams : list Param;
  (** what was done outside the structure *)
  vm_history : history;
  vm_host : list hostop;
  vm_ran : list Cmd;
}.

#[export] Instance eta_qemu : Eta qemu := fun r =>
  mkQemu (vm_arch r) (vm_virtiofsDaemon r) (vm_fds r) (vm_id r) (vm_state r) (vm_qmpPath r) (vm_qmp r)
    (vm_qemuConfig r) (vm_config r) (vm_nvdimmCount r) (vm_stopped r) (vm_kernelParams r) (vm_history r) (vm_host r)
    (vm_ran r).

Definition consoleSocket : string := "console.sock".
Definition qmpSocket : string := "qmp.sock".
Definition vhostFSSocket : string := "vhost-fs.sock".
Definition nydusdAPISock : string := "nydusd-api.sock".
Definition fallbackFileBackedMemDir : string := "/dev/shm".
Definition qmpExecCatCmd : string := "exec:cat".
Definition VirtioFSNydus : string := "virtio-fs-nydus".
Definition romFile : string := "".
Definition qmpMigrationWaitTimeout : Z := 5000.
Definition qemuStopSandboxTimeoutSecs : Z := 15.

Definition defaultKernelParameters : list Param := [mkParam "panic" "1"].

Section VM.
Context `{GoArch, QmpServer, QemuHost, VMHost, Exec, GoRange}.

(** ** Calling the parts *)

Definition config : M qemu HypervisorConfig := gets vm_config.
Definition state : M qemu QemuState := gets vm_state.

(** A command on the control socket. *)
Definition qmp {A} (m : M history A) : M qemu A := fun q =>
  let '(r, h) := m (vm_history q) in (r, q <| vm_history := h |>).
Definition arch {A} (m : M qemuArch A) : M qemu A := fun q =>
  let '(r, a) := m (vm_arch q) in (r, q <| vm_arch := a |>).
Definition on_arch (f : qemuArch -> qemuArch) : M qemu unit := modify (fun q => q <| vm_arch ::= f |>).

Definition hostop_do (op : hostop) : M qemu Z := fun q =>
  (hostop_result (vm_host q) op, q <| vm_host ::= fun l => l ++ [op] |>).

(** [defer c()] whose errors are dropped, on the error path only. *)
Definition ignore {A} (m : M qemu A) : M qemu unit := _ ← try m; mret tt.

(** ** Configuration *)

Definition setConfig (hypervisorConfig : HypervisorConfig) : M qemu unit :=
  match Valid hypervisorConfig with
  | (Ok _, conf) => modify (fun q => q <| vm_config := conf |>)
  | (Err e, _) => throw e
  end.

Definition kernelParameters : M qemu string :=
  q ← get;
  let conf := vm_config q in
  let params :=
    QemuArch.kernelParameters (hc_Debug conf) (vm_arch q) ++ defaultKernelParameters
    ++ [mkParam "nr_cpus" (FormatUint 10 (hc_DefaultMaxVCPUs conf))] ++ hc_KernelParams conf in
  mret (Join " " (SerializeParams params "=")).

Definition qemuPath : M qemu string :=
  q ← get;
  p ← lift (HypervisorAssetPath (vm_config q));
  let p := if given p then p else qa_qemuExePath (vm_arch q) in
  match host_Stat p with
  | NotExist => throw (Errorf "QEMU path (%s) does not exist")
  | _ => mret p
  end.

Definition hostMemMB : res Z :=
  match GetHostMemorySizeKb host_scan procMemInfo with
  | Err _ => Err (Errorf "Unable to read memory info: %s")
  | Ok kb => if kb =? 0 then Err (Errorf "Error host memory size 0") else Ok (kb / 1024)
  end.

Definition setup (id : string) (hypervisorConfig : HypervisorConfig) : M qemu unit :=
  _ ← setConfig hypervisorConfig;
  _ ← modify (fun q => q <| vm_id := id |>);
  conf ← config;
  a ← (fun q => let '(r, params) := newQemuArch conf (vm_kernelParams q) in (r, q <| vm_kernelParams := params |>));
  _ ← modify (fun q => q <| vm_arch := a |>);
  initrdPath ← lift (InitrdAssetPath conf);
  imagePath ← lift (ImageAssetPath conf);
  _ ← modify (fun q => q <| vm_nvdimmCount :=
        if negb (given initrdPath) && given imagePath && negb (hc_DisableImageNvdimm conf) then 1 else 0 |>);
  st ← state;
  _ ← on_arch (fun a => a <| qa_Bridges := qs_Bridges st |>);
  _ ← on_arch (fun a => a <| qa_PFlash := hc_PFlash conf |>);
  _ ← when (negb (given (qs_UUID st)))
        (_ ← on_arch (bridges (hc_DefaultBridges conf));
         _ ← modify (fun q => q <| vm_state ::= fun st =>
               st <| qs_UUID := uuid_Generate |>
                  <| qs_HotplugVFIOOnRootBus := hc_HotplugVFIOOnRootBus conf |>
                  <| qs_PCIeRootPort := hc_PCIeRootPort conf |> |>);
         _ ← hostop_do (MkdirAll (PathJoin [hc_RunStorePath conf; id]));
         mret tt);
  nested ← lift (RunningOnVMM host_scan procCPUInfo);
  _ ← on_arch (fun a => a <| qa_nestedRun := negb (hc_DisableNestingChecks conf) && nested |>);
  on_arch (fun a => a <| qa_vhost := negb (hc_DisableVhostNet conf) |>).

(** ** The machine that is created *)

Definition memoryTopology : M qemu Memory :=
  hostMemMb ← lift hostMemMB;
  q ← get;
  let conf := vm_config q in
  mret (QemuArch.memoryTopology (hc_MemorySize conf) hostMemMb (u8 (hc_MemSlots conf)) (vm_arch q)).

(** A socket of the machine under [VMStorePath]. *)
Definition socket_path (id name : string) : M qemu string :=
  conf ← config; lift (Dirs.BuildSocketPath [hc_VMStorePath conf; id; name]).
Definition qmpSocketPath (id : string) : M qemu string := socket_path id qmpSocket.
Definition vhostFSSocketPath (id : string) : M qemu string := socket_path id vhostFSSocket.
Definition nydusdAPISocketPath (id : string) : M qemu string := socket_path id nydusdAPISock.
Definition GetVMConsole (id : string) : M qemu string := socket_path id consoleSocket.

Definition getQemuMachine : M qemu Machine :=
  q ← get;
  let machine := qa_qemuMachine (vm_arch q) in
  let accelerators := hc_MachineAccelerators (vm_config q) in
  mret (if given accelerators then
          set_Options (Machine_Options machine +:+
                       (if HasPrefix accelerators "," then accelerators else "," +:+ accelerators)) machine
        else machine).

Definition appendImage (devices : list Device) : M qemu (list Device) :=
  q ← get;
  imagePath ← lift (ImageAssetPath (vm_config q));
  if given imagePath then lift (QemuArch.appendImage devices imagePath (vm_arch q)) else mret devices.

Definition createQmpSocket : M qemu (list QMPSocket) :=
  q ← get;
  path ← qmpSocketPath (vm_id q);
  _ ← modify (fun q => q <| vm_qmpPath := path |> <| vm_qmp := false |>);
  mret [mkQMPSocket "unix" path true true].

Definition buildDevices (initrdPath : string) : M qemu (list Device * option IOThread) :=
  q ← get;
  console ← GetVMConsole (vm_id q);
  devices ← arch (fun a => let '(devices, a) := appendBridges [] a in (Ok devices, a));
  q ← get;
  let devices := appendConsole devices console (vm_arch q) in
  devices ← (if given initrdPath then mret devices else appendImage devices);
  devices ← (if hc_IOMMU (vm_config q) then lift (appendIOMMU devices (vm_arch q)) else mret devices);
  let devices := if IfPVPanicEnabled (vm_config q) then appendPVPanicDevice devices else devices in
  if bool_decide (hc_BlockDeviceDriver (vm_config q) = Config.VirtioSCSI)
  then mret (appendSCSIController devices (hc_EnableIOThreads (vm_config q)) (vm_arch q))
  else mret (devices, None).

Definition virtiofs (conf : HypervisorConfig) : bool :=
  bool_decide (hc_SharedFS conf = VirtioFS) || bool_decide (hc_SharedFS conf = VirtioFSNydus).

Definition set_FileBacked (shared : bool) (k : Knobs) : Knobs :=
  mkKnobs (NoUserConfig k) (NoDefaults k) (NoGraphic k) (Daemonize k) (HugePages k) (MemPrealloc k) true shared (Mlock k)
    (Stopped k) (NoReboot k) (NoShutdown k) (IOMMUPlatform k).
Definition set_MemShared (k : Knobs) : Knobs :=
  mkKnobs (NoUserConfig k) (NoDefaults k) (NoGraphic k) (Daemonize k) (HugePages k) (MemPrealloc k) (FileBackedMem k) true
    (Mlock k) (Stopped k) (NoReboot k) (NoShutdown k) (IOMMUPlatform k).
Definition set_MemPrealloc (k : Knobs) : Knobs :=
  mkKnobs (NoUserConfig k) (NoDefaults k) (NoGraphic k) (Daemonize k) (HugePages k) true (FileBackedMem k) (MemShared k)
    (Mlock k) (Stopped k) (NoReboot k) (NoShutdown k) (IOMMUPlatform k).
Definition set_Path (path : string) (m : Memory) : Memory := mkMemory (mem_Size m) (mem_Slots m) (mem_MaxMem m) path.

Definition setupTemplate (conf : HypervisorConfig) (knobs : Knobs) (memory : Memory) : Incoming * Knobs * Memory :=
  if hc_BootToBeTemplate conf || hc_BootFromTemplate conf then
    (mkIncoming (if hc_BootFromTemplate conf then MigrationDefer else 0) None "",
     set_FileBacked (MemShared knobs || hc_BootToBeTemplate conf) knobs, set_Path (hc_MemoryPath conf) memory)
  else (mkIncoming 0 None "", knobs, memory).

(** A directory that is missing is logged; the memory is not backed then. *)
Definition setupFileBackedMem (conf : HypervisorConfig) (knobs : Knobs) (memory : Memory) : Knobs * Memory :=
  let target := if given (hc_FileBackedMemRootDir conf) then hc_FileBackedMemRootDir conf else fallbackFileBackedMemDir in
  match host_Stat target with
  | Found _ _ _ => (set_FileBacked true knobs, set_Path target memory)
  | _ => (knobs, memory)
  end.

Definition createVirtiofsDaemon (sharedPath : string) : M qemu VirtiofsDaemon :=
  q ← get;
  let conf := vm_config q in
  sock ← vhostFSSocketPath (vm_id q);
  if bool_decide (hc_SharedFS conf = VirtioFSNydus) then
    api ← nydusdAPISocketPath (vm_id q);
    mret (nydusd (hc_VirtioFSDaemon conf) sock api sharedPath (hc_Debug conf) (hc_VirtioFSExtraArgs conf))
  else mret (virtiofsd (hc_VirtioFSDaemon conf) sharedPath sock (hc_VirtioFSExtraArgs conf) (hc_VirtioFSCache conf)).

(** The memory of the machine and how it is backed; the errors are those of
    settings that exclude each other. *)
Definition memory_setup (conf : HypervisorConfig) (memory : Memory) : res (Incoming * Knobs * Memory) :=
  let knobs := mkKnobs true true true true (hc_HugePages conf) (hc_MemPrealloc conf) false false false false true false
                 (hc_IOMMUPlatform conf) in
  let '(incoming, knobs, memory) := setupTemplate conf knobs memory in
  km ← (if virtiofs conf || given (hc_FileBackedMemRootDir conf) then
          if hc_BootToBeTemplate conf || hc_BootFromTemplate conf then
            Err (Errorf "VM templating has been enabled with either virtio-fs or file backed memory and this configuration will not work")
          else
            let '(knobs, memory) := setupFileBackedMem conf knobs memory in
            Ok (if hc_HugePages conf then set_MemPrealloc knobs else knobs, memory)
        else Ok (knobs, memory));
  if hc_EnableVhostUserStore conf then
    if hc_HugePages conf then Ok (incoming, set_MemShared km.1, km.2)
    else Err (Errorf "Vhost-user-blk/scsi is enabled without HugePages. This configuration will not work")
  else Ok (incoming, km.1, km.2).

Definition CreateVM (id : string) (hypervisorConfig : HypervisorConfig) : M qemu unit :=
  _ ← setup id hypervisorConfig;
  machine ← getQemuMachine;
  conf ← config;
  let smp := cpuTopology (hc_NumVCPUs conf) (hc_DefaultMaxVCPUs conf) in
  memory ← memoryTopology;
  kernelPath ← lift (KernelAssetPath conf);
  initrdPath ← lift (InitrdAssetPath conf);
  params ← kernelParameters;
  let kernel := mkKernel kernelPath initrdPath params in
  ikm ← lift (memory_setup conf memory);
  let '(incoming, knobs, memory) := ikm in
  st ← state;
  _ ← when (negb (given (qs_UUID st))) (throw (Errorf "UUID should not be empty"));
  qmpSockets ← createQmpSocket;
  dt ← buildDevices initrdPath;
  q ← get;
  let model := cpuModel (vm_arch q) +:+ "," +:+ hc_CPUFeatures conf in
  firmwarePath ← lift (FirmwareAssetPath conf);
  firmwareVolumePath ← lift (FirmwareVolumeAssetPath conf);
  path ← qemuPath;
  db ← arch (appendProtectionDevice dt.1 firmwarePath firmwareVolumePath);
  let devices :=
    if bool_decide (Machine_Type machine = QemuCCWVirtio) then db.1
    else appendRNGDevice db.1 "rng0" (hc_EntropySource conf) in
  let devices :=
    if 0 <? hc_PCIeRootPort hypervisorConfig
    then appendPCIeRootPortDevice devices (hc_PCIeRootPort hypervisorConfig) (vm_arch q) else devices in
  _ ← modify (fun q => q <| vm_qemuConfig :=
        Qemu.mkConfig path (hc_Uid conf) (hc_Gid conf) (hc_Groups conf) ("sandbox-" +:+ vm_id q) (qs_UUID st) model ""
          machine qmpSockets devices (mkRTC "utc" "host" "slew") "none" kernel memory smp
          "kvm-pit.lost_tick_policy=discard" knobs db.2 (qa_PFlash (vm_arch q)) incoming [] []
          (match dt.2 with Some t => [t] | None => [] end) (PathJoin [hc_VMStorePath conf; vm_id q; "pid"]) "" [] |>);
  d ← on_error (createVirtiofsDaemon (hc_SharedPath hypervisorConfig))
        (modify (fun q => q <| vm_virtiofsDaemon := None |>));
  modify (fun q => q <| vm_virtiofsDaemon := Some d |>).

(** ** Adding a device to the command line *)

(** What [AddDevice] is given; any other type is logged and left out. *)
Inductive cold_device : Type :=
| CVolume (v : Types.Volumes.Volume)
| CSocket (s : Types.Sockets.Socket)
| CVSock (v : VSock)
| CEndpoint (e : QemuArch.Endpoint)
| CBlock (d : Config.BlockDrive)
| CVhostUser (a : Config.VhostUserDeviceAttrs)
| CVFIO (d : Config.VFIODev)
| COther.

Definition set_Devices (devices : list Device) : M qemu unit :=
  modify (fun q => q <| vm_qemuConfig ::= fun c => c <| q_Devices := devices |> |>).

Definition AddDevice (devInfo : cold_device) : M qemu unit :=
  q ← get;
  let devices := q_Devices (vm_qemuConfig q) in
  match devInfo with
  | CVolume v =>
      if virtiofs (vm_config q) then
        randBytes ← lift (host_Random 8);
        sockPath ← vhostFSSocketPath (vm_id q);
        set_Devices (appendVhostUserDevice devices
          (Config.mkVhostUserDeviceAttrs (hex_EncodeToString randBytes) sockPath "" (Types.Volumes.vol_MountTag v)
             (hc_VirtioFSCache (vm_config q)) Config.VhostUserFS [] 0 (hc_VirtioFSCacheSize (vm_config q))))
      else set_Devices (append9PVolume devices v (vm_arch q))
  | CSocket s => set_Devices (appendSocket devices s)
  | CVSock v =>
      _ ← modify (fun q => q <| vm_fds ::= fun l => l ++ [vk_VhostFd v] |>);
      set_Devices (appendVSock devices v (vm_arch q))
  | CEndpoint e => devices ← arch (appendNetwork devices e); set_Devices devices
  | CBlock d => devices ← lift (appendBlockDevice devices d (vm_arch q)); set_Devices devices
  | CVhostUser a => set_Devices (appendVhostUserDevice devices a)
  | CVFIO d => set_Devices (appendVFIODevice devices d)
  | COther => mret tt
  end.

(** ** The control socket *)

Definition qmpShutdown : M qemu unit := modify (fun q => q <| vm_qmp := false |>).

Definition qmpSetup : M qemu unit :=
  q ← get;
  if vm_qmp q then mret tt
  else
    _ ← qmp (QMPStart (vm_qmpPath q));
    _ ← qmp ExecuteQMPCapabilities;
    modify (fun q => q <| vm_qmp := true |>).

(** Connecting until the timeout has passed. *)
Fixpoint connect (n : nat) (path : string) : M qemu unit :=
  r ← try (qmp (QMPStart path));
  match r with
  | Ok _ => mret tt
  | Err _ =>
      match n with
      | O => throw (Errorf "Failed to connect to QEMU instance (timeout %ds): %v")
      | S n' => connect n' path
      end
  end.

Definition waitVM (timeout : Z) : M qemu unit :=
  if timeout <? 0 then throw (Errorf "Invalid timeout %ds")
  else
    _ ← qmpShutdown;
    q ← get;
    _ ← connect (tries (timeout * 1000)) (vm_qmpPath q);
    _ ← modify (fun q => q <| vm_qmp := true |>);
    finally (qmp ExecuteQMPCapabilities) qmpShutdown.

Definition setIgnoreSharedMemoryMigrationCaps : M qemu unit :=
  qmp (ExecSetMigrationCaps [[("capability", Qmp.JStr "x-ignore-shared"); ("state", Qmp.JBool true)]]).

Fixpoint migration_go (n : nat) : M qemu unit :=
  status ← qmp ExecuteQueryMigration;
  if bool_decide (ms_Status status = "completed") then mret tt
  else
    match n with
    | O => throw (Errorf "timed out after %d seconds waiting for qemu migration")
    | S n' => migration_go n'
    end.
Definition waitMigration : M qemu unit := migration_go (tries qmpMigrationWaitTimeout).

Definition bootFromTemplate : M qemu unit :=
  _ ← qmpSetup;
  finally
    (_ ← setIgnoreSharedMemoryMigrationCaps;
     conf ← config;
     _ ← qmp (ExecuteMigrationIncoming ("exec:cat " +:+ hc_DevicesStatePath conf));
     waitMigration) qmpShutdown.

Definition SaveVM : M qemu unit :=
  _ ← qmpSetup;
  conf ← config;
  _ ← when (hc_BootToBeTemplate conf) setIgnoreSharedMemoryMigrationCaps;
  _ ← qmp (ExecSetMigrateArguments (qmpExecCatCmd +:+ ">" +:+ hc_DevicesStatePath conf));
  waitMigration.

Definition togglePauseSandbox (pause : bool) : M qemu unit :=
  _ ← qmpSetup; if pause then qmp ExecuteStop else qmp ExecuteCont.
Definition PauseVM : M qemu unit := togglePauseSandbox true.
Definition ResumeVM : M qemu unit := togglePauseSandbox false.
Definition Disconnect : M qemu unit := qmpShutdown.

Definition Check : M qemu unit :=
  _ ← qmpSetup;
  status ← qmp ExecuteQueryStatus;
  when (bool_decide (st_Status status ∈ ["internal-error"; "guest-panicked"])) (throw (Errorf "guest failure: %s")).

(** The map of the processors that have a thread. *)
Definition GetThreadIDs : M qemu (gmap Z Z) :=
  _ ← qmpSetup;
  cpuInfos ← qmp ExecQueryCpusFast;
  mret (foldl (fun m i => if 0 <? cf_ThreadID i then <[cf_CPUIndex i := cf_ThreadID i]> m else m) ∅ cpuInfos).

(** ** Starting and stopping *)

Definition stopVirtiofsDaemon : M qemu unit :=
  q ← get;
  if qs_VirtiofsDaemonPid (vm_state q) =? 0 then mret tt
  else
    match vm_virtiofsDaemon q with
    | None => throw (ErrExternal "nil dereference")
    | Some d =>
        _ ← hostop_do (DaemonStop d);
        modify (fun q => q <| vm_state ::= fun st => st <| qs_VirtiofsDaemonPid := 0 |> |>)
    end.

Definition setupVirtiofsDaemon : M qemu unit :=
  q ← get;
  match vm_virtiofsDaemon q with
  | None => throw (ErrExternal "nil dereference")
  | Some d =>
      pid ← hostop_do (DaemonStart d);
      modify (fun q => q <| vm_state ::= fun st => st <| qs_VirtiofsDaemonPid := pid |> |>)
  end.

(** Whether the memory is shared, its file and the type of its back end. *)
Definition getMemArgs : M qemu (bool * string * string) :=
  q ← get;
  let knobs := q_Knobs (vm_qemuConfig q) in
  let conf := vm_config q in
  stm ← (if HugePages knobs then mret (true, "/dev/hugepages", "memory-backend-file")
         else if hc_EnableVhostUserStore conf then throw (Errorf "Vhost-user-blk/scsi requires hugepage memory")
         else if virtiofs conf || given (hc_FileBackedMemRootDir conf)
         then mret (false, mem_Path (q_Memory (vm_qemuConfig q)), "memory-backend-file")
         else mret (false, "", "memory-backend-ram"));
  let '(share, target, back) := stm in
  mret (share || MemShared knobs, target, back).

(** The size is a multiple of 4 MiB; the slot is given back on failure. *)
Definition setupVirtioMem : M qemu unit :=
  maxMem ← lift hostMemMB;
  conf ← config;
  let sizeMB := Z.shiftl (Z.shiftr (maxMem - hc_MemorySize conf) 2) 2 in
  stm ← getMemArgs;
  let '(share, target, back) := stm in
  _ ← qmpSetup;
  ab ← arch (addDeviceToBridge "virtiomem-dev" PCI);
  on_error
    (r ← try (qmp (ExecMemdevAdd back "virtiomem" target sizeMB share "virtio-mem-pci" "virtiomem0" ab.1
                     (Types.Bridges.br_ID ab.2)));
     match r with
     | Ok _ => mret tt
     | Err _ => throw (Errorf "Add %dMB virtio-mem-pci fail %s%s")
     end)
    (arch (removeDeviceFromBridge "virtiomem-dev")).

(** The error of [LaunchQemu] is wrapped; a refused label returns before the
    directory is removed again. *)
Definition launch (timeout : Z) : M qemu unit :=
  q ← get;
  let '((_, err), ran) := LaunchQemu (vm_qemuConfig q) (vm_ran q) in
  _ ← modify (fun q => q <| vm_ran := ran |>);
  match err with
  | Some _ => throw (Errorf "failed to launch qemu: %s, error messages from qemu log: %s")
  | None =>
      _ ← waitVM timeout;
      _ ← when (hc_BootFromTemplate (vm_config q)) bootFromTemplate;
      when (hc_VirtioMem (vm_config q)) setupVirtioMem
  end.

Definition start_shared (timeout : Z) : M qemu unit :=
  conf ← config;
  if virtiofs conf then _ ← setupVirtiofsDaemon; on_error (launch timeout) (ignore stopVirtiofsDaemon)
  else launch timeout.

Definition StartVM (timeout : Z) : M qemu unit :=
  finally
    (q ← get;
     let conf := vm_config q in
     let vmPath := PathJoin [hc_VMStorePath conf; vm_id q] in
     _ ← hostop_do (MkdirAll vmPath);
     _ ← when (hc_Debug conf) (modify (fun q => q <| vm_qemuConfig ::= fun c =>
           c <| q_LogFile := PathJoin [vmPath; "qemu.log"] |> |>));
     let remove := ignore (hostop_do (RemoveAll vmPath)) in
     if hc_DisableSeLinux conf then on_error (start_shared timeout) remove
     else
       _ ← hostop_do (SetProcessLabel (hc_SELinuxProcessLabel conf));
       on_error (finally (start_shared timeout) (ignore (hostop_do (SetProcessLabel "")))) remove)
    (modify (fun q => q <| vm_fds := [] |>)).

(** [strings.Trim(s, "\n\t ")]. *)
Definition in_cutset (c : ascii) : bool := bool_decide (c ∈ ["010"%char; "009"%char; " "%char]).
Fixpoint trim_left (s : string) : string :=
  match s with String c s' => if in_cutset c then trim_left s' else s | EmptyString => "" end.
Fixpoint trim_right (s : string) : string :=
  match s with
  | EmptyString => ""
  | String c s' => match trim_right s' with EmptyString => if in_cutset c then "" else String c "" | t => String c t end
  end.

Definition GetPids : M qemu (list Z) :=
  q ← get;
  match host_ReadFile (q_PidFile (vm_qemuConfig q)) with
  | Err _ => mret [0]
  | Ok data =>
      match Atoi (trim_right (trim_left data)) with
      | Err _ => mret [0]
      | Ok pid =>
          let daemon := qs_VirtiofsDaemonPid (vm_state q) in
          mret (pid :: if daemon =? 0 then [] else [daemon])
      end
  end.

(** The user of a rootless machine is not modelled. *)
Definition cleanupVM : M qemu unit :=
  q ← get;
  let conf := vm_config q in
  let dir := PathJoin [hc_VMStorePath conf; vm_id q] in
  let link := match EvalSymlinks dir with Ok l => l | Err _ => "" end in
  _ ← ignore (hostop_do (RemoveAll dir));
  _ ← when (given link && negb (bool_decide (link = dir))) (ignore (hostop_do (RemoveAll link)));
  when (given (hc_VMid conf)) (ignore (hostop_do (RemoveAll (PathJoin [hc_RunStorePath conf; hc_VMid conf])))).

Definition wait_process (pid : Z) : M qemu unit :=
  match WaitProcess.WaitLocalProcess (wait_kill pid) pid 0 (wait_events qemuStopSandboxTimeoutSecs) with
  | Some (r, _) => lift r
  | None => throw (ErrExternal "does not return")
  end.

Definition stop_machine (waitOnly : bool) (conf : HypervisorConfig) : M qemu unit :=
  _ ← qmpSetup;
  _ ← (if waitOnly then
         pids ← GetPids;
         match pids with
         | [] => throw (Errorf "cannot determine QEMU PID")
         | pid :: _ => wait_process pid
         end
       else qmp ExecuteQuit);
  when (virtiofs conf) stopVirtiofsDaemon.

(** The directories are removed and the machine is marked as stopped on every
    path. *)
Definition stop_deferred : M qemu unit := _ ← cleanupVM; modify (fun q => q <| vm_stopped := true |>).

Definition StopVM (waitOnly : bool) : M qemu unit := fun q =>
  if vm_stopped q then (Ok tt, q) else finally (stop_machine waitOnly (vm_config q)) stop_deferred q.

Definition Cleanup : M qemu unit := modify (fun q => q <| vm_fds := [] |>).

(** ** Saving and restoring *)

(** What [Save] writes besides the block indexes, which belong to the sandbox. *)
Record QemuSaved : Type := mkQemuSaved {
  sv_Type : string;
  sv_UUID : string;
  sv_Bridges : list (gmap Z string * string * string * Z);
  sv_HotpluggedVCPUs : list string;
  sv_HotpluggedMemory : Z;
  sv_VirtiofsDaemonPid : Z;
  sv_Pid : Z;
  sv_PCIeRootPort : Z;
  sv_HotplugVFIOOnRootBus : bool;
}.

Definition saved_zero : QemuSaved := mkQemuSaved "" "" [] [] 0 0 0 0 false.

Definition Save : M qemu QemuSaved :=
  q ← get;
  if vm_stopped q then mret saved_zero
  else
    pids ← GetPids;
    let st := vm_state q in
    mret (mkQemuSaved QemuHypervisor (qs_UUID st)
      ((fun b => (Types.Bridges.br_Devices b, Types.Bridges.br_Type b, Types.Bridges.br_ID b, Types.Bridges.br_Addr b))
         <$> qa_Bridges (vm_arch q))
      (qs_HotpluggedVCPUs st) (qs_HotpluggedMemory st) (qs_VirtiofsDaemonPid st) (hd 0 pids) (qs_PCIeRootPort st)
      (qs_HotplugVFIOOnRootBus st)).

Definition Load (s : QemuSaved) : M qemu unit :=
  modify (fun q => q <| vm_state ::= fun st =>
    mkQemuState (sv_UUID s)
      (qs_Bridges st ++ ((fun b => let '(devices, type, id, addr) := b in NewBridge type id devices addr) <$> sv_Bridges s))
      (qs_HotpluggedVCPUs st ++ sv_HotpluggedVCPUs s) (sv_HotpluggedMemory s) (sv_VirtiofsDaemonPid s)
      (sv_PCIeRootPort s) (sv_HotplugVFIOOnRootBus s) |>).

(** What the cache of machines hands to the runtime, before it is encoded. *)
Record qemuGrpc : Type := mkQemuGrpc {
  gr_ID : string;
  gr_QmpChannelpath : string;
  gr_State : QemuState;
  gr_NvdimmCount : Z;
  gr_QemuSMP : SMP;
}.

Definition toGrpc : M qemu qemuGrpc :=
  _ ← qmpShutdown;
  _ ← Cleanup;
  q ← get;
  mret (mkQemuGrpc (vm_id q) (vm_qmpPath q) (vm_state q) (vm_nvdimmCount q) (q_SMP (vm_qemuConfig q))).

Definition fromGrpc (hypervisorConfig : HypervisorConfig) (qp : qemuGrpc) : M qemu unit :=
  _ ← modify (fun q => q <| vm_id := gr_ID qp |> <| vm_config := hypervisorConfig |> <| vm_qmpPath := gr_QmpChannelpath qp |>
                         <| vm_state := gr_State qp |>);
  a ← (fun q => let '(r, params) := newQemuArch hypervisorConfig (vm_kernelParams q) in (r, q <| vm_kernelParams := params |>));
  modify (fun q => q <| vm_arch := a <| qa_Bridges := qs_Bridges (gr_State qp) |> |>
                     <| vm_nvdimmCount := gr_NvdimmCount qp |>
                     <| vm_qemuConfig ::= fun c => c <| q_SMP := gr_QemuSMP qp |> |>).

(** ** Hot plugging

    A method works on the machine and on the structure of the device its caller
    has. *)

Inductive Operation : Type := OpAdd | OpRemove.

#[export] Instance Operation_eq_dec : EqDecision Operation.
Proof. solve_decision. Defined.

Definition vm {D A} (m : M qemu A) : M (qemu * D) A := fun s => let '(r, q) := m s.1 in (r, (q, s.2)).
Definition on_device {D} (f : D -> D) : M (qemu * D) unit := modify (fun s => (s.1, f s.2)).
Definition device {D} : M (qemu * D) D := gets snd.

Definition set_PCIPath (path : PciPath) (d : Config.BlockDrive) : Config.BlockDrive :=
  Config.mkBlockDrive (Config.bd_File d) (Config.bd_Format d) (Config.bd_ID d) (Config.bd_MmioAddr d) (Config.bd_SCSIAddr d)
    (Config.bd_NvdimmID d) (Config.bd_VirtPath d) (Config.bd_DevNo d) path (Config.bd_Index d) (Config.bd_ShareRW d)
    (Config.bd_ReadOnly d) (Config.bd_Pmem d) (Config.bd_Swap d).
Definition set_NvdimmID (id : string) (d : Config.BlockDrive) : Config.BlockDrive :=
  Config.mkBlockDrive (Config.bd_File d) (Config.bd_Format d) (Config.bd_ID d) (Config.bd_MmioAddr d) (Config.bd_SCSIAddr d)
    id (Config.bd_VirtPath d) (Config.bd_DevNo d) (Config.bd_PCIPath d) (Config.bd_Index d) (Config.bd_ShareRW d)
    (Config.bd_ReadOnly d) (Config.bd_Pmem d) (Config.bd_Swap d).
Definition set_DevNo (devno : string) (d : Config.BlockDrive) : Config.BlockDrive :=
  Config.mkBlockDrive (Config.bd_File d) (Config.bd_Format d) (Config.bd_ID d) (Config.bd_MmioAddr d) (Config.bd_SCSIAddr d)
    (Config.bd_NvdimmID d) (Config.bd_VirtPath d) devno (Config.bd_PCIPath d) (Config.bd_Index d) (Config.bd_ShareRW d)
    (Config.bd_ReadOnly d) (Config.bd_Pmem d) (Config.bd_Swap d).

(** The path of a device: the slot of its bridge and its own. *)
Definition pci_path (bridge : Bridge) (addr : string) : res PciPath :=
  bridgeSlot ← PciSlotFromInt (Types.Bridges.br_Addr bridge);
  devSlot ← PciSlotFromString addr;
  PciPathFromSlots [bridgeSlot; devSlot].

(** *** Block devices *)

Definition nvdimm_size (file : string) : res Z :=
  _ ← host_Open file;
  match host_Stat file with
  | Found _ regular size => if regular then Ok size else blksize file
  | _ => Err (Errorf "failed to get information from nvdimm device %v: %v")
  end.

Definition hotplugAddNvdimm : M (qemu * Config.BlockDrive) unit :=
  drive ← device;
  size ← lift (nvdimm_size (Config.bd_File drive));
  _ ← vm (qmp (ExecuteNVDIMMDeviceAdd (Config.bd_ID drive) (Config.bd_File drive) size (Some (Config.bd_Pmem drive))));
  n ← vm (gets vm_nvdimmCount);
  _ ← on_device (set_NvdimmID (Itoa n));
  vm (modify (fun q => q <| vm_nvdimmCount ::= fun n => i64 (n + 1) |>)).

(** The back end of the drive. *)
Definition add_blockdev (conf : HypervisorConfig) (drive : Config.BlockDrive) : M history unit :=
  let '(file, id) := (Config.bd_File drive, Config.bd_ID drive) in
  if Config.bd_Swap drive then ExecuteBlockdevAddWithDriverCache "file" file id false false false
  else if hc_BlockDeviceCacheSet conf then
    ExecuteBlockdevAddWithCache file id (hc_BlockDeviceCacheDirect conf) (hc_BlockDeviceCacheNoflush conf)
      (Config.bd_ReadOnly drive)
  else ExecuteBlockdevAdd file id (Config.bd_ReadOnly drive).

(** On a PCI bridge; the slot is given back on failure. *)
Definition plug_pci_block (devID : string) : M (qemu * Config.BlockDrive) unit :=
  drive ← device;
  let id := Config.bd_ID drive in
  ab ← vm (arch (addDeviceToBridge id PCI));
  on_error
    (path ← lift (pci_path ab.2 ab.1);
     _ ← on_device (set_PCIPath path);
     vm (qmp (ExecutePCIDeviceAdd id devID "virtio-blk-pci" ab.1 (Types.Bridges.br_ID ab.2) romFile 0 true false)))
    (vm (arch (removeDeviceFromBridge id))).

(** On a CCW bridge; the slot is kept on failure. *)
Definition plug_ccw_block (devID : string) : M (qemu * Config.BlockDrive) unit :=
  drive ← device;
  let id := Config.bd_ID drive in
  ab ← vm (arch (addDeviceToBridge id CCW));
  devNoHotplug ← lift (Types.Bridges.AddressFormatCCW ab.2 ab.1);
  devNo ← lift (Types.Bridges.AddressFormatCCWForVirtServer ab.2 ab.1);
  _ ← on_device (set_DevNo devNo);
  vm (qmp (ExecuteDeviceAdd id devID "virtio-blk-ccw" devNoHotplug "" true false)).

Definition plug_scsi_block (devID : string) : M (qemu * Config.BlockDrive) unit :=
  drive ← device;
  sl ← lift (Names.GetSCSIIdLun (Config.bd_Index drive));
  vm (qmp (ExecuteSCSIDeviceAdd (Config.bd_ID drive) devID "scsi-hd" (scsiControllerID +:+ ".0") romFile sl.1 sl.2 true false)).

Definition hotplugAddBlockDevice (devID : string) : M (qemu * Config.BlockDrive) unit :=
  conf ← vm config;
  drive ← device;
  let driver := hc_BlockDeviceDriver conf in
  if bool_decide (driver = Config.Nvdimm) || Config.bd_Pmem drive then hotplugAddNvdimm
  else
    _ ← vm (qmp (add_blockdev conf drive));
    on_error
      (if Config.bd_Swap drive || bool_decide (driver = Config.VirtioBlock) then plug_pci_block devID
       else if bool_decide (driver = Config.VirtioBlockCCW) then plug_ccw_block devID
       else if bool_decide (driver = Config.VirtioSCSI) then plug_scsi_block devID
       else throw (Errorf "Block device %s not recognized"))
      (vm (qmp (ExecuteBlockdevDel (Config.bd_ID drive)))).

(** The slot of a swap device, of a CCW device and of an nvdimm is not given
    back. *)
Definition hotplugBlockDevice (op : Operation) : M (qemu * Config.BlockDrive) unit :=
  _ ← vm qmpSetup;
  drive ← device;
  let devID := "virtio-" +:+ Config.bd_ID drive in
  match op with
  | OpAdd => hotplugAddBlockDevice devID
  | OpRemove =>
      conf ← vm config;
      _ ← when (negb (Config.bd_Swap drive) && bool_decide (hc_BlockDeviceDriver conf = Config.VirtioBlock))
            (vm (arch (removeDeviceFromBridge (Config.bd_ID drive))));
      _ ← vm (qmp (ExecuteDeviceDel devID));
      vm (qmp (ExecuteBlockdevDel (Config.bd_ID drive)))
  end.

(** *** Devices of another process *)

Definition set_vhost_PCIPath (path : PciPath) (a : Config.VhostUserDeviceAttrs) : Config.VhostUserDeviceAttrs :=
  Config.mkVhostUserDeviceAttrs (Config.vu_DevID a) (Config.vu_SocketPath a) (Config.vu_MacAddress a) (Config.vu_Tag a)
    (Config.vu_Cache a) (Config.vu_Type a) path (Config.vu_Index a) (Config.vu_CacheSize a).

Definition hotplugAddVhostUserBlkDevice (devID : string) : M (qemu * Config.VhostUserDeviceAttrs) unit :=
  attr ← device;
  let id := Config.vu_DevID attr in
  _ ← vm (qmp (ExecuteCharDevUnixSocketAdd id (Config.vu_SocketPath attr) false false));
  on_error
    (ab ← vm (arch (addDeviceToBridge id PCI));
     on_error
       (path ← lift (pci_path ab.2 ab.1);
        _ ← on_device (set_vhost_PCIPath path);
        vm (qmp (ExecutePCIVhostUserDevAdd "vhost-user-blk-pci" devID id ab.1 (Types.Bridges.br_ID ab.2))))
       (vm (arch (removeDeviceFromBridge id))))
    (vm (qmp (ExecuteChardevDel id))).

Definition hotplugVhostUserDevice (op : Operation) : M (qemu * Config.VhostUserDeviceAttrs) unit :=
  _ ← vm qmpSetup;
  attr ← device;
  let devID := "virtio-" +:+ Config.vu_DevID attr in
  match op with
  | OpAdd =>
      if bool_decide (Config.vu_Type attr = Config.VhostUserBlk) then hotplugAddVhostUserBlkDevice devID
      else throw (Errorf "Incorrect vhost-user device type found")
  | OpRemove =>
      _ ← vm (arch (removeDeviceFromBridge (Config.vu_DevID attr)));
      _ ← vm (qmp (ExecuteDeviceDel devID));
      vm (qmp (ExecuteChardevDel (Config.vu_DevID attr)))
  end.

(** *** VFIO devices *)

Definition qomGetSlot (qomPath : string) : M qemu PciSlot :=
  addr ← qmp (ExecQomGet qomPath "addr");
  match addr with
  | Qmp.JNum addri =>
      if Z.land addri 7 =? 0 then lift (PciSlotFromInt (Z.shiftr addri 3))
      else throw (Errorf "Unexpected non-zero PCI function (%02x.%1x) on %q")
  | _ => throw (Errorf "addr QOM property of %q is %T not a number")
  end.

(** What is before the last slash; [None] when there is none. *)
Fixpoint before_last_slash (s : string) : option string :=
  match s with
  | EmptyString => None
  | String c s' =>
      match before_last_slash s' with
      | Some t => Some (String c t)
      | None => if bool_decide (c = "/"%char) then Some "" else None
      end
  end.

Definition qomGetPciPath (qemuID : string) : M qemu PciPath :=
  devSlot ← qomGetSlot qemuID;
  busq ← qmp (ExecQomGet qemuID "parent_bus");
  match busq with
  | Qmp.JStr bus =>
      match before_last_slash bus with
      | None => throw (Errorf "Bus has unexpected QOM path %s")
      | Some bridge =>
          bridgeSlot ← qomGetSlot bridge;
          lift (PciPathFromSlots [bridgeSlot; devSlot])
      end
  | _ => throw (Errorf "parent_bus QOM property of %s is %t not a string")
  end.

Definition IsAPVFIOMediatedDevice (sysfsdev : string) : bool := bool_decide ("vfio_ap" ∈ Split "/" sysfsdev).

Definition set_VFIO (bus : string) (path : PciPath) (d : Config.VFIODev) : Config.VFIODev :=
  Config.mkVFIODev (Config.vd_ID d) (Config.vd_BDF d) (Config.vd_SysfsDev d) (Config.vd_VendorID d) (Config.vd_DeviceID d)
    (Config.vd_Class d) bus path (Config.vd_Type d) (Config.vd_IsPCIe d).

(** On the root bus, or on a root port of it. *)
Definition plug_vfio_root : M (qemu * Config.VFIODev) unit :=
  q ← vm get;
  d ← device;
  let keep :=
    bool_decide (hc_HypervisorMachineType (vm_config q) = QemuQ35) &&
    negb (Config.vd_IsPCIe d && (qs_PCIeRootPort (vm_state q) <=? 0)) in
  let bus := if keep then Config.vd_Bus d else "" in
  _ ← on_device (fun d => set_VFIO bus (Config.vd_GuestPciPath d) d);
  if Config.vd_Type d =? Config.VFIODeviceNormalType then
    vm (qmp (ExecuteVFIODeviceAdd (Config.vd_ID d) (Config.vd_BDF d) bus romFile))
  else if Config.vd_Type d =? Config.VFIODeviceMediatedType then
    if IsAPVFIOMediatedDevice (Config.vd_SysfsDev d) then vm (qmp (ExecuteAPVFIOMediatedDeviceAdd (Config.vd_SysfsDev d)))
    else vm (qmp (ExecutePCIVFIOMediatedDeviceAdd (Config.vd_ID d) (Config.vd_SysfsDev d) "" bus romFile))
  else throw (Errorf "Incorrect VFIO device type found").

Definition query_path : M (qemu * Config.VFIODev) unit :=
  d ← device;
  r ← try (vm (qomGetPciPath (Config.vd_ID d)));
  match r with
  | Ok path => on_device (fun d => set_VFIO (Config.vd_Bus d) path d)
  | Err e => _ ← on_device (fun d => set_VFIO (Config.vd_Bus d) [] d); throw e
  end.

(** On a bridge.  The error of the command is in a variable of the inner block:
    it decides about the slot only, and the path of the device is asked for all
    the same.  An unknown type returns before the variable is set. *)
Definition plug_vfio_bridge : M (qemu * Config.VFIODev) unit :=
  d ← device;
  let id := Config.vd_ID d in
  ab ← vm (arch (addDeviceToBridge id PCI));
  let bus := Types.Bridges.br_ID ab.2 in
  if negb ((Config.vd_Type d =? Config.VFIODeviceNormalType) || (Config.vd_Type d =? Config.VFIODeviceMediatedType))
  then throw (Errorf "Incorrect VFIO device type found")
  else
    r ← try (if Config.vd_Type d =? Config.VFIODeviceNormalType then
               vm (qmp (ExecutePCIVFIODeviceAdd id (Config.vd_BDF d) ab.1 bus romFile))
             else if IsAPVFIOMediatedDevice (Config.vd_SysfsDev d) then
               vm (qmp (ExecuteAPVFIOMediatedDeviceAdd (Config.vd_SysfsDev d)))
             else vm (qmp (ExecutePCIVFIOMediatedDeviceAdd id (Config.vd_SysfsDev d) ab.1 bus romFile)));
    finally query_path
      (match r with Ok _ => mret tt | Err _ => vm (arch (removeDeviceFromBridge id)) end).

Definition hotplugVFIODevice (op : Operation) : M (qemu * Config.VFIODev) unit :=
  _ ← vm qmpSetup;
  d ← device;
  st ← vm state;
  match op with
  | OpAdd => if qs_HotplugVFIOOnRootBus st then _ ← plug_vfio_root; query_path else plug_vfio_bridge
  | OpRemove =>
      _ ← when (negb (qs_HotplugVFIOOnRootBus st)) (vm (arch (removeDeviceFromBridge (Config.vd_ID d))));
      vm (qmp (ExecuteDeviceDel (Config.vd_ID d)))
  end.

(** *** Network devices *)

(** The endpoint and the path it is given. *)
Definition plugged_endpoint : Type := QemuArch.Endpoint * PciPath.

(** [VhostFd.Close] is left out. *)
Fixpoint send_fds (prefix : string) (i : Z) (fds : list File) : M qemu (list string) :=
  match fds with
  | [] => mret []
  | fd :: fds' =>
      let name := prefix +:+ Itoa i in
      _ ← qmp (ExecuteGetFD name fd);
      names ← send_fds prefix (i + 1) fds';
      mret (name :: names)
  end.

Definition hotAddNetDevice (name : string) (VMFds VhostFds : list File) : M qemu unit :=
  VMFdNames ← send_fds "fd" 0 VMFds;
  VhostFdNames ← send_fds "vhostfd" 0 VhostFds;
  qmp (ExecuteNetdevAddByFds "tap" name VMFdNames VhostFdNames).

(** The second [%x] of the CCW address is given a string, and prints the codes
    of its characters. *)
Fixpoint hex_of_string (s : string) : string :=
  match s with
  | EmptyString => ""
  | String c s' => fmt_02x (Z.of_N (N_of_ascii c)) +:+ hex_of_string s'
  end.

(** The slot is given back when the path cannot be made; the error of the last
    command is not in the variable the second deferred function looks at. *)
Definition plug_net (tap : TapInterface) (devID hardAddr : string) : M (qemu * plugged_endpoint) unit :=
  ab ← vm (arch (addDeviceToBridge (ti_ID tap) PCI));
  path ← on_error (lift (pci_path ab.2 ab.1)) (vm (arch (removeDeviceFromBridge (ti_ID tap))));
  _ ← on_device (fun e => (e.1, path));
  machine ← vm getQemuMachine;
  conf ← vm config;
  let bus := Types.Bridges.br_ID ab.2 in
  if bool_decide (Machine_Type machine = QemuCCWVirtio) then
    vm (qmp (ExecuteNetCCWDeviceAdd (ti_Name tap) devID hardAddr
               ("fe." +:+ fmt_x (Types.Bridges.br_Addr ab.2) +:+ "." +:+ hex_of_string ab.1) (hc_NumVCPUs conf)))
  else
    vm (qmp (ExecuteNetPCIDeviceAdd (ti_Name tap) devID hardAddr ab.1 bus romFile (hc_NumVCPUs conf) false)).

Definition hotplugNetDevice (op : Operation) : M (qemu * plugged_endpoint) unit :=
  _ ← vm qmpSetup;
  e ← device;
  tap ← match e.1 with
        | VethEndpoint p => mret (np_Tap p)
        | TapEndpoint tap => mret tap
        | _ => throw (Errorf "this endpoint is not supported")
        end;
  let devID := "virtio-" +:+ ti_ID tap in
  match op with
  | OpAdd =>
      _ ← vm (hotAddNetDevice (ti_Name tap) (ti_VMFds tap) (ti_VhostFds tap));
      on_error (plug_net tap devID (ti_TAPIface_HardAddr tap)) (vm (qmp (ExecuteNetdevDel (ti_Name tap))))
  | OpRemove =>
      _ ← vm (arch (removeDeviceFromBridge (ti_ID tap)));
      _ ← vm (qmp (ExecuteDeviceDel devID));
      vm (qmp (ExecuteNetdevDel (ti_Name tap)))
  end.

(** *** Processors *)

(** The arguments of a processor that is added. *)
Definition add_cpu (machineType cpuID : string) (hc : HotpluggableCPU) : M history unit :=
  let p := hp_Properties hc in
  let keep s := if bool_decide (machineType ∈ ["pseries"; QemuCCWVirtio; "virt"]) then "" else s in
  ExecuteCPUDeviceAdd (hp_Type hc) cpuID (keep (Itoa (cp_Socket p))) (keep (Itoa (cp_Die p))) (Itoa (cp_Core p))
    (keep (Itoa (cp_Thread p))) romFile.

(** The loop over the processors QEMU has: one that is used, or that cannot be
    added, is passed over.  [true] when [amount] were added. *)
Fixpoint add_cpus (machineType : string) (amount added : Z) (l : list HotpluggableCPU) : M qemu (Z * bool) :=
  match l with
  | [] => mret (added, false)
  | hc :: l' =>
      if given (hp_QOMPath hc) then add_cpus machineType amount added l'
      else
        st ← state;
        let cpuID := "cpu-" +:+ Itoa (Z.of_nat (length (qs_HotpluggedVCPUs st))) in
        r ← try (qmp (add_cpu machineType cpuID hc));
        match r with
        | Err _ => add_cpus machineType amount added l'
        | Ok _ =>
            _ ← modify (fun q => q <| vm_state ::= fun st => st <| qs_HotpluggedVCPUs ::= fun l => l ++ [cpuID] |> |>);
            let added := u32 (added + 1) in
            if added =? amount then mret (amount, true) else add_cpus machineType amount added l'
        end
  end.

Definition hotplugAddCPUs (amount : Z) : M qemu Z :=
  q ← get;
  let current := u32 (smp_CPUs (q_SMP (vm_qemuConfig q)) + u32 (Z.of_nat (length (qs_HotpluggedVCPUs (vm_state q))))) in
  let max := hc_DefaultMaxVCPUs (vm_config q) in
  let amount := if max <? u32 (current + amount) then u32 (max - current) else amount in
  if amount =? 0 then mret 0
  else
    r ← try (qmp ExecuteQueryHotpluggableCPUs);
    match r with
    | Err _ => throw (Errorf "failed to query hotpluggable CPUs: %v")
    | Ok cpus =>
        r ← add_cpus (Machine_Type (qa_qemuMachine (vm_arch q))) amount 0 cpus;
        if r.2 then mret r.1 else throw (Errorf "failed to hot add vCPUs: only %d vCPUs of %d were added")
    end.

(** The last processor that was added, [amount] times. *)
Fixpoint remove_cpus (n : nat) : M qemu unit :=
  match n with
  | O => mret tt
  | S n' =>
      st ← state;
      match last (qs_HotpluggedVCPUs st) with
      | None => throw (ErrExternal "index out of range")
      | Some cpu =>
          r ← try (qmp (ExecuteDeviceDel cpu));
          match r with
          | Err _ => throw (Errorf "failed to hotunplug CPUs, only %d CPUs were hotunplugged: %v")
          | Ok _ =>
              _ ← modify (fun q => q <| vm_state ::= fun st =>
                    st <| qs_HotpluggedVCPUs ::= fun l => take (length l - 1) l |> |>);
              remove_cpus n'
          end
      end
  end.

Definition hotplugRemoveCPUs (amount : Z) : M qemu Z :=
  st ← state;
  if u32 (Z.of_nat (length (qs_HotpluggedVCPUs st))) <? amount then
    throw (Errorf "Unable to remove %d CPUs, currently there are only %d hotplugged CPUs")
  else _ ← remove_cpus (Z.to_nat amount); mret amount.

Definition hotplugCPUs (vcpus : Z) (op : Operation) : M qemu Z :=
  if vcpus =? 0 then mret 0
  else
    _ ← qmpSetup;
    match op with OpAdd => hotplugAddCPUs vcpus | OpRemove => hotplugRemoveCPUs vcpus end.

(** The number of processors before and after. *)
Definition ResizeVCPUs (reqVCPUs : Z) : M qemu (Z * Z) :=
  q ← get;
  let current := u32 (hc_NumVCPUs (vm_config q) + u32 (Z.of_nat (length (qs_HotpluggedVCPUs (vm_state q))))) in
  if current <? reqVCPUs then
    added ← hotplugCPUs (reqVCPUs - current) OpAdd; mret (current, u32 (current + added))
  else if reqVCPUs <? current then
    removed ← hotplugCPUs (current - reqVCPUs) OpRemove; mret (current, u32 (current - removed))
  else mret (current, current).

(** *** Memory *)

Definition set_Slot (slot : Z) (m : MemoryDevice) : MemoryDevice :=
  mkMemoryDevice slot (md_SizeMB m) (md_Addr m) (md_Probe m).
Definition set_MemAddr (addr : Z) (m : MemoryDevice) : MemoryDevice :=
  mkMemoryDevice (md_Slot m) (md_SizeMB m) addr (md_Probe m).

(** One more than the largest slot that is used; [maxSlot] starts at -1. *)
Definition next_slot (l : list MemoryDevices) : Z :=
  i64 (foldl (fun m d => Z.max m (mq_Slot (mq_Data d))) (-1) l + 1).

(** The address of the last device QEMU lists. *)
Definition probe_address : M (qemu * MemoryDevice) unit :=
  r ← try (vm (qmp ExecQueryMemoryDevices));
  match r with
  | Err _ => throw (Errorf "failed to query memory devices: %v")
  | Ok devices =>
      match last devices with
      | Some d => on_device (set_MemAddr (mq_Addr (mq_Data d)))
      | None => throw (Errorf "failed to probe address of recently hot-add memory device, no device exists")
      end
  end.

(** The back end, the DIMM and its address, once the slot is known. *)
Definition plug_dimm : M (qemu * MemoryDevice) Z :=
  stm ← vm getMemArgs;
  let '(share, target, back) := stm in
  m ← device;
  _ ← vm (qmp (ExecHotplugMemory back ("mem" +:+ Itoa (md_Slot m)) target (md_SizeMB m) share));
  _ ← when (md_Probe m) probe_address;
  _ ← vm (modify (fun q => q <| vm_state ::= fun st =>
        st <| qs_HotpluggedMemory ::= fun n => i64 (n + md_SizeMB m) |> |>));
  mret (md_SizeMB m).

Definition hotplugAddMemory : M (qemu * MemoryDevice) Z :=
  r ← try (vm (qmp ExecQueryMemoryDevices));
  match r with
  | Err _ => throw (Errorf "failed to query memory devices: %v")
  | Ok devices =>
      _ ← when (negb (bool_decide (devices = []))) (on_device (set_Slot (next_slot devices)));
      plug_dimm
  end.

Definition hotplugMemory (op : Operation) : M (qemu * MemoryDevice) Z :=
  q ← vm get;
  m ← device;
  if negb (supportGuestMemoryHotplug (vm_arch q)) then throw ErrNoGuestMemHotplug
  else if md_SizeMB m <? 0 then throw (Errorf "cannot hotplug negative size (%d) memory")
  else
    _ ← vm qmpSetup;
    let current := i64 (hc_MemorySize (vm_config q) + qs_HotpluggedMemory (vm_state q)) in
    if md_SizeMB m =? 0 then mret 0
    else
      match op with
      | OpRemove => mret 0
      | OpAdd =>
          maxMem ← lift hostMemMB;
          if i64 maxMem <? i64 (current + md_SizeMB m)
          then throw (Errorf "Unable to hotplug %d MiB memory, the SB has %d MiB and the maximum amount is %d MiB")
          else hotplugAddMemory
      end.

(** The quotient of two 32-bit integers, at 64 bits of precision, rounds up
    exactly; the product is a 32-bit integer again. *)
Definition calcHotplugMemMiBSize (mem memorySectionSizeMB : Z) : Z :=
  if memorySectionSizeMB =? 0 then mem
  else u32 (u32 ((mem + memorySectionSizeMB - 1) / memorySectionSizeMB) * memorySectionSizeMB).

(** [HotplugAddDevice] or [HotplugRemoveDevice] with a device of the caller. *)
Definition resize_plug (op : Operation) (m : MemoryDevice) : M qemu (Z * MemoryDevice) := fun q =>
  let '(r, (q, m)) := hotplugMemory op (q, m) in
  (match r with Ok n => Ok (n, m) | Err e => Err e end, q).

(** The current size and the device that was added. *)
Definition ResizeMemory (reqMemMB memoryBlockSizeMB : Z) (probe : bool) : M qemu (Z * MemoryDevice) :=
  q ← get;
  let conf := vm_config q in
  let current := u32 (hc_MemorySize conf + u32 (qs_HotpluggedMemory (vm_state q))) in
  let plug (size : Z) (op : Operation) : M qemu (Z * MemoryDevice) :=
    resize_plug op (mkMemoryDevice 0 size 0 probe) in
  _ ← qmpSetup;
  if hc_VirtioMem conf && negb (current =? reqMemMB) then
    let sizeByte := u64 (u32 (reqMemMB - hc_MemorySize conf) * 1024 * 1024) in
    _ ← qmp (ExecQomSet "virtiomem0" "requested-size" sizeByte);
    _ ← modify (fun q => q <| vm_state ::= fun st => st <| qs_HotpluggedMemory := sizeByte / 1024 / 1024 |> |>);
    mret (reqMemMB, mkMemoryDevice 0 0 0 false)
  else if current <? reqMemMB then
    r ← plug (calcHotplugMemMiBSize (reqMemMB - current) memoryBlockSizeMB) OpAdd;
    mret (u32 (current + u32 r.1), r.2)
  else if reqMemMB <? current then
    r ← plug (calcHotplugMemMiBSize (current - reqMemMB) memoryBlockSizeMB) OpRemove;
    if r.1 =? 0 then mret (current, r.2) else throw (Errorf "memory hot unplug is not supported, something went wrong")
  else mret (current, mkMemoryDevice 0 0 0 false).

(** *** The dispatcher *)

Inductive hot_device : Type :=
| HBlock (drive : Config.BlockDrive)
| HCpu (vcpus : Z)
| HVfio (device : Config.VFIODev)
| HMemory (memdev : MemoryDevice)
| HNet (endpoint : plugged_endpoint)
| HVhostUser (attr : Config.VhostUserDeviceAttrs)
| HOther.

(** A method on the device in a constructor. *)
Definition focus {D A} (wrap : D -> hot_device) (d : D) (m : M (qemu * D) A) : M (qemu * hot_device) A := fun s =>
  let '(r, (q, d')) := m (s.1, d) in (r, (q, wrap d')).

(** The data that is returned: how much was added or removed, or nothing. *)
Definition hotplugDevice (op : Operation) : M (qemu * hot_device) (option Z) :=
  d ← device;
  match d with
  | HBlock drive => _ ← focus HBlock drive (hotplugBlockDevice op); mret None
  | HCpu vcpus => n ← vm (hotplugCPUs vcpus op); mret (Some n)
  | HVfio dev => _ ← focus HVfio dev (hotplugVFIODevice op); mret None
  | HMemory m => n ← focus HMemory m (hotplugMemory op); mret (Some n)
  | HNet e => _ ← focus HNet e (hotplugNetDevice op); mret None
  | HVhostUser attr => _ ← focus HVhostUser attr (hotplugVhostUserDevice op); mret None
  | HOther => throw (Errorf "cannot hotplug device: unsupported device type '%v'")
  end.

Definition HotplugAddDevice : M (qemu * hot_device) (option Z) := hotplugDevice OpAdd.
Definition HotplugRemoveDevice : M (qemu * hot_device) (option Z) := hotplugDevice OpRemove.

End VM.

End QemuVM.
