(* ===== verification/QemuVMSpec.v ===== *)
(** * What the runtime knows about a running machine

    Properties of [QemuVM.v].  What QEMU has is read off its own answers
    ([inventory_of]); the theorems compare it with the fields the runtime keeps,
    over every sequence of calls and whatever QEMU answers. *)
From S2P Require Import Prelude GoStr Types Utils Devices Hypervisor Persist Qemu Qmp QmpCmd QemuArch QemuVM.

Module QemuVMSpec.
Import Qemu QmpCmd QemuArch QemuVM HypervisorConf.
Import Qmp(json, JNull, JBool, JNum, JStr, JArr, JObj, object, jget, has).

(** ** What QEMU has *)

Record inventory : Type := mkInventory {
  (** the devices, by the arguments they were added with *)
  iv_devices : list object;
  (** the sizes of the memory objects *)
  iv_objects : gmap string Z;
  (** the bytes of memory plugged in as DIMMs *)
  iv_dimms : Z;
  (** the back ends of drives *)
  iv_nodes : list string;
}.

#[export] Instance eta_inventory : Eta inventory := fun r =>
  mkInventory (iv_devices r) (iv_objects r) (iv_dimms r) (iv_nodes r).

Definition str_of (k : string) (o : object) : string := match jget k o with Some (JStr s) => s | _ => "" end.
Definition num_of (k : string) (o : object) : Z := match jget k o with Some (JNum z) => z | _ => 0 end.

Definition is_dimm (o : object) : bool := has "memdev" o && bool_decide (str_of "driver" o = "pc-dimm").
Definition is_cpu (o : object) : bool := has "core-id" o.

Definition is_request (name : string) (r : request) : bool := bool_decide (r_name r = name).

(** A command QEMU has confirmed. *)
Definition confirmed (r : request) (v : inventory) : inventory :=
  let a := r_args r in
  if is_request "device_add" r then
    v <| iv_devices ::= fun l => l ++ [a] |>
      <| iv_dimms ::= fun n => if is_dimm a then n + default 0 (iv_objects v !! str_of "memdev" a) else n |>
  else if is_request "device_del" r then v <| iv_devices ::= filter (fun o => str_of "id" o <> str_of "id" a) |>
  else if is_request "object-add" r then v <| iv_objects ::= <[str_of "id" a := num_of "size" a]> |>
  else if is_request "object-del" r then v <| iv_objects ::= delete (str_of "id" a) |>
  else if is_request "blockdev-add" r then v <| iv_nodes ::= fun l => l ++ [str_of "node-name" a] |>
  else if is_request "blockdev-del" r then v <| iv_nodes ::= filter (fun n => n <> str_of "node-name" a) |>
  else v.

Definition after (v : inventory) (e : entry) : inventory :=
  match e with Sent r (Ok _) => confirmed r v | _ => v end.

Definition inventory_from (v : inventory) (h : history) : inventory := foldl after v h.
Definition inventory_of (h : history) : inventory := inventory_from (mkInventory [] ∅ 0 []) h.

(** The identifiers of the processors that were plugged in. *)
Definition cpus (v : inventory) : list string := str_of "id" <$> filter (fun o => is_cpu o = true) (iv_devices v).

Lemma inventory_app h l : inventory_of (h ++ l) = inventory_from (inventory_of h) l.
Proof. unfold inventory_of, inventory_from. by rw foldl_app. Qed.

(** ** Commands that concern neither processors nor DIMMs *)

Definition harmless (r : request) : bool :=
  if is_request "device_add" r then negb (is_cpu (r_args r)) && negb (is_dimm (r_args r))
  else if is_request "device_del" r then negb (HasPrefix (str_of "id" (r_args r)) "cpu-")
  else true.

Definition harmless_entry (e : entry) : Prop := match e with Sent r _ => harmless r = true | _ => True end.

Definition hquiet (h h' : history) : Prop := exists l, h' = h ++ l /\ Forall harmless_entry l.

#[export] Instance hquiet_preorder : PreOrder hquiet.
Proof.
  split.
  - intros h. exists []. by rw app_nil_r.
  - intros h1 h2 h3 (l1 & -> & H1) (l2 & -> & H2). exists (l1 ++ l2). rw app_assoc Forall_app. done.
Qed.

Definition named (l : list string) : Prop := Forall (fun id => HasPrefix id "cpu-" = true) l.

Lemma harmless_after v e :
  harmless_entry e -> named (cpus v) -> cpus (after v e) = cpus v /\ iv_dimms (after v e) = iv_dimms v.
Proof.
  intros He Hn. destruct e as [|r [x|]]; try done. simpl in *. unfold harmless in He. unfold confirmed.
  destruct (is_request "device_add" r).
  - apply andb_true_iff in He as [H1 H2]. apply negb_true_iff in H1, H2. unfold cpus. simpl. rw H2.
    rw filter_app filter_cons_False; [by rw H1|by rw app_nil_r].
  - destruct (is_request "device_del" r); [|repeat case_match; done]. split; [|done].
    apply negb_true_iff in He. unfold cpus in *. simpl. revert Hn.
    induction (iv_devices v) as [|o l IH]; [done|]. unfold named in *.
    destruct (decide (is_cpu o = true)) as [Hc|Hc].
    + rw (filter_cons_True (fun o => is_cpu o = true) o l Hc) fmap_cons Forall_cons. intros [Hp Hn].
      rw (filter_cons_True (fun o => str_of "id" o <> _) o l); [intros E; congruence|].
      by rw (filter_cons_True (fun o => is_cpu o = true)) // fmap_cons IH.
    + rw (filter_cons_False (fun o => is_cpu o = true) o l Hc). intros Hn.
      destruct (decide (str_of "id" o <> str_of "id" (r_args r))) as [Hd|Hd].
      * rw (filter_cons_True (fun o => str_of "id" o <> _) o l Hd). by rw filter_cons_False // IH.
      * by rw (filter_cons_False (fun o => str_of "id" o <> _) o l Hd) IH.
Qed.

Lemma harmless_from l v :
  Forall harmless_entry l -> named (cpus v) ->
  cpus (inventory_from v l) = cpus v /\ iv_dimms (inventory_from v l) = iv_dimms v.
Proof.
  intros Hl. revert v. induction Hl as [|e l He Hl IH]; intros v Hn; [done|]. simpl.
  destruct (harmless_after v e He Hn) as [E1 E2]. destruct (IH (after v e)) as [E3 E4]; [by rw E1|].
  split; congruence.
Qed.

(** Keys that are not in the arguments of a command. *)
Definition no_key (k : string) (o : object) : Prop := Forall (fun kv => k <> kv.1) o.

Lemma no_key_jget k o : no_key k o -> jget k o = None.
Proof.
  induction 1 as [|[k' v] o Hk _ IH]; [done|]. simpl in *. by rw IH bool_decide_eq_false_2.
Qed.
Lemma jget_app_no k o1 o2 : no_key k o2 -> jget k (o1 ++ o2) = jget k o1.
Proof.
  intros Hk. induction o1 as [|[k' v] o1 IH]; simpl; [by apply no_key_jget|]. by rw IH.
Qed.
Lemma no_key_app k o1 o2 : no_key k o1 -> no_key k o2 -> no_key k (o1 ++ o2).
Proof. intros. by apply Forall_app. Qed.
Lemma no_key_cons k k' v o : k <> k' -> no_key k o -> no_key k ((k', v) :: o).
Proof. by constructor. Qed.
Lemma no_key_if k b k' v : k <> k' -> no_key k (arg_if b k' v).
Proof. intros Hk. destruct b; [|constructor]. apply no_key_cons; [done|constructor]. Qed.

Ltac no_key :=
  unfold arg_given, rom_args; repeat first
    [apply no_key_app | apply no_key_cons; [done|] | apply no_key_if; done | apply Forall_nil_2 | case_match].

Section Spec.
Context `{GoArch, QmpServer, QemuHost, VMHost, Exec, GoRange}.

Lemma quiet_response name args oob filter :
  harmless (mkRequest name args oob filter) = true -> stays hquiet (executeCommandWithResponse name args oob filter).
Proof. intros Hr h. eexists. split; [done|]. by apply Forall_singleton. Qed.

Lemma quiet_command name args filter :
  harmless (mkRequest name args [] filter) = true -> stays hquiet (executeCommand name args filter).
Proof. intros Hr. unfold executeCommand. stays. by apply quiet_response. Qed.

Lemma quiet_start socket : stays hquiet (QMPStart socket).
Proof. intros h. exists [Dialled socket (dial h socket)]. split; [done|]. by apply Forall_singleton. Qed.

Lemma quiet_query {A} name (read : json -> res A) :
  harmless (mkRequest name [] [] None) = true -> stays hquiet (query name read).
Proof. intros Hr. unfold query. stays. by apply quiet_response. Qed.

Lemma harmless_add args oob f :
  no_key "core-id" args -> no_key "memdev" args -> harmless (mkRequest "device_add" args oob f) = true.
Proof.
  intros E1%no_key_jget E2%no_key_jget. unfold harmless, is_cpu, is_dimm, has. simpl. by rw E1 E2.
Qed.

(** A command is harmless whatever the values of its arguments are. *)
Ltac harmless := apply quiet_command; first [reflexivity | apply harmless_add; no_key].

Lemma quiet_SCSIDeviceAdd a b c d e f g h i : stays hquiet (ExecuteSCSIDeviceAdd a b c d e f g h i).
Proof. unfold ExecuteSCSIDeviceAdd. stays. harmless. Qed.
Lemma quiet_DeviceAdd a b c d e f g : stays hquiet (ExecuteDeviceAdd a b c d e f g).
Proof. harmless. Qed.
Lemma quiet_PCIDeviceAdd a b c d e f g h i : stays hquiet (ExecutePCIDeviceAdd a b c d e f g h i).
Proof. harmless. Qed.
Lemma quiet_PCIVhostUserDevAdd a b c d e : stays hquiet (ExecutePCIVhostUserDevAdd a b c d e).
Proof. harmless. Qed.
Lemma quiet_VFIODeviceAdd a b c d : stays hquiet (ExecuteVFIODeviceAdd a b c d).
Proof. harmless. Qed.
Lemma quiet_PCIVFIODeviceAdd a b c d e : stays hquiet (ExecutePCIVFIODeviceAdd a b c d e).
Proof. harmless. Qed.
Lemma quiet_PCIVFIOMediatedDeviceAdd a b c d e : stays hquiet (ExecutePCIVFIOMediatedDeviceAdd a b c d e).
Proof. harmless. Qed.
Lemma quiet_NetPCIDeviceAdd a b c d e f g h : stays hquiet (ExecuteNetPCIDeviceAdd a b c d e f g h).
Proof. harmless. Qed.
Lemma quiet_NetCCWDeviceAdd a b c d e : stays hquiet (ExecuteNetCCWDeviceAdd a b c d e).
Proof. harmless. Qed.
Lemma quiet_NVDIMMDeviceAdd a b c d : stays hquiet (ExecuteNVDIMMDeviceAdd a b c d).
Proof. unfold ExecuteNVDIMMDeviceAdd. stays; harmless. Qed.
Lemma quiet_DeviceDel id : HasPrefix id "cpu-" = false -> stays hquiet (ExecuteDeviceDel id).
Proof. intros Hp. apply quiet_command. unfold harmless, str_of. simpl. by rw Hp. Qed.
Lemma quiet_virtiomem qt mempath size share addr bus :
  stays hquiet (ExecMemdevAdd qt "virtiomem" mempath size share "virtio-mem-pci" "virtiomem0" addr bus).
Proof.
  unfold ExecMemdevAdd. stays; [harmless| |harmless]. apply quiet_command. unfold harmless, is_cpu, is_dimm, str_of, has.
  change (r_args (mkRequest ?n ?a ?o ?f)) with a. rw !jget_app_no; [no_key..|done].
Qed.

(** ** Calls that concern neither processors nor DIMMs *)

Definition quiet (q q' : qemu) : Prop :=
  qs_HotpluggedVCPUs (vm_state q') = qs_HotpluggedVCPUs (vm_state q) /\
  qs_HotpluggedMemory (vm_state q') = qs_HotpluggedMemory (vm_state q) /\
  vm_config q' = vm_config q /\ q_SMP (vm_qemuConfig q') = q_SMP (vm_qemuConfig q) /\
  hquiet (vm_history q) (vm_history q').

#[local] Instance quiet_preorder : PreOrder quiet.
Proof.
  split.
  - intros q. by split_and!.
  - intros q1 q2 q3 (A1 & A2 & A3 & A4 & A5) (B1 & B2 & B3 & B4 & B5). split_and!; [congruence..|]. by etrans.
Qed.

(** The same on a machine and a device. *)
Definition pquiet {D} (s s' : qemu * D) : Prop := quiet s.1 s'.1.

#[local] Instance pquiet_preorder {D} : PreOrder (@pquiet D).
Proof. unfold pquiet. split; [by intros s|by intros s1 s2 s3; etrans]. Qed.

Lemma quiet_qmp {A} (m : M history A) : stays hquiet m -> stays quiet (qmp m).
Proof. intros Hm q. specialize (Hm (vm_history q)). unfold qmp. by destruct (m (vm_history q)). Qed.
Lemma quiet_arch {A} (m : M qemuArch A) : stays quiet (arch m).
Proof. intros q. unfold arch. by destruct (m (vm_arch q)). Qed.
Lemma quiet_hostop op : stays quiet (hostop_do op).
Proof. by intros q. Qed.
Lemma quiet_ignore {A} (m : M qemu A) : stays quiet m -> stays quiet (ignore m).
Proof. intros Hm. unfold ignore. stays. Qed.
Lemma quiet_vm {D A} (m : M qemu A) : stays quiet m -> stays (@pquiet D) (vm m).
Proof. intros Hm [q d]. specialize (Hm q). unfold vm. simpl. by destruct (m q). Qed.
Lemma quiet_on_device {D} (f : D -> D) : stays pquiet (on_device f).
Proof. by intros [q d]. Qed.
Lemma quiet_focus {D A} (wrap : D -> hot_device) d (m : M (qemu * D) A) : stays pquiet m -> stays pquiet (focus wrap d m).
Proof.
  intros Hm [q d']. specialize (Hm (q, d)). unfold focus. simpl. by destruct (m (q, d)) as [r [q' d'']].
Qed.

#[local] Hint Extern 1 (stays hquiet (executeCommand _ _ _)) => harmless : stays.
#[local] Hint Extern 1 (stays hquiet (query _ _)) => apply quiet_query; reflexivity : stays.
#[local] Hint Extern 1 (stays hquiet (executeCommandWithResponse _ _ _ _)) => apply quiet_response; reflexivity : stays.
#[local] Hint Resolve quiet_start quiet_SCSIDeviceAdd quiet_DeviceAdd quiet_PCIDeviceAdd quiet_PCIVhostUserDevAdd
  quiet_VFIODeviceAdd quiet_PCIVFIODeviceAdd quiet_PCIVFIOMediatedDeviceAdd quiet_NetPCIDeviceAdd quiet_NetCCWDeviceAdd
  quiet_NVDIMMDeviceAdd quiet_DeviceDel quiet_virtiomem quiet_qmp quiet_arch quiet_hostop quiet_ignore quiet_vm
  quiet_on_device quiet_focus : stays.

(** Calls on the machine, with their parts unfolded by hand. *)
Ltac quiet :=
  repeat first
    [ progress stays
    | apply stays_modify; intros ?; by split_and!
    | apply quiet_vm | apply quiet_focus | apply quiet_ignore | apply quiet_qmp | done ].

Lemma quiet_qmpSetup : stays quiet qmpSetup.
Proof. unfold qmpSetup, ExecuteQMPCapabilities. quiet. Qed.
Lemma quiet_qmpShutdown : stays quiet qmpShutdown.
Proof. unfold qmpShutdown. quiet. Qed.
Lemma quiet_connect n path : stays quiet (connect n path).
Proof. induction n; simpl; quiet. Qed.
#[local] Hint Resolve quiet_qmpSetup quiet_qmpShutdown quiet_connect : stays.

Lemma quiet_waitVM timeout : stays quiet (waitVM timeout).
Proof. unfold waitVM, ExecuteQMPCapabilities. quiet. Qed.
Lemma quiet_waitMigration : stays quiet waitMigration.
Proof.
  unfold waitMigration. generalize (tries qmpMigrationWaitTimeout). intros n.
  induction n; simpl; unfold ExecuteQueryMigration; quiet.
Qed.
Lemma quiet_caps : stays quiet setIgnoreSharedMemoryMigrationCaps.
Proof. unfold setIgnoreSharedMemoryMigrationCaps, ExecSetMigrationCaps. quiet. Qed.
#[local] Hint Resolve quiet_waitVM quiet_waitMigration quiet_caps : stays.

Lemma quiet_bootFromTemplate : stays quiet bootFromTemplate.
Proof. unfold bootFromTemplate, ExecuteMigrationIncoming, config. quiet. Qed.
Lemma quiet_SaveVM : stays quiet SaveVM.
Proof. unfold SaveVM, ExecSetMigrateArguments, config. quiet. Qed.
Lemma quiet_toggle pause : stays quiet (togglePauseSandbox pause).
Proof. unfold togglePauseSandbox, ExecuteStop, ExecuteCont. quiet. Qed.
Lemma quiet_Check : stays quiet Check.
Proof. unfold Check, ExecuteQueryStatus. quiet. Qed.
Lemma quiet_GetThreadIDs : stays quiet GetThreadIDs.
Proof. unfold GetThreadIDs, ExecQueryCpusFast. quiet. Qed.
Lemma quiet_getMemArgs : stays quiet getMemArgs.
Proof. unfold getMemArgs. quiet. Qed.
#[local] Hint Resolve quiet_bootFromTemplate quiet_getMemArgs : stays.

Lemma quiet_setupVirtioMem : stays quiet setupVirtioMem.
Proof. unfold setupVirtioMem, config. quiet. Qed.
Lemma quiet_stopVirtiofsDaemon : stays quiet stopVirtiofsDaemon.
Proof. unfold stopVirtiofsDaemon. quiet. Qed.
Lemma quiet_setupVirtiofsDaemon : stays quiet setupVirtiofsDaemon.
Proof. unfold setupVirtiofsDaemon. quiet. Qed.
#[local] Hint Resolve quiet_setupVirtioMem quiet_stopVirtiofsDaemon quiet_setupVirtiofsDaemon : stays.

Lemma quiet_StartVM timeout : stays quiet (StartVM timeout).
Proof. unfold StartVM, start_shared, launch, config. quiet. Qed.
Lemma quiet_cleanupVM : stays quiet cleanupVM.
Proof. unfold cleanupVM. quiet. Qed.
#[local] Hint Resolve quiet_cleanupVM : stays.
Lemma quiet_StopVM waitOnly : stays quiet (StopVM waitOnly).
Proof.
  intros q. unfold StopVM. destruct (vm_stopped q); [done|].
  assert (Hm : stays quiet (finally (stop_machine waitOnly (vm_config q)) stop_deferred)); [|apply Hm].
  unfold stop_machine, stop_deferred, GetPids, wait_process, ExecuteQuit. quiet.
Qed.
Lemma quiet_AddDevice d : stays quiet (AddDevice d).
Proof. unfold AddDevice, vhostFSSocketPath, socket_path, set_Devices, config. quiet. Qed.

(** *** Hot plugging *)

Lemma quiet_hotplugBlockDevice op : stays pquiet (hotplugBlockDevice op).
Proof.
  unfold hotplugBlockDevice, hotplugAddBlockDevice, hotplugAddNvdimm, plug_pci_block, plug_ccw_block, plug_scsi_block,
    add_blockdev, ExecuteBlockdevAdd, ExecuteBlockdevAddWithCache, ExecuteBlockdevAddWithDriverCache, ExecuteBlockdevDel,
    device, config. quiet.
Qed.
Lemma quiet_hotplugVhostUserDevice op : stays pquiet (hotplugVhostUserDevice op).
Proof.
  unfold hotplugVhostUserDevice, hotplugAddVhostUserBlkDevice, ExecuteCharDevUnixSocketAdd, ExecuteChardevDel, device. quiet.
Qed.
Lemma quiet_qomGetSlot path : stays quiet (qomGetSlot path).
Proof. unfold qomGetSlot, ExecQomGet. quiet. Qed.
#[local] Hint Resolve quiet_qomGetSlot : stays.
Lemma quiet_query_path : stays pquiet query_path.
Proof. unfold query_path, qomGetPciPath, ExecQomGet, device. quiet. Qed.
#[local] Hint Resolve quiet_query_path : stays.
Lemma quiet_plug_vfio_root : stays pquiet plug_vfio_root.
Proof. unfold plug_vfio_root, ExecuteAPVFIOMediatedDeviceAdd, device. quiet. Qed.
Lemma quiet_plug_vfio_bridge : stays pquiet plug_vfio_bridge.
Proof. unfold plug_vfio_bridge, ExecuteAPVFIOMediatedDeviceAdd, device. quiet. Qed.
#[local] Hint Resolve quiet_plug_vfio_root quiet_plug_vfio_bridge : stays.

(** Removing a device deletes what the caller names. *)
Lemma quiet_hotplugVFIODevice op q d :
  HasPrefix (Config.vd_ID d) "cpu-" = false -> pquiet (q, d) (hotplugVFIODevice op (q, d)).2.
Proof.
  intros Hp. unfold hotplugVFIODevice. unfold mbind at 1, M_bind at 1.
  pose proof (quiet_vm (D := Config.VFIODev) _ quiet_qmpSetup (q, d)) as Hs.
  destruct (vm qmpSetup (q, d)) as [r [q1 d1]] eqn:E.
  assert (d1 = d) as -> by by unfold vm in E; destruct (qmpSetup (q, d).1); simplify_eq.
  destruct r; [|exact Hs]. etrans; [exact Hs|]. unfold mbind at 1, M_bind at 1. unfold device, gets at 1.
  match goal with |- pquiet _ (?m _).2 => assert (Hm : stays pquiet m); [|apply Hm] end.
  unfold state. destruct op; simpl; quiet.
Qed.

Lemma quiet_send_fds prefix i fds : stays quiet (send_fds prefix i fds).
Proof. revert i. induction fds; intros i; simpl; unfold ExecuteGetFD; quiet. Qed.
#[local] Hint Resolve quiet_send_fds : stays.
Lemma quiet_hotplugNetDevice op : stays pquiet (hotplugNetDevice op).
Proof.
  unfold hotplugNetDevice, hotAddNetDevice, plug_net, ExecuteNetdevAddByFds, ExecuteNetdevDel, getQemuMachine, device, config.
  quiet.
Qed.

(** ** Processors *)

Definition cpu_name (i : nat) : string := "cpu-" +:+ Itoa (Z.of_nat i).

Lemma cpu_name_inj i j : cpu_name i = cpu_name j -> i = j.
Proof.
  unfold cpu_name. intros E. injection E as E. apply Itoa_inj_nonneg in E; lia.
Qed.

(** The processors the runtime lists are those QEMU has, numbered in order. *)
Definition numbered (l : list string) : Prop := forall i id, l !! i = Some id -> id = cpu_name i.
Definition cpus_tracked (q : qemu) : Prop :=
  qs_HotpluggedVCPUs (vm_state q) = cpus (inventory_of (vm_history q)) /\ numbered (qs_HotpluggedVCPUs (vm_state q)).

Lemma numbered_named l : numbered l -> named l.
Proof.
  intros Hl. apply Forall_lookup. intros i id E. rw (Hl i id E). apply HasPrefix_app.
Qed.
Lemma numbered_snoc l : numbered l -> numbered (l ++ [cpu_name (length l)]).
Proof.
  intros Hl i id E. apply lookup_app_Some in E as [E|[Hi E]]; [by apply Hl|].
  apply list_lookup_singleton_Some in E as [E <-]. f_equal. lia.
Qed.
Lemma numbered_take n l : numbered l -> numbered (take n l).
Proof. intros Hl i id E. apply lookup_take_Some in E as [E _]. by apply Hl. Qed.

Lemma filter_id {A} (P : A -> Prop) `{!forall x, Decision (P x)} l : Forall P l -> filter P l = l.
Proof. induction 1 as [|x l Hx _ IH]; [done|]. by rw filter_cons_True // IH. Qed.

(** Without the last one. *)
Lemma numbered_filter l x :
  numbered l -> last l = Some x -> filter (fun id => id <> x) l = take (length l - 1) l.
Proof.
  intros Hl [l' ->]%last_Some. rw filter_app length_app /= Nat.add_sub take_app_length.
  rw filter_cons_False; [by intros E|]. rw app_nil_r. apply filter_id.
  apply Forall_lookup. intros i id E ->.
  pose proof (Hl i x ltac:(by apply lookup_app_l_Some)) as E1.
  pose proof (Hl (length l') x ltac:(by apply list_lookup_middle)) as E2.
  rw E1 in E2. apply cpu_name_inj in E2. apply lookup_lt_Some in E. lia.
Qed.

Lemma cpus_filter (P : string -> Prop) `{!forall x, Decision (P x)} (l : list object) :
  str_of "id" <$> filter (fun o => is_cpu o = true) (filter (fun o => P (str_of "id" o)) l) =
  filter P (str_of "id" <$> filter (fun o => is_cpu o = true) l).
Proof.
  induction l as [|o l IH]; [done|].
  destruct (decide (is_cpu o = true)) as [Hc|Hc], (decide (P (str_of "id" o))) as [Hp|Hp].
  - rw (filter_cons_True (fun o => P _) o l Hp) !(filter_cons_True (fun o => is_cpu o = true)) // !fmap_cons.
    by rw filter_cons_True // IH.
  - rw (filter_cons_False (fun o => P _) o l Hp) (filter_cons_True (fun o => is_cpu o = true) o l Hc) fmap_cons.
    by rw filter_cons_False // IH.
  - rw (filter_cons_True (fun o => P _) o l Hp). by rw !(filter_cons_False (fun o => is_cpu o = true)) // IH.
  - rw (filter_cons_False (fun o => P _) o l Hp). by rw (filter_cons_False (fun o => is_cpu o = true)) // IH.
Qed.

Lemma add_cpu_args driver cpuID socketID dieID coreID threadID :
  let a := [("driver", JStr driver); ("id", JStr cpuID); ("core-id", JStr coreID)]
     ++ arg_if (given socketID && isSocketIDSupported driver) "socket-id" (JStr socketID)
     ++ arg_if (given threadID && isThreadIDSupported driver) "thread-id" (JStr threadID)
     ++ arg_if (isDieIDSupported driver && given dieID) "die-id" (JStr dieID) in
  is_cpu a = true /\ is_dimm a = false /\ str_of "id" a = cpuID.
Proof.
  intros a. unfold is_cpu, is_dimm, has, str_of, a. rw !jget_app_no; [no_key..|]. done.
Qed.

(** What plugging a processor tells about it. *)
Lemma add_cpu_inventory machineType cpuID hc h :
  let '(r, h') := add_cpu machineType cpuID hc h in
  let v := inventory_of h in let v' := inventory_of h' in
  iv_dimms v' = iv_dimms v /\ cpus v' = (if is_ok r then cpus v ++ [cpuID] else cpus v).
Proof.
  unfold add_cpu, ExecuteCPUDeviceAdd, executeCommand, executeCommandWithResponse. unfold mbind, M_bind.
  set (r := mkRequest _ _ _ _). cbv zeta.
  destruct (reply h r) as [x|e] eqn:E; simpl; rw inventory_app /=; [|done].
  destruct (add_cpu_args (hp_Type hc) cpuID
    (if bool_decide (machineType ∈ ["pseries"; QemuCCWVirtio; "virt"]) then "" else Itoa (cp_Socket (hp_Properties hc)))
    (if bool_decide (machineType ∈ ["pseries"; QemuCCWVirtio; "virt"]) then "" else Itoa (cp_Die (hp_Properties hc)))
    (Itoa (cp_Core (hp_Properties hc)))
    (if bool_decide (machineType ∈ ["pseries"; QemuCCWVirtio; "virt"]) then "" else Itoa (cp_Thread (hp_Properties hc))))
    as (E1 & E2 & E3).
  change (is_cpu (r_args r) = true) in E1. change (is_dimm (r_args r) = false) in E2. change (str_of "id" (r_args r) = cpuID) in E3.
  unfold confirmed. change (is_request "device_add" r) with true. cbv iota. unfold cpus. simpl. rw E2. split; [done|].
  rw filter_app filter_cons_True; [exact E1|]. by rw fmap_app /= E3.
Qed.

(** What QEMU was told about a device that is removed. *)
Lemma device_del_inventory id h :
  let '(r, h') := ExecuteDeviceDel id h in
  let v := inventory_of h in let v' := inventory_of h' in
  iv_dimms v' = iv_dimms v /\ cpus v' = (if is_ok r then filter (fun x => x <> id) (cpus v) else cpus v).
Proof.
  unfold ExecuteDeviceDel, executeCommand, executeCommandWithResponse. unfold mbind, M_bind. set (r := mkRequest _ _ _ _).
  cbv zeta. destruct (reply h r) as [x|e]; simpl; rw inventory_app /=; [|done].
  unfold confirmed. change (is_request "device_add" r) with false. change (is_request "device_del" r) with true.
  cbv iota. split; [done|]. exact (cpus_filter (fun x => x <> id) _).
Qed.

(** Calls that keep track of the processors, and leave the memory alone. *)
Definition cpu_steps (q q' : qemu) : Prop :=
  cpus_tracked q ->
  cpus_tracked q' /\ iv_dimms (inventory_of (vm_history q')) = iv_dimms (inventory_of (vm_history q)) /\
  qs_HotpluggedMemory (vm_state q') = qs_HotpluggedMemory (vm_state q) /\ vm_config q' = vm_config q.

#[local] Instance cpu_steps_preorder : PreOrder cpu_steps.
Proof.
  split.
  - intros q Hq. by split_and!.
  - intros q1 q2 q3 H12 H23 Hq. destruct (H12 Hq) as (A1 & A2 & A3 & A4). destruct (H23 A1) as (B1 & B2 & B3 & B4).
    split_and!; [done|congruence..].
Qed.

Lemma quiet_cpu_steps q q' : quiet q q' -> cpu_steps q q'.
Proof.
  intros (E1 & E2 & E3 & _ & (l & El & Hl)) [Hc Hn]. rw /cpus_tracked El inventory_app.
  destruct (harmless_from l (inventory_of (vm_history q)) Hl) as [D1 D2]; [rw -Hc; by apply numbered_named|].
  rw D1 D2 E1. by split_and!.
Qed.
Lemma stays_quiet {A} (m : M qemu A) : stays quiet m -> stays cpu_steps m.
Proof. intros Hm q. by apply quiet_cpu_steps. Qed.

Lemma add_cpus_steps machineType amount added l : stays cpu_steps (add_cpus machineType amount added l).
Proof.
  revert added. induction l as [|hc l IH]; intros added; simpl; [apply stays_ret, _|].
  destruct (given (hp_QOMPath hc)); [apply IH|]. intros q.
  pose proof (add_cpu_inventory machineType (cpu_name (length (qs_HotpluggedVCPUs (vm_state q)))) hc (vm_history q)) as Ha.
  unfold cpu_name in Ha. unfold state, qmp. munfold. cbv beta iota. destruct (add_cpu _ _ _ (vm_history q)) as [r h'] eqn:E. simpl.
  destruct Ha as [Hd Hc]. destruct r as [[]|e]; simpl in Hc.
  - set (q1 := q <| vm_history := h' |> <| vm_state ::= fun st => st <| qs_HotpluggedVCPUs ::= fun l => l ++ [
      cpu_name (length (qs_HotpluggedVCPUs (vm_state q)))] |> |>).
    assert (Hq1 : cpu_steps q q1).
    { intros [T1 T2]. split_and!; [split|done..].
      - simpl. by rw Hc -T1.
      - simpl. by apply numbered_snoc. }
    destruct (u32 (added + 1) =? amount); [exact Hq1|]. etrans; [exact Hq1|]. apply IH.
  - set (q1 := q <| vm_history := h' |>). etrans; [|apply (IH added q1)].
    intros [T1 T2]. split_and!; [split|done..]; [|done]. simpl. congruence.
Qed.

Lemma remove_cpus_steps n : stays cpu_steps (remove_cpus n).
Proof.
  induction n as [|n IH]; simpl; [apply stays_ret, _|]. intros q. unfold state, qmp. munfold. cbv beta iota.
  destruct (last (qs_HotpluggedVCPUs (vm_state q))) as [cpu|] eqn:El; [|done].
  pose proof (device_del_inventory cpu (vm_history q)) as Ha.
  destruct (ExecuteDeviceDel cpu (vm_history q)) as [r h'] eqn:E. simpl. destruct Ha as [Hd Hc].
  destruct r as [[]|e]; simpl in Hc.
  - set (q1 := q <| vm_history := h' |> <| vm_state ::= fun st =>
      st <| qs_HotpluggedVCPUs ::= fun l => take (length l - 1) l |> |>).
    assert (Hq1 : cpu_steps q q1); [|etrans; [exact Hq1|apply IH]].
    intros [T1 T2]. split_and!; [split|done..].
    + simpl. rw Hc -T1. symmetry. by apply numbered_filter.
    + simpl. by apply numbered_take.
  - intros [T1 T2]. split_and!; [split|done..]; [|done]. simpl. congruence.
Qed.

Lemma hotplugCPUs_steps vcpus op : stays cpu_steps (hotplugCPUs vcpus op).
Proof.
  unfold hotplugCPUs, hotplugAddCPUs, hotplugRemoveCPUs, state. stays.
  - apply stays_quiet, quiet_qmpSetup.
  - apply stays_quiet. unfold ExecuteQueryHotpluggableCPUs. quiet.
  - apply add_cpus_steps.
  - apply remove_cpus_steps.
Qed.

Lemma ResizeVCPUs_steps n : stays cpu_steps (ResizeVCPUs n).
Proof. unfold ResizeVCPUs. stays; apply hotplugCPUs_steps. Qed.

(** What plugging a DIMM tells about it. *)
Lemma dimm_inventory qomtype id mempath size share h :
  0 <= size < 2 ^ 44 ->
  let '(r, h') := ExecHotplugMemory qomtype id mempath size share h in
  let v := inventory_of h in let v' := inventory_of h' in
  cpus v' = cpus v /\ iv_dimms v' = iv_dimms v + (if is_ok r then size * 2 ^ 20 else 0).
Proof.
  intros Hs. unfold ExecHotplugMemory, ExecMemdevAdd, executeCommand, executeCommandWithResponse. munfold. cbv beta zeta.
  set (r1 := mkRequest "object-add" _ _ _). set (r2 := mkRequest "device_add" _ _ _).
  destruct (reply h r1) as [x|e]; [|simpl; rw inventory_app /=; split; [done|lia]]. simpl.
  assert (E1 : str_of "id" (r_args r1) = id /\ num_of "size" (r_args r1) = size * 2 ^ 20).
  { unfold r1, str_of, num_of. change (r_args (mkRequest ?n ?a ?o ?f)) with a. rw !jget_app_no; [no_key..|]. simpl.
    split; [done|]. rw u64_small; rw u64_small ?Z.shiftl_mul_pow2; unfold maxUint64; lia. }
  assert (E2 : is_cpu (r_args r2) = false /\ is_dimm (r_args r2) = true /\ str_of "memdev" (r_args r2) = id).
  { unfold r2, is_cpu, is_dimm, has, str_of. change (r_args (mkRequest ?n ?a ?o ?f)) with a. by rw !jget_app_no; [no_key..|]. }
  destruct E1 as [I1 I2], E2 as (D1 & D2 & D3).
  assert (Ho : forall v, confirmed r1 v = v <| iv_objects ::= <[id := size * 2 ^ 20]> |>).
  { intros v. unfold confirmed. by rw -I1 -I2. }
  assert (N2 : is_request "device_add" r2 = true) by done. clearbody r1 r2.
  destruct (reply _ r2) as [y|e]; simpl.
  - rw !inventory_app /= Ho. unfold confirmed, cpus. rw N2 /=. rw D2 D3 lookup_insert_eq /=.
    rw filter_app filter_cons_False; [by rw D1|]. by rw app_nil_r.
  - destruct (reply _ _) as [z|e']; simpl; rw !inventory_app /= Ho; (split; [done|simpl; lia]).
Qed.

(** Asking for the address of a new DIMM. *)
Lemma quiet_probe_address : stays pquiet probe_address.
Proof. unfold probe_address, ExecQueryMemoryDevices. quiet. Qed.

(** ** The two books through one call *)

Abbreviation extra q := (qs_HotpluggedMemory (vm_state q)).
Abbreviation dimms q := (iv_dimms (inventory_of (vm_history q))).

(** The machine grows by DIMMs, and the memory it boots with is a 32-bit number. *)
Definition plain (conf : HypervisorConfig) : Prop := hc_VirtioMem conf = false /\ 0 <= hc_MemorySize conf < 2 ^ 32.

(** A call from [q] to [q'], [lost] when it failed and had to ask for the
    address of the memory.  Processors are always accounted for.  Memory is
    counted as QEMU confirms it, except that a call that is [lost] counts none. *)
Definition books (q : qemu) (lost : bool) (q' : qemu) : Prop :=
  cpus_tracked q ->
  cpus_tracked q' /\ vm_config q' = vm_config q /\
  (plain (vm_config q) -> 0 <= extra q < 2 ^ 54 ->
   0 <= extra q' < 2 ^ 54 /\
   if lost then extra q' = extra q /\ dimms q <= dimms q' else dimms q' - dimms q = (extra q' - extra q) * 2 ^ 20).

Lemma steps_books lost q q' : cpu_steps q q' -> books q lost q'.
Proof. intros Hq T. destruct (Hq T) as (A1 & A2 & A3 & A4). split_and!; [done..|]. rw A2 A3. destruct lost; lia. Qed.
Lemma quiet_books lost q q' : quiet q q' -> books q lost q'.
Proof. intros Hq. by apply steps_books, quiet_cpu_steps. Qed.
Lemma books_after lost q q1 q' : quiet q q1 -> books q1 lost q' -> books q lost q'.
Proof.
  intros Hq Hb T. destruct (quiet_cpu_steps _ _ Hq T) as (A1 & A2 & A3 & A4). destruct (Hb A1) as (B1 & B2 & B3).
  rw A2 A3 A4 in B3. split_and!; [done|congruence|done].
Qed.

Lemma hostMemMB_bound n : hostMemMB = Ok n -> 0 <= n < 2 ^ 54.
Proof.
  unfold hostMemMB, GetHostMemorySizeKb. munfold. destruct (host_scan procMemInfo) as [[lines e]|]; [|done]. simpl.
  assert (Hm : forall l kb, memtotal_go l = Some kb -> 0 <= kb < 2 ^ 64).
  { induction l as [|x l IH]; intros kb; [done|]. simpl. unfold memtotal. intros Hk.
    repeat case_match; simplify_eq; try by apply IH. all: by eapply ParseUint0_bound. }
  destruct (memtotal_go lines) as [kb|] eqn:E; [|by destruct e]. apply Hm in E. case_match; [done|].
  intros [= <-]. split; [apply Z.div_pos; lia|]. apply Z.div_lt_upper_bound; lia.
Qed.

Definition fits (q : qemu) (size : Z) : Prop :=
  plain (vm_config q) -> 0 <= extra q < 2 ^ 54 -> extra q + size < 2 ^ 54.

(** Memory that fits the host is counted as it is plugged. *)
Lemma plug_dimm_books q m :
  0 <= md_SizeMB m < 2 ^ 44 -> fits q (md_SizeMB m) ->
  let '(r, (q', _)) := plug_dimm (q, m) in books q (md_Probe m && negb (is_ok r)) q'.
Proof.
  intros Hs Hb. unfold plug_dimm, vm, device, on_device. munfold. simpl.
  pose proof (quiet_getMemArgs q) as Q2. destruct (getMemArgs q) as [[[[share target] back]|e] q2]; simpl in *;
    [|by apply quiet_books].
  pose proof (dimm_inventory back ("mem" +:+ Itoa (md_Slot m)) target (md_SizeMB m) share (vm_history q2) Hs) as Hd.
  assert (Hb2 : fits q2 (md_SizeMB m)) by (unfold fits; destruct Q2 as (_ & -> & -> & _); done).
  unfold qmp at 1. destruct (ExecHotplugMemory _ _ _ _ _ _) as [[[]|e] h']; simpl in *; destruct Hd as [D1 D2].
  2: { apply (books_after _ _ _ _ Q2). intros [A1 A2]. unfold cpus_tracked. simpl. rw D1 D2. split_and!; [done..|].
       intros _ He. destruct (md_Probe m); simpl; lia. }
  set (q3 := q2 <| vm_history := h' |>).
  assert (T3 : forall q4, quiet q3 q4 -> books q2 true q4).
  { intros q4 Q4 [A1 A2]. destruct (quiet_cpu_steps _ _ Q4) as (B1 & B2 & B3 & B4); [split; [by rw /= D1|done]|].
    split_and!; [done..|]. intros _ He. rw B2 B3 /=. lia. }
  assert (T4 : forall q4, quiet q3 q4 ->
    books q2 false (q4 <| vm_state ::= fun st => st <| qs_HotpluggedMemory ::= fun n => i64 (n + md_SizeMB m) |> |>)).
  { intros q4 Q4 [A1 A2]. destruct (quiet_cpu_steps _ _ Q4) as (B1 & B2 & B3 & B4); [split; [by rw /= D1|done]|].
    split_and!; [done..|]. intros Hp He. specialize (Hb2 Hp He). simpl in *. rw B2 B3 D2 i64_small; lia. }
  destruct (md_Probe m); simpl; [|by apply (books_after _ _ _ _ Q2), T4].
  pose proof (quiet_probe_address (q3, m)) as Q4. destruct (probe_address (q3, m)) as [[[]|e] [q4 m4]]; simpl in *.
  all: apply (books_after _ _ _ _ Q2). 1: by apply T4. by apply T3.
Qed.

Lemma hotplugAddMemory_books q m :
  0 <= md_SizeMB m < 2 ^ 44 -> fits q (md_SizeMB m) ->
  let '(r, (q', _)) := hotplugAddMemory (q, m) in books q (md_Probe m && negb (is_ok r)) q'.
Proof.
  intros Hs Hb. unfold hotplugAddMemory, vm, on_device. munfold. simpl.
  assert (Q1 : quiet q (qmp ExecQueryMemoryDevices q).2)
    by (apply (quiet_qmp ExecQueryMemoryDevices); unfold ExecQueryMemoryDevices; stays).
  destruct (qmp ExecQueryMemoryDevices q) as [[devices|e] q1]; simpl in *; [|by apply quiet_books].
  assert (Hb1 : fits q1 (md_SizeMB m)) by (unfold fits; destruct Q1 as (_ & -> & -> & _); done).
  destruct (negb (bool_decide (devices = []))); simpl.
  - pose proof (plug_dimm_books q1 (set_Slot (next_slot devices) m) Hs Hb1) as Hp.
    destruct (plug_dimm _) as [r [q' m']]. by apply (books_after _ _ _ _ Q1).
  - pose proof (plug_dimm_books q1 m Hs Hb1) as Hp.
    destruct (plug_dimm _) as [r [q' m']]. by apply (books_after _ _ _ _ Q1).
Qed.

Lemma hotplugMemory_books op q m :
  md_SizeMB m < 2 ^ 44 -> let '(r, (q', _)) := hotplugMemory op (q, m) in books q (md_Probe m && negb (is_ok r)) q'.
Proof.
  intros Hs. unfold hotplugMemory. munfold. unfold vm, device. munfold. simpl.
  destruct (negb (supportGuestMemoryHotplug _)); [by apply quiet_books|].
  destruct (Z.ltb_spec (md_SizeMB m) 0) as [|Hpos]; [by apply quiet_books|]. simpl.
  pose proof (quiet_qmpSetup q) as Q1. destruct (qmpSetup q) as [[[]|e] q1]; simpl in *; [|by apply quiet_books].
  destruct (md_SizeMB m =? 0); [by apply quiet_books|]. destruct op; [|by apply quiet_books].
  destruct hostMemMB as [maxMem|e] eqn:E; [|by apply quiet_books]. apply hostMemMB_bound in E. simpl.
  destruct (Z.ltb_spec (i64 maxMem) (i64 (i64 (hc_MemorySize (vm_config q) + extra q) + md_SizeMB m))) as [|Hle];
    [by apply quiet_books|].
  pose proof (hotplugAddMemory_books q1 m ltac:(lia)) as Ha. destruct (hotplugAddMemory (q1, m)) as [r [q' m']].
  apply (books_after _ _ _ _ Q1), Ha. unfold fits. destruct Q1 as (_ & -> & -> & _). intros [_ Hm] He.
  rw !i64_small in Hle; lia.
Qed.

(** The size of a virtio-mem device is no count of DIMMs. *)
Lemma virtio_books lost q q' n :
  hc_VirtioMem (vm_config q) = true -> quiet q q' ->
  books q lost (q' <| vm_state ::= fun st => st <| qs_HotpluggedMemory := n |> |>).
Proof.
  intros Hv Hq T. destruct (quiet_cpu_steps _ _ Hq T) as (A1 & _ & _ & A4). split_and!; [done..|].
  intros [Hf _]. congruence.
Qed.

(** Memory is never taken away. *)
Lemma quiet_unplug q m : quiet q (hotplugMemory OpRemove (q, m)).2.1.
Proof.
  assert (Hm : stays pquiet (hotplugMemory OpRemove)); [|apply (Hm (q, m))].
  unfold hotplugMemory, device. quiet.
Qed.

(** The requests of a client are 32-bit integers. *)
Lemma ResizeMemory_books req block probe q :
  0 <= req < 2 ^ 32 -> let '(r, q') := ResizeMemory req block probe q in books q (probe && negb (is_ok r)) q'.
Proof.
  intros Hr. unfold ResizeMemory. munfold. cbv beta zeta.
  pose proof (quiet_qmpSetup q) as Q1. destruct (qmpSetup q) as [[[]|e] q1]; simpl in *; [|by apply quiet_books].
  set (current := u32 _). assert (Hc : 0 <= current < 2 ^ 32) by (by apply wrapu_range).
  assert (Hp : forall n, n < 2 ^ 32 ->
    let '(r, q') := resize_plug OpAdd (mkMemoryDevice 0 (calcHotplugMemMiBSize n block) 0 probe) q1 in
    books q (probe && negb (is_ok r)) q').
  { intros n Hn. unfold resize_plug.
    pose proof (hotplugMemory_books OpAdd q1 (mkMemoryDevice 0 (calcHotplugMemMiBSize n block) 0 probe)) as Hm.
    destruct (hotplugMemory _ _) as [r [q2 m2]]. apply (books_after _ _ _ _ Q1).
    assert (Hs : calcHotplugMemMiBSize n block < 2 ^ 44).
    { unfold calcHotplugMemMiBSize, u32. case_match; [lia|]. eapply Z.lt_trans; [by apply wrapu_range|done]. }
    by destruct r; apply Hm. }
  destruct (hc_VirtioMem (vm_config q) && negb (current =? req)) eqn:Ev; simpl.
  { apply andb_true_iff in Ev as [Ev _].
    assert (Q2 : stays quiet (qmp (ExecQomSet "virtiomem0" "requested-size" (u64 (u32 (req - hc_MemorySize (vm_config q)) * 1024 * 1024)))))
      by (unfold ExecQomSet; quiet).
    specialize (Q2 q1). destruct (qmp _ q1) as [[[]|e] q2]; simpl in *.
    - apply virtio_books; [done|]. by etrans.
    - apply quiet_books. by etrans. }
  destruct (Z.ltb_spec current req).
  - specialize (Hp (req - current) ltac:(lia)). by destruct (resize_plug _ _ _) as [[]].
  - destruct (req <? current); [|by apply quiet_books]. unfold resize_plug.
    pose proof (quiet_unplug q1 (mkMemoryDevice 0 (calcHotplugMemMiBSize (current - req) block) 0 probe)) as Q2.
    destruct (hotplugMemory _ _) as [[n|e] [q2 m2]]; simpl in *; [destruct (n =? 0)|]; apply quiet_books; by etrans.
Qed.

(** ** A machine through its life *)

Inductive action : Type :=
| AStart (timeout : Z) | AStop (waitOnly : bool) | APause | AResume | ASave | ACheck | AThreads | ADisconnect | ACleanup
| AAdd (d : cold_device)
| AHot (op : Operation) (d : hot_device)
| AVCPUs (reqVCPUs : Z)
| AMemory (reqMemMB memoryBlockSizeMB : Z) (probe : bool).

(** The result of a call, without its value. *)
Definition outcome {A} (m : M qemu A) : M qemu unit := _ ← m; mret tt.

Definition call (a : action) : M qemu unit :=
  match a with
  | AStart timeout => outcome (StartVM timeout)
  | AStop waitOnly => outcome (StopVM waitOnly)
  | APause => outcome PauseVM
  | AResume => outcome ResumeVM
  | ASave => outcome SaveVM
  | ACheck => outcome Check
  | AThreads => outcome GetThreadIDs
  | ADisconnect => outcome Disconnect
  | ACleanup => outcome Cleanup
  | AAdd d => outcome (AddDevice d)
  | AHot op d => fun q => let '(r, (q', _)) := hotplugDevice op (q, d) in (_ ← r; mret tt, q')
  | AVCPUs n => outcome (ResizeVCPUs n)
  | AMemory req block probe => outcome (ResizeMemory req block probe)
  end.

(** The identifiers of VFIO devices are hexadecimal strings; a size in bytes is
    a 64-bit integer. *)
Definition ok_action (a : action) : Prop :=
  match a with
  | AHot _ (HVfio d) => HasPrefix (Config.vd_ID d) "cpu-" = false
  | AHot _ (HMemory m) => md_SizeMB m < 2 ^ 44
  | AMemory req _ _ => 0 <= req < 2 ^ 32
  | _ => True
  end.

(** The guest is told of new memory at its address, which the call asks QEMU for. *)
Definition probes (a : action) : bool :=
  match a with AHot _ (HMemory m) => md_Probe m | AMemory _ _ probe => probe | _ => false end.
Definition lost (a : action) (q : qemu) : bool := probes a && negb (is_ok (call a q).1).

Lemma focus_state {D A} (wrap : D -> hot_device) (d : D) (m : M (qemu * D) A) q d0 :
  (focus wrap d m (q, d0)).2.1 = (m (q, d)).2.1.
Proof. unfold focus. simpl. by destruct (m (q, d)) as [r [q' d']]. Qed.
Lemma bind_state {S A B} (m : M S A) (f : A -> B) s : ((x ← m; mret (f x)) s).2 = (m s).2.
Proof. munfold. by destruct (m s) as [[a|e] s']. Qed.

Lemma outcome_state {A} (m : M qemu A) q : (outcome m q).2 = (m q).2.
Proof. apply bind_state. Qed.
Lemma outcome_ok {A} (m : M qemu A) q : is_ok (outcome m q).1 = is_ok (m q).1.
Proof. unfold outcome. munfold. by destruct (m q) as [[a|e] s']. Qed.

Lemma hot_state op d q : (call (AHot op d) q).2 = (hotplugDevice op (q, d)).2.1.
Proof. simpl. by destruct (hotplugDevice op (q, d)) as [r [q' d']]. Qed.

Lemma hotplugDevice_books op d q : ok_action (AHot op d) -> books q (lost (AHot op d) q) (call (AHot op d) q).2.
Proof.
  intros Ha. destruct d as [drive|n|dev|m|e|attr|].
  4: { pose proof (hotplugMemory_books op q m Ha) as Hm. unfold lost, call, hotplugDevice, device, focus. munfold. simpl.
       by destruct (hotplugMemory op (q, m)) as [[n|err] [q' m']]. }
  all: rw hot_state; unfold lost, hotplugDevice, device, gets, mbind at 1, M_bind at 1; simpl; rw ?bind_state ?focus_state.
  - apply quiet_books, (quiet_hotplugBlockDevice op (q, drive)).
  - pose proof (hotplugCPUs_steps n op q) as Hs. unfold vm. simpl. destruct (hotplugCPUs n op q). by apply steps_books.
  - by apply quiet_books, (quiet_hotplugVFIODevice op q dev).
  - apply quiet_books, (quiet_hotplugNetDevice op (q, e)).
  - apply quiet_books, (quiet_hotplugVhostUserDevice op (q, attr)).
  - by apply quiet_books.
Qed.

Lemma call_books a q : ok_action a -> books q (lost a q) (call a q).2.
Proof.
  intros Ha. destruct a as [t|b| | | | | | | |d|op d|n|req block probe].
  11: by apply hotplugDevice_books.
  11: rw /call outcome_state; by apply steps_books, ResizeVCPUs_steps.
  11: { unfold lost, call. rw outcome_state outcome_ok. pose proof (ResizeMemory_books req block probe q Ha) as Hm.
        by destruct (ResizeMemory req block probe q). }
  all: rw /call outcome_state; apply quiet_books.
  all: first [apply quiet_StartVM | apply quiet_StopVM | apply quiet_toggle | apply quiet_SaveVM | apply quiet_Check
    | apply quiet_GetThreadIDs | apply quiet_qmpShutdown | apply quiet_AddDevice | by split_and!].
Qed.

(** The errors of a call do not stop the next one. *)
Definition calls (l : list action) (q : qemu) : qemu := foldl (fun q a => (call a q).2) q l.

(** The bytes QEMU confirmed in calls that failed after that, asking for an address. *)
Fixpoint uncounted (l : list action) (q : qemu) : Z :=
  match l with
  | [] => 0
  | a :: l =>
      let q' := (call a q).2 in
      (if lost a q then dimms q' - dimms q else 0) + uncounted l q'
  end.

Lemma calls_books l : forall q, Forall ok_action l -> cpus_tracked q ->
  cpus_tracked (calls l q) /\
  (plain (vm_config q) -> 0 <= extra q < 2 ^ 54 ->
   0 <= uncounted l q /\ dimms (calls l q) - dimms q = (extra (calls l q) - extra q) * 2 ^ 20 + uncounted l q).
Proof.
  induction l as [|a l IH]; intros q Hl T; [split; [done|]; simpl; lia|].
  apply Forall_cons in Hl as [Ha Hl]. destruct (call_books a q Ha T) as (A1 & A2 & A3). simpl.
  destruct (IH (call a q).2 Hl A1) as [B1 B2]. rw A2 in B2. split; [exact B1|]. intros Hp He. destruct (A3 Hp He) as [C1 C2].
  destruct (B2 Hp C1) as [D1 D2]. destruct (lost a q); lia.
Qed.

(** Only a guest that is told addresses loses count. *)
Lemma uncounted_none l q : Forall (fun a => probes a = false) l -> uncounted l q = 0.
Proof. intros Hl. revert q. induction Hl as [|a l Ha _ IH]; intros q; [done|]. simpl. by rw /lost Ha IH. Qed.

(** Creating the machine talks to nobody. *)
Definition untold (q q' : qemu) : Prop :=
  vm_history q' = vm_history q /\
  qs_HotpluggedVCPUs (vm_state q') = qs_HotpluggedVCPUs (vm_state q) /\
  qs_HotpluggedMemory (vm_state q') = qs_HotpluggedMemory (vm_state q).

#[local] Instance untold_preorder : PreOrder untold.
Proof.
  split; [by intros q|]. intros q1 q2 q3 (A1 & A2 & A3) (B1 & B2 & B3). by split_and!; etrans.
Qed.

Lemma untold_arch {A} (m : M qemuArch A) : stays untold (arch m).
Proof. intros q. unfold arch. by destruct (m (vm_arch q)). Qed.
Lemma untold_setConfig conf : stays untold (setConfig conf).
Proof. unfold setConfig. destruct (Valid conf) as [[] ?]; stays. apply stays_modify. by intros ?. Qed.

Lemma untold_CreateVM id conf : stays untold (CreateVM id conf).
Proof.
  unfold CreateVM, setup, config, state, on_arch, getQemuMachine, memoryTopology, kernelParameters, createQmpSocket,
    buildDevices, appendImage, GetVMConsole, qemuPath, createVirtiofsDaemon, vhostFSSocketPath, nydusdAPISocketPath, qmpSocketPath,
    socket_path.
  repeat first [progress stays | apply untold_arch | apply untold_setConfig | apply stays_modify; by intros ?
    | by intros q; repeat case_match].
Qed.

Definition machine (id : string) (conf : HypervisorConfig) (l : list action) (q : qemu) : qemu :=
  calls l (CreateVM id conf q).2.

(** C4. Whatever calls are made on a machine since it was created, and whatever
    QEMU answers to each command, refusals and lost connections included, the
    runtime's books agree with the commands QEMU confirmed.  [HotpluggedVCPUs]
    names exactly the processors that were plugged in and not removed, in order
    and numbered from 0.  On a machine without virtio-mem, the DIMMs QEMU has are
    [HotpluggedMemory] MiB, and besides them those that were plugged by calls
    that then failed to learn the address of the memory for a guest that has to
    be told it ([uncounted]): their memory is in the machine and is not counted.
    Without such guests the two are equal. *)
Theorem machine_tracked id conf l q :
  vm_history q = [] -> qs_HotpluggedVCPUs (vm_state q) = [] -> qs_HotpluggedMemory (vm_state q) = 0 -> Forall ok_action l ->
  let created := (CreateVM id conf q).2 in
  let q' := machine id conf l q in
  let v := inventory_of (vm_history q') in
  (qs_HotpluggedVCPUs (vm_state q') = cpus v /\ forall i id, cpus v !! i = Some id -> id = cpu_name i) /\
  (hc_VirtioMem (vm_config created) = false -> 0 <= hc_MemorySize (vm_config created) < 2 ^ 32 ->
   iv_dimms v = qs_HotpluggedMemory (vm_state q') * 2 ^ 20 + uncounted l created /\
   0 <= uncounted l created /\
   (Forall (fun a => probes a = false) l -> uncounted l created = 0)).
Proof.
  intros E1 E2 E3 Hl created q' v. destruct (untold_CreateVM id conf q) as (A1 & A2 & A3).
  fold created in A1, A2, A3. rw E1 in A1. rw E2 in A2. rw E3 in A3.
  assert (T0 : cpus_tracked created) by (unfold cpus_tracked; rw A1 A2; split; [done|by intros []]).
  destruct (calls_books l created Hl T0) as [[B1 B2] B3]. split; [by rw /v -B1|]. intros Hv Hm.
  destruct (B3 (conj Hv Hm)) as [C1 C2]; [lia|]. rw A1 A3 in C2. change (iv_dimms (inventory_of [])) with 0 in C2.
  change q' with (calls l created) in v |- *. split_and!; [unfold v; lia|done|].
  apply uncounted_none.
Qed.

(** ** How many processors a request gives *)

Abbreviation plugged q := (Z.of_nat (length (qs_HotpluggedVCPUs (vm_state q)))).

Lemma add_cpus_count machineType amount l : forall added q,
  0 <= added < amount -> amount < 2 ^ 32 ->
  let '(r, q') := add_cpus machineType amount added l q in
  exists n b, r = Ok (n, b) /\ plugged q' = plugged q + (n - added) /\
    if b : bool then n = amount else added <= n < amount.
Proof.
  induction l as [|hc l IH]; intros added q Ha Hm; simpl; [exists added, false; split_and!; [done|lia..]|].
  destruct (given (hp_QOMPath hc)); [by apply IH|]. unfold state, qmp. munfold. cbv beta iota.
  destruct (add_cpu _ _ _ _) as [[[]|e] h']; [|exact (IH added (q <| vm_history := h' |>) Ha Hm)]. simpl. rw u32_small; [unfold maxUint32; lia|].
  destruct (Z.eqb_spec (added + 1) amount) as [E|E].
  - exists amount, true. split_and!; [done| |done]. simpl. rw length_app /=. lia.
  - match goal with |- context [add_cpus _ _ _ _ ?x] => specialize (IH (added + 1) x) end.
    destruct (add_cpus _ _ _ _ _) as [r q']. destruct IH as (n & b & -> & Hn & Hb); [lia|done|].
    exists n, b. split_and!; [done| |destruct b; lia]. rw Hn. simpl. rw length_app /=. lia.
Qed.

Lemma remove_cpus_count n : forall q,
  Z.of_nat n <= plugged q ->
  let '(r, q') := remove_cpus n q in
  match r with Ok _ => plugged q' = plugged q - Z.of_nat n | Err _ => plugged q - Z.of_nat n < plugged q' <= plugged q end.
Proof.
  induction n as [|n IH]; intros q Hn; simpl; [lia|]. unfold state, qmp. munfold. cbv beta iota.
  destruct (last (qs_HotpluggedVCPUs (vm_state q))) as [cpu|] eqn:El; [|apply last_None in El; rw El in Hn; simpl in Hn; lia].
  destruct (ExecuteDeviceDel _ _) as [[[]|e] h']; [|simpl; lia]. cbv beta iota.
  match goal with |- context [remove_cpus _ ?x] => specialize (IH x); set (q1 := x) in * end.
  assert (E : plugged q1 = plugged q - 1) by (unfold q1; simpl; rw length_take; lia).
  destruct (remove_cpus n q1) as [[[]|e] q']; rw E in IH; specialize (IH ltac:(lia)); lia.
Qed.

(** Asking QEMU on the way to the processors. *)
Lemma quiet_plugged q q' : quiet q q' ->
  plugged q' = plugged q /\ vm_config q' = vm_config q /\ q_SMP (vm_qemuConfig q') = q_SMP (vm_qemuConfig q).
Proof. intros (E1 & _ & E3 & E4 & _). by rw E1. Qed.

Lemma hotplugAddCPUs_count amount q :
  let max := hc_DefaultMaxVCPUs (vm_config q) in let current := smp_CPUs (q_SMP (vm_qemuConfig q)) + plugged q in
  0 <= smp_CPUs (q_SMP (vm_qemuConfig q)) -> current <= max < 2 ^ 32 -> 0 < amount -> current + amount < 2 ^ 32 ->
  let '(r, q') := hotplugAddCPUs amount q in
  match r with
  | Ok n => n = Z.min amount (max - current) /\ plugged q' = plugged q + n
  | Err _ => plugged q <= plugged q' < plugged q + Z.min amount (max - current)
  end.
Proof.
  intros max current Hs Hc Ha Hsum. unfold hotplugAddCPUs. munfold. cbv beta zeta.
  rw (u32_small (plugged q)); [unfold maxUint32; lia|]. fold max. rw (u32_small (smp_CPUs _ + _)); [unfold maxUint32; lia|].
  fold current. rw (u32_small (current + amount)); [unfold maxUint32; lia|]. rw (u32_small (max - current)); [unfold maxUint32; lia|].
  assert ((if max <? current + amount then max - current else amount) = Z.min amount (max - current)) as ->
    by (destruct (Z.ltb_spec max (current + amount)); lia).
  destruct (Z.eqb_spec (Z.min amount (max - current)) 0) as [E|E]; [lia|].
  assert (Q : stays quiet (qmp ExecuteQueryHotpluggableCPUs)) by (unfold ExecuteQueryHotpluggableCPUs; quiet).
  specialize (Q q). destruct (qmp ExecuteQueryHotpluggableCPUs q) as [[cpus|e] q1]; simpl in *;
    destruct (quiet_plugged _ _ Q) as (P & _); [|lia].
  pose proof (add_cpus_count (Machine_Type (qa_qemuMachine (vm_arch q))) (Z.min amount (max - current)) cpus 0 q1) as Hn.
  destruct (add_cpus _ _ _ _ _) as [r q']. destruct Hn as (n & b & -> & Hn & Hb); [lia..|].
  destruct b; simpl; rw Hn P; lia.
Qed.

Lemma hotplugRemoveCPUs_count amount q :
  0 < amount -> plugged q < 2 ^ 32 ->
  let '(r, q') := hotplugRemoveCPUs amount q in
  match r with
  | Ok n => n = amount /\ plugged q' = plugged q - amount
  | Err _ => plugged q - amount < plugged q' <= plugged q
  end.
Proof.
  intros Ha Hp. unfold hotplugRemoveCPUs, state. munfold. rw u32_small; [unfold maxUint32; lia|].
  destruct (Z.ltb_spec (plugged q) amount); [simpl; lia|].
  pose proof (remove_cpus_count (Z.to_nat amount) q) as Hr. rw Z2Nat.id in Hr; [lia|].
  destruct (remove_cpus _ q) as [[[]|e] q']; simpl; lia.
Qed.

(** The dispatcher connects to QEMU first. *)
Lemma hotplugCPUs_connects vcpus op q :
  0 < vcpus ->
  exists q1, plugged q1 = plugged q /\ vm_config q1 = vm_config q /\ q_SMP (vm_qemuConfig q1) = q_SMP (vm_qemuConfig q) /\
    ((exists e, hotplugCPUs vcpus op q = (Err e, q1)) \/
     hotplugCPUs vcpus op q = match op with OpAdd => hotplugAddCPUs vcpus | OpRemove => hotplugRemoveCPUs vcpus end q1).
Proof.
  intros Hv. unfold hotplugCPUs. destruct (Z.eqb_spec vcpus 0); [lia|]. munfold. pose proof (quiet_qmpSetup q) as Q.
  destruct (qmpSetup q) as [[[]|e] q1]; simpl in *; destruct (quiet_plugged _ _ Q) as (P1 & P2 & P3); exists q1; split_and!; try done.
  - by right.
  - left. by exists e.
Qed.

(** C20. A machine has between its boot processors and its maximum; a request
    for [req] of them.  When the call succeeds the machine has [req], or the
    maximum if that is less, and the numbers returned are those before and
    after.  When it fails, whatever QEMU answered, the request is not met and
    the machine is on the way to it: some processors may have been plugged or removed, never more than
    was asked for, and never in the other direction. *)
Theorem ResizeVCPUs_spec req q :
  let boot := hc_NumVCPUs (vm_config q) in let max := hc_DefaultMaxVCPUs (vm_config q) in
  let has q := boot + plugged q in
  smp_CPUs (q_SMP (vm_qemuConfig q)) = boot -> 0 <= boot -> has q <= max < 2 ^ 32 -> 0 <= req < 2 ^ 32 ->
  match ResizeVCPUs req q with
  | (Ok (old, new), q') => old = has q /\ new = Z.min req max /\ has q' = new
  | (Err _, q') => (has q <= has q' < req /\ has q' <= max) \/ (req < has q' <= has q)
  end.
Proof.
  intros boot max has Hs Hb Hm Hr. unfold ResizeVCPUs. munfold. cbv beta zeta.
  assert (E : u32 (boot + u32 (plugged q)) = has q).
  { rw (u32_small (plugged q)); [unfold has, maxUint32 in *; lia|]. apply u32_small. unfold has, maxUint32 in *. lia. }
  fold boot. rw E. unfold has in *.
  destruct (Z.ltb_spec (boot + plugged q) req) as [Hup|Hup]; [|destruct (Z.ltb_spec req (boot + plugged q)) as [Hdown|Hdown]; [|simpl; lia]].
  - destruct (hotplugCPUs_connects (req - (boot + plugged q)) OpAdd q) as (q1 & P1 & P2 & P3 & [[e ->]| ->]); [lia|rw P1; left; lia|].
    pose proof (hotplugAddCPUs_count (req - (boot + plugged q)) q1) as Hn. rw P1 P2 P3 Hs in Hn. fold max in Hn.
    specialize (Hn ltac:(lia) ltac:(lia) ltac:(lia) ltac:(lia)).
    destruct (hotplugAddCPUs _ q1) as [[n|e] q']; simpl; [|lia].
    destruct Hn as [-> ->]. rw u32_small; [unfold maxUint32; lia|]. lia.
  - destruct (hotplugCPUs_connects (boot + plugged q - req) OpRemove q) as (q1 & P1 & P2 & P3 & [[e ->]| ->]); [lia|rw P1; right; lia|].
    pose proof (hotplugRemoveCPUs_count (boot + plugged q - req) q1) as Hn. rw P1 in Hn.
    specialize (Hn ltac:(lia) ltac:(lia)).
    destruct (hotplugRemoveCPUs _ q1) as [[n|e] q']; simpl; [|lia].
    destruct Hn as [-> ->]. rw u32_small; [unfold maxUint32; lia|]. lia.
Qed.

(** ** How much memory a request gives *)

Lemma quiet_extra q q' : quiet q q' -> extra q' = extra q /\ vm_config q' = vm_config q.
Proof. by intros (_ & E2 & E3 & _). Qed.

Lemma plug_dimm_counts q m :
  0 <= extra q < 2 ^ 40 -> 0 <= md_SizeMB m < 2 ^ 40 ->
  let '(r, (q', _)) := plug_dimm (q, m) in
  match r with Ok n => n = md_SizeMB m /\ extra q' = extra q + n | Err _ => extra q' = extra q end.
Proof.
  intros He Hs. unfold plug_dimm, vm, device. munfold. simpl.
  pose proof (quiet_getMemArgs q) as Q1%quiet_extra. destruct (getMemArgs q) as [[[[share target] back]|e] q1]; simpl in *; [|apply Q1].
  unfold qmp at 1. destruct (ExecHotplugMemory _ _ _ _ _ _) as [[[]|e] h]; simpl; [|apply Q1].
  set (q2 := q1 <| vm_history := h |>). destruct Q1 as [Q1 _].
  assert (Hc : i64 (extra q + md_SizeMB m) = extra q + md_SizeMB m) by (apply i64_small; lia).
  destruct (md_Probe m); simpl; [|by rw Q1 Hc].
  pose proof (quiet_probe_address (q2, m)) as [E _]%quiet_extra.
  destruct (probe_address (q2, m)) as [[[]|e] [q3 m3]]; simpl in *; rw E Q1 //.
Qed.

Lemma hotplugMemory_counts op q m :
  0 <= extra q < 2 ^ 40 -> md_SizeMB m < 2 ^ 40 ->
  let '(r, (q', _)) := hotplugMemory op (q, m) in
  match r with
  | Ok n => n = (if op is OpAdd then md_SizeMB m else 0) /\ extra q' = extra q + n
  | Err _ => extra q' = extra q
  end.
Proof.
  intros He Hs. unfold hotplugMemory, vm, device. munfold. simpl.
  destruct (negb _); [done|]. destruct (Z.ltb_spec (md_SizeMB m) 0) as [|Hpos]; [done|]. simpl.
  pose proof (quiet_qmpSetup q) as [Q1 _]%quiet_extra. destruct (qmpSetup q) as [[[]|e] q1]; simpl in *; [|done].
  destruct (Z.eqb_spec (md_SizeMB m) 0) as [E0|E0]; simpl; [destruct op; lia|]. destruct op; simpl; [|lia].
  destruct hostMemMB as [maxMem|e]; [|done]. simpl. destruct (_ <? _); [done|].
  unfold hotplugAddMemory, vm, on_device. munfold. simpl.
  assert (Q2 : quiet q1 (qmp ExecQueryMemoryDevices q1).2)
    by (apply (quiet_qmp ExecQueryMemoryDevices); unfold ExecQueryMemoryDevices; stays).
  apply quiet_extra in Q2 as [Q2 _]. destruct (qmp ExecQueryMemoryDevices q1) as [[devices|e] q2]; simpl in *; [|congruence].
  set (m' := if negb (bool_decide (devices = [])) then set_Slot (next_slot devices) m else m).
  pose proof (plug_dimm_counts q2 m') as Hp. rw Q2 Q1 in Hp.
  assert (Em : md_SizeMB m' = md_SizeMB m) by (unfold m'; by destruct (negb _)). rw Em in Hp. specialize (Hp He ltac:(lia)).
  unfold m' in Hp. destruct (negb _); exact Hp.
Qed.

(** The size is rounded up to whole blocks. *)
Lemma calcHotplugMemMiBSize_round mem block :
  0 < mem -> 0 <= block -> mem + block <= 2 ^ 32 ->
  mem <= calcHotplugMemMiBSize mem block <= mem + Z.max 0 (block - 1).
Proof.
  intros Hm Hb Hs. unfold calcHotplugMemMiBSize. destruct (Z.eqb_spec block 0); [lia|].
  set (k := (mem + block - 1) / block). assert (Hk : block * k <= mem + block - 1 < block * k + block).
  { pose proof (Z.div_mod (mem + block - 1) block ltac:(lia)) as D. fold k in D.
    pose proof (Z.mod_pos_bound (mem + block - 1) block ltac:(lia)). lia. }
  rw (u32_small k); [unfold maxUint32; nia|]. rw u32_small; [unfold maxUint32; nia|]. lia.
Qed.


(** With virtio-mem the request is taken relative to the memory the machine
    booted with, in 32 bits.  A request of at least that much is honoured
    exactly.  A request below it wraps around: the call succeeds, tells the
    caller the machine has what it asked for, and has QEMU grow the machine by
    4 PiB less the difference. *)
Theorem ResizeMemory_virtio req block probe q now dev q' :
  let boot := hc_MemorySize (vm_config q) in
  hc_VirtioMem (vm_config q) = true -> 0 <= req < 2 ^ 32 -> 0 <= boot < 2 ^ 32 -> 0 <= extra q -> boot + extra q < 2 ^ 32 ->
  boot + extra q <> req -> ResizeMemory req block probe q = (Ok (now, dev), q') ->
  now = req /\ extra q' = (if boot <=? req then req - boot else 2 ^ 32 + req - boot) /\
  exists h r x, vm_history q' = h ++ [Sent r (Ok x)] /\ r_name r = "qom-set" /\
    str_of "property" (r_args r) = "requested-size" /\ num_of "value" (r_args r) = extra q' * 2 ^ 20.
Proof.
  intros boot Hv Hr Hb He Hs Hne. unfold ResizeMemory. munfold. cbv beta zeta.
  destruct (qmpSetup q) as [[[]|e] q1]; simpl; [|done]. rw Hv. fold boot.
  rw (u32_small (extra q)); [unfold maxUint32; lia|]. rw (u32_small (boot + extra q)); [unfold maxUint32; lia|].
  rw (proj2 (Z.eqb_neq _ _) Hne) /=. unfold qmp at 1, ExecQomSet, executeCommand, executeCommandWithResponse. munfold. simpl.
  set (r := mkRequest _ _ _ _). destruct (reply _ r) as [x|e] eqn:Er; simpl; [|done]. intros [= <- <- <-]. simpl.
  set (n := u32 (req - boot)). assert (Hn : 0 <= n < 2 ^ 32) by (by apply wrapu_range).
  assert (Hu : u64 (n * 1024 * 1024) = n * 2 ^ 20) by (rw u64_small; unfold maxUint64; lia).
  rw Hu. assert (Hd : n * 2 ^ 20 / 1024 / 1024 = n) by (rw Z.div_div // Z.div_mul //). rw Hd. split; [done|]. split.
  - unfold n, u32, wrapu. destruct (Z.leb_spec boot req); [by rw Z.mod_small; lia|].
    rw -(Z.mod_small (2 ^ 32 + req - boot) (2 ^ 32)); [lia|]. by rw -(Z.mod_add (req - boot) 1 (2 ^ 32)) //; f_equal; lia.
  - exists (vm_history q1), r, x. split_and!; try done.
Qed.

End Spec.

End QemuVMSpec.
