(* ===== verification/QemuPlugSpec.v ===== *)
(** * Plugging, stopping and saving a QEMU machine

    Properties of [QemuVM.v] that concern one call: where a drive that is plugged
    in ends up, what a failed start leaves behind, what stopping does, and what
    is left of a machine that is saved or handed over. *)
From S2P Require Import Prelude GoStr Types Utils Devices Hypervisor Persist Qemu Qmp QmpCmd QemuArch QemuVM QemuVMSpec.

Module QemuPlugSpec.
Import Qemu QmpCmd QemuArch QemuVM HypervisorConf QemuVMSpec.
Import Types.Bridges(Bridge, PCI, bridge_inv, br_Devices, br_ID, br_Type, br_Addr, br_MaxCapacity).

(** ** The bridges *)

(** No bridge has the device. *)
Definition nowhere (ID : string) (l : list Bridge) : Prop := Forall (fun b => forall i, br_Devices b !! i <> Some ID) l.

Definition put_on (b : Bridge) (slot : Z) (ID : string) : Bridge :=
  Types.Bridges.set_Devices b (<[slot := ID]> (br_Devices b)).

(** The device goes to the lowest free slot of the first bridge of its type
    that has one. *)
Lemma add_to_bridges_cases ID t l :
  Forall bridge_inv l ->
  match add_to_bridges ID t l with
  | (Some (slot, b'), l') => exists l1 b l2,
      l = l1 ++ b :: l2 /\ b' = put_on b slot ID /\ l' = l1 ++ b' :: l2 /\ br_Type b = t /\
      1 <= slot <= br_MaxCapacity b /\ br_Devices b !! slot = None
  | (None, l') => l' = l
  end.
Proof.
  induction 1 as [|b l Hb _ IH]; [done|]. simpl. case_bool_decide as Ht.
  - pose proof (Types.Bridges.AddDevice_cases ID b Hb) as Ha. destruct (Types.Bridges.AddDevice ID b) as [[slot|e] b'].
    + destruct Ha as (A1 & A2 & _ & ->). by exists [], b, l.
    + destruct Ha as [-> _]. destruct (add_to_bridges ID t l) as [[[slot b']|] l']; [|by subst].
      destruct IH as (l1 & b1 & l2 & -> & -> & -> & Hr). by exists (b :: l1), b1, l2.
  - destruct (add_to_bridges ID t l) as [[[slot b']|] l']; [|by subst].
    destruct IH as (l1 & b1 & l2 & -> & -> & -> & Hr). by exists (b :: l1), b1, l2.
Qed.

Section Plug.
Context `{GoArch, QmpServer, QemuHost, VMHost, Exec, GoRange}.

Lemma RemoveDevice_put_on b slot ID :
  br_Devices b !! slot = None -> (forall i, br_Devices b !! i <> Some ID) ->
  Types.Bridges.RemoveDevice ID (put_on b slot ID) = (Ok tt, b).
Proof.
  intros Hf Hn. pose proof (Types.Bridges.RemoveDevice_cases ID (put_on b slot ID)) as Hr.
  destruct (Types.Bridges.RemoveDevice _ _) as [[[]|e] b'].
  - destruct Hr as (i & Hi & ->). simpl in *. apply lookup_insert_Some in Hi as [[<- _]|[_ Hi]]; [|by destruct (Hn i)].
    do 2 f_equal. destruct b; unfold put_on, Types.Bridges.set_Devices; simpl in *. by rw delete_insert_id.
  - destruct Hr as [_ Hr]. by destruct (Hr slot); simpl; rw lookup_insert_eq.
Qed.

Lemma RemoveDevice_absent b ID :
  (forall i, br_Devices b !! i <> Some ID) -> exists e, Types.Bridges.RemoveDevice ID b = (Err e, b).
Proof.
  intros Hn. pose proof (Types.Bridges.RemoveDevice_cases ID b) as Hr.
  destruct (Types.Bridges.RemoveDevice ID b) as [[[]|e] b']; [by destruct Hr as (i & Hi & _), (Hn i)|].
  destruct Hr as [-> _]. by exists e.
Qed.

(** Removing what was just added gives the bridges back. *)
Lemma remove_from_bridges_undo ID l1 b l2 slot : forall err,
  br_Devices b !! slot = None -> nowhere ID (l1 ++ b :: l2) ->
  remove_from_bridges ID err (l1 ++ put_on b slot ID :: l2) = (Ok tt, l1 ++ b :: l2).
Proof.
  induction l1 as [|b1 l1 IH]; intros err Hf Hn; apply Forall_cons in Hn as [Hb Hn]; simpl.
  - by rw RemoveDevice_put_on.
  - destruct (RemoveDevice_absent b1 ID Hb) as [e ->]. by rw IH.
Qed.

(** ** Plugging in a drive *)

(** Talking to QEMU changes neither the configuration nor the bridges. *)
Definition same_board (q q' : qemu) : Prop :=
  vm_config q' = vm_config q /\ qa_Bridges (vm_arch q') = qa_Bridges (vm_arch q).
#[local] Instance same_board_preorder : PreOrder same_board.
Proof. split; [by intros q|]. intros q1 q2 q3 [A1 A2] [B1 B2]. by split; etrans. Qed.

Lemma same_board_qmp {A} (m : M history A) : stays same_board (qmp m).
Proof. intros q. unfold qmp. by destruct (m (vm_history q)). Qed.
Lemma same_board_qmpSetup : stays same_board qmpSetup.
Proof. unfold qmpSetup. stays; try apply same_board_qmp. Qed.

(** What a drive that is plugged in looks like: QEMU has confirmed a device on
    that bridge and slot, and the path handed to the guest names the two. *)
Definition plugged_at (b : Bridge) (slot : Z) (q : qemu) (d : Config.BlockDrive) : Prop :=
  exists r x h, vm_history q = h ++ [Sent r (Ok x)] /\ r_name r = "device_add" /\
    str_of "id" (r_args r) = "virtio-" +:+ Config.bd_ID d /\ str_of "drive" (r_args r) = Config.bd_ID d /\
    str_of "bus" (r_args r) = br_ID b /\ str_of "addr" (r_args r) = fmt_02x slot /\
    Config.bd_PCIPath d = [br_Addr b; slot].

Lemma pci_path_ok b slot path :
  1 <= slot <= 30 -> pci_path b (fmt_02x slot) = Ok path -> path = [br_Addr b; slot].
Proof.
  intros Hs. unfold pci_path, Types.PciPaths.PciSlotFromInt. munfold. change Types.PciPaths.maxPciSlot with 31.
  destruct (_ || _) eqn:E; [done|]. apply orb_false_iff in E as [E1%Z.ltb_ge E2%Z.ltb_ge].
  pose proof (Types.PciPaths.PciSlot_roundtrip slot) as Hr. unfold Types.PciPaths.PciSlot_String in Hr.
  rw Hr; [unfold Types.PciPaths.slot_ok; change Types.PciPaths.maxPciSlot with 31; lia|].
  intros [= <-]. f_equal. apply wrapu_small. lia.
Qed.

(** Giving a slot back. *)
Lemma slot_back {D} ID (s : qemu * D) l1 b l2 slot :
  qa_Bridges (vm_arch s.1) = l1 ++ put_on b slot ID :: l2 -> br_Devices b !! slot = None -> nowhere ID (l1 ++ b :: l2) ->
  qa_Bridges (vm_arch (vm (arch (removeDeviceFromBridge ID)) s).2.1) = l1 ++ b :: l2.
Proof.
  intros E Hf Hn. unfold vm, arch, removeDeviceFromBridge, on_bridges. by rw E remove_from_bridges_undo.
Qed.

(** The request that adds a drive on a PCI bridge. *)
Lemma PCIDeviceAdd_request id devID driver addr bus queues shared h :
  bus <> "" ->
  exists r, ExecutePCIDeviceAdd id devID driver addr bus romFile queues shared false h =
      (match reply h r with Ok _ => Ok tt | Err e => Err e end, h ++ [Sent r (reply h r)]) /\
    r_name r = "device_add" /\ str_of "id" (r_args r) = devID /\ str_of "drive" (r_args r) = id /\
    str_of "bus" (r_args r) = bus /\ str_of "addr" (r_args r) = addr.
Proof.
  intros Hb. unfold ExecutePCIDeviceAdd, executeCommand, executeCommandWithResponse. munfold.
  set (r := mkRequest _ _ _ _). exists r. split; [simpl; by destruct (reply h r)|]. split; [done|].
  split_and!; unfold str_of, r; change (r_args (mkRequest ?n ?a ?o ?f)) with a.
  3: rw app_assoc jget_app_no; [no_key|]. 3: by unfold arg_given, given; rw bool_decide_eq_true_2.
  all: by rw jget_app_no; [no_key|].
Qed.

Lemma plug_pci_block_cases devID q d :
  let l := qa_Bridges (vm_arch q) in let id := Config.bd_ID d in
  Forall bridge_inv l -> Forall (fun b => br_MaxCapacity b <= 30 /\ br_ID b <> "") l -> nowhere id l ->
  devID = "virtio-" +:+ id ->
  match plug_pci_block devID (q, d) with
  | (Ok _, (q', d')) => exists l1 b l2 slot,
      l = l1 ++ b :: l2 /\ br_Type b = PCI /\ 1 <= slot <= br_MaxCapacity b /\ br_Devices b !! slot = None /\
      qa_Bridges (vm_arch q') = l1 ++ put_on b slot id :: l2 /\ plugged_at b slot q' d'
  | (Err _, (q', _)) => qa_Bridges (vm_arch q') = l
  end.
Proof.
  intros l id Hi Hc Hn ->. unfold plug_pci_block, device, addDeviceToBridge, on_bridges, genericAddDeviceToBridge.
  munfold. unfold vm at 1, arch at 1. simpl. fold l id. pose proof (add_to_bridges_cases id PCI l Hi) as Ha.
  destruct l as [|b0 l0] eqn:El; [by simpl|]. rw -El in Hi Hc Hn Ha |- *. clear El.
  destruct (add_to_bridges id PCI l) as [[[slot b']|] l']; simpl; [|done].
  destruct Ha as (l1 & b & l2 & E & -> & -> & Ht & Hs & Hf). rw E in Hc Hn.
  assert (Hb : br_MaxCapacity b <= 30 /\ br_ID b <> "") by (by apply Forall_app in Hc as [_ [? _]%Forall_cons]).
  assert (Hback : forall s : qemu * Config.BlockDrive, qa_Bridges (vm_arch s.1) = l1 ++ put_on b slot id :: l2 ->
    let '(q', _) := (vm (arch (removeDeviceFromBridge id)) s).2 in qa_Bridges (vm_arch q') = l).
  { intros s Es. pose proof (slot_back id s l1 b l2 slot Es Hf Hn) as Hq. rw -E in Hq. by destruct (vm _ s) as [? [? ?]]. }
  destruct (pci_path (put_on b slot id) (fmt_02x slot)) as [path|e] eqn:Ep; simpl; [|by apply Hback].
  apply pci_path_ok in Ep; [|lia].
  destruct (PCIDeviceAdd_request id ("virtio-" +:+ id) "virtio-blk-pci" (fmt_02x slot) (br_ID b) 0 true (vm_history q))
    as (r & Er & Hr); [apply Hb|].
  unfold vm at 1, qmp at 1. simpl. rw Er. destruct (reply (vm_history q) r) as [x|e] eqn:Ex; simpl; [|by apply Hback].
  exists l1, b, l2, slot. split_and!; [done|done|lia|lia|done|done|]. exists r, x, (vm_history q).
  rw Ep /=. destruct Hr as (R1 & R2 & R3 & R4 & R5). by split_and!.
Qed.

(** The back ends of drives change with their own commands only. *)
Abbreviation nodes h := (iv_nodes (inventory_of h)).
Definition same_nodes (h h' : history) : Prop := nodes h' = nodes h.
#[local] Instance same_nodes_preorder : PreOrder same_nodes.
Proof. split; [by intros h|]. intros h1 h2 h3 A B. by etrans. Qed.
Definition same_drives {D} (s s' : qemu * D) : Prop := same_nodes (vm_history s.1) (vm_history s'.1).
#[local] Instance same_drives_preorder {D} : PreOrder (@same_drives D).
Proof. unfold same_drives. split; [by intros s|by intros s1 s2 s3; etrans]. Qed.

Lemma same_nodes_command name args f :
  name <> "blockdev-add" -> name <> "blockdev-del" -> stays same_nodes (executeCommand name args f).
Proof.
  intros H1' H2' h. unfold executeCommand, executeCommandWithResponse. munfold. simpl.
  set (r := mkRequest _ _ _ _). assert (E : nodes (h ++ [Sent r (reply h r)]) = nodes h).
  { rw inventory_app /=. destruct (reply h r); [|done]. simpl. unfold confirmed, is_request. simpl.
    rw (bool_decide_eq_false_2 (name = "blockdev-add")) // (bool_decide_eq_false_2 (name = "blockdev-del")) //.
    by repeat case_match. }
  by destruct (reply h r).
Qed.

Lemma same_drives_qmp {D A} (m : M history A) : stays same_nodes m -> stays (@same_drives D) (vm (qmp m)).
Proof. intros Hm [q d]. specialize (Hm (vm_history q)). unfold vm, qmp. simpl. by destruct (m (vm_history q)). Qed.
Lemma same_drives_arch {D A} (m : M qemuArch A) : stays (@same_drives D) (vm (arch m)).
Proof. intros [q d]. unfold vm, arch. simpl. by destruct (m (vm_arch q)). Qed.
Lemma same_drives_on_device {D} (f : D -> D) : stays same_drives (on_device f).
Proof. by intros [q d]. Qed.

Lemma plug_pci_block_drives devID : stays same_drives (plug_pci_block devID).
Proof.
  unfold plug_pci_block, device. stays; try apply same_drives_arch; try apply same_drives_on_device.
  apply same_drives_qmp. unfold ExecutePCIDeviceAdd. by apply same_nodes_command.
Qed.

Definition same_log (q q' : qemu) : Prop := same_nodes (vm_history q) (vm_history q').
#[local] Instance same_log_preorder : PreOrder same_log.
Proof. unfold same_log. split; [by intros q|by intros q1 q2 q3; etrans]. Qed.
Lemma same_log_qmp {A} (m : M history A) : stays same_nodes m -> stays same_log (qmp m).
Proof. intros Hm q. specialize (Hm (vm_history q)). unfold qmp. by destruct (m (vm_history q)). Qed.

Lemma setup_drives : stays same_log qmpSetup.
Proof.
  unfold qmpSetup, ExecuteQMPCapabilities. stays; apply same_log_qmp; [|by apply same_nodes_command].
  intros h. unfold QMPStart, same_nodes. simpl. by rw inventory_app.
Qed.

Lemma add_blockdev_cases conf d h :
  let '(r, h') := add_blockdev conf d h in
  nodes h' = nodes h ++ (if is_ok r then [Config.bd_ID d] else []).
Proof.
  assert (Hx : forall args, str_of "node-name" args = Config.bd_ID d ->
    let '(r, h') := executeCommand "blockdev-add" args None h in nodes h' = nodes h ++ (if is_ok r then [Config.bd_ID d] else [])).
  { intros args Ea. unfold executeCommand, executeCommandWithResponse. munfold. simpl. set (r := mkRequest _ _ _ _).
    destruct (reply h r); simpl; rw inventory_app /=; [|by rw app_nil_r]. unfold confirmed, r. simpl. by rw Ea. }
  unfold add_blockdev, ExecuteBlockdevAddWithDriverCache, ExecuteBlockdevAddWithCache, ExecuteBlockdevAdd.
  destruct (Config.bd_Swap d); [by apply Hx|]. destruct (hc_BlockDeviceCacheSet conf); by apply Hx.
Qed.

Lemma del_blockdev_cases id h :
  let '(r, h') := ExecuteBlockdevDel id h in
  nodes h' = if is_ok r then filter (fun n => n <> id) (nodes h) else nodes h.
Proof.
  unfold ExecuteBlockdevDel, executeCommand, executeCommandWithResponse. munfold. simpl. set (r := mkRequest _ _ _ _).
  destruct (reply h r); simpl; by rw inventory_app.
Qed.

(** C6. Plugging in a drive on the PCI bus, with QEMU answering anything.  When
    the call succeeds, QEMU has the back end and, as the last thing it confirmed,
    a device on a bridge and a slot that was free; the runtime's bridge records
    the drive there, the other bridges are as they were, and the PCI path the
    guest is given is the address of that bridge and that slot.  When it fails,
    the bridges are as they were, and so are the back ends of QEMU unless it
    refuses to delete the one that was added. *)
Theorem plug_drive_spec q d :
  let l := qa_Bridges (vm_arch q) in let id := Config.bd_ID d in
  hc_BlockDeviceDriver (vm_config q) = Config.VirtioBlock -> Config.bd_Pmem d = false ->
  Forall bridge_inv l -> Forall (fun b => br_MaxCapacity b <= 30 /\ br_ID b <> "") l -> nowhere id l ->
  id ∉ nodes (vm_history q) ->
  match hotplugBlockDevice OpAdd (q, d) with
  | (Ok _, (q', d')) =>
      nodes (vm_history q') = nodes (vm_history q) ++ [id] /\
      exists l1 b l2 slot,
        l = l1 ++ b :: l2 /\ br_Type b = PCI /\ 1 <= slot <= br_MaxCapacity b /\ br_Devices b !! slot = None /\
        qa_Bridges (vm_arch q') = l1 ++ put_on b slot id :: l2 /\ plugged_at b slot q' d'
  | (Err _, (q', _)) =>
      qa_Bridges (vm_arch q') = l /\
      ((forall h r, r_name r = "blockdev-del" -> is_ok (reply h r) = true) ->
       nodes (vm_history q') = nodes (vm_history q))
  end.
Proof.
  intros l id Hd Hp Hi Hc Hn Hf. unfold hotplugBlockDevice, hotplugAddBlockDevice, config. munfold.
  unfold vm at 1, device. munfold. simpl. pose proof (same_board_qmpSetup q) as [B1 B2]. pose proof (setup_drives q) as N1.
  destruct (qmpSetup q) as [[[]|e] q1]; simpl in *; [|done].
  unfold vm at 1. munfold. simpl. rw B1 Hd Hp /=. unfold vm at 1, qmp at 1. simpl.
  pose proof (add_blockdev_cases (vm_config q) d (vm_history q1)) as Ha.
  destruct (add_blockdev _ d _) as [[[]|e] h2]; simpl in *; rw N1 in Ha; [|by rw app_nil_r in Ha].
  rw orb_true_r. set (q2 := q1 <| vm_history := h2 |>).
  pose proof (plug_pci_block_cases ("virtio-" +:+ id) q2 d) as Hx. simpl in Hx. rw B2 in Hx.
  specialize (Hx Hi Hc Hn eq_refl). pose proof (plug_pci_block_drives ("virtio-" +:+ id) (q2, d)) as Hs.
  fold id. unfold same_drives, same_nodes in Hs. simpl in Hs.
  destruct (plug_pci_block _ (q2, d)) as [[[]|e] [q3 d3]]; simpl in *.
  - split; [by rw Hs Ha|done].
  - unfold vm, qmp. simpl. pose proof (del_blockdev_cases id (vm_history q3)) as Hdel.
    destruct (ExecuteBlockdevDel id (vm_history q3)) as [r h4] eqn:Ed. simpl. split; [done|]. intros Hok.
    assert (is_ok r = true) as Hr.
    { unfold ExecuteBlockdevDel, executeCommand, executeCommandWithResponse in Ed. munfold. simpl in Ed.
      specialize (Hok (vm_history q3) (mkRequest "blockdev-del" [("node-name", Qmp.JStr id)] [] None) eq_refl).
      destruct (reply _ _); [|done]. by simplify_eq. }
    rw Hr Hs Ha in Hdel. rw Hdel filter_app (filter_cons_False (fun n => n <> id)); [by intros Hne|].
    rw app_nil_r. apply filter_id. apply Forall_forall. intros n Hin ->. by apply Hf.
Qed.

(** ** Stopping *)

(** The host log only grows, and the names of the machine stay. *)
Definition host_grows (q q' : qemu) : Prop :=
  (exists l, vm_host q' = vm_host q ++ l) /\ vm_config q' = vm_config q /\ vm_id q' = vm_id q.
#[local] Instance host_grows_preorder : PreOrder host_grows.
Proof.
  split; [intros q; split_and!; [by exists []; rw app_nil_r|done..]|].
  intros q1 q2 q3 ([l1 E1] & A2 & A3) ([l2 E2] & B2 & B3). split_and!; [|by etrans..].
  exists (l1 ++ l2). by rw E2 E1 app_assoc.
Qed.

Lemma grows_hostop op : stays host_grows (hostop_do op).
Proof. intros q. split_and!; [by eexists|done..]. Qed.
Lemma grows_still {A} (m : M qemu A) : stays (fun q q' => vm_host q' = vm_host q /\ vm_config q' = vm_config q /\ vm_id q' = vm_id q) m ->
  stays host_grows m.
Proof. intros Hm q. destruct (Hm q) as (E1 & E2 & E3). split_and!; [exists []; by rw app_nil_r|done..]. Qed.
Lemma grows_qmp {A} (m : M history A) : stays host_grows (qmp m).
Proof. apply grows_still. intros q. unfold qmp. by destruct (m (vm_history q)). Qed.
Lemma grows_arch {A} (m : M qemuArch A) : stays host_grows (arch m).
Proof. apply grows_still. intros q. unfold arch. by destruct (m (vm_arch q)). Qed.
Lemma grows_modify (f : qemu -> qemu) :
  (forall q, vm_host (f q) = vm_host q /\ vm_config (f q) = vm_config q /\ vm_id (f q) = vm_id q) -> stays host_grows (modify f).
Proof. intros Hf. apply grows_still. intros q. apply Hf. Qed.
Lemma grows_ignore {A} (m : M qemu A) : stays host_grows m -> stays host_grows (ignore m).
Proof. intros Hm. unfold ignore. stays. Qed.

#[local] Hint Resolve grows_hostop grows_qmp grows_arch grows_ignore : stays.
#[local] Hint Extern 1 (stays host_grows (modify _)) => apply grows_modify; by intros ? : stays.
Ltac grows := repeat first [progress stays | apply grows_modify; by intros ? | done].

Lemma grows_qmpSetup : stays host_grows qmpSetup.
Proof. unfold qmpSetup. grows. Qed.
Lemma grows_stopVirtiofsDaemon : stays host_grows stopVirtiofsDaemon.
Proof. unfold stopVirtiofsDaemon. grows. Qed.
#[local] Hint Resolve grows_qmpSetup grows_stopVirtiofsDaemon : stays.

Definition vm_dir (q : qemu) : string := Filepath.PathJoin [hc_VMStorePath (vm_config q); vm_id q].

Lemma finally_state {S A} (m : M S A) c s : (finally m c s).2 = (c (m s).2).2.
Proof. unfold finally. by destruct (m s). Qed.

(** The removal of the directories, and the mark. *)
Lemma cleanup_marks q :
  let q' := (stop_deferred q).2 in
  vm_stopped q' = true /\ exists l, vm_host q' = vm_host q ++ l /\ RemoveAll (vm_dir q) ∈ l.
Proof.
  unfold stop_deferred, cleanupVM, ignore, vm_dir. munfold. simpl.
  repeat match goal with |- context [if ?b then _ else _] => destruct b end; simpl; split; try done;
    rw -?app_assoc; eexists; (split; [done|]); set_solver.
Qed.

Lemma grows_stop waitOnly conf : stays host_grows (stop_machine waitOnly conf).
Proof. unfold stop_machine, GetPids, wait_process. grows. Qed.

(** Stopping a machine, with QEMU and the host answering anything.  On every
    path, errors included, its directory is removed, everything done to the host
    before stays done, and the machine is marked as stopped; a further
    [StopVM], whatever its argument, then succeeds and does nothing, so that a
    stop that failed is not tried again. *)
Theorem StopVM_once waitOnly again q :
  vm_stopped q = false ->
  let q' := (StopVM waitOnly q).2 in
  vm_stopped q' = true /\ (exists l, vm_host q' = vm_host q ++ l /\ RemoveAll (vm_dir q) ∈ l) /\
  StopVM again q' = (Ok tt, q').
Proof.
  intros Hs q'.
  assert (Hq : vm_stopped q' = true /\ exists l, vm_host q' = vm_host q ++ l /\ RemoveAll (vm_dir q) ∈ l).
  { subst q'. unfold StopVM. rw Hs finally_state. destruct (grows_stop waitOnly (vm_config q) q) as ([l1 E1] & E2 & E3).
    set (q1 := (stop_machine _ _ q).2) in *.
    destruct (cleanup_marks q1) as [F1 (l2 & F2 & F3)]. split; [done|]. exists (l1 ++ l2).
    split; [by rw F2 E1 app_assoc|]. apply elem_of_app. right. unfold vm_dir in *. by rw -E2 -E3. }
  destruct Hq as [Eq1 Eq2]. split_and!; [done..|]. unfold StopVM. by rw Eq1.
Qed.

(** ** Starting *)

(** Launching QEMU and talking to it leaves the host and the daemon alone. *)
Definition same_host (q q' : qemu) : Prop :=
  vm_host q' = vm_host q /\ vm_virtiofsDaemon q' = vm_virtiofsDaemon q /\
  qs_VirtiofsDaemonPid (vm_state q') = qs_VirtiofsDaemonPid (vm_state q) /\ vm_config q' = vm_config q.
#[local] Instance same_host_preorder : PreOrder same_host.
Proof.
  split; [by intros q|]. intros q1 q2 q3 (A1 & A2 & A3 & A4) (B1 & B2 & B3 & B4). by split_and!; etrans.
Qed.
Lemma same_host_qmp {A} (m : M history A) : stays same_host (qmp m).
Proof. intros q. unfold qmp. by destruct (m (vm_history q)). Qed.
Lemma same_host_arch {A} (m : M qemuArch A) : stays same_host (arch m).
Proof. intros q. unfold arch. by destruct (m (vm_arch q)). Qed.
#[local] Hint Resolve same_host_qmp same_host_arch : stays.
Ltac unhosted := repeat first [progress stays | apply stays_modify; by intros ? | done].

Lemma same_host_connect n path : stays same_host (connect n path).
Proof. induction n; simpl; unhosted. Qed.
Lemma same_host_migration n : stays same_host (migration_go n).
Proof. induction n; simpl; unhosted. Qed.
#[local] Hint Resolve same_host_connect same_host_migration : stays.

Lemma same_host_launch timeout : stays same_host (launch timeout).
Proof.
  intros q. unfold launch. destruct (LaunchQemu (vm_qemuConfig q) (vm_ran q)) as [[out err] ran] eqn:E.
  assert (Hm : stays same_host (_ ← modify (fun q => q <| vm_ran := ran |>);
    match err with
    | Some _ => throw (Errorf "failed to launch qemu: %s, error messages from qemu log: %s")
    | None => _ ← waitVM timeout; _ ← when (hc_BootFromTemplate (vm_config q)) bootFromTemplate;
              when (hc_VirtioMem (vm_config q)) setupVirtioMem
    end)); [|unfold mbind at 1, M_bind at 1, get; rw E; apply Hm].
  unfold waitVM, bootFromTemplate, setupVirtioMem, getMemArgs, config, qmpShutdown, qmpSetup, setIgnoreSharedMemoryMigrationCaps,
    waitMigration. unhosted.
Qed.

(** What starting does to the host between the directory and its removal. *)
Lemma start_shared_host timeout q :
  let '(r, q') := start_shared timeout q in
  exists l, vm_host q' = vm_host q ++ l /\
    match r with
    | Ok _ => virtiofs (vm_config q) = true \/ l = []
    | Err _ => l = [] \/ exists d, l = [DaemonStart d; DaemonStop d] \/
        l = [DaemonStart d] /\ forall pid, hostop_result (vm_host q) (DaemonStart d) = Ok pid -> pid = 0
    end.
Proof.
  unfold start_shared, config, setupVirtiofsDaemon, hostop_do. munfold. simpl.
  destruct (virtiofs (vm_config q)) eqn:Ev.
  2: { destruct (same_host_launch timeout q) as (E & _). destruct (launch timeout q) as [[[]|e] q']; simpl in *;
       exists []; rw app_nil_r; split; try done; by [right|left]. }
  destruct (vm_virtiofsDaemon q) as [d|] eqn:Ed; [|exists []; rw app_nil_r; split; [done|by left]].
  destruct (hostop_result _ (DaemonStart d)) as [pid|e] eqn:Ep; simpl.
  2: { exists [DaemonStart d]. split; [done|]. right. exists d. right. split; [done|congruence]. }
  match goal with |- context [launch timeout ?x] => destruct (same_host_launch timeout x) as (E1 & E2 & E3 & _); set (q1 := x) in * end.
  destruct (launch timeout q1) as [[[]|e] q']; simpl in *.
  - exists [DaemonStart d]. split; [done|by left].
  - unfold ignore, stopVirtiofsDaemon, hostop_do. munfold. rw E2 E3. simpl. rw Ed. destruct (Z.eqb_spec pid 0) as [->|Hp]; simpl.
    + exists [DaemonStart d]. rw E1. split; [done|]. right. exists d. right. split; [done|]. congruence.
    + exists [DaemonStart d; DaemonStop d].
      destruct (hostop_result _ (DaemonStop d)); simpl; rw E1 -app_assoc; (split; [done|]); right; exists d; by left.
Qed.

(** What a start that fails has done to the host after the directory was made
    and, with SELinux, the label set: a daemon that was started is stopped. *)
Definition daemon_undone (before l : list hostop) : Prop :=
  l = [] \/ exists d, l = [DaemonStart d; DaemonStop d] \/
    l = [DaemonStart d] /\ forall pid, hostop_result before (DaemonStart d) = Ok pid -> pid = 0.

(** The operations on the host of a start that ends with [r], from the answers
    of the host on the way. *)
Definition started_log (r : res unit) (conf : HypervisorConfig) (before : list hostop) (dir : string) (l : list hostop) : Prop :=
  let remove := if is_ok r then [] else [RemoveAll dir] in
  let label := SetProcessLabel (hc_SELinuxProcessLabel conf) in
  match hostop_result before (MkdirAll dir) with
  | Err e => r = Err e /\ l = [MkdirAll dir]
  | Ok _ =>
      if hc_DisableSeLinux conf
      then exists m, l = MkdirAll dir :: m ++ remove /\ (is_ok r = false -> daemon_undone (before ++ [MkdirAll dir]) m)
      else
        match hostop_result (before ++ [MkdirAll dir]) label with
        | Err e => r = Err e /\ l = [MkdirAll dir; label]
        | Ok _ =>
            exists m, l = MkdirAll dir :: label :: m ++ SetProcessLabel "" :: remove /\
              (is_ok r = false -> daemon_undone (before ++ [MkdirAll dir; label]) m)
        end
  end.

(** C15. Starting a machine, with QEMU and the host answering anything: the
    descriptors handed to QEMU are dropped on every path, and the answers of the
    host decide what was done to it.  When the directory of the machine cannot be
    made nothing else is done.  When the SELinux label is refused the start ends
    there, and the directory stays.  In every other start, one that fails has
    removed the directory, as the last thing it did, and before that stopped the
    daemon it had started; the label of the process is reset whether the start
    succeeds or fails. *)
Theorem StartVM_undoes timeout q :
  let '(r, q') := StartVM timeout q in
  vm_fds q' = [] /\
  exists l, vm_host q' = vm_host q ++ l /\ started_log r (vm_config q) (vm_host q) (vm_dir q) l.
Proof.
  unfold StartVM, finally at 1, started_log. unfold mbind, M_bind, get, hostop_do at 1. cbv beta zeta. fold (vm_dir q).
  destruct (hostop_result _ (MkdirAll _)) as [x|e]; simpl; [|split; [done|]; by exists [MkdirAll (vm_dir q)]].
  match goal with |- context [when ?b ?m ?x] => assert (Hw : exists q1, when b m x = (Ok tt, q1) /\
    vm_host q1 = vm_host q ++ [MkdirAll (vm_dir q)] /\ vm_config q1 = vm_config q) end.
  { unfold when. destruct (hc_Debug _); by eexists. }
  destruct Hw as (q1 & -> & Eh & _). destruct (hc_DisableSeLinux (vm_config q)).
  - pose proof (start_shared_host timeout q1) as Hs. unfold on_error, ignore, hostop_do. munfold.
    destruct (start_shared timeout q1) as [[[]|e] q2]; destruct Hs as (m & Em & Hm); simpl in *.
    + split; [done|]. exists (MkdirAll (vm_dir q) :: m ++ []). split; [by rw Em Eh app_nil_r -app_assoc|]. by exists m.
    + split; [done|]. exists (MkdirAll (vm_dir q) :: m ++ [RemoveAll (vm_dir q)]). split; [by rw Em Eh -!app_assoc|].
      exists m. split; [done|]. intros _. rw Eh in Hm. exact Hm.
  - rw Eh. destruct (hostop_result _ (SetProcessLabel _)) as [y|e]; simpl.
    2: { split; [done|]. exists [MkdirAll (vm_dir q); SetProcessLabel (hc_SELinuxProcessLabel (vm_config q))].
         by rw Eh -app_assoc. }
    unfold on_error, ignore, hostop_do, finally. munfold.
    match goal with |- context [start_shared timeout ?x] => pose proof (start_shared_host timeout x) as Hs; set (q2 := x) in * end.
    assert (Eh2 : vm_host q2 = vm_host q ++ [MkdirAll (vm_dir q); SetProcessLabel (hc_SELinuxProcessLabel (vm_config q))])
      by (by unfold q2; simpl; rw Eh -app_assoc).
    destruct (start_shared timeout q2) as [[[]|e] q3]; destruct Hs as (m & Em & Hm); simpl in *.
    + split; [done|]. eexists. split; [by rw Em Eh2 -!app_assoc|]. by exists m.
    + split; [done|]. eexists. split; [by rw Em Eh2 -!app_assoc|].
      exists m. split; [done|]. intros _. rw Eh2 in Hm. exact Hm.
Qed.

(** ** Saving and handing over *)

(** A bridge as [NewBridge] makes it. *)
Definition standard (b : Bridge) : Prop :=
  b = Types.Bridges.NewBridge (br_Type b) (br_ID b) (br_Devices b) (br_Addr b).

Lemma saved_bridges l :
  Forall standard l ->
  (fun b : gmap Z string * string * string * Z => let '(devices, type, id, addr) := b in Types.Bridges.NewBridge type id devices addr) <$>
    ((fun b => (br_Devices b, br_Type b, br_ID b, br_Addr b)) <$> l) = l.
Proof. induction 1 as [|b l Hb _ IH]; [done|]. by rw !fmap_cons IH -Hb. Qed.

Lemma GetPids_ok q : exists pids, GetPids q = (Ok pids, q).
Proof. unfold GetPids. munfold. repeat case_match; by eexists. Qed.

(** Preparing a machine that has an identifier already. *)
Lemma setup_keeps id conf q q' :
  qs_UUID (vm_state q) <> "" -> setup id conf q = (Ok tt, q') ->
  vm_state q' = vm_state q /\ qa_Bridges (vm_arch q') = qs_Bridges (vm_state q).
Proof.
  intros Hu. unfold setup, setConfig, config, state, on_arch, when. munfold. destruct (Valid conf) as [[u|] conf']; [|done]. simpl.
  destruct (newQemuArch _ _) as [[a|] params]; [|done]. simpl. destruct (InitrdAssetPath _); [|done].
  destruct (ImageAssetPath _); [|done]. simpl.
  assert (given (qs_UUID (vm_state q)) = true) as -> by (by apply bool_decide_eq_true). simpl.
  destruct (RunningOnVMM host_scan procCPUInfo); [|done]. by intros [= <-].
Qed.

(** C30. A machine that is saved by one process and loaded by the next one, which
    then prepares it for the same sandbox, has the same books: the identifier of
    the machine, the processors and the memory that were plugged in, the process
    of the daemon, and every bridge with the devices on its slots. *)
Theorem machine_Save_Load q q0 id conf s q1 q' :
  vm_stopped q = false -> qs_UUID (vm_state q) <> "" -> Forall standard (qa_Bridges (vm_arch q)) ->
  qs_Bridges (vm_state q0) = [] -> qs_HotpluggedVCPUs (vm_state q0) = [] ->
  Save q = (Ok s, q1) -> setup id conf (Load s q0).2 = (Ok tt, q') ->
  vm_state q' = (vm_state q) <| qs_Bridges := qa_Bridges (vm_arch q) |> /\
  qa_Bridges (vm_arch q') = qa_Bridges (vm_arch q) /\ q1 = q.
Proof.
  intros Hs Hu Hb E1 E2. unfold Save. munfold. rw Hs. destruct (GetPids_ok q) as [pids ->]. intros [= <- <-] Hp.
  apply setup_keeps in Hp; [|done]. simpl in Hp. rw saved_bridges // E1 E2 /= in Hp. destruct Hp as [-> ->].
  by destruct (vm_state q).
Qed.

(** A machine of the cache that is handed to the runtime keeps its name, its
    control socket and its books, but not its bridges: those of the machine are
    in [arch], and what is handed over is the [Bridges] field of the state, which
    only [Load] fills.  Nothing can be plugged in afterwards: every request for a
    slot fails, though the slots are free. *)
Theorem handover_drops_bridges q q0 conf g q1 q' :
  qs_Bridges (vm_state q) = [] -> toGrpc q = (Ok g, q1) -> fromGrpc conf g q0 = (Ok tt, q') ->
  vm_id q' = vm_id q /\ vm_qmpPath q' = vm_qmpPath q /\ vm_state q' = vm_state q /\
  q_SMP (vm_qemuConfig q') = q_SMP (vm_qemuConfig q) /\
  forall ID t, exists e, addDeviceToBridge ID t (vm_arch q') = (Err e, vm_arch q').
Proof.
  intros Hb. unfold toGrpc, fromGrpc, qmpShutdown, Cleanup. munfold. simpl. intros [= <- <-].
  simpl. destruct (newQemuArch _ _) as [[a|] params]; [|done]. intros [= <-]. simpl.
  split_and!; [done..|]. intros ID t. eexists. unfold addDeviceToBridge, on_bridges. munfold. simpl. by rw Hb.
Qed.

End Plug.

End QemuPlugSpec.
