(* ===== verification/QemuRuns.v ===== *)
(** * QEMU machines on a concrete host

    A host and a QEMU that answers, and the theorems of [QemuVMSpec.v] and
    [QemuPlugSpec.v] applied to machines on it. *)
From S2P Require Import Prelude GoStr Types Utils Devices Hypervisor Persist Qemu QemuSpec Qmp QmpCmd QemuArch QemuVM QemuVMSpec QemuPlugSpec.

Module QemuRuns.
Import Qemu QmpCmd QemuArch QemuVM HypervisorConf QemuVMSpec QemuPlugSpec.
Import Qmp(json, JNull, JBool, JNum, JStr, JArr, JObj, object, jget, has).
Import Types.Bridges(Bridge, PCI).

Definition arch64 : GoArch := QemuSpec.amd64.
Definition exec0 : Exec := QemuSpec.quiet.

(** Two sockets are free; a second DIMM is refused. *)
Definition free_cpu (socket : Z) : json :=
  JObj [("type", JStr "host-x86_64-cpu"); ("vcpus-count", JNum 1);
        ("props", JObj [("core-id", JNum 0); ("thread-id", JNum 0); ("socket-id", JNum socket)])].
Definition server : QmpServer := {|
  dial := fun _ _ => Greeting (Qmp.mkVersion 7 1 0 []);
  reply := fun h r =>
    if is_request "query-hotpluggable-cpus" r then Ok (JArr [free_cpu 1; free_cpu 2])
    else if is_request "query-memory-devices" r then Ok (JArr [])
    else if is_request "device_add" r && is_dimm (r_args r) && (0 <? iv_dimms (inventory_of h)) then Err (Errorf "QMP command failed: %v")
    else Ok JNull
|}.
Definition host : QemuHost := {|
  host_scan := fun path => Ok ([ "MemTotal:       16777216 kB"; "flags : fpu vme" ], None);
  host_Stat := fun _ => Found false true 4096;
  host_Open := fun _ => Ok tt;
  host_ReadFile := fun _ => Ok "4242";
  host_Random := fun n => Ok (replicate (Z.to_nat n) 7);
  AMD_CBitPosition := 0;
  AMD_PhysAddrReduction := 0
|}.
Definition vmhost : VMHost := {|
  hostop_result := fun _ _ => Ok 17;
  EvalSymlinks := fun s => Ok s;
  uuid_Generate := "0b9a6a0e-2f5e-4c64-9c5e-3f7f4a8b1d20";
  tries := fun _ => 1%nat;
  wait_kill := fun _ _ => WaitProcess.KillESRCH;
  wait_events := fun _ => [];
  blksize := fun _ => Ok 0
|}.
#[local] Existing Instances arch64 exec0 server host vmhost range_default.

Definition conf : HypervisorConfig := HypervisorConfig_zero
  <| hc_KernelPath := "/usr/share/vmlinux" |> <| hc_ImagePath := "/usr/share/image" |>
  <| hc_NumVCPUs := 1 |> <| hc_DefaultMaxVCPUs := 2 |> <| hc_MemorySize := 2048 |> <| hc_MemSlots := 10 |>
  <| hc_DefaultBridges := 1 |> <| hc_BlockDeviceDriver := Config.VirtioBlock |> <| hc_DisableSeLinux := true |>
  <| hc_VMStorePath := "/run/vc/vm" |> <| hc_RunStorePath := "/run/vc/sbs" |>.

(** The structure before anything was done. *)
Definition blank_arch : qemuArch :=
  mkQemuArch "" (mkMachine "" "" "") [] [] [] [] [] 0 0 noneProtection false false false false false 0 0.
Definition blank : qemu :=
  mkQemu blank_arch None [] "" (mkQemuState "" [] [] 0 0 0 false) "" false QemuSpec.demo HypervisorConfig_zero 0 false [] [] [] [].

Definition created : qemu := (CreateVM "sb" conf blank).2.

Definition life : list action :=
  [AStart 10; AVCPUs 4; AMemory 3072 128 false; AMemory 4096 128 false; AHot OpAdd (HCpu 1); APause; AResume; AVCPUs 1; AStop false; ACleanup].
Definition started : qemu := machine "sb" conf [AStart 10] blank.
Definition drive : Config.BlockDrive :=
  Config.mkBlockDrive "/dev/loop7" "raw" "drive-1" "" "" "" "" "" [] 0 false false false false.

(** The DIMM is plugged in, and QEMU lists no device to read its address from. *)
Definition probed : list action := [AStart 10; AMemory 3072 128 true; AVCPUs 2].

Lemma machine_tracked_witness :
  (let q := machine "sb" conf (take 5 life) blank in
   let v := inventory_of (vm_history q) in
   qs_HotpluggedVCPUs (vm_state q) = ["cpu-0"] /\ cpus v = ["cpu-0"] /\ iv_dimms v = 1024 * 2 ^ 20) /\
  (let q := machine "sb" conf probed blank in
   let v := inventory_of (vm_history q) in
   cpus v = ["cpu-0"] /\ qs_HotpluggedMemory (vm_state q) = 0 /\ iv_dimms v = 1024 * 2 ^ 20).
Proof.
  assert (Hb : vm_history blank = [] /\ qs_HotpluggedVCPUs (vm_state blank) = [] /\ qs_HotpluggedMemory (vm_state blank) = 0)
    by (vm_compute; by split_and!).
  destruct Hb as (B1 & B2 & B3).
  assert (E1 : hc_VirtioMem (vm_config (CreateVM "sb" conf blank).2) = false) by (vm_compute; reflexivity).
  assert (E2 : hc_MemorySize (vm_config (CreateVM "sb" conf blank).2) = 2048) by (vm_compute; reflexivity).
  assert (E3 : Forall ok_action (take 5 life)) by (unfold life, ok_action; repeat constructor; done || lia).
  assert (E4 : Forall ok_action probed) by (unfold probed, ok_action; repeat constructor; done || lia).
  assert (E5 : Forall (fun a => probes a = false) (take 5 life)) by (unfold life, probes; repeat constructor; done).
  assert (E6 : let q := machine "sb" conf (take 5 life) blank in
    qs_HotpluggedVCPUs (vm_state q) = ["cpu-0"] /\ qs_HotpluggedMemory (vm_state q) = 1024) by (vm_compute; by split).
  assert (E7 : let q := machine "sb" conf probed blank in
    qs_HotpluggedVCPUs (vm_state q) = ["cpu-0"] /\ qs_HotpluggedMemory (vm_state q) = 0) by (vm_compute; by split).
  assert (E8 : uncounted probed (CreateVM "sb" conf blank).2 = 1024 * 2 ^ 20) by (vm_compute; reflexivity).
  destruct (machine_tracked "sb" conf (take 5 life) blank B1 B2 B3 E3) as [[P1 _] P2].
  destruct (machine_tracked "sb" conf probed blank B1 B2 B3 E4) as [[Q1 _] Q2].
  destruct (P2 E1) as (P3 & _ & P4); [rw E2; lia|]. destruct (Q2 E1) as (Q3 & _ & _); [rw E2; lia|].
  cbv zeta in *. destruct E6 as [E61 E62], E7 as [E71 E72].
  rw E61 in P1. rw E71 in Q1. rw (P4 E5) E62 in P3. rw E72 E8 in Q3. split_and!; congruence || lia.
Defined.

Lemma ResizeVCPUs_spec_witness :
  exists q', ResizeVCPUs 4 started = (Ok (1, 2), q') /\ length (qs_HotpluggedVCPUs (vm_state q')) = 1%nat.
Proof.
  exists (ResizeVCPUs 4 started).2.
  assert (Ha : smp_CPUs (q_SMP (vm_qemuConfig started)) = hc_NumVCPUs (vm_config started)) by (vm_compute; reflexivity).
  assert (Hn : hc_NumVCPUs (vm_config started) = 1) by (vm_compute; reflexivity).
  assert (Hm : hc_DefaultMaxVCPUs (vm_config started) = 2) by (vm_compute; reflexivity).
  assert (Hp : length (qs_HotpluggedVCPUs (vm_state started)) = 0%nat) by (vm_compute; reflexivity).
  pose proof (ResizeVCPUs_spec 4 started Ha) as Hs. rw Hn Hm Hp in Hs.
  specialize (Hs ltac:(lia) ltac:(lia) ltac:(lia)).
  assert (E : (ResizeVCPUs 4 started).1 = Ok (1, 2)) by (vm_compute; reflexivity).
  destruct (ResizeVCPUs 4 started) as [r q']. simpl in E. subst r. simpl. split; [reflexivity|]. lia.
Defined.


Definition resizable : qemu := (CreateVM "sb" (conf <| hc_VirtioMem := true |>) blank).2.
Definition shrunk : res (Z * MemoryDevice) * qemu := ResizeMemory 1024 128 false resizable.

Lemma ResizeMemory_virtio_witness :
  exists dev, shrunk.1 = Ok (1024, dev) /\ qs_HotpluggedMemory (vm_state shrunk.2) = 2 ^ 32 - 1024.
Proof.
  assert (Ev : hc_VirtioMem (vm_config resizable) = true) by (vm_compute; reflexivity).
  assert (Em : hc_MemorySize (vm_config resizable) = 2048) by (vm_compute; reflexivity).
  assert (Ee : qs_HotpluggedMemory (vm_state resizable) = 0) by (vm_compute; reflexivity).
  assert (Er : is_ok shrunk.1 = true) by (vm_compute; reflexivity).
  revert Ev Em Ee Er. unfold shrunk. generalize resizable. intros q Ev Em Ee Er.
  destruct (ResizeMemory 1024 128 false q) as [[[now dev]|e] q'] eqn:E; [|discriminate].
  pose proof (ResizeMemory_virtio 1024 128 false q now dev q' Ev) as Hs. rw Em Ee in Hs.
  destruct (Hs ltac:(lia) ltac:(lia) ltac:(lia) ltac:(lia) ltac:(lia) E) as (-> & Hx & _). exists dev. split; [reflexivity|]. exact Hx.
Defined.

Lemma plug_drive_spec_witness :
  exists q' d', hotplugBlockDevice OpAdd (started, drive) = (Ok tt, (q', d')) /\
    iv_nodes (inventory_of (vm_history q')) = ["drive-1"] /\ hd 0 (Config.bd_PCIPath d') = 2.
Proof.
  assert (Ea : hc_BlockDeviceDriver (vm_config started) = Config.VirtioBlock) by (vm_compute; reflexivity).
  assert (En : iv_nodes (inventory_of (vm_history started)) = []) by (vm_compute; reflexivity).
  assert (Eb : qa_Bridges (vm_arch started) = [Types.Bridges.NewBridge PCI "pci-bridge-0" ∅ 2]) by (vm_compute; reflexivity).
  assert (Er : (hotplugBlockDevice OpAdd (started, drive)).1 = Ok tt) by (vm_compute; reflexivity).
  revert Ea En Eb Er. generalize started. intros q Ea En Eb Er.
  pose proof (plug_drive_spec q drive Ea eq_refl) as Hs. rw Eb En in Hs.
  destruct (hotplugBlockDevice OpAdd (q, drive)) as [r [q' d']]. simpl in Er. subst r. exists q', d'.
  destruct Hs as (N & l1 & b & l2 & slot & El & _ & _ & _ & _ & Hat).
  { apply Forall_singleton, Types.Bridges.NewBridge_inv. }
  { apply Forall_singleton. split; [vm_compute; discriminate|done]. }
  { apply Forall_singleton. intros i. simpl. by rw lookup_empty. }
  { by intros ?%elem_of_nil. }
  split; [reflexivity|]. split; [exact N|].
  destruct Hat as (r & x & h & _ & _ & _ & _ & _ & _ & ->). by destruct l1 as [|b1 [|b2 l1]]; simplify_eq/=.
Defined.

Lemma StopVM_once_witness : StopVM true (StopVM false started).2 = (Ok tt, (StopVM false started).2).
Proof.
  assert (E : vm_stopped started = false) by (vm_compute; reflexivity).
  exact (proj2 (proj2 (StopVM_once false true started E))).
Defined.

(** The drive is on its bridge when the machine is saved. *)
Definition busy : qemu := (hotplugBlockDevice OpAdd (started, drive)).2.1.
Definition saved : QemuSaved := match Save busy with (Ok s, _) => s | _ => saved_zero end.
Definition loaded : qemu := (setup "sb" conf (Load saved blank).2).2.

Lemma machine_Save_Load_witness :
  qa_Bridges (vm_arch loaded) = [Types.Bridges.NewBridge PCI "pci-bridge-0" {[1 := "drive-1"]} 2] /\
  qs_UUID (vm_state loaded) = uuid_Generate.
Proof.
  assert (E1 : vm_stopped busy = false) by (vm_compute; reflexivity).
  assert (E2 : qs_UUID (vm_state busy) = uuid_Generate) by (vm_compute; reflexivity).
  assert (E3 : qa_Bridges (vm_arch busy) = [Types.Bridges.NewBridge PCI "pci-bridge-0" {[1 := "drive-1"]} 2])
    by (vm_compute; reflexivity).
  assert (E4 : (Save busy).1 = Ok saved) by (vm_compute; reflexivity).
  assert (E5 : (setup "sb" conf (Load saved blank).2).1 = Ok tt) by (vm_compute; reflexivity).
  revert E1 E2 E3 E4 E5. unfold loaded. generalize busy, saved. intros q s E1 E2 E3 E4 E5.
  destruct (Save q) as [rs q1] eqn:Es. destruct (setup "sb" conf (Load s blank).2) as [r q'] eqn:El. simpl in *. subst rs r.
  destruct (machine_Save_Load q blank "sb" conf s q1 q' E1) as (F1 & F2 & _); try done; [by rw E2|by rw E3; apply Forall_singleton|].
  split; [by rw F2 E3|]. by rw F1 /= E2.
Defined.

(** A machine that is taken from the cache. *)
Definition cached : qemuGrpc :=
  match toGrpc started with (Ok g, _) => g | _ => mkQemuGrpc "" "" (vm_state blank) 0 (mkSMP 0 0 0 0 0) end.
Definition taken : qemu := (fromGrpc conf cached blank).2.

Lemma handover_drops_bridges_witness :
  vm_id taken = "sb" /\ exists e, addDeviceToBridge "drive-1" PCI (vm_arch taken) = (Err e, vm_arch taken).
Proof.
  assert (E1 : qs_Bridges (vm_state started) = []) by (vm_compute; reflexivity).
  assert (E2 : (toGrpc started).1 = Ok cached) by (vm_compute; reflexivity).
  assert (E3 : (fromGrpc conf cached blank).1 = Ok tt) by (vm_compute; reflexivity).
  assert (E4 : vm_id started = "sb") by (vm_compute; reflexivity).
  revert E1 E2 E3 E4. unfold taken. generalize started, cached. intros q g E1 E2 E3 E4.
  destruct (toGrpc q) as [rg q1] eqn:Eg. destruct (fromGrpc conf g blank) as [r q'] eqn:Ef. simpl in *. subst rg r.
  destruct (handover_drops_bridges q blank conf g q1 q' E1 Eg Ef) as (F1 & _ & _ & _ & F5).
  split; [by rw F1|]. apply F5.
Defined.

End QemuRuns.
