(* ===== verification/ClhModel.v ===== *)
(** * The structures of the Cloud Hypervisor API

    pkg/cloud-hypervisor/client: the structures of a machine (model_*.go), how
    they are written to JSON and read back.  A pointer is an [option]; [NullableT]
    is an option of an option, as it tells an absent value from a null one.  The
    order in which the keys of an object are written is left out; a map is the list
    of its bindings. *)
From S2P Require Import Prelude GoStr Qmp QmpCmd.

Module ClhModel.
Import Qmp(json, JNull, JBool, JNum, JStr, JArr, JObj, object, jget).
Import QmpCmd(type_error, struct_from, list_from_go, field_with).

(** ** Reading and writing JSON *)

(** How a type is written and read, its zero value, and which of its values Go
    can hold. *)
Record codec (A : Type) : Type := mkCodec { enc : A -> json; dec : json -> res A; dz : A; okc : A -> Prop }.
Arguments mkCodec {A} _ _ _ _.
Arguments enc {A} _ _.
Arguments dec {A} _ _.
Arguments dz {A} _.
Arguments okc {A} _ _.

(** What is written reads as itself, and is not null. *)
Class Lawful {A} (c : codec A) : Prop := lawful x : okc c x -> dec c (enc c x) = Ok x /\ enc c x <> JNull.

Definition read_int (bits : Z) (j : json) : res Z :=
  match j with
  | JNum z => if (- 2 ^ (bits - 1) <=? z) && (z <? 2 ^ (bits - 1)) then Ok z else type_error
  | _ => type_error
  end.
Definition c_int (bits : Z) : codec Z := mkCodec JNum (read_int bits) 0 (fun z => - 2 ^ (bits - 1) <= z < 2 ^ (bits - 1)).
Definition c_int32 : codec Z := c_int 32.
Definition c_int64 : codec Z := c_int 64.
Definition c_string : codec string :=
  mkCodec JStr (fun j => match j with JStr s => Ok s | _ => type_error end) "" (fun _ => True).
Definition c_bool : codec bool :=
  mkCodec JBool (fun j => match j with JBool b => Ok b | _ => type_error end) false (fun _ => True).
Definition c_object : codec object :=
  mkCodec JObj (fun j => match j with JObj o => Ok o | _ => type_error end) [] (fun _ => True).

(** An element that is null is the zero value. *)
Definition c_list {A} (c : codec A) : codec (list A) :=
  mkCodec (fun l => JArr (enc c <$> l))
    (fun j => match j with JArr l => list_from_go (fun j => match j with JNull => Ok (dz c) | _ => dec c j end) l
              | _ => type_error end)
    [] (Forall (okc c)).

(** A map is the list of its bindings; the last value of a key is kept. *)
Fixpoint assoc_set {A} (k : string) (x : A) (m : list (string * A)) : list (string * A) :=
  match m with
  | [] => [(k, x)]
  | (k', x') :: m' => if bool_decide (k' = k) then (k, x) :: m' else (k', x') :: assoc_set k x m'
  end.
Fixpoint map_from_go {A} (c : codec A) (m : list (string * A)) (o : object) : res (list (string * A)) :=
  match o with
  | [] => Ok m
  | (k, j) :: o' => x ← (match j with JNull => Ok (dz c) | _ => dec c j end); map_from_go c (assoc_set k x m) o'
  end.
Definition c_map {A} (c : codec A) : codec (list (string * A)) :=
  mkCodec (fun m => JObj ((fun kx => (kx.1, enc c kx.2)) <$> m))
    (fun j => match j with JObj o => map_from_go c [] o | _ => type_error end)
    [] (fun m => NoDup m.*1 /\ Forall (fun kx => okc c kx.2) m).

(** [toSerialize]: the bindings that are present. *)
Definition omit (l : list (string * option json)) : object := omap (fun kv => (fun j => (kv.1, j)) <$> kv.2) l.

Definition req {A} (k : string) (c : codec A) (x : A) : string * option json := (k, Some (enc c x)).
Definition opt {A} (k : string) (c : codec A) (x : option A) : string * option json := (k, enc c <$> x).
Definition nullable {A} (k : string) (c : codec A) (x : option (option A)) : string * option json :=
  (k, (fun y => match y with Some z => enc c z | None => JNull end) <$> x).

(** [json.Unmarshal]: a field that is absent or null keeps its zero value. *)
Definition get_req {A} (k : string) (c : codec A) (o : object) : res A := field_with (dz c) (dec c) k o.
Definition get_opt {A} (k : string) (c : codec A) (o : object) : res (option A) :=
  match jget k o with None | Some JNull => Ok None | Some j => x ← dec c j; Ok (Some x) end.
Definition get_nullable {A} (k : string) (c : codec A) (o : object) : res (option (option A)) :=
  match jget k o with None => Ok None | Some JNull => Ok (Some None) | Some j => x ← dec c j; Ok (Some (Some x)) end.

Definition ok_opt {A} (c : codec A) (x : option A) : Prop := match x with Some y => okc c y | None => True end.
Definition ok_nullable {A} (c : codec A) (x : option (option A)) : Prop :=
  match x with Some (Some y) => okc c y | _ => True end.

(** ** The structures *)

Record KernelConfig : Type := mkKernelConfig {
  kc_Path : string;
}.

#[export] Instance eta_KernelConfig : Eta KernelConfig := fun r =>
  mkKernelConfig (kc_Path r).

Definition zero_KernelConfig : KernelConfig := mkKernelConfig "".

Definition NewKernelConfig (path : string) : KernelConfig :=
  mkKernelConfig path.

Definition KernelConfig_MarshalJSON (o : KernelConfig) : json :=
  JObj (omit [
    req "path" c_string (kc_Path o)]).

Definition KernelConfig_Unmarshal : json -> res KernelConfig := struct_from zero_KernelConfig (fun o =>
    x0 ← get_req "path" c_string o;
    Ok (mkKernelConfig x0)).

Definition KernelConfig_ok (o : KernelConfig) : Prop :=
  True.

Definition KernelConfig_codec : codec KernelConfig := mkCodec KernelConfig_MarshalJSON KernelConfig_Unmarshal zero_KernelConfig KernelConfig_ok.

Record CmdLineConfig : Type := mkCmdLineConfig {
  cl_Args : string;
}.

#[export] Instance eta_CmdLineConfig : Eta CmdLineConfig := fun r =>
  mkCmdLineConfig (cl_Args r).

Definition zero_CmdLineConfig : CmdLineConfig := mkCmdLineConfig "".

Definition NewCmdLineConfig (args : string) : CmdLineConfig :=
  mkCmdLineConfig args.

Definition CmdLineConfig_MarshalJSON (o : CmdLineConfig) : json :=
  JObj (omit [
    req "args" c_string (cl_Args o)]).

Definition CmdLineConfig_Unmarshal : json -> res CmdLineConfig := struct_from zero_CmdLineConfig (fun o =>
    x0 ← get_req "args" c_string o;
    Ok (mkCmdLineConfig x0)).

Definition CmdLineConfig_ok (o : CmdLineConfig) : Prop :=
  True.

Definition CmdLineConfig_codec : codec CmdLineConfig := mkCodec CmdLineConfig_MarshalJSON CmdLineConfig_Unmarshal zero_CmdLineConfig CmdLineConfig_ok.

Record InitramfsConfig : Type := mkInitramfsConfig {
  ir_Path : string;
}.

#[export] Instance eta_InitramfsConfig : Eta InitramfsConfig := fun r =>
  mkInitramfsConfig (ir_Path r).

Definition zero_InitramfsConfig : InitramfsConfig := mkInitramfsConfig "".

Definition NewInitramfsConfig (path : string) : InitramfsConfig :=
  mkInitramfsConfig path.

Definition InitramfsConfig_MarshalJSON (o : InitramfsConfig) : json :=
  JObj (omit [
    req "path" c_string (ir_Path o)]).

Definition InitramfsConfig_Unmarshal : json -> res InitramfsConfig := struct_from zero_InitramfsConfig (fun o =>
    x0 ← get_req "path" c_string o;
    Ok (mkInitramfsConfig x0)).

Definition InitramfsConfig_ok (o : InitramfsConfig) : Prop :=
  True.

Definition InitramfsConfig_codec : codec InitramfsConfig := mkCodec InitramfsConfig_MarshalJSON InitramfsConfig_Unmarshal zero_InitramfsConfig InitramfsConfig_ok.

Record TdxConfig : Type := mkTdxConfig {
  tdx_Firmware : string;
}.

#[export] Instance eta_TdxConfig : Eta TdxConfig := fun r =>
  mkTdxConfig (tdx_Firmware r).

Definition zero_TdxConfig : TdxConfig := mkTdxConfig "".

Definition NewTdxConfig (firmware : string) : TdxConfig :=
  mkTdxConfig firmware.

Definition TdxConfig_MarshalJSON (o : TdxConfig) : json :=
  JObj (omit [
    req "firmware" c_string (tdx_Firmware o)]).

Definition TdxConfig_Unmarshal : json -> res TdxConfig := struct_from zero_TdxConfig (fun o =>
    x0 ← get_req "firmware" c_string o;
    Ok (mkTdxConfig x0)).

Definition TdxConfig_ok (o : TdxConfig) : Prop :=
  True.

Definition TdxConfig_codec : codec TdxConfig := mkCodec TdxConfig_MarshalJSON TdxConfig_Unmarshal zero_TdxConfig TdxConfig_ok.

Record RngConfig : Type := mkRngConfig {
  rng_Src : string;
  rng_Iommu : option bool;
}.

#[export] Instance eta_RngConfig : Eta RngConfig := fun r =>
  mkRngConfig (rng_Src r) (rng_Iommu r).

Definition zero_RngConfig : RngConfig := mkRngConfig "" None.

Definition NewRngConfig (src : string) : RngConfig :=
  mkRngConfig src (Some false).

Definition RngConfig_MarshalJSON (o : RngConfig) : json :=
  JObj (omit [
    req "src" c_string (rng_Src o);
    opt "iommu" c_bool (rng_Iommu o)]).

Definition RngConfig_Unmarshal : json -> res RngConfig := struct_from zero_RngConfig (fun o =>
    x0 ← get_req "src" c_string o; x1 ← get_opt "iommu" c_bool o;
    Ok (mkRngConfig x0 x1)).

Definition RngConfig_ok (o : RngConfig) : Prop :=
  True.

Definition RngConfig_codec : codec RngConfig := mkCodec RngConfig_MarshalJSON RngConfig_Unmarshal zero_RngConfig RngConfig_ok.

Record ConsoleConfig : Type := mkConsoleConfig {
  con_File : option string;
  con_Mode : string;
  con_Iommu : option bool;
}.

#[export] Instance eta_ConsoleConfig : Eta ConsoleConfig := fun r =>
  mkConsoleConfig (con_File r) (con_Mode r) (con_Iommu r).

Definition zero_ConsoleConfig : ConsoleConfig := mkConsoleConfig None "" None.

Definition NewConsoleConfig (mode : string) : ConsoleConfig :=
  mkConsoleConfig None mode (Some false).

Definition ConsoleConfig_MarshalJSON (o : ConsoleConfig) : json :=
  JObj (omit [
    opt "file" c_string (con_File o);
    req "mode" c_string (con_Mode o);
    opt "iommu" c_bool (con_Iommu o)]).

Definition ConsoleConfig_Unmarshal : json -> res ConsoleConfig := struct_from zero_ConsoleConfig (fun o =>
    x0 ← get_opt "file" c_string o; x1 ← get_req "mode" c_string o; x2 ← get_opt "iommu" c_bool o;
    Ok (mkConsoleConfig x0 x1 x2)).

Definition ConsoleConfig_ok (o : ConsoleConfig) : Prop :=
  True.

Definition ConsoleConfig_codec : codec ConsoleConfig := mkCodec ConsoleConfig_MarshalJSON ConsoleConfig_Unmarshal zero_ConsoleConfig ConsoleConfig_ok.

Record CpuTopology : Type := mkCpuTopology {
  top_ThreadsPerCore : option Z;
  top_CoresPerDie : option Z;
  top_DiesPerPackage : option Z;
  top_Packages : option Z;
}.

#[export] Instance eta_CpuTopology : Eta CpuTopology := fun r =>
  mkCpuTopology (top_ThreadsPerCore r) (top_CoresPerDie r) (top_DiesPerPackage r) (top_Packages r).

Definition zero_CpuTopology : CpuTopology := mkCpuTopology None None None None.

Definition NewCpuTopology : CpuTopology :=
  mkCpuTopology None None None None.

Definition CpuTopology_MarshalJSON (o : CpuTopology) : json :=
  JObj (omit [
    opt "threads_per_core" c_int32 (top_ThreadsPerCore o);
    opt "cores_per_die" c_int32 (top_CoresPerDie o);
    opt "dies_per_package" c_int32 (top_DiesPerPackage o);
    opt "packages" c_int32 (top_Packages o)]).

Definition CpuTopology_Unmarshal : json -> res CpuTopology := struct_from zero_CpuTopology (fun o =>
    x0 ← get_opt "threads_per_core" c_int32 o; x1 ← get_opt "cores_per_die" c_int32 o;
    x2 ← get_opt "dies_per_package" c_int32 o; x3 ← get_opt "packages" c_int32 o;
    Ok (mkCpuTopology x0 x1 x2 x3)).

Definition CpuTopology_ok (o : CpuTopology) : Prop :=
  ok_opt c_int32 (top_ThreadsPerCore o) /\
  ok_opt c_int32 (top_CoresPerDie o) /\
  ok_opt c_int32 (top_DiesPerPackage o) /\
  ok_opt c_int32 (top_Packages o).

Definition CpuTopology_codec : codec CpuTopology := mkCodec CpuTopology_MarshalJSON CpuTopology_Unmarshal zero_CpuTopology CpuTopology_ok.

Record CpuAffinity : Type := mkCpuAffinity {
  aff_Vcpu : option Z;
  aff_HostCpus : option (list Z);
}.

#[export] Instance eta_CpuAffinity : Eta CpuAffinity := fun r =>
  mkCpuAffinity (aff_Vcpu r) (aff_HostCpus r).

Definition zero_CpuAffinity : CpuAffinity := mkCpuAffinity None None.

Definition NewCpuAffinity : CpuAffinity :=
  mkCpuAffinity None None.

Definition CpuAffinity_MarshalJSON (o : CpuAffinity) : json :=
  JObj (omit [
    opt "vcpu" c_int32 (aff_Vcpu o);
    opt "host_cpus" (c_list c_int32) (aff_HostCpus o)]).

Definition CpuAffinity_Unmarshal : json -> res CpuAffinity := struct_from zero_CpuAffinity (fun o =>
    x0 ← get_opt "vcpu" c_int32 o; x1 ← get_opt "host_cpus" (c_list c_int32) o;
    Ok (mkCpuAffinity x0 x1)).

Definition CpuAffinity_ok (o : CpuAffinity) : Prop :=
  ok_opt c_int32 (aff_Vcpu o) /\
  ok_opt (c_list c_int32) (aff_HostCpus o).

Definition CpuAffinity_codec : codec CpuAffinity := mkCodec CpuAffinity_MarshalJSON CpuAffinity_Unmarshal zero_CpuAffinity CpuAffinity_ok.

Record CpusConfig : Type := mkCpusConfig {
  cpus_BootVcpus : Z;
  cpus_MaxVcpus : Z;
  cpus_Topology : option CpuTopology;
  cpus_MaxPhysBits : option Z;
  cpus_Affinity : option (list CpuAffinity);
}.

#[export] Instance eta_CpusConfig : Eta CpusConfig := fun r =>
  mkCpusConfig (cpus_BootVcpus r) (cpus_MaxVcpus r) (cpus_Topology r) (cpus_MaxPhysBits r) (cpus_Affinity r).

Definition zero_CpusConfig : CpusConfig := mkCpusConfig 0 0 None None None.

Definition NewCpusConfig (bootVcpus : Z) (maxVcpus : Z) : CpusConfig :=
  mkCpusConfig bootVcpus maxVcpus None None None.

Definition CpusConfig_MarshalJSON (o : CpusConfig) : json :=
  JObj (omit [
    req "boot_vcpus" c_int32 (cpus_BootVcpus o);
    req "max_vcpus" c_int32 (cpus_MaxVcpus o);
    opt "topology" CpuTopology_codec (cpus_Topology o);
    opt "max_phys_bits" c_int32 (cpus_MaxPhysBits o);
    opt "affinity" (c_list CpuAffinity_codec) (cpus_Affinity o)]).

Definition CpusConfig_Unmarshal : json -> res CpusConfig := struct_from zero_CpusConfig (fun o =>
    x0 ← get_req "boot_vcpus" c_int32 o; x1 ← get_req "max_vcpus" c_int32 o;
    x2 ← get_opt "topology" CpuTopology_codec o; x3 ← get_opt "max_phys_bits" c_int32 o;
    x4 ← get_opt "affinity" (c_list CpuAffinity_codec) o;
    Ok (mkCpusConfig x0 x1 x2 x3 x4)).

Definition CpusConfig_ok (o : CpusConfig) : Prop :=
  okc c_int32 (cpus_BootVcpus o) /\
  okc c_int32 (cpus_MaxVcpus o) /\
  ok_opt CpuTopology_codec (cpus_Topology o) /\
  ok_opt c_int32 (cpus_MaxPhysBits o) /\
  ok_opt (c_list CpuAffinity_codec) (cpus_Affinity o).

Definition CpusConfig_codec : codec CpusConfig := mkCodec CpusConfig_MarshalJSON CpusConfig_Unmarshal zero_CpusConfig CpusConfig_ok.

Record MemoryZoneConfig : Type := mkMemoryZoneConfig {
  mz_Id : string;
  mz_Size : Z;
  mz_File : option string;
  mz_Mergeable : option bool;
  mz_Shared : option bool;
  mz_Hugepages : option bool;
  mz_HugepageSize : option Z;
  mz_HostNumaNode : option Z;
  mz_HotplugSize : option Z;
  mz_HotpluggedSize : option Z;
  mz_Prefault : option bool;
}.

#[export] Instance eta_MemoryZoneConfig : Eta MemoryZoneConfig := fun r =>
  mkMemoryZoneConfig (mz_Id r) (mz_Size r) (mz_File r) (mz_Mergeable r) (mz_Shared r) (mz_Hugepages r)
  (mz_HugepageSize r) (mz_HostNumaNode r) (mz_HotplugSize r) (mz_HotpluggedSize r) (mz_Prefault r).

Definition zero_MemoryZoneConfig : MemoryZoneConfig := mkMemoryZoneConfig "" 0 None None None None None None None None None.

Definition NewMemoryZoneConfig (id : string) (size : Z) : MemoryZoneConfig :=
  mkMemoryZoneConfig id size None (Some false) (Some false) (Some false) None None None None (Some false).

Definition MemoryZoneConfig_MarshalJSON (o : MemoryZoneConfig) : json :=
  JObj (omit [
    req "id" c_string (mz_Id o);
    req "size" c_int64 (mz_Size o);
    opt "file" c_string (mz_File o);
    opt "mergeable" c_bool (mz_Mergeable o);
    opt "shared" c_bool (mz_Shared o);
    opt "hugepages" c_bool (mz_Hugepages o);
    opt "hugepage_size" c_int64 (mz_HugepageSize o);
    opt "host_numa_node" c_int32 (mz_HostNumaNode o);
    opt "hotplug_size" c_int64 (mz_HotplugSize o);
    opt "hotplugged_size" c_int64 (mz_HotpluggedSize o);
    opt "prefault" c_bool (mz_Prefault o)]).

Definition MemoryZoneConfig_Unmarshal : json -> res MemoryZoneConfig := struct_from zero_MemoryZoneConfig (fun o =>
    x0 ← get_req "id" c_string o; x1 ← get_req "size" c_int64 o; x2 ← get_opt "file" c_string o;
    x3 ← get_opt "mergeable" c_bool o; x4 ← get_opt "shared" c_bool o; x5 ← get_opt "hugepages" c_bool o;
    x6 ← get_opt "hugepage_size" c_int64 o; x7 ← get_opt "host_numa_node" c_int32 o;
    x8 ← get_opt "hotplug_size" c_int64 o; x9 ← get_opt "hotplugged_size" c_int64 o;
    x10 ← get_opt "prefault" c_bool o;
    Ok (mkMemoryZoneConfig x0 x1 x2 x3 x4 x5 x6 x7 x8 x9 x10)).

Definition MemoryZoneConfig_ok (o : MemoryZoneConfig) : Prop :=
  okc c_int64 (mz_Size o) /\
  ok_opt c_int64 (mz_HugepageSize o) /\
  ok_opt c_int32 (mz_HostNumaNode o) /\
  ok_opt c_int64 (mz_HotplugSize o) /\
  ok_opt c_int64 (mz_HotpluggedSize o).

Definition MemoryZoneConfig_codec : codec MemoryZoneConfig := mkCodec MemoryZoneConfig_MarshalJSON MemoryZoneConfig_Unmarshal zero_MemoryZoneConfig MemoryZoneConfig_ok.

Record MemoryConfig : Type := mkMemoryConfig {
  mem_Size : Z;
  mem_HotplugSize : option Z;
  mem_HotpluggedSize : option Z;
  mem_Mergeable : option bool;
  mem_HotplugMethod : option string;
  mem_Shared : option bool;
  mem_Hugepages : option bool;
  mem_HugepageSize : option Z;
  mem_Prefault : option bool;
  mem_Zones : option (list MemoryZoneConfig);
}.

#[export] Instance eta_MemoryConfig : Eta MemoryConfig := fun r =>
  mkMemoryConfig (mem_Size r) (mem_HotplugSize r) (mem_HotpluggedSize r) (mem_Mergeable r)
  (mem_HotplugMethod r) (mem_Shared r) (mem_Hugepages r) (mem_HugepageSize r) (mem_Prefault r) (mem_Zones r).

Definition zero_MemoryConfig : MemoryConfig := mkMemoryConfig 0 None None None None None None None None None.

Definition NewMemoryConfig (size : Z) : MemoryConfig :=
  mkMemoryConfig size None None (Some false) (Some "Acpi") (Some false) (Some false) None (Some false) None.

Definition MemoryConfig_MarshalJSON (o : MemoryConfig) : json :=
  JObj (omit [
    req "size" c_int64 (mem_Size o);
    opt "hotplug_size" c_int64 (mem_HotplugSize o);
    opt "hotplugged_size" c_int64 (mem_HotpluggedSize o);
    opt "mergeable" c_bool (mem_Mergeable o);
    opt "hotplug_method" c_string (mem_HotplugMethod o);
    opt "shared" c_bool (mem_Shared o);
    opt "hugepages" c_bool (mem_Hugepages o);
    opt "hugepage_size" c_int64 (mem_HugepageSize o);
    opt "prefault" c_bool (mem_Prefault o);
    opt "zones" (c_list MemoryZoneConfig_codec) (mem_Zones o)]).

Definition MemoryConfig_Unmarshal : json -> res MemoryConfig := struct_from zero_MemoryConfig (fun o =>
    x0 ← get_req "size" c_int64 o; x1 ← get_opt "hotplug_size" c_int64 o;
    x2 ← get_opt "hotplugged_size" c_int64 o; x3 ← get_opt "mergeable" c_bool o;
    x4 ← get_opt "hotplug_method" c_string o; x5 ← get_opt "shared" c_bool o;
    x6 ← get_opt "hugepages" c_bool o; x7 ← get_opt "hugepage_size" c_int64 o;
    x8 ← get_opt "prefault" c_bool o; x9 ← get_opt "zones" (c_list MemoryZoneConfig_codec) o;
    Ok (mkMemoryConfig x0 x1 x2 x3 x4 x5 x6 x7 x8 x9)).

Definition MemoryConfig_ok (o : MemoryConfig) : Prop :=
  okc c_int64 (mem_Size o) /\
  ok_opt c_int64 (mem_HotplugSize o) /\
  ok_opt c_int64 (mem_HotpluggedSize o) /\
  ok_opt c_int64 (mem_HugepageSize o) /\
  ok_opt (c_list MemoryZoneConfig_codec) (mem_Zones o).

Definition MemoryConfig_codec : codec MemoryConfig := mkCodec MemoryConfig_MarshalJSON MemoryConfig_Unmarshal zero_MemoryConfig MemoryConfig_ok.

Record TokenBucket : Type := mkTokenBucket {
  tb_Size : Z;
  tb_OneTimeBurst : option Z;
  tb_RefillTime : Z;
}.

#[export] Instance eta_TokenBucket : Eta TokenBucket := fun r =>
  mkTokenBucket (tb_Size r) (tb_OneTimeBurst r) (tb_RefillTime r).

Definition zero_TokenBucket : TokenBucket := mkTokenBucket 0 None 0.

Definition NewTokenBucket (size : Z) (refillTime : Z) : TokenBucket :=
  mkTokenBucket size None refillTime.

Definition TokenBucket_MarshalJSON (o : TokenBucket) : json :=
  JObj (omit [
    req "size" c_int64 (tb_Size o);
    opt "one_time_burst" c_int64 (tb_OneTimeBurst o);
    req "refill_time" c_int64 (tb_RefillTime o)]).

Definition TokenBucket_Unmarshal : json -> res TokenBucket := struct_from zero_TokenBucket (fun o =>
    x0 ← get_req "size" c_int64 o; x1 ← get_opt "one_time_burst" c_int64 o;
    x2 ← get_req "refill_time" c_int64 o;
    Ok (mkTokenBucket x0 x1 x2)).

Definition TokenBucket_ok (o : TokenBucket) : Prop :=
  okc c_int64 (tb_Size o) /\
  ok_opt c_int64 (tb_OneTimeBurst o) /\
  okc c_int64 (tb_RefillTime o).

Definition TokenBucket_codec : codec TokenBucket := mkCodec TokenBucket_MarshalJSON TokenBucket_Unmarshal zero_TokenBucket TokenBucket_ok.

Record RateLimiterConfig : Type := mkRateLimiterConfig {
  rl_Bandwidth : option TokenBucket;
  rl_Ops : option TokenBucket;
}.

#[export] Instance eta_RateLimiterConfig : Eta RateLimiterConfig := fun r =>
  mkRateLimiterConfig (rl_Bandwidth r) (rl_Ops r).

Definition zero_RateLimiterConfig : RateLimiterConfig := mkRateLimiterConfig None None.

Definition NewRateLimiterConfig : RateLimiterConfig :=
  mkRateLimiterConfig None None.

Definition RateLimiterConfig_MarshalJSON (o : RateLimiterConfig) : json :=
  JObj (omit [
    opt "bandwidth" TokenBucket_codec (rl_Bandwidth o);
    opt "ops" TokenBucket_codec (rl_Ops o)]).

Definition RateLimiterConfig_Unmarshal : json -> res RateLimiterConfig := struct_from zero_RateLimiterConfig (fun o =>
    x0 ← get_opt "bandwidth" TokenBucket_codec o; x1 ← get_opt "ops" TokenBucket_codec o;
    Ok (mkRateLimiterConfig x0 x1)).

Definition RateLimiterConfig_ok (o : RateLimiterConfig) : Prop :=
  ok_opt TokenBucket_codec (rl_Bandwidth o) /\
  ok_opt TokenBucket_codec (rl_Ops o).

Definition RateLimiterConfig_codec : codec RateLimiterConfig := mkCodec RateLimiterConfig_MarshalJSON RateLimiterConfig_Unmarshal zero_RateLimiterConfig RateLimiterConfig_ok.

Record DiskConfig : Type := mkDiskConfig {
  disk_Path : string;
  disk_Readonly : option bool;
  disk_Direct : option bool;
  disk_Iommu : option bool;
  disk_NumQueues : option Z;
  disk_QueueSize : option Z;
  disk_VhostUser : option bool;
  disk_VhostSocket : option string;
  disk_PollQueue : option bool;
  disk_RateLimiterConfig : option RateLimiterConfig;
  disk_PciSegment : option Z;
  disk_Id : option string;
}.

#[export] Instance eta_DiskConfig : Eta DiskConfig := fun r =>
  mkDiskConfig (disk_Path r) (disk_Readonly r) (disk_Direct r) (disk_Iommu r) (disk_NumQueues r)
  (disk_QueueSize r) (disk_VhostUser r) (disk_VhostSocket r) (disk_PollQueue r) (disk_RateLimiterConfig r)
  (disk_PciSegment r) (disk_Id r).

Definition zero_DiskConfig : DiskConfig := mkDiskConfig "" None None None None None None None None None None None.

Definition NewDiskConfig (path : string) : DiskConfig :=
  mkDiskConfig path (Some false) (Some false) (Some false) (Some 1) (Some 128) (Some false) None (Some true)
  None None None.

Definition DiskConfig_MarshalJSON (o : DiskConfig) : json :=
  JObj (omit [
    req "path" c_string (disk_Path o);
    opt "readonly" c_bool (disk_Readonly o);
    opt "direct" c_bool (disk_Direct o);
    opt "iommu" c_bool (disk_Iommu o);
    opt "num_queues" c_int32 (disk_NumQueues o);
    opt "queue_size" c_int32 (disk_QueueSize o);
    opt "vhost_user" c_bool (disk_VhostUser o);
    opt "vhost_socket" c_string (disk_VhostSocket o);
    opt "poll_queue" c_bool (disk_PollQueue o);
    opt "rate_limiter_config" RateLimiterConfig_codec (disk_RateLimiterConfig o);
    opt "pci_segment" c_int32 (disk_PciSegment o);
    opt "id" c_string (disk_Id o)]).

Definition DiskConfig_Unmarshal : json -> res DiskConfig := struct_from zero_DiskConfig (fun o =>
    x0 ← get_req "path" c_string o; x1 ← get_opt "readonly" c_bool o; x2 ← get_opt "direct" c_bool o;
    x3 ← get_opt "iommu" c_bool o; x4 ← get_opt "num_queues" c_int32 o; x5 ← get_opt "queue_size" c_int32 o;
    x6 ← get_opt "vhost_user" c_bool o; x7 ← get_opt "vhost_socket" c_string o;
    x8 ← get_opt "poll_queue" c_bool o; x9 ← get_opt "rate_limiter_config" RateLimiterConfig_codec o;
    x10 ← get_opt "pci_segment" c_int32 o; x11 ← get_opt "id" c_string o;
    Ok (mkDiskConfig x0 x1 x2 x3 x4 x5 x6 x7 x8 x9 x10 x11)).

Definition DiskConfig_ok (o : DiskConfig) : Prop :=
  ok_opt c_int32 (disk_NumQueues o) /\
  ok_opt c_int32 (disk_QueueSize o) /\
  ok_opt RateLimiterConfig_codec (disk_RateLimiterConfig o) /\
  ok_opt c_int32 (disk_PciSegment o).

Definition DiskConfig_codec : codec DiskConfig := mkCodec DiskConfig_MarshalJSON DiskConfig_Unmarshal zero_DiskConfig DiskConfig_ok.

Record PmemConfig : Type := mkPmemConfig {
  pmem_File : string;
  pmem_Size : option Z;
  pmem_Iommu : option bool;
  pmem_Mergeable : option bool;
  pmem_DiscardWrites : option bool;
  pmem_PciSegment : option Z;
  pmem_Id : option string;
}.

#[export] Instance eta_PmemConfig : Eta PmemConfig := fun r =>
  mkPmemConfig (pmem_File r) (pmem_Size r) (pmem_Iommu r) (pmem_Mergeable r) (pmem_DiscardWrites r)
  (pmem_PciSegment r) (pmem_Id r).

Definition zero_PmemConfig : PmemConfig := mkPmemConfig "" None None None None None None.

Definition NewPmemConfig (file : string) : PmemConfig :=
  mkPmemConfig file None (Some false) (Some false) (Some false) None None.

Definition PmemConfig_MarshalJSON (o : PmemConfig) : json :=
  JObj (omit [
    req "file" c_string (pmem_File o);
    opt "size" c_int64 (pmem_Size o);
    opt "iommu" c_bool (pmem_Iommu o);
    opt "mergeable" c_bool (pmem_Mergeable o);
    opt "discard_writes" c_bool (pmem_DiscardWrites o);
    opt "pci_segment" c_int32 (pmem_PciSegment o);
    opt "id" c_string (pmem_Id o)]).

Definition PmemConfig_Unmarshal : json -> res PmemConfig := struct_from zero_PmemConfig (fun o =>
    x0 ← get_req "file" c_string o; x1 ← get_opt "size" c_int64 o; x2 ← get_opt "iommu" c_bool o;
    x3 ← get_opt "mergeable" c_bool o; x4 ← get_opt "discard_writes" c_bool o;
    x5 ← get_opt "pci_segment" c_int32 o; x6 ← get_opt "id" c_string o;
    Ok (mkPmemConfig x0 x1 x2 x3 x4 x5 x6)).

Definition PmemConfig_ok (o : PmemConfig) : Prop :=
  ok_opt c_int64 (pmem_Size o) /\
  ok_opt c_int32 (pmem_PciSegment o).

Definition PmemConfig_codec : codec PmemConfig := mkCodec PmemConfig_MarshalJSON PmemConfig_Unmarshal zero_PmemConfig PmemConfig_ok.

Record NetConfig : Type := mkNetConfig {
  net_Tap : option string;
  net_Ip : option string;
  net_Mask : option string;
  net_Mac : option string;
  net_Iommu : option bool;
  net_NumQueues : option Z;
  net_QueueSize : option Z;
  net_VhostUser : option bool;
  net_VhostSocket : option string;
  net_VhostMode : option string;
  net_Id : option string;
  net_PciSegment : option Z;
  net_RateLimiterConfig : option RateLimiterConfig;
}.

#[export] Instance eta_NetConfig : Eta NetConfig := fun r =>
  mkNetConfig (net_Tap r) (net_Ip r) (net_Mask r) (net_Mac r) (net_Iommu r) (net_NumQueues r) (net_QueueSize r)
  (net_VhostUser r) (net_VhostSocket r) (net_VhostMode r) (net_Id r) (net_PciSegment r)
  (net_RateLimiterConfig r).

Definition zero_NetConfig : NetConfig := mkNetConfig None None None None None None None None None None None None None.

Definition NewNetConfig : NetConfig :=
  mkNetConfig None (Some "192.168.249.1") (Some "255.255.255.0") None (Some false) (Some 2) (Some 256)
  (Some false) None (Some "Client") None None None.

Definition NetConfig_MarshalJSON (o : NetConfig) : json :=
  JObj (omit [
    opt "tap" c_string (net_Tap o);
    opt "ip" c_string (net_Ip o);
    opt "mask" c_string (net_Mask o);
    opt "mac" c_string (net_Mac o);
    opt "iommu" c_bool (net_Iommu o);
    opt "num_queues" c_int32 (net_NumQueues o);
    opt "queue_size" c_int32 (net_QueueSize o);
    opt "vhost_user" c_bool (net_VhostUser o);
    opt "vhost_socket" c_string (net_VhostSocket o);
    opt "vhost_mode" c_string (net_VhostMode o);
    opt "id" c_string (net_Id o);
    opt "pci_segment" c_int32 (net_PciSegment o);
    opt "rate_limiter_config" RateLimiterConfig_codec (net_RateLimiterConfig o)]).

Definition NetConfig_Unmarshal : json -> res NetConfig := struct_from zero_NetConfig (fun o =>
    x0 ← get_opt "tap" c_string o; x1 ← get_opt "ip" c_string o; x2 ← get_opt "mask" c_string o;
    x3 ← get_opt "mac" c_string o; x4 ← get_opt "iommu" c_bool o; x5 ← get_opt "num_queues" c_int32 o;
    x6 ← get_opt "queue_size" c_int32 o; x7 ← get_opt "vhost_user" c_bool o;
    x8 ← get_opt "vhost_socket" c_string o; x9 ← get_opt "vhost_mode" c_string o;
    x10 ← get_opt "id" c_string o; x11 ← get_opt "pci_segment" c_int32 o;
    x12 ← get_opt "rate_limiter_config" RateLimiterConfig_codec o;
    Ok (mkNetConfig x0 x1 x2 x3 x4 x5 x6 x7 x8 x9 x10 x11 x12)).

Definition NetConfig_ok (o : NetConfig) : Prop :=
  ok_opt c_int32 (net_NumQueues o) /\
  ok_opt c_int32 (net_QueueSize o) /\
  ok_opt c_int32 (net_PciSegment o) /\
  ok_opt RateLimiterConfig_codec (net_RateLimiterConfig o).

Definition NetConfig_codec : codec NetConfig := mkCodec NetConfig_MarshalJSON NetConfig_Unmarshal zero_NetConfig NetConfig_ok.

Record FsConfig : Type := mkFsConfig {
  fs_Tag : string;
  fs_Socket : string;
  fs_NumQueues : Z;
  fs_QueueSize : Z;
  fs_Dax : bool;
  fs_CacheSize : Z;
  fs_PciSegment : option Z;
  fs_Id : option string;
}.

#[export] Instance eta_FsConfig : Eta FsConfig := fun r =>
  mkFsConfig (fs_Tag r) (fs_Socket r) (fs_NumQueues r) (fs_QueueSize r) (fs_Dax r) (fs_CacheSize r)
  (fs_PciSegment r) (fs_Id r).

Definition zero_FsConfig : FsConfig := mkFsConfig "" "" 0 0 false 0 None None.

Definition NewFsConfig (tag : string) (socket : string) (numQueues : Z) (queueSize : Z) (dax : bool) (cacheSize : Z) : FsConfig :=
  mkFsConfig tag socket numQueues queueSize dax cacheSize None None.

Definition FsConfig_MarshalJSON (o : FsConfig) : json :=
  JObj (omit [
    req "tag" c_string (fs_Tag o);
    req "socket" c_string (fs_Socket o);
    req "num_queues" c_int32 (fs_NumQueues o);
    req "queue_size" c_int32 (fs_QueueSize o);
    req "dax" c_bool (fs_Dax o);
    req "cache_size" c_int64 (fs_CacheSize o);
    opt "pci_segment" c_int32 (fs_PciSegment o);
    opt "id" c_string (fs_Id o)]).

Definition FsConfig_Unmarshal : json -> res FsConfig := struct_from zero_FsConfig (fun o =>
    x0 ← get_req "tag" c_string o; x1 ← get_req "socket" c_string o; x2 ← get_req "num_queues" c_int32 o;
    x3 ← get_req "queue_size" c_int32 o; x4 ← get_req "dax" c_bool o; x5 ← get_req "cache_size" c_int64 o;
    x6 ← get_opt "pci_segment" c_int32 o; x7 ← get_opt "id" c_string o;
    Ok (mkFsConfig x0 x1 x2 x3 x4 x5 x6 x7)).

Definition FsConfig_ok (o : FsConfig) : Prop :=
  okc c_int32 (fs_NumQueues o) /\
  okc c_int32 (fs_QueueSize o) /\
  okc c_int64 (fs_CacheSize o) /\
  ok_opt c_int32 (fs_PciSegment o).

Definition FsConfig_codec : codec FsConfig := mkCodec FsConfig_MarshalJSON FsConfig_Unmarshal zero_FsConfig FsConfig_ok.

Record VsockConfig : Type := mkVsockConfig {
  vsock_Cid : Z;
  vsock_Socket : string;
  vsock_Iommu : option bool;
  vsock_PciSegment : option Z;
  vsock_Id : option string;
}.

#[export] Instance eta_VsockConfig : Eta VsockConfig := fun r =>
  mkVsockConfig (vsock_Cid r) (vsock_Socket r) (vsock_Iommu r) (vsock_PciSegment r) (vsock_Id r).

Definition zero_VsockConfig : VsockConfig := mkVsockConfig 0 "" None None None.

Definition NewVsockConfig (cid : Z) (socket : string) : VsockConfig :=
  mkVsockConfig cid socket (Some false) None None.

Definition VsockConfig_MarshalJSON (o : VsockConfig) : json :=
  JObj (omit [
    req "cid" c_int64 (vsock_Cid o);
    req "socket" c_string (vsock_Socket o);
    opt "iommu" c_bool (vsock_Iommu o);
    opt "pci_segment" c_int32 (vsock_PciSegment o);
    opt "id" c_string (vsock_Id o)]).

Definition VsockConfig_Unmarshal : json -> res VsockConfig := struct_from zero_VsockConfig (fun o =>
    x0 ← get_req "cid" c_int64 o; x1 ← get_req "socket" c_string o; x2 ← get_opt "iommu" c_bool o;
    x3 ← get_opt "pci_segment" c_int32 o; x4 ← get_opt "id" c_string o;
    Ok (mkVsockConfig x0 x1 x2 x3 x4)).

Definition VsockConfig_ok (o : VsockConfig) : Prop :=
  okc c_int64 (vsock_Cid o) /\
  ok_opt c_int32 (vsock_PciSegment o).

Definition VsockConfig_codec : codec VsockConfig := mkCodec VsockConfig_MarshalJSON VsockConfig_Unmarshal zero_VsockConfig VsockConfig_ok.

Record SgxEpcConfig : Type := mkSgxEpcConfig {
  sgx_Id : string;
  sgx_Size : Z;
  sgx_Prefault : option bool;
}.

#[export] Instance eta_SgxEpcConfig : Eta SgxEpcConfig := fun r =>
  mkSgxEpcConfig (sgx_Id r) (sgx_Size r) (sgx_Prefault r).

Definition zero_SgxEpcConfig : SgxEpcConfig := mkSgxEpcConfig "" 0 None.

Definition NewSgxEpcConfig (id : string) (size : Z) : SgxEpcConfig :=
  mkSgxEpcConfig id size (Some false).

Definition SgxEpcConfig_MarshalJSON (o : SgxEpcConfig) : json :=
  JObj (omit [
    req "id" c_string (sgx_Id o);
    req "size" c_int64 (sgx_Size o);
    opt "prefault" c_bool (sgx_Prefault o)]).

Definition SgxEpcConfig_Unmarshal : json -> res SgxEpcConfig := struct_from zero_SgxEpcConfig (fun o =>
    x0 ← get_req "id" c_string o; x1 ← get_req "size" c_int64 o; x2 ← get_opt "prefault" c_bool o;
    Ok (mkSgxEpcConfig x0 x1 x2)).

Definition SgxEpcConfig_ok (o : SgxEpcConfig) : Prop :=
  okc c_int64 (sgx_Size o).

Definition SgxEpcConfig_codec : codec SgxEpcConfig := mkCodec SgxEpcConfig_MarshalJSON SgxEpcConfig_Unmarshal zero_SgxEpcConfig SgxEpcConfig_ok.

Record BalloonConfig : Type := mkBalloonConfig {
  bal_Size : Z;
  bal_DeflateOnOom : option bool;
  bal_FreePageReporting : option bool;
}.

#[export] Instance eta_BalloonConfig : Eta BalloonConfig := fun r =>
  mkBalloonConfig (bal_Size r) (bal_DeflateOnOom r) (bal_FreePageReporting r).

Definition zero_BalloonConfig : BalloonConfig := mkBalloonConfig 0 None None.

Definition NewBalloonConfig (size : Z) : BalloonConfig :=
  mkBalloonConfig size (Some false) (Some false).

Definition BalloonConfig_MarshalJSON (o : BalloonConfig) : json :=
  JObj (omit [
    req "size" c_int64 (bal_Size o);
    opt "deflate_on_oom" c_bool (bal_DeflateOnOom o);
    opt "free_page_reporting" c_bool (bal_FreePageReporting o)]).

Definition BalloonConfig_Unmarshal : json -> res BalloonConfig := struct_from zero_BalloonConfig (fun o =>
    x0 ← get_req "size" c_int64 o; x1 ← get_opt "deflate_on_oom" c_bool o;
    x2 ← get_opt "free_page_reporting" c_bool o;
    Ok (mkBalloonConfig x0 x1 x2)).

Definition BalloonConfig_ok (o : BalloonConfig) : Prop :=
  okc c_int64 (bal_Size o).

Definition BalloonConfig_codec : codec BalloonConfig := mkCodec BalloonConfig_MarshalJSON BalloonConfig_Unmarshal zero_BalloonConfig BalloonConfig_ok.

Record DeviceConfig : Type := mkDeviceConfig {
  dev_Path : string;
  dev_Iommu : option bool;
  dev_PciSegment : option Z;
  dev_Id : option string;
}.

#[export] Instance eta_DeviceConfig : Eta DeviceConfig := fun r =>
  mkDeviceConfig (dev_Path r) (dev_Iommu r) (dev_PciSegment r) (dev_Id r).

Definition zero_DeviceConfig : DeviceConfig := mkDeviceConfig "" None None None.

Definition NewDeviceConfig (path : string) : DeviceConfig :=
  mkDeviceConfig path (Some false) None None.

Definition DeviceConfig_MarshalJSON (o : DeviceConfig) : json :=
  JObj (omit [
    req "path" c_string (dev_Path o);
    opt "iommu" c_bool (dev_Iommu o);
    opt "pci_segment" c_int32 (dev_PciSegment o);
    opt "id" c_string (dev_Id o)]).

Definition DeviceConfig_Unmarshal : json -> res DeviceConfig := struct_from zero_DeviceConfig (fun o =>
    x0 ← get_req "path" c_string o; x1 ← get_opt "iommu" c_bool o; x2 ← get_opt "pci_segment" c_int32 o;
    x3 ← get_opt "id" c_string o;
    Ok (mkDeviceConfig x0 x1 x2 x3)).

Definition DeviceConfig_ok (o : DeviceConfig) : Prop :=
  ok_opt c_int32 (dev_PciSegment o).

Definition DeviceConfig_codec : codec DeviceConfig := mkCodec DeviceConfig_MarshalJSON DeviceConfig_Unmarshal zero_DeviceConfig DeviceConfig_ok.

Record NumaDistance : Type := mkNumaDistance {
  nd_Destination : Z;
  nd_Distance : Z;
}.

#[export] Instance eta_NumaDistance : Eta NumaDistance := fun r =>
  mkNumaDistance (nd_Destination r) (nd_Distance r).

Definition zero_NumaDistance : NumaDistance := mkNumaDistance 0 0.

Definition NewNumaDistance (destination : Z) (distance : Z) : NumaDistance :=
  mkNumaDistance destination distance.

Definition NumaDistance_MarshalJSON (o : NumaDistance) : json :=
  JObj (omit [
    req "destination" c_int32 (nd_Destination o);
    req "distance" c_int32 (nd_Distance o)]).

Definition NumaDistance_Unmarshal : json -> res NumaDistance := struct_from zero_NumaDistance (fun o =>
    x0 ← get_req "destination" c_int32 o; x1 ← get_req "distance" c_int32 o;
    Ok (mkNumaDistance x0 x1)).

Definition NumaDistance_ok (o : NumaDistance) : Prop :=
  okc c_int32 (nd_Destination o) /\
  okc c_int32 (nd_Distance o).

Definition NumaDistance_codec : codec NumaDistance := mkCodec NumaDistance_MarshalJSON NumaDistance_Unmarshal zero_NumaDistance NumaDistance_ok.

Record NumaConfig : Type := mkNumaConfig {
  numa_GuestNumaId : Z;
  numa_Cpus : option (list Z);
  numa_Distances : option (list NumaDistance);
  numa_MemoryZones : option (list string);
  numa_SgxEpcSections : option (list string);
}.

#[export] Instance eta_NumaConfig : Eta NumaConfig := fun r =>
  mkNumaConfig (numa_GuestNumaId r) (numa_Cpus r) (numa_Distances r) (numa_MemoryZones r)
  (numa_SgxEpcSections r).

Definition zero_NumaConfig : NumaConfig := mkNumaConfig 0 None None None None.

Definition NewNumaConfig (guestNumaId : Z) : NumaConfig :=
  mkNumaConfig guestNumaId None None None None.

Definition NumaConfig_MarshalJSON (o : NumaConfig) : json :=
  JObj (omit [
    req "guest_numa_id" c_int32 (numa_GuestNumaId o);
    opt "cpus" (c_list c_int32) (numa_Cpus o);
    opt "distances" (c_list NumaDistance_codec) (numa_Distances o);
    opt "memory_zones" (c_list c_string) (numa_MemoryZones o);
    opt "sgx_epc_sections" (c_list c_string) (numa_SgxEpcSections o)]).

Definition NumaConfig_Unmarshal : json -> res NumaConfig := struct_from zero_NumaConfig (fun o =>
    x0 ← get_req "guest_numa_id" c_int32 o; x1 ← get_opt "cpus" (c_list c_int32) o;
    x2 ← get_opt "distances" (c_list NumaDistance_codec) o; x3 ← get_opt "memory_zones" (c_list c_string) o;
    x4 ← get_opt "sgx_epc_sections" (c_list c_string) o;
    Ok (mkNumaConfig x0 x1 x2 x3 x4)).

Definition NumaConfig_ok (o : NumaConfig) : Prop :=
  okc c_int32 (numa_GuestNumaId o) /\
  ok_opt (c_list c_int32) (numa_Cpus o) /\
  ok_opt (c_list NumaDistance_codec) (numa_Distances o) /\
  ok_opt (c_list c_string) (numa_MemoryZones o) /\
  ok_opt (c_list c_string) (numa_SgxEpcSections o).

Definition NumaConfig_codec : codec NumaConfig := mkCodec NumaConfig_MarshalJSON NumaConfig_Unmarshal zero_NumaConfig NumaConfig_ok.

Record PlatformConfig : Type := mkPlatformConfig {
  pl_NumPciSegments : option Z;
  pl_IommuSegments : option (list Z);
}.

#[export] Instance eta_PlatformConfig : Eta PlatformConfig := fun r =>
  mkPlatformConfig (pl_NumPciSegments r) (pl_IommuSegments r).

Definition zero_PlatformConfig : PlatformConfig := mkPlatformConfig None None.

Definition NewPlatformConfig : PlatformConfig :=
  mkPlatformConfig None None.

Definition PlatformConfig_MarshalJSON (o : PlatformConfig) : json :=
  JObj (omit [
    opt "num_pci_segments" c_int32 (pl_NumPciSegments o);
    opt "iommu_segments" (c_list c_int32) (pl_IommuSegments o)]).

Definition PlatformConfig_Unmarshal : json -> res PlatformConfig := struct_from zero_PlatformConfig (fun o =>
    x0 ← get_opt "num_pci_segments" c_int32 o; x1 ← get_opt "iommu_segments" (c_list c_int32) o;
    Ok (mkPlatformConfig x0 x1)).

Definition PlatformConfig_ok (o : PlatformConfig) : Prop :=
  ok_opt c_int32 (pl_NumPciSegments o) /\
  ok_opt (c_list c_int32) (pl_IommuSegments o).

Definition PlatformConfig_codec : codec PlatformConfig := mkCodec PlatformConfig_MarshalJSON PlatformConfig_Unmarshal zero_PlatformConfig PlatformConfig_ok.

Record VmConfig : Type := mkVmConfig {
  vm_Cpus : option CpusConfig;
  vm_Memory : option MemoryConfig;
  vm_Kernel : KernelConfig;
  vm_Initramfs : option (option InitramfsConfig);
  vm_Cmdline : option CmdLineConfig;
  vm_Disks : option (list DiskConfig);
  vm_Net : option (list NetConfig);
  vm_Rng : option RngConfig;
  vm_Balloon : option BalloonConfig;
  vm_Fs : option (list FsConfig);
  vm_Pmem : option (list PmemConfig);
  vm_Serial : option ConsoleConfig;
  vm_Console : option ConsoleConfig;
  vm_Devices : option (list DeviceConfig);
  vm_Vsock : option VsockConfig;
  vm_SgxEpc : option (list SgxEpcConfig);
  vm_Tdx : option TdxConfig;
  vm_Numa : option (list NumaConfig);
  vm_Iommu : option bool;
  vm_Watchdog : option bool;
  vm_Platform : option PlatformConfig;
}.

#[export] Instance eta_VmConfig : Eta VmConfig := fun r =>
  mkVmConfig (vm_Cpus r) (vm_Memory r) (vm_Kernel r) (vm_Initramfs r) (vm_Cmdline r) (vm_Disks r) (vm_Net r)
  (vm_Rng r) (vm_Balloon r) (vm_Fs r) (vm_Pmem r) (vm_Serial r) (vm_Console r) (vm_Devices r) (vm_Vsock r)
  (vm_SgxEpc r) (vm_Tdx r) (vm_Numa r) (vm_Iommu r) (vm_Watchdog r) (vm_Platform r).

Definition zero_VmConfig : VmConfig := mkVmConfig None None zero_KernelConfig None None None None None None None None None None None None None None None None None None.

Definition NewVmConfig (kernel : KernelConfig) : VmConfig :=
  mkVmConfig None None kernel None None None None None None None None None None None None None None None
  (Some false) (Some false) None.

Definition VmConfig_MarshalJSON (o : VmConfig) : json :=
  JObj (omit [
    opt "cpus" CpusConfig_codec (vm_Cpus o);
    opt "memory" MemoryConfig_codec (vm_Memory o);
    req "kernel" KernelConfig_codec (vm_Kernel o);
    nullable "initramfs" InitramfsConfig_codec (vm_Initramfs o);
    opt "cmdline" CmdLineConfig_codec (vm_Cmdline o);
    opt "disks" (c_list DiskConfig_codec) (vm_Disks o);
    opt "net" (c_list NetConfig_codec) (vm_Net o);
    opt "rng" RngConfig_codec (vm_Rng o);
    opt "balloon" BalloonConfig_codec (vm_Balloon o);
    opt "fs" (c_list FsConfig_codec) (vm_Fs o);
    opt "pmem" (c_list PmemConfig_codec) (vm_Pmem o);
    opt "serial" ConsoleConfig_codec (vm_Serial o);
    opt "console" ConsoleConfig_codec (vm_Console o);
    opt "devices" (c_list DeviceConfig_codec) (vm_Devices o);
    opt "vsock" VsockConfig_codec (vm_Vsock o);
    opt "sgx_epc" (c_list SgxEpcConfig_codec) (vm_SgxEpc o);
    opt "tdx" TdxConfig_codec (vm_Tdx o);
    opt "numa" (c_list NumaConfig_codec) (vm_Numa o);
    opt "iommu" c_bool (vm_Iommu o);
    opt "watchdog" c_bool (vm_Watchdog o);
    opt "platform" PlatformConfig_codec (vm_Platform o)]).

Definition VmConfig_Unmarshal : json -> res VmConfig := struct_from zero_VmConfig (fun o =>
    x0 ← get_opt "cpus" CpusConfig_codec o; x1 ← get_opt "memory" MemoryConfig_codec o;
    x2 ← get_req "kernel" KernelConfig_codec o; x3 ← get_nullable "initramfs" InitramfsConfig_codec o;
    x4 ← get_opt "cmdline" CmdLineConfig_codec o; x5 ← get_opt "disks" (c_list DiskConfig_codec) o;
    x6 ← get_opt "net" (c_list NetConfig_codec) o; x7 ← get_opt "rng" RngConfig_codec o;
    x8 ← get_opt "balloon" BalloonConfig_codec o; x9 ← get_opt "fs" (c_list FsConfig_codec) o;
    x10 ← get_opt "pmem" (c_list PmemConfig_codec) o; x11 ← get_opt "serial" ConsoleConfig_codec o;
    x12 ← get_opt "console" ConsoleConfig_codec o; x13 ← get_opt "devices" (c_list DeviceConfig_codec) o;
    x14 ← get_opt "vsock" VsockConfig_codec o; x15 ← get_opt "sgx_epc" (c_list SgxEpcConfig_codec) o;
    x16 ← get_opt "tdx" TdxConfig_codec o; x17 ← get_opt "numa" (c_list NumaConfig_codec) o;
    x18 ← get_opt "iommu" c_bool o; x19 ← get_opt "watchdog" c_bool o;
    x20 ← get_opt "platform" PlatformConfig_codec o;
    Ok (mkVmConfig x0 x1 x2 x3 x4 x5 x6 x7 x8 x9 x10 x11 x12 x13 x14 x15 x16 x17 x18 x19 x20)).

Definition VmConfig_ok (o : VmConfig) : Prop :=
  ok_opt CpusConfig_codec (vm_Cpus o) /\
  ok_opt MemoryConfig_codec (vm_Memory o) /\
  okc KernelConfig_codec (vm_Kernel o) /\
  ok_nullable InitramfsConfig_codec (vm_Initramfs o) /\
  ok_opt CmdLineConfig_codec (vm_Cmdline o) /\
  ok_opt (c_list DiskConfig_codec) (vm_Disks o) /\
  ok_opt (c_list NetConfig_codec) (vm_Net o) /\
  ok_opt RngConfig_codec (vm_Rng o) /\
  ok_opt BalloonConfig_codec (vm_Balloon o) /\
  ok_opt (c_list FsConfig_codec) (vm_Fs o) /\
  ok_opt (c_list PmemConfig_codec) (vm_Pmem o) /\
  ok_opt ConsoleConfig_codec (vm_Serial o) /\
  ok_opt ConsoleConfig_codec (vm_Console o) /\
  ok_opt (c_list DeviceConfig_codec) (vm_Devices o) /\
  ok_opt VsockConfig_codec (vm_Vsock o) /\
  ok_opt (c_list SgxEpcConfig_codec) (vm_SgxEpc o) /\
  ok_opt TdxConfig_codec (vm_Tdx o) /\
  ok_opt (c_list NumaConfig_codec) (vm_Numa o) /\
  ok_opt PlatformConfig_codec (vm_Platform o).

Definition VmConfig_codec : codec VmConfig := mkCodec VmConfig_MarshalJSON VmConfig_Unmarshal zero_VmConfig VmConfig_ok.

Record PciDeviceInfo : Type := mkPciDeviceInfo {
  pci_Id : string;
  pci_Bdf : string;
}.

#[export] Instance eta_PciDeviceInfo : Eta PciDeviceInfo := fun r =>
  mkPciDeviceInfo (pci_Id r) (pci_Bdf r).

Definition zero_PciDeviceInfo : PciDeviceInfo := mkPciDeviceInfo "" "".

Definition NewPciDeviceInfo (id : string) (bdf : string) : PciDeviceInfo :=
  mkPciDeviceInfo id bdf.

Definition PciDeviceInfo_MarshalJSON (o : PciDeviceInfo) : json :=
  JObj (omit [
    req "id" c_string (pci_Id o);
    req "bdf" c_string (pci_Bdf o)]).

Definition PciDeviceInfo_Unmarshal : json -> res PciDeviceInfo := struct_from zero_PciDeviceInfo (fun o =>
    x0 ← get_req "id" c_string o; x1 ← get_req "bdf" c_string o;
    Ok (mkPciDeviceInfo x0 x1)).

Definition PciDeviceInfo_ok (o : PciDeviceInfo) : Prop :=
  True.

Definition PciDeviceInfo_codec : codec PciDeviceInfo := mkCodec PciDeviceInfo_MarshalJSON PciDeviceInfo_Unmarshal zero_PciDeviceInfo PciDeviceInfo_ok.

Record DeviceNode : Type := mkDeviceNode {
  node_Id : option string;
  node_Resources : option (list object);
  node_Children : option (list string);
  node_PciBdf : option string;
}.

#[export] Instance eta_DeviceNode : Eta DeviceNode := fun r =>
  mkDeviceNode (node_Id r) (node_Resources r) (node_Children r) (node_PciBdf r).

Definition zero_DeviceNode : DeviceNode := mkDeviceNode None None None None.

Definition NewDeviceNode : DeviceNode :=
  mkDeviceNode None None None None.

Definition DeviceNode_MarshalJSON (o : DeviceNode) : json :=
  JObj (omit [
    opt "id" c_string (node_Id o);
    opt "resources" (c_list c_object) (node_Resources o);
    opt "children" (c_list c_string) (node_Children o);
    opt "pci_bdf" c_string (node_PciBdf o)]).

Definition DeviceNode_Unmarshal : json -> res DeviceNode := struct_from zero_DeviceNode (fun o =>
    x0 ← get_opt "id" c_string o; x1 ← get_opt "resources" (c_list c_object) o;
    x2 ← get_opt "children" (c_list c_string) o; x3 ← get_opt "pci_bdf" c_string o;
    Ok (mkDeviceNode x0 x1 x2 x3)).

Definition DeviceNode_ok (o : DeviceNode) : Prop :=
  ok_opt (c_list c_object) (node_Resources o) /\
  ok_opt (c_list c_string) (node_Children o).

Definition DeviceNode_codec : codec DeviceNode := mkCodec DeviceNode_MarshalJSON DeviceNode_Unmarshal zero_DeviceNode DeviceNode_ok.

Record VmInfo : Type := mkVmInfo {
  info_Config : VmConfig;
  info_State : string;
  info_MemoryActualSize : option Z;
  info_DeviceTree : option (list (string * DeviceNode));
}.

#[export] Instance eta_VmInfo : Eta VmInfo := fun r =>
  mkVmInfo (info_Config r) (info_State r) (info_MemoryActualSize r) (info_DeviceTree r).

Definition zero_VmInfo : VmInfo := mkVmInfo zero_VmConfig "" None None.

Definition NewVmInfo (config : VmConfig) (state : string) : VmInfo :=
  mkVmInfo config state None None.

Definition VmInfo_MarshalJSON (o : VmInfo) : json :=
  JObj (omit [
    req "config" VmConfig_codec (info_Config o);
    req "state" c_string (info_State o);
    opt "memory_actual_size" c_int64 (info_MemoryActualSize o);
    opt "device_tree" (c_map DeviceNode_codec) (info_DeviceTree o)]).

Definition VmInfo_Unmarshal : json -> res VmInfo := struct_from zero_VmInfo (fun o =>
    x0 ← get_req "config" VmConfig_codec o; x1 ← get_req "state" c_string o;
    x2 ← get_opt "memory_actual_size" c_int64 o; x3 ← get_opt "device_tree" (c_map DeviceNode_codec) o;
    Ok (mkVmInfo x0 x1 x2 x3)).

Definition VmInfo_ok (o : VmInfo) : Prop :=
  okc VmConfig_codec (info_Config o) /\
  ok_opt c_int64 (info_MemoryActualSize o) /\
  ok_opt (c_map DeviceNode_codec) (info_DeviceTree o).

Definition VmInfo_codec : codec VmInfo := mkCodec VmInfo_MarshalJSON VmInfo_Unmarshal zero_VmInfo VmInfo_ok.

Record VmmPingResponse : Type := mkVmmPingResponse {
  ping_Version : string;
}.

#[export] Instance eta_VmmPingResponse : Eta VmmPingResponse := fun r =>
  mkVmmPingResponse (ping_Version r).

Definition zero_VmmPingResponse : VmmPingResponse := mkVmmPingResponse "".

Definition NewVmmPingResponse (version : string) : VmmPingResponse :=
  mkVmmPingResponse version.

Definition VmmPingResponse_MarshalJSON (o : VmmPingResponse) : json :=
  JObj (omit [
    req "version" c_string (ping_Version o)]).

Definition VmmPingResponse_Unmarshal : json -> res VmmPingResponse := struct_from zero_VmmPingResponse (fun o =>
    x0 ← get_req "version" c_string o;
    Ok (mkVmmPingResponse x0)).

Definition VmmPingResponse_ok (o : VmmPingResponse) : Prop :=
  True.

Definition VmmPingResponse_codec : codec VmmPingResponse := mkCodec VmmPingResponse_MarshalJSON VmmPingResponse_Unmarshal zero_VmmPingResponse VmmPingResponse_ok.

Record VmResize : Type := mkVmResize {
  rs_DesiredVcpus : option Z;
  rs_DesiredRam : option Z;
  rs_DesiredBalloon : option Z;
}.

#[export] Instance eta_VmResize : Eta VmResize := fun r =>
  mkVmResize (rs_DesiredVcpus r) (rs_DesiredRam r) (rs_DesiredBalloon r).

Definition zero_VmResize : VmResize := mkVmResize None None None.

Definition NewVmResize : VmResize :=
  mkVmResize None None None.

Definition VmResize_MarshalJSON (o : VmResize) : json :=
  JObj (omit [
    opt "desired_vcpus" c_int32 (rs_DesiredVcpus o);
    opt "desired_ram" c_int64 (rs_DesiredRam o);
    opt "desired_balloon" c_int64 (rs_DesiredBalloon o)]).

Definition VmResize_Unmarshal : json -> res VmResize := struct_from zero_VmResize (fun o =>
    x0 ← get_opt "desired_vcpus" c_int32 o; x1 ← get_opt "desired_ram" c_int64 o;
    x2 ← get_opt "desired_balloon" c_int64 o;
    Ok (mkVmResize x0 x1 x2)).

Definition VmResize_ok (o : VmResize) : Prop :=
  ok_opt c_int32 (rs_DesiredVcpus o) /\
  ok_opt c_int64 (rs_DesiredRam o) /\
  ok_opt c_int64 (rs_DesiredBalloon o).

Definition VmResize_codec : codec VmResize := mkCodec VmResize_MarshalJSON VmResize_Unmarshal zero_VmResize VmResize_ok.

Record VmResizeZone : Type := mkVmResizeZone {
  rz_Id : option string;
  rz_DesiredRam : option Z;
}.

#[export] Instance eta_VmResizeZone : Eta VmResizeZone := fun r =>
  mkVmResizeZone (rz_Id r) (rz_DesiredRam r).

Definition zero_VmResizeZone : VmResizeZone := mkVmResizeZone None None.

Definition NewVmResizeZone : VmResizeZone :=
  mkVmResizeZone None None.

Definition VmResizeZone_MarshalJSON (o : VmResizeZone) : json :=
  JObj (omit [
    opt "id" c_string (rz_Id o);
    opt "desired_ram" c_int64 (rz_DesiredRam o)]).

Definition VmResizeZone_Unmarshal : json -> res VmResizeZone := struct_from zero_VmResizeZone (fun o =>
    x0 ← get_opt "id" c_string o; x1 ← get_opt "desired_ram" c_int64 o;
    Ok (mkVmResizeZone x0 x1)).

Definition VmResizeZone_ok (o : VmResizeZone) : Prop :=
  ok_opt c_int64 (rz_DesiredRam o).

Definition VmResizeZone_codec : codec VmResizeZone := mkCodec VmResizeZone_MarshalJSON VmResizeZone_Unmarshal zero_VmResizeZone VmResizeZone_ok.

Record VmAddDevice : Type := mkVmAddDevice {
  ad_Path : option string;
  ad_Iommu : option bool;
  ad_Id : option string;
}.

#[export] Instance eta_VmAddDevice : Eta VmAddDevice := fun r =>
  mkVmAddDevice (ad_Path r) (ad_Iommu r) (ad_Id r).

Definition zero_VmAddDevice : VmAddDevice := mkVmAddDevice None None None.

Definition NewVmAddDevice : VmAddDevice :=
  mkVmAddDevice None (Some false) None.

Definition VmAddDevice_MarshalJSON (o : VmAddDevice) : json :=
  JObj (omit [
    opt "path" c_string (ad_Path o);
    opt "iommu" c_bool (ad_Iommu o);
    opt "id" c_string (ad_Id o)]).

Definition VmAddDevice_Unmarshal : json -> res VmAddDevice := struct_from zero_VmAddDevice (fun o =>
    x0 ← get_opt "path" c_string o; x1 ← get_opt "iommu" c_bool o; x2 ← get_opt "id" c_string o;
    Ok (mkVmAddDevice x0 x1 x2)).

Definition VmAddDevice_ok (o : VmAddDevice) : Prop :=
  True.

Definition VmAddDevice_codec : codec VmAddDevice := mkCodec VmAddDevice_MarshalJSON VmAddDevice_Unmarshal zero_VmAddDevice VmAddDevice_ok.

Record VmRemoveDevice : Type := mkVmRemoveDevice {
  rd_Id : option string;
}.

#[export] Instance eta_VmRemoveDevice : Eta VmRemoveDevice := fun r =>
  mkVmRemoveDevice (rd_Id r).

Definition zero_VmRemoveDevice : VmRemoveDevice := mkVmRemoveDevice None.

Definition NewVmRemoveDevice : VmRemoveDevice :=
  mkVmRemoveDevice None.

Definition VmRemoveDevice_MarshalJSON (o : VmRemoveDevice) : json :=
  JObj (omit [
    opt "id" c_string (rd_Id o)]).

Definition VmRemoveDevice_Unmarshal : json -> res VmRemoveDevice := struct_from zero_VmRemoveDevice (fun o =>
    x0 ← get_opt "id" c_string o;
    Ok (mkVmRemoveDevice x0)).

Definition VmRemoveDevice_ok (o : VmRemoveDevice) : Prop :=
  True.

Definition VmRemoveDevice_codec : codec VmRemoveDevice := mkCodec VmRemoveDevice_MarshalJSON VmRemoveDevice_Unmarshal zero_VmRemoveDevice VmRemoveDevice_ok.

Record VmSnapshotConfig : Type := mkVmSnapshotConfig {
  snap_DestinationUrl : option string;
}.

#[export] Instance eta_VmSnapshotConfig : Eta VmSnapshotConfig := fun r =>
  mkVmSnapshotConfig (snap_DestinationUrl r).

Definition zero_VmSnapshotConfig : VmSnapshotConfig := mkVmSnapshotConfig None.

Definition NewVmSnapshotConfig : VmSnapshotConfig :=
  mkVmSnapshotConfig None.

Definition VmSnapshotConfig_MarshalJSON (o : VmSnapshotConfig) : json :=
  JObj (omit [
    opt "destination_url" c_string (snap_DestinationUrl o)]).

Definition VmSnapshotConfig_Unmarshal : json -> res VmSnapshotConfig := struct_from zero_VmSnapshotConfig (fun o =>
    x0 ← get_opt "destination_url" c_string o;
    Ok (mkVmSnapshotConfig x0)).

Definition VmSnapshotConfig_ok (o : VmSnapshotConfig) : Prop :=
  True.

Definition VmSnapshotConfig_codec : codec VmSnapshotConfig := mkCodec VmSnapshotConfig_MarshalJSON VmSnapshotConfig_Unmarshal zero_VmSnapshotConfig VmSnapshotConfig_ok.

Record RestoreConfig : Type := mkRestoreConfig {
  rc_SourceUrl : string;
  rc_Prefault : option bool;
}.

#[export] Instance eta_RestoreConfig : Eta RestoreConfig := fun r =>
  mkRestoreConfig (rc_SourceUrl r) (rc_Prefault r).

Definition zero_RestoreConfig : RestoreConfig := mkRestoreConfig "" None.

Definition NewRestoreConfig (sourceUrl : string) : RestoreConfig :=
  mkRestoreConfig sourceUrl None.

Definition RestoreConfig_MarshalJSON (o : RestoreConfig) : json :=
  JObj (omit [
    req "source_url" c_string (rc_SourceUrl o);
    opt "prefault" c_bool (rc_Prefault o)]).

Definition RestoreConfig_Unmarshal : json -> res RestoreConfig := struct_from zero_RestoreConfig (fun o =>
    x0 ← get_req "source_url" c_string o; x1 ← get_opt "prefault" c_bool o;
    Ok (mkRestoreConfig x0 x1)).

Definition RestoreConfig_ok (o : RestoreConfig) : Prop :=
  True.

Definition RestoreConfig_codec : codec RestoreConfig := mkCodec RestoreConfig_MarshalJSON RestoreConfig_Unmarshal zero_RestoreConfig RestoreConfig_ok.

Record ReceiveMigrationData : Type := mkReceiveMigrationData {
  rm_ReceiverUrl : string;
}.

#[export] Instance eta_ReceiveMigrationData : Eta ReceiveMigrationData := fun r =>
  mkReceiveMigrationData (rm_ReceiverUrl r).

Definition zero_ReceiveMigrationData : ReceiveMigrationData := mkReceiveMigrationData "".

Definition NewReceiveMigrationData (receiverUrl : string) : ReceiveMigrationData :=
  mkReceiveMigrationData receiverUrl.

Definition ReceiveMigrationData_MarshalJSON (o : ReceiveMigrationData) : json :=
  JObj (omit [
    req "receiver_url" c_string (rm_ReceiverUrl o)]).

Definition ReceiveMigrationData_Unmarshal : json -> res ReceiveMigrationData := struct_from zero_ReceiveMigrationData (fun o =>
    x0 ← get_req "receiver_url" c_string o;
    Ok (mkReceiveMigrationData x0)).

Definition ReceiveMigrationData_ok (o : ReceiveMigrationData) : Prop :=
  True.

Definition ReceiveMigrationData_codec : codec ReceiveMigrationData := mkCodec ReceiveMigrationData_MarshalJSON ReceiveMigrationData_Unmarshal zero_ReceiveMigrationData ReceiveMigrationData_ok.

Record SendMigrationData : Type := mkSendMigrationData {
  sm_DestinationUrl : string;
  sm_Local : option bool;
}.

#[export] Instance eta_SendMigrationData : Eta SendMigrationData := fun r =>
  mkSendMigrationData (sm_DestinationUrl r) (sm_Local r).

Definition zero_SendMigrationData : SendMigrationData := mkSendMigrationData "" None.

Definition NewSendMigrationData (destinationUrl : string) : SendMigrationData :=
  mkSendMigrationData destinationUrl None.

Definition SendMigrationData_MarshalJSON (o : SendMigrationData) : json :=
  JObj (omit [
    req "destination_url" c_string (sm_DestinationUrl o);
    opt "local" c_bool (sm_Local o)]).

Definition SendMigrationData_Unmarshal : json -> res SendMigrationData := struct_from zero_SendMigrationData (fun o =>
    x0 ← get_req "destination_url" c_string o; x1 ← get_opt "local" c_bool o;
    Ok (mkSendMigrationData x0 x1)).

Definition SendMigrationData_ok (o : SendMigrationData) : Prop :=
  True.

Definition SendMigrationData_codec : codec SendMigrationData := mkCodec SendMigrationData_MarshalJSON SendMigrationData_Unmarshal zero_SendMigrationData SendMigrationData_ok.

(** ** What is written reads as itself *)

Fixpoint jfind (k : string) (l : list (string * option json)) : option json :=
  match l with
  | [] => None
  | (k', v) :: l' => if bool_decide (k = k') then v else jfind k l'
  end.

Lemma jget_absent k l : k ∉ l.*1 -> jget k (omit l) = None.
Proof.
  induction l as [|[k' [v|]] l IH]; intros Hk; [done| |].
  - simpl. rw IH; [set_solver|]. rw bool_decide_eq_false_2 //. set_solver.
  - apply IH. set_solver.
Qed.

Lemma jget_omit k l : NoDup l.*1 -> jget k (omit l) = jfind k l.
Proof.
  induction l as [|[k' v] l IH]; [done|]. intros [Hk Hl]%NoDup_cons. simpl. specialize (IH Hl).
  case_bool_decide as E.
  - subst k'. destruct v as [v|]; simpl; rw ?(jget_absent k l) //. by rw bool_decide_eq_true_2.
  - destruct v as [v|]; simpl; [|done]. rw IH.
    destruct (jfind k l); [done|]. by rw bool_decide_eq_false_2.
Qed.

Lemma get_req_law {A} (c : codec A) `{!Lawful c} k l x :
  NoDup l.*1 -> jfind k l = Some (enc c x) -> okc c x -> get_req k c (omit l) = Ok x.
Proof.
  intros Hl Hk Hx. unfold get_req, field_with. rw jget_omit // Hk. destruct (lawful x Hx) as [E N].
  by destruct (enc c x).
Qed.
Lemma get_opt_law {A} (c : codec A) `{!Lawful c} k l x :
  NoDup l.*1 -> jfind k l = enc c <$> x -> ok_opt c x -> get_opt k c (omit l) = Ok x.
Proof.
  intros Hl Hk Hx. unfold get_opt. rw jget_omit // Hk. destruct x as [x|]; [|done]. simpl in *.
  destruct (lawful x Hx) as [E N]. munfold. destruct (enc c x); try done; by rw E.
Qed.
Lemma get_nullable_law {A} (c : codec A) `{!Lawful c} k l x :
  NoDup l.*1 -> jfind k l = (nullable k c x).2 -> ok_nullable c x -> get_nullable k c (omit l) = Ok x.
Proof.
  intros Hl Hk Hx. unfold get_nullable. rw jget_omit // Hk. destruct x as [[x|]|]; [|done..]. simpl in *.
  destruct (lawful x Hx) as [E N]. munfold. destruct (enc c x); try done; by rw E.
Qed.

#[export] Instance c_int_lawful bits : Lawful (c_int bits).
Proof.
  intros z Hz. simpl in *. split; [|done]. rw (proj2 (Z.leb_le _ _)); [lia|]. by rw (proj2 (Z.ltb_lt _ _)); [lia|].
Qed.
#[export] Instance c_int32_lawful : Lawful c_int32.
Proof. apply c_int_lawful. Qed.
#[export] Instance c_int64_lawful : Lawful c_int64.
Proof. apply c_int_lawful. Qed.
#[export] Instance c_string_lawful : Lawful c_string.
Proof. by intros s. Qed.
#[export] Instance c_bool_lawful : Lawful c_bool.
Proof. by intros b. Qed.
#[export] Instance c_object_lawful : Lawful c_object.
Proof. by intros o. Qed.
#[export] Instance c_list_lawful {A} (c : codec A) : Lawful c -> Lawful (c_list c).
Proof.
  intros Hc l Hl. split; [|done]. simpl. induction Hl as [|x l Hx _ IH]; [done|]. simpl.
  destruct (lawful x Hx) as [E N]. munfold. destruct (enc c x); try done; rw E; by rw IH.
Qed.

Lemma assoc_set_new {A} k (x : A) m : k ∉ m.*1 -> assoc_set k x m = m ++ [(k, x)].
Proof.
  induction m as [|[k' x'] m IH]; [done|]. simpl. rw not_elem_of_cons. intros [Hk Hm]. rw bool_decide_false; [congruence|]. by rw IH.
Qed.
#[export] Instance c_map_lawful {A} (c : codec A) : Lawful c -> Lawful (c_map c).
Proof.
  intros Hc m [Hn Hm]. split; [|done]. simpl.
  enough (forall acc, NoDup (acc ++ m).*1 -> map_from_go c acc ((fun kx => (kx.1, enc c kx.2)) <$> m) = Ok (acc ++ m)) as E by by apply E.
  clear Hn. induction Hm as [|[k x] m Hx _ IH]; intros acc Hn; simpl; [by rw app_nil_r|].
  destruct (lawful x Hx) as [E N]. munfold. assert ((match enc c x with JNull => Ok (dz c) | _ => dec c (enc c x) end) = Ok x) as ->
    by (destruct (enc c x); try done; by rw E).
  rw assoc_set_new; [|rw IH; [|by rw -app_assoc]; rw -app_assoc //].
  rw fmap_app fmap_cons in Hn. apply NoDup_app in Hn as (_ & Hd & _). intros Hin. apply (Hd k Hin). by left.
Qed.

(** A structure: every field is looked up in the object, whose keys are
    different. *)
Ltac distinct := apply (bool_decide_unpack _); vm_compute; exact I.
Ltac fields :=
  munfold; repeat (first [erewrite get_req_law | erewrite get_opt_law | erewrite get_nullable_law];
    [|typeclasses eauto|distinct|reflexivity|first [exact I | tauto | match goal with |- ok_opt _ ?x => destruct x; exact I end]]; cbv iota beta).
Ltac structure c u m k :=
  intros o Ho; split; [|done]; unfold c, u, m, struct_from, k in *; cbn [enc dec okc] in *; fields; by destruct o.

#[export] Instance KernelConfig_lawful : Lawful KernelConfig_codec.
Proof. structure KernelConfig_codec KernelConfig_Unmarshal KernelConfig_MarshalJSON KernelConfig_ok. Qed.
#[export] Instance CmdLineConfig_lawful : Lawful CmdLineConfig_codec.
Proof. structure CmdLineConfig_codec CmdLineConfig_Unmarshal CmdLineConfig_MarshalJSON CmdLineConfig_ok. Qed.
#[export] Instance InitramfsConfig_lawful : Lawful InitramfsConfig_codec.
Proof. structure InitramfsConfig_codec InitramfsConfig_Unmarshal InitramfsConfig_MarshalJSON InitramfsConfig_ok. Qed.
#[export] Instance TdxConfig_lawful : Lawful TdxConfig_codec.
Proof. structure TdxConfig_codec TdxConfig_Unmarshal TdxConfig_MarshalJSON TdxConfig_ok. Qed.
#[export] Instance RngConfig_lawful : Lawful RngConfig_codec.
Proof. structure RngConfig_codec RngConfig_Unmarshal RngConfig_MarshalJSON RngConfig_ok. Qed.
#[export] Instance ConsoleConfig_lawful : Lawful ConsoleConfig_codec.
Proof. structure ConsoleConfig_codec ConsoleConfig_Unmarshal ConsoleConfig_MarshalJSON ConsoleConfig_ok. Qed.
#[export] Instance CpuTopology_lawful : Lawful CpuTopology_codec.
Proof. structure CpuTopology_codec CpuTopology_Unmarshal CpuTopology_MarshalJSON CpuTopology_ok. Qed.
#[export] Instance CpuAffinity_lawful : Lawful CpuAffinity_codec.
Proof. structure CpuAffinity_codec CpuAffinity_Unmarshal CpuAffinity_MarshalJSON CpuAffinity_ok. Qed.
#[export] Instance CpusConfig_lawful : Lawful CpusConfig_codec.
Proof. structure CpusConfig_codec CpusConfig_Unmarshal CpusConfig_MarshalJSON CpusConfig_ok. Qed.
#[export] Instance MemoryZoneConfig_lawful : Lawful MemoryZoneConfig_codec.
Proof. structure MemoryZoneConfig_codec MemoryZoneConfig_Unmarshal MemoryZoneConfig_MarshalJSON MemoryZoneConfig_ok. Qed.
#[export] Instance MemoryConfig_lawful : Lawful MemoryConfig_codec.
Proof. structure MemoryConfig_codec MemoryConfig_Unmarshal MemoryConfig_MarshalJSON MemoryConfig_ok. Qed.
#[export] Instance TokenBucket_lawful : Lawful TokenBucket_codec.
Proof. structure TokenBucket_codec TokenBucket_Unmarshal TokenBucket_MarshalJSON TokenBucket_ok. Qed.
#[export] Instance RateLimiterConfig_lawful : Lawful RateLimiterConfig_codec.
Proof. structure RateLimiterConfig_codec RateLimiterConfig_Unmarshal RateLimiterConfig_MarshalJSON RateLimiterConfig_ok. Qed.
#[export] Instance DiskConfig_lawful : Lawful DiskConfig_codec.
Proof. structure DiskConfig_codec DiskConfig_Unmarshal DiskConfig_MarshalJSON DiskConfig_ok. Qed.
#[export] Instance PmemConfig_lawful : Lawful PmemConfig_codec.
Proof. structure PmemConfig_codec PmemConfig_Unmarshal PmemConfig_MarshalJSON PmemConfig_ok. Qed.
#[export] Instance NetConfig_lawful : Lawful NetConfig_codec.
Proof. structure NetConfig_codec NetConfig_Unmarshal NetConfig_MarshalJSON NetConfig_ok. Qed.
#[export] Instance FsConfig_lawful : Lawful FsConfig_codec.
Proof. structure FsConfig_codec FsConfig_Unmarshal FsConfig_MarshalJSON FsConfig_ok. Qed.
#[export] Instance VsockConfig_lawful : Lawful VsockConfig_codec.
Proof. structure VsockConfig_codec VsockConfig_Unmarshal VsockConfig_MarshalJSON VsockConfig_ok. Qed.
#[export] Instance SgxEpcConfig_lawful : Lawful SgxEpcConfig_codec.
Proof. structure SgxEpcConfig_codec SgxEpcConfig_Unmarshal SgxEpcConfig_MarshalJSON SgxEpcConfig_ok. Qed.
#[export] Instance BalloonConfig_lawful : Lawful BalloonConfig_codec.
Proof. structure BalloonConfig_codec BalloonConfig_Unmarshal BalloonConfig_MarshalJSON BalloonConfig_ok. Qed.
#[export] Instance DeviceConfig_lawful : Lawful DeviceConfig_codec.
Proof. structure DeviceConfig_codec DeviceConfig_Unmarshal DeviceConfig_MarshalJSON DeviceConfig_ok. Qed.
#[export] Instance NumaDistance_lawful : Lawful NumaDistance_codec.
Proof. structure NumaDistance_codec NumaDistance_Unmarshal NumaDistance_MarshalJSON NumaDistance_ok. Qed.
#[export] Instance NumaConfig_lawful : Lawful NumaConfig_codec.
Proof. structure NumaConfig_codec NumaConfig_Unmarshal NumaConfig_MarshalJSON NumaConfig_ok. Qed.
#[export] Instance PlatformConfig_lawful : Lawful PlatformConfig_codec.
Proof. structure PlatformConfig_codec PlatformConfig_Unmarshal PlatformConfig_MarshalJSON PlatformConfig_ok. Qed.
#[export] Instance VmConfig_lawful : Lawful VmConfig_codec.
Proof. structure VmConfig_codec VmConfig_Unmarshal VmConfig_MarshalJSON VmConfig_ok. Qed.
#[export] Instance PciDeviceInfo_lawful : Lawful PciDeviceInfo_codec.
Proof. structure PciDeviceInfo_codec PciDeviceInfo_Unmarshal PciDeviceInfo_MarshalJSON PciDeviceInfo_ok. Qed.
#[export] Instance DeviceNode_lawful : Lawful DeviceNode_codec.
Proof. structure DeviceNode_codec DeviceNode_Unmarshal DeviceNode_MarshalJSON DeviceNode_ok. Qed.
#[export] Instance VmInfo_lawful : Lawful VmInfo_codec.
Proof. structure VmInfo_codec VmInfo_Unmarshal VmInfo_MarshalJSON VmInfo_ok. Qed.
#[export] Instance VmmPingResponse_lawful : Lawful VmmPingResponse_codec.
Proof. structure VmmPingResponse_codec VmmPingResponse_Unmarshal VmmPingResponse_MarshalJSON VmmPingResponse_ok. Qed.
#[export] Instance VmResize_lawful : Lawful VmResize_codec.
Proof. structure VmResize_codec VmResize_Unmarshal VmResize_MarshalJSON VmResize_ok. Qed.
#[export] Instance VmResizeZone_lawful : Lawful VmResizeZone_codec.
Proof. structure VmResizeZone_codec VmResizeZone_Unmarshal VmResizeZone_MarshalJSON VmResizeZone_ok. Qed.
#[export] Instance VmAddDevice_lawful : Lawful VmAddDevice_codec.
Proof. structure VmAddDevice_codec VmAddDevice_Unmarshal VmAddDevice_MarshalJSON VmAddDevice_ok. Qed.
#[export] Instance VmRemoveDevice_lawful : Lawful VmRemoveDevice_codec.
Proof. structure VmRemoveDevice_codec VmRemoveDevice_Unmarshal VmRemoveDevice_MarshalJSON VmRemoveDevice_ok. Qed.
#[export] Instance VmSnapshotConfig_lawful : Lawful VmSnapshotConfig_codec.
Proof. structure VmSnapshotConfig_codec VmSnapshotConfig_Unmarshal VmSnapshotConfig_MarshalJSON VmSnapshotConfig_ok. Qed.
#[export] Instance RestoreConfig_lawful : Lawful RestoreConfig_codec.
Proof. structure RestoreConfig_codec RestoreConfig_Unmarshal RestoreConfig_MarshalJSON RestoreConfig_ok. Qed.
#[export] Instance ReceiveMigrationData_lawful : Lawful ReceiveMigrationData_codec.
Proof. structure ReceiveMigrationData_codec ReceiveMigrationData_Unmarshal ReceiveMigrationData_MarshalJSON ReceiveMigrationData_ok. Qed.
#[export] Instance SendMigrationData_lawful : Lawful SendMigrationData_codec.
Proof. structure SendMigrationData_codec SendMigrationData_Unmarshal SendMigrationData_MarshalJSON SendMigrationData_ok. Qed.

(** A whole machine reads back. *)
Lemma VmConfig_reads_back o : VmConfig_ok o -> VmConfig_Unmarshal (VmConfig_MarshalJSON o) = Ok o.
Proof. intros Ho. unfold VmConfig_Unmarshal, VmConfig_MarshalJSON, struct_from, VmConfig_ok in *. fields. by destruct o. Qed.

End ClhModel.
