(* ===== verification/ClhApi.v ===== *)
(** * The requests of the Cloud Hypervisor API

    pkg/cloud-hypervisor/client: api_default.go over client.go and
    configuration.go.  Every endpoint is one request with a JSON body or none; what
    the server answers is a class over the requests made so far.  The context of a
    call only matters through that answer. *)
From S2P Require Import Prelude GoStr Qmp ClhModel.

Module ClhApi.
Import Qmp(json, JNull, JObj, object).
Export ClhModel.

(** A body is absent, JSON, or something that is not read. *)
Inductive content : Type := EmptyBody | Json (j : json) | OtherBody.

Record http_request : Type := mkRequest {
  hr_method : string;
  hr_url : string;
  hr_headers : list (string * string);
  hr_body : option json;
}.

(** No answer, an answer whose body cannot be read, or an answer. *)
Inductive http_result : Type :=
| Failed (e : error)
| Broken (status : Z) (e : error)
| Response (status : Z) (body : content).

Definition exchange : Type := http_request * http_result.

Class HttpServer : Type := { http_do : list exchange -> http_request -> http_result }.

(** [NewConfiguration]: one server, with no variables. *)
Definition server_url : string := "http://localhost/api/v1".
Definition user_agent : string := "OpenAPI-Generator/1.0.0/go".

Definition selectHeaderContentType (contentTypes : list string) : string :=
  if existsb (fun a => EqualFold a "application/json") contentTypes then "application/json"
  else hd "" contentTypes.
Definition selectHeaderAccept (accepts : list string) : string :=
  if existsb (fun a => EqualFold a "application/json") accepts then "application/json"
  else Join "," accepts.

Definition header (k v : string) : list (string * string) := if bool_decide (v = "") then [] else [(k, v)].

(** The endpoints have no query, no form and no file. *)
Definition prepareRequest (path method : string) (postBody : option json) (headerParams : list (string * string)) : http_request :=
  mkRequest method path (headerParams ++ [("User-Agent", user_agent)]) postBody.

Definition decode {A} (c : codec A) (body : content) : res A :=
  match body with
  | EmptyBody => Ok (dz c)
  | Json JNull => Ok (dz c)
  | Json j => dec c j
  | OtherBody => Err (Errorf "undefined response type")
  end.

Section Api.
Context `{HttpServer}.

Definition callAPI (request : http_request) : M (list exchange) http_result := fun h =>
  let r := http_do h request in (Ok r, h ++ [(request, r)]).

(** The part all endpoints share; the status decides before the body is
    decoded. *)
Definition execute (method path : string) (postBody : option json) (returns : bool) : M (list exchange) content :=
  let contentType := selectHeaderContentType (match postBody with Some _ => ["application/json"] | None => [] end) in
  let accept := selectHeaderAccept (if returns then ["application/json"] else []) in
  r ← callAPI (prepareRequest (server_url +:+ path) method postBody
                 (header "Content-Type" contentType ++ header "Accept" accept));
  match r with
  | Failed e | Broken _ e => throw e
  | Response status body =>
      if 300 <=? status then throw (ErrExternal "GenericOpenAPIError") else mret body
  end.

Definition put (path : string) (postBody : option json) : M (list exchange) unit :=
  _ ← execute "PUT" path postBody false; mret tt.
Definition put_get {A} (path : string) (postBody : option json) (c : codec A) : M (list exchange) A :=
  b ← execute "PUT" path postBody true; lift (decode c b).
Definition get_ {A} (path : string) (c : codec A) : M (list exchange) A :=
  b ← execute "GET" path None true; lift (decode c b).

Definition BootVMExecute : M (list exchange) unit := put "/vm.boot" None.
Definition CreateVMExecute (vmConfig : VmConfig) : M (list exchange) unit :=
  put "/vm.create" (Some (VmConfig_MarshalJSON vmConfig)).
Definition DeleteVMExecute : M (list exchange) unit := put "/vm.delete" None.
Definition PauseVMExecute : M (list exchange) unit := put "/vm.pause" None.
Definition PowerButtonVMExecute : M (list exchange) unit := put "/vm.power-button" None.
Definition RebootVMExecute : M (list exchange) unit := put "/vm.reboot" None.
Definition ResumeVMExecute : M (list exchange) unit := put "/vm.resume" None.
Definition ShutdownVMExecute : M (list exchange) unit := put "/vm.shutdown" None.
Definition ShutdownVMMExecute : M (list exchange) unit := put "/vmm.shutdown" None.
Definition VmAddDevicePutExecute (vmAddDevice : VmAddDevice) : M (list exchange) PciDeviceInfo :=
  put_get "/vm.add-device" (Some (VmAddDevice_MarshalJSON vmAddDevice)) PciDeviceInfo_codec.
Definition VmAddDiskPutExecute (diskConfig : DiskConfig) : M (list exchange) PciDeviceInfo :=
  put_get "/vm.add-disk" (Some (DiskConfig_MarshalJSON diskConfig)) PciDeviceInfo_codec.
Definition VmAddFsPutExecute (fsConfig : FsConfig) : M (list exchange) PciDeviceInfo :=
  put_get "/vm.add-fs" (Some (FsConfig_MarshalJSON fsConfig)) PciDeviceInfo_codec.
Definition VmAddNetPutExecute (netConfig : NetConfig) : M (list exchange) PciDeviceInfo :=
  put_get "/vm.add-net" (Some (NetConfig_MarshalJSON netConfig)) PciDeviceInfo_codec.
Definition VmAddPmemPutExecute (pmemConfig : PmemConfig) : M (list exchange) PciDeviceInfo :=
  put_get "/vm.add-pmem" (Some (PmemConfig_MarshalJSON pmemConfig)) PciDeviceInfo_codec.
Definition VmAddVsockPutExecute (vsockConfig : VsockConfig) : M (list exchange) PciDeviceInfo :=
  put_get "/vm.add-vsock" (Some (VsockConfig_MarshalJSON vsockConfig)) PciDeviceInfo_codec.
Definition VmCountersGetExecute : M (list exchange) (list (string * (list (string * Z)))) :=
  get_ "/vm.counters" (c_map (c_map c_int64)).
Definition VmInfoGetExecute : M (list exchange) VmInfo := get_ "/vm.info" VmInfo_codec.
Definition VmReceiveMigrationPutExecute (receiveMigrationData : ReceiveMigrationData) : M (list exchange) unit :=
  put "/vm.receive-migration" (Some (ReceiveMigrationData_MarshalJSON receiveMigrationData)).
Definition VmRemoveDevicePutExecute (vmRemoveDevice : VmRemoveDevice) : M (list exchange) unit :=
  put "/vm.remove-device" (Some (VmRemoveDevice_MarshalJSON vmRemoveDevice)).
Definition VmResizePutExecute (vmResize : VmResize) : M (list exchange) unit :=
  put "/vm.resize" (Some (VmResize_MarshalJSON vmResize)).
Definition VmResizeZonePutExecute (vmResizeZone : VmResizeZone) : M (list exchange) unit :=
  put "/vm.resize-zone" (Some (VmResizeZone_MarshalJSON vmResizeZone)).
Definition VmRestorePutExecute (restoreConfig : RestoreConfig) : M (list exchange) unit :=
  put "/vm.restore" (Some (RestoreConfig_MarshalJSON restoreConfig)).
Definition VmSendMigrationPutExecute (sendMigrationData : SendMigrationData) : M (list exchange) unit :=
  put "/vm.send-migration" (Some (SendMigrationData_MarshalJSON sendMigrationData)).
Definition VmSnapshotPutExecute (vmSnapshotConfig : VmSnapshotConfig) : M (list exchange) unit :=
  put "/vm.snapshot" (Some (VmSnapshotConfig_MarshalJSON vmSnapshotConfig)).
Definition VmmPingGetExecute : M (list exchange) VmmPingResponse := get_ "/vmm.ping" VmmPingResponse_codec.

End Api.

End ClhApi.
