(* ===== verification/Virtiofsd.v ===== *)
(** * The daemons that share directories with the guest

    virtiofsd.go and nydusd.go.  A daemon is a process started on a socket; nydusd
    is also told over HTTP what to share.  What is done to the host is a list of
    operations, and the host's answers are a class over the operations before.
    The thread that waits for a daemon to quit is left out; what it runs is the
    [StopVM] of the hypervisor.  [parseExtraOption] is not modelled. *)
From S2P Require Import Prelude GoStr Utils Qmp QmpCmd ClhModel ClhApi.

Module Virtiofsd.
Import Filepath ClhApi.
Import Qmp(json, JNull, JStr, JObj).
Import QmpCmd(struct_from, field_with).
Import WaitProcess(kill_result, KillOk, KillESRCH, KillErr, event, WaitLocalProcess, SIGKILL).

(** ** The host *)

Inductive act : Type :=
| Stat (path : string)
| MkdirAll (path : string)
| Remove (path : string)
| RemoveAll (path : string)
| SetProcessLabel (label : string)
| ListenUnix (path : string)
| ListenerFile (path : string)
| ChownTo (path owner : string)
| StartCmd (netns : string) (path : string) (args : list string)
| Kill (pid sig : Z).

#[export] Instance act_eq_dec : EqDecision act.
Proof. solve_decision. Defined.

(** [act_result] of [StartCmd] is the process.  [kill_at] and [events_at] are what
    [WaitLocalProcess] is parametric in, and [nydus_at] answers on the control
    socket of nydusd. *)
Class DaemonHost : Type := {
  act_result : list act -> act -> res Z;
  exists_at : list act -> string -> bool;
  kill_at : list act -> Z -> Z -> kill_result;
  events_at : list act -> Z -> Z -> list event;
  Abs : string -> res string;
  jitter : Z -> Z;
  nydus_at : list act -> list exchange -> http_request -> http_result;
}.

Record world : Type := mkWorld { w_acts : list act; w_nydus : list exchange }.
#[export] Instance eta_world : Eta world := fun r => mkWorld (w_acts r) (w_nydus r).

Definition log (a : act) (w : world) : world := w <| w_acts ::= fun l => l ++ [a] |>.

(** [syscall.SIGTERM] *)
Definition SIGTERM : Z := 15.

Section Host.
Context `{DaemonHost}.

Definition perform (a : act) : M world Z := fun w => (act_result (w_acts w) a, log a w).
Definition perform_ (a : act) : M world unit := _ ← perform a; mret tt.

(** [os.Stat] *)
Definition exists_ (path : string) : M world bool := fun w => (Ok (exists_at (w_acts w) path), log (Stat path) w).

(** [syscall.Kill] *)
Definition kill_pid (pid sig : Z) : M world unit := fun w =>
  (match kill_at (w_acts w) pid sig with KillOk => Ok tt | _ => Err (ErrExternal "kill") end, log (Kill pid sig) w).

(** [WaitLocalProcess] on this host; a wait whose timeout never fires has no
    result. *)
Definition wait_local (pid timeout sig : Z) : M world unit := fun w =>
  match WaitLocalProcess (kill_at (w_acts w) pid) pid sig (events_at (w_acts w) pid timeout) with
  | Some (r, sent) => (r, w <| w_acts ::= fun l => l ++ (Kill pid <$> sent) |>)
  | None => (Err (ErrExternal "does not return"), w)
  end.

(** [utils.ChownToParent] on this host *)
Definition ChownToParent (path : string) : M world unit :=
  if bool_decide (path = "") then throw (Errorf "the path is empty")
  else if negb (HasPrefix path "/") then throw (Errorf "the path is not absolute")
  else
    found ← exists_ (Dir path);
    if found then perform_ (ChownTo path (Dir path)) else throw (Errorf "os.Stat() error on %s: %s").

End Host.

(** ** virtiofsd *)

Record virtiofsd : Type := mkVirtiofsd {
  vd_path : string;
  vd_socketPath : string;
  vd_cache : string;
  vd_sourcePath : string;
  vd_extraArgs : list string;
  vd_PID : Z;
}.
#[export] Instance eta_virtiofsd : Eta virtiofsd := fun r =>
  mkVirtiofsd (vd_path r) (vd_socketPath r) (vd_cache r) (vd_sourcePath r) (vd_extraArgs r) (vd_PID r).

Definition virtiofsd_args (v : virtiofsd) (FdSocketNumber : Z) : list string :=
  ["--syslog"; "-o"; "cache=" +:+ vd_cache v; "-o"; "no_posix_lock"; "-o"; "source=" +:+ vd_sourcePath v;
   "--fd=" +:+ FormatUint 10 FdSocketNumber; "-f"] ++ vd_extraArgs v.

(** ** nydusd *)

(** [startFn] and [setupShareDirFn] are [startInShimNS] and [setupPassthroughFS]. *)
Record nydusd : Type := mkNydusd {
  nd_path : string;
  nd_sockPath : string;
  nd_apiSockPath : string;
  nd_sourcePath : string;
  nd_extraArgs : list string;
  nd_pid : Z;
  nd_debug : bool;
}.
#[export] Instance eta_nydusd : Eta nydusd := fun r =>
  mkNydusd (nd_path r) (nd_sockPath r) (nd_apiSockPath r) (nd_sourcePath r) (nd_extraArgs r) (nd_pid r) (nd_debug r).

Definition nydusd_args (nd : nydusd) : list string :=
  ["--log-level"; if nd_debug nd then "debug" else "info"; "--apisock"; nd_apiSockPath nd; "--sock"; nd_sockPath nd]
  ++ nd_extraArgs nd.

Definition infoEndpoint : string := "http://unix/api/v1/daemon".
Definition mountEndpoint : string := "http://unix/api/v1/mount".
Definition nydusdStopTimeoutSecs : Z := 5.
Definition nydusRafs : string := "rafs".
Definition nydusPassthroughfs : string := "passthrough_fs".
Definition sharedPathInGuest : string := "/containers".
Definition shimNsPath : string := "/proc/self/ns/net".

Record BuildTimeInfo : Type := mkBuildTimeInfo {
  bt_PackageVer : string; bt_GitCommit : string; bt_BuildTime : string; bt_Profile : string; bt_Rustc : string;
}.
Record DaemonInfo : Type := mkDaemonInfo { di_ID : string; di_Version : BuildTimeInfo; di_State : string }.
Record ErrorMessage : Type := mkErrorMessage { em_Code : string; em_Message : string }.
Record MountRequest : Type := mkMountRequest { mr_FsType : string; mr_Source : string; mr_Config : string }.
Record MountOption : Type := mkMountOption { mo_source : string; mo_mountpoint : string; mo_config : string }.

Definition BuildTimeInfo_zero : BuildTimeInfo := mkBuildTimeInfo "" "" "" "" "".
Definition BuildTimeInfo_Unmarshal : json -> res BuildTimeInfo := struct_from BuildTimeInfo_zero (fun o =>
  p ← get_req "package_ver" c_string o; g ← get_req "git_commit" c_string o; b ← get_req "build_time" c_string o; f ← get_req "profile" c_string o;
  r ← get_req "rustc" c_string o; Ok (mkBuildTimeInfo p g b f r)).
Definition DaemonInfo_Unmarshal : json -> res DaemonInfo := struct_from (mkDaemonInfo "" BuildTimeInfo_zero "") (fun o =>
  i ← get_req "id" c_string o; v ← field_with BuildTimeInfo_zero BuildTimeInfo_Unmarshal "version" o; s ← get_req "state" c_string o;
  Ok (mkDaemonInfo i v s)).
Definition ErrorMessage_Unmarshal : json -> res ErrorMessage := struct_from (mkErrorMessage "" "") (fun o =>
  c ← get_req "code" c_string o; m ← get_req "message" c_string o; Ok (mkErrorMessage c m)).
Definition MountRequest_Marshal (mr : MountRequest) : json :=
  JObj [("fs_type", JStr (mr_FsType mr)); ("source", JStr (mr_Source mr)); ("config", JStr (mr_Config mr))].

(** [json.Unmarshal] of a body *)
Definition unmarshal {A} (read : json -> res A) (body : content) : res A :=
  match body with
  | Json j => read j
  | EmptyBody => Err (ErrExternal "unexpected end of JSON input")
  | OtherBody => Err (ErrExternal "invalid character")
  end.

(** The regular expression /rafs/[\w+-\.]+/lowerdir anywhere in the path; the
    class holds the letters, the digits, the underscore, and the characters from
    the plus to the full stop. *)
Definition rafs_char (c : ascii) : bool :=
  let n := Z.of_N (N_of_ascii c) in
  ((48 <=? n) && (n <=? 57)) || ((65 <=? n) && (n <=? 90)) || ((97 <=? n) && (n <=? 122)) || (n =? 95)
  || ((43 <=? n) && (n <=? 46)).

(** One or more characters of the class, followed by /lowerdir. *)
Fixpoint rafs_rest (some : bool) (s : string) : bool :=
  (some && HasPrefix s "/lowerdir")
  || match s with
     | String c s' => rafs_char c && rafs_rest true s'
     | EmptyString => false
     end.

Fixpoint checkRafsMountPointValid (mp : string) : bool :=
  (HasPrefix mp "/rafs/" && rafs_rest false (str_drop 6 mp))
  || match mp with String _ mp' => checkRafsMountPointValid mp' | EmptyString => false end.

Definition checkMountPoint (mountPoint fsType : string) : res unit :=
  if bool_decide (fsType = nydusPassthroughfs) then Ok tt
  else if bool_decide (fsType = nydusRafs) then
    if checkRafsMountPointValid mountPoint then Ok tt else Err (Errorf "rafs mountpoint %s is invalid")
  else Err (Errorf "unsupported filesystem type").

Definition handleMountError {A} (body : content) : res A :=
  m ← unmarshal ErrorMessage_Unmarshal body; Err (Errorf (em_Message m)).

Section Daemons.
Context `{DaemonHost}.

(** The socket is made by the runtime and inherited by the daemon. *)
Definition getSocketFD (v : virtiofsd) : M world unit :=
  found ← exists_ (Dir (vd_socketPath v));
  if negb found then throw (Errorf "Socket directory does not exist %s")
  else
    _ ← perform (ListenUnix (vd_socketPath v));
    _ ← ChownToParent (vd_socketPath v);
    perform_ (ListenerFile (vd_socketPath v)).

Definition virtiofsd_valid (v : virtiofsd) : M world unit :=
  if bool_decide (vd_path v = "") then throw (Errorf "virtiofsd daemon path is empty")
  else if bool_decide (vd_socketPath v = "") then throw (Errorf "virtiofsd socket path is empty")
  else if bool_decide (vd_sourcePath v = "") then throw (Errorf "virtiofsd source path is empty")
  else
    found ← exists_ (vd_sourcePath v);
    if found then mret tt else throw (Errorf "virtiofsd source path not available").

(** A method of a daemon works on the pair of the daemon and the host. *)
Definition host {D A} (m : M world A) : M (D * world) A := fun s => let '(r, w) := m s.2 in (r, (s.1, w)).

(** The socket is the only extra file, so its number is 3. *)
Definition virtiofsd_Start : M (virtiofsd * world) Z :=
  s ← get;
  _ ← host (virtiofsd_valid s.1);
  _ ← host (getSocketFD s.1);
  pid ← host (perform (StartCmd "" (vd_path s.1) (virtiofsd_args s.1 3)));
  _ ← modify (fun s => (s.1 <| vd_PID := pid |>, s.2));
  mret pid.

(** The process is forgotten only when the signal fails. *)
Definition virtiofsd_kill : M (virtiofsd * world) unit :=
  s ← get;
  if vd_PID s.1 =? 0 then mret tt
  else on_error (host (kill_pid (vd_PID s.1) SIGKILL)) (modify (fun s => (s.1 <| vd_PID := 0 |>, s.2))).

Definition virtiofsd_Stop : M (virtiofsd * world) unit :=
  r ← try virtiofsd_kill;
  match r with
  | Err _ => mret tt
  | Ok _ => s ← get; _ ← try (host (perform (Remove (vd_socketPath s.1)))); mret tt
  end.

Definition checkPathValid (path : string) : M world unit :=
  if bool_decide (path = "") then throw (Errorf "path is empty")
  else
    absPath ← lift (Abs path);
    found ← exists_ (Dir absPath);
    if found then mret tt else throw (ErrExternal "stat").

Definition check_as (path : string) (e : error) : M world unit :=
  r ← try (checkPathValid path); match r with Ok _ => mret tt | Err _ => throw e end.

Definition nydusd_valid (nd : nydusd) : M world unit :=
  _ ← check_as (nd_sockPath nd) (Errorf "nydusd sock path is invalid");
  _ ← check_as (nd_apiSockPath nd) (Errorf "nydusd api sock path is invalid");
  _ ← check_as (nd_path nd) (Errorf "nydusd daemon path is invalid");
  check_as (nd_sourcePath nd) (Errorf "nydusd resource path is invalid").

(** The delay is doubled at each attempt, with a random part. *)
Definition socket_retry : Retry.Config :=
  Retry.mkConfig Retry.IsRecoverable (fun n => i64 (Retry.BackOffDelay 100000000 n + jitter n)) 0 3 true.

(** Each attempt sees the host after the attempts before it. *)
Definition waitUntilSocketReady (sock : string) : M world unit := fun w =>
  let stats n := replicate (Z.to_nat n) (Stat sock) in
  let '(r, t) := Retry.Do socket_retry (fun n =>
    if exists_at (w_acts w ++ stats n) sock then None else Some (Retry.mkErr (ErrExternal "stat") false)) in
  (match r with None => Ok tt | Some _ => Err (ErrExternal "stat") end,
   w <| w_acts ::= fun l => l ++ stats (Retry.t_calls t) |>).

(** [NewNydusClient] waits for the socket; the client is its path. *)
Definition NewNydusClient (sock : string) : M world unit := waitUntilSocketReady sock.

Definition nydus_http (r : http_request) : M world http_result := fun w =>
  let a := nydus_at (w_acts w) (w_nydus w) r in (Ok a, w <| w_nydus ::= fun l => l ++ [(r, a)] |>).

Definition CheckStatus : M world DaemonInfo :=
  a ← nydus_http (mkRequest "GET" infoEndpoint [] None);
  match a with
  | Failed e | Broken _ e => throw e
  | Response _ body => lift (unmarshal DaemonInfo_Unmarshal body)
  end.

(** The answer to a mount and an unmount *)
Definition mounted (a : http_result) : res unit :=
  match a with
  | Failed e => Err e
  | Broken status e => if status =? 204 then Ok tt else Err e
  | Response status body => if status =? 204 then Ok tt else handleMountError body
  end.

Definition mount_url (mountPoint : string) : string := mountEndpoint +:+ "?mountpoint=" +:+ mountPoint.

Definition client_Mount (mountPoint : string) (mr : MountRequest) : M world unit :=
  _ ← lift (checkMountPoint mountPoint (mr_FsType mr));
  a ← nydus_http (mkRequest "POST" (mount_url mountPoint) [("Content-Type", "application/json")]
                    (Some (MountRequest_Marshal mr)));
  lift (mounted a).

Definition client_Umount (mountPoint : string) : M world unit :=
  a ← nydus_http (mkRequest "DELETE" (mount_url mountPoint) [] None); lift (mounted a).

Definition setupPassthroughFS (nd : nydusd) : M world unit :=
  _ ← NewNydusClient (nd_apiSockPath nd);
  client_Mount sharedPathInGuest (mkMountRequest nydusPassthroughfs (nd_sourcePath nd) "").

Definition nydusd_Mount (nd : nydusd) (opt : MountOption) : M world unit :=
  _ ← NewNydusClient (nd_apiSockPath nd);
  client_Mount (mo_mountpoint opt) (mkMountRequest nydusRafs (mo_source opt) (mo_config opt)).

Definition nydusd_Umount (nd : nydusd) (mountpoint : string) : M world unit :=
  _ ← NewNydusClient (nd_apiSockPath nd); client_Umount mountpoint.

(** The process is remembered after its directory is set up. *)
Definition nydusd_Start : M (nydusd * world) Z :=
  s ← get;
  _ ← host (nydusd_valid s.1);
  pid ← host (perform (StartCmd shimNsPath (nd_path s.1) (nydusd_args s.1)));
  _ ← host (setupPassthroughFS s.1);
  _ ← modify (fun s => (s.1 <| nd_pid := pid |>, s.2));
  mret pid.

(** The error of the wait is local to its block, so the result is nil. *)
Definition nydusd_kill : M (nydusd * world) unit :=
  s ← get;
  if nd_pid s.1 <=? 0 then mret tt
  else
    _ ← try (host (wait_local (nd_pid s.1) nydusdStopTimeoutSecs SIGTERM));
    modify (fun s => (s.1 <| nd_pid := 0 |>, s.2)).

Definition nydusd_Stop : M (nydusd * world) unit :=
  r ← try nydusd_kill;
  match r with
  | Err _ => mret tt
  | Ok _ =>
      s ← get;
      _ ← try (host (perform (Remove (nd_sockPath s.1))));
      _ ← try (host (perform (Remove (nd_apiSockPath s.1))));
      mret tt
  end.

(** ** The interface *)

Inductive VirtiofsDaemon : Type := Vfsd (v : virtiofsd) | Nydus (n : nydusd).

Definition pid_of (d : VirtiofsDaemon) : Z := match d with Vfsd v => vd_PID v | Nydus n => nd_pid n end.

Definition dispatch {A} (f : M (virtiofsd * world) A) (g : M (nydusd * world) A) : M (VirtiofsDaemon * world) A := fun s =>
  match s.1 with
  | Vfsd v => let '(r, s') := f (v, s.2) in (r, (Vfsd s'.1, s'.2))
  | Nydus n => let '(r, s') := g (n, s.2) in (r, (Nydus s'.1, s'.2))
  end.

Definition Start : M (VirtiofsDaemon * world) Z := dispatch virtiofsd_Start nydusd_Start.
Definition Stop : M (VirtiofsDaemon * world) unit := dispatch virtiofsd_Stop nydusd_Stop.
Definition Mount (opt : MountOption) : M (VirtiofsDaemon * world) unit :=
  dispatch (throw (Errorf "unimplemented")) (s ← get; host (nydusd_Mount s.1 opt)).
Definition Umount (mountpoint : string) : M (VirtiofsDaemon * world) unit :=
  dispatch (throw (Errorf "unimplemented")) (s ← get; host (nydusd_Umount s.1 mountpoint)).

End Daemons.

(** ** The mount points of nydusd *)

Lemma HasPrefix_split s p : HasPrefix s p = true <-> exists t, s = p +:+ t.
Proof.
  split; [|by intros [t ->]; apply HasPrefix_app].
  revert s. induction p as [|a p IH]; intros s Hp; [by exists s|].
  destruct s as [|c s]; [done|]. simpl in Hp. apply andb_true_iff in Hp as [->%bool_decide_eq_true Hp].
  destruct (IH s Hp) as [t ->]. by exists t.
Qed.

Lemma str_drop_app p t : str_drop (String.length p) (p +:+ t) = t.
Proof. by induction p. Qed.

Lemma rafs_rest_spec some s :
  rafs_rest some s = true <->
  exists id post, s = id +:+ "/lowerdir" +:+ post /\ str_all rafs_char id = true /\ (some = false -> id <> "").
Proof.
  revert some. induction s as [|c s IH]; intros some; cbn [rafs_rest]; rw orb_true_iff.
  - split; [intros [[_ [t [=]]%HasPrefix_split]%andb_true_iff|[=]]|].
    intros ([|] & post & [=] & _).
  - rw (andb_true_iff some) (andb_true_iff (rafs_char c)) HasPrefix_split IH. split.
    + intros [[-> [t Ht]]|[Hc (id & post & -> & Ha & _)]].
      * exists "", t. by rw Ht.
      * exists (String c id), post. split_and!; [done| |done]. simpl. by rw Hc Ha.
    + intros ([|c' id] & post & E & Ha & Hn).
      * left. split; [by destruct some; [|destruct Hn]|]. by exists post.
      * injection E as -> ->. simpl in Ha. apply andb_true_iff in Ha as [Hc Ha]. right.
        split; [done|]. by exists id, post.
Qed.

Lemma checkRafs_spec mp :
  checkRafsMountPointValid mp = true <->
  exists pre id post, mp = pre +:+ "/rafs/" +:+ id +:+ "/lowerdir" +:+ post /\ str_all rafs_char id = true /\ id <> "".
Proof.
  induction mp as [|c mp IH].
  - split; [done|]. by intros ([|] & id & post & [=] & _).
  - cbn [checkRafsMountPointValid]. rw orb_true_iff (andb_true_iff (HasPrefix _ _)) (rafs_rest_spec false (str_drop _ _)) IH. split.
    + intros [[[t Ht]%HasPrefix_split (id & post & E & Ha & Hn)]|(pre & id & post & -> & Ha & Hn)].
      * exists "", id, post. split_and!; [|done|by apply Hn]. rw Ht (str_drop_app "/rafs/") in E. by rw Ht E.
      * by exists (String c pre), id, post.
    + intros ([|c' pre] & id & post & E & Ha & Hn).
      * left. rw E str_app_nil_l. split; [by apply HasPrefix_app|]. exists id, post.
        split_and!; [by rw (str_drop_app "/rafs/")|done|done].
      * injection E as -> ->. right. by exists pre, id, post.
Qed.

(** C33. The mount point of an image is accepted by nydusd's client exactly if the
    expression matches somewhere in it: it contains /rafs/, one or more characters
    of the class, and /lowerdir; the class leaves out the slash but holds the
    comma, and what comes before and after is not looked at.  The directory that
    is shared is accepted under any name, and a file system of another type
    never. *)
Theorem checkMountPoint_spec mountPoint fsType :
  checkMountPoint mountPoint fsType = Ok tt <->
  fsType = nydusPassthroughfs \/
  fsType = nydusRafs /\
  exists pre id post, mountPoint = pre +:+ "/rafs/" +:+ id +:+ "/lowerdir" +:+ post /\ str_all rafs_char id = true /\ id <> "".
Proof.
  unfold checkMountPoint. rw -checkRafs_spec. repeat case_bool_decide; subst; [naive_solver| |naive_solver].
  destruct (checkRafsMountPointValid mountPoint); naive_solver.
Qed.

(** ** The life of a daemon *)

(** What the operating system promises: processes have positive numbers, and a
    timer fires. *)
Class DaemonHostLaws `{DaemonHost} : Prop := {
  start_pid l ns path args pid : act_result l (StartCmd ns path args) = Ok pid -> 0 < pid;
  timer_fires l pid timeout : WaitProcess.Timeout ∈ events_at l pid timeout;
}.

(** The operations on the host are only added to. *)
Definition grows (w w' : world) : Prop := exists l, w_acts w' = w_acts w ++ l.
#[export] Instance grows_preorder : PreOrder grows.
Proof.
  split; [intros w; exists []; by rw app_nil_r|]. intros w1 w2 w3 [l1 E1] [l2 E2]. exists (l1 ++ l2).
  by rw E2 E1 app_assoc.
Qed.

Section Life.
Context `{Hlaws : DaemonHostLaws}.

Lemma grows_perform a : stays grows (perform a).
Proof. intros w. by exists [a]. Qed.
Lemma grows_exists path : stays grows (exists_ path).
Proof. intros w. by exists [Stat path]. Qed.
Lemma grows_kill pid sig : stays grows (kill_pid pid sig).
Proof. intros w. by exists [Kill pid sig]. Qed.
Lemma grows_wait pid timeout sig : stays grows (wait_local pid timeout sig).
Proof. intros w. unfold wait_local. destruct (WaitLocalProcess _ _ _ _) as [[r sent]|]; [by eexists|done]. Qed.
Lemma grows_ready sock : stays grows (waitUntilSocketReady sock).
Proof. intros w. unfold waitUntilSocketReady. destruct (Retry.Do _ _) as [r t]. by eexists. Qed.
Lemma grows_http r : stays grows (nydus_http r).
Proof. intros w. exists []. by rw app_nil_r. Qed.
#[local] Hint Resolve grows_perform grows_exists grows_kill grows_wait grows_ready grows_http : stays.

Lemma grows_ChownToParent path : stays grows (ChownToParent path).
Proof. unfold ChownToParent, perform_. stays. Qed.
Lemma grows_check_as path e : stays grows (check_as path e).
Proof. unfold check_as, checkPathValid. stays. Qed.
#[local] Hint Resolve grows_ChownToParent grows_check_as : stays.
Lemma grows_getSocketFD v : stays grows (getSocketFD v).
Proof. unfold getSocketFD, perform_. stays. Qed.
Lemma grows_virtiofsd_valid v : stays grows (virtiofsd_valid v).
Proof. unfold virtiofsd_valid. stays. Qed.
Lemma grows_nydusd_valid n : stays grows (nydusd_valid n).
Proof. unfold nydusd_valid. stays. Qed.
Lemma grows_setup n : stays grows (setupPassthroughFS n).
Proof. unfold setupPassthroughFS, NewNydusClient, client_Mount. stays. Qed.

Lemma host_run {D A} (m : M world A) (d : D) w : host m (d, w) = ((m w).1, (d, (m w).2)).
Proof. unfold host. simpl. by destruct (m w). Qed.

(** A start: the process is remembered, or nothing is. *)
Definition started {D} (pid : D -> Z) (d : D) (w : world) (r : res Z) (d' : D) (w' : world) : Prop :=
  grows w w' /\ match r with Ok p => pid d' = p /\ 0 < p | Err _ => d' = d end.

Lemma virtiofsd_Start_spec v w :
  let '(r, (v', w')) := virtiofsd_Start (v, w) in started vd_PID v w r v' w'.
Proof.
  unfold virtiofsd_Start, started. munfold. rw host_run. cbn [fst snd].
  pose proof (grows_virtiofsd_valid v w) as G1. destruct (virtiofsd_valid v w) as [[[]|e] w1]; simpl in *; [|done].
  rw host_run. pose proof (grows_getSocketFD v w1) as G2. destruct (getSocketFD v w1) as [[[]|e] w2]; simpl in *; [|by split; [etrans|]].
  rw ?host_run. simpl. destruct (act_result _ _) as [pid|e] eqn:E; simpl.
  - split; [|split; [done|by eapply start_pid]]. etrans; [etrans; [exact G1|exact G2]|by eexists].
  - split; [|done]. etrans; [etrans; [exact G1|exact G2]|by eexists].
Qed.

Lemma nydusd_Start_spec n w :
  let '(r, (n', w')) := nydusd_Start (n, w) in started nd_pid n w r n' w'.
Proof.
  unfold nydusd_Start, started. munfold. rw host_run. cbn [fst snd].
  pose proof (grows_nydusd_valid n w) as G1. destruct (nydusd_valid n w) as [[[]|e] w1]; simpl in *; [|done].
  rw ?host_run. simpl. destruct (act_result _ _) as [pid|e] eqn:E; simpl.
  - set (w2 := log _ w1). simpl. pose proof (grows_setup n w2) as G2.
    assert (grows w w2) as G3 by (etrans; [exact G1|by eexists]).
    destruct (setupPassthroughFS n w2) as [[[]|e] w3]; simpl in *; (split; [by etrans|]); [|done].
    split; [done|by eapply start_pid].
  - split; [|done]. etrans; [exact G1|by eexists].
Qed.

Lemma Start_spec d w : let '(r, (d', w')) := Start (d, w) in started pid_of d w r d' w'.
Proof.
  unfold Start, dispatch. simpl. destruct d as [v|n].
  - pose proof (virtiofsd_Start_spec v w). destruct (virtiofsd_Start (v, w)) as [r [v' w']]. simpl.
    unfold started in *. destruct r; naive_solver.
  - pose proof (nydusd_Start_spec n w). destruct (nydusd_Start (n, w)) as [r [n' w']]. simpl.
    unfold started in *. destruct r; naive_solver.
Qed.

(** A stop: it does not fail; the process that is remembered gets a signal, and
    no other does. *)
Definition signals (pid : Z) (w w' : world) : Prop :=
  exists l, w_acts w' = w_acts w ++ l /\
    (0 < pid -> exists sig l', sig <> 0 /\ l = Kill pid sig :: l') /\
    (forall p sig, Kill p sig ∈ l -> p = pid).

Lemma virtiofsd_Stop_spec v w :
  let '(r, (v', w')) := virtiofsd_Stop (v, w) in r = Ok tt /\ signals (vd_PID v) w w'.
Proof.
  unfold virtiofsd_Stop, virtiofsd_kill, signals. munfold. simpl. destruct (Z.eqb_spec (vd_PID v) 0) as [->|Hp]; simpl.
  - rw ?host_run. split; [done|]. simpl. eexists. split_and!; [done|lia|]. set_solver.
  - unfold on_error. rw ?host_run. simpl. destruct (kill_at _ _ _); simpl; rw ?host_run; (split; [done|]); simpl;
      rw -?app_assoc; eexists; (split_and!; [done|by intros _; exists SIGKILL; eexists|set_solver]).
Qed.

Lemma wait_local_sent pid timeout sig w :
  0 < pid -> sig <> 0 ->
  exists sent, w_acts (wait_local pid timeout sig w).2 = w_acts w ++ Kill pid sig :: (Kill pid <$> sent).
Proof.
  intros Hp Hs. unfold wait_local, WaitLocalProcess. rw (proj2 (Z.leb_gt pid 0)); [lia|].
  rw (proj2 (Z.eqb_neq sig 0)) //=. destruct (WaitProcess.wait_go_timeout _ (timer_fires (w_acts w) pid timeout)) as [b Eb].
  rw Eb. destruct (kill_at (w_acts w) pid sig); [|by exists []..].
  destruct b; [|by exists []]. destruct (kill_at (w_acts w) pid SIGKILL); by exists [SIGKILL].
Qed.

Lemma nydusd_Stop_spec n w :
  let '(r, (n', w')) := nydusd_Stop (n, w) in r = Ok tt /\ signals (nd_pid n) w w'.
Proof.
  unfold nydusd_Stop, nydusd_kill, signals. munfold. simpl. destruct (Z.leb_spec (nd_pid n) 0) as [Hp|Hp]; simpl; rw ?host_run; simpl.
  - rw ?host_run. simpl. split; [done|]. rw -app_assoc. eexists. split_and!; [done|lia|]. set_solver.
  - rw ?host_run. simpl.
    destruct (wait_local_sent (nd_pid n) nydusdStopTimeoutSecs SIGTERM w Hp ltac:(done)) as [sent E]. rw E -!app_assoc.
    split; [done|]. simpl. eexists. split_and!; [done|by intros _; exists SIGTERM; eexists|].
    intros p sig. rw elem_of_cons elem_of_app list_elem_of_fmap. set_solver.
Qed.

Lemma Stop_spec d w : let '(r, (d', w')) := Stop (d, w) in r = Ok tt /\ signals (pid_of d) w w'.
Proof.
  unfold Stop, dispatch. simpl. destruct d as [v|n].
  - pose proof (virtiofsd_Stop_spec v w). by destruct (virtiofsd_Stop (v, w)) as [r [v' w']].
  - pose proof (nydusd_Stop_spec n w). by destruct (nydusd_Stop (n, w)) as [r [n' w']].
Qed.

(** Operations without a signal to any process. *)
Definition no_signal (l : list act) : Prop := forall p sig, Kill p sig ∉ l.
Definition gentle (w w' : world) : Prop := exists l, w_acts w' = w_acts w ++ l /\ no_signal l.
#[local] Instance gentle_preorder : PreOrder gentle.
Proof.
  unfold gentle, no_signal. split; [intros w; exists []; rw app_nil_r; set_solver|].
  intros w1 w2 w3 (l1 & E1 & K1) (l2 & E2 & K2). exists (l1 ++ l2). rw E2 E1 app_assoc. set_solver.
Qed.

Lemma gentle_exists path : stays gentle (exists_ path).
Proof. intros w. exists [Stat path]. split; [done|]. unfold no_signal. set_solver. Qed.
Lemma gentle_ready sock : stays gentle (waitUntilSocketReady sock).
Proof.
  intros w. unfold waitUntilSocketReady. destruct (Retry.Do _ _) as [r t]. eexists. split; [done|].
  intros p sig [? _]%elem_of_replicate. congruence.
Qed.
Lemma gentle_http r : stays gentle (nydus_http r).
Proof. intros w. exists []. rw app_nil_r. unfold no_signal. set_solver. Qed.
#[local] Hint Resolve gentle_exists gentle_ready gentle_http : stays.
Lemma gentle_valid n : stays gentle (nydusd_valid n).
Proof. unfold nydusd_valid, check_as, checkPathValid. stays. Qed.
Lemma gentle_setup n : stays gentle (setupPassthroughFS n).
Proof. unfold setupPassthroughFS, NewNydusClient, client_Mount. stays. Qed.

(** C32. A nydusd that was started but whose directory could not be shared: the
    start fails with the error of the sharing and sends no signal to the process
    it made, or to any other, so that the process goes on running; it is not
    remembered, so that stopping the daemon sends no signal either. *)
Theorem nydusd_orphan n w w1 pid e :
  nd_pid n = 0 -> nydusd_valid n w = (Ok tt, w1) ->
  let start := StartCmd shimNsPath (nd_path n) (nydusd_args n) in
  act_result (w_acts w1) start = Ok pid -> (setupPassthroughFS n (log start w1)).1 = Err e ->
  let '(r, s) := nydusd_Start (n, w) in
  r = Err e /\ 0 < pid /\ s.1 = n /\
  (exists l1 l2, w_acts s.2 = w_acts w ++ l1 ++ start :: l2 /\ no_signal (l1 ++ start :: l2)) /\
  let '(r', s') := nydusd_Stop s in
  r' = Ok tt /\ exists l, w_acts s'.2 = w_acts s.2 ++ l /\ no_signal l.
Proof.
  intros Hn Hv start Hs He. pose proof (start_pid _ _ _ _ _ Hs) as Hp.
  destruct (gentle_valid n w) as (l1 & E1 & K1). destruct (gentle_setup n (log start w1)) as (l2 & E2 & K2).
  unfold nydusd_Start. munfold. rw host_run. simpl. rw Hv in E1. rw Hv. simpl in *. rw Hs host_run. fold start.
  destruct (setupPassthroughFS n (log start w1)) as [[[]|e'] w2]; simpl in *; [done|].
  unfold no_signal in *. split_and!; [congruence|done..| |].
  - exists l1, l2. split; [by rw E2 E1 -!app_assoc|]. unfold start. set_solver.
  - unfold nydusd_Stop, nydusd_kill. munfold. simpl. rw Hn. simpl. split; [done|].
    rw -app_assoc. eexists. split; [done|]. set_solver.
Qed.

End Life.

End Virtiofsd.
