(* ===== verification/Clh.v ===== *)
(** * The Cloud Hypervisor driver

    [clh.go]: a machine is described by a [VmConfig] ([CreateVM], [AddDevice]) and
    started as a process that is then controlled over HTTP ([ClhApi]).  The state
    holds the fields of the structure [cloudHypervisor], the requests that were
    made and the operations on the host ([Virtiofsd]).  A method that fills in the
    structure of a device works on a pair of the driver and the device.  A panic
    is [ErrNilDeref]. *)
From S2P Require Import Prelude GoStr Types Utils Devices Hypervisor Qemu Qmp QemuArch ClhModel ClhApi Virtiofsd.

Module Clh.
Import ClhApi Virtiofsd QemuArch HypervisorConf Filepath.
Import Prelude(put).
Import Qemu(given).
Import Types.Caps(Capabilities, SetFsSharingSupport, SetBlockDeviceHotplugSupport, IsFsSharingSupported).
Import Types.PciPaths(PciPath, PciPathFromString).
Import Names(MiB, ToBytes, ToMiB, AlignMem).

(** ** The host *)

(** [pings] is the number of rounds [isClhRunning] makes before its timeout, in
    seconds, has passed. *)
Class ClhHost : Type := {
  pings : Z -> nat;
  EvalSymlinks : string -> res string;
  NewPty : res string;
  kataHostSharedDir : string;
}.

Definition GetSharePath `{ClhHost} (id : string) : string := PathJoin [kataHostSharedDir; id; "shared"].

(** ** The state *)

Inductive clhState : Type := clhNotReady | clhReady.

#[export] Instance clhState_eq_dec : EqDecision clhState.
Proof. solve_decision. Defined.

Record CloudHypervisorState : Type := mkState {
  st_apiSocket : string;
  st_PID : Z;
  st_VirtiofsDaemonPid : Z;
  st_state : clhState;
}.
#[export] Instance eta_CloudHypervisorState : Eta CloudHypervisorState := fun r =>
  mkState (st_apiSocket r) (st_PID r) (st_VirtiofsDaemonPid r) (st_state r).

Record cloudHypervisor : Type := mkClh {
  c_console : option string;
  c_virtiofsDaemon : option VirtiofsDaemon;
  (** whether [APIClient] is set *)
  c_APIClient : bool;
  c_id : string;
  c_vmconfig : VmConfig;
  c_state : CloudHypervisorState;
  c_config : HypervisorConfig;
  (** what was done outside the structure *)
  c_api : list exchange;
  c_world : world;
}.
#[export] Instance eta_cloudHypervisor : Eta cloudHypervisor := fun r =>
  mkClh (c_console r) (c_virtiofsDaemon r) (c_APIClient r) (c_id r) (c_vmconfig r) (c_state r) (c_config r) (c_api r)
    (c_world r).

Definition state_reset (s : CloudHypervisorState) : CloudHypervisorState :=
  s <| st_PID := 0 |> <| st_VirtiofsDaemonPid := 0 |> <| st_state := clhNotReady |>.

Definition clhStateCreated : string := "Created".
Definition clhStateRunning : string := "Running".
Definition clhTimeout : Z := 10.
Definition clhStopSandboxTimeout : Z := 3.
Definition clhSocket : string := "clh.sock".
Definition clhAPISocket : string := "clh-api.sock".
Definition virtioFsSocket : string := "virtiofsd.sock".
Definition nydusdAPISock : string := "nydusd-api.sock".
Definition defaultClhPath : string := "/usr/local/bin/cloud-hypervisor".
Definition VirtioFSNydus : string := "virtio-fs-nydus".
Definition Virtio9P : string := "virtio-9p".
Definition cctOFF : string := "Off".
Definition cctTTY : string := "Tty".
Definition cscAPIsocket : string := "--api-socket".
Definition defaultGuestVSockCID : Z := 3.
Definition vSockPort : Z := 1024.

Definition clhKernelParams : list Param :=
  [mkParam "panic" "1"; mkParam "no_timer_check" ""; mkParam "noreplace-smp" ""].
Definition clhDebugKernelParams : list Param :=
  [mkParam "console" "ttyS0,115200n8"; mkParam "systemd.log_target" "console"].

(** [utils.KiB], and a conversion to [int32]. *)
Definition KiB : Z := Z.shiftl 1 10.
Definition i32 (x : Z) : Z := (x + 2 ^ 31) mod 2 ^ 32 - 2 ^ 31.

(** ** Pure helpers *)

Definition kernelParamsToString (params : list Param) : string :=
  TrimSpace (foldl (fun b p =>
    let b := b +:+ Key p in
    let b := if given (Value p) then b +:+ "=" +:+ Value p else b in
    b +:+ " ") "" params).

Definition clhDriveIndexToID (i : Z) : string := "clh_drive_" +:+ Itoa i.

Definition bad_address {A} : res A := Err (Errorf "Unexpected PCI address %q from clh hotplug").

(** The slot of an address on the bus 0 of the segment 0, whose function is 0. *)
Definition bdf_slot (bdf : string) : option string :=
  match Split ":" bdf with
  | [t0; t1; t2] =>
      if bool_decide (t0 = "0000") && bool_decide (t1 = "00") then
        match Split "." t2 with
        | [slot; func] => if bool_decide (func = "0") && (String.length slot =? 2)%nat then Some slot else None
        | _ => None
        end
      else None
  | _ => None
  end.

Definition clhPciInfoToPath (pciInfo : PciDeviceInfo) : res PciPath :=
  match bdf_slot (pci_Bdf pciInfo) with Some slot => PciPathFromString slot | None => bad_address end.

Definition openAPIClientError (e : error) : error := Errorf "error: %v reason: %s".

Section Clh.
Context `{QemuHost, DaemonHost, HttpServer, ClhHost}.

(** ** Calling the parts *)

Definition config : M cloudHypervisor HypervisorConfig := gets c_config.
Definition on_state (f : CloudHypervisorState -> CloudHypervisorState) : M cloudHypervisor unit :=
  modify (fun c => c <| c_state ::= f |>).
Definition on_vmconfig (f : VmConfig -> VmConfig) : M cloudHypervisor unit := modify (fun c => c <| c_vmconfig ::= f |>).

Definition sys {A} (m : M world A) : M cloudHypervisor A := fun c =>
  let '(r, w) := m (c_world c) in (r, c <| c_world := w |>).

(** A request through [client()]; the client may be nil. *)
Definition api {A} (m : M (list exchange) A) : M cloudHypervisor A := fun c =>
  if c_APIClient c then let '(r, h) := m (c_api c) in (r, c <| c_api := h |>) else (Err ErrNilDeref, c).

(** A method of [virtiofsDaemon], which may be nil. *)
Definition daemon {A} (m : M (VirtiofsDaemon * world) A) : M cloudHypervisor A := fun c =>
  match c_virtiofsDaemon c with
  | None => (Err ErrNilDeref, c)
  | Some d => let '(r, (d', w)) := m (d, c_world c) in (r, c <| c_virtiofsDaemon := Some d' |> <| c_world := w |>)
  end.

(** [err := m()] with [err] looked at; a panic is not an error. *)
Definition attempt {A} (m : M cloudHypervisor A) : M cloudHypervisor (res A) := fun c =>
  match m c with
  | (Err e, c') => if bool_decide (e = ErrNilDeref) then (Err e, c') else (Ok (Err e), c')
  | (Ok a, c') => (Ok (Ok a), c')
  end.

(** ** Configuration *)

Definition setConfig (hypervisorConfig : HypervisorConfig) : M cloudHypervisor unit :=
  match Valid hypervisorConfig with
  | (Ok _, conf) => modify (fun c => c <| c_config := conf |>)
  | (Err e, _) => throw e
  end.

Definition clh_Capabilities (conf : HypervisorConfig) : Capabilities :=
  SetBlockDeviceHotplugSupport (if hc_ConfidentialGuest conf then 0 else SetFsSharingSupport 0).
Definition supportsSharedFS (conf : HypervisorConfig) : bool := IsFsSharingSupported (clh_Capabilities conf).

Definition socket_path (id name : string) : M cloudHypervisor string :=
  conf ← config; lift (Dirs.BuildSocketPath [hc_VMStorePath conf; id; name]).
Definition virtioFsSocketPath (id : string) : M cloudHypervisor string := socket_path id virtioFsSocket.
Definition vsockSocketPath (id : string) : M cloudHypervisor string := socket_path id clhSocket.
Definition apiSocketPath (id : string) : M cloudHypervisor string := socket_path id clhAPISocket.
Definition nydusdAPISocketPath (id : string) : M cloudHypervisor string := socket_path id nydusdAPISock.

Definition createVirtiofsDaemon (sharedPath : string) : M cloudHypervisor (option VirtiofsDaemon) :=
  c ← get;
  let conf := c_config c in
  if negb (supportsSharedFS conf) then mret None
  else
    sock ← virtioFsSocketPath (c_id c);
    if bool_decide (hc_SharedFS conf = VirtioFSNydus) then
      api ← nydusdAPISocketPath (c_id c);
      mret (Some (Nydus (mkNydusd (hc_VirtioFSDaemon conf) sock api sharedPath (hc_VirtioFSExtraArgs conf) 0 (hc_Debug conf))))
    else
      mret (Some (Vfsd (mkVirtiofsd (hc_VirtioFSDaemon conf) sock (hc_VirtioFSCache conf) sharedPath
                          (hc_VirtioFSExtraArgs conf) 0))).

Definition setupVirtiofsDaemon : M cloudHypervisor unit :=
  c ← get;
  if negb (supportsSharedFS (c_config c)) then mret tt
  else if bool_decide (hc_SharedFS (c_config c) = Virtio9P) then
    throw (Errorf "cloud-hypervisor only supports virtio based file sharing")
  else
    match c_virtiofsDaemon c with
    | None => throw (Errorf "Missing virtiofsDaemon configuration")
    | Some _ => pid ← daemon Start; on_state (fun s => s <| st_VirtiofsDaemonPid := pid |>)
    end.

Definition stopVirtiofsDaemon : M cloudHypervisor unit :=
  c ← get;
  if negb (supportsSharedFS (c_config c)) then mret tt
  else if st_VirtiofsDaemonPid (c_state c) =? 0 then mret tt
  else
    _ ← daemon Stop;
    on_state (fun s => s <| st_VirtiofsDaemonPid := 0 |>).

Definition loadVirtiofsDaemon (sharedPath : string) : M cloudHypervisor (option VirtiofsDaemon) :=
  c ← get;
  if negb (supportsSharedFS (c_config c)) then mret None
  else
    sock ← virtioFsSocketPath (c_id c);
    mret (Some (Vfsd (mkVirtiofsd "" sock "" sharedPath [] (st_VirtiofsDaemonPid (c_state c))))).

Definition enableProtection : M cloudHypervisor unit :=
  protection ← lift availableGuestProtection;
  match protection with
  | tdxProtection =>
      conf ← config;
      firmwarePath ← lift (FirmwareAssetPath conf);
      if given firmwarePath then on_vmconfig (fun v => v <| vm_Tdx := Some (NewTdxConfig firmwarePath) |>)
      else throw (Errorf "Firmware path is not specified")
  | sevProtection => throw (Errorf "SEV protection is not supported by Cloud Hypervisor")
  | _ => throw (Errorf "This system doesn't support Confidentian Computing (Guest Protection)")
  end.

(** ** The machine that is created *)

(** [*l = append( *l, x)], or a new list. *)
Definition append_opt {A} (l : option (list A)) (x : A) : option (list A) := Some (default [] l ++ [x]).

Definition memory_config (conf : HypervisorConfig) : MemoryConfig :=
  (NewMemoryConfig (i64 (ToBytes (u64 (hc_MemorySize conf * MiB)))))
    <| mem_Shared := Some true |> <| mem_Hugepages := Some (hc_HugePages conf) |>.

Definition kernel_params (conf : HypervisorConfig) : list Param :=
  (if hc_ConfidentialGuest conf then commonVirtioblkKernelRootParams else commonNvdimmKernelRootParams)
  ++ clhKernelParams
  ++ (if hc_Debug conf then clhDebugKernelParams else [mkParam "quiet" ""])
  ++ hc_KernelParams conf.

(** The disk or the initrd the machine boots from. *)
Definition boot_image : M cloudHypervisor unit :=
  conf ← config;
  imagePath ← lift (ImageAssetPath conf);
  if given imagePath then
    if hc_ConfidentialGuest conf
    then on_vmconfig (fun v => v <| vm_Disks ::= fun l => append_opt l ((NewDiskConfig imagePath) <| disk_Readonly := Some true |>) |>)
    else on_vmconfig (fun v => v <| vm_Pmem ::= fun l => append_opt l ((NewPmemConfig imagePath) <| pmem_DiscardWrites := Some true |>) |>)
  else
    initrdPath ← lift (InitrdAssetPath conf);
    on_vmconfig (fun v => v <| vm_Initramfs := Some (Some (NewInitramfsConfig initrdPath)) |>).

Definition cpu_topology (conf : HypervisorConfig) : CpuTopology :=
  NewCpuTopology <| top_ThreadsPerCore := Some 1 |> <| top_CoresPerDie := Some (i32 (hc_DefaultMaxVCPUs conf)) |>
    <| top_DiesPerPackage := Some 1 |> <| top_Packages := Some 1 |>.

(** What follows the sizes of the memory and of the processor. *)
Definition create_rest (conf : HypervisorConfig) (id : string) : M cloudHypervisor unit :=
  _ ← on_vmconfig (fun v => v
        <| vm_Cpus := Some (NewCpusConfig (i32 (hc_NumVCPUs conf)) (i32 (hc_DefaultMaxVCPUs conf))) |>
        <| vm_Cmdline := Some (NewCmdLineConfig (kernelParamsToString (kernel_params conf))) |>
        <| vm_Rng := Some (NewRngConfig (hc_EntropySource conf)) |>);
  _ ← boot_image;
  _ ← on_vmconfig (fun v => v
        <| vm_Serial := Some (NewConsoleConfig (if hc_Debug conf then cctTTY else cctOFF)) |>
        <| vm_Console := Some (NewConsoleConfig cctOFF) |>
        <| vm_Cpus ::= fmap (fun k => k <| cpus_Topology := Some (cpu_topology conf) |>) |>);
  apiSocketPath ← apiSocketPath id;
  _ ← on_state (fun s => s <| st_apiSocket := apiSocketPath |>);
  _ ← modify (fun c => c <| c_APIClient := true |>);
  d ← on_error (createVirtiofsDaemon (PathJoin [GetSharePath id])) (modify (fun c => c <| c_virtiofsDaemon := None |>));
  _ ← modify (fun c => c <| c_virtiofsDaemon := d |>);
  when (0 <? hc_SGXEPCSize conf)
    (on_vmconfig (fun v => v <| vm_SgxEpc ::= fun l =>
       append_opt l ((NewSgxEpcConfig "kata-epc" (hc_SGXEPCSize conf)) <| sgx_Prefault := Some true |>) |>)).

(** A failure to read the memory of the host ends the method without an error. *)
Definition create_new (conf : HypervisorConfig) (id : string) : M cloudHypervisor unit :=
  kernelPath ← lift (KernelAssetPath conf);
  _ ← on_vmconfig (fun _ => NewVmConfig (NewKernelConfig kernelPath));
  _ ← when (hc_ConfidentialGuest conf) enableProtection;
  _ ← on_vmconfig (fun v => v <| vm_Memory := Some (memory_config conf) |>);
  if hc_ConfidentialGuest conf then create_rest conf id
  else
    match GetHostMemorySizeKb host_scan procMemInfo with
    | Err _ => mret tt
    | Ok kb =>
        _ ← on_vmconfig (fun v => v <| vm_Memory ::= fmap (fun m =>
              m <| mem_HotplugSize := Some (i64 (ToBytes (u64 (kb * KiB)))) |>) |>);
        create_rest conf id
    end.

(** A sandbox that was loaded from its state is not created again. *)
Definition CreateVM (id : string) (hypervisorConfig : HypervisorConfig) : M cloudHypervisor unit :=
  _ ← setConfig hypervisorConfig;
  _ ← modify (fun c => c <| c_id := id |>);
  _ ← on_state (fun s => s <| st_state := clhNotReady |>);
  c ← get;
  if 0 <? st_PID (c_state c) then
    d ← loadVirtiofsDaemon (hc_SharedFS (c_config c));
    modify (fun c => c <| c_virtiofsDaemon := d |>)
  else create_new (c_config c) id.

(** ** Requests *)

(** The rounds of [isClhRunning]. *)
Fixpoint ping_go (n : nat) : M cloudHypervisor (bool * option error) :=
  r ← attempt (api VmmPingGetExecute);
  match r with
  | Ok _ => mret (true, None)
  | Err _ =>
      match n with
      | O => mret (false, Some (Errorf "Failed to connect to API (timeout %ds): %s"))
      | S n' => ping_go n'
      end
  end.

Definition isClhRunning (timeout : Z) : M cloudHypervisor (bool * option error) :=
  c ← get;
  r ← try (sys (kill_pid (st_PID (c_state c)) 0));
  match r with
  | Err _ => mret (false, None)
  | Ok _ => ping_go (pings timeout)
  end.

Definition waitVMM (timeout : Z) : M cloudHypervisor unit :=
  r ← isClhRunning timeout;
  match r with
  | (_, Some e) => throw e
  | (false, None) => throw (Errorf "CLH is not running")
  | (true, None) => mret tt
  end.

Definition Check : M cloudHypervisor unit :=
  r ← isClhRunning 10;
  match r with
  | (false, _) => throw (Errorf "clh is not running: %s")
  | (true, Some e) => throw e
  | (true, None) => mret tt
  end.

(** A request whose error is reported by [openAPIClientError]. *)
Definition request {A} (m : M (list exchange) A) : M cloudHypervisor A :=
  r ← attempt (api m); match r with Ok a => mret a | Err e => throw (openAPIClientError e) end.

Definition vmInfo : M cloudHypervisor VmInfo := request VmInfoGetExecute.

(** The body that is logged for debugging is left out, and with it the error of
    writing it, which is the error of the request that sends the same body. *)
Definition bootVM : M cloudHypervisor unit :=
  c ← get;
  _ ← request (CreateVMExecute (c_vmconfig c));
  info ← vmInfo;
  if negb (bool_decide (info_State info = clhStateCreated)) then throw (Errorf "VM state is not 'Created' after 'CreateVM'")
  else
    _ ← request BootVMExecute;
    info ← vmInfo;
    if negb (bool_decide (info_State info = clhStateRunning)) then throw (Errorf "VM state is not 'Running' after 'BootVM'")
    else mret tt.

(** ** Starting and stopping *)

Definition clhPath : M cloudHypervisor string :=
  conf ← config;
  p ← lift (HypervisorAssetPath conf);
  let p := if given p then p else defaultClhPath in
  match host_Stat p with
  | Found _ _ _ => mret p
  | NotExist => throw (Errorf "Cloud-Hypervisor path (%s) does not exist")
  | StatError => throw (ErrExternal "stat")
  end.

Definition clh_args (c : cloudHypervisor) : list string :=
  [cscAPIsocket; st_apiSocket (c_state c)]
  ++ (if hc_Debug (c_config c) then ["-v"] else [])
  ++ (if hc_DisableSeccomp (c_config c) then ["--seccomp"; "false"] else []).

Definition launchClh : M cloudHypervisor Z :=
  path ← clhPath;
  c ← get;
  pid ← sys (perform (StartCmd "" path (clh_args c)));
  _ ← waitVMM clhTimeout;
  mret pid.

(** The machine runs in the process [pid]. *)
Definition run_vm (pid : Z) : M cloudHypervisor unit :=
  _ ← on_state (fun s => s <| st_PID := pid |>);
  _ ← bootVM;
  on_state (fun s => s <| st_state := clhReady |>).

(** The deferred call looks at the error of [launchClh]; the one of [bootVM] is
    in a variable of its own. *)
Definition launch_vm : M cloudHypervisor unit :=
  r ← attempt launchClh;
  match r with
  | Err _ => _ ← attempt stopVirtiofsDaemon; throw (Errorf "failed to launch cloud-hypervisor: %q")
  | Ok pid => run_vm pid
  end.
Definition start_vmm : M cloudHypervisor unit := _ ← setupVirtiofsDaemon; launch_vm.

Definition StartVM : M cloudHypervisor unit :=
  c ← get;
  let conf := c_config c in
  _ ← sys (perform (MkdirAll (PathJoin [hc_VMStorePath conf; c_id c])));
  if hc_DisableSeLinux conf then start_vmm
  else
    _ ← sys (perform (SetProcessLabel (hc_SELinuxProcessLabel conf)));
    finally start_vmm (_ ← try (sys (perform (SetProcessLabel ""))); mret tt).

(** [os.RemoveAll], whose error ends the method unless [force] is set. *)
Definition remove_all (force : bool) (dir : string) : M cloudHypervisor unit :=
  r ← try (sys (perform (RemoveAll dir)));
  match r with Ok _ => mret tt | Err e => if force then mret tt else throw e end.

Definition cleanupVM (force : bool) : M cloudHypervisor unit :=
  c ← get;
  let conf := c_config c in
  if negb (given (c_id c)) then throw (Errorf "Hypervisor ID is empty")
  else
    path ← try (vsockSocketPath (c_id c));
    _ ← (match path with Ok p => _ ← try (sys (perform (Remove p))); mret tt | Err _ => mret tt end);
    let dir := PathJoin [hc_VMStorePath conf; c_id c] in
    let link := match EvalSymlinks dir with Ok l => l | Err _ => "" end in
    _ ← remove_all force dir;
    _ ← when (negb (bool_decide (link = dir)) && given link) (remove_all force link);
    _ ← when (given (hc_VMid conf)) (remove_all force (PathJoin [hc_VMStorePath conf; hc_VMid conf]));
    on_state state_reset.

(** A machine that answers is asked to shut down. *)
Definition shutdown (waitOnly : bool) (pid : Z) : M cloudHypervisor unit :=
  when (negb (pid =? 0) && negb waitOnly)
    (r ← isClhRunning clhStopSandboxTimeout; when r.1 (api ShutdownVMMExecute)).

Definition stop_vmm (waitOnly : bool) : M cloudHypervisor unit :=
  c ← get;
  let pid := st_PID (c_state c) in
  _ ← shutdown waitOnly pid;
  _ ← sys (wait_local pid clhStopSandboxTimeout 0);
  stopVirtiofsDaemon.

Definition terminate (waitOnly : bool) : M cloudHypervisor unit := finally (stop_vmm waitOnly) (cleanupVM true).
Definition StopVM (waitOnly : bool) : M cloudHypervisor unit := terminate waitOnly.

(** ** Hot plugging *)

Definition set_drive_path (p : PciPath) (d : Config.BlockDrive) : Config.BlockDrive :=
  Config.mkBlockDrive (Config.bd_File d) (Config.bd_Format d) (Config.bd_ID d) (Config.bd_MmioAddr d)
    (Config.bd_SCSIAddr d) (Config.bd_NvdimmID d) (Config.bd_VirtPath d) (Config.bd_DevNo d) p (Config.bd_Index d)
    (Config.bd_ShareRW d) (Config.bd_ReadOnly d) (Config.bd_Pmem d) (Config.bd_Swap d).
Definition set_guest_path (p : PciPath) (d : Config.VFIODev) : Config.VFIODev :=
  Config.mkVFIODev (Config.vd_ID d) (Config.vd_BDF d) (Config.vd_SysfsDev d) (Config.vd_VendorID d)
    (Config.vd_DeviceID d) (Config.vd_Class d) (Config.vd_Bus d) p (Config.vd_Type d) (Config.vd_IsPCIe d).

Definition on_clh {D A} (m : M cloudHypervisor A) : M (cloudHypervisor * D) A := fun s =>
  let '(r, c) := m s.1 in (r, (c, s.2)).

(** [x, err = r]: the zero value is stored with an error. *)
Definition path_or_nil (r : res PciPath) : PciPath := match r with Ok p => p | Err _ => [] end.

Definition disk_config (drive : Config.BlockDrive) : DiskConfig :=
  (NewDiskConfig (Config.bd_File drive)) <| disk_Readonly := Some (Config.bd_ReadOnly drive) |>
    <| disk_VhostUser := Some false |> <| disk_Id := Some (clhDriveIndexToID (Config.bd_Index drive)) |>.

Definition hotplugAddBlockDevice : M (cloudHypervisor * Config.BlockDrive) unit :=
  s ← get;
  let drive := s.2 in
  if Config.bd_Swap drive then throw (Errorf "cloudHypervisor doesn't support swap")
  else if negb (bool_decide (hc_BlockDeviceDriver (c_config s.1) = Config.VirtioBlock)) then
    throw (Errorf "incorrect hypervisor configuration on 'block_device_driver': using '%v' but only support '%v'")
  else if Config.bd_Pmem drive then throw (Errorf "pmem device hotplug not supported")
  else
    r ← on_clh (attempt (api (VmAddDiskPutExecute (disk_config drive))));
    match r with
    | Err _ => throw (Errorf "failed to hotplug block device %+v %s")
    | Ok pciInfo =>
        let p := clhPciInfoToPath pciInfo in
        _ ← modify (fun s => (s.1, set_drive_path (path_or_nil p) s.2));
        _ ← lift p; mret tt
    end.

Definition add_device (device : Config.VFIODev) : VmAddDevice :=
  NewVmAddDevice <| ad_Path := Some (Config.vd_SysfsDev device) |> <| ad_Id := Some (Config.vd_ID device) |>.

(** The address is parsed as in [clhPciInfoToPath], except that the device is
    left as it is when the address is not understood. *)
Definition hotPlugVFIODevice : M (cloudHypervisor * Config.VFIODev) unit :=
  s ← get;
  r ← on_clh (attempt (api (VmAddDevicePutExecute (add_device s.2))));
  match r with
  | Err _ => throw (Errorf "Failed to hotplug device %+v %s")
  | Ok pciInfo =>
      match bdf_slot (pci_Bdf pciInfo) with
      | None => lift bad_address
      | Some slot =>
          let p := PciPathFromString slot in
          _ ← modify (fun s => (s.1, set_guest_path (path_or_nil p) s.2));
          _ ← lift p; mret tt
      end
  end.

(** The device and its type; the other types are refused. *)
Inductive hot_device : Type :=
| HotBlock (d : Config.BlockDrive)
| HotVFIO (d : Config.VFIODev)
| HotOther.

(** The pair with one of the devices *)
Definition with_device {D} (wrap : D -> hot_device) (d : D) (m : M (cloudHypervisor * D) unit) :
    M (cloudHypervisor * hot_device) unit := fun s =>
  let '(r, (c, d')) := m (s.1, d) in (r, (c, wrap d')).

Definition HotplugAddDevice : M (cloudHypervisor * hot_device) unit :=
  s ← get;
  match s.2 with
  | HotBlock d => with_device HotBlock d hotplugAddBlockDevice
  | HotVFIO d => with_device HotVFIO d hotPlugVFIODevice
  | HotOther => throw (Errorf "cannot hotplug device: unsupported device type '%v'")
  end.

Definition device_id (d : hot_device) : option string :=
  match d with
  | HotBlock d => Some (clhDriveIndexToID (Config.bd_Index d))
  | HotVFIO d => Some (Config.vd_ID d)
  | HotOther => None
  end.

Definition HotplugRemoveDevice (d : hot_device) : M cloudHypervisor unit :=
  match device_id d with
  | None => throw (Errorf "Could not hot remove device: unsupported device: %v, type: %v")
  | Some deviceID =>
      r ← attempt (api (VmRemoveDevicePutExecute (NewVmRemoveDevice <| rd_Id := Some deviceID |>)));
      match r with Ok _ => mret tt | Err _ => throw (Errorf "failed to hotplug remove (unplug) device %+v: %s") end
  end.

(** ** Resizing *)

(** The values of the methods are returned next to their error. *)
Definition no_device : MemoryDevice := mkMemoryDevice 0 0 0 false.
Definition device_of (sizeMB : Z) : MemoryDevice := mkMemoryDevice 0 sizeMB 0 false.

(** The request in bytes after it is aligned to the block size, and the part
    that is added; [None]: a division by zero. *)
Definition aligned_request (currentMem newMem memoryBlockSizeMB : Z) : option (Z * Z) :=
  hotplugSize ← AlignMem (u64 (newMem - currentMem)) (u64 (memoryBlockSizeMB * MiB));
  Some (u64 (currentMem + hotplugSize), hotplugSize).

Definition ErrDivide : error := ErrExternal "integer divide by zero".

Definition ResizeMemory (reqMemMB memoryBlockSizeMB : Z) (probe : bool) :
    M cloudHypervisor (Z * MemoryDevice * option error) :=
  if probe then mret (0, no_device, Some (Errorf "probe memory is not supported for cloud-hypervisor"))
  else if reqMemMB =? 0 then mret (0, no_device, Some (Errorf "Can not resize memory to 0"))
  else
    r ← attempt vmInfo;
    match r with
    | Err e => mret (0, no_device, Some e)
    | Ok info =>
        match vm_Memory (info_Config info) with
        | None => throw ErrNilDeref
        | Some memory =>
            let currentMem := u64 (mem_Size memory) in
            let newMem := u64 (reqMemMB * MiB) in
            let current := u32 (ToMiB currentMem) in
            if newMem <=? currentMem then mret (current, no_device, None)
            else
              match aligned_request currentMem newMem memoryBlockSizeMB with
              | None => throw ErrDivide
              | Some (newMem, hotplugSize) =>
                  if currentMem =? newMem then mret (current, no_device, None)
                  else
                    r ← attempt (api (VmResizePutExecute (NewVmResize <| rs_DesiredRam := Some (i64 (ToBytes newMem)) |>)));
                    match r with
                    | Err e => mret (current, no_device, Some (openAPIClientError e))
                    | Ok _ => mret (u32 (ToMiB newMem), device_of (ToMiB hotplugSize), None)
                    end
              end
        end
    end.

Definition ResizeVCPUs (reqVCPUs : Z) : M cloudHypervisor (Z * Z * option error) :=
  r ← attempt vmInfo;
  match r with
  | Err e => mret (0, 0, Some (openAPIClientError e))
  | Ok info =>
      match vm_Cpus (info_Config info) with
      | None => throw ErrNilDeref
      | Some cpus =>
          let currentVCPUs := u32 (cpus_BootVcpus cpus) in
          if reqVCPUs =? 0 then mret (currentVCPUs, currentVCPUs, Some (Errorf "Cannot resize vCPU to 0"))
          else
            let reqVCPUs := if u32 (cpus_MaxVcpus cpus) <? reqVCPUs then u32 (cpus_MaxVcpus cpus) else reqVCPUs in
            r ← attempt (api (VmResizePutExecute (NewVmResize <| rs_DesiredVcpus := Some (i32 reqVCPUs) |>)));
            match r with
            | Err _ => mret (currentVCPUs, currentVCPUs, Some (Errorf "[clh] VmResizePut failed"))
            | Ok _ => mret (currentVCPUs, reqVCPUs, None)
            end
      end
  end.

(** ** Devices of the command line *)

(** What [addNet] asks an endpoint: its address, and the name of the tap device
    of its pair if it has one. *)
Record Endpoint : Type := mkEndpoint { ep_HardwareAddr : string; ep_NetworkPair : option string }.

Record HybridVSock : Type := mkHybridVSock { hv_UdsPath : string; hv_Port : Z }.

Inductive cold_device : Type :=
| ColdEndpoint (e : Endpoint)
| ColdVSock (v : HybridVSock)
| ColdVolume (v : Types.Volumes.Volume)
| ColdOther.

Definition addNet (e : Endpoint) : M cloudHypervisor unit :=
  match ep_NetworkPair e with
  | None => throw (Errorf "net Pair to be added is nil, needed to get TAP path")
  | Some tapPath =>
      if given tapPath then
        on_vmconfig (fun v => v <| vm_Net ::= fun l =>
          append_opt l (NewNetConfig <| net_Mac := Some (ep_HardwareAddr e) |> <| net_Tap := Some tapPath |>) |>)
      else throw (Errorf "TAP path in network pair is empty")
  end.

Definition addVSock (cid : Z) (path : string) : M cloudHypervisor unit :=
  on_vmconfig (fun v => v <| vm_Vsock := Some (NewVsockConfig cid path) |>).

(** [VirtioFSCacheSize] is a [uint32], and is shifted at that width. *)
Definition addVolume (volume : Types.Volumes.Volume) : M cloudHypervisor unit :=
  c ← get;
  let conf := c_config c in
  if negb (bool_decide (hc_SharedFS conf = VirtioFS)) && negb (bool_decide (hc_SharedFS conf = VirtioFSNydus))
  then throw (Errorf "shared fs method not supported %s")
  else
    vfsdSockPath ← virtioFsSocketPath (c_id c);
    let dax := negb (hc_VirtioFSCacheSize conf =? 0) in
    on_vmconfig (fun v => v <| vm_Fs :=
      Some [NewFsConfig (Types.Volumes.vol_MountTag volume) vfsdSockPath 1 1024 dax
              (i64 (u32 (Z.shiftl (hc_VirtioFSCacheSize conf) 20)))] |>).

Definition AddDevice (devInfo : cold_device) : M cloudHypervisor unit :=
  c ← get;
  match devInfo with
  | ColdEndpoint e => addNet e
  | ColdVSock v => addVSock defaultGuestVSockCID (hv_UdsPath v)
  | ColdVolume v =>
      if supportsSharedFS (c_config c) then addVolume v else throw (Errorf "SharedFS is not supported")
  | ColdOther => throw (Errorf "Not implemented support for %s")
  end.

(** ** The rest of the interface *)

Record ClhSaved : Type := mkClhSaved { sv_Type : string; sv_Pid : Z; sv_VirtiofsDaemonPid : Z; sv_APISocket : string }.

Definition Save (c : cloudHypervisor) : ClhSaved :=
  mkClhSaved ClhHypervisor (st_PID (c_state c)) (st_VirtiofsDaemonPid (c_state c)) (st_apiSocket (c_state c)).

Definition Load (s : ClhSaved) : M cloudHypervisor unit :=
  on_state (fun st => st <| st_PID := sv_Pid s |> <| st_VirtiofsDaemonPid := sv_VirtiofsDaemonPid s |>
                         <| st_apiSocket := sv_APISocket s |>).

Definition GetPids (c : cloudHypervisor) : list Z := [st_PID (c_state c)].
Definition GetVirtioFsPid (c : cloudHypervisor) : Z := st_VirtiofsDaemonPid (c_state c).

Definition GetVMConsole : M cloudHypervisor (string * string) :=
  slave ← lift NewPty;
  _ ← modify (fun c => c <| c_console := Some slave |>);
  mret ("pty", slave).

Definition GenerateSocket (id : string) : M cloudHypervisor HybridVSock :=
  udsPath ← vsockSocketPath id; mret (mkHybridVSock udsPath vSockPort).

Definition toGrpc : M cloudHypervisor string := throw (Errorf "cloudHypervisor is not supported by VM cache").

End Clh.

End Clh.
