(* ===== verification/ClhSpec.v ===== *)
(** * What the Cloud Hypervisor driver does

    The requests that are made and what they leave alone, the values of the
    configuration, and the invariant that ties the processes that are recorded to
    the ones that were started. *)
From S2P Require Import Prelude GoStr Types Utils Devices Hypervisor Qemu Qmp QmpCmd QemuArch ClhModel ClhApi Virtiofsd Clh.

Module ClhSpec.
Import ClhApi Virtiofsd QemuArch HypervisorConf Filepath Clh.
Import Qemu(given).
Import Types.PciPaths(PciPath, PciPathFromString, PciSlotFromString, PciSlot_String, slot_ok).
Import Names(MiB, ToBytes, ToMiB, AlignMem).

(** ** Requests *)

(** The request an endpoint makes. *)
Definition call (method path : string) (body : option Qmp.json) (returns : bool) : http_request :=
  prepareRequest (server_url +:+ path) method body
    (header "Content-Type" (selectHeaderContentType (match body with Some _ => ["application/json"] | None => [] end))
     ++ header "Accept" (selectHeaderAccept (if returns then ["application/json"] else []))).

(** An answer the client takes, with its body. *)
Definition accepted (a : http_result) (body : content) : Prop := exists status, a = Response status body /\ status < 300.

Section Spec.
Context `{QemuHost, DaemonHost, HttpServer, ClhHost}.

(** An endpoint makes one request; it fails unless the answer is accepted. *)
Lemma execute_spec method path body returns h :
  let q := call method path body returns in
  let '(r, h') := execute method path body returns h in
  h' = h ++ [(q, http_do h q)] /\
  match r with Ok b => accepted (http_do h q) b | Err _ => forall b, ~ accepted (http_do h q) b end.
Proof.
  unfold call, execute, callAPI. munfold. cbv zeta beta. set (q := prepareRequest _ _ _ _).
  destruct (http_do h q) as [e|st e|st b]; [by split; [|intros b (? & ? & _)]..|].
  destruct (Z.leb_spec 300 st); simpl; (split; [done|]); [|by eexists]. intros b' (st' & [= <- <-] & ?). lia.
Qed.

(** [sends q ok m]: the computation makes the request [q] and nothing else; a
    result comes from an accepted answer whose body satisfies [ok]. *)
Definition sends {A} (q : http_request) (ok : content -> A -> Prop) (m : M (list exchange) A) : Prop := forall h,
  let '(r, h') := m h in
  h' = h ++ [(q, http_do h q)] /\ match r with Ok a => exists b, accepted (http_do h q) b /\ ok b a | Err _ => True end.

Lemma sends_put path body : sends (call "PUT" path body false) (fun _ _ => True) (put path body).
Proof.
  intros h. unfold put. munfold. pose proof (execute_spec "PUT" path body false h) as E.
  destruct (execute "PUT" path body false h) as [[b|e] h']; destruct E as [-> E]; split; try done. by exists b.
Qed.
Lemma sends_put_get {A} path body (c : codec A) :
  sends (call "PUT" path body true) (fun b a => decode c b = Ok a) (put_get path body c).
Proof.
  intros h. unfold put_get. munfold. pose proof (execute_spec "PUT" path body true h) as E.
  destruct (execute "PUT" path body true h) as [[b|e] h']; destruct E as [-> E]; [|done]. split; [done|].
  destruct (decode c b) eqn:Ed; [|done]. by exists b.
Qed.
Lemma sends_get {A} path (c : codec A) : sends (call "GET" path None true) (fun b a => decode c b = Ok a) (get_ path c).
Proof.
  intros h. unfold get_. munfold. pose proof (execute_spec "GET" path None true h) as E.
  destruct (execute "GET" path None true h) as [[b|e] h']; destruct E as [-> E]; [|done]. split; [done|].
  destruct (decode c b) eqn:Ed; [|done]. by exists b.
Qed.
#[local] Hint Resolve sends_put sends_put_get sends_get : stays.

(** ** What requests leave alone *)

(** Only requests were made and operations done to the host. *)
Definition untouched (c c' : cloudHypervisor) : Prop :=
  c' = c <| c_api := c_api c' |> <| c_world := c_world c' |> /\
  (exists l, c_api c' = c_api c ++ l) /\ grows (c_world c) (c_world c').

#[local] Instance untouched_preorder : PreOrder untouched.
Proof.
  split.
  - intros [? ? ? ? ? ? ? ? ?]. split_and!; [done|exists []; by rw app_nil_r|done].
  - intros c1 c2 c3 (E1 & [l1 A1] & G1) (E2 & [l2 A2] & G2). split_and!; [|exists (l1 ++ l2); by rw A2 A1 app_assoc|by etrans].
    rw E2 E1. by destruct c1.
Qed.

Lemma untouched_api {A} q ok (m : M (list exchange) A) : sends q ok m -> stays untouched (api m).
Proof.
  intros Hm c. unfold api. destruct (c_APIClient c); [|done]. specialize (Hm (c_api c)).
  destruct (m (c_api c)) as [r h]. destruct Hm as [-> _]. simpl. split_and!; [by destruct c|by eexists|done].
Qed.
Lemma untouched_sys {A} (m : M world A) : stays grows m -> stays untouched (sys m).
Proof.
  intros Hm c. unfold sys. specialize (Hm (c_world c)). destruct (m (c_world c)) as [r w]. simpl in *.
  split_and!; [by destruct c|exists []; by rw app_nil_r|done].
Qed.
Lemma untouched_perform a : stays untouched (sys (perform a)).
Proof. apply untouched_sys. intros w. by exists [a]. Qed.
Lemma untouched_kill pid sig : stays untouched (sys (kill_pid pid sig)).
Proof. apply untouched_sys. intros w. by exists [Kill pid sig]. Qed.
Lemma untouched_wait pid timeout sig : stays untouched (sys (wait_local pid timeout sig)).
Proof. apply untouched_sys. intros w. unfold wait_local. destruct (WaitProcess.WaitLocalProcess _ _ _ _) as [[r l]|]; [by eexists|done]. Qed.
Lemma stays_attempt {A} (R : relation cloudHypervisor) (m : M cloudHypervisor A) : stays R m -> stays R (attempt m).
Proof. intros Hm c. specialize (Hm c). unfold attempt. destruct (m c) as [[a|e] c']; [done|]. by case_bool_decide. Qed.

#[local] Hint Resolve untouched_perform untouched_kill untouched_wait stays_attempt : stays.
#[local] Hint Extern 2 (stays untouched (api _)) =>
  eapply untouched_api; first [apply sends_get | apply sends_put_get | apply sends_put] : stays.

Lemma untouched_ping n : stays untouched (ping_go n).
Proof. induction n; simpl; stays. Qed.
#[local] Hint Resolve untouched_ping : stays.
Lemma untouched_isClhRunning timeout : stays untouched (isClhRunning timeout).
Proof. unfold isClhRunning. stays. Qed.
#[local] Hint Resolve untouched_isClhRunning : stays.
Lemma untouched_waitVMM timeout : stays untouched (waitVMM timeout).
Proof. unfold waitVMM. stays. Qed.
Lemma untouched_clhPath : stays untouched clhPath.
Proof. unfold clhPath, config. stays. Qed.
#[local] Hint Resolve untouched_waitVMM untouched_clhPath : stays.
Lemma untouched_launch : stays untouched launchClh.
Proof. unfold launchClh. stays. Qed.
Lemma untouched_request {A} (m : M (list exchange) A) : stays untouched (api m) -> stays untouched (request m).
Proof. intros Hm. unfold request. stays. Qed.
#[local] Hint Resolve untouched_launch untouched_request : stays.
Lemma untouched_vmInfo : stays untouched vmInfo.
Proof. unfold vmInfo. eauto with stays. Qed.
#[local] Hint Resolve untouched_vmInfo : stays.
Lemma untouched_bootVM : stays untouched bootVM.
Proof. unfold bootVM. stays. Qed.
Lemma untouched_ResizeMemory r b p : stays untouched (ResizeMemory r b p).
Proof. unfold ResizeMemory. stays. Qed.
Lemma untouched_ResizeVCPUs n : stays untouched (ResizeVCPUs n).
Proof. unfold ResizeVCPUs. stays. Qed.
Lemma untouched_Check : stays untouched Check.
Proof. unfold Check. stays. Qed.
Lemma untouched_HotplugRemoveDevice d : stays untouched (HotplugRemoveDevice d).
Proof. unfold HotplugRemoveDevice. stays. Qed.

(** A request that fills in a device. *)
Definition untouched1 {D} (s s' : cloudHypervisor * D) : Prop := untouched s.1 s'.1.
#[local] Instance untouched1_preorder {D} : PreOrder (@untouched1 D).
Proof. unfold untouched1. split; [by intros s|]. intros s1 s2 s3 ? ?. by etrans. Qed.
Lemma untouched_on_clh {D A} (m : M cloudHypervisor A) : stays untouched m -> stays (@untouched1 D) (on_clh m).
Proof. intros Hm s. specialize (Hm s.1). unfold on_clh, untouched1. by destruct (m s.1). Qed.
Lemma untouched1_modify {D} (f : D -> D) : stays untouched1 (modify (fun s : cloudHypervisor * D => (s.1, f s.2))).
Proof. intros s. unfold untouched1. simpl. done. Qed.
#[local] Hint Resolve untouched_on_clh untouched1_modify : stays.

Lemma untouched_HotplugAddDevice : stays untouched1 HotplugAddDevice.
Proof.
  assert (stays untouched1 hotplugAddBlockDevice) as Hb by (unfold hotplugAddBlockDevice; stays).
  assert (stays untouched1 hotPlugVFIODevice) as Hv by (unfold hotPlugVFIODevice; stays).
  intros [c d]. unfold HotplugAddDevice, with_device. munfold. simpl. destruct d as [d|d|]; cbn [fst].
  - specialize (Hb (c, d)). by destruct (hotplugAddBlockDevice (c, d)) as [r [c' d']].
  - specialize (Hv (c, d)). by destruct (hotPlugVFIODevice (c, d)) as [r [c' d']].
  - unfold untouched1. done.
Qed.

(** ** The processes *)

Lemma setup_spec `{!DaemonHostLaws} c :
  if supportsSharedFS (c_config c) then
    let '(r, c') := setupVirtiofsDaemon c in
    match r with
    | Err _ => exists w, c' = c <| c_world := w |> /\ grows (c_world c) w
    | Ok _ => exists d w pid,
        c' = c <| c_virtiofsDaemon := Some d |> <| c_world := w |>
               <| c_state ::= fun s => s <| st_VirtiofsDaemonPid := pid |> |> /\
        pid_of d = pid /\ 0 < pid /\ grows (c_world c) w
    end
  else setupVirtiofsDaemon c = (Ok tt, c).
Proof.
  unfold setupVirtiofsDaemon, daemon, on_state. munfold. simpl. destruct (supportsSharedFS (c_config c)); [|done]. simpl.
  destruct (bool_decide _); [by exists (c_world c); destruct c|].
  destruct (c_virtiofsDaemon c) as [d|] eqn:Ed; [|by exists (c_world c); destruct c].
  pose proof (Start_spec d (c_world c)) as HS. rw Ed. destruct (Start (d, c_world c)) as [[pid|e] [d' w]]; destruct HS as [G HS].
  - destruct HS as [E1 E2]. by exists d', w, pid.
  - subst d'. exists w. split; [|done]. destruct c. simpl in *. by subst.
Qed.

(** The process of the daemon that is recorded is the one the daemon knows. *)
Definition daemon_known (c : cloudHypervisor) : Prop :=
  st_VirtiofsDaemonPid (c_state c) <> 0 ->
  0 < st_VirtiofsDaemonPid (c_state c) /\
  exists d, c_virtiofsDaemon c = Some d /\ pid_of d = st_VirtiofsDaemonPid (c_state c).

Lemma stop_spec `{!DaemonHostLaws} c :
  daemon_known c ->
  if supportsSharedFS (c_config c) && negb (st_VirtiofsDaemonPid (c_state c) =? 0) then
    exists d w, stopVirtiofsDaemon c =
      (Ok tt, c <| c_virtiofsDaemon := Some d |> <| c_world := w |>
                <| c_state ::= fun s => s <| st_VirtiofsDaemonPid := 0 |> |>) /\
      signals (st_VirtiofsDaemonPid (c_state c)) (c_world c) w
  else stopVirtiofsDaemon c = (Ok tt, c).
Proof.
  intros Hk. unfold stopVirtiofsDaemon, daemon, on_state. munfold. simpl.
  destruct (supportsSharedFS (c_config c)); [|done]. simpl.
  destruct (Z.eqb_spec (st_VirtiofsDaemonPid (c_state c)) 0) as [|Hp]; [done|]. simpl.
  destruct (Hk Hp) as (_ & d & Ed & Epid). rw Ed. pose proof (Stop_spec d (c_world c)) as HS.
  destruct (Stop (d, c_world c)) as [r [d' w]]. destruct HS as [-> HS]. exists d', w. by rw -Epid.
Qed.

(** ** The configuration of the machine *)

Lemma i64_range x : - 2 ^ 63 <= i64 x < 2 ^ 63.
Proof. unfold i64. pose proof (Z.mod_pos_bound (x + 2 ^ 63) (2 ^ 64) ltac:(done)). lia. Qed.
Lemma i32_range x : - 2 ^ 31 <= i32 x < 2 ^ 31.
Proof. unfold i32. pose proof (Z.mod_pos_bound (x + 2 ^ 31) (2 ^ 32) ltac:(done)). lia. Qed.
Lemma ok_int32 x : okc c_int32 (i32 x).
Proof. apply i32_range. Qed.
Lemma ok_int64 x : okc c_int64 (i64 x).
Proof. apply i64_range. Qed.
Lemma ok_append {A} (c : codec A) l x : ok_opt (c_list c) l -> okc c x -> Forall (okc c) (default [] l ++ [x]).
Proof.
  intros Hl Hx. apply Forall_app. rw Forall_singleton. split; [|done]. by destruct l; [|constructor].
Qed.

(** A value whose fields are constants fits. *)
Ltac fits := repeat split; simpl; try done; lia.

Definition sgx_ok (conf : HypervisorConfig) : Prop := - 2 ^ 63 <= hc_SGXEPCSize conf < 2 ^ 63.

(** The values of the configuration fit their types. *)
Definition values_ok (c : cloudHypervisor) : Prop := VmConfig_ok (c_vmconfig c) /\ sgx_ok (c_config c).

Lemma values_on_vmconfig f : (forall v, VmConfig_ok v -> VmConfig_ok (f v)) -> stays (keeps values_ok) (on_vmconfig f).
Proof. intros Hf c [Hv Hs]. split; [by apply Hf|done]. Qed.
Lemma values_modify f :
  (forall c, c_vmconfig (f c) = c_vmconfig c /\ c_config (f c) = c_config c) -> stays (keeps values_ok) (modify f).
Proof. intros Hf c. destruct (Hf c) as [E1 E2]. unfold keeps, values_ok. simpl. by rw E1 E2. Qed.
Lemma values_untouched {A} (m : M cloudHypervisor A) : stays untouched m -> stays (keeps values_ok) m.
Proof. intros Hm c. destruct (Hm c) as (E & _). unfold keeps, values_ok. by rw E. Qed.

Ltac on_config := apply values_on_vmconfig; intros [] Hv; unfold VmConfig_ok in *; simpl in *;
  repeat match goal with |- _ /\ _ => split end; try tauto.
Ltac values := repeat first [progress stays | apply values_modify; by intros ? | done].

Lemma values_boot_image : stays (keeps values_ok) boot_image.
Proof.
  unfold boot_image, config. values; on_config; [apply (ok_append DiskConfig_codec)|apply (ok_append PmemConfig_codec)]; try tauto; fits.
Qed.

Lemma Valid_sgx conf : sgx_ok conf -> sgx_ok (Valid conf).2.
Proof. intros Hs. unfold Valid. munfold. destruct (bool_decide _); [done|]. destruct (image_check conf); [|done]. by destruct (CheckTemplateConfig conf). Qed.

Lemma stays_socket_path (R : relation cloudHypervisor) `{!PreOrder R} id name : stays R (socket_path id name).
Proof. unfold socket_path, config. stays. Qed.
Lemma stays_createVirtiofsDaemon (R : relation cloudHypervisor) `{!PreOrder R} path : stays R (createVirtiofsDaemon path).
Proof. unfold createVirtiofsDaemon, virtioFsSocketPath, nydusdAPISocketPath. stays; by apply stays_socket_path. Qed.
Lemma stays_loadVirtiofsDaemon (R : relation cloudHypervisor) `{!PreOrder R} path : stays R (loadVirtiofsDaemon path).
Proof. unfold loadVirtiofsDaemon, virtioFsSocketPath. stays; by apply stays_socket_path. Qed.
#[local] Hint Extern 1 (stays _ (socket_path _ _)) => apply stays_socket_path; apply _ : stays.
#[local] Hint Extern 1 (stays _ (createVirtiofsDaemon _)) => apply stays_createVirtiofsDaemon; apply _ : stays.
#[local] Hint Extern 1 (stays _ (loadVirtiofsDaemon _)) => apply stays_loadVirtiofsDaemon; apply _ : stays.
#[local] Hint Resolve values_boot_image : stays.

Lemma cpus_ok conf : CpusConfig_ok (NewCpusConfig (i32 (hc_NumVCPUs conf)) (i32 (hc_DefaultMaxVCPUs conf))).
Proof. repeat split; try apply i32_range; done. Qed.

Lemma values_create_rest conf id : sgx_ok conf -> stays (keeps values_ok) (create_rest conf id).
Proof.
  intros Hs. unfold create_rest, apiSocketPath, on_state. values; on_config; [apply cpus_ok| |].
  - destruct vm_Cpus0 as [k|]; [|done]. destruct Hv as [(? & ? & ? & ? & ?) _].
    split_and!; [done..| |done|done]. repeat split; first [done|apply i32_range].
  - apply (ok_append SgxEpcConfig_codec); [tauto|done].
Qed.
#[local] Hint Resolve values_create_rest : stays.

Lemma values_enableProtection : stays (keeps values_ok) enableProtection.
Proof. unfold enableProtection, config. values; on_config. Qed.
#[local] Hint Resolve values_enableProtection : stays.

Lemma memory_ok conf : MemoryConfig_ok (memory_config conf).
Proof. repeat split; try apply i64_range; done. Qed.


Lemma values_create_new conf id : sgx_ok conf -> stays (keeps values_ok) (create_new conf id).
Proof.
  intros Hs. unfold create_new. values; on_config; [apply memory_ok|].
  destruct vm_Memory0 as [m|]; [|done]. destruct Hv as (_ & (? & ? & ? & ? & ?) & _). split_and!; [done| |done..]. apply ok_int64.
Qed.

Lemma values_CreateVM id conf : sgx_ok conf -> stays (keeps values_ok) (CreateVM id conf).
Proof.
  intros Hs c Hc. unfold CreateVM, setConfig. pose proof (Valid_sgx conf Hs) as Hs'.
  destruct (Valid conf) as [[[]|e] conf']; [|done].
  munfold. cbn [fst snd]. unfold on_state. munfold.
  set (c1 := ((c <| c_config := conf' |>) <| c_id := id |>) <| c_state ::= _ |>). assert (values_ok c1) as Hc1 by by destruct Hc.
  destruct (0 <? _).
  - pose proof (stays_loadVirtiofsDaemon (keeps values_ok) (hc_SharedFS conf') c1 Hc1) as Hc2.
    change (c_config c1) with conf'. by destruct (loadVirtiofsDaemon _ c1) as [[d|e] c2].
  - by apply values_create_new.
Qed.


Lemma values_AddDevice d : stays (keeps values_ok) (AddDevice d).
Proof.
  unfold AddDevice, addNet, addVSock, addVolume, virtioFsSocketPath. values; on_config.
  - apply (ok_append NetConfig_codec); [tauto|fits].
  - fits.
  - apply Forall_singleton. split; [fits|]. split; [fits|]. split; [|done]. apply ok_int64.
Qed.

(** ** The invariant *)

(** The configuration fits its types; the process of the daemon that is recorded
    is the one the daemon knows, and is recorded only next to a machine. *)
Definition inv (c : cloudHypervisor) : Prop :=
  values_ok c /\ daemon_known c /\ (st_VirtiofsDaemonPid (c_state c) <> 0 -> 0 < st_PID (c_state c)).

Lemma inv_untouched c c' : untouched c c' -> inv c -> inv c'.
Proof. intros (E & _). unfold inv, values_ok, daemon_known. by rw E. Qed.

(** Calls that change the configuration only. *)
Definition same_pids (c c' : cloudHypervisor) : Prop :=
  st_PID (c_state c') = st_PID (c_state c) /\ st_VirtiofsDaemonPid (c_state c') = st_VirtiofsDaemonPid (c_state c).
#[local] Instance same_pids_preorder : PreOrder same_pids.
Proof. split; [by intros c|]. intros c1 c2 c3 [E1 E2] [F1 F2]. split; by etrans. Qed.
Ltac pids := repeat first [progress stays | apply stays_modify; by intros ? | done].

Lemma pids_boot_image : stays same_pids boot_image.
Proof. unfold boot_image, config, on_vmconfig. pids. Qed.
#[local] Hint Resolve pids_boot_image : stays.
Lemma pids_CreateVM id conf : stays same_pids (CreateVM id conf).
Proof.
  unfold CreateVM, create_new, create_rest, enableProtection, setConfig, config, on_vmconfig, on_state, apiSocketPath. pids.
Qed.

Lemma inv_CreateVM id conf c : sgx_ok conf -> st_PID (c_state c) <= 0 -> inv c -> inv (CreateVM id conf c).2.
Proof.
  intros Hs Hp (Hv & Hd & Hr). destruct (pids_CreateVM id conf c) as [E1 E2].
  split; [by apply values_CreateVM|]. unfold daemon_known. rw E1 E2. split; [|done]. intros Hn. apply Hr in Hn. lia.
Qed.

(** Calls that leave the processes alone. *)
Definition same_books (c c' : cloudHypervisor) : Prop :=
  c_virtiofsDaemon c' = c_virtiofsDaemon c /\ c_state c' = c_state c.
#[local] Instance same_books_preorder : PreOrder same_books.
Proof. split; [by intros c|]. intros c1 c2 c3 [E1 E2] [F1 F2]. split; by etrans. Qed.

Lemma inv_books c c' : same_books c c' -> keeps values_ok c c' -> inv c -> inv c'.
Proof. intros [E1 E2] Hk (Hv & Hd & Hr). split; [by apply Hk|]. unfold daemon_known. by rw E1 E2. Qed.

Lemma inv_AddDevice d c : inv c -> inv (AddDevice d c).2.
Proof.
  apply inv_books; [|apply values_AddDevice].
  revert c. change (stays same_books (AddDevice d)).
  unfold AddDevice, addNet, addVSock, addVolume, virtioFsSocketPath, on_vmconfig. pids.
Qed.

Lemma inv_GetVMConsole c : inv c -> inv (GetVMConsole c).2.
Proof. apply inv_books; unfold GetVMConsole, keeps, values_ok; munfold; by destruct NewPty. Qed.

(** ** Starting *)

Lemma launch_pid `{!DaemonHostLaws} c pid c' : launchClh c = (Ok pid, c') -> 0 < pid.
Proof.
  unfold launchClh. munfold. destruct (clhPath c) as [[path|e] c1]; [|done]. unfold sys, perform. simpl.
  destruct (act_result _ _) as [p|e] eqn:E; [|done]. destruct (waitVMM _ _) as [[[]|e] c2]; [|done].
  intros [= <- _]. by eapply start_pid.
Qed.

Lemma attempt_spec {A} (m : M cloudHypervisor A) c :
  match m c with
  | (Ok a, c') => attempt m c = (Ok (Ok a), c')
  | (Err e, c') => attempt m c = (Ok (Err e), c') \/ attempt m c = (Err ErrNilDeref, c')
  end.
Proof. unfold attempt. destruct (m c) as [[a|e] c']; [done|]. case_bool_decide; subst; auto. Qed.

End Spec.

#[export] Existing Instance untouched_preorder.
#[export] Existing Instance same_pids_preorder.
#[export] Existing Instance same_books_preorder.
#[export] Hint Resolve untouched_perform untouched_kill untouched_wait stays_attempt untouched_ping untouched_isClhRunning
  untouched_waitVMM untouched_clhPath untouched_launch untouched_request untouched_vmInfo untouched_bootVM : stays.
#[export] Hint Extern 2 (stays untouched (api _)) =>
  eapply untouched_api; first [apply sends_get | apply sends_put_get | apply sends_put] : stays.

End ClhSpec.
