(* ===== verification/ClhVMSpec.v ===== *)
(** * The life of a machine under Cloud Hypervisor

    Starting and stopping, over every run of the driver; the trace of requests
    that boots a machine; resizing its memory and processors; the addresses of its
    devices. *)
From S2P Require Import Prelude GoStr Types Utils Devices Hypervisor Qemu Qmp QmpCmd QemuArch ClhModel ClhApi Virtiofsd Clh ClhSpec.

Module ClhVMSpec.
Import ClhApi Virtiofsd QemuArch HypervisorConf Filepath Clh ClhSpec.
Import Qemu(given).
Import Types.PciPaths(PciPath, PciPathFromString, PciSlotFromString, PciSlot_String, slot_ok).
Import Names(MiB, ToBytes, ToMiB, AlignMem).

Section VM.
Context `{QemuHost, DaemonHost, HttpServer, ClhHost} `{!DaemonHostLaws}.

(** ** One request *)

Lemma api_ok {A} q ok (m : M (list exchange) A) c a c' :
  sends q ok m -> api m c = (Ok a, c') ->
  exists x b, c' = c <| c_api := c_api c ++ [(q, x)] |> /\ accepted x b /\ ok b a.
Proof.
  intros Hm. unfold api. destruct (c_APIClient c); [|done]. specialize (Hm (c_api c)).
  destruct (m (c_api c)) as [r h]. destruct Hm as [-> Hr]. intros [= -> <-]. destruct Hr as (b & Hb & Ho). by exists (http_do (c_api c) q), b.
Qed.
Lemma api_any {A} q ok (m : M (list exchange) A) c :
  sends q ok m -> (api m c).2 = c \/ exists x, (api m c).2 = c <| c_api := c_api c ++ [(q, x)] |>.
Proof.
  intros Hm. unfold api. destruct (c_APIClient c); [|by left]. specialize (Hm (c_api c)).
  destruct (m (c_api c)) as [r h]. destruct Hm as [-> _]. right. by eexists.
Qed.

Lemma request_ok {A} q ok (m : M (list exchange) A) c a c' :
  sends q ok m -> request m c = (Ok a, c') ->
  exists x b, c' = c <| c_api := c_api c ++ [(q, x)] |> /\ accepted x b /\ ok b a.
Proof.
  intros Hm. unfold request. munfold. pose proof (attempt_spec (api m) c) as Ha.
  destruct (api m c) as [[a'|e] c1] eqn:E; [|destruct Ha as [->| ->]; done]. rw Ha. intros [= -> ->]. by eapply api_ok.
Qed.

(** ** Booting *)

Definition ping_request : http_request := call "GET" "/vmm.ping" None true.
Definition info_request : http_request := call "GET" "/vm.info" None true.
Definition create_request (v : VmConfig) : http_request := call "PUT" "/vm.create" (Some (VmConfig_MarshalJSON v)) false.
Definition boot_request : http_request := call "PUT" "/vm.boot" None false.

(** The server took the request; it also answered with a value. *)
Definition took (q : http_request) (x : exchange) : Prop := x.1 = q /\ exists b, accepted x.2 b.
Definition told {A} (q : http_request) (c : codec A) (a : A) (x : exchange) : Prop :=
  x.1 = q /\ exists b, accepted x.2 b /\ decode c b = Ok a.

(** The machine [v] is created, is in the state Created, is booted and is in the
    state Running. *)
Definition booted (v : VmConfig) (l : list exchange) : Prop :=
  exists create info1 boot info2 i1 i2, l = [create; info1; boot; info2] /\
    took (create_request v) create /\
    told info_request VmInfo_codec i1 info1 /\ info_State i1 = clhStateCreated /\
    took boot_request boot /\
    told info_request VmInfo_codec i2 info2 /\ info_State i2 = clhStateRunning.

(** Pings, the last of which was answered. *)
Definition pinged (l : list exchange) : Prop :=
  exists fails ping p, l = fails ++ [ping] /\ Forall (fun x => x.1 = ping_request) fails /\
    told ping_request VmmPingResponse_codec p ping.

Lemma bootVM_ok c c' : bootVM c = (Ok tt, c') -> exists l, c' = c <| c_api := c_api c ++ l |> /\ booted (c_vmconfig c) l.
Proof.
  unfold bootVM, vmInfo. munfold.
  destruct (request (CreateVMExecute _) c) as [[[]|e] c1] eqn:E1; [|done].
  destruct (request VmInfoGetExecute c1) as [[i1|e] c2] eqn:E2; [|done].
  destruct (bool_decide (info_State i1 = _)) eqn:S1; [|done]. simpl.
  destruct (request BootVMExecute c2) as [[[]|e] c3] eqn:E3; [|done].
  destruct (request VmInfoGetExecute c3) as [[i2|e] c4] eqn:E4; [|done].
  destruct (bool_decide (info_State i2 = _)) eqn:S2; [|done]. simpl. intros [= <-].
  apply bool_decide_eq_true in S1, S2.
  apply (request_ok _ _ _ _ _ _ (sends_put _ _)) in E1 as (x1 & b1 & -> & A1 & _).
  apply (request_ok _ _ _ _ _ _ (sends_get _ _)) in E2 as (x2 & b2 & -> & A2 & D2).
  apply (request_ok _ _ _ _ _ _ (sends_put _ _)) in E3 as (x3 & b3 & -> & A3 & _).
  apply (request_ok _ _ _ _ _ _ (sends_get _ _)) in E4 as (x4 & b4 & -> & A4 & D4).
  simpl. rw -!app_assoc. eexists. split; [by destruct c|].
  do 4 eexists. exists i1, i2. split; [done|]. unfold took, told. split_and!; eauto.
Qed.

Lemma ping_ok n c e c' :
  ping_go n c = (Ok (true, e), c') -> e = None /\ exists l, c' = c <| c_api := c_api c ++ l |> /\ pinged l.
Proof.
  revert c. induction n as [|n IH]; intros c; simpl; munfold; pose proof (attempt_spec (api VmmPingGetExecute) c) as Ha;
    destruct (api VmmPingGetExecute c) as [[p|e1] c1] eqn:E.
  all: try (rw Ha; intros [= <- <-]; split; [done|];
    apply (api_ok _ _ _ _ _ _ (sends_get _ _)) in E as (x & b & -> & A & D); eexists; split; [done|];
    exists [], (ping_request, x), p; by split_and!; [|constructor|split; [|eauto]]).
  - destruct Ha as [->| ->]; done.
  - destruct Ha as [->| ->]; [|done]. intros (-> & l & -> & fails & ping & p & -> & Hf & Hp)%IH. split; [done|].
    destruct (api_any _ _ _ c (sends_get "/vmm.ping" VmmPingResponse_codec)) as [Ec|[x Ec]];
      change (get_ "/vmm.ping" VmmPingResponse_codec) with VmmPingGetExecute in Ec; rw E /= in Ec; subst c1.
    + eexists. split; [done|]. by exists fails, ping, p.
    + exists ((ping_request, x) :: fails ++ [ping]). split; [by destruct c; simpl; rw -app_assoc|].
      exists ((ping_request, x) :: fails), ping, p. split_and!; [done|by constructor|done].
Qed.

(** A launch: the process is started, asked whether it runs, and answers. *)
Lemma launch_ok c pid c' :
  launchClh c = (Ok pid, c') ->
  exists path l, pinged l /\ act_result (w_acts (c_world c)) (StartCmd "" path (clh_args c)) = Ok pid /\
    c' = c <| c_api := c_api c ++ l |>
           <| c_world ::= fun w => log (Kill (st_PID (c_state c)) 0) (log (StartCmd "" path (clh_args c)) w) |>.
Proof.
  unfold launchClh, clhPath, config. munfold.
  destruct (HypervisorAssetPath (c_config c)) as [p|e]; [|done].
  destruct (host_Stat _); [|done..]. unfold sys, perform. simpl.
  set (path := if given p then p else defaultClhPath).
  destruct (act_result _ _) as [pid'|e] eqn:Es; [|done].
  unfold waitVMM, isClhRunning, sys, kill_pid. munfold. simpl.
  destruct (kill_at _ _ _); [|done..]. set (c1 := _ <| c_world := _ |>).
  destruct (ping_go _ c1) as [[[[|] [e|]]|e] c2] eqn:E; try done. intros [= -> <-].
  apply ping_ok in E as (_ & l & -> & Hl). exists path, l. split_and!; [done|done|]. by destruct c.
Qed.

(** ** Starting *)

(** The part of the state that starting does not change. *)
Definition same_machine (c c' : cloudHypervisor) : Prop :=
  c_id c' = c_id c /\ c_vmconfig c' = c_vmconfig c /\ c_config c' = c_config c /\
  st_apiSocket (c_state c') = st_apiSocket (c_state c).

Lemma untouched_same c c' : untouched c c' ->
  same_machine c c' /\ c_state c' = c_state c /\ c_virtiofsDaemon c' = c_virtiofsDaemon c.
Proof. intros (E & _). rw E. by destruct c. Qed.

(** The machine was not launched; [Q] holds of the process of the daemon that is
    recorded. *)
Definition not_launched (Q : Z -> Prop) (c c' : cloudHypervisor) : Prop :=
  st_PID (c_state c') = st_PID (c_state c) /\ st_state (c_state c') = st_state (c_state c) /\
  Q (st_VirtiofsDaemonPid (c_state c')).

(** It was launched: its process is recorded, and so is the one of the daemon. *)
Definition launched (c c' : cloudHypervisor) (l : list exchange) : Prop :=
  c_api c' = c_api c ++ l /\
  (exists path pre post, w_acts (c_world c') = pre ++ StartCmd "" path (clh_args c) :: post /\
     act_result pre (StartCmd "" path (clh_args c)) = Ok (st_PID (c_state c'))) /\
  0 < st_PID (c_state c') /\
  if supportsSharedFS (c_config c) then 0 < st_VirtiofsDaemonPid (c_state c')
  else st_VirtiofsDaemonPid (c_state c') = st_VirtiofsDaemonPid (c_state c).

Lemma run_vm_spec c pid :
  let '(r, c') := run_vm pid c in
  same_machine c c' /\ c_virtiofsDaemon c' = c_virtiofsDaemon c /\
  (exists l, c_api c' = c_api c ++ l /\ (r = Ok tt -> booted (c_vmconfig c) l)) /\ grows (c_world c) (c_world c') /\
  st_PID (c_state c') = pid /\ st_VirtiofsDaemonPid (c_state c') = st_VirtiofsDaemonPid (c_state c) /\
  st_state (c_state c') = (if is_ok r then clhReady else st_state (c_state c)).
Proof.
  unfold run_vm, on_state. munfold. set (c1 := c <| c_state ::= _ |>).
  pose proof (untouched_bootVM c1) as U. destruct (bootVM c1) as [[[]|e] c2] eqn:E; simpl in U.
  - apply bootVM_ok in E as (l & -> & Hb). destruct U as (_ & _ & G). simpl. split_and!; try done. by exists l.
  - destruct U as (E2 & [l El] & G). rw E2. split_and!; try done. by exists l.
Qed.

(** How a start ends: with a panic, without a machine, or with one that was booted
    unless there is an error. *)
Definition start_ends (Q : Z -> Prop) (c : cloudHypervisor) (r : res unit) (c' : cloudHypervisor) : Prop :=
  r = Err ErrNilDeref \/
  same_machine c c' /\ daemon_known c' /\
  (is_ok r = false /\ not_launched Q c c' \/
   exists l1 l2, launched c c' (l1 ++ l2) /\ pinged l1 /\
     st_state (c_state c') = (if is_ok r then clhReady else st_state (c_state c)) /\
     (r = Ok tt -> booted (c_vmconfig c) l2)).

Definition stopped_daemon (c : cloudHypervisor) (v : Z) : Prop :=
  if supportsSharedFS (c_config c) then v = 0 else v = st_VirtiofsDaemonPid (c_state c).

(** What an error before the launch leaves. *)
Definition no_daemon_more (c : cloudHypervisor) (v : Z) : Prop := v = 0 \/ v = st_VirtiofsDaemonPid (c_state c).

Lemma launch_fails c :
  daemon_known c -> (supportsSharedFS (c_config c) = true -> 0 < st_VirtiofsDaemonPid (c_state c)) ->
  exists c', attempt stopVirtiofsDaemon c = (Ok (Ok tt), c') /\ same_machine c c' /\ daemon_known c' /\
    not_launched (stopped_daemon c) c c'.
Proof.
  intros Hk Hs. pose proof (stop_spec c Hk) as HS. pose proof (attempt_spec stopVirtiofsDaemon c) as Ha.
  unfold not_launched, stopped_daemon. destruct (supportsSharedFS (c_config c)); simpl in HS.
  - specialize (Hs eq_refl). rw (proj2 (Z.eqb_neq (st_VirtiofsDaemonPid (c_state c)) 0)) /= in HS; [lia|].
    destruct HS as (d & w & HS & _). rw HS in Ha. eexists. split; [exact Ha|]. by split_and!; try done; intros [].
  - rw HS in Ha. exists c. by split_and!.
Qed.

(** With the daemon running if there is one. *)
Lemma launch_vm_spec c :
  daemon_known c -> (supportsSharedFS (c_config c) = true -> 0 < st_VirtiofsDaemonPid (c_state c)) ->
  let '(r, c') := launch_vm c in start_ends (stopped_daemon c) c r c'.
Proof.
  intros Hk Hs. unfold launch_vm, start_ends. munfold. pose proof (attempt_spec launchClh c) as Ha.
  pose proof (untouched_launch c) as U. destruct (launchClh c) as [[pid|e] c1] eqn:E; simpl in U.
  - pose proof (launch_pid _ _ _ E) as Hp. apply launch_ok in E as (path & l1 & Hl1 & Hr & ->). rw Ha.
    pose proof (run_vm_spec (c <| c_api := c_api c ++ l1 |>
      <| c_world ::= fun w => log (Kill (st_PID (c_state c)) 0) (log (StartCmd "" path (clh_args c)) w) |>) pid) as R.
    destruct (run_vm pid _) as [r c'].
    destruct R as ((? & ? & ? & ?) & E1 & (l2 & E2 & Hb) & [la Ea] & E3 & E4 & E5). simpl in *. right.
    split_and!; try done; [unfold daemon_known; by rw E1 E4|]. right. exists l1, l2. split_and!; try done.
    unfold launched. rw E3 E4. split_and!; [by rw E2 app_assoc| |done|destruct (supportsSharedFS _); auto].
    exists path, (w_acts (c_world c)), (Kill (st_PID (c_state c)) 0 :: la). by rw Ea -!app_assoc.
  - destruct (untouched_same _ _ U) as (Hm & E1 & E2). destruct Ha as [->| ->]; [|by left].
    assert (daemon_known c1) as Hk1 by (unfold daemon_known; by rw E1 E2).
    destruct (launch_fails c1 Hk1) as (c2 & Ec & Hm2 & Hk2 & HN).
    { destruct Hm as (_ & _ & -> & _). by rw E1. }
    rw Ec. right. split; [|split; [done|]].
    + destruct Hm as (? & ? & ? & ?), Hm2 as (? & ? & ? & ?). by split_and!; etrans.
    + left. split; [done|]. unfold not_launched, stopped_daemon in *. destruct Hm as (_ & _ & Em & _). by rw E1 Em in HN.
Qed.

Lemma start_vmm_spec c : daemon_known c ->
  let '(r, c') := start_vmm c in start_ends (no_daemon_more c) c r c'.
Proof.
  intros Hk. unfold start_vmm. munfold. pose proof (setup_spec c) as HS. destruct (supportsSharedFS (c_config c)) eqn:Es.
  - destruct (setupVirtiofsDaemon c) as [[[]|e] c1].
    + destruct HS as (d & w & pid & -> & Hd & Hp & G). set (c1 := _ <| c_state ::= _ |>).
      assert (daemon_known c1) as Hk1 by (intros _; split; [done|by exists d]).
      pose proof (launch_vm_spec c1 Hk1 ltac:(done)) as R. destruct (launch_vm c1) as [r c'].
      destruct R as [->|(R1 & R2 & R3)]; [by left|]. right. split; [done|]. split; [done|].
      change (c_config c1) with (c_config c) in R3. unfold stopped_daemon, launched in R3.
      change (c_config c1) with (c_config c) in R3. rw Es in R3.
      destruct R3 as [(? & ? & ? & R3)|R3]; [left|right].
      * split; [done|]. split_and!; [done..|by left].
      * unfold launched. by rw Es.
    + destruct HS as (w & -> & G). right. split_and!; [by destruct c..|]. left. split_and!; [done..|]. split_and!; [done..|by right].
  - rw HS. pose proof (launch_vm_spec c Hk) as R. rw Es in R. specialize (R ltac:(done)). destruct (launch_vm c) as [r c'].
    destruct R as [->|(R1 & R2 & R3)]; [by left|]. right. split; [done|]. split; [done|].
    destruct R3 as [(? & ? & ? & R3)|R3]; [left|by right]. split; [done|]. split_and!; [done..|]. right.
    unfold stopped_daemon in R3. by rw Es in R3.
Qed.

(** Operations on the host before and after do not matter. *)
Lemma start_ends_host Q c w r c' w' :
  start_ends Q (c <| c_world := w |>) r c' -> grows (c_world c') w' -> start_ends Q c r (c' <| c_world := w' |>).
Proof.
  intros [->|(Hm & Hk & He)] [l G]; [by left|]. right. split; [done|]. split; [done|].
  destruct He as [He|(l1 & l2 & (A1 & (path & pre & post & A2 & A3) & A4) & He)]; [by left|].
  right. exists l1, l2. split; [|done]. split; [done|]. split; [|done].
  exists path, pre, (post ++ l). split; [|done]. simpl. by rw G A2 -app_assoc.
Qed.

Lemma start_vmm_host c w : daemon_known c ->
  let '(r, c') := start_vmm (c <| c_world := w |>) in
  forall w', grows (c_world c') w' -> start_ends (no_daemon_more c) c r (c' <| c_world := w' |>).
Proof.
  intros Hk. assert (daemon_known (c <| c_world := w |>)) as Hk' by done. pose proof (start_vmm_spec _ Hk') as R.
  destruct (start_vmm _) as [r c']. intros w' Hw. by eapply start_ends_host.
Qed.

Lemma StartVM_ends c : daemon_known c -> let '(r, c') := StartVM c in start_ends (no_daemon_more c) c r c'.
Proof.
  intros Hk. unfold StartVM, sys, perform. munfold. set (dir := PathJoin [_; _]).
  assert (forall w e, start_ends (no_daemon_more c) c (Err e) (c <| c_world := w |>)) as Hfail.
  { intros w e. right. split_and!; [by destruct c..|]. left. split; [done|]. split_and!; [done..|by right]. }
  simpl. destruct (act_result _ (MkdirAll dir)) as [z|e]; [|apply Hfail]. destruct (hc_DisableSeLinux _); simpl.
  - pose proof (start_vmm_host c (log (MkdirAll dir) (c_world c)) Hk) as R.
    match goal with |- context [start_vmm ?x] => change x with (c <| c_world := log (MkdirAll dir) (c_world c) |>) end.
    destruct (start_vmm _) as [r c']. specialize (R (c_world c') ltac:(done)).
    by replace (c' <| c_world := c_world c' |>) with c' in R by by destruct c'.
  - destruct (act_result _ (SetProcessLabel _)) as [z2|e]; [|apply Hfail].
    set (w2 := log (SetProcessLabel _) _). pose proof (start_vmm_host c w2 Hk) as R.
    match goal with |- context [start_vmm ?x] => change x with (c <| c_world := w2 |>) end.
    destruct (start_vmm _) as [r c']. apply R. by eexists.
Qed.

(** C7. Starting a machine, with the host and the server answering anything.
    Unless the runtime panics, the machine it described and its identifiers stay as
    they were.  If the start succeeds the process of the machine was started with
    the socket of the API, is recorded, and answered a ping; the requests that
    follow create the machine with a body that reads back as its description, find
    it in the state Created, boot it, and find it Running; it is ready, and the
    daemon that shares its directories runs.  A start that fails never leaves it
    ready: either no machine is recorded and the daemon is stopped, or the machine
    was launched and did not boot, and then its process and the one of the daemon
    stay recorded and are not stopped. *)
Theorem clh_StartVM_spec c :
  inv c ->
  let '(r, c') := StartVM c in
  r = Err ErrNilDeref \/
  same_machine c c' /\ daemon_known c' /\
  (is_ok r = false /\ not_launched (no_daemon_more c) c c' \/
   exists l1 l2, launched c c' (l1 ++ l2) /\ pinged l1 /\
     st_state (c_state c') = (if is_ok r then clhReady else st_state (c_state c)) /\
     (r = Ok tt -> booted (c_vmconfig c) l2 /\ VmConfig_Unmarshal (VmConfig_MarshalJSON (c_vmconfig c)) = Ok (c_vmconfig c))).
Proof.
  intros ([Hv _] & Hk & _). pose proof (StartVM_ends c Hk) as R. destruct (StartVM c) as [r c'].
  pose proof (VmConfig_reads_back _ Hv) as Hr.
  destruct R as [?|(R1 & R2 & [R3|(l1 & l2 & R3)])]; [by left|right..]; (split; [done|]); (split; [done|]); [by left|].
  right. exists l1, l2. destruct R3 as (R3 & R4 & R5 & R6).
  exact (conj R3 (conj R4 (conj R5 (fun E => conj (R6 E) Hr)))).
Qed.

(** ** A start that succeeds *)

Definition asked_boot (h : list exchange) : bool :=
  existsb (fun x => bool_decide (hr_url x.1 = hr_url boot_request)) h.

(** A server that takes every request; the machine is Created until it is
    booted. *)
Record serves : Prop := mkServes {
  serves_ping h : exists b p, http_do h ping_request = Response 200 b /\ decode VmmPingResponse_codec b = Ok p;
  serves_create h v : exists b, http_do h (create_request v) = Response 204 b;
  serves_boot h : exists b, http_do h boot_request = Response 204 b;
  serves_info h : exists b i, http_do h info_request = Response 200 b /\ decode VmInfo_codec b = Ok i /\
    info_State i = if asked_boot h then clhStateRunning else clhStateCreated;
}.

(** A host on which every operation succeeds and every file is there. *)
Record works : Prop := mkWorks {
  works_act l a : exists z, act_result l a = Ok z;
  works_exists l path : exists_at l path = true;
  works_kill l pid : kill_at l pid 0 = WaitProcess.KillOk;
  works_stat path : exists d r z, host_Stat path = Found d r z;
  works_abs path : exists p, Abs path = Ok p;
  works_nydus l h r : exists b, nydus_at l h r = Response 204 b;
}.

(** The paths of a daemon are set; virtiofsd's socket is chowned, so its path is
    absolute. *)
Definition paths_set (d : VirtiofsDaemon) : Prop :=
  match d with
  | Vfsd v => vd_path v <> "" /\ vd_sourcePath v <> "" /\ HasPrefix (vd_socketPath v) "/" = true
  | Nydus n => nd_path n <> "" /\ nd_sourcePath n <> "" /\ nd_sockPath n <> "" /\ nd_apiSockPath n <> ""
  end.

(** A machine that shares directories does so through a daemon, and not by 9p. *)
Definition daemon_ready (c : cloudHypervisor) : Prop :=
  supportsSharedFS (c_config c) = true ->
  hc_SharedFS (c_config c) <> Virtio9P /\ exists d, c_virtiofsDaemon c = Some d /\ paths_set d.

Lemma execute_taken method path body returns h st b :
  http_do h (call method path body returns) = Response st b -> st < 300 ->
  execute method path body returns h = (Ok b, h ++ [(call method path body returns, Response st b)]).
Proof.
  intros E Hs. unfold execute, callAPI. munfold. fold (call method path body returns). rw E.
  by rw (proj2 (Z.leb_gt 300 st)).
Qed.

Lemma put_taken path body c st b :
  c_APIClient c = true -> http_do (c_api c) (call "PUT" path body false) = Response st b -> st < 300 ->
  attempt (api (put path body)) c = (Ok (Ok tt), c <| c_api := c_api c ++ [(call "PUT" path body false, Response st b)] |>).
Proof. intros Hc E Hs. unfold attempt, api, put. rw Hc. munfold. by rw (execute_taken _ _ _ _ _ _ _ E Hs). Qed.

Lemma get_taken {A} path (k : codec A) c st b a :
  c_APIClient c = true -> http_do (c_api c) (call "GET" path None true) = Response st b -> st < 300 -> decode k b = Ok a ->
  attempt (api (get_ path k)) c = (Ok (Ok a), c <| c_api := c_api c ++ [(call "GET" path None true, Response st b)] |>).
Proof. intros Hc E Hs Hd. unfold attempt, api, get_. rw Hc. munfold. rw (execute_taken _ _ _ _ _ _ _ E Hs). by rw Hd. Qed.

Lemma asked_boot_app h1 h2 : asked_boot (h1 ++ h2) = asked_boot h1 || asked_boot h2.
Proof. apply existsb_app. Qed.

Lemma bootVM_succeeds c : serves -> c_APIClient c = true -> asked_boot (c_api c) = false -> exists c', bootVM c = (Ok tt, c').
Proof.
  intros [_ Hcreate Hboot Hinfo] Hc Ha. unfold bootVM, vmInfo, request. munfold.
  destruct (Hcreate (c_api c) (c_vmconfig c)) as [b1 E1]. unfold CreateVMExecute. rw (put_taken "/vm.create" (Some _) c _ _ Hc E1) //.
  set (c1 := _ <| c_api := _ |>). assert (asked_boot (c_api c1) = false) as Ha1 by by rw asked_boot_app Ha.
  destruct (Hinfo (c_api c1)) as (b2 & i1 & E2 & D2 & S2). unfold VmInfoGetExecute. rw (get_taken "/vm.info" VmInfo_codec c1 _ _ _ Hc E2 ltac:(done) D2).
  rw S2 Ha1 bool_decide_true //=. set (c2 := c1 <| c_api := _ |>).
  destruct (Hboot (c_api c2)) as [b3 E3]. unfold BootVMExecute. rw (put_taken "/vm.boot" None c2 _ _ Hc E3) //.
  set (c3 := c2 <| c_api := _ |>). assert (asked_boot (c_api c3) = true) as Ha3 by (rw asked_boot_app; by apply orb_true_r).
  destruct (Hinfo (c_api c3)) as (b4 & i2 & E4 & D4 & S4). rw (get_taken "/vm.info" VmInfo_codec c3 _ _ _ Hc E4 ltac:(done) D4).
  rw S4 Ha3 bool_decide_true //=. by eexists.
Qed.

Lemma launch_succeeds c : serves -> works -> c_APIClient c = true -> is_ok (HypervisorAssetPath (c_config c)) = true ->
  exists pid c', launchClh c = (Ok pid, c') /\ c_APIClient c' = true /\
    exists x, c_api c' = c_api c ++ [(ping_request, x)].
Proof.
  intros [Hping _ _ _] [Hact _ Hkill Hstat _ _] Hc Hp. unfold launchClh, clhPath, config, sys, perform. munfold.
  destruct (HypervisorAssetPath _) as [p|]; [|done]. destruct (Hstat (if given p then p else defaultClhPath)) as (? & ? & ? & Est).
  rw Est. simpl. set (a := StartCmd _ _ _). destruct (Hact (w_acts (c_world c)) a) as [pid ->].
  unfold waitVMM, isClhRunning, sys, kill_pid. munfold. simpl. rw Hkill. set (c1 := _ <| c_world := _ |>).
  destruct (Hping (c_api c1)) as (b & v & E & D).
  assert (forall n, exists x, ping_go n c1 = (Ok (true, None), c1 <| c_api := c_api c1 ++ [(ping_request, x)] |>)) as Hn.
  { intros [|n]; simpl; munfold; unfold VmmPingGetExecute; rw (get_taken "/vmm.ping" VmmPingResponse_codec c1 _ _ _ Hc E ltac:(done) D); by eexists. }
  destruct (Hn (pings clhTimeout)) as [y ->]. eexists _, _. split; [done|]. split; [done|]. by exists y.
Qed.

Lemma virtiofsd_succeeds v w : works -> vd_path v <> "" -> vd_sourcePath v <> "" -> HasPrefix (vd_socketPath v) "/" = true ->
  exists pid s, virtiofsd_Start (v, w) = (Ok pid, s).
Proof.
  intros [Hact Hex _ _ _ _] Hp Hs Hk. assert (vd_socketPath v <> "") as Hne by by intros E; rw E in Hk.
  unfold virtiofsd_Start, virtiofsd_valid, getSocketFD, ChownToParent, perform_, exists_. munfold.
  unfold host, perform. simpl. rw !bool_decide_false // Hex. simpl. rw Hex. simpl. rw Hk. simpl. rw Hex. simpl.
  repeat match goal with |- context [act_result ?l ?a] => destruct (Hact l a) as [? ->]; simpl end. by eexists _, _.
Qed.

Lemma check_succeeds path e w : works -> path <> "" -> exists w', check_as path e w = (Ok tt, w').
Proof.
  intros [_ Hex _ _ Habs _] Hp. unfold check_as, checkPathValid, exists_. munfold. rw bool_decide_false //.
  destruct (Habs path) as [p ->]. simpl. rw Hex. by eexists.
Qed.

Lemma nydusd_succeeds n w : works -> paths_set (Nydus n) -> exists pid s, nydusd_Start (n, w) = (Ok pid, s).
Proof.
  intros Hw (P1 & P2 & P3 & P4). pose proof Hw as [Hact Hex _ _ _ Hny].
  unfold nydusd_Start, nydusd_valid, host, perform. munfold. simpl.
  destruct (check_succeeds (nd_sockPath n) (Errorf "nydusd sock path is invalid") w Hw P3) as [w1 ->].
  destruct (check_succeeds (nd_apiSockPath n) (Errorf "nydusd api sock path is invalid") w1 Hw P4) as [w2 ->].
  destruct (check_succeeds (nd_path n) (Errorf "nydusd daemon path is invalid") w2 Hw P1) as [w3 ->].
  destruct (check_succeeds (nd_sourcePath n) (Errorf "nydusd resource path is invalid") w3 Hw P2) as [w4 ->]. simpl.
  match goal with |- context [act_result ?l ?a] => destruct (Hact l a) as [pid ->] end. simpl.
  unfold setupPassthroughFS, NewNydusClient, waitUntilSocketReady, client_Mount, nydus_http. munfold.
  unfold Retry.Do, socket_retry. simpl. rw Hex. simpl.
  match goal with |- context [nydus_at ?l ?h ?r] => destruct (Hny l h r) as [b ->] end. by eexists _, _.
Qed.

Lemma setup_succeeds c : works -> daemon_ready c -> exists c', setupVirtiofsDaemon c = (Ok tt, c').
Proof.
  intros Hw Hd. unfold setupVirtiofsDaemon, daemon, on_state. munfold. unfold daemon_ready in Hd.
  destruct (supportsSharedFS _); [|by eexists]. destruct (Hd eq_refl) as (H9 & d & Ed & Hp).
  rw bool_decide_false // Ed. simpl. rw Ed. unfold Start, dispatch. simpl. destruct d as [v|n].
  - destruct Hp as (P1 & P2 & P3). destruct (virtiofsd_succeeds v (c_world c) Hw P1 P2 P3) as (pid & s & ->). by eexists.
  - destruct (nydusd_succeeds n (c_world c) Hw Hp) as (pid & s & ->). by eexists.
Qed.

(** C19. On a host where the operations succeed, with a server that answers the
    requests of a start, a machine that was created and has its client starts: the
    call ends, without an error and without a panic, and the machine is ready.  The
    machine was not booted before, its program is in the configuration, and when it
    shares directories it does not ask for 9p and has a daemon, virtiofsd or
    nydusd, whose paths are set ([daemon_ready]). *)
Theorem clh_StartVM_succeeds c :
  serves -> works -> c_APIClient c = true -> asked_boot (c_api c) = false ->
  is_ok (HypervisorAssetPath (c_config c)) = true -> daemon_ready c ->
  exists c', StartVM c = (Ok tt, c') /\ st_state (c_state c') = clhReady.
Proof.
  intros Hs Hw Hc Ha Hp Hd.
  assert (forall w, exists c', start_vmm (c <| c_world := w |>) = (Ok tt, c') /\ st_state (c_state c') = clhReady) as Hv.
  { intros w. unfold start_vmm. munfold. set (c0 := c <| c_world := w |>).
    destruct (setup_succeeds c0 Hw Hd) as [c1 E1]. rw E1.
    pose proof (setup_spec c0) as HS. rw E1 in HS.
    assert (c_APIClient c1 = true /\ c_api c1 = c_api c /\ c_config c1 = c_config c) as (Hc1 & Ha1 & Hf1).
    { destruct (supportsSharedFS _); [destruct HS as (? & ? & ? & -> & _)|injection HS as ->]; done. }
    unfold launch_vm. munfold. rw -Hf1 in Hp.
    destruct (launch_succeeds c1 Hs Hw Hc1 Hp) as (pid & c2 & E2 & Hc2 & x & Ha2).
    pose proof (attempt_spec launchClh c1) as Hat. rw E2 in Hat. rw Hat.
    unfold run_vm, on_state. munfold. set (c3 := c2 <| c_state ::= _ |>).
    destruct (bootVM_succeeds c3 Hs Hc2) as [c4 ->]; [simpl; by rw Ha2 Ha1 asked_boot_app Ha|]. by eexists. }
  destruct Hw as [Hact _ _ _ _ _]. unfold StartVM, sys, perform. munfold. simpl.
  match goal with |- context [act_result ?l ?a] => destruct (Hact l a) as [? ->] end.
  destruct (hc_DisableSeLinux _); [apply Hv|]. simpl.
  match goal with |- context [act_result ?l ?a] => destruct (Hact l a) as [? ->] end.
  match goal with |- context [start_vmm (_ <| c_world := ?w |>)] => destruct (Hv w) as (c' & E & Hr) end.
  match goal with |- context [start_vmm ?x] => change x with (c <| c_world := log (SetProcessLabel (hc_SELinuxProcessLabel (c_config c))) (log (MkdirAll (PathJoin [hc_VMStorePath (c_config c); c_id c])) (c_world c)) |>) end.
  rw E. by eexists.
Qed.

(** ** Stopping *)

(** Requests were made, and no process but the one of the machine got a signal. *)
Definition spares (c c' : cloudHypervisor) : Prop :=
  untouched c c' /\
  exists l, w_acts (c_world c') = w_acts (c_world c) ++ l /\ forall p sig, Kill p sig ∈ l -> p = st_PID (c_state c).
#[local] Instance spares_preorder : PreOrder spares.
Proof.
  split; [intros c; split; [done|]; exists []; rw app_nil_r; split; [done|]; by intros ? ? ?%not_elem_of_nil|].
  intros c1 c2 c3 (U1 & l1 & E1 & K1) (U2 & l2 & E2 & K2). split; [by etrans|]. exists (l1 ++ l2).
  split; [by rw E2 E1 app_assoc|]. destruct (untouched_same _ _ U1) as (_ & Es & _). rw Es in K2.
  intros p sig [?|?]%elem_of_app; eauto.
Qed.

Lemma spares_api {A} (m : M (list exchange) A) : stays untouched (api m) -> stays spares (api m).
Proof.
  intros Hm c. split; [apply Hm|]. exists []. rw app_nil_r. split; [|by intros ? ? ?%not_elem_of_nil].
  unfold api. destruct (c_APIClient c); [|done]. by destruct (m (c_api c)).
Qed.
Lemma spares_attempt {A} (m : M cloudHypervisor A) : stays spares m -> stays spares (attempt m).
Proof. apply stays_attempt. Qed.
#[local] Hint Resolve spares_api spares_attempt : stays.

Lemma spares_ping n : stays spares (ping_go n).
Proof. induction n; simpl; stays. Qed.

Lemma spares_kill c sig : spares c (sys (kill_pid (st_PID (c_state c)) sig) c).2.
Proof. split; [apply untouched_kill|]. eexists. split; [done|]. intros p sig'. rw list_elem_of_singleton. by intros [= -> _]. Qed.
Lemma spares_wait c timeout sig : spares c (sys (wait_local (st_PID (c_state c)) timeout sig) c).2.
Proof.
  split; [apply untouched_wait|]. unfold sys, wait_local.
  destruct (WaitProcess.WaitLocalProcess _ _ _ _) as [[r sent]|]; simpl.
  - eexists. split; [done|]. intros p sig'. rw list_elem_of_fmap. by intros (x & [= -> _] & _).
  - exists []. rw app_nil_r. split; [done|]. by intros ? ? ?%not_elem_of_nil.
Qed.

Lemma spares_isClhRunning timeout : stays spares (isClhRunning timeout).
Proof.
  intros c. unfold isClhRunning. munfold. pose proof (spares_kill c 0) as K.
  destruct (sys (kill_pid _ 0) c) as [[[]|e] c1]; simpl in K; [|done]. etrans; [exact K|apply spares_ping].
Qed.

Definition running_pid (c : cloudHypervisor) : Z := st_PID (c_state c).

(** The process of the machine is gone: it was seen to end, or was killed. *)
Definition vmm_gone (c c' : cloudHypervisor) : Prop :=
  0 < running_pid c /\ exists w, grows (c_world c) w /\ grows w (c_world c') /\
    (WaitProcess.seen_gone (events_at (w_acts w) (running_pid c) clhStopSandboxTimeout) \/
     kill_at (w_acts w) (running_pid c) WaitProcess.SIGKILL = WaitProcess.KillOk /\ grows (log (Kill (running_pid c) WaitProcess.SIGKILL) w) (c_world c')).

Lemma wait_gone c c' :
  sys (wait_local (running_pid c) clhStopSandboxTimeout 0) c = (Ok tt, c') -> vmm_gone c c'.
Proof.
  unfold sys, wait_local. destruct (WaitProcess.WaitLocalProcess _ _ _ _) as [[r sent]|] eqn:E; [|done].
  intros [= -> <-]. unfold WaitProcess.WaitLocalProcess in E. destruct (Z.leb_spec (running_pid c) 0); [done|]. simpl in E.
  split; [done|]. exists (c_world c). split_and!; [done|by eexists|].
  destruct (WaitProcess.wait_go _) as [[]|] eqn:Ew; [|left; by apply WaitProcess.wait_go_gone|done].
  right. destruct (kill_at _ _ WaitProcess.SIGKILL); [|done..]. injection E as <-. split; [done|]. exists []. by rw app_nil_r.
Qed.

Lemma gone_before c0 c c' : spares c0 c -> vmm_gone c c' -> vmm_gone c0 c'.
Proof.
  intros [U _] (Hp & w & G1 & G2 & Hg). destruct (untouched_same _ _ U) as (_ & Es & _). unfold vmm_gone, running_pid in *.
  rw Es in Hp Hg. split; [done|]. exists w. split_and!; try done. destruct U as (_ & _ & G). by etrans.
Qed.
Lemma gone_after c c' c'' : vmm_gone c c' -> grows (c_world c') (c_world c'') -> vmm_gone c c''.
Proof.
  intros (Hp & w & G1 & G2 & Hg) G. split; [done|]. exists w. split_and!; [done|by etrans|].
  destruct Hg as [?|[? ?]]; [by left|right]. split; [done|by etrans].
Qed.

Lemma spares_shutdown waitOnly pid : stays spares (shutdown waitOnly pid).
Proof. unfold shutdown. stays. apply spares_isClhRunning. Qed.

Definition records_daemon (c : cloudHypervisor) : bool :=
  supportsSharedFS (c_config c) && negb (st_VirtiofsDaemonPid (c_state c) =? 0).

(** The books while the machine is stopped. *)
Definition stop_books (c c' : cloudHypervisor) : Prop :=
  daemon_known c' /\ st_PID (c_state c') = st_PID (c_state c) /\ no_daemon_more c (st_VirtiofsDaemonPid (c_state c')).
Lemma spares_books c c' : daemon_known c -> spares c c' -> same_machine c c' /\ stop_books c c'.
Proof.
  intros Hk [U _]. destruct (untouched_same _ _ U) as (M1 & Es & Ed). split; [done|].
  unfold stop_books, daemon_known. rw Es Ed. split_and!; [done..|by right].
Qed.

Lemma stop_vmm_spec waitOnly c :
  daemon_known c ->
  let '(r, c') := stop_vmm waitOnly c in
  (same_machine c c' /\ stop_books c c') /\
  match r with
  | Err _ => spares c c'
  | Ok _ => vmm_gone c c' /\ exists l, w_acts (c_world c') = w_acts (c_world c) ++ l /\
      (records_daemon c = true -> exists sig, sig <> 0 /\ Kill (st_VirtiofsDaemonPid (c_state c)) sig ∈ l)
  end.
Proof.
  intros Hk. unfold stop_vmm. munfold. fold (running_pid c).
  pose proof (spares_shutdown waitOnly (running_pid c) c) as S1.
  destruct (shutdown _ _ c) as [[[]|e] c1]; simpl in S1; [|by split; [apply spares_books|]].
  destruct (untouched_same _ _ (proj1 S1)) as (_ & Es & _).
  assert (running_pid c1 = running_pid c) as Ep by (unfold running_pid; by rw Es).
  pose proof (spares_wait c1 clhStopSandboxTimeout 0) as S2. fold (running_pid c1) in S2. rw Ep in S2.
  destruct (sys (wait_local _ _ 0) c1) as [[[]|e] c2] eqn:Ew; simpl in S2; assert (spares c c2) as S3 by by etrans.
  2: by split; [apply spares_books|].
  rw -Ep in Ew. apply wait_gone in Ew. pose proof (gone_before _ _ _ S1 Ew) as Hg.
  destruct (spares_books _ _ Hk S3) as [M2 B2]. destruct (untouched_same _ _ (proj1 S3)) as (_ & Es2 & _).
  destruct S3 as (_ & l & El & _). pose proof (stop_spec c2 (proj1 B2)) as HS. unfold records_daemon.
  replace (c_config c2) with (c_config c) in HS by (symmetry; apply M2). rw Es2 in HS. destruct (_ && _) eqn:Er.
  - destruct HS as (d & w & -> & l2 & El2 & Hsig & _). split; [split; [done|]|].
    { split_and!; [by intros []|simpl; by rw Es2|by left]. }
    split; [eapply gone_after; [done|by exists l2]|].
    exists (l ++ l2). split; [simpl; by rw El2 El app_assoc|]. intros _.
    apply andb_true_iff in Er as [_ Hr%negb_true_iff%Z.eqb_neq]. destruct (Hk Hr) as [Hp _].
    destruct (Hsig Hp) as (sig & l' & Hs & ->). exists sig. split; [done|]. apply elem_of_app. right. by left.
  - rw HS. split; [done|]. split; [done|]. by exists l.
Qed.

#[local] Arguments PathJoin : simpl never.

Definition vm_dir (c : cloudHypervisor) : string := PathJoin [hc_VMStorePath (c_config c); c_id c].

(** What the removal of the files does: no process gets a signal. *)
Lemma remove_all_force dir c :
  remove_all true dir c = (Ok tt, c <| c_world ::= log (RemoveAll dir) |>).
Proof. unfold remove_all, sys, perform. munfold. destruct (act_result _ _); simpl; by destruct c. Qed.

Lemma cleanupVM_spec c : c_id c <> "" ->
  exists c' l, cleanupVM true c = (Ok tt, c') /\ c_state c' = state_reset (c_state c) /\ same_machine c c' /\
    w_acts (c_world c') = w_acts (c_world c) ++ l /\ RemoveAll (vm_dir c) ∈ l /\ forall p sig, Kill p sig ∉ l.
Proof.
  intros Hid. unfold cleanupVM, vsockSocketPath, socket_path, config, on_state, given. munfold. rw bool_decide_true //=.
  fold (vm_dir c). set (link := match EvalSymlinks (vm_dir c) with Ok l => l | Err _ => "" end).
  destruct (Dirs.BuildSocketPath _) as [p|e]; simpl; rw !remove_all_force; simpl;
    repeat match goal with |- context [if ?b then _ else _] => destruct b; simpl; rw ?remove_all_force; simpl end;
    eexists _, _; (split; [done|]); (split; [done|]); (split; [done|]);
    simpl; rw -?app_assoc; (split; [done|]); (split; [|intros q sig]); rw ?elem_of_app ?list_elem_of_singleton; naive_solver.
Qed.

(** C16. Stopping a machine, with the host and the server answering anything.  On
    every path its directory is removed and the processes of the machine and of the
    daemon are forgotten.  A stop that succeeds waited until the process of the
    machine ended, or killed it, and sent a signal to the daemon that was recorded.
    A stop that fails, because the machine would not shut down or end, sent a
    signal to no other process: the daemon that was forgotten runs on. *)
Theorem clh_StopVM_spec waitOnly c :
  inv c -> c_id c <> "" ->
  let '(r, c') := StopVM waitOnly c in
  c_state c' = state_reset (c_state c) /\ same_machine c c' /\
  exists l, w_acts (c_world c') = w_acts (c_world c) ++ l /\ RemoveAll (vm_dir c) ∈ l /\
  match r with
  | Ok _ => vmm_gone c c' /\
      (records_daemon c = true -> exists sig, sig <> 0 /\ Kill (st_VirtiofsDaemonPid (c_state c)) sig ∈ l)
  | Err _ => forall p sig, Kill p sig ∈ l -> p = st_PID (c_state c)
  end.
Proof.
  intros (_ & Hk & _) Hid. unfold StopVM, terminate, finally. pose proof (stop_vmm_spec waitOnly c Hk) as R.
  destruct (stop_vmm waitOnly c) as [r c1]. destruct R as [[(Ei & Ev & Ec & Ea) _] R].
  destruct (cleanupVM_spec c1) as (c2 & l2 & -> & Es & (Ei2 & Ev2 & Ec2 & Ea2) & El2 & Hd & Hn); [by rw Ei|]. simpl.
  unfold vm_dir in *. rw Ei Ec in Hd. split; [rw Es; by destruct (c_state c), (c_state c1); simpl in *; subst|].
  split; [split_and!; by etrans|]. destruct r as [[]|e].
  - destruct R as [Hg (l & El & Hs)]. exists (l ++ l2). split; [by rw El2 El app_assoc|]. split; [set_solver|].
    split; [eapply gone_after; [done|by exists l2]|]. intros Hr. destruct (Hs Hr) as (sig & ? & ?). exists sig. set_solver.
  - destruct R as (_ & l & El & Hs). exists (l ++ l2). split; [by rw El2 El app_assoc|]. split; [set_solver|].
    intros p sig [?|?]%elem_of_app; [eauto|]. by destruct (Hn p sig).
Qed.

(** ** Every run of the driver *)

Inductive call_of : Type :=
| KStart
| KStop (waitOnly : bool)
| KPlug (d : hot_device)
| KUnplug (d : hot_device)
| KMemory (reqMemMB memoryBlockSizeMB : Z) (probe : bool)
| KCPUs (reqVCPUs : Z)
| KAdd (d : cold_device)
| KCheck
| KConsole.

Definition only {A} (m : M cloudHypervisor A) : M cloudHypervisor unit := _ ← m; mret tt.

Definition run (k : call_of) : M cloudHypervisor unit :=
  match k with
  | KStart => StartVM
  | KStop waitOnly => StopVM waitOnly
  | KPlug d => fun c => let '(r, s) := HotplugAddDevice (c, d) in (r, s.1)
  | KUnplug d => HotplugRemoveDevice d
  | KMemory r b p => only (ResizeMemory r b p)
  | KCPUs n => only (ResizeVCPUs n)
  | KAdd d => AddDevice d
  | KCheck => Check
  | KConsole => only GetVMConsole
  end.

(** A new structure, on a host where anything may have happened. *)
Definition new_clh (w : world) : cloudHypervisor :=
  mkClh None None false "" zero_VmConfig (mkState "" 0 0 clhNotReady) HypervisorConfig_zero [] w.

(** What was saved with a running daemon was saved with a running machine. *)
Definition saved_ok (s : ClhSaved) (conf : HypervisorConfig) : Prop :=
  sv_VirtiofsDaemonPid s <> 0 -> 0 < sv_VirtiofsDaemonPid s /\ 0 < sv_Pid s /\ hc_ConfidentialGuest conf = false.

(** The states of a driver: new, or restored from what was saved; a machine is
    created while none runs; a panic ends the run. *)
Inductive reachable : cloudHypervisor -> Prop :=
| reach_new w : reachable (new_clh w)
| reach_restored w s id conf c :
    sgx_ok conf -> saved_ok s conf -> (_ ← Load s; CreateVM id conf) (new_clh w) = (Ok tt, c) -> reachable c
| reach_created c id conf : reachable c -> sgx_ok conf -> st_PID (c_state c) <= 0 -> reachable (CreateVM id conf c).2
| reach_called c k : reachable c -> (run k c).1 <> Err ErrNilDeref -> reachable (run k c).2.

Lemma stays_only {A} (R : relation cloudHypervisor) `{!PreOrder R} (m : M cloudHypervisor A) : stays R m -> stays R (only m).
Proof. intros Hm. unfold only. stays. Qed.

Lemma inv_new_clh w : inv (new_clh w).
Proof. split_and!; [split; [|done]|by intros []|by intros []]. by vm_compute; split_and!. Qed.

Lemma inv_StartVM c : inv c -> (StartVM c).1 <> Err ErrNilDeref -> inv (StartVM c).2.
Proof.
  intros (Hv & Hk & Hr) Hp. pose proof (StartVM_ends c Hk) as R. destruct (StartVM c) as [r c']. simpl in *.
  destruct R as [?|((_ & Ev & Ec & _) & Hk' & R)]; [done|]. unfold inv, values_ok. rw Ev Ec. split_and!; [apply Hv..|done|].
  destruct R as [(_ & Ep & _ & [R| R])|(l1 & l2 & (_ & _ & R & _) & _)]; [by rw R|by rw R Ep|done].
Qed.

Lemma inv_StopVM waitOnly c : inv c -> inv (StopVM waitOnly c).2.
Proof.
  intros (Hv & Hk & Hr). unfold StopVM, terminate, finally. pose proof (stop_vmm_spec waitOnly c Hk) as R.
  destruct (stop_vmm waitOnly c) as [r c1]. destruct R as [[(Ei & Ev & Ec & _) (Hk1 & Ep & Hd)] _]. simpl.
  destruct (decide (c_id c1 = "")) as [Hid|Hid].
  - unfold cleanupVM, given. munfold. rw bool_decide_false; [by intros []|]. simpl. unfold inv, values_ok. rw Ev Ec Ep.
    split_and!; [apply Hv..|done|]. destruct Hd as [->| ->]; auto.
  - destruct (cleanupVM_spec c1 Hid) as (c2 & l & -> & Es & (_ & Ev2 & Ec2 & _) & _). simpl.
    unfold inv, values_ok, daemon_known. rw Es Ev2 Ec2 Ev Ec. split_and!; [apply Hv..|by intros []|by intros []].
Qed.

Lemma inv_run_clh k c : inv c -> (run k c).1 <> Err ErrNilDeref -> inv (run k c).2.
Proof.
  intros Hc Hp. destruct k; cbn [run] in *.
  - by apply inv_StartVM.
  - by apply inv_StopVM.
  - pose proof (untouched_HotplugAddDevice (c, d)) as U. destruct (HotplugAddDevice (c, d)) as [r s]. by eapply inv_untouched.
  - eapply inv_untouched; [apply untouched_HotplugRemoveDevice|done].
  - eapply inv_untouched; [eapply stays_only, untouched_ResizeMemory; apply _|done].
  - eapply inv_untouched; [eapply stays_only, untouched_ResizeVCPUs; apply _|done].
  - by apply inv_AddDevice.
  - eapply inv_untouched; [apply untouched_Check|done].
  - pose proof (inv_GetVMConsole c Hc) as Hi. unfold only. munfold. by destruct (GetVMConsole c) as [[]].
Qed.

Lemma Valid_confidential conf : hc_ConfidentialGuest (Valid conf).2 = hc_ConfidentialGuest conf.
Proof. unfold Valid. munfold. destruct (bool_decide _); [done|]. destruct (image_check conf); [|done]. by destruct (CheckTemplateConfig conf). Qed.

(** The structure a machine that runs is restored to: its daemon is a virtiofsd
    that knows its process, and there is no client. *)
Lemma CreateVM_restored id conf c0 c :
  0 < st_PID (c_state c0) -> CreateVM id conf c0 = (Ok tt, c) ->
  c_APIClient c = c_APIClient c0 /\ c_id c = id /\ c_state c = (c_state c0) <| st_state := clhNotReady |> /\ c_api c = c_api c0 /\
  c_config c = (Valid conf).2 /\ c_world c = c_world c0 /\
  if hc_ConfidentialGuest conf then c_virtiofsDaemon c = None
  else exists sock, c_virtiofsDaemon c =
         Some (Vfsd (mkVirtiofsd "" sock "" (hc_SharedFS (Valid conf).2) [] (st_VirtiofsDaemonPid (c_state c0)))).
Proof.
  intros Hp. unfold CreateVM, setConfig. pose proof (Valid_confidential conf) as Hc.
  destruct (Valid conf) as [[[]|e] conf'] eqn:EV; [|done]. unfold on_state. munfold. simpl in *. rw (proj2 (Z.ltb_lt _ _)) //.
  unfold loadVirtiofsDaemon, virtioFsSocketPath, socket_path, config, supportsSharedFS, clh_Capabilities. munfold. simpl. rw Hc.
  destruct (hc_ConfidentialGuest conf); simpl; [by intros [= <-]|].
  destruct (Dirs.BuildSocketPath _) as [sock|e]; simpl; [|done]. intros [= <-]. split_and!; try done. by exists sock.
Qed.

Lemma inv_restored w s id conf c :
  sgx_ok conf -> saved_ok s conf -> (_ ← Load s; CreateVM id conf) (new_clh w) = (Ok tt, c) -> inv c.
Proof.
  intros Hs Hsv. unfold Load, on_state. munfold. set (c0 := _ <| c_state ::= _ |>). intros E.
  assert (values_ok c0) as Hv0 by apply (inv_new_clh w).
  assert (values_ok c) as Hv by (pose proof (values_CreateVM id conf Hs c0 Hv0) as Hv; by rw E in Hv).
  destruct (pids_CreateVM id conf c0) as [E1 E2]. rw E in E1 E2. simpl in E1, E2.
  unfold inv, daemon_known. rw E1 E2. split; [done|].
  destruct (decide (sv_VirtiofsDaemonPid s = 0)) as [->|Hn]; [by split; intros []|].
  destruct (Hsv Hn) as (Hd & Hp & Hc). split; [|done]. intros _. split; [done|].
  apply CreateVM_restored in E as (_ & _ & _ & _ & _ & _ & E); [|done]. rw Hc in E. destruct E as [sock E]. by eexists.
Qed.

(** C5. In every run of the driver, with any answers of the host and of the server
    and any calls in any order, creations while no machine runs, restorations of
    what was saved, failures included: the machine that is described can be sent,
    that is, what is written to JSON reads back as the description; and a daemon
    is recorded only next to the process of a machine, under the number its own
    structure has, so that stopping it signals the process that was started. *)
Theorem clh_tracked c :
  reachable c ->
  VmConfig_Unmarshal (VmConfig_MarshalJSON (c_vmconfig c)) = Ok (c_vmconfig c) /\
  (st_VirtiofsDaemonPid (c_state c) <> 0 ->
   0 < st_VirtiofsDaemonPid (c_state c) /\ 0 < st_PID (c_state c) /\
   exists d, c_virtiofsDaemon c = Some d /\ pid_of d = st_VirtiofsDaemonPid (c_state c)).
Proof.
  intros Hc. assert (inv c) as ((Hv & _) & Hk & Hr).
  { induction Hc; [apply inv_new_clh|by eapply inv_restored|by apply inv_CreateVM|by apply inv_run_clh]. }
  split; [by apply VmConfig_reads_back|]. intros Hn. destruct (Hk Hn) as (? & ?). auto.
Qed.

(** Without a client every request panics. *)
Lemma api_nil {A} (m : M (list exchange) A) c : c_APIClient c = false -> attempt (api m) c = (Err ErrNilDeref, c).
Proof. intros Hc. unfold attempt, api. by rw Hc. Qed.
Lemma isClhRunning_nil timeout c :
  c_APIClient c = false -> kill_at (w_acts (c_world c)) (st_PID (c_state c)) 0 = WaitProcess.KillOk ->
  isClhRunning timeout c = (Err ErrNilDeref, c <| c_world ::= log (Kill (st_PID (c_state c)) 0) |>).
Proof.
  intros Hc Hk. unfold isClhRunning, sys, kill_pid. munfold. simpl. rw Hk. set (c1 := c <| c_world := _ |>).
  destruct (pings timeout); simpl; munfold; by rw (api_nil _ c1).
Qed.

Lemma Valid_sharedfs conf : hc_SharedFS (Valid conf).2 = hc_SharedFS conf.
Proof. unfold Valid. munfold. destruct (bool_decide _); [done|]. destruct (image_check conf); [|done]. by destruct (CheckTemplateConfig conf). Qed.

(** A device that is not refused before the server is asked. *)
Definition pluggable (conf : HypervisorConfig) (d : hot_device) : Prop :=
  match d with
  | HotBlock d => Config.bd_Swap d = false /\ hc_BlockDeviceDriver conf = Config.VirtioBlock /\ Config.bd_Pmem d = false
  | HotVFIO _ => True
  | HotOther => False
  end.


End VM.
End ClhVMSpec.
