(* ===== verification/ClhPlugSpec.v ===== *)
(** * Changing a machine under Cloud Hypervisor

    What resizing the memory and the processors asks for and answers, the address
    of a device that is plugged in, the kernel command line, and the size of the
    cache of a shared volume. *)
From S2P Require Import Prelude GoStr Types Utils Devices Hypervisor Qemu Qmp QmpCmd QemuArch ClhModel ClhApi Virtiofsd Clh ClhSpec ClhVMSpec.

Module ClhPlugSpec.
Import ClhApi Virtiofsd QemuArch HypervisorConf Filepath Clh ClhSpec ClhVMSpec.
Import Qemu(given).
Import Types.PciPaths(PciPath, PciPathFromString, PciSlotFromString, PciSlot_String, slot_ok, PciSlot_roundtrip, PciSlot_String_nosep).
Import Names(MiB, ToBytes, ToMiB, AlignMem).

(** The transport reports errors; it does not panic. *)
Class HttpServerLaws `{HttpServer} : Prop := {
  transport_error h q : match http_do h q with Failed e | Broken _ e => e <> ErrNilDeref | Response _ _ => True end;
}.

Section Resize.
Context `{QemuHost, DaemonHost, HttpServer, ClhHost} `{!HttpServerLaws}.

Definition resize_request (r : VmResize) : http_request := call "PUT" "/vm.resize" (Some (VmResize_MarshalJSON r)) false.

Lemma put_no_panic path body h : (put path body h).1 <> Err ErrNilDeref.
Proof.
  unfold put, execute, callAPI. munfold. cbv zeta beta. set (q := prepareRequest _ _ _ _).
  pose proof (transport_error h q) as Ht. destruct (http_do h q) as [e|st e|st b]; simpl; [by intros [=]..|].
  by destruct (300 <=? st).
Qed.

(** A request that is reported: it is made once, and the result tells whether it
    was taken. *)
Lemma attempt_put path body c :
  c_APIClient c = true ->
  exists r x, attempt (api (put path body)) c = (Ok r, c <| c_api := c_api c ++ [(call "PUT" path body false, x)] |>) /\
    match r with Ok _ => exists b, accepted x b | Err _ => True end.
Proof.
  intros Hc. pose proof (put_no_panic path body (c_api c)) as Hn. pose proof (sends_put path body (c_api c)) as Hm.
  unfold attempt, api. rw Hc. destruct (put path body (c_api c)) as [[[]|e] h]; destruct Hm as [-> Hm]; simpl in Hn.
  - destruct Hm as (b & Hb & _). eexists (Ok tt), _. split; [done|]. by exists b.
  - rw bool_decide_false; [congruence|]. by eexists (Err e), _.
Qed.

(** The size that is asked for: the smallest multiple of the block size above what
    the machine has that covers the request. *)
Lemma aligned_request_spec current new block :
  0 <= current < new -> new <= maxUint32 * MiB -> 0 < block <= maxUint32 ->
  exists D, aligned_request current new block = Some (D, D - current) /\ new <= D < new + block * MiB /\
    (block * MiB | D - current) /\ D < 2 ^ 53.
Proof.
  intros Hc Hn Hb. unfold aligned_request, MiB, maxUint32 in *. change (Z.shiftl 1 20) with (2 ^ 20) in *.
  rw !u64_small; [unfold maxUint64; lia|unfold maxUint64; lia|].
  destruct (Names.AlignMem_spec (new - current) (block * 2 ^ 20)) as (r & Er & Hd & Hr); [lia|lia|unfold maxUint64; lia|].
  simpl. rw Er. simpl. assert (r < new - current + block * 2 ^ 20) as Hr'.
  { destruct (Z.max_spec (new - current) (block * 2 ^ 20)) as [[? Em]|[? Em]]; rw Em in Hr; [|lia]. destruct Hd as [k ->].
    assert (k = 1) as -> by (assert (0 < block * 2 ^ 20) by lia; nia). lia. }
  exists (current + r). rw u64_small; [unfold maxUint64; lia|]. replace (current + r - current) with r by lia. split_and!; [done|lia..|done|lia].
Qed.

Lemma vmInfo_client c info c1 : vmInfo c = (Ok info, c1) -> c_APIClient c1 = true /\ attempt vmInfo c = (Ok (Ok info), c1).
Proof.
  intros E. pose proof (attempt_spec vmInfo c) as Ha. rw E in Ha. split; [|done].
  destruct (untouched_vmInfo c) as (Eu & _). rw E in Eu. cbn [snd] in Eu. rw Eu. simpl. clear -E.
  unfold vmInfo, request, attempt, api in E. munfold. by destruct (c_APIClient c).
Qed.


(** C23. Resizing the processors of a machine that answers how many it has and may
    have.  A request for none is refused after that answer, and the machine is not
    asked to change.  Otherwise one request is made, for the number asked for or the maximum if that is less; if it
    is taken the answer is that number, next to the number before. *)
Theorem clh_ResizeVCPUs_spec reqVCPUs c info c1 k :
  vmInfo c = (Ok info, c1) -> vm_Cpus (info_Config info) = Some k ->
  0 <= cpus_BootVcpus k < 2 ^ 31 -> 0 <= cpus_MaxVcpus k < 2 ^ 31 -> 0 <= reqVCPUs <= maxUint32 ->
  let n := Z.min reqVCPUs (cpus_MaxVcpus k) in
  let resize := NewVmResize <| rs_DesiredVcpus := Some n |> in
  let '(r, c') := ResizeVCPUs reqVCPUs c in
  (reqVCPUs = 0 /\ c' = c1 /\ exists e, r = Ok (cpus_BootVcpus k, cpus_BootVcpus k, Some e)) \/
  (0 < reqVCPUs /\ VmResize_Unmarshal (VmResize_MarshalJSON resize) = Ok resize /\ exists x,
     c' = c1 <| c_api := c_api c1 ++ [(resize_request resize, x)] |> /\
     (r = Ok (cpus_BootVcpus k, n, None) /\ (exists b, accepted x b) \/
      exists e, r = Ok (cpus_BootVcpus k, cpus_BootVcpus k, Some e))).
Proof.
  intros E Hk Hb Hm Hr n resize. destruct (vmInfo_client _ _ _ E) as [Hc Ea]. unfold ResizeVCPUs. munfold. rw Ea Hk.
  rw (u32_small (cpus_BootVcpus k)); [unfold maxUint32; lia|]. rw (u32_small (cpus_MaxVcpus k)); [unfold maxUint32; lia|].
  destruct (Z.eqb_spec reqVCPUs 0) as [->|Hn]; [left; split; [done|]; split; [done|]; by eexists|].
  replace (if cpus_MaxVcpus k <? reqVCPUs then cpus_MaxVcpus k else reqVCPUs) with n
    by (unfold n; destruct (Z.ltb_spec (cpus_MaxVcpus k) reqVCPUs); lia).
  replace (i32 n) with n by (unfold i32; rw Z.mod_small; lia). fold resize.
  assert (VmResize_Unmarshal (VmResize_MarshalJSON resize) = Ok resize) as Hrt
    by (refine (proj1 (VmResize_lawful resize _)); split_and!; [simpl; lia|done..]).
  destruct (attempt_put "/vm.resize" (Some (VmResize_MarshalJSON resize)) c1 Hc) as (r & x & Ep & Hx).
  unfold VmResizePutExecute. rw Ep. destruct r as [[]|e]; (right; split; [lia|]); (split; [exact Hrt|]); exists x; (split; [done|]); [left|right].
  - done.
  - by eexists.
Qed.

End Resize.
(** ** Addresses *)

Lemma bdf_slot_spec bdf slot :
  bdf_slot bdf = Some slot <->
  bdf = "0000:00:" +:+ slot +:+ ".0" /\ String.length slot = 2%nat /\ str_mem ":" slot = false /\ str_mem "." slot = false.
Proof.
  unfold bdf_slot. split.
  - pose proof (Join_Split ":" bdf) as Ej. pose proof (Split_words_no_sep ":" bdf) as Hn.
    destruct (Split ":" bdf) as [|t0 [|t1 [|t2 [|]]]]; try done.
    destruct (bool_decide (t0 = "0000")) eqn:E0; [|done]. destruct (bool_decide (t1 = "00")) eqn:E1; [|done]. simpl.
    apply bool_decide_eq_true in E0, E1. subst t0 t1.
    pose proof (Join_Split "." t2) as Ej2. pose proof (Split_words_no_sep "." t2) as Hn2.
    destruct (Split "." t2) as [|s [|f [|]]]; try done.
    destruct (bool_decide (f = "0")) eqn:Ef; [|done]. apply bool_decide_eq_true in Ef. subst f. simpl.
    destruct (Nat.eqb_spec (String.length s) 2) as [El|]; [|done]. intros [= <-]. simpl in Ej, Ej2. subst bdf.
    apply Forall_cons in Hn2 as [Hs _]. repeat apply Forall_cons in Hn as [? Hn].
    split_and!; [by rw -Ej2|done| |done]. assert (str_mem ":" t2 = false) as Ht by done.
    rw -Ej2 str_mem_app in Ht. by apply orb_false_iff in Ht as [? _].
  - intros (-> & El & Hc & Hd).
    assert (Split ":" ("0000:00:" +:+ slot +:+ ".0") = ["0000"; "00"; slot +:+ ".0"]) as ->.
    { change (Split ":" ("0000" +:+ String ":" ("00" +:+ String ":" (slot +:+ ".0"))) = ["0000"; "00"; slot +:+ ".0"]).
      do 2 (rw Split_app; [done|]). rw Split_no_sep //. by rw str_mem_app Hc. }
    rw !bool_decide_true //=. assert (Split "." (slot +:+ ".0") = [slot; "0"]) as ->.
    { change (Split "." (slot +:+ String "." "0") = [slot; "0"]). by rw Split_app // Split_no_sep. }
    rw bool_decide_true //=. by rw El.
Qed.

Lemma PciSlot_String_two v : slot_ok v -> String.length (PciSlot_String v) = 2%nat.
Proof.
  intros Hv. assert (forallb (fun v => String.length (PciSlot_String v) =? 2)%nat (seqZ 0 32) = true) as Hall by by vm_compute.
  rw forallb_forall in Hall. apply Nat.eqb_eq, Hall, list_elem_of_In, elem_of_seqZ. unfold slot_ok in Hv.
  change Types.PciPaths.maxPciSlot with 31 in Hv. lia.
Qed.

(** The path of two characters is one slot. *)
Lemma slot_path slot p :
  String.length slot = 2%nat -> PciPathFromString slot = Ok p -> exists v, p = [v] /\ PciSlotFromString slot = Ok v.
Proof.
  destruct slot as [|a [|b [|]]]; try done. intros _. unfold PciPathFromString. rw bool_decide_false //. cbn [Split].
  destruct (bool_decide (a = _)); [by destruct (bool_decide (b = _))|].
  destruct (bool_decide (b = _)).
  - munfold. by destruct (PciSlotFromString (String a "")).
  - munfold. destruct (PciSlotFromString _) as [v|]; [|done]. intros [= <-]. by exists v.
Qed.

Lemma clhPciInfoToPath_print info v :
  slot_ok v -> pci_Bdf info = "0000:00:" +:+ PciSlot_String v +:+ ".0" -> clhPciInfoToPath info = Ok [v].
Proof.
  intros Hv E. unfold clhPciInfoToPath. assert (str_all is_hex (PciSlot_String v) = true) as Hh by (apply fmt_02x_hex; apply Hv).
  rw (proj2 (bdf_slot_spec _ (PciSlot_String v))).
  - split_and!; [done|by apply PciSlot_String_two|by eapply str_all_not_mem|by eapply str_all_not_mem].
  - unfold PciPathFromString. rw bool_decide_false; [intros En; by pose proof (PciSlot_String_two v Hv) as E2; rw En in E2|].
    rw Split_no_sep; [by apply PciSlot_String_nosep|]. munfold. by rw PciSlot_roundtrip.
Qed.

Lemma clhPciInfoToPath_parse info p :
  clhPciInfoToPath info = Ok p ->
  exists slot v, pci_Bdf info = "0000:00:" +:+ slot +:+ ".0" /\ PciSlotFromString slot = Ok v /\ slot_ok v /\ p = [v].
Proof.
  unfold clhPciInfoToPath. destruct (bdf_slot _) as [slot|] eqn:E; [|done].
  apply bdf_slot_spec in E as (E & El & _). intros (v & -> & Hv)%slot_path; [|done].
  exists slot, v. split_and!; try done. all: by eapply Types.PciPaths.PciSlotFromString_ok.
Qed.

Section Plug.
Context `{QemuHost, DaemonHost, HttpServer, ClhHost}.

Definition disk_request (d : Config.BlockDrive) : http_request :=
  call "PUT" "/vm.add-disk" (Some (DiskConfig_MarshalJSON (disk_config d))) true.

(** C17. Plugging in a drive, with any answer.  It is refused before anything is
    asked, and then nothing changes; or one request is made, for its file under the
    name by which it is removed later.  If the server does not take it the drive is
    left as it was.  If it does, and the address it answers is a slot of the first
    bus, the drive gets the path of that slot; every slot of the bus is understood
    as it is printed.  With another address the call fails and the drive has no
    path, though the machine has the drive. *)
Theorem clh_plug_spec c d :
  let '(r, (c', d')) := hotplugAddBlockDevice (c, d) in
  (is_ok r = false /\ c' = c /\ d' = d) \/
  exists x, c' = c <| c_api := c_api c ++ [(disk_request d, x)] |> /\ device_id (HotBlock d') = disk_Id (disk_config d) /\
  ((is_ok r = false /\ d' = d) \/
   exists b info, accepted x b /\ decode PciDeviceInfo_codec b = Ok info /\
   match r with
   | Ok _ => exists slot v, pci_Bdf info = "0000:00:" +:+ slot +:+ ".0" /\ PciSlotFromString slot = Ok v /\
               slot_ok v /\ d' = set_drive_path [v] d
   | Err _ => d' = set_drive_path [] d /\
               forall v, slot_ok v -> pci_Bdf info <> "0000:00:" +:+ PciSlot_String v +:+ ".0"
   end).
Proof.
  unfold hotplugAddBlockDevice. munfold. cbn [fst snd]. destruct (Config.bd_Swap d); [by left|].
  destruct (negb _); [by left|]. destruct (Config.bd_Pmem d); [by left|]. unfold on_clh. cbn [fst snd].
  pose proof (attempt_spec (api (VmAddDiskPutExecute (disk_config d))) c) as Ha.
  pose proof (api_any _ _ _ c (sends_put_get "/vm.add-disk" (Some (DiskConfig_MarshalJSON (disk_config d))) PciDeviceInfo_codec)) as Hany.
  change (put_get "/vm.add-disk" (Some (DiskConfig_MarshalJSON (disk_config d))) PciDeviceInfo_codec)
    with (VmAddDiskPutExecute (disk_config d)) in Hany.
  destruct (api _ c) as [[info|e] c1] eqn:E; simpl in Hany.
  - rw Ha. apply (api_ok _ _ _ _ _ _ (sends_put_get _ _ _)) in E as (x & b & -> & Hx & Hi).
    destruct (clhPciInfoToPath info) as [p|e] eqn:Ep; simpl; right; exists x; (split; [done|]); (split; [done|]); right; exists b, info;
      (split; [done|]); (split; [done|]).
    + apply clhPciInfoToPath_parse in Ep as (slot & v & ? & ? & ? & ->). by exists slot, v.
    + split; [done|]. intros v Hv Eb. by rw (clhPciInfoToPath_print info v Hv Eb) in Ep.
  - destruct Ha as [->| ->]; simpl; (destruct Hany as [->|[x ->]]; [by left|]); right; exists x; (split; [done|]); (split; [done|]); by left.
Qed.

(** The cache of a volume that is shared, for a configured size in MiB: the size
    that is sent is the configured one, in bytes, only below 4 GiB, as it is computed
    modulo 2^32; a multiple of 4 GiB asks for an empty cache with direct access
    turned on. *)
Theorem clh_volume_cache v c c' :
  let size := hc_VirtioFSCacheSize (c_config c) in
  0 <= size <= maxUint32 -> AddDevice (ColdVolume v) c = (Ok tt, c') ->
  exists fs, vm_Fs (c_vmconfig c') = Some [fs] /\ fs_Tag fs = Types.Volumes.vol_MountTag v /\
    (fs_Dax fs = true <-> size <> 0) /\ fs_CacheSize fs = (size * MiB) mod 2 ^ 32 /\
    (fs_CacheSize fs = size * MiB <-> size < 4096) /\ ((4096 | size) -> fs_CacheSize fs = 0).
Proof.
  intros size Hs. unfold AddDevice, addVolume, virtioFsSocketPath, socket_path, config, on_vmconfig. munfold.
  destruct (supportsSharedFS _); [|done]. destruct (_ && _); [done|]. destruct (Dirs.BuildSocketPath _) as [sock|]; [|done].
  intros [= <-]. eexists. split; [done|]. simpl. fold size. split; [done|].
  assert (i64 (u32 (Z.shiftl size 20)) = (size * MiB) mod 2 ^ 32) as ->.
  { rw Z.shiftl_mul_pow2 //. unfold u32, wrapu. change MiB with (2 ^ 20).
    pose proof (Z.mod_pos_bound (size * 2 ^ 20) (2 ^ 32) ltac:(done)). rw i64_small; [lia|done]. }
  split; [destruct (Z.eqb_spec size 0); simpl; naive_solver|]. split; [done|]. change MiB with (2 ^ 20). unfold maxUint32 in *. split.
  - split; [|intros; by rw Z.mod_small; [lia|]]. intros E.
    pose proof (Z.mod_pos_bound (size * 2 ^ 20) (2 ^ 32) ltac:(done)). lia.
  - intros [k ->]. replace (k * 4096 * 2 ^ 20) with (k * 2 ^ 32) by lia. by apply Z_mod_mult.
Qed.

End Plug.

(** ** The kernel command line *)

Lemma TrimRightSpace_space s : TrimRightSpace (s +:+ " ") = TrimRightSpace s.
Proof. induction s as [|c s IH]; [done|]. rw str_app_cons. cbn [TrimRightSpace]. by rw IH. Qed.
Lemma TrimSpace_space s : TrimSpace (s +:+ " ") = TrimSpace s.
Proof.
  unfold TrimSpace. induction s as [|c s IH]; [done|]. rw str_app_cons. cbn [TrimLeftSpace].
  destruct (is_space c); [done|]. rw -str_app_cons. by rw TrimRightSpace_space.
Qed.

Lemma params_join acc params :
  params <> [] ->
  foldl (fun b p =>
    let b := b +:+ Key p in
    let b := if given (Value p) then b +:+ "=" +:+ Value p else b in
    b +:+ " ") acc params = acc +:+ Join " " (param_text <$> params) +:+ " ".
Proof.
  revert acc. induction params as [|p params IH]; [done|]. intros acc _. simpl.
  assert ((if given (Value p) then (acc +:+ Key p) +:+ "=" +:+ Value p else acc +:+ Key p) = acc +:+ param_text p) as ->.
  { unfold given, param_text. repeat case_bool_decide; try done. by rw str_app_assoc. }
  destruct params as [|p' params]; [simpl; by rw str_app_assoc|]. rw IH //.
  change (Join " " (param_text <$> (p' :: params))) with (Join " " (param_text p' :: (param_text <$> params))).
  simpl. by rw !str_app_assoc.
Qed.

(** The command line the driver builds from parameters with names is the one
    the driver of QEMU builds from the same parameters, without the spaces at its
    ends. *)
Theorem kernelParams_agree params :
  Forall (fun p => Key p <> "") params ->
  kernelParamsToString params = TrimSpace (Join " " (SerializeParams params "=")).
Proof.
  intros Hp. rw SerializeParams_text //. unfold kernelParamsToString. destruct params as [|p params]; [done|].
  rw params_join // str_app_nil_l. apply TrimSpace_space.
Qed.

End ClhPlugSpec.
