(* ===== verification/ClhRuns.v ===== *)
(** * Cloud Hypervisor machines on a concrete host

    A host, a server of the API that follows the life of one machine, and the
    theorems of [Virtiofsd.v], [ClhVMSpec.v] and [ClhPlugSpec.v] applied to machines
    on them. *)
From S2P Require Import Prelude GoStr Types Utils Devices Hypervisor Qmp QmpCmd QemuArch QemuRuns ClhModel ClhApi Virtiofsd Clh ClhSpec ClhVMSpec ClhPlugSpec.

Module ClhRuns.
Import ClhApi Virtiofsd QemuArch HypervisorConf Filepath Clh ClhSpec ClhVMSpec ClhPlugSpec.
Import Names(MiB).

(** Every operation succeeds; a process is numbered by the operations before it.
    [nydus] is what the control socket of nydusd answers. *)
Definition daemons (nydus : http_result) : DaemonHost := {|
  act_result := fun l a => match a with StartCmd _ _ _ => Ok (1000 + Z.of_nat (length l)) | _ => Ok 0 end;
  exists_at := fun _ _ => true;
  kill_at := fun _ _ _ => WaitProcess.KillOk;
  events_at := fun _ _ _ => [WaitProcess.Timeout];
  Abs := fun p => Ok p;
  jitter := fun _ => 0;
  nydus_at := fun _ _ _ => nydus
|}.
Definition room : DaemonHost := daemons (Response 204 EmptyBody).

Lemma daemons_lawful nydus : @DaemonHostLaws (daemons nydus).
Proof. split; [intros l ns path args pid; simpl; intros [= <-]; lia|by left]. Qed.

Definition machine_info (h : list exchange) : VmInfo :=
  NewVmInfo ((NewVmConfig (NewKernelConfig "/usr/share/vmlinux"))
      <| vm_Cpus := Some (NewCpusConfig 1 4) |> <| vm_Memory := Some (NewMemoryConfig (2048 * MiB)) |>)
    (if asked_boot h then clhStateRunning else clhStateCreated).

Definition clh_server : HttpServer := {|
  http_do := fun h q =>
    if bool_decide (hr_url q = hr_url ping_request)
    then Response 200 (Json (VmmPingResponse_MarshalJSON (NewVmmPingResponse "v26.0")))
    else if bool_decide (hr_url q = hr_url info_request) then Response 200 (Json (VmInfo_MarshalJSON (machine_info h)))
    else Response 204 EmptyBody
|}.

Lemma clh_server_lawful : @HttpServerLaws clh_server.
Proof. split. intros h q. simpl. by repeat case_bool_decide. Qed.

Definition clh_host : ClhHost := {|
  pings := fun _ => 3%nat;
  EvalSymlinks := fun s => Ok s;
  NewPty := Ok "/dev/pts/3";
  kataHostSharedDir := "/run/kata-containers/shared/sandboxes/"
|}.
#[local] Existing Instances QemuRuns.host room clh_server clh_host clh_server_lawful.
#[local] Instance room_lawful : DaemonHostLaws := daemons_lawful _.

Lemma room_works : works.
Proof.
  split; [|by intros|by intros|by intros; eexists _, _, _|by intros; eexists..].
  intros l a. destruct a; by eexists.
Qed.

Lemma clh_server_serves : serves.
Proof.
  split.
  - intros h. eexists _, _. split; vm_compute; reflexivity.
  - intros h v. by eexists.
  - intros h. by eexists.
  - intros h. eexists _, (machine_info h). split; [reflexivity|]. split; [|done].
    unfold machine_info. destruct (asked_boot h); vm_compute; reflexivity.
Qed.

Definition clh_conf : HypervisorConfig := QemuRuns.conf
  <| hc_SharedFS := VirtioFS |> <| hc_VirtioFSDaemon := "/usr/libexec/virtiofsd" |> <| hc_VirtioFSCacheSize := 8192 |>
  <| hc_HypervisorPath := "/usr/bin/cloud-hypervisor" |>.
Definition blank : cloudHypervisor := new_clh (mkWorld [] []).
Definition created : cloudHypervisor := (CreateVM "sb" clh_conf blank).2.
Definition started : cloudHypervisor := (StartVM created).2.

Definition stopped : res unit * cloudHypervisor := StopVM false started.

Lemma inv_created : inv created.
Proof. apply inv_CreateVM; [unfold sgx_ok; vm_compute; by split|done|apply inv_new_clh]. Qed.
Lemma started_ok : (StartVM created).1 = Ok tt.
Proof. vm_compute. reflexivity. Qed.
Lemma inv_started : inv started.
Proof. apply inv_StartVM; [apply inv_created|]. by rw started_ok. Qed.
Lemma started_pids : st_PID (c_state started) = 1008 /\ st_VirtiofsDaemonPid (c_state started) = 1007.
Proof. vm_compute. by split. Qed.

Lemma clh_StartVM_succeeds_witness :
  exists c', StartVM created = (Ok tt, c') /\ st_state (c_state c') = clhReady.
Proof.
  assert (c_APIClient created = true) as E1 by (vm_compute; reflexivity).
  assert (asked_boot (c_api created) = false) as E2 by (vm_compute; reflexivity).
  assert (is_ok (HypervisorAssetPath (c_config created)) = true) as E3 by (vm_compute; reflexivity).
  refine (clh_StartVM_succeeds created clh_server_serves room_works E1 E2 E3 _).
  intros _. split; [vm_compute; discriminate|]. eexists. split; [vm_compute; reflexivity|].
  split; [done|]. split; [done|]. reflexivity.
Defined.

Lemma clh_StartVM_spec_witness :
  exists l1 l2, c_api started = c_api created ++ (l1 ++ l2) /\ pinged l1 /\ booted (c_vmconfig created) l2 /\
    st_state (c_state started) = clhReady.
Proof.
  pose proof (clh_StartVM_spec created inv_created) as Hs. pose proof started_ok as Hr. unfold started.
  destruct (StartVM created) as [r c']. simpl in Hr. subst r.
  destruct Hs as [[=]|(_ & _ & [[[=] _]|(l1 & l2 & (Hl & _) & Hp & Hst & Hb)])].
  exists l1, l2. split; [exact Hl|]. split; [exact Hp|]. split; [exact (proj1 (Hb eq_refl))|exact Hst].
Defined.

Lemma clh_StopVM_spec_witness :
  stopped.1 = Ok tt /\ st_PID (c_state stopped.2) = 0 /\ vmm_gone started stopped.2 /\
  exists l sig, w_acts (c_world stopped.2) = w_acts (c_world started) ++ l /\ Kill 1007 sig ∈ l.
Proof.
  assert (Hid : c_id started <> "") by (vm_compute; discriminate).
  assert (Hr : stopped.1 = Ok tt) by (vm_compute; reflexivity).
  assert (Hd : records_daemon started = true) by (vm_compute; reflexivity).
  pose proof (clh_StopVM_spec false started inv_started Hid) as Hs. pose proof (proj2 started_pids) as Hp.
  unfold stopped in *. destruct (StopVM false started) as [r c']. simpl in Hr. subst r. simpl.
  destruct Hs as (Hst & _ & l & Hl & _ & Hg & Hk). destruct (Hk Hd) as (sig & _ & Hsig). rw Hp in Hsig.
  split; [reflexivity|]. split; [by rw Hst|]. split; [exact Hg|]. exists l, sig. by split.
Defined.

Lemma reachable_started : reachable started.
Proof.
  refine (reach_called created KStart (reach_created blank "sb" clh_conf (reach_new _) _ _) _).
  - unfold sgx_ok. vm_compute. by split.
  - vm_compute. discriminate.
  - cbn [run]. rw started_ok. discriminate.
Qed.

Lemma clh_tracked_witness :
  reachable started /\ 0 < st_PID (c_state started) /\
  exists d, c_virtiofsDaemon started = Some d /\ pid_of d = 1007.
Proof.
  destruct (clh_tracked started reachable_started) as [_ Ht]. destruct started_pids as [_ Hp]. rw Hp in Ht.
  destruct (Ht ltac:(discriminate)) as (_ & Hpid & Hd). split; [exact reachable_started|]. split; [exact Hpid|exact Hd].
Defined.

Definition restored : res unit * cloudHypervisor := (_ ← Load (Save started); CreateVM "sb" clh_conf) (new_clh (c_world started)).

#[local] Strategy expand [restored].


(** The machine has 2048 MiB and one processor of at most four. *)
Lemma started_info : exists c1, vmInfo started = (Ok (machine_info (c_api started)), c1).
Proof.
  exists (vmInfo started).2. assert (E : (vmInfo started).1 = Ok (machine_info (c_api started))) by (vm_compute; reflexivity).
  rw -E. apply surjective_pairing.
Qed.


Lemma clh_ResizeVCPUs_spec_witness :
  exists c1 x, vmInfo started = (Ok (machine_info (c_api started)), c1) /\
    c_api (ResizeVCPUs 6 started).2 = c_api c1 ++ [(resize_request (NewVmResize <| rs_DesiredVcpus := Some 4 |>), x)].
Proof.
  destruct started_info as [c1 E]. set (k := NewCpusConfig 1 4).
  assert (Hk : vm_Cpus (info_Config (machine_info (c_api started))) = Some k) by reflexivity.
  revert E Hk. generalize (machine_info (c_api started)), started. intros info c E Hk.
  pose proof (clh_ResizeVCPUs_spec 6 c _ c1 k E Hk ltac:(by vm_compute) ltac:(by vm_compute) ltac:(by vm_compute)) as Hr.
  cbv zeta in Hr. change (Z.min 6 (cpus_MaxVcpus k)) with 4 in Hr. destruct (ResizeVCPUs 6 c) as [r c'].
  destruct Hr as [([=] & _)|(_ & _ & x & Hc & _)]. exists c1, x. split; [exact E|]. simpl. by rw Hc.
Defined.

(** A cache of 8 GiB becomes an empty one. *)
Definition shared_volume : Types.Volumes.Volume := Types.Volumes.mkVolume "kataShared" "/run/kata-containers/shared/sandboxes/sb/shared".
Lemma clh_volume_cache_witness :
  exists c' fs, AddDevice (ColdVolume shared_volume) created = (Ok tt, c') /\ vm_Fs (c_vmconfig c') = Some [fs] /\
    fs_Dax fs = true /\ fs_CacheSize fs = 0.
Proof.
  assert (Hr : (AddDevice (ColdVolume shared_volume) created).1 = Ok tt) by (vm_compute; reflexivity).
  assert (Hz : hc_VirtioFSCacheSize (c_config created) = 8192) by (vm_compute; reflexivity).
  revert Hr Hz. generalize created. intros c Hr Hz.
  destruct (AddDevice (ColdVolume shared_volume) c) as [r c'] eqn:E. simpl in Hr. subst r.
  pose proof (fun H => clh_volume_cache shared_volume c c' H E) as Hs. cbv zeta in Hs. rw Hz in Hs.
  destruct (Hs ltac:(by vm_compute)) as (fs & Hf & _ & Hd & _ & _ & H0). exists c', fs. split; [reflexivity|]. split; [exact Hf|].
  split; [by apply Hd|]. apply H0. by exists 2.
Defined.

Lemma kernelParams_agree_witness :
  kernelParamsToString clhKernelParams = "panic=1 no_timer_check noreplace-smp" /\
  kernelParamsToString clhKernelParams = TrimSpace (Join " " (SerializeParams clhKernelParams "=")).
Proof. split; [reflexivity|]. apply kernelParams_agree. by repeat constructor. Defined.

(** ** A nydusd that cannot be reached *)

Definition refused : DaemonHost := daemons (Failed (ErrExternal "connection refused")).
Definition nydus : nydusd := mkNydusd "/usr/bin/nydusd" "/run/n.sock" "/run/n-api.sock" "/share" [] 0 false.
Definition checked : world := mkWorld (Stat <$> ["/run"; "/run"; "/usr/bin"; "/"]) [].
Definition orphaned : res Z * (nydusd * world) := @nydusd_Start refused (nydus, mkWorld [] []).

Lemma nydusd_orphan_witness :
  orphaned.1 = Err (ErrExternal "connection refused") /\ (@nydusd_Stop refused orphaned.2).1 = Ok tt /\
  (forall p sig, Kill p sig ∉ w_acts orphaned.2.2) /\
  exists l, w_acts (@nydusd_Stop refused orphaned.2).2.2 = w_acts orphaned.2.2 ++ l /\ no_signal l.
Proof.
  set (start := StartCmd shimNsPath (nd_path nydus) (nydusd_args nydus)).
  assert (Hv : @nydusd_valid refused nydus (mkWorld [] []) = (Ok tt, checked)) by (vm_compute; reflexivity).
  assert (Ha : @act_result refused (w_acts checked) start = Ok 1004) by (vm_compute; reflexivity).
  assert (He : (@setupPassthroughFS refused nydus (log start checked)).1 = Err (ErrExternal "connection refused"))
    by (vm_compute; reflexivity).
  pose proof (@nydusd_orphan refused (daemons_lawful _) nydus (mkWorld [] []) checked 1004 _ eq_refl Hv Ha He) as Hs.
  unfold orphaned. destruct (@nydusd_Start refused (nydus, mkWorld [] [])) as [r s].
  destruct Hs as (Hr & _ & _ & (l1 & l2 & El & Kl) & Hs). simpl. destruct (@nydusd_Stop refused s) as [r' s'].
  destruct Hs as (Hr' & l & Hl & Hk). split; [exact Hr|]. split; [exact Hr'|]. split; [rw El; exact Kl|]. by exists l.
Defined.

End ClhRuns.
